(* ===== verification/_CoqProject ===== *)
-Q . S2P
Prelude.v
Decimal.v
Errors.v
Money.v
GstCalc.v
Schema.v
Guards.v
CatalogueGuards.v
TaxGuards.v
TaxOk.v
GatewayGuards.v
CatalogueOk.v
Evolution.v
CatalogueEvolution.v
TaxEvolution.v
GatewayEvolution.v
GstStates.v
Invoice.v
Repositories.v
Frames.v
Runs.v
Lifecycle.v
LifecycleFrames.v
Payments.v
Cart.v
Coupons.v
Tax.v
Checkout.v
Jobs.v
JobsLiveness.v
Returns.v
Shipments.v
Accounts.v
Roles.v
Graphql.v
Slugs.v
Images.v
Categories.v
Products.v
Variants.v
TaxAdmin.v
Gateways.v
StoreFront.v
Addresses.v
Reviews.v
Demo.v
System.v
LifecycleSpec.v
RefundSpec.v
PaymentSpec.v
StockSpec.v
CheckoutSpec.v
CouponSpec.v
RestockSpec.v
ReturnsSpec.v
AccountsEvolution.v
AccountsSpec.v
RolesSpec.v
AccessSpec.v
CatalogueSpec.v
VariantsSpec.v
CatalogueDemo.v
CustomerSpec.v
Overlap.v
TaxSpec.v
GatewaySpec.v
Findings.v
