(* ===== verification/Prelude.v ===== *)
(** * FastAPI E-commerce: a verification development

    The program under [src/app] is the backend of a shop: FastAPI routers call services, services call
    repositories, repositories send SQL to PostgreSQL, whose constraints and triggers have the last word. This
    library translates the shop's core into executable Rocq definitions and proves what makes it correct.

    ** The model

    The database is one record of tables ([Schema.DB]: finite maps by primary key, lists for append-only tables). A
    service method is a computation in the monad [ST St Err] of this file: it reads and writes a state [Schema.St]
    (the open transaction, the committed tables, the clock, the supplies of ids) and returns or raises. Every write goes
    through a statement of [Guards], which runs the triggers, checks and unique indexes of its table and raises an
    [IntegrityError] naming the one that is violated. [Guards.get_db] is the transaction of a request: it commits when
    the method returns and rolls back when it raises. Each method keeps the name it has in the source; a router's
    endpoint that does more than call its service is a definition too. Money is in integer minor units, decimals are
    Python's ([Decimal]: a coefficient and an exponent, 28 digits, half-even or half-up), time is in seconds.

    ** The files

    - [Prelude]: record update, the monad, guarantees ([guar R m]: every run of [m] relates its two states by [R]), JSON,
      Python's text functions, sums over lists and maps.
    - [Decimal], [Money] ([core/money.py]), [GstCalc] ([tax/gst_calc.py], [coupons/services/discount.py]): arithmetic.
    - [Errors]: the exceptions and the HTTP status of each. [Schema]: rows and tables (the [models] modules).
    - [Guards], [CatalogueGuards], [TaxGuards], [GatewayGuards]: constraints, triggers and the statements sent to them
      ([models/*guard.py] and the model modules). [CatalogueOk], [TaxOk]: what a well-formed catalogue and well-formed tax masters
      are.
    - [Evolution]: the relation [evolves] of databases and the invariant [Inv] every statement keeps; [step] is what any part of
      any request does to a sound state. [CatalogueEvolution], [TaxEvolution] and [GatewayEvolution] prove it for the statements of
      their tables; the class [TaxMasterOk] is what each of the four tax tables promises for that.
    - [Repositories], [Frames] (which tables a method may write), [Runs] (what a run that returned did).
    - Buying: [Cart], [Coupons], [Tax] (engines), [GstStates], [Checkout] ([order_service.py]), [Lifecycle] ([lifecycle_service.py]),
      [Payments] ([payment_service.py], webhooks and jobs), [Invoice], [Jobs] (queue and worker), [Returns], [Shipments].
    - The catalogue: [Slugs] and [Images] ([shared/utils]), [Categories], [Products], [Variants] ([variant_admin_service.py]).
    - The tax masters: [TaxAdmin] ([tax_service.py]). Payment gateways: [Gateways] ([provider_config_service.py],
      [payment_mode_service.py], arriving webhooks). The store: [StoreFront] ([store_service.py]).
    - People: [Accounts] ([modules/auth], [core/security.py]), [Roles] ([modules/roles], [modules/users]), [Graphql] ([app/graphql]),
      [Addresses], [Reviews] (with wishlists).
    - [System]: every modelled entry point as a [Request]; [run] serves any sequence of them. [AccountsEvolution] follows the account
      tables the same way; [Overlap] interleaves the halves of customers' requests.
    - [Demo], [CatalogueDemo]: a concrete shop and a day in its back office. The [*Spec] files and [JobsLiveness] hold the theorems
      about each part, [Findings] runs of the code that differ from what it intends.

    ** What the theorems show

    - System wide ([System], [CatalogueSpec], [TaxSpec]): after any sequence of requests, orders and returns have only moved along
      their life cycles, refunds stay within their payment, stock equals its ledger and is never negative, final records never
      change, the catalogue is well-formed, approved tax records stand and are never ambiguous.
    - Per operation ([*Spec]): what checkout sells, charges and takes from stock; when a coupon counts; what a webhook, a refund,
      a cancellation, a return does, on the branches that succeed and on those that are refused.
    - Arithmetic ([GstCalc], [Money]): allocations add up exactly, an invoice balances, minor units round trip.
    - The job queue ([Jobs], [JobsLiveness]): attempts are bounded, finished jobs stay finished, late results are ignored, and a
      worker that keeps polling ends every job.
    - The catalogue ([CatalogueSpec], [VariantsSpec]): customers see what is on sale at the prices of its variants; variants are
      created as asked, and conversion keeps the stock.
    - The tax masters ([TaxSpec]): an approval takes two people, the readiness report is exact, searches are literal.
    - Accounts ([AccountsSpec], [RolesSpec], [AccessSpec]): families of tokens, single-use links, who may administer the shop, and
      what GraphQL lets administrators change besides.
    - Customers ([CustomerSpec], [Overlap]): limits, also of requests that overlap, the default address, reviews of what was bought.
    - Gateways ([GatewaySpec]): what a gateway must be to take payments and real money, what the overview promises, when live
      payments are activated, what a rotation of secrets takes away, and that checking a live gateway moves no money.

    ** Parameters

    Code outside the repository is a parameter: payment providers ([Lifecycle.Providers]; whatever commits while one is
    called is assumed to be work of this program, [provider_ok]), password hashing, token signing and mail
    ([Accounts.Passwords], [Jwt], [Mailer]), file storage ([Images.Storage]), encryption ([Gateways.Secrets]), hashes and random
    tokens ([Crypto]), the settings.
    [Demo] instantiates each with a concrete function, and every theorem with hypotheses has a witness there.

    ** Bounds and fuel

    No definition needs fuel except the digits of [Decimal] and the search for a free slug in [Slugs], which has one round for each
    slug taken and one more, and always ends within that ([slug_search_ends]); recursion is on lists, text and positive numbers.

    ** Not modelled

    Request validation by pydantic (lengths, formats) except where a service relies on it or the payload is a definition here;
    most lists and reports; the remediation of orders without a currency; site content and email settings; rendering of invoices
    and emails; logging, caching, rate limits, the object store; the adapters of third-party services (stored secrets are written
    and rotated, never decrypted: an adapter is built from the stored row); the GraphQL engine and the limits it puts on documents;
    migrations and scripts, which write to the database apart from the requests. Concurrency is modelled at transaction
    granularity: a request runs as one block between its commits, and other work may commit during a provider's call; row locks are
    what justifies this, so a lock taken too late, or a check of a row that is not locked, would not be seen here. The two limits
    that the code checks without a lock, addresses and wishlists, are modelled in two turns in [Overlap]. Text functions are those
    of ASCII. *)

From Stdlib Require Export Ascii.
From stdpp Require Export base gmap strings list pretty sorting fin_maps.
From Stdlib Require Export ZArith Lia.

#[global] Open Scope Z_scope.

(** ** Record update

    [r <| f := v |>] is the record [r] with field [f] replaced by [v]. A record type
    declares its eta-expansion once ([Eta]); the setter of each field is computed from it. *)

Class Eta (R : Type) := eta : R → R.
Class Setter {R T : Type} (proj : R → T) := put : T → R → R.
Arguments put {R T} proj {_} v r : rename.

Ltac solve_setter :=
  lazymatch goal with
  | |- @Setter ?R ?T ?proj =>
      let inst := constr:(_ : Eta R) in
      let body := eval hnf in inst in
      let v := fresh "v" in
      let r := fresh "r" in
      intros v r;
      let e := eval cbv beta in (body r) in
      let p := eval pattern (proj r) in e in
      lazymatch p with
      | ?g _ => let t := eval cbv beta in (g v) in exact t
      end
  end.
#[export] Hint Extern 1 (Setter _) => solve_setter : typeclass_instances.

Notation "r <| proj := v |>" := (put proj v r)
  (at level 12, left associativity, proj at level 9, v at level 200).
Notation "r <| proj ::= f |>" := (put proj (f (proj r)) r)
  (at level 12, left associativity, proj at level 9, f at level 200, only parsing).


(** ** Stateful code that can raise

    A service method of the program threads one state (the open database transaction and what
    goes with it) and either returns or raises. Raising does not undo the state: whoever runs
    the method decides what a raised error does to the transaction. *)

Definition ST (S E A : Type) : Type := S → (E + A) * S.

#[export] Instance ST_ret {S E} : MRet (ST S E) := λ A a s, (inr a, s).
#[export] Instance ST_bind {S E} : MBind (ST S E) := λ A B f m s,
  match m s with
  | (inl e, s') => (inl e, s')
  | (inr a, s') => f a s'
  end.

Definition raise {S E A} (e : E) : ST S E A := λ s, (inl e, s).
Definition gets {S E A} (f : S → A) : ST S E A := λ s, (inr (f s), s).
Definition modify {S E} (f : S → S) : ST S E unit := λ s, (inr tt, f s).
Definition raise_if {S E} (b : bool) (e : E) : ST S E unit := if b then raise e else mret tt.
Definition of_option {S E A} (o : option A) (e : E) : ST S E A :=
  match o with Some a => mret a | None => raise e end.
Definition of_sum {S E A} (r : E + A) : ST S E A :=
  match r with inl e => raise e | inr a => mret a end.

(** [try: m  except <caught>: h]: the state reached when [m] raised is kept. *)
Definition try_catch {S E A} (m : ST S E A) (h : E → option (ST S E A)) : ST S E A := λ s,
  match m s with
  | (inr a, s') => (inr a, s')
  | (inl e, s') => match h e with Some k => k s' | None => (inl e, s') end
  end.

(** [async with session.begin_nested()]: an error undoes what the block changed. *)
Definition savepoint {S E A} (m : ST S E A) : ST S E A := λ s,
  match m s with
  | (inr a, s') => (inr a, s')
  | (inl e, _) => (inl e, s)
  end.

(** [try: m  finally: k] where [k] does not raise. *)
Definition try_finally {S E A} (m : ST S E A) (k : ST S E unit) : ST S E A := λ s,
  let '(r, s') := m s in (r, (k s').2).

Fixpoint for_each {S E A} (l : list A) (f : A → ST S E unit) : ST S E unit :=
  match l with
  | [] => mret tt
  | x :: r => f x ≫= λ _, for_each r f
  end.

Fixpoint fold_m {S E A B} (f : B → A → ST S E B) (acc : B) (l : list A) : ST S E B :=
  match l with
  | [] => mret acc
  | x :: r => f acc x ≫= λ acc', fold_m f acc' r
  end.

Section monad_lemmas.
Context {S E : Type}.

Lemma bind_inr {A B} (m : ST S E A) (f : A → ST S E B) s b s' :
  (m ≫= f) s = (inr b, s') ↔ ∃ a s1, m s = (inr a, s1) ∧ f a s1 = (inr b, s').
Proof.
  unfold mbind, ST_bind. destruct (m s) as [[e|a] s1]; split; try done.
  - intros (?&?&?&?); congruence.
  - eauto.
  - intros (?&?&[= -> ->]&?); done.
Qed.

Lemma bind_inl {A B} (m : ST S E A) (f : A → ST S E B) s e s' :
  (m ≫= f) s = (inl e, s') ↔
  m s = (inl e, s') ∨ ∃ a s1, m s = (inr a, s1) ∧ f a s1 = (inl e, s').
Proof.
  unfold mbind, ST_bind. destruct (m s) as [[e1|a] s1]; split; try done.
  - intros [= -> ->]; auto.
  - intros [[= -> ->]|(?&?&?&?)]; congruence.
  - eauto.
  - intros [?|(?&?&[= -> ->]&?)]; congruence.
Qed.

Lemma bind_run {A B} (m : ST S E A) (f : A → ST S E B) s a s1 :
  m s = (inr a, s1) → (m ≫= f) s = f a s1.
Proof. intros H. unfold mbind, ST_bind. by rewrite H. Qed.

Lemma bind_fail {A B} (m : ST S E A) (f : A → ST S E B) s e s1 :
  m s = (inl e, s1) → (m ≫= f) s = (inl e, s1).
Proof. intros H. unfold mbind, ST_bind. by rewrite H. Qed.
End monad_lemmas.

(** ** Guarantees: a relation every run of a method respects, whether it returns or raises *)

Definition guar {S E A} (R : S → S → Prop) (m : ST S E A) : Prop := ∀ s, R s (m s).2.

Section guarantees.
Context {S E : Type} (R : S → S → Prop) `{!Reflexive R} `{!Transitive R}.

Lemma guar_ret {A} (a : A) : guar R (mret a : ST S E A).
Proof. intros s; reflexivity. Qed.
Lemma guar_raise {A} (e : E) : guar R (raise e : ST S E A).
Proof. intros s; reflexivity. Qed.
Lemma guar_gets {A} (f : S → A) : guar R (gets f : ST S E A).
Proof. intros s; reflexivity. Qed.
Lemma guar_raise_if b (e : E) : guar R (raise_if b e : ST S E unit).
Proof. destruct b; intros s; reflexivity. Qed.
Lemma guar_of_option {A} (o : option A) (e : E) : guar R (of_option o e : ST S E A).
Proof. destruct o; intros s; reflexivity. Qed.
Lemma guar_of_sum {A} (r : E + A) : guar R (of_sum r : ST S E A).
Proof. destruct r; intros s; reflexivity. Qed.
Lemma guar_bind {A B} (m : ST S E A) (f : A → ST S E B) :
  guar R m → (∀ a, guar R (f a)) → guar R (m ≫= f).
Proof.
  intros Hm Hf s. specialize (Hm s). unfold mbind, ST_bind.
  destruct (m s) as [[e|a] s1]; cbn in *; [done|]. etrans; [done|apply Hf].
Qed.
Lemma guar_try {A} (m : ST S E A) h :
  guar R m → (∀ e k, h e = Some k → guar R k) → guar R (try_catch m h).
Proof.
  intros Hm Hh s. specialize (Hm s). unfold try_catch.
  destruct (m s) as [[e|a] s1]; cbn in *; [|done].
  destruct (h e) eqn:He; cbn; [|done]. etrans; [done|]. by eapply Hh.
Qed.
Lemma guar_savepoint {A} (m : ST S E A) : guar R m → guar R (savepoint m).
Proof.
  intros Hm s. specialize (Hm s). unfold savepoint.
  by destruct (m s) as [[e|a] s1]; cbn in *.
Qed.
Lemma guar_try_finally {A} (m : ST S E A) k : guar R m → guar R k → guar R (try_finally m k).
Proof.
  intros Hm Hk s. specialize (Hm s). unfold try_finally. destruct (m s) as [r s1]; cbn in *.
  etrans; [done|apply Hk].
Qed.
Lemma guar_for_each {A} (l : list A) (f : A → ST S E unit) :
  (∀ x, guar R (f x)) → guar R (for_each l f).
Proof. intros Hf. induction l; cbn; [apply guar_ret|by apply guar_bind]. Qed.
Lemma guar_fold_m {A B} (f : B → A → ST S E B) acc (l : list A) :
  (∀ b x, guar R (f b x)) → guar R (fold_m f acc l).
Proof.
  intros Hf. revert acc. induction l; intros acc; cbn; [apply guar_ret|].
  apply guar_bind; auto.
Qed.
End guarantees.

Create HintDb guar discriminated.
#[export] Hint Resolve guar_ret guar_raise guar_gets guar_raise_if guar_of_option guar_of_sum : guar.

(** Walks through a method: sequencing, branches and loops are decomposed, the calls that
    remain are closed by the lemmas of the [guar] database. *)
Ltac guar_step :=
  lazymatch goal with
  | |- ∀ _, _ => intros ?
  | |- guar _ (_ ≫= _) => apply guar_bind; [try typeclasses eauto..| |]
  | |- guar _ (for_each _ _) => apply guar_for_each; [try typeclasses eauto..|]
  | |- guar _ (fold_m _ _ _) => apply guar_fold_m; [try typeclasses eauto..|]
  | |- guar _ (try_finally _ _) => apply guar_try_finally; [try typeclasses eauto..| |]
  | |- guar _ (savepoint _) => apply guar_savepoint; [try typeclasses eauto..|]
  | |- guar _ (match ?x with _ => _ end) => destruct x eqn:?
  | |- guar _ (let '_ := ?x in _) => destruct x eqn:?
  end.
Ltac solve_guar := repeat first [ solve [eauto with guar typeclass_instances] | guar_step ].

(** ** JSON documents (audit details, snapshots stored with an order) *)

Inductive json :=
  | JNull
  | JBool (b : bool)
  | JInt (n : Z)
  | JStr (s : string)
  | JList (l : list json)
  | JObj (fields : list (string * json)).

Fixpoint json_eqb (a b : json) : bool :=
  match a, b with
  | JNull, JNull => true
  | JBool x, JBool y => Bool.eqb x y
  | JInt x, JInt y => (x =? y)%Z
  | JStr x, JStr y => String.eqb x y
  | JList l, JList k =>
      (fix go l k := match l, k with
                     | [], [] => true
                     | x :: l', y :: k' => json_eqb x y && go l' k'
                     | _, _ => false
                     end) l k
  | JObj l, JObj k =>
      (fix go l k := match l, k with
                     | [], [] => true
                     | (n, x) :: l', (m, y) :: k' => String.eqb n m && json_eqb x y && go l' k'
                     | _, _ => false
                     end) l k
  | _, _ => false
  end.

(** [d.get(key)] *)
Definition j_get (key : string) (j : json) : option json :=
  match j with
  | JObj fields => (λ ikv : nat * (string * json), ikv.2.2) <$> list_find (λ kv : string * json, kv.1 = key) fields
  | _ => None
  end.

Definition j_opt {A} (f : A → json) (o : option A) : json :=
  match o with Some a => f a | None => JNull end.

(** [sorted(...)] on integers and on strings. *)
Definition sortZ (l : list Z) : list Z := merge_sort Z.le l.
Definition str_le (a b : string) : Prop := String.leb a b = true.
#[export] Instance str_le_dec a b : Decision (str_le a b).
Proof. unfold str_le. apply _. Defined.
Definition sort_str (l : list string) : list string := merge_sort str_le l.

(** The text of an integer ([str(n)], the [{n}] of an f-string). *)
Definition str_Z (n : Z) : string := pretty n.

(** ** Pure code that can raise *)

#[export] Instance sum_ret {E} : MRet (sum E) := λ A a, inr a.
#[export] Instance sum_bind {E} : MBind (sum E) := λ A B f r,
  match r with inl e => inl e | inr a => f a end.

(** ** Python's text helpers, on ASCII text *)

Definition is_space (c : Ascii.ascii) : bool :=
  let n := Ascii.nat_of_ascii c in
  (n =? 32)%nat || ((9 <=? n)%nat && (n <=? 13)%nat) || ((28 <=? n)%nat && (n <=? 31)%nat).
Definition lower_ascii (c : Ascii.ascii) : Ascii.ascii :=
  let n := Ascii.nat_of_ascii c in
  if (65 <=? n)%nat && (n <=? 90)%nat then Ascii.ascii_of_nat (n + 32) else c.
Definition upper_ascii (c : Ascii.ascii) : Ascii.ascii :=
  let n := Ascii.nat_of_ascii c in
  if (97 <=? n)%nat && (n <=? 122)%nat then Ascii.ascii_of_nat (n - 32) else c.

Fixpoint string_map (f : Ascii.ascii → Ascii.ascii) (s : string) : string :=
  match s with EmptyString => EmptyString | String c r => String (f c) (string_map f r) end.
Fixpoint lstrip (s : string) : string :=
  match s with
  | EmptyString => EmptyString
  | String c r => if is_space c then lstrip r else s
  end.
Fixpoint rstrip (s : string) : string :=
  match s with
  | EmptyString => EmptyString
  | String c r =>
      match rstrip r with
      | EmptyString => if is_space c then EmptyString else String c EmptyString
      | r' => String c r'
      end
  end.
Definition py_strip (s : string) : string := rstrip (lstrip s).
(** PostgreSQL's [btrim(s)]: blanks at both ends, no other space. *)
Fixpoint ltrim (s : string) : string :=
  match s with
  | String c r => if (Ascii.nat_of_ascii c =? 32)%nat then ltrim r else s
  | EmptyString => EmptyString
  end.
Fixpoint rtrim (s : string) : string :=
  match s with
  | EmptyString => EmptyString
  | String c r =>
      match rtrim r with
      | EmptyString => if (Ascii.nat_of_ascii c =? 32)%nat then EmptyString else String c EmptyString
      | r' => String c r'
      end
  end.
Definition btrim (s : string) : string := rtrim (ltrim s).
Definition py_lower (s : string) : string := string_map lower_ascii s.
Definition py_upper (s : string) : string := string_map upper_ascii s.

(** Without the characters [p]. *)
Fixpoint drop_chars (p : Ascii.ascii → bool) (s : string) : string :=
  match s with
  | EmptyString => EmptyString
  | String c r => if p c then drop_chars p r else String c (drop_chars p r)
  end.
(** [re.sub(r"[...]+", with, s)]: every run of such characters becomes one [with]; [run] tells whether one was just replaced. *)
Fixpoint collapse (p : Ascii.ascii → bool) (with_ : Ascii.ascii) (run : bool) (s : string) : string :=
  match s with
  | EmptyString => EmptyString
  | String c r =>
      if p c then (if run then collapse p with_ true r else String with_ (collapse p with_ true r))
      else String c (collapse p with_ false r)
  end.
(** [text.strip(chars)] *)
Fixpoint lstrip_of (p : Ascii.ascii → bool) (s : string) : string :=
  match s with
  | EmptyString => EmptyString
  | String c r => if p c then lstrip_of p r else s
  end.
Fixpoint rstrip_of (p : Ascii.ascii → bool) (s : string) : string :=
  match s with
  | EmptyString => EmptyString
  | String c r =>
      match rstrip_of p r with
      | EmptyString => if p c then EmptyString else String c EmptyString
      | r' => String c r'
      end
  end.
Definition strip_of (p : Ascii.ascii → bool) (s : string) : string := rstrip_of p (lstrip_of p s).

(** ** Sums of integers *)

Definition sumZ (l : list Z) : Z := foldr Z.add 0 l.

Lemma sumZ_app l1 l2 : sumZ (l1 ++ l2) = sumZ l1 + sumZ l2.
Proof. unfold sumZ. induction l1; cbn; lia. Qed.

Lemma sumZ_perm l1 l2 : l1 ≡ₚ l2 → sumZ l1 = sumZ l2.
Proof. unfold sumZ. induction 1; cbn; lia. Qed.

Lemma sumZ_zeros {A} (l : list A) : sumZ (map (λ _, 0) l) = 0.
Proof. unfold sumZ. induction l; cbn; lia. Qed.

Lemma sumZ_nonneg l : Forall (Z.le 0) l → 0 ≤ sumZ l.
Proof. unfold sumZ. induction 1; cbn; lia. Qed.

Lemma sumZ_elem l x : Forall (Z.le 0) l → x ∈ l → x ≤ sumZ l.
Proof.
  unfold sumZ. induction 1 as [|y l Hy Hl IH]; [by intros ?%elem_of_nil|].
  pose proof (sumZ_nonneg l Hl). unfold sumZ in *.
  intros [->|Hx]%elem_of_cons; cbn; [lia|]. specialize (IH Hx). lia.
Qed.

Lemma sumZ_le_length l b : Forall (λ x, x ≤ b) l → sumZ l ≤ Z.of_nat (length l) * b.
Proof. unfold sumZ. induction 1; cbn [foldr length]; lia. Qed.

Lemma sumZ_map_add {A} (f g h : A → Z) l :
  (∀ x, x ∈ l → f x = g x + h x) → sumZ (map f l) = sumZ (map g l) + sumZ (map h l).
Proof.
  unfold sumZ. induction l as [|x l IH]; cbn; intros Hf; [lia|].
  rewrite IH, (Hf x) by set_solver. lia.
Qed.

Lemma sumZ_map_mul c l : sumZ (map (Z.mul c) l) = c * sumZ l.
Proof. unfold sumZ. induction l; cbn; lia. Qed.

Lemma sumZ_zero l : Forall (Z.le 0) l → sumZ l = 0 → Forall (eq 0) l.
Proof.
  unfold sumZ. induction 1 as [|x l Hx Hl IH]; [constructor|]. cbn. intros H.
  pose proof (sumZ_nonneg l Hl). unfold sumZ in *. constructor; [lia|]. apply IH. lia.
Qed.

(** ** Sums over finite maps *)

Definition sum_kv {K} `{Countable K} {V} (f : K → V → Z) (m : gmap K V) : Z :=
  map_fold (λ k v acc, f k v + acc) 0 m.

Section sum_kv.
Context {K : Type} `{Countable K} {V : Type} (f : K → V → Z).
Implicit Types m : gmap K V.

Lemma sum_kv_empty : sum_kv f ∅ = 0.
Proof. unfold sum_kv. by rewrite map_fold_empty. Qed.

Lemma sum_kv_fresh m k v : m !! k = None → sum_kv f (<[k := v]> m) = f k v + sum_kv f m.
Proof. intros Hk. unfold sum_kv. rewrite map_fold_insert_L; [done| |done]. intros; lia. Qed.

Lemma sum_kv_delete m k v : m !! k = Some v → sum_kv f m = f k v + sum_kv f (delete k m).
Proof.
  intros Hk. rewrite <-(insert_delete_id m k v Hk) at 1. apply sum_kv_fresh. apply lookup_delete_eq.
Qed.

Lemma sum_kv_update m k v v' :
  m !! k = Some v → sum_kv f (<[k := v']> m) = sum_kv f m - f k v + f k v'.
Proof.
  intros Hk. rewrite (sum_kv_delete m k v Hk), <-(insert_delete_eq m k v').
  rewrite sum_kv_fresh by apply lookup_delete_eq. lia.
Qed.

Lemma sum_kv_nonneg m : (∀ k v, m !! k = Some v → 0 ≤ f k v) → 0 ≤ sum_kv f m.
Proof.
  induction m as [|k v m Hk IH] using map_ind; intros Hf; [by rewrite sum_kv_empty|].
  rewrite sum_kv_fresh by done. assert (0 ≤ f k v) by (apply Hf, lookup_insert_eq).
  assert (0 ≤ sum_kv f m); [|lia]. apply IH. intros k' v' Hk'. apply Hf.
  rewrite lookup_insert_ne; [done|congruence].
Qed.

Lemma sum_kv_ge m k v :
  (∀ k v, m !! k = Some v → 0 ≤ f k v) → m !! k = Some v → f k v ≤ sum_kv f m.
Proof.
  intros Hf Hk. rewrite (sum_kv_delete m k v Hk).
  assert (0 ≤ sum_kv f (delete k m)); [|lia]. apply sum_kv_nonneg.
  intros k' v' [_ Hk']%lookup_delete_Some. by apply Hf.
Qed.

Lemma sum_kv_zero m : (∀ k v, m !! k = Some v → f k v = 0) → sum_kv f m = 0.
Proof.
  induction m as [|k v m Hk IH] using map_ind; intros Hf; [apply sum_kv_empty|].
  rewrite sum_kv_fresh by done. rewrite (Hf k v) by apply lookup_insert_eq. rewrite IH; [done|].
  intros k' v' Hk'. apply Hf. rewrite lookup_insert_ne; [done|congruence].
Qed.

Lemma sum_kv_pos m : 0 < sum_kv f m → ∃ k v, m !! k = Some v ∧ 0 < f k v.
Proof.
  induction m as [|k v m Hk IH] using map_ind; [rewrite sum_kv_empty; lia|].
  rewrite sum_kv_fresh by done. intros Hp. destruct (decide (0 < f k v)).
  - exists k, v. by rewrite lookup_insert_eq.
  - destruct IH as (k' & v' & Hk' & ?); [lia|]. exists k', v'. split; [|done].
    rewrite lookup_insert_ne; [done|congruence].
Qed.
End sum_kv.

Lemma sum_kv_ext {K} `{Countable K} {V} (f g : K → V → Z) (m : gmap K V) :
  (∀ k v, m !! k = Some v → f k v = g k v) → sum_kv f m = sum_kv g m.
Proof.
  induction m as [|k v m Hk IH] using map_ind; intros Hf; [by rewrite !sum_kv_empty|].
  rewrite !sum_kv_fresh by done. rewrite (Hf k v) by apply lookup_insert_eq. rewrite IH; [done|].
  intros k' v' Hk'. apply Hf. rewrite lookup_insert_ne; [done|congruence].
Qed.

Lemma sum_kv_le {K} `{Countable K} {V} (f g : K → V → Z) (m : gmap K V) :
  (∀ k v, m !! k = Some v → f k v ≤ g k v) → sum_kv f m ≤ sum_kv g m.
Proof.
  induction m as [|k v m Hk IH] using map_ind; intros Hf; [by rewrite !sum_kv_empty|].
  rewrite !sum_kv_fresh by done. assert (f k v ≤ g k v) by (apply Hf, lookup_insert_eq).
  assert (sum_kv f m ≤ sum_kv g m); [|lia]. apply IH.
  intros k' v' Hk'. apply Hf. rewrite lookup_insert_ne; [done|congruence].
Qed.
