(* ===== verification/Decimal.v ===== *)
(** * Python's [decimal.Decimal], as the money and tax code uses it

    The default context: 28 significant digits, results rounded half-even, [quantize] rounding as
    asked. A number is a signed coefficient and an exponent, [coef * 10 ^ dexp]. Multiplication,
    division, addition and subtraction compute the exact result and then round it to the context
    (as CPython's [_pydecimal] does); [int] and comparisons are exact. NaN, infinities, signed zeros
    and the exponent limits are not modelled, nor the [InvalidOperation] of a [quantize] whose result
    has more than 28 digits: every amount of the program is a 32-bit column.

    The second half proves what the clients need: integer operands below [10^26] divide to a
    value that never crosses an integer or the middle between two integers ([ddiv_close]). *)

From S2P Require Import Prelude.

Module Decimal.

Definition prec : Z := 28.

Record dec := Dec { coef : Z; dexp : Z }.

#[export] Instance dec_eq_decision : EqDecision dec.
Proof. solve_decision. Defined.

Definition of_Z (n : Z) : dec := Dec n 0.

(** The number of decimal digits of [n] ([len(str(abs(n)))]). *)
Fixpoint digits_from (fuel : nat) (n : Z) : Z :=
  match fuel with
  | O => 1
  | S f => if n <? 10 then 1 else 1 + digits_from f (n / 10)
  end.
Definition ndigits (n : Z) : Z := digits_from (Z.to_nat (Z.log2 (Z.abs n))) (Z.abs n).

(** Rounded quotients of non-negative [n] by positive [d]. *)
Definition div_half_even (n d : Z) : Z :=
  let q := n / d in
  let r := n mod d in
  if 2 * r <? d then q
  else if d <? 2 * r then q + 1
  else if Z.even q then q else q + 1.
Definition div_half_up (n d : Z) : Z := (2 * n + d) / (2 * d).

(** [_fix]: round to the context's precision, half-even. *)
Definition fix_prec (x : dec) : dec :=
  let k := ndigits (coef x) - prec in
  if k <=? 0 then x
  else
    let q := div_half_even (Z.abs (coef x)) (10 ^ k) in
    if q =? 10 ^ prec
    then Dec (Z.sgn (coef x) * (q / 10)) (dexp x + k + 1)
    else Dec (Z.sgn (coef x) * q) (dexp x + k).

Definition dmul (x y : dec) : dec := fix_prec (Dec (coef x * coef y) (dexp x + dexp y)).
Definition dneg (x : dec) : dec := fix_prec (Dec (- coef x) (dexp x)).
Definition dadd (x y : dec) : dec :=
  let e := Z.min (dexp x) (dexp y) in
  fix_prec (Dec (coef x * 10 ^ (dexp x - e) + coef y * 10 ^ (dexp y - e)) e).
Definition dsub (x y : dec) : dec := dadd x (Dec (- coef y) (dexp y)).

(** Drops trailing zeros while the exponent is below the ideal one. *)
Fixpoint strip_zeros (fuel : nat) (ideal : Z) (x : dec) : dec :=
  match fuel with
  | O => x
  | S f =>
      if (dexp x <? ideal) && (coef x mod 10 =? 0)
      then strip_zeros f ideal (Dec (coef x / 10) (dexp x + 1))
      else x
  end.

(** Division. A zero divisor raises in Python; every divisor of the program is a positive
    constant or has been tested. *)
Definition ddiv (x y : dec) : dec :=
  if coef x =? 0 then Dec 0 (dexp x - dexp y)
  else
    let shift := ndigits (coef y) - ndigits (coef x) + prec + 1 in
    let n := Z.abs (coef x) * 10 ^ Z.max shift 0 in
    let d := Z.abs (coef y) * 10 ^ Z.max (- shift) 0 in
    let sign := Z.sgn (coef x) * Z.sgn (coef y) in
    let e := dexp x - dexp y - shift in
    let q := n / d in
    if n mod d =? 0
    then fix_prec (let s := strip_zeros (Z.to_nat (Z.max shift 0)) (dexp x - dexp y) (Dec q e) in
                   Dec (sign * coef s) (dexp s))
    else fix_prec (Dec (sign * (if q mod 5 =? 0 then q + 1 else q)) e).

(** [int(x)]: towards zero. *)
Definition to_int (x : dec) : Z :=
  if 0 <=? dexp x then coef x * 10 ^ dexp x else Z.quot (coef x) (10 ^ (- dexp x)).

(** [str(x)]: plain notation down to six leading zeros, scientific beyond. *)
Definition zeros (n : Z) : string := String.concat "" (List.repeat "0"%string (Z.to_nat n)).
Definition dec_str (x : dec) : string :=
  let sign := if coef x <? 0 then "-"%string else ""%string in
  let digits := str_Z (Z.abs (coef x)) in
  let len := Z.of_nat (String.length digits) in
  let leftdigits := dexp x + len in
  let plain := (dexp x <=? 0) && (-6 <? leftdigits) in
  let dotplace := if plain then leftdigits else 1 in
  let body :=
    if dotplace <=? 0 then "0."%string +:+ zeros (- dotplace) +:+ digits
    else if len <=? dotplace then digits +:+ zeros (dotplace - len)
    else String.substring 0 (Z.to_nat dotplace) digits +:+ "."%string +:+
         String.substring (Z.to_nat dotplace) (Z.to_nat (len - dotplace)) digits in
  let e := leftdigits - dotplace in
  let expo := if e =? 0 then ""%string else "E"%string +:+ (if 0 <? e then "+"%string else ""%string) +:+ str_Z e in
  sign +:+ body +:+ expo.
Example dec_str_plain : map dec_str [Dec 900 (-2); Dec 5 (-3); Dec 0 (-3); Dec (-1250) (-2); Dec 12 3; Dec 1 (-9)]
  = ["9.00"; "0.005"; "0.000"; "-12.50"; "1.2E+4"; "1E-9"]%string.
Proof. reflexivity. Qed.

(** Exact comparison: the sign of [x - y]. *)
Definition dcompare (x y : dec) : comparison :=
  let e := Z.min (dexp x) (dexp y) in
  coef x * 10 ^ (dexp x - e) ?= coef y * 10 ^ (dexp y - e).
Definition dleb (x y : dec) : bool := match dcompare x y with Gt => false | _ => true end.
Definition dltb (x y : dec) : bool := match dcompare x y with Lt => true | _ => false end.
Definition deqb (x y : dec) : bool := match dcompare x y with Eq => true | _ => false end.

(** [x.quantize(Decimal(1).scaleb(e))] with the given rounding of a quotient. *)
Definition rescale (round : Z → Z → Z) (e : Z) (x : dec) : dec :=
  if e <=? dexp x then Dec (coef x * 10 ^ (dexp x - e)) e
  else Dec (Z.sgn (coef x) * round (Z.abs (coef x)) (10 ^ (e - dexp x))) e.
Definition quantize_half_up (x : dec) : Z := coef (rescale div_half_up 0 x).

(** ** Facts *)

Lemma digits_from_spec fuel n :
  0 < n → n < 10 * 2 ^ Z.of_nat fuel →
  1 ≤ digits_from fuel n ∧ 10 ^ (digits_from fuel n - 1) ≤ n < 10 ^ digits_from fuel n.
Proof.
  revert n. induction fuel as [|f IH]; intros n Hn Hb; cbn [digits_from].
  - cbn in Hb. lia.
  - destruct (Z.ltb_spec n 10); [cbn; lia|].
    assert (0 < n / 10) by (apply Z.div_str_pos; lia).
    assert (n / 10 < 10 * 2 ^ Z.of_nat f).
    { apply Z.div_lt_upper_bound; [lia|].
      rewrite Nat2Z.inj_succ, Z.pow_succ_r in Hb by lia. lia. }
    destruct (IH (n / 10)) as [? [? Hhi]]; [done..|].
    set (k := digits_from f (n / 10)) in *.
    split; [lia|]. replace (1 + k - 1) with ((k - 1) + 1) by lia.
    replace (1 + k) with (k + 1) by lia.
    rewrite !Z.pow_add_r by lia. change (10 ^ 1) with 10.
    pose proof (Z.div_mod n 10 ltac:(lia)). pose proof (Z.mod_pos_bound n 10 ltac:(lia)). lia.
Qed.

Lemma ndigits_spec n : 0 < n → 1 ≤ ndigits n ∧ 10 ^ (ndigits n - 1) ≤ n < 10 ^ ndigits n.
Proof.
  intros Hn. unfold ndigits. rewrite Z.abs_eq by lia.
  apply digits_from_spec; [done|].
  rewrite Z2Nat.id by apply Z.log2_nonneg.
  pose proof (Z.log2_spec n Hn) as [_ H]. rewrite Z.pow_succ_r in H by apply Z.log2_nonneg.
  pose proof (Z.pow_pos_nonneg 2 (Z.log2 n)). lia.
Qed.

Lemma ndigits_abs n : ndigits (Z.abs n) = ndigits n.
Proof. unfold ndigits. by rewrite Z.abs_idemp. Qed.

Lemma ndigits_le n k : 0 ≤ k → Z.abs n < 10 ^ k → ndigits n ≤ Z.max k 1.
Proof.
  intros Hk Hn. rewrite <-ndigits_abs. destruct (decide (n = 0)) as [->|]; [change (ndigits (Z.abs 0)) with 1; lia|].
  destruct (ndigits_spec (Z.abs n)) as [? [? ?]]; [lia|].
  assert (ndigits (Z.abs n) - 1 < k); [|lia].
  apply (Z.pow_lt_mono_r_iff 10); lia.
Qed.

(** Numbers that fit the precision are not touched. *)
Lemma fix_prec_small x : Z.abs (coef x) < 10 ^ prec → fix_prec x = x.
Proof.
  intros H. unfold fix_prec. pose proof (ndigits_le (coef x) prec ltac:(done) H).
  unfold prec in *. destruct (Z.leb_spec (ndigits (coef x) - 28) 0); [done|lia].
Qed.

Lemma div_half_even_bound n d :
  0 ≤ n → 0 < d → 2 * Z.abs (div_half_even n d * d - n) ≤ d.
Proof.
  intros Hn Hd. unfold div_half_even.
  pose proof (Z.div_mod n d ltac:(lia)). pose proof (Z.mod_pos_bound n d Hd).
  destruct (Z.ltb_spec (2 * (n mod d)) d); [nia|].
  destruct (Z.ltb_spec d (2 * (n mod d))); [nia|].
  destruct (Z.even (n / d)); nia.
Qed.

Lemma div_half_up_spec n d :
  0 < d → 2 * n - d < 2 * d * div_half_up n d ≤ 2 * n + d.
Proof.
  intros Hd. unfold div_half_up.
  pose proof (Z.div_mod (2 * n + d) (2 * d) ltac:(lia)).
  pose proof (Z.mod_pos_bound (2 * n + d) (2 * d) ltac:(lia)). lia.
Qed.

(** What rounding to the context does to a non-negative number of any length. *)
Lemma fix_prec_nonneg c e :
  0 ≤ c →
  ∃ c' j, fix_prec (Dec c e) = Dec c' (e + j) ∧ 0 ≤ j ∧ 0 ≤ c' < 10 ^ prec ∧
    2 * Z.abs (c' * 10 ^ j - c) ≤ 10 ^ j ∧ (j = 0 → c' = c) ∧
    (10 ^ prec ≤ c → 1 ≤ j ∧ 10 ^ (prec - 1) ≤ c').
Proof.
  intros Hc. destruct (decide (c < 10 ^ prec)) as [Hs|Hs].
  { exists c, 0. rewrite fix_prec_small by (cbn; lia).
    rewrite Z.add_0_r, Z.pow_0_r. repeat split; try lia. }
  assert (0 < c) by (assert (0 < 10 ^ prec) by done; lia).
  destruct (ndigits_spec c) as [Hd1 [Hlo Hhi]]; [done|].
  unfold fix_prec; cbn [coef dexp]. set (k := ndigits c - prec) in *.
  assert (Hk : 1 ≤ k).
  { assert (prec < ndigits c); [|lia]. apply (Z.pow_lt_mono_r_iff 10); lia. }
  destruct (Z.leb_spec k 0); [lia|].
  assert (Hp : 0 < 10 ^ k) by (apply Z.pow_pos_nonneg; lia).
  pose proof (div_half_even_bound c (10 ^ k) ltac:(lia) Hp) as Hr.
  rewrite Z.abs_eq, Z.sgn_pos by lia.
  set (q := div_half_even c (10 ^ k)) in *.
  assert (Hpk : 10 ^ ndigits c = 10 ^ prec * 10 ^ k).
  { rewrite <-Z.pow_add_r by (unfold prec in *; lia). f_equal. lia. }
  assert (Hpk1 : 10 ^ (ndigits c - 1) = 10 ^ (prec - 1) * 10 ^ k).
  { rewrite <-Z.pow_add_r by (unfold prec in *; lia). f_equal. lia. }
  assert (10 ^ (prec - 1) ≤ q ≤ 10 ^ prec) by nia.
  destruct (Z.eqb_spec q (10 ^ prec)) as [Hq|Hq].
  - exists (10 ^ (prec - 1)), (k + 1). rewrite Hq.
    rewrite Z.pow_add_r by lia. change (10 ^ 1) with 10.
    rewrite Hq in Hr. replace (10 ^ prec) with (10 ^ (prec - 1) * 10) in * by done.
    replace (1 * (10 ^ (prec - 1) * 10 / 10)) with (10 ^ (prec - 1)) by done.
    split; [f_equal; lia|]. repeat split; try lia; try done.
  - exists q, k. rewrite Z.mul_1_l. split; [f_equal; lia|].
    repeat split; try lia.
Qed.

Lemma strip_zeros_spec fuel ideal c e :
  e ≤ ideal →
  ∃ c0 j, strip_zeros fuel ideal (Dec c e) = Dec c0 (e + j) ∧ 0 ≤ j ≤ ideal - e ∧ c0 * 10 ^ j = c.
Proof.
  revert c e. induction fuel as [|f IH]; intros c e He; cbn [strip_zeros coef dexp].
  { exists c, 0. rewrite Z.add_0_r. repeat split; lia. }
  destruct (Z.ltb_spec e ideal); cbn; [|exists c, 0; rewrite Z.add_0_r; repeat split; lia].
  destruct (Z.eqb_spec (c mod 10) 0) as [Hm|]; cbn; [|exists c, 0; rewrite Z.add_0_r; repeat split; lia].
  destruct (IH (c / 10) (e + 1)) as (c0 & j & -> & ? & Hj); [lia|].
  exists c0, (j + 1). split; [f_equal; lia|]. split; [lia|].
  rewrite Z.pow_add_r by lia. pose proof (Z.div_mod c 10 ltac:(lia)). lia.
Qed.

(** The quotient [n / d] at scale [10 ^ m] known up to one unit, then rounded to the context. *)
Lemma fix_prec_quotient s n d c0 m e :
  0 ≤ n → 1 ≤ s → n * s < 10 ^ 26 → 0 < d → 0 ≤ m → 10 ^ prec ≤ c0 →
  Z.abs (c0 * d - n * 10 ^ m) ≤ d →
  ∃ c k, fix_prec (Dec c0 (e - m)) = Dec c (e - k) ∧ 0 ≤ k ∧ 0 ≤ c < 10 ^ prec ∧
    Z.abs (c * d - n * 10 ^ k) < d ∧ 2 * d * s ≤ 10 ^ k.
Proof.
  intros Hn0 Hs1 Hns Hd Hm Hc0 Herr.
  assert (Hn : 0 ≤ n < 10 ^ 26) by nia.
  assert (0 < 10 ^ prec) by done.
  destruct (fix_prec_nonneg c0 (e - m)) as (c & j & -> & Hj & Hc & Hr & _ & Hbig); [lia|].
  destruct (Hbig Hc0) as [Hj1 Hc1]. clear Hbig.
  assert (Hpj : 10 ≤ 10 ^ j).
  { change 10 with (10 ^ 1) at 1. apply Z.pow_le_mono_r; lia. }
  assert (Hpm : 0 < 10 ^ m) by (apply Z.pow_pos_nonneg; lia).
  change (10 ^ (prec - 1)) with 1000000000000000000000000000 in Hc1.
  change (10 ^ 26) with 100000000000000000000000000 in Hn, Hns.
  assert (Hjm : j ≤ m).
  { destruct (decide (j ≤ m)) as [|Hgt]; [done|exfalso].
    assert (10 * 10 ^ m ≤ 10 ^ j).
    { replace (10 * 10 ^ m) with (10 ^ (m + 1)) by (rewrite Z.pow_add_r by lia; lia).
      apply Z.pow_le_mono_r; lia. }
    nia. }
  exists c, (m - j). split; [f_equal; lia|]. split; [lia|]. split; [lia|].
  assert (Hsplit : 10 ^ m = 10 ^ (m - j) * 10 ^ j).
  { rewrite <-Z.pow_add_r by lia. f_equal. lia. }
  set (K := 10 ^ (m - j)) in *. set (J := 10 ^ j) in *. rewrite Hsplit in *.
  assert (0 < K) by (apply Z.pow_pos_nonneg; lia).
  assert (Hlt : Z.abs (c * d - n * K) < d).
  { apply (Z.mul_lt_mono_pos_r J); [lia|].
    rewrite <-(Z.abs_eq J) at 1 by lia. rewrite <-Z.abs_mul.
    replace ((c * d - n * K) * J) with ((c * J - c0) * d + (c0 * d - n * (K * J))) by ring.
    pose proof (Z.abs_triangle ((c * J - c0) * d) (c0 * d - n * (K * J))).
    rewrite (Z.abs_mul (c * J - c0) d), (Z.abs_eq d) in * by lia.
    pose proof (Z.mul_le_mono_nonneg_r _ _ d ltac:(lia) Hr).
    pose proof (Z.mul_le_mono_nonneg_r _ _ d ltac:(lia) Hpj). lia. }
  split; [done|].
  pose proof (Z.mul_le_mono_nonneg_r (n * s) 100000000000000000000000000 K ltac:(lia) ltac:(lia)).
  pose proof (Z.mul_le_mono_nonneg_r _ _ d ltac:(lia) Hc1).
  assert (0 < d * s) by (apply Z.mul_pos_pos; lia).
  assert ((c * d - n * K) * s < d * s) by (apply Z.mul_lt_mono_pos_r; lia).
  pose proof (Z.mul_le_mono_nonneg_r (1000000000000000000000000000 * d) (c * d) s ltac:(lia) ltac:(lia)).
  lia.
Qed.

(** How a computed quotient [c / 10 ^ k] relates to the exact [n / d]: it is exact, or off by less
    than one unit of its last place, which then is at most [1 / (2 * d * s)]. *)
Definition close (s c k n d : Z) : Prop :=
  0 ≤ k ∧ 0 ≤ c ∧ (c * d = n * 10 ^ k ∨ (Z.abs (c * d - n * 10 ^ k) < d ∧ 2 * d * s ≤ 10 ^ k)).

Lemma close_weaken s c k n d : 0 < d → 1 ≤ s → close s c k n d → close 1 c k n d.
Proof.
  intros Hd Hs (?&?&[?|[? ?]]); (split; [done|]; split; [done|]); [by left|right].
  split; [done|]. nia.
Qed.

(** Division of a non-negative number below [10 ^ 26 / s]. *)
Lemma ddiv_close_scaled s n d en ed :
  0 ≤ n → 1 ≤ s → n * s < 10 ^ 26 → 0 < d →
  ∃ c k, ddiv (Dec n en) (Dec d ed) = Dec c (en - ed - k) ∧ c < 10 ^ prec ∧ close s c k n d.
Proof.
  intros Hnn Hs1 Hns Hd. assert (Hn : 0 ≤ n < 10 ^ 26) by nia. unfold ddiv, close; cbn [coef dexp].
  destruct (Z.eqb_spec n 0) as [->|Hn0].
  { exists 0, 0. rewrite Z.sub_0_r. repeat split; try lia. }
  destruct (ndigits_spec n) as [Hn1 [Hnlo Hnhi]]; [lia|].
  destruct (ndigits_spec d) as [Hd1 [Hdlo Hdhi]]; [lia|].
  pose proof (ndigits_le n 26 ltac:(lia) ltac:(rewrite Z.abs_eq; lia)) as Hn26.
  set (sh := ndigits d - ndigits n + prec + 1) in *.
  assert (Hs : 0 < sh) by (unfold sh, prec; lia).
  rewrite (Z.max_l sh 0), (Z.max_r (- sh) 0), Z.pow_0_r, Z.mul_1_r by lia.
  rewrite !Z.abs_eq, !Z.sgn_pos by lia. change (1 * 1) with 1.
  assert (Hps : 0 < 10 ^ sh) by (apply Z.pow_pos_nonneg; lia).
  pose proof (Z.div_mod (n * 10 ^ sh) d ltac:(lia)) as Hdm.
  pose proof (Z.mod_pos_bound (n * 10 ^ sh) d Hd) as Hmb.
  assert (Hq : 10 ^ prec ≤ n * 10 ^ sh / d).
  { apply Z.div_le_lower_bound; [done|].
    transitivity (10 ^ ndigits d * 10 ^ prec); [assert (0 < 10 ^ prec) by done; nia|].
    rewrite <-Z.pow_add_r by (unfold prec; lia).
    transitivity (10 ^ (ndigits n - 1) * 10 ^ sh); [|nia].
    rewrite <-Z.pow_add_r by lia. apply Z.pow_le_mono_r; [lia|]. unfold sh. lia. }
  set (q := n * 10 ^ sh / d) in *.
  destruct (Z.eqb_spec ((n * 10 ^ sh) mod d) 0) as [Hz|Hz].
  - destruct (strip_zeros_spec (Z.to_nat sh) (en - ed) q (en - ed - sh))
      as (c0 & j & -> & Hj & Hc0); [lia|]. cbn [coef dexp]. rewrite Z.mul_1_l.
    assert (Hpj : 0 < 10 ^ j) by (apply Z.pow_pos_nonneg; lia).
    assert (Hex : c0 * d = n * 10 ^ (sh - j)).
    { assert (10 ^ sh = 10 ^ (sh - j) * 10 ^ j) as Hsp
        by (rewrite <-Z.pow_add_r by lia; f_equal; lia).
      rewrite Hsp in *. nia. }
    destruct (decide (c0 < 10 ^ prec)).
    + rewrite fix_prec_small by (cbn; nia).
      exists c0, (sh - j). split; [f_equal; lia|]. split; [done|]. split; [lia|]. split; [nia|]. by left.
    + destruct (fix_prec_quotient s n d c0 (sh - j) (en - ed)) as (c & k & Hf & ? & [? ?] & ? & ?);
        [lia..| |].
      { rewrite Hex, Z.sub_diag. lia. }
      exists c, k. replace (en - ed - sh + j) with (en - ed - (sh - j)) by lia. rewrite Hf. eauto 7.
  - set (q' := if q mod 5 =? 0 then q + 1 else q).
    assert (q ≤ q' ≤ q + 1) by (unfold q'; destruct (q mod 5 =? 0); lia).
    destruct (fix_prec_quotient s n d q' sh (en - ed)) as (c & k & Hf & ? & [? ?] & ? & ?); [lia..| |].
    { nia. }
    exists c, k. rewrite Z.mul_1_l, Hf. eauto 7.
Qed.

Lemma ddiv_close n d en ed :
  0 ≤ n < 10 ^ 26 → 0 < d →
  ∃ c k, ddiv (Dec n en) (Dec d ed) = Dec c (en - ed - k) ∧ c < 10 ^ prec ∧ close 1 c k n d.
Proof. intros Hn Hd. apply ddiv_close_scaled; lia. Qed.

Lemma close_floor c k n d : 0 ≤ n → 0 < d → close 1 c k n d → c / 10 ^ k = n / d.
Proof.
  intros Hn Hd (Hk & Hc & Hcl). assert (Hp : 0 < 10 ^ k) by (apply Z.pow_pos_nonneg; lia).
  pose proof (Z.div_mod n d ltac:(lia)). pose proof (Z.mod_pos_bound n d Hd).
  symmetry. apply (Z.div_unique_pos _ _ _ (c - 10 ^ k * (n / d))); [|lia].
  set (q := n / d) in *. set (r := n mod d) in *. set (K := 10 ^ k) in *.
  destruct Hcl as [He|[He Hsmall]].
  - split; [nia|]. assert (c * d < (K * q + K) * d) by nia. nia.
  - assert ((c - K * q) * d = c * d - n * K + r * K) as Heq by nia.
    split.
    + destruct (decide (r = 0)) as [Hr|Hr].
      * rewrite Hr in Heq. assert (- d < (c - K * q) * d) by lia. nia.
      * assert (0 < (c - K * q) * d) by nia. nia.
    + assert ((c - K * q) * d < K * d) by nia. nia.
Qed.

(** The remainder is zero exactly when the exact one is, and below one otherwise. *)
Lemma close_frac c k n d :
  0 ≤ n → 0 < d → close 1 c k n d → (c mod 10 ^ k = 0 ↔ n mod d = 0).
Proof.
  intros Hn Hd Hcl. pose proof (close_floor c k n d Hn Hd Hcl) as Hf.
  destruct Hcl as (Hk & Hc & Hcl). assert (Hp : 0 < 10 ^ k) by (apply Z.pow_pos_nonneg; lia).
  pose proof (Z.div_mod n d ltac:(lia)). pose proof (Z.mod_pos_bound n d Hd).
  pose proof (Z.div_mod c (10 ^ k) ltac:(lia)). pose proof (Z.mod_pos_bound c (10 ^ k) Hp).
  rewrite Hf in *. set (q := n / d) in *. set (r := n mod d) in *.
  set (K := 10 ^ k) in *. set (f := c mod K) in *.
  assert (f * d = c * d - n * K + r * K) as Heq by nia.
  destruct Hcl as [He|[He Hsmall]].
  - split; intros Hz; rewrite Hz in *; nia.
  - split; intros Hz; rewrite Hz in *; nia.
Qed.

Lemma div_half_up_unique n d h : 0 < d → 2 * n - d < 2 * d * h ≤ 2 * n + d → div_half_up n d = h.
Proof.
  intros Hd Hb. unfold div_half_up. symmetry.
  apply (Z.div_unique_pos _ _ _ (2 * n + d - 2 * d * h)); lia.
Qed.

Lemma close_half_up c k n d :
  0 ≤ n → 0 < d → close 1 c k n d → div_half_up c (10 ^ k) = div_half_up n d.
Proof.
  intros Hn Hd (Hk & Hc & Hcl). assert (Hp : 0 < 10 ^ k) by (apply Z.pow_pos_nonneg; lia).
  apply div_half_up_unique; [done|].
  pose proof (div_half_up_spec n d Hd) as Hh. set (h := div_half_up n d) in *.
  destruct Hcl as [He|[He Hsmall]]; [split; nia|].
  assert (Hk1 : 1 ≤ k) by (destruct (decide (k = 0)) as [->|]; lia).
  assert (10 ^ k = 10 ^ (k - 1) * 10) as HK
    by (rewrite <-(Z.pow_1_r 10) at 3; rewrite <-Z.pow_add_r by lia; f_equal; lia).
  set (K' := 10 ^ (k - 1)) in *. rewrite HK in *. clear HK.
  split.
  - assert ((2 * c - (2 * h + 1) * (K' * 10)) * d < 0); [|nia].
    assert (2 * (c * d - n * (K' * 10)) < K' * 10) by lia.
    assert ((2 * n - d + 1) * (K' * 10) ≤ 2 * d * h * (K' * 10)) by nia. nia.
  - assert (0 ≤ 2 * c - (2 * h - 1) * (K' * 10)); [|lia].
    destruct (decide (2 * d * h = 2 * n + d)) as [Ht|Ht].
    + assert ((2 * c - (2 * h - 1) * (K' * 10)) * d > - 2 * d) by nia.
      assert (2 * c - (2 * h - 1) * (K' * 10) > -2) by nia. lia.
    + assert (0 ≤ (2 * c - (2 * h - 1) * (K' * 10)) * d); [|nia].
      assert (2 * d * h * (K' * 10) ≤ (2 * n + d - 1) * (K' * 10)) by nia. nia.
Qed.

(** [int] and half-up rounding of a non-negative decimal with [k] decimals. *)
Lemma to_int_scaled c k : 0 ≤ c → 0 ≤ k → to_int (Dec c (- k)) = c / 10 ^ k.
Proof.
  intros Hc Hk. unfold to_int; cbn [coef dexp].
  destruct (Z.leb_spec 0 (- k)).
  - replace k with 0 by lia. cbn. by rewrite Z.mul_1_r, Z.div_1_r.
  - rewrite Z.opp_involutive. apply Z.quot_div_nonneg; [done|].
    apply Z.pow_pos_nonneg; lia.
Qed.

Lemma quantize_scaled c k : 0 ≤ c → 0 ≤ k → quantize_half_up (Dec c (- k)) = div_half_up c (10 ^ k).
Proof.
  intros Hc Hk. unfold quantize_half_up, rescale; cbn [coef dexp].
  destruct (Z.leb_spec 0 (- k)); cbn [coef].
  - assert (k = 0) as -> by lia. change (c * 1 = div_half_up c 1).
    symmetry. apply div_half_up_unique; lia.
  - rewrite Z.sub_0_l, Z.opp_involutive, Z.abs_eq by lia.
    destruct (decide (c = 0)) as [->|]; [|rewrite Z.sgn_pos by lia; lia].
    cbn. symmetry. apply div_half_up_unique; [apply Z.pow_pos_nonneg; lia|].
    assert (0 < 10 ^ k) by (apply Z.pow_pos_nonneg; lia). lia.
Qed.

Lemma div_half_up_scale n d m : 0 < d → 0 < m → div_half_up (n * m) (d * m) = div_half_up n d.
Proof.
  intros Hd Hm. apply div_half_up_unique; [nia|].
  pose proof (div_half_up_spec n d Hd). nia.
Qed.

Lemma div_half_up_nonneg n d : 0 ≤ n → 0 < d → 0 ≤ div_half_up n d.
Proof. intros. unfold div_half_up. apply Z.div_pos; lia. Qed.

Lemma div_half_up_mono n n' d : 0 < d → n ≤ n' → div_half_up n d ≤ div_half_up n' d.
Proof. intros. unfold div_half_up. apply Z.div_le_mono; lia. Qed.

Lemma div_half_up_exact h d : 0 < d → div_half_up (h * d) d = h.
Proof. intros. apply div_half_up_unique; lia. Qed.

(** Half-up rounding of a quotient whose divisor has [m] decimals, or whose dividend has. *)
Lemma half_up_quotient n d m c k :
  0 ≤ n → 0 < d → 0 ≤ m → close (10 ^ m) c k n d →
  quantize_half_up (Dec c (m - k)) = div_half_up (n * 10 ^ m) d.
Proof.
  intros Hn Hd Hm (Hk & Hc & Hcl). assert (Hp : 0 < 10 ^ m) by (apply Z.pow_pos_nonneg; lia).
  destruct (decide (m ≤ k)) as [Hmk|Hmk].
  - replace (m - k) with (- (k - m)) by lia. rewrite quantize_scaled by lia.
    assert (10 ^ k = 10 ^ m * 10 ^ (k - m)) as Hsp by (rewrite <-Z.pow_add_r by lia; f_equal; lia).
    apply close_half_up; [nia|done|]. split; [lia|]. split; [done|]. rewrite Hsp in Hcl.
    destruct Hcl as [?|[? ?]]; [left; nia|right].
    rewrite <-!Z.mul_assoc. split; [lia|]. nia.
  - assert (10 ^ m = 10 ^ k * 10 ^ (m - k)) as Hsp by (rewrite <-Z.pow_add_r by lia; f_equal; lia).
    assert (0 < 10 ^ (m - k)) by (apply Z.pow_pos_nonneg; lia).
    assert (0 < 10 ^ k) by (apply Z.pow_pos_nonneg; lia).
    destruct Hcl as [Hex|[_ Hsm]]; [|nia].
    unfold quantize_half_up, rescale; cbn [coef dexp].
    destruct (Z.leb_spec 0 (m - k)); [|lia]. cbn [coef]. rewrite Z.sub_0_r.
    symmetry. rewrite Hsp, Z.mul_assoc, <-Hex.
    replace (c * d * 10 ^ (m - k)) with (c * 10 ^ (m - k) * d) by ring. by apply div_half_up_exact.
Qed.

Lemma half_up_dividend n d m c k :
  0 ≤ n → 0 < d → 0 ≤ m → close 1 c k n d →
  quantize_half_up (Dec c (- m - k)) = div_half_up n (d * 10 ^ m).
Proof.
  intros Hn Hd Hm (Hk & Hc & Hcl). assert (Hp : 0 < 10 ^ m) by (apply Z.pow_pos_nonneg; lia).
  replace (- m - k) with (- (m + k)) by lia. rewrite quantize_scaled by lia.
  apply close_half_up; [done|nia|]. split; [lia|]. split; [done|].
  rewrite Z.pow_add_r by lia. destruct Hcl as [?|[? ?]]; [left; nia|right].
  split; [|nia].
  replace (c * (d * 10 ^ m) - n * (10 ^ m * 10 ^ k)) with ((c * d - n * 10 ^ k) * 10 ^ m) by ring.
  rewrite Z.abs_mul, (Z.abs_eq (10 ^ m)) by lia. nia.
Qed.

(** Products of integers that fit the precision are exact. *)
Lemma dmul_exact x y :
  Z.abs (coef x * coef y) < 10 ^ prec → dmul x y = Dec (coef x * coef y) (dexp x + dexp y).
Proof. intros. unfold dmul. by rewrite fix_prec_small. Qed.

End Decimal.
