(* ===== verification/Errors.v ===== *)
(** * The exceptions of the program and the HTTP status each one answers with

    One type per exceptions module, its classes as constructors carrying what the exception
    object carries; [Err] is their sum together with the three errors raised by the layers below
    (an [IntegrityError] names the violated constraint or trigger). *)

From S2P Require Import Prelude.

Local Open Scope string_scope.

(** ** [app/core/exceptions.py]: the families, and the status the handlers give them *)

Inductive Family :=
  | NotFoundError | ConflictError | ForbiddenError | UnauthorizedError | InvalidStateError
  | BadRequestError | ServiceUnavailableError | UpstreamServiceError | OtherError.

#[export] Instance Family_eq_dec : EqDecision Family.
Proof. solve_decision. Defined.

(** [register_exception_handlers] *)
Definition http_status (f : Family) : Z :=
  match f with
  | NotFoundError => 404
  | ConflictError => 409
  | ForbiddenError => 403
  | UnauthorizedError => 401
  | BadRequestError => 400
  | UpstreamServiceError => 502
  | InvalidStateError => 422
  | ServiceUnavailableError => 503
  | OtherError => 500
  end.

Record ErrInfo := Info { ei_family : Family; ei_code : option string; ei_message : string }.

(** ** [app/core/money.py] *)
Inductive MoneyErr :=
  | UnsupportedCurrencyError (code : string)
  | StoreCurrencyNotConfiguredError
  | CurrencyNotPayableError (code reason : string)
  | InvalidMoneyError (message : string).

Definition money_err_info (e : MoneyErr) : ErrInfo :=
  match e with
  | UnsupportedCurrencyError c =>
      Info InvalidStateError (Some "currency_unsupported")
        ("Currency '" +:+ c +:+ "' is not supported by this platform")
  | StoreCurrencyNotConfiguredError =>
      Info ServiceUnavailableError (Some "store_currency_not_configured")
        "The store currency is not configured"
  | CurrencyNotPayableError c reason =>
      Info ServiceUnavailableError (Some reason)
        ("Payments in '" +:+ c +:+ "' are not available (" +:+ reason +:+ ")")
  | InvalidMoneyError m => Info InvalidStateError (Some "invalid_money_amount") m
  end.

(** ** [app/modules/cart/exceptions/cart_exceptions.py] *)
Inductive CartErr :=
  | CartItemNotFoundError (item_id : Z)
  | InsufficientStockError (available : Z)
  | ProductUnavailableError
  | CartFullError (limit : Z)
  | VariantRequiredError
  | VariantUnavailableError.

(** [show]: whether the store shows the number ([available <= low_stock_display_threshold], or
    exact stock is public). *)
Definition cart_err_info (show : Z → bool) (e : CartErr) : ErrInfo :=
  match e with
  | CartItemNotFoundError _ => Info NotFoundError None "Cart item not found"
  | InsufficientStockError a =>
      Info InvalidStateError (Some "insufficient_stock")
        (if show a then "Only " +:+ str_Z a +:+ " unit(s) available in stock"
         else "Not enough stock for that quantity")
  | ProductUnavailableError =>
      Info InvalidStateError (Some "product_unavailable") "This product is no longer available"
  | CartFullError limit =>
      Info ConflictError (Some "cart_full")
        ("A cart can hold at most " +:+ str_Z limit +:+ " different products. "
         +:+ "Remove one, or check out, before adding another.")
  | VariantRequiredError =>
      Info InvalidStateError (Some "variant_required")
        "This product comes in options: choose a variant (send variant_id)"
  | VariantUnavailableError =>
      Info InvalidStateError (Some "variant_unavailable") "This option is not available"
  end.

(** ** [app/modules/coupons/exceptions/coupon_exceptions.py] *)
Inductive CouponErr :=
  | CouponInvalidError
  | CouponMinimumNotMetError (minimum_cents : Z)
  | CouponLimitReachedError
  | CouponNotApplicableError (reason : string)
  | CouponSettingsInvalidError (message : string)
  | CouponNotFoundError
  | CouponCodeExistsError
  | CouponInUseError (what : string).

Definition coupon_err_info (e : CouponErr) : ErrInfo :=
  match e with
  | CouponInvalidError => Info InvalidStateError (Some "coupon_invalid") "This coupon code is not valid"
  | CouponMinimumNotMetError _ =>
      Info InvalidStateError (Some "coupon_minimum_not_met")
        "Your order does not reach the minimum for this coupon"
  | CouponLimitReachedError =>
      Info InvalidStateError (Some "coupon_limit_reached")
        "This coupon has been used the maximum number of times"
  | CouponNotApplicableError reason => Info InvalidStateError (Some "coupon_not_applicable") reason
  | CouponSettingsInvalidError m => Info InvalidStateError (Some "coupon_settings_invalid") m
  | CouponNotFoundError => Info NotFoundError (Some "coupon_not_found") "Coupon not found"
  | CouponCodeExistsError =>
      Info ConflictError (Some "coupon_code_exists") "A coupon with this code already exists"
  | CouponInUseError what =>
      Info ConflictError (Some "coupon_in_use")
        ("This coupon has been used by orders, so you cannot " +:+ what
         +:+ ". Switch it off instead (active: false).")
  end.

(** ** [app/modules/orders/exceptions/order_exceptions.py] *)
Record PriceChange := MkPriceChange {
  pc_product_id : Z; pc_name : string; pc_old_price_cents : Z; pc_new_price_cents : Z;
  pc_variant : option (Z * string) (* variant_id and sku, for a variant line *)
}.

Inductive OrderErr :=
  | DeliveryNotAvailableError (reason : option string)
  | EmptyCartError
  | OrderNotFoundError (order_id : string)
  | InvalidStatusTransitionError (from_status to_status : string)
  | OrderAccessForbiddenError
  | IdempotencyKeyConflictError
  | PriceChangedError (changes : list PriceChange) (new_subtotal_cents : Z)
  | CheckoutNotConfiguredError
  | ShippingAddressRequiredError
  | GuestEmailRequiredError
  | ProductTaxUnassignedError (product_ids : list Z)
  | StatusChangeNotAllowedError (message : string)
  | CancellationNotAllowedError (status : string)
  | CancellationUnconfirmedError
  | PaymentInProgressError
  | CancelAndRefundNotAllowedError (status : string)
  | OrderCurrencyAlreadyKnownError
  | CurrencyConflictsWithPaymentError (payment_currency : string)
  | EvidenceNotSpecificToOrderError (why : string)
  | StoreHistoryAmbiguousError (why : string).

Definition order_err_info (e : OrderErr) : ErrInfo :=
  match e with
  | DeliveryNotAvailableError _ =>
      Info InvalidStateError (Some "delivery_not_available") "We cannot deliver to this address."
  | EmptyCartError => Info InvalidStateError None "Cannot check out an empty cart"
  | OrderNotFoundError _ => Info NotFoundError None "Order not found"
  | InvalidStatusTransitionError a b =>
      Info InvalidStateError None ("Cannot transition order from " +:+ a +:+ " to " +:+ b)
  | OrderAccessForbiddenError => Info ForbiddenError None "You do not have access to this order"
  | IdempotencyKeyConflictError =>
      Info ConflictError (Some "idempotency_key_reused")
        ("This Idempotency-Key was already used with a different request. "
         +:+ "Use a new key for a different checkout.")
  | PriceChangedError _ _ =>
      Info ConflictError None "Prices changed since you added these items. Review the new total."
  | CheckoutNotConfiguredError =>
      Info ServiceUnavailableError (Some "checkout_not_configured")
        "Checkout is temporarily unavailable: shipping and tax are not configured."
  | ShippingAddressRequiredError =>
      Info InvalidStateError None
        ("A shipping address is required to check out -- pass either "
         +:+ "address_id (a saved address) or shipping_address")
  | GuestEmailRequiredError =>
      Info InvalidStateError None "An email address is required for guest checkout"
  | ProductTaxUnassignedError ids =>
      Info InvalidStateError (Some "product_tax_unassigned")
        ("These items cannot be ordered yet because their tax classification is not approved: product "
         +:+ String.concat ", " (map str_Z (sortZ ids)))
  | StatusChangeNotAllowedError m => Info ConflictError (Some "status_change_not_allowed") m
  | CancellationNotAllowedError s =>
      Info ConflictError (Some "cancellation_not_allowed")
        ("An order in status '" +:+ s +:+ "' cannot be cancelled. "
         +:+ "Paid orders are handled through a refund, which an administrator requests.")
  | CancellationUnconfirmedError =>
      Info ConflictError (Some "cancellation_unconfirmed")
        ("The order could not be cancelled yet because the payment provider could not confirm the "
         +:+ "payment state. Nothing was changed; this is being reconciled. Try again shortly.")
  | PaymentInProgressError =>
      Info ConflictError (Some "payment_in_progress")
        "A payment for this order is already in progress or completed, so it cannot be cancelled"
  | CancelAndRefundNotAllowedError s =>
      let hint :=
        if decide (s = "pending") then "An unpaid order is cancelled with POST /orders/{id}/cancel."
        else if decide (s = "fulfilled") then
          "A fulfilled order has shipped: refund it with POST /payments/{order_id}/refund (no automatic restock)."
        else "Only a paid, not yet fulfilled order can be cancelled with a refund." in
      Info ConflictError (Some "cancel_and_refund_not_allowed")
        ("An order in status '" +:+ s +:+ "' cannot be cancelled with a refund. " +:+ hint)
  | OrderCurrencyAlreadyKnownError =>
      Info ConflictError (Some "order_currency_known")
        "This order already has a recorded currency, which can never be changed"
  | CurrencyConflictsWithPaymentError c =>
      Info ConflictError (Some "currency_conflicts_with_payment")
        ("A payment for this order was recorded in '" +:+ c +:+ "', which cannot be changed. "
         +:+ "The order's currency cannot be established as anything else; review the records with the provider.")
  | EvidenceNotSpecificToOrderError why =>
      Info InvalidStateError (Some "evidence_not_specific_to_order")
        ("The evidence cannot establish this order's currency: " +:+ why
         +:+ ". Left unresolved for manual review.")
  | StoreHistoryAmbiguousError why =>
      Info InvalidStateError (Some "store_history_ambiguous")
        ("Store history cannot establish this order's currency: " +:+ why
         +:+ ". Left unresolved for manual review.")
  end.

(** ** [app/modules/payments/exceptions/payment_exceptions.py] *)
Inductive PaymentErr :=
  | PaymentNotFoundError
  | OrderNotPayableError (message : string)
  | OrderNotRefundableError (message : string)
  | LivePaymentsDisabledError
  | PaymentInconsistentError (message : string)
  | ReconciliationNotOpenError
  | PaymentDisputedError
  | OrderCurrencyUnknownError
  | PartialRefundNotSupportedError
  | RefundAlreadyRequestedError (cancelling : bool).

Definition payment_err_info (e : PaymentErr) : ErrInfo :=
  match e with
  | PaymentNotFoundError => Info NotFoundError None "Payment not found"
  | OrderNotPayableError m => Info InvalidStateError None m
  | OrderNotRefundableError m => Info InvalidStateError None m
  | LivePaymentsDisabledError =>
      Info ServiceUnavailableError (Some "live_payments_disabled") "Live payments are disabled"
  | PaymentInconsistentError m => Info InvalidStateError (Some "payment_inconsistent") m
  | ReconciliationNotOpenError =>
      Info InvalidStateError (Some "reconciliation_not_open")
        "This reconciliation record does not exist or is already resolved"
  | PaymentDisputedError =>
      Info InvalidStateError (Some "payment_disputed")
        "This payment has an open dispute and cannot be refunded until it is resolved"
  | OrderCurrencyUnknownError =>
      Info InvalidStateError (Some "order_currency_unknown")
        ("This order has no recorded currency, so it cannot be refunded or paid. An administrator must "
         +:+ "establish its currency from reliable records first (GET /admin/orders/unknown-currency).")
  | PartialRefundNotSupportedError =>
      Info InvalidStateError (Some "partial_refund_not_supported")
        ("Part of this payment has already been refunded at the provider. NovaCart initiates full refunds only: "
         +:+ "complete the remaining refund in the provider's dashboard, where it will be recorded here.")
  | RefundAlreadyRequestedError cancelling =>
      Info ConflictError (Some "refund_already_requested")
        ("A refund for this payment is already in progress"
         +:+ (if cancelling then " as part of a cancellation" else " without cancelling the order"))
  end.

(** ** [app/core/payments/exceptions.py], and the plain [NotFoundError] of a webhook for a provider that is not configured.
    A timeout is a [PaymentProviderError] as well. *)
Inductive ProviderErr :=
  | InvalidWebhookSignatureError
  | InvalidWebhookPayloadError
  | UnknownProviderError (message : string)
  | PaymentProviderError (message : string)
  | PaymentProviderTimeoutError (message : string).

Definition provider_err_info (e : ProviderErr) : ErrInfo :=
  match e with
  | InvalidWebhookSignatureError => Info BadRequestError None "Invalid webhook signature"
  | InvalidWebhookPayloadError => Info BadRequestError None "Invalid webhook payload"
  | UnknownProviderError m => Info NotFoundError None m
  | PaymentProviderError _ =>
      Info UpstreamServiceError None "The payment provider is unavailable. Please try again."
  | PaymentProviderTimeoutError _ =>
      Info UpstreamServiceError None "The payment provider did not respond in time. Please try again."
  end.

(** ** [app/modules/payments/exceptions/provider_exceptions.py] *)
Inductive ProviderConfigErr :=
  | PaymentProviderUnavailableError (code message : string)
  | ProviderConfigNotFoundError
  | ProviderConfigConflictError (code message : string)
  | ProviderConfigInvalidError (code message : string)
  | ProviderNotReadyError (blockers : list string)
  | LivePaymentsActiveError (what : string)
  | LiveActivationBlockedError (blockers : list string).

Definition provider_config_err_info (e : ProviderConfigErr) : ErrInfo :=
  match e with
  | PaymentProviderUnavailableError c m => Info ServiceUnavailableError (Some c) m
  | ProviderConfigNotFoundError =>
      Info NotFoundError (Some "provider_config_not_found") "Payment provider configuration not found"
  | ProviderConfigConflictError c m => Info ConflictError (Some c) m
  | ProviderConfigInvalidError c m => Info InvalidStateError (Some c) m
  | ProviderNotReadyError b =>
      Info ConflictError (Some "provider_not_ready") ("This provider cannot be enabled yet: " +:+ String.concat ", " b)
  | LivePaymentsActiveError what =>
      Info ConflictError (Some "live_payments_active")
        ("Live payments are active, so you cannot " +:+ what +:+ ". Deactivate live payments first (an explicit step).")
  | LiveActivationBlockedError b =>
      Info ConflictError (Some "live_activation_blocked") ("Live payments cannot be activated yet: " +:+ String.concat ", " b)
  end.

(** ** [app/core/secrets.py] and [app/modules/store/exceptions/store_exceptions.py] *)
Inductive SecretErr := SecretStorageNotConfiguredError | SecretUnreadableError.
Definition secret_err_info (e : SecretErr) : ErrInfo :=
  match e with
  | SecretStorageNotConfiguredError =>
      Info ServiceUnavailableError (Some "secret_storage_not_configured")
        "Credential storage is not configured on this deployment (PROVIDER_SECRETS_KEY is not set)"
  | SecretUnreadableError =>
      Info ServiceUnavailableError (Some "secret_unreadable") "A stored credential cannot be decrypted with the configured keys"
  end.
Inductive StoreErr := StoreCurrencyLockedError.
Definition store_err_info (e : StoreErr) : ErrInfo :=
  match e with
  | StoreCurrencyLockedError =>
      Info ConflictError (Some "store_currency_locked")
        ("The store currency is fixed once it has been set and cannot be changed. "
         +:+ "Orders keep the currency they were placed in.")
  end.

(** ** Tax engine errors ([app/modules/tax/engine.py]) *)
Record TaxBlocker := MkBlocker { bl_product_id : option Z; bl_reason : string }.

Inductive TaxErr :=
  | TaxNotConfiguredError
  | TaxEngineUnavailableError (message : string)
  | DeliveryStateUnknownError (state : option string)
  | DeliveryCountryNotSupportedError
  | TaxCalculationBlockedError (blockers : list TaxBlocker).

Definition tax_err_info (e : TaxErr) : ErrInfo :=
  match e with
  | TaxNotConfiguredError =>
      Info ServiceUnavailableError (Some "tax_not_configured") "Tax calculation is not configured"
  | TaxEngineUnavailableError m => Info ServiceUnavailableError (Some "tax_engine_not_implemented") m
  | DeliveryStateUnknownError st =>
      let shown := match st with
                   | Some s => if decide (s = "") then "" else " '" +:+ s +:+ "'"
                   | None => "" end in
      Info InvalidStateError (Some "delivery_state_unknown")
        ("We could not recognise the delivery state" +:+ shown +:+ ". Please choose the state from the list.")
  | DeliveryCountryNotSupportedError =>
      Info InvalidStateError (Some "delivery_country_not_supported")
        "Delivery outside India is not supported"
  | TaxCalculationBlockedError bs =>
      let detail := String.concat "; " (map (λ b,
        match bl_product_id b with
        | Some p => "product " +:+ str_Z p +:+ " (" +:+ bl_reason b +:+ ")"
        | None => "configuration (" +:+ bl_reason b +:+ ")"
        end) bs) in
      Info InvalidStateError (Some "tax_calculation_blocked")
        ("Tax cannot be determined for: " +:+ detail)
  end.

(** ** The tax masters ([app/modules/tax/exceptions/tax_exceptions.py]) *)
Inductive TaxMasterErr :=
  | TaxRecordNotFoundError (what : string)
  | DuplicateClassificationError
  | DuplicateRegistrationError
  | InvalidTaxTransitionError (action status : string)
  | ImmutableTaxRecordError
  | ApprovalRequiresDistinctApproverError
  | SelfApprovalNoteRequiredError
  | ApprovalPrerequisiteError (message : string)
  | RuleOverlapError
  | ClassificationInUseError (reason : string)
  | InvalidTaxInputError (message : string)
  | SettingsOverlapError
  | RegistrationInUseError.

Definition tax_master_err_info (e : TaxMasterErr) : ErrInfo :=
  match e with
  | TaxRecordNotFoundError w => Info NotFoundError (Some "tax_record_not_found") (w +:+ " not found")
  | DuplicateClassificationError =>
      Info ConflictError (Some "classification_exists") "A classification with this kind and code already exists"
  | DuplicateRegistrationError => Info ConflictError (Some "registration_exists") "A registration with this GSTIN already exists"
  | InvalidTaxTransitionError a st =>
      Info ConflictError (Some "tax_master_invalid_transition") ("Cannot " +:+ a +:+ " a record in status '" +:+ st +:+ "'")
  | ImmutableTaxRecordError =>
      Info ConflictError (Some "tax_master_immutable")
        "Only draft records can be edited. Approved records are closed or retired and replaced by a new record."
  | ApprovalRequiresDistinctApproverError =>
      Info ForbiddenError (Some "approval_requires_distinct_approver") "A record cannot be approved by the administrator who created it"
  | SelfApprovalNoteRequiredError => Info InvalidStateError (Some "self_approval_note_required") "Self-approval requires a written note"
  | ApprovalPrerequisiteError m => Info InvalidStateError (Some "approval_prerequisite_missing") m
  | RuleOverlapError => Info ConflictError (Some "rule_overlap") "An approved rule already applies to this classification in that period"
  | ClassificationInUseError r => Info ConflictError (Some "classification_in_use") ("This classification cannot be retired: " +:+ r)
  | InvalidTaxInputError m => Info InvalidStateError (Some "tax_master_invalid_input") m
  | SettingsOverlapError =>
      Info ConflictError (Some "settings_overlap")
        "An approved tax configuration already applies in that period. Retire it first, then approve the new one."
  | RegistrationInUseError =>
      Info ConflictError (Some "registration_in_use") "This registration is used by a tax configuration that is not retired"
  end.

(** ** Invoices ([app/modules/invoices/exceptions/invoice_exceptions.py]) and addresses *)
Inductive InvoiceErr :=
  | InvoiceNotFoundError
  | BusinessProfileIncompleteError
  | InvoiceNotApplicableError (message : string).

Definition invoice_err_info (e : InvoiceErr) : ErrInfo :=
  match e with
  | InvoiceNotFoundError =>
      Info NotFoundError (Some "invoice_not_found") "No invoice has been issued for this order"
  | BusinessProfileIncompleteError =>
      Info InvalidStateError (Some "business_profile_incomplete")
        "A GST invoice cannot be issued until the business profile (address, state, invoice prefix) is set: PUT /admin/business-profile"
  | InvoiceNotApplicableError m => Info InvalidStateError (Some "invoice_not_applicable") m
  end.

Inductive AddressErr :=
  | AddressNotFoundError (address_id : Z)
  | AddressLimitReachedError (limit : Z).

Definition address_err_info (e : AddressErr) : ErrInfo :=
  match e with
  | AddressNotFoundError i =>
      Info NotFoundError None ("Address with id " +:+ str_Z i +:+ " not found")
  | AddressLimitReachedError n =>
      Info ConflictError None
        ("You can save at most " +:+ str_Z n +:+ " addresses. Delete one before adding another.")
  end.

(** ** Returns ([app/modules/returns/exceptions/return_exceptions.py]) and shipments
    ([app/modules/shipments/exceptions/shipment_exceptions.py]) *)
Inductive ReturnErr :=
  | ReturnNotFoundError
  | ReturnsDisabledError
  | OrderNotShippedError
  | ReturnWindowClosedError (days : Z)
  | NothingReturnableError
  | ReturnItemInvalidError (message : string)
  | ReturnQuantityExceededError (returnable : Z)
  | ReturnStateError (status action : string)
  | ReturnNotFullError
  | ReturnReceiptInvalidError (message : string).

Definition return_err_info (e : ReturnErr) : ErrInfo :=
  match e with
  | ReturnNotFoundError => Info NotFoundError (Some "return_not_found") "Return not found"
  | ReturnsDisabledError =>
      Info InvalidStateError (Some "returns_disabled")
        "This store does not accept online return requests. Please contact the store."
  | OrderNotShippedError =>
      Info InvalidStateError (Some "order_not_shipped") "Only an order that has been shipped can be returned"
  | ReturnWindowClosedError days =>
      Info InvalidStateError (Some "return_window_closed")
        ("The " +:+ str_Z days +:+ "-day return period for this order has ended")
  | NothingReturnableError =>
      Info InvalidStateError (Some "nothing_returnable") "Everything in this order is already part of a return request"
  | ReturnItemInvalidError m => Info InvalidStateError (Some "return_item_invalid") m
  | ReturnQuantityExceededError n =>
      Info InvalidStateError (Some "return_quantity_exceeded") ("You can return at most " +:+ str_Z n +:+ " of this item")
  | ReturnStateError s a =>
      Info ConflictError (Some "return_invalid_state") ("This return is " +:+ s +:+ ", so it cannot be " +:+ a)
  | ReturnNotFullError =>
      Info ConflictError (Some "return_not_full")
        ("NovaCart refunds a whole order at a time, and this return does not bring back every unit of it. Close the return with the resolution "
         +:+ "'refunded_outside' once you have refunded the customer at your payment provider, or 'replacement_sent' / 'no_refund'.")
  | ReturnReceiptInvalidError m => Info InvalidStateError (Some "return_receipt_invalid") m
  end.

Inductive ShipmentErr :=
  | ShipmentNotFoundError
  | OrderNotShippableError (status : string)
  | DuplicateTrackingError
  | InvalidShipmentStatusChangeError (current new : string).

Definition shipment_err_info (e : ShipmentErr) : ErrInfo :=
  match e with
  | ShipmentNotFoundError => Info NotFoundError (Some "shipment_not_found") "Shipment not found"
  | OrderNotShippableError s =>
      Info ConflictError (Some "order_not_shippable")
        ("A shipment can only be recorded for a paid or fulfilled order (this order is " +:+ s +:+ ")")
  | DuplicateTrackingError =>
      Info ConflictError (Some "duplicate_tracking_number") "This tracking number is already recorded for this order and carrier"
  | InvalidShipmentStatusChangeError a b =>
      Info ConflictError (Some "invalid_shipment_status_change") ("A shipment cannot change from " +:+ a +:+ " to " +:+ b)
  end.

(** ** Accounts: [app/modules/auth/exceptions/auth_exceptions.py] with the two answers of [auth/dependencies/auth.py] and those
    of [graphql/context.py] and of the switch in [main.py],
    [app/modules/users/exceptions/user_exceptions.py], [app/modules/roles/exceptions/role_exceptions.py] *)
Inductive AccountErr :=
  | EmailAlreadyExistsError (email : string)
  | UsernameAlreadyExistsError (username : string)
  | InvalidCredentialsError
  | InvalidRefreshTokenError
  | InvalidAccountTokenError
  | CurrentPasswordIncorrectError
  | SamePasswordError
  | NotAuthenticated
  | GraphqlDisabled
  | CredentialsNotValidated
  | AdministratorRequired
  | UserNotFoundError (user_id : string)
  | ForbiddenActionError (message : string)
  | LastAdminError
  | PermissionDeniedError (permission : string)
  | RoleNotFoundError
  | RoleNameTakenError
  | SystemRoleError
  | RoleInUseError (members : Z)
  | StaffMemberNotFoundError
  | LastRoleManagerError.

Definition account_err_info (e : AccountErr) : ErrInfo :=
  match e with
  | EmailAlreadyExistsError _ =>
      Info ConflictError (Some "email_already_registered") "An account with this email already exists"
  | UsernameAlreadyExistsError _ => Info ConflictError (Some "username_taken") "This username is already taken"
  | InvalidCredentialsError => Info UnauthorizedError None "Incorrect email or password"
  | InvalidRefreshTokenError => Info UnauthorizedError None "Invalid or expired refresh token"
  | InvalidAccountTokenError =>
      Info BadRequestError (Some "invalid_or_expired_token") "This link is invalid or has expired. Request a new one."
  | CurrentPasswordIncorrectError =>
      Info BadRequestError (Some "current_password_incorrect") "The current password is not correct"
  | SamePasswordError =>
      Info BadRequestError (Some "password_unchanged") "The new password must be different from the current one"
  | NotAuthenticated => Info UnauthorizedError None "Not authenticated"
  | GraphqlDisabled => Info NotFoundError None "Not Found"
  | CredentialsNotValidated => Info UnauthorizedError None "Could not validate credentials"
  | AdministratorRequired => Info ForbiddenError None "This action requires administrator privileges"
  | UserNotFoundError _ => Info NotFoundError None "User not found"
  | ForbiddenActionError m => Info ForbiddenError None m
  | LastAdminError =>
      Info ConflictError (Some "last_admin")
        ("This is the last active administrator: demoting or deactivating it would leave nobody able to administer the store. "
         +:+ "Promote or create another administrator first.")
  | PermissionDeniedError _ => Info ForbiddenError (Some "permission_denied") "Your role does not allow this action"
  | RoleNotFoundError => Info NotFoundError (Some "role_not_found") "That role does not exist"
  | RoleNameTakenError => Info ConflictError (Some "role_name_taken") "A role with that name already exists"
  | SystemRoleError =>
      Info InvalidStateError (Some "role_is_system") "System roles (Owner, No access) cannot be changed or deleted"
  | RoleInUseError _ =>
      Info ConflictError (Some "role_in_use") "Move every staff member off this role before deleting it"
  | StaffMemberNotFoundError => Info NotFoundError (Some "staff_member_not_found") "No active administrator with that id"
  | LastRoleManagerError =>
      Info ConflictError (Some "last_role_manager")
        "At least one active administrator must keep the permission to manage roles"
  end.

(** ** The catalogue: [app/modules/categories/exceptions], [app/modules/products/exceptions/product_exceptions.py],
    [app/modules/variants/exceptions/variant_exceptions.py] and [InvalidImageError] of [app/core/exceptions.py] *)
Inductive CatalogueErr :=
  | CategoryNotFoundError (category_id : Z)
  | CategoryNameAlreadyExistsError (name : string)
  | InvalidImageError (message : string)
  | ProductNotFoundError (product_id : Z)
  | SkuAlreadyExistsError (sku : string)
  | StockReasonRequiredError
  | InvalidCategoryError (category_id : Z)
  | InvalidTaxClassificationError (classification_id : Z)
  | ClassificationNotApprovedError (classification_id : Z)
  | ProductTaxRequiredError
  | VariantNotFoundError
  | OptionNotFoundError
  | InvalidVariantSpecError (message : string)
  | OptionsLockedError
  | ProductHasStockError
  | ProductInUseError
  | VariantCombinationExistsError (detail : string)
  | ProductNeedsActiveVariantError
  | UseVariantStockError
  | StockWouldBeNegativeError (current : Z)
  | VariantInUseError
  | OptionValueInUseError
  | AlreadyHasVariantsError
  | StockChangedError (current : Z)
  | StockAllocationMismatchError (allocated stock : Z)
  | ProductHasOpenOrdersError (count : Z)
  | ProductNotConvertibleError (message : string)
  | SkuInUseError (skus : list string).

Definition catalogue_err_info (e : CatalogueErr) : ErrInfo :=
  match e with
  | CategoryNotFoundError i => Info NotFoundError None ("Category with id " +:+ str_Z i +:+ " not found")
  | CategoryNameAlreadyExistsError n => Info ConflictError None ("Category with name '" +:+ n +:+ "' already exists")
  | InvalidImageError m => Info InvalidStateError None m
  | ProductNotFoundError i => Info NotFoundError None ("Product with id " +:+ str_Z i +:+ " not found")
  | SkuAlreadyExistsError s => Info ConflictError None ("A product with SKU '" +:+ s +:+ "' already exists")
  | StockReasonRequiredError =>
      Info InvalidStateError (Some "stock_reason_required") "Changing stock needs a reason (stock_reason, at least 3 characters)"
  | InvalidCategoryError i => Info ConflictError None ("Category with id " +:+ str_Z i +:+ " does not exist or is inactive")
  | InvalidTaxClassificationError i =>
      Info InvalidStateError (Some "tax_classification_invalid") ("Tax classification " +:+ str_Z i +:+ " does not exist")
  | ClassificationNotApprovedError i =>
      Info InvalidStateError (Some "classification_not_approved") ("Tax classification " +:+ str_Z i +:+ " is not approved")
  | ProductTaxRequiredError =>
      Info InvalidStateError (Some "product_tax_classification_required") "An active product needs an approved tax classification"
  | VariantNotFoundError => Info NotFoundError (Some "variant_not_found") "Variant not found"
  | OptionNotFoundError => Info NotFoundError (Some "option_not_found") "Option or option value not found"
  | InvalidVariantSpecError m => Info InvalidStateError (Some "invalid_variant_spec") m
  | OptionsLockedError =>
      Info ConflictError (Some "options_locked")
        "This product already has variants, so its option sets cannot be redefined. Add values to an option instead."
  | ProductHasStockError =>
      Info ConflictError (Some "product_has_stock")
        "This product holds stock of its own. Use POST /products/{id}/convert-to-variants to turn it into a product with options."
  | ProductInUseError =>
      Info ConflictError (Some "product_in_use")
        "This product is already in carts or orders. Use POST /products/{id}/convert-to-variants to turn it into a product with options."
  | VariantCombinationExistsError d => Info ConflictError (Some "variant_combination_exists") d
  | ProductNeedsActiveVariantError =>
      Info ConflictError (Some "product_needs_active_variant") "An active product with options needs at least one active variant"
  | UseVariantStockError =>
      Info InvalidStateError (Some "use_variant_stock")
        "This product has options: its stock lives on its variants. Adjust a variant's stock instead."
  | StockWouldBeNegativeError n =>
      Info InvalidStateError (Some "stock_would_be_negative")
        ("That change would take stock below zero (current stock: " +:+ str_Z n +:+ ")")
  | VariantInUseError =>
      Info ConflictError (Some "variant_in_use")
        "This variant has stock history, or is in a cart or an order, so it cannot be deleted. Set it to inactive instead."
  | OptionValueInUseError => Info ConflictError (Some "option_value_in_use") "A variant uses this value, so it cannot be removed"
  | AlreadyHasVariantsError => Info ConflictError (Some "already_has_variants") "This product already has options"
  | StockChangedError n =>
      Info ConflictError (Some "stock_changed")
        ("The product's stock is now " +:+ str_Z n +:+ ", not the amount you allocated. Nothing was changed.")
  | StockAllocationMismatchError a s =>
      Info InvalidStateError (Some "stock_allocation_mismatch")
        ("The variants' stock adds up to " +:+ str_Z a +:+ " but the product has " +:+ str_Z s
         +:+ ": stock must be allocated exactly, none lost or invented")
  | ProductHasOpenOrdersError n =>
      Info ConflictError (Some "product_has_open_orders")
        (str_Z n +:+ " unpaid or paid-but-unshipped order(s) contain this product, and their stock could not be returned to a variant. "
         +:+ "Finish, ship or cancel them first.")
  | ProductNotConvertibleError m => Info InvalidStateError (Some "product_not_convertible") m
  | SkuInUseError skus =>
      Info ConflictError (Some "sku_already_exists")
        ("SKU already in use by a product or another variant: " +:+ String.concat ", " (sort_str skus))
  end.

(** ** Reviews and wishlists ([app/modules/reviews/exceptions/review_exceptions.py]) *)
Inductive ReviewErr :=
  | ReviewNotFoundError
  | ReviewRequiresPurchaseError
  | AlreadyReviewedError
  | ReviewHiddenError
  | InvalidReviewError (message : string)
  | WishlistFullError (limit : Z).

Definition review_err_info (e : ReviewErr) : ErrInfo :=
  match e with
  | ReviewNotFoundError => Info NotFoundError (Some "review_not_found") "Review not found"
  | ReviewRequiresPurchaseError =>
      Info ForbiddenError (Some "review_requires_purchase") "Only customers who bought this product (a paid or shipped order) can review it"
  | AlreadyReviewedError =>
      Info ConflictError (Some "already_reviewed") "You have already reviewed this product. Edit your review instead."
  | ReviewHiddenError =>
      Info ForbiddenError (Some "review_hidden") "This review was hidden by the store and can no longer be edited"
  | InvalidReviewError m => Info InvalidStateError (Some "invalid_review") m
  | WishlistFullError n => Info ConflictError (Some "wishlist_full") ("A wishlist holds at most " +:+ str_Z n +:+ " products")
  end.

(** ** All of them, and the errors of the layers below *)
Inductive Err :=
  | EMoney (e : MoneyErr)
  | ECart (e : CartErr)
  | ECoupon (e : CouponErr)
  | EOrder (e : OrderErr)
  | EPayment (e : PaymentErr)
  | EProvider (e : ProviderErr)
  | ETax (e : TaxErr)
  | ETaxMaster (e : TaxMasterErr)
  | EInvoice (e : InvoiceErr)
  | EAddress (e : AddressErr)
  | EProviderConfig (e : ProviderConfigErr)
  | EReturn (e : ReturnErr)
  | EShipment (e : ShipmentErr)
  | EAccount (e : AccountErr)
  | ECatalogue (e : CatalogueErr)
  | EReview (e : ReviewErr)
  | ESecret (e : SecretErr)
  | EStore (e : StoreErr)
  | IntegrityError (constraint : string)
  | RuntimeError (message : string)
  | ValueError (message : string).

Coercion EMoney : MoneyErr >-> Err.
Coercion ECart : CartErr >-> Err.
Coercion ECoupon : CouponErr >-> Err.
Coercion EOrder : OrderErr >-> Err.
Coercion EPayment : PaymentErr >-> Err.
Coercion EProvider : ProviderErr >-> Err.
Coercion ETax : TaxErr >-> Err.
Coercion ETaxMaster : TaxMasterErr >-> Err.
Coercion EInvoice : InvoiceErr >-> Err.
Coercion EAddress : AddressErr >-> Err.
Coercion EProviderConfig : ProviderConfigErr >-> Err.
Coercion EReturn : ReturnErr >-> Err.
Coercion EShipment : ShipmentErr >-> Err.
Coercion EAccount : AccountErr >-> Err.
Coercion ECatalogue : CatalogueErr >-> Err.
Coercion EReview : ReviewErr >-> Err.

Definition err_info (show : Z → bool) (e : Err) : ErrInfo :=
  match e with
  | EMoney e => money_err_info e
  | ECart e => cart_err_info show e
  | ECoupon e => coupon_err_info e
  | EOrder e => order_err_info e
  | EPayment e => payment_err_info e
  | EProvider e => provider_err_info e
  | ETax e => tax_err_info e
  | ETaxMaster e => tax_master_err_info e
  | EInvoice e => invoice_err_info e
  | EAddress e => address_err_info e
  | EProviderConfig e => provider_config_err_info e
  | EReturn e => return_err_info e
  | EShipment e => shipment_err_info e
  | EAccount e => account_err_info e
  | ECatalogue e => catalogue_err_info e
  | EReview e => review_err_info e
  | ESecret e => secret_err_info e
  | EStore e => store_err_info e
  | IntegrityError _ => Info ConflictError None "This request conflicts with existing data"
  | RuntimeError _ | ValueError _ => Info OtherError None "An unexpected error occurred"
  end.

Definition err_status (e : Err) : Z := http_status (ei_family (err_info (λ _, false) e)).
