(* ===== verification/Money.v ===== *)
(** * [app/core/money.py]: currencies and the conversion of money

    Amounts are integers of minor units. The conversions go through [Decimal]; the theorems show
    that what is stored comes back unchanged, that rounding is half-up, and that the amount sent
    to the provider is the stored one, only for a currency verified for payments. *)

From S2P Require Import Prelude Decimal Errors.
Import Decimal.

Local Open Scope string_scope.
Local Open Scope list_scope.
Local Open Scope Z_scope.

Record Currency := MkCurrency { code : string; exponent : Z; payment_verified : bool }.

Definition CURRENCIES : list Currency :=
  [ MkCurrency "usd" 2 true; MkCurrency "inr" 2 true; MkCurrency "eur" 2 true;
    MkCurrency "gbp" 2 true; MkCurrency "jpy" 0 true; MkCurrency "krw" 0 false;
    MkCurrency "kwd" 3 false; MkCurrency "bhd" 3 false ].

Definition normalize_code (c : string) : string := py_lower (py_strip c).

Definition get_currency (c : string) : Err + Currency :=
  let normalized := normalize_code c in
  match List.find (λ cur, String.eqb (code cur) normalized) CURRENCIES with
  | Some cur => inr cur
  | None => inl (EMoney (UnsupportedCurrencyError normalized))
  end.

(** What may be handed to [to_minor]; the last two are the refused ones. *)
Inductive amount :=
  | ADecimal (d : dec)
  | AInt (n : Z)
  | AStr (s : string)
  | AFloat
  | ABool (b : bool).

(** [Decimal(text)]: an optional sign, digits with an optional point, an optional exponent. *)
Fixpoint scan_digits (s : string) (acc count : Z) : Z * Z * string :=
  match s with
  | String c r =>
      let n := Z.of_nat (Ascii.nat_of_ascii c) in
      if (48 <=? n) && (n <=? 57) then scan_digits r (acc * 10 + (n - 48)) (count + 1)
      else (acc, count, s)
  | EmptyString => (acc, count, s)
  end.
Definition scan_sign (s : string) : Z * string :=
  match s with
  | String "-"%char r => (-1, r)
  | String "+"%char r => (1, r)
  | _ => (1, s)
  end.
Definition dec_of_string (text : string) : option dec :=
  let '(sign, s0) := scan_sign (py_strip text) in
  let '(ip, n1, s1) := scan_digits s0 0 0 in
  let '(c, n2, s2) := match s1 with
                      | String "."%char r => scan_digits r ip 0
                      | _ => (ip, 0, s1)
                      end in
  if n1 + n2 =? 0 then None
  else
    match s2 with
    | EmptyString => Some (Dec (sign * c) (- n2))
    | String ch r =>
        if Ascii.eqb (lower_ascii ch) "e"%char then
          let '(esign, r0) := scan_sign r in
          let '(ex, n3, r1) := scan_digits r0 0 0 in
          match r1 with
          | EmptyString => if n3 =? 0 then None else Some (Dec (sign * c) (esign * ex - n2))
          | _ => None
          end
        else None
    end.

Definition to_minor (a : amount) (c : string) : Err + Z :=
  match a with
  | AFloat | ABool _ =>
      inl (EMoney (InvalidMoneyError "Binary floating point is not allowed for money"))
  | _ =>
      cur ← get_currency c;
      let convert (value : dec) : Err + Z :=
        inr (quantize_half_up (dmul value (of_Z (10 ^ exponent cur)))) in
      match a with
      | ADecimal d => convert d
      | AInt n => convert (of_Z n)
      | AStr s => match dec_of_string s with
                  | Some d => convert d
                  | None => inl (ValueError "decimal.InvalidOperation")
                  end
      | AFloat | ABool _ =>
          inl (EMoney (InvalidMoneyError "Binary floating point is not allowed for money"))
      end
  end.

(** A minor-unit amount as the code receives it: an [int], or something that is not one. *)
Inductive minor := MInt (n : Z) | MNotInt.

Definition from_minor (m : minor) (c : string) : Err + dec :=
  match m with
  | MNotInt => inl (EMoney (InvalidMoneyError "Minor-unit amounts must be integers"))
  | MInt n =>
      cur ← get_currency c;
      inr (rescale div_half_even (- exponent cur) (ddiv (of_Z n) (of_Z (10 ^ exponent cur))))
  end.

Definition to_stripe_amount (m : minor) (c : string) : Err + Z :=
  cur ← get_currency c;
  if negb (payment_verified cur) then
    inl (EMoney (CurrencyNotPayableError (code cur) "payment_currency_not_verified"))
  else
    match m with
    | MInt n => if n <=? 0
                then inl (EMoney (InvalidMoneyError "A payment amount must be a positive integer in minor units"))
                else inr n
    | MNotInt => inl (EMoney (InvalidMoneyError "A payment amount must be a positive integer in minor units"))
    end.

Definition from_stripe_amount (m : minor) (c : string) : Err + Z :=
  cur ← get_currency c;
  match m with
  | MInt n => inr n
  | MNotInt => inl (EMoney (InvalidMoneyError "Stripe amounts are integers"))
  end.

(** ** Lemmas *)

Lemma get_currency_in c cur : get_currency c = inr cur → cur ∈ CURRENCIES.
Proof.
  unfold get_currency. destruct (List.find _ _) eqn:Hf; [|done]. intros [= ->].
  apply List.find_some in Hf as [? _]. by apply list_elem_of_In.
Qed.

Lemma exponent_range c cur : get_currency c = inr cur → 0 ≤ exponent cur ≤ 3.
Proof.
  intros H%get_currency_in. unfold CURRENCIES in H.
  repeat (apply elem_of_cons in H as [->|H]; [cbn; lia|]). by apply elem_of_nil in H.
Qed.

(** A code is recognised whatever its case and surrounding white space. *)
Lemma get_currency_normalized c cur : get_currency c = inr cur → code cur = normalize_code c.
Proof.
  unfold get_currency. destruct (List.find _ _) eqn:Hf; [|done]. intros [= ->].
  apply List.find_some in Hf as [_ ?]. by apply String.eqb_eq.
Qed.

(** Dividing by the unit and rescaling gives the minor units back, whatever the precision did. *)
Lemma from_minor_value n c cur :
  0 ≤ n < 10 ^ 26 → get_currency c = inr cur →
  from_minor (MInt n) c = inr (Dec n (- exponent cur)).
Proof.
  intros Hn Hc. unfold from_minor. rewrite Hc. cbn [mbind sum_bind]. f_equal.
  pose proof (exponent_range _ _ Hc) as He. set (e := exponent cur) in *.
  assert (Hd : 0 < 10 ^ e) by (apply Z.pow_pos_nonneg; lia).
  destruct (ddiv_close n (10 ^ e) 0 0 Hn Hd) as (q & k & Hq & _ & Hk & Hq0 & Hcl).
  unfold of_Z. rewrite Hq. replace (0 - 0 - k) with (- k) by lia.
  assert (Hp : 0 < 10 ^ k) by (apply Z.pow_pos_nonneg; lia).
  unfold rescale; cbn [coef dexp]. destruct (Z.leb_spec (- e) (- k)) as [Hle|Hgt].
  - destruct Hcl as [Hex|[_ Hsm]].
    + f_equal. replace (- k - - e) with (e - k) by lia.
      assert (10 ^ e = 10 ^ (e - k) * 10 ^ k) as Hsp by (rewrite <-Z.pow_add_r by lia; f_equal; lia).
      rewrite Hsp in Hex. nia.
    + assert (10 ^ k ≤ 10 ^ e) by (apply Z.pow_le_mono_r; lia). lia.
  - replace (- e - - k) with (k - e) by lia.
    assert (Hp' : 0 < 10 ^ (k - e)) by (apply Z.pow_pos_nonneg; lia).
    assert (10 ^ k = 10 ^ (k - e) * 10 ^ e) as Hsp by (rewrite <-Z.pow_add_r by lia; f_equal; lia).
    assert (q = n * 10 ^ (k - e)) as ->.
    { rewrite Hsp in Hcl. destruct Hcl as [Hex|[Hlt _]]; [nia|].
      assert (Z.abs ((q - n * 10 ^ (k - e)) * 10 ^ e) < 1 * 10 ^ e) as Hab
        by (rewrite <-(Z.mul_1_l (10 ^ e)) in Hlt at 3; replace ((q - n * 10 ^ (k - e)) * 10 ^ e)
              with (q * 10 ^ e - n * (10 ^ (k - e) * 10 ^ e)) by ring; lia).
      rewrite Z.abs_mul, (Z.abs_eq (10 ^ e)) in Hab by lia. nia. }
    f_equal. rewrite Z.abs_eq by nia. unfold div_half_even.
    rewrite Z.mod_mul, Z.div_mul by lia.
    destruct (Z.ltb_spec (2 * 0) (10 ^ (k - e))); [|lia].
    destruct (decide (n = 0)) as [->|]; [done|]. rewrite Z.sgn_pos by nia. lia.
Qed.

(** ** Properties *)

(** Converting an amount of minor units to a decimal amount and back gives the
    same amount, in every supported currency, through Python's 28-digit division and half-up
    quantization. *)
Theorem to_minor_from_minor n c cur :
  0 ≤ n < 10 ^ 25 → get_currency c = inr cur →
  (from_minor (MInt n) c ≫= λ d, to_minor (ADecimal d) c) = inr n.
Proof.
  intros Hn Hc. rewrite (from_minor_value n c cur) by (done || lia).
  cbn [mbind sum_bind to_minor]. rewrite Hc. cbn [mbind sum_bind]. f_equal.
  pose proof (exponent_range _ _ Hc) as He.
  assert (1 ≤ 10 ^ exponent cur ≤ 10 ^ 3) as Hp.
  { split; [change 1 with (10 ^ 0)|]; apply Z.pow_le_mono_r; lia. }
  change (10 ^ 3) with 1000 in Hp. change (10 ^ 25) with 10000000000000000000000000 in Hn.
  rewrite dmul_exact; cbn [coef dexp of_Z].
  - rewrite Z.add_0_r, quantize_scaled by nia. apply div_half_up_exact. lia.
  - rewrite Z.abs_eq by nia. change (10 ^ prec) with 10000000000000000000000000000. nia.
Qed.

Lemma to_minor_from_minor_witness :
  get_currency "KWD " = inr (MkCurrency "kwd" 3 false) ∧
  (from_minor (MInt 1234567) "KWD " ≫= λ d, to_minor (ADecimal d) "KWD ") = inr 1234567.
Proof.
  split; [reflexivity|].
  apply (to_minor_from_minor 1234567 "KWD " (MkCurrency "kwd" 3 false)); [lia|reflexivity].
Defined.

(** The amount sent to the payment provider is exactly
    the stored one, and is produced only for a supported currency verified for payments and a
    positive integer; reading it back gives the stored amount. *)
Theorem to_stripe_amount_spec m c r :
  to_stripe_amount m c = inr r ↔
  ∃ cur n, get_currency c = inr cur ∧ payment_verified cur = true ∧ m = MInt n ∧ 0 < n ∧ r = n
           ∧ from_stripe_amount (MInt r) c = inr n.
Proof.
  unfold to_stripe_amount, from_stripe_amount.
  destruct (get_currency c) as [e|cur] eqn:Hc; cbn [mbind sum_bind].
  { split; [done|]. intros (?&?&?&_). done. }
  destruct (payment_verified cur) eqn:Hv; cbn [negb].
  2: { split; [done|]. intros (?&?&?&?&_). simplify_eq. congruence. }
  destruct m as [n|].
  - destruct (Z.leb_spec n 0) as [Hn|Hn].
    + split; [done|]. intros (?&?&?&?&?&?&_). simplify_eq. lia.
    + split; [intros [= ->]; eauto 10|]. intros (?&?&?&?&?&?&?&_). by simplify_eq.
  - split; [done|]. intros (?&?&?&?&?&_). done.
Qed.
