(* ===== verification/GstCalc.v ===== *)
(** * [app/modules/tax/gst_calc.py] and [app/modules/coupons/services/discount.py]

    The GST arithmetic and the discount arithmetic: integers of paise and [Decimal] rates. The
    largest-remainder split [_allocate] is shared by both. Positions in the lists play the role of
    the loop indices of the code. *)

From S2P Require Import Prelude Decimal Errors.
Import Decimal.

Local Open Scope string_scope.
Local Open Scope list_scope.
Local Open Scope Z_scope.

(** [half_up] *)
Definition half_up (value : dec) : Z := quantize_half_up value.

Record CalcLine := MkCalcLine {
  cl_key : Z; cl_value_paise : Z; cl_treatment : string; cl_cgst : dec; cl_sgst : dec; cl_igst : dec
}.

Record LineTax := MkLineTax {
  lt_key : Z; lt_shipping_paise : Z; lt_gross_paise : Z; lt_taxable_paise : Z; lt_cgst_paise : Z;
  lt_sgst_paise : Z; lt_igst_paise : Z; lt_round_off_paise : Z
}.
Definition lt_tax_paise (l : LineTax) : Z := lt_cgst_paise l + lt_sgst_paise l + lt_igst_paise l.

Record GstResult := MkGstResult {
  gr_lines : list LineTax; gr_shipping_untaxed_paise : Z; gr_taxable_paise : Z; gr_cgst_paise : Z;
  gr_sgst_paise : Z; gr_igst_paise : Z; gr_round_off_paise : Z; gr_tax_paise : Z;
  gr_tax_added_paise : Z; gr_tax_included_paise : Z
}.

(** ** [_allocate] *)

(** The sort key [(-(exact[i] - parts[i]), i)], compared lexicographically. *)
Definition key_leb (p q : dec * nat) : bool :=
  match dcompare p.1 q.1 with
  | Lt => true
  | Gt => false
  | Eq => (p.2 <=? q.2)%nat
  end.
Definition key_le (p q : dec * nat) : Prop := Is_true (key_leb p q).
#[export] Instance key_le_dec p q : Decision (key_le p q).
Proof. unfold key_le. apply _. Defined.

(** A slice [l[:k]] ([k] may be negative). *)
Definition py_take {A} (k : Z) (l : list A) : list A :=
  if k <? 0 then take (Z.to_nat (Z.of_nat (length l) + k)) l else take (Z.to_nat k) l.

Definition bump_all (indices : list nat) (parts : list Z) : list Z :=
  foldl (λ ps i, alter (Z.add 1) i ps) parts indices.

Definition exact_share (total weight_sum w : Z) : dec :=
  ddiv (dmul (of_Z total) (of_Z w)) (of_Z weight_sum).

Definition _allocate (total : Z) (weights : list Z) : list Z :=
  let weight_sum := sumZ weights in
  if (total =? 0) || (weight_sum =? 0) then map (λ _, 0) weights
  else
    let exact := map (exact_share total weight_sum) weights in
    let parts := map to_int exact in
    let leftover := total - sumZ parts in
    let keys := map (λ '(e, p), dneg (dsub e (of_Z p))) (combine exact parts) in
    let order := map snd (merge_sort key_le (combine keys (seq 0 (length weights)))) in
    bump_all (py_take leftover order) parts.

(** ** [_rates], [_slab_tax] *)

Definition ZERO : dec := of_Z 0.
Definition HUNDRED : dec := of_Z 100.
Definition Rates : Type := dec * dec * dec.

Definition _rates (line : CalcLine) (intra_state : bool) : Rates :=
  if negb (String.eqb (cl_treatment line) "taxable") then (ZERO, ZERO, ZERO)
  else if intra_state then (cl_cgst line, cl_sgst line, ZERO) else (ZERO, ZERO, cl_igst line).

(** [half_up(Decimal(base) * rate / HUNDRED)] *)
Definition tax_on (base : Z) (rate : dec) : Z := half_up (ddiv (dmul (of_Z base) rate) HUNDRED).

(** [sum(rates)]: [0 + cgst + sgst + igst] *)
Definition total_rate (r : Rates) : dec := dadd (dadd (dadd ZERO r.1.1) r.1.2) r.2.

Definition _slab_tax (value : Z) (rates : Rates) (pricing_mode : string) : Z * Z * Z * Z :=
  let total := total_rate rates in
  if deqb total ZERO then (value, 0, 0, 0)
  else if String.eqb pricing_mode "exclusive" then
    (value, tax_on value rates.1.1, tax_on value rates.1.2, tax_on value rates.2)
  else
    let taxable := half_up (ddiv (dmul (of_Z value) HUNDRED) (dadd HUNDRED total)) in
    (taxable, tax_on taxable rates.1.1, tax_on taxable rates.1.2, tax_on taxable rates.2).

(** ** [calculate] *)

(** A dict keyed by rates: [Decimal] keys are equal when their values are. *)
Definition rates_eqb (r1 r2 : Rates) : bool :=
  deqb r1.1.1 r2.1.1 && deqb r1.1.2 r2.1.2 && deqb r1.2 r2.2.

(** [slabs.setdefault(r, []).append(i)] *)
Fixpoint add_to_slab (slabs : list (Rates * list nat)) (r : Rates) (i : nat) : list (Rates * list nat) :=
  match slabs with
  | [] => [(r, [i])]
  | (r', members) :: rest =>
      if rates_eqb r' r then (r', members ++ [i]) :: rest
      else (r', members) :: add_to_slab rest r i
  end.
Definition slabs_of (rates : list Rates) : list (Rates * list nat) :=
  foldl (λ slabs '(i, r), add_to_slab slabs r i) [] (combine (seq 0 (length rates)) rates).

(** The four per-line amounts being filled in. *)
Record Columns := MkColumns { c_taxable : list Z; c_cgst : list Z; c_sgst : list Z; c_igst : list Z }.

(** [for i, part in zip(members, parts): target[i] = part] *)
Definition store_parts (members : list nat) (parts target : list Z) : list Z :=
  foldl (λ t '(i, part), <[i := part]> t) target (combine members parts).

Definition slab_step (grosses : list Z) (pricing_mode : string) (c : Columns) (slab : Rates * list nat) : Columns :=
  let '(r, members) := slab in
  let weights := map (λ i, nth i grosses 0) members in
  let '(t, cg, s, g) := _slab_tax (sumZ weights) r pricing_mode in
  MkColumns (store_parts members (_allocate t weights) (c_taxable c))
            (store_parts members (_allocate cg weights) (c_cgst c))
            (store_parts members (_allocate s weights) (c_sgst c))
            (store_parts members (_allocate g weights) (c_igst c)).

Definition line_columns (grosses : list Z) (rates : list Rates) (pricing_mode : string) : Columns :=
  let rows := map (λ '(g, r), _slab_tax g r pricing_mode) (combine grosses rates) in
  MkColumns (map (λ x, x.1.1.1) rows) (map (λ x, x.1.1.2) rows) (map (λ x, x.1.2) rows) (map (λ x, x.2) rows).

Definition known_config (pricing_mode shipping_treatment rounding_policy : string) : bool :=
  (String.eqb pricing_mode "inclusive" || String.eqb pricing_mode "exclusive")
  && (String.eqb shipping_treatment "not_taxed" || String.eqb shipping_treatment "taxable_with_goods")
  && (String.eqb rounding_policy "line_half_up" || String.eqb rounding_policy "invoice_half_up").

(** The shipping charge spread over the lines, and what of it stays untaxed. *)
Definition shipped_parts (shipping_paise : Z) (shipping_treatment : string) (values : list Z) : list Z * Z :=
  if String.eqb shipping_treatment "taxable_with_goods" && negb (shipping_paise =? 0)
  then (_allocate shipping_paise values, 0)
  else (map (λ _, 0) values, shipping_paise).

Definition amounts (grosses : list Z) (rates : list Rates) (pricing_mode rounding_policy : string) : Columns :=
  if String.eqb rounding_policy "line_half_up" then line_columns grosses rates pricing_mode
  else
    let zeros := map (λ _, 0) grosses in
    foldl (slab_step grosses pricing_mode) (MkColumns zeros zeros zeros zeros) (slabs_of rates).

Definition build_line (pricing_mode : string) (c : Columns) (shipped grosses : list Z) (i : nat) (line : CalcLine) : LineTax :=
  let at_ (l : list Z) := nth i l 0 in
  MkLineTax (cl_key line) (at_ shipped) (at_ grosses) (at_ (c_taxable c)) (at_ (c_cgst c))
    (at_ (c_sgst c)) (at_ (c_igst c))
    (if String.eqb pricing_mode "inclusive"
     then at_ grosses - at_ (c_taxable c) - at_ (c_cgst c) - at_ (c_sgst c) - at_ (c_igst c) else 0).

Definition calculate (lines : list CalcLine) (shipping_paise : Z) (intra_state : bool)
    (pricing_mode shipping_treatment rounding_policy : string) : Err + GstResult :=
  if negb (known_config pricing_mode shipping_treatment rounding_policy)
  then inl (ValueError "unknown tax configuration value")
  else
    let values := map cl_value_paise lines in
    let '(shipped, untaxed_shipping) := shipped_parts shipping_paise shipping_treatment values in
    let grosses := zip_with Z.add values shipped in
    let rates := map (λ l, _rates l intra_state) lines in
    let c := amounts grosses rates pricing_mode rounding_policy in
    let per_line := imap (build_line pricing_mode c shipped grosses) lines in
    let tax_total := sumZ (c_cgst c) + sumZ (c_sgst c) + sumZ (c_igst c) in
    inr (MkGstResult per_line untaxed_shipping (sumZ (c_taxable c)) (sumZ (c_cgst c)) (sumZ (c_sgst c))
           (sumZ (c_igst c)) (sumZ (map lt_round_off_paise per_line)) tax_total
           (if String.eqb pricing_mode "exclusive" then tax_total else 0)
           (if String.eqb pricing_mode "inclusive" then tax_total else 0)).

(** ** [discount.py] *)

Record Discount := MkDiscount { goods_cents : Z; shipping_discount_cents : Z }.

(** [None] for a field the kind needs is a [TypeError] in Python. *)
Definition compute_discount (kind : string) (percent_off : option dec)
    (amount_off_cents max_discount_cents : option Z) (subtotal_cents shipping_cents : Z) : Err + Discount :=
  if String.eqb kind "percentage" then
    match percent_off with
    | None => inl (RuntimeError "TypeError")
    | Some p =>
        let raw := half_up (ddiv (dmul (of_Z subtotal_cents) p) (of_Z 100)) in
        let raw := match max_discount_cents with Some m => Z.min raw m | None => raw end in
        inr (MkDiscount (Z.min raw subtotal_cents) 0)
    end
  else if String.eqb kind "fixed" then
    match amount_off_cents with
    | None => inl (RuntimeError "TypeError")
    | Some a => inr (MkDiscount (Z.min a subtotal_cents) 0)
    end
  else if String.eqb kind "free_shipping" then inr (MkDiscount 0 shipping_cents)
  else inl (ValueError "unknown coupon kind").

Definition share_discount (discount_cents : Z) (line_values : list Z) : list Z :=
  _allocate discount_cents line_values.

(** ** Facts about sums and in-place updates *)

Lemma sumZ_alter i l : (i < length l)%nat → sumZ (alter (Z.add 1) i l) = sumZ l + 1.
Proof.
  unfold sumZ. revert i. induction l as [|x l IH]; intros [|i]; cbn [length]; try lia.
  - intros _. cbn. lia.
  - intros ?. specialize (IH i ltac:(lia)). cbn in *. lia.
Qed.

Lemma length_bump_all idx l : length (bump_all idx l) = length l.
Proof.
  unfold bump_all. revert l. induction idx as [|i idx IH]; intros l; cbn; [done|].
  by rewrite IH, length_alter.
Qed.

Lemma sumZ_bump_all idx l :
  Forall (λ i, i < length l)%nat idx → sumZ (bump_all idx l) = sumZ l + Z.of_nat (length idx).
Proof.
  unfold bump_all. revert l. induction idx as [|i idx IH]; intros l Hi; cbn [foldl length]; [lia|].
  apply Forall_cons in Hi as [? Hi]. rewrite IH, sumZ_alter by (rewrite ?length_alter; done). lia.
Qed.

(** A position outside the list of indices keeps its value; a position in it gains one when the
    indices are distinct. *)
Lemma bump_all_lookup idx l i x :
  NoDup idx → l !! i = Some x →
  bump_all idx l !! i = Some (if decide (i ∈ idx) then 1 + x else x).
Proof.
  unfold bump_all. revert l x. induction idx as [|j idx IH]; intros l x Hnd Hx; cbn.
  { rewrite decide_False by apply not_elem_of_nil. done. }
  apply NoDup_cons in Hnd as [Hj Hnd].
  destruct (decide (i = j)) as [<-|Hne].
  - rewrite (IH _ (1 + x)); [|done|by rewrite list_lookup_alter_eq, Hx].
    rewrite decide_False by done. by rewrite decide_True by set_solver.
  - rewrite (IH _ x); [|done|by rewrite list_lookup_alter_ne].
    by destruct (decide (i ∈ idx)), (decide (i ∈ j :: idx)); set_solver.
Qed.

(** ** The sort of [_allocate] *)

Lemma dcompare_scale x y e :
  e ≤ dexp x → e ≤ dexp y →
  dcompare x y = (coef x * 10 ^ (dexp x - e) ?= coef y * 10 ^ (dexp y - e)).
Proof.
  intros Hx Hy. unfold dcompare. set (m := Z.min (dexp x) (dexp y)).
  assert (e ≤ m) by lia. assert (0 < 10 ^ (m - e)) by (apply Z.pow_pos_nonneg; lia).
  replace (dexp x - e) with ((dexp x - m) + (m - e)) by lia.
  replace (dexp y - e) with ((dexp y - m) + (m - e)) by lia.
  rewrite !Z.pow_add_r, !Z.mul_assoc by lia. apply Zmult_compare_compat_r. lia.
Qed.

#[export] Instance key_le_trans : Transitive key_le.
Proof.
  intros [x i] [y j] [z k]. unfold key_le, key_leb; cbn [fst snd].
  set (e := Z.min (dexp x) (Z.min (dexp y) (dexp z))).
  rewrite (dcompare_scale x y e), (dcompare_scale y z e), (dcompare_scale x z e) by lia.
  generalize (coef x * 10 ^ (dexp x - e)), (coef y * 10 ^ (dexp y - e)), (coef z * 10 ^ (dexp z - e)).
  intros a b c. rewrite !Is_true_true.
  destruct (Z.compare_spec a b), (Z.compare_spec b c), (Z.compare_spec a c);
    rewrite ?Nat.leb_le; intros; try done; lia.
Qed.

#[export] Instance key_le_total : Total key_le.
Proof.
  intros [x i] [y j]. unfold key_le, key_leb; cbn [fst snd].
  rewrite (dcompare_scale x y (Z.min (dexp x) (dexp y))), (dcompare_scale y x (Z.min (dexp x) (dexp y))) by lia.
  rewrite !Is_true_true.
  destruct (Z.compare_spec (coef x * 10 ^ (dexp x - Z.min (dexp x) (dexp y)))
                           (coef y * 10 ^ (dexp y - Z.min (dexp x) (dexp y)))) as [->| |];
    [rewrite Z.compare_refl, !Nat.leb_le; lia|auto| ].
  right. by rewrite (proj2 (Z.compare_lt_iff _ _)) by done.
Qed.

Lemma map_snd_combine_seq {A} (ks : list A) m :
  map snd (combine ks (seq m (length ks))) = seq m (length ks).
Proof. revert m. induction ks as [|k ks IH]; intros m; cbn; [done|]. by rewrite IH. Qed.

Lemma length_allocate total weights : length (_allocate total weights) = length weights.
Proof.
  unfold _allocate. destruct (_ || _); [by rewrite length_map|]. rewrite length_bump_all, !length_map.
  done.
Qed.

Section allocate.
Context (total : Z) (weights : list Z).
Context (Htotal : 0 ≤ total) (Hweights : Forall (Z.le 0) weights).
Context (Hpos : 0 < sumZ weights) (Hsize : total * sumZ weights < 10 ^ 26).

Local Abbreviation W := (sumZ weights).

Lemma exact_share_close w :
  w ∈ weights →
  ∃ c k, exact_share total W w = Dec c (- k) ∧ c < 10 ^ prec ∧ close 1 c k (total * w) W.
Proof using All.
  intros Hw. pose proof (sumZ_elem _ _ Hweights Hw) as HwW.
  assert (0 ≤ w) by (rewrite Forall_forall in Hweights; by apply Hweights).
  assert (0 ≤ total * w < 10 ^ 26) as Hb by nia.
  unfold exact_share. rewrite dmul_exact; cbn [of_Z coef dexp].
  2: { rewrite Z.abs_eq by lia. transitivity (10 ^ 26); [lia|done]. }
  destruct (ddiv_close (total * w) W (0 + 0) 0 Hb Hpos) as (c & k & Hd & ? & ?).
  unfold of_Z. rewrite Hd. exists c, k. eauto.
Qed.

Lemma share_floor w : w ∈ weights → to_int (exact_share total W w) = total * w / W.
Proof using All.
  intros Hw. destruct (exact_share_close w Hw) as (c & k & -> & ? & Hcl).
  assert (0 ≤ w) by (rewrite Forall_forall in Hweights; by apply Hweights).
  rewrite to_int_scaled by (destruct Hcl as (?&?&_); lia).
  apply close_floor; [nia|done|done].
Qed.

Definition share_key (w : Z) : dec :=
  dneg (dsub (exact_share total W w) (of_Z (to_int (exact_share total W w)))).

(** The key of a line is minus its fractional part: zero exactly when the share is whole. *)
Lemma share_key_sign w :
  w ∈ weights →
  coef (share_key w) ≤ 0 ∧ (coef (share_key w) = 0 ↔ (total * w) mod W = 0).
Proof using All.
  intros Hw. unfold share_key. rewrite share_floor by done.
  destruct (exact_share_close w Hw) as (c & k & -> & Hc & Hcl).
  assert (0 ≤ w) by (rewrite Forall_forall in Hweights; by apply Hweights).
  assert (Hn : 0 ≤ total * w) by nia.
  pose proof (close_frac _ _ _ _ Hn Hpos Hcl) as Hz.
  pose proof (close_floor _ _ _ _ Hn Hpos Hcl) as Hfl.
  destruct Hcl as (Hk & Hc0 & _).
  assert (Hp : 0 < 10 ^ k) by (apply Z.pow_pos_nonneg; lia).
  pose proof (Z.div_mod c (10 ^ k) ltac:(lia)). pose proof (Z.mod_pos_bound c (10 ^ k) Hp).
  pose proof (Z.mod_le c (10 ^ k) Hc0 Hp).
  unfold dsub, dadd; cbn [coef dexp of_Z]. rewrite Z.min_l by lia.
  replace (- k - - k) with 0 by lia. replace (0 - - k) with k by lia. rewrite Z.pow_0_r, Z.mul_1_r.
  replace (c + - (total * w / W) * 10 ^ k) with (c mod 10 ^ k) by (rewrite <-Hfl; lia).
  rewrite fix_prec_small by (cbn [coef]; lia). unfold dneg; cbn [coef dexp].
  rewrite fix_prec_small by (cbn [coef]; lia). cbn [coef]. rewrite <-Hz. lia.
Qed.

(** The order in which the left-over units are handed out. *)
Definition share_order : list (dec * nat) :=
  merge_sort key_le (combine (map share_key weights) (seq 0 (length weights))).
Definition leftover : Z := total - sumZ (map (λ w, total * w / W) weights).

Lemma allocate_unfold :
  _allocate total weights =
  if total =? 0 then map (λ _, 0) weights
  else bump_all (py_take leftover (map snd share_order)) (map (λ w, total * w / W) weights).
Proof using All.
  unfold _allocate. destruct (Z.eqb_spec total 0); [done|].
  destruct (Z.eqb_spec W 0); [lia|]. cbn [orb].
  assert (map to_int (map (exact_share total W) weights) = map (λ w, total * w / W) weights) as Hp.
  { rewrite map_map. apply map_ext_in. intros w Hw. apply share_floor. by apply list_elem_of_In. }
  rewrite Hp. unfold leftover, share_order. do 5 f_equal.
  rewrite <-Hp, map_map. unfold share_key. clear. generalize (sumZ weights). intros W.
  induction weights as [|w ws IH]; cbn; [done|]. by rewrite IH.
Qed.

Lemma share_order_perm :
  share_order ≡ₚ combine (map share_key weights) (seq 0 (length weights)).
Proof. apply merge_sort_Permutation. Qed.

Lemma share_order_indices : map snd share_order ≡ₚ seq 0 (length weights).
Proof.
  rewrite share_order_perm, <-(length_map share_key weights).
  by rewrite map_snd_combine_seq.
Qed.

Lemma share_order_entry k i : (k, i) ∈ share_order → ∃ w, weights !! i = Some w ∧ k = share_key w.
Proof.
  rewrite share_order_perm, list_elem_of_In. intros Hin.
  assert (∀ n l, In (k, i) (combine (map share_key l) (seq n (length l))) →
            ∃ j w, i = (n + j)%nat ∧ l !! j = Some w ∧ k = share_key w) as Hgen.
  { intros n l. revert n. induction l as [|w l IH]; intros n; cbn; [done|].
    intros [[= <- <-]|Hin']; [exists 0%nat, w; split; [lia|eauto]|].
    destruct (IH (S n) Hin') as (j & w' & -> & ? & ?). exists (S j), w'. split; [lia|eauto]. }
  destruct (Hgen 0%nat weights Hin) as (j & w & -> & ? & ?). eauto.
Qed.

Let rem (w : Z) : Z := (total * w) mod W.

Lemma rem_bound w : 0 ≤ rem w ≤ W - 1.
Proof using Hpos. unfold rem. pose proof (Z.mod_pos_bound (total * w) W Hpos). lia. Qed.

Lemma leftover_rems : W * leftover = sumZ (map rem weights).
Proof using Hpos.
  unfold leftover.
  assert (sumZ (map (λ w, total * w) weights) =
          sumZ (map (λ w, W * (total * w / W)) weights) + sumZ (map rem weights)) as Heq.
  { apply sumZ_map_add. intros w _. unfold rem. apply Z.div_mod. lia. }
  assert (sumZ (map (λ w, total * w) weights) = total * W) as Hmul by apply sumZ_map_mul.
  rewrite Hmul, <-(map_map (λ w, total * w / W) (Z.mul W)), sumZ_map_mul in Heq. lia.
Qed.

Lemma leftover_range : 0 ≤ leftover ≤ Z.of_nat (length weights).
Proof using Hpos.
  pose proof leftover_rems as Hl.
  assert (0 ≤ sumZ (map rem weights)) as Hlo.
  { apply sumZ_nonneg, Forall_map, Forall_true. intros w. apply rem_bound. }
  assert (sumZ (map rem weights) ≤ Z.of_nat (length weights) * (W - 1)) as Hhi.
  { rewrite <-(length_map rem weights). apply sumZ_le_length, Forall_map, Forall_true.
    intros w. apply rem_bound. }
  nia.
Qed.

(** The sum of the fractional parts, taken in the order of the sort. *)
Let rem_at (i : nat) : Z := rem (nth i weights 0).

Lemma share_order_rems : sumZ (map rem_at (map snd share_order)) = sumZ (map rem weights).
Proof.
  rewrite (sumZ_perm _ _ (Permutation_map rem_at share_order_indices)). f_equal.
  unfold rem_at. rewrite <-(map_map (λ i, nth i weights 0) rem). f_equal.
  clear. induction weights as [|w ws IH]; cbn; [done|]. f_equal.
  rewrite <-seq_shift, map_map. exact IH.
Qed.

(** Only lines whose exact share is not whole receive a left-over unit. *)
Lemma taken_fractional i :
  i ∈ take (Z.to_nat leftover) (map snd share_order) → rem_at i ≠ 0.
Proof using All.
  intros (j & Hj)%list_elem_of_lookup Hz.
  apply lookup_take_Some in Hj as [Hj Hlt].
  rewrite list_lookup_fmap in Hj. apply fmap_Some in Hj as ([k i'] & Hj & ->). cbn [snd] in *.
  pose proof (take_drop_middle _ _ _ Hj) as Hsplit.
  pose proof (StronglySorted_merge_sort key_le
    (combine (map share_key weights) (seq 0 (length weights)))) as Hsort. fold share_order in Hsort.
  assert (∀ k i, (k, i) ∈ share_order → coef k ≤ 0 ∧ (coef k = 0 ↔ rem_at i = 0)) as Hkeys.
  { intros k0 i0 (w & Hw & ->)%share_order_entry. unfold rem_at, rem.
    rewrite (nth_lookup_Some _ _ _ _ Hw). apply share_key_sign. by eapply list_elem_of_lookup_2. }
  assert ((k, i') ∈ share_order) as Hin by (by eapply list_elem_of_lookup_2).
  assert (Forall (λ p, rem_at p.2 = 0) (drop (S j) share_order)) as Hzero.
  { apply Forall_forall. intros [k2 i2] H2. cbn [snd].
    assert ((k2, i2) ∈ share_order) as Hin2 by (rewrite <-(take_drop (S j) share_order); apply elem_of_app; by right).
    apply (Hkeys _ _ Hin2). destruct (Hkeys _ _ Hin2) as [Hneg _].
    assert (key_le (k, i') (k2, i2)) as Hle.
    { rewrite <-Hsplit in Hsort. apply StronglySorted_app in Hsort as (_ & _ & Hsort).
      apply StronglySorted_inv in Hsort as [_ Hall]. rewrite Forall_forall in Hall. by apply Hall. }
    unfold key_le, key_leb in Hle; cbn [fst snd] in Hle. rewrite Is_true_true in Hle.
    rewrite (dcompare_scale k k2 (Z.min (dexp k) (dexp k2))) in Hle by lia.
    destruct (Hkeys _ _ Hin) as [_ Hk]. rewrite (proj2 Hk Hz) in Hle.
    assert (0 < 10 ^ (dexp k2 - Z.min (dexp k) (dexp k2))) by (apply Z.pow_pos_nonneg; lia).
    destruct (Z.compare_spec (0 * 10 ^ (dexp k - Z.min (dexp k) (dexp k2)))
                (coef k2 * 10 ^ (dexp k2 - Z.min (dexp k) (dexp k2)))); nia. }
  pose proof share_order_rems as Hsum. rewrite <-Hsplit, !map_app, sumZ_app in Hsum.
  cbn [map] in Hsum. change (sumZ (rem_at (k, i').2 :: ?l)) with (rem_at i' + sumZ l) in Hsum.
  assert (sumZ (map rem_at (map snd (drop (S j) share_order))) = 0) as Htail.
  { clear -Hzero. unfold sumZ. induction Hzero; cbn; lia. }
  assert (sumZ (map rem_at (map snd (take j share_order))) ≤ Z.of_nat j * (W - 1)) as Hhead.
  { etrans; [apply (sumZ_le_length _ (W - 1))|].
    - apply Forall_map, Forall_true. intros i0. apply rem_bound.
    - rewrite !length_map, length_take. nia. }
  unfold sumZ in Hsum, Htail, Hhead; cbn [foldr] in Hsum. 
  pose proof leftover_rems. unfold sumZ in *. nia.
Qed.
Lemma share_order_NoDup : NoDup (map snd share_order).
Proof. rewrite share_order_indices. apply NoDup_seq. Qed.

Lemma sumZ_allocate : sumZ (_allocate total weights) = total.
Proof using All.
  rewrite allocate_unfold. destruct (Z.eqb_spec total 0) as [->|]; [apply sumZ_zeros|].
  pose proof leftover_range as Hl. unfold py_take. destruct (Z.ltb_spec leftover 0); [lia|].
  rewrite sumZ_bump_all.
  - rewrite length_take, length_map, (Permutation_length share_order_perm), length_combine,
      length_map, length_seq. unfold leftover in *. lia.
  - rewrite length_map. apply Forall_forall. intros j Hj.
    assert (j ∈ map snd share_order) as Hj'.
    { rewrite <-(take_drop (Z.to_nat leftover)). apply elem_of_app. by left. }
    rewrite share_order_indices, list_elem_of_In, in_seq in Hj'. lia.
Qed.

(** A line's part is its exact share rounded down, or up when the share is not whole. *)
Lemma allocate_lookup i w p :
  weights !! i = Some w → _allocate total weights !! i = Some p →
  total * w ≤ p * W + (W - 1) ∧ p * W ≤ total * w + (W - 1).
Proof using All.
  intros Hw. rewrite allocate_unfold. destruct (Z.eqb_spec total 0) as [->|].
  { rewrite list_lookup_fmap, Hw. intros [= <-]. lia. }
  pose proof leftover_range as Hl. unfold py_take. destruct (Z.ltb_spec leftover 0); [lia|].
  erewrite bump_all_lookup.
  2: { eapply sublist_NoDup; [apply share_order_NoDup|apply sublist_take]. }
  2: { rewrite list_lookup_fmap, Hw. done. }
  intros [= <-]. pose proof (rem_bound w) as Hr. unfold rem in Hr.
  pose proof (Z.div_mod (total * w) W ltac:(lia)).
  destruct (decide _) as [Hin|]; [|lia].
  apply taken_fractional in Hin. unfold rem_at, rem in Hin.
  rewrite (nth_lookup_Some _ _ _ _ Hw) in Hin. lia.
Qed.
End allocate.

(** No unit to share, or nothing to share it by: every part is zero. *)
Lemma allocate_zero total weights :
  total = 0 ∨ sumZ weights = 0 → _allocate total weights = map (λ _, 0) weights.
Proof.
  intros H. unfold _allocate. destruct (Z.eqb_spec total 0), (Z.eqb_spec (sumZ weights) 0); try done.
  lia.
Qed.

(** Sharing an amount over the parts that make it up gives every part back. *)
Lemma allocate_self weights :
  Forall (Z.le 0) weights → sumZ weights < 10 ^ 13 → _allocate (sumZ weights) weights = weights.
Proof.
  intros Hw Hs. pose proof (sumZ_nonneg _ Hw) as H0.
  destruct (decide (sumZ weights = 0)) as [Hz|Hz].
  - rewrite allocate_zero by auto. pose proof (sumZ_zero _ Hw Hz) as Hall. clear -Hall.
    induction Hall; cbn; congruence.
  - assert (sumZ weights * sumZ weights < 10 ^ 26) as Hb.
    { replace (10 ^ 26) with (10 ^ 13 * 10 ^ 13) by done. nia. }
    apply list_eq_same_length with (n := length weights); [done|by apply length_allocate|].
    intros i p q _ Hp Hq.
    destruct (allocate_lookup (sumZ weights) weights H0 Hw ltac:(lia) Hb i q p Hq Hp). nia.
Qed.

Example alloc1 : _allocate 100 [1; 1; 1] = [34; 33; 33].
Proof. vm_compute. reflexivity. Qed.
Example alloc2 : _allocate 11 [31; 1; 1] = [10; 1; 0].
Proof. vm_compute. reflexivity. Qed.

(** ** Rounding *)

(** The half-up rounding of the 28-digit quotient is the half-up rounding of the exact one. *)
Lemma tax_on_exact base r m :
  0 ≤ base → 0 ≤ r → 0 ≤ m → base * r < 10 ^ 26 →
  tax_on base (Dec r (- m)) = div_half_up (base * r) (100 * 10 ^ m).
Proof.
  intros Hb Hr Hm Hs. assert (0 ≤ base * r) by nia.
  unfold tax_on, half_up. rewrite dmul_exact; cbn [of_Z coef dexp].
  2: { rewrite Z.abs_eq by lia. transitivity (10 ^ 26); [lia|done]. }
  destruct (ddiv_close (base * r) 100 (0 + - m) 0) as (c & k & Hd & _ & Hcl); [lia..|].
  unfold HUNDRED, of_Z. rewrite Hd. replace (0 + - m - 0 - k) with (- m - k) by lia.
  by apply half_up_dividend.
Qed.

(** The rates of a rule are percentages with three decimals ([Numeric(6, 3)]), kept here in
    thousandths; a rate the code leaves out is the integer zero. *)
Definition rate3 (d : dec) (r : Z) : Prop := 0 ≤ r < 10 ^ 6 ∧ (d = Dec r (-3) ∨ (d = ZERO ∧ r = 0)).
Definition rates3 (rs : Rates) (a b g : Z) : Prop := rate3 rs.1.1 a ∧ rate3 rs.1.2 b ∧ rate3 rs.2 g.

(** The arithmetic of one slab without [Decimal]: exact quotients of integers, rounded half up. *)
Definition slab_exact (value a b g : Z) (pricing_mode : string) : Z * Z * Z * Z :=
  if a + b + g =? 0 then (value, 0, 0, 0)
  else
    let taxable := if String.eqb pricing_mode "exclusive" then value
                   else div_half_up (value * 100000) (100000 + (a + b + g)) in
    (taxable, div_half_up (taxable * a) 100000, div_half_up (taxable * b) 100000,
     div_half_up (taxable * g) 100000).

(** Sums of aligned decimals that fit the precision are exact. *)
Lemma dadd_exact x y e n :
  Z.min (dexp x) (dexp y) = e → coef x * 10 ^ (dexp x - e) + coef y * 10 ^ (dexp y - e) = n →
  Z.abs n < 10 ^ prec → dadd x y = Dec n e.
Proof. intros <- <- H. unfold dadd. by rewrite fix_prec_small. Qed.

Ltac solve_dadd :=
  apply dadd_exact; [done| |lia]; cbn [coef dexp ZERO HUNDRED of_Z];
  change (10 ^ (-3 - -3)) with 1; change (10 ^ (0 - -3)) with 1000; lia.

Lemma total_rate3 rs a b g :
  rates3 rs a b g → total_rate rs = Dec (a + b + g) (-3) ∨ (total_rate rs = ZERO ∧ a + b + g = 0).
Proof.
  destruct rs as [[x y] z]. intros (Hx & Hy & Hz). unfold total_rate; cbn [fst snd] in *.
  assert (∀ v n w m, v = Dec n (-3) ∨ v = ZERO ∧ n = 0 → 0 ≤ n < 10 ^ 8 → rate3 w m →
    dadd v w = Dec (n + m) (-3) ∨ (dadd v w = ZERO ∧ n + m = 0)) as Hstep.
  { intros v n w m Hv Hn [Hm Hw]. assert (10 ^ 8 + 10 ^ 6 < 10 ^ prec) by done.
    destruct Hv as [->|[-> ->]], Hw as [->|[-> ->]]; [left; solve_dadd..|by right]. }
  pose proof Hx as [? _]. pose proof Hy as [? _].
  apply Hstep; [|lia|done]. apply Hstep; [|lia|done].
  rewrite <-(Z.add_0_l a). apply Hstep; [by right|lia|done].
Qed.

Lemma tax_on_rate3 base d r : 0 ≤ base < 10 ^ 13 → rate3 d r → tax_on base d = div_half_up (base * r) 100000.
Proof.
  intros Hb [Hr [->|[-> ->]]].
  - apply (tax_on_exact base r 3); nia.
  - rewrite Z.mul_0_r. etrans; [apply (tax_on_exact base 0 0); lia|]. by rewrite Z.mul_0_r.
Qed.

Lemma slab_tax_refines value rs a b g mode :
  0 ≤ value < 10 ^ 13 → rates3 rs a b g → _slab_tax value rs mode = slab_exact value a b g mode.
Proof.
  intros Hv Hr. pose proof (total_rate3 _ _ _ _ Hr) as Ht. unfold _slab_tax, slab_exact.
  pose proof Hr as ([? _] & [? _] & [? _]).
  assert (deqb (total_rate rs) ZERO = (a + b + g =? 0)) as ->.
  { destruct Ht as [->|[-> ->]]; [|done]. rewrite Z.eqb_compare. unfold deqb.
    rewrite (dcompare_scale _ _ (-3)); cbn [coef dexp ZERO of_Z]; [|lia..].
    change (10 ^ (-3 - -3)) with 1. by rewrite Z.mul_1_r. }
  destruct (Z.eqb_spec (a + b + g) 0) as [|Hz]; [done|]. destruct Ht as [Ht|[_ ?]]; [|lia].
  assert (∀ t, 0 ≤ t < 10 ^ 13 → (t, tax_on t rs.1.1, tax_on t rs.1.2, tax_on t rs.2) =
    (t, div_half_up (t * a) 100000, div_half_up (t * b) 100000, div_half_up (t * g) 100000)) as Hcols.
  { intros t Hb. destruct Hr as (?&?&?). by rewrite (tax_on_rate3 t _ a), (tax_on_rate3 t _ b), (tax_on_rate3 t _ g). }
  destruct (String.eqb mode "exclusive"); [by apply Hcols|].
  assert (half_up (ddiv (dmul (of_Z value) HUNDRED) (dadd HUNDRED (total_rate rs))) =
          div_half_up (value * 100000) (100000 + (a + b + g))) as ->.
  { rewrite Ht. unfold half_up. rewrite dmul_exact; cbn [of_Z HUNDRED coef dexp].
    2: { assert (10 ^ 15 < 10 ^ prec) by done. lia. }
    assert (dadd HUNDRED (Dec (a + b + g) (-3)) = Dec (100000 + (a + b + g)) (-3)) as ->.
    { assert (10 ^ 15 < 10 ^ prec) by done. solve_dadd. }
    destruct (ddiv_close_scaled (10 ^ 3) (value * 100) (100000 + (a + b + g)) (0 + 0) (-3))
      as (c & k & -> & _ & Hcl); [lia..|].
    replace (0 + 0 - -3 - k) with (3 - k) by lia.
    rewrite (half_up_quotient (value * 100) (100000 + (a + b + g)) 3); [|lia|lia|lia|done].
    f_equal; lia. }
  apply Hcols. split; [apply div_half_up_nonneg; lia|].
  apply Z.le_lt_trans with value; [|lia].
  pose proof (div_half_up_spec (value * 100000) (100000 + (a + b + g)) ltac:(lia)). nia.
Qed.

(** ** Slabs *)

Definition slab_members (slabs : list (Rates * list nat)) : list nat := concat (map snd slabs).

Lemma add_to_slab_members slabs r i : slab_members (add_to_slab slabs r i) ≡ₚ i :: slab_members slabs.
Proof.
  unfold slab_members. induction slabs as [|[r' ms] slabs IH]; cbn; [done|].
  destruct (rates_eqb r' r); cbn.
  - rewrite <-(assoc_L app). cbn. by rewrite <-Permutation_middle.
  - rewrite IH. by rewrite <-Permutation_middle.
Qed.

Lemma add_to_slab_Forall (P : Rates → Prop) slabs r i :
  Forall (λ s, P s.1) slabs → P r → Forall (λ s, P s.1) (add_to_slab slabs r i).
Proof.
  intros Hs Hr. induction Hs as [|[r' ms] slabs Hr' Hs IH]; cbn; [by repeat constructor|].
  destruct (rates_eqb r' r); by constructor.
Qed.

(** The slabs partition the lines. *)
Lemma slabs_of_members rates : slab_members (slabs_of rates) ≡ₚ seq 0 (length rates).
Proof.
  unfold slabs_of.
  assert (∀ n slabs,
    slab_members (foldl (λ slabs '(i, r), add_to_slab slabs r i) slabs (combine (seq n (length rates)) rates))
    ≡ₚ slab_members slabs ++ seq n (length rates)) as H; [|apply H].
  induction rates as [|r rates IH]; intros n slabs; cbn; [by rewrite app_nil_r|].
  etrans; [apply IH|]. rewrite add_to_slab_members. cbn. by rewrite Permutation_middle.
Qed.

Lemma slabs_of_Forall (P : Rates → Prop) rates : Forall P rates → Forall (λ s, P s.1) (slabs_of rates).
Proof.
  unfold slabs_of. intros Hr.
  assert (∀ n slabs, Forall (λ s : Rates * list nat, P s.1) slabs → Forall (λ s : Rates * list nat, P s.1)
    (foldl (λ slabs '(i, r), add_to_slab slabs r i) slabs (combine (seq n (length rates)) rates))) as H;
    [|apply H; constructor].
  induction Hr as [|r rates Hr1 Hr IH]; intros n slabs Hs; cbn; [done|].
  apply IH. by apply add_to_slab_Forall.
Qed.

Definition slab_weights (grosses : list Z) (members : list nat) : list Z := map (λ i, nth i grosses 0) members.

Lemma slab_weights_all grosses members :
  members ≡ₚ seq 0 (length grosses) → slab_weights grosses members ≡ₚ grosses.
Proof.
  intros Hp. unfold slab_weights. rewrite (Permutation_map (λ i, nth i grosses 0) Hp). clear.
  induction grosses as [|g gs IH]; cbn; [done|]. constructor.
  by rewrite <-seq_shift, map_map.
Qed.

Lemma slab_weights_concat grosses slabs :
  slab_weights grosses (slab_members slabs) = concat (map (λ s, slab_weights grosses s.2) slabs).
Proof.
  unfold slab_weights, slab_members. rewrite concat_map, map_map. done.
Qed.

Lemma sumZ_concat ls : sumZ (concat ls) = sumZ (map sumZ ls).
Proof. induction ls; cbn; [done|]. rewrite sumZ_app. unfold sumZ in *. lia. Qed.

Lemma Forall_nth_nonneg l i : Forall (Z.le 0) l → 0 ≤ nth i l 0.
Proof. intros H. revert i. induction H; intros [|i]; cbn; [lia|lia|done|done]. Qed.

Lemma slab_weights_nonneg grosses members : Forall (Z.le 0) grosses → Forall (Z.le 0) (slab_weights grosses members).
Proof. intros H. apply Forall_map, Forall_true. intros i. by apply Forall_nth_nonneg. Qed.

(** No slab is worth more than the whole invoice. *)
Lemma slab_weights_bound grosses rates slab :
  Forall (Z.le 0) grosses → length rates = length grosses → slab ∈ slabs_of rates →
  0 ≤ sumZ (slab_weights grosses slab.2) ≤ sumZ grosses.
Proof.
  intros Hg Hl Hin. split; [by apply sumZ_nonneg, slab_weights_nonneg|].
  assert (sumZ grosses = sumZ (map sumZ (map (λ s, slab_weights grosses s.2) (slabs_of rates)))) as ->.
  { rewrite <-sumZ_concat, <-slab_weights_concat. apply sumZ_perm. symmetry.
    apply slab_weights_all. rewrite slabs_of_members, Hl. done. }
  apply sumZ_elem.
  - rewrite map_map. apply Forall_map, Forall_true. intros s. by apply sumZ_nonneg, slab_weights_nonneg.
  - rewrite map_map. apply list_elem_of_In, in_map_iff. exists slab. split; [done|by apply list_elem_of_In].
Qed.

(** ** Columns *)

Lemma length_store_parts members parts target : length (store_parts members parts target) = length target.
Proof.
  unfold store_parts. revert target. induction (combine members parts) as [|[i p] l IH]; intros target; cbn; [done|].
  by rewrite IH, length_insert.
Qed.

(** Writing every line its own gross leaves gross values. *)
Lemma store_parts_own grosses members (done_ : list nat) target :
  length target = length grosses →
  (∀ i, i ∈ done_ → target !! i = grosses !! i) →
  let target' := store_parts members (slab_weights grosses members) target in
  length target' = length grosses ∧ ∀ i, i ∈ members ++ done_ → target' !! i = grosses !! i.
Proof.
  unfold store_parts, slab_weights. revert target done_.
  induction members as [|j ms IH]; intros target dn Hlen Hd; cbn; [done|].
  destruct (IH (<[j := nth j grosses 0]> target) (j :: dn)) as [Hl H].
  - by rewrite length_insert.
  - intros i Hi. destruct (decide (i = j)) as [->|Hne].
    + destruct (decide (j < length grosses)%nat) as [Hj|Hj].
      * rewrite list_lookup_insert_eq by lia. destruct (lookup_lt_is_Some_2 _ _ Hj) as [x Hx].
        by rewrite Hx, (nth_lookup_Some _ _ _ _ Hx).
      * rewrite !lookup_ge_None_2; [done|lia|rewrite length_insert; lia].
    + rewrite list_lookup_insert_ne by done. apply Hd. set_solver.
  - split; [done|]. intros i Hi. apply H. set_solver.
Qed.

(** Writing parts at distinct positions that hold zero adds exactly the parts. *)
Lemma sumZ_store_parts members parts target :
  length parts = length members → NoDup members → (∀ i, i ∈ members → target !! i = Some 0) →
  sumZ (store_parts members parts target) = sumZ target + sumZ parts ∧
  ∀ i, i ∉ members → store_parts members parts target !! i = target !! i.
Proof.
  unfold store_parts. revert parts target.
  induction members as [|j ms IH]; intros [|p parts] target Hl Hnd Hz; try done; cbn.
  { split; [unfold sumZ; cbn; lia|done]. }
  apply NoDup_cons in Hnd as [Hj Hnd]. cbn in Hl.
  destruct (IH parts (<[j := p]> target)) as [Hs Ho]; [lia|done| |].
  { intros i Hi. rewrite list_lookup_insert_ne by set_solver. apply Hz. set_solver. }
  split.
  - etrans; [exact Hs|]. assert (target !! j = Some 0) as Hj0 by (apply Hz; set_solver).
    pose proof (take_drop_middle _ _ _ Hj0) as Hsp.
    rewrite insert_take_drop by (by eapply lookup_lt_Some).
    rewrite <-Hsp at 3. rewrite !sumZ_app. unfold sumZ; cbn. lia.
  - intros i Hi. etrans; [apply Ho; set_solver|]. apply list_lookup_insert_ne. set_solver.
Qed.

Definition columns_length (n : nat) (c : Columns) : Prop :=
  length (c_taxable c) = n ∧ length (c_cgst c) = n ∧ length (c_sgst c) = n ∧ length (c_igst c) = n.

Lemma slab_step_length n grosses mode c slab :
  columns_length n c → columns_length n (slab_step grosses mode c slab).
Proof.
  destruct slab as [r ms]. unfold columns_length, slab_step.
  destruct (_slab_tax _ _ _) as [[[t cg] s] g]; cbn. by rewrite !length_store_parts.
Qed.

(** A property every slab keeps holds of the columns of the invoice policy. *)
Lemma invoice_columns_ind (P : Columns → Prop) grosses rates mode policy :
  String.eqb policy "line_half_up" = false →
  (let zeros := map (λ _, 0) grosses in P (MkColumns zeros zeros zeros zeros)) →
  (∀ slab c, slab ∈ slabs_of rates → P c → P (slab_step grosses mode c slab)) →
  P (amounts grosses rates mode policy).
Proof.
  intros Hpol H0 Hs. unfold amounts. rewrite Hpol.
  cbv zeta in H0 |- *. revert H0.
  generalize (MkColumns (map (λ _, 0) grosses) (map (λ _, 0) grosses)
                (map (λ _, 0) grosses) (map (λ _, 0) grosses)); intros c Hc.
  induction (slabs_of rates) as [|slab slabs IH] in c, Hc, Hs |- *; cbn; [done|].
  apply IH; [intros; apply Hs; [by right|done]|]. apply Hs; [by left|done].
Qed.

Lemma amounts_length grosses rates mode policy :
  length rates = length grosses → columns_length (length grosses) (amounts grosses rates mode policy).
Proof.
  intros Hl. destruct (String.eqb policy "line_half_up") eqn:Hpol.
  - unfold amounts, columns_length, line_columns. rewrite Hpol; cbn.
    rewrite !length_map, length_combine, Hl. lia.
  - apply invoice_columns_ind; [done| |].
    + unfold columns_length; cbn. by rewrite length_map.
    + intros slab c _. apply slab_step_length.
Qed.

Lemma slab_tax_exclusive v r : (_slab_tax v r "exclusive").1.1.1 = v.
Proof. unfold _slab_tax. by destruct (deqb _ _). Qed.

(** Exclusive prices: what the customer pays before tax is the taxable value, line by line. *)
Lemma amounts_exclusive grosses rates policy :
  length rates = length grosses → Forall (Z.le 0) grosses → sumZ grosses < 10 ^ 13 →
  c_taxable (amounts grosses rates "exclusive" policy) = grosses.
Proof.
  intros Hl Hg Hs. destruct (String.eqb policy "line_half_up") eqn:Hpol.
  { unfold amounts. rewrite Hpol. unfold line_columns; cbn [c_taxable]. rewrite map_map. clear -Hl.
    revert rates Hl. induction grosses as [|g gs IH]; intros [|r rs] Hl; try done; cbn [combine map].
    f_equal; [apply slab_tax_exclusive|]. apply IH. cbn in Hl. lia. }
  unfold amounts. rewrite Hpol.
  set (zeros := map (λ _, 0) grosses).
  assert (∀ slabs dn c, (∀ s, s ∈ slabs → s ∈ slabs_of rates) → length (c_taxable c) = length grosses →
    (∀ i, i ∈ dn → c_taxable c !! i = grosses !! i) →
    let c' := foldl (slab_step grosses "exclusive") c slabs in
    length (c_taxable c') = length grosses ∧
    ∀ i, i ∈ slab_members slabs ++ dn → c_taxable c' !! i = grosses !! i) as H.
  { induction slabs as [|[r ms] slabs IH]; intros dn c Hin Hlen Hd; cbn [foldl]; [done|].
    assert (c_taxable (slab_step grosses "exclusive" c (r, ms)) =
            store_parts ms (slab_weights grosses ms) (c_taxable c)) as Hstep.
    { unfold slab_step. destruct (_slab_tax _ _ _) as [[[t cg] s] g] eqn:Ht; cbn [c_taxable].
      pose proof (slab_tax_exclusive (sumZ (slab_weights grosses ms)) r) as Hx.
      unfold slab_weights in *. rewrite Ht in Hx; cbn in Hx. rewrite Hx.
      rewrite allocate_self; [done|by apply slab_weights_nonneg|].
      pose proof (slab_weights_bound grosses rates (r, ms) Hg Hl ltac:(apply Hin; by left)).
      unfold slab_weights in *. cbn [snd] in *. lia. }
    destruct (store_parts_own grosses ms dn (c_taxable c) Hlen Hd) as [Hlen' Hd'].
    destruct (IH (ms ++ dn) (slab_step grosses "exclusive" c (r, ms))) as [? Hall].
    - intros s Hs'. apply Hin. by right.
    - by rewrite Hstep.
    - by rewrite Hstep.
    - split; [done|]. intros i Hi. apply Hall. unfold slab_members in *. cbn in Hi.
      rewrite !elem_of_app in *. tauto. }
  destruct (H (slabs_of rates) [] (MkColumns zeros zeros zeros zeros)) as [Hlen Hall].
  - done.
  - cbn. unfold zeros. by rewrite length_map.
  - by intros i ?%elem_of_nil.
  - apply list_eq. intros i. destruct (decide (i < length grosses)%nat) as [Hi|Hi].
    + apply Hall. rewrite app_nil_r, slabs_of_members, Hl. apply list_elem_of_In, in_seq. lia.
    + rewrite !lookup_ge_None_2; [done|lia..].
Qed.

(** Equal CGST and SGST rates give equal amounts on every line. *)
Lemma amounts_equal_components grosses rates mode policy :
  Forall (λ r : Rates, r.1.1 = r.1.2) rates →
  c_cgst (amounts grosses rates mode policy) = c_sgst (amounts grosses rates mode policy).
Proof.
  intros Hr.
  assert (∀ v r, r.1.1 = r.1.2 → (_slab_tax v r mode).1.1.2 = (_slab_tax v r mode).1.2) as Hslab.
  { intros v r Heq. unfold _slab_tax. rewrite Heq.
    destruct (deqb _ _), (String.eqb mode "exclusive"); cbn [fst snd]; reflexivity. }
  destruct (String.eqb policy "line_half_up") eqn:Hpol.
  - unfold amounts. rewrite Hpol. unfold line_columns; cbn. rewrite !map_map. apply map_ext_in.
    intros [g r] Hin. apply Hslab. apply in_combine_r, list_elem_of_In in Hin.
    rewrite Forall_forall in Hr. by apply Hr.
  - apply (invoice_columns_ind (λ c, c_cgst c = c_sgst c)); [done|done|].
    intros [r ms] c Hin Hc. unfold slab_step.
    pose proof (slabs_of_Forall _ _ Hr) as Hall. rewrite Forall_forall in Hall.
    specialize (Hslab (sumZ (slab_weights grosses ms)) r (Hall _ Hin)). unfold slab_weights in Hslab.
    destruct (_slab_tax _ _ _) as [[[t cg] s] g]; cbn in *. by rewrite Hslab, Hc.
Qed.

(** One column of the invoice policy: each slab's amount spread over its members. *)
Definition spread (grosses : list Z) (amount : Rates * list nat → Z) (slabs : list (Rates * list nat)) (target : list Z) : list Z :=
  foldl (λ t s, store_parts s.2 (_allocate (amount s) (slab_weights grosses s.2)) t) target slabs.

Lemma slab_steps_spread grosses mode slabs c :
  let tax s := _slab_tax (sumZ (slab_weights grosses s.2)) s.1 mode in
  foldl (slab_step grosses mode) c slabs =
  MkColumns (spread grosses (λ s, (tax s).1.1.1) slabs (c_taxable c))
            (spread grosses (λ s, (tax s).1.1.2) slabs (c_cgst c))
            (spread grosses (λ s, (tax s).1.2) slabs (c_sgst c))
            (spread grosses (λ s, (tax s).2) slabs (c_igst c)).
Proof.
  cbv zeta. revert c. induction slabs as [|[r ms] slabs IH]; intros c; [by destruct c|].
  cbn [foldl spread]. rewrite IH. unfold slab_step, spread; cbn [foldl fst snd]. fold (slab_weights grosses ms).
  destruct (_slab_tax (sumZ (slab_weights grosses ms)) r mode) as [[[t cg] s] g]. reflexivity.
Qed.

Lemma sumZ_spread grosses amount slabs target :
  NoDup (slab_members slabs) → (∀ i, i ∈ slab_members slabs → target !! i = Some 0) →
  (∀ s, s ∈ slabs → sumZ (_allocate (amount s) (slab_weights grosses s.2)) = amount s) →
  sumZ (spread grosses amount slabs target) = sumZ target + sumZ (map amount slabs).
Proof.
  unfold spread, slab_members. revert target.
  induction slabs as [|[r ms] slabs IH]; intros target Hnd Hz Ha; cbn [foldl map snd]; [unfold sumZ; cbn; lia|].
  cbn in Hnd, Hz. apply NoDup_app in Hnd as (Hnd1 & Hdis & Hnd2).
  destruct (sumZ_store_parts ms (_allocate (amount (r, ms)) (slab_weights grosses ms)) target) as [Hsum Ho].
  - rewrite length_allocate. unfold slab_weights. by rewrite length_map.
  - done.
  - intros i Hi. apply Hz. set_solver.
  - rewrite IH; [|done| |].
    + rewrite Hsum. specialize (Ha (r, ms) ltac:(by left)). cbn [snd] in Ha. rewrite Ha. unfold sumZ. cbn. lia.
    + intros i Hi. rewrite Ho; [apply Hz; set_solver|]. intros ?. by eapply Hdis.
    + intros s Hs. apply Ha. by right.
Qed.

(** Sizes of the exact slab amounts: nothing is negative, an empty slab has no tax, and no
    component exceeds ten times the value. *)
Lemma slab_exact_bounds v a b g mode :
  0 ≤ v → 0 ≤ a < 10 ^ 6 → 0 ≤ b < 10 ^ 6 → 0 ≤ g < 10 ^ 6 →
  Forall (λ x, 0 ≤ x ≤ 11 * v)
    [(slab_exact v a b g mode).1.1.1; (slab_exact v a b g mode).1.1.2; (slab_exact v a b g mode).1.2; (slab_exact v a b g mode).2].
Proof.
  intros Hv Ha Hb Hg. unfold slab_exact. destruct (_ =? _); cbn [fst snd]; [repeat constructor; lia|].
  set (t := if String.eqb mode "exclusive" then v else _).
  assert (0 ≤ t ≤ v) as Ht.
  { unfold t. destruct (String.eqb _ _); [lia|]. split; [apply div_half_up_nonneg; lia|].
    pose proof (div_half_up_spec (v * 100000) (100000 + (a + b + g)) ltac:(lia)). nia. }
  assert (∀ r, 0 ≤ r < 10 ^ 6 → 0 ≤ div_half_up (t * r) 100000 ≤ 11 * v) as Htax.
  { intros r Hr. split; [apply div_half_up_nonneg; nia|].
    pose proof (div_half_up_spec (t * r) 100000 ltac:(lia)). nia. }
  repeat constructor; try apply Htax; lia.
Qed.

Lemma allocate_sum_any amount weights :
  Forall (Z.le 0) weights → 0 ≤ amount ≤ 11 * sumZ weights → sumZ weights < 10 ^ 12 →
  sumZ (_allocate amount weights) = amount.
Proof.
  intros Hw Ha Hs. destruct (decide (sumZ weights = 0)) as [Hz|Hz].
  - rewrite allocate_zero, sumZ_zeros by auto. lia.
  - apply sumZ_allocate; [lia|done|lia|]. replace (10 ^ 26) with (100 * 10 ^ 12 * 10 ^ 12) by done. nia.
Qed.

(** Rates as the rules store them. *)
Definition stored_rates (r : Rates) : Prop := ∃ a b g, rates3 r a b g.

(** Invoice policy: every total is the sum over the slabs, each rounded once. *)
Lemma amounts_invoice_totals grosses rates mode policy :
  String.eqb policy "line_half_up" = false → length rates = length grosses →
  Forall (Z.le 0) grosses → sumZ grosses < 10 ^ 12 → Forall stored_rates rates →
  let c := amounts grosses rates mode policy in
  let tax s := _slab_tax (sumZ (slab_weights grosses s.2)) s.1 mode in
  sumZ (c_taxable c) = sumZ (map (λ s, (tax s).1.1.1) (slabs_of rates)) ∧
  sumZ (c_cgst c) = sumZ (map (λ s, (tax s).1.1.2) (slabs_of rates)) ∧
  sumZ (c_sgst c) = sumZ (map (λ s, (tax s).1.2) (slabs_of rates)) ∧
  sumZ (c_igst c) = sumZ (map (λ s, (tax s).2) (slabs_of rates)).
Proof.
  intros Hpol Hl Hg Hs Hr. cbv zeta. unfold amounts. rewrite Hpol, slab_steps_spread.
  cbn [c_taxable c_cgst c_sgst c_igst].
  assert (NoDup (slab_members (slabs_of rates))) as Hnd by (rewrite slabs_of_members; apply NoDup_seq).
  assert (∀ i, i ∈ slab_members (slabs_of rates) → map (λ _, 0) grosses !! i = Some 0) as Hz.
  { intros i. rewrite slabs_of_members, Hl, list_elem_of_In, in_seq. intros Hi.
    destruct (lookup_lt_is_Some_2 grosses i ltac:(lia)) as [x Hx]. by rewrite list_lookup_fmap, Hx. }
  assert (∀ s, s ∈ slabs_of rates → ∀ x,
    x ∈ [(_slab_tax (sumZ (slab_weights grosses s.2)) s.1 mode).1.1.1;
         (_slab_tax (sumZ (slab_weights grosses s.2)) s.1 mode).1.1.2;
         (_slab_tax (sumZ (slab_weights grosses s.2)) s.1 mode).1.2;
         (_slab_tax (sumZ (slab_weights grosses s.2)) s.1 mode).2] →
    sumZ (_allocate x (slab_weights grosses s.2)) = x) as Ha.
  { intros s Hin x Hx. pose proof (slab_weights_bound grosses rates s Hg Hl Hin) as Hb.
    pose proof (slabs_of_Forall _ _ Hr) as Hall. rewrite Forall_forall in Hall.
    destruct (Hall s Hin) as (a & b & g & Hr3). pose proof Hr3 as ([? _] & [? _] & [? _]).
    rewrite (slab_tax_refines _ _ a b g) in Hx by (done || (replace (10 ^ 13) with (10 * 10 ^ 12) by done; lia)).
    pose proof (slab_exact_bounds (sumZ (slab_weights grosses s.2)) a b g mode ltac:(lia) ltac:(done) ltac:(done) ltac:(done)) as Hbd.
    rewrite Forall_forall in Hbd. apply allocate_sum_any; [by apply slab_weights_nonneg|by apply Hbd|lia]. }
  split_and!; (rewrite sumZ_spread, sumZ_zeros; [lia|done|done|]; intros s Hin; apply (Ha s Hin);
    rewrite !elem_of_cons; auto).
Qed.

(** ** What an invoice promises *)

Lemma imap_nth {A} (col : list Z) (lines : list A) :
  length col = length lines → imap (λ i _, nth i col 0) lines = col.
Proof.
  revert col. induction lines as [|x lines IH]; intros [|y col] Hl; try done. cbn.
  f_equal. apply IH. cbn in Hl. lia.
Qed.

Lemma map_build_line (f : LineTax → Z) (col : list Z) mode c shipped grosses lines :
  length col = length lines →
  (∀ i l, f (build_line mode c shipped grosses i l) = nth i col 0) →
  map f (imap (build_line mode c shipped grosses) lines) = col.
Proof.
  intros Hl Hf. transitivity (imap (λ i _, nth i col 0) lines); [|by apply imap_nth]. change (map f) with (fmap (M := list) f).
  rewrite fmap_imap. apply imap_ext. intros i x _. apply Hf.
Qed.

Lemma slab_exact_round_off v a b g :
  0 ≤ v → 0 ≤ a → 0 ≤ b → 0 ≤ g → a + b + g < 100000 → (a = 0 ∧ b = 0) ∨ g = 0 →
  let '(t, x, y, z) := slab_exact v a b g "inclusive" in Z.abs (v - t - x - y - z) ≤ 1.
Proof.
  intros Hv Ha Hb Hg Hr Hone. unfold slab_exact. destruct (_ =? _); [lia|]. cbn [String.eqb Ascii.eqb Bool.eqb].
  pose proof (div_half_up_spec (v * 100000) (100000 + (a + b + g)) ltac:(lia)) as Ht.
  set (t := div_half_up (v * 100000) (100000 + (a + b + g))) in *.
  assert (∀ r, 0 ≤ r → r = 0 → div_half_up (t * r) 100000 = 0) as H0.
  { intros r _ ->. by rewrite Z.mul_0_r. }
  pose proof (div_half_up_spec (t * a) 100000 ltac:(lia)).
  pose proof (div_half_up_spec (t * b) 100000 ltac:(lia)).
  pose proof (div_half_up_spec (t * g) 100000 ltac:(lia)).
  destruct Hone as [[-> ->]| ->].
  - rewrite !(H0 0) in * by lia. nia.
  - rewrite (H0 0) in * by lia. nia.
Qed.

Lemma length_shipped_parts shipping treatment values :
  length (shipped_parts shipping treatment values).1 = length values.
Proof. unfold shipped_parts. destruct (_ && _); cbn; [apply length_allocate|by rewrite length_map]. Qed.

Lemma sumZ_zip_add l k : length l = length k → sumZ (zip_with Z.add l k) = sumZ l + sumZ k.
Proof. revert k. unfold sumZ. induction l as [|x l IH]; intros [|y k] Hl; try done. cbn in *. rewrite IH; lia. Qed.

Lemma zip_add_nonneg l k : Forall (Z.le 0) l → Forall (Z.le 0) k → Forall (Z.le 0) (zip_with Z.add l k).
Proof. intros Hl. revert k. induction Hl; intros [|y k] Hk; cbn; try constructor; inversion Hk; subst; [lia|auto]. Qed.

Lemma allocate_nonneg total weights :
  0 ≤ total → Forall (Z.le 0) weights → total * sumZ weights < 10 ^ 26 → Forall (Z.le 0) (_allocate total weights).
Proof.
  intros Ht Hw Hs. pose proof (sumZ_nonneg _ Hw). destruct (decide (sumZ weights = 0)).
  { rewrite allocate_zero by auto. by apply Forall_map, Forall_true. }
  apply Forall_lookup. intros i p Hp.
  destruct (lookup_lt_is_Some_2 weights i) as [w Hwi].
  { rewrite <-(length_allocate total weights). by eapply lookup_lt_Some. }
  destruct (allocate_lookup total weights Ht Hw ltac:(lia) Hs i w p Hwi Hp) as [Hlo _].
  assert (0 ≤ w) by (rewrite Forall_lookup in Hw; eauto). nia.
Qed.

Section calculate.
Context (lines : list CalcLine) (shipping : Z) (intra : bool) (mode treatment policy : string).
Context (Hconfig : known_config mode treatment policy = true).
Context (Hvalues : Forall (λ l, 0 ≤ cl_value_paise l) lines) (Hshipping : 0 ≤ shipping).
Context (Hsize : sumZ (map cl_value_paise lines) + shipping < 10 ^ 12).
(** The shipping charge has goods to be spread over, or is not taxed. *)
Context (Hspread : 0 < sumZ (map cl_value_paise lines) ∨ treatment ≠ "taxable_with_goods" ∨ shipping = 0).

Local Abbreviation values := (map cl_value_paise lines).
Definition shipped : list Z := (shipped_parts shipping treatment values).1.
Definition grosses : list Z := zip_with Z.add values shipped.
Definition line_rates : list Rates := map (λ l, _rates l intra) lines.
Definition columns : Columns := amounts grosses line_rates mode policy.

Lemma values_nonneg : Forall (Z.le 0) values.
Proof using Hvalues. by apply Forall_map. Qed.

Lemma shipped_conserved : sumZ shipped + (shipped_parts shipping treatment values).2 = shipping.
Proof using All.
  unfold shipped, shipped_parts.
  destruct (String.eqb_spec treatment "taxable_with_goods") as [->|], (Z.eqb_spec shipping 0); cbn;
    rewrite ?sumZ_zeros; try lia.
  destruct Hspread as [?|[?|?]]; [|done|done]. pose proof values_nonneg.
  rewrite sumZ_allocate; [lia|done|done|done|].
  replace (10 ^ 26) with (100 * 10 ^ 12 * 10 ^ 12) by done. nia.
Qed.

Lemma shipped_nonneg : Forall (Z.le 0) shipped.
Proof using All.
  unfold shipped, shipped_parts. pose proof values_nonneg as Hv. pose proof (sumZ_nonneg _ Hv).
  destruct (_ && _); cbn; [|by apply Forall_map, Forall_true].
  apply allocate_nonneg; [done|done|]. replace (10 ^ 26) with (100 * 10 ^ 12 * 10 ^ 12) by done. nia.
Qed.

Lemma length_grosses : length grosses = length lines.
Proof. unfold grosses, shipped. rewrite length_zip_with, length_shipped_parts, length_map. lia. Qed.

Lemma grosses_ok :
  Forall (Z.le 0) grosses ∧ sumZ grosses = sumZ values + sumZ shipped ∧ sumZ grosses < 10 ^ 12.
Proof using All.
  pose proof shipped_conserved as Hc. pose proof shipped_nonneg as Hn.
  assert (0 ≤ (shipped_parts shipping treatment values).2).
  { unfold shipped_parts. destruct (_ && _); cbn; lia. }
  assert (sumZ grosses = sumZ values + sumZ shipped) as Heq.
  { unfold grosses. apply sumZ_zip_add. unfold shipped. by rewrite length_shipped_parts. }
  split; [apply zip_add_nonneg; [apply values_nonneg|done]|]. split; [done|lia].
Qed.

Lemma columns_lengths : columns_length (length lines) columns.
Proof.
  rewrite <-length_grosses. apply amounts_length. rewrite length_grosses. unfold line_rates. by rewrite length_map.
Qed.

Lemma calculate_unfold :
  ∃ res, calculate lines shipping intra mode treatment policy = inr res ∧
    gr_lines res = imap (build_line mode columns shipped grosses) lines ∧
    gr_shipping_untaxed_paise res = (shipped_parts shipping treatment values).2 ∧
    gr_taxable_paise res = sumZ (c_taxable columns) ∧ gr_cgst_paise res = sumZ (c_cgst columns) ∧
    gr_sgst_paise res = sumZ (c_sgst columns) ∧ gr_igst_paise res = sumZ (c_igst columns) ∧
    gr_round_off_paise res = sumZ (map lt_round_off_paise (gr_lines res)) ∧
    gr_tax_paise res = sumZ (c_cgst columns) + sumZ (c_sgst columns) + sumZ (c_igst columns) ∧
    gr_tax_added_paise res = (if String.eqb mode "exclusive" then gr_tax_paise res else 0) ∧
    gr_tax_included_paise res = (if String.eqb mode "inclusive" then gr_tax_paise res else 0).
Proof using Hconfig.
  unfold calculate. rewrite Hconfig; cbn [negb]. unfold columns, grosses, line_rates, shipped.
  destruct (shipped_parts shipping treatment values) as [sh un]. cbn [fst snd].
  eexists. split; [reflexivity|]. cbn. done.
Qed.

Lemma mode_cases : mode = "inclusive" ∨ mode = "exclusive".
Proof using Hconfig.
  unfold known_config in Hconfig.
  destruct (String.eqb_spec mode "inclusive"), (String.eqb_spec mode "exclusive"); auto; done.
Qed.

(** Each line: gross = taxable when the tax is added, gross = taxable + tax + round-off when it is inside. *)
Lemma line_balance i line :
  lines !! i = Some line →
  let l := build_line mode columns shipped grosses i line in
  (mode = "exclusive" → lt_taxable_paise l = lt_gross_paise l ∧ lt_round_off_paise l = 0) ∧
  (mode = "inclusive" → lt_gross_paise l = lt_taxable_paise l + lt_tax_paise l + lt_round_off_paise l).
Proof using All.
  intros Hi. cbv zeta. unfold build_line, lt_tax_paise; cbn. split; intros Hm.
  - destruct grosses_ok as (Hg & _ & Hs). unfold columns. rewrite Hm.
    rewrite amounts_exclusive; [done| |done|replace (10 ^ 13) with (10 * 10 ^ 12) by done; lia].
    rewrite length_grosses. unfold line_rates. by rewrite length_map.
  - rewrite Hm; cbn. lia.
Qed.
End calculate.

(** ** The properties *)

(** [_allocate] splits exactly: as many parts as weights, adding up to the total, and every part
    is the exact proportional share rounded down or up (never up when the share is whole). *)
Theorem allocate_spec total weights :
  0 ≤ total → Forall (Z.le 0) weights → 0 < sumZ weights → total * sumZ weights < 10 ^ 26 →
  length (_allocate total weights) = length weights ∧ sumZ (_allocate total weights) = total ∧
  ∀ i w p, weights !! i = Some w → _allocate total weights !! i = Some p →
    (p = total * w / sumZ weights ∨
     (p = total * w / sumZ weights + 1 ∧ (total * w) mod sumZ weights ≠ 0)).
Proof.
  intros Ht Hw Hp Hs. split; [apply length_allocate|]. split; [by apply sumZ_allocate|].
  intros i w p Hi Hpi. destruct (allocate_lookup total weights Ht Hw Hp Hs i w p Hi Hpi) as [H1 H2].
  pose proof (Z.div_mod (total * w) (sumZ weights) ltac:(lia)).
  pose proof (Z.mod_pos_bound (total * w) (sumZ weights) Hp).
  set (q := total * w / sumZ weights) in *. set (r := (total * w) mod sumZ weights) in *.
  assert (q ≤ p ≤ q + 1) by nia. destruct (decide (p = q)); [by left|right].
  split; [lia|]. intros Hr. nia.
Qed.
Lemma allocate_spec_witness :
  _allocate 100 [1; 1; 1] = [34; 33; 33] ∧ sumZ (_allocate 100 [1; 1; 1]) = 100.
Proof.
  split; [vm_compute; reflexivity|].
  refine (proj1 (proj2 (allocate_spec 100 [1; 1; 1] _ _ _ _))); [lia|repeat constructor; lia|done|done].
Defined.

(** A discount that is not larger than the goods is shared out exactly, and no line is
    discounted below zero. *)
Theorem share_discount_spec discount values :
  0 ≤ discount ≤ sumZ values → Forall (Z.le 0) values → sumZ values < 10 ^ 13 →
  sumZ (share_discount discount values) = discount ∧
  ∀ i v d, values !! i = Some v → share_discount discount values !! i = Some d → 0 ≤ d ≤ v.
Proof.
  intros Hd Hv Hs. unfold share_discount. pose proof (sumZ_nonneg _ Hv).
  assert (discount * sumZ values < 10 ^ 26) as Hb.
  { replace (10 ^ 26) with (10 ^ 13 * 10 ^ 13) by done. nia. }
  destruct (decide (sumZ values = 0)) as [Hz|Hz].
  { rewrite allocate_zero, sumZ_zeros by auto. split; [lia|]. intros i v d Hi.
    rewrite list_lookup_fmap, Hi. intros [= <-]. rewrite Forall_lookup in Hv. specialize (Hv _ _ Hi). lia. }
  split; [apply sumZ_allocate; (done || lia)|]. intros i v d Hi Hdi.
  pose proof (allocate_nonneg discount values ltac:(lia) Hv Hb) as Hn. rewrite Forall_lookup in Hn.
  split; [by eapply Hn|].
  destruct (allocate_lookup discount values ltac:(lia) Hv ltac:(lia) Hb i v d Hi Hdi) as [_ H2].
  rewrite Forall_lookup in Hv. specialize (Hv _ _ Hi). nia.
Qed.
Lemma share_discount_spec_witness :
  share_discount 1000 [5999; 1; 4000] = [600; 0; 400] ∧ sumZ (share_discount 1000 [5999; 1; 4000]) = 1000.
Proof.
  split; [vm_compute; reflexivity|].
  refine (proj1 (share_discount_spec 1000 [5999; 1; 4000] _ _ _)); [cbn; lia|repeat constructor; lia|done].
Defined.

(** The discount of an accepted coupon never exceeds what it applies to: between zero and the
    subtotal on the goods, exactly the shipping price for free shipping; a percentage is rounded half
    up from the exact product and then capped. *)
Theorem compute_discount_spec kind percent amount cap subtotal shipping d :
  0 ≤ subtotal < 10 ^ 13 → 0 ≤ shipping →
  (∀ p, percent = Some p → ∃ r, p = Dec r (-2) ∧ 0 ≤ r ≤ 10000) →
  (∀ a, amount = Some a → 0 ≤ a) → (∀ c, cap = Some c → 0 ≤ c) →
  compute_discount kind percent amount cap subtotal shipping = inr d →
  (0 ≤ goods_cents d ≤ subtotal) ∧ (0 ≤ shipping_discount_cents d ≤ shipping) ∧
  (goods_cents d = 0 ∨ shipping_discount_cents d = 0) ∧
  (∀ r, kind = "percentage" → percent = Some (Dec r (-2)) →
     goods_cents d = Z.min (default subtotal cap) (Z.min (div_half_up (subtotal * r) 10000) subtotal)).
Proof.
  intros Hs Hsh Hp Ha Hc. unfold compute_discount.
  destruct (String.eqb_spec kind "percentage") as [->|Hk1].
  { destruct percent as [p|]; [|done]. destruct (Hp p eq_refl) as (r & -> & Hr).
    assert (half_up (ddiv (dmul (of_Z subtotal) (Dec r (-2))) (of_Z 100)) = div_half_up (subtotal * r) 10000) as ->
      by (apply (tax_on_exact subtotal r 2); nia).
    assert (0 ≤ div_half_up (subtotal * r) 10000) by (apply div_half_up_nonneg; nia).
    intros [= <-]. cbn [goods_cents shipping_discount_cents].
    destruct cap as [c|]; cbn; [specialize (Hc c eq_refl)|]; (split; [lia|]; split; [lia|]; split; [auto|]);
      intros r' _ [= ->]; lia. }
  destruct (String.eqb_spec kind "fixed") as [->|Hk2].
  { destruct amount as [a|]; [|done]. specialize (Ha a eq_refl). intros [= <-]. cbn.
    split; [lia|]. split; [lia|]. by split; [auto|]. }
  destruct (String.eqb_spec kind "free_shipping") as [->|]; [|done].
  intros [= <-]. cbn. split; [lia|]. split; [lia|]. by split; [auto|].
Qed.
Lemma compute_discount_spec_witness :
  let d := MkDiscount 250 0 in
  compute_discount "percentage" (Some (Dec 1250 (-2))) None (Some 400) 1999 500 = inr d ∧
  0 ≤ goods_cents d ≤ 1999.
Proof.
  split; [vm_compute; reflexivity|].
  refine (proj1 (compute_discount_spec "percentage" (Some (Dec 1250 (-2))) None (Some 400) 1999 500 (MkDiscount 250 0) _ _ _ _ _ _));
    [lia|lia|intros p [= <-]; exists 1250; split; [done|lia]|done|intros c [= <-]; lia|vm_compute; reflexivity].
Defined.

(** C35. The [Decimal] arithmetic of one slab is exact integer arithmetic: taxable value and each
    tax component are the exact quotients rounded half up to the paisa, in both pricing modes. *)
Theorem slab_tax_exact value rates a b g mode :
  0 ≤ value < 10 ^ 13 → rates3 rates a b g →
  _slab_tax value rates mode = slab_exact value a b g mode.
Proof. apply slab_tax_refines. Qed.
Lemma slab_tax_exact_witness :
  _slab_tax 11799 (Dec 9000 (-3), Dec 9000 (-3), ZERO) "inclusive" = (9999, 900, 900, 0).
Proof.
  rewrite (slab_tax_exact 11799 (Dec 9000 (-3), Dec 9000 (-3), ZERO) 9000 9000 0 "inclusive");
    [vm_compute; reflexivity|lia|].
  split; [split; [lia|by left]|split; [split; [lia|by left]|split; [lia|by right]]].
Defined.

(** Shipping that finds something to be spread over, when it is to be spread. *)
Lemma balances_spread lines shipping intra mode treatment policy :
  known_config mode treatment policy = true →
  Forall (λ l, 0 ≤ cl_value_paise l) lines → 0 ≤ shipping →
  sumZ (map cl_value_paise lines) + shipping < 10 ^ 12 →
  (0 < sumZ (map cl_value_paise lines) ∨ treatment ≠ "taxable_with_goods" ∨ shipping = 0) →
  ∃ res, calculate lines shipping intra mode treatment policy = inr res ∧
    map lt_key (gr_lines res) = map cl_key lines ∧
    map lt_gross_paise (gr_lines res) = zip_with Z.add (map cl_value_paise lines) (map lt_shipping_paise (gr_lines res)) ∧
    sumZ (map lt_shipping_paise (gr_lines res)) + gr_shipping_untaxed_paise res = shipping ∧
    gr_taxable_paise res = sumZ (map lt_taxable_paise (gr_lines res)) ∧
    gr_cgst_paise res = sumZ (map lt_cgst_paise (gr_lines res)) ∧
    gr_sgst_paise res = sumZ (map lt_sgst_paise (gr_lines res)) ∧
    gr_igst_paise res = sumZ (map lt_igst_paise (gr_lines res)) ∧
    gr_round_off_paise res = sumZ (map lt_round_off_paise (gr_lines res)) ∧
    gr_tax_paise res = gr_cgst_paise res + gr_sgst_paise res + gr_igst_paise res ∧
    gr_tax_added_paise res = (if String.eqb mode "exclusive" then gr_tax_paise res else 0) ∧
    gr_tax_included_paise res = (if String.eqb mode "inclusive" then gr_tax_paise res else 0) ∧
    sumZ (map lt_gross_paise (gr_lines res)) + gr_tax_added_paise res =
      gr_taxable_paise res + gr_tax_paise res + gr_round_off_paise res ∧
    Forall (λ l,
      (mode = "exclusive" → lt_taxable_paise l = lt_gross_paise l ∧ lt_round_off_paise l = 0) ∧
      (mode = "inclusive" → lt_gross_paise l = lt_taxable_paise l + lt_tax_paise l + lt_round_off_paise l))
      (gr_lines res).
Proof.
  intros Hc Hv Hsh Hs Hsp.
  destruct (calculate_unfold lines shipping intra mode treatment policy Hc)
    as (res & -> & Hl & Hun & Ht & Hcg & Hsg & Hig & Hro & Htax & Hadd & Hinc).
  exists res. split; [done|].
  destruct (columns_lengths lines shipping intra mode treatment policy) as (L1 & L2 & L3 & L4).
  pose proof (length_grosses lines shipping treatment) as Lg.
  destruct (grosses_ok lines shipping intra mode treatment policy Hc Hv Hsh Hs Hsp) as (Hg & Hgs & _).
  pose proof (shipped_conserved lines shipping intra mode treatment policy Hc Hv Hsh Hs Hsp) as Hcons.
  set (c := columns lines shipping intra mode treatment policy) in *.
  set (gs := grosses lines shipping treatment) in *. set (sh := shipped lines shipping treatment) in *.
  assert (map lt_gross_paise (gr_lines res) = gs) as Hgross by (rewrite Hl; by apply map_build_line).
  assert (map lt_taxable_paise (gr_lines res) = c_taxable c) as Htx by (rewrite Hl; by apply map_build_line).
  assert (sumZ (map lt_tax_paise (gr_lines res)) = gr_tax_paise res) as Htl.
  { rewrite Htax. rewrite (sumZ_map_add _ (λ l, lt_cgst_paise l + lt_sgst_paise l) lt_igst_paise) by done.
    rewrite (sumZ_map_add _ lt_cgst_paise lt_sgst_paise) by done.
    rewrite Hl, (map_build_line lt_cgst_paise (c_cgst c)), (map_build_line lt_sgst_paise (c_sgst c)),
      (map_build_line lt_igst_paise (c_igst c)) by done. done. }
  assert (Forall (λ l,
      (mode = "exclusive" → lt_taxable_paise l = lt_gross_paise l ∧ lt_round_off_paise l = 0) ∧
      (mode = "inclusive" → lt_gross_paise l = lt_taxable_paise l + lt_tax_paise l + lt_round_off_paise l))
      (gr_lines res)) as Hbal.
  { rewrite Hl. apply Forall_lookup. intros i l Hi. rewrite list_lookup_imap in Hi.
    destruct (lines !! i) as [line|] eqn:Hline; [|done]. injection Hi as <-.
    by apply (line_balance lines shipping intra mode treatment policy Hc Hv Hsh Hs Hsp i line). }
  assert (map lt_shipping_paise (gr_lines res) = sh) as Hship.
  { rewrite Hl. apply map_build_line; [|done]. unfold sh, shipped. rewrite length_shipped_parts. apply length_map. }
  assert (map lt_cgst_paise (gr_lines res) = c_cgst c) as Hc1 by (rewrite Hl; by apply map_build_line).
  assert (map lt_sgst_paise (gr_lines res) = c_sgst c) as Hc2 by (rewrite Hl; by apply map_build_line).
  assert (map lt_igst_paise (gr_lines res) = c_igst c) as Hc3 by (rewrite Hl; by apply map_build_line).
  split_and!.
  - rewrite Hl. change (map lt_key) with (fmap (M := list) lt_key). rewrite fmap_imap. clear.
    unfold compose; cbn. generalize 0%nat. induction lines as [|l lines IH]; [done|]. intros n. cbn. f_equal. apply (IH 0%nat).
  - by rewrite Hgross, Hship.
  - rewrite Hship, Hun. exact Hcons.
  - by rewrite Htx.
  - by rewrite Hc1.
  - by rewrite Hc2.
  - by rewrite Hc3.
  - done.
  - by rewrite Htax, Hcg, Hsg, Hig.
  - done.
  - done.
  - rewrite Hgross, Ht, Hro, Hadd, <-Htx, <-Hgross, <-Htl. clear -Hbal Hc.
    destruct (mode_cases mode treatment policy Hc) as [-> | ->]; cbn.
    + rewrite Z.add_0_r. induction Hbal as [|l ls [_ Hb] _ IH]; cbn; [done|].
      specialize (Hb eq_refl). unfold sumZ in *. lia.
    + induction Hbal as [|l ls [Hb _] _ IH]; cbn; [done|]. specialize (Hb eq_refl). unfold sumZ in *. lia.
  - done.
Qed.
(** Spread over goods that cost nothing, it is lost. *)
Lemma shipping_lost lines shipping intra mode policy :
  sumZ (map cl_value_paise lines) = 0 →
  calculate lines shipping intra mode "taxable_with_goods" policy = calculate lines 0 intra mode "taxable_with_goods" policy.
Proof.
  intros H0. unfold calculate. destruct (negb _); [done|].
  assert (shipped_parts shipping "taxable_with_goods" (map cl_value_paise lines) = (map (λ _, 0) (map cl_value_paise lines), 0)) as -> ; [|done].
  unfold shipped_parts, _allocate. rewrite H0. cbn [Z.eqb String.eqb Ascii.eqb Bool.eqb]. rewrite orb_true_r. by destruct (Z.eqb_spec shipping 0) as [->|].
Qed.

(** What of the shipping charge is accounted for: shipping to be spread over goods that are all free is lost. *)
Definition accounted_shipping (lines : list CalcLine) (shipping : Z) (treatment : string) : Z :=
  if String.eqb treatment "taxable_with_goods" && (sumZ (map cl_value_paise lines) =? 0) then 0 else shipping.

(** C36. An invoice balances to the paisa: the lines keep their keys and order, each line's gross is its value and its share of
    the shipping, the shares and the shipping reported untaxed are the whole shipping charge (none of it when it was to be
    spread over goods that are all free, as after a full discount: there the code loses it), each total of the invoice, of every
    component of the tax too, is the sum over its lines, the tax is its three components, added or included as the prices are,
    every line satisfies its mode's equation, and what the customer pays for the lines equals taxable value plus tax plus
    round-off. *)
Theorem calculate_balances lines shipping intra mode treatment policy :
  known_config mode treatment policy = true →
  Forall (λ l, 0 ≤ cl_value_paise l) lines → 0 ≤ shipping →
  sumZ (map cl_value_paise lines) + shipping < 10 ^ 12 →
  ∃ res, calculate lines shipping intra mode treatment policy = inr res ∧
    map lt_key (gr_lines res) = map cl_key lines ∧
    map lt_gross_paise (gr_lines res) = zip_with Z.add (map cl_value_paise lines) (map lt_shipping_paise (gr_lines res)) ∧
    sumZ (map lt_shipping_paise (gr_lines res)) + gr_shipping_untaxed_paise res = accounted_shipping lines shipping treatment ∧
    gr_taxable_paise res = sumZ (map lt_taxable_paise (gr_lines res)) ∧
    gr_cgst_paise res = sumZ (map lt_cgst_paise (gr_lines res)) ∧
    gr_sgst_paise res = sumZ (map lt_sgst_paise (gr_lines res)) ∧
    gr_igst_paise res = sumZ (map lt_igst_paise (gr_lines res)) ∧
    gr_round_off_paise res = sumZ (map lt_round_off_paise (gr_lines res)) ∧
    gr_tax_paise res = gr_cgst_paise res + gr_sgst_paise res + gr_igst_paise res ∧
    gr_tax_added_paise res = (if String.eqb mode "exclusive" then gr_tax_paise res else 0) ∧
    gr_tax_included_paise res = (if String.eqb mode "inclusive" then gr_tax_paise res else 0) ∧
    sumZ (map lt_gross_paise (gr_lines res)) + gr_tax_added_paise res =
      gr_taxable_paise res + gr_tax_paise res + gr_round_off_paise res ∧
    Forall (λ l,
      (mode = "exclusive" → lt_taxable_paise l = lt_gross_paise l ∧ lt_round_off_paise l = 0) ∧
      (mode = "inclusive" → lt_gross_paise l = lt_taxable_paise l + lt_tax_paise l + lt_round_off_paise l))
      (gr_lines res).
Proof.
  intros Hc Hv Hsh Hs. unfold accounted_shipping. destruct (String.eqb_spec treatment "taxable_with_goods") as [->|Hne]; cbn [andb].
  - destruct (Z.eqb_spec (sumZ (map cl_value_paise lines)) 0) as [H0|H0].
    + rewrite shipping_lost by done. apply balances_spread; [done|done|done|lia|by right; right].
    + apply balances_spread; [done..|]. left. assert (0 ≤ sumZ (map cl_value_paise lines)); [|lia].
      clear -Hv. induction Hv as [|l ls Hl _ IH]; [done|]. unfold sumZ in *. cbn. lia.
  - apply balances_spread; [done..|]. by right; left.
Qed.
Lemma calculate_balances_witness :
  ∃ res, calculate [MkCalcLine 1 10000 "taxable" (Dec 9000 (-3)) (Dec 9000 (-3)) (Dec 18000 (-3));
                    MkCalcLine 2 4999 "exempt" ZERO ZERO ZERO] 500 true "inclusive" "taxable_with_goods" "invoice_half_up"
    = inr res ∧ sumZ (map lt_shipping_paise (gr_lines res)) + gr_shipping_untaxed_paise res = 500 ∧ gr_cgst_paise res = sumZ (map lt_cgst_paise (gr_lines res)).
Proof.
  destruct (calculate_balances
    [MkCalcLine 1 10000 "taxable" (Dec 9000 (-3)) (Dec 9000 (-3)) (Dec 18000 (-3));
     MkCalcLine 2 4999 "exempt" ZERO ZERO ZERO] 500 true "inclusive" "taxable_with_goods" "invoice_half_up")
    as (res & Hres & _ & _ & Hsum & _ & Hcg & _); [done|repeat constructor; cbn; lia|lia|done|].
  exists res. split; [exact Hres|]. split; [exact Hsum|exact Hcg].
Defined.

(** The rates of a line: three-decimal percentages, below 100% in total. *)
Definition line_rates_ok (l : CalcLine) : Prop :=
  ∃ a b g, cl_cgst l = Dec a (-3) ∧ cl_sgst l = Dec b (-3) ∧ cl_igst l = Dec g (-3) ∧
    0 ≤ a ∧ 0 ≤ b ∧ 0 ≤ g ∧ a + b < 100000 ∧ g < 100000.

(** At most one of the two families of taxes applies, at less than 100%. *)
Definition moderate_rates (r : Rates) : Prop :=
  ∃ a b g, rates3 r a b g ∧ a + b + g < 100000 ∧ ((a = 0 ∧ b = 0) ∨ g = 0).

Lemma rates_moderate l intra : line_rates_ok l → moderate_rates (_rates l intra).
Proof.
  intros (a & b & g & Ha & Hb & Hg & ? & ? & ? & ? & ?).
  unfold _rates, moderate_rates, rates3, rate3. rewrite Ha, Hb, Hg.
  destruct (negb _); [exists 0, 0, 0; cbn; repeat split; auto; lia|].
  destruct intra; [exists a, b, 0|exists 0, 0, g]; cbn; repeat split; auto; lia.
Qed.

Lemma slab_tax_round_off v r :
  0 ≤ v < 10 ^ 13 → moderate_rates r →
  let '(t, x, y, z) := _slab_tax v r "inclusive" in Z.abs (v - t - x - y - z) ≤ 1.
Proof.
  intros Hv (a & b & g & Hr & Hsum & Hone). pose proof Hr as ([? _] & [? _] & [? _]).
  rewrite (slab_tax_refines v r a b g) by done. apply slab_exact_round_off; try done; lia.
Qed.

Lemma sumZ_abs_le {A} (f : A → Z) (l : list A) :
  (∀ x, x ∈ l → Z.abs (f x) ≤ 1) → Z.abs (sumZ (map f l)) ≤ Z.of_nat (length l).
Proof.
  induction l as [|x l IH]; intros H; [done|]. specialize (IH ltac:(intros; apply H; by right)).
  specialize (H x ltac:(by left)). unfold sumZ in *. cbn [map foldr length] in *. lia.
Qed.

Lemma combine_lookup {A B} (l : list A) (k : list B) i x y :
  l !! i = Some x → k !! i = Some y → combine l k !! i = Some (x, y).
Proof.
  revert k i. induction l as [|a l IH]; intros [|b k] [|i] H1 H2; try done; cbn in *; [congruence|by apply IH].
Qed.

(** One line of the line policy. *)
Lemma line_columns_nth gs rs mode i v r :
  gs !! i = Some v → rs !! i = Some r →
  let c := line_columns gs rs mode in
  (nth i (c_taxable c) 0, nth i (c_cgst c) 0, nth i (c_sgst c) 0, nth i (c_igst c) 0) = _slab_tax v r mode.
Proof.
  intros Hg Hr. cbv zeta. unfold line_columns; cbn [c_taxable c_cgst c_sgst c_igst].
  assert (∀ f : Z * Z * Z * Z → Z,
    nth i (map f (map (λ '(g0, r0), _slab_tax g0 r0 mode) (combine gs rs))) 0 = f (_slab_tax v r mode)) as Hn.
  { intros f. apply nth_lookup_Some. rewrite map_map, list_lookup_fmap, (combine_lookup _ _ _ _ _ Hg Hr). done. }
  rewrite !Hn. by destruct (_slab_tax v r mode) as [[[t x] y] z].
Qed.

(** The total of the round-offs is what the columns leave of the gross values. *)
Lemma round_off_total c sh gs lines :
  columns_length (length lines) c → length gs = length lines →
  sumZ (map lt_round_off_paise (imap (build_line "inclusive" c sh gs) lines)) =
  sumZ gs - sumZ (c_taxable c) - sumZ (c_cgst c) - sumZ (c_sgst c) - sumZ (c_igst c).
Proof.
  intros (L1 & L2 & L3 & L4) Lg.
  transitivity (sumZ (map lt_gross_paise (imap (build_line "inclusive" c sh gs) lines)) -
    sumZ (map lt_taxable_paise (imap (build_line "inclusive" c sh gs) lines)) -
    sumZ (map lt_cgst_paise (imap (build_line "inclusive" c sh gs) lines)) -
    sumZ (map lt_sgst_paise (imap (build_line "inclusive" c sh gs) lines)) -
    sumZ (map lt_igst_paise (imap (build_line "inclusive" c sh gs) lines))).
  - assert (Forall (λ l, lt_round_off_paise l =
        lt_gross_paise l - lt_taxable_paise l - lt_cgst_paise l - lt_sgst_paise l - lt_igst_paise l)
      (imap (build_line "inclusive" c sh gs) lines)) as Hall.
    { apply Forall_lookup. intros i l Hi. rewrite list_lookup_imap in Hi.
      destruct (lines !! i); [|done]. by injection Hi as <-. }
    induction Hall as [|l ls Hb _ IH]; cbn; [done|]. unfold sumZ in *. lia.
  - rewrite (map_build_line lt_gross_paise gs), (map_build_line lt_taxable_paise (c_taxable c)),
      (map_build_line lt_cgst_paise (c_cgst c)), (map_build_line lt_sgst_paise (c_sgst c)),
      (map_build_line lt_igst_paise (c_igst c)) by done. done.
Qed.

(** Rounding once per slab loses at most a paisa per slab. *)
Lemma invoice_round_off gs rs :
  length rs = length gs → Forall (Z.le 0) gs → sumZ gs < 10 ^ 12 → Forall moderate_rates rs →
  let c := amounts gs rs "inclusive" "invoice_half_up" in
  Z.abs (sumZ gs - sumZ (c_taxable c) - sumZ (c_cgst c) - sumZ (c_sgst c) - sumZ (c_igst c))
  ≤ Z.of_nat (length (slabs_of rs)).
Proof.
  intros Hl Hg Hgs Hmod. cbv zeta.
  destruct (amounts_invoice_totals gs rs "inclusive" "invoice_half_up") as (-> & -> & -> & ->);
    [done|lia|done|done| |].
  { eapply Forall_impl; [exact Hmod|]. intros r (a & b & g & ? & _). by exists a, b, g. }
  assert (sumZ gs = sumZ (map (λ s, sumZ (slab_weights gs s.2)) (slabs_of rs))) as Hpart.
  { rewrite <-(map_map (λ s : Rates * list nat, slab_weights gs s.2) sumZ), <-sumZ_concat, <-slab_weights_concat.
    apply sumZ_perm. symmetry. apply slab_weights_all. rewrite slabs_of_members. by rewrite Hl. }
  rewrite Hpart.
  etrans; [|apply (sumZ_abs_le (λ s : Rates * list nat,
    let '(t, x, y, z) := _slab_tax (sumZ (slab_weights gs s.2)) s.1 "inclusive" in
    sumZ (slab_weights gs s.2) - t - x - y - z))].
  - apply Z.eq_le_incl. f_equal. clear. induction (slabs_of rs) as [|s ss IH]; [done|].
    unfold sumZ in *. cbn [map foldr]. rewrite <-IH.
    destruct (_slab_tax (foldr Z.add 0 (slab_weights gs s.2)) s.1 "inclusive") as [[[t x] y] z]. cbn [fst snd]. lia.
  - intros s Hin. pose proof (slab_weights_bound gs rs s Hg ltac:(lia) Hin) as Hb.
    pose proof (slabs_of_Forall _ _ Hmod) as Hall. rewrite Forall_forall in Hall.
    pose proof (slab_tax_round_off (sumZ (slab_weights gs s.2)) s.1 ltac:(lia) (Hall s Hin)) as H.
    by destruct (_slab_tax _ _ _) as [[[t x] y] z].
Qed.

(** Prices that contain the tax: the round-off is at most one paisa per line when tax is rounded
    per line, and at most one paisa per rate slab on the whole invoice when it is rounded per slab. *)
Theorem calculate_round_off lines shipping intra treatment policy res :
  Forall (λ l, 0 ≤ cl_value_paise l) lines → 0 ≤ shipping →
  sumZ (map cl_value_paise lines) + shipping < 10 ^ 12 →
  (0 < sumZ (map cl_value_paise lines) ∨ treatment ≠ "taxable_with_goods" ∨ shipping = 0) →
  Forall line_rates_ok lines →
  calculate lines shipping intra "inclusive" treatment policy = inr res →
  (policy = "line_half_up" → Forall (λ l, Z.abs (lt_round_off_paise l) ≤ 1) (gr_lines res)) ∧
  (policy = "invoice_half_up" →
     Z.abs (gr_round_off_paise res) ≤ Z.of_nat (length (slabs_of (map (λ l, _rates l intra) lines)))).
Proof.
  intros Hv Hsh Hs Hsp Hrates Hcalc.
  destruct (known_config "inclusive" treatment policy) eqn:Hc; [|unfold calculate in Hcalc; by rewrite Hc in Hcalc].
  destruct (calculate_unfold lines shipping intra "inclusive" treatment policy Hc)
    as (res' & Hres & Hl & _ & _ & _ & _ & _ & Hro & _).
  rewrite Hcalc in Hres. injection Hres as <-.
  pose proof (columns_lengths lines shipping intra "inclusive" treatment policy) as Lc.
  pose proof (length_grosses lines shipping treatment) as Lg.
  destruct (grosses_ok lines shipping intra "inclusive" treatment policy Hc Hv Hsh Hs Hsp) as (Hg & _ & Hgs).
  assert (Forall moderate_rates (line_rates lines intra)) as Hmod.
  { unfold line_rates. apply Forall_map. eapply Forall_impl; [exact Hrates|]. intros l. apply rates_moderate. }
  assert (length (line_rates lines intra) = length lines) as Lr by (unfold line_rates; by rewrite length_map).
  split; intros ->.
  - rewrite Hl. apply Forall_lookup. intros i l Hi. rewrite list_lookup_imap in Hi.
    destruct (lines !! i) as [line|] eqn:Hline; [|done]. injection Hi as <-.
    pose proof (lookup_lt_Some _ _ _ Hline) as Hlt.
    destruct (lookup_lt_is_Some_2 (grosses lines shipping treatment) i ltac:(lia)) as [v Hgi].
    destruct (lookup_lt_is_Some_2 (line_rates lines intra) i ltac:(lia)) as [r Hri].
    pose proof (line_columns_nth _ _ "inclusive" i v r Hgi Hri) as Hrow.
    rewrite Forall_lookup in Hmod. specialize (Hmod _ _ Hri).
    assert (0 ≤ v < 10 ^ 13) as Hvb.
    { pose proof (sumZ_elem _ v Hg ltac:(by eapply list_elem_of_lookup_2)). rewrite Forall_lookup in Hg.
      specialize (Hg _ _ Hgi). lia. }
    pose proof (slab_tax_round_off v r Hvb Hmod) as H. rewrite <-Hrow in H.
    unfold build_line. cbn [lt_round_off_paise]. by rewrite (nth_lookup_Some _ _ _ _ Hgi).
  - rewrite Hro, Hl, round_off_total by done. apply (invoice_round_off _ (line_rates lines intra)); [congruence|done..].
Qed.
Lemma calculate_round_off_witness :
  let lines := [MkCalcLine 1 10001 "taxable" (Dec 9000 (-3)) (Dec 9000 (-3)) (Dec 18000 (-3));
                MkCalcLine 2 4999 "taxable" (Dec 2500 (-3)) (Dec 2500 (-3)) (Dec 5000 (-3))] in
  ∃ res, calculate lines 0 true "inclusive" "not_taxed" "invoice_half_up" = inr res ∧
    Z.abs (gr_round_off_paise res) ≤ 2.
Proof.
  cbv zeta. eexists. split; [vm_compute; reflexivity|].
  refine (proj2 (calculate_round_off
    [MkCalcLine 1 10001 "taxable" (Dec 9000 (-3)) (Dec 9000 (-3)) (Dec 18000 (-3));
     MkCalcLine 2 4999 "taxable" (Dec 2500 (-3)) (Dec 2500 (-3)) (Dec 5000 (-3))]
    0 true "not_taxed" "invoice_half_up" _ _ _ _ _ _ _) eq_refl);
    [repeat constructor; cbn; lia|lia|done|left; done| |vm_compute; reflexivity].
  constructor; [exists 9000, 9000, 18000; by split_and!|].
  constructor; [exists 2500, 2500, 5000; by split_and!|constructor].
Defined.

(** Rules that charge CGST and SGST at the same rate charge the same amount of both, on every
    line and on the invoice, under both rounding policies. *)
Theorem calculate_equal_halves lines shipping intra mode treatment policy res :
  Forall (λ l, cl_cgst l = cl_sgst l) lines →
  calculate lines shipping intra mode treatment policy = inr res →
  gr_cgst_paise res = gr_sgst_paise res ∧ Forall (λ l, lt_cgst_paise l = lt_sgst_paise l) (gr_lines res).
Proof.
  intros Heq Hcalc.
  destruct (known_config mode treatment policy) eqn:Hc; [|unfold calculate in Hcalc; by rewrite Hc in Hcalc].
  destruct (calculate_unfold lines shipping intra mode treatment policy Hc)
    as (res' & Hres & Hl & _ & _ & Hcg & Hsg & _). rewrite Hcalc in Hres. injection Hres as <-.
  assert (c_cgst (columns lines shipping intra mode treatment policy) =
          c_sgst (columns lines shipping intra mode treatment policy)) as Hcol.
  { apply amounts_equal_components. unfold line_rates. apply Forall_map. eapply Forall_impl; [exact Heq|].
    intros l Hr. unfold _rates. by destruct (negb _), intra. }
  split; [by rewrite Hcg, Hsg, Hcol|]. rewrite Hl. apply Forall_lookup. intros i l Hi.
  rewrite list_lookup_imap in Hi. destruct (lines !! i); [|done]. injection Hi as <-.
  unfold build_line; cbn. by rewrite Hcol.
Qed.
Lemma calculate_equal_halves_witness :
  ∃ res, calculate [MkCalcLine 1 10001 "taxable" (Dec 9000 (-3)) (Dec 9000 (-3)) (Dec 18000 (-3))] 0 true
    "exclusive" "not_taxed" "line_half_up" = inr res ∧ gr_cgst_paise res = gr_sgst_paise res.
Proof.
  eexists. split; [vm_compute; reflexivity|].
  refine (proj1 (calculate_equal_halves
    [MkCalcLine 1 10001 "taxable" (Dec 9000 (-3)) (Dec 9000 (-3)) (Dec 18000 (-3))] 0 true
    "exclusive" "not_taxed" "line_half_up" _ _ _)); [repeat constructor|vm_compute; reflexivity].
Defined.
