(* ===== verification/Schema.v ===== *)
(** * The database: enums, tables, rows, and the state a request works on

    One record per table, with the columns the modelled operations read or write, and [DB], the
    tables keyed by primary key. A uuid is its text, a time is a number of seconds, a JSONB column
    a [json] document. [St] is what a unit of work sees: the open transaction's view of the tables,
    the last committed one, the clock, the generators of identifiers and the transaction-local
    settings of the stock ledger. *)

From S2P Require Import Prelude Decimal Errors.
Import Decimal.

Local Open Scope string_scope.
Local Open Scope list_scope.
Local Open Scope Z_scope.

#[global] Abbreviation uuid := string (only parsing).

(** ** Enums ([app/shared/enums]) *)

(** [OrderStatus] *)
Inductive OrderStatus := PENDING | PAID | FULFILLED | CANCELLED | REFUNDED.
#[export] Instance OrderStatus_eq_dec : EqDecision OrderStatus.
Proof. solve_decision. Defined.
Definition order_status_value (s : OrderStatus) : string :=
  match s with
  | PENDING => "pending"
  | PAID => "paid"
  | FULFILLED => "fulfilled"
  | CANCELLED => "cancelled"
  | REFUNDED => "refunded"
  end.

(** [ALLOWED_TRANSITIONS] *)
Definition ALLOWED_TRANSITIONS (s : OrderStatus) : list OrderStatus :=
  match s with
  | PENDING => [PAID; CANCELLED]
  | PAID => [FULFILLED; REFUNDED]
  | FULFILLED => [REFUNDED]
  | CANCELLED => []
  | REFUNDED => []
  end.

(** [PaymentStatus] *)
Inductive PaymentStatus := PayPending | PaySucceeded | PayFailed | PayRefunded.
#[export] Instance PaymentStatus_eq_dec : EqDecision PaymentStatus.
Proof. solve_decision. Defined.
Definition payment_status_value (s : PaymentStatus) : string :=
  match s with
  | PayPending => "pending"
  | PaySucceeded => "succeeded"
  | PayFailed => "failed"
  | PayRefunded => "refunded"
  end.

(** [RefundStatus] *)
Inductive RefundStatus := RefRequested | RefPending | RefSucceeded | RefFailed | RefUncertain.
#[export] Instance RefundStatus_eq_dec : EqDecision RefundStatus.
Proof. solve_decision. Defined.
Definition refund_status_value (s : RefundStatus) : string :=
  match s with
  | RefRequested => "requested"
  | RefPending => "pending"
  | RefSucceeded => "succeeded"
  | RefFailed => "failed"
  | RefUncertain => "uncertain"
  end.

(** [ACTIVE_REFUND_STATUSES] *)
Definition ACTIVE_REFUND_STATUSES : list RefundStatus := [RefRequested; RefPending; RefSucceeded; RefUncertain].

(** [ReconciliationKind] *)
Inductive ReconciliationKind := LATE_PAYMENT | UNMATCHED_PAYMENT | AMOUNT_MISMATCH | UNVERIFIABLE_PAYMENT | ORDER_MISMATCH | CANCEL_UNCERTAIN | CANCEL_PAYMENT_SUCCEEDED | REFUND_UNCERTAIN | REFUND_MISMATCH | EXTERNAL_REFUND | DISPUTE_OPENED | DISPUTE_LOST | UNMATCHED_DISPUTE | REFUND_BLOCKED_BY_DISPUTE | DISPUTE_DURING_REFUND.
#[export] Instance ReconciliationKind_eq_dec : EqDecision ReconciliationKind.
Proof. solve_decision. Defined.
Definition reconciliation_kind_value (s : ReconciliationKind) : string :=
  match s with
  | LATE_PAYMENT => "late_payment"
  | UNMATCHED_PAYMENT => "unmatched_payment"
  | AMOUNT_MISMATCH => "amount_mismatch"
  | UNVERIFIABLE_PAYMENT => "unverifiable_payment"
  | ORDER_MISMATCH => "order_mismatch"
  | CANCEL_UNCERTAIN => "cancel_uncertain"
  | CANCEL_PAYMENT_SUCCEEDED => "cancel_payment_succeeded"
  | REFUND_UNCERTAIN => "refund_uncertain"
  | REFUND_MISMATCH => "refund_mismatch"
  | EXTERNAL_REFUND => "external_refund"
  | DISPUTE_OPENED => "dispute_opened"
  | DISPUTE_LOST => "dispute_lost"
  | UNMATCHED_DISPUTE => "unmatched_dispute"
  | REFUND_BLOCKED_BY_DISPUTE => "refund_blocked_by_dispute"
  | DISPUTE_DURING_REFUND => "dispute_during_refund"
  end.

(** The status column of a dispute *)
Inductive DisputeStatus := DispOpen | DispUnderReview | DispWon | DispLost | DispClosed.
#[export] Instance DisputeStatus_eq_dec : EqDecision DisputeStatus.
Proof. solve_decision. Defined.
Definition dispute_status_value (s : DisputeStatus) : string :=
  match s with
  | DispOpen => "open"
  | DispUnderReview => "under_review"
  | DispWon => "won"
  | DispLost => "lost"
  | DispClosed => "closed"
  end.

(** [ProductStatus] *)
Inductive ProductStatus := DRAFT | ACTIVE | ARCHIVED.
#[export] Instance ProductStatus_eq_dec : EqDecision ProductStatus.
Proof. solve_decision. Defined.

(** The status column of a processed webhook event *)
Inductive EventStatus := EvProcessing | EvProcessed | EvIgnored | EvFailed.
#[export] Instance EventStatus_eq_dec : EqDecision EventStatus.
Proof. solve_decision. Defined.

(** ** Tables *)

(** [orders] *)
Record Order := MkOrder {
  o_id : uuid;
  o_user_id : option uuid;
  o_guest_token : option string;
  o_guest_email : option string;
  o_payment_token_hash : option string;
  o_cart_digest : option string;
  o_status : OrderStatus;
  o_idempotency_key : string;
  o_request_hash : option string;
  o_subtotal_cents : Z;
  o_paid_in_demo_mode : bool;
  o_discount_cents : Z;
  o_coupon_id : option Z;
  o_coupon_code : option string;
  o_coupon_snapshot : json;
  o_shipping_cents : Z;
  o_tax_cents : Z;
  o_total_cents : Z;
  o_currency : option string;
  o_stock_released_at : option Z;
  o_shipping_snapshot : json;
  o_tax_snapshot : json;
  o_shipping_columns : list (string * option string);
  o_created_at : Z
}.
#[export] Instance eta_Order : Eta Order := λ r, MkOrder (o_id r) (o_user_id r) (o_guest_token r) (o_guest_email r) (o_payment_token_hash r) (o_cart_digest r) (o_status r) (o_idempotency_key r) (o_request_hash r) (o_subtotal_cents r) (o_paid_in_demo_mode r) (o_discount_cents r) (o_coupon_id r) (o_coupon_code r) (o_coupon_snapshot r) (o_shipping_cents r) (o_tax_cents r) (o_total_cents r) (o_currency r) (o_stock_released_at r) (o_shipping_snapshot r) (o_tax_snapshot r) (o_shipping_columns r) (o_created_at r).

(** [order_items] *)
Record OrderItem := MkOrderItem {
  oi_id : Z;
  oi_order_id : uuid;
  oi_product_id : Z;
  oi_product_name_snapshot : string;
  oi_price_cents_snapshot : Z;
  oi_quantity : Z;
  oi_variant_id : option Z;
  oi_sku_snapshot : option string;
  oi_sku_snapshot_source : option string;
  oi_variant_snapshot : json;
  oi_restocked_quantity : Z;
  oi_discount_cents : Z
}.
#[export] Instance eta_OrderItem : Eta OrderItem := λ r, MkOrderItem (oi_id r) (oi_order_id r) (oi_product_id r) (oi_product_name_snapshot r) (oi_price_cents_snapshot r) (oi_quantity r) (oi_variant_id r) (oi_sku_snapshot r) (oi_sku_snapshot_source r) (oi_variant_snapshot r) (oi_restocked_quantity r) (oi_discount_cents r).

(** [order_status_history] *)
Record OrderStatusHistory := MkHistory {
  h_order_id : uuid;
  h_from_status : OrderStatus;
  h_to_status : OrderStatus;
  h_changed_by_user_id : option uuid;
  h_reason : option string;
  h_created_at : Z
}.
#[export] Instance eta_OrderStatusHistory : Eta OrderStatusHistory := λ r, MkHistory (h_order_id r) (h_from_status r) (h_to_status r) (h_changed_by_user_id r) (h_reason r) (h_created_at r).

(** [products] ([p_price_from] and [p_price_to] are the columns the triggers of [price_guard.py] maintain) *)
Record Product := MkProduct {
  p_id : Z;
  p_name : string;
  p_slug : string;
  p_description : option string;
  p_image_path : option string;
  p_price_cents : Z;
  p_sku : string;
  p_stock : Z;
  p_status : ProductStatus;
  p_category_id : Z;
  p_tax_classification_id : option Z;
  p_unit : option string;
  p_option_count : Z;
  p_price_from : Z;
  p_price_to : Z;
  p_created_at : Z
}.
#[export] Instance eta_Product : Eta Product := λ r, MkProduct (p_id r) (p_name r) (p_slug r) (p_description r) (p_image_path r) (p_price_cents r) (p_sku r) (p_stock r) (p_status r) (p_category_id r) (p_tax_classification_id r) (p_unit r) (p_option_count r) (p_price_from r) (p_price_to r) (p_created_at r).

(** [product_variants] ([pv_active] is the status column, 'active' or 'inactive'; [pv_value_ids] are the filled slots) *)
Record ProductVariant := MkVariant {
  pv_id : Z;
  pv_product_id : Z;
  pv_value1_id : option Z;
  pv_value2_id : option Z;
  pv_value3_id : option Z;
  pv_option_count : Z;
  pv_sku : string;
  pv_price_override_cents : option Z;
  pv_stock : Z;
  pv_active : bool
}.
#[export] Instance eta_ProductVariant : Eta ProductVariant := λ r, MkVariant (pv_id r) (pv_product_id r) (pv_value1_id r) (pv_value2_id r) (pv_value3_id r) (pv_option_count r) (pv_sku r) (pv_price_override_cents r) (pv_stock r) (pv_active r).

(** [product_options] with its values *)
Record ProductOption := MkOption {
  po_id : Z;
  po_product_id : Z;
  po_position : Z;
  po_name : string;
  po_values : list (Z * string)
}.
#[export] Instance eta_ProductOption : Eta ProductOption := λ r, MkOption (po_id r) (po_product_id r) (po_position r) (po_name r) (po_values r).

(** [stock_movements] *)
Record StockMovement := MkMovement {
  sm_kind : string;
  sm_product_id : Z;
  sm_variant_id : option Z;
  sm_delta : Z;
  sm_before_qty : Z;
  sm_after_qty : Z;
  sm_actor_user_id : option uuid;
  sm_reason : option string;
  sm_order_id : option uuid
}.
#[export] Instance eta_StockMovement : Eta StockMovement := λ r, MkMovement (sm_kind r) (sm_product_id r) (sm_variant_id r) (sm_delta r) (sm_before_qty r) (sm_after_qty r) (sm_actor_user_id r) (sm_reason r) (sm_order_id r).

(** [carts] *)
Record Cart := MkCart {
  c_id : Z;
  c_user_id : option uuid;
  c_guest_token : option string
}.
#[export] Instance eta_Cart : Eta Cart := λ r, MkCart (c_id r) (c_user_id r) (c_guest_token r).

(** [cart_items] *)
Record CartItem := MkCartItem {
  ci_id : Z;
  ci_cart_id : Z;
  ci_product_id : Z;
  ci_variant_id : option Z;
  ci_quantity : Z;
  ci_price_cents_snapshot : Z
}.
#[export] Instance eta_CartItem : Eta CartItem := λ r, MkCartItem (ci_id r) (ci_cart_id r) (ci_product_id r) (ci_variant_id r) (ci_quantity r) (ci_price_cents_snapshot r).

(** [payments] *)
Record Payment := MkPayment {
  pay_id : uuid;
  pay_order_id : uuid;
  pay_provider : string;
  pay_provider_config_id : option uuid;
  pay_provider_reference : option string;
  pay_provider_payment_id : string;
  pay_status : PaymentStatus;
  pay_amount_cents : Z;
  pay_currency : string;
  pay_provider_refund_id : option string;
  pay_refunded_amount_cents : option Z;
  pay_created_at : Z
}.
#[export] Instance eta_Payment : Eta Payment := λ r, MkPayment (pay_id r) (pay_order_id r) (pay_provider r) (pay_provider_config_id r) (pay_provider_reference r) (pay_provider_payment_id r) (pay_status r) (pay_amount_cents r) (pay_currency r) (pay_provider_refund_id r) (pay_refunded_amount_cents r) (pay_created_at r).

(** [refunds] ([r_origin_requested]: the origin column is 'requested', not 'provider') *)
Record Refund := MkRefund {
  r_id : uuid;
  r_payment_id : uuid;
  r_order_id : uuid;
  r_amount_cents : Z;
  r_currency : string;
  r_status : RefundStatus;
  r_provider_refund_id : option string;
  r_idempotency_key : string;
  r_requested_by_user_id : option uuid;
  r_attempts : Z;
  r_cancels_order : bool;
  r_origin_requested : bool;
  r_failure_reason : option string
}.
#[export] Instance eta_Refund : Eta Refund := λ r, MkRefund (r_id r) (r_payment_id r) (r_order_id r) (r_amount_cents r) (r_currency r) (r_status r) (r_provider_refund_id r) (r_idempotency_key r) (r_requested_by_user_id r) (r_attempts r) (r_cancels_order r) (r_origin_requested r) (r_failure_reason r).

(** [payment_reconciliations] ([rc_open]: the status column is 'open', not 'resolved') *)
Record PaymentReconciliation := MkReconciliation {
  rc_id : uuid;
  rc_kind : ReconciliationKind;
  rc_open : bool;
  rc_payment_id : option uuid;
  rc_order_id : option uuid;
  rc_provider_payment_id : option string;
  rc_details : json;
  rc_dedupe_key : string;
  rc_resolution : option string;
  rc_resolution_note : option string;
  rc_resolved_by_user_id : option uuid;
  rc_resolved_at : option Z
}.
#[export] Instance eta_PaymentReconciliation : Eta PaymentReconciliation := λ r, MkReconciliation (rc_id r) (rc_kind r) (rc_open r) (rc_payment_id r) (rc_order_id r) (rc_provider_payment_id r) (rc_details r) (rc_dedupe_key r) (rc_resolution r) (rc_resolution_note r) (rc_resolved_by_user_id r) (rc_resolved_at r).

(** [disputes] *)
Record Dispute := MkDispute {
  di_id : uuid;
  di_provider : string;
  di_provider_dispute_id : string;
  di_payment_id : uuid;
  di_order_id : uuid;
  di_amount_cents : Z;
  di_currency : string;
  di_status : DisputeStatus;
  di_provider_status : option string;
  di_reason : option string;
  di_closed_at : option Z
}.
#[export] Instance eta_Dispute : Eta Dispute := λ r, MkDispute (di_id r) (di_provider r) (di_provider_dispute_id r) (di_payment_id r) (di_order_id r) (di_amount_cents r) (di_currency r) (di_status r) (di_provider_status r) (di_reason r) (di_closed_at r).

(** [processed_webhook_events], keyed by provider and event id *)
Record ProcessedWebhookEvent := MkProcessedEvent {
  we_event_type : string;
  we_status : EventStatus;
  we_attempts : Z;
  we_last_error : option string;
  we_processed_at : option Z
}.
#[export] Instance eta_ProcessedWebhookEvent : Eta ProcessedWebhookEvent := λ r, MkProcessedEvent (we_event_type r) (we_status r) (we_attempts r) (we_last_error r) (we_processed_at r).

(** [WebhookEvent] of [app/core/payments/interface.py]: what a verified webhook says *)
Record WebhookEvent := MkEvent {
  ev_event_id : string;
  ev_event_type : string;
  ev_provider_payment_id : string;
  ev_amount : option Z;
  ev_amount_received : option Z;
  ev_currency : option string;
  ev_provider_refund_id : option string;
  ev_refund_status : option string;
  ev_provider_dispute_id : option string;
  ev_dispute_status : option string;
  ev_dispute_reason : option string;
  ev_provider : string;
  ev_provider_reference : option string;
  ev_config_id : option uuid
}.
#[export] Instance eta_WebhookEvent : Eta WebhookEvent := λ r, MkEvent (ev_event_id r) (ev_event_type r) (ev_provider_payment_id r) (ev_amount r) (ev_amount_received r) (ev_currency r) (ev_provider_refund_id r) (ev_refund_status r) (ev_provider_dispute_id r) (ev_dispute_status r) (ev_dispute_reason r) (ev_provider r) (ev_provider_reference r) (ev_config_id r).

(** [deferred_webhook_events]: the event kept, and its recovery bookkeeping ([df_status]: 'pending', 'recovered' or 'expired') *)
Record DeferredWebhookEvent := MkDeferred {
  df_event : WebhookEvent;
  df_status : string;
  df_attempts : Z;
  df_next_attempt_at : Z;
  df_expires_at : Z;
  df_last_reason : option string;
  df_resolved_at : option Z
}.
#[export] Instance eta_DeferredWebhookEvent : Eta DeferredWebhookEvent := λ r, MkDeferred (df_event r) (df_status r) (df_attempts r) (df_next_attempt_at r) (df_expires_at r) (df_last_reason r) (df_resolved_at r).

(** [audit_logs] *)
Record AuditLog := MkAudit {
  au_actor_user_id : option uuid;
  au_action : string;
  au_target_type : string;
  au_target_id : option string;
  au_details : json
}.
#[export] Instance eta_AuditLog : Eta AuditLog := λ r, MkAudit (au_actor_user_id r) (au_action r) (au_target_type r) (au_target_id r) (au_details r).

(** [background_jobs] (the status column is 'pending', 'running', 'succeeded' or 'failed') *)
Record BackgroundJob := MkJob {
  j_id : Z;
  j_job_type : string;
  j_payload : json;
  j_status : string;
  j_attempts : Z;
  j_max_attempts : Z;
  j_run_at : Z;
  j_locked_until : option Z;
  j_finished_at : option Z;
  j_last_error : option string;
  j_dedupe_key : option string
}.
#[export] Instance eta_BackgroundJob : Eta BackgroundJob := λ r, MkJob (j_id r) (j_job_type r) (j_payload r) (j_status r) (j_attempts r) (j_max_attempts r) (j_run_at r) (j_locked_until r) (j_finished_at r) (j_last_error r) (j_dedupe_key r).

(** [coupons] *)
Record Coupon := MkCoupon {
  cp_id : Z;
  cp_code : string;
  cp_name : string;
  cp_kind : string;
  cp_percent_off : option dec;
  cp_amount_off_cents : option Z;
  cp_max_discount_cents : option Z;
  cp_min_subtotal_cents : Z;
  cp_starts_at : option Z;
  cp_ends_at : option Z;
  cp_max_uses_total : option Z;
  cp_max_uses_per_customer : option Z;
  cp_active : bool
}.
#[export] Instance eta_Coupon : Eta Coupon := λ r, MkCoupon (cp_id r) (cp_code r) (cp_name r) (cp_kind r) (cp_percent_off r) (cp_amount_off_cents r) (cp_max_discount_cents r) (cp_min_subtotal_cents r) (cp_starts_at r) (cp_ends_at r) (cp_max_uses_total r) (cp_max_uses_per_customer r) (cp_active r).

(** [addresses] *)
Record Address := MkAddress {
  ad_id : Z;
  ad_user_id : uuid;
  ad_recipient_name : string;
  ad_line1 : string;
  ad_line2 : option string;
  ad_city : string;
  ad_state : string;
  ad_postal_code : string;
  ad_country : string;
  ad_is_default : bool;
  ad_created_at : Z
}.
#[export] Instance eta_Address : Eta Address := λ r, MkAddress (ad_id r) (ad_user_id r) (ad_recipient_name r) (ad_line1 r) (ad_line2 r) (ad_city r) (ad_state r) (ad_postal_code r) (ad_country r) (ad_is_default r) (ad_created_at r).

(** [categories] *)
Record Category := MkCategory {
  cat_id : Z;
  cat_name : string;
  cat_slug : string;
  cat_description : option string;
  cat_image_path : option string;
  cat_is_active : bool
}.
#[export] Instance eta_Category : Eta Category := λ r, MkCategory (cat_id r) (cat_name r) (cat_slug r) (cat_description r) (cat_image_path r) (cat_is_active r).

(** [product_reviews] *)
Record ProductReview := MkReview {
  rv_id : Z;
  rv_product_id : Z;
  rv_user_id : uuid;
  rv_rating : Z;
  rv_title : option string;
  rv_body : option string;
  rv_status : string;
  rv_hidden_reason : option string;
  rv_hidden_by_user_id : option uuid;
  rv_created_at : Z
}.
#[export] Instance eta_ProductReview : Eta ProductReview := λ r, MkReview (rv_id r) (rv_product_id r) (rv_user_id r) (rv_rating r) (rv_title r) (rv_body r) (rv_status r) (rv_hidden_reason r) (rv_hidden_by_user_id r) (rv_created_at r).

(** [wishlist_items] *)
Record WishlistItem := MkWishlistItem {
  wi_id : Z;
  wi_user_id : uuid;
  wi_product_id : Z;
  wi_created_at : Z
}.
#[export] Instance eta_WishlistItem : Eta WishlistItem := λ r, MkWishlistItem (wi_id r) (wi_user_id r) (wi_product_id r) (wi_created_at r).

(** [users]: who signs in, with the role that makes an administrator *)
Inductive UserRole := USER | ADMIN.
#[export] Instance UserRole_eq_dec : EqDecision UserRole.
Proof. solve_decision. Defined.

Record User := MkUser {
  u_id : uuid;
  u_username : string;
  u_email : string;
  u_password_hash : string;
  u_role : UserRole;
  u_is_active : bool;
  u_email_verified_at : option Z;
  u_created_at : Z
}.
#[export] Instance eta_User : Eta User := λ r, MkUser (u_id r) (u_username r) (u_email r) (u_password_hash r) (u_role r) (u_is_active r) (u_email_verified_at r) (u_created_at r).

(** [refresh_tokens], by their unique [jti]; nothing refers to their [id] *)
Record RefreshToken := MkRefreshToken {
  rf_jti : string;
  rf_user_id : uuid;
  rf_family_id : uuid;
  rf_expires_at : Z;
  rf_revoked : bool;
  rf_rotated_at : option Z;
  rf_grace_replays : Z
}.
#[export] Instance eta_RefreshToken : Eta RefreshToken := λ r, MkRefreshToken (rf_jti r) (rf_user_id r) (rf_family_id r) (rf_expires_at r) (rf_revoked r) (rf_rotated_at r) (rf_grace_replays r).

(** [auth_tokens]: the emailed links, by the unique hash of their secret *)
Record AuthToken := MkAuthToken {
  at_token_hash : string;
  at_user_id : uuid;
  at_purpose : string;
  at_email : string;
  at_expires_at : Z;
  at_used_at : option Z;
  at_created_at : Z
}.
#[export] Instance eta_AuthToken : Eta AuthToken := λ r, MkAuthToken (at_token_hash r) (at_user_id r) (at_purpose r) (at_email r) (at_expires_at r) (at_used_at r) (at_created_at r).

(** [staff_roles] and [staff_role_assignments] (one row per administrator) *)
Record StaffRole := MkStaffRole {
  sr_id : uuid;
  sr_name : string;
  sr_description : option string;
  sr_permissions : list string;
  sr_is_system : bool
}.
#[export] Instance eta_StaffRole : Eta StaffRole := λ r, MkStaffRole (sr_id r) (sr_name r) (sr_description r) (sr_permissions r) (sr_is_system r).
Record StaffRoleAssignment := MkAssignment {
  sa_user_id : uuid;
  sa_role_id : uuid;
  sa_assigned_by_user_id : option uuid
}.
#[export] Instance eta_StaffRoleAssignment : Eta StaffRoleAssignment := λ r, MkAssignment (sa_user_id r) (sa_role_id r) (sa_assigned_by_user_id r).

(** [business_profile] *)
Record BusinessProfile := MkProfile {
  bp_trade_name : string;
  bp_address_line1 : string;
  bp_address_line2 : option string;
  bp_city : string;
  bp_state_code : string;
  bp_pincode : string;
  bp_email : option string;
  bp_phone : option string;
  bp_invoice_prefix : string;
  bp_footer : option string
}.
#[export] Instance eta_BusinessProfile : Eta BusinessProfile := λ r, MkProfile (bp_trade_name r) (bp_address_line1 r) (bp_address_line2 r) (bp_city r) (bp_state_code r) (bp_pincode r) (bp_email r) (bp_phone r) (bp_invoice_prefix r) (bp_footer r).

(** [invoices] ([inv_issued_on] is a day number) *)
Record Invoice := MkInvoice {
  inv_id : uuid;
  inv_order_id : uuid;
  inv_doc_type : string;
  inv_number : string;
  inv_fiscal_year : string;
  inv_sequence : Z;
  inv_issued_on : Z;
  inv_related_invoice_id : option uuid;
  inv_total_paise : Z;
  inv_currency : string;
  inv_document : json
}.
#[export] Instance eta_Invoice : Eta Invoice := λ r, MkInvoice (inv_id r) (inv_order_id r) (inv_doc_type r) (inv_number r) (inv_fiscal_year r) (inv_sequence r) (inv_issued_on r) (inv_related_invoice_id r) (inv_total_paise r) (inv_currency r) (inv_document r).

(** Who created and approved a record of the tax masters, and when ([_Approval]) *)
Record Approval := MkApproval {
  ap_created_by : option uuid;
  ap_approved_by : option uuid;
  ap_approved_at : option Z
}.
#[export] Instance eta_Approval : Eta Approval := λ r, MkApproval (ap_created_by r) (ap_approved_by r) (ap_approved_at r).
#[export] Instance Approval_eq_dec : EqDecision Approval.
Proof. solve_decision. Defined.

(** [tax_classifications] *)
Record TaxClassification := MkClassification {
  tc_id : Z;
  tc_kind : string;
  tc_code : string;
  tc_description : string;
  tc_status : string;
  tc_source_reference : option string;
  tc_approval : Approval
}.
#[export] Instance eta_TaxClassification : Eta TaxClassification := λ r, MkClassification (tc_id r) (tc_kind r) (tc_code r) (tc_description r) (tc_status r) (tc_source_reference r) (tc_approval r).
#[export] Instance TaxClassification_eq_dec : EqDecision TaxClassification.
Proof. solve_decision. Defined.

(** [tax_rules] *)
Record TaxRule := MkRule {
  tr_id : Z;
  tr_classification_id : Z;
  tr_treatment : string;
  tr_cgst_rate : dec;
  tr_sgst_utgst_rate : dec;
  tr_igst_rate : dec;
  tr_effective_from : Z;
  tr_effective_to : option Z;
  tr_status : string;
  tr_source_reference : option string;
  tr_approval : Approval
}.
#[export] Instance eta_TaxRule : Eta TaxRule := λ r, MkRule (tr_id r) (tr_classification_id r) (tr_treatment r) (tr_cgst_rate r) (tr_sgst_utgst_rate r) (tr_igst_rate r) (tr_effective_from r) (tr_effective_to r) (tr_status r) (tr_source_reference r) (tr_approval r).
#[export] Instance TaxRule_eq_dec : EqDecision TaxRule.
Proof. solve_decision. Defined.

(** [gst_registrations] *)
Record GstRegistration := MkRegistration {
  gr_id : Z;
  gr_gstin : string;
  gr_legal_name : string;
  gr_state_code : string;
  gr_valid_from : Z;
  gr_valid_to : option Z;
  gr_status : string;
  gr_approval : Approval
}.
#[export] Instance eta_GstRegistration : Eta GstRegistration := λ r, MkRegistration (gr_id r) (gr_gstin r) (gr_legal_name r) (gr_state_code r) (gr_valid_from r) (gr_valid_to r) (gr_status r) (gr_approval r).
#[export] Instance GstRegistration_eq_dec : EqDecision GstRegistration.
Proof. solve_decision. Defined.

(** [business_tax_settings] *)
Record BusinessTaxSettings := MkTaxSettings {
  ts_id : Z;
  ts_pricing_mode : string;
  ts_place_of_supply_basis : string;
  ts_shipping_tax_treatment : string;
  ts_rounding_policy : string;
  ts_registration_id : Z;
  ts_effective_from : Z;
  ts_effective_to : option Z;
  ts_status : string;
  ts_source_reference : option string;
  ts_approval : Approval
}.
#[export] Instance eta_BusinessTaxSettings : Eta BusinessTaxSettings := λ r, MkTaxSettings (ts_id r) (ts_pricing_mode r) (ts_place_of_supply_basis r) (ts_shipping_tax_treatment r) (ts_rounding_policy r) (ts_registration_id r) (ts_effective_from r) (ts_effective_to r) (ts_status r) (ts_source_reference r) (ts_approval r).
#[export] Instance BusinessTaxSettings_eq_dec : EqDecision BusinessTaxSettings.
Proof. solve_decision. Defined.

(** [payment_provider_configs] *)
Record PaymentProviderConfig := MkConfig {
  cf_id : uuid;
  cf_provider : string;
  cf_mode : string;
  cf_status : string;
  cf_is_preferred : bool;
  cf_credentials_ciphertext : option string;
  cf_credential_hint : option string;
  cf_public_identifier : option string;
  cf_credentials_status : string;
  cf_credentials_validated_at : option Z;
  cf_webhook_secret_ciphertext : option string;
  cf_previous_webhook_secret_ciphertext : option string;
  cf_webhook_hint : option string;
  cf_webhook_status : string;
  cf_webhook_verified_at : option Z;
  cf_currencies : list string;
  cf_sandbox_verified_at : option Z;
  cf_sandbox_verification_ref : option string;
  cf_production_review_at : option Z;
  cf_production_review_ref : option string;
  cf_last_check_at : option Z;
  cf_last_check_ok : option bool;
  cf_last_check_result : option json;
  cf_version : Z;
  cf_created_by_user_id : option uuid;
  cf_updated_by_user_id : option uuid
}.
#[export] Instance eta_PaymentProviderConfig : Eta PaymentProviderConfig := λ r, MkConfig (cf_id r) (cf_provider r) (cf_mode r) (cf_status r) (cf_is_preferred r) (cf_credentials_ciphertext r) (cf_credential_hint r) (cf_public_identifier r) (cf_credentials_status r) (cf_credentials_validated_at r) (cf_webhook_secret_ciphertext r) (cf_previous_webhook_secret_ciphertext r) (cf_webhook_hint r) (cf_webhook_status r) (cf_webhook_verified_at r) (cf_currencies r) (cf_sandbox_verified_at r) (cf_sandbox_verification_ref r) (cf_production_review_at r) (cf_production_review_ref r) (cf_last_check_at r) (cf_last_check_ok r) (cf_last_check_result r) (cf_version r) (cf_created_by_user_id r) (cf_updated_by_user_id r).

(** [payment_settings]: its one row *)
Record PaymentSettings := MkPaymentSettings {
  ps_live_payments_active : bool;
  ps_live_activated_at : option Z;
  ps_live_activated_by_user_id : option uuid;
  ps_live_activated_config_id : option uuid;
  ps_last_deactivated_at : option Z;
  ps_note : option string
}.
#[export] Instance eta_PaymentSettings : Eta PaymentSettings := λ r, MkPaymentSettings (ps_live_payments_active r) (ps_live_activated_at r) (ps_live_activated_by_user_id r) (ps_live_activated_config_id r) (ps_last_deactivated_at r) (ps_note r).

(** [return_requests] *)
Record ReturnRequest := MkReturn {
  rt_id : uuid;
  rt_order_id : uuid;
  rt_user_id : uuid;
  rt_status : string;
  rt_customer_comment : option string;
  rt_admin_note : option string;
  rt_rejection_reason : option string;
  rt_resolution : option string;
  rt_resolution_note : option string;
  rt_refund_id : option uuid;
  rt_requested_at : Z;
  rt_decided_at : option Z;
  rt_received_at : option Z;
  rt_closed_at : option Z;
  rt_handled_by_user_id : option uuid
}.
#[export] Instance eta_ReturnRequest : Eta ReturnRequest := λ r, MkReturn (rt_id r) (rt_order_id r) (rt_user_id r) (rt_status r) (rt_customer_comment r) (rt_admin_note r) (rt_rejection_reason r) (rt_resolution r) (rt_resolution_note r) (rt_refund_id r) (rt_requested_at r) (rt_decided_at r) (rt_received_at r) (rt_closed_at r) (rt_handled_by_user_id r).

(** [return_request_items] *)
Record ReturnRequestItem := MkReturnItem {
  ri_id : Z;
  ri_return_id : uuid;
  ri_order_item_id : Z;
  ri_quantity : Z;
  ri_reason : string;
  ri_received_quantity : option Z;
  ri_restock : bool;
  ri_restocked_quantity : Z;
  ri_condition_note : option string
}.
#[export] Instance eta_ReturnRequestItem : Eta ReturnRequestItem := λ r, MkReturnItem (ri_id r) (ri_return_id r) (ri_order_item_id r) (ri_quantity r) (ri_reason r) (ri_received_quantity r) (ri_restock r) (ri_restocked_quantity r) (ri_condition_note r).

(** [order_shipments] (without the unused [carrier_code]) *)
Record OrderShipment := MkShipment {
  sh_id : uuid;
  sh_order_id : uuid;
  sh_carrier_name : string;
  sh_tracking_number : option string;
  sh_tracking_url : option string;
  sh_status : string;
  sh_shipped_at : Z;
  sh_delivered_at : option Z;
  sh_created_by_user_id : option uuid
}.
#[export] Instance eta_OrderShipment : Eta OrderShipment := λ r, MkShipment (sh_id r) (sh_order_id r) (sh_carrier_name r) (sh_tracking_number r) (sh_tracking_url r) (sh_status r) (sh_shipped_at r) (sh_delivered_at r) (sh_created_by_user_id r).

(** ** The database and the state *)

(** All tables. [d_restocks] is [order_item_restocks], keyed by its unique pair of line and event; lists are append-only tables, newest last *)
Record DB := MkDB {
  d_orders : gmap uuid Order;
  d_items : gmap Z OrderItem;
  d_restocks : gmap (Z * string) Z;
  d_history : list OrderStatusHistory;
  d_products : gmap Z Product;
  d_variants : gmap Z ProductVariant;
  d_options : gmap Z ProductOption;
  d_movements : list StockMovement;
  d_carts : gmap Z Cart;
  d_cart_items : gmap Z CartItem;
  d_payments : gmap uuid Payment;
  d_refunds : gmap uuid Refund;
  d_reconciliations : gmap uuid PaymentReconciliation;
  d_disputes : gmap uuid Dispute;
  d_events : gmap (string * string) ProcessedWebhookEvent;
  d_deferred : gmap (string * string) DeferredWebhookEvent;
  d_audit : list AuditLog;
  d_jobs : gmap Z BackgroundJob;
  d_coupons : gmap Z Coupon;
  d_addresses : gmap Z Address;
  d_users : gmap uuid User;
  d_profile : option BusinessProfile;
  d_invoices : gmap uuid Invoice;
  d_sequences : gmap string Z;
  d_store_currency : option string;
  d_classifications : gmap Z TaxClassification;
  d_rules : gmap Z TaxRule;
  d_registrations : gmap Z GstRegistration;
  d_tax_settings : gmap Z BusinessTaxSettings;
  d_configs : gmap uuid PaymentProviderConfig;
  d_payment_settings : option PaymentSettings;
  d_returns : gmap uuid ReturnRequest;
  d_return_items : gmap Z ReturnRequestItem;
  d_shipments : gmap uuid OrderShipment;
  d_refresh_tokens : gmap string RefreshToken;
  d_auth_tokens : gmap string AuthToken;
  d_staff_roles : gmap uuid StaffRole;
  d_assignments : gmap uuid StaffRoleAssignment;
  d_categories : gmap Z Category;
  d_reviews : gmap Z ProductReview;
  d_wishlist : gmap Z WishlistItem
}.
#[export] Instance eta_DB : Eta DB := λ r, MkDB (d_orders r) (d_items r) (d_restocks r) (d_history r) (d_products r) (d_variants r) (d_options r) (d_movements r) (d_carts r) (d_cart_items r) (d_payments r) (d_refunds r) (d_reconciliations r) (d_disputes r) (d_events r) (d_deferred r) (d_audit r) (d_jobs r) (d_coupons r) (d_addresses r) (d_users r) (d_profile r) (d_invoices r) (d_sequences r) (d_store_currency r) (d_classifications r) (d_rules r) (d_registrations r) (d_tax_settings r) (d_configs r) (d_payment_settings r) (d_returns r) (d_return_items r) (d_shipments r) (d_refresh_tokens r) (d_auth_tokens r) (d_staff_roles r) (d_assignments r) (d_categories r) (d_reviews r) (d_wishlist r).

Definition empty_db : DB :=
  MkDB ∅ ∅ ∅ [] ∅ ∅ ∅ [] ∅ ∅ ∅ ∅ ∅ ∅ ∅ ∅ [] ∅ ∅ ∅ ∅ None ∅ ∅ None ∅ ∅ ∅ ∅ ∅ None ∅ ∅ ∅ ∅ ∅ ∅ ∅ ∅ ∅ ∅.

(** The transaction-local settings read by the stock ledger trigger ([novacart.stock_*]; empty = unset) *)
Record StockCtx := MkStockCtx {
  sc_kind : string;
  sc_actor : option uuid;
  sc_reason : option string;
  sc_order : option uuid
}.
#[export] Instance eta_StockCtx : Eta StockCtx := λ r, MkStockCtx (sc_kind r) (sc_actor r) (sc_reason r) (sc_order r).

Definition no_stock_ctx : StockCtx := MkStockCtx "" None None None.

(** The state of a unit of work: the transaction's tables, the committed ones, the clock, and the supplies of new integer ids, uuids and secrets *)
Record St := MkSt {
  st_db : DB;
  st_committed : DB;
  st_now : Z;
  st_next_id : Z;
  st_next_uuid : Z;
  st_stock_ctx : StockCtx
}.
#[export] Instance eta_St : Eta St := λ r, MkSt (st_db r) (st_committed r) (st_now r) (st_next_id r) (st_next_uuid r) (st_stock_ctx r).

(** Service code: it may raise, and it changes the state. *)
#[global] Abbreviation M := (ST St Err).
