(* ===== verification/Guards.v ===== *)
(** * What the database accepts: constraints and triggers, and the statements the repositories send

    Every write of the modelled services goes through a statement defined here, and every statement
    runs the triggers, CHECK constraints and unique indexes of its table, so a violated one raises an
    [IntegrityError] naming it. Sources: the model modules (constraints) and the guard modules
    [payments/models/lifecycle_guard.py], [payments/models/provider_guard.py],
    [store/models/guard.py], [coupons/models/guard.py], [products/models/variant_guard.py],
    [invoices/models/guard.py]. The statements of the catalogue and of the tax masters are in [CatalogueGuards] and [TaxGuards]. *)

From S2P Require Import Prelude Decimal Errors Schema.
Import Decimal.

Local Open Scope string_scope.
Local Open Scope list_scope.
Local Open Scope Z_scope.

(** ** The session *)

Definition db_gets {A} (f : DB → A) : M A := gets (λ s, f (st_db s)).
Definition upd (f : DB → DB) : M unit := modify (λ s, s <| st_db ::= f |>).
Definition now : M Z := gets st_now.

(** A sequence and [uuid4()]: a value not handed out before by this state. *)
Definition new_id : M Z :=
  n ← gets st_next_id; _ ← modify (λ s, s <| st_next_id := n + 1 |>); mret n.
Definition new_uuid : M uuid :=
  n ← gets st_next_uuid; _ ← modify (λ s, s <| st_next_uuid := n + 1 |>); mret ("uuid-" +:+ str_Z n).

(** [session.commit()], [session.rollback()], and [get_db]: a request commits when it returns and
    rolls back when it raises. *)
Definition commit : M unit := modify (λ s, s <| st_committed := st_db s |>).
Definition rollback : M unit := modify (λ s, s <| st_db := st_committed s |>).
Definition get_db {A} (m : M A) : M A := λ s,
  match m s with
  | (inr a, s') => (inr a, (commit s').2)
  | (inl e, s') => (inl e, (rollback s').2)
  end.

(** ** Queries *)

Definition rows_where {K} `{Countable K} {V} (p : V → bool) (m : gmap K V) : list V :=
  filter (λ v, Is_true (p v)) (map snd (map_to_list m)).

Definition scalar_one_or_none {A} (rows : list A) : M (option A) :=
  match rows with
  | [] => mret None
  | [x] => mret (Some x)
  | _ => raise (RuntimeError "MultipleResultsFound")
  end.

(** [ORDER BY key] and [ORDER BY key DESC] *)
Definition le_on {A} (key : A → Z) (a b : A) : Prop := key a ≤ key b.
#[export] Instance le_on_dec {A} (key : A → Z) a b : Decision (le_on key a b).
Proof. unfold le_on. apply _. Defined.
#[global] Typeclasses Opaque le_on.
Definition order_by {A} (key : A → Z) (rows : list A) : list A := merge_sort (le_on key) rows.
Definition order_by_desc {A} (key : A → Z) (rows : list A) : list A := order_by (λ a, - key a) rows.

(** [SUM] and [COUNT] over the rows of a table. *)
Definition sum_rows {K} `{Countable K} {V} (f : V → Z) (m : gmap K V) : Z :=
  sum_kv (λ _ v, f v) m.
Definition count_rows {K} `{Countable K} {V} (p : V → bool) (m : gmap K V) : Z :=
  sum_rows (λ v, if p v then 1 else 0) m.
Definition exists_row {K} `{Countable K} {V} (p : V → bool) (m : gmap K V) : bool :=
  0 <? count_rows p m.

(** A guard answers with the name of what it refuses. *)
Definition guard (o : option string) : M unit :=
  match o with None => mret tt | Some name => raise (IntegrityError name) end.
Definition check (b : bool) (name : string) : option string := if b then None else Some name.
Fixpoint first_violation (l : list (option string)) : option string :=
  match l with
  | [] => None
  | Some n :: _ => Some n
  | None :: r => first_violation r
  end.

#[global] Arguments first_violation : simpl never.
#[global] Arguments check : simpl never.
#[global] Arguments exists_row : simpl never.
#[global] Arguments sum_rows : simpl never.

(** [currency ~ '^[a-z]{3}$'] *)
Definition lower_letter (c : Ascii.ascii) : bool :=
  let n := Ascii.nat_of_ascii c in (97 <=? n)%nat && (n <=? 122)%nat.
Definition currency_format (s : string) : bool :=
  match s with
  | String a (String b (String c EmptyString)) => lower_letter a && lower_letter b && lower_letter c
  | _ => false
  end.

Definition opt_eqb {A} `{EqDecision A} (a b : option A) : bool := bool_decide (a = b).

(** ** orders *)

(** The transitions [orders_lifecycle_guard] allows. *)
Definition guard_transition (old new : OrderStatus) : bool :=
  match old, new with
  | PENDING, (PAID | CANCELLED) => true
  | PAID, (FULFILLED | REFUNDED) => true
  | FULFILLED, REFUNDED => true
  | _, _ => false
  end.

Definition orders_lifecycle_guard (d : DB) (old new : Order) : option string :=
  if negb (opt_eqb (o_stock_released_at old) None) && negb (opt_eqb (o_stock_released_at new) (o_stock_released_at old))
  then Some "stock release cannot be repeated or undone"
  else if bool_decide (o_status new = o_status old) then None
  else if negb (guard_transition (o_status old) (o_status new))
  then Some "an order cannot change status"
  else if bool_decide (o_status new = PAID)
          && negb (exists_row (λ p, String.eqb (pay_order_id p) (o_id new) && bool_decide (pay_status p = PaySucceeded)) (d_payments d))
  then Some "an order cannot become paid without a succeeded payment"
  else if bool_decide (o_status new = REFUNDED)
          && negb (exists_row (λ r, String.eqb (r_order_id r) (o_id new) && bool_decide (r_status r = RefSucceeded)) (d_refunds d))
  then Some "an order cannot become refunded without a succeeded refund"
  else if bool_decide (o_status new = CANCELLED) && opt_eqb (o_stock_released_at new) None
  then Some "an order cannot be cancelled before its stock is released"
  else None.

(** [coupon_fields_frozen] on orders *)
Definition coupon_fields_frozen (old new : Order) : option string :=
  check ((o_discount_cents new =? o_discount_cents old) && opt_eqb (o_coupon_id new) (o_coupon_id old)
         && opt_eqb (o_coupon_code new) (o_coupon_code old) && json_eqb (o_coupon_snapshot new) (o_coupon_snapshot old))
    "orders: the discount of an order cannot be changed".

Definition orders_currency_guard (old new : Order) : option string :=
  check (opt_eqb (o_currency old) None || opt_eqb (o_currency new) (o_currency old))
    "an order currency cannot be changed once set".

Definition orders_checks (o : Order) : option string :=
  let set {A} (x : option A) := match x with Some _ => true | None => false end in
  first_violation [
    check (match o_currency o with None => true | Some c => currency_format c end) "ck_orders_currency_format";
    check ((0 <=? o_discount_cents o) && (o_discount_cents o <=? o_subtotal_cents o)) "ck_orders_discount_within_subtotal";
    check (Bool.eqb (set (o_coupon_id o)) (set (o_coupon_code o)) && (set (o_coupon_id o) || (o_discount_cents o =? 0)))
      "ck_orders_coupon_consistent";
    check ((set (o_user_id o) && negb (set (o_guest_token o)) && negb (set (o_guest_email o)))
           || (negb (set (o_user_id o)) && set (o_guest_token o) && set (o_guest_email o))) "ck_orders_user_xor_guest"].

(** [UPDATE orders SET ... WHERE id = oid]; returns the new row. *)
Definition update_order (oid : uuid) (f : Order → Order) : M Order :=
  d ← gets st_db;
  old ← of_option (d_orders d !! oid) (RuntimeError "StaleDataError");
  let new := f old in
  _ ← guard (first_violation [coupon_fields_frozen old new; orders_currency_guard old new;
                              orders_lifecycle_guard d old new; orders_checks new]);
  _ ← upd (λ d, d <| d_orders ::= <[oid := new]> |>);
  mret new.

(** [INSERT INTO orders] *)
Definition insert_order (o : Order) : M unit :=
  d ← gets st_db;
  _ ← guard (first_violation [
    check (bool_decide (d_orders d !! o_id o = None)) "orders_pkey";
    orders_checks o;
    check (opt_eqb (o_user_id o) None
           || negb (exists_row (λ x, opt_eqb (o_user_id x) (o_user_id o) && String.eqb (o_idempotency_key x) (o_idempotency_key o)) (d_orders d)))
      "uq_orders_user_id_idempotency_key";
    check (opt_eqb (o_guest_token o) None
           || negb (exists_row (λ x, opt_eqb (o_guest_token x) (o_guest_token o) && String.eqb (o_idempotency_key x) (o_idempotency_key o)) (d_orders d)))
      "uq_orders_guest_token_idempotency_key"]);
  upd (λ d, d <| d_orders ::= <[o_id o := o]> |>).

(** [INSERT INTO order_status_history] *)
Definition insert_history (h : OrderStatusHistory) : M unit := upd (λ d, d <| d_history ::= λ l, l ++ [h] |>).

(** ** order_items and order_item_restocks *)

Definition order_items_checks (i : OrderItem) : option string :=
  first_violation [
    check (0 <? oi_quantity i) "ck_order_items_quantity_positive";
    check ((0 <=? oi_restocked_quantity i) && (oi_restocked_quantity i <=? oi_quantity i)) "ck_order_items_restocked_within_quantity";
    check ((0 <=? oi_discount_cents i) && (oi_discount_cents i <=? oi_price_cents_snapshot i * oi_quantity i)) "ck_order_items_discount"].

(** [enforce_line_variant_rule] *)
Definition enforce_line_variant_rule (d : DB) (product_id : Z) (variant_id : option Z) : option string :=
  match d_products d !! product_id with
  | None => None
  | Some p =>
      match variant_id with
      | None => check (p_option_count p <=? 0) "a variant must be chosen"
      | Some _ => check (negb (p_option_count p =? 0)) "it has no variants"
      end
  end.

(** [INSERT INTO order_items], with the foreign keys to the product, the variant and the order. *)
Definition insert_item (i : OrderItem) : M unit :=
  d ← gets st_db;
  _ ← guard (first_violation [
    enforce_line_variant_rule d (oi_product_id i) (oi_variant_id i);
    check (bool_decide (d_items d !! oi_id i = None)) "order_items_pkey";
    order_items_checks i;
    check (bool_decide (is_Some (d_products d !! oi_product_id i))) "order_items_product_id_fkey";
    check (match oi_variant_id i with
           | None => true
           | Some v => match d_variants d !! v with Some pv => pv_product_id pv =? oi_product_id i | None => false end
           end) "fk_order_items_variant";
    check (bool_decide (is_Some (d_orders d !! oi_order_id i))) "order_items_order_id_fkey"]);
  upd (λ d, d <| d_items ::= <[oi_id i := i]> |>).

(** One row of [INSERT INTO order_item_restocks ... ON CONFLICT DO NOTHING], with the trigger
    [order_item_restock_apply] that adds it to the line; whether it was new. *)
Definition insert_restock (item_id : Z) (event_key : string) (quantity : Z) : M bool :=
  d ← gets st_db;
  match d_restocks d !! (item_id, event_key) with
  | Some _ => mret false
  | None =>
      _ ← guard (check (0 <? quantity) "ck_order_item_restocks_quantity");
      i ← of_option (d_items d !! item_id) (IntegrityError "order_item_restocks_order_item_id_fkey");
      let i' := i <| oi_restocked_quantity := oi_restocked_quantity i + quantity |> in
      _ ← guard (order_items_checks i');
      _ ← upd (λ d, d <| d_restocks ::= <[(item_id, event_key) := quantity]> |>
                      <| d_items ::= <[item_id := i']> |>);
      mret true
  end.

(** ** products, product_variants and the stock ledger *)

(** [unit ~ '^[A-Z]{2,8}$'] *)
Definition unit_format (u : string) : bool :=
  let upper (c : Ascii.ascii) := let n := Ascii.nat_of_ascii c in ((65 <=? n) && (n <=? 90))%nat in
  (2 <=? String.length u)%nat && (String.length u <=? 8)%nat && forallb upper (String.list_ascii_of_string u).
(** [btrim(s) <> '' AND s = btrim(s)] *)
Definition trimmed_name (s : string) : bool := negb (String.eqb (btrim s) "") && String.eqb s (btrim s).

Definition products_checks (p : Product) : option string :=
  first_violation [
    check (0 <? p_price_cents p) "ck_products_price_positive";
    check (0 <=? p_stock p) "ck_products_stock_non_negative";
    check ((0 <=? p_option_count p) && (p_option_count p <=? 3)) "ck_products_option_count";
    check ((p_option_count p =? 0) || (p_stock p =? 0)) "ck_products_stock_zero_with_options";
    check (match p_unit p with None => true | Some u => unit_format u end) "ck_products_unit_format";
    check (p_price_from p <=? p_price_to p) "ck_products_price_range"].
Definition variants_checks (v : ProductVariant) : option string :=
  let set (x : option Z) := match x with Some _ => true | None => false end in
  first_violation [
    check (match pv_price_override_cents v with None => true | Some c => 0 <? c end) "ck_variants_price_override";
    check (0 <=? pv_stock v) "ck_variants_stock_non_negative";
    check ((1 <=? pv_option_count v) && (pv_option_count v <=? 3)) "ck_variants_option_count";
    check (Bool.eqb (set (pv_value1_id v)) (1 <=? pv_option_count v) && Bool.eqb (set (pv_value2_id v)) (2 <=? pv_option_count v)
           && Bool.eqb (set (pv_value3_id v)) (3 <=? pv_option_count v)) "ck_variants_complete_combination";
    check (trimmed_name (pv_sku v)) "ck_variants_sku"].

Definition movement_kinds : list string :=
  ["opening"; "initial"; "sale"; "restock"; "admin_set"; "admin_delta"; "conversion"; "unspecified"].
Definition movements_checks (m : StockMovement) : option string :=
  first_violation [
    check (bool_decide (sm_kind m ∈ movement_kinds)) "ck_stock_movements_kind";
    check (negb (sm_delta m =? 0)) "ck_stock_movements_delta";
    check ((sm_after_qty m =? sm_before_qty m + sm_delta m) && (0 <=? sm_after_qty m) && (0 <=? sm_before_qty m))
      "ck_stock_movements_balance";
    check (negb (String.eqb (sm_kind m) "admin_set" || String.eqb (sm_kind m) "admin_delta")
           || (negb (opt_eqb (sm_actor_user_id m) None)
               && match sm_reason m with Some r => (3 <=? String.length (btrim r))%nat | None => false end))
      "ck_stock_movements_admin_reason"].

(** [stock_ledger_write] on UPDATE: the movement row for a change of stock. *)
Definition stock_ledger_row (c : StockCtx) (product_id : Z) (variant_id : option Z) (old new : Z) : StockMovement :=
  MkMovement (if String.eqb (sc_kind c) "" then "unspecified" else sc_kind c)
    product_id variant_id (new - old) old new (sc_actor c) (sc_reason c) (sc_order c).

(** [UPDATE products SET stock = stock + delta WHERE id = pid]: a missing row is not touched; the
    ledger trigger fires when the value changed (a row rewritten with its own value is left as it is).
    Returns the number of rows. *)
Definition add_product_stock (pid delta : Z) : M Z :=
  s ← gets id;
  match d_products (st_db s) !! pid with
  | None => mret 0
  | Some p =>
      let p' := p <| p_stock := p_stock p + delta |> in
      _ ← guard (products_checks p');
      if p_stock p' =? p_stock p then mret 1
      else
        let m := stock_ledger_row (st_stock_ctx s) pid None (p_stock p) (p_stock p') in
        _ ← guard (movements_checks m);
        _ ← upd (λ d, d <| d_products ::= <[pid := p']> |> <| d_movements ::= λ l, l ++ [m] |>);
        mret 1
  end.
Definition add_variant_stock (vid delta : Z) : M Z :=
  s ← gets id;
  match d_variants (st_db s) !! vid with
  | None => mret 0
  | Some v =>
      let v' := v <| pv_stock := pv_stock v + delta |> in
      _ ← guard (variants_checks v');
      if pv_stock v' =? pv_stock v then mret 1
      else
        let m := stock_ledger_row (st_stock_ctx s) (pv_product_id v) (Some vid) (pv_stock v) (pv_stock v') in
        _ ← guard (movements_checks m);
        _ ← upd (λ d, d <| d_variants ::= <[vid := v']> |> <| d_movements ::= λ l, l ++ [m] |>);
        mret 1
  end.

(** ** payments *)

Definition payments_checks (p : Payment) : option string :=
  first_violation [
    check (0 <? pay_amount_cents p) "ck_payments_amount_positive";
    check (currency_format (pay_currency p)) "ck_payments_currency_format"].

(** The partial unique index: one pending payment per order. *)
Definition payments_one_pending (d : DB) (p : Payment) : option string :=
  check (negb (bool_decide (pay_status p = PayPending))
         || negb (exists_row (λ x, negb (String.eqb (pay_id x) (pay_id p)) && String.eqb (pay_order_id x) (pay_order_id p)
                                   && bool_decide (pay_status x = PayPending)) (d_payments d)))
    "ux_payments_order_id_pending".

Definition payments_amount_guard (old new : Payment) : option string :=
  check (String.eqb (pay_currency new) (pay_currency old) && (pay_amount_cents new =? pay_amount_cents old))
    "a payment amount and currency cannot be changed after creation".

Definition insert_payment (p : Payment) : M unit :=
  d ← gets st_db;
  _ ← guard (first_violation [
    check (bool_decide (d_payments d !! pay_id p = None)) "payments_pkey";
    payments_checks p; payments_one_pending d p;
    check (negb (exists_row (λ x, String.eqb (pay_provider_payment_id x) (pay_provider_payment_id p)) (d_payments d)))
      "payments_provider_payment_id_key";
    check (bool_decide (is_Some (d_orders d !! pay_order_id p))) "payments_order_id_fkey"]);
  upd (λ d, d <| d_payments ::= <[pay_id p := p]> |>).

Definition update_payment (pid : uuid) (f : Payment → Payment) : M Payment :=
  d ← gets st_db;
  old ← of_option (d_payments d !! pid) (RuntimeError "StaleDataError");
  let new := f old in
  _ ← guard (first_violation [payments_amount_guard old new; payments_checks new; payments_one_pending d new]);
  _ ← upd (λ d, d <| d_payments ::= <[pid := new]> |>);
  mret new.

(** ** refunds *)

Definition refund_counts (r : Refund) : bool := bool_decide (r_status r ∈ ACTIVE_REFUND_STATUSES).
Definition refund_inflight (r : Refund) : bool :=
  r_origin_requested r && bool_decide (r_status r ∈ [RefRequested; RefPending; RefUncertain]).

(** [refunds_cumulative_guard] *)
Definition refunds_cumulative_guard (d : DB) (new : Refund) : option string :=
  if negb (refund_counts new) then None
  else
    match d_payments d !! r_payment_id new with
    | None => None
    | Some pay =>
        let committed := sum_rows (λ r, if String.eqb (r_payment_id r) (r_payment_id new) && negb (String.eqb (r_id r) (r_id new))
                                           && refund_counts r then r_amount_cents r else 0) (d_refunds d) in
        check (committed + r_amount_cents new <=? pay_amount_cents pay)
          "refunds of a payment cannot exceed the payment amount"
    end.

(** [refunds_guard] *)
Definition refunds_guard (old new : Refund) : option string :=
  if negb (String.eqb (r_payment_id new) (r_payment_id old) && String.eqb (r_order_id new) (r_order_id old)
           && (r_amount_cents new =? r_amount_cents old) && String.eqb (r_currency new) (r_currency old)
           && String.eqb (r_idempotency_key new) (r_idempotency_key old))
  then Some "what a refund is for cannot be changed after it is created"
  else check (negb (bool_decide (r_status old = RefSucceeded ∨ r_status old = RefFailed)) || bool_decide (r_status new = r_status old))
         "a refund is final".

Definition refunds_checks (r : Refund) : option string :=
  first_violation [
    check (0 <? r_amount_cents r) "ck_refunds_amount_positive";
    check (currency_format (r_currency r)) "ck_refunds_currency_format"].

Definition refunds_one_inflight (d : DB) (r : Refund) : option string :=
  check (negb (refund_inflight r)
         || negb (exists_row (λ x, negb (String.eqb (r_id x) (r_id r)) && String.eqb (r_payment_id x) (r_payment_id r)
                                   && refund_inflight x) (d_refunds d)))
    "ux_refunds_one_inflight_per_payment".

Definition insert_refund (r : Refund) : M unit :=
  d ← gets st_db;
  _ ← guard (first_violation [
    refunds_cumulative_guard d r;
    check (bool_decide (d_refunds d !! r_id r = None)) "refunds_pkey";
    refunds_checks r; refunds_one_inflight d r;
    check (negb (exists_row (λ x, String.eqb (r_idempotency_key x) (r_idempotency_key r)) (d_refunds d))) "refunds_idempotency_key_key";
    check (bool_decide (is_Some (d_payments d !! r_payment_id r))) "refunds_payment_id_fkey";
    check (bool_decide (is_Some (d_orders d !! r_order_id r))) "refunds_order_id_fkey"]);
  upd (λ d, d <| d_refunds ::= <[r_id r := r]> |>).

Definition update_refund (rid : uuid) (f : Refund → Refund) : M Refund :=
  d ← gets st_db;
  old ← of_option (d_refunds d !! rid) (RuntimeError "StaleDataError");
  let new := f old in
  _ ← guard (first_violation [refunds_cumulative_guard d new; refunds_guard old new; refunds_checks new; refunds_one_inflight d new]);
  _ ← upd (λ d, d <| d_refunds ::= <[rid := new]> |>);
  mret new.

(** ** payment_reconciliations and disputes *)

Definition reconciliations_checks (r : PaymentReconciliation) : option string :=
  check (rc_open r
         || (negb (opt_eqb (rc_resolved_at r) None) && negb (opt_eqb (rc_resolution r) None)
             && match rc_resolution_note r with Some n => negb (String.eqb (btrim n) "") | None => false end))
    "ck_reconciliations_resolved_fields".

(** [INSERT ... ON CONFLICT (dedupe_key) DO NOTHING]; whether a row was added. *)
Definition insert_reconciliation (r : PaymentReconciliation) : M bool :=
  d ← gets st_db;
  if exists_row (λ x, String.eqb (rc_dedupe_key x) (rc_dedupe_key r)) (d_reconciliations d) then mret false
  else
    _ ← guard (first_violation [check (bool_decide (d_reconciliations d !! rc_id r = None)) "payment_reconciliations_pkey";
                                reconciliations_checks r]);
    _ ← upd (λ d, d <| d_reconciliations ::= <[rc_id r := r]> |>);
    mret true.

Definition update_reconciliation (rid : uuid) (f : PaymentReconciliation → PaymentReconciliation) : M PaymentReconciliation :=
  d ← gets st_db;
  old ← of_option (d_reconciliations d !! rid) (RuntimeError "StaleDataError");
  let new := f old in
  _ ← guard (reconciliations_checks new);
  _ ← upd (λ d, d <| d_reconciliations ::= <[rid := new]> |>);
  mret new.

Definition dispute_final (s : DisputeStatus) : bool := bool_decide (s ∈ [DispWon; DispLost; DispClosed]).

(** [disputes_guard] *)
Definition disputes_guard (old new : Dispute) : option string :=
  if negb (String.eqb (di_payment_id new) (di_payment_id old) && (di_amount_cents new =? di_amount_cents old)
           && String.eqb (di_currency new) (di_currency old) && String.eqb (di_provider new) (di_provider old)
           && String.eqb (di_provider_dispute_id new) (di_provider_dispute_id old))
  then Some "what a dispute is about cannot be changed"
  else check (negb (dispute_final (di_status old)) || bool_decide (di_status new = di_status old)) "a dispute is final".

Definition insert_dispute (x : Dispute) : M unit :=
  d ← gets st_db;
  _ ← guard (first_violation [
    check (bool_decide (d_disputes d !! di_id x = None)) "disputes_pkey";
    check (currency_format (di_currency x)) "ck_disputes_currency_format";
    check (negb (exists_row (λ y, String.eqb (di_provider y) (di_provider x) && String.eqb (di_provider_dispute_id y) (di_provider_dispute_id x))
                   (d_disputes d))) "uq_disputes_provider_id";
    check (bool_decide (is_Some (d_payments d !! di_payment_id x))) "disputes_payment_id_fkey"]);
  upd (λ d, d <| d_disputes ::= <[di_id x := x]> |>).

Definition update_dispute (i : uuid) (f : Dispute → Dispute) : M Dispute :=
  d ← gets st_db;
  old ← of_option (d_disputes d !! i) (RuntimeError "StaleDataError");
  let new := f old in
  _ ← guard (first_violation [disputes_guard old new; check (currency_format (di_currency new)) "ck_disputes_currency_format"]);
  _ ← upd (λ d, d <| d_disputes ::= <[i := new]> |>);
  mret new.

(** ** Tables without guards of their own *)

Definition put_event (k : string * string) (e : ProcessedWebhookEvent) : M unit := upd (λ d, d <| d_events ::= <[k := e]> |>).
Definition put_deferred (k : string * string) (e : DeferredWebhookEvent) : M unit := upd (λ d, d <| d_deferred ::= <[k := e]> |>).
Definition insert_audit (a : AuditLog) : M unit := upd (λ d, d <| d_audit ::= λ l, l ++ [a] |>).

(** [INSERT INTO background_jobs ... ON CONFLICT (dedupe_key) DO NOTHING RETURNING id] *)
Definition insert_job (j : BackgroundJob) : M (option Z) :=
  d ← gets st_db;
  if negb (opt_eqb (j_dedupe_key j) None) && exists_row (λ x, opt_eqb (j_dedupe_key x) (j_dedupe_key j)) (d_jobs d)
  then mret None
  else
    _ ← guard (first_violation [check (bool_decide (d_jobs d !! j_id j = None)) "background_jobs_pkey";
                                check ((0 <=? j_attempts j) && (1 <=? j_max_attempts j)) "ck_background_jobs_attempts"]);
    _ ← upd (λ d, d <| d_jobs ::= <[j_id j := j]> |>);
    mret (Some (j_id j)).

(** [invoices]: inserted once, then [invoices_immutable] refuses every change, so there is no update. *)
Definition insert_invoice (i : Invoice) : M unit :=
  d ← gets st_db;
  let credit := String.eqb (inv_doc_type i) "credit_note" in
  _ ← guard (first_violation [
    check (bool_decide (d_invoices d !! inv_id i = None)) "invoices_pkey";
    check (credit || String.eqb (inv_doc_type i) "invoice") "ck_invoices_doc_type";
    check (Bool.eqb credit (negb (opt_eqb (inv_related_invoice_id i) None))) "ck_invoices_credit_note_reference";
    check (0 <=? inv_total_paise i) "ck_invoices_total";
    check ((String.length (inv_number i) <=? 16)%nat) "ck_invoices_number_length";
    check (negb (exists_row (λ x, String.eqb (inv_number x) (inv_number i)) (d_invoices d))) "uq_invoices_number";
    check (negb (exists_row (λ x, String.eqb (inv_order_id x) (inv_order_id i) && String.eqb (inv_doc_type x) (inv_doc_type i))
                   (d_invoices d))) "uq_invoices_order_doc_type"]);
  upd (λ d, d <| d_invoices ::= <[inv_id i := i]> |>).
Definition put_sequence (series : string) (n : Z) : M unit := upd (λ d, d <| d_sequences ::= <[series := n]> |>).

(** [INSERT INTO store_settings ... ON CONFLICT DO NOTHING] *)
Definition init_store_currency (code : string) : M unit :=
  upd (λ d, d <| d_store_currency ::= λ c, Some (default code c) |>).

(** ** carts and cart_items *)

Definition carts_checks (c : Cart) : option string :=
  check (match c_user_id c, c_guest_token c with Some _, None | None, Some _ => true | _, _ => false end) "ck_carts_user_xor_guest".
Definition carts_unique (d : DB) (c : Cart) : option string :=
  check (negb (exists_row (λ x, negb (c_id x =? c_id c)
    && ((negb (opt_eqb (c_user_id c) None) && opt_eqb (c_user_id x) (c_user_id c))
        || (negb (opt_eqb (c_guest_token c) None) && opt_eqb (c_guest_token x) (c_guest_token c)))) (d_carts d))) "carts_owner_key".
Definition put_cart (c : Cart) : M unit :=
  d ← gets st_db;
  _ ← guard (first_violation [carts_checks c; carts_unique d c]);
  upd (λ d, d <| d_carts ::= <[c_id c := c]> |>).

Definition cart_items_checks (i : CartItem) : option string := check (0 <? ci_quantity i) "ck_cart_items_quantity_positive".
(** One line per simple product and one per variant. *)
Definition cart_items_unique (d : DB) (i : CartItem) : option string :=
  check (negb (exists_row (λ x, negb (ci_id x =? ci_id i) && (ci_cart_id x =? ci_cart_id i)
    && match ci_variant_id i with
       | None => opt_eqb (ci_variant_id x) None && (ci_product_id x =? ci_product_id i)
       | Some v => opt_eqb (ci_variant_id x) (Some v)
       end) (d_cart_items d))) "ux_cart_items_line".
Definition put_cart_item (i : CartItem) : M unit :=
  d ← gets st_db;
  _ ← guard (first_violation [
    enforce_line_variant_rule d (ci_product_id i) (ci_variant_id i);
    cart_items_checks i; cart_items_unique d i;
    check (bool_decide (is_Some (d_products d !! ci_product_id i))) "cart_items_product_id_fkey";
    check (bool_decide (is_Some (d_carts d !! ci_cart_id i))) "cart_items_cart_id_fkey";
    check (match ci_variant_id i with
           | None => true
           | Some v => match d_variants d !! v with Some pv => pv_product_id pv =? ci_product_id i | None => false end
           end) "fk_cart_items_variant"]);
  upd (λ d, d <| d_cart_items ::= <[ci_id i := i]> |>).
(** An UPDATE of the quantity or of the price snapshot: the variant rule's trigger is for other columns. *)
Definition update_cart_item (iid : Z) (f : CartItem → CartItem) : M unit :=
  d ← gets st_db;
  old ← of_option (d_cart_items d !! iid) (RuntimeError "StaleDataError");
  _ ← guard (cart_items_checks (f old));
  upd (λ d, d <| d_cart_items ::= <[iid := f old]> |>).
Definition delete_cart_item (iid : Z) : M unit := upd (λ d, d <| d_cart_items ::= delete iid |>).
(** [DELETE FROM carts]: the lines go with it (ON DELETE CASCADE). *)
Definition delete_cart_row (cid : Z) : M unit :=
  upd (λ d, d <| d_carts ::= delete cid |>
              <| d_cart_items ::= filter (λ kv, ci_cart_id kv.2 ≠ cid) |>).

(** ** return_requests, return_request_items and order_shipments *)

Definition RETURN_STATUSES : list string := ["requested"; "approved"; "rejected"; "received"; "closed"; "cancelled"].
Definition RETURN_REASONS : list string :=
  ["damaged"; "defective"; "wrong_item"; "not_as_described"; "size_or_fit"; "changed_mind"; "other"].
Definition RESOLUTIONS : list string := ["refunded"; "refunded_outside"; "replacement_sent"; "no_refund"].

(** The statuses that use up part of a line: [COUNTED] of the service. *)
Definition COUNTED : list string := ["requested"; "approved"; "received"; "closed"].

Definition return_requests_checks (r : ReturnRequest) : option string :=
  first_violation [
    check (bool_decide (rt_status r ∈ RETURN_STATUSES)) "ck_return_requests_status";
    check (match rt_resolution r with None => true | Some x => bool_decide (x ∈ RESOLUTIONS) end) "ck_return_requests_resolution";
    check (negb (String.eqb (rt_status r) "rejected")
           || match rt_rejection_reason r with Some t => (3 <=? String.length (btrim t))%nat | None => false end)
      "ck_return_requests_rejection";
    check (negb (String.eqb (rt_status r) "closed") || negb (opt_eqb (rt_resolution r) None)) "ck_return_requests_closed_resolution";
    check (match rt_customer_comment r with None => true | Some t => (String.length t <=? 1000)%nat end) "ck_return_requests_comment"].
Definition return_request_items_checks (i : ReturnRequestItem) : option string :=
  first_violation [
    check (0 <? ri_quantity i) "ck_return_request_items_quantity";
    check (bool_decide (ri_reason i ∈ RETURN_REASONS)) "ck_return_request_items_reason";
    check (match ri_received_quantity i with None => true | Some n => (0 <=? n) && (n <=? ri_quantity i) end)
      "ck_return_request_items_received";
    check ((0 <=? ri_restocked_quantity i) && (ri_restocked_quantity i <=? default 0 (ri_received_quantity i)))
      "ck_return_request_items_restocked"].

Definition insert_return (r : ReturnRequest) : M unit :=
  d ← gets st_db;
  _ ← guard (first_violation [
    check (bool_decide (d_returns d !! rt_id r = None)) "return_requests_pkey";
    return_requests_checks r;
    check (bool_decide (is_Some (d_orders d !! rt_order_id r))) "return_requests_order_id_fkey"]);
  upd (λ d, d <| d_returns ::= <[rt_id r := r]> |>).
Definition update_return (rid : uuid) (f : ReturnRequest → ReturnRequest) : M ReturnRequest :=
  d ← gets st_db;
  old ← of_option (d_returns d !! rid) (RuntimeError "StaleDataError");
  _ ← guard (return_requests_checks (f old));
  _ ← upd (λ d, d <| d_returns ::= <[rid := f old]> |>);
  mret (f old).
Definition insert_return_item (i : ReturnRequestItem) : M unit :=
  d ← gets st_db;
  _ ← guard (first_violation [
    check (bool_decide (d_return_items d !! ri_id i = None)) "return_request_items_pkey";
    check (negb (exists_row (λ x, String.eqb (ri_return_id x) (ri_return_id i) && (ri_order_item_id x =? ri_order_item_id i))
                   (d_return_items d))) "uq_return_request_items_line";
    return_request_items_checks i;
    check (bool_decide (is_Some (d_returns d !! ri_return_id i))) "return_request_items_return_id_fkey";
    check (bool_decide (is_Some (d_items d !! ri_order_item_id i))) "return_request_items_order_item_id_fkey"]);
  upd (λ d, d <| d_return_items ::= <[ri_id i := i]> |>).
Definition update_return_item (iid : Z) (f : ReturnRequestItem → ReturnRequestItem) : M unit :=
  d ← gets st_db;
  old ← of_option (d_return_items d !! iid) (RuntimeError "StaleDataError");
  _ ← guard (return_request_items_checks (f old));
  upd (λ d, d <| d_return_items ::= <[iid := f old]> |>).

Definition order_shipments_checks (x : OrderShipment) : option string :=
  first_violation [
    check (bool_decide (sh_status x ∈ ["shipped"; "delivered"])) "ck_order_shipments_status";
    check (Bool.eqb (String.eqb (sh_status x) "delivered") (negb (opt_eqb (sh_delivered_at x) None))) "ck_order_shipments_delivered_at"].
(** One entry per tracking number, order and carrier. *)
Definition order_shipments_unique (d : DB) (x : OrderShipment) : option string :=
  check (opt_eqb (sh_tracking_number x) None
         || negb (exists_row (λ y, negb (String.eqb (sh_id y) (sh_id x)) && String.eqb (sh_order_id y) (sh_order_id x)
                  && String.eqb (sh_carrier_name y) (sh_carrier_name x) && opt_eqb (sh_tracking_number y) (sh_tracking_number x))
                  (d_shipments d))) "ux_order_shipments_tracking".
Definition insert_shipment (x : OrderShipment) : M unit :=
  d ← gets st_db;
  _ ← guard (first_violation [
    check (bool_decide (d_shipments d !! sh_id x = None)) "order_shipments_pkey";
    order_shipments_checks x; order_shipments_unique d x;
    check (bool_decide (is_Some (d_orders d !! sh_order_id x))) "order_shipments_order_id_fkey"]);
  upd (λ d, d <| d_shipments ::= <[sh_id x := x]> |>).
Definition update_shipment_row (sid : uuid) (f : OrderShipment → OrderShipment) : M OrderShipment :=
  d ← gets st_db;
  old ← of_option (d_shipments d !! sid) (RuntimeError "StaleDataError");
  _ ← guard (first_violation [order_shipments_checks (f old); order_shipments_unique d (f old)]);
  _ ← upd (λ d, d <| d_shipments ::= <[sid := f old]> |>);
  mret (f old).
Definition delete_shipment_row (sid : uuid) : M unit := upd (λ d, d <| d_shipments ::= delete sid |>).

(** ** Accounts: users, sign-in tokens, emailed links, staff roles *)

(** A text longer than its column is a data error. *)
Definition TOO_LONG : Err := RuntimeError "StringDataRightTruncation".
Definition user_fits (u : User) : bool := (String.length (u_username u) <=? 50)%nat && (String.length (u_email u) <=? 255)%nat.
Definition users_unique (d : DB) (u : User) : option string :=
  let other (x : User) := negb (String.eqb (u_id x) (u_id u)) in
  first_violation [
    check (negb (exists_row (λ x, other x && String.eqb (u_username x) (u_username u)) (d_users d))) "users_username_key";
    check (negb (exists_row (λ x, other x && String.eqb (u_email x) (u_email u)) (d_users d))) "users_email_key"].
Definition insert_user (u : User) : M unit :=
  d ← gets st_db;
  _ ← raise_if (negb (user_fits u)) TOO_LONG;
  _ ← guard (first_violation [check (bool_decide (d_users d !! u_id u = None)) "users_pkey"; users_unique d u]);
  upd (λ d, d <| d_users ::= <[u_id u := u]> |>).
Definition update_user_row (uid : uuid) (f : User → User) : M User :=
  d ← gets st_db;
  old ← of_option (d_users d !! uid) (RuntimeError "StaleDataError");
  _ ← raise_if (negb (user_fits (f old))) TOO_LONG;
  _ ← guard (users_unique d (f old));
  _ ← upd (λ d, d <| d_users ::= <[uid := f old]> |>);
  mret (f old).

Definition insert_refresh_token (t : RefreshToken) : M unit :=
  d ← gets st_db;
  _ ← guard (first_violation [
    check (bool_decide (d_refresh_tokens d !! rf_jti t = None)) "refresh_tokens_jti_key";
    check (bool_decide (is_Some (d_users d !! rf_user_id t))) "refresh_tokens_user_id_fkey"]);
  upd (λ d, d <| d_refresh_tokens ::= <[rf_jti t := t]> |>).
Definition update_refresh_token (jti : string) (f : RefreshToken → RefreshToken) : M RefreshToken :=
  d ← gets st_db;
  old ← of_option (d_refresh_tokens d !! jti) (RuntimeError "StaleDataError");
  _ ← upd (λ d, d <| d_refresh_tokens ::= <[jti := f old]> |>);
  mret (f old).
(** [UPDATE ... WHERE p]: every row that satisfies [p]. *)
Definition update_where {K} `{Countable K} {V} (p : V → bool) (f : V → V) (m : gmap K V) : gmap K V :=
  (λ v, if p v then f v else v) <$> m.
Definition update_refresh_tokens (p : RefreshToken → bool) (f : RefreshToken → RefreshToken) : M unit :=
  upd (λ d, d <| d_refresh_tokens ::= update_where p f |>).

Definition AUTH_PURPOSES : list string := ["password_reset"; "email_verification"; "email_change"].
Definition insert_auth_token (t : AuthToken) : M unit :=
  d ← gets st_db;
  _ ← guard (first_violation [
    check (bool_decide (at_purpose t ∈ AUTH_PURPOSES)) "ck_auth_tokens_purpose";
    check (bool_decide (d_auth_tokens d !! at_token_hash t = None)) "auth_tokens_token_hash_key";
    check (bool_decide (is_Some (d_users d !! at_user_id t))) "auth_tokens_user_id_fkey"]);
  upd (λ d, d <| d_auth_tokens ::= <[at_token_hash t := t]> |>).
Definition update_auth_tokens (p : AuthToken → bool) (f : AuthToken → AuthToken) : M unit :=
  upd (λ d, d <| d_auth_tokens ::= update_where p f |>).

Definition staff_roles_name (d : DB) (r : StaffRole) : option string :=
  check (negb (exists_row (λ x, negb (String.eqb (sr_id x) (sr_id r)) && String.eqb (sr_name x) (sr_name r)) (d_staff_roles d)))
    "staff_roles_name_key".
Definition insert_staff_role (r : StaffRole) : M unit :=
  d ← gets st_db;
  _ ← guard (first_violation [check (bool_decide (d_staff_roles d !! sr_id r = None)) "staff_roles_pkey"; staff_roles_name d r]);
  upd (λ d, d <| d_staff_roles ::= <[sr_id r := r]> |>).
Definition update_staff_role (rid : uuid) (f : StaffRole → StaffRole) : M StaffRole :=
  d ← gets st_db;
  old ← of_option (d_staff_roles d !! rid) (RuntimeError "StaleDataError");
  _ ← guard (staff_roles_name d (f old));
  _ ← upd (λ d, d <| d_staff_roles ::= <[rid := f old]> |>);
  mret (f old).
(** [ON DELETE RESTRICT] *)
Definition delete_staff_role (rid : uuid) : M unit :=
  d ← gets st_db;
  _ ← guard (check (negb (exists_row (λ a, String.eqb (sa_role_id a) rid) (d_assignments d))) "staff_role_assignments_role_id_fkey");
  upd (λ d, d <| d_staff_roles ::= delete rid |>).
Definition put_assignment (a : StaffRoleAssignment) : M unit :=
  d ← gets st_db;
  _ ← guard (first_violation [
    check (bool_decide (is_Some (d_users d !! sa_user_id a))) "staff_role_assignments_user_id_fkey";
    check (bool_decide (is_Some (d_staff_roles d !! sa_role_id a))) "staff_role_assignments_role_id_fkey"]);
  upd (λ d, d <| d_assignments ::= <[sa_user_id a := a]> |>).
Definition delete_assignment (uid : uuid) : M unit := upd (λ d, d <| d_assignments ::= delete uid |>).

(** ** coupons *)

(** [code ~ '^[A-Z0-9][A-Z0-9_-]{2,31}$'] *)
Definition code_alnum (c : Ascii.ascii) : bool :=
  let n := Ascii.nat_of_ascii c in ((65 <=? n) && (n <=? 90) || (48 <=? n) && (n <=? 57))%nat.
Definition coupon_code_format (s : string) : bool :=
  match s with
  | String a r =>
      let n := String.length r in
      code_alnum a && (2 <=? n)%nat && (n <=? 31)%nat
      && forallb (λ c, code_alnum c || (Ascii.nat_of_ascii c =? 95)%nat || (Ascii.nat_of_ascii c =? 45)%nat) (String.list_ascii_of_string r)
  | EmptyString => false
  end.
Definition coupons_checks (c : Coupon) : option string :=
  let some {A} (x : option A) := match x with Some _ => true | None => false end in
  first_violation [
    check (coupon_code_format (cp_code c)) "ck_coupons_code";
    check (bool_decide (cp_kind c ∈ ["percentage"; "fixed"; "free_shipping"])) "ck_coupons_kind";
    check ((String.eqb (cp_kind c) "percentage"
            && match cp_percent_off c with Some p => dleb (Dec 1 (-2)) p && dleb p (of_Z 100) | None => false end
            && negb (some (cp_amount_off_cents c)))
           || (String.eqb (cp_kind c) "fixed" && match cp_amount_off_cents c with Some a => 0 <? a | None => false end
               && negb (some (cp_percent_off c)) && negb (some (cp_max_discount_cents c)))
           || (String.eqb (cp_kind c) "free_shipping" && negb (some (cp_percent_off c)) && negb (some (cp_amount_off_cents c))
               && negb (some (cp_max_discount_cents c)))) "ck_coupons_value";
    check (match cp_max_discount_cents c with Some m => 0 <? m | None => true end) "ck_coupons_cap";
    check (0 <=? cp_min_subtotal_cents c) "ck_coupons_minimum";
    check (match cp_starts_at c, cp_ends_at c with Some a, Some b => a <? b | _, _ => true end) "ck_coupons_dates";
    check (match cp_max_uses_total c with Some n => 0 <? n | None => true end) "ck_coupons_total_limit";
    check (match cp_max_uses_per_customer c with Some n => 0 <? n | None => true end) "ck_coupons_customer_limit"].

(** ** Reading queries and guards *)

(** Reading guards backwards. *)
Lemma exists_row_true {K} `{Countable K} {V} (p : V → bool) (m : gmap K V) :
  exists_row p m = true ↔ ∃ k v, m !! k = Some v ∧ p v = true.
Proof.
  unfold exists_row, count_rows, sum_rows. rewrite Z.ltb_lt. split.
  - intros (k & v & Hk & Hp)%sum_kv_pos. exists k, v. split; [done|]. by destruct (p v).
  - intros (k & v & Hk & Hp).
    pose proof (sum_kv_ge (λ _ v, if p v then 1 else 0) m k v ltac:(intros k' v' _; cbn; destruct (p v'); lia) Hk) as Hge.
    cbn beta in Hge. rewrite Hp in Hge. lia.
Qed.

Lemma exists_row_false {K} `{Countable K} {V} (p : V → bool) (m : gmap K V) :
  exists_row p m = false ↔ ∀ k v, m !! k = Some v → p v = false.
Proof.
  split.
  - intros Hf k v Hk. destruct (p v) eqn:Hp; [|done].
    assert (exists_row p m = true); [|congruence]. apply exists_row_true. eauto.
  - intros Hall. destruct (exists_row p m) eqn:He; [|done].
    apply exists_row_true in He as (k & v & Hk & Hp). by rewrite (Hall k v Hk) in Hp.
Qed.

(** Selected rows. *)
Lemma rows_where_elem {K} `{Countable K} {V} (p : V → bool) (m : gmap K V) v :
  v ∈ rows_where p m ↔ p v = true ∧ ∃ k, m !! k = Some v.
Proof.
  unfold rows_where. rewrite list_elem_of_filter, Is_true_true, list_elem_of_fmap. split.
  - intros [Hp ([k v'] & -> & Hk%elem_of_map_to_list)]. eauto.
  - intros [Hp [k Hk]]. split; [done|]. exists (k, v). by rewrite elem_of_map_to_list.
Qed.
Lemma rows_where_nil {K} `{Countable K} {V} (p : V → bool) (m : gmap K V) :
  rows_where p m = [] ↔ ∀ k v, m !! k = Some v → p v = false.
Proof.
  split.
  - intros Hn k v Hk. destruct (p v) eqn:Hp; [|done].
    assert (v ∈ rows_where p m) as Hv by (apply rows_where_elem; eauto). rewrite Hn in Hv. by apply elem_of_nil in Hv.
  - intros Hall. destruct (rows_where p m) as [|v l] eqn:He; [done|].
    assert (v ∈ rows_where p m) as Hv by (rewrite He; left). apply rows_where_elem in Hv as (Hp & k & Hk). by rewrite (Hall k v Hk) in Hp.
Qed.
Lemma rows_where_insert {K} `{Countable K} {V} (p : V → bool) (m : gmap K V) k v :
  m !! k = None → rows_where p (<[k := v]> m) ≡ₚ if p v then v :: rows_where p m else rows_where p m.
Proof.
  intros Hk. unfold rows_where. rewrite (map_to_list_insert m k v Hk). cbn.
  destruct (p v); done.
Qed.

Lemma first_violation_None l : first_violation l = None ↔ Forall (eq None) l.
Proof.
  unfold first_violation. induction l as [|[n|] l IH]; fold first_violation in *; cbn.
  - split; [constructor|done].
  - split; [done|]. intros Hall. by apply Forall_cons in Hall as [? _].
  - rewrite IH. split; [by constructor|]. by intros [_ ?]%Forall_cons.
Qed.

Lemma check_None b n : check b n = None ↔ b = true.
Proof. by destruct b. Qed.

(** Splits a passed list of guards into its members. *)
Ltac passed H :=
  rewrite first_violation_None, ?Forall_cons in H;
  let rec go H := lazymatch type of H with
    | _ ∧ _ => let H1 := fresh "Hg" in destruct H as [H1 H]; go H
    | Forall _ [] => clear H
    | _ => idtac
    end in go H.
