(* ===== verification/CatalogueGuards.v ===== *)
(** * What the database accepts in the catalogue, and the statements sent to it

    Categories, products, options, variants, with the constraints of [products/models/product.py],
    [products/models/variants.py] and [categories/models/category.py] and the triggers of [products/models/variant_guard.py],
    [products/models/price_guard.py] and [tax/models/guard.py]; reviews, wishlists and addresses. The deferred triggers, which
    speak of the end of a transaction, are [deferred_violation]. *)

From S2P Require Import Prelude Errors Schema Guards.

Local Open Scope string_scope.
Local Open Scope list_scope.
Local Open Scope Z_scope.

(** ** Categories *)

Definition categories_unique (d : DB) (c : Category) : option string :=
  let other (x : Category) := negb (cat_id x =? cat_id c) in
  first_violation [
    check (negb (exists_row (λ x, other x && String.eqb (cat_name x) (cat_name c)) (d_categories d))) "categories_name_key";
    check (negb (exists_row (λ x, other x && String.eqb (cat_slug x) (cat_slug c)) (d_categories d))) "categories_slug_key"].
Definition insert_category (c : Category) : M unit :=
  d ← gets st_db;
  _ ← guard (first_violation [check (bool_decide (d_categories d !! cat_id c = None)) "categories_pkey"; categories_unique d c]);
  upd (λ d, d <| d_categories ::= <[cat_id c := c]> |>).
Definition update_category_row (cid : Z) (f : Category → Category) : M Category :=
  d ← gets st_db;
  old ← of_option (d_categories d !! cid) (RuntimeError "StaleDataError");
  _ ← guard (categories_unique d (f old));
  _ ← upd (λ d, d <| d_categories ::= <[cid := f old]> |>);
  mret (f old).

(** ** The price range of a product *)

(** The effective prices of its active variants. *)
Definition active_prices (vs : gmap Z ProductVariant) (pid base : Z) : list Z :=
  map (λ v, default base (pv_price_override_cents v)) (rows_where (λ v, (pv_product_id v =? pid) && pv_active v) vs).
(** [product_price_range] *)
Definition product_price_range (vs : gmap Z ProductVariant) (pid base options : Z) : Z * Z :=
  if options =? 0 then (base, base)
  else match active_prices vs pid base with
       | [] => (base, base)
       | x :: l => (foldr Z.min x l, foldr Z.max x l)
       end.
(** [products_price_summary] *)
Definition products_price_summary (vs : gmap Z ProductVariant) (p : Product) : Product :=
  let '(lo, hi) := product_price_range vs (p_id p) (p_price_cents p) (p_option_count p) in
  p <| p_price_from := lo |> <| p_price_to := hi |>.
(** [variants_price_summary]: after a variant of [pid] was written. *)
Definition variants_price_summary (pid : Z) (d : DB) : DB :=
  match d_products d !! pid with
  | Some p =>
      let '(lo, hi) := product_price_range (d_variants d) pid (p_price_cents p) (p_option_count p) in
      d <| d_products ::= <[pid := p <| p_price_from := lo |> <| p_price_to := hi |>]> |>
  | None => d
  end.

(** ** SKUs *)

Definition sku_norm (sku : string) : string := py_upper (btrim sku).
(** [sku_registry]: a row for every product and every variant, written by triggers as they are inserted and deleted (a SKU never
    changes), so its keys are read off the two tables. *)
Definition sku_registered (d : DB) (norm : string) : bool :=
  exists_row (λ p, String.eqb (sku_norm (p_sku p)) norm) (d_products d)
  || exists_row (λ v, String.eqb (sku_norm (pv_sku v)) norm) (d_variants d).

(** ** products *)

(** [products_tax_assignment_guard] *)
Definition products_tax_assignment_guard (d : DB) (old : option Z) (new : Product) : option string :=
  match p_tax_classification_id new with
  | None => None
  | Some c =>
      check (opt_eqb old (Some c) || match d_classifications d !! c with Some k => String.eqb (tc_status k) "approved" | None => false end)
        "tax master: a product can only be assigned an approved classification"
  end.
Definition products_keys (d : DB) (p : Product) : option string :=
  let other (x : Product) := negb (p_id x =? p_id p) in
  first_violation [
    check (negb (exists_row (λ x, other x && String.eqb (p_slug x) (p_slug p)) (d_products d))) "products_slug_key";
    check (negb (exists_row (λ x, other x && String.eqb (p_sku x) (p_sku p)) (d_products d))) "products_sku_key";
    check (bool_decide (is_Some (d_categories d !! p_category_id p))) "products_category_id_fkey";
    check (match p_tax_classification_id p with None => true | Some c => bool_decide (is_Some (d_classifications d !! c)) end)
      "products_tax_classification_id_fkey"].

(** [stock_ledger_write] on INSERT *)
Definition stock_ledger_first (c : StockCtx) (product_id : Z) (variant_id : option Z) (stock : Z) : StockMovement :=
  MkMovement (if String.eqb (sc_kind c) "" then "initial" else sc_kind c)
    product_id variant_id stock 0 stock (sc_actor c) (sc_reason c) (sc_order c).
(** The ledger row of a change of stock, if it is one. *)
Definition ledger_rows (row : StockMovement) : list StockMovement := if sm_delta row =? 0 then [] else [row].
Definition ledger_checks (rows : list StockMovement) : option string := first_violation (map movements_checks rows).

Definition insert_product (p0 : Product) : M Product :=
  s ← gets id;
  let d := st_db s in
  let p := products_price_summary (d_variants d) p0 in
  let rows := ledger_rows (stock_ledger_first (st_stock_ctx s) (p_id p) None (p_stock p)) in
  _ ← guard (first_violation [
    products_tax_assignment_guard d None p;
    check (bool_decide (d_products d !! p_id p = None)) "products_pkey";
    products_checks p; products_keys d p;
    check (negb (sku_registered d (sku_norm (p_sku p)))) "sku_registry_pkey";
    ledger_checks rows]);
  _ ← upd (λ d, d <| d_products ::= <[p_id p := p]> |> <| d_movements ::= λ l, l ++ rows |>);
  mret p.

(** [UPDATE products SET ... WHERE id = pid]; the declared number of options is fixed while variants exist. *)
Definition update_product_row (pid : Z) (f : Product → Product) : M Product :=
  s ← gets id;
  let d := st_db s in
  old ← of_option (d_products d !! pid) (RuntimeError "StaleDataError");
  let new := if (p_price_cents (f old) =? p_price_cents old) && (p_option_count (f old) =? p_option_count old) then f old
             else products_price_summary (d_variants d) (f old) in
  let rows := ledger_rows (stock_ledger_row (st_stock_ctx s) pid None (p_stock old) (p_stock new)) in
  _ ← guard (first_violation [
    products_tax_assignment_guard d (p_tax_classification_id old) new;
    products_checks new; products_keys d new;
    check (String.eqb (p_sku new) (p_sku old)) "a SKU cannot be changed once created";
    check ((p_option_count new =? p_option_count old) || negb (exists_row (λ v, pv_product_id v =? pid) (d_variants d)))
      "fk_variants_product_option_count";
    ledger_checks rows]);
  _ ← upd (λ d, d <| d_products ::= <[pid := new]> |> <| d_movements ::= λ l, l ++ rows |>);
  mret new.

(** ** product_options and product_option_values *)

Definition same_ci (a b : string) : bool := String.eqb (py_lower a) (py_lower b).
Definition options_checks (o : ProductOption) : option string :=
  first_violation [
    check ((1 <=? po_position o) && (po_position o <=? 3)) "ck_product_options_position";
    check (trimmed_name (po_name o)) "ck_product_options_name"].
Definition insert_option (o : ProductOption) : M unit :=
  d ← gets st_db;
  _ ← guard (first_violation [
    check (bool_decide (d_options d !! po_id o = None)) "product_options_pkey";
    options_checks o;
    check (negb (exists_row (λ x, (po_product_id x =? po_product_id o) && (po_position x =? po_position o)) (d_options d)))
      "uq_product_options_product_position";
    check (negb (exists_row (λ x, (po_product_id x =? po_product_id o) && same_ci (po_name x) (po_name o)) (d_options d)))
      "ux_product_options_product_lname";
    check (bool_decide (is_Some (d_products d !! po_product_id o))) "product_options_product_id_fkey"]);
  upd (λ d, d <| d_options ::= <[po_id o := o <| po_values := [] |>]> |>).

(** A variant holds the value in one of its slots. *)
Definition holds_value (vid : Z) (v : ProductVariant) : bool :=
  opt_eqb (pv_value1_id v) (Some vid) || opt_eqb (pv_value2_id v) (Some vid) || opt_eqb (pv_value3_id v) (Some vid).
(** [DELETE FROM product_options WHERE product_id = pid]: the values go with them, unless a variant holds one. *)
Definition delete_options (pid : Z) : M unit :=
  d ← gets st_db;
  let gone := flat_map (λ o, map fst (po_values o)) (rows_where (λ o, po_product_id o =? pid) (d_options d)) in
  _ ← guard (check (negb (exists_row (λ v, existsb (λ i, holds_value i v) gone) (d_variants d))) "fk_variants_value");
  upd (λ d, d <| d_options ::= filter (λ kv, po_product_id kv.2 ≠ pid) |>).

Definition values_unique (o : ProductOption) (vid : Z) (value : string) : option string :=
  first_violation [
    check (trimmed_name value) "ck_option_values_value";
    check (negb (existsb (λ x, negb (x.1 =? vid) && same_ci x.2 value) (po_values o))) "ux_option_values_option_lvalue"].
Definition insert_option_value (oid vid : Z) (value : string) : M unit :=
  d ← gets st_db;
  o ← of_option (d_options d !! oid) (IntegrityError "fk_option_values_option");
  _ ← guard (first_violation [
    check (negb (exists_row (λ x, existsb (λ y, y.1 =? vid) (po_values x)) (d_options d))) "product_option_values_pkey";
    values_unique o vid value]);
  upd (λ d, d <| d_options ::= <[oid := o <| po_values ::= λ l, l ++ [(vid, value)] |>]> |>).
Definition update_option_value (oid vid : Z) (value : string) : M unit :=
  d ← gets st_db;
  o ← of_option (d_options d !! oid) (RuntimeError "StaleDataError");
  _ ← guard (values_unique o vid value);
  upd (λ d, d <| d_options ::= <[oid := o <| po_values ::= map (λ x, if x.1 =? vid then (vid, value) else x) |>]> |>).
Definition delete_option_value (oid vid : Z) : M unit :=
  d ← gets st_db;
  o ← of_option (d_options d !! oid) (RuntimeError "StaleDataError");
  _ ← guard (check (negb (exists_row (holds_value vid) (d_variants d))) "fk_variants_value");
  upd (λ d, d <| d_options ::= <[oid := o <| po_values ::= List.filter (λ x, negb (x.1 =? vid)) |>]> |>).

(** ** product_variants *)

Definition combo_of (v : ProductVariant) := (pv_product_id v, pv_value1_id v, pv_value2_id v, pv_value3_id v).
(** Slot [n] holds no value, or one of the product's option in that position. *)
Definition slot_ok (os : gmap Z ProductOption) (pid n : Z) (value : option Z) : bool :=
  match value with
  | None => true
  | Some i => exists_row (λ o, (po_product_id o =? pid) && (po_position o =? n) && existsb (λ x, x.1 =? i) (po_values o)) os
  end.
Definition insert_variant (v : ProductVariant) : M unit :=
  s ← gets id;
  let d := st_db s in
  let rows := ledger_rows (stock_ledger_first (st_stock_ctx s) (pv_product_id v) (Some (pv_id v)) (pv_stock v)) in
  _ ← guard (first_violation [
    check (bool_decide (d_variants d !! pv_id v = None)) "product_variants_pkey";
    variants_checks v;
    check (negb (exists_row (λ x, bool_decide (combo_of x = combo_of v)) (d_variants d))) "uq_variants_combination";
    check (negb (sku_registered d (sku_norm (pv_sku v)))) "sku_registry_pkey";
    check (match d_products d !! pv_product_id v with Some p => p_option_count p =? pv_option_count v | None => false end)
      "fk_variants_product_option_count";
    check (slot_ok (d_options d) (pv_product_id v) 1 (pv_value1_id v)) "fk_variants_value1";
    check (slot_ok (d_options d) (pv_product_id v) 2 (pv_value2_id v)) "fk_variants_value2";
    check (slot_ok (d_options d) (pv_product_id v) 3 (pv_value3_id v)) "fk_variants_value3";
    ledger_checks rows]);
  upd (λ d, variants_price_summary (pv_product_id v)
              (d <| d_variants ::= <[pv_id v := v]> |> <| d_movements ::= λ l, l ++ rows |>)).
(** [UPDATE product_variants SET ... WHERE id = vid], of the price, the status or the stock. *)
Definition update_variant_row (vid : Z) (f : ProductVariant → ProductVariant) : M ProductVariant :=
  s ← gets id;
  let d := st_db s in
  old ← of_option (d_variants d !! vid) (RuntimeError "StaleDataError");
  let new := f old in
  let rows := ledger_rows (stock_ledger_row (st_stock_ctx s) (pv_product_id old) (Some vid) (pv_stock old) (pv_stock new)) in
  _ ← guard (first_violation [
    variants_checks new;
    check (String.eqb (pv_sku new) (pv_sku old)) "a SKU cannot be changed once created";
    ledger_checks rows]);
  _ ← upd (λ d, variants_price_summary (pv_product_id old)
                  (d <| d_variants ::= <[vid := new]> |> <| d_movements ::= λ l, l ++ rows |>));
  mret new.
Definition delete_variant_row (vid : Z) : M unit :=
  d ← gets st_db;
  v ← of_option (d_variants d !! vid) (RuntimeError "StaleDataError");
  _ ← guard (first_violation [
    check (negb (exists_row (λ i, opt_eqb (ci_variant_id i) (Some vid)) (d_cart_items d))) "fk_cart_items_variant";
    check (negb (exists_row (λ i, opt_eqb (oi_variant_id i) (Some vid)) (d_items d))) "fk_order_items_variant";
    check (negb (existsb (λ m, opt_eqb (sm_variant_id m) (Some vid)) (d_movements d))) "stock_movements_variant_id_fkey"]);
  upd (λ d, variants_price_summary (pv_product_id v) (d <| d_variants ::= delete vid |>)).

(** [DELETE FROM cart_items WHERE product_id = pid], with the number of rows. *)
Definition delete_cart_items_of (pid : Z) : M Z :=
  n ← db_gets (λ d, count_rows (λ i, ci_product_id i =? pid) (d_cart_items d));
  _ ← upd (λ d, d <| d_cart_items ::= filter (λ kv, ci_product_id kv.2 ≠ pid) |>);
  mret n.

(** ** The deferred rules *)

(** [check_option_count] and [check_active_variant_rule], for one product at the end of a transaction. *)
Definition option_count_ok (d : DB) (p : Product) : bool :=
  let positions := map po_position (rows_where (λ o, po_product_id o =? p_id p) (d_options d)) in
  let actual := Z.of_nat (length positions) in
  (actual =? p_option_count p) && (foldr Z.max 0 positions =? actual).
Definition active_variant_ok (d : DB) (p : Product) : bool :=
  (p_option_count p <=? 0) || negb (bool_decide (p_status p = ACTIVE))
  || exists_row (λ v, (pv_product_id v =? p_id p) && pv_active v) (d_variants d).
(** What [SET CONSTRAINTS ALL IMMEDIATE] finds after the rows of one product were written. *)
Definition deferred_violation (pid : Z) (d : DB) : option string :=
  match d_products d !! pid with
  | None => None
  | Some p =>
      first_violation [
        check (option_count_ok d p) "declares option(s) but has others (positions must be 1..n)";
        check (active_variant_ok d p) "an active product with options needs at least one active variant"]
  end.

(** ** addresses *)

Definition insert_address (a : Address) : M unit :=
  d ← gets st_db;
  _ ← guard (first_violation [
    check (bool_decide (d_addresses d !! ad_id a = None)) "addresses_pkey";
    check (bool_decide (is_Some (d_users d !! ad_user_id a))) "addresses_user_id_fkey"]);
  upd (λ d, d <| d_addresses ::= <[ad_id a := a]> |>).
Definition update_address_row (aid : Z) (f : Address → Address) : M Address :=
  d ← gets st_db;
  old ← of_option (d_addresses d !! aid) (RuntimeError "StaleDataError");
  _ ← upd (λ d, d <| d_addresses ::= <[aid := f old]> |>);
  mret (f old).
Definition delete_address_row (aid : Z) : M unit := upd (λ d, d <| d_addresses ::= delete aid |>).

(** ** product_reviews *)

Definition text_check (limit : nat) (t : option string) : bool :=
  match t with None => true | Some x => (0 <? String.length (btrim x))%nat && (String.length x <=? limit)%nat end.
Definition product_reviews_checks (r : ProductReview) : option string :=
  first_violation [
    check ((1 <=? rv_rating r) && (rv_rating r <=? 5)) "ck_product_reviews_rating";
    check (bool_decide (rv_status r ∈ ["published"; "hidden"])) "ck_product_reviews_status";
    check (text_check 100 (rv_title r)) "ck_product_reviews_title";
    check (text_check 2000 (rv_body r)) "ck_product_reviews_body";
    check (negb (String.eqb (rv_status r) "hidden")
           || match rv_hidden_reason r with Some t => (3 <=? String.length (btrim t))%nat | None => true end)
      "ck_product_reviews_hidden_reason"].
Definition insert_review (r : ProductReview) : M unit :=
  d ← gets st_db;
  _ ← guard (first_violation [
    check (bool_decide (d_reviews d !! rv_id r = None)) "product_reviews_pkey";
    product_reviews_checks r;
    check (negb (exists_row (λ x, (rv_product_id x =? rv_product_id r) && String.eqb (rv_user_id x) (rv_user_id r)) (d_reviews d)))
      "uq_product_reviews_product_user";
    check (bool_decide (is_Some (d_products d !! rv_product_id r))) "product_reviews_product_id_fkey";
    check (bool_decide (is_Some (d_users d !! rv_user_id r))) "product_reviews_user_id_fkey"]);
  upd (λ d, d <| d_reviews ::= <[rv_id r := r]> |>).
Definition update_review (rid : Z) (f : ProductReview → ProductReview) : M ProductReview :=
  d ← gets st_db;
  old ← of_option (d_reviews d !! rid) (RuntimeError "StaleDataError");
  _ ← guard (product_reviews_checks (f old));
  _ ← upd (λ d, d <| d_reviews ::= <[rid := f old]> |>);
  mret (f old).
Definition delete_review (rid : Z) : M unit := upd (λ d, d <| d_reviews ::= delete rid |>).

(** ** wishlist_items *)

(** [INSERT ... ON CONFLICT DO NOTHING] *)
Definition insert_wishlist_item (w : WishlistItem) : M unit :=
  d ← gets st_db;
  if exists_row (λ x, String.eqb (wi_user_id x) (wi_user_id w) && (wi_product_id x =? wi_product_id w)) (d_wishlist d) then mret tt
  else
    _ ← guard (first_violation [
      check (bool_decide (d_wishlist d !! wi_id w = None)) "wishlist_items_pkey";
      check (bool_decide (is_Some (d_products d !! wi_product_id w))) "wishlist_items_product_id_fkey";
      check (bool_decide (is_Some (d_users d !! wi_user_id w))) "wishlist_items_user_id_fkey"]);
    upd (λ d, d <| d_wishlist ::= <[wi_id w := w]> |>).
Definition delete_wishlist_item (user_id : uuid) (product_id : Z) : M unit :=
  upd (λ d, d <| d_wishlist ::= filter (λ kv, ¬ (wi_user_id kv.2 = user_id ∧ wi_product_id kv.2 = product_id)) |>).
