(* ===== verification/TaxGuards.v ===== *)
(** * What the database accepts in the tax masters, and the statements sent to it

    Classifications, rules, registrations and configurations, with the constraints of [tax/models/tax.py] and the triggers of
    [tax/models/guard.py]. The four tables share one trigger; the class [TaxMaster] says what it reads of a row, and an insert
    and an update are written once for all four. *)

From S2P Require Import Prelude Decimal Errors Schema Guards.
Import Decimal.

Local Open Scope string_scope.
Local Open Scope list_scope.
Local Open Scope Z_scope.

(** ** Columns *)

(** [Numeric(6, 3)] *)
Definition rate_column (x : dec) : dec := rescale div_half_up (-3) x.
(** [daterange(from, to, '[)') && daterange(from', to', '[)')] *)
Definition before (day : Z) (until : option Z) : bool := match until with Some u => day <? u | None => true end.
Definition ranges_overlap (from : Z) (until : option Z) (from' : Z) (until' : option Z) : bool := before from until' && before from' until.
(** A [CHECK] of two dates *)
Definition dates_ok (from : Z) (until : option Z) : bool := before from until.

Definition is_digit (c : Ascii.ascii) : bool := let n := Ascii.nat_of_ascii c in ((48 <=? n) && (n <=? 57))%nat.
Definition all_digits (s : string) : bool := forallb is_digit (String.list_ascii_of_string s).
Definition is_upper (c : Ascii.ascii) : bool := let n := Ascii.nat_of_ascii c in ((65 <=? n) && (n <=? 90))%nat.
Definition is_one_to_nine (c : Ascii.ascii) : bool := is_digit c && negb (Ascii.eqb c "0").
(** [^[0-9]{2}[A-Z]{5}[0-9]{4}[A-Z][1-9A-Z]Z[0-9A-Z]$] *)
Definition gstin_classes : list (Ascii.ascii → bool) :=
  [is_digit; is_digit; is_upper; is_upper; is_upper; is_upper; is_upper; is_digit; is_digit; is_digit; is_digit; is_upper;
   (λ c, is_one_to_nine c || is_upper c); (λ c, Ascii.eqb c "Z"); (λ c, is_digit c || is_upper c)].
Fixpoint matches (classes : list (Ascii.ascii → bool)) (s : list Ascii.ascii) : bool :=
  match classes, s with
  | [], [] => true
  | p :: ps, c :: cs => p c && matches ps cs
  | _, _ => false
  end.
Definition gstin_format (s : string) : bool := matches gstin_classes (String.list_ascii_of_string s).
Definition state_code_format (s : string) : bool := matches [is_digit; is_digit] (String.list_ascii_of_string s).
Definition STATUSES : list string := ["draft"; "approved"; "retired"].
(** [status <> 'approved' OR (approved_at IS NOT NULL AND source_reference IS NOT NULL AND length(btrim(source_reference)) > 0)] *)
Definition sourced (status : string) (approval : Approval) (source : option string) : bool :=
  negb (String.eqb status "approved")
  || negb (opt_eqb (ap_approved_at approval) None)
     && match source with Some t => (0 <? String.length (btrim t))%nat | None => false end.

(** ** The CHECK constraints *)

Definition classifications_checks (c : TaxClassification) : option string :=
  first_violation [
    check (sourced (tc_status c) (tc_approval c) (tc_source_reference c)) "ck_tax_classifications_approved_fields";
    check (negb (String.eqb (tc_code c) "") && all_digits (tc_code c)) "ck_tax_classifications_code_digits";
    check (bool_decide (tc_kind c ∈ ["hsn"; "sac"])) "ck_tax_classifications_kind";
    check (bool_decide (tc_status c ∈ STATUSES)) "ck_tax_classifications_status"].
Definition percentage (r : dec) : bool := dleb (of_Z 0) r && dleb r (of_Z 100).
Definition rates_match (treatment : string) (cgst sgst igst : dec) : bool :=
  if String.eqb treatment "taxable" then dltb (of_Z 0) igst && deqb (dadd cgst sgst) igst
  else deqb cgst (of_Z 0) && deqb sgst (of_Z 0) && deqb igst (of_Z 0).
Definition rules_checks (r : TaxRule) : option string :=
  first_violation [
    check (sourced (tr_status r) (tr_approval r) (tr_source_reference r)) "ck_tax_rules_approved_fields";
    check (dates_ok (tr_effective_from r) (tr_effective_to r)) "ck_tax_rules_dates";
    check (percentage (tr_cgst_rate r) && percentage (tr_sgst_utgst_rate r) && percentage (tr_igst_rate r)) "ck_tax_rules_rate_range";
    check (bool_decide (tr_status r ∈ STATUSES)) "ck_tax_rules_status";
    check (bool_decide (tr_treatment r ∈ ["taxable"; "exempt"; "nil_rated"; "non_gst"])) "ck_tax_rules_treatment";
    check (rates_match (tr_treatment r) (tr_cgst_rate r) (tr_sgst_utgst_rate r) (tr_igst_rate r)) "ck_tax_rules_treatment_rates"].
Definition registrations_checks (g : GstRegistration) : option string :=
  first_violation [
    check (negb (String.eqb (gr_status g) "approved") || negb (opt_eqb (ap_approved_at (gr_approval g)) None))
      "ck_gst_registrations_approved_fields";
    check (dates_ok (gr_valid_from g) (gr_valid_to g)) "ck_gst_registrations_dates";
    check (gstin_format (gr_gstin g)) "ck_gst_registrations_gstin_format";
    check (String.eqb (String.substring 0 2 (gr_gstin g)) (gr_state_code g)) "ck_gst_registrations_gstin_state";
    check (state_code_format (gr_state_code g)) "ck_gst_registrations_state_code";
    check (bool_decide (gr_status g ∈ STATUSES)) "ck_gst_registrations_status"].
Definition settings_checks (b : BusinessTaxSettings) : option string :=
  first_violation [
    check (sourced (ts_status b) (ts_approval b) (ts_source_reference b)) "ck_business_tax_settings_approved_fields";
    check (dates_ok (ts_effective_from b) (ts_effective_to b)) "ck_business_tax_settings_dates";
    check (bool_decide (ts_place_of_supply_basis b ∈ ["delivery_state"])) "ck_business_tax_settings_pos";
    check (bool_decide (ts_pricing_mode b ∈ ["inclusive"; "exclusive"])) "ck_business_tax_settings_pricing";
    check (bool_decide (ts_rounding_policy b ∈ ["line_half_up"; "invoice_half_up"])) "ck_business_tax_settings_rounding";
    check (bool_decide (ts_shipping_tax_treatment b ∈ ["not_taxed"; "taxable_with_goods"])) "ck_business_tax_settings_shipping";
    check (bool_decide (ts_status b ∈ STATUSES)) "ck_business_tax_settings_status"].

(** ** Keys, exclusion and references *)

(** [created_by_user_id] and [approved_by_user_id] *)
Definition actors_exist (d : DB) (a : Approval) : bool :=
  let known o := match o with Some u => bool_decide (is_Some (d_users d !! u)) | None => true end in
  known (ap_created_by a) && known (ap_approved_by a).
Definition classifications_constraints (d : DB) (c : TaxClassification) : option string :=
  first_violation [
    classifications_checks c;
    check (negb (exists_row (λ x, negb (tc_id x =? tc_id c) && String.eqb (tc_kind x) (tc_kind c) && String.eqb (tc_code x) (tc_code c))
                   (d_classifications d))) "uq_tax_classifications_kind_code";
    check (actors_exist d (tc_approval c)) "tax_classifications_user_id_fkey"].
(** [ex_tax_rules_no_approved_overlap], a partial index on the approved rules *)
Definition rule_clash (x r : TaxRule) : bool :=
  String.eqb (tr_status x) "approved" && String.eqb (tr_status r) "approved" && (tr_classification_id x =? tr_classification_id r)
  && ranges_overlap (tr_effective_from x) (tr_effective_to x) (tr_effective_from r) (tr_effective_to r).
Definition rules_constraints (d : DB) (r : TaxRule) : option string :=
  first_violation [
    rules_checks r;
    check (negb (exists_row (λ x, negb (tr_id x =? tr_id r) && rule_clash x r) (d_rules d))) "ex_tax_rules_no_approved_overlap";
    check (bool_decide (is_Some (d_classifications d !! tr_classification_id r))) "tax_rules_classification_id_fkey";
    check (actors_exist d (tr_approval r)) "tax_rules_user_id_fkey"].
Definition registrations_constraints (d : DB) (g : GstRegistration) : option string :=
  first_violation [
    registrations_checks g;
    check (negb (exists_row (λ x, negb (gr_id x =? gr_id g) && String.eqb (gr_gstin x) (gr_gstin g)) (d_registrations d)))
      "gst_registrations_gstin_key";
    check (actors_exist d (gr_approval g)) "gst_registrations_user_id_fkey"].
Definition settings_clash (x b : BusinessTaxSettings) : bool :=
  String.eqb (ts_status x) "approved" && String.eqb (ts_status b) "approved"
  && ranges_overlap (ts_effective_from x) (ts_effective_to x) (ts_effective_from b) (ts_effective_to b).
Definition settings_constraints (d : DB) (b : BusinessTaxSettings) : option string :=
  first_violation [
    settings_checks b;
    check (negb (exists_row (λ x, negb (ts_id x =? ts_id b) && settings_clash x b) (d_tax_settings d)))
      "ex_business_tax_settings_no_approved_overlap";
    check (bool_decide (is_Some (d_registrations d !! ts_registration_id b))) "business_tax_settings_registration_id_fkey";
    check (actors_exist d (ts_approval b)) "business_tax_settings_user_id_fkey"].

(** [tax_classification_retire_guard] *)
Definition tax_classification_retire_guard (d : DB) (old new : TaxClassification) : option string :=
  check (negb (String.eqb (tc_status new) "retired" && negb (String.eqb (tc_status old) "retired")
               && exists_row (λ p, opt_eqb (p_tax_classification_id p) (Some (tc_id old))) (d_products d)))
    "tax master: a classification still assigned to products cannot be retired".

(** ** What the four tables have in common *)

Class TaxMaster (A : Type) := {
  tm_eq_dec :: EqDecision A;
  tm_id : A → Z;
  tm_status : A → string;
  tm_approval : A → Approval;
  (** The exclusive end date, of the table where [tax_master_guard] lets it change: the rules. *)
  tm_end : A → option (option Z);
  tm_put_status : string → A → A;
  tm_put_approval : Approval → A → A;
  tm_put_end : option Z → A → A;
  (** The row as its columns store it. *)
  tm_columns : A → A;
  tm_table : DB → gmap Z A;
  tm_store : Z → A → DB → DB;
  tm_constraints : DB → A → option string;
  tm_other_triggers : DB → A → A → option string
}.

#[export] Instance classification_master : TaxMaster TaxClassification := {|
  tm_id := tc_id; tm_status := tc_status; tm_approval := tc_approval; tm_end := λ _, None;
  tm_put_status := λ x c, c <| tc_status := x |>; tm_put_approval := λ x c, c <| tc_approval := x |>; tm_put_end := λ _ c, c;
  tm_columns := λ c, c; tm_table := d_classifications; tm_store := λ k c d, d <| d_classifications ::= <[k := c]> |>;
  tm_constraints := classifications_constraints; tm_other_triggers := tax_classification_retire_guard |}.
#[export] Instance rule_master : TaxMaster TaxRule := {|
  tm_id := tr_id; tm_status := tr_status; tm_approval := tr_approval; tm_end := λ r, Some (tr_effective_to r);
  tm_put_status := λ x r, r <| tr_status := x |>; tm_put_approval := λ x r, r <| tr_approval := x |>;
  tm_put_end := λ x r, r <| tr_effective_to := x |>;
  tm_columns := λ r, r <| tr_cgst_rate ::= rate_column |> <| tr_sgst_utgst_rate ::= rate_column |> <| tr_igst_rate ::= rate_column |>;
  tm_table := d_rules; tm_store := λ k r d, d <| d_rules ::= <[k := r]> |>;
  tm_constraints := rules_constraints; tm_other_triggers := λ _ _ _, None |}.
#[export] Instance registration_master : TaxMaster GstRegistration := {|
  tm_id := gr_id; tm_status := gr_status; tm_approval := gr_approval; tm_end := λ _, None;
  tm_put_status := λ x g, g <| gr_status := x |>; tm_put_approval := λ x g, g <| gr_approval := x |>; tm_put_end := λ _ g, g;
  tm_columns := λ g, g; tm_table := d_registrations; tm_store := λ k g d, d <| d_registrations ::= <[k := g]> |>;
  tm_constraints := registrations_constraints; tm_other_triggers := λ _ _ _, None |}.
#[export] Instance settings_master : TaxMaster BusinessTaxSettings := {|
  tm_id := ts_id; tm_status := ts_status; tm_approval := ts_approval; tm_end := λ _, None;
  tm_put_status := λ x b, b <| ts_status := x |>; tm_put_approval := λ x b, b <| ts_approval := x |>; tm_put_end := λ _ b, b;
  tm_columns := λ b, b; tm_table := d_tax_settings; tm_store := λ k b d, d <| d_tax_settings ::= <[k := b]> |>;
  tm_constraints := settings_constraints; tm_other_triggers := λ _ _ _, None |}.

(** ** The trigger and the statements *)

Section master.
Context {A : Type} `{!TaxMaster A}.

(** [to_jsonb(row) - skip]: who created and who approved the row are left out. *)
Definition without_actors (a : A) : A := tm_put_approval (MkApproval None None (ap_approved_at (tm_approval a))) a.
Definition same (f : A → A) (new old : A) : bool := bool_decide (f (without_actors new) = f (without_actors old)).
(** [new IS NOT NULL AND new IS DISTINCT FROM old] *)
Definition reassigned (new old : option uuid) : bool := negb (opt_eqb new None) && negb (opt_eqb new old).

(** [tax_master_guard], by the operation. No statement of the program deletes a row. *)
Definition tax_master_guard_insert (new : A) : option string :=
  check (String.eqb (tm_status new) "draft") "tax master: a record must start as a draft".
Definition tax_master_guard_update (old new : A) : option string :=
  if negb (String.eqb (tm_status old) "draft")
     && (reassigned (ap_created_by (tm_approval new)) (ap_created_by (tm_approval old))
         || reassigned (ap_approved_by (tm_approval new)) (ap_approved_by (tm_approval old)))
  then Some "tax master: creator/approver of a record cannot be reassigned"
  else if String.eqb (tm_status old) "retired" then check (same id new old) "tax master: a retired record is read-only"
  else if String.eqb (tm_status old) "approved" then
    if String.eqb (tm_status new) "retired"
    then check (same (tm_put_status "") new old) "tax master: an approved record can only be retired, not edited"
    else if String.eqb (tm_status new) "approved" then
      match tm_end old, tm_end new with
      | Some until, Some until' =>
          first_violation [
            check (same (tm_put_end None) new old) "tax master: an approved rule cannot be edited";
            check (match until, until' with None, _ => true | Some _, None => false | Some u, Some v => v <=? u end)
              "tax master: a rule end date can be brought forward, never extended"]
      | _, _ => check (same id new old) "tax master: an approved record cannot be edited"
      end
    else Some "tax master: an approved record cannot return to draft"
  else None.

Definition insert_record (record : A) : M unit :=
  d ← gets st_db;
  let row := tm_columns record in
  _ ← guard (first_violation [
    tax_master_guard_insert row;
    check (bool_decide (tm_table d !! tm_id row = None)) "tax_master_pkey";
    tm_constraints d row]);
  upd (tm_store (tm_id row) row).
(** The UPDATE of a record that was read, with the attributes it has now. *)
Definition update_record (record : A) : M unit :=
  d ← gets st_db;
  let row := tm_columns record in
  old ← of_option (tm_table d !! tm_id row) (RuntimeError "StaleDataError");
  _ ← guard (first_violation [tm_other_triggers d old row; tax_master_guard_update old row; tm_constraints d row]);
  upd (tm_store (tm_id row) row).
End master.
