(* ===== verification/TaxOk.v ===== *)
(** * Well-formed tax masters

    [master_ext] is what the trigger of [TaxGuards] lets become of a record: an approved one keeps everything but its end
    date, which only comes forward, until it is retired; a retired one is fixed. [tax_ok] is what every committed set of
    tax masters satisfies: the constraints of the tables, no two approved rules of a classification on one day, no two
    approved configurations on one day, and what the services add: an approved rule has an approved classification, an
    approved configuration an approved registration. *)

From S2P Require Import Prelude Decimal Errors Schema Guards TaxGuards.

Local Open Scope string_scope.
Local Open Scope list_scope.
Local Open Scope Z_scope.

(** ** What becomes of a record *)

(** The fields of the row are independent of each other. *)
Class TaxMasterLaws (A : Type) `{!TaxMaster A} : Prop := {
  status_of_approval x (a : A) : tm_status (tm_put_approval x a) = tm_status a;
  end_of_approval x (a : A) : tm_end (tm_put_approval x a) = tm_end a;
  end_of_status x (a : A) : tm_end (tm_put_status x a) = tm_end a;
  put_status_end x y (a : A) : tm_put_status x (tm_put_end y a) = tm_put_end y (tm_put_status x a);
  columns_keep (a : A) : tm_id (tm_columns a) = tm_id a ∧ tm_status (tm_columns a) = tm_status a ∧ tm_approval (tm_columns a) = tm_approval a
}.
#[global] Instance classification_laws : TaxMasterLaws TaxClassification.
Proof. by split. Qed.
#[global] Instance rule_laws : TaxMasterLaws TaxRule.
Proof. by split. Qed.
#[global] Instance registration_laws : TaxMasterLaws GstRegistration.
Proof. by split. Qed.
#[global] Instance settings_laws : TaxMasterLaws BusinessTaxSettings.
Proof. by split. Qed.

(** An end date is brought forward, if at all. *)
Definition end_ext (e e' : option (option Z)) : Prop :=
  match e, e' with
  | None, None => True
  | Some until, Some until' => match until, until' with None, _ => True | Some _, None => False | Some u, Some v => v ≤ u end
  | _, _ => False
  end.
#[export] Instance end_ext_refl : Reflexive end_ext.
Proof. by intros [[u|]|]; cbn. Qed.
#[export] Instance end_ext_trans : Transitive end_ext.
Proof. intros [[]|] [[]|] [[]|]; cbn; intros; try done. lia. Qed.

Definition kept (old new : option uuid) : Prop := new = None ∨ new = old.
#[export] Instance kept_refl : Reflexive kept.
Proof. by right. Qed.
#[export] Instance kept_trans : Transitive kept.
Proof. intros a b c [->| ->] [->| ->]; by (left + right). Qed.
Lemma reassigned_kept new old : reassigned new old = false → kept old new.
Proof. unfold reassigned, opt_eqb. intros [H|H]%andb_false_iff; apply negb_false_iff, bool_decide_eq_true in H; [by left|by right]. Qed.

Section master.
Context {A : Type} `{!TaxMaster A} `{!TaxMasterLaws A}.

(** Everything but the status, the end date and the people. *)
Definition core (a : A) : A := tm_put_end None (tm_put_status "" (without_actors a)).

Record master_ext (old new : A) : Prop := {
  me_id : tm_id new = tm_id old;
  me_status : tm_status old ≠ "draft" → tm_status new = tm_status old ∨ tm_status new = "retired";
  me_core : tm_status old ≠ "draft" → core new = core old;
  me_end : tm_status old ≠ "draft" → end_ext (tm_end old) (tm_end new);
  me_retired : tm_status old = "retired" → without_actors new = without_actors old;
  me_actors : tm_status old ≠ "draft" →
    kept (ap_created_by (tm_approval old)) (ap_created_by (tm_approval new)) ∧
    kept (ap_approved_by (tm_approval old)) (ap_approved_by (tm_approval new))
}.
#[global] Instance master_ext_refl : Reflexive master_ext.
Proof. intros a. split; intros; try done. by left. Qed.
#[global] Instance master_ext_trans : Transitive master_ext.
Proof.
  intros a b c H1 H2. assert (tm_status a ≠ "draft" → tm_status b ≠ "draft") as Hd.
  { intros Ha. by destruct (me_status _ _ H1 Ha) as [->| ->]. }
  split.
  - by rewrite (me_id _ _ H2), (me_id _ _ H1).
  - intros Ha. destruct (me_status _ _ H2 (Hd Ha)) as [->| ->]; [by apply me_status|by right].
  - intros Ha. by rewrite (me_core _ _ H2 (Hd Ha)), (me_core _ _ H1 Ha).
  - intros Ha. by etrans; [apply (me_end _ _ H1)|apply (me_end _ _ H2 (Hd Ha))].
  - intros Ha. rewrite (me_retired _ _ H2); [by apply (me_retired _ _ H1)|].
    assert (tm_status a ≠ "draft") as Hn by congruence. destruct (me_status _ _ H1 Hn); congruence.
  - intros Ha. destruct (me_actors _ _ H1 Ha), (me_actors _ _ H2 (Hd Ha)). split; by etrans.
Qed.

Lemma status_without_actors (a : A) : tm_status (without_actors a) = tm_status a.
Proof. apply status_of_approval. Qed.
Lemma end_without_actors (a : A) : tm_end (without_actors a) = tm_end a.
Proof. apply end_of_approval. Qed.
Lemma same_true f (new old : A) : same f new old = true → f (without_actors new) = f (without_actors old).
Proof. apply bool_decide_eq_true. Qed.

Definition actors_kept (old new : A) : Prop :=
  tm_status old ≠ "draft" →
  kept (ap_created_by (tm_approval old)) (ap_created_by (tm_approval new)) ∧
  kept (ap_approved_by (tm_approval old)) (ap_approved_by (tm_approval new)).
Lemma ext_intro (old new : A) :
  tm_id new = tm_id old → tm_status new = tm_status old ∨ tm_status new = "retired" → core new = core old →
  end_ext (tm_end old) (tm_end new) → (tm_status old = "retired" → without_actors new = without_actors old) → actors_kept old new →
  master_ext old new.
Proof. by split. Qed.
Lemma ext_same (old new : A) :
  tm_id new = tm_id old → without_actors new = without_actors old → actors_kept old new → master_ext old new.
Proof.
  intros Hid Hs Hk. pose proof (f_equal tm_status Hs) as H1. pose proof (f_equal tm_end Hs) as H2.
  rewrite !status_without_actors in H1. rewrite !end_without_actors in H2.
  apply ext_intro; [done|by left|unfold core; by rewrite Hs|by rewrite H2|done|done].
Qed.

(** What the trigger lets pass. *)
Lemma master_guard_ext (old new : A) :
  tm_id new = tm_id old → tm_status old ∈ STATUSES → tax_master_guard_update old new = None → master_ext old new.
Proof.
  intros Hid Hst Hg. unfold tax_master_guard_update in Hg. destruct (_ && _) eqn:Hact; [done|].
  assert (actors_kept old new) as Hkept.
  { intros Hn%String.eqb_neq. rewrite Hn in Hact. apply orb_false_iff in Hact as [? ?]. by split; apply reassigned_kept. }
  clear Hact. apply elem_of_cons in Hst as [Hst|Hst]; [|apply elem_of_cons in Hst as [Hst|Hst%list_elem_of_singleton]].
  - split; try done. intros; congruence.
  - rewrite Hst in Hg. cbn in Hg. destruct (String.eqb_spec (tm_status new) "retired") as [Hnew|_].
    + apply check_None, same_true in Hg. apply ext_intro; [done|by right|unfold core; by rewrite Hg| |congruence|done].
      pose proof (f_equal tm_end Hg) as He. rewrite !end_of_status, !end_without_actors in He. by rewrite He.
    + destruct (String.eqb_spec (tm_status new) "approved") as [Hnew|_]; [|done]. destruct (tm_end old) as [until|] eqn:Ho.
      1: destruct (tm_end new) as [until'|] eqn:Hn.
      1: { passed Hg. symmetry in Hg0, Hg1. apply check_None in Hg0, Hg1. apply same_true in Hg0.
           apply ext_intro; [done|left; congruence|unfold core; by rewrite <-!put_status_end, Hg0| |congruence|done].
           rewrite Ho, Hn. cbn. destruct until, until'; try done. by apply Z.leb_le. }
      all: apply check_None, same_true in Hg; by apply ext_same.
  - rewrite Hst in Hg. cbn in Hg. apply check_None, same_true in Hg. by apply ext_same.
Qed.
End master.

(** ** What the tables satisfy *)

Record TaxTables := MkTaxTables {
  x_classifications : gmap Z TaxClassification;
  x_rules : gmap Z TaxRule;
  x_registrations : gmap Z GstRegistration;
  x_settings : gmap Z BusinessTaxSettings
}.
Definition tax_of (d : DB) : TaxTables := MkTaxTables (d_classifications d) (d_rules d) (d_registrations d) (d_tax_settings d).

Definition approved_classification (t : TaxTables) (k : Z) : Prop :=
  ∃ c, x_classifications t !! k = Some c ∧ tc_status c = "approved".
Definition approved_registration (t : TaxTables) (k : Z) : Prop := ∃ g, x_registrations t !! k = Some g ∧ gr_status g = "approved".
Record tax_ok (t : TaxTables) : Prop := {
  tk_classifications : ∀ k c, x_classifications t !! k = Some c → tc_id c = k ∧ classifications_checks c = None;
  tk_rules : ∀ k r, x_rules t !! k = Some r → tr_id r = k ∧ rules_checks r = None;
  tk_registrations : ∀ k g, x_registrations t !! k = Some g → gr_id g = k ∧ registrations_checks g = None;
  tk_settings : ∀ k b, x_settings t !! k = Some b → ts_id b = k ∧ settings_checks b = None;
  tk_rule_classification : ∀ k r, x_rules t !! k = Some r → is_Some (x_classifications t !! tr_classification_id r);
  tk_settings_registration : ∀ k b, x_settings t !! k = Some b → is_Some (x_registrations t !! ts_registration_id b);
  tk_kind_code : ∀ j k x y, x_classifications t !! j = Some x → x_classifications t !! k = Some y →
    tc_kind x = tc_kind y → tc_code x = tc_code y → j = k;
  tk_gstin : ∀ j k x y, x_registrations t !! j = Some x → x_registrations t !! k = Some y → gr_gstin x = gr_gstin y → j = k;
  tk_rule_clash : ∀ j k x y, x_rules t !! j = Some x → x_rules t !! k = Some y → rule_clash x y = true → j = k;
  tk_settings_clash : ∀ j k x y, x_settings t !! j = Some x → x_settings t !! k = Some y → settings_clash x y = true → j = k;
  tk_rule_link : ∀ k r, x_rules t !! k = Some r → tr_status r = "approved" → approved_classification t (tr_classification_id r);
  tk_settings_link : ∀ k b, x_settings t !! k = Some b → ts_status b = "approved" → approved_registration t (ts_registration_id b)
}.

(** ** A write of one row *)

(** A unique key, or an exclusion constraint, was checked against the other rows. *)
Lemma clash_free_at {K} `{Countable K} {V} (other : V → bool) (clash : V → V → bool) (m : gmap K V) (i : K) (v : V) :
  (∀ k x, m !! k = Some x → k ≠ i → other x = true) → (∀ x y, clash x y = clash y x) →
  exists_row (λ x, other x && clash x v) m = false →
  (∀ j k x y, m !! j = Some x → m !! k = Some y → clash x y = true → j = k) →
  ∀ j k x y, <[i := v]> m !! j = Some x → <[i := v]> m !! k = Some y → clash x y = true → j = k.
Proof.
  intros Hother Hsym Hno Huniq. rewrite exists_row_false in Hno.
  assert (∀ j x, j ≠ i → m !! j = Some x → clash x v = true → False) as Hone.
  { intros j x Hj Hx Hc. specialize (Hno _ _ Hx). by rewrite (Hother _ _ Hx Hj), Hc in Hno. }
  intros j k x y [[<- <-]|[? Hx]]%lookup_insert_Some [[<- <-]|[? Hy]]%lookup_insert_Some Hc; [done|..|by eapply Huniq].
  - exfalso. rewrite Hsym in Hc. by apply (Hone k y).
  - exfalso. by apply (Hone j x).
Qed.
Lemma clash_free_insert {V} (ident : V → Z) (clash : V → V → bool) (m : gmap Z V) (v : V) :
  (∀ k x, m !! k = Some x → ident x = k) → (∀ x y, clash x y = clash y x) →
  exists_row (λ x, negb (ident x =? ident v) && clash x v) m = false →
  (∀ j k x y, m !! j = Some x → m !! k = Some y → clash x y = true → j = k) →
  ∀ j k x y, <[ident v := v]> m !! j = Some x → <[ident v := v]> m !! k = Some y → clash x y = true → j = k.
Proof.
  intros Hkeys. apply clash_free_at. intros k x Hx Hne. apply negb_true_iff, Z.eqb_neq. by rewrite (Hkeys _ _ Hx).
Qed.

Lemma before_sym from until from' until' : ranges_overlap from until from' until' = ranges_overlap from' until' from until.
Proof. unfold ranges_overlap. apply andb_comm. Qed.
Lemma rule_clash_sym x y : rule_clash x y = rule_clash y x.
Proof.
  unfold rule_clash. rewrite before_sym, (Z.eqb_sym (tr_classification_id x)).
  by rewrite (andb_comm (String.eqb (tr_status x) _)).
Qed.
Lemma settings_clash_sym x y : settings_clash x y = settings_clash y x.
Proof. unfold settings_clash. rewrite before_sym. by rewrite (andb_comm (String.eqb (ts_status x) _)). Qed.

Definition kind_code_same (x y : TaxClassification) : bool := String.eqb (tc_kind x) (tc_kind y) && String.eqb (tc_code x) (tc_code y).
Lemma kind_code_sym x y : kind_code_same x y = kind_code_same y x.
Proof. unfold kind_code_same. by rewrite String.eqb_sym, (String.eqb_sym (tc_code x)). Qed.

Ltac constraints_passed H :=
  passed H; repeat match goal with Hg : None = check _ _ |- _ => symmetry in Hg; apply check_None in Hg end.
Ltac lookup_cases := intros [[<- <-]|[? ?]]%lookup_insert_Some.

Section writes.
Context (d : DB) (Hok : tax_ok (tax_of d)).

Lemma ok_classification c :
  classifications_constraints d c = None →
  (tc_status c ≠ "approved" → ∀ k r, d_rules d !! k = Some r → tr_classification_id r = tc_id c → tr_status r ≠ "approved") →
  tax_ok (tax_of (d <| d_classifications ::= <[tc_id c := c]> |>)).
Proof.
  intros Hc Hlink. unfold classifications_constraints in Hc. constraints_passed Hc. apply negb_true_iff in Hg0. destruct Hok. split; cbn; try done.
  - intros k x; lookup_cases; [done|by apply tk_classifications0].
  - intros k r Hr. apply lookup_insert_is_Some'. right. by eapply tk_rule_classification0.
  - intros j k x y Hj Hk H1 H2. refine (clash_free_insert tc_id kind_code_same _ c _ kind_code_sym _ _ j k x y Hj Hk _).
    + intros i z Hz. by apply tk_classifications0.
    + rewrite exists_row_false in Hg0 |- *. intros i z Hz. unfold kind_code_same. rewrite andb_assoc. by eapply Hg0.
    + intros i i' z z' Hz Hz' [?%String.eqb_eq ?%String.eqb_eq]%andb_true_iff. by apply (tk_kind_code0 i i' z z').
    + unfold kind_code_same. by rewrite H1, H2, !String.eqb_refl.
  - intros k r Hr Ha. destruct (tk_rule_link0 _ _ Hr Ha) as (x & Hx & Hxa). destruct (decide (tr_classification_id r = tc_id c)) as [Heq|Hne].
    + exists c. rewrite Heq. cbn. rewrite lookup_insert_eq. split; [done|].
      destruct (decide (tc_status c = "approved")); [done|]. exfalso. by eapply Hlink.
    + exists x. cbn. by rewrite lookup_insert_ne.
Qed.

Lemma ok_rule r :
  rules_constraints d r = None → (tr_status r = "approved" → approved_classification (tax_of d) (tr_classification_id r)) →
  tax_ok (tax_of (d <| d_rules ::= <[tr_id r := r]> |>)).
Proof.
  intros Hc Hlink. unfold rules_constraints in Hc. constraints_passed Hc. apply negb_true_iff in Hg0. apply bool_decide_eq_true in Hg1.
  destruct Hok. split; cbn; try done.
  - intros k x; lookup_cases; [done|by apply tk_rules0].
  - intros k x; lookup_cases; [done|by eapply tk_rule_classification0].
  - refine (clash_free_insert tr_id rule_clash _ r _ rule_clash_sym Hg0 tk_rule_clash0). intros i z Hz. by apply tk_rules0.
  - intros k x; lookup_cases; [exact Hlink|by eapply tk_rule_link0].
Qed.

Lemma ok_registration g :
  registrations_constraints d g = None →
  (gr_status g ≠ "approved" → ∀ k b, d_tax_settings d !! k = Some b → ts_registration_id b = gr_id g → ts_status b ≠ "approved") →
  tax_ok (tax_of (d <| d_registrations ::= <[gr_id g := g]> |>)).
Proof.
  intros Hc Hlink. unfold registrations_constraints in Hc. constraints_passed Hc. apply negb_true_iff in Hg0. destruct Hok. split; cbn; try done.
  - intros k x; lookup_cases; [done|by apply tk_registrations0].
  - intros k b Hb. apply lookup_insert_is_Some'. right. by eapply tk_settings_registration0.
  - intros j k x y Hj Hk He.
    refine (clash_free_insert gr_id (λ a b, String.eqb (gr_gstin a) (gr_gstin b)) _ g _ _ Hg0 _ j k x y Hj Hk (proj2 (String.eqb_eq _ _) He)).
    + intros i z Hz. by apply tk_registrations0.
    + intros a b. apply String.eqb_sym.
    + intros i i' z z' Hz Hz' ?%String.eqb_eq. by apply (tk_gstin0 i i' z z').
  - intros k b Hb Ha. destruct (tk_settings_link0 _ _ Hb Ha) as (x & Hx & Hxa). destruct (decide (ts_registration_id b = gr_id g)) as [Heq|Hne].
    + exists g. rewrite Heq. cbn. rewrite lookup_insert_eq. split; [done|].
      destruct (decide (gr_status g = "approved")); [done|]. exfalso. by eapply Hlink.
    + exists x. cbn. by rewrite lookup_insert_ne.
Qed.

Lemma ok_settings b :
  settings_constraints d b = None → (ts_status b = "approved" → approved_registration (tax_of d) (ts_registration_id b)) →
  tax_ok (tax_of (d <| d_tax_settings ::= <[ts_id b := b]> |>)).
Proof.
  intros Hc Hlink. unfold settings_constraints in Hc. constraints_passed Hc. apply negb_true_iff in Hg0. apply bool_decide_eq_true in Hg1.
  destruct Hok. split; cbn; try done.
  - intros k x; lookup_cases; [done|by apply tk_settings0].
  - intros k x; lookup_cases; [done|by eapply tk_settings_registration0].
  - refine (clash_free_insert ts_id settings_clash _ b _ settings_clash_sym Hg0 tk_settings_clash0). intros i z Hz. by apply tk_settings0.
  - intros k x; lookup_cases; [exact Hlink|by eapply tk_settings_link0].
Qed.
End writes.
