(* ===== verification/GatewayGuards.v ===== *)
(** * What the database accepts of payment gateways, and the statements sent to it

    The providers the platform knows ([core/payments/registry.py]); the rows of [payments/models/provider_config.py] and
    [payments/models/payment_settings.py] with their constraints and the statements of
    [payments/repositories/provider_config_repository.py]. [gateways_ok] is what every committed set of gateways satisfies:
    the constraints, and what the services add to them. *)

From S2P Require Import Prelude Decimal Errors Money Schema Guards CatalogueGuards TaxGuards TaxOk.

Local Open Scope string_scope.
Local Open Scope list_scope.
Local Open Scope Z_scope.

(** ** The registry *)

Record ProviderSpec := MkSpec {
  sp_name : string; sp_label : string; sp_currencies : list string; sp_supports_cancel : bool; sp_supports_full_refund : bool;
  sp_refund_needs_provider_reference : bool; sp_dispute_events : bool; sp_signature_header : string; sp_webhook_events : list string;
  sp_credential_fields : list string; sp_verification : string }.
Definition verified_currencies : list string := map code (List.filter payment_verified CURRENCIES).
Definition MODES : list string := ["test"; "live"].
(** [SPECS], without the factories of the adapters, in the order of the dictionary *)
Definition SPECS : list ProviderSpec :=
  [ MkSpec "demo" "Demo gateway (no real money)" verified_currencies true true false false "x-demo-signature"
      ["payment_intent.succeeded"; "payment_intent.payment_failed"] []
      "a built-in simulator: it never contacts a real gateway, never moves real money and never receives real card details";
    MkSpec "stripe" "Stripe" verified_currencies true true false true "stripe-signature"
      ["payment_intent.succeeded"; "payment_intent.payment_failed"; "refund.updated"; "refund.created"; "charge.dispute.created";
       "charge.dispute.updated"; "charge.dispute.closed"] ["secret_key"]
      "signature verification and parsing verified with real signatures; outbound API calls not verified against Stripe";
    MkSpec "razorpay" "Razorpay" ["inr"] false true true false "x-razorpay-signature"
      ["payment.captured"; "payment.failed"; "refund.processed"; "refund.failed"] ["key_id"; "key_secret"]
      "adapter tested with mocked HTTP only; not verified against Razorpay's sandbox or official documentation" ].
Definition get_spec (provider : string) : option ProviderSpec := List.find (λ spec, String.eqb (sp_name spec) provider) SPECS.

(** [set(config.currencies) & spec.currencies], in the order of the configuration *)
Definition enabled_currencies (spec : ProviderSpec) (config : PaymentProviderConfig) : list string :=
  filter (λ c, c ∈ sp_currencies spec) (cf_currencies config).

(** ** The constraints *)

Definition is_lower (c : Ascii.ascii) : bool := let n := Ascii.nat_of_ascii c in ((97 <=? n) && (n <=? 122))%nat.
(** [^[a-z][a-z0-9_]{1,29}$] *)
Definition provider_format (s : string) : bool :=
  match String.list_ascii_of_string s with
  | [] => false
  | c :: rest => is_lower c && forallb (λ c, is_lower c || is_digit c || Ascii.eqb c "_") rest
                 && ((1 <=? length rest) && (length rest <=? 29))%nat
  end.
Definition live_enabled (c : PaymentProviderConfig) : bool := String.eqb (cf_mode c) "live" && String.eqb (cf_status c) "enabled".
Definition present {A} (o : option A) : bool := match o with Some _ => true | None => false end.
Definition configs_checks (c : PaymentProviderConfig) : option string :=
  first_violation [
    check (negb (String.eqb (cf_status c) "enabled") || String.eqb (cf_credentials_status c) "valid" && present (cf_credentials_ciphertext c))
      "ck_provider_configs_enabled_valid";
    check (bool_decide (cf_credentials_status c ∈ ["unvalidated"; "valid"; "invalid"])) "ck_provider_configs_cred_status";
    check (negb (String.eqb (cf_provider c) "demo") || String.eqb (cf_mode c) "test") "ck_provider_configs_demo_is_test";
    check (negb (live_enabled c) || String.eqb (cf_webhook_status c) "verified" && present (cf_sandbox_verified_at c)
             && present (cf_production_review_at c)) "ck_provider_configs_live_requirements";
    check (bool_decide (cf_mode c ∈ MODES)) "ck_provider_configs_mode";
    check (negb (cf_is_preferred c) || String.eqb (cf_status c) "enabled") "ck_provider_configs_preferred_enabled";
    check (provider_format (cf_provider c)) "ck_provider_configs_provider";
    check (bool_decide (cf_status c ∈ ["draft"; "enabled"; "disabled"])) "ck_provider_configs_status";
    check (bool_decide (cf_webhook_status c ∈ ["unverified"; "verified"])) "ck_provider_configs_webhook_status"].
(** [uq_provider_configs_provider_mode] and the partial index on the preferred rows *)
Definition config_same (x c : PaymentProviderConfig) : bool :=
  String.eqb (cf_provider x) (cf_provider c) && String.eqb (cf_mode x) (cf_mode c).
Definition config_clash (x c : PaymentProviderConfig) : bool := cf_is_preferred x && cf_is_preferred c.
Definition user_exists (d : DB) (u : option uuid) : bool := match u with Some u => bool_decide (is_Some (d_users d !! u)) | None => true end.
Definition configs_constraints (d : DB) (c : PaymentProviderConfig) : option string :=
  first_violation [
    configs_checks c;
    check (negb (exists_row (λ x, negb (String.eqb (cf_id x) (cf_id c)) && config_same x c) (d_configs d))) "uq_provider_configs_provider_mode";
    check (negb (exists_row (λ x, negb (String.eqb (cf_id x) (cf_id c)) && config_clash x c) (d_configs d)))
      "ux_provider_configs_one_preferred";
    check (user_exists d (cf_created_by_user_id c) && user_exists d (cf_updated_by_user_id c)) "payment_provider_configs_user_id_fkey"].

(** [String(20)] and [String(100)]: a longer text is a data error, not an integrity error. *)
Definition column_fits (n : nat) (text : option string) : bool := match text with Some t => (String.length t <=? n)%nat | None => true end.
Definition columns_fit (c : PaymentProviderConfig) : bool :=
  column_fits 20 (cf_credential_hint c) && column_fits 100 (cf_public_identifier c) && column_fits 20 (cf_webhook_hint c).

(** ** The statements *)

Definition insert_config (c : PaymentProviderConfig) : M unit :=
  d ← gets st_db;
  _ ← raise_if (negb (columns_fit c)) TOO_LONG;
  _ ← guard (first_violation [check (bool_decide (d_configs d !! cf_id c = None)) "payment_provider_configs_pkey"; configs_constraints d c]);
  upd (λ d, d <| d_configs ::= <[cf_id c := c]> |>).
(** [save]: the UPDATE of a row that was read, with the attributes it has now *)
Definition save_config (c : PaymentProviderConfig) : M unit :=
  d ← gets st_db;
  _ ← of_option (d_configs d !! cf_id c) (RuntimeError "StaleDataError");
  _ ← raise_if (negb (columns_fit c)) TOO_LONG;
  _ ← guard (configs_constraints d c);
  upd (λ d, d <| d_configs ::= <[cf_id c := c]> |>).
(** [UPDATE ... SET is_preferred = false WHERE is_preferred] *)
Definition unprefer (c : PaymentProviderConfig) : PaymentProviderConfig := c <| cf_is_preferred := false |>.
Definition clear_preferred : M unit := upd (λ d, d <| d_configs ::= fmap unprefer |>).

(** The settings row: inserted when there is none, then updated. *)
Definition default_payment_settings : PaymentSettings := MkPaymentSettings false None None None None None.
Definition ensure_payment_settings : M unit :=
  upd (λ d, d <| d_payment_settings ::= λ p, Some (default default_payment_settings p) |>).
Definition save_payment_settings (p : PaymentSettings) : M unit :=
  d ← gets st_db;
  _ ← of_option (d_payment_settings d) (RuntimeError "StaleDataError");
  _ ← guard (first_violation [
    check (user_exists d (ps_live_activated_by_user_id p)) "payment_settings_live_activated_by_user_id_fkey";
    check (match ps_live_activated_config_id p with Some k => bool_decide (is_Some (d_configs d !! k)) | None => true end)
      "payment_settings_live_activated_config_id_fkey"]);
  upd (λ d, d <| d_payment_settings := Some p |>).
(** [PaymentSettingsRepository.live_active] *)
Definition live_active (d : DB) : bool := match d_payment_settings d with Some p => ps_live_payments_active p | None => false end.

(** ** Well-formed gateways *)

(** What a gateway keeps; its secrets only change with its version. *)
Record config_ext (c c' : PaymentProviderConfig) : Prop := {
  ce_facts : (cf_id c', cf_provider c', cf_mode c', cf_created_by_user_id c') = (cf_id c, cf_provider c, cf_mode c, cf_created_by_user_id c);
  ce_version : cf_version c ≤ cf_version c';
  ce_secrets : cf_version c' = cf_version c →
    (cf_credentials_ciphertext c', cf_webhook_secret_ciphertext c') = (cf_credentials_ciphertext c, cf_webhook_secret_ciphertext c)
}.
#[global] Instance config_ext_refl : Reflexive config_ext.
Proof. intros c. split; [done|lia|done]. Qed.
#[global] Instance config_ext_trans : Transitive config_ext.
Proof.
  intros a b c [H1 H2 H3] [H4 H5 H6]. split; [congruence|lia|]. intros Heq. rewrite H6, H3 by lia. done.
Qed.

(** What the services make sure of and the database does not check. *)
Record config_sound (c : PaymentProviderConfig) : Prop := {
  cs_known : ∃ spec, get_spec (cf_provider c) = Some spec ∧ cf_currencies c ⊆ sp_currencies spec;
  cs_currency : cf_status c = "enabled" → cf_currencies c ≠ [];
  cs_reviewed : cf_production_review_at c ≠ None → cf_sandbox_verified_at c ≠ None;
  cs_webhook : cf_webhook_status c = "verified" → cf_webhook_secret_ciphertext c ≠ None ∧ cf_webhook_secret_ciphertext c ≠ Some "";
  cs_previous : cf_previous_webhook_secret_ciphertext c ≠ None →
    cf_webhook_secret_ciphertext c ≠ None ∧ cf_webhook_secret_ciphertext c ≠ Some ""
}.
Record gateways_ok (configs : gmap uuid PaymentProviderConfig) : Prop := {
  gk_row k c : configs !! k = Some c → cf_id c = k ∧ configs_checks c = None ∧ config_sound c;
  gk_mode j k x y : configs !! j = Some x → configs !! k = Some y → config_same x y = true → j = k;
  gk_preferred j k x y : configs !! j = Some x → configs !! k = Some y → config_clash x y = true → j = k
}.
(** Live payments are activated by someone, for a live gateway. *)
Definition settings_ok (configs : gmap uuid PaymentProviderConfig) (p : PaymentSettings) : Prop :=
  ps_live_payments_active p = true →
  is_Some (ps_live_activated_at p) ∧ is_Some (ps_live_activated_by_user_id p) ∧
  ∃ k c, ps_live_activated_config_id p = Some k ∧ configs !! k = Some c ∧ cf_mode c = "live".

Lemma config_same_sym x y : config_same x y = config_same y x.
Proof. unfold config_same. by rewrite String.eqb_sym, (String.eqb_sym (cf_mode x)). Qed.
Lemma config_clash_sym x y : config_clash x y = config_clash y x.
Proof. apply andb_comm. Qed.
Lemma ok_config d c :
  gateways_ok (d_configs d) → configs_constraints d c = None → config_sound c → gateways_ok (<[cf_id c := c]> (d_configs d)).
Proof.
  intros [Hrow Hmode Hpref] Hc Hs. unfold configs_constraints in Hc. constraints_passed Hc. apply negb_true_iff in Hg0, Hg1.
  assert (∀ k x, d_configs d !! k = Some x → k ≠ cf_id c → negb (String.eqb (cf_id x) (cf_id c)) = true) as Hother.
  { intros k x Hx Hne. destruct (Hrow _ _ Hx) as [Hid _]. apply negb_true_iff, String.eqb_neq. by rewrite Hid. }
  split.
  - intros k x; lookup_cases; [done|by apply Hrow].
  - exact (clash_free_at _ config_same _ _ _ Hother config_same_sym Hg0 Hmode).
  - exact (clash_free_at _ config_clash _ _ _ Hother config_clash_sym Hg1 Hpref).
Qed.
Lemma ok_unprefer m : gateways_ok m → gateways_ok (unprefer <$> m).
Proof.
  intros [Hrow Hmode Hpref]. split.
  - intros k c Hk. rewrite lookup_fmap in Hk. destruct (m !! k) as [x|] eqn:Hx; [|done]. injection Hk as <-.
    destruct (Hrow _ _ Hx) as (Hid & Hc & []). split; [done|]. split; [|by split].
    unfold configs_checks in *. passed Hc. rewrite first_violation_None. repeat constructor; cbn; done.
  - intros j k x y. rewrite !lookup_fmap. destruct (m !! j) as [u|] eqn:Hj, (m !! k) as [v|] eqn:Hk; cbn; intros [= <-] [= <-]; try done.
    exact (Hmode j k u v Hj Hk).
  - intros j k x y. rewrite !lookup_fmap. destruct (m !! j), (m !! k); cbn; intros [= <-] [= <-]; done.
Qed.

(** *** What a row that passed tells *)

Section row.
Context (c : PaymentProviderConfig) (Hc : configs_checks c = None).

Lemma enabled_valid : cf_status c = "enabled" → cf_credentials_status c = "valid" ∧ cf_credentials_ciphertext c ≠ None.
Proof.
  intros He. unfold configs_checks in Hc. constraints_passed Hc. rewrite He in Hg. cbn in Hg. apply andb_true_iff in Hg as [Hv%String.eqb_eq Hp].
  split; [done|]. by destruct (cf_credentials_ciphertext c).
Qed.
Lemma preferred_enabled : cf_is_preferred c = true → cf_status c = "enabled".
Proof. intros Hp. unfold configs_checks in Hc. constraints_passed Hc. rewrite Hp in Hg4. by apply String.eqb_eq. Qed.
Lemma demo_is_test : cf_provider c = "demo" → cf_mode c = "test".
Proof. intros Hp. unfold configs_checks in Hc. constraints_passed Hc. rewrite Hp in Hg1. by apply String.eqb_eq. Qed.
Lemma live_requirements : cf_mode c = "live" → cf_status c = "enabled" →
  cf_webhook_status c = "verified" ∧ cf_sandbox_verified_at c ≠ None ∧ cf_production_review_at c ≠ None.
Proof.
  intros Hm He. unfold configs_checks in Hc. constraints_passed Hc. unfold live_enabled in Hg2. rewrite Hm, He in Hg2. cbn in Hg2.
  apply andb_true_iff in Hg2 as [[Hw%String.eqb_eq H1]%andb_true_iff H2]. split; [done|].
  by destruct (cf_sandbox_verified_at c), (cf_production_review_at c).
Qed.
End row.
