(* ===== verification/CatalogueOk.v ===== *)
(** * A well-formed catalogue

    [catalogue_ok] says what every committed catalogue satisfies, read off the constraints and triggers: prices and option
    counts in range, stock of its own only without options, price-range columns that equal the range of the active variants,
    SKUs and slugs unique, every variant a complete and unique combination of values of its product's options. It speaks of
    four tables only; the lemmas say how each kind of write keeps it. *)

From S2P Require Import Prelude Errors Schema Guards CatalogueGuards.

Local Open Scope string_scope.
Local Open Scope list_scope.
Local Open Scope Z_scope.

(** ** The tables and the rules *)

Record Catalogue := MkCatalogue {
  c_products : gmap Z Product;
  c_variants : gmap Z ProductVariant;
  c_options : gmap Z ProductOption;
  c_categories : gmap Z Category
}.
Definition catalogue_of (d : DB) : Catalogue := MkCatalogue (d_products d) (d_variants d) (d_options d) (d_categories d).

(** The SKU a product ([inl]) or a variant ([inr]) takes. *)
Definition sku_of (c : Catalogue) (i : Z + Z) : option string :=
  match i with
  | inl k => (λ p, sku_norm (p_sku p)) <$> c_products c !! k
  | inr k => (λ v, sku_norm (pv_sku v)) <$> c_variants c !! k
  end.

Record product_ok (c : Catalogue) (k : Z) (p : Product) : Prop := {
  po_key : p_id p = k;
  po_price : 0 < p_price_cents p;
  po_count : 0 ≤ p_option_count p ≤ 3;
  po_stock : p_option_count p ≠ 0 → p_stock p = 0;
  po_range : (p_price_from p, p_price_to p) = product_price_range (c_variants c) k (p_price_cents p) (p_option_count p);
  po_category : is_Some (c_categories c !! p_category_id p)
}.
Record variant_ok (c : Catalogue) (k : Z) (v : ProductVariant) : Prop := {
  vo_key : pv_id v = k;
  vo_price : ∀ x, pv_price_override_cents v = Some x → 0 < x;
  vo_product : ∃ p, c_products c !! pv_product_id v = Some p ∧ p_option_count p = pv_option_count v;
  vo_count : 1 ≤ pv_option_count v ≤ 3;
  vo_complete : (is_Some (pv_value1_id v) ↔ 1 ≤ pv_option_count v) ∧ (is_Some (pv_value2_id v) ↔ 2 ≤ pv_option_count v) ∧
    (is_Some (pv_value3_id v) ↔ 3 ≤ pv_option_count v);
  vo_slots : slot_ok (c_options c) (pv_product_id v) 1 (pv_value1_id v) = true ∧
    slot_ok (c_options c) (pv_product_id v) 2 (pv_value2_id v) = true ∧ slot_ok (c_options c) (pv_product_id v) 3 (pv_value3_id v) = true
}.
Record option_ok (c : Catalogue) (k : Z) (o : ProductOption) : Prop := {
  oo_key : po_id o = k;
  oo_product : is_Some (c_products c !! po_product_id o);
  oo_position : 1 ≤ po_position o ≤ 3;
  oo_values : NoDup (map fst (po_values o)) ∧ NoDup (map (λ x, py_lower x.2) (po_values o))
}.

Record catalogue_ok (c : Catalogue) : Prop := {
  ct_products : ∀ k p, c_products c !! k = Some p → product_ok c k p;
  ct_variants : ∀ k v, c_variants c !! k = Some v → variant_ok c k v;
  ct_options : ∀ k o, c_options c !! k = Some o → option_ok c k o;
  ct_categories : ∀ k x, c_categories c !! k = Some x → cat_id x = k;
  ct_slugs : ∀ j k p q, c_products c !! j = Some p → c_products c !! k = Some q → p_slug p = p_slug q → j = k;
  ct_skus : ∀ i j s, sku_of c i = Some s → sku_of c j = Some s → i = j;
  ct_combos : ∀ j k v w, c_variants c !! j = Some v → c_variants c !! k = Some w → combo_of v = combo_of w → j = k;
  ct_positions : ∀ j k o q, c_options c !! j = Some o → c_options c !! k = Some q → po_product_id o = po_product_id q →
    po_position o = po_position q ∨ py_lower (po_name o) = py_lower (po_name q) → j = k;
  ct_values : ∀ j k o q i, c_options c !! j = Some o → c_options c !! k = Some q → i ∈ map fst (po_values o) → i ∈ map fst (po_values q) → j = k;
  ct_cat_names : ∀ j k x y, c_categories c !! j = Some x → c_categories c !! k = Some y →
    cat_name x = cat_name y ∨ cat_slug x = cat_slug y → j = k
}.

(** ** Price ranges *)

Lemma min_elem x l : foldr Z.min x l ∈ x :: l ∧ ∀ y, y ∈ x :: l → foldr Z.min x l ≤ y.
Proof.
  induction l as [|z l [IH1 IH2]]; cbn; [split; [left|by intros y ->%list_elem_of_singleton]|]. split.
  - destruct (Z.min_spec z (foldr Z.min x l)) as [[_ ->]|[_ ->]]; [set_solver|]. apply elem_of_cons in IH1 as [->|]; set_solver.
  - intros y [->|[->|Hy]%elem_of_cons]%elem_of_cons; [specialize (IH2 x ltac:(left))|..|specialize (IH2 y ltac:(set_solver))]; lia.
Qed.
Lemma max_elem x l : foldr Z.max x l ∈ x :: l ∧ ∀ y, y ∈ x :: l → y ≤ foldr Z.max x l.
Proof.
  induction l as [|z l [IH1 IH2]]; cbn; [split; [left|by intros y ->%list_elem_of_singleton]|]. split.
  - destruct (Z.max_spec z (foldr Z.max x l)) as [[_ ->]|[_ ->]]; [apply elem_of_cons in IH1 as [->|]; set_solver|set_solver].
  - intros y [->|[->|Hy]%elem_of_cons]%elem_of_cons; [specialize (IH2 x ltac:(left))|..|specialize (IH2 y ltac:(set_solver))]; lia.
Qed.
Lemma active_prices_elem vs pid base x :
  x ∈ active_prices vs pid base ↔
  ∃ k v, vs !! k = Some v ∧ pv_product_id v = pid ∧ pv_active v = true ∧ x = default base (pv_price_override_cents v).
Proof.
  unfold active_prices. rewrite list_elem_of_fmap. setoid_rewrite list_elem_of_filter. split.
  - intros (v & -> & Hp & ([k w] & -> & Hk%elem_of_map_to_list)%list_elem_of_fmap). apply Is_true_true, andb_true_iff in Hp as [Hp%Z.eqb_eq ?].
    by exists k, w.
  - intros (k & v & Hk & Hp & Ha & ->). exists v. rewrite Is_true_true, andb_true_iff, Z.eqb_eq. split_and!; [done..|].
    apply list_elem_of_fmap. exists (k, v). by rewrite elem_of_map_to_list.
Qed.
(** The range depends on the set of prices only. *)
Lemma range_same vs vs' pid base n :
  (∀ x, x ∈ active_prices vs pid base ↔ x ∈ active_prices vs' pid base) →
  product_price_range vs pid base n = product_price_range vs' pid base n.
Proof.
  intros Heq. unfold product_price_range. destruct (n =? 0); [done|].
  destruct (active_prices vs pid base) as [|x l] eqn:E, (active_prices vs' pid base) as [|y k] eqn:E'; [done|..].
  - exfalso. assert (y ∈ []) as Hn%elem_of_nil by (apply Heq; left). done.
  - exfalso. assert (x ∈ []) as Hn%elem_of_nil by (apply Heq; left). done.
  - destruct (min_elem x l) as [Hm1 Hm2], (min_elem y k) as [Hm3 Hm4], (max_elem x l) as [Hx1 Hx2], (max_elem y k) as [Hx3 Hx4].
    f_equal; apply Z.le_antisymm; eauto using (λ z, proj1 (Heq z)), (λ z, proj2 (Heq z)).
    + apply Hm2. by apply Heq.
    + apply Hm4. by apply Heq.
    + apply Hx4. by apply Heq.
    + apply Hx2. by apply Heq.
Qed.
Lemma range_other vs k v pid base n :
  (∀ w, vs !! k = Some w → pv_product_id w ≠ pid) → pv_product_id v ≠ pid →
  product_price_range (<[k := v]> vs) pid base n = product_price_range vs pid base n.
Proof.
  intros Hk Hv. apply range_same. intros x. rewrite !active_prices_elem. split; intros (j & w & Hj & Hp & Hrest).
  - apply lookup_insert_Some in Hj as [[<- <-]|[? ?]]; [done|]. by exists j, w.
  - exists j, w. rewrite lookup_insert_ne; [done|]. intros ->. by apply (Hk _ Hj).
Qed.
Lemma range_delete vs k pid base n :
  (∀ w, vs !! k = Some w → pv_product_id w ≠ pid) →
  product_price_range (delete k vs) pid base n = product_price_range vs pid base n.
Proof.
  intros Hk. apply range_same. intros x. rewrite !active_prices_elem. split; intros (j & w & Hj & Hp & Hrest).
  - apply lookup_delete_Some in Hj as [? ?]. by exists j, w.
  - exists j, w. rewrite lookup_delete_ne; [done|]. intros ->. by apply (Hk _ Hj).
Qed.
(** A variant rewritten with its price and status. *)
Lemma range_stock vs k v v' pid base n :
  vs !! k = Some v → (pv_product_id v', pv_active v', pv_price_override_cents v') = (pv_product_id v, pv_active v, pv_price_override_cents v) →
  product_price_range (<[k := v']> vs) pid base n = product_price_range vs pid base n.
Proof.
  intros Hv [= Hp Ha Hc]. apply range_same. intros x. rewrite !active_prices_elem. split; intros (j & w & Hj & Q1 & Q2 & ->).
  - apply lookup_insert_Some in Hj as [[<- <-]|[? ?]]; [|by exists j, w]. exists k, v. rewrite Hc, Hp in *. rewrite Ha in *. done.
  - destruct (decide (j = k)) as [->|]; [|exists j, w; by rewrite lookup_insert_ne]. exists k, v'. rewrite lookup_insert_eq. simplify_eq.
    rewrite Hc. split_and!; congruence.
Qed.

(** ** SKUs *)

Definition skus_unique (c : Catalogue) : Prop := ∀ i j s, sku_of c i = Some s → sku_of c j = Some s → i = j.
Lemma skus_sub c c' : (∀ i s, sku_of c' i = Some s → sku_of c i = Some s) → skus_unique c → skus_unique c'.
Proof. intros Hs Hu i j s Hi Hj. eapply Hu; by apply Hs. Qed.
Lemma skus_fresh c c' i s :
  (∀ j, j ≠ i → sku_of c' j = sku_of c j) → sku_of c' i = Some s → (∀ j, sku_of c j ≠ Some s) → skus_unique c → skus_unique c'.
Proof.
  intros Hsame Hi Hfresh Hu j k x Hj Hk. destruct (decide (j = i)) as [->|Q1], (decide (k = i)) as [->|Q2]; [done|..|].
  - rewrite Hsame in Hk by done. simplify_eq. by apply Hfresh in Hk.
  - rewrite Hsame in Hj by done. simplify_eq. by apply Hfresh in Hj.
  - rewrite Hsame in Hj, Hk by done. by eapply Hu.
Qed.
Lemma sku_unregistered d s : sku_registered d s = false → ∀ j, sku_of (catalogue_of d) j ≠ Some s.
Proof.
  unfold sku_registered. intros [Hp Hv]%orb_false_iff [k|k]; cbn; intros (x & Hk & Hs)%fmap_Some; rewrite exists_row_false in Hp; rewrite exists_row_false in Hv.
  - specialize (Hp _ _ Hk). cbn in Hp. by rewrite <-Hs, String.eqb_refl in Hp.
  - specialize (Hv _ _ Hk). cbn in Hv. by rewrite <-Hs, String.eqb_refl in Hv.
Qed.

(** ** Writes that keep the catalogue well-formed *)

(** A category. *)
Lemma ok_category c k x :
  catalogue_ok c → cat_id x = k →
  (∀ j y, j ≠ k → c_categories c !! j = Some y → cat_name y ≠ cat_name x ∧ cat_slug y ≠ cat_slug x) →
  catalogue_ok (MkCatalogue (c_products c) (c_variants c) (c_options c) (<[k := x]> (c_categories c))).
Proof.
  intros [] Hid Hnew. split; cbn; try done.
  - intros j p Hj. destruct (ct_products0 _ _ Hj) as [? ? ? ? ? Hcat]. split; cbn; try done. rewrite lookup_insert. case_decide; [by eexists|done].
  - intros j v Hj. destruct (ct_variants0 _ _ Hj). by split.
  - intros j o Hj. destruct (ct_options0 _ _ Hj). by split.
  - intros j y [[<- <-]|[_ Hj]]%lookup_insert_Some; [done|by apply ct_categories0].
  - intros j l y z [[<- <-]|[Hne Hj]]%lookup_insert_Some [[<- <-]|[Hne' Hl]]%lookup_insert_Some Heq; [done|..].
    + destruct (Hnew l z) as [Q1 Q2]; [done..|]. destruct Heq as [Heq|Heq]; congruence.
    + destruct (Hnew j y) as [Q1 Q2]; [done..|]. destruct Heq as [Heq|Heq]; congruence.
    + by eapply ct_cat_names0.
Qed.

(** A product, new or rewritten: its number of options changes only while it has no variants. *)
Lemma ok_product c k p :
  catalogue_ok c → product_ok c k p →
  (∀ q, c_products c !! k = Some q → sku_norm (p_sku p) = sku_norm (p_sku q) ∧
     (p_option_count p = p_option_count q ∨ ∀ j v, c_variants c !! j = Some v → pv_product_id v ≠ k)) →
  (c_products c !! k = None → ∀ j, sku_of c j ≠ Some (sku_norm (p_sku p))) →
  (∀ j q, j ≠ k → c_products c !! j = Some q → p_slug q ≠ p_slug p) →
  catalogue_ok (MkCatalogue (<[k := p]> (c_products c)) (c_variants c) (c_options c) (c_categories c)).
Proof.
  intros HC [] Hold Hnew Hslug. pose proof HC as []. split; cbn.
  - intros j q [[<- <-]|[_ Hj]]%lookup_insert_Some; [by split|]. destruct (ct_products0 _ _ Hj). by split.
  - intros j v Hj. destruct (ct_variants0 _ _ Hj) as [? ? (q & Hq & Hn) ? ? ?]. split; cbn; try done.
    destruct (decide (pv_product_id v = k)) as [Heq|]; [|exists q; by rewrite lookup_insert_ne].
    exists p. rewrite Heq, lookup_insert_eq. split; [done|]. rewrite Heq in Hq. destruct (Hold _ Hq) as [_ [Q1|Q1]]; [congruence|].
    by apply (Q1 _ _ Hj) in Heq.
  - intros j o Hj. destruct (ct_options0 _ _ Hj) as [? Hp ? ?]. split; cbn; try done. rewrite lookup_insert. case_decide; [by eexists|done].
  - done.
  - intros i j q r [[<- <-]|[Hne Hi]]%lookup_insert_Some [[<- <-]|[Hne' Hj]]%lookup_insert_Some Heq; [done|..].
    + by destruct (Hslug j r).
    + by destruct (Hslug i q).
    + by eapply ct_slugs0.
  - change (skus_unique (MkCatalogue (<[k := p]> (c_products c)) (c_variants c) (c_options c) (c_categories c))).
    destruct (c_products c !! k) as [q|] eqn:Hq.
    + destruct (Hold _ eq_refl) as [Hs _]. refine (skus_sub _ _ _ ct_skus0). intros [j|j] s; cbn; [|done].
      rewrite lookup_insert. case_decide; [|done]. subst. rewrite Hq. cbn. by rewrite Hs.
    + refine (skus_fresh c _ (inl k) (sku_norm (p_sku p)) _ _ (Hnew eq_refl) ct_skus0).
      * intros [j|j] Hne; cbn; [|done]. rewrite lookup_insert_ne; [done|congruence].
      * cbn. by rewrite lookup_insert_eq.
  - done.
  - done.
  - done.
  - done.
Qed.

(** Options. *)
Lemma slot_ok_spec os pid n i :
  slot_ok os pid n (Some i) = true ↔
  ∃ k o, os !! k = Some o ∧ po_product_id o = pid ∧ po_position o = n ∧ i ∈ map fst (po_values o).
Proof.
  cbn. rewrite exists_row_true. split.
  - intros (k & o & Hk & [[Hp%Z.eqb_eq Hn%Z.eqb_eq]%andb_true_iff (x & Hx & Hi%Z.eqb_eq)%existsb_exists]%andb_true_iff).
    exists k, o. split_and!; [done..|]. apply list_elem_of_fmap. exists x. by rewrite list_elem_of_In.
  - intros (k & o & Hk & Hp & Hn & (x & -> & Hx)%list_elem_of_fmap). exists k, o. split; [done|]. subst.
    rewrite !Z.eqb_refl. apply existsb_exists. exists x. rewrite Z.eqb_refl. by rewrite <-list_elem_of_In.
Qed.
(** The slots of a variant stay filled when every value it holds stays where it is. *)
Lemma slot_ok_kept os os' pid n value :
  (∀ i, value = Some i → ∀ k o, os !! k = Some o → po_product_id o = pid → po_position o = n → i ∈ map fst (po_values o) →
     ∃ o', os' !! k = Some o' ∧ po_product_id o' = pid ∧ po_position o' = n ∧ i ∈ map fst (po_values o')) →
  slot_ok os pid n value = true → slot_ok os' pid n value = true.
Proof.
  intros Hkeep. destruct value as [i|]; [|done]. rewrite !slot_ok_spec. intros (k & o & Hk & Hp & Hn & Hi).
  destruct (Hkeep i eq_refl k o) as (o' & ? & ? & ? & ?); [done..|]. by exists k, o'.
Qed.
Lemma holds_value_slots v i : holds_value i v = true ↔ pv_value1_id v = Some i ∨ pv_value2_id v = Some i ∨ pv_value3_id v = Some i.
Proof. unfold holds_value, opt_eqb. rewrite !orb_true_iff, !bool_decide_eq_true. tauto. Qed.
Lemma slots_kept c os' v :
  (∀ i, holds_value i v = true → ∀ k o, c_options c !! k = Some o → po_product_id o = pv_product_id v → i ∈ map fst (po_values o) →
     ∃ o', os' !! k = Some o' ∧ po_product_id o' = po_product_id o ∧ po_position o' = po_position o ∧ i ∈ map fst (po_values o')) →
  ∀ k, variant_ok c k v → variant_ok (MkCatalogue (c_products c) (c_variants c) os' (c_categories c)) k v.
Proof.
  intros Hkeep k [? ? ? ? ? (S1 & S2 & S3)]. split; cbn; try done.
  split_and!; (eapply slot_ok_kept; [|done]); intros i Hi j o Hj Hp Hn Hin;
    (destruct (Hkeep i) with (k := j) (o := o) as (o' & ? & Q1 & Q2 & ?); [apply holds_value_slots; tauto|done..|]);
    exists o'; rewrite Q1, Q2; done.
Qed.

Lemma ok_option_new c k o :
  catalogue_ok c → c_options c !! k = None → option_ok c k o → po_values o = [] →
  (∀ j q, c_options c !! j = Some q → po_product_id q = po_product_id o →
     po_position q ≠ po_position o ∧ py_lower (po_name q) ≠ py_lower (po_name o)) →
  catalogue_ok (MkCatalogue (c_products c) (c_variants c) (<[k := o]> (c_options c)) (c_categories c)).
Proof.
  intros [] Hfresh [] Hempty Hnew. split; cbn; try done.
  - intros j p Hj. destruct (ct_products0 _ _ Hj). by split.
  - intros j v Hj. eapply slots_kept; [|by apply ct_variants0]. intros i _ l q Hl _ Hi. exists q.
    rewrite lookup_insert_ne; [done|congruence].
  - intros j q [[<- <-]|[_ Hj]]%lookup_insert_Some; [by split|]. destruct (ct_options0 _ _ Hj). by split.
  - intros i j q r [[<- <-]|[Hne Hi]]%lookup_insert_Some [[<- <-]|[Hne' Hj]]%lookup_insert_Some Hp Heq; [done|..|by eapply ct_positions0].
    + destruct (Hnew j r) as [Q1 Q2]; [done..|]. destruct Heq; congruence.
    + destruct (Hnew i q) as [Q1 Q2]; [done..|]. destruct Heq; congruence.
  - intros i j q r x [[<- <-]|[Hne Hi]]%lookup_insert_Some [[<- <-]|[Hne' Hj]]%lookup_insert_Some; [done|..|by eapply ct_values0].
    + rewrite Hempty. by intros ?%elem_of_nil.
    + rewrite Hempty. by intros _ ?%elem_of_nil.
Qed.
Lemma ok_option_values c k o l :
  catalogue_ok c → c_options c !! k = Some o → NoDup (map fst l) → NoDup (map (λ x : Z * string, py_lower x.2) l) →
  (∀ i, i ∈ map fst l → i ∈ map fst (po_values o) ∨ ∀ j q, c_options c !! j = Some q → i ∉ map fst (po_values q)) →
  (∀ i, i ∈ map fst (po_values o) → i ∉ map fst l → ∀ j v, c_variants c !! j = Some v → holds_value i v = false) →
  catalogue_ok (MkCatalogue (c_products c) (c_variants c) (<[k := o <| po_values := l |>]> (c_options c)) (c_categories c)).
Proof.
  intros [] Ho Hn1 Hn2 Hnew Hheld. split; cbn; try done.
  - intros j p Hj. destruct (ct_products0 _ _ Hj). by split.
  - intros j v Hj. eapply slots_kept; [|by apply ct_variants0]. intros i Hi m q Hm _ Hin.
    destruct (decide (m = k)) as [->|]; [|exists q; by rewrite lookup_insert_ne]. simplify_eq. eexists. rewrite lookup_insert_eq.
    split_and!; [done..|]. cbn. destruct (decide (i ∈ map fst l)); [done|]. by rewrite (Hheld i Hin n _ _ Hj) in Hi.
  - intros j q [[<- <-]|[_ Hj]]%lookup_insert_Some; [|by destruct (ct_options0 _ _ Hj); split]. destruct (ct_options0 _ _ Ho). by split.
  - intros i j q r [[<- <-]|[Hne Hi]]%lookup_insert_Some [[<- <-]|[Hne' Hj]]%lookup_insert_Some; cbn; [done|..]; by eapply ct_positions0.
  - intros i j q r x [[<- <-]|[Hne Hi]]%lookup_insert_Some [[<- <-]|[Hne' Hj]]%lookup_insert_Some; cbn; [done|..|by eapply ct_values0].
    + intros Hx Hy. destruct (Hnew _ Hx) as [|Q]; [by eapply ct_values0|]. by apply (Q _ _ Hj) in Hy.
    + intros Hx Hy. destruct (Hnew _ Hy) as [|Q]; [by eapply ct_values0|]. by apply (Q _ _ Hi) in Hx.
Qed.
Lemma ok_options_delete c pid :
  catalogue_ok c →
  (∀ k o i j v, c_options c !! k = Some o → po_product_id o = pid → i ∈ map fst (po_values o) → c_variants c !! j = Some v →
     holds_value i v = false) →
  catalogue_ok (MkCatalogue (c_products c) (c_variants c) (filter (λ kv, po_product_id kv.2 ≠ pid) (c_options c)) (c_categories c)).
Proof.
  intros [] Hheld. split; cbn; try done.
  - intros j p Hj. destruct (ct_products0 _ _ Hj). by split.
  - intros j v Hj. eapply slots_kept; [|by apply ct_variants0]. intros i Hi m q Hm Hp Hin. exists q.
    destruct (decide (po_product_id q = pid)) as [Hpid|]; [|by rewrite (map_lookup_filter_Some_2 _ _ m q)].
    by rewrite (Hheld _ _ _ _ _ Hm Hpid Hin Hj) in Hi.
  - intros j q [Hj _]%map_lookup_filter_Some. destruct (ct_options0 _ _ Hj). by split.
  - intros i j q r [Hi _]%map_lookup_filter_Some [Hj _]%map_lookup_filter_Some. by eapply ct_positions0.
  - intros i j q r x [Hi _]%map_lookup_filter_Some [Hj _]%map_lookup_filter_Some. by eapply ct_values0.
Qed.

(** Variants of one product, whose price range follows. *)
Lemma ok_variants c pid p lo hi vs' :
  catalogue_ok c → c_products c !! pid = Some p →
  (lo, hi) = product_price_range vs' pid (p_price_cents p) (p_option_count p) →
  (∀ k v, vs' !! k = Some v → variant_ok c k v) →
  (∀ j k v w, vs' !! j = Some v → vs' !! k = Some w → combo_of v = combo_of w → j = k) →
  (∀ k base n, k ≠ pid → product_price_range vs' k base n = product_price_range (c_variants c) k base n) →
  skus_unique (MkCatalogue (c_products c) vs' (c_options c) (c_categories c)) →
  catalogue_ok (MkCatalogue (<[pid := p <| p_price_from := lo |> <| p_price_to := hi |>]> (c_products c)) vs' (c_options c) (c_categories c)).
Proof.
  intros [] Hp Hr Hv Hc Hother Hsku. split; cbn; try done.
  - intros k q [[<- <-]|[Hne Hk]]%lookup_insert_Some.
    + destruct (ct_products0 _ _ Hp). by split.
    + destruct (ct_products0 _ _ Hk). split; cbn; try done. by rewrite Hother.
  - intros k v Hk. destruct (Hv _ _ Hk) as [? ? (q & Hq & Hn) ? ? ?]. split; cbn; try done.
    destruct (decide (pv_product_id v = pid)) as [Heq|]; [|exists q; by rewrite lookup_insert_ne].
    rewrite Heq in *. eexists. rewrite lookup_insert_eq. split; [done|]. cbn. congruence.
  - intros j o Hj. destruct (ct_options0 _ _ Hj) as [? Hx ? ?]. split; cbn; try done. rewrite lookup_insert. case_decide; [by eexists|done].
  - intros i j q r [[<- <-]|[Hne Hi]]%lookup_insert_Some [[<- <-]|[Hne' Hj]]%lookup_insert_Some; cbn; [done|..]; by eapply ct_slugs0.
  - refine (skus_sub _ _ _ Hsku). intros [j|j] s; cbn; [|done]. rewrite lookup_insert. case_decide; [|done]. subst. by rewrite Hp.
Qed.
(** The stock of a variant. *)
Lemma ok_variant_stock c k v v' :
  catalogue_ok c → c_variants c !! k = Some v →
  (pv_id v', combo_of v', pv_option_count v', pv_price_override_cents v', pv_active v', pv_sku v') =
    (pv_id v, combo_of v, pv_option_count v, pv_price_override_cents v, pv_active v, pv_sku v) →
  catalogue_ok (MkCatalogue (c_products c) (<[k := v']> (c_variants c)) (c_options c) (c_categories c)).
Proof.
  intros [] Hv Heq. unfold combo_of in Heq. injection Heq as E1 E2 E3 E4 E5 E6 E7 E8 E9. split; cbn; try done.
  - intros j p Hj. destruct (ct_products0 _ _ Hj). split; cbn; try done. rewrite po_range0. symmetry. apply (range_stock _ _ v); [done|].
    by rewrite E2, E7, E8.
  - intros j w [[<- <-]|[_ Hj]]%lookup_insert_Some; [|by destruct (ct_variants0 _ _ Hj); split]. destruct (ct_variants0 _ _ Hv).
    split; cbn; rewrite ?E1, ?E2, ?E3, ?E4, ?E5, ?E6, ?E7; done.
  - intros j o Hj. destruct (ct_options0 _ _ Hj). by split.
  - refine (skus_sub c _ _ ct_skus0). intros [j|j] s; cbn; [done|]. rewrite lookup_insert. case_decide; [|done]. subst. rewrite Hv. cbn. by rewrite E9.
  - assert (Hcombo : combo_of v' = combo_of v) by (unfold combo_of; congruence).
    intros i j w x [[<- <-]|[Hne Hi]]%lookup_insert_Some [[<- <-]|[Hne' Hj]]%lookup_insert_Some Hc; [done|..|by eapply ct_combos0].
    + eapply ct_combos0; [done..|]. congruence.
    + eapply ct_combos0; [done..|]. congruence.
Qed.
(** The stock of a product. *)
Lemma ok_product_stock c k p n :
  catalogue_ok c → c_products c !! k = Some p → (p_option_count p ≠ 0 → n = 0) →
  catalogue_ok (MkCatalogue (<[k := p <| p_stock := n |>]> (c_products c)) (c_variants c) (c_options c) (c_categories c)).
Proof.
  intros HC Hp Hn. apply ok_product; [done|..].
  - destruct (ct_products _ HC _ _ Hp). by split.
  - intros q Hq. simplify_eq. auto.
  - congruence.
  - intros j q Hne Hj Heq. apply Hne. eapply ct_slugs; [done..|]. by rewrite Heq.
Qed.
