(* ===== verification/Evolution.v ===== *)
(** * How the tables may evolve, and what they always satisfy

    [evolves d d'] is what no statement of the program undoes: orders follow their transitions, order
    lines, payments, refunds, disputes and invoices keep what they are about, histories only grow.
    [Inv d] is what every reachable database satisfies: refunds within their payment, stock equal to its
    ledger and never negative, lines restocked within what was bought, catalogue, tax masters and payment gateways well-formed. [step] lifts both to the state of
    a unit of work with its committed database, so that it survives commits and rollbacks, and
    [guar step m] says that a method respects it however it ends. The statements of [Guards] are proved
    to do so once (those of the catalogue and the tax masters in files of their own); the services inherit it. *)

From S2P Require Import Prelude Decimal Errors Schema Guards CatalogueGuards CatalogueOk TaxGuards TaxOk GatewayGuards.

Local Open Scope string_scope.
Local Open Scope list_scope.
Local Open Scope Z_scope.

(** ** Rows *)

Definition status_step (a b : OrderStatus) : Prop := guard_transition a b = true.

(** What an order was created with and never changes. *)
Definition order_facts (o : Order) :=
  (o_id o, o_user_id o, o_guest_token o, o_guest_email o, o_idempotency_key o, o_request_hash o, o_cart_digest o,
   (o_subtotal_cents o, o_discount_cents o, o_coupon_id o, o_coupon_code o, o_shipping_cents o, o_tax_cents o, o_total_cents o),
   o_created_at o).

Record order_ext (o o' : Order) : Prop := {
  oe_status : rtc status_step (o_status o) (o_status o');
  oe_released : o_stock_released_at o ≠ None → o_stock_released_at o' = o_stock_released_at o;
  oe_currency : o_currency o ≠ None → o_currency o' = o_currency o;
  oe_facts : order_facts o' = order_facts o
}.

Definition item_facts (i : OrderItem) :=
  (oi_id i, oi_order_id i, oi_product_id i, oi_variant_id i, oi_product_name_snapshot i, oi_price_cents_snapshot i,
   oi_quantity i, oi_sku_snapshot i, oi_discount_cents i).
Definition item_ext (i i' : OrderItem) : Prop :=
  item_facts i' = item_facts i ∧ oi_restocked_quantity i ≤ oi_restocked_quantity i'.

Definition payment_facts (p : Payment) :=
  (pay_id p, pay_order_id p, pay_provider p, pay_provider_config_id p, pay_provider_payment_id p, pay_amount_cents p, pay_currency p).
Definition payment_ext (p p' : Payment) : Prop := payment_facts p' = payment_facts p.

Definition refund_facts (r : Refund) :=
  (r_id r, r_payment_id r, r_order_id r, r_amount_cents r, r_currency r, r_idempotency_key r, r_cancels_order r, r_origin_requested r).
Definition refund_final (s : RefundStatus) : bool := bool_decide (s = RefSucceeded ∨ s = RefFailed).
Definition refund_ext (r r' : Refund) : Prop :=
  refund_facts r' = refund_facts r ∧ (refund_final (r_status r) = true → r_status r' = r_status r).

Definition dispute_facts (x : Dispute) :=
  (di_id x, di_payment_id x, di_order_id x, di_amount_cents x, di_currency x, di_provider x, di_provider_dispute_id x).
Definition dispute_ext (x x' : Dispute) : Prop :=
  dispute_facts x' = dispute_facts x ∧ (dispute_final (di_status x) = true → di_status x' = di_status x).

Definition reconciliation_ext (r r' : PaymentReconciliation) : Prop :=
  rc_id r' = rc_id r ∧ rc_kind r' = rc_kind r ∧ rc_dedupe_key r' = rc_dedupe_key r ∧ rc_details r' = rc_details r ∧
  (rc_open r = false → rc_open r' = false).

(** A webhook event that was handled stays handled. *)
Definition event_done (s : EventStatus) : bool := bool_decide (s = EvProcessed ∨ s = EvIgnored).
Definition event_ext (e e' : ProcessedWebhookEvent) : Prop :=
  event_done (we_status e) = true → event_done (we_status e') = true.

(** The life of a return: requested, then approved, rejected or cancelled; approved, then received,
    closed or cancelled; received, then closed. *)
Definition return_next (s : string) : list string :=
  if String.eqb s "requested" then ["approved"; "rejected"; "cancelled"]
  else if String.eqb s "approved" then ["received"; "closed"; "cancelled"]
  else if String.eqb s "received" then ["closed"] else [].
Definition return_step (a b : string) : Prop := b ∈ return_next a.
Definition return_facts (r : ReturnRequest) := (rt_id r, rt_order_id r, rt_user_id r, rt_customer_comment r, rt_requested_at r).
(** A return moves along its life, and one that has ended stays as it is. *)
Definition return_ext (r r' : ReturnRequest) : Prop :=
  return_facts r' = return_facts r ∧ rtc return_step (rt_status r) (rt_status r') ∧ (return_next (rt_status r) = [] → r' = r).
Definition return_item_facts (i : ReturnRequestItem) := (ri_id i, ri_return_id i, ri_order_item_id i, ri_quantity i, ri_reason i).
Definition return_item_ext (i i' : ReturnRequestItem) : Prop := return_item_facts i' = return_item_facts i.

(** Every row of the first table is in the second, extended. *)
Definition table_ext {K} `{Countable K} {V} (R : V → V → Prop) (m m' : gmap K V) : Prop :=
  ∀ k v, m !! k = Some v → ∃ v', m' !! k = Some v' ∧ R v v'.

(** ** Databases *)

Record evolves (d d' : DB) : Prop := {
  evo_orders : table_ext order_ext (d_orders d) (d_orders d');
  evo_items : table_ext item_ext (d_items d) (d_items d');
  evo_restocks : d_restocks d ⊆ d_restocks d';
  evo_history : d_history d `prefix_of` d_history d';
  evo_movements : d_movements d `prefix_of` d_movements d';
  evo_audit : d_audit d `prefix_of` d_audit d';
  evo_payments : table_ext payment_ext (d_payments d) (d_payments d');
  evo_refunds : table_ext refund_ext (d_refunds d) (d_refunds d');
  evo_disputes : table_ext dispute_ext (d_disputes d) (d_disputes d');
  evo_reconciliations : table_ext reconciliation_ext (d_reconciliations d) (d_reconciliations d');
  evo_events : table_ext event_ext (d_events d) (d_events d');
  evo_invoices : d_invoices d ⊆ d_invoices d';
  evo_currency : d_store_currency d ≠ None → d_store_currency d' = d_store_currency d;
  evo_returns : table_ext return_ext (d_returns d) (d_returns d');
  evo_return_items : table_ext return_item_ext (d_return_items d) (d_return_items d');
  evo_classifications : table_ext master_ext (d_classifications d) (d_classifications d');
  evo_rules : table_ext master_ext (d_rules d) (d_rules d');
  evo_registrations : table_ext master_ext (d_registrations d) (d_registrations d');
  evo_tax_settings : table_ext master_ext (d_tax_settings d) (d_tax_settings d');
  evo_configs : table_ext config_ext (d_configs d) (d_configs d')
}.

(** What is committed to refunds of a payment ([RefundRepository.committed_amount]). *)
Definition committed_of (d : DB) (pid : uuid) : Z :=
  sum_rows (λ r, if String.eqb (r_payment_id r) pid && refund_counts r then r_amount_cents r else 0) (d_refunds d).

(** The ledger's balance of a product ([None]) or a variant. *)
Definition movement_of (pid : Z) (vid : option Z) (m : StockMovement) : bool :=
  match vid with
  | None => (sm_product_id m =? pid) && opt_eqb (sm_variant_id m) None
  | Some v => opt_eqb (sm_variant_id m) (Some v)
  end.
Definition balance_of (l : list StockMovement) (pid : Z) (vid : option Z) : Z :=
  sumZ (map (λ m, if movement_of pid vid m then sm_delta m else 0) l).
Definition ledger_balance (d : DB) (pid : Z) (vid : option Z) : Z := balance_of (d_movements d) pid vid.

(** The units put back for a line. *)
Definition restocked_of (d : DB) (item : Z) : Z :=
  sum_kv (λ k q, if k.1 =? item then q else 0) (d_restocks d).

(** The return counts: it was not rejected or cancelled. *)
Definition counted (d : DB) (rid : uuid) : bool :=
  match d_returns d !! rid with Some r => bool_decide (rt_status r ∈ COUNTED) | None => false end.
(** The units of a line that are part of a return. *)
Definition returned_of (d : DB) (item : Z) : Z :=
  sum_rows (λ x, if (ri_order_item_id x =? item) && counted d (ri_return_id x) then ri_quantity x else 0) (d_return_items d).

#[global] Arguments counted : simpl never.
#[global] Arguments returned_of : simpl never.
#[global] Arguments balance_of : simpl never.
#[global] Arguments restocked_of : simpl never.
#[global] Arguments committed_of : simpl never.

Record Inv (d : DB) : Prop := {
  inv_order_keys : ∀ k o, d_orders d !! k = Some o → o_id o = k;
  inv_refund_keys : ∀ k r, d_refunds d !! k = Some r → r_id r = k;
  inv_cancelled : ∀ k o, d_orders d !! k = Some o → o_status o = CANCELLED → o_stock_released_at o ≠ None;
  inv_refunded : ∀ k o, d_orders d !! k = Some o → o_status o = REFUNDED →
    ∃ rk r, d_refunds d !! rk = Some r ∧ r_order_id r = k ∧ r_status r = RefSucceeded;
  inv_refunds : ∀ k p, d_payments d !! k = Some p → committed_of d k ≤ pay_amount_cents p;
  inv_refund_rows : ∀ k r, d_refunds d !! k = Some r → 0 < r_amount_cents r ∧ is_Some (d_payments d !! r_payment_id r);
  inv_products : ∀ k p, d_products d !! k = Some p → 0 ≤ p_stock p ∧ p_stock p = ledger_balance d k None;
  inv_variants : ∀ k v, d_variants d !! k = Some v → 0 ≤ pv_stock v ∧ pv_stock v = ledger_balance d (pv_product_id v) (Some k);
  inv_restocks : ∀ i e q, d_restocks d !! (i, e) = Some q → 0 < q ∧ is_Some (d_items d !! i);
  inv_items : ∀ k i, d_items d !! k = Some i →
    0 ≤ oi_restocked_quantity i ≤ oi_quantity i ∧ oi_restocked_quantity i = restocked_of d k;
  inv_item_keys : ∀ k i, d_items d !! k = Some i → oi_id i = k;
  inv_payment_keys : ∀ k p, d_payments d !! k = Some p → pay_id p = k;
  inv_product_keys : ∀ k p, d_products d !! k = Some p → p_id p = k;
  inv_variant_keys : ∀ k v, d_variants d !! k = Some v → pv_id v = k;
  inv_item_orders : ∀ k i, d_items d !! k = Some i → is_Some (d_orders d !! oi_order_id i);
  inv_carts : ∀ k c, d_carts d !! k = Some c → c_id c = k;
  inv_cart_items : ∀ k i, d_cart_items d !! k = Some i → ci_id i = k ∧ 0 < ci_quantity i;
  inv_return_keys : ∀ k r, d_returns d !! k = Some r → rt_id r = k;
  inv_return_items : ∀ k x, d_return_items d !! k = Some x →
    ri_id x = k ∧ 0 < ri_quantity x ∧ 0 ≤ ri_restocked_quantity x ≤ default 0 (ri_received_quantity x) ∧
    default 0 (ri_received_quantity x) ≤ ri_quantity x;
  inv_return_lines : ∀ k x, d_return_items d !! k = Some x →
    ∃ r i, d_returns d !! ri_return_id x = Some r ∧ d_items d !! ri_order_item_id x = Some i ∧ oi_order_id i = rt_order_id r;
  inv_returned : ∀ k i, d_items d !! k = Some i → returned_of d k ≤ oi_quantity i;
  inv_return_unique : ∀ j k x y, d_return_items d !! j = Some x → d_return_items d !! k = Some y →
    ri_return_id x = ri_return_id y → ri_order_item_id x = ri_order_item_id y → j = k;
  inv_catalogue : catalogue_ok (catalogue_of d);
  inv_movements : ∀ m, m ∈ d_movements d →
    is_Some (d_products d !! sm_product_id m) ∧ ∀ v, sm_variant_id m = Some v → is_Some (d_variants d !! v);
  inv_tax : tax_ok (tax_of d);
  inv_assigned : ∀ k p c, d_products d !! k = Some p → p_tax_classification_id p = Some c → approved_classification (tax_of d) c;
  inv_gateways : gateways_ok (d_configs d);
  inv_payment_settings : ∀ p, d_payment_settings d = Some p → settings_ok (d_configs d) p
}.

(** ** Units of work *)

Definition sound (s : St) : Prop :=
  evolves (st_committed s) (st_db s) ∧ Inv (st_committed s) ∧ Inv (st_db s).
Definition step (s s' : St) : Prop :=
  sound s → sound s' ∧ evolves (st_committed s) (st_committed s').

(** ** The relations are preorders *)

Lemma table_ext_refl {K} `{Countable K} {V} (R : V → V → Prop) `{!Reflexive R} (m : gmap K V) : table_ext R m m.
Proof. intros k v ?. eauto. Qed.
Lemma table_ext_trans {K} `{Countable K} {V} (R : V → V → Prop) `{!Transitive R} (m1 m2 m3 : gmap K V) :
  table_ext R m1 m2 → table_ext R m2 m3 → table_ext R m1 m3.
Proof. intros H1 H2 k v Hk. destruct (H1 k v Hk) as (v' & Hk' & ?). destruct (H2 k v' Hk') as (v'' & ? & ?). eauto. Qed.
Lemma table_ext_update {K} `{Countable K} {V} (R : V → V → Prop) `{!Reflexive R} (m : gmap K V) k v v' :
  m !! k = Some v → R v v' → table_ext R m (<[k := v']> m).
Proof.
  intros Hk Hr k0 v0 Hk0. destruct (decide (k0 = k)) as [->|].
  - exists v'. rewrite lookup_insert_eq. simplify_eq. eauto.
  - exists v0. rewrite lookup_insert_ne by done. eauto.
Qed.
Lemma table_ext_fresh {K} `{Countable K} {V} (R : V → V → Prop) `{!Reflexive R} (m : gmap K V) k v :
  m !! k = None → table_ext R m (<[k := v]> m).
Proof.
  intros Hk k0 v0 Hk0. exists v0. rewrite lookup_insert_ne; [eauto|congruence].
Qed.

#[export] Instance order_ext_refl : Reflexive order_ext.
Proof. intros o. split; eauto using rtc_refl. Qed.
#[export] Instance order_ext_trans : Transitive order_ext.
Proof.
  intros a b c [] []. split; [by etrans|intros Ha|intros Ha|congruence].
  - rewrite oe_released1; [auto|by rewrite oe_released0].
  - rewrite oe_currency1; [auto|by rewrite oe_currency0].
Qed.
#[export] Instance item_ext_refl : Reflexive item_ext.
Proof. intros i. by split. Qed.
#[export] Instance item_ext_trans : Transitive item_ext.
Proof. intros a b c [] []. split; [congruence|lia]. Qed.
#[export] Instance payment_ext_refl : Reflexive payment_ext.
Proof. intros p. done. Qed.
#[export] Instance payment_ext_trans : Transitive payment_ext.
Proof. intros a b c. unfold payment_ext. congruence. Qed.
#[export] Instance refund_ext_refl : Reflexive refund_ext.
Proof. intros r. by split. Qed.
#[export] Instance refund_ext_trans : Transitive refund_ext.
Proof.
  intros a b c [H1 H2] [H3 H4]. split; [congruence|]. intros Hf. rewrite H4; [auto|]. by rewrite (H2 Hf).
Qed.
#[export] Instance dispute_ext_refl : Reflexive dispute_ext.
Proof. intros r. by split. Qed.
#[export] Instance dispute_ext_trans : Transitive dispute_ext.
Proof.
  intros a b c [H1 H2] [H3 H4]. split; [congruence|]. intros Hf. rewrite H4; [auto|]. by rewrite (H2 Hf).
Qed.
#[export] Instance reconciliation_ext_refl : Reflexive reconciliation_ext.
Proof. intros r. by repeat split. Qed.
#[export] Instance reconciliation_ext_trans : Transitive reconciliation_ext.
Proof.
  intros a b c (?&?&?&?&Hab) (?&?&?&?&Hbc). repeat split; try congruence. auto.
Qed.
#[export] Instance event_ext_refl : Reflexive event_ext.
Proof. intros e He. exact He. Qed.
#[export] Instance event_ext_trans : Transitive event_ext.
Proof. intros a b c H1 H2 Hd. auto. Qed.

#[export] Instance return_ext_refl : Reflexive return_ext.
Proof. intros r. split_and!; done. Qed.
#[export] Instance return_ext_trans : Transitive return_ext.
Proof.
  intros a b c (H1 & H2 & H3) (H4 & H5 & H6). split_and!; [congruence|by etrans|]. intros Hn. rewrite (H3 Hn) in *. auto.
Qed.
#[export] Instance return_item_ext_refl : Reflexive return_item_ext.
Proof. done. Qed.
#[export] Instance return_item_ext_trans : Transitive return_item_ext.
Proof. intros a b c. unfold return_item_ext. congruence. Qed.

#[export] Instance evolves_refl : Reflexive evolves.
Proof. intros d. split; try (apply table_ext_refl; apply _); done. Qed.
#[export] Instance evolves_trans : Transitive evolves.
Proof.
  intros a b c [] []. split; try (eapply table_ext_trans; [apply _|done|done]); try (etrans; done).
  intros Ha. rewrite evo_currency1; [auto|]. by rewrite evo_currency0.
Qed.

#[export] Instance step_refl : Reflexive step.
Proof. intros s Hs. split; [done|reflexivity]. Qed.
#[export] Instance step_trans : Transitive step.
Proof.
  intros a b c H1 H2 Ha. destruct (H1 Ha) as [Hb ?]. destruct (H2 Hb) as [Hc ?]. split; [done|by etrans].
Qed.

(** ** Statements *)

(** A statement on the tables is a step when it evolves them and keeps the invariant. *)
Lemma step_upd s d' :
  (Inv (st_db s) → evolves (st_db s) d' ∧ Inv d') → step s (s <| st_db := d' |>).
Proof.
  intros H (He & Hc & Hd). destruct (H Hd) as [He' Hd']. unfold sound; cbn.
  split; [|reflexivity]. split; [by etrans|done].
Qed.

Lemma guar_upd f : (∀ d, Inv d → evolves d (f d) ∧ Inv (f d)) → guar step (upd f).
Proof. intros H s. apply step_upd. apply H. Qed.

(** Parts of the state other than the tables. *)
Lemma guar_other (f : St → St) :
  (∀ s, st_db (f s) = st_db s) → (∀ s, st_committed (f s) = st_committed s) → guar step (modify f : M unit).
Proof.
  intros H1 H2 s Hs. unfold sound in *; cbn [modify snd]. rewrite H1, H2. split; [done|reflexivity].
Qed.

Lemma guar_commit : guar step commit.
Proof. intros s (He & Hc & Hd). unfold sound; cbn. split; [|done]. split; [reflexivity|done]. Qed.
Lemma guar_rollback : guar step rollback.
Proof. intros s (He & Hc & Hd). unfold sound; cbn. split; [|reflexivity]. split; [reflexivity|done]. Qed.

Lemma guar_get_db {A} (m : M A) : guar step m → guar step (get_db m).
Proof.
  intros Hm s. specialize (Hm s). unfold get_db. destruct (m s) as [[e|a] s']; cbn [snd] in *.
  - etrans; [exact Hm|apply guar_rollback].
  - etrans; [exact Hm|apply guar_commit].
Qed.

Lemma guar_new_id : guar step new_id.
Proof. unfold new_id. solve_guar. by apply guar_other. Qed.
Lemma guar_new_uuid : guar step new_uuid.
Proof. unfold new_uuid. solve_guar. by apply guar_other. Qed.
Lemma guar_guard o : guar step (guard o).
Proof. destruct o; cbn; auto with guar typeclass_instances. Qed.
Lemma guar_db_gets {A} (f : DB → A) : guar step (db_gets f).
Proof. apply guar_gets, _. Qed.
Lemma guar_now : guar step now.
Proof. apply guar_gets, _. Qed.
Lemma guar_scalar {A} (l : list A) : guar step (scalar_one_or_none l).
Proof. destruct l as [|x [|y l]]; cbn; auto with guar typeclass_instances. Qed.

#[export] Hint Resolve guar_commit guar_rollback guar_new_id guar_new_uuid guar_guard guar_db_gets guar_now guar_scalar : guar.
#[export] Hint Resolve step_refl step_trans : guar.

Ltac evolve := split; cbn; try done; try (apply table_ext_refl; apply _).
Ltac keep_inv H := destruct H; split; cbn; try done.

Lemma lifecycle_guard_passed d old new :
  None = orders_lifecycle_guard d old new →
  (o_stock_released_at old ≠ None → o_stock_released_at new = o_stock_released_at old) ∧
  (o_status new = o_status old ∨
   (status_step (o_status old) (o_status new) ∧
    (o_status new = PAID → ∃ k p, d_payments d !! k = Some p ∧ pay_order_id p = o_id new ∧ pay_status p = PaySucceeded) ∧
    (o_status new = REFUNDED → ∃ k r, d_refunds d !! k = Some r ∧ r_order_id r = o_id new ∧ r_status r = RefSucceeded) ∧
    (o_status new = CANCELLED → o_stock_released_at new ≠ None))).
Proof.
  unfold orders_lifecycle_guard, opt_eqb. intros H.
  destruct (negb (bool_decide (o_stock_released_at old = None)) && _) eqn:H1; [done|].
  split.
  { intros Hr. rewrite (bool_decide_eq_false_2 (o_stock_released_at old = None)) in H1 by done. cbn in H1.
    apply negb_false_iff, bool_decide_eq_true in H1. done. }
  case_bool_decide; [by left|right].
  destruct (guard_transition _ _) eqn:Ht; cbn in H; [|done]. split; [done|].
  destruct (bool_decide (o_status new = PAID) && _) eqn:H2; [done|].
  destruct (bool_decide (o_status new = REFUNDED) && _) eqn:H3; [done|].
  destruct (bool_decide (o_status new = CANCELLED) && _) eqn:H4; [done|].
  split_and!; intros Hn; rewrite Hn in *.
  - rewrite bool_decide_eq_true_2 in H2 by done. cbn in H2. apply negb_false_iff, exists_row_true in H2 as (k & p & ? & Hp).
    apply andb_true_iff in Hp as [?%String.eqb_eq ?%bool_decide_eq_true]. eauto.
  - rewrite bool_decide_eq_true_2 in H3 by done. cbn in H3. apply negb_false_iff, exists_row_true in H3 as (k & r & ? & Hp).
    apply andb_true_iff in Hp as [?%String.eqb_eq ?%bool_decide_eq_true]. eauto.
  - rewrite bool_decide_eq_true_2 in H4 by done. cbn in H4. by apply bool_decide_eq_false in H4.
Qed.

(** Updates of an order that leave its facts alone. *)
Lemma update_order_ok d oid old new :
  Inv d → d_orders d !! oid = Some old → order_facts new = order_facts old →
  None = orders_currency_guard old new → None = orders_lifecycle_guard d old new →
  evolves d (d <| d_orders ::= <[oid := new]> |>) ∧ Inv (d <| d_orders ::= <[oid := new]> |>).
Proof.
  intros HI Ho Hf Hcur Hlife. destruct (lifecycle_guard_passed _ _ _ Hlife) as [Hrel Hst].
  assert (o_id new = oid) as Hid.
  { transitivity (o_id old); [|by eapply inv_order_keys]. unfold order_facts in Hf. congruence. }
  split.
  - evolve. eapply table_ext_update; [apply _|done|]. split; [|done| |done].
    + destruct Hst as [->|[? _]]; [done|by apply rtc_once].
    + intros Hc. symmetry in Hcur. apply check_None, orb_true_iff in Hcur as [Hn|Hn].
      * by apply bool_decide_eq_true in Hn.
      * by apply bool_decide_eq_true in Hn.
  - keep_inv HI; intros k o.
    + intros [[<- <-]|[? ?]]%lookup_insert_Some; [done|eauto].
    + intros [[<- <-]|[? ?]]%lookup_insert_Some Hs; [|eauto]. destruct Hst as [Heq|(_ & _ & _ & Hcan)]; [|eauto].
      rewrite Hrel; eapply inv_cancelled0; eauto; congruence.
    + intros [[<- <-]|[? ?]]%lookup_insert_Some Hs; [|eauto]. destruct Hst as [Heq|(_ & _ & Href & _)].
      * eapply inv_refunded0; [done|congruence].
      * rewrite <-Hid. by apply Href.
    + intros Hi. apply lookup_insert_is_Some'; right. by eapply inv_item_orders0.
Qed.

Lemma guar_update_order oid f :
  (∀ o, order_facts (f o) = order_facts o) → guar step (update_order oid f).
Proof.
  intros Hf s. unfold update_order, gets, of_option, mbind, ST_bind; cbn.
  destruct (d_orders (st_db s) !! oid) as [old|] eqn:Ho; cbn; [|reflexivity].
  destruct (first_violation _) eqn:Hg; cbn; [reflexivity|]. passed Hg.
  apply step_upd. intros HI. by eapply update_order_ok.
Qed.

Lemma guar_insert_order o : o_status o = PENDING → guar step (insert_order o).
Proof.
  intros Hst s. unfold insert_order, gets, mbind, ST_bind; cbn.
  destruct (first_violation _) eqn:Hg; cbn; [reflexivity|]. passed Hg.
  symmetry in Hg0. apply check_None, bool_decide_eq_true in Hg0.
  apply step_upd. intros HI. split.
  - evolve. by apply table_ext_fresh; [apply _|].
  - keep_inv HI; intros k o'; try (intros [[<- <-]|[? ?]]%lookup_insert_Some; [|by eauto]; congruence).
    intros Hi. apply lookup_insert_is_Some'; right. by eapply inv_item_orders0.
Qed.

Lemma guar_insert_history h : guar step (insert_history h).
Proof. apply guar_upd. intros d HI. split; [evolve; by apply prefix_app_r|by keep_inv HI]. Qed.
Lemma guar_insert_audit a : guar step (insert_audit a).
Proof. apply guar_upd. intros d HI. split; [evolve; by apply prefix_app_r|by keep_inv HI]. Qed.

(** Opens a statement; [on_guards H] continues with its guards passed. *)
Ltac open_statement := intros s; unfold of_option, guard, gets, mbind, ST_bind; cbn.
Ltac on_guards H :=
  lazymatch goal with
  | |- context [first_violation ?l] => destruct (first_violation l) eqn:H; cbn; [reflexivity|]
  end.

Lemma restocked_of_fresh d i : Inv d → d_items d !! i = None → restocked_of d i = 0.
Proof.
  intros HI Hi. unfold restocked_of. apply sum_kv_zero. intros [j e] q Hq. cbn.
  destruct (Z.eqb_spec j i) as [->|]; [|done]. destruct (inv_restocks d HI _ _ _ Hq) as [_ Hs]. rewrite Hi in Hs.
  by destruct Hs.
Qed.

Lemma guar_insert_item i : oi_restocked_quantity i = 0 → guar step (insert_item i).
Proof.
  intros Hr. unfold insert_item. open_statement. on_guards Hp. passed Hp.
  symmetry in Hg0, Hg1. apply check_None, bool_decide_eq_true in Hg0. apply step_upd. intros HI. split.
  - evolve. by apply table_ext_fresh; [apply _|].
  - pose proof (restocked_of_fresh _ _ HI Hg0) as H0. unfold order_items_checks in Hg1. passed Hg1.
    symmetry in Hg6. apply check_None, andb_true_iff in Hg6 as [?%Z.leb_le ?%Z.leb_le].
    symmetry in Hg4. apply check_None, bool_decide_eq_true in Hg4.
    keep_inv HI.
    + intros j e q Hq. destruct (inv_restocks0 _ _ _ Hq) as [? ?]. split; [done|]. by apply lookup_insert_is_Some'; right.
    + intros k i'. intros [[<- <-]|[? ?]]%lookup_insert_Some; [|by eauto].
      rewrite Hr in *. unfold restocked_of in *; cbn. lia.
    + intros k i'. intros [[<- <-]|[? ?]]%lookup_insert_Some; [done|by eauto].
    + intros k i'. intros [[<- <-]|[? ?]]%lookup_insert_Some; [done|by eauto].
    + intros k x Hx. destruct (inv_return_lines0 _ _ Hx) as (r & i' & ? & Hi' & ?). exists r, i'.
      rewrite lookup_insert_ne; [done|]. intros Heq. rewrite <-Heq, Hg0 in Hi'. done.
    + intros k i'. intros [[<- <-]|[? Hi']]%lookup_insert_Some; [|by apply inv_returned0].
      unfold returned_of, sum_rows; cbn. rewrite sum_kv_zero; [lia|]. intros k x Hx. cbn.
      destruct (Z.eqb_spec (ri_order_item_id x) (oi_id i)) as [Heq|]; [|done].
      destruct (inv_return_lines0 _ _ Hx) as (? & ? & _ & Hi' & _). by rewrite Heq, Hg0 in Hi'.
Qed.

Lemma guar_insert_restock i e q : guar step (insert_restock i e q).
Proof.
  unfold insert_restock. open_statement.
  destruct (d_restocks (st_db s) !! (i, e)) eqn:Hnew; cbn; [reflexivity|].
  destruct (check (0 <? q) _) eqn:Hq; cbn; [reflexivity|]. apply check_None, Z.ltb_lt in Hq.
  destruct (d_items (st_db s) !! i) as [it|] eqn:Hit; cbn; [|reflexivity].
  destruct (order_items_checks _) eqn:Hck; cbn; [reflexivity|]. unfold order_items_checks in Hck. passed Hck.
  apply step_upd. intros HI. symmetry in Hg0.
  apply check_None, andb_true_iff in Hg0 as [Hlo%Z.leb_le Hhi%Z.leb_le]. cbn in Hlo, Hhi.
  split.
  - evolve.
    + eapply table_ext_update; [apply _|done|]. split; [done|]. cbn. lia.
    + by apply insert_subseteq.
  - keep_inv HI.
    + intros j e' q'. intros [[[= <- <-] <-]|[? Hr]]%lookup_insert_Some.
      * split; [done|]. rewrite lookup_insert_eq. eauto.
      * destruct (inv_restocks0 _ _ _ Hr) as [? ?]. split; [done|]. by apply lookup_insert_is_Some'; right.
    + intros k i'. unfold restocked_of; cbn. rewrite sum_kv_fresh by done. cbn.
      intros [[<- <-]|[? Hi']]%lookup_insert_Some; cbn.
      * rewrite Z.eqb_refl. destruct (inv_items0 _ _ Hit) as [_ Heq]. unfold restocked_of in Heq. lia.
      * destruct (Z.eqb_spec i k) as [|]; [done|]. by apply inv_items0.
    + intros k i' [[<- <-]|[? Hi']]%lookup_insert_Some; [cbn; by apply inv_item_keys0|by apply inv_item_keys0].
    + intros k i' [[<- <-]|[? Hi']]%lookup_insert_Some; [cbn; by eapply inv_item_orders0|by eapply inv_item_orders0].
    + intros k x Hx. destruct (inv_return_lines0 _ _ Hx) as (r & i' & ? & Hi' & Ho).
      destruct (decide (ri_order_item_id x = i)) as [Heq|Hne].
      * eexists r, _. rewrite Heq, lookup_insert_eq. rewrite Heq in Hi'. split_and!; [done..|]. cbn. congruence.
      * exists r, i'. by rewrite lookup_insert_ne.
    + intros k i' [[<- <-]|[? Hi']]%lookup_insert_Some; [cbn; by eapply inv_returned0|by eapply inv_returned0].
Qed.

Lemma balance_push l m pid vid :
  balance_of (l ++ [m]) pid vid = balance_of l pid vid + (if movement_of pid vid m then sm_delta m else 0).
Proof. unfold balance_of. rewrite map_app, sumZ_app. cbn [map]. unfold sumZ at 2. cbn. lia. Qed.

Lemma opt_eqb_refl {A} `{EqDecision A} (x : option A) : opt_eqb x x = true.
Proof. by apply bool_decide_eq_true. Qed.

Lemma opt_eqb_ne {A} `{EqDecision A} (x y : option A) : x ≠ y → opt_eqb x y = false.
Proof. by apply bool_decide_eq_false_2. Qed.

(** A change of stock and its ledger row. *)
Lemma product_stock_ok d c pid p delta :
  Inv d → d_products d !! pid = Some p → 0 ≤ p_stock p + delta → (p_option_count p ≠ 0 → p_stock p + delta = 0) →
  let p' := p <| p_stock := p_stock p + delta |> in
  let m := stock_ledger_row c pid None (p_stock p) (p_stock p') in
  let d' := d <| d_products ::= <[pid := p']> |> <| d_movements ::= λ l, l ++ [m] |> in
  evolves d d' ∧ Inv d'.
Proof.
  intros HI Hp Hs Hz. cbv zeta. split; [evolve; by apply prefix_app_r|].
  keep_inv HI.
  - intros k p0. unfold ledger_balance; cbn. rewrite balance_push; cbn.
    intros [[<- <-]|[Hne Hk]]%lookup_insert_Some; cbn.
    + rewrite Z.eqb_refl, opt_eqb_refl; cbn. destruct (inv_products0 _ _ Hp) as [_ Heq]. unfold ledger_balance in Heq. lia.
    + destruct (Z.eqb_spec pid k); [done|]; cbn. destruct (inv_products0 _ _ Hk) as [? Heq].
      unfold ledger_balance in Heq. lia.
  - intros k v Hk. unfold ledger_balance; cbn. rewrite balance_push; cbn.
    rewrite opt_eqb_ne by done. destruct (inv_variants0 _ _ Hk) as [? Heq]. unfold ledger_balance in Heq. lia.
  - intros k p0 [[<- <-]|[? ?]]%lookup_insert_Some; [cbn; by apply inv_product_keys0|by eauto].
  - by apply (ok_product_stock (catalogue_of d)).
  - intros m [Hm| ->%list_elem_of_singleton]%elem_of_app; cbn.
    + destruct (inv_movements0 _ Hm) as [? ?]. split; [|done]. by apply lookup_insert_is_Some'; right.
    + split; [|done]. apply lookup_insert_is_Some'. by left.
  - intros k p0 c0 [[<- <-]|[? ?]]%lookup_insert_Some; [by apply (inv_assigned0 pid p)|by eauto].
Qed.

Lemma variant_stock_ok d c vid v delta :
  Inv d → d_variants d !! vid = Some v → 0 ≤ pv_stock v + delta →
  let v' := v <| pv_stock := pv_stock v + delta |> in
  let m := stock_ledger_row c (pv_product_id v) (Some vid) (pv_stock v) (pv_stock v') in
  let d' := d <| d_variants ::= <[vid := v']> |> <| d_movements ::= λ l, l ++ [m] |> in
  evolves d d' ∧ Inv d'.
Proof.
  intros HI Hp Hs. cbv zeta. split; [evolve; by apply prefix_app_r|].
  keep_inv HI.
  - intros k p0 Hk. unfold ledger_balance; cbn. rewrite balance_push; cbn.
    rewrite (opt_eqb_ne (Some vid)), andb_false_r by done. destruct (inv_products0 _ _ Hk) as [? Heq].
    unfold ledger_balance in Heq. lia.
  - intros k v0. unfold ledger_balance; cbn. rewrite balance_push; cbn.
    intros [[<- <-]|[Hne Hk]]%lookup_insert_Some; cbn.
    + rewrite opt_eqb_refl. destruct (inv_variants0 _ _ Hp) as [_ Heq]. unfold ledger_balance in Heq. lia.
    + rewrite opt_eqb_ne by congruence. destruct (inv_variants0 _ _ Hk) as [? Heq].
      unfold ledger_balance in Heq. lia.
  - intros k v0 [[<- <-]|[? ?]]%lookup_insert_Some; [cbn; by apply inv_variant_keys0|by eauto].
  - by apply (ok_variant_stock (catalogue_of d) vid v).
  - intros m [Hm| ->%list_elem_of_singleton]%elem_of_app; cbn.
    + destruct (inv_movements0 _ Hm) as [? Hv]. split; [done|]. intros w Hw. apply lookup_insert_is_Some'. right. by apply Hv.
    + destruct (vo_product _ _ _ (ct_variants _ inv_catalogue0 _ _ Hp)) as (p & Hpp & _). split; [by eexists|].
      intros w [= <-]. apply lookup_insert_is_Some'. by left.
Qed.

Lemma guar_add_product_stock pid delta : guar step (add_product_stock pid delta).
Proof.
  unfold add_product_stock. open_statement.
  destruct (d_products (st_db s) !! pid) as [p|] eqn:Hp; cbn; [|reflexivity].
  destruct (products_checks _) eqn:Hck; cbn; [reflexivity|].
  destruct (_ =? _); cbn; [reflexivity|].
  destruct (movements_checks _) eqn:Hm; cbn; [reflexivity|].
  apply step_upd. intros HI. apply product_stock_ok; [done|done|..].
  - unfold products_checks in Hck. passed Hck. symmetry in Hg0. by apply check_None, Z.leb_le in Hg0.
  - unfold products_checks in Hck. passed Hck. symmetry in Hg2. intros Hn.
    by apply check_None, orb_true_iff in Hg2 as [?%Z.eqb_eq|?%Z.eqb_eq].
Qed.
Lemma guar_add_variant_stock vid delta : guar step (add_variant_stock vid delta).
Proof.
  unfold add_variant_stock. open_statement.
  destruct (d_variants (st_db s) !! vid) as [v|] eqn:Hv; cbn; [|reflexivity].
  destruct (variants_checks _) eqn:Hck; cbn; [reflexivity|].
  destruct (_ =? _); cbn; [reflexivity|].
  destruct (movements_checks _) eqn:Hm; cbn; [reflexivity|].
  apply step_upd. intros HI. apply variant_stock_ok; [done|done|].
  unfold variants_checks in Hck. passed Hck. symmetry in Hg0. by apply check_None, Z.leb_le in Hg0.
Qed.

(** ** Payments and refunds *)

Lemma guar_insert_payment p : guar step (insert_payment p).
Proof.
  unfold insert_payment. open_statement. on_guards Hp. passed Hp.
  symmetry in Hg, Hg0. apply check_None, bool_decide_eq_true in Hg.
  unfold payments_checks in Hg0. passed Hg0. symmetry in Hg4. apply check_None, Z.ltb_lt in Hg4.
  apply step_upd. intros HI. split; [evolve; by apply table_ext_fresh; [apply _|]|].
  keep_inv HI.
  - intros k p' [[<- <-]|[? ?]]%lookup_insert_Some; [|by eauto]. unfold committed_of, sum_rows; cbn.
    rewrite sum_kv_zero; [lia|]. intros k r Hr. cbn.
    destruct (String.eqb_spec (r_payment_id r) (pay_id p)) as [Heq|]; [|done]; cbn.
    destruct (inv_refund_rows0 _ _ Hr) as [_ Hs]. rewrite Heq, Hg in Hs. by destruct Hs.
  - intros k r Hr. destruct (inv_refund_rows0 _ _ Hr) as [? ?]. split; [done|].
    apply lookup_insert_is_Some'. by right.
  - intros k p' [[<- <-]|[? ?]]%lookup_insert_Some; [done|by eauto].
Qed.

Lemma guar_update_payment pid f :
  (∀ p, payment_facts (f p) = payment_facts p) → guar step (update_payment pid f).
Proof.
  intros Hf. unfold update_payment. open_statement.
  destruct (d_payments (st_db s) !! pid) as [p|] eqn:Hp; cbn; [|reflexivity].
  on_guards Hp'. apply step_upd. intros HI. pose proof (Hf p) as Hfp. unfold payment_facts in Hfp.
  split; [evolve; by eapply table_ext_update; [apply _|..]|].
  keep_inv HI.
  - intros k p' [[<- <-]|[? ?]]%lookup_insert_Some; [|by apply inv_refunds0].
    replace (pay_amount_cents (f p)) with (pay_amount_cents p) by congruence. by apply inv_refunds0.
  - intros k r Hr. destruct (inv_refund_rows0 _ _ Hr) as [? ?]. split; [done|].
    apply lookup_insert_is_Some'. by right.
  - intros k p' [[<- <-]|[? ?]]%lookup_insert_Some; [|by eauto]. rewrite <-(inv_payment_keys0 _ _ Hp). congruence.
Qed.

(** The cumulative trigger counts the other refunds of the payment; with the new row that is all of them. *)
Lemma committed_insert d r pid :
  Inv d → committed_of (d <| d_refunds ::= <[r_id r := r]> |>) pid =
  sum_rows (λ x, if String.eqb (r_payment_id x) pid && negb (String.eqb (r_id x) (r_id r)) && refund_counts x
                 then r_amount_cents x else 0) (d_refunds d) +
  (if String.eqb (r_payment_id r) pid && refund_counts r then r_amount_cents r else 0).
Proof.
  intros HI. unfold committed_of, sum_rows; cbn.
  assert (∀ m : gmap uuid Refund, (∀ k x, m !! k = Some x → r_id x = k) → m !! r_id r = None →
    sum_kv (λ _ x, if String.eqb (r_payment_id x) pid && refund_counts x then r_amount_cents x else 0) m =
    sum_kv (λ _ x, if String.eqb (r_payment_id x) pid && negb (String.eqb (r_id x) (r_id r)) && refund_counts x
                   then r_amount_cents x else 0) m) as Hother.
  { intros m Hk Hn. apply sum_kv_ext. intros k x Hx.
    destruct (String.eqb_spec (r_id x) (r_id r)) as [Heq|]; cbn; [|by rewrite andb_true_r].
    rewrite (Hk _ _ Hx) in Heq. congruence. }
  rewrite <-insert_delete_eq, sum_kv_fresh by apply lookup_delete_eq.
  rewrite Hother; [| |apply lookup_delete_eq].
  2: { intros k x [_ Hx]%lookup_delete_Some. by eapply inv_refund_keys. }
  destruct (d_refunds d !! r_id r) as [old|] eqn:Hold.
  - rewrite (sum_kv_delete (λ _ x, if String.eqb (r_payment_id x) pid && negb (String.eqb (r_id x) (r_id r)) && refund_counts x
                   then r_amount_cents x else 0) (d_refunds d) _ _ Hold).
    rewrite (inv_refund_keys _ HI _ _ Hold), String.eqb_refl, andb_false_r; cbn. lia.
  - rewrite delete_id by done. lia.
Qed.

Lemma cumulative_guard_passed d r :
  Inv d → None = refunds_cumulative_guard d r →
  ∀ k p, d_payments d !! k = Some p → committed_of (d <| d_refunds ::= <[r_id r := r]> |>) k ≤ pay_amount_cents p.
Proof.
  intros HI Hg k p Hp. rewrite committed_insert by done. unfold refunds_cumulative_guard in Hg.
  assert (sum_rows (λ x, if String.eqb (r_payment_id x) k && negb (String.eqb (r_id x) (r_id r)) && refund_counts x
                 then r_amount_cents x else 0) (d_refunds d) ≤ pay_amount_cents p) as Hothers.
  { etrans; [|by apply (inv_refunds _ HI)]. unfold committed_of, sum_rows. apply sum_kv_le. intros k' x Hx.
    destruct (inv_refund_rows _ HI _ _ Hx) as [? _].
    destruct (String.eqb (r_payment_id x) k), (negb (String.eqb (r_id x) (r_id r))), (refund_counts x); cbn; lia. }
  destruct (String.eqb_spec (r_payment_id r) k) as [<-|Hne]; cbn; [|lia].
  destruct (refund_counts r) eqn:Hc; cbn in Hg; [|lia]. rewrite Hp in Hg.
  symmetry in Hg. by apply check_None, Z.leb_le in Hg.
Qed.

(** A write of a refund row that passed its guards. *)
Lemma refund_write_ok d r :
  Inv d → None = refunds_cumulative_guard d r → 0 < r_amount_cents r → is_Some (d_payments d !! r_payment_id r) →
  (match d_refunds d !! r_id r with Some old => refund_ext old r | None => True end) →
  evolves d (d <| d_refunds ::= <[r_id r := r]> |>) ∧ Inv (d <| d_refunds ::= <[r_id r := r]> |>).
Proof.
  intros HI Hg Ha Hpay Hext. split.
  - evolve. destruct (d_refunds d !! r_id r) eqn:Hold; [by eapply table_ext_update; [apply _|..]|by apply table_ext_fresh; [apply _|]].
  - pose proof (cumulative_guard_passed d r HI Hg) as Hcum. pose proof HI as HI'. keep_inv HI.
    + intros k x [[<- <-]|[? ?]]%lookup_insert_Some; eauto.
    + intros k o Ho Hs. destruct (inv_refunded0 _ _ Ho Hs) as (rk & x & Hx & Hxo & Hxs).
      destruct (decide (rk = r_id r)) as [->|]; [|exists rk, x; by rewrite lookup_insert_ne].
      rewrite Hx in Hext. destruct Hext as [Hf Hfin]. exists (r_id r), r. rewrite lookup_insert_eq.
      split_and!; [done|unfold refund_facts in Hf; congruence|]. rewrite Hfin; [done|by rewrite Hxs].
    + intros k x [[<- <-]|[? ?]]%lookup_insert_Some; eauto.
Qed.

Lemma refunds_checks_passed r : None = refunds_checks r → 0 < r_amount_cents r.
Proof. intros H. symmetry in H. unfold refunds_checks in H. passed H. symmetry in Hg. by apply check_None, Z.ltb_lt in Hg. Qed.

Lemma guar_insert_refund r : guar step (insert_refund r).
Proof.
  unfold insert_refund. open_statement. on_guards Hp. passed Hp. apply refunds_checks_passed in Hg1.
  symmetry in Hg0, Hg4. apply check_None, bool_decide_eq_true in Hg0, Hg4.
  apply step_upd. intros HI. apply refund_write_ok; try done. by rewrite Hg0.
Qed.

(** Updates that leave who cancels and who started it alone (the trigger protects the rest). *)
Lemma guar_update_refund rid f :
  (∀ r, r_id (f r) = r_id r ∧ r_cancels_order (f r) = r_cancels_order r ∧ r_origin_requested (f r) = r_origin_requested r) →
  guar step (update_refund rid f).
Proof.
  intros Hf. unfold update_refund. open_statement.
  destruct (d_refunds (st_db s) !! rid) as [old|] eqn:Hold; cbn; [|reflexivity].
  on_guards Hp. passed Hp. apply refunds_checks_passed in Hg1. destruct (Hf old) as (Hid & Hca & Hor).
  apply step_upd. intros HI. pose proof (inv_refund_keys _ HI _ _ Hold) as Hk.
  symmetry in Hg0. unfold refunds_guard in Hg0. destruct (negb _) eqn:Hsame in Hg0; [done|].
  apply negb_false_iff in Hsame. rewrite !andb_true_iff, !String.eqb_eq, Z.eqb_eq in Hsame.
  destruct Hsame as ((((Hpay & ?) & ?) & ?) & ?).
  apply check_None, orb_true_iff in Hg0. subst rid. rewrite <-Hid in Hold |- *.
  apply refund_write_ok; try done.
  - rewrite Hpay. by eapply inv_refund_rows.
  - rewrite Hold. split; [unfold refund_facts; congruence|]. unfold refund_final. intros Hfin.
    destruct Hg0 as [Hn|Heq]; [|by apply bool_decide_eq_true in Heq]. by rewrite Hfin in Hn.
Qed.

(** ** The other tables *)

Ltac plain_write := apply guar_upd; intros d HI; split; [evolve|by keep_inv HI].

Lemma guar_insert_reconciliation r : guar step (insert_reconciliation r).
Proof.
  unfold insert_reconciliation. open_statement. destruct (exists_row _ _); cbn; [reflexivity|].
  on_guards Hp. passed Hp. symmetry in Hg. apply check_None, bool_decide_eq_true in Hg.
  apply step_upd. intros HI. split; [evolve; by apply table_ext_fresh; [apply _|]|by keep_inv HI].
Qed.
Lemma guar_update_reconciliation rid f :
  (∀ r, reconciliation_ext r (f r)) → guar step (update_reconciliation rid f).
Proof.
  intros Hf. unfold update_reconciliation. open_statement.
  destruct (d_reconciliations (st_db s) !! rid) as [old|] eqn:Hold; cbn; [|reflexivity].
  destruct (reconciliations_checks _); cbn; [reflexivity|].
  apply step_upd. intros HI. split; [evolve; by eapply table_ext_update; [apply _|..]|by keep_inv HI].
Qed.

Lemma guar_insert_dispute x : guar step (insert_dispute x).
Proof.
  unfold insert_dispute. open_statement. on_guards Hp. passed Hp. symmetry in Hg. apply check_None, bool_decide_eq_true in Hg.
  apply step_upd. intros HI. split; [evolve; by apply table_ext_fresh; [apply _|]|by keep_inv HI].
Qed.
Lemma guar_update_dispute i f :
  (∀ x, di_id (f x) = di_id x ∧ di_order_id (f x) = di_order_id x) → guar step (update_dispute i f).
Proof.
  intros Hf. unfold update_dispute. open_statement.
  destruct (d_disputes (st_db s) !! i) as [old|] eqn:Hold; cbn; [|reflexivity].
  on_guards Hp. passed Hp. destruct (Hf old) as [Hid Hord]. symmetry in Hg. unfold disputes_guard in Hg.
  destruct (negb (_ && String.eqb (di_provider_dispute_id _) _)) eqn:Hsame; [done|].
  apply negb_false_iff in Hsame. rewrite !andb_true_iff, !String.eqb_eq, Z.eqb_eq in Hsame.
  destruct Hsame as ((((? & ?) & ?) & ?) & ?). apply check_None, orb_true_iff in Hg.
  apply step_upd. intros HI. split; [|by keep_inv HI]. evolve. eapply table_ext_update; [apply _|done|].
  split; [unfold dispute_facts; congruence|]. intros Hfin.
  destruct Hg as [Hn|Heq]; [|by apply bool_decide_eq_true in Heq]. by rewrite Hfin in Hn.
Qed.

Lemma put_event_ok s k e :
  (∀ old, d_events (st_db s) !! k = Some old → event_ext old e) → step s (put_event k e s).2.
Proof.
  intros H. apply step_upd. intros HI. split; [|by keep_inv HI]. evolve.
  destruct (d_events (st_db s) !! k) as [old|] eqn:Hk.
  - eapply table_ext_update; [apply _|done|auto].
  - by apply table_ext_fresh; [apply _|].
Qed.
Lemma guar_put_event k e : event_done (we_status e) = true → guar step (put_event k e).
Proof. intros He s. apply put_event_ok. intros old _ _. done. Qed.
Lemma guar_put_deferred k e : guar step (put_deferred k e).
Proof. plain_write. Qed.
Lemma guar_insert_job j : guar step (insert_job j).
Proof.
  unfold insert_job. open_statement. destruct (_ && _); cbn; [reflexivity|]. on_guards Hp.
  apply step_upd. intros HI. split; [evolve|by keep_inv HI].
Qed.
Lemma guar_insert_invoice i : guar step (insert_invoice i).
Proof.
  unfold insert_invoice. open_statement. on_guards Hp. passed Hp. symmetry in Hg. apply check_None, bool_decide_eq_true in Hg.
  apply step_upd. intros HI. split; [evolve; by apply insert_subseteq|by keep_inv HI].
Qed.
Lemma guar_put_sequence k n : guar step (put_sequence k n).
Proof. plain_write. Qed.
Lemma guar_init_store_currency c : guar step (init_store_currency c).
Proof. plain_write. by destruct (d_store_currency d). Qed.
Lemma guar_put_cart c : guar step (put_cart c).
Proof.
  unfold put_cart. open_statement. on_guards Hp. apply step_upd. intros HI. split; [evolve|keep_inv HI].
  intros k c' [[<- <-]|[? ?]]%lookup_insert_Some; [done|by eauto].
Qed.
Lemma guar_put_cart_item i : guar step (put_cart_item i).
Proof.
  unfold put_cart_item. open_statement. on_guards Hp. passed Hp.
  symmetry in Hg0. unfold cart_items_checks in Hg0. apply check_None, Z.ltb_lt in Hg0.
  apply step_upd. intros HI. split; [evolve|keep_inv HI]. intros k i' [[<- <-]|[? ?]]%lookup_insert_Some; [done|by eauto].
Qed.
Lemma guar_update_cart_item i f : (∀ x, ci_id (f x) = ci_id x) → guar step (update_cart_item i f).
Proof.
  intros Hf. unfold update_cart_item. open_statement. destruct (d_cart_items (st_db s) !! i) as [old|] eqn:Hi; cbn; [|reflexivity].
  destruct (cart_items_checks _) eqn:Hc; cbn; [reflexivity|]. unfold cart_items_checks in Hc. apply check_None, Z.ltb_lt in Hc.
  apply step_upd. intros HI. split; [evolve|keep_inv HI]. intros k i' [[<- <-]|[? ?]]%lookup_insert_Some; [|by eauto].
  split; [rewrite Hf; by eapply inv_cart_items0|done].
Qed.
Lemma guar_delete_cart_item i : guar step (delete_cart_item i).
Proof.
  apply guar_upd. intros d HI. split; [evolve|keep_inv HI]. intros k i' [_ ?]%lookup_delete_Some. by eauto.
Qed.
Lemma guar_delete_cart_row i : guar step (delete_cart_row i).
Proof.
  apply guar_upd. intros d HI. split; [evolve|keep_inv HI].
  - intros k c [_ ?]%lookup_delete_Some. by eauto.
  - intros k i' [? _]%map_lookup_filter_Some. by eauto.
Qed.

(** ** Returns and shipments *)

Lemma returned_new d r k : Inv d → d_returns d !! rt_id r = None → returned_of (d <| d_returns ::= <[rt_id r := r]> |>) k = returned_of d k.
Proof.
  intros HI Hr. unfold returned_of, sum_rows; cbn. apply sum_kv_ext. intros j x Hx.
  destruct (inv_return_lines _ HI _ _ Hx) as (r' & i' & Hr' & _). unfold counted; cbn. by rewrite lookup_insert_ne by congruence.
Qed.
Lemma guar_insert_return r : guar step (insert_return r).
Proof.
  unfold insert_return. open_statement. on_guards Hp. passed Hp. symmetry in Hg. apply check_None, bool_decide_eq_true in Hg.
  apply step_upd. intros HI. split; [evolve; by apply table_ext_fresh; [apply _|]|]. pose proof HI as HI'. keep_inv HI.
  - intros k r' [[<- <-]|[? ?]]%lookup_insert_Some; [done|by eauto].
  - intros k x Hx. destruct (inv_return_lines0 _ _ Hx) as (r' & i & Hr & ?). exists r', i.
    rewrite lookup_insert_ne; [done|congruence].
  - intros k i Hi. pose proof (returned_new (st_db s) r k HI' Hg) as Heq. cbn in Heq. rewrite Heq. by apply inv_returned0.
Qed.

Lemma counted_back a b : rtc return_step a b → b ∈ COUNTED → a ∈ COUNTED.
Proof.
  induction 1 as [|a b c Hab _ IH]; [done|]. intros Hc. specialize (IH Hc). unfold return_step, return_next in Hab.
  destruct (String.eqb_spec a "requested") as [->|]; [set_solver|].
  destruct (String.eqb_spec a "approved") as [->|]; [set_solver|].
  destruct (String.eqb_spec a "received") as [->|]; [set_solver|]. by apply elem_of_nil in Hab.
Qed.

(** A change of a return along its life. *)
Lemma step_update_return s rid f :
  (∀ old, d_returns (st_db s) !! rid = Some old → return_ext old (f old)) → step s (update_return rid f s).2.
Proof.
  intros Hf. unfold update_return, of_option, guard, gets, mbind, ST_bind; cbn.
  destruct (d_returns (st_db s) !! rid) as [old|] eqn:Hold; cbn; [|reflexivity].
  destruct (return_requests_checks _); cbn; [reflexivity|]. destruct (Hf _ eq_refl) as (Hfacts & Hst & Hfin).
  unfold return_facts in Hfacts. apply step_upd. intros HI. split; [evolve; by eapply table_ext_update; [apply _|..]|]. keep_inv HI.
  - intros k r' [[<- <-]|[? ?]]%lookup_insert_Some; [|by eauto]. rewrite <-(inv_return_keys0 _ _ Hold). congruence.
  - intros k x Hx. destruct (inv_return_lines0 _ _ Hx) as (r' & i & Hr & ? & Ho).
    destruct (decide (ri_return_id x = rid)) as [Heq|].
    + eexists (f old), i. rewrite Heq, lookup_insert_eq. rewrite Heq in Hr. split_and!; [done..|]. congruence.
    + exists r', i. by rewrite lookup_insert_ne.
  - intros k i Hi. etrans; [|by apply inv_returned0]. unfold returned_of, sum_rows; cbn. apply sum_kv_le. intros j x Hx.
    destruct (inv_return_items0 _ _ Hx) as (_ & ? & _).
    destruct (_ =? k); cbn [andb]; [|done]. unfold counted; cbn.
    destruct (decide (ri_return_id x = rid)) as [->|]; [|by rewrite lookup_insert_ne].
    rewrite lookup_insert_eq, Hold. case_bool_decide as H1; [|case_bool_decide; lia].
    rewrite bool_decide_eq_true_2; [done|]. by eapply counted_back.
Qed.

Lemma guar_update_return_item i f :
  (∀ x, return_item_facts (f x) = return_item_facts x) → guar step (update_return_item i f).
Proof.
  intros Hf. unfold update_return_item. open_statement.
  destruct (d_return_items (st_db s) !! i) as [old|] eqn:Hold; cbn; [|reflexivity].
  destruct (return_request_items_checks _) eqn:Hck; cbn; [reflexivity|]. pose proof (Hf old) as Hfo.
  unfold return_request_items_checks in Hck. passed Hck. symmetry in Hg, Hg1, Hg2.
  apply check_None in Hg, Hg1, Hg2. apply Z.ltb_lt in Hg. apply andb_true_iff in Hg2 as [?%Z.leb_le ?%Z.leb_le].
  assert (default 0 (ri_received_quantity (f old)) ≤ ri_quantity (f old)) as Hrec.
  { destruct (ri_received_quantity (f old)); cbn; [|lia]. by apply andb_true_iff in Hg1 as [_ ?%Z.leb_le]. }
  unfold return_item_facts in Hfo.
  apply step_upd. intros HI. split; [evolve; by eapply table_ext_update; [apply _|..]|]. keep_inv HI.
  - intros k x [[<- <-]|[? ?]]%lookup_insert_Some; [|by eauto]. split_and!; try done.
    rewrite <-(proj1 (inv_return_items0 _ _ Hold)). congruence.
  - intros k x [[<- <-]|[? ?]]%lookup_insert_Some; [|by eauto].
    destruct (inv_return_lines0 _ _ Hold) as (r & it & ? & ? & ?). exists r, it. split_and!; try done; congruence.
  - intros k it Hit. etrans; [|by apply inv_returned0]. unfold returned_of, sum_rows; cbn. rewrite (sum_kv_update _ _ _ _ _ Hold).
    unfold counted; cbn. replace (ri_order_item_id (f old)) with (ri_order_item_id old) by congruence.
    replace (ri_return_id (f old)) with (ri_return_id old) by congruence. replace (ri_quantity (f old)) with (ri_quantity old) by congruence.
    unfold counted. lia.
  - intros j k x y [[<- <-]|[? Hx]]%lookup_insert_Some [[<- <-]|[? Hy]]%lookup_insert_Some Hr Hl; [done|..|by eauto].
    + apply (inv_return_unique0 _ _ _ _ Hold Hy); congruence.
    + apply (inv_return_unique0 _ _ _ _ Hx Hold); congruence.
Qed.

Lemma returned_push d x k :
  d_return_items d !! ri_id x = None →
  returned_of (d <| d_return_items ::= <[ri_id x := x]> |>) k =
  (if (ri_order_item_id x =? k) && counted d (ri_return_id x) then ri_quantity x else 0) + returned_of d k.
Proof. intros Hx. unfold returned_of, sum_rows; cbn. by rewrite sum_kv_fresh. Qed.

(** A new line of a return, within what its order line still has. *)
Lemma step_insert_return_item s x :
  (∀ r i, d_returns (st_db s) !! ri_return_id x = Some r → d_items (st_db s) !! ri_order_item_id x = Some i → oi_order_id i = rt_order_id r) →
  (∀ i, d_items (st_db s) !! ri_order_item_id x = Some i →
     exists_row (λ y, String.eqb (ri_return_id y) (ri_return_id x) && (ri_order_item_id y =? ri_order_item_id x)) (d_return_items (st_db s)) = false →
     returned_of (st_db s) (ri_order_item_id x) + ri_quantity x ≤ oi_quantity i) →
  step s (insert_return_item x s).2.
Proof.
  intros Hord Hfits. unfold insert_return_item, guard, gets, mbind, ST_bind; cbn. on_guards Hp. passed Hp.
  symmetry in Hg, Hg0, Hg1, Hg2, Hg3. apply check_None in Hg, Hg0, Hg2, Hg3.
  apply bool_decide_eq_true in Hg, Hg2, Hg3. apply negb_true_iff in Hg0. destruct Hg2 as [r Hr], Hg3 as [i Hi].
  unfold return_request_items_checks in Hg1. passed Hg1. symmetry in Hg2, Hg4, Hg5. apply check_None in Hg2, Hg4, Hg5.
  apply Z.ltb_lt in Hg2. apply andb_true_iff in Hg5 as [?%Z.leb_le ?%Z.leb_le].
  assert (default 0 (ri_received_quantity x) ≤ ri_quantity x) as Hrec.
  { destruct (ri_received_quantity x); cbn; [|lia]. by apply andb_true_iff in Hg4 as [_ ?%Z.leb_le]. }
  specialize (Hfits _ Hi Hg0). specialize (Hord _ _ Hr Hi).
  apply step_upd. intros HI. split; [evolve; by apply table_ext_fresh; [apply _|]|]. keep_inv HI.
  - intros k y [[<- <-]|[? ?]]%lookup_insert_Some; [by split_and!|by eauto].
  - intros k y [[<- <-]|[? ?]]%lookup_insert_Some; [by eauto 10|by eauto].
  - intros k it Hit. pose proof (returned_push (st_db s) x k Hg) as Heq. cbn in Heq. rewrite Heq. clear Heq.
    pose proof (inv_returned0 _ _ Hit) as Hk. destruct (Z.eqb_spec (ri_order_item_id x) k) as [<-|]; cbn [andb]; [|lia].
    assert (it = i) as -> by congruence. destruct (counted _ _); lia.
  - assert (∀ k y, d_return_items (st_db s) !! k = Some y → ri_return_id y = ri_return_id x → ri_order_item_id y = ri_order_item_id x → False) as Hnew.
    { intros k y Hy E1 E2. apply exists_row_false with (k := k) (v := y) in Hg0; [|done]. by rewrite E1, E2, String.eqb_refl, Z.eqb_refl in Hg0. }
    intros j k y z [[<- <-]|[? Hy]]%lookup_insert_Some [[<- <-]|[? Hz]]%lookup_insert_Some E1 E2; [done|..|by eauto]; exfalso; by eapply Hnew.
Qed.

Lemma guar_insert_shipment x : guar step (insert_shipment x).
Proof. unfold insert_shipment. open_statement. on_guards Hp. apply step_upd. intros HI. split; [evolve|by keep_inv HI]. Qed.
Lemma guar_update_shipment_row i f : guar step (update_shipment_row i f).
Proof.
  unfold update_shipment_row. open_statement. destruct (d_shipments (st_db s) !! i); cbn; [|reflexivity]. on_guards Hp.
  apply step_upd. intros HI. split; [evolve|by keep_inv HI].
Qed.
Lemma guar_delete_shipment_row i : guar step (delete_shipment_row i).
Proof. plain_write. Qed.

#[export] Hint Resolve guar_insert_return guar_insert_shipment guar_update_shipment_row guar_delete_shipment_row : guar.
#[export] Hint Extern 1 (guar step (update_return_item _ _)) => (apply guar_update_return_item; intros; reflexivity) : guar.
#[export] Hint Resolve guar_insert_history guar_insert_audit guar_insert_restock guar_add_product_stock
  guar_add_variant_stock guar_insert_payment guar_insert_refund guar_insert_reconciliation guar_insert_dispute
  guar_put_deferred guar_insert_job guar_insert_invoice guar_put_sequence guar_init_store_currency guar_put_cart
  guar_put_cart_item guar_delete_cart_item guar_delete_cart_row : guar.
#[export] Hint Extern 1 (guar step (update_order _ _)) => (apply guar_update_order; intros; reflexivity) : guar.
#[export] Hint Extern 1 (guar step (insert_order _)) => (apply guar_insert_order; reflexivity) : guar.
#[export] Hint Extern 1 (guar step (insert_item _)) => (apply guar_insert_item; reflexivity) : guar.
#[export] Hint Extern 1 (guar step (update_cart_item _ _)) => (apply guar_update_cart_item; intros; reflexivity) : guar.
#[export] Hint Extern 1 (guar step (update_payment _ _)) => (apply guar_update_payment; intros; reflexivity) : guar.
#[export] Hint Extern 1 (guar step (update_refund _ _)) => (apply guar_update_refund; intros; split_and!; reflexivity) : guar.
#[export] Hint Extern 1 (guar step (update_dispute _ _)) => (apply guar_update_dispute; intros; split_and!; reflexivity) : guar.
#[export] Hint Extern 1 (guar step (update_reconciliation _ _)) =>
  (apply guar_update_reconciliation; intros; repeat split; intros; reflexivity) : guar.

(** *** Accounts: no table that [evolves] or [Inv] speaks of *)

Ltac free_statement := repeat first [plain_write | guar_step | solve [auto with guar typeclass_instances]].
Lemma guar_insert_user u : guar step (insert_user u).
Proof. unfold insert_user. free_statement. Qed.
Lemma guar_update_user_row u f : guar step (update_user_row u f).
Proof. unfold update_user_row. free_statement. Qed.
Lemma guar_insert_refresh_token t : guar step (insert_refresh_token t).
Proof. unfold insert_refresh_token. free_statement. Qed.
Lemma guar_update_refresh_token j f : guar step (update_refresh_token j f).
Proof. unfold update_refresh_token. free_statement. Qed.
Lemma guar_update_refresh_tokens p f : guar step (update_refresh_tokens p f).
Proof. plain_write. Qed.
Lemma guar_insert_auth_token t : guar step (insert_auth_token t).
Proof. unfold insert_auth_token. free_statement. Qed.
Lemma guar_update_auth_tokens p f : guar step (update_auth_tokens p f).
Proof. plain_write. Qed.
Lemma guar_insert_staff_role r : guar step (insert_staff_role r).
Proof. unfold insert_staff_role. free_statement. Qed.
Lemma guar_update_staff_role r f : guar step (update_staff_role r f).
Proof. unfold update_staff_role. free_statement. Qed.
Lemma guar_delete_staff_role r : guar step (delete_staff_role r).
Proof. unfold delete_staff_role. free_statement. Qed.
Lemma guar_put_assignment a : guar step (put_assignment a).
Proof. unfold put_assignment. free_statement. Qed.
Lemma guar_delete_assignment u : guar step (delete_assignment u).
Proof. plain_write. Qed.
#[export] Hint Resolve guar_insert_user guar_update_user_row guar_insert_refresh_token guar_update_refresh_token
  guar_update_refresh_tokens guar_insert_auth_token guar_update_auth_tokens guar_insert_staff_role guar_update_staff_role
  guar_delete_staff_role guar_put_assignment guar_delete_assignment : guar.

(** ** Reading off the committed databases *)

(** A request from a sound state leaves a sound state whose committed tables evolved. *)
Lemma request_sound {A} (m : M A) s :
  guar step m → sound s → sound (get_db m s).2 ∧ evolves (st_committed s) (st_committed (get_db m s).2).
Proof. intros Hm Hs. by apply (guar_get_db m Hm s). Qed.
