(* ===== verification/CatalogueEvolution.v ===== *)
(** * Every statement of the catalogue keeps the tables sound

    The statements of [CatalogueGuards] are steps: stock stays equal to its ledger as products and variants come, change and go,
    and the catalogue stays well-formed. *)

From S2P Require Import Prelude Errors Schema Guards CatalogueGuards CatalogueOk TaxGuards TaxOk Evolution.

Local Open Scope string_scope.
Local Open Scope list_scope.
Local Open Scope Z_scope.

(** ** Stock and its ledger *)

Lemma balance_rows l row pid vid :
  balance_of (l ++ ledger_rows row) pid vid = balance_of l pid vid + (if movement_of pid vid row then sm_delta row else 0).
Proof.
  unfold ledger_rows. destruct (Z.eqb_spec (sm_delta row) 0) as [->|]; [|apply balance_push]. rewrite app_nil_r. destruct (movement_of _ _ _); lia.
Qed.
Lemma balance_none l pid vid : (∀ m, m ∈ l → movement_of pid vid m = false) → balance_of l pid vid = 0.
Proof.
  unfold balance_of, sumZ. induction l as [|m l IH]; cbn; intros Hl; [done|]. rewrite (Hl m) by set_solver. rewrite IH; [done|set_solver].
Qed.
Lemma balance_new_product d k : Inv d → d_products d !! k = None → ledger_balance d k None = 0.
Proof.
  intros HI Hk. apply balance_none. intros m Hm. destruct (inv_movements _ HI _ Hm) as [[p Hp] _]. cbn.
  destruct (Z.eqb_spec (sm_product_id m) k); [congruence|done].
Qed.
Lemma balance_new_variant d pid k : Inv d → d_variants d !! k = None → ledger_balance d pid (Some k) = 0.
Proof.
  intros HI Hk. apply balance_none. intros m Hm. destruct (inv_movements _ HI _ Hm) as [_ Hv]. cbn. apply opt_eqb_ne. intros Heq.
  destruct (Hv _ Heq). congruence.
Qed.
Lemma ledger_rows_elem row m : m ∈ ledger_rows row → m = row.
Proof. unfold ledger_rows. destruct (_ =? 0); [by intros ?%elem_of_nil|by intros ?%list_elem_of_singleton]. Qed.

(** A product written with its ledger row. *)
Lemma product_write d k p' row :
  Inv d → catalogue_ok (MkCatalogue (<[k := p']> (d_products d)) (d_variants d) (d_options d) (d_categories d)) →
  (sm_product_id row, sm_variant_id row) = (k, None) → p_stock p' = ledger_balance d k None + sm_delta row → 0 ≤ p_stock p' → p_id p' = k →
  (∀ c, p_tax_classification_id p' = Some c → approved_classification (tax_of d) c) →
  let d' := d <| d_products ::= <[k := p']> |> <| d_movements ::= λ l, l ++ ledger_rows row |> in evolves d d' ∧ Inv d'.
Proof.
  intros HI Hcat [= Hpid Hvid] Hstock Hpos Hid Htax. cbv zeta. split; [evolve; by apply prefix_app_r|]. keep_inv HI.
  - intros j p. unfold ledger_balance; cbn. rewrite balance_rows; cbn. rewrite Hpid, Hvid.
    intros [[<- <-]|[Hne Hj]]%lookup_insert_Some.
    + rewrite Z.eqb_refl, opt_eqb_refl. cbn. unfold ledger_balance in Hstock. lia.
    + destruct (Z.eqb_spec k j); [done|]. cbn. destruct (inv_products _ _ Hj) as [? Heq]. unfold ledger_balance in Heq. lia.
  - intros j v Hj. unfold ledger_balance; cbn. rewrite balance_rows; cbn. rewrite Hvid, opt_eqb_ne by done.
    destruct (inv_variants _ _ Hj) as [? Heq]. unfold ledger_balance in Heq. lia.
  - intros j p [[<- <-]|[_ Hj]]%lookup_insert_Some; [done|by apply inv_product_keys].
  - intros m [Hm| ->%ledger_rows_elem]%elem_of_app; cbn.
    + destruct (inv_movements _ Hm) as [? ?]. split; [|done]. by apply lookup_insert_is_Some'; right.
    + rewrite Hpid, Hvid. split; [|done]. apply lookup_insert_is_Some'. by left.
  - intros j p c [[<- <-]|[_ Hj]]%lookup_insert_Some; [by apply Htax|by eapply inv_assigned].
Qed.

(** What the assignment guard of the products leaves. *)
Lemma assignment_passed d old new :
  (∀ c, old = Some c → approved_classification (tax_of d) c) → products_tax_assignment_guard d old new = None →
  ∀ c, p_tax_classification_id new = Some c → approved_classification (tax_of d) c.
Proof.
  intros Hold Hg c Hc. unfold products_tax_assignment_guard in Hg. rewrite Hc in Hg.
  apply check_None, orb_true_iff in Hg as [Hg%bool_decide_eq_true|Hg]; [by apply Hold|].
  destruct (d_classifications d !! c) as [k|] eqn:Hk; [|done]. apply String.eqb_eq in Hg. by exists k.
Qed.

(** Variants written with a ledger row, and the price range of their product. *)
Record same_products (ps ps' : gmap Z Product) : Prop := {
  sp_rows : ∀ k p', ps' !! k = Some p' → ∃ p, ps !! k = Some p ∧ (p_stock p', p_id p', p_tax_classification_id p') = (p_stock p, p_id p, p_tax_classification_id p);
  sp_there : ∀ k, is_Some (ps !! k) → is_Some (ps' !! k)
}.
Lemma variants_write d ps' vs' row :
  Inv d → catalogue_ok (MkCatalogue ps' vs' (d_options d) (d_categories d)) → same_products (d_products d) ps' →
  (∀ k v', vs' !! k = Some v' → pv_id v' = k ∧ 0 ≤ pv_stock v' ∧
     pv_stock v' = ledger_balance d (pv_product_id v') (Some k) + (if opt_eqb (sm_variant_id row) (Some k) then sm_delta row else 0)) →
  (sm_variant_id row ≠ None ∨ sm_delta row = 0) →
  (∀ m v, m ∈ d_movements d ++ ledger_rows row → sm_variant_id m = Some v → is_Some (vs' !! v)) →
  (ledger_rows row ≠ [] → is_Some (d_products d !! sm_product_id row)) →
  let d' := d <| d_products := ps' |> <| d_variants := vs' |> <| d_movements ::= λ l, l ++ ledger_rows row |> in evolves d d' ∧ Inv d'.
Proof.
  intros HI Hcat [Hps1 Hps2] Hvs Hrow Hmv Hmp. cbv zeta. split; [evolve; by apply prefix_app_r|]. keep_inv HI.
  - intros j p' Hj. unfold ledger_balance; cbn. rewrite balance_rows; cbn. destruct (Hps1 _ _ Hj) as (p & Hp & [= -> _ _]).
    destruct (inv_products _ _ Hp) as [? Heq]. unfold ledger_balance in Heq.
    destruct Hrow as [Hrow| ->]; [|destruct (_ && _); lia]. rewrite (opt_eqb_ne (sm_variant_id row) None) by done. rewrite andb_false_r. lia.
  - intros j v Hj. destruct (Hvs _ _ Hj) as (_ & ? & Heq). unfold ledger_balance in *; cbn. rewrite balance_rows; cbn. lia.
  - intros j p' Hj. destruct (Hps1 _ _ Hj) as (p & Hp & [= _ -> _]). by apply inv_product_keys.
  - intros j v Hj. by destruct (Hvs _ _ Hj).
  - intros m Hm. split; [|intros v; by apply Hmv]. apply Hps2. apply elem_of_app in Hm as [Hm|Hm].
    + by apply inv_movements.
    + pose proof Hm as Hm'. apply ledger_rows_elem in Hm' as ->. apply Hmp. intros Hnil. rewrite Hnil in Hm. by apply elem_of_nil in Hm.
  - intros j p' c Hj. destruct (Hps1 _ _ Hj) as (p & Hp & [= _ _ ->]). by eapply inv_assigned.
Qed.
Lemma same_products_price ps pid p lo hi : ps !! pid = Some p → same_products ps (<[pid := p <| p_price_from := lo |> <| p_price_to := hi |>]> ps).
Proof.
  intros Hp. split.
  - intros k p' [[<- <-]|[_ Hk]]%lookup_insert_Some; eauto.
  - intros k Hk. rewrite lookup_insert. case_decide; eauto.
Qed.

(** ** Categories *)

Lemma categories_unique_others d c :
  Inv d → categories_unique d c = None →
  ∀ j y, j ≠ cat_id c → d_categories d !! j = Some y → cat_name y ≠ cat_name c ∧ cat_slug y ≠ cat_slug c.
Proof.
  intros HI Hu j y Hne Hj. pose proof (ct_categories _ (inv_catalogue _ HI) _ _ Hj) as Hid. unfold categories_unique in Hu. passed Hu.
  symmetry in Hg, Hg0. apply check_None, negb_true_iff in Hg, Hg0. rewrite exists_row_false in Hg. rewrite exists_row_false in Hg0.
  specialize (Hg _ _ Hj). specialize (Hg0 _ _ Hj). rewrite Hid, (proj2 (Z.eqb_neq _ _) Hne) in Hg, Hg0. cbn in Hg, Hg0.
  apply String.eqb_neq in Hg, Hg0. done.
Qed.
Lemma category_write d k c :
  Inv d → cat_id c = k → categories_unique d c = None →
  evolves d (d <| d_categories ::= <[k := c]> |>) ∧ Inv (d <| d_categories ::= <[k := c]> |>).
Proof.
  intros HI Hid Hu. split; [evolve|]. pose proof (categories_unique_others _ _ HI Hu) as Hoth. keep_inv HI.
  apply (ok_category (catalogue_of d)); [done..|]. by rewrite <-Hid.
Qed.
Lemma guar_insert_category c : guar step (insert_category c).
Proof.
  unfold insert_category. open_statement. on_guards Hp. passed Hp. apply step_upd. intros HI. by apply category_write.
Qed.
Lemma guar_update_category_row k f : (∀ c, cat_id (f c) = cat_id c) → guar step (update_category_row k f).
Proof.
  intros Hf. unfold update_category_row. open_statement. destruct (d_categories (st_db s) !! k) as [old|] eqn:Hold; cbn; [|reflexivity].
  destruct (categories_unique _ _) eqn:Hu; cbn; [reflexivity|]. apply step_upd. intros HI. apply category_write; [done| |done].
  rewrite Hf. by apply (ct_categories _ (inv_catalogue _ HI)).
Qed.

(** ** Products *)

(** What the constraints of a product say of its new row. *)
Lemma products_checks_ok p :
  products_checks p = None → 0 < p_price_cents p ∧ 0 ≤ p_stock p ∧ 0 ≤ p_option_count p ≤ 3 ∧ (p_option_count p ≠ 0 → p_stock p = 0).
Proof.
  unfold products_checks. intros Hp. passed Hp. symmetry in Hg, Hg0, Hg1, Hg2. apply check_None in Hg, Hg0, Hg1, Hg2.
  apply Z.ltb_lt in Hg. apply Z.leb_le in Hg0. apply andb_true_iff in Hg1 as [?%Z.leb_le ?%Z.leb_le].
  split_and!; [done..|]. intros Hn. by apply orb_true_iff in Hg2 as [?%Z.eqb_eq|?%Z.eqb_eq].
Qed.
Lemma products_keys_ok d p :
  Inv d → products_keys d p = None →
  (∀ j q, j ≠ p_id p → d_products d !! j = Some q → p_slug q ≠ p_slug p) ∧ is_Some (d_categories d !! p_category_id p).
Proof.
  intros HI Hk. unfold products_keys in Hk. passed Hk. symmetry in Hg, Hg1. apply check_None in Hg, Hg1.
  apply bool_decide_eq_true in Hg1. split; [|done]. intros j q Hne Hj. apply negb_true_iff in Hg. rewrite exists_row_false in Hg.
  specialize (Hg _ _ Hj). rewrite (inv_product_keys _ HI _ _ Hj), (proj2 (Z.eqb_neq _ _) Hne) in Hg. by apply String.eqb_neq in Hg.
Qed.
Lemma price_summary_range vs p :
  let p' := products_price_summary vs p in
  (p_price_from p', p_price_to p') = product_price_range vs (p_id p) (p_price_cents p) (p_option_count p) ∧
  (p_id p', p_price_cents p', p_option_count p', p_stock p', p_sku p') = (p_id p, p_price_cents p, p_option_count p, p_stock p, p_sku p).
Proof. unfold products_price_summary. by destruct (product_price_range _ _ _ _). Qed.

Lemma guar_insert_product p : guar step (insert_product p).
Proof.
  unfold insert_product; cbv zeta. open_statement. on_guards Hp. passed Hp. cbn in *.
  destruct (price_summary_range (d_variants (st_db s)) p) as [Hr Heq]. cbv zeta in Hr, Heq.
  set (p' := products_price_summary (d_variants (st_db s)) p) in *. injection Heq as E1 E2 E3 E4 E5.
  symmetry in Hg0, Hg1, Hg2, Hg3. apply check_None in Hg0, Hg3. apply bool_decide_eq_true in Hg0. apply negb_true_iff in Hg3.
  apply products_checks_ok in Hg1 as (C1 & C2 & C3 & C4). apply step_upd. intros HI. destruct (products_keys_ok _ _ HI Hg2) as [K1 K2].
  apply product_write; cbn; [done| |done| |done|done|by eapply (assignment_passed _ None)].
  - apply (ok_product (catalogue_of (st_db s))); [apply HI|..].
    + split; [done..| |done]. by rewrite Hr, E1, E2, E3.
    + cbn. congruence.
    + intros _. by apply sku_unregistered.
    + exact K1.
  - rewrite (balance_new_product _ _ HI Hg0). lia.
Qed.

(** The row an update writes: its price range is the current one. *)
Definition updated (vs : gmap Z ProductVariant) (old new : Product) : Product :=
  if (p_price_cents new =? p_price_cents old) && (p_option_count new =? p_option_count old) then new else products_price_summary vs new.
Lemma updated_range vs old new k :
  p_id new = k → (p_price_from new, p_price_to new) = (p_price_from old, p_price_to old) →
  (p_price_from old, p_price_to old) = product_price_range vs k (p_price_cents old) (p_option_count old) →
  let p := updated vs old new in
  p_id p = k ∧ (p_price_from p, p_price_to p) = product_price_range vs k (p_price_cents p) (p_option_count p).
Proof.
  intros <- Hsame Hold. unfold updated. cbv zeta. destruct (_ && _) eqn:Heq.
  - apply andb_true_iff in Heq as [->%Z.eqb_eq ->%Z.eqb_eq]. by rewrite Hsame.
  - destruct (price_summary_range vs new) as [Hr E]. cbv zeta in Hr, E. injection E as -> -> -> _ _. by rewrite Hr.
Qed.
Lemma guar_update_product_row k f :
  (∀ p, (p_id (f p), p_price_from (f p), p_price_to (f p)) = (p_id p, p_price_from p, p_price_to p)) → guar step (update_product_row k f).
Proof.
  intros Hf. unfold update_product_row; cbv zeta. open_statement.
  destruct (d_products (st_db s) !! k) as [old|] eqn:Hold; cbn; [|reflexivity]. on_guards Hp. cbn in *.
  fold (updated (d_variants (st_db s)) old (f old)) in *. apply step_upd. intros HI. specialize (Hf old). injection Hf as Hid F1 F2.
  pose proof (ct_products _ (inv_catalogue _ HI) _ _ Hold) as Hok.
  destruct (updated_range (d_variants (st_db s)) old (f old) k) as [Hkey Hrange];
    [by rewrite Hid, (po_key _ _ _ Hok)|congruence|apply Hok|].
  set (new := updated (d_variants (st_db s)) old (f old)) in *. clearbody new.
  passed Hp. symmetry in Hg0, Hg1, Hg2, Hg3. apply check_None in Hg2, Hg3. apply String.eqb_eq in Hg2.
  apply products_checks_ok in Hg0 as (C1 & C2 & C3 & C4). destruct (products_keys_ok _ _ HI Hg1) as [K1 K2].
  apply product_write; cbn; [done| |done| |done|done|eapply assignment_passed; [|by symmetry]; intros c; by apply (inv_assigned _ HI k old c)].
  - apply (ok_product (catalogue_of (st_db s))); [apply HI|by split|..].
    + intros q Hq. cbn in Hq. simplify_eq. rewrite Hg2. split; [done|]. apply orb_true_iff in Hg3 as [?%Z.eqb_eq|Hv]; [by left|right].
      apply negb_true_iff in Hv. rewrite exists_row_false in Hv. intros j v Hj. apply Z.eqb_neq. by apply (Hv j).
    + cbn. congruence.
    + rewrite <-Hkey. exact K1.
  - destruct (inv_products _ HI _ _ Hold) as [_ Heq]. lia.
Qed.

(** ** Options *)

Lemma options_others d o :
  exists_row (λ x, (po_product_id x =? po_product_id o) && (po_position x =? po_position o)) (d_options d) = false →
  exists_row (λ x, (po_product_id x =? po_product_id o) && same_ci (po_name x) (po_name o)) (d_options d) = false →
  ∀ j q, d_options d !! j = Some q → po_product_id q = po_product_id o → po_position q ≠ po_position o ∧ py_lower (po_name q) ≠ py_lower (po_name o).
Proof.
  intros Hp Hn j q Hj Heq. rewrite exists_row_false in Hp. rewrite exists_row_false in Hn. specialize (Hp _ _ Hj). specialize (Hn _ _ Hj).
  unfold same_ci in Hn. rewrite Heq, Z.eqb_refl in Hp, Hn. cbn in Hp, Hn. by apply Z.eqb_neq in Hp; apply String.eqb_neq in Hn.
Qed.
Lemma options_write d os :
  Inv d → catalogue_ok (MkCatalogue (d_products d) (d_variants d) os (d_categories d)) →
  evolves d (d <| d_options := os |>) ∧ Inv (d <| d_options := os |>).
Proof. intros HI Hok. split; [evolve|by keep_inv HI]. Qed.
Lemma guar_insert_option o : guar step (insert_option o).
Proof.
  unfold insert_option. open_statement. on_guards Hp. passed Hp. symmetry in Hg, Hg0, Hg1, Hg2, Hg3.
  apply check_None in Hg, Hg1, Hg2, Hg3. apply bool_decide_eq_true in Hg, Hg3. apply negb_true_iff in Hg1, Hg2.
  unfold options_checks in Hg0. passed Hg0. symmetry in Hg4. apply check_None, andb_true_iff in Hg4 as [?%Z.leb_le ?%Z.leb_le].
  apply step_upd. intros HI. refine (options_write _ (<[po_id o := o <| po_values := [] |>]> (d_options (st_db s))) HI _).
  apply (ok_option_new (catalogue_of (st_db s))); [apply HI|done| |done|].
  - split; cbn; [done..|]. split; constructor.
  - by apply options_others.
Qed.
Lemma guar_delete_options pid : guar step (delete_options pid).
Proof.
  unfold delete_options; cbv zeta. open_statement. destruct (check _ _) eqn:Hc; cbn; [reflexivity|].
  apply check_None, negb_true_iff in Hc. rewrite exists_row_false in Hc. apply step_upd. intros HI.
  refine (options_write _ (filter (λ kv, po_product_id kv.2 ≠ pid) (d_options (st_db s))) HI _).
  apply (ok_options_delete (catalogue_of (st_db s))); [apply HI|]. intros k o i j v Hk Hp Hi Hj. specialize (Hc _ _ Hj).
  apply not_true_is_false. intros Hh. enough (existsb (λ i, holds_value i v) (flat_map (λ o, map fst (po_values o))
    (rows_where (λ o, po_product_id o =? pid) (d_options (st_db s)))) = true) by congruence.
  apply existsb_exists. exists i. split; [|done]. apply in_flat_map. exists o. rewrite <-!list_elem_of_In. split; [|done].
  apply rows_where_elem. rewrite Z.eqb_eq. eauto.
Qed.

(** The values of an option. *)
Lemma values_unique_ok o vid value :
  values_unique o vid value = None → ∀ x, x ∈ po_values o → x.1 ≠ vid → py_lower x.2 ≠ py_lower value.
Proof.
  unfold values_unique. intros Hu x Hx Hne Heq. passed Hu. symmetry in Hg0. apply check_None, negb_true_iff in Hg0.
  enough (existsb (λ x, negb (x.1 =? vid) && same_ci x.2 value) (po_values o) = true) by congruence.
  apply existsb_exists. exists x. rewrite <-list_elem_of_In. split; [done|]. unfold same_ci.
  by rewrite (proj2 (Z.eqb_neq _ _) Hne), Heq, String.eqb_refl.
Qed.
Lemma guar_insert_option_value oid vid value : guar step (insert_option_value oid vid value).
Proof.
  unfold insert_option_value. open_statement. destruct (d_options (st_db s) !! oid) as [o|] eqn:Ho; cbn; [|reflexivity].
  on_guards Hp. passed Hp. symmetry in Hg, Hg0. apply check_None, negb_true_iff in Hg. rewrite exists_row_false in Hg.
  pose proof (values_unique_ok _ _ _ Hg0) as Huniq. apply step_upd. intros HI.
  pose proof (ct_options _ (inv_catalogue _ HI) _ _ Ho) as [_ _ _ [Hn1 Hn2]].
  assert (Hfresh : ∀ j q, d_options (st_db s) !! j = Some q → vid ∉ map fst (po_values q)).
  { intros j q Hj (x & -> & Hx)%list_elem_of_fmap. specialize (Hg _ _ Hj). cbn in Hg.
    enough (existsb (λ y, y.1 =? x.1) (po_values q) = true) by congruence.
    apply existsb_exists. exists x. by rewrite <-list_elem_of_In, Z.eqb_refl. }
  refine (options_write _ (<[oid := o <| po_values ::= λ l, l ++ [(vid, value)] |>]> (d_options (st_db s))) HI _).
  apply (ok_option_values (catalogue_of (st_db s)) oid o (po_values o ++ [(vid, value)])); [apply HI|done|..].
  - rewrite map_app. apply NoDup_app. split_and!; [done| |apply NoDup_singleton]. intros i Hi ->%list_elem_of_singleton. by apply (Hfresh _ _ Ho) in Hi.
  - rewrite map_app. apply NoDup_app. split_and!; [done| |apply NoDup_singleton]. intros i (x & -> & Hx)%list_elem_of_fmap Hi%list_elem_of_singleton.
    eapply (Huniq x); [done| |exact Hi]. intros Heq. apply (Hfresh _ _ Ho). apply list_elem_of_fmap. by exists x.
  - intros i. rewrite map_app, elem_of_app. cbn. intros [Hi|Hi%list_elem_of_singleton]; [by left|right]. subst. exact Hfresh.
  - intros i Hi. rewrite map_app, elem_of_app. intros Hn. destruct Hn. by left.
Qed.

Lemma value_there o vid : vid ∈ map fst (po_values o) ↔ existsb (λ y, y.1 =? vid) (po_values o) = true.
Proof.
  rewrite existsb_exists, list_elem_of_fmap. split; intros (x & Q1 & Q2); exists x.
  - subst. by rewrite <-list_elem_of_In, Z.eqb_refl.
  - apply Z.eqb_eq in Q2. by rewrite list_elem_of_In.
Qed.
Lemma renamed_ids vid value (l : list (Z * string)) : map fst (map (λ x, if x.1 =? vid then (vid, value) else x) l) = map fst l.
Proof. rewrite map_map. apply map_ext. intros x. destruct (Z.eqb_spec x.1 vid); done. Qed.
Lemma renamed_names vid value (l : list (Z * string)) :
  NoDup (map fst l) → NoDup (map (λ x, py_lower x.2) l) → (∀ x, x ∈ l → x.1 ≠ vid → py_lower x.2 ≠ py_lower value) →
  NoDup (map (λ x, py_lower x.2) (map (λ x, if x.1 =? vid then (vid, value) else x) l)).
Proof.
  induction l as [|[i t] l IH]; cbn; intros Hids Hn Hu; [constructor|]. apply NoDup_cons in Hids as [Hi Hids]. apply NoDup_cons in Hn as [Ht Hn].
  apply NoDup_cons. split; [|apply IH; [done..|]; intros x Hx; apply Hu; by right].
  rewrite map_map. intros (y & Heq & Hy)%list_elem_of_fmap. destruct (Z.eqb_spec i vid) as [->|Hne]; cbn in Heq.
  - destruct (Z.eqb_spec y.1 vid) as [Hv|Hv]; cbn in Heq; [|by eapply (Hu y); [right|..]].
    apply Hi. rewrite <-Hv. apply list_elem_of_fmap. by exists y.
  - destruct (Z.eqb_spec y.1 vid) as [Hv|Hv]; cbn in Heq; [by eapply (Hu (i, t)); [left|..]|].
    apply Ht. rewrite Heq. apply list_elem_of_fmap. by exists y.
Qed.
Lemma guar_update_option_value oid vid value : guar step (update_option_value oid vid value).
Proof.
  unfold update_option_value. open_statement. destruct (d_options (st_db s) !! oid) as [o|] eqn:Ho; cbn; [|reflexivity].
  destruct (values_unique _ _ _) eqn:Hp; cbn; [reflexivity|]. pose proof (values_unique_ok _ _ _ Hp) as Huniq. apply step_upd. intros HI.
  pose proof (ct_options _ (inv_catalogue _ HI) _ _ Ho) as [_ _ _ [Hn1 Hn2]].
  refine (options_write _ (<[oid := o <| po_values ::= map (λ x, if x.1 =? vid then (vid, value) else x) |>]> (d_options (st_db s))) HI _).
  apply (ok_option_values (catalogue_of (st_db s)) oid o (map (λ x, if x.1 =? vid then (vid, value) else x) (po_values o))); [apply HI|done|..].
  - by rewrite renamed_ids.
  - by apply renamed_names.
  - rewrite renamed_ids. by left.
  - by rewrite renamed_ids.
Qed.
Lemma guar_delete_option_value oid vid : guar step (delete_option_value oid vid).
Proof.
  unfold delete_option_value. open_statement. destruct (d_options (st_db s) !! oid) as [o|] eqn:Ho; cbn; [|reflexivity].
  destruct (check _ _) eqn:Hc; cbn; [reflexivity|]. apply check_None, negb_true_iff in Hc. rewrite exists_row_false in Hc. apply step_upd. intros HI.
  pose proof (ct_options _ (inv_catalogue _ HI) _ _ Ho) as [_ _ _ [Hn1 Hn2]].
  refine (options_write _ (<[oid := o <| po_values ::= List.filter (λ x, negb (x.1 =? vid)) |>]> (d_options (st_db s))) HI _).
  assert (Hsub : ∀ {B} (g : Z * string → B), NoDup (map g (po_values o)) → NoDup (map g (List.filter (λ x, negb (x.1 =? vid)) (po_values o)))).
  { intros B g. clear. induction (po_values o) as [|x l IH]; cbn; [done|]. intros [Hx Hl]%NoDup_cons.
    destruct (negb _); cbn; [|by apply IH]. apply NoDup_cons. split; [|by apply IH]. intros (y & Heq & Hy)%list_elem_of_fmap. apply Hx.
    apply list_elem_of_fmap. exists y. split; [done|]. rewrite list_elem_of_In in Hy. apply filter_In in Hy as [Hy _]. by rewrite list_elem_of_In. }
  apply (ok_option_values (catalogue_of (st_db s)) oid o (List.filter (λ x, negb (x.1 =? vid)) (po_values o))); [apply HI|done|by apply Hsub..| |].
  - intros i (x & -> & Hx)%list_elem_of_fmap. left. rewrite list_elem_of_In in Hx. apply filter_In in Hx as [Hx _].
    apply list_elem_of_fmap. exists x. by rewrite list_elem_of_In.
  - intros i (x & -> & Hx)%list_elem_of_fmap Hn j v Hj. destruct (Z.eqb_spec x.1 vid) as [->|Hne]; [by apply (Hc j)|]. destruct Hn.
    apply list_elem_of_fmap. exists x. split; [done|]. rewrite list_elem_of_In. apply filter_In. rewrite <-list_elem_of_In.
    by rewrite (proj2 (Z.eqb_neq _ _) Hne).
Qed.

(** ** Variants *)

(** The tables after a write of variants [vs'] of [pid] and its price range. *)
Definition variants_written (d : DB) (pid : Z) (p : Product) (lo hi : Z) (vs' : gmap Z ProductVariant) (rows : list StockMovement) : DB :=
  d <| d_products := <[pid := p <| p_price_from := lo |> <| p_price_to := hi |>]> (d_products d) |> <| d_variants := vs' |>
    <| d_movements ::= λ l, l ++ rows |>.
Lemma summary_eq d d1 pid p lo hi vs' rows :
  d1 = d <| d_variants := vs' |> <| d_movements ::= λ l, l ++ rows |> → d_products d !! pid = Some p →
  product_price_range vs' pid (p_price_cents p) (p_option_count p) = (lo, hi) →
  variants_price_summary pid d1 = variants_written d pid p lo hi vs' rows.
Proof. intros -> Hp Hr. unfold variants_price_summary. cbn. by rewrite Hp, Hr. Qed.

Lemma variants_checks_ok c k v p :
  variants_checks v = None → pv_id v = k → c_products c !! pv_product_id v = Some p → p_option_count p = pv_option_count v →
  slot_ok (c_options c) (pv_product_id v) 1 (pv_value1_id v) = true → slot_ok (c_options c) (pv_product_id v) 2 (pv_value2_id v) = true →
  slot_ok (c_options c) (pv_product_id v) 3 (pv_value3_id v) = true → variant_ok c k v ∧ 0 ≤ pv_stock v.
Proof.
  unfold variants_checks. intros Hv Hid Hp Hn S1 S2 S3. passed Hv. symmetry in Hg, Hg0, Hg1, Hg2. apply check_None in Hg, Hg0, Hg1, Hg2.
  apply Z.leb_le in Hg0. apply andb_true_iff in Hg1 as [?%Z.leb_le ?%Z.leb_le].
  apply andb_true_iff in Hg2 as [[E1%eqb_prop E2%eqb_prop]%andb_true_iff E3%eqb_prop].
  assert (Hset : ∀ (x : option Z) (n : Z), (if x then true else false) = (n <=? pv_option_count v) → is_Some x ↔ n ≤ pv_option_count v).
  { intros x n Heq. rewrite <-Z.leb_le, <-Heq. split; [by intros [? ->]|]. destruct x; [eauto|done]. }
  split; [|done]. split; [done| |by exists p|done|split_and!; by apply Hset|done].
  intros x Hx. rewrite Hx in Hg. by apply Z.ltb_lt in Hg.
Qed.

Lemma guar_insert_variant v : guar step (insert_variant v).
Proof.
  unfold insert_variant; cbv zeta. open_statement. on_guards Hp. passed Hp. cbn in *.
  symmetry in Hg, Hg0, Hg1, Hg2, Hg3, Hg4, Hg5, Hg6. apply check_None in Hg, Hg1, Hg2, Hg3, Hg4, Hg5, Hg6.
  apply bool_decide_eq_true in Hg. apply negb_true_iff in Hg1, Hg2. rewrite exists_row_false in Hg1.
  destruct (d_products (st_db s) !! pv_product_id v) as [p|] eqn:Hprod; [|done]. apply Z.eqb_eq in Hg3.
  destruct (variants_checks_ok (catalogue_of (st_db s)) (pv_id v) v p) as [Hok Hpos]; [done..|].
  apply step_upd. intros HI. set (vs' := <[pv_id v := v]> (d_variants (st_db s))).
  destruct (product_price_range vs' (pv_product_id v) (p_price_cents p) (p_option_count p)) as [lo hi] eqn:Hr.
  set (row := stock_ledger_first _ _ _ _). rewrite (summary_eq (st_db s) _ _ p lo hi vs' (ledger_rows row)) by done.
  apply (variants_write (st_db s) (<[pv_product_id v := p <| p_price_from := lo |> <| p_price_to := hi |>]> (d_products (st_db s))) vs' row HI).
  - apply (ok_variants (catalogue_of (st_db s))); [apply HI|done|done|..].
    + intros k w [[<- <-]|[_ Hk]]%lookup_insert_Some; [done|]. by apply (ct_variants _ (inv_catalogue _ HI)).
    + intros j k w x [[<- <-]|[_ Hj]]%lookup_insert_Some [[<- <-]|[_ Hk]]%lookup_insert_Some Hc; [done|..].
      * specialize (Hg1 _ _ Hk). by apply bool_decide_eq_false in Hg1.
      * specialize (Hg1 _ _ Hj). by apply bool_decide_eq_false in Hg1.
      * by eapply (ct_combos _ (inv_catalogue _ HI)).
    + intros k base n Hne. apply range_other; [intros w Hw; cbn in Hw; congruence|done].
    + refine (skus_fresh (catalogue_of (st_db s)) _ (inr (pv_id v)) (sku_norm (pv_sku v)) _ _ (sku_unregistered _ _ Hg2) (ct_skus _ (inv_catalogue _ HI))).
      * intros [j|j] Hne; cbn; [done|]. unfold vs'. rewrite lookup_insert_ne; [done|congruence].
      * cbn. unfold vs'. by rewrite lookup_insert_eq.
  - by apply same_products_price.
  - intros k w [[<- <-]|[Hne Hk]]%lookup_insert_Some.
    + split_and!; [done..|]. rewrite (balance_new_variant _ _ _ HI Hg). cbn. rewrite opt_eqb_refl. lia.
    + destruct (inv_variants _ HI _ _ Hk) as [? Heq]. split_and!; [by apply (inv_variant_keys _ HI)|done|]. cbn.
      rewrite opt_eqb_ne by congruence. lia.
  - by left.
  - intros m w [Hm| ->%ledger_rows_elem]%elem_of_app; cbn.
    + intros Hw. apply lookup_insert_is_Some'. right. by apply (inv_movements _ HI _ Hm).
    + intros [= <-]. apply lookup_insert_is_Some'. by left.
  - intros _. by eexists.
Qed.

Lemma guar_update_variant_row k f :
  (∀ v, (pv_id (f v), combo_of (f v), pv_option_count (f v)) = (pv_id v, combo_of v, pv_option_count v)) → guar step (update_variant_row k f).
Proof.
  intros Hf. unfold update_variant_row; cbv zeta. open_statement.
  destruct (d_variants (st_db s) !! k) as [old|] eqn:Hold; cbn; [|reflexivity]. on_guards Hp. passed Hp. cbn in *.
  symmetry in Hg, Hg0. apply check_None, String.eqb_eq in Hg0. specialize (Hf old). injection Hf as E1 E2 E3 E4 E5 E6.
  apply step_upd. intros HI. pose proof (ct_variants _ (inv_catalogue _ HI) _ _ Hold) as [V1 V2 (p & Hprod & Hn) V4 V5 (S1 & S2 & S3)]. cbn in Hprod.
  cbn [catalogue_of c_options] in S1, S2, S3.
  destruct (variants_checks_ok (catalogue_of (st_db s)) k (f old) p) as [Hok Hpos]; [done|congruence|cbn [catalogue_of c_options c_products]; congruence..|].
  set (vs' := <[k := f old]> (d_variants (st_db s))).
  destruct (product_price_range vs' (pv_product_id old) (p_price_cents p) (p_option_count p)) as [lo hi] eqn:Hr.
  set (row := stock_ledger_row _ _ _ _ _). rewrite (summary_eq (st_db s) _ _ p lo hi vs' (ledger_rows row)) by done.
  apply (variants_write (st_db s) (<[pv_product_id old := p <| p_price_from := lo |> <| p_price_to := hi |>]> (d_products (st_db s))) vs' row HI).
  - apply (ok_variants (catalogue_of (st_db s))); [apply HI|done|done|..].
    + intros j w [[<- <-]|[_ Hj]]%lookup_insert_Some; [done|]. by apply (ct_variants _ (inv_catalogue _ HI)).
    + assert (Hcombo : combo_of (f old) = combo_of old) by (unfold combo_of; congruence).
      intros i j w x [[<- <-]|[_ Hi]]%lookup_insert_Some [[<- <-]|[_ Hj]]%lookup_insert_Some Hc; [done|..];
        eapply (ct_combos _ (inv_catalogue _ HI)); try done; congruence.
    + intros j base n Hne. apply range_other; [intros w Hw; cbn in Hw; congruence|congruence].
    + refine (skus_sub (catalogue_of (st_db s)) _ _ (ct_skus _ (inv_catalogue _ HI))). intros [j|j] x; cbn; [done|].
      unfold vs'. rewrite lookup_insert. case_decide; [|done]. subst. rewrite Hold. cbn. by rewrite Hg0.
  - by apply same_products_price.
  - intros j w [[<- <-]|[Hne Hj]]%lookup_insert_Some.
    + split_and!; [congruence|done|]. destruct (inv_variants _ HI _ _ Hold) as [? Heq]. cbn. rewrite opt_eqb_refl, E2. lia.
    + destruct (inv_variants _ HI _ _ Hj) as [? Heq]. split_and!; [by apply (inv_variant_keys _ HI)|done|]. cbn.
      rewrite opt_eqb_ne by congruence. lia.
  - by left.
  - intros m w [Hm| ->%ledger_rows_elem]%elem_of_app; cbn.
    + intros Hw. apply lookup_insert_is_Some'. right. by apply (inv_movements _ HI _ Hm).
    + intros [= <-]. apply lookup_insert_is_Some'. by left.
  - intros _. by eexists.
Qed.

Lemma guar_delete_variant_row k : guar step (delete_variant_row k).
Proof.
  unfold delete_variant_row. open_statement. destruct (d_variants (st_db s) !! k) as [old|] eqn:Hold; cbn; [|reflexivity].
  on_guards Hp. passed Hp. symmetry in Hg1. apply check_None, negb_true_iff in Hg1. apply step_upd. intros HI.
  destruct (vo_product _ _ _ (ct_variants _ (inv_catalogue _ HI) _ _ Hold)) as (p & Hprod & Hn). cbn in Hprod.
  set (vs' := delete k (d_variants (st_db s))).
  destruct (product_price_range vs' (pv_product_id old) (p_price_cents p) (p_option_count p)) as [lo hi] eqn:Hr.
  rewrite (summary_eq (st_db s) _ _ p lo hi vs' (ledger_rows (MkMovement "" 0 None 0 0 0 None None None))); [|cbn; by rewrite app_nil_r|done..].
  apply (variants_write (st_db s) (<[pv_product_id old := p <| p_price_from := lo |> <| p_price_to := hi |>]> (d_products (st_db s))) vs'
    (MkMovement "" 0 None 0 0 0 None None None) HI); cbn.
  - apply (ok_variants (catalogue_of (st_db s))); [apply HI|done|done|..].
    + intros j w [_ Hj]%lookup_delete_Some. by apply (ct_variants _ (inv_catalogue _ HI)).
    + intros i j w x [_ Hi]%lookup_delete_Some [_ Hj]%lookup_delete_Some. by eapply (ct_combos _ (inv_catalogue _ HI)).
    + intros j base n Hne. apply range_delete. intros w Hw. cbn in Hw. congruence.
    + refine (skus_sub (catalogue_of (st_db s)) _ _ (ct_skus _ (inv_catalogue _ HI))). intros [j|j] x; cbn; [done|].
      unfold vs'. rewrite lookup_delete. by case_decide.
  - by apply same_products_price.
  - intros j w [_ Hj]%lookup_delete_Some. destruct (inv_variants _ HI _ _ Hj). rewrite opt_eqb_ne by done.
    split_and!; [by apply (inv_variant_keys _ HI)|done|lia].
  - by right.
  - rewrite app_nil_r. intros m w Hm Hw. unfold vs'. rewrite lookup_delete_ne; [by apply (inv_movements _ HI _ Hm)|]. intros ->.
    enough (existsb (λ m, opt_eqb (sm_variant_id m) (Some w)) (d_movements (st_db s)) = true) by congruence.
    apply existsb_exists. exists m. rewrite <-list_elem_of_In, Hw. split; [done|apply opt_eqb_refl].
  - done.
Qed.

(** ** The other tables *)

Lemma guar_delete_cart_items_of pid : guar step (delete_cart_items_of pid).
Proof.
  unfold delete_cart_items_of. solve_guar. apply guar_upd. intros d HI. split; [evolve|keep_inv HI].
  intros k i [Hi _]%map_lookup_filter_Some. by apply inv_cart_items.
Qed.
Lemma guar_insert_address a : guar step (insert_address a).
Proof. unfold insert_address. free_statement. Qed.
Lemma guar_update_address_row k f : guar step (update_address_row k f).
Proof. unfold update_address_row. free_statement. Qed.
Lemma guar_delete_address_row k : guar step (delete_address_row k).
Proof. plain_write. Qed.
Lemma guar_insert_review r : guar step (insert_review r).
Proof. unfold insert_review. free_statement. Qed.
Lemma guar_update_review k f : guar step (update_review k f).
Proof. unfold update_review. free_statement. Qed.
Lemma guar_delete_review k : guar step (delete_review k).
Proof. plain_write. Qed.
Lemma guar_insert_wishlist_item w : guar step (insert_wishlist_item w).
Proof. unfold insert_wishlist_item. free_statement. Qed.
Lemma guar_delete_wishlist_item u p : guar step (delete_wishlist_item u p).
Proof. plain_write. Qed.

#[export] Hint Resolve guar_insert_category guar_insert_product guar_insert_option guar_delete_options guar_insert_option_value
  guar_update_option_value guar_delete_option_value guar_insert_variant guar_delete_variant_row guar_delete_cart_items_of
  guar_insert_address guar_update_address_row guar_delete_address_row guar_insert_review guar_update_review guar_delete_review
  guar_insert_wishlist_item guar_delete_wishlist_item : guar.
#[export] Hint Extern 1 (guar step (update_category_row _ _)) => (apply guar_update_category_row; intros; reflexivity) : guar.
#[export] Hint Extern 1 (guar step (update_product_row _ _)) => (apply guar_update_product_row; intros; repeat case_match; reflexivity) : guar.
#[export] Hint Extern 1 (guar step (update_variant_row _ _)) => (apply guar_update_variant_row; intros; repeat case_match; reflexivity) : guar.
