(* ===== verification/TaxEvolution.v ===== *)
(** * Every statement of the tax masters keeps the tables sound

    The two statements of [TaxGuards] are steps, for each of the four tables. [TaxMasterOk] is what a table promises for that;
    its [tm_link] is the part the database does not check and the services do before they write. *)

From S2P Require Import Prelude Decimal Errors Schema Guards CatalogueGuards CatalogueOk TaxGuards TaxOk Evolution.

Local Open Scope string_scope.
Local Open Scope list_scope.
Local Open Scope Z_scope.

Class TaxMasterOk (A : Type) `{!TaxMaster A} := {
  tm_laws :: TaxMasterLaws A;
  (** What a service knows when it turns the stored row into another one. *)
  tm_link : DB → A → A → Prop;
  tm_link_same d (old new : A) : tm_status new = tm_status old → tm_link d old new;
  tm_row d k (a : A) : tax_ok (tax_of d) → tm_table d !! k = Some a → tm_id a = k ∧ tm_status a ∈ STATUSES;
  tm_insert_ok d (a : A) :
    Inv d → tm_table d !! tm_id a = None → tm_status a = "draft" → tm_constraints d a = None →
    evolves d (tm_store (tm_id a) a d) ∧ Inv (tm_store (tm_id a) a d);
  tm_update_ok d (old a : A) :
    Inv d → tm_table d !! tm_id a = Some old → master_ext old a → tm_other_triggers d old a = None → tm_constraints d a = None → tm_link d old a →
    evolves d (tm_store (tm_id a) a d) ∧ Inv (tm_store (tm_id a) a d)
}.

Section steps.
Context {A : Type} `{!TaxMaster A} `{!TaxMasterOk A}.

Lemma guar_insert_record (a : A) : guar step (insert_record a).
Proof.
  unfold insert_record; cbv zeta. open_statement. on_guards Hp. constraints_passed Hp. unfold tax_master_guard_insert in Hg.
  apply bool_decide_eq_true in Hg0. symmetry in Hg, Hg1. apply check_None, String.eqb_eq in Hg.
  apply step_upd. intros HI. by apply tm_insert_ok.
Qed.
(** An update of a row the service knows how to link. *)
Lemma step_update_record (a : A) s :
  (∀ old, tm_table (st_db s) !! tm_id a = Some old → tm_link (st_db s) old (tm_columns a)) → step s (update_record a s).2.
Proof.
  intros Hlink. destruct (columns_keep a) as (Hid & _ & _). unfold update_record, of_option, guard, gets, mbind, ST_bind; cbn.
  destruct (tm_table (st_db s) !! tm_id (tm_columns a)) as [old|] eqn:Hold; cbn; [|reflexivity]. on_guards Hp. passed Hp.
  symmetry in Hg, Hg0, Hg1. apply step_upd. intros HI. destruct (tm_row _ _ _ (inv_tax _ HI) Hold) as [Hk Hst].
  apply (tm_update_ok _ old); try done; [by apply master_guard_ext|]. apply Hlink. by rewrite <-Hid.
Qed.
Lemma step_update_same (a row : A) s :
  tm_table (st_db s) !! tm_id a = Some row → tm_status a = tm_status row → step s (update_record a s).2.
Proof.
  intros Hrow Hst. apply step_update_record. intros old Hold. destruct (columns_keep a) as (_ & Hc & _). apply tm_link_same. congruence.
Qed.
End steps.

(** ** The four tables *)

Lemma unassigned_draft d k c : Inv d → d_classifications d !! k = Some c → tc_status c ≠ "approved" →
  (∀ j r, d_rules d !! j = Some r → tr_classification_id r = k → tr_status r ≠ "approved") ∧
  (∀ j p, d_products d !! j = Some p → p_tax_classification_id p ≠ Some k).
Proof.
  intros HI Hk Hn. split; intros j r Hr Heq.
  - intros Ha. destruct (tk_rule_link _ (inv_tax _ HI) _ _ Hr Ha) as (x & Hx & Hxa). cbn in Hx. rewrite Heq in Hx. congruence.
  - destruct (inv_assigned _ HI _ _ _ Hr Heq) as (x & Hx & Hxa). cbn in Hx. congruence.
Qed.

(** A classification without approved rules and products may be written with any status. *)
Lemma classification_write d c :
  Inv d → classifications_constraints d c = None → (match d_classifications d !! tc_id c with Some old => master_ext old c | None => True end) →
  (tc_status c ≠ "approved" →
     (∀ k r, d_rules d !! k = Some r → tr_classification_id r = tc_id c → tr_status r ≠ "approved") ∧
     (∀ k p, d_products d !! k = Some p → p_tax_classification_id p ≠ Some (tc_id c))) →
  evolves d (tm_store (tm_id c) c d) ∧ Inv (tm_store (tm_id c) c d).
Proof.
  intros HI Hc Hext Hlink. cbn. split.
  - evolve. destruct (d_classifications d !! tc_id c) eqn:Hold; [by eapply table_ext_update; [apply _|..]|by apply table_ext_fresh; [apply _|]].
  - pose proof (ok_classification _ (inv_tax _ HI) c Hc) as Hok. keep_inv HI.
    + apply Hok. intros Hn. by apply Hlink.
    + intros k p cid Hp Ha. destruct (inv_assigned _ _ _ Hp Ha) as (x & Hx & Hxa). destruct (decide (cid = tc_id c)) as [->|].
      * exists c. cbn. rewrite lookup_insert_eq. split; [done|]. destruct (decide (tc_status c = "approved")) as [|Hn]; [done|].
        by destruct (proj2 (Hlink Hn) _ _ Hp).
      * exists x. cbn. by rewrite lookup_insert_ne.
Qed.
#[export] Instance classification_master_ok : TaxMasterOk TaxClassification.
Proof.
  unshelve refine {| tm_link := λ d (old new : TaxClassification), tc_status old = "approved" → tc_status new ≠ "approved" →
    ∀ k r, d_rules d !! k = Some r → tr_classification_id r = tc_id new → tr_status r ≠ "approved" |}.
  - intros d old new Hs Ha Hn. cbn in Hs. congruence.
  - intros d k a Hok Hk. destruct (tk_classifications _ Hok _ _ Hk) as [? Hc]. split; [done|]. unfold classifications_checks in Hc.
    constraints_passed Hc. by apply bool_decide_eq_true in Hg2.
  - intros d a HI Hn Hd Hc. cbn in Hn, Hd. apply classification_write; [done|done|by rewrite Hn|]. intros _. split.
    + intros k r Hr Heq. destruct (tk_rule_classification _ (inv_tax _ HI) _ _ Hr) as [x Hx]. cbn in Hx. congruence.
    + intros k p Hp Heq. destruct (inv_assigned _ HI _ _ _ Hp Heq) as (x & Hx & _). cbn in Hx. congruence.
  - intros d old a HI Hold Hext Htr Hc Hlink. cbn in Hold, Htr. apply classification_write; [done|done|by rewrite Hold|]. intros Hn.
    destruct (decide (tc_status old = "approved")) as [Ha|Ha]; [|exact (unassigned_draft _ _ _ HI Hold Ha)]. split; [by apply Hlink|].
    assert (tc_status a = "retired") as Hr.
    { destruct (me_status _ _ Hext) as [H|H]; cbn in *; [by rewrite Ha|congruence|done]. }
    intros k p Hp Heq. unfold tax_classification_retire_guard in Htr. rewrite Hr, Ha in Htr. cbn in Htr. apply check_None, negb_true_iff in Htr.
    rewrite exists_row_false in Htr. specialize (Htr _ _ Hp). apply bool_decide_eq_false in Htr.
    destruct (tk_classifications _ (inv_tax _ HI) _ _ Hold) as [Hid _]. congruence.
Defined.

#[export] Instance rule_master_ok : TaxMasterOk TaxRule.
Proof.
  unshelve refine {| tm_link := λ d (old new : TaxRule), tr_status old = "draft" → tr_status new = "approved" →
    approved_classification (tax_of d) (tr_classification_id new) |}.
  - intros d old new Hs Ha Hn. cbn in Hs. congruence.
  - intros d k a Hok Hk. destruct (tk_rules _ Hok _ _ Hk) as [? Hc]. split; [done|]. unfold rules_checks in Hc.
    constraints_passed Hc. by apply bool_decide_eq_true in Hg2.
  - intros d a HI Hn Hd Hc. cbn in *. split; [evolve; by apply table_ext_fresh; [apply _|]|].
    pose proof (ok_rule _ (inv_tax _ HI) a Hc) as Hok. keep_inv HI. apply Hok. congruence.
  - intros d old a HI Hold Hext _ Hc Hlink. cbn in *. split; [evolve; by eapply table_ext_update; [apply _|..]|].
    pose proof (ok_rule _ (inv_tax _ HI) a Hc) as Hok. pose proof (inv_tax _ HI) as Ht. keep_inv HI. apply Hok. intros Ha.
    destruct (decide (tr_status old = "draft")) as [Hd|Hd]; [by apply Hlink|].
    pose proof (f_equal tr_classification_id (me_core _ _ Hext Hd)) as Hcl. cbn in Hcl. rewrite Hcl. apply (tk_rule_link _ Ht _ _ Hold).
    destruct (me_status _ _ Hext Hd) as [H|H]; cbn in H; congruence.
Defined.

(** A registration without approved configurations may be written with any status. *)
Lemma registration_write d g :
  Inv d → registrations_constraints d g = None → (match d_registrations d !! gr_id g with Some old => master_ext old g | None => True end) →
  (gr_status g ≠ "approved" → ∀ k b, d_tax_settings d !! k = Some b → ts_registration_id b = gr_id g → ts_status b ≠ "approved") →
  evolves d (tm_store (gr_id g) g d) ∧ Inv (tm_store (gr_id g) g d).
Proof.
  intros HI Hc Hext Hlink. cbn. split.
  - evolve. destruct (d_registrations d !! gr_id g) eqn:Hold; [by eapply table_ext_update; [apply _|..]|by apply table_ext_fresh; [apply _|]].
  - pose proof (ok_registration _ (inv_tax _ HI) g Hc Hlink) as Hok. keep_inv HI.
Qed.
#[export] Instance registration_master_ok : TaxMasterOk GstRegistration.
Proof.
  unshelve refine {| tm_link := λ d (old new : GstRegistration), gr_status old = "approved" → gr_status new ≠ "approved" →
    ∀ k b, d_tax_settings d !! k = Some b → ts_registration_id b = gr_id new → ts_status b ≠ "approved" |}.
  - intros d old new Hs Ha Hn. cbn in Hs. congruence.
  - intros d k a Hok Hk. destruct (tk_registrations _ Hok _ _ Hk) as [? Hc]. split; [done|]. unfold registrations_checks in Hc.
    constraints_passed Hc. by apply bool_decide_eq_true in Hg4.
  - intros d a HI Hn Hd Hc. cbn in Hn, Hd. apply registration_write; [done|done|by rewrite Hn|]. intros _ k b Hb Heq.
    destruct (tk_settings_registration _ (inv_tax _ HI) _ _ Hb) as [x Hx]. cbn in Hx. congruence.
  - intros d old a HI Hold Hext _ Hc Hlink. cbn in Hold. apply registration_write; [done|done|by rewrite Hold|]. intros Hn.
    destruct (decide (gr_status old = "approved")) as [Ha|Ha]; [by apply Hlink|]. intros k b Hb Heq Hba.
    destruct (tk_settings_link _ (inv_tax _ HI) _ _ Hb Hba) as (x & Hx & Hxa). cbn in Hx. rewrite Heq in Hx. congruence.
Defined.

#[export] Instance settings_master_ok : TaxMasterOk BusinessTaxSettings.
Proof.
  unshelve refine {| tm_link := λ d (old new : BusinessTaxSettings), ts_status old = "draft" → ts_status new = "approved" →
    approved_registration (tax_of d) (ts_registration_id new) |}.
  - intros d old new Hs Ha Hn. cbn in Hs. congruence.
  - intros d k a Hok Hk. destruct (tk_settings _ Hok _ _ Hk) as [? Hc]. split; [done|]. unfold settings_checks in Hc.
    constraints_passed Hc. by apply bool_decide_eq_true in Hg5.
  - intros d a HI Hn Hd Hc. cbn in *. split; [evolve; by apply table_ext_fresh; [apply _|]|].
    pose proof (ok_settings _ (inv_tax _ HI) a Hc) as Hok. keep_inv HI. apply Hok. congruence.
  - intros d old a HI Hold Hext _ Hc Hlink. cbn in *. split; [evolve; by eapply table_ext_update; [apply _|..]|].
    pose proof (ok_settings _ (inv_tax _ HI) a Hc) as Hok. pose proof (inv_tax _ HI) as Ht. keep_inv HI. apply Hok. intros Ha.
    destruct (decide (ts_status old = "draft")) as [Hd|Hd]; [by apply Hlink|].
    pose proof (f_equal ts_registration_id (me_core _ _ Hext Hd)) as Hcl. cbn in Hcl. rewrite Hcl. apply (tk_settings_link _ Ht _ _ Hold).
    destruct (me_status _ _ Hext Hd) as [H|H]; cbn in H; congruence.
Defined.
#[export] Hint Resolve guar_insert_record : guar.
