(* ===== verification/GatewayEvolution.v ===== *)
(** * Every statement on the payment gateways keeps the tables sound

    The statements of [GatewayGuards] are steps. An update asks for what the database does not check: that the row is still
    about the same gateway, with a new version for new secrets, and that it is [config_sound]. *)

From S2P Require Import Prelude Decimal Errors Schema Guards TaxOk GatewayGuards Evolution.

Local Open Scope string_scope.
Local Open Scope list_scope.
Local Open Scope Z_scope.

Lemma settings_ok_ext m m' p : table_ext config_ext m m' → settings_ok m p → settings_ok m' p.
Proof.
  intros Hext Hp Ha. destruct (Hp Ha) as (H1 & H2 & k & c & Hk & Hc & Hm). split; [done|]. split; [done|].
  destruct (Hext _ _ Hc) as (c' & Hc' & []). exists k, c'. split; [done|]. split; [done|]. congruence.
Qed.

(** The gateways change to ones that extend them. *)
Lemma configs_write d m :
  Inv d → table_ext config_ext (d_configs d) m → gateways_ok m → evolves d (d <| d_configs := m |>) ∧ Inv (d <| d_configs := m |>).
Proof.
  intros HI Hext Hok. split; [by evolve|]. keep_inv HI. intros p Hp. eapply settings_ok_ext; [done|by apply inv_payment_settings].
Qed.

Lemma guar_insert_config c : config_sound c → guar step (insert_config c).
Proof.
  intros Hs. unfold insert_config. open_statement. destruct (negb (columns_fit c)); cbn; [reflexivity|]. on_guards Hp. passed Hp.
  symmetry in Hg, Hg0. apply check_None, bool_decide_eq_true in Hg. apply step_upd. intros HI.
  apply (configs_write _ (<[cf_id c := c]> (d_configs (st_db s)))); [done| |].
  - by apply table_ext_fresh; [apply _|].
  - by apply ok_config; [apply inv_gateways| |].
Qed.
Lemma step_save_config c s :
  (∀ old, d_configs (st_db s) !! cf_id c = Some old → config_ext old c) → config_sound c → step s (save_config c s).2.
Proof.
  intros Hext Hs. unfold save_config, of_option, guard, gets, mbind, ST_bind; cbn.
  destruct (d_configs (st_db s) !! cf_id c) as [old|] eqn:Hold; cbn; [|reflexivity]. destruct (negb (columns_fit c)); cbn; [reflexivity|].
  destruct (configs_constraints (st_db s) c) eqn:Hc; cbn; [reflexivity|]. apply step_upd. intros HI.
  apply (configs_write _ (<[cf_id c := c]> (d_configs (st_db s)))); [done| |].
  - eapply table_ext_update; [apply _|done|by apply Hext].
  - by apply ok_config; [apply inv_gateways| |].
Qed.
Lemma unprefer_ext c : config_ext c (unprefer c).
Proof. by split. Qed.
Lemma guar_clear_preferred : guar step clear_preferred.
Proof.
  apply guar_upd. intros d HI. apply (configs_write _ (unprefer <$> d_configs d)); [done| |by apply ok_unprefer, inv_gateways].
  intros k c Hk. exists (unprefer c). rewrite lookup_fmap, Hk. split; [done|apply unprefer_ext].
Qed.

Lemma settings_write d p :
  Inv d → settings_ok (d_configs d) p → evolves d (d <| d_payment_settings := Some p |>) ∧ Inv (d <| d_payment_settings := Some p |>).
Proof. intros HI Hp. split; [by evolve|]. keep_inv HI. by intros q [= <-]. Qed.
Lemma guar_ensure_payment_settings : guar step ensure_payment_settings.
Proof.
  apply guar_upd. intros d HI. apply (settings_write _ (default default_payment_settings (d_payment_settings d))); [done|].
  destruct (d_payment_settings d) eqn:Hp; [by apply inv_payment_settings|done].
Qed.
Lemma step_save_payment_settings p s : (Inv (st_db s) → settings_ok (d_configs (st_db s)) p) → step s (save_payment_settings p s).2.
Proof.
  intros Hok. unfold save_payment_settings, of_option, guard, gets, mbind, ST_bind; cbn.
  destruct (d_payment_settings (st_db s)); cbn; [|reflexivity]. on_guards Hp. apply step_upd. intros HI. apply settings_write; auto.
Qed.
#[export] Hint Resolve guar_clear_preferred guar_ensure_payment_settings : guar.
