(* ===== verification/GstStates.v ===== *)
(** * [app/modules/tax/gst_states.py]: the GST state codes and the reader of a typed state

    Text is ASCII here: [casefold] is lower-casing, and a character outside [a-z0-9 ] becomes a space. *)

From S2P Require Import Prelude.

Local Open Scope string_scope.
Local Open Scope list_scope.

Record GstState := MkState { gs_code : string; gs_name : string }.
#[export] Instance GstState_eq_dec : EqDecision GstState.
Proof. solve_decision. Defined.

Definition STATES : list GstState := map (λ '(c, n), MkState c n)
  [("01", "Jammu and Kashmir"); ("02", "Himachal Pradesh"); ("03", "Punjab"); ("04", "Chandigarh");
   ("05", "Uttarakhand"); ("06", "Haryana"); ("07", "Delhi"); ("08", "Rajasthan");
   ("09", "Uttar Pradesh"); ("10", "Bihar"); ("11", "Sikkim"); ("12", "Arunachal Pradesh");
   ("13", "Nagaland"); ("14", "Manipur"); ("15", "Mizoram"); ("16", "Tripura");
   ("17", "Meghalaya"); ("18", "Assam"); ("19", "West Bengal"); ("20", "Jharkhand");
   ("21", "Odisha"); ("22", "Chhattisgarh"); ("23", "Madhya Pradesh"); ("24", "Gujarat");
   ("26", "Dadra and Nagar Haveli and Daman and Diu"); ("27", "Maharashtra"); ("29", "Karnataka"); ("30", "Goa");
   ("31", "Lakshadweep"); ("32", "Kerala"); ("33", "Tamil Nadu"); ("34", "Puducherry");
   ("35", "Andaman and Nicobar Islands"); ("36", "Telangana"); ("37", "Andhra Pradesh"); ("38", "Ladakh");
   ("97", "Other Territory")].

Definition _ALIASES : list (string * string) :=
  [("orissa", "21"); ("uttaranchal", "05"); ("pondicherry", "34"); ("new delhi", "07");
   ("nct of delhi", "07"); ("nct delhi", "07"); ("delhi ncr", "07"); ("j and k", "01");
   ("jammu kashmir", "01"); ("chattisgarh", "22"); ("telengana", "36"); ("tamilnadu", "33");
   ("andaman nicobar", "35"); ("andaman nicobar islands", "35"); ("andaman and nicobar", "35"); ("dadra and nagar haveli", "26");
   ("daman and diu", "26"); ("dadra nagar haveli", "26"); ("dnhdd", "26"); ("dnh and dd", "26");
   ("andaman and nicobar islands", "35"); ("dadra and nagar haveli and daman and diu", "26"); ("other territory", "97")].

Definition _ABBREVIATIONS : list (string * string) :=
  [("an", "35"); ("ap", "37"); ("ar", "12"); ("as", "18");
   ("br", "10"); ("ch", "04"); ("ct", "22"); ("cg", "22");
   ("dn", "26"); ("dd", "26"); ("dh", "26"); ("dl", "07");
   ("ga", "30"); ("gj", "24"); ("hr", "06"); ("hp", "02");
   ("jk", "01"); ("jh", "20"); ("ka", "29"); ("kl", "32");
   ("la", "38"); ("ld", "31"); ("mp", "23"); ("mh", "27");
   ("mn", "14"); ("ml", "17"); ("mz", "15"); ("nl", "13");
   ("or", "21"); ("od", "21"); ("py", "34"); ("pb", "03");
   ("rj", "08"); ("sk", "11"); ("tn", "33"); ("ts", "36");
   ("tg", "36"); ("tr", "16"); ("up", "09"); ("uk", "05");
   ("ut", "05"); ("wb", "19")].

(** [BY_CODE.get(code)] *)
Definition BY_CODE (code : string) : option GstState :=
  snd <$> list_find (λ s, gs_code s = code) STATES.

(** ** [_normalise] *)

Definition kept (c : Ascii.ascii) : bool :=
  let n := Ascii.nat_of_ascii c in
  ((97 <=? n) && (n <=? 122) || (48 <=? n) && (n <=? 57) || (n =? 32))%nat.

(** [text.casefold().replace("&", " and ")], then everything else outside [a-z0-9 ] to a space. *)
Fixpoint keep_letters (s : string) : string :=
  match s with
  | EmptyString => EmptyString
  | String c r =>
      if Ascii.eqb c "&"%char then " and " +:+ keep_letters r
      else if kept (lower_ascii c) then String (lower_ascii c) (keep_letters r)
      else String " "%char (keep_letters r)
  end.

(** [re.sub(r"\s+", " ", text).strip()] on text whose only white space is the blank. *)
Fixpoint words_of (s cur : string) : list string :=
  match s with
  | EmptyString => if String.eqb cur "" then [] else [cur]
  | String c r =>
      if Ascii.eqb c " "%char then (if String.eqb cur "" then words_of r "" else cur :: words_of r "")
      else words_of r (cur +:+ String c EmptyString)
  end.
Definition squeeze (s : string) : list string := words_of s "".

(** The prefix "state of", "union territory of" or "ut of", when something follows it. *)
Definition drop_prefix (ws : list string) : list string :=
  match ws with
  | "state" :: "of" :: w :: r => w :: r
  | "union" :: "territory" :: "of" :: w :: r => w :: r
  | "ut" :: "of" :: w :: r => w :: r
  | _ => ws
  end.

Definition _normalise (text : string) : string := String.concat " " (drop_prefix (squeeze (keep_letters text))).

(** [_BY_NORMALISED]: the names, then the aliases, then the abbreviations (a later entry wins). *)
Definition _BY_NORMALISED (key : string) : option string :=
  snd <$> (snd <$> list_find (λ kv : string * string, kv.1 = key)
    (_ABBREVIATIONS ++ _ALIASES ++ map (λ s, (_normalise (gs_name s), gs_code s)) STATES)).

Definition resolve_state (text : option string) : option GstState :=
  match text with
  | None | Some "" => None
  | Some t =>
      let key := _normalise t in
      match BY_CODE key with
      | Some s => Some s
      | None => match _BY_NORMALISED key with Some code => BY_CODE code | None => None end
      end
  end.

Definition resolves_to (text : string) (s : GstState) : bool :=
  match resolve_state (Some text) with
  | Some r => String.eqb (gs_code r) (gs_code s) && String.eqb (gs_name r) (gs_name s)
  | None => false
  end.

(** Every state is recognised by its printed name and by its code, whatever the case. *)
Lemma resolve_state_complete :
  forallb (λ s, resolves_to (gs_name s) s && resolves_to (gs_code s) s && resolves_to (py_upper (gs_name s)) s) STATES = true.
Proof. vm_compute. reflexivity. Qed.

(** Every alias and abbreviation names an existing state. *)
Lemma aliases_sound :
  forallb (λ kv, match BY_CODE kv.2 with Some _ => true | None => false end) (_ALIASES ++ _ABBREVIATIONS) = true.
Proof. vm_compute. reflexivity. Qed.
