(* ===== verification/Invoice.v ===== *)
(** * [app/modules/invoices/services]: amounts in words, and issuing invoices and credit notes

    A document is a [json] value built from the order's stored tax snapshot, its lines and the business
    profile; a missing key is Python's [KeyError]. Days are counted from 1970-01-01; India is UTC+05:30. *)

From S2P Require Import Prelude Decimal Errors Schema Guards Evolution GstStates.

Local Open Scope string_scope.
Local Open Scope list_scope.
Local Open Scope Z_scope.

(** ** [words.py] *)

Definition _ONES : list string :=
  [""; "One"; "Two"; "Three"; "Four"; "Five"; "Six"; "Seven"; "Eight"; "Nine"; "Ten"; "Eleven"; "Twelve"; "Thirteen";
   "Fourteen"; "Fifteen"; "Sixteen"; "Seventeen"; "Eighteen"; "Nineteen"].
Definition _TENS : list string := [""; ""; "Twenty"; "Thirty"; "Forty"; "Fifty"; "Sixty"; "Seventy"; "Eighty"; "Ninety"].

(** [l[n]] for a non-negative index; [None] is an [IndexError]. *)
Definition py_index {A} (l : list A) (n : Z) : option A := l !! Z.to_nat n.

Definition _below_hundred (n : Z) : option string :=
  if n <? 20 then py_index _ONES n
  else
    t ← py_index _TENS (n / 10);
    if n mod 10 =? 0 then Some t else o ← py_index _ONES (n mod 10); Some (t +:+ " " +:+ o).

Definition _below_thousand (n : Z) : option string :=
  head ← (if 100 <=? n then o ← py_index _ONES (n / 100); Some [o +:+ " Hundred"] else Some []);
  let n := if 100 <=? n then n mod 100 else n in
  tail ← (if n =? 0 then Some [] else w ← _below_hundred n; Some [w]);
  Some (String.concat " " (head ++ tail)).

(** One turn of the loop over crore, lakh and thousand: the parts so far and what is left. *)
Definition words_step (acc : option (list string * Z)) (unit_ : string * Z) : option (list string * Z) :=
  let '(name, size) := unit_ in
  '(parts, n) ← acc;
  if size <=? n then
    w ← (if (1000 <? size) || (n / size <? 100) then _below_hundred (n / size) else _below_thousand (n / size));
    Some (parts ++ [w +:+ " " +:+ name], n mod size)
  else Some (parts, n).

Definition number_in_words (n : Z) : option string :=
  if n =? 0 then Some "Zero"
  else
    '(parts, n) ← foldl words_step (Some ([], n)) [("Crore", 10000000); ("Lakh", 100000); ("Thousand", 1000)];
    tail ← (if n =? 0 then Some [] else w ← _below_thousand n; Some [w]);
    Some (String.concat " " (parts ++ tail)).

Definition amount_in_words (paise : Z) (currency : string) : option string :=
  if negb (String.eqb (py_upper currency) "INR") then Some ""
  else
    r ← number_in_words (paise / 100);
    let text := "Rupees " +:+ r in
    tail ← (if paise mod 100 =? 0 then Some "" else p ← number_in_words (paise mod 100); Some (" and " +:+ p +:+ " Paise"));
    Some (text +:+ tail +:+ " Only").

(** ** Dates *)

(** [date.fromordinal]: the proleptic Gregorian year, month and day of a day number. *)
Definition civil (days : Z) : Z * Z * Z :=
  let z := days + 719468 in
  let era := z / 146097 in
  let doe := z mod 146097 in
  let yoe := (doe - doe / 1460 + doe / 36524 - doe / 146096) / 365 in
  let doy := doe - (365 * yoe + yoe / 4 - yoe / 100) in
  let mp := (5 * doy + 2) / 153 in
  let d := doy - (153 * mp + 2) / 5 + 1 in
  let m := if mp <? 10 then mp + 3 else mp - 9 in
  ((yoe + era * 400) + (if m <=? 2 then 1 else 0), m, d).

Definition india_today : M Z := t ← now; mret ((t + 19800) / 86400).

Fixpoint zeros (n : nat) : string := match n with O => "" | S k => "0" +:+ zeros k end.
(** [f"{n:0<width>d}"] *)
Definition zfill (width : nat) (n : Z) : string :=
  let t := str_Z n in zeros (width - String.length t) +:+ t.
Definition isoformat (days : Z) : string :=
  let '(y, m, d) := civil days in zfill 4 y +:+ "-" +:+ zfill 2 m +:+ "-" +:+ zfill 2 d.

Fixpoint str_drop (n : nat) (s : string) : string :=
  match n, s with S k, String _ r => str_drop k r | _, _ => s end.
Fixpoint str_take (n : nat) (s : string) : string :=
  match n, s with S k, String c r => String c (str_take k r) | _, _ => "" end.
(** [s[a:b]] *)
Definition str_slice (a b : nat) (s : string) : string := str_take (b - a) (str_drop a s).

Definition fiscal_year (day : Z) : string :=
  let '(y, m, _) := civil day in
  let start := if 4 <=? m then y else y - 1 in
  str_Z start +:+ "-" +:+ str_drop 2 (str_Z (start + 1)).

Definition format_number (prefix fy : string) (sequence : Z) : string :=
  prefix +:+ str_slice 2 4 fy +:+ str_slice 5 7 fy +:+ "/" +:+ zfill 6 sequence.

(** ** [invoice_service.py] *)

Definition is_gst_order (o : Order) : bool :=
  match j_get "engine" (o_tax_snapshot o), j_get "gst_calculated" (o_tax_snapshot o) with
  | Some (JStr e), Some (JBool b) => String.eqb e "gst" && b
  | _, _ => false
  end.

Definition invoice_for (order_id : uuid) (doc_type : string) : M (option Invoice) :=
  d ← gets st_db;
  scalar_one_or_none (rows_where (λ i, String.eqb (inv_order_id i) order_id && String.eqb (inv_doc_type i) doc_type) (d_invoices d)).

(** The upsert that takes the next number of a series. *)
Definition _next_sequence (series : string) : M Z :=
  d ← gets st_db;
  let n := match d_sequences d !! series with Some v => v + 1 | None => 1 end in
  _ ← put_sequence series n;
  mret n.

Definition _recipient_email (d : DB) (o : Order) : option string :=
  let user_email := match o_user_id o with Some u => u_email <$> d_users d !! u | None => None end in
  match o_guest_email o with
  | Some e => if String.eqb e "" then user_email else Some e
  | None => user_email
  end.

Definition j_str (s : option string) : json := j_opt JStr s.

Definition _address (p : BusinessProfile) : json :=
  JObj [("line1", JStr (bp_address_line1 p)); ("line2", j_str (bp_address_line2 p)); ("city", JStr (bp_city p));
        ("state_code", JStr (bp_state_code p)); ("state_name", j_str (gs_name <$> BY_CODE (bp_state_code p)));
        ("pincode", JStr (bp_pincode p))].

(** [j[key]] *)
Definition j_index (key : string) (j : json) : M json := of_option (j_get key j) (RuntimeError "KeyError").
Definition j_list (j : json) : M (list json) :=
  match j with JList l => mret l | _ => raise (RuntimeError "TypeError") end.

(** The label of a variant line: [" (Size: M / Colour: Red)"]. *)
Definition option_label (o : json) : string :=
  match j_get "name" o, j_get "value" o with
  | Some (JStr n), Some (JStr v) => n +:+ ": " +:+ v
  | _, _ => ""
  end.
Definition line_label (i : OrderItem) : string :=
  match j_get "options" (oi_variant_snapshot i) with
  | Some (JList (o :: os)) => " (" +:+ String.concat " / " (map option_label (o :: os)) +:+ ")"
  | _ => ""
  end.

(** The keys of a tax line a printed row takes over as they are. *)
Definition row_keys : list string :=
  ["taxable_paise"; "rates"; "cgst_paise"; "sgst_paise"; "igst_paise"; "tax_paise"; "round_off_paise"; "gross_paise"].

Definition build_row (order_id : uuid) (acc : list json) (it : OrderItem * json) : M (list json) :=
  let '(item, tax) := it in
  pid ← j_index "product_id" tax;
  qty ← j_index "quantity" tax;
  _ ← raise_if (negb (json_eqb pid (JInt (oi_product_id item)) && json_eqb qty (JInt (oi_quantity item))))
        (RuntimeError ("order " +:+ order_id +:+ ": item " +:+ str_Z (oi_id item) +:+ " does not match its tax line"));
  hsn ← j_index "hsn_code" tax;
  treatment ← j_index "treatment" tax;
  value ← j_index "value_paise" tax;
  shipping ← j_index "shipping_paise" tax;
  rest ← fold_m (λ l k, v ← j_index k tax; mret (l ++ [(k, v)])) [] row_keys;
  mret (acc ++ [JObj ([("sr", JInt (Z.of_nat (length acc) + 1));
    ("description", JStr (oi_product_name_snapshot item +:+ line_label item)); ("sku", j_str (oi_sku_snapshot item)); ("hsn", hsn);
    ("treatment", treatment); ("quantity", JInt (oi_quantity item)); ("unit_price_paise", JInt (oi_price_cents_snapshot item));
    ("value_paise", value); ("discount_paise", default (JInt 0) (j_get "discount_paise" tax)); ("shipping_paise", shipping)] ++ rest)]).

Definition shipping_column (o : Order) (key : string) : option string :=
  match list_find (λ kv : string * option string, kv.1 = key) (o_shipping_columns o) with
  | Some (_, (_, v)) => v
  | None => None
  end.

(** [{**totals, ...}] *)
Definition j_fields (j : json) : list (string * json) := match j with JObj l => l | _ => [] end.

Definition _build_document (o : Order) (profile : BusinessProfile) (doc_type number : string) (issued_on : Z) (fy : string)
    (invoice : option Invoice) : M json :=
  d ← gets st_db;
  let snap := o_tax_snapshot o in
  let items := order_by oi_id (rows_where (λ i, String.eqb (oi_order_id i) (o_id o)) (d_items d)) in
  lines ← j_index "lines" snap ≫= j_list;
  _ ← raise_if (negb (length items =? length lines)%nat)
        (RuntimeError ("order " +:+ o_id o +:+ ": its items and its tax calculation do not match"));
  rows ← fold_m (build_row (o_id o)) [] (combine items lines);
  place ← j_index "place_of_supply" snap;
  totals ← j_index "totals" snap;
  seller ← j_index "seller" snap;
  legal_name ← j_index "legal_name" seller;
  gstin ← j_index "gstin" seller;
  supply_type ← j_index "supply_type" snap;
  pricing_mode ← j_index "pricing_mode" snap;
  rounding_policy ← j_index "rounding_policy" snap;
  ship_treatment ← j_index "shipping_tax_treatment" snap;
  shipping ← j_index "shipping" snap;
  ship_taxed ← j_index "taxed" shipping;
  ship_untaxed ← j_index "untaxed_paise" shipping;
  words ← of_option (amount_in_words (o_total_cents o) (default "inr" (o_currency o))) (RuntimeError "IndexError");
  let col := shipping_column o in
  let base :=
    [("type", JStr (if String.eqb doc_type "invoice" then "tax_invoice" else "credit_note"));
     ("number", JStr number); ("date", JStr (isoformat issued_on)); ("fiscal_year", JStr fy);
     ("currency", JStr (py_upper (default "inr" (o_currency o)))); ("order_id", JStr (o_id o));
     ("supplier", JObj [("legal_name", legal_name); ("trade_name", JStr (bp_trade_name profile)); ("gstin", gstin);
                        ("address", _address profile); ("email", j_str (bp_email profile)); ("phone", j_str (bp_phone profile))]);
     ("recipient", JObj [("name", j_str (col "shipping_recipient_name")); ("email", j_str (_recipient_email d o));
        ("address", JObj [("line1", j_str (col "shipping_line1")); ("line2", j_str (col "shipping_line2"));
                          ("city", j_str (col "shipping_city")); ("state", j_str (col "shipping_state"));
                          ("state_code", j_str (gs_code <$> resolve_state (col "shipping_state")));
                          ("postal_code", j_str (col "shipping_postal_code")); ("country", j_str (col "shipping_country"))])]);
     ("place_of_supply", place); ("supply_type", supply_type); ("pricing_mode", pricing_mode);
     ("rounding_policy", rounding_policy); ("shipping_tax_treatment", ship_treatment);
     ("lines", JList rows);
     ("shipping", JObj [("charged_paise", JInt (o_shipping_cents o)); ("taxed", ship_taxed); ("untaxed_paise", ship_untaxed)]);
     ("totals", JObj (j_fields totals ++ [("goods_paise", JInt (o_subtotal_cents o)); ("discount_paise", JInt (o_discount_cents o));
        ("shipping_paise", JInt (o_shipping_cents o)); ("grand_total_paise", JInt (o_total_cents o))]));
     ("coupon", match o_coupon_code o with Some c => JObj [("code", JStr c)] | None => JNull end);
     ("amount_in_words", JStr words); ("footer", j_str (bp_footer profile)); ("reverse_charge", JBool false)] in
  match invoice with
  | None => mret (JObj base)
  | Some inv =>
      date ← j_index "date" (inv_document inv);
      mret (JObj (base ++ [("against_invoice", JObj [("number", JStr (inv_number inv)); ("date", date)]);
                           ("reason", JStr "The order was refunded in full")]))
  end.

Definition CREDIT_NOTE_PREFIX : string := "CN".

Definition _issue (o : Order) (doc_type : string) (related : option Invoice) : M Invoice :=
  d ← gets st_db;
  profile ← of_option (d_profile d) (EInvoice BusinessProfileIncompleteError);
  issued_on ← india_today;
  let fy := fiscal_year issued_on in
  let is_invoice := String.eqb doc_type "invoice" in
  let prefix := if is_invoice then bp_invoice_prefix profile else CREDIT_NOTE_PREFIX in
  sequence ← _next_sequence ((if is_invoice then "INV" else "CN") +:+ ":" +:+ fy);
  let number := format_number prefix fy sequence in
  document ← _build_document o profile doc_type number issued_on fy related;
  iid ← new_uuid;
  let invoice := MkInvoice iid (o_id o) doc_type number fy sequence issued_on (inv_id <$> related) (o_total_cents o)
                   (py_upper (default "inr" (o_currency o))) document in
  _ ← insert_invoice invoice;
  mret invoice.

Definition issue_invoice (o : Order) (explicit : bool) : M (option Invoice) :=
  existing ← invoice_for (o_id o) "invoice";
  match existing with
  | Some i => mret (Some i)
  | None =>
      if o_paid_in_demo_mode o then
        _ ← raise_if explicit (EInvoice (InvoiceNotApplicableError
              "This order was paid through the demo gateway (no real money), so it has no tax invoice"));
        mret None
      else if negb (is_gst_order o) then
        _ ← raise_if explicit (EInvoice (InvoiceNotApplicableError
              "This order's tax was not calculated by the GST engine, so it has no tax invoice"));
        mret None
      else
        _ ← raise_if (negb (bool_decide (o_status o = PAID ∨ o_status o = FULFILLED)))
              (EInvoice (InvoiceNotApplicableError "Only a paid or shipped order can be invoiced"));
        i ← _issue o "invoice" None; mret (Some i)
  end.

Definition issue_credit_note (o : Order) : M (option Invoice) :=
  invoice ← invoice_for (o_id o) "invoice";
  match invoice with
  | None => mret None
  | Some inv =>
      existing ← invoice_for (o_id o) "credit_note";
      match existing with
      | Some e => mret (Some e)
      | None => i ← _issue o "credit_note" (Some inv); mret (Some i)
      end
  end.

(** ** Behaviour *)

Lemma guar_index k j : guar step (j_index k j).
Proof. unfold j_index. auto with guar typeclass_instances. Qed.
Lemma guar_j_list j : guar step (j_list j).
Proof. destruct j; cbn; auto with guar typeclass_instances. Qed.
Lemma guar_invoice_for o t : guar step (invoice_for o t).
Proof. unfold invoice_for. solve_guar. Qed.
#[export] Hint Resolve guar_index guar_j_list guar_invoice_for : guar.

Lemma guar_build_row o acc it : guar step (build_row o acc it).
Proof. destruct it. unfold build_row. solve_guar. Qed.
#[export] Hint Resolve guar_build_row : guar.
Lemma guar_build_document o p t n i fy inv : guar step (_build_document o p t n i fy inv).
Proof. unfold _build_document. solve_guar. Qed.
#[export] Hint Resolve guar_build_document : guar.
Lemma guar_issue o t r : guar step (_issue o t r).
Proof. unfold _issue, india_today, _next_sequence. solve_guar. Qed.
#[export] Hint Resolve guar_issue : guar.
Lemma guar_issue_invoice o e : guar step (issue_invoice o e).
Proof. unfold issue_invoice. solve_guar. Qed.
Lemma guar_issue_credit_note o : guar step (issue_credit_note o).
Proof. unfold issue_credit_note. solve_guar. Qed.
#[export] Hint Resolve guar_issue_invoice guar_issue_credit_note : guar.
