(* ===== verification/Repositories.v ===== *)
(** * Repositories and shared services below the lifecycle and checkout services

    [core/stock_context.py], [products/repositories/product_repository.py] (locks and stock),
    [products/services/product_view.py] (the effective price), [orders/repositories/order_repository.py],
    [payments/repositories], [audit/services/audit_service.py], [core/jobs/queue.py]. A row lock is not
    part of the state: between two commits a unit of work runs alone on the rows it reads. *)

From S2P Require Import Prelude Decimal Errors Schema Guards Evolution.

Local Open Scope string_scope.
Local Open Scope list_scope.
Local Open Scope Z_scope.

(** The settings ([app/core/config.py]) the modelled services read. *)
Class Settings := {
  refund_max_attempts : Z;
  jobs_default_max_attempts : Z;
  pending_order_timeout_minutes : Z;
  webhook_recovery_interval_seconds : Z;
  webhook_recovery_window_minutes : Z;
  webhook_recovery_max_attempts : Z;
  default_store_currency : string;
  live_payments_enabled : bool;
  stripe_secret_key : string;
  enabled_payment_currencies : list string;
  return_window_days : Z
}.

(** [hashlib.sha256(text.encode()).hexdigest()] and [secrets.token_urlsafe(...)], the latter as a function
    of a value not used before. *)
Class Crypto := { sha256_hex : string → string; token_urlsafe : string → string }.

(** ** [stock_context.py] *)

Definition KINDS : list string := ["initial"; "sale"; "restock"; "admin_set"; "admin_delta"; "conversion"].

(** [_set]: an unset part is the empty text, which the ledger reads as NULL. *)
Definition _set (kind : string) (actor : option uuid) (reason : option string) (order_id : option uuid) : M unit :=
  modify (λ s, s <| st_stock_ctx := MkStockCtx kind actor
    (match reason with Some r => if String.eqb r "" then None else Some r | None => None end) order_id |>).

(** [async with stock_change(...): body]: the context is cleared however the block ends. *)
Definition stock_change {A} (kind : string) (actor : option uuid) (reason : option string) (order_id : option uuid) (body : M A) : M A :=
  _ ← raise_if (negb (bool_decide (kind ∈ KINDS))) (ValueError "unknown stock change kind");
  _ ← _set kind actor reason order_id;
  try_finally body (_set "" None None None).

(** ** Products *)

Definition get_many_for_update (ids : list Z) : M (gmap Z Product) :=
  db_gets (λ d, filter (λ kv, kv.1 ∈ ids) (d_products d)).
Definition get_variants_for_update (ids : list Z) : M (gmap Z ProductVariant) :=
  db_gets (λ d, filter (λ kv, kv.1 ∈ ids) (d_variants d)).

Definition nonzero (deltas : gmap Z Z) : gmap Z Z := filter (λ kv, kv.2 ≠ 0) deltas.

(** One UPDATE for all the products; the loaded objects are kept in step, and a delta for a product
    that was not loaded is a [KeyError]. *)
Definition adjust_stock_many (products : gmap Z Product) (deltas : gmap Z Z) : M unit :=
  let deltas := nonzero deltas in
  _ ← for_each (map_to_list deltas) (λ '(pid, delta), _ ← add_product_stock pid delta; mret tt);
  raise_if (negb (bool_decide ((dom deltas : gset Z) ⊆ dom products))) (RuntimeError "KeyError").

(** One UPDATE for all the variants; the number of rows it changed is verified. *)
Definition adjust_variant_stock_many (variants : gmap Z ProductVariant) (deltas : gmap Z Z) : M unit :=
  let deltas := nonzero deltas in
  rowcount ← fold_m (λ n '(vid, delta), k ← add_variant_stock vid delta; mret (n + k)) 0 (map_to_list deltas);
  _ ← raise_if (negb (rowcount =? Z.of_nat (size deltas)))
        (RuntimeError "a variant's stock could not be adjusted: it disappeared while locked");
  raise_if (negb (bool_decide ((dom deltas : gset Z) ⊆ dom variants))) (RuntimeError "KeyError").

(** [product_view.effective_price] *)
Definition effective_price (variant : ProductVariant) (base_price : Z) : Z :=
  match pv_price_override_cents variant with Some p => p | None => base_price end.

(** ** Orders *)

(** [order.items]. *)
Definition items_of (d : DB) (oid : uuid) : list OrderItem :=
  order_by oi_id (rows_where (λ i, String.eqb (oi_order_id i) oid) (d_items d)).

Lemma items_of_elem d oid l : l ∈ items_of d oid ↔ (∃ k, d_items d !! k = Some l) ∧ oi_order_id l = oid.
Proof. unfold items_of, order_by. rewrite merge_sort_Permutation, rows_where_elem, String.eqb_eq. tauto. Qed.

(** [get_by_id], [get_by_id_for_update] *)
Definition get_order_by_id (oid : uuid) : M (option Order) := db_gets (λ d, d_orders d !! oid).

Definition get_by_idempotency_key (key : string) (user_id : option uuid) (guest_token : option string) : M (option Order) :=
  d ← gets st_db;
  scalar_one_or_none (rows_where (λ o, String.eqb (o_idempotency_key o) key
    && match user_id with
       | Some u => opt_eqb (o_user_id o) (Some u)
       | None => negb (opt_eqb guest_token None) && opt_eqb (o_guest_token o) guest_token
       end) (d_orders d)).

(** [create_order]: the order, its lines and the first history row. A line is given without its id. *)
Definition create_order (o : Order) (lines : list OrderItem) : M Order :=
  _ ← insert_order o;
  _ ← for_each lines (λ l, i ← new_id;
        insert_item (MkOrderItem i (o_id o) (oi_product_id l) (oi_product_name_snapshot l) (oi_price_cents_snapshot l) (oi_quantity l)
          (oi_variant_id l) (oi_sku_snapshot l) (oi_sku_snapshot_source l) (oi_variant_snapshot l) 0 (oi_discount_cents l)));
  t ← now;
  _ ← insert_history (MkHistory (o_id o) PENDING PENDING None None t);
  mret o.

(** [update_status] *)
Definition update_status (order : Order) (new_status : OrderStatus) (changed_by : option uuid) (reason : option string) : M Order :=
  o' ← update_order (o_id order) (λ o, o <| o_status := new_status |>);
  t ← now;
  _ ← insert_history (MkHistory (o_id order) (o_status order) new_status changed_by reason t);
  mret o'.

(** [record_restock_events]: the lines whose event is new. *)
Definition record_restock_events (events : list (Z * string * Z)) : M (gset Z) :=
  fold_m (λ acc '(i, k, q), is_new ← insert_restock i k q; mret (if is_new : bool then {[ i ]} ∪ acc else acc)) ∅ events.

Definition list_stale_pending_order_ids (older_than : Z) : M (list uuid) :=
  db_gets (λ d, map o_id (rows_where (λ o, bool_decide (o_status o = PENDING) && (o_created_at o <? older_than)) (d_orders d))).

(** ** Payments *)

Definition get_payment (pid : uuid) : M (option Payment) := db_gets (λ d, d_payments d !! pid).

Definition get_by_provider_payment_id (provider_payment_id : string) (provider : option string) : M (option Payment) :=
  d ← gets st_db;
  scalar_one_or_none (rows_where (λ p, String.eqb (pay_provider_payment_id p) provider_payment_id
    && match provider with Some pr => String.eqb (pay_provider p) pr | None => true end) (d_payments d)).

Definition get_by_provider_reference (reference provider : string) : M (option Payment) :=
  d ← gets st_db;
  scalar_one_or_none (rows_where (λ p, opt_eqb (pay_provider_reference p) (Some reference) && String.eqb (pay_provider p) provider) (d_payments d)).

Definition payments_of (d : DB) (oid : uuid) : list Payment :=
  order_by_desc pay_created_at (rows_where (λ p, String.eqb (pay_order_id p) oid) (d_payments d)).
Definition list_for_order (oid : uuid) : M (list Payment) := db_gets (λ d, payments_of d oid).

(** A row already loaded in the session keeps the attributes it was loaded with (the session does not
    expire them on commit, and these queries do not ask to refresh them). *)
Definition in_session (loaded : list Payment) (p : Payment) : Payment :=
  match list_find (λ q, pay_id q = pay_id p) loaded with
  | Some (_, q) => q
  | None => p
  end.
Definition list_for_order_in (loaded : list Payment) (oid : uuid) : M (list Payment) :=
  db_gets (λ d, map (in_session loaded) (payments_of d oid)).

Definition create_payment (order_id : uuid) (provider_payment_id : string) (amount_cents : Z) (currency provider : string)
    (provider_config_id : option uuid) : M Payment :=
  pid ← new_uuid;
  t ← now;
  let p := MkPayment pid order_id provider provider_config_id None provider_payment_id PayPending amount_cents currency None None t in
  _ ← insert_payment p;
  mret p.

Definition update_payment_status (pid : uuid) (status : PaymentStatus) : M Payment :=
  update_payment pid (λ p, p <| pay_status := status |>).

(** [add_refunded_amount] *)
Definition add_refunded (provider_refund_id : option string) (amount : Z) (p : Payment) : Payment :=
  let total := default 0 (pay_refunded_amount_cents p) + amount in
  let p := p <| pay_refunded_amount_cents := Some total |> in
  let p := match provider_refund_id with
           | Some r => if String.eqb r "" then p else p <| pay_provider_refund_id := Some r |>
           | None => p
           end in
  if pay_amount_cents p <=? total then p <| pay_status := PayRefunded |> else p.
Definition add_refunded_amount (pid : uuid) (provider_refund_id : option string) (amount : Z) : M Payment :=
  update_payment pid (add_refunded provider_refund_id amount).

(** [claim_webhook_event]: new, or a retry of a failed one. *)
Definition claim_webhook_event (e : WebhookEvent) : M bool :=
  d ← gets st_db;
  let k := (ev_provider e, ev_event_id e) in
  match d_events d !! k with
  | None => _ ← put_event k (MkProcessedEvent (ev_event_type e) EvProcessing 1 None None); mret true
  | Some row =>
      if bool_decide (we_status row = EvFailed)
      then _ ← put_event k (row <| we_status := EvProcessing |> <| we_event_type := ev_event_type e |> <| we_attempts := we_attempts row + 1 |>);
           mret true
      else mret false
  end.

Definition finish_webhook_event (e : WebhookEvent) (status : EventStatus) : M unit :=
  d ← gets st_db;
  t ← now;
  let k := (ev_provider e, ev_event_id e) in
  match d_events d !! k with
  | None => mret tt
  | Some row => put_event k (row <| we_status := status |> <| we_last_error := None |> <| we_processed_at := Some t |>)
  end.

(** [record_failed_event] of [webhook_recovery.py] *)
Definition record_failed_event (e : WebhookEvent) (message : string) : M unit :=
  d ← gets st_db;
  let k := (ev_provider e, ev_event_id e) in
  match d_events d !! k with
  | None => put_event k (MkProcessedEvent (ev_event_type e) EvFailed 1 (Some message) None)
  | Some row =>
      if bool_decide (we_status row = EvFailed)
      then put_event k (row <| we_attempts := we_attempts row + 1 |> <| we_last_error := Some message |>)
      else mret tt
  end.

(** [defer_event] *)
Definition defer_event (e : WebhookEvent) (window_minutes interval_seconds : Z) (reason : string) : M bool :=
  d ← gets st_db;
  t ← now;
  let k := (ev_provider e, ev_event_id e) in
  match d_deferred d !! k with
  | Some _ => mret false
  | None =>
      let kept := e <| ev_provider_reference := None |> <| ev_config_id := None |> in
      _ ← put_deferred k (MkDeferred kept "pending" 0 (t + Z.max interval_seconds 1) (t + window_minutes * 60) (Some reason) None);
      mret true
  end.

(** ** Refunds, reconciliations, disputes *)

Definition get_refund (rid : uuid) : M (option Refund) := db_gets (λ d, d_refunds d !! rid).
Definition get_by_provider_refund_id (rid : string) : M (option Refund) :=
  d ← gets st_db; scalar_one_or_none (rows_where (λ r, opt_eqb (r_provider_refund_id r) (Some rid)) (d_refunds d)).
Definition get_active_for_payment (pid : uuid) : M (option Refund) :=
  d ← gets st_db; scalar_one_or_none (rows_where (λ r, String.eqb (r_payment_id r) pid && refund_inflight r) (d_refunds d)).
Definition has_submitted_refund (pid : uuid) : M bool :=
  db_gets (λ d, exists_row (λ r, String.eqb (r_payment_id r) pid
    && (bool_decide (r_status r ∈ [RefPending; RefUncertain; RefSucceeded])
        || (bool_decide (r_status r = RefRequested) && (0 <? r_attempts r)))) (d_refunds d)).
Definition has_cancelling_refund (oid : uuid) : M bool :=
  db_gets (λ d, exists_row (λ r, String.eqb (r_order_id r) oid && r_cancels_order r
    && bool_decide (r_status r ∈ [RefRequested; RefPending; RefUncertain])) (d_refunds d)).
Definition committed_amount (pid : uuid) : M Z := db_gets (λ d, committed_of d pid).
Definition count_for_payment (pid : uuid) : M Z := db_gets (λ d, count_rows (λ r, String.eqb (r_payment_id r) pid) (d_refunds d)).

Definition create_refund_row (payment_id order_id : uuid) (amount_cents : Z) (currency idempotency_key : string)
    (requested_by : option uuid) (cancels_order : bool) (status : RefundStatus) (origin_requested : bool)
    (provider_refund_id : option string) : M Refund :=
  rid ← new_uuid;
  let r := MkRefund rid payment_id order_id amount_cents currency status provider_refund_id idempotency_key requested_by 0
             cancels_order origin_requested None in
  _ ← insert_refund r;
  mret r.

(** [ReconciliationRepository.record] *)
Definition record_reconciliation (kind : ReconciliationKind) (dedupe_key : string) (payment_id order_id : option uuid)
    (provider_payment_id : option string) (details : json) : M bool :=
  rid ← new_uuid;
  insert_reconciliation (MkReconciliation rid kind true payment_id order_id provider_payment_id details dedupe_key None None None None).
Definition get_reconciliation (rid : uuid) : M (option PaymentReconciliation) := db_gets (λ d, d_reconciliations d !! rid).

(** [resolve_by_dedupe_key]: the key is unique, so at most one row. *)
Definition resolve_by_dedupe_key (key note : string) : M bool :=
  d ← gets st_db;
  t ← now;
  match rows_where (λ r, String.eqb (rc_dedupe_key r) key && rc_open r) (d_reconciliations d) with
  | [] => mret false
  | rows =>
      _ ← for_each rows (λ r, _ ← update_reconciliation (rc_id r) (λ x, x <| rc_open := false |>
            <| rc_resolution := Some "no_action_needed" |> <| rc_resolution_note := Some note |> <| rc_resolved_at := Some t |>); mret tt);
      mret true
  end.

Definition get_dispute_by_provider_id (provider provider_dispute_id : string) : M (option Dispute) :=
  d ← gets st_db;
  scalar_one_or_none (rows_where (λ x, String.eqb (di_provider x) provider && String.eqb (di_provider_dispute_id x) provider_dispute_id) (d_disputes d)).
Definition has_open (pid : uuid) : M bool :=
  db_gets (λ d, exists_row (λ x, String.eqb (di_payment_id x) pid && bool_decide (di_status x ∈ [DispOpen; DispUnderReview])) (d_disputes d)).

(** ** Audit log and job queue *)

Definition audit_log (actor : option uuid) (action target_type : string) (target_id : option string) (details : json) : M unit :=
  insert_audit (MkAudit actor action target_type target_id details).

(** [JobQueue.enqueue] without a delay or an explicit number of attempts. *)
Definition enqueue `{!Settings} (job_type : string) (payload : json) (dedupe_key : option string) : M (option Z) :=
  i ← new_id;
  t ← now;
  insert_job (MkJob i job_type payload "pending" 0 jobs_default_max_attempts t None None None dedupe_key).

(** ** They respect [step] *)

Lemma guar_stock_change {A} k a r o (body : M A) : guar step body → guar step (stock_change k a r o body).
Proof.
  intros Hb. unfold stock_change, _set. solve_guar; by apply guar_other.
Qed.
#[export] Hint Extern 2 (guar step (stock_change _ _ _ _ _)) => (apply guar_stock_change; solve_guar) : guar.

Lemma guar_adjust_stock_many p d : guar step (adjust_stock_many p d).
Proof. unfold adjust_stock_many. solve_guar. Qed.
Lemma guar_adjust_variant_stock_many p d : guar step (adjust_variant_stock_many p d).
Proof. unfold adjust_variant_stock_many. solve_guar. Qed.
Lemma guar_create_order o l : o_status o = PENDING → guar step (create_order o l).
Proof. intros Ho. unfold create_order. solve_guar. by apply guar_insert_order. Qed.
Lemma guar_update_status o n c r : guar step (update_status o n c r).
Proof. unfold update_status. solve_guar. Qed.
Lemma guar_record_restock_events l : guar step (record_restock_events l).
Proof. unfold record_restock_events. solve_guar. Qed.
Lemma guar_create_payment a b c d e f : guar step (create_payment a b c d e f).
Proof. unfold create_payment. solve_guar. Qed.
Lemma guar_update_payment_status p s : guar step (update_payment_status p s).
Proof. unfold update_payment_status. solve_guar. Qed.
Lemma guar_add_refunded_amount p r a : guar step (add_refunded_amount p r a).
Proof.
  apply guar_update_payment. intros x. unfold add_refunded; cbn.
  destruct r as [r|]; [destruct (String.eqb r "")|]; cbn; destruct (_ <=? _); reflexivity.
Qed.
Lemma guar_claim e : guar step (claim_webhook_event e).
Proof.
  intros s. unfold claim_webhook_event, gets, mbind, ST_bind; cbn.
  destruct (d_events (st_db s) !! _) as [row|] eqn:Hrow.
  - case_bool_decide as Hf; [|reflexivity]. apply put_event_ok. intros old Hold.
    assert (old = row) as -> by congruence. unfold event_ext. by rewrite Hf.
  - apply put_event_ok. congruence.
Qed.
Lemma guar_finish e st : event_done st = true → guar step (finish_webhook_event e st).
Proof. intros Hst. unfold finish_webhook_event. solve_guar. by apply guar_put_event. Qed.
Lemma guar_record_failed e m : guar step (record_failed_event e m).
Proof.
  intros s. unfold record_failed_event, gets, mbind, ST_bind; cbn.
  destruct (d_events (st_db s) !! _) as [row|] eqn:Hrow.
  - case_bool_decide as Hf; [|reflexivity]. apply put_event_ok. intros old Hold.
    assert (old = row) as -> by congruence. unfold event_ext. by rewrite Hf.
  - apply put_event_ok. congruence.
Qed.
Lemma guar_defer_event e w i r : guar step (defer_event e w i r).
Proof. unfold defer_event. solve_guar. Qed.
Lemma guar_create_refund_row a b c d e f g h i j : guar step (create_refund_row a b c d e f g h i j).
Proof. unfold create_refund_row. solve_guar. Qed.
Lemma guar_record_reconciliation a b c d e f : guar step (record_reconciliation a b c d e f).
Proof. unfold record_reconciliation. solve_guar. Qed.
Lemma guar_resolve_by_dedupe_key k n : guar step (resolve_by_dedupe_key k n).
Proof. unfold resolve_by_dedupe_key. solve_guar. Qed.
Lemma guar_audit_log a b c d e : guar step (audit_log a b c d e).
Proof. unfold audit_log. solve_guar. Qed.
Lemma guar_enqueue `{!Settings} t p k : guar step (enqueue t p k).
Proof. unfold enqueue. solve_guar. Qed.

#[export] Hint Resolve guar_adjust_stock_many guar_adjust_variant_stock_many guar_update_status guar_record_restock_events
  guar_create_payment guar_update_payment_status guar_add_refunded_amount guar_claim guar_record_failed guar_defer_event
  guar_create_refund_row guar_record_reconciliation guar_resolve_by_dedupe_key guar_audit_log guar_enqueue : guar.
#[export] Hint Extern 1 (guar step (create_order _ _)) => (apply guar_create_order; reflexivity) : guar.
#[export] Hint Extern 1 (guar step (finish_webhook_event _ _)) => (apply guar_finish; reflexivity) : guar.

(** Plain queries. *)
#[export] Hint Extern 1 (guar step (get_many_for_update _)) => apply guar_db_gets : guar.
#[export] Hint Extern 1 (guar step (get_variants_for_update _)) => apply guar_db_gets : guar.
#[export] Hint Extern 1 (guar step (get_order_by_id _)) => apply guar_db_gets : guar.
#[export] Hint Extern 1 (guar step (get_payment _)) => apply guar_db_gets : guar.
#[export] Hint Extern 1 (guar step (list_for_order _)) => apply guar_db_gets : guar.
#[export] Hint Extern 1 (guar step (list_for_order_in _ _)) => apply guar_db_gets : guar.
#[export] Hint Extern 1 (guar step (get_refund _)) => apply guar_db_gets : guar.
#[export] Hint Extern 1 (guar step (has_submitted_refund _)) => apply guar_db_gets : guar.
#[export] Hint Extern 1 (guar step (has_cancelling_refund _)) => apply guar_db_gets : guar.
#[export] Hint Extern 1 (guar step (committed_amount _)) => apply guar_db_gets : guar.
#[export] Hint Extern 1 (guar step (count_for_payment _)) => apply guar_db_gets : guar.
#[export] Hint Extern 1 (guar step (get_reconciliation _)) => apply guar_db_gets : guar.
#[export] Hint Extern 1 (guar step (has_open _)) => apply guar_db_gets : guar.
#[export] Hint Extern 2 (guar step (get_by_idempotency_key _ _ _)) => (unfold get_by_idempotency_key; solve_guar) : guar.
#[export] Hint Extern 2 (guar step (get_by_provider_payment_id _ _)) => (unfold get_by_provider_payment_id; solve_guar) : guar.
#[export] Hint Extern 2 (guar step (get_by_provider_reference _ _)) => (unfold get_by_provider_reference; solve_guar) : guar.
#[export] Hint Extern 2 (guar step (get_by_provider_refund_id _)) => (unfold get_by_provider_refund_id; solve_guar) : guar.
#[export] Hint Extern 2 (guar step (get_active_for_payment _)) => (unfold get_active_for_payment; solve_guar) : guar.
#[export] Hint Extern 2 (guar step (get_dispute_by_provider_id _ _)) => (unfold get_dispute_by_provider_id; solve_guar) : guar.
