(* ===== verification/Frames.v ===== *)
(** * What a method leaves alone, and what it did when it returned

    [only ts] relates two states whose tables outside [ts] are the same. Every statement and repository
    method is given the tables it may write, a service method the union ([solve_frame] computes it), so
    that a theorem about a handler gets the rest of the database for free. [runs] takes a run that
    returned apart, statement by statement. *)

From S2P Require Import Prelude Decimal Errors Schema Guards Evolution Repositories.

Local Open Scope string_scope.
Local Open Scope list_scope.
Local Open Scope Z_scope.

(** A guarantee, for one run. *)
Lemma guar_run {A} (R : St → St → Prop) (m : M A) s : guar R m → R s (m s).2.
Proof. intros Hm. apply Hm. Qed.

(** ** Tables *)

Inductive Table :=
  | TOrders | TItems | TRestocks | THistory | TProducts | TVariants | TOptions | TMovements | TCarts | TCartItems | TPayments
  | TRefunds | TReconciliations | TDisputes | TEvents | TDeferred | TAudit | TJobs | TCoupons | TAddresses | TUsers | TProfile
  | TInvoices | TSequences | TStoreCurrency | TClassifications | TRules | TRegistrations | TTaxSettings | TConfigs | TPaymentSettings
  | TReturns | TReturnItems | TShipments | TRefreshTokens | TAuthTokens | TStaffRoles | TAssignments | TCategories | TReviews | TWishlist.
#[export] Instance Table_eq_dec : EqDecision Table.
Proof. solve_decision. Defined.

Definition table_type (t : Table) : Type :=
  match t with
  | TOrders => gmap string Order | TItems => gmap Z OrderItem | TRestocks => gmap (Z * string) Z | THistory => list OrderStatusHistory
  | TProducts => gmap Z Product | TVariants => gmap Z ProductVariant | TOptions => gmap Z ProductOption | TMovements => list StockMovement
  | TCarts => gmap Z Cart | TCartItems => gmap Z CartItem | TPayments => gmap string Payment | TRefunds => gmap string Refund
  | TReconciliations => gmap string PaymentReconciliation | TDisputes => gmap string Dispute
  | TEvents => gmap (string * string) ProcessedWebhookEvent | TDeferred => gmap (string * string) DeferredWebhookEvent
  | TAudit => list AuditLog | TJobs => gmap Z BackgroundJob | TCoupons => gmap Z Coupon | TAddresses => gmap Z Address
  | TUsers => gmap string User | TProfile => option BusinessProfile | TInvoices => gmap string Invoice | TSequences => gmap string Z
  | TStoreCurrency => option string | TClassifications => gmap Z TaxClassification | TRules => gmap Z TaxRule
  | TRegistrations => gmap Z GstRegistration | TTaxSettings => gmap Z BusinessTaxSettings
  | TConfigs => gmap string PaymentProviderConfig | TPaymentSettings => option PaymentSettings
  | TReturns => gmap string ReturnRequest | TReturnItems => gmap Z ReturnRequestItem | TShipments => gmap string OrderShipment
  | TRefreshTokens => gmap string RefreshToken | TAuthTokens => gmap string AuthToken | TStaffRoles => gmap string StaffRole
  | TAssignments => gmap string StaffRoleAssignment | TCategories => gmap Z Category | TReviews => gmap Z ProductReview
  | TWishlist => gmap Z WishlistItem
  end.
Definition table (t : Table) (d : DB) : table_type t :=
  match t with
  | TOrders => d_orders d | TItems => d_items d | TRestocks => d_restocks d | THistory => d_history d | TProducts => d_products d
  | TVariants => d_variants d | TOptions => d_options d | TMovements => d_movements d | TCarts => d_carts d
  | TCartItems => d_cart_items d | TPayments => d_payments d | TRefunds => d_refunds d | TReconciliations => d_reconciliations d
  | TDisputes => d_disputes d | TEvents => d_events d | TDeferred => d_deferred d | TAudit => d_audit d | TJobs => d_jobs d
  | TCoupons => d_coupons d | TAddresses => d_addresses d | TUsers => d_users d | TProfile => d_profile d | TInvoices => d_invoices d
  | TSequences => d_sequences d | TStoreCurrency => d_store_currency d | TClassifications => d_classifications d | TRules => d_rules d
  | TRegistrations => d_registrations d | TTaxSettings => d_tax_settings d | TConfigs => d_configs d | TPaymentSettings => d_payment_settings d
  | TReturns => d_returns d | TReturnItems => d_return_items d | TShipments => d_shipments d
  | TRefreshTokens => d_refresh_tokens d | TAuthTokens => d_auth_tokens d | TStaffRoles => d_staff_roles d | TAssignments => d_assignments d
  | TCategories => d_categories d | TReviews => d_reviews d | TWishlist => d_wishlist d
  end.

Definition inb (t : Table) (ts : list Table) : bool := existsb (λ x, bool_decide (x = t)) ts.

(** Nothing outside [ts] differs, and no time has passed. *)
Definition only (ts : list Table) (s s' : St) : Prop :=
  (∀ t, inb t ts = false → table t (st_db s') = table t (st_db s)) ∧ st_now s' = st_now s.

#[export] Instance only_refl ts : Reflexive (only ts).
Proof. by split. Qed.
#[export] Instance only_trans ts : Transitive (only ts).
Proof. intros s1 s2 s3 [H1 N1] [H2 N2]. split; [|congruence]. intros t Ht. by rewrite H2, H1. Qed.

Lemma inb_sub (ts us : list Table) t : forallb (λ x, inb x us) ts = true → inb t us = false → inb t ts = false.
Proof.
  rewrite forallb_forall. intros Hsub Ht. unfold inb. apply not_true_is_false. rewrite existsb_exists.
  intros (x & Hx & ->%bool_decide_eq_true). by rewrite Hsub in Ht.
Qed.
Lemma guar_only_weaken {A} ts us (m : M A) :
  guar (only ts) m → forallb (λ x, inb x us) ts = true → guar (only us) m.
Proof. intros Hm Hsub s. destruct (Hm s) as [Ht Hn]. split; [|done]. intros t Hu. eapply Ht, inb_sub; eauto. Qed.
Lemma only_weaken ts us s s' : only ts s s' → forallb (λ x, inb x us) ts = true → only us s s'.
Proof. intros [Ht Hn] Hsub. split; [|done]. intros t Hu. eapply Ht, inb_sub; eauto. Qed.

Lemma only_upd ts (f : DB → DB) :
  (∀ d t, inb t ts = false → table t (f d) = table t d) → guar (only ts) (upd f).
Proof. intros Hf s. split; [|done]. intros t Ht. cbn. by apply Hf. Qed.
Lemma only_modify ts (f : St → St) : (∀ s, st_db (f s) = st_db s ∧ st_now (f s) = st_now s) → guar (only ts) (modify f : M unit).
Proof. intros Hf s. cbn. destruct (Hf s) as [Hd Hn]. split; [intros t _; by rewrite Hd|done]. Qed.
Lemma only_commit ts : guar (only ts) commit.
Proof. by apply only_modify. Qed.

(** ** Frames by computation *)

Create HintDb frame discriminated.
#[export] Hint Resolve only_commit : frame.

Ltac only_write := apply only_upd; intros ? []; cbn; (reflexivity || (intros [=])).
Ltac frame_leaf :=
  first
    [ apply guar_ret; apply _ | apply guar_raise; apply _ | apply guar_gets; apply _ | apply guar_raise_if; apply _
    | apply guar_of_option; apply _ | apply guar_of_sum; apply _
    | eapply guar_only_weaken; [solve [eauto 1 with frame nocore]|vm_compute; reflexivity]
    | assumption
    | apply only_modify; done
    | only_write ].
Ltac solve_frame := intros; repeat first [guar_step | solve [frame_leaf]].

Lemma only_db_gets ts {A} (f : DB → A) : guar (only ts) (db_gets f).
Proof. apply guar_gets, _. Qed.
Lemma only_now ts : guar (only ts) now.
Proof. apply guar_gets, _. Qed.
Lemma only_guard ts o : guar (only ts) (guard o).
Proof. destruct o; intros st; reflexivity. Qed.
Lemma only_scalar ts {A} (l : list A) : guar (only ts) (scalar_one_or_none l).
Proof. destruct l as [|x [|]]; intros s; reflexivity. Qed.
Lemma only_new_id : guar (only []) new_id.
Proof. by intros s. Qed.
Lemma only_new_uuid : guar (only []) new_uuid.
Proof. by intros s. Qed.
#[export] Hint Resolve only_new_id only_new_uuid : frame.
#[export] Hint Extern 0 (guar (only _) (db_gets _)) => apply (only_db_gets []) : frame.
#[export] Hint Extern 0 (guar (only _) now) => apply (only_now []) : frame.
#[export] Hint Extern 0 (guar (only _) (guard _)) => apply (only_guard []) : frame.
#[export] Hint Extern 0 (guar (only _) (scalar_one_or_none _)) => apply (only_scalar []) : frame.

(** *** Statements *)

Lemma only_update_order k f : guar (only [TOrders]) (update_order k f).
Proof. unfold update_order. solve_frame. Qed.
Lemma only_insert_order o : guar (only [TOrders]) (insert_order o).
Proof. unfold insert_order. solve_frame. Qed.
Lemma only_insert_history h : guar (only [THistory]) (insert_history h).
Proof. unfold insert_history. solve_frame. Qed.
Lemma only_insert_item i : guar (only [TItems]) (insert_item i).
Proof. unfold insert_item. solve_frame. Qed.
Lemma only_insert_restock i k q : guar (only [TItems; TRestocks]) (insert_restock i k q).
Proof. unfold insert_restock. solve_frame. Qed.
Lemma only_add_product_stock p n : guar (only [TProducts; TMovements]) (add_product_stock p n).
Proof. unfold add_product_stock. cbv zeta. solve_frame. Qed.
Lemma only_add_variant_stock v n : guar (only [TVariants; TMovements]) (add_variant_stock v n).
Proof. unfold add_variant_stock. cbv zeta. solve_frame. Qed.
Lemma only_insert_payment p : guar (only [TPayments]) (insert_payment p).
Proof. unfold insert_payment. solve_frame. Qed.
Lemma only_update_payment k f : guar (only [TPayments]) (update_payment k f).
Proof. unfold update_payment. solve_frame. Qed.
Lemma only_insert_refund r : guar (only [TRefunds]) (insert_refund r).
Proof. unfold insert_refund. solve_frame. Qed.
Lemma only_update_refund k f : guar (only [TRefunds]) (update_refund k f).
Proof. unfold update_refund. solve_frame. Qed.
Lemma only_insert_reconciliation r : guar (only [TReconciliations]) (insert_reconciliation r).
Proof. unfold insert_reconciliation. solve_frame. Qed.
Lemma only_update_reconciliation k f : guar (only [TReconciliations]) (update_reconciliation k f).
Proof. unfold update_reconciliation. solve_frame. Qed.
Lemma only_insert_dispute x : guar (only [TDisputes]) (insert_dispute x).
Proof. unfold insert_dispute. solve_frame. Qed.
Lemma only_update_dispute k f : guar (only [TDisputes]) (update_dispute k f).
Proof. unfold update_dispute. solve_frame. Qed.
Lemma only_put_event k e : guar (only [TEvents]) (put_event k e).
Proof. unfold put_event. solve_frame. Qed.
Lemma only_put_deferred k e : guar (only [TDeferred]) (put_deferred k e).
Proof. unfold put_deferred. solve_frame. Qed.
Lemma only_insert_audit a : guar (only [TAudit]) (insert_audit a).
Proof. unfold insert_audit. solve_frame. Qed.
Lemma only_insert_job j : guar (only [TJobs]) (insert_job j).
Proof. unfold insert_job. solve_frame. Qed.
Lemma only_insert_invoice i : guar (only [TInvoices]) (insert_invoice i).
Proof. unfold insert_invoice. cbv zeta. solve_frame. Qed.
Lemma only_put_sequence k n : guar (only [TSequences]) (put_sequence k n).
Proof. unfold put_sequence. solve_frame. Qed.
Lemma only_init_store_currency c : guar (only [TStoreCurrency]) (init_store_currency c).
Proof. unfold init_store_currency. solve_frame. Qed.
Lemma only_put_cart c : guar (only [TCarts]) (put_cart c).
Proof. unfold put_cart. solve_frame. Qed.
Lemma only_put_cart_item i : guar (only [TCartItems]) (put_cart_item i).
Proof. unfold put_cart_item. solve_frame. Qed.
Lemma only_update_cart_item k f : guar (only [TCartItems]) (update_cart_item k f).
Proof. unfold update_cart_item. solve_frame. Qed.
Lemma only_delete_cart_item k : guar (only [TCartItems]) (delete_cart_item k).
Proof. unfold delete_cart_item. solve_frame. Qed.
Lemma only_delete_cart_row k : guar (only [TCarts; TCartItems]) (delete_cart_row k).
Proof. unfold delete_cart_row. solve_frame. Qed.
Lemma only_insert_return r : guar (only [TReturns]) (insert_return r).
Proof. unfold insert_return. solve_frame. Qed.
Lemma only_update_return k f : guar (only [TReturns]) (update_return k f).
Proof. unfold update_return. solve_frame. Qed.
Lemma only_insert_return_item i : guar (only [TReturnItems]) (insert_return_item i).
Proof. unfold insert_return_item. solve_frame. Qed.
Lemma only_update_return_item k f : guar (only [TReturnItems]) (update_return_item k f).
Proof. unfold update_return_item. solve_frame. Qed.
Lemma only_insert_shipment x : guar (only [TShipments]) (insert_shipment x).
Proof. unfold insert_shipment. solve_frame. Qed.
Lemma only_update_shipment_row k f : guar (only [TShipments]) (update_shipment_row k f).
Proof. unfold update_shipment_row. solve_frame. Qed.
Lemma only_delete_shipment_row k : guar (only [TShipments]) (delete_shipment_row k).
Proof. unfold delete_shipment_row. solve_frame. Qed.
Lemma only_insert_user u : guar (only [TUsers]) (insert_user u).
Proof. unfold insert_user. solve_frame. Qed.
Lemma only_update_user_row k f : guar (only [TUsers]) (update_user_row k f).
Proof. unfold update_user_row. solve_frame. Qed.
Lemma only_insert_refresh_token t : guar (only [TRefreshTokens]) (insert_refresh_token t).
Proof. unfold insert_refresh_token. solve_frame. Qed.
Lemma only_update_refresh_token k f : guar (only [TRefreshTokens]) (update_refresh_token k f).
Proof. unfold update_refresh_token. solve_frame. Qed.
Lemma only_update_refresh_tokens p f : guar (only [TRefreshTokens]) (update_refresh_tokens p f).
Proof. unfold update_refresh_tokens. solve_frame. Qed.
Lemma only_insert_auth_token t : guar (only [TAuthTokens]) (insert_auth_token t).
Proof. unfold insert_auth_token. solve_frame. Qed.
Lemma only_update_auth_tokens p f : guar (only [TAuthTokens]) (update_auth_tokens p f).
Proof. unfold update_auth_tokens. solve_frame. Qed.
Lemma only_insert_staff_role r : guar (only [TStaffRoles]) (insert_staff_role r).
Proof. unfold insert_staff_role. solve_frame. Qed.
Lemma only_update_staff_role k f : guar (only [TStaffRoles]) (update_staff_role k f).
Proof. unfold update_staff_role. solve_frame. Qed.
Lemma only_delete_staff_role k : guar (only [TStaffRoles]) (delete_staff_role k).
Proof. unfold delete_staff_role. solve_frame. Qed.
Lemma only_put_assignment a : guar (only [TAssignments]) (put_assignment a).
Proof. unfold put_assignment. solve_frame. Qed.
Lemma only_delete_assignment k : guar (only [TAssignments]) (delete_assignment k).
Proof. unfold delete_assignment. solve_frame. Qed.
#[export] Hint Resolve only_insert_user only_update_user_row only_insert_refresh_token only_update_refresh_token
  only_update_refresh_tokens only_insert_auth_token only_update_auth_tokens only_insert_staff_role only_update_staff_role
  only_delete_staff_role only_put_assignment only_delete_assignment : frame.
#[export] Hint Resolve only_insert_return only_update_return only_insert_return_item only_update_return_item only_insert_shipment
  only_update_shipment_row only_delete_shipment_row : frame.
#[export] Hint Resolve only_update_order only_insert_order only_insert_history only_insert_item only_insert_restock
  only_add_product_stock only_add_variant_stock only_insert_payment only_update_payment only_insert_refund only_update_refund
  only_insert_reconciliation only_update_reconciliation only_insert_dispute only_update_dispute only_put_event only_put_deferred
  only_insert_audit only_insert_job only_insert_invoice only_put_sequence only_init_store_currency only_put_cart only_put_cart_item
  only_update_cart_item only_delete_cart_item only_delete_cart_row : frame.

(** *** Repository methods *)

Lemma only_set k a r o : guar (only []) (_set k a r o).
Proof. apply only_modify. done. Qed.
#[export] Hint Resolve only_set : frame.
Lemma only_stock_change {A} ts k a r o (body : M A) : guar (only ts) body → guar (only ts) (stock_change k a r o body).
Proof. intros Hb. unfold stock_change. solve_frame. Qed.
(** Frames through the blocks of the stock context. *)
Ltac solve_frames := intros; repeat first [guar_step | apply only_stock_change | solve [frame_leaf]].

Lemma only_adjust_stock_many p d : guar (only [TProducts; TMovements]) (adjust_stock_many p d).
Proof. unfold adjust_stock_many; cbv zeta. solve_frame. Qed.
Lemma only_adjust_variant_stock_many p d : guar (only [TVariants; TMovements]) (adjust_variant_stock_many p d).
Proof. unfold adjust_variant_stock_many; cbv zeta. solve_frame. Qed.
Lemma only_create_order o l : guar (only [TOrders; TItems; THistory]) (create_order o l).
Proof. unfold create_order. solve_frame. Qed.
Lemma only_update_status o n c r : guar (only [TOrders; THistory]) (update_status o n c r).
Proof. unfold update_status. solve_frame. Qed.
Lemma only_record_restock_events l : guar (only [TItems; TRestocks]) (record_restock_events l).
Proof. unfold record_restock_events. solve_frame. Qed.
Lemma only_create_payment a b c d e f : guar (only [TPayments]) (create_payment a b c d e f).
Proof. unfold create_payment. solve_frame. Qed.
Lemma only_update_payment_status p st : guar (only [TPayments]) (update_payment_status p st).
Proof. unfold update_payment_status. solve_frame. Qed.
Lemma only_add_refunded_amount p r a : guar (only [TPayments]) (add_refunded_amount p r a).
Proof. unfold add_refunded_amount. solve_frame. Qed.
Lemma only_claim e : guar (only [TEvents]) (claim_webhook_event e).
Proof. unfold claim_webhook_event; cbv zeta. solve_frame. Qed.
Lemma only_finish e st : guar (only [TEvents]) (finish_webhook_event e st).
Proof. unfold finish_webhook_event; cbv zeta. solve_frame. Qed.
Lemma only_defer_event e w i r : guar (only [TDeferred]) (defer_event e w i r).
Proof. unfold defer_event; cbv zeta. solve_frame. Qed.
Lemma only_create_refund_row a b c d e f g h i j : guar (only [TRefunds]) (create_refund_row a b c d e f g h i j).
Proof. unfold create_refund_row. solve_frame. Qed.
Lemma only_record_reconciliation a b c d e f : guar (only [TReconciliations]) (record_reconciliation a b c d e f).
Proof. unfold record_reconciliation. solve_frame. Qed.
Lemma only_resolve_by_dedupe_key k n : guar (only [TReconciliations]) (resolve_by_dedupe_key k n).
Proof. unfold resolve_by_dedupe_key. solve_frame. Qed.
Lemma only_audit_log a b c d e : guar (only [TAudit]) (audit_log a b c d e).
Proof. unfold audit_log. solve_frame. Qed.
Lemma only_enqueue `{!Settings} t p k : guar (only [TJobs]) (enqueue t p k).
Proof. unfold enqueue. solve_frame. Qed.
#[export] Hint Resolve only_adjust_stock_many only_adjust_variant_stock_many only_create_order only_update_status
  only_record_restock_events only_create_payment only_update_payment_status only_add_refunded_amount only_claim only_finish
  only_defer_event only_create_refund_row only_record_reconciliation only_resolve_by_dedupe_key only_audit_log only_enqueue : frame.

(** Queries write nothing. *)
#[export] Hint Extern 1 (guar (only _) (get_many_for_update _)) => apply (only_db_gets []) : frame.
#[export] Hint Extern 1 (guar (only _) (get_variants_for_update _)) => apply (only_db_gets []) : frame.
#[export] Hint Extern 1 (guar (only _) (get_order_by_id _)) => apply (only_db_gets []) : frame.
#[export] Hint Extern 1 (guar (only _) (get_payment _)) => apply (only_db_gets []) : frame.
#[export] Hint Extern 1 (guar (only _) (list_for_order _)) => apply (only_db_gets []) : frame.
#[export] Hint Extern 1 (guar (only _) (list_for_order_in _ _)) => apply (only_db_gets []) : frame.
#[export] Hint Extern 1 (guar (only _) (get_refund _)) => apply (only_db_gets []) : frame.
#[export] Hint Extern 1 (guar (only _) (has_submitted_refund _)) => apply (only_db_gets []) : frame.
#[export] Hint Extern 1 (guar (only _) (has_cancelling_refund _)) => apply (only_db_gets []) : frame.
#[export] Hint Extern 1 (guar (only _) (committed_amount _)) => apply (only_db_gets []) : frame.
#[export] Hint Extern 1 (guar (only _) (count_for_payment _)) => apply (only_db_gets []) : frame.
#[export] Hint Extern 1 (guar (only _) (get_reconciliation _)) => apply (only_db_gets []) : frame.
#[export] Hint Extern 1 (guar (only _) (has_open _)) => apply (only_db_gets []) : frame.

Lemma only_get_by_key a b c : guar (only []) (get_by_idempotency_key a b c).
Proof. unfold get_by_idempotency_key. solve_frame. Qed.
Lemma only_get_by_provider_payment_id a b : guar (only []) (get_by_provider_payment_id a b).
Proof. unfold get_by_provider_payment_id. solve_frame. Qed.
Lemma only_get_by_provider_reference a b : guar (only []) (get_by_provider_reference a b).
Proof. unfold get_by_provider_reference. solve_frame. Qed.
Lemma only_get_by_provider_refund_id a : guar (only []) (get_by_provider_refund_id a).
Proof. unfold get_by_provider_refund_id. solve_frame. Qed.
Lemma only_get_active_for_payment a : guar (only []) (get_active_for_payment a).
Proof. unfold get_active_for_payment. solve_frame. Qed.
Lemma only_get_dispute a b : guar (only []) (get_dispute_by_provider_id a b).
Proof. unfold get_dispute_by_provider_id. solve_frame. Qed.
#[export] Hint Resolve only_get_by_key only_get_by_provider_payment_id only_get_by_provider_reference only_get_by_provider_refund_id
  only_get_active_for_payment only_get_dispute : frame.

(** What a run left alone. *)
Lemma frame_run {A} ts (m : M A) s r s' : guar (only ts) m → m s = (r, s') → only ts s s'.
Proof. intros Hm Hr. specialize (Hm s). by rewrite Hr in Hm. Qed.
Lemma only_table t ts s s' : only ts s s' → inb t ts = false → table t (st_db s') = table t (st_db s).
Proof. intros [Ht _]. apply Ht. Qed.

(** [framed H]: turns the run [H] into what it left alone. *)
Ltac framed H := eapply frame_run in H; [|solve_frame].
(** [same_table T H]: the table [T] is the same before and after; [H : only _ _ _]. *)
Ltac same_table T H Heq := pose proof (only_table T _ _ _ H eq_refl) as Heq; cbn [table] in Heq.
