(* ===== verification/Runs.v ===== *)
(** * What a run did when it returned

    Inversion of [m s = (inr a, s')] for the monad's operations, the queries and the statements of the
    database; [runs] applies them down a method's body. *)

From S2P Require Import Prelude Decimal Errors Schema Guards Evolution Repositories Frames.

Local Open Scope string_scope.
Local Open Scope list_scope.
Local Open Scope Z_scope.

(** The state with other tables. *)
Definition set_db (f : DB → DB) (s : St) : St := s <| st_db ::= f |>.
#[global] Arguments set_db : simpl never.
Lemma db_set f s : st_db (set_db f s) = f (st_db s).
Proof. done. Qed.
Lemma now_set f s : st_now (set_db f s) = st_now s.
Proof. done. Qed.
Lemma committed_set f s : st_committed (set_db f s) = st_committed s.
Proof. done. Qed.
Lemma uuid_set f s : st_next_uuid (set_db f s) = st_next_uuid s.
Proof. done. Qed.
Lemma id_set f s : st_next_id (set_db f s) = st_next_id s.
Proof. done. Qed.
Lemma ctx_set f s : st_stock_ctx (set_db f s) = st_stock_ctx s.
Proof. done. Qed.
#[export] Hint Rewrite db_set now_set committed_set uuid_set id_set ctx_set : state.

(** ** The monad *)

Section monad_runs.
Context {A : Type}.
Implicit Types s : St.

Lemma ret_inr (a b : A) s s' : (mret a : M A) s = (inr b, s') → b = a ∧ s' = s.
Proof. by intros [= -> ->]. Qed.
Lemma raise_inr e (b : A) s s' : (raise e : M A) s = (inr b, s') → False.
Proof. done. Qed.
Lemma gets_inr (f : St → A) b s s' : (gets f : M A) s = (inr b, s') → b = f s ∧ s' = s.
Proof. by intros [= -> ->]. Qed.
Lemma db_gets_inr (f : DB → A) b s s' : db_gets f s = (inr b, s') → b = f (st_db s) ∧ s' = s.
Proof. by intros [= -> ->]. Qed.
Lemma of_option_inr (o : option A) e b s s' : (of_option o e : M A) s = (inr b, s') → o = Some b ∧ s' = s.
Proof. destruct o; [by intros [= -> ->]|done]. Qed.
Lemma of_sum_inr (r : Err + A) b s s' : (of_sum r : M A) s = (inr b, s') → r = inr b ∧ s' = s.
Proof. destruct r; [done|by intros [= -> ->]]. Qed.
Lemma scalar_inr (l : list A) o s s' :
  scalar_one_or_none l s = (inr o, s') → s' = s ∧ l = match o with Some x => [x] | None => [] end.
Proof. destruct l as [|x [|]]; [| |done]; by intros [= <- ->]. Qed.
Lemma get_db_inr (m : M A) b s s' :
  get_db m s = (inr b, s') → ∃ s1, m s = (inr b, s1) ∧ s' = s1 <| st_committed := st_db s1 |>.
Proof. unfold get_db. destruct (m s) as [[e|a] s1]; [done|]. intros [= -> <-]. eauto. Qed.
Lemma try_finally_inr (m : M A) k b s s' :
  try_finally m k s = (inr b, s') → ∃ s1, m s = (inr b, s1) ∧ s' = (k s1).2.
Proof. unfold try_finally. destruct (m s) as [r s1]. intros [= -> <-]. eauto. Qed.
Lemma try_catch_inr (m : M A) h b s s' :
  try_catch m h s = (inr b, s') → m s = (inr b, s') ∨ ∃ e s1 k, m s = (inl e, s1) ∧ h e = Some k ∧ k s1 = (inr b, s').
Proof.
  unfold try_catch. destruct (m s) as [[e|a] s1]; [|by intros [= -> ->]; left]. destruct (h e) eqn:?; [|done]. eauto 10.
Qed.
End monad_runs.

(** Two ways to run the same *)
Lemma bind_same {A B} (m m' : M A) (f g : A → M B) s : m s = m' s → (∀ a s1, f a s1 = g a s1) → (m ≫= f) s = (m' ≫= g) s.
Proof. intros Hm Hf. unfold mbind, ST_bind. rewrite Hm. by destruct (m' s) as [[]]. Qed.
Lemma bind_assoc {A B C} (m : M A) (f : A → M B) (g : B → M C) s : ((m ≫= f) ≫= g) s = (m ≫= λ a, f a ≫= g) s.
Proof. unfold mbind, ST_bind. by destruct (m s) as [[]]. Qed.
Lemma raise_if_bind {A} b e (k : unit → M A) s : (raise_if b e ≫= k) s = if b then (inl e, s) else k tt s.
Proof. by destruct b. Qed.

Lemma raise_if_inr b e u s s' : (raise_if b e : M unit) s = (inr u, s') → b = false ∧ s' = s.
Proof. destruct b; [done|]. by intros [= _ ->]. Qed.
Lemma guard_inr o u s s' : guard o s = (inr u, s') → o = None ∧ s' = s.
Proof. destruct o; [done|]. by intros [= _ ->]. Qed.
Lemma upd_inr f u s s' : upd f s = (inr u, s') → s' = set_db f s.
Proof. by intros [= _ <-]. Qed.
Lemma now_inr t s s' : now s = (inr t, s') → t = st_now s ∧ s' = s.
Proof. by intros [= <- <-]. Qed.
Lemma commit_inr u s s' : commit s = (inr u, s') → s' = s <| st_committed := st_db s |>.
Proof. by intros [= _ <-]. Qed.
Lemma new_uuid_inr i s s' :
  new_uuid s = (inr i, s') → i = "uuid-" +:+ str_Z (st_next_uuid s) ∧ s' = s <| st_next_uuid := st_next_uuid s + 1 |>.
Proof. by intros [= <- <-]. Qed.
Lemma new_id_inr i s s' : new_id s = (inr i, s') → i = st_next_id s ∧ s' = s <| st_next_id := st_next_id s + 1 |>.
Proof. by intros [= <- <-]. Qed.

Ltac runs_step :=
  match goal with
  | H : (_ ≫= _) _ = (inr _, _) |- _ => apply bind_inr in H as (? & ? & ? & H)
  | H : mret _ _ = (inr _, _) |- _ => apply ret_inr in H as [? ?]
  | H : raise _ _ = (inr _, _) |- _ => by apply raise_inr in H
  | H : gets _ _ = (inr _, _) |- _ => apply gets_inr in H as [? ?]
  | H : db_gets _ _ = (inr _, _) |- _ => apply db_gets_inr in H as [? ?]
  | H : of_option _ _ _ = (inr _, _) |- _ => apply of_option_inr in H as [? ?]
  | H : of_sum _ _ = (inr _, _) |- _ => apply of_sum_inr in H as [? ?]
  | H : scalar_one_or_none _ _ = (inr _, _) |- _ => apply scalar_inr in H as [? ?]
  | H : raise_if _ _ _ = (inr _, _) |- _ => apply raise_if_inr in H as [? ?]
  | H : guard _ _ = (inr _, _) |- _ => apply guard_inr in H as [? ?]
  | H : upd _ _ = (inr _, _) |- _ => apply upd_inr in H
  | H : now _ = (inr _, _) |- _ => apply now_inr in H as [? ?]
  | H : commit _ = (inr _, _) |- _ => apply commit_inr in H
  | H : get_db _ _ = (inr _, _) |- _ => apply get_db_inr in H as (? & H & ?)
  | H : new_uuid _ = (inr _, _) |- _ => apply new_uuid_inr in H as [? ?]
  | H : new_id _ = (inr _, _) |- _ => apply new_id_inr in H as [? ?]
  end.
(** Takes the runs in the context apart; states and results are substituted. *)
Ltac runs := repeat (runs_step; subst).

Ltac guards_passed Hp :=
  match goal with H : first_violation _ = None |- _ => pose proof (proj1 (first_violation_None _) H) as Hp end.

(** ** Queries *)

Lemma get_order_by_id_inr k o s s' : get_order_by_id k s = (inr o, s') → o = d_orders (st_db s) !! k ∧ s' = s.
Proof. apply db_gets_inr. Qed.
Lemma get_payment_inr k o s s' : get_payment k s = (inr o, s') → o = d_payments (st_db s) !! k ∧ s' = s.
Proof. apply db_gets_inr. Qed.
Lemma get_refund_inr k o s s' : get_refund k s = (inr o, s') → o = d_refunds (st_db s) !! k ∧ s' = s.
Proof. apply db_gets_inr. Qed.
Lemma list_for_order_inr k o s s' : list_for_order k s = (inr o, s') → o = payments_of (st_db s) k ∧ s' = s.
Proof. apply db_gets_inr. Qed.

(** ** Statements *)

Lemma update_order_inr k f o' s s' :
  update_order k f s = (inr o', s') →
  ∃ o, d_orders (st_db s) !! k = Some o ∧ o' = f o ∧ s' = set_db (λ d, d <| d_orders ::= <[k := o']> |>) s ∧
       orders_lifecycle_guard (st_db s) o o' = None.
Proof.
  unfold update_order. intros H. runs. eexists. split_and!; [done..|]. guards_passed Hp.
  by apply Forall_inv_tail, Forall_inv_tail, Forall_inv in Hp.
Qed.
Lemma insert_order_inr o u s s' :
  insert_order o s = (inr u, s') →
  d_orders (st_db s) !! o_id o = None ∧ s' = set_db (λ d, d <| d_orders ::= <[o_id o := o]> |>) s ∧ orders_checks o = None.
Proof.
  unfold insert_order. intros H. runs. guards_passed Hp. split; [|split; [done|]].
  - by apply Forall_inv, eq_sym, check_None, bool_decide_eq_true in Hp.
  - by apply Forall_inv_tail, Forall_inv in Hp.
Qed.
Lemma update_payment_inr k f p' s s' :
  update_payment k f s = (inr p', s') →
  ∃ p, d_payments (st_db s) !! k = Some p ∧ p' = f p ∧ s' = set_db (λ d, d <| d_payments ::= <[k := p']> |>) s.
Proof. unfold update_payment. intros H. runs. eauto. Qed.
Lemma update_refund_inr k f r' s s' :
  update_refund k f s = (inr r', s') →
  ∃ r, d_refunds (st_db s) !! k = Some r ∧ r' = f r ∧ s' = set_db (λ d, d <| d_refunds ::= <[k := r']> |>) s.
Proof. unfold update_refund. intros H. runs. eauto. Qed.
Lemma insert_refund_inr r u s s' :
  insert_refund r s = (inr u, s') →
  d_refunds (st_db s) !! r_id r = None ∧ s' = set_db (λ d, d <| d_refunds ::= <[r_id r := r]> |>) s.
Proof.
  unfold insert_refund. intros H. runs. split; [|done]. guards_passed Hp.
  by apply Forall_inv_tail, Forall_inv, eq_sym, check_None, bool_decide_eq_true in Hp.
Qed.
Lemma insert_history_inr h u s s' :
  insert_history h s = (inr u, s') → s' = set_db (λ d, d <| d_history ::= λ l, l ++ [h] |>) s.
Proof. apply upd_inr. Qed.

Lemma insert_item_inr i u s s' :
  insert_item i s = (inr u, s') →
  d_items (st_db s) !! oi_id i = None ∧ s' = set_db (λ d, d <| d_items ::= <[oi_id i := i]> |>) s ∧ order_items_checks i = None.
Proof.
  unfold insert_item. intros H. runs. guards_passed Hp. split; [|split; [done|]].
  - by apply Forall_inv_tail, Forall_inv, eq_sym, check_None, bool_decide_eq_true in Hp.
  - by apply Forall_inv_tail, Forall_inv_tail, Forall_inv in Hp.
Qed.

(** A job with that key is in the queue. *)
Lemma enqueue_inr `{!Settings} t payload key x s s' :
  enqueue t payload (Some key) s = (inr x, s') →
  ∃ i j, d_jobs (st_db s') !! i = Some j ∧ j_dedupe_key j = Some key.
Proof.
  unfold enqueue, insert_job. intros Hrun. runs. cbn [j_dedupe_key] in *. destruct (_ && _) eqn:Hdup.
  - runs. apply andb_true_iff in Hdup as [_ (i & j & Hj & Hk%bool_decide_eq_true)%exists_row_true]. eauto.
  - runs. eexists _, _. rewrite db_set; cbn. by rewrite lookup_insert_eq.
Qed.

(** ** What a method does not change *)

(** A guarantee, for a run. *)
Lemma guar_ran {A} (R : St → St → Prop) (m : M A) s r s' : m s = (r, s') → guar R m → R s s'.
Proof. intros Hm HR. specialize (HR s). by rewrite Hm in HR. Qed.

(** Two states that agree on what [f] observes. *)
Definition keeps {A} (f : St → A) (s s' : St) : Prop := f s' = f s.
#[export] Instance keeps_refl {A} (f : St → A) : Reflexive (keeps f).
Proof. done. Qed.
#[export] Instance keeps_trans {A} (f : St → A) : Transitive (keeps f).
Proof. intros s1 s2 s3 H1 H2. unfold keeps in *. congruence. Qed.

(** Walks through a method down to its statements, none of which changes what is observed. *)
Create HintDb uncommitted discriminated.
Ltac head_of t := lazymatch t with ?f _ => head_of f | _ => t end.
Ltac uncommitted_leaf :=
  first [ apply guar_ret; apply _ | apply guar_raise; apply _ | apply guar_gets; apply _ | apply guar_raise_if; apply _
        | apply guar_of_option; apply _ | apply guar_of_sum; apply _ | intros ?; reflexivity | assumption
        | eauto 1 with uncommitted nocore ].
(** Walks through a method, unfolding what [leaf] does not close. *)
Ltac walk leaf :=
  intros; repeat first
    [ guar_step | solve [leaf]
    | apply guar_try; [apply _| |intros [] ? [= <-]]
    | lazymatch goal with |- guar _ ?m => let h := head_of m in unfold h end; cbv zeta beta ].
Ltac uncommitted := walk uncommitted_leaf.

(** A method that only reads. *)
Ltac reads := walk ltac:(intros ?; reflexivity).
Lemma reads_run {A} (m : M A) s r s' : guar eq m → m s = (r, s') → s' = s.
Proof. intros Hm Hrun. specialize (Hm s). by rewrite Hrun in Hm. Qed.
(** [read_only H]: the run [H] changed nothing. *)
Ltac read_only Hrun := let Hs := fresh in pose proof Hrun as Hs; apply reads_run in Hs; [subst|solve [reads]].

(** ** What a method can raise *)

Definition raises {A} (P : Err → Prop) (m : M A) : Prop := ∀ s, match (m s).1 with inl e => P e | inr _ => True end.
Section raises.
Context {A B : Type} (P : Err → Prop).
Lemma raises_run (m : M A) s e s' : raises P m → m s = (inl e, s') → P e.
Proof. intros Hm Hr. specialize (Hm s). by rewrite Hr in Hm. Qed.
Lemma raises_bind (m : M A) (f : A → M B) : raises P m → (∀ a, raises P (f a)) → raises P (m ≫= f).
Proof.
  intros Hm Hf s. specialize (Hm s). unfold mbind, ST_bind. destruct (m s) as [[e|a] s1]; cbn in *; [done|]. apply Hf.
Qed.
Lemma raises_ret (a : A) : raises P (mret a).
Proof. by intros s. Qed.
Lemma raises_gets (f : St → A) : raises P (gets f).
Proof. by intros s. Qed.
Lemma raises_raise e : P e → raises P (raise e : M A).
Proof. by intros Hp s. Qed.
Lemma raises_raise_if b e : P e → raises P (raise_if b e : M unit).
Proof. intros Hp s. by destruct b. Qed.
Lemma raises_of_option (o : option A) e : P e → raises P (of_option o e : M A).
Proof. intros Hp s. by destruct o. Qed.
Lemma raises_of_sum (r : Err + A) : (∀ e, r = inl e → P e) → raises P (of_sum r : M A).
Proof. intros Hp s. destruct r; cbn; auto. Qed.
Lemma raises_try_finally (m : M A) k : raises P m → raises P (try_finally m k).
Proof. intros Hm s. specialize (Hm s). unfold try_finally. by destruct (m s) as [[e|a] s1]. Qed.
Lemma raises_for_each (l : list A) (f : A → M unit) : (∀ x, raises P (f x)) → raises P (for_each l f).
Proof.
  intros Hf. induction l as [|x l IH]; intros s; [done|]. cbn. specialize (Hf x s). unfold mbind, ST_bind.
  destruct (f x s) as [[e|a] s1]; cbn in *; [done|]. apply IH.
Qed.
Lemma raises_fold_m (l : list A) (f : B → A → M B) : (∀ b x, raises P (f b x)) → ∀ b, raises P (fold_m f b l).
Proof.
  intros Hf. induction l as [|x l IH]; intros b s; [done|]. cbn. specialize (Hf b x s). unfold mbind, ST_bind.
  destruct (f b x s) as [[e|a] s1]; cbn in *; [done|]. apply IH.
Qed.
End raises.

Create HintDb raises discriminated.
(** Walks through a method down to the errors it raises; [P] is decided by [done] on each. *)
Ltac raises_step :=
  lazymatch goal with
  | |- ∀ _, _ => intros ?
  | |- raises _ (_ ≫= _) => apply raises_bind
  | |- raises _ (mret _) => apply raises_ret
  | |- raises _ (gets _) => apply raises_gets
  | |- raises _ (modify _) => by intros ?
  | |- raises _ (raise _) => apply raises_raise; done
  | |- raises _ (raise_if _ _) => apply raises_raise_if; done
  | |- raises _ (of_option _ _) => apply raises_of_option; done
  | |- raises _ (of_sum _) => apply raises_of_sum; solve [eauto with raises]
  | |- raises _ (try_finally _ _) => apply raises_try_finally
  | |- raises _ (for_each _ _) => apply raises_for_each
  | |- raises _ (fold_m _ _ _) => apply raises_fold_m
  | |- raises _ (match ?x with _ => _ end) => destruct x eqn:?
  | |- raises _ (let '_ := ?x in _) => destruct x eqn:?
  | |- raises _ ?m => let h := head_of m in unfold h; cbv zeta beta
  end.
Ltac solve_raises := intros; repeat first [solve [eauto 1 with raises nocore] | raises_step].

(** ** One run as a step

    For a method that is a step because of what it read on the way: its parts are steps of the states they start from. *)

Lemma step_sound s s' : (sound s → step s s') → step s s'.
Proof. intros H Hs. by apply H. Qed.
Lemma step_bind {A B} (m : M A) (k : A → M B) s :
  step s (m s).2 → (∀ a s', m s = (inr a, s') → step s' (k a s').2) → step s ((m ≫= k) s).2.
Proof.
  intros Hm Hk. unfold mbind, ST_bind. destruct (m s) as [[e|a] s']; [done|]. etrans; [exact Hm|by apply Hk].
Qed.
Lemma step_try {A} (m : M A) h s :
  step s (m s).2 → (∀ e k, h e = Some k → guar step k) → step s (try_catch m h s).2.
Proof.
  intros Hm Hh. unfold try_catch. destruct (m s) as [[e|a] s']; [|done]. destruct (h e) as [k|] eqn:He; [|done].
  etrans; [exact Hm|by apply (Hh e k)].
Qed.
Ltac on_with_guar :=
  match goal with |- step ?s (?m ?s).2 => let H := fresh in assert (guar step m) as H; [solve_guar|exact (H s)] end.
Ltac passes := apply step_bind; [on_with_guar|intros ? ? ?; runs].
