(* ===== verification/Lifecycle.v ===== *)
(** * The order lifecycle: cancellation, fulfilment, refunds, disputes

    [payments/services/lifecycle_service.py] (OrderLifecycleService), with its collaborators wired as
    the application wires them (audit, job queue, disputes and provider resolver present). A payment
    provider is an argument: its calls run in [M] because other units of work may commit while they
    are in flight. *)

From S2P Require Import Prelude Decimal Errors Money Schema Guards GatewayGuards Evolution Invoice Repositories.

Local Open Scope string_scope.
Local Open Scope list_scope.
Local Open Scope Z_scope.

(** ** Providers ([core/payments/interface.py], [core/payments/registry.py]) *)

Record PaymentIntentResult := MkIntent { pi_provider_payment_id : string; pi_client_secret : string; pi_status : string }.
Record RefundResult := MkRefundResult {
  rr_provider_refund_id : string; rr_amount_cents : Z; rr_status : string; rr_currency : option string }.

(** What validating stored credentials tells: [CredentialCheck] *)
Record CredentialCheck := MkCheck { ck_valid : bool; ck_reason : option string; ck_detected_mode : option string }.

Record PaymentProvider := MkProvider {
  pr_name : string;
  pr_supports_cancel : bool;
  pr_supports_currency : string → bool;
  create_payment_intent : Z → string → json → string → M PaymentIntentResult;
  cancel_payment_intent : string → string → M PaymentIntentResult;
  retrieve_payment_intent : string → M PaymentIntentResult;
  create_refund : string → Z → string → string → M RefundResult;
  validate_credentials : M CredentialCheck;
  verify_and_parse_webhook : string → string → Err + WebhookEvent
}.

(** The provider of the environment, the adapter of a stored configuration ([build_provider], with its current or its
    previous webhook secret: decryption and the provider's client library; it may raise), the scrubber of upstream messages
    ([core/redaction.py], regular expressions), and the text of an exception ([f"{type(e).__name__}: {e}"]). *)
Class Providers := {
  env_provider : PaymentProvider;
  build_provider : PaymentProviderConfig → bool → Err + PaymentProvider;
  redact : string → string;
  error_text : Err → string
}.

(** What the program relies on: whatever commits during a provider call is work of this program. *)
Record provider_ok (p : PaymentProvider) : Prop := {
  ok_create : ∀ a c m k, guar step (create_payment_intent p a c m k);
  ok_cancel : ∀ i k, guar step (cancel_payment_intent p i k);
  ok_retrieve : ∀ i, guar step (retrieve_payment_intent p i);
  ok_refund : ∀ i a c k, guar step (create_refund p i a c k);
  ok_validate : guar step (validate_credentials p)
}.
Class ProvidersOk `{!Providers} : Prop := {
  env_ok : provider_ok env_provider;
  built_ok : ∀ c b p, build_provider c b = inr p → provider_ok p
}.

(** [ProviderResolver.provider_for_config] *)
Definition provider_for_config `{!Providers} (config_id : uuid) : M (option PaymentProvider) :=
  config ← db_gets (λ d, d_configs d !! config_id);
  match config with
  | None => mret None
  | Some c => p ← of_sum (build_provider c false); mret (Some p)
  end.

(** [spec and spec.refund_needs_provider_reference] *)
Definition refund_needs_provider_reference (provider : string) : bool :=
  match get_spec provider with Some spec => sp_refund_needs_provider_reference spec | None => false end.

(** Python's [a or b]. *)
Definition truthy (o : option string) : option string :=
  match o with Some s => if String.eqb s "" then None else Some s | None => None end.
Definition or_str (a b : option string) : option string := match truthy a with Some s => Some s | None => b end.
Definition or_Z (a : option Z) (b : Z) : Z :=
  match a with Some n => if n =? 0 then b else n | None => b end.

(** [except PaymentProviderError] (a timeout included) and [except IntegrityError]. *)
Definition catch_provider {A} (m : M A) (h : string → M A) : M A :=
  try_catch m (λ e, match e with
                    | EProvider (PaymentProviderError msg) | EProvider (PaymentProviderTimeoutError msg) => Some (h msg)
                    | _ => None
                    end).
Definition catch_integrity {A} (m h : M A) : M A :=
  try_catch m (λ e, match e with IntegrityError _ => Some h | _ => None end).

Section lifecycle.
Context `{!Settings} `{!Providers}.

Definition _provider_for (config_id : option uuid) : M PaymentProvider :=
  match config_id with
  | None => mret env_provider
  | Some c => p ← provider_for_config c; mret (default env_provider p)
  end.

Definition _audit (action target_type : string) (target_id : string) (actor : option uuid) (details : json) : M unit :=
  audit_log actor action target_type (Some target_id) details.

Definition reconcile (kind : ReconciliationKind) (dedupe_key : string) (payment : option Payment) (order_id : option uuid)
    (provider_payment_id : option string) (details : json) : M bool :=
  recorded ← record_reconciliation kind dedupe_key (pay_id <$> payment) (or_str order_id (pay_order_id <$> payment))
               (or_str provider_payment_id (pay_provider_payment_id <$> payment)) details;
  if recorded : bool
  then _ ← _audit ("reconciliation." +:+ reconciliation_kind_value kind) "payment_reconciliation" dedupe_key None details; mret true
  else mret false.

Definition _lock_order (order_id : uuid) : M Order :=
  o ← get_order_by_id order_id;
  of_option o (EOrder (OrderNotFoundError order_id)).

(** ** Payment confirmation and fulfilment *)

Definition mark_paid (order : Order) (payment : Payment) : M bool :=
  if negb (bool_decide (o_status order = PENDING)) then mret false
  else
    _ ← update_status order PAID None (Some "payment confirmed by the payment provider");
    let demo := String.eqb (pay_provider payment) "demo" in
    _ ← update_order (o_id order) (λ o, o <| o_paid_in_demo_mode := demo |>);
    _ ← _audit "order.paid" "order" (o_id order) None (JObj [("payment_id", JStr (pay_id payment)); ("demo", JBool demo)]);
    mret true.

Definition fulfil_order (order_id admin_user_id : uuid) : M Order :=
  order ← _lock_order order_id;
  if bool_decide (o_status order = FULFILLED) then mret order
  else
    _ ← raise_if (negb (bool_decide (o_status order = PAID)))
          (EOrder (InvalidStatusTransitionError (order_status_value (o_status order)) (order_status_value FULFILLED)));
    cancelling ← has_cancelling_refund (o_id order);
    _ ← raise_if cancelling (EOrder (StatusChangeNotAllowedError
          "A cancellation with refund is in progress for this order, so it cannot be fulfilled"));
    order ← update_status order FULFILLED (Some admin_user_id) (Some "marked fulfilled by an administrator");
    _ ← issue_invoice order false;
    _ ← _audit "order.fulfilled" "order" (o_id order) (Some admin_user_id) JNull;
    mret order.

(** ** Restocking *)

(** What a line still has outside the stock. *)
Definition remaining_of (i : OrderItem) : Z := oi_quantity i - oi_restocked_quantity i.

(** The lines with something to put back; a simple line whose product now has options cannot. *)
Definition restock_pending (locked : gmap Z Product) (acc : list OrderItem) (i : OrderItem) : M (list OrderItem) :=
  if remaining_of i <=? 0 then mret acc
  else
    _ ← raise_if (opt_eqb (oi_variant_id i) None
                  && match locked !! oi_product_id i with Some p => 0 <? p_option_count p | None => false end)
          (RuntimeError ("order item " +:+ str_Z (oi_id i) +:+ " cannot be restocked: product "
                         +:+ str_Z (oi_product_id i) +:+ " now has variants"));
    mret (acc ++ [i]).

Definition bump (k n : Z) (m : gmap Z Z) : gmap Z Z := <[k := default 0 (m !! k) + n]> m.

Definition restock_deltas (locked : gmap Z Product) (locked_variants : gmap Z ProductVariant) (recorded : gset Z)
    (acc : gmap Z Z * gmap Z Z) (i : OrderItem) : gmap Z Z * gmap Z Z :=
  let '(restock, variant_restock) := acc in
  if negb (bool_decide (oi_id i ∈ recorded)) then acc
  else
    match oi_variant_id i with
    | Some v => if bool_decide (is_Some (locked_variants !! v)) then (restock, bump v (remaining_of i) variant_restock) else acc
    | None => if bool_decide (is_Some (locked !! oi_product_id i))
              then (bump (oi_product_id i) (remaining_of i) restock, variant_restock) else acc
    end.

Definition _restock_once (order : Order) : M bool :=
  if negb (opt_eqb (o_stock_released_at order) None) then mret false
  else
    d ← gets st_db;
    let items := items_of d (o_id order) in
    locked ← get_many_for_update (map oi_product_id items);
    locked_variants ← get_variants_for_update (omap oi_variant_id items);
    pending ← fold_m (restock_pending locked) [] items;
    recorded ← record_restock_events (map (λ i, (oi_id i, "order-release", remaining_of i)) pending);
    let '(restock, variant_restock) := foldl (restock_deltas locked locked_variants recorded) (∅, ∅) pending in
    _ ← stock_change "restock" None None (Some (o_id order))
          (_ ← adjust_stock_many locked restock;
           if bool_decide (variant_restock = ∅) then mret tt
           else adjust_variant_stock_many locked_variants variant_restock);
    t ← now;
    _ ← update_order (o_id order) (λ o, o <| o_stock_released_at := Some t |>);
    mret true.

Definition _release_stock_and_cancel (order : Order) (actor_user_id : option uuid) (reason : string) : M Order :=
  _ ← _restock_once order;
  update_status order CANCELLED actor_user_id (Some reason).

(** ** Cancellation *)

Record CancelResult := MkCancelResult { cr_outcome : string; cr_order : Order }.

(** What the provider said about the intents so far. *)
Record CancelTally := MkTally { ct_uncertain : list string; ct_completed : bool; ct_outcomes : list json }.

Definition outcome_row (provider_payment_id outcome : string) : json :=
  JObj [("provider_payment_id", JStr provider_payment_id); ("outcome", JStr outcome)].

(** The answer about one intent. *)
Definition tally_result (t : CancelTally) (ppid : string) (status : string) : CancelTally :=
  let outcomes := ct_outcomes t ++ [outcome_row ppid status] in
  if String.eqb status "succeeded" then MkTally (ct_uncertain t) true outcomes
  else if String.eqb status "canceled" then MkTally (ct_uncertain t) (ct_completed t) outcomes
  else MkTally (ct_uncertain t ++ [ppid]) (ct_completed t) outcomes.

Definition cancel_intent (t : CancelTally) (p : Payment) : M CancelTally :=
  let ppid := pay_provider_payment_id p in
  provider ← _provider_for (pay_provider_config_id p);
  if negb (pr_supports_cancel provider)
  then mret (MkTally (ct_uncertain t) (ct_completed t) (ct_outcomes t ++ [outcome_row ppid "unsupported_cancel"]))
  else catch_provider
         (result ← cancel_payment_intent provider ppid ("cancel:" +:+ pay_id p); mret (tally_result t ppid (pi_status result)))
         (λ _, mret (MkTally (ct_uncertain t ++ [ppid]) (ct_completed t) (ct_outcomes t ++ [outcome_row ppid "unknown"]))).

(** Phase 1: lock and decide; the payments the session has loaded. *)
Definition cancel_decide (order : Order) : M (list Payment) :=
  _ ← raise_if (negb (bool_decide (o_status order = PENDING)))
        (EOrder (CancellationNotAllowedError (order_status_value (o_status order))));
  payments ← list_for_order (o_id order);
  _ ← raise_if (existsb (λ p, bool_decide (pay_status p = PaySucceeded)) payments) (EOrder PaymentInProgressError);
  _ ← commit;
  mret payments.

(** Phase 3: re-lock and re-check, then cancel and restock. *)
Definition cancel_finish (order_id : uuid) (loaded : list Payment) (outcomes : list json) (actor_user_id : option uuid)
    (source reason : string) : M CancelResult :=
  order ← _lock_order order_id;
  if bool_decide (o_status order = CANCELLED) then mret (MkCancelResult "already_cancelled" order)
  else if negb (bool_decide (o_status order = PENDING)) then mret (MkCancelResult "payment_in_progress" order)
  else
    payments ← list_for_order_in loaded (o_id order);
    if existsb (λ p, bool_decide (pay_status p = PaySucceeded)) payments
    then mret (MkCancelResult "payment_in_progress" order)
    else
      _ ← for_each payments (λ p, if bool_decide (pay_status p = PayPending)
                                  then _ ← update_payment_status (pay_id p) PayFailed; mret tt else mret tt);
      order ← _release_stock_and_cancel order actor_user_id reason;
      _ ← _audit "order.cancelled" "order" (o_id order) actor_user_id
            (JObj [("source", JStr source); ("reason", JStr reason); ("provider_outcomes", JList outcomes)]);
      mret (MkCancelResult "cancelled" order).

Definition cancel_order (order_id : uuid) (actor_user_id : option uuid) (source reason : string) : M CancelResult :=
  order ← _lock_order order_id;
  if bool_decide (o_status order = CANCELLED) then mret (MkCancelResult "already_cancelled" order)
  else
    payments ← cancel_decide order;
    let to_cancel := filter (λ p, pay_status p ≠ PayRefunded) payments in
    t ← fold_m cancel_intent (MkTally [] false []) to_cancel;
    if ct_completed t then
      _ ← reconcile CANCEL_PAYMENT_SUCCEEDED ("cancel_payment_succeeded:" +:+ order_id) None (Some order_id) None
            (JObj [("source", JStr source); ("provider_outcomes", JList (ct_outcomes t))]);
      _ ← commit;
      mret (MkCancelResult "payment_in_progress" order)
    else if negb (bool_decide (ct_uncertain t = [])) then
      _ ← reconcile CANCEL_UNCERTAIN ("cancel_uncertain:" +:+ order_id) None (Some order_id) None
            (JObj [("provider_payment_ids", JList (map JStr (ct_uncertain t))); ("source", JStr source)]);
      _ ← commit;
      mret (MkCancelResult "uncertain" order)
    else cancel_finish order_id payments (ct_outcomes t) actor_user_id source reason.

(** ** Refunds *)

Definition EXECUTE_REFUND : string := "execute_refund".
Definition execute_refund_dedupe_key (refund_id : uuid) : string := "execute-refund:" +:+ refund_id.

Definition first_with {A} (f : A → bool) (l : list A) : option A := List.find f l.

(** The succeeded payment a refund is for: the order's, or the one named. *)
Definition refundable_payment (order : Order) (payments : list Payment) (payment_id : option uuid) : M Payment :=
  payment ← match payment_id with
            | None =>
                _ ← raise_if (negb (bool_decide (o_status order = PAID ∨ o_status order = FULFILLED)))
                      (EPayment (OrderNotRefundableError ("Cannot refund an order in status " +:+ order_status_value (o_status order))));
                mret (first_with (λ p, bool_decide (pay_status p = PaySucceeded)) payments)
            | Some pid =>
                mret (match first_with (λ p, String.eqb (pay_id p) pid) payments with
                      | Some p => if bool_decide (pay_status p = PaySucceeded) then Some p else None
                      | None => None
                      end)
            end;
  of_option payment (EPayment (OrderNotRefundableError "No successful payment found for this order")).

(** What stands in the way of refunding this payment in full, checked under its lock. *)
Definition refund_preconditions (order : Order) (payment : Payment) : M Z :=
  _ ← raise_if (negb (opt_eqb (o_currency order) (Some (pay_currency payment))))
        (EPayment (PaymentInconsistentError "The payment currency does not match the order currency"));
  disputed ← has_open (pay_id payment);
  _ ← raise_if disputed (EPayment PaymentDisputedError);
  committed ← committed_amount (pay_id payment);
  _ ← raise_if (pay_amount_cents payment <=? committed)
        (EPayment (OrderNotRefundableError "This payment has already been fully refunded"));
  _ ← raise_if (0 <? committed) (EPayment PartialRefundNotSupportedError);
  of_sum (to_stripe_amount (MInt (pay_amount_cents payment)) (pay_currency payment)).

(** The new request, its job and its audit rows. *)
Definition open_refund (order : Order) (payment : Payment) (amount : Z) (requested_by : uuid) (cancels_order : bool) : M Refund :=
  attempt_number ← count_for_payment (pay_id payment);
  refund ← create_refund_row (pay_id payment) (o_id order) amount (pay_currency payment)
             ("refund:" +:+ pay_id payment +:+ ":" +:+ str_Z attempt_number) (Some requested_by) cancels_order
             RefRequested true None;
  _ ← enqueue EXECUTE_REFUND (JObj [("refund_id", JStr (r_id refund))]) (Some (execute_refund_dedupe_key (r_id refund)));
  _ ← _audit "refund.requested" "refund" (r_id refund) (Some requested_by)
        (JObj [("order_id", JStr (o_id order)); ("amount", JInt amount); ("currency", JStr (pay_currency payment));
               ("cancels_order", JBool cancels_order)]);
  _ ← (if cancels_order
       then _audit "order.cancel_refund_requested" "order" (o_id order) (Some requested_by) (JObj [("refund_id", JStr (r_id refund))])
       else mret tt);
  mret refund.

Definition request_refund (order_id requested_by : uuid) (payment_id : option uuid) (cancels_order : bool) : M (Refund * bool) :=
  order ← _lock_order order_id;
  _ ← raise_if (opt_eqb (o_currency order) None) (EPayment OrderCurrencyUnknownError);
  _ ← raise_if (cancels_order && negb (bool_decide (o_status order = PAID)))
        (EOrder (CancelAndRefundNotAllowedError (order_status_value (o_status order))));
  payments ← list_for_order (o_id order);
  payment ← refundable_payment order payments payment_id;
  existing ← get_active_for_payment (pay_id payment);
  match existing with
  | Some r =>
      _ ← raise_if (negb (Bool.eqb (r_cancels_order r) cancels_order)) (EPayment (RefundAlreadyRequestedError (r_cancels_order r)));
      mret (r, false)
  | None =>
      amount ← refund_preconditions order payment;
      r ← open_refund order payment amount requested_by cancels_order;
      mret (r, true)
  end.

Record RefundAttempt := MkAttempt {
  ra_refund_id : uuid; ra_provider_payment_id : string; ra_provider_config_id : option uuid;
  ra_amount : Z; ra_currency : string; ra_idempotency_key : string }.

(** A dispute is open and nothing was submitted: the refund ends. *)
Definition block_refund (refund : Refund) (payment : Payment) : M (option RefundAttempt) :=
  _ ← update_refund (r_id refund) (λ r, r <| r_status := RefFailed |>
        <| r_failure_reason := Some "not submitted: a dispute is open on this payment" |>);
  _ ← reconcile REFUND_BLOCKED_BY_DISPUTE ("refund_blocked_by_dispute:" +:+ r_id refund) (Some payment) None None
        (JObj [("refund_id", JStr (r_id refund)); ("cancels_order", JBool (r_cancels_order refund))]);
  _ ← _audit "refund.blocked_by_dispute" "refund" (r_id refund) None (JObj [("payment_id", JStr (pay_id payment))]);
  _ ← commit;
  mret None.

Definition submit_attempt (refund : Refund) (payment : Payment) : M (option RefundAttempt) :=
  refund ← update_refund (r_id refund) (λ r, r <| r_attempts := r_attempts r + 1 |>);
  let reference := if refund_needs_provider_reference (pay_provider payment) then pay_provider_reference payment else None in
  let refund_target := default (pay_provider_payment_id payment) (truthy reference) in
  amount ← of_sum (to_stripe_amount (MInt (r_amount_cents refund)) (r_currency refund));
  _ ← commit;
  mret (Some (MkAttempt (r_id refund) refund_target (pay_provider_config_id payment) amount (r_currency refund) (r_idempotency_key refund))).

Definition begin_refund_attempt (refund_id : uuid) : M (option RefundAttempt) :=
  found ← get_refund refund_id;
  match found with
  | None => mret None
  | Some refund =>
      if negb (bool_decide (r_status refund = RefRequested)) then mret None
      else
        locked ← get_payment (r_payment_id refund);
        payment ← of_option locked (RuntimeError "AttributeError");
        disputed ← has_open (pay_id payment);
        if (disputed : bool) && (r_attempts refund =? 0) then block_refund refund payment
        else
          _ ← (if disputed
               then reconcile DISPUTE_DURING_REFUND ("dispute_during_refund:" +:+ r_id refund) (Some payment) None None
                      (JObj [("refund_id", JStr (r_id refund)); ("attempts", JInt (r_attempts refund));
                             ("phase", JStr "retry_after_unknown_outcome")])
               else mret false);
          submit_attempt refund payment
  end.

Definition record_refund_attempt_failed (refund_id : uuid) (error : string) : M string :=
  let error := String.substring 0 500 (redact error) in
  found ← get_refund refund_id;
  match found with
  | None => mret "stale"
  | Some refund =>
      if negb (bool_decide (r_status refund = RefRequested)) then mret "stale"
      else if r_attempts refund <? refund_max_attempts then mret "retry"
      else
        _ ← update_refund (r_id refund) (λ r, r <| r_status := RefUncertain |> <| r_failure_reason := Some error |>);
        _ ← reconcile REFUND_UNCERTAIN ("refund_uncertain:" +:+ r_id refund) None (Some (r_order_id refund)) None
              (JObj [("refund_id", JStr (r_id refund)); ("error", JStr error)]);
        _ ← _audit "refund.uncertain" "refund" (r_id refund) None (JObj [("error", JStr error)]);
        _ ← commit;
        mret "uncertain"
  end.

(** A confirmed, requested refund of the whole payment ends the order. *)
Definition refund_order (refund : Refund) (order : Order) (payment : Payment) : M unit :=
  let fully_refunded := pay_amount_cents payment <=? default 0 (pay_refunded_amount_cents payment) in
  if r_origin_requested refund && fully_refunded && bool_decide (o_status order = PAID ∨ o_status order = FULFILLED) then
    let was_fulfilled := bool_decide (o_status order = FULFILLED) in
    order ← update_status order REFUNDED None (Some "refund confirmed by the payment provider");
    _ ← issue_credit_note order;
    if r_cancels_order refund && negb was_fulfilled then _ ← _restock_once order; mret tt else mret tt
  else mret tt.

Definition _confirm_refund (refund : Refund) (provider_refund_id : option string) (amount : option Z) : M unit :=
  order ← _lock_order (r_order_id refund);
  found ← get_payment (r_payment_id refund);
  payment ← of_option found (RuntimeError "AttributeError");
  payment ← add_refunded_amount (pay_id payment) provider_refund_id (or_Z amount (r_amount_cents refund));
  disputed ← has_open (pay_id payment);
  _ ← (if disputed : bool
       then reconcile DISPUTE_DURING_REFUND ("dispute_during_refund:" +:+ r_id refund) (Some payment) None None
              (JObj [("refund_id", JStr (r_id refund)); ("phase", JStr "refund_confirmed_while_dispute_open")])
       else mret false);
  _ ← refund_order refund order payment;
  _audit "refund.succeeded" "refund" (r_id refund) None (JObj [("order_id", JStr (o_id order))]).

(** The provider's refund id is kept the first time it is heard. *)
Definition learn_ref (provider_refund_id : option string) (r : Refund) : Refund :=
  match truthy provider_refund_id, r_provider_refund_id r with
  | Some i, None => r <| r_provider_refund_id := Some i |>
  | _, _ => r
  end.

Definition refund_mismatch (refund : Refund) (amount : option Z) (currency : option string) : bool :=
  match amount with Some a => negb (a =? r_amount_cents refund) | None => false end
  || match currency with Some c => negb (String.eqb c (r_currency refund)) | None => false end.

Definition apply_refund_state (refund : Refund) (status : option string) (amount : option Z) (currency : option string)
    (provider_refund_id : option string) : M unit :=
  _ ← (if refund_mismatch refund amount currency then
         _ ← reconcile REFUND_MISMATCH ("refund_mismatch:" +:+ r_id refund) None (Some (r_order_id refund)) None
               (JObj [("requested_amount", JInt (r_amount_cents refund)); ("requested_currency", JStr (r_currency refund));
                      ("provider_amount", j_opt JInt amount); ("provider_currency", j_opt JStr currency)]);
         _audit "payment.refund_mismatch" "refund" (r_id refund) None
           (JObj [("requested", JInt (r_amount_cents refund)); ("provider", j_opt JInt amount)])
       else mret tt);
  let save f := update_refund (r_id refund) (λ r, f (learn_ref provider_refund_id r)) in
  if refund_final (r_status refund) then _ ← save (λ r, r); mret tt
  else if opt_eqb status (Some "succeeded") then
    saved ← save (λ r, r <| r_status := RefSucceeded |>);
    _confirm_refund saved (or_str provider_refund_id (r_provider_refund_id saved)) amount
  else if opt_eqb status (Some "failed") || opt_eqb status (Some "canceled") then
    _ ← save (λ r, r <| r_status := RefFailed |>
          <| r_failure_reason := Some ("provider reported '" +:+ default "" status +:+ "'") |>);
    _audit "refund.failed" "refund" (r_id refund) None (JObj [("provider_status", j_opt JStr status)])
  else
    _ ← save (λ r, if bool_decide (r_status refund = RefRequested) then r <| r_status := RefPending |> else r);
    mret tt.

Definition finish_refund (refund_id : uuid) (result : RefundResult) : M unit :=
  found ← get_refund refund_id;
  match found with
  | None => mret tt
  | Some refund =>
      _ ← apply_refund_state refund (Some (rr_status result)) (Some (rr_amount_cents result)) (rr_currency result)
            (Some (rr_provider_refund_id result));
      commit
  end.

(** ** Admin actions *)

Definition admin_change_status (order_id : uuid) (new_status : OrderStatus) (admin_user_id : uuid) : M Order :=
  match new_status with
  | FULFILLED => fulfil_order order_id admin_user_id
  | CANCELLED => raise (EOrder (StatusChangeNotAllowedError
      ("Cancel an unpaid order with POST /api/v1/orders/{id}/cancel: it also cancels the payment "
       +:+ "and restocks. A paid order is refunded, not cancelled.")))
  | PAID => raise (EOrder (StatusChangeNotAllowedError
      "An order becomes paid only when the payment provider confirms a payment; it cannot be set by hand."))
  | REFUNDED => raise (EOrder (StatusChangeNotAllowedError
      ("An order becomes refunded only when the payment provider confirms a refund. "
       +:+ "Request one with POST /api/v1/payments/{order_id}/refund.")))
  | PENDING => raise (EOrder (StatusChangeNotAllowedError "An order cannot return to pending."))
  end.

Definition open_record (record_id : uuid) : M PaymentReconciliation :=
  found ← get_reconciliation record_id;
  match found with
  | Some r => if rc_open r then mret r else raise (EPayment ReconciliationNotOpenError)
  | None => raise (EPayment ReconciliationNotOpenError)
  end.
Definition close_record (record_id admin : uuid) (resolution note : string) : M PaymentReconciliation :=
  t ← now;
  update_reconciliation record_id (λ r, r <| rc_open := false |> <| rc_resolution := Some resolution |>
    <| rc_resolution_note := Some note |> <| rc_resolved_by_user_id := Some admin |> <| rc_resolved_at := Some t |>).

Definition resolve_reconciliation (record_id admin_user_id : uuid) (resolution note : string) : M PaymentReconciliation :=
  record ← open_record record_id;
  record ← close_record (rc_id record) admin_user_id resolution (py_strip note);
  _ ← _audit "reconciliation.resolved" "payment_reconciliation" (rc_id record) (Some admin_user_id)
        (JObj [("resolution", JStr resolution)]);
  mret record.

Definition refund_from_reconciliation (record_id admin_user_id : uuid) : M (PaymentReconciliation * Refund) :=
  record ← open_record record_id;
  match rc_payment_id record, rc_order_id record with
  | Some pid, Some oid =>
      res ← request_refund oid admin_user_id (Some pid) false;
      let refund := res.1 in
      record ← close_record (rc_id record) admin_user_id "refund_requested"
                 ("Refund " +:+ r_id refund +:+ " requested by an administrator");
      _ ← _audit "reconciliation.resolved" "payment_reconciliation" (rc_id record) (Some admin_user_id)
            (JObj [("resolution", JStr "refund_requested"); ("refund_id", JStr (r_id refund))]);
      mret (record, refund)
  | _, _ => raise (EPayment (OrderNotRefundableError "This record has no payment to refund"))
  end.

(** ** Refunds made at the provider, and disputes *)

Definition record_external_refund (payment : Payment) (provider_refund_id : string) (amount : option Z) (currency : option string) : M bool :=
  known ← get_by_provider_refund_id provider_refund_id;
  if negb (bool_decide (known = None)) then mret false
  else
    let details := [("provider_refund_id", JStr provider_refund_id); ("amount", j_opt JInt amount); ("currency", j_opt JStr currency);
                    ("payment_amount", JInt (pay_amount_cents payment)); ("payment_currency", JStr (pay_currency payment))] in
    match amount with
    | Some a =>
        if (a <=? 0) || negb (opt_eqb currency (Some (pay_currency payment)))
        then _ ← reconcile REFUND_MISMATCH ("external_refund_invalid:" +:+ provider_refund_id) (Some payment) None None (JObj details);
             mret false
        else
          created ← catch_integrity
            (_ ← savepoint (create_refund_row (pay_id payment) (pay_order_id payment) a (pay_currency payment)
                   ("provider:" +:+ provider_refund_id) None false RefSucceeded false (Some provider_refund_id));
             mret true)
            (_ ← reconcile REFUND_MISMATCH ("external_refund_exceeds:" +:+ provider_refund_id) (Some payment) None None
                   (JObj (details ++ [("problem", JStr "would exceed the payment amount")]));
             mret false);
          if created : bool then
            _ ← add_refunded_amount (pay_id payment) (Some provider_refund_id) a;
            _ ← reconcile EXTERNAL_REFUND ("external_refund:" +:+ provider_refund_id) (Some payment) None None (JObj details);
            _ ← _audit "refund.external_recorded" "payment" (pay_id payment) None (JObj details);
            mret true
          else mret false
    | None =>
        _ ← reconcile REFUND_MISMATCH ("external_refund_invalid:" +:+ provider_refund_id) (Some payment) None None (JObj details);
        mret false
    end.

Definition DISPUTE_STATUS_MAP (s : string) : option DisputeStatus :=
  if String.eqb s "needs_response" then Some DispOpen
  else if String.eqb s "warning_needs_response" then Some DispOpen
  else if String.eqb s "under_review" then Some DispUnderReview
  else if String.eqb s "warning_under_review" then Some DispUnderReview
  else if String.eqb s "won" then Some DispWon
  else if String.eqb s "lost" then Some DispLost
  else if String.eqb s "warning_closed" then Some DispClosed
  else None.

(** A dispute heard of for the first time. *)
Definition open_dispute (event : WebhookEvent) (payment : Payment) (pdid : string) (mapped : DisputeStatus) : M Dispute :=
  let terminal := dispute_final mapped in
  i ← new_uuid;
  t ← now;
  let dispute := MkDispute i (ev_provider event) pdid (pay_id payment) (pay_order_id payment)
                   (or_Z (ev_amount event) (pay_amount_cents payment))
                   (default (pay_currency payment) (truthy (ev_currency event))) mapped
                   (ev_dispute_status event) (ev_dispute_reason event) (if terminal then Some t else None) in
  _ ← insert_dispute dispute;
  _ ← _audit "dispute.opened" "dispute" i None
        (JObj [("status", JStr (dispute_status_value mapped)); ("payment_id", JStr (pay_id payment))]);
  _ ← (if terminal then mret false
       else
         submitted ← has_submitted_refund (pay_id payment);
         _ ← (if submitted : bool
              then reconcile DISPUTE_DURING_REFUND ("dispute_during_refund:dispute:" +:+ i) (Some payment) None None
                     (JObj [("dispute_id", JStr i); ("phase", JStr "dispute_opened_after_refund_submitted")])
              else mret false);
         reconcile DISPUTE_OPENED ("dispute_opened:" +:+ i) (Some payment) None None
           (JObj [("dispute_id", JStr i); ("reason", j_opt JStr (ev_dispute_reason event));
                  ("amount", JInt (di_amount_cents dispute)); ("currency", JStr (di_currency dispute))]));
  mret dispute.

Definition change_dispute (event : WebhookEvent) (dispute : Dispute) (mapped : DisputeStatus) : M Dispute :=
  t ← now;
  dispute' ← update_dispute (di_id dispute) (λ x,
    let x := x <| di_status := mapped |> <| di_provider_status := ev_dispute_status event |> in
    if dispute_final mapped then x <| di_closed_at := Some t |> else x);
  _ ← _audit "dispute.status_changed" "dispute" (di_id dispute) None
        (JObj [("from", JStr (dispute_status_value (di_status dispute))); ("to", JStr (dispute_status_value mapped))]);
  mret dispute'.

(** The end of a dispute is audited; a lost one is put before a human. *)
Definition close_dispute (payment : Payment) (dispute : Dispute) (mapped : DisputeStatus) : M unit :=
  match mapped with
  | DispLost =>
      _ ← reconcile DISPUTE_LOST ("dispute_lost:" +:+ di_id dispute) (Some payment) None None
            (JObj [("dispute_id", JStr (di_id dispute)); ("amount", JInt (di_amount_cents dispute)); ("currency", JStr (di_currency dispute))]);
      _audit "dispute.lost" "dispute" (di_id dispute) None JNull
  | DispWon | DispClosed => _audit ("dispute." +:+ dispute_status_value mapped) "dispute" (di_id dispute) None JNull
  | _ => mret tt
  end.

Definition apply_dispute_event (event : WebhookEvent) : M unit :=
  payment ← (if String.eqb (ev_provider_payment_id event) "" then mret None
             else get_by_provider_payment_id (ev_provider_payment_id event) (Some (ev_provider event)));
  match payment, truthy (ev_provider_dispute_id event) with
  | Some payment, Some pdid =>
      let mapped := default DispOpen (DISPUTE_STATUS_MAP (default "" (ev_dispute_status event))) in
      known ← get_dispute_by_provider_id (ev_provider event) pdid;
      match known with
      | None => dispute ← open_dispute event payment pdid mapped; close_dispute payment dispute mapped
      | Some dispute =>
          if dispute_final (di_status dispute) || bool_decide (mapped = di_status dispute) then mret tt
          else dispute ← change_dispute event dispute mapped; close_dispute payment dispute mapped
      end
  | _, _ =>
      _ ← reconcile UNMATCHED_DISPUTE ("unmatched_dispute:" +:+ default (ev_event_id event) (truthy (ev_provider_dispute_id event)))
            None None (truthy (Some (ev_provider_payment_id event)))
            (JObj [("provider_dispute_id", j_opt JStr (ev_provider_dispute_id event)); ("status", j_opt JStr (ev_dispute_status event));
                   ("amount", j_opt JInt (ev_amount event))]);
      mret tt
  end.
End lifecycle.

(** ** Every operation keeps the tables sound *)

Lemma guar_catch_provider {A} (m : M A) h : guar step m → (∀ msg, guar step (h msg)) → guar step (catch_provider m h).
Proof.
  intros Hm Hh. apply guar_try; [apply _|done|]. intros e k. destruct e as [| | | | |[]| | | | | | | | | | | | | | |]; intros [= <-]; apply Hh.
Qed.
Lemma guar_catch_integrity {A} (m h : M A) : guar step m → guar step h → guar step (catch_integrity m h).
Proof. intros Hm Hh. apply guar_try; [apply _|done|]. intros e k. destruct e; intros [= <-]; apply Hh. Qed.
#[export] Hint Extern 2 (guar step (catch_provider _ _)) => (apply guar_catch_provider; solve_guar) : guar.
#[export] Hint Extern 2 (guar step (catch_integrity _ _)) => (apply guar_catch_integrity; solve_guar) : guar.

Section lifecycle_sound.
Context `{!Settings} `{!Providers} `{!ProvidersOk}.

Lemma guar_with_provider {A} c (f : PaymentProvider → M A) :
  (∀ p, provider_ok p → guar step (f p)) → guar step (_provider_for c ≫= f).
Proof.
  intros Hf. destruct c as [c|]; cbn [_provider_for]; [|intros s; apply Hf, env_ok].
  intros s. unfold provider_for_config, db_gets, gets, mbind, ST_bind, mret, ST_ret, of_sum; cbn.
  destruct (d_configs (st_db s) !! c) as [cf|]; cbn; [|apply Hf, env_ok].
  destruct (build_provider cf false) as [e|p] eqn:Hp; cbn; [reflexivity|]. apply Hf. by eapply built_ok.
Qed.

Lemma guar_audit a b c d e : guar step (_audit a b c d e).
Proof. unfold _audit. solve_guar. Qed.
Lemma guar_lock_order o : guar step (_lock_order o).
Proof. unfold _lock_order. solve_guar. Qed.
#[local] Hint Resolve guar_audit guar_lock_order : guar.
Lemma guar_reconcile a b c d e f : guar step (reconcile a b c d e f).
Proof. unfold reconcile. solve_guar. Qed.
#[local] Hint Resolve guar_reconcile : guar.

Lemma guar_mark_paid o p : guar step (mark_paid o p).
Proof. unfold mark_paid. solve_guar. Qed.
Lemma guar_fulfil_order o a : guar step (fulfil_order o a).
Proof. unfold fulfil_order. solve_guar. Qed.
Lemma guar_restock_pending l a i : guar step (restock_pending l a i).
Proof. unfold restock_pending. solve_guar. Qed.
#[local] Hint Resolve guar_restock_pending guar_fulfil_order : guar.
Lemma guar_restock_once o : guar step (_restock_once o).
Proof. unfold _restock_once. solve_guar. Qed.
#[local] Hint Resolve guar_restock_once : guar.
Lemma guar_release_stock_and_cancel o a r : guar step (_release_stock_and_cancel o a r).
Proof. unfold _release_stock_and_cancel. solve_guar. Qed.
#[local] Hint Resolve guar_release_stock_and_cancel : guar.
Lemma guar_cancel_intent t p : guar step (cancel_intent t p).
Proof. unfold cancel_intent. apply guar_with_provider. intros pr []. solve_guar. Qed.
Lemma guar_cancel_finish a b c d e f : guar step (cancel_finish a b c d e f).
Proof. unfold cancel_finish. solve_guar. Qed.
Lemma guar_cancel_decide o : guar step (cancel_decide o).
Proof. unfold cancel_decide. solve_guar. Qed.
#[local] Hint Resolve guar_cancel_intent guar_cancel_finish guar_cancel_decide : guar.
Lemma guar_cancel_order a b c d : guar step (cancel_order a b c d).
Proof. unfold cancel_order. solve_guar. Qed.

Lemma guar_refundable_payment a b c : guar step (refundable_payment a b c).
Proof. unfold refundable_payment. solve_guar. Qed.
Lemma guar_refund_preconditions a b : guar step (refund_preconditions a b).
Proof. unfold refund_preconditions. solve_guar. Qed.
Lemma guar_open_refund a b c d e : guar step (open_refund a b c d e).
Proof. unfold open_refund. solve_guar. Qed.
#[local] Hint Resolve guar_refundable_payment guar_refund_preconditions guar_open_refund : guar.
Lemma guar_request_refund a b c d : guar step (request_refund a b c d).
Proof. unfold request_refund. solve_guar. Qed.
Lemma guar_block_refund a b : guar step (block_refund a b).
Proof. unfold block_refund. solve_guar. Qed.
Lemma guar_submit_attempt a b : guar step (submit_attempt a b).
Proof. unfold submit_attempt. solve_guar. Qed.
#[local] Hint Resolve guar_request_refund guar_block_refund guar_submit_attempt : guar.
Lemma guar_begin_refund_attempt a : guar step (begin_refund_attempt a).
Proof. unfold begin_refund_attempt. solve_guar. Qed.
Lemma guar_record_refund_attempt_failed a b : guar step (record_refund_attempt_failed a b).
Proof. unfold record_refund_attempt_failed. solve_guar. Qed.
Lemma guar_refund_order a b c : guar step (refund_order a b c).
Proof. unfold refund_order. solve_guar. Qed.
#[local] Hint Resolve guar_refund_order : guar.
Lemma guar_confirm_refund a b c : guar step (_confirm_refund a b c).
Proof. unfold _confirm_refund. solve_guar. Qed.
#[local] Hint Resolve guar_confirm_refund : guar.

Lemma guar_save rid f : (∀ r, refund_facts (f r) = refund_facts r) → guar step (update_refund rid f).
Proof.
  intros Hf. apply guar_update_refund. intros r. specialize (Hf r). unfold refund_facts in Hf. split_and!; congruence.
Qed.
Lemma guar_apply_refund_state a b c d e : guar step (apply_refund_state a b c d e).
Proof.
  unfold apply_refund_state; cbv zeta beta. solve_guar;
    (apply guar_save; intros r; unfold learn_ref; destruct (truthy e), (r_provider_refund_id r); try case_bool_decide; reflexivity).
Qed.
#[local] Hint Resolve guar_apply_refund_state : guar.
Lemma guar_finish_refund a b : guar step (finish_refund a b).
Proof. unfold finish_refund. solve_guar. Qed.
Lemma guar_admin_change_status a b c : guar step (admin_change_status a b c).
Proof. unfold admin_change_status. solve_guar. Qed.
Lemma guar_open_record a : guar step (open_record a).
Proof. unfold open_record. solve_guar. Qed.
Lemma guar_close_record a b c d : guar step (close_record a b c d).
Proof. unfold close_record. solve_guar. Qed.
#[local] Hint Resolve guar_open_record guar_close_record : guar.
Lemma guar_resolve_reconciliation a b c d : guar step (resolve_reconciliation a b c d).
Proof. unfold resolve_reconciliation. solve_guar. Qed.
Lemma guar_refund_from_reconciliation a b : guar step (refund_from_reconciliation a b).
Proof. unfold refund_from_reconciliation. solve_guar. Qed.
Lemma guar_record_external_refund a b c d : guar step (record_external_refund a b c d).
Proof. unfold record_external_refund; cbv zeta. solve_guar. Qed.
Lemma guar_open_dispute a b c d : guar step (open_dispute a b c d).
Proof. unfold open_dispute; cbv zeta. solve_guar. Qed.
Lemma guar_change_dispute a b c : guar step (change_dispute a b c).
Proof.
  unfold change_dispute. solve_guar. apply guar_update_dispute. intros x; cbv zeta. by destruct (dispute_final c).
Qed.
Lemma guar_close_dispute a b c : guar step (close_dispute a b c).
Proof. unfold close_dispute. solve_guar. Qed.
#[local] Hint Resolve guar_open_dispute guar_change_dispute guar_close_dispute : guar.
Lemma guar_apply_dispute_event e : guar step (apply_dispute_event e).
Proof. unfold apply_dispute_event; cbv zeta. solve_guar. Qed.
End lifecycle_sound.

#[export] Hint Resolve guar_audit guar_lock_order guar_reconcile guar_mark_paid guar_fulfil_order guar_restock_once
  guar_cancel_order guar_request_refund guar_begin_refund_attempt guar_record_refund_attempt_failed
  guar_apply_refund_state guar_finish_refund guar_admin_change_status guar_resolve_reconciliation
  guar_refund_from_reconciliation guar_record_external_refund guar_apply_dispute_event : guar.
#[export] Hint Extern 0 (guar step (_provider_for _ ≫= _)) =>
  (apply guar_with_provider; intros ? []; solve_guar) : guar.
