(* ===== verification/LifecycleFrames.v ===== *)
(** * What the lifecycle operations leave alone

    The tables each method of [Lifecycle] may write. *)

From S2P Require Import Prelude Decimal Errors Money Schema Guards Evolution Invoice Repositories Frames Lifecycle.

Local Open Scope string_scope.
Local Open Scope list_scope.
Local Open Scope Z_scope.

(** Catching a duplicate key writes what the attempt and its handler write. *)
Lemma only_caught {A} ts (m h : M A) : guar (only ts) m → guar (only ts) h → guar (only ts) (catch_integrity m h).
Proof. intros Hm Hh. apply guar_try; [apply _|done|]. intros e k. destruct e; intros [= <-]; apply Hh. Qed.

Section lifecycle_frames.
Context `{!Settings} `{!Providers}.

Lemma only_audit a b c d e : guar (only [TAudit]) (_audit a b c d e).
Proof. unfold _audit. solve_frame. Qed.
Lemma only_lock_order k : guar (only []) (_lock_order k).
Proof. unfold _lock_order. solve_frame. Qed.
#[local] Hint Resolve only_audit only_lock_order : frame.
Lemma only_reconcile a b c d e f : guar (only [TReconciliations; TAudit]) (reconcile a b c d e f).
Proof. unfold reconcile. solve_frame. Qed.
#[local] Hint Resolve only_reconcile : frame.
Lemma only_mark_paid o p : guar (only [TOrders; THistory; TAudit]) (mark_paid o p).
Proof. unfold mark_paid; cbv zeta. solve_frame. Qed.
Lemma only_restock_pending l a i : guar (only []) (restock_pending l a i).
Proof. unfold restock_pending. solve_frame. Qed.
#[local] Hint Resolve only_restock_pending : frame.
Lemma only_restock_once o : guar (only [TOrders; TItems; TRestocks; TProducts; TVariants; TMovements]) (_restock_once o).
Proof. unfold _restock_once; cbv zeta. solve_frames. Qed.
#[local] Hint Resolve only_restock_once : frame.
Lemma only_request_refund a b c d : guar (only [TRefunds; TJobs; TAudit]) (request_refund a b c d).
Proof. unfold request_refund, refundable_payment, refund_preconditions, open_refund. solve_frame. Qed.

Lemma only_invoice_for a b : guar (only []) (invoice_for a b).
Proof. unfold invoice_for. solve_frame. Qed.
Lemma only_j_index k j : guar (only []) (j_index k j).
Proof. unfold j_index. solve_frame. Qed.
Lemma only_j_list j : guar (only []) (j_list j).
Proof. unfold j_list. solve_frame. Qed.
#[local] Hint Resolve only_invoice_for only_j_index only_j_list : frame.
Lemma only_build_row a b c : guar (only []) (build_row a b c).
Proof. unfold build_row. solve_frame. Qed.
#[local] Hint Resolve only_build_row : frame.
Lemma only_build_document a b c d e f g : guar (only []) (_build_document a b c d e f g).
Proof. unfold _build_document; cbv zeta. solve_frame. Qed.
#[local] Hint Resolve only_build_document : frame.
Lemma only_issue a b c : guar (only [TInvoices; TSequences]) (_issue a b c).
Proof. unfold _issue, india_today, _next_sequence; cbv zeta. solve_frame. Qed.
#[local] Hint Resolve only_issue : frame.
Lemma only_issue_invoice a b : guar (only [TInvoices; TSequences]) (issue_invoice a b).
Proof. unfold issue_invoice. solve_frame. Qed.
Lemma only_issue_credit_note a : guar (only [TInvoices; TSequences]) (issue_credit_note a).
Proof. unfold issue_credit_note. solve_frame. Qed.
#[local] Hint Resolve only_issue_invoice only_issue_credit_note : frame.
Lemma only_fulfil_order a b : guar (only [TOrders; THistory; TInvoices; TSequences; TAudit]) (fulfil_order a b).
Proof. unfold fulfil_order. solve_frame. Qed.
Lemma only_refund_order a b c :
  guar (only [TOrders; THistory; TInvoices; TSequences; TItems; TRestocks; TProducts; TVariants; TMovements]) (refund_order a b c).
Proof. unfold refund_order; cbv zeta. solve_frame. Qed.
End lifecycle_frames.
#[export] Hint Resolve only_audit only_lock_order only_reconcile only_mark_paid only_restock_pending only_restock_once
  only_request_refund only_invoice_for only_issue_invoice only_issue_credit_note only_fulfil_order only_refund_order : frame.
