(* ===== verification/Payments.v ===== *)
(** * Paying for an order: payment creation, webhooks, and the background jobs of payments

    [payments/services/payment_service.py], [payments/services/provider_resolver.py],
    [payments/webhook_recovery.py], [payments/jobs.py], and the access checks of
    [orders/services/order_service.py] the payment endpoints use. A webhook enters after its signature
    was verified. *)

From S2P Require Import Prelude Decimal Errors Money Schema Guards GatewayGuards Evolution Invoice Repositories Lifecycle.

Local Open Scope string_scope.
Local Open Scope list_scope.
Local Open Scope Z_scope.

Definition SUCCEEDED_EVENT : string := "payment_intent.succeeded".
Definition FAILED_EVENT : string := "payment_intent.payment_failed".
Definition OPEN_INTENT_STATUSES : list string :=
  ["requires_payment_method"; "requires_confirmation"; "requires_action"; "processing"; "requires_capture"].
Definition SEND_ORDER_CONFIRMATION : string := "send_order_confirmation".
Definition order_confirmation_dedupe_key (order_id : uuid) : string := "order-confirmation:" +:+ order_id.

(** [text.startswith(prefix)] *)
Definition startswith (pre text : string) : bool := String.prefix pre text.

Section payments.
Context `{!Settings} `{!Crypto} `{!Providers}.

(** ** Access ([order_service.py]) *)

Definition get_order (order_id user_id : uuid) (is_admin : bool) : M Order :=
  order ← _lock_order order_id;
  _ ← raise_if (negb is_admin && negb (opt_eqb (o_user_id order) (Some user_id))) (EOrder OrderAccessForbiddenError);
  mret order.

Definition _hash_payment_token (token : string) : string := sha256_hex token.

Definition authorize_guest_payment (order_id : uuid) (token : string) : M Order :=
  found ← get_order_by_id order_id;
  t ← now;
  match found with
  | None => raise (EOrder (OrderNotFoundError order_id))
  | Some order =>
      match o_user_id order, truthy (o_payment_token_hash order) with
      | None, Some h =>
          _ ← raise_if (negb (String.eqb (_hash_payment_token token) h)) (EOrder (OrderNotFoundError order_id));
          _ ← raise_if (pending_order_timeout_minutes * 60 <? t - o_created_at order) (EOrder (OrderNotFoundError order_id));
          mret order
      | _, _ => raise (EOrder (OrderNotFoundError order_id))
      end
  end.

(** ** Which provider *)

Definition live_payments_active : M bool := db_gets (λ d, live_payments_enabled && live_active d).
Definition uses_configurations : M bool := db_gets (λ d, negb (bool_decide (d_configs d = ∅))).

Definition unavailable (code message : string) : Err := EProviderConfig (PaymentProviderUnavailableError code message).

Definition select_for_new_payment (currency : string) : M (PaymentProvider * PaymentProviderConfig) :=
  d ← gets st_db;
  preferred ← scalar_one_or_none (rows_where cf_is_preferred (d_configs d));
  config ← of_option preferred (unavailable "no_payment_provider_selected"
    "No payment provider is selected for this store. An administrator must enable one and choose it.");
  spec ← of_option (get_spec (cf_provider config)) (RuntimeError "AttributeError");
  _ ← raise_if (negb (String.eqb (cf_status config) "enabled"))
        (unavailable "provider_disabled" (sp_label spec +:+ " is not enabled, so no new payments can be started with it"));
  _ ← raise_if (negb (String.eqb (cf_credentials_status config) "valid"))
        (unavailable "provider_credentials_not_valid"
           ("The " +:+ sp_label spec +:+ " credentials are not validated: an administrator must validate them again"));
  _ ← raise_if (negb (bool_decide (py_lower currency ∈ cf_currencies config) && bool_decide (py_lower currency ∈ sp_currencies spec)))
        (unavailable "provider_currency_not_supported"
           (sp_label spec +:+ " is not enabled for " +:+ py_upper currency +:+ " on this store"));
  live_active ← live_payments_active;
  _ ← raise_if (String.eqb (cf_mode config) "live" && negb live_active)
        (unavailable "provider_mode_not_allowed"
           "Live payments are not activated for this store: an administrator must activate them in the admin panel");
  _ ← raise_if (String.eqb (cf_provider config) "demo" && live_active)
        (unavailable "provider_mode_not_allowed" "The demo gateway cannot take payments while live payments are active");
  provider ← of_sum (build_provider config false);
  mret (provider, config).

(** The provider for a new payment, and its stored configuration if any. *)
Definition _select_provider (currency : string) : M (PaymentProvider * option PaymentProviderConfig) :=
  stored ← uses_configurations;
  if stored : bool then sel ← select_for_new_payment currency; mret (sel.1, Some sel.2)
  else mret (env_provider, None).

Definition _assert_live_payments_allowed : M unit :=
  raise_if (startswith "sk_live_" stripe_secret_key || startswith "rk_live_" stripe_secret_key) (EPayment LivePaymentsDisabledError).

Definition _assert_currency_payable (c : string) : M Currency :=
  currency ← of_sum (get_currency c);
  _ ← raise_if (negb (pr_supports_currency env_provider (code currency)))
        (EMoney (CurrencyNotPayableError (code currency) "payment_currency_not_verified"));
  _ ← raise_if (negb (bool_decide (code currency ∈ enabled_payment_currencies)))
        (EMoney (CurrencyNotPayableError (code currency) "payment_currency_not_enabled"));
  mret currency.

Definition _assert_order_payable (order : Order) : M unit :=
  raise_if (negb (bool_decide (o_status order = PENDING)))
    (EPayment (OrderNotPayableError ("Cannot pay an order in status " +:+ order_status_value (o_status order)))).

(** ** Review *)

Definition text_of (j : option json) : option string := match j with Some (JStr s) => Some s | _ => None end.

Definition _flag_for_review (action : string) (payment_id : option uuid) (details : json) (kind : ReconciliationKind)
    (order_id provider_payment_id dedupe_key : option string) : M unit :=
  _ ← audit_log None action "payment" payment_id details;
  let subject := match payment_id with Some p => p | None => default "None" provider_payment_id end in
  let key := default (reconciliation_kind_value kind +:+ ":" +:+ subject) (truthy dedupe_key) in
  payment ← match payment_id with Some p => get_payment p | None => mret None end;
  _ ← reconcile kind key payment order_id (or_str provider_payment_id (text_of (j_get "provider_payment_id" details))) details;
  mret tt.

(** ** Creating a payment *)

Record Plan := MkPlan {
  pl_currency : string; pl_stripe_amount : Z; pl_total : Z; pl_reuse : option Payment;
  pl_provider : PaymentProvider; pl_config_id : option uuid; pl_key : string }.

Definition is_succeeded (p : Payment) : bool := bool_decide (pay_status p = PaySucceeded).
Definition is_pending (p : Payment) : bool := bool_decide (pay_status p = PayPending).
Definition already_paid : Err := EPayment (OrderNotPayableError "This order has already been paid").

Definition _plan_payment (order_id : uuid) : M Plan :=
  order ← _lock_order order_id;
  _ ← _assert_order_payable order;
  order_currency ← of_option (o_currency order)
    (EPayment (OrderNotPayableError "This order has no recorded currency and cannot be paid"));
  sel ← _select_provider order_currency;
  currency ← match sel.2 with
             | None => _assert_currency_payable order_currency
             | Some _ => of_sum (get_currency order_currency)
             end;
  stripe_amount ← of_sum (to_stripe_amount (MInt (o_total_cents order)) (code currency));
  existing ← list_for_order (o_id order);
  _ ← raise_if (existsb is_succeeded existing) already_paid;
  let reusable := first_with (λ p, bool_decide (pay_status p = PayPending ∨ pay_status p = PayFailed)) existing in
  _ ← raise_if (match reusable with
                | Some p => negb (String.eqb (pay_currency p) (code currency)) || negb (pay_amount_cents p =? o_total_cents order)
                | None => false
                end) (EPayment (PaymentInconsistentError "The existing payment does not match the order's amount/currency"));
  _ ← commit;
  mret (MkPlan (code currency) stripe_amount (o_total_cents order) reusable sel.1 (cf_id <$> sel.2)
          ("order:" +:+ o_id order +:+ ":intent:" +:+ str_Z (Z.of_nat (length existing)))).

Definition _cancel_orphan_intent (provider : PaymentProvider) (ppid : string) (order_id : uuid) : M unit :=
  let flag details :=
    _ ← _flag_for_review "payment.orphan_intent" None (JObj details) CANCEL_UNCERTAIN (Some order_id) (Some ppid) None;
    commit in
  if negb (pr_supports_cancel provider)
  then flag [("provider_payment_id", JStr ppid); ("reason", JStr "provider_cannot_cancel")]
  else catch_provider (_ ← cancel_payment_intent provider ppid ("cancel-orphan:" +:+ ppid); mret tt)
         (λ _, flag [("provider_payment_id", JStr ppid)]).

(** What stops the new intent from being recorded, once the order is locked again. *)
Definition intent_refused (order : Order) (loaded : list Payment) : M (option Err) :=
  if negb (bool_decide (o_status order = PENDING))
  then mret (Some (EPayment (OrderNotPayableError ("Cannot pay an order in status " +:+ order_status_value (o_status order)))))
  else
    payments ← list_for_order_in loaded (o_id order);
    mret (if existsb is_succeeded payments then Some already_paid else None).

Definition _create_new_payment (order_id : uuid) (plan : Plan) (loaded : list Payment) : M (Payment * string) :=
  let provider := pl_provider plan in
  intent ← create_payment_intent provider (pl_stripe_amount plan) (pl_currency plan)
             (JObj [("order_id", JStr order_id)]) (pl_key plan);
  order ← _lock_order order_id;
  refused ← intent_refused order loaded;
  match refused with
  | Some e =>
      _ ← commit;
      _ ← _cancel_orphan_intent provider (pi_provider_payment_id intent) order_id;
      raise e
  | None =>
      existing ← get_by_provider_payment_id (pi_provider_payment_id intent) (Some (pr_name provider));
      match existing with
      | Some p => mret (in_session loaded p, pi_client_secret intent)
      | None =>
          payments ← list_for_order_in loaded order_id;
          match first_with is_pending payments with
          | Some winner =>
              _ ← commit;
              _ ← _cancel_orphan_intent provider (pi_provider_payment_id intent) order_id;
              winner_provider ← _provider_for (pay_provider_config_id winner);
              winner_intent ← retrieve_payment_intent winner_provider (pay_provider_payment_id winner);
              _ ← raise_if (negb (bool_decide (pi_status winner_intent ∈ OPEN_INTENT_STATUSES))) already_paid;
              mret (winner, pi_client_secret winner_intent)
          | None =>
              payment ← create_payment order_id (pi_provider_payment_id intent) (pl_total plan) (pl_currency plan)
                          (pr_name provider) (pl_config_id plan);
              mret (payment, pi_client_secret intent)
          end
      end
  end.

(** [if payment.status != status: update_status(payment, status)] *)
Definition ensure_status (p : Payment) (status : PaymentStatus) : M Payment :=
  if bool_decide (pay_status p = status) then mret p else update_payment_status (pay_id p) status.

Definition create_payment_for_order (order_id : uuid) (user_id : option uuid) (guest_payment_token : option string) : M (Payment * string) :=
  _ ← _assert_live_payments_allowed;
  order ← match user_id with
          | Some u => get_order order_id u false
          | None => authorize_guest_payment order_id (default "" guest_payment_token)
          end;
  plan ← _plan_payment (o_id order);
  match pl_reuse plan with
  | None => _create_new_payment (o_id order) plan []
  | Some planned =>
      provider ← _provider_for (pay_provider_config_id planned);
      intent ← retrieve_payment_intent provider (pay_provider_payment_id planned);
      locked ← _lock_order (o_id order);
      _ ← _assert_order_payable locked;
      found ← get_payment (pay_id planned);
      reusable ← of_option found (RuntimeError "AttributeError");
      if String.eqb (pi_status intent) "succeeded" then
        _ ← ensure_status reusable PaySucceeded;
        raise already_paid
      else if bool_decide (pi_status intent ∈ OPEN_INTENT_STATUSES) then
        reusable ← ensure_status reusable PayPending;
        mret (reusable, pi_client_secret intent)
      else
        reusable ← ensure_status reusable PayFailed;
        _ ← commit;
        _create_new_payment (o_id order) plan [reusable]
  end.

Definition payment_request_refund (order_id admin_user_id : uuid) (payment_id : option uuid) (cancels_order : bool) : M (Refund * bool) :=
  _ ← _assert_live_payments_allowed;
  request_refund order_id admin_user_id payment_id cancels_order.

(** ** Webhooks *)

Definition _defer_event (event : WebhookEvent) (reason : string) : M unit :=
  if String.eqb (ev_provider_payment_id event) "" then mret tt
  else if webhook_recovery_interval_seconds <=? 0 then mret tt
  else _ ← defer_event event webhook_recovery_window_minutes webhook_recovery_interval_seconds reason; mret tt.

Definition _defer_if_payment_unknown (event : WebhookEvent) (reason : string) : M unit :=
  if String.eqb (ev_provider_payment_id event) "" then mret tt
  else
    payment ← get_by_provider_payment_id (ev_provider_payment_id event) (Some (ev_provider event));
    match payment with None => _defer_event event reason | Some _ => mret tt end.

(** [except (CurrencyNotPayableError, InvalidMoneyError, UnsupportedCurrencyError): expected = None] *)
Definition expected_amount (payment : Payment) : option Z :=
  match to_stripe_amount (MInt (pay_amount_cents payment)) (pay_currency payment) with inr a => Some a | inl _ => None end.

Definition event_details (event : WebhookEvent) (payment : Payment) : list (string * json) :=
  [("provider_payment_id", JStr (ev_provider_payment_id event)); ("payment_id", JStr (pay_id payment))].

Definition _event_matches_payment (event : WebhookEvent) (payment : Payment) : M bool :=
  let details := event_details event payment in
  let refuse action fields kind :=
    _ ← _flag_for_review action (Some (pay_id payment)) (JObj fields) kind None None None; mret false in
  let expected := expected_amount payment in
  if match ev_config_id event, pay_provider_config_id payment with
     | Some c, Some c' => negb (String.eqb c c')
     | _, _ => false
     end
  then refuse "payment.config_mismatch" details ORDER_MISMATCH
  else if opt_eqb (ev_amount event) None || opt_eqb (ev_currency event) None
  then refuse "payment.unverifiable_success" details UNVERIFIABLE_PAYMENT
  else if opt_eqb expected None || negb (opt_eqb (ev_amount event) expected)
          || negb (opt_eqb (ev_amount_received event) None || opt_eqb (ev_amount_received event) expected)
          || negb (opt_eqb (ev_currency event) (Some (pay_currency payment)))
  then refuse "payment.amount_mismatch"
         (details ++ [("expected_amount", j_opt JInt expected); ("expected_currency", JStr (pay_currency payment));
                      ("received_amount", j_opt JInt (ev_amount event));
                      ("received_amount_received", j_opt JInt (ev_amount_received event));
                      ("received_currency", j_opt JStr (ev_currency event))]) AMOUNT_MISMATCH
  else
    order ← get_order_by_id (pay_order_id payment);
    match order with
    | Some o =>
        if negb (o_total_cents o =? pay_amount_cents payment)
           || negb (opt_eqb (o_currency o) None || opt_eqb (o_currency o) (Some (pay_currency payment)))
        then refuse "payment.order_mismatch"
               (details ++ [("order_total", JInt (o_total_cents o)); ("order_currency", j_opt JStr (o_currency o))]) ORDER_MISMATCH
        else mret true
    | None => mret true
    end.

(** The matched payment is recorded; its order becomes paid if it still can. *)
Definition settle_payment (event : WebhookEvent) (payment : Payment) : M unit :=
  payment ← match truthy (ev_provider_reference event), pay_provider_reference payment with
            | Some ref, None => update_payment (pay_id payment) (λ p, p <| pay_provider_reference := Some ref |>)
            | _, _ => mret payment
            end;
  found ← get_order_by_id (pay_order_id payment);
  payment ← ensure_status payment PaySucceeded;
  match found with
  | None =>
      _flag_for_review "payment.order_missing" (Some (pay_id payment)) (JObj [("order_id", JStr (pay_order_id payment))])
        ORDER_MISMATCH None None None
  | Some order =>
      if negb (bool_decide (o_status order = PENDING))
      then _flag_for_review "payment.late_unreconciled" (Some (pay_id payment))
             (JObj [("order_id", JStr (o_id order)); ("order_status", JStr (order_status_value (o_status order)));
                    ("provider_payment_id", JStr (ev_provider_payment_id event));
                    ("amount_cents", JInt (pay_amount_cents payment)); ("currency", JStr (pay_currency payment))])
             LATE_PAYMENT None None None
      else
        paid ← mark_paid order payment;
        if negb paid then mret tt
        else
          _ ← enqueue SEND_ORDER_CONFIRMATION (JObj [("order_id", JStr (o_id order))])
                (Some (order_confirmation_dedupe_key (o_id order)));
          mret tt
  end.

Definition _handle_payment_succeeded (event : WebhookEvent) : M unit :=
  let ppid := ev_provider_payment_id event in
  found ← get_by_provider_payment_id ppid (Some (ev_provider event));
  match found with
  | None =>
      _ ← _flag_for_review "payment.unmatched_success" None (JObj [("provider_payment_id", JStr ppid)]) UNMATCHED_PAYMENT
            None (Some ppid) None;
      _defer_event event "no payment record for this provider payment id yet"
  | Some payment =>
      matches ← _event_matches_payment event payment;
      if matches : bool then settle_payment event payment else mret tt
  end.

Definition _handle_payment_failed (ppid provider : string) : M unit :=
  found ← get_by_provider_payment_id ppid (Some provider);
  match found with
  | None => mret tt
  | Some payment =>
      if is_succeeded payment then mret tt
      else _ ← update_payment_status (pay_id payment) PayFailed; mret tt
  end.

(** The refund an event is about, and the event (completed with the payment's id when it named the
    payment by its second reference only). *)
Definition refund_of_event (event : WebhookEvent) : M (option Refund * WebhookEvent) :=
  let ppid := ev_provider_payment_id event in
  by_id ← match truthy (ev_provider_refund_id event) with Some i => get_by_provider_refund_id i | None => mret None end;
  match by_id with
  | Some r => mret (Some r, event)
  | None =>
      if negb (String.eqb ppid "") then
        payment ← get_by_provider_payment_id ppid (Some (ev_provider event));
        match payment with
        | Some p => r ← get_active_for_payment (pay_id p); mret (r, event)
        | None => mret (None, event)
        end
      else
        match truthy (ev_provider_reference event) with
        | None => mret (None, event)
        | Some ref =>
            payment ← get_by_provider_reference ref (ev_provider event);
            match payment with
            | Some p => r ← get_active_for_payment (pay_id p);
                        mret (r, event <| ev_provider_payment_id := pay_provider_payment_id p |>)
            | None => mret (None, event)
            end
        end
  end.

(** A confirmed refund of a known payment that was not requested here; whether the event was one. *)
Definition external_refund_event (event : WebhookEvent) : M bool :=
  if opt_eqb (ev_refund_status event) (Some "succeeded") && negb (String.eqb (ev_provider_payment_id event) "") then
    payment ← get_by_provider_payment_id (ev_provider_payment_id event) (Some (ev_provider event));
    match payment, truthy (ev_provider_refund_id event) with
    | Some p, Some i => _ ← record_external_refund p i (ev_amount event) (ev_currency event); mret true
    | _, _ => mret false
    end
  else mret false.

Definition _handle_refund_event (event : WebhookEvent) : M unit :=
  found ← refund_of_event event;
  let event := found.2 in
  match found.1 with
  | Some refund =>
      locked ← get_refund (r_id refund);
      refund ← of_option locked (RuntimeError "AttributeError");
      apply_refund_state refund (ev_refund_status event) (ev_amount event) (ev_currency event) (ev_provider_refund_id event)
  | None =>
      external ← external_refund_event event;
      if external : bool then mret tt
      else
        _ ← _defer_if_payment_unknown event "refund event for a payment we have no record of yet";
        _flag_for_review "payment.unknown_refund" None
          (JObj [("provider_refund_id", j_opt JStr (ev_provider_refund_id event));
                 ("provider_payment_id", JStr (ev_provider_payment_id event));
                 ("amount", j_opt JInt (ev_amount event)); ("status", j_opt JStr (ev_refund_status event))])
          REFUND_MISMATCH None (Some (ev_provider_payment_id event))
          (Some ("unknown_refund:" +:+ default "None" (ev_provider_refund_id event)))
  end.

Definition _handle_dispute_event (event : WebhookEvent) : M unit :=
  _ ← apply_dispute_event event;
  _defer_if_payment_unknown event "dispute event for a payment we have no record of yet".

(** The handler of an event's type; whether there is one. *)
Definition dispatch_event (event : WebhookEvent) : M bool :=
  if String.eqb (ev_event_type event) SUCCEEDED_EVENT then _ ← _handle_payment_succeeded event; mret true
  else if String.eqb (ev_event_type event) FAILED_EVENT
  then _ ← _handle_payment_failed (ev_provider_payment_id event) (ev_provider event); mret true
  else if startswith "refund." (ev_event_type event) then _ ← _handle_refund_event event; mret true
  else if startswith "charge.dispute." (ev_event_type event) then _ ← _handle_dispute_event event; mret true
  else mret false.

Definition process_webhook_event (event : WebhookEvent) : M unit :=
  claimed ← claim_webhook_event event;
  if negb claimed then mret tt
  else
    handled ← dispatch_event event;
    finish_webhook_event event (if handled : bool then EvProcessed else EvIgnored).

(** [handle_webhook] for a verified event: a failed attempt leaves nothing but its record. *)
Definition handle_webhook (event : WebhookEvent) : M unit :=
  try_catch (process_webhook_event event) (λ e, Some
    (_ ← rollback;
     _ ← record_failed_event event (String.substring 0 500 (redact (error_text e)));
     _ ← commit;
     raise e)).

Definition apply_deferred_event (event : WebhookEvent) : M unit :=
  if String.eqb (ev_event_type event) SUCCEEDED_EVENT then _handle_payment_succeeded event
  else if startswith "refund." (ev_event_type event) then _handle_refund_event event
  else if startswith "charge.dispute." (ev_event_type event) then apply_dispute_event event
  else mret tt.
End payments.

(** ** Background jobs ([payments/jobs.py]) *)

Section payment_jobs.
Context `{!Settings} `{!Crypto} `{!Providers}.

Definition SWEEP_STALE_ORDERS : string := "sweep_stale_orders".
Definition EXPIRE_ORDER : string := "expire_order".
Definition REPROCESS_DEFERRED_EVENTS : string := "reprocess_deferred_events".
Definition expire_order_dedupe_key (order_id : uuid) (bucket : Z) : string :=
  "expire-order:" +:+ order_id +:+ ":" +:+ str_Z bucket.

(** [async with session_factory() as session]: what was not committed is rolled back when it closes. *)
Definition with_session {A} (m : M A) : M A := try_finally m rollback.

Definition sweep_stale_orders : M unit :=
  get_db (
    t ← now;
    ids ← list_stale_pending_order_ids (t - pending_order_timeout_minutes * 60);
    for_each ids (λ order_id, _ ← enqueue EXPIRE_ORDER (JObj [("order_id", JStr order_id)])
                                   (Some (expire_order_dedupe_key order_id (t / 3600))); mret tt)).

Definition expire_order (order_id : uuid) : M (option string) :=
  outcome ← with_session (
    t ← now;
    found ← get_order_by_id order_id;
    match found with
    | None => mret None
    | Some order =>
        if negb (bool_decide (o_status order = PENDING)) || (t - pending_order_timeout_minutes * 60 <=? o_created_at order)
        then mret None
        else
          result ← cancel_order order_id None "expiry" "unpaid order expired";
          _ ← commit;
          mret (Some (cr_outcome result))
    end);
  _ ← raise_if (opt_eqb outcome (Some "uncertain"))
        (RuntimeError ("order " +:+ order_id +:+ ": payment provider state unconfirmed; will retry"));
  mret outcome.

(** The provider's answer to a refund attempt: its result, or a message when the outcome is unknown. *)
Definition submit_refund (attempt : RefundAttempt) : M (string + RefundResult) :=
  catch_provider
    (provider ← _provider_for (ra_provider_config_id attempt);
     result ← create_refund provider (ra_provider_payment_id attempt) (ra_amount attempt) (ra_currency attempt)
                (ra_idempotency_key attempt);
     mret (inr result))
    (λ msg, mret (inl msg)).

Definition execute_refund (refund_id : uuid) : M unit :=
  attempt ← with_session (begin_refund_attempt refund_id);
  match attempt with
  | None => mret tt
  | Some a =>
      answer ← with_session (submit_refund a);
      match answer with
      | inl msg =>
          verdict ← with_session (v ← record_refund_attempt_failed refund_id msg; _ ← commit; mret v);
          raise_if (String.eqb verdict "retry") (EProvider (PaymentProviderError msg))
      | inr result => with_session (_ ← finish_refund refund_id result; commit)
      end
  end.

(** *** Deferred webhook events *)

Definition claim_due_deferred (limit : nat) : M (list DeferredWebhookEvent) :=
  d ← gets st_db;
  t ← now;
  mret (take limit (order_by df_next_attempt_at
    (rows_where (λ r, String.eqb (df_status r) "pending" && (df_next_attempt_at r <=? t)) (d_deferred d)))).

Definition df_key (r : DeferredWebhookEvent) : string * string := (ev_provider (df_event r), ev_event_id (df_event r)).
Definition save_deferred (r : DeferredWebhookEvent) : M unit := put_deferred (df_key r) r.

(** The payment is still unknown: tried once more, or given up. *)
Definition deferred_unknown (row : DeferredWebhookEvent) (t : Z) : M unit :=
  let row := row <| df_attempts := df_attempts row + 1 |> in
  let e := df_event row in
  if (webhook_recovery_max_attempts <=? df_attempts row) || (df_expires_at row <=? t) then
    _ ← save_deferred (row <| df_status := "expired" |> <| df_resolved_at := Some t |>
          <| df_last_reason := Some "gave up: the payment record never appeared within the recovery bounds" |>);
    audit_log None "webhook.deferred_event_expired" "webhook_event" (Some (ev_event_id e))
      (JObj [("provider", JStr (ev_provider e)); ("event_type", JStr (ev_event_type e)); ("attempts", JInt (df_attempts row))])
  else save_deferred (row <| df_next_attempt_at := t + Z.max webhook_recovery_interval_seconds 1 |>).

(** The payment is known: the event is applied by the live handlers. *)
Definition deferred_apply (row : DeferredWebhookEvent) (t : Z) : M unit :=
  let e := df_event row in
  let text := default "None" in
  _ ← apply_deferred_event e;
  _ ← save_deferred (row <| df_attempts := df_attempts row + 1 |> <| df_status := "recovered" |> <| df_resolved_at := Some t |>
        <| df_last_reason := Some "applied once the payment record appeared" |>);
  _ ← for_each ["unmatched_payment:" +:+ ev_provider_payment_id e; "unknown_refund:" +:+ text (ev_provider_refund_id e);
                "unmatched_dispute:" +:+ text (ev_provider_dispute_id e)]
        (λ key, _ ← resolve_by_dedupe_key key
                      "Recovered automatically: the payment record appeared and the event was applied"; mret tt);
  audit_log None "webhook.deferred_event_recovered" "webhook_event" (Some (ev_event_id e))
    (JObj [("provider", JStr (ev_provider e)); ("event_type", JStr (ev_event_type e))]).

(** Applying it failed: counted, and bounded by the attempts alone. *)
Definition deferred_failed (row : DeferredWebhookEvent) (t : Z) (e : Err) : M unit :=
  let row := row <| df_attempts := df_attempts row + 1 |>
                 <| df_last_reason := Some (String.substring 0 300 (redact (error_text e))) |> in
  if webhook_recovery_max_attempts <=? df_attempts row
  then save_deferred (row <| df_status := "expired" |> <| df_resolved_at := Some t |>)
  else save_deferred (row <| df_next_attempt_at := t + Z.max webhook_recovery_interval_seconds 1 |>).

Definition reprocess_row (row : DeferredWebhookEvent) : M unit :=
  t ← now;
  try_catch
    (savepoint (
       payment ← get_by_provider_payment_id (ev_provider_payment_id (df_event row)) (Some (ev_provider (df_event row)));
       match payment with
       | None => deferred_unknown row t
       | Some _ => deferred_apply row t
       end))
    (λ e, Some (deferred_failed row t e)).

Definition reprocess_deferred_events : M unit :=
  with_session (
    rows ← claim_due_deferred 50;
    _ ← for_each rows reprocess_row;
    commit).
End payment_jobs.

(** ** Every operation keeps the tables sound *)

Section payments_sound.
Context `{!Settings} `{!Crypto} `{!Providers} `{!ProvidersOk}.

Lemma guar_get_order a b c : guar step (get_order a b c).
Proof. unfold get_order. solve_guar. Qed.
Lemma guar_authorize a b : guar step (authorize_guest_payment a b).
Proof. unfold authorize_guest_payment. solve_guar. Qed.
Lemma guar_flag a b c d e f g : guar step (_flag_for_review a b c d e f g).
Proof. unfold _flag_for_review. solve_guar. Qed.
Lemma guar_defer a b : guar step (_defer_event a b).
Proof. unfold _defer_event. solve_guar. Qed.
#[local] Hint Resolve guar_get_order guar_authorize guar_flag guar_defer : guar.
Lemma guar_defer_if a b : guar step (_defer_if_payment_unknown a b).
Proof. unfold _defer_if_payment_unknown. solve_guar. Qed.
Lemma guar_orphan p a b : provider_ok p → guar step (_cancel_orphan_intent p a b).
Proof. intros []. unfold _cancel_orphan_intent; cbv zeta. solve_guar. Qed.
Lemma guar_intent_refused a b : guar step (intent_refused a b).
Proof. unfold intent_refused. solve_guar. Qed.
#[local] Hint Resolve guar_defer_if guar_orphan guar_intent_refused : guar.

Lemma guar_live : guar step live_payments_active.
Proof. apply guar_db_gets. Qed.
Lemma guar_uses : guar step uses_configurations.
Proof. apply guar_db_gets. Qed.
Lemma guar_payable a : guar step (_assert_currency_payable a).
Proof. unfold _assert_currency_payable. solve_guar. Qed.
#[local] Hint Resolve guar_live guar_uses guar_payable : guar.
Lemma guar_select a : guar step (_select_provider a).
Proof. unfold _select_provider, select_for_new_payment. solve_guar. Qed.
#[local] Hint Resolve guar_select : guar.
Lemma guar_plan a : guar step (_plan_payment a).
Proof. unfold _plan_payment, _assert_order_payable; cbv zeta. solve_guar. Qed.

(** A plan's provider is one of the store's. *)
Lemma select_ok c s sel s' : _select_provider c s = (inr sel, s') → provider_ok sel.1.
Proof.
  unfold _select_provider. intros (b & s1 & _ & Hsel)%bind_inr. destruct b.
  - apply bind_inr in Hsel as (sel' & s2 & Hsel & [= <- _]). cbn. unfold select_for_new_payment in Hsel.
    repeat (apply bind_inr in Hsel as (? & ? & ? & Hsel)). injection Hsel as <- _. cbn.
    lazymatch goal with Hb : of_sum (build_provider ?c false) _ = _ |- _ =>
      unfold of_sum in Hb; destruct (build_provider c false) eqn:?; [done|]; injection Hb as <- _; by eapply built_ok end.
  - injection Hsel as <- _. apply env_ok.
Qed.
Lemma plan_ok a s plan s' : _plan_payment a s = (inr plan, s') → provider_ok (pl_provider plan).
Proof.
  unfold _plan_payment; cbv zeta. intros Hpl. repeat (apply bind_inr in Hpl as (? & ? & ? & Hpl)). injection Hpl as <- _. cbn.
  by eapply select_ok.
Qed.

Lemma guar_create_new a plan l : provider_ok (pl_provider plan) → guar step (_create_new_payment a plan l).
Proof.
  intros Hp. pose proof (ok_create _ Hp). unfold _create_new_payment; cbv zeta. solve_guar.
Qed.
Lemma guar_ensure p st : guar step (ensure_status p st).
Proof. unfold ensure_status. solve_guar. Qed.
#[local] Hint Resolve guar_plan guar_create_new guar_ensure : guar.

Lemma guar_with_plan {A} a (f : Plan → M A) :
  (∀ plan, provider_ok (pl_provider plan) → guar step (f plan)) → guar step (_plan_payment a ≫= f).
Proof.
  intros Hf s. pose proof (guar_plan a s) as Hg. unfold mbind, ST_bind.
  destruct (_plan_payment a s) as [[e|plan] s'] eqn:Hp; cbn in *; [done|]. etrans; [done|]. apply Hf. by eapply plan_ok.
Qed.

Lemma guar_create_payment_for_order a b c : guar step (create_payment_for_order a b c).
Proof.
  unfold create_payment_for_order, _assert_live_payments_allowed, _assert_order_payable.
  apply guar_bind; [apply _|solve_guar|intros _]. apply guar_bind; [apply _|solve_guar|intros o].
  apply guar_with_plan. intros plan Hplan. solve_guar.
Qed.
Lemma guar_payment_request_refund a b c d : guar step (payment_request_refund a b c d).
Proof. unfold payment_request_refund, _assert_live_payments_allowed. solve_guar. Qed.

Lemma guar_matches a b : guar step (_event_matches_payment a b).
Proof. unfold _event_matches_payment; cbv zeta. solve_guar. Qed.
Lemma guar_settle a b : guar step (settle_payment a b).
Proof. unfold settle_payment. solve_guar. Qed.
#[local] Hint Resolve guar_matches guar_settle : guar.
Lemma guar_succeeded a : guar step (_handle_payment_succeeded a).
Proof. unfold _handle_payment_succeeded. solve_guar. Qed.
Lemma guar_failed a b : guar step (_handle_payment_failed a b).
Proof. unfold _handle_payment_failed. solve_guar. Qed.
Lemma guar_refund_of_event a : guar step (refund_of_event a).
Proof. unfold refund_of_event; cbv zeta. solve_guar. Qed.
Lemma guar_external a : guar step (external_refund_event a).
Proof. unfold external_refund_event. solve_guar. Qed.
#[local] Hint Resolve guar_succeeded guar_failed guar_refund_of_event guar_external : guar.
Lemma guar_handle_refund a : guar step (_handle_refund_event a).
Proof. unfold _handle_refund_event; cbv zeta. solve_guar. Qed.
Lemma guar_handle_dispute a : guar step (_handle_dispute_event a).
Proof. unfold _handle_dispute_event. solve_guar. Qed.
#[local] Hint Resolve guar_handle_refund guar_handle_dispute : guar.
Lemma guar_dispatch a : guar step (dispatch_event a).
Proof. unfold dispatch_event. solve_guar. Qed.
#[local] Hint Resolve guar_dispatch : guar.
Lemma guar_process a : guar step (process_webhook_event a).
Proof. unfold process_webhook_event. solve_guar. apply guar_finish. by case_match. Qed.
Lemma guar_handle_webhook a : guar step (handle_webhook a).
Proof. apply guar_try; [apply _|apply guar_process|]. intros e k [= <-]. solve_guar. Qed.
Lemma guar_apply_deferred a : guar step (apply_deferred_event a).
Proof. unfold apply_deferred_event. solve_guar. Qed.
#[local] Hint Resolve guar_apply_deferred : guar.

Lemma guar_with_session {A} (m : M A) : guar step m → guar step (with_session m).
Proof. intros Hm. unfold with_session. solve_guar. Qed.
#[local] Hint Extern 2 (guar step (with_session _)) => (apply guar_with_session; solve_guar) : guar.
Lemma guar_sweep : guar step sweep_stale_orders.
Proof. unfold sweep_stale_orders, list_stale_pending_order_ids. apply guar_get_db. solve_guar. Qed.
Lemma guar_expire a : guar step (expire_order a).
Proof. unfold expire_order. solve_guar. Qed.
Lemma guar_submit_refund a : guar step (submit_refund a).
Proof. unfold submit_refund. solve_guar. Qed.
#[local] Hint Resolve guar_submit_refund : guar.
Lemma guar_execute_refund a : guar step (execute_refund a).
Proof. unfold execute_refund. solve_guar. Qed.
Lemma guar_reprocess_row a : guar step (reprocess_row a).
Proof.
  unfold reprocess_row. apply guar_bind; [apply _|solve_guar|intros t]. apply guar_try; [apply _| |].
  - unfold deferred_unknown, deferred_apply, save_deferred; cbv zeta. solve_guar.
  - intros e k [= <-]. unfold deferred_failed, save_deferred; cbv zeta. solve_guar.
Qed.
#[local] Hint Resolve guar_reprocess_row : guar.
Lemma guar_reprocess : guar step reprocess_deferred_events.
Proof. unfold reprocess_deferred_events, claim_due_deferred. solve_guar. Qed.
End payments_sound.

#[export] Hint Resolve guar_get_order guar_authorize guar_create_payment_for_order guar_payment_request_refund guar_process
  guar_handle_webhook guar_sweep guar_expire guar_execute_refund guar_reprocess : guar.
