(* ===== verification/Cart.v ===== *)
(** * Carts

    [cart/repositories/cart_repository.py], [cart/services/cart_service.py], [cart_view.py] and
    [cart_digest.py]. The lines of a cart are the rows of [cart_items] that name it; a query that does
    not ask for an order is given in order of id. *)

From S2P Require Import Prelude Decimal Errors Schema Guards Evolution Repositories.

Local Open Scope string_scope.
Local Open Scope list_scope.
Local Open Scope Z_scope.

Definition MAX_CART_LINES : Z := 50.

(** ** Repository *)

(** [cart.items] *)
Definition cart_lines (d : DB) (cid : Z) : list CartItem :=
  order_by ci_id (rows_where (λ i, ci_cart_id i =? cid) (d_cart_items d)).
Definition lines_of (cid : Z) : M (list CartItem) := db_gets (λ d, cart_lines d cid).

Definition get_cart_by_user_id (user_id : uuid) : M (option Cart) :=
  d ← gets st_db; scalar_one_or_none (rows_where (λ c, opt_eqb (c_user_id c) (Some user_id)) (d_carts d)).
Definition get_cart_by_guest_token (guest_token : string) : M (option Cart) :=
  d ← gets st_db; scalar_one_or_none (rows_where (λ c, opt_eqb (c_guest_token c) (Some guest_token)) (d_carts d)).

Definition get_or_create_cart (user_id : option uuid) (guest_token : option string) : M Cart :=
  found ← match user_id, guest_token with
          | Some u, _ => get_cart_by_user_id u
          | None, Some g => get_cart_by_guest_token g
          | None, None => raise (ValueError "get_or_create_cart requires user_id or guest_token")
          end;
  match found with
  | Some c => mret c
  | None =>
      i ← new_id;
      let c := MkCart i user_id guest_token in
      _ ← put_cart c;
      mret c
  end.

Definition reassign_to_user (cart : Cart) (user_id : uuid) : M unit :=
  put_cart (cart <| c_user_id := Some user_id |> <| c_guest_token := None |>).

(** A line with the cart it is in. *)
Definition get_item_by_id (item_id : Z) : M (option (CartItem * Cart)) :=
  db_gets (λ d, match d_cart_items d !! item_id with
                | None => None
                | Some i => match d_carts d !! ci_cart_id i with Some c => Some (i, c) | None => None end
                end).

(** What a line is of: a simple product, or one variant. *)
Definition line_key (i : CartItem) : Z * option Z := (ci_product_id i, ci_variant_id i).

Definition get_item_by_product (cart_id product_id : Z) (variant_id : option Z) : M (option CartItem) :=
  d ← gets st_db;
  scalar_one_or_none (rows_where (λ i, (ci_cart_id i =? cart_id) && bool_decide (line_key i = (product_id, variant_id))) (d_cart_items d)).

Definition cart_add_item (cart_id product_id quantity price_cents : Z) (variant_id : option Z) : M Z :=
  i ← new_id;
  _ ← put_cart_item (MkCartItem i cart_id product_id variant_id quantity price_cents);
  mret i.

Definition update_quantity (item_id quantity : Z) : M unit := update_cart_item item_id (λ i, i <| ci_quantity := quantity |>).
Definition set_price_snapshot (item_id price_cents : Z) : M unit :=
  update_cart_item item_id (λ i, i <| ci_price_cents_snapshot := price_cents |>).

(** One incoming line: added to the line of the same product and variant, or made a new one. *)
Definition merge_item (cart_id : Z) (by_line : gmap (Z * option Z) Z) (source : CartItem) : M (gmap (Z * option Z) Z) :=
  match by_line !! line_key source with
  | Some i => _ ← update_cart_item i (λ x, x <| ci_quantity := ci_quantity x + ci_quantity source |>); mret by_line
  | None =>
      i ← cart_add_item cart_id (ci_product_id source) (ci_quantity source) (ci_price_cents_snapshot source) (ci_variant_id source);
      mret (<[line_key source := i]> by_line)
  end.
Definition merge_items_into_cart (cart_id : Z) (lines incoming : list CartItem) : M unit :=
  let by_line := foldl (λ m i, <[line_key i := ci_id i]> m) ∅ lines in
  _ ← fold_m (merge_item cart_id) by_line incoming;
  mret tt.

Definition clear (lines : list CartItem) : M unit := for_each lines (λ i, delete_cart_item (ci_id i)).

(** ** Service *)

Definition _owns (cart : Cart) (user_id : option uuid) (guest_token : option string) : bool :=
  match user_id with
  | Some u => opt_eqb (c_user_id cart) (Some u)
  | None => opt_eqb (c_guest_token cart) guest_token
  end.

(** What is being bought and what it costs now. *)
Definition _resolve_unit (product_id variant_id : option Z) (requested_quantity : Z) : M (Product * option ProductVariant * Z) :=
  d ← gets st_db;
  match variant_id with
  | Some v =>
      variant ← of_option (d_variants d !! v) (ECart VariantUnavailableError);
      _ ← raise_if (match product_id with Some p => negb (pv_product_id variant =? p) | None => false end) (ECart VariantUnavailableError);
      product ← of_option (d_products d !! pv_product_id variant) (ECart VariantUnavailableError);
      _ ← raise_if (negb (bool_decide (p_status product = ACTIVE)) || negb (pv_active variant)) (ECart VariantUnavailableError);
      _ ← raise_if (pv_stock variant <? requested_quantity) (ECart (InsufficientStockError (pv_stock variant)));
      mret (product, Some variant, effective_price variant (p_price_cents product))
  | None =>
      product ← of_option (p ← product_id; d_products d !! p) (ECart ProductUnavailableError);
      _ ← raise_if (negb (bool_decide (p_status product = ACTIVE))) (ECart ProductUnavailableError);
      _ ← raise_if (0 <? p_option_count product) (ECart VariantRequiredError);
      _ ← raise_if (p_stock product <? requested_quantity) (ECart (InsufficientStockError (p_stock product)));
      mret (product, None, p_price_cents product)
  end.

(** The cart as it is now ([attach_variant_details] only completes what is displayed). *)
Definition _reload (user_id : option uuid) (guest_token : option string) : M (Cart * list CartItem) :=
  cart ← get_or_create_cart user_id guest_token;
  lines ← lines_of (c_id cart);
  mret (cart, lines).
Definition get_cart (user_id : option uuid) (guest_token : option string) : M (Cart * list CartItem) := _reload user_id guest_token.

Definition add_item (user_id : option uuid) (guest_token : option string) (product_id variant_id : option Z) (quantity : Z)
    : M (Cart * list CartItem) :=
  cart ← get_or_create_cart user_id guest_token;
  lines ← lines_of (c_id cart);
  unit ← _resolve_unit product_id variant_id quantity;
  let '(product, variant, price) := unit in
  existing ← get_item_by_product (c_id cart) (p_id product) (pv_id <$> variant);
  _ ← match existing with
      | Some item =>
          let new_quantity := ci_quantity item + quantity in
          _ ← _resolve_unit (Some (p_id product)) (pv_id <$> variant) new_quantity;
          update_quantity (ci_id item) new_quantity
      | None =>
          _ ← raise_if (MAX_CART_LINES <=? Z.of_nat (length lines)) (ECart (CartFullError MAX_CART_LINES));
          _ ← cart_add_item (c_id cart) (p_id product) quantity price (pv_id <$> variant);
          mret tt
      end;
  _reload user_id guest_token.

(** The caller's own line, or the answer given for a line that does not exist. *)
Definition own_item (user_id : option uuid) (guest_token : option string) (item_id : Z) : M CartItem :=
  found ← get_item_by_id item_id;
  match found with
  | Some (item, cart) => if _owns cart user_id guest_token then mret item else raise (ECart (CartItemNotFoundError item_id))
  | None => raise (ECart (CartItemNotFoundError item_id))
  end.

Definition update_item_quantity (user_id : option uuid) (guest_token : option string) (item_id quantity : Z) : M (Cart * list CartItem) :=
  item ← own_item user_id guest_token item_id;
  _ ← _resolve_unit (Some (ci_product_id item)) (ci_variant_id item) quantity;
  _ ← update_quantity (ci_id item) quantity;
  _reload user_id guest_token.

Definition remove_item (user_id : option uuid) (guest_token : option string) (item_id : Z) : M (Cart * list CartItem) :=
  item ← own_item user_id guest_token item_id;
  _ ← delete_cart_item (ci_id item);
  _reload user_id guest_token.

Definition clear_cart (user_id : option uuid) (guest_token : option string) : M (Cart * list CartItem) :=
  cart ← get_or_create_cart user_id guest_token;
  lines ← lines_of (c_id cart);
  _ ← clear lines;
  _reload user_id guest_token.

Definition merge_guest_cart_into_user (user_id : uuid) (guest_token : string) : M unit :=
  found ← get_cart_by_guest_token guest_token;
  match found with
  | None => mret tt
  | Some guest_cart =>
      own ← get_cart_by_user_id user_id;
      match own with
      | None => reassign_to_user guest_cart user_id
      | Some cart =>
          lines ← lines_of (c_id cart);
          incoming ← lines_of (c_id guest_cart);
          _ ← merge_items_into_cart (c_id cart) lines incoming;
          delete_cart_row (c_id guest_cart)
      end
  end.

(** ** How a line is shown ([cart_view.py]) *)

(** The current price, the units in stock, and why the line cannot be bought now. *)
Definition line_state (product : Product) (variant : option ProductVariant) (quantity : Z) : Z * Z * option string :=
  let '(price, stock, active) :=
    match variant with
    | Some v => (effective_price v (p_price_cents product), pv_stock v, bool_decide (p_status product = ACTIVE) && pv_active v)
    | None => (p_price_cents product, p_stock product, bool_decide (p_status product = ACTIVE))
    end in
  (price, stock,
   if negb active then Some "unavailable"
   else if stock <=? 0 then Some "out_of_stock"
   else if stock <? quantity then Some "insufficient_stock"
   else None).

(** ** The fingerprint of a cart ([cart_digest.py]) *)

Definition digest_part (i : CartItem) : string :=
  str_Z (ci_product_id i) +:+ ":" +:+ str_Z (default 0 (ci_variant_id i)) +:+ ":" +:+ str_Z (ci_quantity i).
Definition cart_digest `{!Crypto} (lines : list CartItem) : string :=
  sha256_hex (String.concat "|" (sort_str (map digest_part lines))).

(** ** Every operation keeps the tables sound *)

Lemma guar_lines_of c : guar step (lines_of c).
Proof. apply guar_db_gets. Qed.
Lemma guar_get_cart_by_user_id u : guar step (get_cart_by_user_id u).
Proof. unfold get_cart_by_user_id. solve_guar. Qed.
Lemma guar_get_cart_by_guest_token u : guar step (get_cart_by_guest_token u).
Proof. unfold get_cart_by_guest_token. solve_guar. Qed.
#[export] Hint Resolve guar_lines_of guar_get_cart_by_user_id guar_get_cart_by_guest_token : guar.
Lemma guar_get_or_create_cart u g : guar step (get_or_create_cart u g).
Proof. unfold get_or_create_cart. solve_guar. Qed.
Lemma guar_get_item_by_product a b c : guar step (get_item_by_product a b c).
Proof. unfold get_item_by_product. solve_guar. Qed.
Lemma guar_cart_add_item a b c d e : guar step (cart_add_item a b c d e).
Proof. unfold cart_add_item. solve_guar. Qed.
Lemma guar_resolve_unit a b c : guar step (_resolve_unit a b c).
Proof. unfold _resolve_unit. solve_guar. Qed.
#[export] Hint Resolve guar_get_or_create_cart guar_get_item_by_product guar_cart_add_item guar_resolve_unit : guar.
Lemma guar_reload u g : guar step (_reload u g).
Proof. unfold _reload. solve_guar. Qed.
Lemma guar_clear l : guar step (clear l).
Proof. unfold clear. solve_guar. Qed.
Lemma guar_own_item a b c : guar step (own_item a b c).
Proof. unfold own_item, get_item_by_id. solve_guar. Qed.
#[export] Hint Resolve guar_reload guar_clear guar_own_item : guar.
Lemma guar_add_item a b c d e : guar step (add_item a b c d e).
Proof. unfold add_item, update_quantity. solve_guar. Qed.
Lemma guar_update_item_quantity a b c d : guar step (update_item_quantity a b c d).
Proof. unfold update_item_quantity, update_quantity. solve_guar. Qed.
Lemma guar_remove_item a b c : guar step (remove_item a b c).
Proof. unfold remove_item. solve_guar. Qed.
Lemma guar_clear_cart a b : guar step (clear_cart a b).
Proof. unfold clear_cart. solve_guar. Qed.
Lemma guar_merge a b : guar step (merge_guest_cart_into_user a b).
Proof. unfold merge_guest_cart_into_user, reassign_to_user, merge_items_into_cart, merge_item. solve_guar. Qed.
Lemma guar_set_price_snapshot a b : guar step (set_price_snapshot a b).
Proof. unfold set_price_snapshot. solve_guar. Qed.
#[export] Hint Resolve guar_add_item guar_update_item_quantity guar_remove_item guar_clear_cart guar_merge guar_set_price_snapshot : guar.
