(* ===== verification/Coupons.v ===== *)
(** * Coupons

    [coupons/services/coupon_service.py] (the arithmetic of [discount.py] is in [GstCalc]). *)

From S2P Require Import Prelude Decimal Errors GstCalc Schema Guards Evolution Repositories.
Import Decimal.

Local Open Scope string_scope.
Local Open Scope list_scope.
Local Open Scope Z_scope.

Definition ALIVE : list OrderStatus := [PENDING; PAID; FULFILLED].

Definition normalise_code (c : string) : string := py_upper (py_strip c).

Definition find_by_code (c : string) : M (option Coupon) :=
  d ← gets st_db; scalar_one_or_none (rows_where (λ x, String.eqb (cp_code x) (normalise_code c)) (d_coupons d)).

(** Whether a live order carries this coupon, bought by this customer when one is named. *)
Definition uses_coupon (coupon_id : Z) (user_id : option uuid) (guest_email : option string) (o : Order) : bool :=
  opt_eqb (o_coupon_id o) (Some coupon_id) && bool_decide (o_status o ∈ ALIVE)
  && match user_id, guest_email with
     | Some u, _ => opt_eqb (o_user_id o) (Some u)
     | None, Some g => opt_eqb (py_lower <$> o_guest_email o) (Some (py_lower g))
     | None, None => true
     end.
Definition uses_in (d : DB) (coupon_id : Z) (user_id : option uuid) (guest_email : option string) : Z :=
  count_rows (uses_coupon coupon_id user_id guest_email) (d_orders d).
Definition uses (coupon_id : Z) (user_id : option uuid) (guest_email : option string) : M Z :=
  db_gets (λ d, uses_in d coupon_id user_id guest_email).

Definition before_start (c : Coupon) (t : Z) : bool := match cp_starts_at c with Some a => t <? a | None => false end.
Definition after_end (c : Coupon) (t : Z) : bool := match cp_ends_at c with Some b => b <=? t | None => false end.

Definition status_of (c : Coupon) (used t : Z) : string :=
  if negb (cp_active c) then "disabled"
  else if before_start c t then "scheduled"
  else if after_end c t then "expired"
  else if match cp_max_uses_total c with Some n => n <=? used | None => false end then "exhausted"
  else "active".

Definition evaluate (found : option Coupon) (subtotal_cents shipping_cents : Z) (user_id : option uuid) (guest_email : option string)
    : M Discount :=
  t ← now;
  coupon ← of_option found (ECoupon CouponInvalidError);
  _ ← raise_if (negb (cp_active coupon) || before_start coupon t || after_end coupon t) (ECoupon CouponInvalidError);
  _ ← raise_if (subtotal_cents <? cp_min_subtotal_cents coupon) (ECoupon (CouponMinimumNotMetError (cp_min_subtotal_cents coupon)));
  total ← uses (cp_id coupon) None None;
  _ ← raise_if (match cp_max_uses_total coupon with Some n => n <=? total | None => false end) (ECoupon CouponLimitReachedError);
  own ← uses (cp_id coupon) user_id guest_email;
  _ ← raise_if (match cp_max_uses_per_customer coupon with
                | Some n => (negb (opt_eqb user_id None) || match guest_email with Some g => negb (String.eqb g "") | None => false end)
                            && (n <=? own)
                | None => false
                end) (ECoupon CouponLimitReachedError);
  discount ← of_sum (compute_discount (cp_kind coupon) (cp_percent_off coupon) (cp_amount_off_cents coupon) (cp_max_discount_cents coupon)
                       subtotal_cents shipping_cents);
  _ ← raise_if (String.eqb (cp_kind coupon) "free_shipping" && (shipping_discount_cents discount =? 0))
        (ECoupon (CouponNotApplicableError "Shipping is already free on this order"));
  _ ← raise_if (negb (String.eqb (cp_kind coupon) "free_shipping") && (goods_cents discount =? 0))
        (ECoupon (CouponNotApplicableError "This coupon would not reduce the price of this order"));
  mret discount.

Definition coupon_snapshot (c : Coupon) (discount : Discount) : json :=
  JObj [("code", JStr (cp_code c)); ("name", JStr (cp_name c)); ("kind", JStr (cp_kind c));
        ("percent_off", j_opt (λ p, JStr (dec_str p)) (cp_percent_off c)); ("amount_off_cents", j_opt JInt (cp_amount_off_cents c));
        ("max_discount_cents", j_opt JInt (cp_max_discount_cents c)); ("goods_discount_cents", JInt (goods_cents discount));
        ("shipping_discount_cents", JInt (shipping_discount_cents discount))].

(** ** Administration *)

Definition get_coupon (coupon_id : Z) : M Coupon :=
  d ← gets st_db; of_option (d_coupons d !! coupon_id) (ECoupon CouponNotFoundError).
Definition _ever_used (coupon_id : Z) : M bool :=
  db_gets (λ d, exists_row (λ o, opt_eqb (o_coupon_id o) (Some coupon_id)) (d_orders d)).

(** [INSERT]/[UPDATE coupons], with the unique code. *)
Definition put_coupon (c : Coupon) : M unit :=
  d ← gets st_db;
  _ ← guard (first_violation [coupons_checks c;
        check (negb (exists_row (λ x, negb (cp_id x =? cp_id c) && String.eqb (cp_code x) (cp_code c)) (d_coupons d))) "uq_coupons_code"]);
  upd (λ d, d <| d_coupons ::= <[cp_id c := c]> |>).

Definition create_coupon (payload : Coupon) (admin : uuid) : M Coupon :=
  i ← new_id;
  let coupon := payload <| cp_id := i |> <| cp_code := normalise_code (cp_code payload) |> in
  _ ← try_catch (savepoint (put_coupon coupon)) (λ e,
        match e with
        | IntegrityError n => if String.eqb n "uq_coupons_code" then Some (raise (ECoupon CouponCodeExistsError)) else None
        | _ => None
        end);
  _ ← audit_log (Some admin) "coupon.created" "coupon" (Some (str_Z i)) (JObj [("code", JStr (cp_code coupon)); ("kind", JStr (cp_kind coupon))]);
  mret coupon.

(** One changed field; [None] for a column that may not be null is refused by the database. *)
Inductive CouponChange :=
  | ChName (v : option string) | ChKind (v : option string) | ChPercentOff (v : option dec) | ChAmountOff (v : option Z)
  | ChMaxDiscount (v : option Z) | ChMinSubtotal (v : option Z) | ChStartsAt (v : option Z) | ChEndsAt (v : option Z)
  | ChMaxUsesTotal (v : option Z) | ChMaxUsesPerCustomer (v : option Z) | ChActive (v : option bool).

Definition is_value_change (ch : CouponChange) : bool :=
  match ch with ChKind _ | ChPercentOff _ | ChAmountOff _ | ChMaxDiscount _ => true | _ => false end.
Definition change_field (ch : CouponChange) : string :=
  match ch with
  | ChName _ => "name" | ChKind _ => "kind" | ChPercentOff _ => "percent_off" | ChAmountOff _ => "amount_off_cents"
  | ChMaxDiscount _ => "max_discount_cents" | ChMinSubtotal _ => "min_subtotal_cents" | ChStartsAt _ => "starts_at"
  | ChEndsAt _ => "ends_at" | ChMaxUsesTotal _ => "max_uses_total" | ChMaxUsesPerCustomer _ => "max_uses_per_customer"
  | ChActive _ => "active"
  end.
Definition apply_change (c : option Coupon) (ch : CouponChange) : option Coupon :=
  match c with
  | None => None
  | Some c =>
      match ch with
      | ChName v => (λ x, c <| cp_name := x |>) <$> v
      | ChKind v => (λ x, c <| cp_kind := x |>) <$> v
      | ChPercentOff v => Some (c <| cp_percent_off := v |>)
      | ChAmountOff v => Some (c <| cp_amount_off_cents := v |>)
      | ChMaxDiscount v => Some (c <| cp_max_discount_cents := v |>)
      | ChMinSubtotal v => (λ x, c <| cp_min_subtotal_cents := x |>) <$> v
      | ChStartsAt v => Some (c <| cp_starts_at := v |>)
      | ChEndsAt v => Some (c <| cp_ends_at := v |>)
      | ChMaxUsesTotal v => Some (c <| cp_max_uses_total := v |>)
      | ChMaxUsesPerCustomer v => Some (c <| cp_max_uses_per_customer := v |>)
      | ChActive v => (λ x, c <| cp_active := x |>) <$> v
      end
  end.

(** [validate_value_fields]: each kind carries exactly the fields it needs. *)
Definition validate_value_fields (kind : option string) (percent_off : option dec) (amount_off_cents max_discount_cents : option Z) : option string :=
  let some {A} (x : option A) := match x with Some _ => true | None => false end in
  if bool_decide (kind = Some "percentage") then
    match percent_off, amount_off_cents with
    | Some p, None => if dleb (Dec 1 (-2)) p && dleb p (of_Z 100) then None else Some "percent_off must be between 0.01 and 100"
    | _, _ => Some "a percentage coupon needs percent_off (and no amount_off_cents)"
    end
  else if bool_decide (kind = Some "fixed") then
    match amount_off_cents with
    | Some a => if (a <=? 0) || some percent_off || some max_discount_cents
                then Some "a fixed coupon needs a positive amount_off_cents (and no percent_off or max_discount_cents)" else None
    | None => Some "a fixed coupon needs a positive amount_off_cents (and no percent_off or max_discount_cents)"
    end
  else if some percent_off || some amount_off_cents || some max_discount_cents
  then Some "a free-shipping coupon has no percent_off, amount_off_cents or max_discount_cents" else None.

(** The kind after the changes; [None] when it was set to null. *)
Definition merged_kind (c : Coupon) (changes : list CouponChange) : option string :=
  foldl (λ k ch, match ch with ChKind v => v | _ => k end) (Some (cp_kind c)) changes.
Definition merged_value {A} (get : CouponChange → option (option A)) (old : option A) (changes : list CouponChange) : option A :=
  foldl (λ v ch, default v (get ch)) old changes.

Definition update_coupon (coupon_id : Z) (changes : list CouponChange) (admin : uuid) : M Coupon :=
  coupon ← get_coupon coupon_id;
  used ← _ever_used (cp_id coupon);
  _ ← raise_if (existsb is_value_change changes && used) (ECoupon (CouponInUseError "change what it gives"));
  let problem := validate_value_fields (merged_kind coupon changes)
    (merged_value (λ ch, match ch with ChPercentOff v => Some v | _ => None end) (cp_percent_off coupon) changes)
    (merged_value (λ ch, match ch with ChAmountOff v => Some v | _ => None end) (cp_amount_off_cents coupon) changes)
    (merged_value (λ ch, match ch with ChMaxDiscount v => Some v | _ => None end) (cp_max_discount_cents coupon) changes) in
  _ ← match problem with Some m => raise (ECoupon (CouponSettingsInvalidError m)) | None => mret tt end;
  let inconsistent := ECoupon (CouponSettingsInvalidError "These coupon settings are not consistent (check the dates and limits)") in
  coupon' ← of_option (foldl apply_change (Some coupon) changes) inconsistent;
  _ ← try_catch (put_coupon coupon') (λ e, match e with IntegrityError _ => Some (raise inconsistent) | _ => None end);
  _ ← audit_log (Some admin) "coupon.updated" "coupon" (Some (str_Z (cp_id coupon)))
        (JObj [("fields", JList (map JStr (sort_str (map change_field changes))))]);
  mret coupon'.

Definition delete_coupon (coupon_id : Z) (admin : uuid) : M unit :=
  coupon ← get_coupon coupon_id;
  used ← _ever_used (cp_id coupon);
  _ ← raise_if used (ECoupon (CouponInUseError "delete it"));
  _ ← upd (λ d, d <| d_coupons ::= delete coupon_id |>);
  audit_log (Some admin) "coupon.deleted" "coupon" (Some (str_Z coupon_id)) (JObj [("code", JStr (cp_code coupon))]).

(** ** Every operation keeps the tables sound *)

Lemma guar_find_by_code c : guar step (find_by_code c).
Proof. unfold find_by_code. solve_guar. Qed.
Lemma guar_coupon_uses a b c : guar step (uses a b c).
Proof. apply guar_db_gets. Qed.
#[export] Hint Resolve guar_find_by_code guar_coupon_uses : guar.
Lemma guar_evaluate a b c d e : guar step (evaluate a b c d e).
Proof. unfold evaluate. solve_guar. Qed.
Lemma guar_put_coupon c : guar step (put_coupon c).
Proof.
  unfold put_coupon. open_statement. on_guards Hp. apply step_upd. intros HI. split; [evolve|by keep_inv HI].
Qed.
Lemma guar_get_coupon i : guar step (get_coupon i).
Proof. unfold get_coupon. solve_guar. Qed.
Lemma guar_ever_used i : guar step (_ever_used i).
Proof. apply guar_db_gets. Qed.
#[export] Hint Resolve guar_evaluate guar_put_coupon guar_get_coupon guar_ever_used : guar.
Lemma guar_create_coupon a b : guar step (create_coupon a b).
Proof.
  unfold create_coupon. solve_guar. apply guar_try; [apply _|solve_guar|].
  intros e k. destruct e; try discriminate. case_match; [|discriminate]. intros [= <-]. solve_guar.
Qed.
Lemma guar_update_coupon a b c : guar step (update_coupon a b c).
Proof.
  unfold update_coupon; cbv zeta. solve_guar. apply guar_try; [apply _|solve_guar|].
  intros e k. destruct e; try discriminate. intros [= <-]. solve_guar.
Qed.
Lemma guar_delete_coupon a b : guar step (delete_coupon a b).
Proof. unfold delete_coupon. solve_guar. apply guar_upd. intros d HI. split; [evolve|by keep_inv HI]. Qed.
#[export] Hint Resolve guar_create_coupon guar_update_coupon guar_delete_coupon : guar.
