(* ===== verification/Tax.v ===== *)
(** * The tax engine boundary

    [tax/engine.py] with the queries of [tax/repositories/tax_repository.py]; the arithmetic is in
    [GstCalc], the states in [GstStates]. An engine is one of the three of the program. *)

From S2P Require Import Prelude Decimal Errors GstCalc Schema Guards Evolution GstStates Invoice Repositories.
Import Decimal.

Local Open Scope string_scope.
Local Open Scope list_scope.
Local Open Scope Z_scope.

Definition KNOWN_TREATMENTS : list string := ["taxable"; "exempt"; "nil_rated"; "non_gst"].

Record TaxLine := MkTaxLine {
  tl_product_id : Z; tl_quantity : Z; tl_unit_price_paise : Z; tl_classification_id : option Z; tl_discount_paise : Z }.
Record TaxRequest := MkTaxRequest {
  tq_lines : list TaxLine; tq_subtotal_paise : Z; tq_shipping_paise : Z; tq_as_of : Z;
  tq_delivery_state : option string; tq_delivery_country : option string }.
Record TaxResult := MkTaxResult { tx_tax_paise : Z; tx_snapshot : json }.

Inductive TaxEngine :=
  | NotConfiguredTaxEngine
  | FlatInterimTaxEngine (rate_percent : dec)
  | GstTaxEngine.

Definition is_configured (e : TaxEngine) : bool := match e with NotConfiguredTaxEngine => false | _ => true end.

(** [TaxResult(...)] with the checks of [__post_init__]. *)
Definition tax_result (tax_paise : Z) (snapshot : json) : M TaxResult :=
  _ ← raise_if (tax_paise <? 0) (ETax (TaxEngineUnavailableError "The tax engine returned an invalid amount"));
  _ ← raise_if (match j_get "engine" snapshot, j_get "gst_calculated" snapshot with
                | Some (JStr e), Some _ => String.eqb e ""
                | _, _ => true
                end) (ETax (TaxEngineUnavailableError "The tax engine returned no audit snapshot"));
  mret (MkTaxResult tax_paise snapshot).

(** ** Queries *)

(** The [from, to) range contains the day. *)
Definition covers (from : Z) (until : option Z) (as_of : Z) : bool :=
  (from <=? as_of) && match until with Some u => as_of <? u | None => true end.

Definition classification_statuses (d : DB) (cid : Z) : option string := tc_status <$> d_classifications d !! cid.
Definition approved_rules_covering (d : DB) (cid as_of : Z) : list TaxRule :=
  rows_where (λ r, (tr_classification_id r =? cid) && String.eqb (tr_status r) "approved"
                   && covers (tr_effective_from r) (tr_effective_to r) as_of) (d_rules d).
Definition approved_settings_covering (d : DB) (as_of : Z) : list BusinessTaxSettings :=
  rows_where (λ b, String.eqb (ts_status b) "approved" && covers (ts_effective_from b) (ts_effective_to b) as_of) (d_tax_settings d).
Definition get_registration (d : DB) (rid : Z) : option GstRegistration := d_registrations d !! rid.

(** ** Readiness *)

Definition evaluate_config (d : DB) (as_of : Z) : option BusinessTaxSettings * list TaxBlocker :=
  match approved_settings_covering d as_of with
  | [] => (None, [MkBlocker None "no_approved_tax_settings"])
  | [config] =>
      (Some config,
       match get_registration d (ts_registration_id config) with
       | None => [MkBlocker None "registration_not_approved"]
       | Some r =>
           if negb (String.eqb (gr_status r) "approved") then [MkBlocker None "registration_not_approved"]
           else if (as_of <? gr_valid_from r) || match gr_valid_to r with Some u => u <=? as_of | None => false end
           then [MkBlocker None "registration_not_valid_on_date"] else []
       end)
  | _ => (None, [MkBlocker None "ambiguous_tax_settings"])
  end.

Definition line_blocker (d : DB) (as_of : Z) (l : TaxLine) : option TaxBlocker :=
  let blocked reason := Some (MkBlocker (Some (tl_product_id l)) reason) in
  match tl_classification_id l with
  | None => blocked "missing_classification"
  | Some cid =>
      if negb (opt_eqb (classification_statuses d cid) (Some "approved")) then blocked "unapproved_classification"
      else match approved_rules_covering d cid as_of with
           | [] => blocked "no_applicable_rule"
           | [r] => if bool_decide (tr_treatment r ∈ KNOWN_TREATMENTS) then None else blocked "unknown_treatment"
           | _ => blocked "ambiguous_rule"
           end
  end.
Definition evaluate_readiness (d : DB) (lines : list TaxLine) (as_of : Z) : list TaxBlocker := omap (line_blocker d as_of) lines.

(** ** The interim engine *)

Definition flat_tax (subtotal : Z) (rate : dec) : Z := half_up (ddiv (dmul (of_Z subtotal) rate) (of_Z 100)).
Definition flat_calculate (rate : dec) (q : TaxRequest) : M TaxResult :=
  let tax := flat_tax (tq_subtotal_paise q) rate in
  tax_result tax (JObj
    [("version", JInt 1); ("engine", JStr "flat_interim"); ("gst_calculated", JBool false); ("classification_used", JBool false);
     ("basis", JStr "merchandise_subtotal"); ("rate_percent", JStr (dec_str rate)); ("taxable_value_paise", JInt (tq_subtotal_paise q));
     ("tax_paise", JInt tax); ("shipping_taxed", JBool false); ("rounding", JStr "half_up_order_level");
     ("lines", JList (map (λ l, JObj [("product_id", JInt (tl_product_id l));
                                      ("tax_classification_id", j_opt JInt (tl_classification_id l))]) (tq_lines q)))]).

(** ** The GST engine *)

(** The rule of a line that passed the readiness checks. *)
Definition rule_of (d : DB) (as_of : Z) (l : TaxLine) : M TaxRule :=
  of_option (cid ← tl_classification_id l; head (approved_rules_covering d cid as_of)) (RuntimeError "KeyError").
Definition classification_of (d : DB) (l : TaxLine) : M TaxClassification :=
  of_option (cid ← tl_classification_id l; d_classifications d !! cid) (RuntimeError "KeyError").

Definition calc_line (index : nat) (l : TaxLine) (r : TaxRule) : CalcLine :=
  MkCalcLine (Z.of_nat index) (tl_unit_price_paise l * tl_quantity l - tl_discount_paise l) (tr_treatment r)
    (tr_cgst_rate r) (tr_sgst_utgst_rate r) (tr_igst_rate r).

Fixpoint map_m {A B} (f : A → M B) (l : list A) : M (list B) :=
  match l with
  | [] => mret []
  | x :: r => y ← f x; ys ← map_m f r; mret (y :: ys)
  end.

Definition line_out (l : TaxLine) (r : TaxRule) (c : TaxClassification) (calc : CalcLine) (t : LineTax) : json :=
  JObj [("product_id", JInt (tl_product_id l)); ("classification_id", j_opt JInt (tl_classification_id l)); ("hsn_kind", JStr (tc_kind c));
        ("hsn_code", JStr (tc_code c)); ("treatment", JStr (tr_treatment r)); ("quantity", JInt (tl_quantity l));
        ("unit_price_paise", JInt (tl_unit_price_paise l)); ("discount_paise", JInt (tl_discount_paise l));
        ("value_paise", JInt (cl_value_paise calc)); ("shipping_paise", JInt (lt_shipping_paise t)); ("gross_paise", JInt (lt_gross_paise t));
        ("taxable_paise", JInt (lt_taxable_paise t)); ("cgst_paise", JInt (lt_cgst_paise t)); ("sgst_paise", JInt (lt_sgst_paise t));
        ("igst_paise", JInt (lt_igst_paise t)); ("tax_paise", JInt (lt_tax_paise t)); ("round_off_paise", JInt (lt_round_off_paise t));
        ("rates", JObj [("cgst", JStr (dec_str (tr_cgst_rate r))); ("sgst", JStr (dec_str (tr_sgst_utgst_rate r)));
                        ("igst", JStr (dec_str (tr_igst_rate r)))])].

Definition gst_snapshot (q : TaxRequest) (config : BusinessTaxSettings) (reg : GstRegistration) (place : GstState) (intra_state : bool)
    (lines_out : list json) (res : GstResult) : json :=
  JObj
    [("version", JInt 2); ("engine", JStr "gst"); ("gst_calculated", JBool true); ("classification_used", JBool true);
     ("as_of", JStr (isoformat (tq_as_of q))); ("pricing_mode", JStr (ts_pricing_mode config));
     ("rounding_policy", JStr (ts_rounding_policy config)); ("shipping_tax_treatment", JStr (ts_shipping_tax_treatment config));
     ("seller", JObj [("registration_id", JInt (gr_id reg)); ("gstin", JStr (gr_gstin reg)); ("legal_name", JStr (gr_legal_name reg));
                      ("state_code", JStr (gr_state_code reg))]);
     ("place_of_supply", JObj [("state_code", JStr (gs_code place)); ("state_name", JStr (gs_name place));
                               ("basis", JStr (ts_place_of_supply_basis config))]);
     ("supply_type", JStr (if intra_state then "intra_state" else "inter_state"));
     ("lines", JList lines_out);
     ("shipping", JObj [("paise", JInt (tq_shipping_paise q));
                        ("taxed", JBool (negb (tq_shipping_paise q =? 0) && String.eqb (ts_shipping_tax_treatment config) "taxable_with_goods"));
                        ("untaxed_paise", JInt (gr_shipping_untaxed_paise res))]);
     ("totals", JObj [("taxable_paise", JInt (gr_taxable_paise res)); ("cgst_paise", JInt (gr_cgst_paise res));
                      ("sgst_paise", JInt (gr_sgst_paise res)); ("igst_paise", JInt (gr_igst_paise res)); ("tax_paise", JInt (gr_tax_paise res));
                      ("tax_added_paise", JInt (gr_tax_added_paise res)); ("tax_included_paise", JInt (gr_tax_included_paise res));
                      ("round_off_paise", JInt (gr_round_off_paise res))]);
     ("tax_paise", JInt (gr_tax_added_paise res))].

(** The supply an accepted request is: configuration, registration and place of supply. *)
Definition gst_supply (d : DB) (q : TaxRequest) : M (BusinessTaxSettings * GstRegistration * GstState) :=
  let '(found, config_blockers) := evaluate_config d (tq_as_of q) in
  let blockers := config_blockers ++ evaluate_readiness d (tq_lines q) (tq_as_of q) in
  _ ← raise_if (negb (length blockers =? 0)%nat) (ETax (TaxCalculationBlockedError blockers));
  config ← of_option found (RuntimeError "AttributeError");
  reg ← of_option (get_registration d (ts_registration_id config)) (RuntimeError "AttributeError");
  _ ← raise_if (negb (String.eqb (py_upper (default "" (tq_delivery_country q))) "IN")) (ETax DeliveryCountryNotSupportedError);
  place ← of_option (resolve_state (tq_delivery_state q)) (ETax (DeliveryStateUnknownError (tq_delivery_state q)));
  mret (config, reg, place).

Definition gst_calculate (q : TaxRequest) : M TaxResult :=
  d ← gets st_db;
  supply ← gst_supply d q;
  let '(config, reg, place) := supply in
  let intra_state := String.eqb (gs_code place) (gr_state_code reg) in
  rules ← map_m (rule_of d (tq_as_of q)) (tq_lines q);
  let calc_lines := imap (λ i lr, calc_line i lr.1 lr.2) (combine (tq_lines q) rules) in
  res ← of_sum (calculate calc_lines (tq_shipping_paise q) intra_state (ts_pricing_mode config) (ts_shipping_tax_treatment config)
                  (ts_rounding_policy config));
  classes ← map_m (classification_of d) (tq_lines q);
  let lines_out := zip_with (λ lr x, line_out lr.1 lr.2 x.1.1 x.1.2 x.2) (combine (tq_lines q) rules)
                     (combine (combine classes calc_lines) (gr_lines res)) in
  tax_result (gr_tax_added_paise res) (gst_snapshot q config reg place intra_state lines_out res).

(** [tax_engine.calculate(request)] *)
Definition tax_calculate (e : TaxEngine) (q : TaxRequest) : M TaxResult :=
  match e with
  | NotConfiguredTaxEngine => raise (ETax TaxNotConfiguredError)
  | FlatInterimTaxEngine rate => flat_calculate rate q
  | GstTaxEngine => gst_calculate q
  end.

(** ** Taxing changes nothing *)

Lemma guar_map_m {A B} (f : A → M B) l : (∀ x, guar step (f x)) → guar step (map_m f l).
Proof. intros Hf. induction l; cbn; solve_guar. Qed.
Lemma guar_tax_result a b : guar step (tax_result a b).
Proof. unfold tax_result. solve_guar. Qed.
#[export] Hint Resolve guar_tax_result : guar.
Lemma guar_tax_calculate e q : guar step (tax_calculate e q).
Proof.
  destruct e; cbn; [solve_guar|unfold flat_calculate; solve_guar|].
  unfold gst_calculate, gst_supply; cbv zeta. solve_guar; apply guar_map_m; intros; unfold rule_of, classification_of; solve_guar.
Qed.
#[export] Hint Resolve guar_tax_calculate : guar.
