(* ===== verification/Checkout.v ===== *)
(** * Checkout and the price quote

    [orders/services/order_service.py] (OrderService as [orders/dependencies/order_deps.py] builds it),
    [orders/services/shipping.py], [orders/services/eligibility.py], the currency of
    [store/repositories/store_repository.py], and the checkout endpoint of [orders/api/router.py]. The
    request's own transaction is the one of [Guards]. *)

From S2P Require Import Prelude Decimal Errors Money GstCalc Schema Guards Evolution GstStates Invoice Repositories Cart Coupons Tax.
Import Decimal.

Local Open Scope string_scope.
Local Open Scope list_scope.
Local Open Scope Z_scope.

(** The shipping_* columns of an order. *)
Abbreviation Columns := (list (string * option string)) (only parsing).

Record DeliveryDecision := MkDelivery { dd_deliverable : bool; dd_checked : bool; dd_policy : string; dd_reason : option string }.

(** What [get_order_service] passes: shipping settings, the tax engine, and the delivery policy (a protocol
    with one implementation, [no_serviceability_check]). *)
Class Store := {
  flat_shipping_cents : option Z;
  free_shipping_threshold_cents : option Z;
  free_shipping_threshold_basis : option string;
  require_tax_classification : bool;
  tax_engine : TaxEngine;
  eligibility_policy : string;
  eligibility_check : Columns → DeliveryDecision
}.
Definition no_serviceability_check (_ : Columns) : DeliveryDecision := MkDelivery true false "none" None.

Record ShippingAddressInput := MkShipTo {
  sa_recipient_name : string; sa_line1 : string; sa_line2 : option string; sa_city : string; sa_state : string;
  sa_postal_code : string; sa_country : string }.

Definition as_order_columns (a : ShippingAddressInput) : Columns :=
  [("shipping_recipient_name", Some (sa_recipient_name a)); ("shipping_line1", Some (sa_line1 a)); ("shipping_line2", sa_line2 a);
   ("shipping_city", Some (sa_city a)); ("shipping_state", Some (sa_state a)); ("shipping_postal_code", Some (sa_postal_code a));
   ("shipping_country", Some (sa_country a))].
Definition address_as_order_columns (a : Address) : Columns :=
  [("shipping_recipient_name", Some (ad_recipient_name a)); ("shipping_line1", Some (ad_line1 a)); ("shipping_line2", ad_line2 a);
   ("shipping_city", Some (ad_city a)); ("shipping_state", Some (ad_state a)); ("shipping_postal_code", Some (ad_postal_code a));
   ("shipping_country", Some (ad_country a))].
(** [columns.get(key)] *)
Definition column (c : Columns) (key : string) : option string :=
  match list_find (λ kv : string * option string, kv.1 = key) c with Some (_, (_, v)) => v | None => None end.

(** ** [json.dumps(..., sort_keys=True, separators=(",", ":"))], on ASCII text *)

Definition hex_digit (n : nat) : string := String.substring n 1 "0123456789abcdef".
Definition escape_char (c : Ascii.ascii) : string :=
  let n := Ascii.nat_of_ascii c in
  if (n =? 34)%nat then String "\"%char (String c "")
  else if (n =? 92)%nat then "\\"
  else if (n =? 10)%nat then "\n"
  else if (n =? 13)%nat then "\r"
  else if (n =? 9)%nat then "\t"
  else if (n =? 8)%nat then "\b"
  else if (n =? 12)%nat then "\f"
  else if ((32 <=? n) && (n <=? 126))%nat then String c ""
  else "\u00" +:+ hex_digit (n / 16) +:+ hex_digit (n mod 16).
Fixpoint escape (s : string) : string :=
  match s with EmptyString => "" | String c r => escape_char c +:+ escape r end.
Definition quote_char : string := String (Ascii.ascii_of_nat 34) "".
Definition quoted (s : string) : string := quote_char +:+ escape s +:+ quote_char.
Definition key_le (a b : string * string) : Prop := str_le a.1 b.1.
#[export] Instance key_le_dec a b : Decision (key_le a b).
Proof. unfold key_le. apply _. Defined.
Fixpoint json_dumps (j : json) : string :=
  match j with
  | JNull => "null"
  | JBool b => if b then "true" else "false"
  | JInt n => str_Z n
  | JStr s => quoted s
  | JList l => "[" +:+ String.concat "," (map json_dumps l) +:+ "]"
  | JObj fields =>
      "{" +:+ String.concat "," (map (λ kv, quoted kv.1 +:+ ":" +:+ kv.2)
        (merge_sort key_le (map (λ kv, (kv.1, json_dumps kv.2)) fields))) +:+ "}"
  end.

Section orders.
Context `{!Settings} `{!Crypto} `{!Store}.

(** ** Configuration *)

Definition pricing_configured : bool :=
  match flat_shipping_cents with None => false | Some _ => is_configured tax_engine end
  && negb (match free_shipping_threshold_cents with Some t => negb (t =? 0) | None => false end
           && opt_eqb free_shipping_threshold_basis None).
Definition _assert_pricing_configured : M unit := raise_if (negb pricing_configured) (EOrder CheckoutNotConfiguredError).

(** [effective_currency]: the configured currency, or the default of a store without orders. *)
Definition effective_currency (d : DB) : option string * bool :=
  match d_store_currency d with
  | Some c => (Some c, true)
  | None => if negb (bool_decide (d_orders d = ∅)) then (None, false) else (Some default_store_currency, false)
  end.
Definition get_or_initialize_currency : M (option string) :=
  d ← gets st_db;
  match effective_currency d with
  | (Some c, false) => _ ← init_store_currency c; db_gets (λ d, Some (default c (d_store_currency d)))
  | (c, _) => mret c
  end.
Definition _resolve_currency : M Currency :=
  c ← get_or_initialize_currency;
  c ← of_option c (EMoney StoreCurrencyNotConfiguredError);
  of_sum (get_currency c).

Definition _shipping_snapshot (shipping_cents : Z) (currency : Currency) (delivery : DeliveryDecision) : json :=
  let nonzero (o : option Z) := match o with Some n => if n =? 0 then None else Some n | None => None end in
  JObj [("version", JInt 1); ("source", JStr "settings"); ("method", JStr "standard");
        ("flat_charge_paise", j_opt JInt flat_shipping_cents);
        ("free_threshold_paise", j_opt JInt (nonzero free_shipping_threshold_cents));
        ("threshold_basis", j_opt JStr free_shipping_threshold_basis);
        ("currency", JStr (code currency)); ("minor_unit_exponent", JInt (exponent currency)); ("applied_paise", JInt shipping_cents);
        ("free_shipping_applied", JBool (match nonzero free_shipping_threshold_cents, nonzero flat_shipping_cents with
                                         | Some _, Some _ => shipping_cents =? 0 | _, _ => false end));
        ("tax_treatment", JStr "undetermined");
        ("delivery_check", JObj [("checked", JBool (dd_checked delivery)); ("policy", JStr (dd_policy delivery))])].

Definition waived (subtotal_cents : Z) : bool :=
  match free_shipping_threshold_cents with Some t => negb (t =? 0) && (t <=? subtotal_cents) | None => false end.
Definition _calculate_shipping (subtotal_cents : Z) : M Z :=
  _ ← _assert_pricing_configured;
  if waived subtotal_cents then mret 0 else of_option flat_shipping_cents (RuntimeError "TypeError").

(** ** The request *)

Record CheckoutRequest := MkCheckoutRequest {
  cq_user_id : option uuid; cq_guest_token : option string; cq_guest_email : option string; cq_idempotency_key : string;
  cq_address_id : option Z; cq_shipping_address : option ShippingAddressInput; cq_coupon_code : option string }.

Definition is_guest (q : CheckoutRequest) : bool := opt_eqb (cq_user_id q) None.
(** [guest_email if is_guest else None] *)
Definition guest_only {A} (q : CheckoutRequest) (x : option A) : option A := if is_guest q then x else None.
Definition truthy_str (o : option string) : option string :=
  match o with Some s => if String.eqb s "" then None else Some s | None => None end.

Definition _request_fingerprint (q : CheckoutRequest) : string :=
  let ship a := JObj [("recipient_name", JStr (sa_recipient_name a)); ("line1", JStr (sa_line1 a)); ("line2", j_opt JStr (sa_line2 a));
                      ("city", JStr (sa_city a)); ("state", JStr (sa_state a)); ("postal_code", JStr (sa_postal_code a));
                      ("country", JStr (sa_country a))] in
  sha256_hex (json_dumps (JObj (
    [("address_id", j_opt JInt (cq_address_id q)); ("shipping_address", j_opt ship (cq_shipping_address q));
     ("guest_email", j_opt JStr (guest_only q (cq_guest_email q)))]
    ++ match truthy_str (cq_coupon_code q) with Some c => [("coupon_code", JStr c)] | None => [] end))).

Definition get_default_for_user (user_id : uuid) : M (option Address) :=
  d ← gets st_db;
  scalar_one_or_none (rows_where (λ a, String.eqb (ad_user_id a) user_id && ad_is_default a) (d_addresses d)).

Definition _resolve_shipping_snapshot (user_id : option uuid) (address_id : option Z) (ship : option ShippingAddressInput) : M Columns :=
  match ship with
  | Some a => mret (as_order_columns a)
  | None =>
      match user_id with
      | None => raise (EOrder ShippingAddressRequiredError)
      | Some u =>
          match address_id with
          | Some aid =>
              d ← gets st_db;
              match d_addresses d !! aid with
              | Some a => if String.eqb (ad_user_id a) u then mret (address_as_order_columns a) else raise (EAddress (AddressNotFoundError aid))
              | None => raise (EAddress (AddressNotFoundError aid))
              end
          | None =>
              a ← get_default_for_user u;
              mret (match a with Some a => address_as_order_columns a | None => [] end)
          end
      end
  end.

(** ** The lines *)

(** [sorted(cart.items, key=lambda i: (i.product_id, i.variant_id or 0))] *)
Definition sort_key (i : CartItem) : Z * Z := (ci_product_id i, default 0 (ci_variant_id i)).
Definition line_leb (a b : CartItem) : bool :=
  let '(p, v) := sort_key a in let '(p', v') := sort_key b in (p <? p') || ((p =? p') && (v <=? v')).
Definition line_le (a b : CartItem) : Prop := Is_true (line_leb a b).
#[export] Instance line_le_dec a b : Decision (line_le a b).
Proof. unfold line_le. apply _. Defined.
Definition sort_lines (l : list CartItem) : list CartItem := merge_sort line_le l.

(** [_option_labels]: value id to option name and value. *)
Definition _option_labels (product_ids : list Z) : M (gmap Z (string * string)) :=
  db_gets (λ d, foldl (λ m o, foldl (λ m v, <[v.1 := (po_name o, v.2)]> m) m (po_values o)) ∅
                  (rows_where (λ o, bool_decide (po_product_id o ∈ product_ids)) (d_options d))).

(** [tax_states]: the status of a product's classification. *)
Definition tax_state (d : DB) (p : Product) : option string :=
  cid ← p_tax_classification_id p; tc_status <$> d_classifications d !! cid.

Record Basket := MkBasket {
  bk_remaining : gmap (bool * Z) Z;    (* (is a variant, id) to the units left *)
  bk_stock_deltas : gmap Z Z;
  bk_variant_deltas : gmap Z Z;
  bk_changes : list (Z * PriceChange); (* the cart line and what changed *)
  bk_subtotal : Z;
  bk_lines : list OrderItem }.
#[export] Instance eta_Basket : Eta Basket := λ r,
  MkBasket (bk_remaining r) (bk_stock_deltas r) (bk_variant_deltas r) (bk_changes r) (bk_subtotal r) (bk_lines r).
Definition empty_basket : Basket := MkBasket ∅ ∅ ∅ [] 0 [].

Definition variant_snapshot (labels : gmap Z (string * string)) (p : Product) (v : ProductVariant) : json :=
  let ids := take (Z.to_nat (pv_option_count v)) [pv_value1_id v; pv_value2_id v; pv_value3_id v] in
  JObj [("sku", JStr (pv_sku v));
        ("options", JList (omap (λ i, nv ← (i ≫= λ i, labels !! i); Some (JObj [("name", JStr nv.1); ("value", JStr nv.2)])) ids));
        ("price_source", JStr (match pv_price_override_cents v with Some _ => "override" | None => "product" end));
        ("product_price_cents", JInt (p_price_cents p)); ("override_price_cents", j_opt JInt (pv_price_override_cents v))].

(** The unit a line sells: the product, the variant, and its locked price and stock. *)
Definition line_unit (products : gmap Z Product) (variants : gmap Z ProductVariant) (i : CartItem)
    : Err + (Product * option ProductVariant * Z * Z) :=
  match ci_variant_id i with
  | Some vid =>
      match products !! ci_product_id i, variants !! vid with
      | Some p, Some v =>
          if (pv_product_id v =? p_id p) && bool_decide (p_status p = ACTIVE) && pv_active v
          then inr (p, Some v, effective_price v (p_price_cents p), pv_stock v)
          else inl (ECart VariantUnavailableError)
      | _, _ => inl (ECart VariantUnavailableError)
      end
  | None =>
      match products !! ci_product_id i with
      | Some p =>
          if negb (bool_decide (p_status p = ACTIVE)) then inl (ECart ProductUnavailableError)
          else if 0 <? p_option_count p then inl (ECart VariantRequiredError)
          else inr (p, None, p_price_cents p, p_stock p)
      | None => inl (ECart ProductUnavailableError)
      end
  end.

Definition minus (k n : Z) (m : gmap Z Z) : gmap Z Z := <[k := default 0 (m !! k) - n]> m.

Definition checkout_line (products : gmap Z Product) (variants : gmap Z ProductVariant) (labels : gmap Z (string * string))
    (b : Basket) (i : CartItem) : Err + Basket :=
  u ← line_unit products variants i;
  let '(p, variant, current_price, unit_stock) := u in
  let unit := match variant with Some v => (true, pv_id v) | None => (false, p_id p) end in
  let quantity := ci_quantity i in
  let available := default unit_stock (bk_remaining b !! unit) in
  if available <? quantity then inl (ECart (InsufficientStockError available))
  else
    let changed := negb (ci_price_cents_snapshot i =? current_price) in
    inr (MkBasket
      (<[unit := available - quantity]> (bk_remaining b))
      (match variant with None => minus (p_id p) quantity (bk_stock_deltas b) | Some _ => bk_stock_deltas b end)
      (match variant with Some v => minus (pv_id v) quantity (bk_variant_deltas b) | None => bk_variant_deltas b end)
      (bk_changes b ++ if changed then [(ci_id i, MkPriceChange (p_id p) (p_name p) (ci_price_cents_snapshot i) current_price
                                                    ((λ v, (pv_id v, pv_sku v)) <$> variant))] else [])
      (bk_subtotal b + current_price * quantity)
      (bk_lines b ++ [MkOrderItem 0 "" (p_id p) (p_name p) current_price quantity (pv_id <$> variant)
                        (Some (match variant with Some v => pv_sku v | None => p_sku p end)) (Some "order")
                        (match variant with Some v => variant_snapshot labels p v | None => JNull end) 0 0])).

Fixpoint checkout_lines (products : gmap Z Product) (variants : gmap Z ProductVariant) (labels : gmap Z (string * string))
    (b : Basket) (items : list CartItem) : Err + Basket :=
  match items with
  | [] => inr b
  | i :: rest => b' ← checkout_line products variants labels b i; checkout_lines products variants labels b' rest
  end.

(** ** The price *)

Record Price := MkPrice {
  pr_subtotal : Z; pr_coupon : option Coupon; pr_discount : Discount; pr_shipping : Z; pr_shares : list Z; pr_tax : TaxResult }.
Definition pr_total (p : Price) : Z := pr_subtotal p - goods_cents (pr_discount p) + pr_shipping p + tx_tax_paise (pr_tax p).

Definition line_value (l : OrderItem) : Z := oi_price_cents_snapshot l * oi_quantity l.

(** The coupon, what it takes off, and the shipping charge after it. *)
Definition apply_coupon (q : CheckoutRequest) (subtotal shipping : Z) (values : list Z) : M (option Coupon * Discount * Z * list Z) :=
  match truthy_str (cq_coupon_code q) with
  | None => mret (None, MkDiscount 0 0, shipping, map (λ _, 0) values)
  | Some c =>
      found ← find_by_code c;
      discount ← evaluate found subtotal shipping (cq_user_id q) (guest_only q (cq_guest_email q));
      if negb (goods_cents discount =? 0) then
        shipping ← _calculate_shipping (subtotal - goods_cents discount);
        mret (found, discount, shipping, share_discount (goods_cents discount) values)
      else mret (found, discount, 0, map (λ _, 0) values)
  end.

Definition _calculate_tax (products : gmap Z Product) (lines : list OrderItem) (shares : list Z) (subtotal shipping : Z) (columns : Columns)
    : M TaxResult :=
  as_of ← india_today;
  let line l share := MkTaxLine (oi_product_id l) (oi_quantity l) (oi_price_cents_snapshot l)
                        (p ← products !! oi_product_id l; p_tax_classification_id p) share in
  tax_calculate tax_engine (MkTaxRequest (zip_with line lines shares) subtotal shipping as_of
                              (column columns "shipping_state") (column columns "shipping_country")).

Definition price_lines (q : CheckoutRequest) (products : gmap Z Product) (lines : list OrderItem) (subtotal : Z) (columns : Columns) : M Price :=
  shipping ← _calculate_shipping subtotal;
  res ← apply_coupon q subtotal shipping (map line_value lines);
  let '(coupon, discount, shipping, shares) := res in
  tax ← _calculate_tax products lines shares (subtotal - goods_cents discount) shipping columns;
  mret (MkPrice subtotal coupon discount shipping shares tax).

(** ** The quote: what checkout would charge, without changing anything *)

Record QuoteTax := MkQuoteTax { qt_status : string; qt_engine : string; qt_reason : option string; qt_added_cents : option Z }.
Record CartQuote := MkQuote {
  qu_currency : string; qu_exponent : Z; qu_lines : list (Z * Z * Z) (* item, line total, discount *);
  qu_subtotal : Z; qu_discount : Z; qu_coupon : option string; qu_shipping : option Z; qu_shipping_reason : option string;
  qu_tax : QuoteTax; qu_total : option Z; qu_blocking : list (Z * string); qu_price_changed : bool; qu_requires_address : bool }.

Definition engine_name : string :=
  match tax_engine with GstTaxEngine => "gst" | FlatInterimTaxEngine _ => "flat_interim" | NotConfiguredTaxEngine => "not_configured" end.

(** A cart line with its product and its variant, as the cart is loaded. *)
Definition loaded_line (d : DB) (i : CartItem) : M (CartItem * Product * option ProductVariant) :=
  p ← of_option (d_products d !! ci_product_id i) (RuntimeError "AttributeError");
  mret (i, p, v ← ci_variant_id i; d_variants d !! v).
Definition view_price (x : CartItem * Product * option ProductVariant) : Z :=
  (line_state x.1.2 x.2 (ci_quantity x.1.1)).1.1.
Definition view_reason (x : CartItem * Product * option ProductVariant) : option string :=
  (line_state x.1.2 x.2 (ci_quantity x.1.1)).2.

Definition quote_coupon (q : CheckoutRequest) (subtotal : Z) (shipping : option Z) (values : list Z)
    : M (option Coupon * Discount * option Z * list Z) :=
  match truthy_str (cq_coupon_code q) with
  | None => mret (None, MkDiscount 0 0, shipping, map (λ _, 0) values)
  | Some c =>
      found ← find_by_code c;
      discount ← evaluate found subtotal (default 0 shipping) (cq_user_id q) (guest_only q (cq_guest_email q));
      if negb (goods_cents discount =? 0) then
        shipping ← match shipping with
                   | Some _ => s ← _calculate_shipping (subtotal - goods_cents discount); mret (Some s)
                   | None => mret None
                   end;
        mret (found, discount, shipping, share_discount (goods_cents discount) values)
      else mret (found, discount, (λ _, 0) <$> shipping, map (λ _, 0) values)
  end.

Definition quote_columns (q : CheckoutRequest) : M Columns :=
  match cq_shipping_address q, cq_address_id q, cq_user_id q with
  | None, None, None => mret []
  | _, _, _ => _resolve_shipping_snapshot (cq_user_id q) (cq_address_id q) (cq_shipping_address q)
  end.

(** The tax of the quote, and whether it waits for an address. *)
Definition quote_tax (views : list (CartItem * Product * option ProductVariant)) (shares : list Z) (subtotal : Z)
    (shipping : option Z) (columns : Columns) : M (QuoteTax * bool) :=
  if negb (is_configured tax_engine) then mret (MkQuoteTax "not_active" engine_name (Some "not_configured") None, false)
  else if String.eqb engine_name "gst" && opt_eqb (truthy_str (column columns "shipping_state")) None
  then mret (MkQuoteTax "live" engine_name (Some "address_required") None, true)
  else
    match shipping with
    | None => mret (MkQuoteTax "live" engine_name (Some "not_configured") None, false)
    | Some sh =>
        let line x := MkOrderItem 0 "" (ci_product_id x.1.1) "" (view_price x) (ci_quantity x.1.1) (ci_variant_id x.1.1) None None JNull 0 0 in
        let products := list_to_map (map (λ x, (ci_product_id x.1.1, x.1.2)) views) in
        result ← _calculate_tax products (map line views) shares subtotal sh columns;
        let engine := match j_get "engine" (tx_snapshot result) with Some (JStr e) => if String.eqb e "" then engine_name else e | _ => engine_name end in
        mret (MkQuoteTax "live" engine None (Some (tx_tax_paise result)), false)
    end.

Definition quote (q : CheckoutRequest) (lines : list CartItem) : M CartQuote :=
  d ← gets st_db;
  c ← of_option (effective_currency d).1 (EMoney StoreCurrencyNotConfiguredError);
  currency ← of_sum (get_currency c);
  let items := sort_lines lines in
  match items with
  | [] =>
      mret (MkQuote (code currency) (exponent currency) [] 0 0 None None (Some "cart_empty")
        (MkQuoteTax (if is_configured tax_engine then "live" else "not_active") engine_name (Some "cart_empty") None) None [] false false)
  | _ =>
      views ← map_m (loaded_line d) items;
      let values := map (λ x, view_price x * ci_quantity x.1.1) views in
      let subtotal := sumZ values in
      let blocking := omap (λ x, r ← view_reason x; Some (ci_id x.1.1, r)) views in
      let price_changed := existsb (λ x, negb (ci_price_cents_snapshot x.1.1 =? view_price x)) views in
      shipping ← (if pricing_configured then s ← _calculate_shipping subtotal; mret (Some s) else mret None);
      res ← quote_coupon q subtotal shipping values;
      let '(coupon, discount, shipping', shares) := res in
      let net := subtotal - goods_cents discount in
      columns ← quote_columns q;
      let delivery := eligibility_check columns in
      _ ← raise_if (negb (length columns =? 0)%nat && negb (dd_deliverable delivery)) (EOrder (DeliveryNotAvailableError (dd_reason delivery)));
      taxed ← quote_tax views shares net shipping' columns;
      let '(tax, requires_address) := taxed in
      mret (MkQuote (code currency) (exponent currency)
        (zip_with (λ x vs, (ci_id x.1.1, vs.1, vs.2)) views (combine values shares)) subtotal (goods_cents discount)
        (cp_code <$> coupon) shipping' (if opt_eqb shipping None then Some "not_configured" else None) tax
        (sh ← shipping'; added ← qt_added_cents tax; Some (net + sh + added)) blocking price_changed requires_address)
  end.

(** ** Checkout *)

(** A key that was used before: the same order again, or a refusal. *)
Definition replay (q : CheckoutRequest) (existing : Order) : M Order :=
  _ ← raise_if (match o_request_hash existing with Some h => negb (String.eqb h (_request_fingerprint q)) | None => false end)
        (EOrder IdempotencyKeyConflictError);
  match o_cart_digest existing with
  | None => mret existing
  | Some digest =>
      waiting ← get_or_create_cart (cq_user_id q) (cq_guest_token q);
      lines ← lines_of (c_id waiting);
      _ ← raise_if (negb (length lines =? 0)%nat && negb (String.eqb (cart_digest lines) digest)) (EOrder IdempotencyKeyConflictError);
      mret existing
  end.

(** The locked rows, the lines priced by them, and the products. *)
Definition lock_and_price (items : list CartItem) : M (Basket * gmap Z Product * gmap Z ProductVariant) :=
  products ← get_many_for_update (map ci_product_id items);
  variants ← get_variants_for_update (omap ci_variant_id items);
  labels ← _option_labels (map ci_product_id (filter (λ i, ci_variant_id i ≠ None) items));
  d ← gets st_db;
  let untaxed := map fst (filter (λ kv : Z * Product, tax_state d kv.2 ≠ Some "approved") (map_to_list products)) in
  _ ← raise_if (require_tax_classification && negb (length untaxed =? 0)%nat) (EOrder (ProductTaxUnassignedError untaxed));
  b ← of_sum (checkout_lines products variants labels empty_basket items);
  mret (b, products, variants).

(** Prices moved: the cart is brought up to date and nothing else happens. *)
Definition refuse_changed_prices (b : Basket) : M unit :=
  match bk_changes b with
  | [] => mret tt
  | changes =>
      _ ← for_each changes (λ c, set_price_snapshot c.1 (pc_new_price_cents c.2));
      raise (EOrder (PriceChangedError (map snd changes) (bk_subtotal b)))
  end.

(** The stock leaves, in the name of the order. *)
Definition take_stock (order_id : uuid) (b : Basket) (products : gmap Z Product) (variants : gmap Z ProductVariant) : M unit :=
  stock_change "sale" None None (Some order_id)
    (_ ← adjust_stock_many products (bk_stock_deltas b);
     if bool_decide (bk_variant_deltas b = ∅) then mret tt else adjust_variant_stock_many variants (bk_variant_deltas b)).

Definition order_row (q : CheckoutRequest) (order_id : uuid) (digest : string) (currency : Currency) (delivery : DeliveryDecision)
    (columns : Columns) (p : Price) (t : Z) : Order :=
  MkOrder order_id (cq_user_id q) (guest_only q (cq_guest_token q)) (guest_only q (cq_guest_email q)) None (Some digest) PENDING
    (cq_idempotency_key q) (Some (_request_fingerprint q)) (pr_subtotal p) false (goods_cents (pr_discount p))
    (cp_id <$> pr_coupon p) (cp_code <$> pr_coupon p)
    (match pr_coupon p with Some c => coupon_snapshot c (pr_discount p) | None => JNull end)
    (pr_shipping p) (tx_tax_paise (pr_tax p)) (pr_total p) (Some (code currency)) None
    (_shipping_snapshot (pr_shipping p) currency delivery)
    (JObj (j_fields (tx_snapshot (pr_tax p)) ++ [("currency", JStr (code currency)); ("minor_unit_exponent", JInt (exponent currency))]))
    columns t.

Definition new_order (q : CheckoutRequest) : M Order :=
  _ ← _assert_pricing_configured;
  currency ← _resolve_currency;
  columns ← _resolve_shipping_snapshot (cq_user_id q) (cq_address_id q) (cq_shipping_address q);
  let delivery := eligibility_check columns in
  _ ← raise_if (negb (dd_deliverable delivery)) (EOrder (DeliveryNotAvailableError (dd_reason delivery)));
  cart ← get_or_create_cart (cq_user_id q) (cq_guest_token q);
  lines ← lines_of (c_id cart);
  _ ← raise_if (length lines =? 0)%nat (EOrder EmptyCartError);
  order_id ← new_uuid;
  priced ← lock_and_price (sort_lines lines);
  let '(b, products, variants) := priced in
  _ ← refuse_changed_prices b;
  price ← price_lines q products (bk_lines b) (bk_subtotal b) columns;
  _ ← take_stock order_id b products variants;
  t ← now;
  order ← create_order (order_row q order_id (cart_digest lines) currency delivery columns price t)
            (zip_with (λ l share, l <| oi_discount_cents := share |>) (bk_lines b) (pr_shares price));
  _ ← clear lines;
  mret order.

Definition checkout (q : CheckoutRequest) : M Order :=
  _ ← raise_if (is_guest q && opt_eqb (truthy_str (cq_guest_email q)) None) (EOrder GuestEmailRequiredError);
  existing ← get_by_idempotency_key (cq_idempotency_key q) (cq_user_id q) (cq_guest_token q);
  match existing with
  | Some o => replay q o
  | None => new_order q
  end.

Definition issue_guest_payment_token (order : Order) : M (option string) :=
  if negb (opt_eqb (o_user_id order) None) || negb (bool_decide (o_status order = PENDING)) then mret None
  else
    seed ← new_uuid;
    let token := token_urlsafe seed in
    _ ← update_order (o_id order) (λ o, o <| o_payment_token_hash := Some (sha256_hex token) |>);
    mret (Some token).

(** The endpoint: changed prices are an answer, so that the refreshed cart is committed. *)
Definition checkout_endpoint (q : CheckoutRequest) : M (OrderErr + (Order * option string)) :=
  get_db (try_catch
    (order ← checkout q;
     token ← (if is_guest q then issue_guest_payment_token order else mret None);
     mret (inr (order, token)))
    (λ e, match e with EOrder (PriceChangedError c s) => Some (mret (inl (PriceChangedError c s))) | _ => None end)).

(** [OrderService.update_status] *)
Definition service_update_status (order_id : uuid) (new_status : OrderStatus) (changed_by : option uuid) : M Order :=
  found ← get_order_by_id order_id;
  order ← of_option found (EOrder (OrderNotFoundError order_id));
  _ ← raise_if (negb (bool_decide (new_status ∈ ALLOWED_TRANSITIONS (o_status order))))
        (EOrder (InvalidStatusTransitionError (order_status_value (o_status order)) (order_status_value new_status)));
  updated ← update_status order new_status changed_by None;
  _ ← (if bool_decide (new_status = FULFILLED) then issue_invoice updated false else mret None);
  mret updated.
End orders.

(** ** Every operation keeps the tables sound *)

Section orders_sound.
Context `{!Settings} `{!Crypto} `{!Store}.

Lemma guar_calculate_shipping n : guar step (_calculate_shipping n).
Proof. unfold _calculate_shipping, _assert_pricing_configured. solve_guar. Qed.
Lemma guar_resolve_currency : guar step _resolve_currency.
Proof. unfold _resolve_currency, get_or_initialize_currency. solve_guar. Qed.
Lemma guar_get_default a : guar step (get_default_for_user a).
Proof. unfold get_default_for_user. solve_guar. Qed.
#[local] Hint Resolve guar_calculate_shipping guar_resolve_currency guar_get_default : guar.
Lemma guar_resolve_shipping a b c : guar step (_resolve_shipping_snapshot a b c).
Proof. unfold _resolve_shipping_snapshot. solve_guar. Qed.
Lemma guar_india_today : guar step india_today.
Proof. unfold india_today. solve_guar. Qed.
#[local] Hint Resolve guar_resolve_shipping guar_india_today : guar.
Lemma guar_apply_coupon a b c d : guar step (apply_coupon a b c d).
Proof. unfold apply_coupon. solve_guar. Qed.
Lemma guar_calculate_tax a b c d e f : guar step (_calculate_tax a b c d e f).
Proof. unfold _calculate_tax. solve_guar. Qed.
#[local] Hint Resolve guar_apply_coupon guar_calculate_tax : guar.
Lemma guar_price_lines a b c d e : guar step (price_lines a b c d e).
Proof. unfold price_lines. solve_guar. Qed.
Lemma guar_replay a b : guar step (replay a b).
Proof. unfold replay. solve_guar. Qed.
Lemma guar_lock_and_price a : guar step (lock_and_price a).
Proof. unfold lock_and_price, _option_labels. solve_guar. Qed.
Lemma guar_refuse_changed a : guar step (refuse_changed_prices a).
Proof. unfold refuse_changed_prices. solve_guar. Qed.
Lemma guar_take_stock a b c d : guar step (take_stock a b c d).
Proof. unfold take_stock. solve_guar. Qed.
#[local] Hint Resolve guar_price_lines guar_replay guar_lock_and_price guar_refuse_changed guar_take_stock : guar.
Lemma guar_new_order q : guar step (new_order q).
Proof. unfold new_order, _assert_pricing_configured. solve_guar. Qed.
#[local] Hint Resolve guar_new_order : guar.
Lemma guar_checkout q : guar step (checkout q).
Proof. unfold checkout. solve_guar. Qed.
Lemma guar_issue_token o : guar step (issue_guest_payment_token o).
Proof. unfold issue_guest_payment_token. solve_guar. Qed.
#[local] Hint Resolve guar_checkout guar_issue_token : guar.
Lemma guar_checkout_endpoint q : guar step (checkout_endpoint q).
Proof.
  unfold checkout_endpoint. apply guar_get_db, guar_try; [apply _|solve_guar|].
  intros e k. destruct e as [| | |[]| | | | | | | | | | | | | | | | |]; try discriminate. intros [= <-]. solve_guar.
Qed.
Lemma guar_service_update_status a b c : guar step (service_update_status a b c).
Proof. unfold service_update_status. solve_guar. Qed.
End orders_sound.
#[export] Hint Resolve guar_checkout guar_checkout_endpoint guar_issue_token guar_service_update_status : guar.
