(* ===== verification/Jobs.v ===== *)
(** * The job queue and its workers

    [core/jobs/worker.py], [core/jobs/queue.py], [core/jobs/schedule.py]: the statements a worker sends,
    as functions on the table of jobs and the database's clock; the worker's loop body on the shared
    state; and the queue as a transition system in which any number of workers claim, finish, fail or
    die, in any order. *)

From S2P Require Import Prelude Decimal Errors Schema Guards Evolution Repositories.

Local Open Scope string_scope.
Local Open Scope list_scope.
Local Open Scope Z_scope.

Abbreviation Jobs := (gmap Z BackgroundJob) (only parsing).

Record ClaimedJob := MkClaimed { cj_id : Z; cj_job_type : string; cj_payload : json; cj_attempts : Z; cj_max_attempts : Z }.

(** ** Statements *)

Definition is_pending_job (j : BackgroundJob) : bool := String.eqb (j_status j) "pending".
Definition is_running (j : BackgroundJob) : bool := String.eqb (j_status j) "running".
Definition lock_expired (t : Z) (j : BackgroundJob) : bool := match j_locked_until j with Some u => u <? t | None => false end.

(** [_FAIL_EXHAUSTED_SQL] *)
Definition fail_exhausted (t : Z) (m : Jobs) : Jobs :=
  (λ j, if is_running j && lock_expired t j && (j_max_attempts j <=? j_attempts j)
        then j <| j_status := "failed" |> <| j_finished_at := Some t |> <| j_locked_until := None |>
               <| j_last_error := Some (default "" (j_last_error j) +:+ " [worker stopped before finishing; out of attempts]") |>
        else j) <$> m.

(** The jobs [_CLAIM_SQL] may take, and the one it takes: the first by [run_at], then by id. *)
Definition claimable (t : Z) (j : BackgroundJob) : bool :=
  (j_attempts j <? j_max_attempts j)
  && ((is_pending_job j && (j_run_at j <=? t)) || (is_running j && lock_expired t j)).
Definition run_order (a b : BackgroundJob) : Prop := j_run_at a < j_run_at b ∨ (j_run_at a = j_run_at b ∧ j_id a ≤ j_id b).
#[export] Instance run_order_dec a b : Decision (run_order a b).
Proof. unfold run_order. apply _. Defined.
#[global] Typeclasses Opaque run_order.
Definition next_due (t : Z) (m : Jobs) : option BackgroundJob := head (merge_sort run_order (rows_where (claimable t) m)).

Definition claim_row (t lock_seconds : Z) (j : BackgroundJob) : BackgroundJob :=
  j <| j_status := "running" |> <| j_attempts := j_attempts j + 1 |> <| j_locked_until := Some (t + lock_seconds) |>.
Definition claimed_of (j : BackgroundJob) : ClaimedJob := MkClaimed (j_id j) (j_job_type j) (j_payload j) (j_attempts j) (j_max_attempts j).

(** [claim_next]: one transaction. *)
Definition claim_next (t lock_seconds : Z) (m : Jobs) : option ClaimedJob * Jobs :=
  let m := fail_exhausted t m in
  match next_due t m with
  | None => (None, m)
  | Some j => let j' := claim_row t lock_seconds j in (Some (claimed_of j'), <[j_id j := j']> m)
  end.

(** The row of a claim, if this attempt is still the current one. *)
Definition current_row (c : ClaimedJob) (m : Jobs) : option BackgroundJob :=
  match m !! cj_id c with
  | Some j => if is_running j && (j_attempts j =? cj_attempts c) then Some j else None
  | None => None
  end.

(** [complete_job]; whether the result was recorded. *)
Definition complete_job (t : Z) (c : ClaimedJob) (m : Jobs) : bool * Jobs :=
  match current_row c m with
  | None => (false, m)
  | Some j => (true, <[cj_id c := j <| j_status := "succeeded" |> <| j_finished_at := Some t |> <| j_locked_until := None |>
                                    <| j_last_error := None |>]> m)
  end.

Definition retry_delay_seconds (attempts base cap : Z) : Z := Z.min (base * 2 ^ Z.max (attempts - 1) 0) cap.

(** [fail_job] *)
Definition fail_job (t base cap : Z) (c : ClaimedJob) (error : string) (m : Jobs) : bool * Jobs :=
  let final := cj_max_attempts c <=? cj_attempts c in
  match current_row c m with
  | None => (false, m)
  | Some j =>
      (true, <[cj_id c := j <| j_status := if final then "failed" else "pending" |>
                            <| j_run_at := t + retry_delay_seconds (cj_attempts c) base cap |>
                            <| j_finished_at := if final then Some t else None |> <| j_locked_until := None |>
                            <| j_last_error := Some (String.substring 0 4000 error) |>]> m)
  end.

(** ** The worker *)

Section worker.
(** The settings of the worker, the registered handlers, and the text of an exception after [redact]. *)
Context `{!Settings} (jobs_lock_seconds jobs_retry_base_seconds jobs_retry_max_seconds : Z).
Context (get_handler : string → option (json → M unit)) (describe : Err → string).

(** A statement in a transaction of its own. *)
Definition in_own_transaction {A} (f : Z → Jobs → A * Jobs) : M A :=
  get_db (s ← gets id;
          let '(a, m) := f (st_now s) (d_jobs (st_db s)) in
          _ ← upd (λ d, d <| d_jobs := m |>);
          mret a).

Definition _run_claimed (c : ClaimedJob) : M unit :=
  outcome ← try_catch
    (_ ← match get_handler (cj_job_type c) with
         | None => raise (RuntimeError ("no handler registered for job type " +:+ cj_job_type c))
         | Some h => try_finally (h (cj_payload c)) rollback
         end;
     mret None)
    (λ e, Some (mret (Some e)));
  match outcome with
  | None => _ ← in_own_transaction (λ t, complete_job t c); mret tt
  | Some e => _ ← in_own_transaction (λ t, fail_job t jobs_retry_base_seconds jobs_retry_max_seconds c (describe e)); mret tt
  end.

Definition run_one : M bool :=
  claimed ← in_own_transaction (λ t, claim_next t jobs_lock_seconds);
  match claimed with
  | None => mret false
  | Some c => _ ← _run_claimed c; mret true
  end.

(** ** The scheduler *)

(** [enqueue(..., dedupe_key=..., max_attempts=3)] for one registered schedule. *)
Definition enqueue_schedule (job_type : string) (interval : Z) : M bool :=
  if interval <=? 0 then mret false
  else get_db (
    t ← now;
    i ← new_id;
    r ← insert_job (MkJob i job_type (JObj []) "pending" 0 3 t None None None
                      (Some ("schedule:" +:+ job_type +:+ ":" +:+ str_Z (t / interval))));
    mret (negb (opt_eqb r None))).
Definition enqueue_due (schedules : list (string * Z)) : M (list string) :=
  fold_m (λ acc s, b ← enqueue_schedule s.1 s.2; mret (if b : bool then acc ++ [s.1] else acc)) [] schedules.
End worker.

Lemma guar_in_own {A} (f : Z → Jobs → A * Jobs) : guar step (in_own_transaction f).
Proof.
  unfold in_own_transaction. apply guar_get_db. apply guar_bind; [apply _|apply guar_gets, _|]. intros s.
  destruct (f _ _) as [a m]. apply guar_bind; [apply _| |intros; apply guar_ret, _].
  apply guar_upd. intros d HI. split; [evolve|by keep_inv HI].
Qed.
Lemma guar_run_one l b c h ds : (∀ t f p, h t = Some f → guar step (f p)) → guar step (run_one l b c h ds).
Proof.
  intros Hh. unfold run_one. apply guar_bind; [apply _|apply guar_in_own|]. intros [j|]; [|apply guar_ret, _].
  apply guar_bind; [apply _| |intros; apply guar_ret, _]. unfold _run_claimed. apply guar_bind; [apply _| |].
  - apply guar_try; [apply _| |intros e k [= <-]; apply guar_ret, _]. apply guar_bind; [apply _| |intros; apply guar_ret, _].
    destruct (h _) as [f|] eqn:Hf; [|apply guar_raise, _]. apply guar_try_finally; [apply _|by eapply Hh|apply guar_rollback].
  - intros [e|]; (apply guar_bind; [apply _|apply guar_in_own|intros; apply guar_ret, _]).
Qed.
Lemma guar_enqueue_due l : guar step (enqueue_due l).
Proof.
  unfold enqueue_due, enqueue_schedule. apply guar_fold_m; [apply _..|]. intros b [ty n]; cbn [fst snd].
  apply guar_bind; [apply _| |intros; apply guar_ret, _]. destruct (_ <=? _); [apply guar_ret, _|]. apply guar_get_db. solve_guar.
Qed.

(** ** The queue as a transition system *)

(** The clock, the jobs, the claims workers are holding, and every claim ever handed out. *)
Record Queue := MkQueue { q_now : Z; q_jobs : Jobs; q_held : list ClaimedJob; q_log : list ClaimedJob }.

Definition new_job (i : Z) (ty : string) (payload : json) (max_attempts run_at : Z) (key : option string) : BackgroundJob :=
  MkJob i ty payload "pending" 0 max_attempts run_at None None None key.

Section queue.
Context (jobs_lock_seconds jobs_retry_base_seconds jobs_retry_max_seconds : Z).

Inductive qstep : Queue → Queue → Prop :=
  | q_tick t t' m h l : t ≤ t' → qstep (MkQueue t m h l) (MkQueue t' m h l)
  | q_enqueue t m h l i ty p n r k : m !! i = None → 1 ≤ n →
      qstep (MkQueue t m h l) (MkQueue t (<[i := new_job i ty p n r k]> m) h l)
  | q_claim t m h l c m' : claim_next t jobs_lock_seconds m = (Some c, m') →
      qstep (MkQueue t m h l) (MkQueue t m' (c :: h) (c :: l))
  | q_idle t m h l m' : claim_next t jobs_lock_seconds m = (None, m') → qstep (MkQueue t m h l) (MkQueue t m' h l)
  | q_complete t m h1 c h2 l m' b : complete_job t c m = (b, m') →
      qstep (MkQueue t m (h1 ++ c :: h2) l) (MkQueue t m' (h1 ++ h2) l)
  | q_fail t m h1 c h2 l e m' b : fail_job t jobs_retry_base_seconds jobs_retry_max_seconds c e m = (b, m') →
      qstep (MkQueue t m (h1 ++ c :: h2) l) (MkQueue t m' (h1 ++ h2) l)
  | q_die t m h1 c h2 l : qstep (MkQueue t m (h1 ++ c :: h2) l) (MkQueue t m (h1 ++ h2) l).

Definition reachable (q : Queue) : Prop := ∃ t, rtc qstep (MkQueue t ∅ [] []) q.
End queue.

(** ** Lemmas *)

#[export] Instance run_order_total : Total run_order.
Proof. intros a b. unfold run_order. lia. Qed.
#[export] Instance run_order_trans : Transitive run_order.
Proof. intros a b c. unfold run_order. lia. Qed.

(** The job taken is claimable and comes first. *)
Lemma next_due_Some t m j :
  next_due t m = Some j →
  claimable t j = true ∧ (∃ k, m !! k = Some j) ∧ ∀ k j', m !! k = Some j' → claimable t j' = true → run_order j j'.
Proof.
  unfold next_due. intros Hh.
  assert (j ∈ rows_where (claimable t) m) as Hj.
  { rewrite <-(merge_sort_Permutation run_order). destruct (merge_sort _ _); [done|]. cbn in Hh. simplify_eq. left. }
  apply rows_where_elem in Hj as [Hc Hk]. split_and!; [done|done|]. intros k j' Hk' Hc'.
  assert (j' ∈ merge_sort run_order (rows_where (claimable t) m)) as Hj'.
  { rewrite (merge_sort_Permutation run_order). apply rows_where_elem. eauto. }
  pose proof (StronglySorted_merge_sort run_order (rows_where (claimable t) m)) as Hs.
  destruct (merge_sort _ _) as [|x l]; [done|]. cbn in Hh. simplify_eq.
  apply elem_of_cons in Hj' as [->|Hj']; [right; lia|].
  apply StronglySorted_inv in Hs as [_ Hall]. rewrite Forall_forall in Hall. auto.
Qed.
Lemma next_due_None t m : next_due t m = None → ∀ k j, m !! k = Some j → claimable t j = false.
Proof.
  unfold next_due. intros Hh k j Hk. destruct (claimable t j) eqn:Hc; [|done].
  assert (j ∈ merge_sort run_order (rows_where (claimable t) m)) as Hj.
  { rewrite (merge_sort_Permutation run_order). apply rows_where_elem. eauto. }
  destruct (merge_sort _ _); [by apply elem_of_nil in Hj|done].
Qed.

(** What a row keeps when its exhausted, abandoned attempt is failed. *)
Lemma fail_exhausted_lookup t m k j' :
  fail_exhausted t m !! k = Some j' →
  ∃ j, m !! k = Some j ∧ j_id j' = j_id j ∧ j_attempts j' = j_attempts j ∧ j_max_attempts j' = j_max_attempts j ∧
       (j' = j ∨ (is_running j = true ∧ lock_expired t j = true ∧ j_max_attempts j ≤ j_attempts j ∧ j_status j' = "failed")).
Proof.
  unfold fail_exhausted. rewrite lookup_fmap. intros (j & -> & Hj)%fmap_Some. exists j. split; [done|].
  destruct (_ && _) eqn:Hb; subst j'; [|by eauto].
  rewrite !andb_true_iff, Z.leb_le in Hb. destruct Hb as [[? ?] ?]. cbn. eauto 10.
Qed.
Lemma fail_exhausted_keeps t m k j :
  m !! k = Some j → is_running j = false → fail_exhausted t m !! k = Some j.
Proof. intros Hk Hr. unfold fail_exhausted. rewrite lookup_fmap, Hk; cbn. by rewrite Hr. Qed.

(** ** The invariant *)

Definition statuses : list string := ["pending"; "running"; "succeeded"; "failed"].
Definition finished (j : BackgroundJob) : Prop := j_status j = "succeeded" ∨ j_status j = "failed".

Record job_ok (k : Z) (j : BackgroundJob) : Prop := {
  jo_id : j_id j = k;
  jo_attempts : 0 ≤ j_attempts j ≤ j_max_attempts j;
  jo_status : j_status j ∈ statuses;
  jo_locked : j_status j = "running" → j_locked_until j ≠ None
}.

Definition attempt_of (c : ClaimedJob) : Z * Z := (cj_id c, cj_attempts c).

Record queue_ok (q : Queue) : Prop := {
  qo_jobs : ∀ k j, q_jobs q !! k = Some j → job_ok k j;
  qo_log : ∀ c, c ∈ q_log q → ∃ j, q_jobs q !! cj_id c = Some j ∧ 1 ≤ cj_attempts c ≤ j_attempts j ∧ cj_max_attempts c = j_max_attempts j;
  qo_once : NoDup (map attempt_of (q_log q));
  qo_held : ∀ c, c ∈ q_held q → c ∈ q_log q;
  qo_holders : NoDup (map attempt_of (q_held q))
}.

(** Rewriting rows without losing an attempt keeps the claims accounted for. *)
Definition rows_kept (m m' : Jobs) : Prop :=
  ∀ k j, m !! k = Some j → ∃ j', m' !! k = Some j' ∧ j_attempts j ≤ j_attempts j' ∧ j_max_attempts j' = j_max_attempts j.

Lemma log_kept m m' (l : list ClaimedJob) :
  rows_kept m m' →
  (∀ c, c ∈ l → ∃ j, m !! cj_id c = Some j ∧ 1 ≤ cj_attempts c ≤ j_attempts j ∧ cj_max_attempts c = j_max_attempts j) →
  ∀ c, c ∈ l → ∃ j, m' !! cj_id c = Some j ∧ 1 ≤ cj_attempts c ≤ j_attempts j ∧ cj_max_attempts c = j_max_attempts j.
Proof.
  intros Hr Hl c Hc. destruct (Hl c Hc) as (j & Hj & ? & ?). destruct (Hr _ _ Hj) as (j' & Hj' & ? & ?).
  exists j'. split; [done|]. split; [lia|congruence].
Qed.

Lemma fail_exhausted_ok t m :
  (∀ k j, m !! k = Some j → job_ok k j) → ∀ k j, fail_exhausted t m !! k = Some j → job_ok k j.
Proof.
  intros Hok k j' (j & Hj & ? & ? & ? & Hc)%fail_exhausted_lookup. destruct (Hok _ _ Hj).
  destruct Hc as [->|(_ & _ & _ & Hs)]; [done|]. split; [congruence|lia|rewrite Hs; set_solver|congruence].
Qed.
Lemma fail_exhausted_kept t m : rows_kept m (fail_exhausted t m).
Proof.
  intros k j Hj. destruct (fail_exhausted t m !! k) as [j'|] eqn:Hj'.
  - destruct (fail_exhausted_lookup _ _ _ _ Hj') as (j0 & ? & ? & ? & ? & _). simplify_eq. exists j'. split; [done|]. lia.
  - unfold fail_exhausted in Hj'. rewrite lookup_fmap, Hj in Hj'. done.
Qed.

#[export] Instance rows_kept_trans : Transitive rows_kept.
Proof.
  intros a b c H1 H2 k j Hj. destruct (H1 _ _ Hj) as (j1 & Hj1 & ? & ?). destruct (H2 _ _ Hj1) as (j2 & ? & ? & ?).
  exists j2. split; [done|]. split; [lia|congruence].
Qed.
Lemma rows_kept_insert m k j j' :
  m !! k = Some j → j_attempts j ≤ j_attempts j' → j_max_attempts j' = j_max_attempts j → rows_kept m (<[k := j']> m).
Proof.
  intros Hk ? ? k0 j0 Hk0. destruct (decide (k0 = k)) as [->|].
  - exists j'. rewrite lookup_insert_eq. simplify_eq. done.
  - exists j0. rewrite lookup_insert_ne by done. split; [done|]. lia.
Qed.
Lemma rows_kept_fresh m k j : m !! k = None → rows_kept m (<[k := j]> m).
Proof. intros Hk k0 j0 Hk0. exists j0. rewrite lookup_insert_ne by congruence. split; [done|]. lia. Qed.

(** What a claim did: the row taken was claimable, and only it and abandoned rows changed. *)
Lemma claim_next_Some t lock m c m' :
  claim_next t lock m = (Some c, m') →
  ∃ k j, fail_exhausted t m !! k = Some j ∧ claimable t j = true ∧ c = claimed_of (claim_row t lock j) ∧
         m' = <[j_id j := claim_row t lock j]> (fail_exhausted t m) ∧
         ∀ k' j', fail_exhausted t m !! k' = Some j' → claimable t j' = true → run_order j j'.
Proof.
  unfold claim_next. destruct (next_due _ _) as [j|] eqn:Hd; [|done]. intros [= <- <-].
  destruct (next_due_Some _ _ _ Hd) as (Hc & [k Hk] & Hfirst). eauto 10.
Qed.
Lemma claim_next_None t lock m m' :
  claim_next t lock m = (None, m') → m' = fail_exhausted t m ∧ ∀ k j, fail_exhausted t m !! k = Some j → claimable t j = false.
Proof. unfold claim_next. destruct (next_due _ _) eqn:Hd; [done|]. intros [= <-]. split; [done|]. by apply next_due_None. Qed.

Lemma current_row_Some c m j :
  current_row c m = Some j ↔ m !! cj_id c = Some j ∧ j_status j = "running" ∧ j_attempts j = cj_attempts c.
Proof.
  unfold current_row, is_running. destruct (m !! cj_id c) as [j'|]; [|naive_solver].
  destruct (_ && _) eqn:Hb.
  - rewrite andb_true_iff, String.eqb_eq, Z.eqb_eq in Hb. naive_solver.
  - split; [done|]. intros ([= ->] & Hr & Ha). rewrite Hr, Ha, Z.eqb_refl in Hb. done.
Qed.

Lemma claim_row_ok t lock k j : job_ok k j → claimable t j = true → job_ok k (claim_row t lock j).
Proof.
  intros [] Hc. unfold claimable in Hc. rewrite andb_true_iff, Z.ltb_lt in Hc. destruct Hc as [Hlt _].
  split; cbn; [done|lia|set_solver|done].
Qed.

Section queue_invariant.
Context (lock base cap : Z).

Lemma claim_keeps_ok t m h l c m' :
  queue_ok (MkQueue t m h l) → claim_next t lock m = (Some c, m') → queue_ok (MkQueue t m' (c :: h) (c :: l)).
Proof.
  intros [Hj Hl Ho Hh Hhs]; cbn in *. intros (k & j & Hk & Hc & -> & -> & _)%claim_next_Some.
  pose proof (fail_exhausted_ok t m Hj _ _ Hk) as Hjk. assert (j_id j = k) as Hid by apply Hjk. rewrite Hid.
  destruct (fail_exhausted_lookup _ _ _ _ Hk) as (j0 & Hj0 & ? & Ha & Hm & _).
  assert (∀ c', c' ∈ l → attempt_of c' ≠ (k, j_attempts j + 1)) as Hnew.
  { intros c' Hc' [= He1 He2]. destruct (Hl _ Hc') as (j1 & Hj1 & ? & _). rewrite He1 in Hj1. simplify_eq. lia. }
  split; cbn.
  - intros k' j' [[<- <-]|[? Hk']]%lookup_insert_Some; [by apply claim_row_ok|]. by eapply fail_exhausted_ok.
  - intros c' [->|Hc']%elem_of_cons.
    + cbn. rewrite Hid. exists (claim_row t lock j). rewrite lookup_insert_eq. cbn.
      split; [done|]. split; [|done]. destruct Hjk. lia.
    + eapply log_kept; [|exact Hl|done]. etrans; [apply (fail_exhausted_kept t)|].
      eapply rows_kept_insert; [exact Hk|cbn; lia|done].
  - rewrite NoDup_cons. split; [|done]. unfold attempt_of at 1; cbn. rewrite Hid.
    intros (c' & He & Hc')%list_elem_of_fmap. by apply (Hnew c' Hc').
  - intros c' [->|Hc']%elem_of_cons; [left|right; auto].
  - rewrite NoDup_cons. split; [|done]. unfold attempt_of at 1; cbn. rewrite Hid.
    intros (c' & He & Hc')%list_elem_of_fmap. by apply (Hnew c'); [apply Hh|].
Qed.

(** Replacing the row of a held claim by one with the same counts, and dropping the claim. *)
Lemma drop_claim_ok t m h1 c h2 l m' :
  queue_ok (MkQueue t m (h1 ++ c :: h2) l) →
  (∀ k j, m' !! k = Some j → job_ok k j) → rows_kept m m' → queue_ok (MkQueue t m' (h1 ++ h2) l).
Proof.
  intros [Hj Hl Ho Hh Hhs] Hok Hk; cbn in *. split; cbn; [done|by eapply log_kept|done| |].
  - intros c' Hc'. apply Hh. set_solver.
  - revert Hhs. rewrite !map_app; cbn. rewrite <-Permutation_middle, NoDup_cons. by intros [_ ?].
Qed.

Lemma complete_rows t c m b m' :
  (∀ k j, m !! k = Some j → job_ok k j) → complete_job t c m = (b, m') →
  (∀ k j, m' !! k = Some j → job_ok k j) ∧ rows_kept m m'.
Proof.
  intros Hok. unfold complete_job. destruct (current_row c m) as [j|] eqn:Hc; intros [= <- <-].
  - apply current_row_Some in Hc as (Hk & _ & _). destruct (Hok _ _ Hk). split.
    + intros k' j' [[<- <-]|[? ?]]%lookup_insert_Some; [|by eauto]. split; cbn; [done|done|set_solver|done].
    + eapply rows_kept_insert; [exact Hk|cbn; lia|done].
  - split; [done|]. intros k j Hk. exists j. split; [done|lia].
Qed.
Lemma fail_rows t c e m b m' :
  (∀ k j, m !! k = Some j → job_ok k j) → fail_job t base cap c e m = (b, m') →
  (∀ k j, m' !! k = Some j → job_ok k j) ∧ rows_kept m m'.
Proof.
  intros Hok. unfold fail_job. destruct (current_row c m) as [j|] eqn:Hc; intros [= <- <-].
  - apply current_row_Some in Hc as (Hk & _ & _). destruct (Hok _ _ Hk). split.
    + intros k' j' [[<- <-]|[? ?]]%lookup_insert_Some; [|by eauto].
      split; cbn; [done|done|destruct (_ <=? _); set_solver|by destruct (_ <=? _)].
    + eapply rows_kept_insert; [exact Hk|cbn; lia|done].
  - split; [done|]. intros k j Hk. exists j. split; [done|lia].
Qed.

Lemma qstep_ok q q' : qstep lock base cap q q' → queue_ok q → queue_ok q'.
Proof.
  intros Hs Hq. destruct Hs as [t t' m h l Ht|t m h l i ty p n r k Hi Hn|t m h l c m' Hc|t m h l m' Hc
                               |t m h1 c h2 l m' b Hc|t m h1 c h2 l e m' b Hf|t m h1 c h2 l].
  - by destruct Hq; split.
  - destruct Hq as [Hj Hl Ho Hh Hhs]; cbn in *. split; cbn; try done.
    + intros k' j' [[<- <-]|[? ?]]%lookup_insert_Some; [|by eauto]. split; cbn; [done|lia|set_solver|done].
    + eapply log_kept; [|exact Hl]. by apply rows_kept_fresh.
  - by eapply claim_keeps_ok.
  - apply claim_next_None in Hc as [-> _]. destruct Hq as [Hj Hl Ho Hh Hhs]; cbn in *. split; cbn; try done.
    + by apply fail_exhausted_ok.
    + eapply log_kept; [|exact Hl]. apply fail_exhausted_kept.
  - destruct (complete_rows _ _ _ _ _ (qo_jobs _ Hq) Hc). by eapply drop_claim_ok.
  - destruct (fail_rows _ _ _ _ _ _ (qo_jobs _ Hq) Hf). by eapply drop_claim_ok.
  - eapply drop_claim_ok; [exact Hq|apply Hq|]. intros k j Hk. exists j. split; [done|lia].
Qed.

Lemma reachable_ok q : reachable lock base cap q → queue_ok q.
Proof.
  intros [t Hr]. assert (queue_ok (MkQueue t ∅ [] [])) as H0.
  { split; cbn; try done; [intros c Hc; by apply elem_of_nil in Hc|constructor|constructor]. }
  revert H0. induction Hr as [|x y z Hxy Hyz IH]; [done|]. intros Hx. apply IH. by eapply qstep_ok.
Qed.

(** A finished row is in nobody's way and nobody's reach. *)
Lemma finished_kept q q' k j :
  queue_ok q → qstep lock base cap q q' → q_jobs q !! k = Some j → finished j → q_jobs q' !! k = Some j.
Proof.
  intros Hq Hs Hk Hf.
  assert (is_running j = false) as Hr. { unfold is_running. destruct Hf as [-> | ->]; done. }
  assert (∀ t, claimable t j = false) as Hnc.
  { intros t. unfold claimable, is_pending_job. rewrite Hr. destruct Hf as [-> | ->]; cbn; by rewrite andb_false_r. }
  destruct Hs as [t t' m h l Ht|t m h l i ty p n r key Hi Hn|t m h l c m' Hc|t m h l m' Hc
                 |t m h1 c h2 l m' b Hc|t m h1 c h2 l e m' b Hc|t m h1 c h2 l]; cbn in *; try done.
  - rewrite lookup_insert_ne; [done|congruence].
  - pose proof (fail_exhausted_keeps t m k j Hk Hr) as Hk'.
    apply claim_next_Some in Hc as (k0 & j0 & Hk0 & Hcl & _ & -> & _).
    pose proof (jo_id _ _ (fail_exhausted_ok t m (qo_jobs _ Hq) _ _ Hk0)) as Hid.
    rewrite lookup_insert_ne; [done|]. rewrite Hid. intros ->. simplify_eq. by rewrite Hnc in Hcl.
  - apply claim_next_None in Hc as [-> _]. by apply fail_exhausted_keeps.
  - unfold complete_job in Hc. destruct (current_row c m) as [j0|] eqn:Hcur; simplify_eq; [|done].
    apply current_row_Some in Hcur as (Hk0 & Hrun & _). rewrite lookup_insert_ne; [done|].
    intros Heq. rewrite Heq in Hk0. simplify_eq. destruct Hf; congruence.
  - unfold fail_job in Hc. destruct (current_row c m) as [j0|] eqn:Hcur; simplify_eq; [|done].
    apply current_row_Some in Hcur as (Hk0 & Hrun & _). rewrite lookup_insert_ne; [done|].
    intros Heq. rewrite Heq in Hk0. simplify_eq. destruct Hf; congruence.
Qed.
End queue_invariant.

(** ** Properties *)

Lemma NoDup_bounded (l : list Z) n : NoDup l → Forall (λ x, 1 ≤ x ≤ n) l → Z.of_nat (length l) ≤ Z.max n 0.
Proof.
  intros Hn Hb. assert (length l <= length (seqZ 1 n))%nat as Hlen.
  { apply submseteq_length, NoDup_submseteq; [done|]. intros x Hx. apply elem_of_seqZ.
    rewrite Forall_forall in Hb. specialize (Hb x Hx). lia. }
  rewrite length_seqZ in Hlen. lia.
Qed.

Lemma starts_nodup (l : list ClaimedJob) k :
  NoDup (map attempt_of l) → NoDup (map cj_attempts (filter (λ c, cj_id c = k) l)).
Proof.
  induction l as [|c l IH]; [constructor|]. cbn [map]. rewrite NoDup_cons. intros [Hc Hl].
  rewrite filter_cons. destruct (decide (cj_id c = k)) as [Hk|]; [|auto]. cbn [map]. rewrite NoDup_cons. split; [|auto].
  intros (c' & He & [Hk' Hc']%list_elem_of_filter)%list_elem_of_fmap. apply Hc. apply list_elem_of_fmap.
  exists c'. split; [|done]. unfold attempt_of. congruence.
Qed.

(** However workers claim, finish, fail, stall or die, a job is started at most [max_attempts] times,
    and no two of its starts are the same attempt. *)
Theorem starts_bounded lock base cap q k j :
  reachable lock base cap q → q_jobs q !! k = Some j →
  let starts := filter (λ c, cj_id c = k) (q_log q) in
  Z.of_nat (length starts) ≤ j_max_attempts j ∧ NoDup (map cj_attempts starts).
Proof.
  intros Hr Hk. pose proof (reachable_ok _ _ _ _ Hr) as [Hj Hl Ho _ _]. cbv zeta.
  pose proof (starts_nodup _ k Ho) as Hn. split; [|done].
  pose proof (jo_attempts _ _ (Hj _ _ Hk)) as Ha. rewrite <-(length_map cj_attempts).
  transitivity (Z.max (j_max_attempts j) 0); [|lia]. apply NoDup_bounded; [done|].
  apply Forall_map, Forall_forall. intros c [Hc Hin]%list_elem_of_filter.
  destruct (Hl c Hin) as (j' & Hj' & ? & _). rewrite Hc in Hj'. simplify_eq. lia.
Qed.

Definition demo_job : BackgroundJob := new_job 1 "execute_refund" JNull 2 0 None.
Definition demo_claim (attempt : Z) : ClaimedJob := MkClaimed 1 "execute_refund" JNull attempt 2.

(** Two attempts: the first worker stalls past its lock, a second one takes over. *)
Lemma demo_reachable :
  reachable 300 30 3600 (MkQueue 400 {[ 1 := claim_row 400 300 (claim_row 5 300 demo_job) ]}
                           [demo_claim 2; demo_claim 1] [demo_claim 2; demo_claim 1]).
Proof.
  exists 5. eapply rtc_l; [eapply (q_enqueue 300 30 3600 5 ∅ [] [] 1 "execute_refund" JNull 2 0 None); [done|lia]|].
  eapply rtc_l; [eapply (q_claim 300 30 3600 5 _ [] [] (demo_claim 1)); vm_compute; reflexivity|].
  eapply rtc_l; [eapply (q_tick 300 30 3600 5 400); lia|].
  eapply rtc_l; [eapply (q_claim 300 30 3600 400 _ [demo_claim 1] [demo_claim 1] (demo_claim 2)); vm_compute; reflexivity|].
  apply rtc_refl.
Defined.

Lemma starts_bounded_witness : 2 ≤ j_max_attempts (claim_row 400 300 (claim_row 5 300 demo_job)).
Proof.
  exact (proj1 (starts_bounded 300 30 3600 _ 1 _ demo_reachable (lookup_singleton_eq 1 (claim_row 400 300 (claim_row 5 300 demo_job))))).
Defined.

(** Of all the workers holding a claim on a job at most one can still record a result, and a result
    that comes too late (its lock expired and the job was taken over) changes no row. *)
Theorem late_result_ignored lock base cap q c c' :
  reachable lock base cap q → c ∈ q_held q → c' ∈ q_held q → cj_id c = cj_id c' → c ≠ c' →
  current_row c (q_jobs q) ≠ None →
  (∀ t, complete_job t c' (q_jobs q) = (false, q_jobs q)) ∧
  (∀ t e, fail_job t base cap c' e (q_jobs q) = (false, q_jobs q)).
Proof.
  intros Hr Hc Hc' Hid Hne Hcur. pose proof (reachable_ok _ _ _ _ Hr) as Hq.
  assert (current_row c' (q_jobs q) = None) as Hnone.
  { destruct (current_row c (q_jobs q)) as [j|] eqn:Hj; [|done]. apply current_row_Some in Hj as (Hj & _ & Ha).
    destruct (current_row c' (q_jobs q)) as [j'|] eqn:Hj'; [|done]. apply current_row_Some in Hj' as (Hj' & _ & Ha').
    exfalso. rewrite <-Hid in Hj'. simplify_eq.
    apply list_elem_of_lookup in Hc as [n1 Hn1]. apply list_elem_of_lookup in Hc' as [n2 Hn2].
    assert (n1 = n2) as ->; [|congruence]. eapply NoDup_lookup; [exact (qo_holders _ Hq)|..].
    - apply list_lookup_fmap_Some. exists c. split; [|done]. reflexivity.
    - apply list_lookup_fmap_Some. exists c'. split; [|done]. unfold attempt_of. congruence. }
  unfold complete_job, fail_job. by rewrite Hnone.
Qed.

Lemma late_result_ignored_witness :
  complete_job 500 (demo_claim 1) {[ 1 := claim_row 400 300 (claim_row 5 300 demo_job) ]}
  = (false, {[ 1 := claim_row 400 300 (claim_row 5 300 demo_job) ]}).
Proof.
  refine (proj1 (late_result_ignored 300 30 3600 _ (demo_claim 2) (demo_claim 1) demo_reachable _ _ _ _ _) 500).
  - left.
  - right; left.
  - reflexivity.
  - discriminate.
  - cbn. discriminate.
Defined.

(** A job that succeeded or ran out of attempts keeps its row for ever: it is never run or rescheduled. *)
Theorem finished_forever lock base cap q q' k j :
  reachable lock base cap q → rtc (qstep lock base cap) q q' → q_jobs q !! k = Some j → finished j →
  q_jobs q' !! k = Some j.
Proof.
  intros Hr%reachable_ok Hs. induction Hs as [|x y z Hxy Hyz IH]; [done|]. intros Hk Hf.
  apply IH; [by eapply qstep_ok|by eapply finished_kept|done].
Qed.

Definition demo_done : BackgroundJob := claim_row 5 300 demo_job <| j_status := "succeeded" |> <| j_finished_at := Some 6 |> <| j_locked_until := None |>.
Lemma demo_done_reachable : reachable 300 30 3600 (MkQueue 6 {[ 1 := demo_done ]} [] [demo_claim 1]).
Proof.
  exists 5. eapply rtc_l; [eapply (q_enqueue 300 30 3600 5 ∅ [] [] 1 "execute_refund" JNull 2 0 None); [done|lia]|].
  eapply rtc_l; [eapply (q_claim 300 30 3600 5 _ [] [] (demo_claim 1)); vm_compute; reflexivity|].
  eapply rtc_l; [eapply (q_tick 300 30 3600 5 6); lia|].
  eapply rtc_l; [eapply (q_complete 300 30 3600 6 _ [] (demo_claim 1) [] _ _ true); vm_compute; reflexivity|].
  apply rtc_refl.
Defined.
Lemma finished_forever_witness : ({[ 1 := demo_done ]} : Jobs) !! 1 = Some demo_done.
Proof.
  refine (finished_forever 300 30 3600 _ (MkQueue 1000 {[ 1 := demo_done ]} [] [demo_claim 1]) 1 demo_done demo_done_reachable _ _ _).
  - apply rtc_once. apply q_tick. lia.
  - reflexivity.
  - by left.
Defined.

(** A worker that asks for work gets the first claimable job by due time and id whenever there is one:
    one that still has attempts, and is due or was abandoned past its lock; it comes back locked, on
    its next attempt. It gets nothing exactly when there is no such job. *)
Theorem claim_next_spec t lock m :
  (∀ k j, m !! k = Some j → job_ok k j) →
  match claim_next t lock m with
  | (Some c, m') =>
      ∃ j, m !! cj_id c = Some j ∧ claimable t j = true ∧ cj_attempts c = j_attempts j + 1 ∧
           m' !! cj_id c = Some (claim_row t lock j) ∧
           (∀ k j', m !! k = Some j' → claimable t j' = true → run_order j j')
  | (None, _) => ∀ k j, m !! k = Some j → claimable t j = false
  end.
Proof.
  intros Hok.
  assert (∀ k j, m !! k = Some j → claimable t j = true → fail_exhausted t m !! k = Some j) as Hkeep.
  { intros k j Hk Hc. unfold fail_exhausted. rewrite lookup_fmap, Hk; cbn. unfold claimable in Hc.
    rewrite andb_true_iff, Z.ltb_lt in Hc. destruct Hc as [Hlt _].
    destruct (Z.leb_spec (j_max_attempts j) (j_attempts j)); [lia|]. by rewrite andb_false_r. }
  destruct (claim_next t lock m) as [[c|] m'] eqn:Hc.
  - apply claim_next_Some in Hc as (k & j & Hk & Hcl & -> & -> & Hfirst). cbn.
    pose proof (jo_id _ _ (fail_exhausted_ok t m Hok _ _ Hk)) as Hid. rewrite Hid.
    destruct (fail_exhausted_lookup _ _ _ _ Hk) as (j0 & Hj0 & _ & _ & _ & [->|(Hrun & _ & Hmax & Hs)]).
    + exists j0. rewrite lookup_insert_eq. split_and!; eauto.
    + exfalso. unfold claimable, is_pending_job, is_running in Hcl. rewrite Hs in Hcl. cbn in Hcl.
      by rewrite andb_false_r in Hcl.
  - apply claim_next_None in Hc as [_ Hnone]. intros k j Hk. destruct (claimable t j) eqn:Hcl; [|done].
    specialize (Hnone k j (Hkeep k j Hk Hcl)). congruence.
Qed.

Lemma claim_next_spec_witness :
  ∃ j, ({[ 1 := demo_job ]} : Jobs) !! 1 = Some j ∧ claimable 5 j = true ∧ 1 = j_attempts j + 1 ∧
       ({[ 1 := claim_row 5 300 demo_job ]} : Jobs) !! 1 = Some (claim_row 5 300 j) ∧
       (∀ k j', ({[ 1 := demo_job ]} : Jobs) !! k = Some j' → claimable 5 j' = true → run_order j j').
Proof.
  refine (claim_next_spec 5 300 {[ 1 := demo_job ]} _).
  intros k j [<- <-]%lookup_singleton_Some. split; cbn; [done|lia|set_solver|done].
Defined.

(** The wait before a retry doubles with every attempt from the base up to the cap, and never goes down. *)
Theorem retry_delay_spec attempts base cap :
  0 ≤ base → 0 ≤ cap →
  0 ≤ retry_delay_seconds attempts base cap ≤ cap ∧
  (attempts ≤ 1 → retry_delay_seconds attempts base cap = Z.min base cap) ∧
  (1 ≤ attempts → retry_delay_seconds (attempts + 1) base cap = Z.min (2 * retry_delay_seconds attempts base cap) cap).
Proof.
  intros Hb Hc. unfold retry_delay_seconds. assert (0 < 2 ^ Z.max (attempts - 1) 0) by (apply Z.pow_pos_nonneg; lia).
  split_and!; [nia|nia| |].
  - intros. replace (Z.max (attempts - 1) 0) with 0 by lia. rewrite Z.pow_0_r. lia.
  - intros. replace (Z.max (attempts + 1 - 1) 0) with (Z.max (attempts - 1) 0 + 1) by lia.
    rewrite Z.pow_add_r by lia. nia.
Qed.
Lemma retry_delay_spec_witness : retry_delay_seconds 4 30 3600 = 240.
Proof. refine (proj2 (proj2 (retry_delay_spec 3 30 3600 _ _)) _); lia. Defined.
