(* ===== verification/JobsLiveness.v ===== *)
(** * The queue drains

    Whatever the handlers do, a worker that keeps polling ends every job of [Jobs]: a measure on the table goes down with each
    round of the worker's loop until nothing is left to do. *)

From S2P Require Import Prelude Decimal Errors Schema Guards Jobs.

Local Open Scope string_scope.
Local Open Scope list_scope.
Local Open Scope Z_scope.

Section liveness.
Context (jobs_lock_seconds jobs_retry_base_seconds jobs_retry_max_seconds : Z).

(** What becomes of a claim: the handler returns, it raises, or the worker is gone before either. *)
Inductive Outcome := Succeeds | Fails (error : string) | Stops.
Definition settle (t : Z) (c : ClaimedJob) (o : Outcome) (m : Jobs) : Jobs :=
  match o with
  | Succeeds => (complete_job t c m).2
  | Fails e => (fail_job t jobs_retry_base_seconds jobs_retry_max_seconds c e m).2
  | Stops => m
  end.
(** A poll at one time, and the end of what it found at a later one. *)
Record Round := MkRound { ro_claim : Z; ro_end : Z; ro_outcome : Outcome }.
Definition round (m : Jobs) (r : Round) : Jobs :=
  match claim_next (ro_claim r) jobs_lock_seconds m with
  | (Some c, m') => settle (ro_end r) c (ro_outcome r) m'
  | (None, m') => m'
  end.

(** The longest time until a job can be claimed again. *)
Definition patience : Z := Z.max jobs_lock_seconds jobs_retry_max_seconds + 1.
(** The worker polls again once that time has passed. *)
Fixpoint spaced (t : Z) (rs : list Round) : Prop :=
  match rs with
  | [] => True
  | r :: rs => t ≤ ro_claim r ∧ ro_claim r ≤ ro_end r ∧ spaced (ro_end r + patience) rs
  end.

Definition finishedb (j : BackgroundJob) : bool := String.eqb (j_status j) "succeeded" || String.eqb (j_status j) "failed".
(** The attempts a job has left, and its end. *)
Definition job_work (j : BackgroundJob) : Z := if finishedb j then 0 else j_max_attempts j - j_attempts j + 1.
Definition work (m : Jobs) : Z := sum_rows job_work m.

(** A row whose waiting is over by [t]. *)
Record ready (t : Z) (k : Z) (j : BackgroundJob) : Prop := {
  rd_ok : job_ok k j;
  rd_pending : j_status j = "pending" → j_attempts j < j_max_attempts j ∧ j_run_at j ≤ t;
  rd_running : j_status j = "running" → ∃ u, j_locked_until j = Some u ∧ u < t
}.
Definition all_ready (t : Z) (m : Jobs) : Prop := ∀ k j, m !! k = Some j → ready t k j.

Lemma finishedb_spec j : finishedb j = true ↔ finished j.
Proof. unfold finishedb, finished. by rewrite orb_true_iff, !String.eqb_eq. Qed.
Lemma unfinished j k : job_ok k j → finishedb j = false → j_status j = "pending" ∨ j_status j = "running".
Proof.
  intros Hok Hf. pose proof (jo_status _ _ Hok) as Hs. unfold statuses in Hs. unfold finishedb in Hf.
  rewrite !elem_of_cons, elem_of_nil in Hs. destruct Hs as [?|[?|[Hs|[Hs|[]]]]]; [by left|by right|by rewrite Hs in Hf..].
Qed.
Lemma job_work_pos j k : job_ok k j → 0 ≤ job_work j ∧ (finishedb j = false → 0 < job_work j).
Proof. intros Hok. pose proof (jo_attempts _ _ Hok). unfold job_work. destruct (finishedb j); split; [lia|done|lia|lia]. Qed.
Lemma ready_mono t t' k j : t ≤ t' → ready t k j → ready t' k j.
Proof.
  intros Hle [Hok Hp Hr]. split; [done| |].
  - intros Hs. destruct (Hp Hs). split; lia.
  - intros Hs. destruct (Hr Hs) as (u & ? & ?). exists u. split; [done|lia].
Qed.
Lemma work_zero m : work m ≤ 0 → (∀ k j, m !! k = Some j → job_ok k j) → ∀ k j, m !! k = Some j → finished j.
Proof.
  intros Hw Hok k j Hj. apply finishedb_spec. destruct (finishedb j) eqn:Hf; [done|]. unfold work, sum_rows in Hw.
  pose proof (sum_kv_ge (λ _ v, job_work v) m k j ltac:(intros i x Hx; by apply (job_work_pos x i), Hok) Hj) as Hge. cbn beta in Hge.
  pose proof (proj2 (job_work_pos _ _ (Hok _ _ Hj)) Hf). lia.
Qed.

(** Ending abandoned last attempts only takes work away. *)
Lemma fail_exhausted_ready t t' m : all_ready t m → all_ready t (fail_exhausted t' m).
Proof.
  intros Hm k j' Hj'. pose proof (fail_exhausted_ok t' m (λ k j H, rd_ok _ _ _ (Hm k j H)) _ _ Hj') as Hok.
  apply fail_exhausted_lookup in Hj' as (j & Hj & _ & _ & _ & [-> |(_ & _ & _ & Hs)]); [auto|]. split; [done|congruence..].
Qed.
Lemma fail_exhausted_work t m : (∀ k j, m !! k = Some j → job_ok k j) → work (fail_exhausted t m) ≤ work m.
Proof.
  intros Hok. unfold work, sum_rows, fail_exhausted. induction m as [|k j m Hk IH] using map_ind; [by rewrite fmap_empty|].
  rewrite fmap_insert, !sum_kv_fresh by (by rewrite ?lookup_fmap, ?Hk).
  assert (∀ i x, m !! i = Some x → job_ok i x) as Hm by (intros i x Hx; apply (Hok i); rewrite lookup_insert_ne; [done|congruence]).
  specialize (IH Hm). pose proof (proj1 (job_work_pos _ _ (Hok k j ltac:(apply lookup_insert_eq)))).
  destruct (_ && _); [|lia]. unfold job_work at 1, finishedb. cbn. lia.
Qed.
(** With nothing to claim, nothing is left. *)
Lemma idle_done t m :
  all_ready t m → (∀ k j, fail_exhausted t m !! k = Some j → claimable t j = false) →
  ∀ k j, fail_exhausted t m !! k = Some j → finishedb j = true.
Proof.
  intros Hm Hidle k j' Hj'. pose proof (Hidle _ _ Hj') as Hc. pose proof (fail_exhausted_ready _ t _ Hm _ _ Hj') as [Hok Hp Hr].
  destruct (finishedb j') eqn:Hf; [done|]. exfalso. unfold claimable, is_pending_job, is_running in Hc.
  destruct (unfinished _ _ Hok Hf) as [Hs|Hs]; rewrite Hs in Hc; cbn in Hc.
  - destruct (Hp Hs) as [Hlt Hdue]. rewrite (proj2 (Z.ltb_lt _ _) Hlt), (proj2 (Z.leb_le _ _) Hdue) in Hc. done.
  - destruct (Hr Hs) as (u & Hu & Hut). assert (lock_expired t j' = true) as Hexp by (unfold lock_expired; rewrite Hu; by apply Z.ltb_lt).
    rewrite Hexp, !andb_true_r in Hc. apply Z.ltb_ge in Hc. unfold fail_exhausted in Hj'. rewrite lookup_fmap in Hj'.
    apply fmap_Some in Hj' as (j & Hj & Heq). destruct (_ && _) eqn:Hb; subst j'; [done|]. unfold is_running in Hb.
    rewrite Hs, Hexp, (proj2 (Z.leb_le _ _) Hc) in Hb. done.
Qed.

Lemma delay_le n : retry_delay_seconds n jobs_retry_base_seconds jobs_retry_max_seconds ≤ jobs_retry_max_seconds.
Proof. apply Z.le_min_r. Qed.
(** The row a round leaves of the job it took. *)
Lemma settle_row t t' o k j m :
  let j1 := claim_row t jobs_lock_seconds j in
  t ≤ t' → job_ok k j → claimable t j = true →
  ∃ j2, settle t' (claimed_of j1) o (<[k := j1]> m) = <[k := j2]> m ∧ ready (t' + patience) k j2 ∧ job_work j2 ≤ job_work j - 1.
Proof.
  intros j1 Ht Hok Hc. pose proof (claim_row_ok t jobs_lock_seconds k j Hok Hc) as Hok1. fold j1 in Hok1. destruct Hok1 as [H1 H2 H3 H4].
  assert (job_work j1 = job_work j - 1) as Hw.
  { unfold job_work. assert (finishedb j = false) as ->; [|cbn; lia]. unfold claimable, is_pending_job, is_running in Hc.
    apply andb_true_iff in Hc as [_ [[Hs%String.eqb_eq _]%andb_true_iff|[Hs%String.eqb_eq _]%andb_true_iff]%orb_true_iff];
      unfold finishedb; by rewrite Hs. }
  assert (current_row (claimed_of j1) (<[k := j1]> m) = Some j1) as Hcur.
  { apply current_row_Some. cbn [claimed_of cj_id cj_attempts]. rewrite H1, lookup_insert_eq. done. }
  unfold settle. destruct o as [|e|].
  - unfold complete_job. rewrite Hcur. cbn [snd claimed_of cj_id]. rewrite H1, insert_insert_eq. eexists. split; [done|]. split.
    + split; cbn; [split; cbn; [done|done|set_solver|done]|done|done].
    + unfold job_work at 1, finishedb. cbn. pose proof (jo_attempts _ _ Hok). unfold job_work in *. destruct (finishedb j); cbn in Hw; lia.
  - unfold fail_job. rewrite Hcur. cbn [snd claimed_of cj_id cj_attempts cj_max_attempts]. rewrite H1, insert_insert_eq. eexists. split; [done|].
    pose proof (delay_le (j_attempts j1)). destruct (Z.leb_spec (j_max_attempts j1) (j_attempts j1)) as [Hfin|Hfin]; split.
    + split; cbn; [split; cbn; [done|done|set_solver|done]|done|done].
    + unfold job_work at 1, finishedb. cbn. pose proof (jo_attempts _ _ Hok). unfold job_work in *. destruct (finishedb j); cbn in Hw; lia.
    + split; cbn; [split; cbn; [done|done|set_solver|done]| |done]. intros _. cbn in Hfin. split; [lia|]. unfold patience. cbn in *. lia.
    + rewrite <-Hw. unfold job_work, finishedb. cbn. lia.
  - exists j1. split; [done|]. split; [|lia]. split; [done|done|]. intros _. exists (t + jobs_lock_seconds). split; [done|]. unfold patience. lia.
Qed.

Lemma round_progress t m r :
  0 ≤ jobs_lock_seconds → all_ready t m → t ≤ ro_claim r → ro_claim r ≤ ro_end r →
  all_ready (ro_end r + patience) (round m r) ∧ work (round m r) ≤ Z.max (work m - 1) 0.
Proof.
  intros Hlock Hm0 Ht Hle. set (t1 := ro_claim r) in *. assert (all_ready t1 m) as Hm by (intros k j Hj; eapply ready_mono; [|by apply Hm0]; lia).
  assert (∀ k j, m !! k = Some j → job_ok k j) as Hok by (intros k j Hj; by apply (Hm k j)).
  pose proof (fail_exhausted_ready _ t1 _ Hm) as Hm1. pose proof (fail_exhausted_work t1 m Hok) as Hw1.
  unfold round. fold t1. destruct (claim_next t1 jobs_lock_seconds m) as [[c|] m'] eqn:Hc.
  - apply claim_next_Some in Hc as (k & j & Hk & Hcl & -> & -> & _). pose proof (rd_ok _ _ _ (Hm1 _ _ Hk)) as Hokj.
    rewrite (jo_id _ _ Hokj). destruct (settle_row t1 (ro_end r) (ro_outcome r) k j (fail_exhausted t1 m) Hle Hokj Hcl) as (j2 & -> & Hr2 & Hw2). split.
    + intros i x [[<- <-]|[_ Hx]]%lookup_insert_Some; [done|]. eapply ready_mono; [|by apply Hm1]. unfold patience. lia.
    + unfold work, sum_rows in *. rewrite (sum_kv_update _ _ k j) by done. lia.
  - apply claim_next_None in Hc as [-> Hidle]. pose proof (idle_done t1 m Hm Hidle) as Hdone. split.
    + intros i x Hx. pose proof (Hdone _ _ Hx) as Hf%finishedb_spec. split; [by apply Hm1|destruct Hf; congruence..].
    + unfold work, sum_rows. rewrite sum_kv_zero; [lia|]. intros k j Hk. unfold job_work. by rewrite (Hdone _ _ Hk).
Qed.
Lemma round_keys m r k : (∀ k j, m !! k = Some j → job_ok k j) → is_Some (round m r !! k) ↔ is_Some (m !! k).
Proof.
  intros Hok. assert (is_Some (fail_exhausted (ro_claim r) m !! k) ↔ is_Some (m !! k)) as Hfe by (unfold fail_exhausted; by rewrite lookup_fmap, fmap_is_Some).
  rewrite <-Hfe. unfold round. destruct (claim_next _ _ _) as [[c|] m'] eqn:Hc; [|by apply claim_next_None in Hc as [-> _]].
  apply claim_next_Some in Hc as (i & j & Hi & Hcl & -> & -> & _).
  pose proof (fail_exhausted_ok _ _ Hok _ _ Hi) as Hokj. rewrite (jo_id _ _ Hokj).
  assert (∀ t o n, is_Some (settle t (claimed_of (claim_row (ro_claim r) jobs_lock_seconds j)) o n !! k) ↔ is_Some (n !! k)) as Hs.
  { intros t o n. unfold settle, complete_job, fail_job. destruct o; [| |done]; (destruct (current_row _ _) eqn:Hcur; [|done]);
      apply current_row_Some in Hcur as [Hcur _]; cbn [snd]; rewrite lookup_insert; case_decide; subst; rewrite ?Hcur; done. }
  rewrite Hs, lookup_insert. case_decide; [subst; by rewrite Hi|done].
Qed.
Lemma rounds_drain rs : ∀ t m, 0 ≤ jobs_lock_seconds → all_ready t m → spaced t rs → work m ≤ Z.of_nat (length rs) →
  (∀ k j, foldl round m rs !! k = Some j → finished j) ∧ ∀ k, is_Some (foldl round m rs !! k) ↔ is_Some (m !! k).
Proof.
  induction rs as [|r rs IH]; intros t m Hlock Hm Hsp Hw; cbn [foldl length] in *.
  - split; [|done]. apply work_zero; [lia|]. intros k j Hj. by apply (Hm k j).
  - destruct Hsp as (Ht & Hle & Hsp). destruct (round_progress t m r Hlock Hm Ht Hle) as [Hm' Hw'].
    destruct (IH _ (round m r) Hlock Hm' Hsp ltac:(lia)) as [Hf Hk]. split; [done|]. intros k. rewrite Hk. apply round_keys.
    intros i j Hj. by apply (Hm i j).
Qed.

(** *** From any state of the queue *)

(** A pending job has attempts left. *)
Definition attempts_left (m : Jobs) : Prop := ∀ k j, m !! k = Some j → j_status j = "pending" → j_attempts j < j_max_attempts j.
Lemma fail_exhausted_left t m : attempts_left m → attempts_left (fail_exhausted t m).
Proof.
  intros Hm k j' (j & Hj & _ & _ & _ & [-> |(_ & _ & _ & Hs)])%fail_exhausted_lookup Hp; [by eapply Hm|congruence].
Qed.
Lemma insert_left m k j : attempts_left m → (j_status j = "pending" → j_attempts j < j_max_attempts j) → attempts_left (<[k := j]> m).
Proof. intros Hm Hj i x [[<- <-]|[_ Hx]]%lookup_insert_Some; [done|by eapply Hm]. Qed.
Lemma qstep_left q q' : qstep jobs_lock_seconds jobs_retry_base_seconds jobs_retry_max_seconds q q' →
  queue_ok q → attempts_left (q_jobs q) → attempts_left (q_jobs q').
Proof.
  intros Hs Hq. destruct Hs as [t t' m h l Ht|t m h l i ty p n r k Hi Hn|t m h l c m' Hc|t m h l m' Hc
                               |t m h1 c h2 l m' b Hc|t m h1 c h2 l e m' b Hf|t m h1 c h2 l]; cbn; intros Hl; try done.
  - apply insert_left; [done|]. cbn. lia.
  - apply claim_next_Some in Hc as (k & j & _ & _ & _ & -> & _). apply insert_left; [by apply fail_exhausted_left|done].
  - apply claim_next_None in Hc as [-> _]. by apply fail_exhausted_left.
  - unfold complete_job in Hc. destruct (current_row c m); simplify_eq; [|done]. by apply insert_left.
  - unfold fail_job in Hf. destruct (current_row c m) as [j|] eqn:Hcur; simplify_eq; [|done]. apply insert_left; [done|].
    apply current_row_Some in Hcur as (Hj & _ & Ha). destruct (qo_log _ Hq c) as (j' & Hj' & _ & Hmax); [apply (qo_held _ Hq); cbn; set_solver|].
    cbn in *. simplify_eq. destruct (Z.leb_spec (cj_max_attempts c) (cj_attempts c)); [done|]. lia.
Qed.
Lemma ready_sometime m : (∀ k j, m !! k = Some j → job_ok k j) → attempts_left m → ∃ t, all_ready t m.
Proof.
  induction m as [|k j m Hk IH] using map_ind; intros Hok Hl; [by exists 0|].
  assert (∀ i x, m !! i = Some x → (<[k := j]> m) !! i = Some x) as Hm by (intros i x Hx; rewrite lookup_insert_ne; [done|congruence]).
  destruct IH as [t Ht]; [by eauto|by intros i x Hx; eapply Hl, Hm|].
  exists (Z.max t (Z.max (j_run_at j) (default 0 (j_locked_until j) + 1))). intros i x [[<- <-]|[_ Hx]]%lookup_insert_Some.
  - pose proof (Hok k j (lookup_insert_eq _ _ _)) as Hj. split; [done| |].
    + intros Hp. split; [apply (Hl k j (lookup_insert_eq _ _ _) Hp)|lia].
    + intros Hr. pose proof (jo_locked _ _ Hj Hr). destruct (j_locked_until j) as [u|]; [|done]. exists u. split; [done|cbn; lia].
  - eapply ready_mono; [|by apply Ht]. lia.
Qed.
Lemma reachable_left q : reachable jobs_lock_seconds jobs_retry_base_seconds jobs_retry_max_seconds q → attempts_left (q_jobs q).
Proof.
  intros [t Hr]. remember (MkQueue t ∅ [] []) as q0 eqn:Hq0.
  assert (queue_ok q0) as Hok.
  { apply (reachable_ok jobs_lock_seconds jobs_retry_base_seconds jobs_retry_max_seconds). exists t. subst. apply rtc_refl. }
  assert (attempts_left (q_jobs q0)) as Hl by (by subst). clear Hq0. induction Hr as [|x y z Hxy Hyz IH]; [done|].
  apply IH; [by eapply qstep_ok|by eapply qstep_left].
Qed.

(** C16. Every job ends, whatever the handlers do: from any state the queue can reach there is a time from which, if a worker keeps
    polling (each time after the longest lock and the longest retry delay have passed), after as many polls as there are attempts
    and ends left every job has succeeded or failed for good - though every handler may succeed, raise, or take its worker down with
    it - and no job has been lost. *)
Theorem queue_drains q :
  0 ≤ jobs_lock_seconds → reachable jobs_lock_seconds jobs_retry_base_seconds jobs_retry_max_seconds q →
  ∃ t, ∀ rs, spaced t rs → work (q_jobs q) ≤ Z.of_nat (length rs) →
    (∀ k j, foldl round (q_jobs q) rs !! k = Some j → finished j) ∧
    ∀ k, is_Some (foldl round (q_jobs q) rs !! k) ↔ is_Some (q_jobs q !! k).
Proof.
  intros Hlock Hr. destruct (ready_sometime (q_jobs q)) as [t Ht].
  - apply qo_jobs. by eapply reachable_ok.
  - by apply reachable_left.
  - exists t. intros rs Hsp Hw. by apply (rounds_drain rs t).
Qed.
End liveness.

(** Two attempts are left of one job, which is running and abandoned. *)
Lemma queue_drains_witness : ∃ t, ∀ rs, spaced 300 3600 t rs → 1 ≤ Z.of_nat (length rs) →
  ∀ k j, foldl (round 300 30 3600) {[ 1 := claim_row 400 300 (claim_row 5 300 demo_job) ]} rs !! k = Some j → finished j.
Proof.
  destruct (queue_drains 300 30 3600 _ ltac:(lia) demo_reachable) as [t Ht]. exists t. intros rs Hsp Hlen. refine (proj1 (Ht rs Hsp _)).
  etrans; [|exact Hlen]. vm_compute. done.
Defined.
