(* ===== verification/Returns.v ===== *)
(** * Customer returns and shipments

    [returns/services/return_service.py]: what may be returned, the customer's request, the
    administrator's decision, the receipt of the goods and what ends a return. [shipments/services/
    shipment_service.py] with [shipment_repository.py]: the parcels of an order. The rows are returned
    themselves; the views built from them ([_read], the lists) are not modelled. *)

From S2P Require Import Prelude Decimal Errors Schema Guards Evolution Invoice Repositories Frames Runs Lifecycle LifecycleFrames.

Local Open Scope string_scope.
Local Open Scope list_scope.
Local Open Scope Z_scope.

(** ** Payloads ([schemas/returns.py]) *)

Record ReturnItemCreate := MkReturnLine { rc_order_item_id : Z; rc_quantity : Z; rc_reason : string }.
Record ReturnCreate := MkReturnCreate { rp_items : list ReturnItemCreate; rp_comment : option string }.
Record ReceiveItem := MkReceive { rv_order_item_id : Z; rv_received_quantity : Z; rv_restock : bool; rv_condition_note : option string }.

(** ** What can be returned *)

Definition OPEN : list string := ["requested"; "approved"].

Record EligibilityItem := MkEligibilityItem {
  el_order_item_id : Z; el_product_name : string; el_sku : option string; el_purchased : Z; el_returnable : Z }.
Record EligibilityRead := MkEligibility {
  eg_reason : option ReturnErr; eg_window_days : Z; eg_window_ends_at : option Z; eg_items : list EligibilityItem }.

(** [max(...)] of SQL: nothing over no rows. *)
Definition max_of (l : list Z) : option Z :=
  foldr (λ x acc, Some (match acc with None => x | Some y => Z.max x y end)) None l.

(** [_window_start]: the last delivery, else the last dispatch, else the order. *)
Definition window_start (d : DB) (order : Order) : Z :=
  match max_of (omap sh_delivered_at (rows_where (λ x, String.eqb (sh_order_id x) (o_id order)) (d_shipments d))) with
  | Some delivered => delivered
  | None =>
      let shipped := max_of (map h_created_at (List.filter (λ h, String.eqb (h_order_id h) (o_id order)
                                                                  && bool_decide (h_to_status h = FULFILLED)) (d_history d))) in
      default (o_created_at order) shipped
  end.

(** [_used]: the units of a line in the order's returns that count. *)
Definition used (d : DB) (order_id : uuid) (item : Z) : Z :=
  sum_rows (λ x, if (ri_order_item_id x =? item)
                    && match d_returns d !! ri_return_id x with
                       | Some r => String.eqb (rt_order_id r) order_id && bool_decide (rt_status r ∈ COUNTED)
                       | None => false
                       end
                 then ri_quantity x else 0) (d_return_items d).

Section returns.
Context `{!Settings} `{!Providers}.

Definition eligibility_of (d : DB) (t : Z) (order : Order) : EligibilityRead :=
  let window := return_window_days in
  let items := map (λ i, MkEligibilityItem (oi_id i) (oi_product_name_snapshot i) (oi_sku_snapshot i) (oi_quantity i)
                           (Z.max (oi_quantity i - used d (o_id order) (oi_id i)) 0)) (items_of d (o_id order)) in
  if window =? 0 then MkEligibility (Some ReturnsDisabledError) window None items
  else if negb (bool_decide (o_status order = FULFILLED)) then MkEligibility (Some OrderNotShippedError) window None items
  else
    let ends := window_start d order + window * 86400 in
    let reason := if ends <? t then Some (ReturnWindowClosedError window)
                  else if negb (existsb (λ i, negb (el_returnable i =? 0)) items) then Some NothingReturnableError
                  else None in
    MkEligibility reason window (Some ends) items.
Definition eligibility (order : Order) : M EligibilityRead := gets (λ s, eligibility_of (st_db s) (st_now s) order).

Definition order_eligibility (user order_id : uuid) : M EligibilityRead :=
  found ← get_order_by_id order_id;
  match found with
  | Some o => _ ← raise_if (negb (opt_eqb (o_user_id o) (Some user))) (EOrder (OrderNotFoundError order_id)); eligibility o
  | None => raise (EOrder (OrderNotFoundError order_id))
  end.

Definition return_log (actor : uuid) (action : string) (ret : ReturnRequest) (details : list (string * json)) : M unit :=
  audit_log (Some actor) ("return." +:+ action) "return" (Some (rt_id ret)) (JObj (("order_id", JStr (rt_order_id ret)) :: details)).

(** [_get]; [ret.items] *)
Definition get_return (return_id : uuid) : M ReturnRequest :=
  found ← db_gets (λ d, d_returns d !! return_id);
  of_option found (EReturn ReturnNotFoundError).
Definition return_items (d : DB) (return_id : uuid) : list ReturnRequestItem :=
  order_by ri_id (rows_where (λ x, String.eqb (ri_return_id x) return_id) (d_return_items d)).

(** ** The customer *)

Definition add_return_item (return_id : uuid) (line : ReturnItemCreate) : M unit :=
  i ← new_id;
  insert_return_item (MkReturnItem i return_id (rc_order_item_id line) (rc_quantity line) (rc_reason line) None false 0 None).

(** The requested lines against what is returnable. *)
Definition check_line (items : list EligibilityItem) (line : ReturnItemCreate) : M unit :=
  match first_with (λ i, el_order_item_id i =? rc_order_item_id line) items with
  | None => raise (EReturn (ReturnItemInvalidError "One of the items is not part of this order"))
  | Some i => raise_if (el_returnable i <? rc_quantity line) (EReturn (ReturnQuantityExceededError (el_returnable i)))
  end.

Definition create_return (user order_id : uuid) (payload : ReturnCreate) : M ReturnRequest :=
  order ← _lock_order order_id;
  _ ← raise_if (negb (opt_eqb (o_user_id order) (Some user))) (EOrder (OrderNotFoundError order_id));
  state ← eligibility order;
  _ ← match eg_reason state with
      | None => mret tt
      | Some ReturnsDisabledError => raise (EReturn ReturnsDisabledError)
      | Some OrderNotShippedError => raise (EReturn OrderNotShippedError)
      | Some NothingReturnableError => raise (EReturn NothingReturnableError)
      | Some _ => raise (EReturn (ReturnWindowClosedError (eg_window_days state)))
      end;
  _ ← for_each (rp_items payload) (check_line (eg_items state));
  rid ← new_uuid;
  t ← now;
  let ret := MkReturn rid (o_id order) user "requested" (rp_comment payload) None None None None None t None None None None in
  _ ← insert_return ret;
  _ ← for_each (rp_items payload) (add_return_item rid);
  _ ← return_log user "requested" ret [("items", JInt (Z.of_nat (length (rp_items payload))))];
  mret ret.

Definition cancel_return (user return_id : uuid) : M ReturnRequest :=
  ret ← get_return return_id;
  _ ← raise_if (negb (String.eqb (rt_user_id ret) user)) (EReturn ReturnNotFoundError);
  _ ← raise_if (negb (bool_decide (rt_status ret ∈ OPEN))) (EReturn (ReturnStateError (rt_status ret) "cancelled"));
  t ← now;
  ret ← update_return return_id (λ r, r <| rt_status := "cancelled" |> <| rt_closed_at := Some t |>);
  _ ← return_log user "cancelled" ret [];
  mret ret.

(** ** The administrator *)

Definition approve_return (return_id admin : uuid) (note : option string) : M ReturnRequest :=
  ret ← get_return return_id;
  _ ← raise_if (negb (String.eqb (rt_status ret) "requested")) (EReturn (ReturnStateError (rt_status ret) "approved"));
  t ← now;
  ret ← update_return return_id (λ r, r <| rt_status := "approved" |> <| rt_decided_at := Some t |> <| rt_admin_note := note |>
                                        <| rt_handled_by_user_id := Some admin |>);
  _ ← return_log admin "approved" ret [];
  mret ret.

Definition reject_return (return_id admin : uuid) (reason : string) : M ReturnRequest :=
  ret ← get_return return_id;
  _ ← raise_if (negb (String.eqb (rt_status ret) "requested")) (EReturn (ReturnStateError (rt_status ret) "rejected"));
  t ← now;
  ret ← update_return return_id (λ r, r <| rt_status := "rejected" |> <| rt_decided_at := Some t |> <| rt_rejection_reason := Some reason |>
                                        <| rt_handled_by_user_id := Some admin |>);
  _ ← return_log admin "rejected" ret [("reason", JStr reason)];
  mret ret.

Definition check_receipt (items : list ReturnRequestItem) (entry : ReceiveItem) : M unit :=
  match first_with (λ i, ri_order_item_id i =? rv_order_item_id entry) items with
  | None => raise (RuntimeError "KeyError")
  | Some item =>
      _ ← raise_if (ri_quantity item <? rv_received_quantity entry)
            (EReturn (ReturnReceiptInvalidError "More units arrived than were requested: ask for a new return instead"));
      raise_if (rv_restock entry && (rv_received_quantity entry =? 0))
        (EReturn (ReturnReceiptInvalidError "There is nothing to put back in stock for a line where nothing arrived"))
  end.
Definition record_receipt (items : list ReturnRequestItem) (entry : ReceiveItem) : M unit :=
  match first_with (λ i, ri_order_item_id i =? rv_order_item_id entry) items with
  | None => raise (RuntimeError "KeyError")
  | Some item => update_return_item (ri_id item) (λ i, i <| ri_received_quantity := Some (rv_received_quantity entry) |>
                   <| ri_restock := rv_restock entry |> <| ri_condition_note := rv_condition_note entry |>)
  end.

Definition received_of (i : ReturnRequestItem) : Z := default 0 (ri_received_quantity i).
(** [lines[i.order_item_id]] *)
Definition line_of (lines : list OrderItem) (item : Z) : M OrderItem :=
  of_option (first_with (λ l, oi_id l =? item) lines) (RuntimeError "KeyError").

(** One line of the loop that puts units back. *)
Definition return_delta (lines : list OrderItem) (locked : gmap Z Product) (locked_variants : gmap Z ProductVariant) (recorded : gset Z)
    (acc : gmap Z Z * gmap Z Z) (i : ReturnRequestItem) : M (gmap Z Z * gmap Z Z) :=
  if negb (bool_decide (ri_order_item_id i ∈ recorded)) then mret acc
  else
    line ← line_of lines (ri_order_item_id i);
    _ ← update_return_item (ri_id i) (λ x, x <| ri_restocked_quantity := received_of i |>);
    let '(stock_back, variant_back) := acc in
    mret (match oi_variant_id line with
          | Some v => if bool_decide (is_Some (locked_variants !! v)) then (stock_back, bump v (received_of i) variant_back) else acc
          | None => if bool_decide (is_Some (locked !! oi_product_id line))
                    then (bump (oi_product_id line) (received_of i) stock_back, variant_back) else acc
          end).

Definition restock_return (order : Order) (ret : ReturnRequest) (lines : list OrderItem) (admin : uuid) : M unit :=
  items ← db_gets (λ d, return_items d (rt_id ret));
  let todo := List.filter (λ i, ri_restock i && (0 <? received_of i)) items in
  if (length todo =? 0)%nat then mret tt
  else
    todo_lines ← fold_m (λ acc i, l ← line_of lines (ri_order_item_id i); mret (acc ++ [l])) [] todo;
    locked ← get_many_for_update (map oi_product_id todo_lines);
    locked_variants ← get_variants_for_update (omap oi_variant_id todo_lines);
    recorded ← catch_integrity
                 (record_restock_events (map (λ i, (ri_order_item_id i, "return:" +:+ rt_id ret, received_of i)) todo))
                 (raise (EReturn (ReturnReceiptInvalidError "That would put back more units than the order contained")));
    deltas ← fold_m (return_delta lines locked locked_variants recorded) (∅, ∅) todo;
    let '(stock_back, variant_back) := deltas in
    stock_change "restock" (Some admin) (Some ("customer return " +:+ rt_id ret)) (Some (o_id order))
      (_ ← adjust_stock_many locked stock_back;
       if bool_decide (variant_back = ∅) then mret tt else adjust_variant_stock_many locked_variants variant_back).

Definition receive_return (return_id admin : uuid) (payload : list ReceiveItem) : M ReturnRequest :=
  ret ← get_return return_id;
  _ ← raise_if (negb (String.eqb (rt_status ret) "approved")) (EReturn (ReturnStateError (rt_status ret) "marked as received"));
  items ← db_gets (λ d, return_items d return_id);
  let given := map rv_order_item_id payload in
  _ ← raise_if (negb (bool_decide (NoDup given))
                || negb (bool_decide (list_to_set given =@{gset Z} list_to_set (map ri_order_item_id items))))
        (EReturn (ReturnReceiptInvalidError "Say what arrived for every line of the return, once each"));
  _ ← for_each payload (check_receipt items);
  order ← _lock_order (rt_order_id ret);
  lines ← db_gets (λ d, items_of d (o_id order));
  _ ← for_each payload (record_receipt items);
  _ ← restock_return order ret lines admin;
  t ← now;
  ret ← update_return return_id (λ r, r <| rt_status := "received" |> <| rt_received_at := Some t |> <| rt_handled_by_user_id := Some admin |>);
  restocked ← db_gets (λ d, sumZ (map ri_restocked_quantity (return_items d return_id)));
  _ ← return_log admin "received" ret [("restocked", JInt restocked)];
  mret ret.

(** The units of a line that came back, over the returns of the order that were received or closed. *)
Definition back_of (d : DB) (order_id : uuid) (item : Z) : Z :=
  sum_rows (λ x, if (ri_order_item_id x =? item)
                    && match d_returns d !! ri_return_id x with
                       | Some r => String.eqb (rt_order_id r) order_id && bool_decide (rt_status r ∈ ["received"; "closed"])
                       | None => false
                       end
                 then received_of x else 0) (d_return_items d).

Definition refund_return (return_id admin : uuid) : M ReturnRequest :=
  ret ← get_return return_id;
  _ ← raise_if (negb (String.eqb (rt_status ret) "received")) (EReturn (ReturnStateError (rt_status ret) "refunded"));
  order ← _lock_order (rt_order_id ret);
  d ← gets st_db;
  _ ← raise_if (existsb (λ i, back_of d (o_id order) (oi_id i) <? oi_quantity i) (items_of d (o_id order))) (EReturn ReturnNotFullError);
  created ← request_refund (o_id order) admin None false;
  t ← now;
  ret ← update_return return_id (λ r, r <| rt_status := "closed" |> <| rt_resolution := Some "refunded" |>
          <| rt_refund_id := Some (r_id created.1) |> <| rt_closed_at := Some t |> <| rt_handled_by_user_id := Some admin |>);
  _ ← return_log admin "refund_requested" ret [("refund_id", JStr (r_id created.1))];
  mret ret.

Definition close_return (return_id admin : uuid) (resolution note : string) : M ReturnRequest :=
  ret ← get_return return_id;
  _ ← raise_if (negb (bool_decide (rt_status ret ∈ ["approved"; "received"]))) (EReturn (ReturnStateError (rt_status ret) "closed"));
  t ← now;
  ret ← update_return return_id (λ r, r <| rt_status := "closed" |> <| rt_resolution := Some resolution |> <| rt_resolution_note := Some note |>
          <| rt_closed_at := Some t |> <| rt_handled_by_user_id := Some admin |>);
  _ ← return_log admin "closed" ret [("resolution", JStr resolution)];
  mret ret.
End returns.

(** ** Every operation keeps the tables sound

    An UPDATE of a return moves it along its life because the method looked at the row first, under a lock, and
    nothing it did since touched it: [guar_at P m] is [guar step m] from the states in [P]. *)

Definition guar_at {A} (P : St → Prop) (m : M A) : Prop := ∀ s, sound s → P s → step s (m s).2.
Lemma guar_at_bind {A B} P Q (m : M A) (f : A → M B) :
  guar_at P m → (∀ s a s1, sound s → P s → m s = (inr a, s1) → Q a s1) → (∀ a, guar_at (Q a) (f a)) → guar_at P (m ≫= f).
Proof.
  intros Hm HQ Hf s Hs HP. specialize (Hm s Hs HP). specialize (HQ s). unfold mbind, ST_bind. destruct (m s) as [[e|a] s1]; [done|].
  etrans; [exact Hm|]. cbn in *. intros Hs1. by apply (Hf a); [|apply (HQ a s1)|].
Qed.
Lemma guar_at_all {A} P (m : M A) : guar step m → guar_at P m.
Proof. intros Hm s _ _. apply Hm. Qed.

Lemma guar_at_true {A} (m : M A) : guar_at (λ _, True) m → guar step m.
Proof. intros Hm s Hs. by apply (Hm s). Qed.

(** The return is as it was read. *)
Definition held (rid : uuid) (ret : ReturnRequest) (s : St) : Prop := d_returns (st_db s) !! rid = Some ret.

(** Every table but [return_requests]. *)
Definition other_tables : list Table :=
  [TOrders; TItems; TRestocks; THistory; TProducts; TVariants; TOptions; TMovements; TCarts; TCartItems; TPayments; TRefunds;
   TReconciliations; TDisputes; TEvents; TDeferred; TAudit; TJobs; TCoupons; TAddresses; TUsers; TProfile; TInvoices; TSequences;
   TStoreCurrency; TClassifications; TRules; TRegistrations; TTaxSettings; TConfigs; TPaymentSettings; TReturnItems; TShipments].

Section held.
Context {A B : Type} (rid : uuid).

Lemma held_frame ret (m : M A) (f : A → M B) :
  guar step m → guar (only other_tables) m → (∀ a, guar_at (held rid ret) (f a)) → guar_at (held rid ret) (m ≫= f).
Proof.
  intros Hm Hts Hf. apply guar_at_bind with (Q := λ _, held rid ret); [by apply guar_at_all| |done].
  intros s a s1 _ Hh Hr. pose proof (frame_run _ _ _ _ _ Hts Hr) as F. 
  pose proof (only_table TReturns _ _ _ F eq_refl) as T. cbn [table] in T. unfold held. by rewrite T.
Qed.
Lemma held_if ret b e (f : unit → M B) : (b = false → guar_at (held rid ret) (f tt)) → guar_at (held rid ret) (raise_if b e ≫= f).
Proof. intros Hf s Hs Hh. destruct b; [reflexivity|by apply Hf]. Qed.
Lemma held_update ret g (f : ReturnRequest → M B) :
  return_ext ret (g ret) → (∀ a, guar step (f a)) → guar_at (held rid ret) (update_return rid g ≫= f).
Proof.
  intros Hg Hf s Hs Hh. unfold mbind, ST_bind.
  assert (step s (update_return rid g s).2) as Hst.
  { apply step_update_return. intros old Hold. unfold held in Hh. by simplify_eq. }
  destruct (update_return rid g s) as [[e|a] s1]; cbn in *; [done|]. etrans; [done|apply Hf].
Qed.
Lemma held_get (f : ReturnRequest → M B) : (∀ ret, guar_at (held rid ret) (f ret)) → guar step (get_return rid ≫= f).
Proof.
  intros Hf s Hs. unfold get_return, db_gets, gets, of_option, mbind, ST_bind; cbn.
  destruct (d_returns (st_db s) !! rid) as [ret|] eqn:Hr; cbn; [|by split]. by apply (Hf ret s).
Qed.
End held.

(** A step along the life of a return. *)
Lemma return_moves r r' :
  return_step (rt_status r) (rt_status r') → return_facts r' = return_facts r → return_ext r r'.
Proof.
  intros Hst Hf. split; [done|]. split; [by apply rtc_once|]. intros Hn. unfold return_step in Hst. rewrite Hn in Hst. by apply elem_of_nil in Hst.
Qed.

Section sound.
Context `{!Settings} `{!Providers}.

Lemma only_return_log a b c d : guar (only [TAudit]) (return_log a b c d).
Proof. unfold return_log. solve_frame. Qed.
Lemma guar_return_log a b c d : guar step (return_log a b c d).
Proof. unfold return_log. solve_guar. Qed.
#[local] Hint Resolve only_return_log : frame.
#[local] Hint Resolve guar_return_log : guar.
Lemma guar_locked_order o : guar step (_lock_order o).
Proof. unfold _lock_order. solve_guar. Qed.
#[local] Hint Resolve guar_locked_order : guar.

Lemma guar_check_receipt l e : guar step (check_receipt l e).
Proof. unfold check_receipt. solve_guar. Qed.
Lemma only_check_receipt l e : guar (only []) (check_receipt l e).
Proof. unfold check_receipt. solve_frame. Qed.
Lemma guar_record_receipt l e : guar step (record_receipt l e).
Proof. unfold record_receipt. solve_guar. Qed.
Lemma only_record_receipt l e : guar (only [TReturnItems]) (record_receipt l e).
Proof. unfold record_receipt. solve_frame. Qed.
Lemma guar_return_delta a b c d e f : guar step (return_delta a b c d e f).
Proof. unfold return_delta, line_of. solve_guar. Qed.
Lemma only_return_delta a b c d e f : guar (only [TReturnItems]) (return_delta a b c d e f).
Proof. unfold return_delta, line_of. solve_frame. Qed.
#[local] Hint Resolve guar_check_receipt guar_record_receipt guar_return_delta : guar.
#[local] Hint Resolve only_check_receipt only_record_receipt only_return_delta : frame.
Lemma guar_restock_return o r l a : guar step (restock_return o r l a).
Proof. unfold restock_return, line_of. solve_guar. Qed.
Lemma only_restock_return o r l a :
  guar (only [TReturnItems; TItems; TRestocks; TProducts; TVariants; TMovements]) (restock_return o r l a).
Proof.
  unfold restock_return, line_of; cbv zeta. repeat first [guar_step | apply only_stock_change | apply only_caught | solve [frame_leaf]].
Qed.
#[local] Hint Resolve guar_restock_return : guar.
#[local] Hint Resolve only_restock_return : frame.

(** The steps of a method that holds a return. *)
Ltac holding :=
  repeat lazymatch goal with
  | |- guar_at _ (raise_if _ _ ≫= _) => apply held_if; intros ?
  | |- guar_at _ (update_return _ _ ≫= _) => apply held_update; [|intros ?; solve_guar]
  | |- guar_at _ (_ ≫= _) => apply held_frame; [solve [solve_guar]|solve [solve_frame]|intros ?]
  end.
(** A step allowed by the status the method looked at. *)
Ltac moves :=
  apply return_moves; [|reflexivity]; cbn; unfold return_step, OPEN in *;
  repeat match goal with
  | Heq : negb (String.eqb (rt_status _) _) = false |- _ => apply negb_false_iff, String.eqb_eq in Heq; rewrite Heq
  | Heq : negb (bool_decide (rt_status _ ∈ _)) = false |- _ => apply negb_false_iff, bool_decide_eq_true in Heq
  | Heq : rt_status _ ∈ [_] |- _ => apply list_elem_of_singleton in Heq; rewrite Heq
  | Heq : rt_status _ ∈ _ :: _ |- _ => apply elem_of_cons in Heq as [Heq|Heq]; [rewrite Heq|]
  end; vm_compute; set_solver.

(** *** A new return *)

(** In an order's lines, the returns of the order are all there are. *)
Lemma used_returned d oid k i : Inv d → d_items d !! k = Some i → oi_order_id i = oid → used d oid k = returned_of d k.
Proof.
  intros HI Hi Ho. unfold used, returned_of, sum_rows. apply sum_kv_ext. intros j x Hx. unfold counted.
  destruct (Z.eqb_spec (ri_order_item_id x) k) as [Heq|]; [|done]. cbn [andb].
  destruct (inv_return_lines _ HI _ _ Hx) as (r & i' & Hr & Hi' & Ho'). rewrite Hr.
  assert (i' = i) as -> by congruence. rewrite (proj2 (String.eqb_eq (rt_order_id r) oid)) by congruence. done.
Qed.

Definition on_line (rid : uuid) (k : Z) (d : DB) : bool :=
  exists_row (λ y, String.eqb (ri_return_id y) rid && (ri_order_item_id y =? k)) (d_return_items d).
(** The return is there, and each of the lines still to be added fits what its order line has left (or is there already). *)
Definition fits (rid oid : uuid) (lines : list ReturnItemCreate) (s : St) : Prop :=
  (∃ r, d_returns (st_db s) !! rid = Some r ∧ rt_order_id r = oid) ∧
  ∀ l, l ∈ lines → ∃ i, d_items (st_db s) !! rc_order_item_id l = Some i ∧ oi_order_id i = oid ∧
    (on_line rid (rc_order_item_id l) (st_db s) = true ∨ returned_of (st_db s) (rc_order_item_id l) + rc_quantity l ≤ oi_quantity i).

Lemma insert_return_item_inr x u s s' :
  insert_return_item x s = (inr u, s') →
  d_return_items (st_db s) !! ri_id x = None ∧ s' = set_db (λ d, d <| d_return_items ::= <[ri_id x := x]> |>) s.
Proof.
  unfold insert_return_item. intros Hrun. runs. split; [|done]. guards_passed Hp.
  by apply Forall_inv, eq_sym, check_None, bool_decide_eq_true in Hp.
Qed.
Lemma on_line_push rid k d x :
  d_return_items d !! ri_id x = None → on_line rid k d = true → on_line rid k (d <| d_return_items ::= <[ri_id x := x]> |>) = true.
Proof.
  intros Hx (j & y & Hy & Hp)%exists_row_true. apply exists_row_true. exists j, y. cbn. rewrite lookup_insert_ne; [done|congruence].
Qed.

Lemma guar_add_return_items rid oid lines : guar_at (fits rid oid lines) (for_each lines (add_return_item rid)).
Proof.
  induction lines as [|l lines IH]; [apply guar_at_all, guar_ret, _|]. cbn [for_each].
  apply guar_at_bind with (Q := λ _, fits rid oid lines); [| |by intros []].
  - intros s Hs [(r & Hr & Ho) Hl]. unfold add_return_item. unfold new_id, mbind, ST_bind; cbn.
    destruct (Hl l) as (i & Hi & Hio & Hfit); [left|]. etrans; [by apply (guar_other (λ s, s <| st_next_id := st_next_id s + 1 |>))|].
    apply step_insert_return_item; cbn.
    + intros r' i' Hr' Hi'. simplify_eq. congruence.
    + intros i' Hi' Hno. simplify_eq. destruct Hfit as [Hon|]; [|done]. unfold on_line in Hon. congruence.
  - intros s [] s1 Hs [(r & Hr & Ho) Hl] Hrun. unfold add_return_item in Hrun. apply bind_inr in Hrun as (k & s2 & Hk & Hrun).
    apply new_id_inr in Hk as [-> ->]. apply insert_return_item_inr in Hrun as [Hnew ->]. cbn in Hnew. unfold fits. rewrite db_set; cbn.
    split; [eauto|]. intros l' Hl'. destruct (Hl l') as (i & Hi & Hio & Hfit); [by right|]. exists i. split_and!; [done..|].
    destruct Hfit as [Hon|Hfit]; [left; by apply (on_line_push _ _ _ (MkReturnItem _ _ _ _ _ _ _ _ _))|].
    destruct (decide (rc_order_item_id l = rc_order_item_id l')) as [Heq|Hne].
    + left. apply exists_row_true. eexists _, _. cbn. rewrite lookup_insert_eq. split; [done|]. cbn. by rewrite String.eqb_refl, Heq, Z.eqb_refl.
    + right. pose proof (returned_push (st_db s) (MkReturnItem (st_next_id s) rid (rc_order_item_id l) (rc_quantity l) (rc_reason l) None false 0 None)
        (rc_order_item_id l') Hnew) as Hpush. cbn in Hpush. rewrite (proj2 (Z.eqb_neq _ _)) in Hpush by done. cbn in Hpush. cbn. by rewrite Hpush.
Qed.

(** The lines a request may have: of the order, within what is returnable. *)
Definition returnable_line (d : DB) (oid : uuid) (l : ReturnItemCreate) : Prop :=
  ∃ i, d_items d !! rc_order_item_id l = Some i ∧ oi_order_id i = oid ∧ returned_of d (rc_order_item_id l) + rc_quantity l ≤ oi_quantity i.

Lemma check_lines_inr items lines : ∀ u s s',
  for_each lines (check_line items) s = (inr u, s') →
  s' = s ∧ ∀ l, l ∈ lines → ∃ i, i ∈ items ∧ el_order_item_id i = rc_order_item_id l ∧ rc_quantity l ≤ el_returnable i.
Proof.
  induction lines as [|l lines IH]; intros u s s'; cbn [for_each].
  - intros [_ ->]%ret_inr. split; [done|]. by intros l ?%elem_of_nil.
  - intros Hrun. apply bind_inr in Hrun as ([] & s1 & Hl & Hrun). unfold check_line in Hl.
    destruct (first_with _ items) as [i|] eqn:Hi; [|done]. apply raise_if_inr in Hl as [Hq%Z.ltb_ge ->].
    apply IH in Hrun as [-> Hall]. split; [done|]. intros l' [->|Hl']%elem_of_cons; [|by apply Hall].
    unfold first_with in Hi. apply find_some in Hi as [Hin Heq%Z.eqb_eq]. exists i. split; [by apply list_elem_of_In|done].
Qed.
Lemma eligible_line d t o l i :
  Inv d → i ∈ eg_items (eligibility_of d t o) → el_order_item_id i = rc_order_item_id l → rc_quantity l ≤ el_returnable i →
  returnable_line d (o_id o) l.
Proof.
  intros HI Hi Hid Hq. assert (∃ x, x ∈ items_of d (o_id o) ∧ el_order_item_id i = oi_id x ∧
    el_returnable i = Z.max (oi_quantity x - used d (o_id o) (oi_id x)) 0) as (x & Hx & Ei & Er).
  { unfold eligibility_of in Hi; cbv zeta in Hi. repeat case_match; cbn in Hi; apply list_elem_of_fmap in Hi as (x & -> & Hx); eauto. }
  apply items_of_elem in Hx as [[k Hk] Ho]. pose proof (inv_item_keys _ HI _ _ Hk) as Hkey.
  exists x. rewrite <-Hid, Ei, Hkey. split_and!; [done..|].
  pose proof (inv_returned _ HI _ _ Hk). rewrite (used_returned d (o_id o) (oi_id x) x), Hkey in Er; [|done|by rewrite Hkey|done]. lia.
Qed.

Definition all_returnable (oid : uuid) (lines : list ReturnItemCreate) (s : St) : Prop :=
  ∀ l, l ∈ lines → returnable_line (st_db s) oid l.
Lemma insert_return_fits r lines u s s' :
  insert_return r s = (inr u, s') → Inv (st_db s) → all_returnable (rt_order_id r) lines s → fits (rt_id r) (rt_order_id r) lines s'.
Proof.
  intros Hrun HI Hall. unfold insert_return in Hrun. runs. unfold fits. rewrite db_set; cbn. split; [exists r; by rewrite lookup_insert_eq|].
  intros l Hl. destruct (Hall l Hl) as (i & Hi & Hio & Hq). exists i. split_and!; [done..|]. right. guards_passed Hp.
  apply Forall_inv, eq_sym, check_None, bool_decide_eq_true in Hp. by rewrite (returned_new (st_db s) r _ HI Hp).
Qed.

Lemma guar_create_return u o p : guar step (create_return u o p).
Proof.
  unfold create_return. apply guar_bind; [apply _|apply guar_locked_order|]. intros order. apply guar_bind; [apply _|auto with guar typeclass_instances|]. intros _.
  apply guar_at_true. apply guar_at_bind with (Q := λ state s, state = eligibility_of (st_db s) (st_now s) order).
  { apply guar_at_all, guar_gets, _. }
  { intros s a s1 _ _ Hrun. by apply gets_inr in Hrun as [-> ->]. }
  intros state. apply guar_at_bind with (Q := λ _ s, state = eligibility_of (st_db s) (st_now s) order).
  { apply guar_at_all. repeat case_match; auto with guar typeclass_instances. }
  { intros s a s1 _ He Hrun. repeat case_match; (done || by apply ret_inr in Hrun as [_ ->]). }
  intros _. apply guar_at_bind with (Q := λ _, all_returnable (o_id order) (rp_items p)).
  { apply guar_at_all. unfold check_line. solve_guar. }
  { intros s a s1 (_ & _ & HI) He Hrun. apply check_lines_inr in Hrun as [-> Hall]. intros l Hl.
    destruct (Hall l Hl) as (i & Hi & Hid & Hq). rewrite He in Hi. by eapply eligible_line. }
  intros _. apply guar_at_bind with (Q := λ _, all_returnable (o_id order) (rp_items p)); [apply guar_at_all, guar_new_uuid| |].
  { intros s a s1 _ Hall Hrun. by apply new_uuid_inr in Hrun as [_ ->]. }
  intros rid. apply guar_at_bind with (Q := λ _, all_returnable (o_id order) (rp_items p)); [apply guar_at_all, guar_now| |].
  { intros s a s1 _ Hall Hrun. by apply now_inr in Hrun as [_ ->]. }
  intros t. cbv zeta. apply guar_at_bind with (Q := λ _, fits rid (o_id order) (rp_items p)); [apply guar_at_all, guar_insert_return| |].
  { intros s a s1 (_ & _ & HI) Hall Hrun. by apply (insert_return_fits _ (rp_items p)) in Hrun. }
  intros _. apply guar_at_bind with (Q := λ _ _, True); [apply guar_add_return_items|done|].
  intros _. apply guar_at_all. solve_guar.
Qed.

Lemma guar_cancel_return u i : guar step (cancel_return u i).
Proof. apply held_get. intros ret. holding. moves. Qed.
Lemma guar_approve_return i a n : guar step (approve_return i a n).
Proof. apply held_get. intros ret. holding. moves. Qed.
Lemma guar_reject_return i a n : guar step (reject_return i a n).
Proof. apply held_get. intros ret. holding. moves. Qed.
Lemma guar_close_return i a r n : guar step (close_return i a r n).
Proof. apply held_get. intros ret. holding. moves. Qed.
Lemma guar_refund_return i a : guar step (refund_return i a).
Proof. apply held_get. intros ret. holding. moves. Qed.
Lemma guar_receive_return i a l : guar step (receive_return i a l).
Proof. apply held_get. intros ret. cbv zeta. holding. cbv zeta. holding. moves. Qed.

End sound.
#[export] Hint Resolve guar_create_return guar_cancel_return guar_approve_return guar_reject_return guar_close_return guar_refund_return
  guar_receive_return : guar.
