(* ===== verification/Shipments.v ===== *)
(** * Shipments: the parcels of an order

    [shipments/services/shipment_service.py] with [shipment_repository.py], and the checks of what an
    administrator types about a parcel ([validation.py]: the carrier and the tracking number; the tracking
    link is checked with a URL parser and is not modelled). *)

From S2P Require Import Prelude Decimal Errors Schema Guards Evolution Invoice Repositories Frames Runs Lifecycle.

Local Open Scope string_scope.
Local Open Scope list_scope.
Local Open Scope Z_scope.

(** ** [validation.py] *)

Definition is_control (c : Ascii.ascii) : bool := let n := Ascii.nat_of_ascii c in ((n <? 32) || (n =? 127))%nat.
Definition is_alnum (c : Ascii.ascii) : bool :=
  let n := Ascii.nat_of_ascii c in ((48 <=? n) && (n <=? 57) || (65 <=? n) && (n <=? 90) || (97 <=? n) && (n <=? 122))%nat.
Definition one_of (chars : string) (c : Ascii.ascii) : bool := existsb (Ascii.eqb c) (String.list_ascii_of_string chars).
Definition chars (s : string) : list Ascii.ascii := String.list_ascii_of_string s.

(** [re.sub(r"\s+", " ", value)]: every run of spaces becomes one blank. *)
Fixpoint collapse (in_run : bool) (s : string) : string :=
  match s with
  | EmptyString => EmptyString
  | String c r =>
      if is_space c then (if in_run then collapse true r else String " "%char (collapse true r))
      else String c (collapse false r)
  end.

(** [^[A-Za-z0-9]<set>{lo,hi}$] *)
Definition name_like (extra : string) (lo hi : nat) (s : string) : bool :=
  match chars s with
  | c :: r => is_alnum c && forallb (λ x, is_alnum x || one_of extra x) r && (lo <=? length r)%nat && (length r <=? hi)%nat
  | [] => false
  end.

Definition carrier_name (value : string) : Err + string :=
  let cleaned := py_strip (collapse false value) in
  if existsb is_control (chars value) || negb (name_like " .&'()/-" 1 59 cleaned)
  then inl (ValueError "Carrier name must be 2-60 characters: letters, digits, spaces and . & ' ( ) / -")
  else inr cleaned.
Definition tracking_number (value : string) : Err + string :=
  let cleaned := py_strip value in
  if negb (name_like "._/-" 2 63 cleaned)
  then inl (ValueError "Tracking number must be 3-64 characters: letters, digits and . _ / - (no spaces)")
  else inr cleaned.

Example carrier_tidied : carrier_name "  Blue   Dart " = inr "Blue Dart".
Proof. vm_compute. reflexivity. Qed.
Example tracking_refused : tracking_number "AB 12" = inl (ValueError "Tracking number must be 3-64 characters: letters, digits and . _ / - (no spaces)").
Proof. vm_compute. reflexivity. Qed.

(** ** The service *)

(** Payloads ([schemas/shipment.py]); in an update, the fields that were sent. *)
Record ShipmentCreate := MkShipmentCreate {
  sc_carrier_name : string; sc_tracking_number : option string; sc_tracking_url : option string; sc_fulfill_order : bool }.
Record ShipmentUpdate := MkShipmentUpdate {
  su_carrier_name : option string; su_tracking_number : option (option string); su_tracking_url : option (option string);
  su_status : option (option string) }.

Definition SHIPPABLE : list OrderStatus := [PAID; FULFILLED].

(** [ShipmentRepository]: a violated constraint of the block is reported as a repeated tracking number. *)
Definition get_shipment (order_id shipment_id : uuid) : M (option OrderShipment) :=
  db_gets (λ d, match d_shipments d !! shipment_id with
                | Some x => if String.eqb (sh_order_id x) order_id then Some x else None
                | None => None
                end).
Definition add_shipment (x : OrderShipment) : M OrderShipment :=
  catch_integrity (_ ← savepoint (insert_shipment x); mret x) (raise (EShipment DuplicateTrackingError)).
Definition save_shipment (sid : uuid) (f : OrderShipment → OrderShipment) : M OrderShipment :=
  catch_integrity (savepoint (update_shipment_row sid f)) (raise (EShipment DuplicateTrackingError)).

(** [bool(text)] *)
Definition j_text (o : option string) : json := JBool (match truthy o with Some _ => true | None => false end).

Definition create_shipment (order_id : uuid) (payload : ShipmentCreate) (admin : uuid) : M OrderShipment :=
  order ← _lock_order order_id;
  _ ← raise_if (negb (bool_decide (o_status order ∈ SHIPPABLE))) (EShipment (OrderNotShippableError (order_status_value (o_status order))));
  sid ← new_uuid;
  t ← now;
  shipment ← add_shipment (MkShipment sid (o_id order) (sc_carrier_name payload) (sc_tracking_number payload) (sc_tracking_url payload)
                             "shipped" t None (Some admin));
  fulfilled ← (if sc_fulfill_order payload && bool_decide (o_status order = PAID) then
                 _ ← raise_if (negb (bool_decide (FULFILLED ∈ ALLOWED_TRANSITIONS (o_status order))))
                       (EOrder (InvalidStatusTransitionError (order_status_value (o_status order)) (order_status_value FULFILLED)));
                 order ← update_status order FULFILLED (Some admin) None;
                 _ ← issue_invoice order false;
                 mret true
               else mret false);
  _ ← audit_log (Some admin) "shipment.created" "order" (Some (o_id order))
        (JObj [("shipment_id", JStr (sh_id shipment)); ("carrier", JStr (sc_carrier_name payload));
               ("has_tracking_number", j_text (sc_tracking_number payload)); ("has_tracking_url", j_text (sc_tracking_url payload));
               ("order_fulfilled", JBool fulfilled)]);
  mret shipment.

(** The change of status an update asks for. *)
Definition shipment_status_change (payload : ShipmentUpdate) (x : OrderShipment) : bool :=
  match su_status payload with Some (Some st) => negb (String.eqb st (sh_status x)) | _ => false end.
Definition sent_fields (p : ShipmentUpdate) : list string :=
  let sent {A} (o : option A) n := match o with Some _ => [n] | None => [] end in
  sort_str (sent (su_carrier_name p) "carrier_name" ++ sent (su_tracking_number p) "tracking_number"
            ++ sent (su_tracking_url p) "tracking_url" ++ sent (su_status p) "status").

Definition update_shipment (order_id shipment_id : uuid) (payload : ShipmentUpdate) (admin : uuid) : M OrderShipment :=
  _ ← _lock_order order_id;
  found ← get_shipment order_id shipment_id;
  shipment ← of_option found (EShipment ShipmentNotFoundError);
  let delivering := shipment_status_change payload shipment in
  let asked := default "" (default None (su_status payload)) in
  _ ← raise_if (delivering && negb (String.eqb (sh_status shipment) "shipped" && String.eqb asked "delivered"))
        (EShipment (InvalidShipmentStatusChangeError (sh_status shipment) asked));
  t ← now;
  saved ← save_shipment shipment_id (λ x,
    let x := match su_carrier_name payload with Some n => x <| sh_carrier_name := n |> | None => x end in
    let x := match su_tracking_number payload with Some n => x <| sh_tracking_number := n |> | None => x end in
    let x := match su_tracking_url payload with Some u => x <| sh_tracking_url := u |> | None => x end in
    if delivering then x <| sh_status := "delivered" |> <| sh_delivered_at := Some t |> else x);
  _ ← audit_log (Some admin) "shipment.updated" "order" (Some order_id)
        (JObj [("shipment_id", JStr (sh_id saved)); ("fields", JList (map JStr (sent_fields payload))); ("status", JStr (sh_status saved))]);
  mret saved.

Definition delete_shipment (order_id shipment_id : uuid) (admin : uuid) : M unit :=
  _ ← _lock_order order_id;
  found ← get_shipment order_id shipment_id;
  shipment ← of_option found (EShipment ShipmentNotFoundError);
  let details := JObj [("shipment_id", JStr (sh_id shipment)); ("carrier", JStr (sh_carrier_name shipment));
                       ("had_tracking_number", j_text (sh_tracking_number shipment))] in
  _ ← delete_shipment_row (sh_id shipment);
  audit_log (Some admin) "shipment.deleted" "order" (Some order_id) details.

(** ** Every operation keeps the tables sound *)

Lemma guar_add_shipment x : guar step (add_shipment x).
Proof. unfold add_shipment. solve_guar. Qed.
Lemma guar_save_shipment i f : guar step (save_shipment i f).
Proof. unfold save_shipment. solve_guar. Qed.
#[local] Hint Resolve guar_add_shipment guar_save_shipment : guar.
Lemma guar_create_shipment o p a : guar step (create_shipment o p a).
Proof. unfold create_shipment, _lock_order. solve_guar. Qed.
Lemma guar_update_shipment o i p a : guar step (update_shipment o i p a).
Proof. unfold update_shipment, _lock_order, get_shipment. cbv zeta. solve_guar. Qed.
Lemma guar_delete_shipment o i a : guar step (delete_shipment o i a).
Proof. unfold delete_shipment, _lock_order, get_shipment. cbv zeta. solve_guar. Qed.
#[export] Hint Resolve guar_create_shipment guar_update_shipment guar_delete_shipment : guar.
