(* ===== verification/Accounts.v ===== *)
(** * Signing in and account recovery

    [core/security.py], [auth/repositories/auth_repository.py], [auth/services/auth_service.py],
    [auth/services/account_service.py], [auth/jobs.py], the dependencies of [auth/dependencies/auth.py] and the
    endpoints of [auth/api/router.py]. Password hashing, signed tokens and the mail service are libraries: they are the
    parameters [Passwords], [Jwt] and [Mailer]. The wording of the emails is not modelled. *)

From S2P Require Import Prelude Errors Schema Guards Evolution Repositories Frames Runs Cart.

Local Open Scope string_scope.
Local Open Scope list_scope.
Local Open Scope Z_scope.

(** ** What the module is given *)

(** The settings ([app/core/config.py]) read here. *)
Class AccountSettings := {
  access_token_expire_minutes : Z;
  refresh_token_expire_days : Z;
  refresh_reuse_grace_seconds : Z;
  refresh_reuse_grace_max_replays : Z;
  password_reset_token_minutes : Z;
  email_verification_token_hours : Z;
  email_change_token_minutes : Z;
  password_reset_emails_per_hour : Z;
  graphql_enabled : bool
}.

(** passlib's context: [pw_hash salt password] and [verify]. *)
Class Passwords := { pw_hash : string → string → string; pw_verify : string → string → bool }.
(** Its contract: a hash is verified by the password it was made from, and by no other. *)
Class PasswordsOk `{!Passwords} : Prop := verify_hash : ∀ salt p q, pw_verify q (pw_hash salt p) = true ↔ q = p.

(** The claims of a token, and PyJWT: [jwt_decode now token] checks the signature and the times, [jwt_claims] nothing. *)
Record Claims := MkClaims { cl_sub : string; cl_type : string; cl_iat : Z; cl_exp : Z; cl_jti : option string }.
Class Jwt := { jwt_encode : Claims → string; jwt_decode : Z → string → option Claims; jwt_claims : string → option Claims }.
Class JwtOk `{!Jwt} : Prop := {
  jwt_claims_encode : ∀ c, jwt_claims (jwt_encode c) = Some c;
  jwt_decode_encode : ∀ t c, jwt_decode t (jwt_encode c) = if (cl_iat c <=? t) && (t <? cl_exp c) then Some c else None
}.

(** The emails the jobs send: what each carries besides its wording. *)
Inductive Mail :=
  | PasswordResetMail (token : string)
  | VerificationMail (token : string)
  | ChangeConfirmationMail (token : string)
  | ChangeRequestedMail (new_email : string)
  | EmailChangedMail (new_email : string)
  | PasswordChangedMail.
(** [(await _sender(session_factory)).send(to=..., ...)], which may raise. *)
Class Mailer := send_mail : string → Mail → M unit.
(** Sending changes nothing in the database. *)
Class MailerOk `{!Mailer} : Prop := send_keeps : ∀ to m s, (send_mail to m s).2 = s.

Section accounts.
Context `{!Settings} `{!Crypto} `{!AccountSettings} `{!Passwords} `{!Jwt} `{!Mailer}.

(** ** Tokens ([core/security.py]) *)

Definition ACCESS : string := "access".
Definition REFRESH : string := "refresh".

Definition hash_password (plain : string) : M string := salt ← new_uuid; mret (pw_hash salt plain).
Definition verify_password (plain hash : string) : bool := pw_verify plain hash.

Definition _create_token (subject token_type : string) (expires_delta : Z) : M string :=
  t ← now;
  jti ← (if String.eqb token_type REFRESH then j ← new_uuid; mret (Some j) else mret None);
  mret (jwt_encode (MkClaims subject token_type t (t + expires_delta) jti)).
Definition create_access_token (subject : string) : M string := _create_token subject ACCESS (access_token_expire_minutes * 60).
Definition create_refresh_token (subject : string) : M string := _create_token subject REFRESH (refresh_token_expire_days * 86400).
Definition decode_token (token : string) : M (option Claims) := t ← now; mret (jwt_decode t token).
Definition unverified_claims (token : string) : M Claims := of_option (jwt_claims token) (RuntimeError "DecodeError").

(** ** The repository *)

Definition get_user_by_id (uid : uuid) : M (option User) := db_gets (λ d, d_users d !! uid).
Definition get_user_by_email (email : string) : M (option User) :=
  d ← gets st_db; scalar_one_or_none (rows_where (λ u, String.eqb (u_email u) email) (d_users d)).
Definition find_user_by_email_ci (email : string) : M (option User) :=
  exact ← get_user_by_email email;
  match exact with
  | Some u => mret (Some u)
  | None => db_gets (λ d, head (order_by u_created_at (rows_where (λ u, String.eqb (py_lower (u_email u)) (py_lower email)) (d_users d))))
  end.
Definition get_user_by_username (username : string) : M (option User) :=
  d ← gets st_db; scalar_one_or_none (rows_where (λ u, String.eqb (u_username u) username) (d_users d)).
Definition create_user (username email password_hash : string) : M User :=
  uid ← new_uuid;
  t ← now;
  let user := MkUser uid username email password_hash USER true None t in
  _ ← insert_user user;
  mret user.

Definition store_refresh_token (user_id : uuid) (jti : string) (expires_at : Z) (family_id : option uuid) : M RefreshToken :=
  family ← (match family_id with Some f => mret f | None => new_uuid end);
  let token := MkRefreshToken jti user_id family expires_at false None 0 in
  _ ← insert_refresh_token token;
  mret token.
Definition get_refresh_token_by_jti (jti : option string) : M (option RefreshToken) :=
  db_gets (λ d, j ← jti; d_refresh_tokens d !! j).

Definition create_auth_token (user_id : uuid) (purpose token_hash email : string) (expires_at : Z) : M unit :=
  t ← now; insert_auth_token (MkAuthToken token_hash user_id purpose email expires_at None t).
(** The row the [UPDATE ... RETURNING] finds, marked used. *)
Definition consumable (purpose : string) (t : Z) (row : AuthToken) : bool :=
  String.eqb (at_purpose row) purpose && opt_eqb (at_used_at row) None && (t <? at_expires_at row).
Definition consume_auth_token (token_hash purpose : string) : M (option AuthToken) :=
  t ← now;
  d ← gets st_db;
  match d_auth_tokens d !! token_hash with
  | Some row =>
      if consumable purpose t row then
        _ ← update_auth_tokens (λ r, String.eqb (at_token_hash r) token_hash) (λ r, r <| at_used_at := Some t |>);
        mret (Some row)
      else mret None
  | None => mret None
  end.
Definition invalidate_auth_tokens (user_id : uuid) (purposes : list string) : M unit :=
  t ← now;
  update_auth_tokens (λ r, String.eqb (at_user_id r) user_id && bool_decide (at_purpose r ∈ purposes) && opt_eqb (at_used_at r) None)
    (λ r, r <| at_used_at := Some t |>).
Definition count_recent_auth_tokens (user_id : uuid) (purpose : string) (since : Z) : M Z :=
  db_gets (λ d, count_rows (λ r, String.eqb (at_user_id r) user_id && String.eqb (at_purpose r) purpose && (since <=? at_created_at r))
                  (d_auth_tokens d)).

Definition revoke_all_refresh_tokens (user_id : uuid) : M unit :=
  update_refresh_tokens (λ r, String.eqb (rf_user_id r) user_id && negb (rf_revoked r)) (λ r, r <| rf_revoked := true |>).
Definition revoke_refresh_token (t : RefreshToken) : M unit :=
  _ ← update_refresh_token (rf_jti t) (λ r, r <| rf_revoked := true |>); mret tt.
Definition rotate_refresh_token (t : RefreshToken) (now : Z) : M unit :=
  _ ← update_refresh_token (rf_jti t) (λ r, r <| rf_revoked := true |> <| rf_rotated_at := Some now |>); mret tt.
Definition record_grace_replay (t : RefreshToken) : M RefreshToken :=
  update_refresh_token (rf_jti t) (λ r, r <| rf_grace_replays := rf_grace_replays r + 1 |>).
Definition active_in (family_id : uuid) (r : RefreshToken) : bool := String.eqb (rf_family_id r) family_id && negb (rf_revoked r).
Definition family_has_active_token (family_id : uuid) : M bool := db_gets (λ d, exists_row (active_in family_id) (d_refresh_tokens d)).
Definition revoke_family (family_id : uuid) : M unit := update_refresh_tokens (active_in family_id) (λ r, r <| rf_revoked := true |>).

(** ** [AuthService] *)

Record TokenPair := MkTokenPair { tp_access_token : string; tp_refresh_token : string }.

Definition register (username email password : string) : M User :=
  by_email ← get_user_by_email email;
  _ ← raise_if (negb (bool_decide (by_email = None))) (EAccount (EmailAlreadyExistsError email));
  by_username ← get_user_by_username username;
  _ ← raise_if (negb (bool_decide (by_username = None))) (EAccount (UsernameAlreadyExistsError username));
  password_hash ← hash_password password;
  create_user username email password_hash.

Definition issue_tokens (user : User) : M TokenPair :=
  access_token ← create_access_token (u_id user);
  refresh_token ← create_refresh_token (u_id user);
  payload ← unverified_claims refresh_token;
  jti ← of_option (cl_jti payload) (RuntimeError "KeyError");
  _ ← store_refresh_token (u_id user) jti (cl_exp payload) None;
  mret (MkTokenPair access_token refresh_token).

Definition login (email password : string) : M TokenPair :=
  found ← get_user_by_email email;
  user ← of_option found (EAccount InvalidCredentialsError);
  _ ← raise_if (negb (verify_password password (u_password_hash user))) (EAccount InvalidCredentialsError);
  _ ← raise_if (negb (u_is_active user)) (EAccount InvalidCredentialsError);
  issue_tokens user.

Definition _is_benign_replay (stored : RefreshToken) (now : Z) : M bool :=
  if refresh_reuse_grace_seconds <=? 0 then mret false
  else match rf_rotated_at stored with
       | None => mret false
       | Some rotated_at =>
           if refresh_reuse_grace_seconds <? now - rotated_at then mret false
           else if refresh_reuse_grace_max_replays <=? rf_grace_replays stored then mret false
           else family_has_active_token (rf_family_id stored)
       end.

(** The end of [refresh]: the new pair, in the family of the token that was presented. *)
Definition continue_family (subject : string) (stored : RefreshToken) : M TokenPair :=
  new_access_token ← create_access_token subject;
  new_refresh_token ← create_refresh_token subject;
  new_payload ← unverified_claims new_refresh_token;
  jti ← of_option (cl_jti new_payload) (RuntimeError "KeyError");
  _ ← store_refresh_token (rf_user_id stored) jti (cl_exp new_payload) (Some (rf_family_id stored));
  mret (MkTokenPair new_access_token new_refresh_token).

Definition refresh (refresh_token : string) : M TokenPair :=
  decoded ← decode_token refresh_token;
  payload ← of_option decoded (EAccount InvalidRefreshTokenError);
  _ ← raise_if (negb (String.eqb (cl_type payload) REFRESH)) (EAccount InvalidRefreshTokenError);
  found ← get_refresh_token_by_jti (cl_jti payload);
  stored ← of_option found (EAccount InvalidRefreshTokenError);
  t ← now;
  replay ← (if rf_revoked stored then
              benign ← _is_benign_replay stored t;
              if benign : bool then mret true
              else
                _ ← revoke_family (rf_family_id stored);
                _ ← commit;
                raise (EAccount InvalidRefreshTokenError)
            else mret false);
  _ ← raise_if (rf_expires_at stored <? t) (EAccount InvalidRefreshTokenError);
  user ← get_user_by_id (rf_user_id stored);
  _ ← raise_if (match user with Some u => negb (u_is_active u) | None => true end) (EAccount InvalidRefreshTokenError);
  _ ← (if replay : bool then
         stored' ← record_grace_replay stored;
         audit_log (Some (rf_user_id stored)) "auth.refresh_replay_accepted" "refresh_token" (Some (rf_jti stored))
           (JObj [("family_id", JStr (rf_family_id stored)); ("replays", JInt (rf_grace_replays stored'))])
       else rotate_refresh_token stored t);
  continue_family (cl_sub payload) stored.

Definition logout (refresh_token : string) : M unit :=
  decoded ← decode_token refresh_token;
  match decoded with
  | None => mret tt
  | Some payload =>
      match cl_jti payload with
      | None => mret tt
      | Some jti =>
          stored ← get_refresh_token_by_jti (Some jti);
          match stored with
          | Some r => if rf_revoked r then mret tt else revoke_refresh_token r
          | None => mret tt
          end
      end
  end.

(** ** [AccountService] *)

Definition PASSWORD_RESET : string := "password_reset".
Definition EMAIL_VERIFICATION : string := "email_verification".
Definition EMAIL_CHANGE : string := "email_change".
Definition SEND_PASSWORD_RESET : string := "send_password_reset".
Definition SEND_EMAIL_VERIFICATION : string := "send_email_verification".
Definition SEND_EMAIL_CHANGE : string := "send_email_change".
Definition SEND_ACCOUNT_NOTICE : string := "send_account_notice".

Definition hash_token (token : string) : string := sha256_hex token.
Definition new_token : M string := seed ← new_uuid; mret (token_urlsafe seed).
Definition _minute_bucket : M Z := t ← now; mret (t / 60).
Definition token_expiry (purpose : string) : M Z :=
  t ← now;
  delta ← of_option (if String.eqb purpose PASSWORD_RESET then Some (password_reset_token_minutes * 60)
                     else if String.eqb purpose EMAIL_VERIFICATION then Some (email_verification_token_hours * 3600)
                     else if String.eqb purpose EMAIL_CHANGE then Some (email_change_token_minutes * 60)
                     else None) (RuntimeError "KeyError");
  mret (t + delta).

Definition request_password_reset (email : string) : M unit :=
  bucket ← _minute_bucket;
  _ ← enqueue SEND_PASSWORD_RESET (JObj [("email", JStr email)])
        (Some ("pwreset:" +:+ sha256_hex (py_lower email) +:+ ":" +:+ str_Z bucket));
  mret tt.

(** The row and the user of a link that can be used now; the address must still be the account's when [bound]. *)
Definition use_link (token purpose : string) (bound : bool) : M (AuthToken * User) :=
  found ← consume_auth_token (hash_token token) purpose;
  row ← of_option found (EAccount InvalidAccountTokenError);
  user ← get_user_by_id (at_user_id row);
  user ← of_option user (EAccount InvalidAccountTokenError);
  _ ← raise_if (negb (u_is_active user) || bound && negb (String.eqb (u_email user) (at_email row))) (EAccount InvalidAccountTokenError);
  mret (row, user).

Definition reset_password (token new_password : string) : M unit :=
  '(row, user) ← use_link token PASSWORD_RESET true;
  password_hash ← hash_password new_password;
  t ← now;
  user ← update_user_row (u_id user) (λ u, u <| u_password_hash := password_hash |>
           <| u_email_verified_at := match u_email_verified_at u with None => Some t | v => v end |>);
  _ ← invalidate_auth_tokens (u_id user) [PASSWORD_RESET];
  _ ← revoke_all_refresh_tokens (u_id user);
  _ ← audit_log (Some (u_id user)) "auth.password_reset" "user" (Some (u_id user)) JNull;
  _ ← enqueue SEND_ACCOUNT_NOTICE (JObj [("user_id", JStr (u_id user)); ("kind", JStr "password_changed")]) None;
  mret tt.

Definition change_password (user : User) (current_password new_password : string) : M TokenPair :=
  _ ← raise_if (negb (verify_password current_password (u_password_hash user))) (EAccount CurrentPasswordIncorrectError);
  _ ← raise_if (String.eqb current_password new_password) (EAccount SamePasswordError);
  password_hash ← hash_password new_password;
  user ← update_user_row (u_id user) (λ u, u <| u_password_hash := password_hash |>);
  _ ← invalidate_auth_tokens (u_id user) [PASSWORD_RESET];
  _ ← revoke_all_refresh_tokens (u_id user);
  tokens ← issue_tokens user;
  _ ← audit_log (Some (u_id user)) "auth.password_changed" "user" (Some (u_id user)) JNull;
  _ ← enqueue SEND_ACCOUNT_NOTICE (JObj [("user_id", JStr (u_id user)); ("kind", JStr "password_changed")]) None;
  mret tokens.

Definition request_email_verification (user : User) : M unit :=
  if negb (opt_eqb (u_email_verified_at user) None) then mret tt
  else
    bucket ← _minute_bucket;
    _ ← enqueue SEND_EMAIL_VERIFICATION (JObj [("user_id", JStr (u_id user))])
          (Some ("verify:" +:+ u_id user +:+ ":" +:+ str_Z bucket));
    mret tt.

Definition verify_email (token : string) : M unit :=
  '(row, user) ← use_link token EMAIL_VERIFICATION true;
  if opt_eqb (u_email_verified_at user) None then
    t ← now;
    _ ← update_user_row (u_id user) (λ u, u <| u_email_verified_at := Some t |>);
    audit_log (Some (u_id user)) "auth.email_verified" "user" (Some (u_id user)) JNull
  else mret tt.

Definition request_email_change (user : User) (new_email password : string) : M unit :=
  _ ← raise_if (negb (verify_password password (u_password_hash user))) (EAccount CurrentPasswordIncorrectError);
  if String.eqb (py_lower new_email) (py_lower (u_email user)) then mret tt
  else
    bucket ← _minute_bucket;
    _ ← enqueue SEND_EMAIL_CHANGE (JObj [("user_id", JStr (u_id user)); ("new_email", JStr new_email)])
          (Some ("emailchange:" +:+ sha256_hex (u_id user +:+ ":" +:+ py_lower new_email) +:+ ":" +:+ str_Z bucket));
    mret tt.

Definition confirm_email_change (token : string) : M unit :=
  '(row, user) ← use_link token EMAIL_CHANGE false;
  taken ← find_user_by_email_ci (at_email row);
  _ ← raise_if (match taken with Some x => negb (String.eqb (u_id x) (u_id user)) | None => false end)
        (EAccount (EmailAlreadyExistsError (at_email row)));
  let old_email := u_email user in
  t ← now;
  user ← update_user_row (u_id user) (λ u, u <| u_email := at_email row |> <| u_email_verified_at := Some t |>);
  _ ← invalidate_auth_tokens (u_id user) [PASSWORD_RESET; EMAIL_VERIFICATION; EMAIL_CHANGE];
  _ ← audit_log (Some (u_id user)) "auth.email_changed" "user" (Some (u_id user)) JNull;
  _ ← enqueue SEND_ACCOUNT_NOTICE
        (JObj [("kind", JStr "email_changed"); ("to", JStr old_email); ("new_email", JStr (u_email user))]) None;
  mret tt.

(** ** The jobs that send *)

(** [payload[key]] *)
Definition payload_text (payload : json) (key : string) : M string :=
  match j_get key payload with Some (JStr s) => mret s | _ => raise (RuntimeError "KeyError") end.

Definition _issue (user_id : uuid) (purpose email : string) : M string :=
  token ← new_token;
  expires ← token_expiry purpose;
  _ ← create_auth_token user_id purpose (hash_token token) email expires;
  mret token.

Definition send_password_reset (payload : json) : M unit := get_db (
  email ← payload_text payload "email";
  found ← find_user_by_email_ci email;
  match found with
  | None => mret tt
  | Some user =>
      if negb (u_is_active user) then mret tt
      else
        t ← now;
        recent ← count_recent_auth_tokens (u_id user) PASSWORD_RESET (t - 3600);
        if password_reset_emails_per_hour <=? recent then mret tt
        else
          token ← _issue (u_id user) PASSWORD_RESET (u_email user);
          send_mail (u_email user) (PasswordResetMail token)
  end).

Definition send_email_verification (payload : json) : M unit := get_db (
  uid ← payload_text payload "user_id";
  found ← get_user_by_id uid;
  match found with
  | None => mret tt
  | Some user =>
      if negb (u_is_active user) || negb (opt_eqb (u_email_verified_at user) None) then mret tt
      else
        token ← _issue (u_id user) EMAIL_VERIFICATION (u_email user);
        send_mail (u_email user) (VerificationMail token)
  end).

Definition send_email_change (payload : json) : M unit :=
  new_email ← payload_text payload "new_email";
  get_db (
    uid ← payload_text payload "user_id";
    found ← get_user_by_id uid;
    match found with
    | None => mret tt
    | Some user =>
        if negb (u_is_active user) then mret tt
        else
          taken ← find_user_by_email_ci new_email;
          if match taken with Some x => negb (String.eqb (u_id x) (u_id user)) | None => false end then mret tt
          else
            token ← _issue (u_id user) EMAIL_CHANGE new_email;
            _ ← send_mail new_email (ChangeConfirmationMail token);
            send_mail (u_email user) (ChangeRequestedMail new_email)
    end).

Definition send_account_notice (payload : json) : M unit :=
  kind ← payload_text payload "kind";
  if String.eqb kind "email_changed" then
    new_email ← payload_text payload "new_email";
    to ← payload_text payload "to";
    send_mail to (EmailChangedMail new_email)
  else
    uid ← payload_text payload "user_id";
    found ← get_user_by_id uid;
    match found with
    | None => mret tt
    | Some user =>
        if negb (u_is_active user) then mret tt
        else if String.eqb kind "password_changed" then send_mail (u_email user) PasswordChangedMail
        else mret tt
    end.

(** ** The dependencies and the endpoints *)

Definition get_current_user (credentials : string) : M User :=
  decoded ← decode_token credentials;
  payload ← of_option decoded (EAccount CredentialsNotValidated);
  _ ← raise_if (negb (String.eqb (cl_type payload) ACCESS)) (EAccount CredentialsNotValidated);
  found ← get_user_by_id (cl_sub payload);
  user ← of_option found (EAccount CredentialsNotValidated);
  _ ← raise_if (negb (u_is_active user)) (EAccount CredentialsNotValidated);
  mret user.
(** [get_optional_current_user]: bad credentials are no credentials. *)
Definition get_optional_current_user (credentials : option string) : M (option User) :=
  match credentials with
  | None => mret None
  | Some c =>
      try_catch (u ← get_current_user c; mret (Some u))
        (λ e, match e with EAccount CredentialsNotValidated => Some (mret None) | _ => None end)
  end.
Definition require_admin (user : User) : M User :=
  _ ← raise_if (negb (bool_decide (u_role user = ADMIN))) (EAccount AdministratorRequired); mret user.

Definition _merge_guest_cart_if_any (user_id : uuid) (guest_cart_token : option string) : M unit :=
  match guest_cart_token with
  | Some g => if String.eqb g "" then mret tt else merge_guest_cart_into_user user_id g
  | None => mret tt
  end.

Definition register_endpoint (username email password : string) (guest : option string) : M User :=
  user ← register username email password;
  _ ← request_email_verification user;
  _ ← _merge_guest_cart_if_any (u_id user) guest;
  mret user.
Definition login_endpoint (email password : string) (guest : option string) : M TokenPair :=
  tokens ← login email password;
  found ← get_user_by_email email;
  _ ← (match found with Some user => _merge_guest_cart_if_any (u_id user) guest | None => mret tt end);
  mret tokens.
Definition change_password_endpoint (credentials current_password new_password : string) : M TokenPair :=
  user ← get_current_user credentials; change_password user current_password new_password.
Definition send_verification_endpoint (credentials : string) : M unit :=
  user ← get_current_user credentials; request_email_verification user.
Definition change_email_endpoint (credentials new_email password : string) : M unit :=
  user ← get_current_user credentials; request_email_change user new_email password.
End accounts.

(** ** Every operation keeps the tables sound *)

Section accounts_sound.
Context `{!Settings} `{!Crypto} `{!AccountSettings} `{!Passwords} `{!Jwt} `{!Mailer} `{!MailerOk}.

Lemma guar_send_mail to m : guar step (send_mail to m).
Proof. intros s. by rewrite send_keeps. Qed.
#[local] Hint Resolve guar_send_mail : guar.

Lemma guar_hash_password p : guar step (hash_password p).
Proof. unfold hash_password. solve_guar. Qed.
Lemma guar_create_token a b c : guar step (_create_token a b c).
Proof. unfold _create_token. solve_guar. Qed.
Lemma guar_find_user e : guar step (find_user_by_email_ci e).
Proof. unfold find_user_by_email_ci, get_user_by_email. solve_guar. Qed.
Lemma guar_store_refresh_token a b c f : guar step (store_refresh_token a b c f).
Proof. unfold store_refresh_token. solve_guar. Qed.
Lemma guar_consume a b : guar step (consume_auth_token a b).
Proof. unfold consume_auth_token. solve_guar. Qed.
#[local] Hint Resolve guar_hash_password guar_create_token guar_find_user guar_store_refresh_token guar_consume : guar.
Lemma guar_issue_tokens u : guar step (issue_tokens u).
Proof. unfold issue_tokens, create_access_token, create_refresh_token, unverified_claims. solve_guar. Qed.
Lemma guar_use_link a b c : guar step (use_link a b c).
Proof. unfold use_link, get_user_by_id. solve_guar. Qed.
Lemma guar_issue_link a b c : guar step (_issue a b c).
Proof. unfold _issue, new_token, token_expiry, create_auth_token. solve_guar. Qed.
Lemma guar_request_email_verification u : guar step (request_email_verification u).
Proof. unfold request_email_verification, _minute_bucket. solve_guar. Qed.
Lemma guar_payload_text p k : guar step (payload_text p k).
Proof. unfold payload_text. solve_guar. Qed.
Lemma guar_get_current_user c : guar step (get_current_user c).
Proof. unfold get_current_user, decode_token, get_user_by_id. solve_guar. Qed.
Lemma guar_merge_if_any u g : guar step (_merge_guest_cart_if_any u g).
Proof. unfold _merge_guest_cart_if_any. solve_guar. Qed.
#[local] Hint Resolve guar_issue_tokens guar_use_link guar_issue_link guar_request_email_verification guar_payload_text
  guar_get_current_user guar_merge_if_any : guar.

Lemma guar_register_endpoint a b c g : guar step (register_endpoint a b c g).
Proof. unfold register_endpoint, register, get_user_by_email, get_user_by_username, create_user. solve_guar. Qed.
Lemma guar_login_endpoint a b g : guar step (login_endpoint a b g).
Proof. unfold login_endpoint, login, get_user_by_email. solve_guar. Qed.
Lemma guar_refresh t : guar step (refresh t).
Proof.
  unfold refresh, decode_token, get_refresh_token_by_jti, _is_benign_replay, family_has_active_token, revoke_family, get_user_by_id,
    record_grace_replay, rotate_refresh_token, continue_family, create_access_token, create_refresh_token, unverified_claims.
  solve_guar.
Qed.
Lemma guar_logout t : guar step (logout t).
Proof. unfold logout, decode_token, get_refresh_token_by_jti, revoke_refresh_token. solve_guar. Qed.
Lemma guar_request_password_reset e : guar step (request_password_reset e).
Proof. unfold request_password_reset, _minute_bucket. solve_guar. Qed.
Lemma guar_reset_password a b : guar step (reset_password a b).
Proof. unfold reset_password, invalidate_auth_tokens, revoke_all_refresh_tokens. solve_guar. Qed.
Lemma guar_change_password_endpoint a b c : guar step (change_password_endpoint a b c).
Proof. unfold change_password_endpoint, change_password, invalidate_auth_tokens, revoke_all_refresh_tokens. solve_guar. Qed.
Lemma guar_send_verification_endpoint c : guar step (send_verification_endpoint c).
Proof. unfold send_verification_endpoint. solve_guar. Qed.
Lemma guar_verify_email t : guar step (verify_email t).
Proof. unfold verify_email. solve_guar. Qed.
Lemma guar_change_email_endpoint a b c : guar step (change_email_endpoint a b c).
Proof. unfold change_email_endpoint, request_email_change, _minute_bucket. solve_guar. Qed.
Lemma guar_confirm_email_change t : guar step (confirm_email_change t).
Proof. unfold confirm_email_change, invalidate_auth_tokens. cbv zeta. solve_guar. Qed.
Lemma guar_send_password_reset p : guar step (send_password_reset p).
Proof. unfold send_password_reset, count_recent_auth_tokens. apply guar_get_db. solve_guar. Qed.
Lemma guar_send_email_verification p : guar step (send_email_verification p).
Proof. unfold send_email_verification, get_user_by_id. apply guar_get_db. solve_guar. Qed.
Lemma guar_send_email_change p : guar step (send_email_change p).
Proof.
  unfold send_email_change, get_user_by_id. apply guar_bind; [apply _|solve_guar|]. intros e. apply guar_get_db. solve_guar.
Qed.
Lemma guar_send_account_notice p : guar step (send_account_notice p).
Proof. unfold send_account_notice, get_user_by_id. solve_guar. Qed.
End accounts_sound.
#[export] Hint Resolve guar_register_endpoint guar_login_endpoint guar_refresh guar_logout guar_request_password_reset guar_reset_password
  guar_change_password_endpoint guar_send_verification_endpoint guar_verify_email guar_change_email_endpoint guar_confirm_email_change
  guar_send_password_reset guar_send_email_verification guar_send_email_change guar_send_account_notice guar_get_current_user : guar.
