(* ===== verification/Roles.v ===== *)
(** * Users, staff roles and permissions

    [users/services/user_service.py] with the two endpoints of [users/api/router.py] that change a user, and the roles
    module: [permissions.py], [repositories/role_repository.py], [services/access_service.py], [services/role_service.py],
    [dependencies/permission_deps.py] and [api/router.py]. A set of permissions is a list read up to membership. The cache of
    [AccessService] lives for one request and holds what was read in it: it is not modelled. *)

From S2P Require Import Prelude Errors Schema Guards Evolution Repositories Frames Runs Accounts.

Local Open Scope string_scope.
Local Open Scope list_scope.
Local Open Scope Z_scope.

(** ** The permissions ([permissions.py]) *)

Inductive Permission :=
  | REPORTS_READ | AUDIT_READ | CATALOGUE_READ | CATALOGUE_WRITE | INVENTORY_ADJUST | REVIEWS_MODERATE | CUSTOMERS_READ
  | CUSTOMERS_MANAGE | ORDERS_READ | ORDERS_MANAGE | RETURNS_READ | RETURNS_MANAGE | REFUNDS_ISSUE | PAYMENTS_READ
  | PAYMENTS_MANAGE | PAYMENTS_CREDENTIALS | PAYMENTS_LIVE | TAX_READ | TAX_CONFIGURE | STORE_CONFIGURE | COUPONS_MANAGE
  | EMAIL_CONFIGURE | CONTENT_EDIT | CONTENT_PUBLISH | ROLES_MANAGE.
#[export] Instance Permission_eq_dec : EqDecision Permission.
Proof. solve_decision. Defined.

Definition perm_value (p : Permission) : string :=
  match p with
  | REPORTS_READ => "reports.read" | AUDIT_READ => "audit.read" | CATALOGUE_READ => "catalogue.read"
  | CATALOGUE_WRITE => "catalogue.write" | INVENTORY_ADJUST => "inventory.adjust" | REVIEWS_MODERATE => "reviews.moderate"
  | CUSTOMERS_READ => "customers.read" | CUSTOMERS_MANAGE => "customers.manage" | ORDERS_READ => "orders.read"
  | ORDERS_MANAGE => "orders.manage" | RETURNS_READ => "returns.read" | RETURNS_MANAGE => "returns.manage"
  | REFUNDS_ISSUE => "refunds.issue" | PAYMENTS_READ => "payments.read" | PAYMENTS_MANAGE => "payments.manage"
  | PAYMENTS_CREDENTIALS => "payments.credentials" | PAYMENTS_LIVE => "payments.live" | TAX_READ => "tax.read"
  | TAX_CONFIGURE => "tax.configure" | STORE_CONFIGURE => "store.configure" | COUPONS_MANAGE => "coupons.manage"
  | EMAIL_CONFIGURE => "email.configure" | CONTENT_EDIT => "content.edit" | CONTENT_PUBLISH => "content.publish"
  | ROLES_MANAGE => "roles.manage"
  end.
Definition ALL_PERMISSIONS : list Permission :=
  [REPORTS_READ; AUDIT_READ; CATALOGUE_READ; CATALOGUE_WRITE; INVENTORY_ADJUST; REVIEWS_MODERATE; CUSTOMERS_READ; CUSTOMERS_MANAGE;
   ORDERS_READ; ORDERS_MANAGE; RETURNS_READ; RETURNS_MANAGE; REFUNDS_ISSUE; PAYMENTS_READ; PAYMENTS_MANAGE; PAYMENTS_CREDENTIALS;
   PAYMENTS_LIVE; TAX_READ; TAX_CONFIGURE; STORE_CONFIGURE; COUPONS_MANAGE; EMAIL_CONFIGURE; CONTENT_EDIT; CONTENT_PUBLISH; ROLES_MANAGE].
(** [Permission(text)], for a known text *)
Definition perm_of (text : string) : option Permission := List.find (λ p, String.eqb (perm_value p) text) ALL_PERMISSIONS.

Definition OWNER_ROLE_ID : uuid := "6f0c1e2a-0000-4000-8000-000000000001".
Definition OWNER_ROLE_NAME : string := "Owner".
Definition NO_ACCESS_ROLE_ID : uuid := "6f0c1e2a-0000-4000-8000-000000000002".
Definition NO_ACCESS_ROLE_NAME : string := "No access".

Definition IMPLIES (p : Permission) : list Permission :=
  match p with
  | CATALOGUE_WRITE | INVENTORY_ADJUST => [CATALOGUE_READ]
  | CUSTOMERS_MANAGE => [CUSTOMERS_READ]
  | ORDERS_MANAGE => [ORDERS_READ]
  | RETURNS_MANAGE => [RETURNS_READ; ORDERS_READ]
  | REFUNDS_ISSUE => [ORDERS_READ; RETURNS_READ; PAYMENTS_READ]
  | PAYMENTS_MANAGE | PAYMENTS_CREDENTIALS | PAYMENTS_LIVE => [PAYMENTS_READ]
  | TAX_CONFIGURE => [TAX_READ]
  | CONTENT_PUBLISH => [CONTENT_EDIT]
  | _ => []
  end.
Definition effective (granted : list Permission) : list Permission := granted ++ flat_map IMPLIES granted.
Definition role_permissions_for_display (role_id : uuid) (stored : list string) : list string :=
  if String.eqb role_id OWNER_ROLE_ID then sort_str (map perm_value ALL_PERMISSIONS)
  else sort_str (filter (λ t, perm_of t ≠ None) stored).

Definition role_permissions (role : option StaffRole) : list Permission :=
  match role with
  | None => ALL_PERMISSIONS
  | Some r => if String.eqb (sr_id r) OWNER_ROLE_ID then ALL_PERMISSIONS else effective (omap perm_of (sr_permissions r))
  end.

(** ** The repository *)

Definition is_active_admin (u : User) : bool := bool_decide (u_role u = ADMIN) && u_is_active u.
Definition str_le_on {A} (key : A → string) (a b : A) : Prop := str_le (key a) (key b).
#[export] Instance str_le_on_dec {A} (key : A → string) a b : Decision (str_le_on key a b).
Proof. unfold str_le_on. apply _. Defined.
Definition sort_on {A} (key : A → string) (l : list A) : list A := merge_sort (str_le_on key) l.

Definition get_assignment (user_id : uuid) : M (option StaffRoleAssignment) := db_gets (λ d, d_assignments d !! user_id).
(** [assignment.role] of the assignment, if there is one *)
Definition role_in (d : DB) (a : option StaffRoleAssignment) : option StaffRole := x ← a; d_staff_roles d !! sa_role_id x.
Definition role_of (d : DB) (user_id : uuid) : option StaffRole := role_in d (d_assignments d !! user_id).
Definition ensure_system_roles : M unit :=
  for_each [(OWNER_ROLE_ID, OWNER_ROLE_NAME); (NO_ACCESS_ROLE_ID, NO_ACCESS_ROLE_NAME)] (λ r,
    found ← db_gets (λ d, d_staff_roles d !! r.1);
    match found with None => insert_staff_role (MkStaffRole r.1 r.2 None [] true) | Some _ => mret tt end).
(** Every role with the number of active administrators who hold it, system roles first, then by name. *)
Definition members_of (d : DB) (role_id : uuid) : Z :=
  count_rows (λ a, String.eqb (sa_role_id a) role_id
                   && match d_users d !! sa_user_id a with Some u => is_active_admin u | None => false end) (d_assignments d).
Definition list_role_rows : M (list (StaffRole * Z)) :=
  db_gets (λ d,
    let rows := sort_on sr_name (rows_where (λ _, true) (d_staff_roles d)) in
    map (λ r, (r, members_of d (sr_id r))) (List.filter sr_is_system rows ++ List.filter (λ r, negb (sr_is_system r)) rows)).
Definition get_role_row (role_id : uuid) : M (option StaffRole) := db_gets (λ d, d_staff_roles d !! role_id).
Definition name_taken (name : string) (excluding : option uuid) : M bool :=
  db_gets (λ d, exists_row (λ r, String.eqb (py_lower (sr_name r)) (py_lower name) && negb (opt_eqb (Some (sr_id r)) excluding)) (d_staff_roles d)).
Definition count_assignments (role_id : uuid) : M Z := db_gets (λ d, count_rows (λ a, String.eqb (sa_role_id a) role_id) (d_assignments d)).
Definition active_admins (d : DB) : list User := sort_on u_id (rows_where is_active_admin (d_users d)).
Definition lock_active_admins : M (list (User * option StaffRoleAssignment)) :=
  db_gets (λ d, map (λ u, (u, d_assignments d !! u_id u)) (active_admins d)).
Definition list_staff (offset limit : nat) : M (list (User * option StaffRoleAssignment) * Z) :=
  db_gets (λ d,
    let base := rows_where is_active_admin (d_users d) in
    (map (λ u, (u, d_assignments d !! u_id u)) (take limit (drop offset (sort_on u_username base))), Z.of_nat (length base))).
Definition get_active_admin (user_id : uuid) : M (option User) :=
  db_gets (λ d, u ← d_users d !! user_id; if is_active_admin u then Some u else None).
Definition set_assignment (user_id role_id actor_id : uuid) : M StaffRoleAssignment :=
  let a := MkAssignment user_id role_id (Some actor_id) in
  _ ← put_assignment a;
  mret a.
Definition remove_assignment (user_id : uuid) : M unit :=
  a ← get_assignment user_id;
  match a with Some _ => delete_assignment user_id | None => mret tt end.

(** ** [AccessService] *)

Definition resolve (user : User) : M (list Permission * option StaffRole) :=
  if negb (is_active_admin user) then mret ([], None)
  else db_gets (λ d, (role_permissions (role_of d (u_id user)), role_of d (u_id user))).
Definition has (user : User) (permission : Permission) : M bool :=
  r ← resolve user; mret (bool_decide (permission ∈ r.1)).
Definition require (user : User) (permission : Permission) : M unit :=
  ok ← has user permission;
  raise_if (negb ok) (EAccount (PermissionDeniedError (perm_value permission))).

(** What becomes of an administrator: another role, or [LEAVES_STAFF]. *)
Inductive StaffChange := NewRole (role : StaffRole) | LEAVES_STAFF.

(** Whether an administrator could still manage roles after the change being checked. *)
Definition keeps_managing (d : DB) (user_changes : list (uuid * StaffChange)) (role_change : option (uuid * list Permission))
    (member : User * option StaffRoleAssignment) : bool :=
  let '(user, assignment) := member in
  let judge (role : option StaffRole) :=
    let permissions := match role, role_change with
                       | Some r, Some (rid, ps) => if String.eqb (sr_id r) rid && negb (sr_is_system r) then effective ps else role_permissions role
                       | _, _ => role_permissions role
                       end in
    bool_decide (ROLES_MANAGE ∈ permissions) in
  match List.find (λ c, String.eqb c.1 (u_id user)) user_changes with
  | Some (_, LEAVES_STAFF) => false
  | Some (_, NewRole r) => judge (Some r)
  | None => judge (role_in d assignment)
  end.
Definition assert_role_manager_remains (user_changes : list (uuid * StaffChange)) (role_change : option (uuid * list Permission)) : M unit :=
  admins ← lock_active_admins;
  d ← gets st_db;
  raise_if (negb (existsb (keeps_managing d user_changes role_change) admins)) (EAccount LastRoleManagerError).

(** ** [RoleService] *)

Definition _sorted (permissions : list Permission) : list string := sort_str (map perm_value (remove_dups permissions)).

Definition list_roles : M (list (StaffRole * Z)) := _ ← ensure_system_roles; list_role_rows.
Definition get_role (role_id : uuid) : M StaffRole :=
  found ← get_role_row role_id; of_option found (EAccount RoleNotFoundError).

Definition role_details (r : StaffRole) : json :=
  JObj [("name", JStr (sr_name r)); ("permissions", JList (map JStr (sr_permissions r)))].
Definition create_role (actor : User) (name : string) (description : option string) (permissions : list Permission) : M StaffRole :=
  taken ← name_taken name None;
  _ ← raise_if taken (EAccount RoleNameTakenError);
  rid ← new_uuid;
  let role := MkStaffRole rid name description (_sorted permissions) false in
  _ ← insert_staff_role role;
  _ ← audit_log (Some (u_id actor)) "staff_role.created" "staff_role" (Some rid) (role_details role);
  mret role.

(** [description]: [None] when the request does not send it. *)
Definition update_role (actor : User) (role_id : uuid) (name : option string) (description : option (option string))
    (permissions : option (list Permission)) : M StaffRole :=
  role ← get_role role_id;
  _ ← raise_if (sr_is_system role) (EAccount SystemRoleError);
  _ ← (match name with
       | Some n => if String.eqb n (sr_name role) then mret tt
                   else taken ← name_taken n (Some (sr_id role)); raise_if taken (EAccount RoleNameTakenError)
       | None => mret tt
       end);
  _ ← (match permissions with
       | Some ps => if bool_decide (ROLES_MANAGE ∈ ps) then mret tt else assert_role_manager_remains [] (Some (sr_id role, ps))
       | None => mret tt
       end);
  new ← update_staff_role (sr_id role) (λ r, r <| sr_name := default (sr_name r) name |>
          <| sr_description := default (sr_description r) description |>
          <| sr_permissions := match permissions with Some ps => _sorted ps | None => sr_permissions r end |>);
  _ ← audit_log (Some (u_id actor)) "staff_role.updated" "staff_role" (Some (sr_id new))
        (JObj [("before", role_details role); ("after", role_details new)]);
  mret new.

Definition delete_role (actor : User) (role_id : uuid) : M unit :=
  role ← get_role role_id;
  _ ← raise_if (sr_is_system role) (EAccount SystemRoleError);
  members ← count_assignments (sr_id role);
  _ ← raise_if (negb (members =? 0)) (EAccount (RoleInUseError members));
  _ ← delete_staff_role (sr_id role);
  audit_log (Some (u_id actor)) "staff_role.deleted" "staff_role" (Some role_id) (JObj [("name", JStr (sr_name role))]).

Definition assign_role (actor : User) (user_id role_id : uuid) : M (User * StaffRoleAssignment) :=
  _ ← ensure_system_roles;
  role ← get_role role_id;
  found ← get_active_admin user_id;
  target ← of_option found (EAccount StaffMemberNotFoundError);
  previous ← db_gets (λ d, role_of d user_id);
  _ ← assert_role_manager_remains [(user_id, NewRole role)] None;
  assignment ← set_assignment user_id (sr_id role) (u_id actor);
  _ ← audit_log (Some (u_id actor)) "staff.role_assigned" "user" (Some user_id)
        (JObj [("from", j_opt JStr (sr_name <$> previous)); ("to", JStr (sr_name role))]);
  mret (target, assignment).

Definition start_with_no_access (actor : User) (user_id : uuid) : M unit :=
  _ ← ensure_system_roles;
  _ ← set_assignment user_id NO_ACCESS_ROLE_ID (u_id actor);
  audit_log (Some (u_id actor)) "staff.role_assigned" "user" (Some user_id)
    (JObj [("from", JNull); ("to", JStr NO_ACCESS_ROLE_NAME)]).

(** ** [UserService] *)

Definition _assert_not_last_admin (user : User) : M unit :=
  if negb (is_active_admin user) then mret tt
  else
    admins ← lock_active_admins;
    raise_if (forallb (λ a, String.eqb (u_id a.1) (u_id user)) admins) (EAccount LastAdminError).

Definition get_user (target_user_id : uuid) (current_user : User) : M User :=
  _ ← raise_if (negb (bool_decide (u_role current_user = ADMIN)) && negb (String.eqb (u_id current_user) target_user_id))
        (EAccount (ForbiddenActionError "You can only view your own profile"));
  found ← get_user_by_id target_user_id;
  of_option found (EAccount (UserNotFoundError target_user_id)).

(** [UserRepository.list_paginated] behind the check. *)
Definition list_users (current_user : User) (offset limit : Z) : M (list User * Z) :=
  _ ← raise_if (negb (bool_decide (u_role current_user = ADMIN))) (EAccount (ForbiddenActionError "Only administrators can list all users"));
  db_gets (λ d, let rows := order_by_desc u_created_at (rows_where (λ _, true) (d_users d)) in
             (take (Z.to_nat limit) (drop (Z.to_nat offset) rows), Z.of_nat (length rows))).

Definition update_user (target_user_id : uuid) (current_user : User) (username email : option string) (role : option UserRole) : M User :=
  let admin := bool_decide (u_role current_user = ADMIN) in
  let own := String.eqb (u_id current_user) target_user_id in
  _ ← raise_if (negb admin && negb own) (EAccount (ForbiddenActionError "You can only update your own profile"));
  _ ← raise_if (negb (opt_eqb role None) && negb admin) (EAccount (ForbiddenActionError "Only administrators can change roles"));
  found ← get_user_by_id target_user_id;
  user ← of_option found (EAccount (UserNotFoundError target_user_id));
  _ ← (match role with Some ADMIN | None => mret tt | Some USER => _assert_not_last_admin user end);
  let new_email := match email with Some e => if String.eqb e (u_email user) then None else Some e | None => None end in
  _ ← raise_if (negb (opt_eqb new_email None) && own)
        (EAccount (ForbiddenActionError "Change your email address with POST /auth/email/change"));
  update_user_row target_user_id (λ u,
    let u := u <| u_username := default (u_username u) username |> in
    let u := match new_email with Some e => u <| u_email := e |> <| u_email_verified_at := None |> | None => u end in
    u <| u_role := default (u_role u) role |>).

Definition deactivate_user (target_user_id : uuid) (current_user : User) : M User :=
  _ ← raise_if (negb (bool_decide (u_role current_user = ADMIN)) && negb (String.eqb (u_id current_user) target_user_id))
        (EAccount (ForbiddenActionError "You can only deactivate your own account"));
  found ← get_user_by_id target_user_id;
  user ← of_option found (EAccount (UserNotFoundError target_user_id));
  _ ← _assert_not_last_admin user;
  update_user_row target_user_id (λ u, u <| u_is_active := false |>).

(** ** The endpoints *)

Section endpoints.
Context `{!Jwt}.

Definition require_permission (permission : Permission) (credentials : string) : M User :=
  user ← get_current_user credentials;
  admin ← require_admin user;
  _ ← require admin permission;
  mret admin.

Record UserUpdate := MkUserUpdate { uu_username : option string; uu_email : option string; uu_role : option UserRole }.
Definition role_value (r : UserRole) : string := match r with USER => "user" | ADMIN => "admin" end.

Definition update_user_endpoint (user_id : uuid) (payload : UserUpdate) (credentials : string) : M User :=
  current_user ← get_current_user credentials;
  _ ← (if bool_decide (u_role current_user = ADMIN) then
         _ ← (if negb (String.eqb user_id (u_id current_user)) then require current_user CUSTOMERS_MANAGE else mret tt);
         if negb (opt_eqb (uu_role payload) None) then require current_user ROLES_MANAGE else mret tt
       else mret tt);
  previous_role ← (match uu_role payload with
                   | Some _ => existing ← get_user user_id current_user; mret (Some (u_role existing))
                   | None => mret None
                   end);
  user ← update_user user_id current_user (uu_username payload) (uu_email payload) (uu_role payload);
  match uu_role payload, previous_role with
  | Some _, Some previous =>
      _ ← (if bool_decide (previous = ADMIN) && negb (bool_decide (u_role user = ADMIN)) then
             _ ← assert_role_manager_remains [(u_id user, LEAVES_STAFF)] None;
             remove_assignment (u_id user)
           else mret tt);
      _ ← (if negb (bool_decide (previous = ADMIN)) && bool_decide (u_role user = ADMIN)
           then start_with_no_access current_user (u_id user) else mret tt);
      _ ← (if negb (bool_decide (previous = u_role user)) then
             audit_log (Some (u_id current_user)) "user.role_changed" "user" (Some (u_id user))
               (JObj [("from", JStr (role_value previous)); ("to", JStr (role_value (u_role user)))])
           else mret tt);
      mret user
  | _, _ => mret user
  end.

Definition deactivate_user_endpoint (user_id : uuid) (credentials : string) : M unit :=
  current_user ← get_current_user credentials;
  _ ← (if bool_decide (u_role current_user = ADMIN) then
         _ ← (if negb (String.eqb user_id (u_id current_user)) then require current_user CUSTOMERS_MANAGE else mret tt);
         target ← get_user user_id current_user;
         if is_active_admin target then assert_role_manager_remains [(user_id, LEAVES_STAFF)] None else mret tt
       else mret tt);
  _ ← deactivate_user user_id current_user;
  audit_log (Some (u_id current_user)) "user.deactivated" "user" (Some user_id)
    (JObj [("self_service", JBool (String.eqb (u_id current_user) user_id))]).

Definition my_access (credentials : string) : M (bool * option StaffRole * list string) :=
  user ← get_current_user credentials;
  r ← resolve user;
  mret (is_active_admin user, r.2, sort_str (map perm_value (remove_dups r.1))).
Definition list_roles_endpoint (credentials : string) : M (list (StaffRole * Z)) :=
  _ ← require_permission ROLES_MANAGE credentials; list_roles.
Definition create_role_endpoint (credentials name : string) (description : option string) (permissions : list Permission) : M StaffRole :=
  admin ← require_permission ROLES_MANAGE credentials;
  create_role admin name description permissions.
Definition update_role_endpoint (credentials : string) (role_id : uuid) (name : option string) (description : option (option string))
    (permissions : option (list Permission)) : M StaffRole :=
  admin ← require_permission ROLES_MANAGE credentials;
  update_role admin role_id name description permissions.
Definition delete_role_endpoint (credentials : string) (role_id : uuid) : M unit :=
  admin ← require_permission ROLES_MANAGE credentials; delete_role admin role_id.
Definition assign_role_endpoint (credentials : string) (user_id role_id : uuid) : M (User * StaffRoleAssignment) :=
  admin ← require_permission ROLES_MANAGE credentials; assign_role admin user_id role_id.
End endpoints.

(** ** Every operation keeps the tables sound *)

Section roles_sound.
Context `{!Jwt}.

Lemma guar_ensure_system_roles : guar step ensure_system_roles.
Proof. unfold ensure_system_roles. solve_guar. Qed.
Lemma guar_require u p : guar step (require u p).
Proof. unfold require, has, resolve. solve_guar. Qed.
Lemma guar_require_permission p c : guar step (require_permission p c).
Proof. unfold require_permission, require_admin. solve_guar; apply guar_require. Qed.
Lemma guar_assert_role_manager u r : guar step (assert_role_manager_remains u r).
Proof. unfold assert_role_manager_remains, lock_active_admins. solve_guar. Qed.
Lemma guar_get_user a b : guar step (get_user a b).
Proof. unfold get_user, get_user_by_id. solve_guar. Qed.
Lemma guar_not_last_admin u : guar step (_assert_not_last_admin u).
Proof. unfold _assert_not_last_admin, lock_active_admins. solve_guar. Qed.
#[local] Hint Resolve guar_ensure_system_roles guar_require guar_require_permission guar_assert_role_manager guar_get_user guar_not_last_admin : guar.
Lemma guar_start_with_no_access a u : guar step (start_with_no_access a u).
Proof. unfold start_with_no_access, set_assignment. cbv zeta. solve_guar. Qed.
Lemma guar_remove_assignment u : guar step (remove_assignment u).
Proof. unfold remove_assignment, get_assignment. solve_guar. Qed.
Lemma guar_update_user a b c d e : guar step (update_user a b c d e).
Proof. unfold update_user, get_user_by_id. cbv zeta. solve_guar. Qed.
#[local] Hint Resolve guar_start_with_no_access guar_remove_assignment guar_update_user : guar.

Lemma guar_update_user_endpoint a b c : guar step (update_user_endpoint a b c).
Proof. unfold update_user_endpoint. solve_guar. Qed.
Lemma guar_deactivate_user_endpoint a b : guar step (deactivate_user_endpoint a b).
Proof. unfold deactivate_user_endpoint, deactivate_user, get_user_by_id. solve_guar. Qed.
Lemma guar_list_roles_endpoint c : guar step (list_roles_endpoint c).
Proof. unfold list_roles_endpoint, list_roles, list_role_rows. solve_guar. Qed.
Lemma guar_create_role_endpoint a b c d : guar step (create_role_endpoint a b c d).
Proof. unfold create_role_endpoint, create_role, name_taken. cbv zeta. solve_guar. Qed.
Lemma guar_update_role_endpoint a b c d e : guar step (update_role_endpoint a b c d e).
Proof. unfold update_role_endpoint, update_role, get_role, get_role_row, name_taken. solve_guar. Qed.
Lemma guar_delete_role_endpoint a b : guar step (delete_role_endpoint a b).
Proof. unfold delete_role_endpoint, delete_role, get_role, get_role_row, count_assignments. solve_guar. Qed.
Lemma guar_assign_role_endpoint a b c : guar step (assign_role_endpoint a b c).
Proof. unfold assign_role_endpoint, assign_role, get_role, get_role_row, get_active_admin, set_assignment. cbv zeta. solve_guar. Qed.
End roles_sound.
#[export] Hint Resolve guar_require_permission guar_update_user_endpoint guar_deactivate_user_endpoint guar_list_roles_endpoint
  guar_create_role_endpoint guar_update_role_endpoint guar_delete_role_endpoint guar_assign_role_endpoint : guar.
