(* ===== verification/Graphql.v ===== *)
(** * GraphQL: a second way in to the accounts

    [app/graphql]: the context that signs a request in ([context.py]), the fields of the schema ([queries/user.py],
    [mutations/user.py] with the types of [types/user.py] and the arguments of [inputs/user.py]), and the switch of [main.py].
    A document's fields are resolved one after another on the request's one session by the GraphQL engine, which is not part of
    the repository: a request is given with the fields that the engine resolves, so that a document whose engine stops at a
    field that failed is the list up to it. The engine turns an exception of a field into an entry of the answer, so the
    session is committed all the same; after a statement that the database refused the session can only be rolled back. *)

From S2P Require Import Prelude Errors Schema Guards Evolution Repositories Frames Runs Accounts Roles.

Local Open Scope string_scope.
Local Open Scope list_scope.
Local Open Scope Z_scope.

(** ** The schema's types *)

Record UserType := MkUserType { ut_id : uuid; ut_username : string; ut_email : string; ut_role : string; ut_is_active : bool }.
Definition from_model (u : User) : UserType := MkUserType (u_id u) (u_username u) (u_email u) (role_value (u_role u)) (u_is_active u).
Record UserPage := MkUserPage { up_items : list UserType; up_total : Z; up_page : Z; up_page_size : Z; up_total_pages : Z }.
Record UpdateUserInput := MkUpdateUserInput {
  ui_user_id : uuid; ui_username : option string; ui_email : option string; ui_role : option UserRole }.
Inductive Field :=
  | Me
  | UserById (id : uuid)
  | Users (page page_size : Z)
  | GUpdateUser (input : UpdateUserInput)
  | GDeactivateUser (user_id : uuid).
Inductive Data :=
  | OneUser (u : UserType)
  | PageOfUsers (p : UserPage)
  | Deactivated (done : bool).

(** ** The context *)

(** [authorization.partition(" ")] *)
Definition partition_space (s : string) : string * string :=
  match String.index 0 " " s with
  | Some n => (String.substring 0 n s, String.substring (S n) (String.length s) s)
  | None => (s, "")
  end.
Definition get_bearer_credentials (authorization : option string) : option string :=
  match authorization with
  | None => None
  | Some a => let '(scheme, token) := partition_space a in
      if negb (String.eqb (py_lower scheme) "bearer") || String.eqb token "" then None else Some token
  end.

(** [shared/limits.py] *)
Definition MAX_PAGE : Z := 10000.
Definition MAX_PAGE_SIZE : Z := 100.

Section graphql.
Context `{!AccountSettings} `{!Jwt}.

Definition get_graphql_context (authorization : option string) : M User :=
  credentials ← of_option (get_bearer_credentials authorization) (EAccount NotAuthenticated);
  get_current_user credentials.

(** ** The resolvers *)

Definition users_query (current_user : User) (page page_size : Z) : M UserPage :=
  _ ← raise_if (page <? 1) (ValueError "page must be greater than or equal to 1");
  _ ← raise_if (MAX_PAGE <? page) (ValueError ("page cannot exceed " +:+ str_Z MAX_PAGE));
  _ ← raise_if (page_size <? 1) (ValueError "page_size must be greater than or equal to 1");
  _ ← raise_if (MAX_PAGE_SIZE <? page_size) (ValueError ("page_size cannot exceed " +:+ str_Z MAX_PAGE_SIZE));
  found ← list_users current_user ((page - 1) * page_size) page_size;
  mret (MkUserPage (map from_model found.1) found.2 page page_size ((found.2 + page_size - 1) `div` page_size)).
Definition resolve_field (current_user : User) (field : Field) : M Data :=
  match field with
  | Me => mret (OneUser (from_model current_user))
  | UserById i => user ← get_user i current_user; mret (OneUser (from_model user))
  | Users page page_size => found ← users_query current_user page page_size; mret (PageOfUsers found)
  | GUpdateUser i =>
      user ← update_user (ui_user_id i) current_user (ui_username i) (ui_email i) (ui_role i);
      mret (OneUser (from_model user))
  | GDeactivateUser i => user ← deactivate_user i current_user; mret (Deactivated (negb (u_is_active user)))
  end.

(** The context's user is the session's object for its row: a field that changes the row changes it for the fields after. *)
Definition session_user (u : User) : M User := db_gets (λ d, default u (d_users d !! u_id u)).
Definition PENDING_ROLLBACK : Err := RuntimeError "PendingRollbackError".
Definition answer_of (m : M Data) : M (Err + Data) :=
  try_catch (data ← m; mret (inr data))
    (λ e, match e with EAccount _ | ValueError _ => Some (mret (inl e)) | _ => Some (raise PENDING_ROLLBACK) end).
Definition execute (current_user : User) (fields : list Field) : M (list (Err + Data)) :=
  fold_m (λ answers field,
    user ← session_user current_user;
    answer ← answer_of (resolve_field user field);
    mret (answers ++ [answer])) [] fields.

(** [_require_graphql_enabled], the context and the document. *)
Definition graphql_endpoint (authorization : option string) (fields : list Field) : M (list (Err + Data)) :=
  _ ← raise_if (negb graphql_enabled) (EAccount GraphqlDisabled);
  current_user ← get_graphql_context authorization;
  execute current_user fields.

(** ** What it does to the tables *)

Lemma guar_answer_of (R : relation St) `{!Reflexive R, !Transitive R} m : guar R m → guar R (answer_of m).
Proof.
  intros Hm. apply guar_try; [apply _|apply guar_bind; [apply _|exact Hm|intros; apply guar_ret, _]|].
  intros e k. destruct e; intros [= <-]; first [apply guar_ret; apply _|apply guar_raise; apply _].
Qed.
Lemma guar_execute (R : relation St) `{!Reflexive R, !Transitive R} u fields :
  (∀ u f, guar R (resolve_field u f)) → guar R (execute u fields).
Proof.
  intros Hf. apply guar_fold_m; [apply _..|]. intros b f. apply guar_bind; [apply _|apply guar_gets, _|]. intros v.
  apply guar_bind; [apply _|by apply guar_answer_of|]. intros a. apply guar_ret, _.
Qed.
Lemma guar_resolve_field u f : guar step (resolve_field u f).
Proof.
  destruct f; cbn [resolve_field]; unfold users_query, list_users, get_user, update_user, deactivate_user, _assert_not_last_admin,
    lock_active_admins, get_user_by_id; cbv zeta; solve_guar.
Qed.
Lemma guar_graphql_endpoint a fields : guar step (graphql_endpoint a fields).
Proof.
  unfold graphql_endpoint, get_graphql_context. apply guar_bind; [apply _|solve_guar|]. intros _.
  apply guar_bind; [apply _|solve_guar|]. intros u. apply guar_execute; [apply _..|apply guar_resolve_field].
Qed.
End graphql.
#[export] Hint Resolve guar_graphql_endpoint : guar.
