(* ===== verification/Slugs.v ===== *)
(** * Names in addresses of pages

    [shared/utils/slugify.py], and the search for a free slug that [CategoryService] and [ProductService] share
    ([_unique_slug_for]): [name], [name-2], [name-3], ... until one is not taken. The loop has one round per taken slug and
    one more as fuel; [free_slug] shows it always ends within that, at the first candidate that is free. *)

From S2P Require Import Prelude Errors Schema.

Local Open Scope string_scope.
Local Open Scope list_scope.
Local Open Scope Z_scope.

Definition is_dash (c : Ascii.ascii) : bool := (Ascii.nat_of_ascii c =? 45)%nat.
(** [[a-z0-9\s-]] *)
Definition slug_char (c : Ascii.ascii) : bool :=
  let n := Ascii.nat_of_ascii c in ((97 <=? n)%nat && (n <=? 122)%nat) || ((48 <=? n)%nat && (n <=? 57)%nat) || is_space c || is_dash c.
Definition slugify (text : string) : string :=
  let text := py_strip (py_lower text) in
  let text := drop_chars (λ c, negb (slug_char c)) text in
  let text := collapse (λ c, is_space c || is_dash c) (Ascii.ascii_of_nat 45) false text in
  strip_of is_dash text.

(** The loop, on the slugs that are taken; [None] when the fuel is spent. *)
Fixpoint slug_loop (fuel : nat) (taken : string → bool) (base_slug candidate : string) (suffix : Z) : option string :=
  match fuel with
  | O => None
  | S fuel => if taken candidate then slug_loop fuel taken base_slug (base_slug +:+ "-" +:+ str_Z suffix) (suffix + 1) else Some candidate
  end.
Definition unique_slug (taken : list string) (name : string) : option string :=
  slug_loop (S (length taken)) (λ s, bool_decide (s ∈ taken)) (slugify name) (slugify name) 2.

(** ** The search ends *)

(** The candidate of round [n]. *)
Definition slug_candidate (base : string) (n : nat) : string :=
  match n with O => base | S n => base +:+ "-" +:+ str_Z (Z.of_nat n + 2) end.

Lemma append_longer a b c : a +:+ String c b ≠ a.
Proof. induction a as [|x a IH]; cbn; [done|]. intros [= Heq]. by apply IH. Qed.
#[export] Instance slug_candidate_inj base : Inj (=) (=) (slug_candidate base).
Proof.
  intros [|m] [|n]; cbn; intros Heq; [done|symmetry in Heq|..]; try by apply append_longer in Heq.
  apply (inj (String.append base)), (inj (String.append "-")), (inj (pretty : Z → string)) in Heq. f_equal. lia.
Qed.

Lemma slug_loop_spec fuel taken base n :
  slug_loop fuel taken base (slug_candidate base n) (Z.of_nat n + 2) =
  option_map (slug_candidate base) (List.find (λ i, negb (taken (slug_candidate base i))) (seq n fuel)).
Proof.
  revert n. induction fuel as [|fuel IH]; intros n; cbn [slug_loop seq List.find]; [done|].
  destruct (taken (slug_candidate base n)) eqn:Ht; cbn; [|done]. rewrite <-IH. f_equal. lia.
Qed.
(** Of more candidates than taken slugs, one is free. *)
Lemma some_free base (taken : list string) : ∃ i, (i ≤ length taken)%nat ∧ slug_candidate base i ∉ taken.
Proof.
  destruct (decide (Forall (λ i, slug_candidate base i ∈ taken) (seq 0 (S (length taken))))) as [Hall|Hnot].
  - exfalso. assert (length (map (slug_candidate base) (seq 0 (S (length taken)))) ≤ length taken)%nat as Hlen.
    { apply submseteq_length, NoDup_submseteq.
      - apply NoDup_fmap_2; [apply _|]. apply NoDup_seq.
      - intros x (i & -> & Hi)%list_elem_of_fmap. by eapply Forall_forall in Hall. }
    rewrite length_map, length_seq in Hlen. lia.
  - apply not_Forall_Exists, Exists_exists in Hnot as (i & Hi & Hni); [|apply _]. exists i. split; [|done].
    apply elem_of_seq in Hi. lia.
Qed.
Lemma find_seq (p : nat → bool) n fuel i :
  List.find p (seq n fuel) = Some i ↔ (n ≤ i < n + fuel)%nat ∧ p i = true ∧ ∀ j, (n ≤ j < i)%nat → p j = false.
Proof.
  revert n. induction fuel as [|fuel IH]; intros n; cbn; [split; [done|lia]|]. destruct (p n) eqn:Hp.
  - split.
    + intros [= ->]. split_and!; [lia..|done|lia].
    + intros (Hr & Hi & Hj). f_equal. destruct (decide (n = i)); [done|]. rewrite (Hj n) in Hp; [done|lia].
  - rewrite IH. split; intros (Hr & Hi & Hj); (split; [|split; [done|]]).
    + lia.
    + intros j Hj'. destruct (decide (j = n)) as [->|]; [done|]. apply Hj. lia.
    + destruct (decide (n = i)) as [->|]; [congruence|lia].
    + intros j Hj'. apply Hj. lia.
Qed.

(** The slug found is the first candidate that is not taken, and there always is one. *)
Lemma unique_slug_first taken name :
  ∃ n, unique_slug taken name = Some (slug_candidate (slugify name) n) ∧ (n ≤ length taken)%nat ∧
    slug_candidate (slugify name) n ∉ taken ∧ ∀ j, (j < n)%nat → slug_candidate (slugify name) j ∈ taken.
Proof.
  unfold unique_slug. pose proof (slug_loop_spec (S (length taken)) (λ s, bool_decide (s ∈ taken)) (slugify name) 0) as Hl.
  change (Z.of_nat 0 + 2) with 2 in Hl. cbn [slug_candidate] in Hl. rewrite Hl. clear Hl. destruct (some_free (slugify name) taken) as (i & Hi & Hfree).
  destruct (List.find _ _) as [n|] eqn:Hf.
  - apply find_seq in Hf as (Hr & Hp & Hj). exists n. cbn. split_and!; [done|lia|..].
    + by apply negb_true_iff, bool_decide_eq_false in Hp.
    + intros j Hlt. specialize (Hj j ltac:(lia)). by apply negb_false_iff, bool_decide_eq_true in Hj.
  - exfalso. eapply find_none in Hf; [|apply in_seq; cbn; split; [lia|]; instantiate (1 := i); lia].
    by apply negb_false_iff, bool_decide_eq_true in Hf.
Qed.
