(* ===== verification/Images.v ===== *)
(** * Uploaded images

    [shared/utils/image_validation.py]: what an uploaded file must look like, by its size, its declared type, its first
    bytes and its name; the paths of [core/storage/local.py]; and the way [CategoryService] and [ProductService] replace and
    remove the image of a row. Where files are kept is the interface [Storage] ([core/storage/interface.py]), which the
    file system or an object store implements. Bytes are the characters of a string. *)

From S2P Require Import Prelude Errors Schema Guards Evolution.

Local Open Scope string_scope.
Local Open Scope list_scope.
Local Open Scope Z_scope.

(** The settings ([app/core/config.py]) of the catalogue. *)
Class CatalogueSettings := {
  max_image_bytes : Z;
  tax_classification_required : bool;
  low_stock_display_threshold : Z;
  public_stock_visibility : string
}.

(** [fastapi.UploadFile] *)
Record UploadFile := MkUpload { uf_filename : option string; uf_content_type : option string; uf_size : option Z; uf_file : string }.

(** ** Validation *)

Definition ALLOWED_IMAGE_CONTENT_TYPES : list string := ["image/jpeg"; "image/png"; "image/webp"].
Definition ALLOWED_IMAGE_EXTENSIONS : list string := ["jpg"; "jpeg"; "png"; "webp"].
Definition _EXTENSION_FOR_TYPE (t : string) : option string :=
  if String.eqb t "image/jpeg" then Some "jpg" else if String.eqb t "image/png" then Some "png"
  else if String.eqb t "image/webp" then Some "webp" else None.

Definition bytes (l : list nat) : string := foldr (λ n s, String (Ascii.ascii_of_nat n) s) "" l.
Definition _PNG_SIGNATURE : string := bytes [137; 80; 78; 71; 13; 10; 26; 10]%nat.
Definition _JPEG_SIGNATURE : string := bytes [255; 216; 255]%nat.
Definition _SNIFF_LENGTH : nat := 12.

Definition sniff_image_type (header : string) : option string :=
  if String.prefix _PNG_SIGNATURE header then Some "image/png"
  else if String.prefix _JPEG_SIGNATURE header then Some "image/jpeg"
  else if String.eqb (String.substring 0 4 header) "RIFF" && String.eqb (String.substring 8 4 header) "WEBP" then Some "image/webp"
  else None.
Definition _read_header (image : UploadFile) : string := String.substring 0 _SNIFF_LENGTH (uf_file image).

(** The text after the last dot, if there is a dot: [filename.rsplit(".", 1)[-1]]. *)
Fixpoint after_last_dot (s : string) : option string :=
  match s with
  | EmptyString => None
  | String c r =>
      match after_last_dot r with
      | Some e => Some e
      | None => if (Ascii.nat_of_ascii c =? 46)%nat then Some r else None
      end
  end.
Definition get_image_extension (filename : option string) : Err + string :=
  match f ← filename; after_last_dot f with
  | None => inl (ECatalogue (InvalidImageError "Image must have a valid file extension."))
  | Some e =>
      let extension := py_lower e in
      if bool_decide (extension ∈ ALLOWED_IMAGE_EXTENSIONS) then inr (if String.eqb extension "jpeg" then "jpg" else extension)
      else inl (ECatalogue (InvalidImageError "Unsupported image extension."))
  end.

Section images.
Context `{!CatalogueSettings}.

Definition invalid {A} (message : string) : Err + A := inl (ECatalogue (InvalidImageError message)).
Definition validate_image (image : UploadFile) : Err + unit :=
  if match uf_size image with Some n => max_image_bytes <? n | None => false end then
    invalid ("The image is too large (the limit is " +:+ str_Z (max_image_bytes / (1024 * 1024)) +:+ " MB).")
  else if negb (existsb (λ t, opt_eqb (uf_content_type image) (Some t)) ALLOWED_IMAGE_CONTENT_TYPES) then
    invalid "Only JPEG, PNG and WebP images are allowed."
  else
    match sniff_image_type (_read_header image) with
    | None => invalid "The uploaded file is not a valid JPEG, PNG or WebP image."
    | Some actual_type =>
        if negb (opt_eqb (uf_content_type image) (Some actual_type)) then invalid "The file content does not match its declared image type."
        else
          match get_image_extension (uf_filename image) with
          | inl e => inl e
          | inr extension =>
              if negb (opt_eqb (_EXTENSION_FOR_TYPE actual_type) (Some extension)) then
                invalid "The file extension does not match the image content."
              else inr tt
          end
    end.
End images.

(** ** Where files are kept *)

(** [StorageService] *)
Class Storage := {
  storage_upload : UploadFile → string → string → M unit;
  storage_delete : string → M unit;
  storage_url : string → string
}.
(** Keeping files is not the database's business: a call may fail, and leaves the state alone. *)
Class StorageOk `{!Storage} : Prop := {
  upload_keeps : ∀ f path ct s, (storage_upload f path ct s).2 = s;
  delete_keeps : ∀ path s, (storage_delete path s).2 = s
}.

(** [LocalStorageService._get_safe_path], on the parts of a path: the root's, then those of the relative path with [..] going up. *)
Definition resolve_parts (parts : list string) : list string :=
  rev (foldl (λ up p, if String.eqb p ".." then tail up else if bool_decide (p ∈ [""; "."]) then up else p :: up) [] parts).
Fixpoint split_slash (s : string) (part : string) : list string :=
  match s with
  | EmptyString => [part]
  | String c r => if (Ascii.nat_of_ascii c =? 47)%nat then part :: split_slash r "" else split_slash r (part +:+ String c "")
  end.
Definition _get_safe_path (root : list string) (path : string) : Err + list string :=
  let parts := split_slash path "" in
  let base := if String.prefix "/" path then [] else root in
  let destination := resolve_parts (base ++ parts) in
  if bool_decide (take (length root) destination = root) then inr destination else inl (ValueError "Invalid storage path").

(** ** The image of a row *)

Section replace.
Context `{!CatalogueSettings} `{!Storage}.

(** The common part of [upload_category_image] and [upload_product_image]: [folder] and the id of the row make the path,
    [save] writes the row. *)
Definition upload_image {A} (folder : string) (row_id : Z) (old_image_path : option string) (image : UploadFile) (save : string → M A) : M A :=
  _ ← of_sum (validate_image image);
  extension ← of_sum (get_image_extension (uf_filename image));
  name ← new_uuid;
  let path := folder +:+ "/" +:+ str_Z row_id +:+ "/" +:+ name +:+ "." +:+ extension in
  let content_type := match uf_content_type image with Some t => if String.eqb t "" then "application/octet-stream" else t
                                                       | None => "application/octet-stream" end in
  _ ← storage_upload image path content_type;
  row ← try_catch (save path) (λ e, Some (_ ← storage_delete path; raise e));
  _ ← (match old_image_path with
       | Some old => if String.eqb old "" then mret tt else storage_delete old
       | None => mret tt
       end);
  mret row.
(** The common part of [delete_category_image] and [delete_product_image]. *)
Definition delete_image {A} (row : A) (old_image_path : option string) (save : M A) : M A :=
  match old_image_path with
  | None => mret row
  | Some old => new ← save; _ ← storage_delete old; mret new
  end.

Context `{!StorageOk}.

Lemma guar_storage_upload f p c : guar step (storage_upload f p c).
Proof. intros s. rewrite upload_keeps. reflexivity. Qed.
Lemma guar_storage_delete p : guar step (storage_delete p).
Proof. intros s. rewrite delete_keeps. reflexivity. Qed.
Lemma guar_upload_image {A} folder k old f (save : string → M A) :
  (∀ p, guar step (save p)) → guar step (upload_image folder k old f save).
Proof.
  pose proof guar_storage_upload. pose proof guar_storage_delete. intros Hs. unfold upload_image. cbv zeta. solve_guar.
  apply guar_try; [apply _|done|]. intros ? ? [= <-]. solve_guar.
Qed.
Lemma guar_delete_image {A} (row : A) old save : guar step save → guar step (delete_image row old save).
Proof. pose proof guar_storage_delete. intros Hs. unfold delete_image. solve_guar. Qed.
End replace.

(** Validation accepts exactly files whose bytes, declared type and name agree on an allowed kind of image, within the limit. *)
Lemma sniff_allowed header t : sniff_image_type header = Some t → t ∈ ALLOWED_IMAGE_CONTENT_TYPES ∧ ∃ e, _EXTENSION_FOR_TYPE t = Some e.
Proof.
  unfold sniff_image_type. repeat case_match; intros [= <-]; (split; [set_solver|by eexists]).
Qed.
