(* ===== verification/Categories.v ===== *)
(** * Categories

    [categories/services/category_service.py] with its repository and [api/router.py]. A category is never deleted: it is
    deactivated. The list of categories is read through a cache, which is not modelled. *)

From S2P Require Import Prelude Errors Schema Guards CatalogueGuards Evolution CatalogueEvolution Repositories Frames Runs Accounts Roles.
From S2P Require Import Slugs Images.

Local Open Scope string_scope.
Local Open Scope list_scope.
Local Open Scope Z_scope.

(** ** The repository *)

Definition get_category_by_id (category_id : Z) : M (option Category) := db_gets (λ d, d_categories d !! category_id).
Definition get_category_by_name (name : string) : M (option Category) :=
  rows ← db_gets (λ d, rows_where (λ c, String.eqb (cat_name c) name) (d_categories d));
  scalar_one_or_none rows.
Definition category_slugs (d : DB) : list string := map cat_slug (rows_where (λ _, true) (d_categories d)).
Definition list_category_rows (offset limit : nat) : M (list Category * Z) :=
  db_gets (λ d, let rows := rows_where (λ _, true) (d_categories d) in
                (take limit (drop offset (sort_on cat_name rows)), Z.of_nat (length rows))).

(** ** The service *)

(** The loop of [_unique_slug_for] on the slugs [taken] reads off the database. *)
Definition _unique_slug_for (taken : DB → list string) (name : string) : M string :=
  slugs ← db_gets taken;
  of_option (unique_slug slugs name) (RuntimeError "the loop goes on").

Definition create_category (name : string) (description : option string) : M Category :=
  existing ← get_category_by_name name;
  _ ← raise_if (negb (bool_decide (existing = None))) (ECatalogue (CategoryNameAlreadyExistsError name));
  slug ← _unique_slug_for category_slugs name;
  cid ← new_id;
  let c := MkCategory cid name slug description None true in
  _ ← insert_category c;
  mret c.
Definition get_category (category_id : Z) : M Category :=
  found ← get_category_by_id category_id; of_option found (ECatalogue (CategoryNotFoundError category_id)).
Definition update_category (category_id : Z) (name description : option string) (is_active : option bool) : M Category :=
  category ← get_category category_id;
  renamed ← (match name with
             | Some n =>
                 if String.eqb n (cat_name category) then mret None
                 else
                   existing ← get_category_by_name n;
                   _ ← raise_if (negb (bool_decide (existing = None))) (ECatalogue (CategoryNameAlreadyExistsError n));
                   slug ← _unique_slug_for category_slugs n;
                   mret (Some (n, slug))
             | None => mret None
             end);
  update_category_row category_id (λ c,
    c <| cat_name := match renamed with Some (n, _) => n | None => cat_name c end |>
      <| cat_slug := match renamed with Some (_, slug) => slug | None => cat_slug c end |>
      <| cat_description := match description with Some t => Some t | None => cat_description c end |>
      <| cat_is_active := default (cat_is_active c) is_active |>).
Definition deactivate_category (category_id : Z) : M Category :=
  _ ← get_category category_id;
  update_category_row category_id (λ c, c <| cat_is_active := false |>).

Section images.
Context `{!CatalogueSettings} `{!Storage}.
Definition upload_category_image (category_id : Z) (image : UploadFile) : M Category :=
  category ← get_category category_id;
  upload_image "categories" category_id (cat_image_path category) image
    (λ path, update_category_row category_id (λ c, c <| cat_image_path := Some path |>)).
Definition delete_category_image (category_id : Z) : M Category :=
  category ← get_category category_id;
  delete_image category (cat_image_path category) (update_category_row category_id (λ c, c <| cat_image_path := None |>)).
End images.

(** ** The endpoints *)

Section endpoints.
Context `{!Jwt} `{!CatalogueSettings} `{!Storage}.

(** The image's address shown with a category. *)
Definition _to_category_read (category : Category) : Category * option string :=
  (category, match cat_image_path category with Some p => if String.eqb p "" then None else Some (storage_url p) | None => None end).

(** [payload.model_dump(exclude_unset=True, exclude_none=True)]: the fields with a value. *)
Definition dumped (fields : list (string * option json)) : json :=
  JObj (omap (λ f, match f.2 with Some v => Some (f.1, v) | None => None end) fields).

Definition create_category_endpoint (credentials name : string) (description : option string) : M (Category * option string) :=
  admin ← require_permission CATALOGUE_WRITE credentials;
  category ← create_category name description;
  _ ← audit_log (Some (u_id admin)) "category.created" "category" (Some (str_Z (cat_id category))) (JObj [("name", JStr (cat_name category))]);
  mret (_to_category_read category).
Definition list_categories_endpoint (offset limit : nat) : M (list (Category * option string) * Z) :=
  rows ← list_category_rows offset limit; mret (map _to_category_read rows.1, rows.2).
Definition get_category_endpoint (category_id : Z) : M (Category * option string) :=
  category ← get_category category_id; mret (_to_category_read category).
Definition update_category_endpoint (credentials : string) (category_id : Z) (name description : option string) (is_active : option bool) :
    M (Category * option string) :=
  admin ← require_permission CATALOGUE_WRITE credentials;
  category ← update_category category_id name description is_active;
  _ ← audit_log (Some (u_id admin)) "category.updated" "category" (Some (str_Z (cat_id category)))
        (dumped [("name", option_map JStr name); ("description", option_map JStr description); ("is_active", option_map JBool is_active)]);
  mret (_to_category_read category).
Definition deactivate_category_endpoint (credentials : string) (category_id : Z) : M unit :=
  admin ← require_permission CATALOGUE_WRITE credentials;
  _ ← deactivate_category category_id;
  audit_log (Some (u_id admin)) "category.deactivated" "category" (Some (str_Z category_id)) JNull.
Definition upload_category_image_endpoint (credentials : string) (category_id : Z) (image : UploadFile) : M (Category * option string) :=
  _ ← require_permission CATALOGUE_WRITE credentials;
  category ← upload_category_image category_id image; mret (_to_category_read category).
Definition delete_category_image_endpoint (credentials : string) (category_id : Z) : M (Category * option string) :=
  _ ← require_permission CATALOGUE_WRITE credentials;
  category ← delete_category_image category_id; mret (_to_category_read category).

(** ** Every operation keeps the tables sound *)

Context `{!StorageOk}.

Lemma guar_unique_slug taken name : guar step (_unique_slug_for taken name).
Proof. unfold _unique_slug_for. solve_guar. Qed.
Lemma guar_get_category_by_name n : guar step (get_category_by_name n).
Proof. unfold get_category_by_name. solve_guar. Qed.
Lemma guar_get_category c : guar step (get_category c).
Proof. unfold get_category, get_category_by_id. solve_guar. Qed.
#[local] Hint Resolve guar_unique_slug guar_get_category_by_name guar_get_category : guar.
Lemma guar_create_category_endpoint c n x : guar step (create_category_endpoint c n x).
Proof. unfold create_category_endpoint, create_category. cbv zeta. solve_guar. Qed.
Lemma guar_update_category_endpoint c i n x a : guar step (update_category_endpoint c i n x a).
Proof. unfold update_category_endpoint, update_category. solve_guar. Qed.
Lemma guar_deactivate_category_endpoint c i : guar step (deactivate_category_endpoint c i).
Proof. unfold deactivate_category_endpoint, deactivate_category. solve_guar. Qed.
Lemma guar_upload_category_image_endpoint c i f : guar step (upload_category_image_endpoint c i f).
Proof.
  unfold upload_category_image_endpoint, upload_category_image. solve_guar. apply guar_upload_image. intros ?. solve_guar.
Qed.
Lemma guar_delete_category_image_endpoint c i : guar step (delete_category_image_endpoint c i).
Proof.
  unfold delete_category_image_endpoint, delete_category_image. solve_guar. apply guar_delete_image. solve_guar.
Qed.
End endpoints.
#[export] Hint Resolve guar_unique_slug guar_get_category guar_create_category_endpoint guar_update_category_endpoint
  guar_deactivate_category_endpoint guar_upload_category_image_endpoint guar_delete_category_image_endpoint : guar.
