(* ===== verification/Products.v ===== *)
(** * Products

    [products/services/product_service.py] with its repository, [services/product_view.py], the payloads of
    [schemas/product.py] and [api/router.py]. The deferred rules of the database are checked where the request commits
    ([at_commit]). The list of products is read through a cache, which is not modelled. *)

From S2P Require Import Prelude Errors Schema Guards CatalogueGuards Evolution CatalogueEvolution Repositories Frames Runs Accounts Roles.
From S2P Require Import Slugs Images Categories.

Local Open Scope string_scope.
Local Open Scope list_scope.
Local Open Scope Z_scope.

(** ** The repository *)

Definition get_product_by_id (product_id : Z) : M (option Product) := db_gets (λ d, d_products d !! product_id).
Definition get_by_sku (sku : string) : M (option Product) :=
  rows ← db_gets (λ d, rows_where (λ p, String.eqb (p_sku p) sku) (d_products d));
  scalar_one_or_none rows.
Definition product_slugs (d : DB) : list string := map p_slug (rows_where (λ _, true) (d_products d)).

Definition variants_of (d : DB) (product_id : Z) : list ProductVariant :=
  order_by pv_id (rows_where (λ v, pv_product_id v =? product_id) (d_variants d)).
Definition options_of (d : DB) (product_id : Z) : list ProductOption :=
  order_by po_position (rows_where (λ o, po_product_id o =? product_id) (d_options d)).
Definition variants_for (product_id : Z) : M (list ProductVariant) := db_gets (λ d, variants_of d product_id).
Definition options_for (product_id : Z) : M (list ProductOption) := db_gets (λ d, options_of d product_id).

(** [_price_condition] *)
Definition in_range (min_price max_price : option Z) (x : Z) : bool :=
  match min_price with Some m => m <=? x | None => true end && match max_price with Some m => x <=? m | None => true end.
Definition _price_condition (d : DB) (min_price max_price : option Z) (p : Product) : bool :=
  (p_option_count p =? 0) && in_range min_price max_price (p_price_cents p)
  || (0 <? p_option_count p)
     && exists_row (λ v, (pv_product_id v =? p_id p) && pv_active v && in_range min_price max_price (default (p_price_cents p) (pv_price_override_cents v)))
          (d_variants d).

(** [text ILIKE pattern], with [%], [_] and the escape [\]. *)
Fixpoint like (fuel : nat) (pattern text : string) : bool :=
  match fuel with
  | O => false
  | S fuel =>
      match pattern, text with
      | EmptyString, EmptyString => true
      | EmptyString, _ => false
      | String "%" p, EmptyString => like fuel p ""
      | String "%" p, String _ t => like fuel p text || like fuel pattern t
      | String "\" (String c p), String x t => Ascii.eqb c x && like fuel p t
      | String "_" p, String _ t => like fuel p t
      | String c p, String x t => Ascii.eqb c x && like fuel p t
      | _, EmptyString => false
      end
  end.
Definition ilike (text pattern : string) : bool :=
  like (S (String.length pattern + String.length text)) (py_lower pattern) (py_lower text).

(** The keys of [sort]: by the creation, by the price range, by the name. *)
Inductive SortKey := ByCreated | ByPrice | ByName.
(** [_sort_column] with its direction: the order of two rows, ties broken by the id. *)
Definition row_before (key : SortKey) (descending : bool) (a b : Product) : Prop :=
  let '(x, y) := if descending then (b, a) else (a, b) in
  match key with
  | ByCreated => p_created_at x < p_created_at y ∨ p_created_at x = p_created_at y ∧ p_id a ≤ p_id b
  | ByPrice =>
      let price p := if descending then p_price_to p else p_price_from p in
      price x < price y ∨ price x = price y ∧ p_id a ≤ p_id b
  | ByName => str_le (p_name x) (p_name y) ∧ (p_name x = p_name y → p_id a ≤ p_id b)
  end.
#[export] Instance row_before_dec key descending a b : Decision (row_before key descending a b).
Proof. unfold row_before. destruct descending, key; cbn; apply _. Defined.

Definition product_filter (d : DB) (category_id : option Z) (search : option string) (min_price max_price : option Z) (include_inactive : bool)
    (p : Product) : bool :=
  match category_id with Some c => p_category_id p =? c | None => true end
  && match search with Some t => String.eqb t "" || ilike (p_name p) ("%" +:+ t +:+ "%") | None => true end
  && (opt_eqb min_price None && opt_eqb max_price None || _price_condition d min_price max_price p)
  && (include_inactive || bool_decide (p_status p = ACTIVE)).
Definition list_paginated (offset limit : nat) (category_id : option Z) (search : option string) (min_price max_price : option Z)
    (key : SortKey) (descending include_inactive : bool) : M (list Product * Z) :=
  db_gets (λ d,
    let rows := rows_where (product_filter d category_id search min_price max_price include_inactive) (d_products d) in
    (take limit (drop offset (merge_sort (row_before key descending) rows)), Z.of_nat (length rows))).

(** ** What is shown of a product ([product_view.py]) *)

Definition availability (stock threshold : Z) : string :=
  if stock <=? 0 then "out_of_stock" else if stock <=? threshold then "low_stock" else "in_stock".
Definition _RANK (a : string) : Z := if String.eqb a "in_stock" then 2 else if String.eqb a "low_stock" then 1 else 0.
(** [max(..., key=_RANK, default="out_of_stock")] *)
Definition best_of (l : list string) : string :=
  match l with [] => "out_of_stock" | a :: l => foldl (λ best x, if _RANK best <? _RANK x then x else best) a l end.

Record OptionRead := MkOptionRead { or_id : Z; or_name : string; or_values : list string; or_value_ids : list Z }.
Record VariantRead := MkVariantRead {
  vr_id : Z; vr_sku : string; vr_options : list (string * string); vr_price_cents : Z; vr_price_overridden : bool; vr_available : bool;
  vr_availability : string; vr_stock : option Z; vr_status : option string
}.
Record ProductView := MkView {
  vw_has_variants : bool; vw_price_cents : Z; vw_price_from_cents : Z; vw_price_to_cents : Z; vw_has_price_range : bool;
  vw_variant_count : Z; vw_available : bool; vw_availability : string; vw_stock : option Z; vw_base_price_cents : option Z;
  vw_options : option (list OptionRead); vw_variants : option (list VariantRead)
}.

(** [_value_labels]: the option and the text of a value id. *)
Definition _value_labels (options : list ProductOption) : gmap Z (string * string) :=
  list_to_map (rev (flat_map (λ o, map (λ v, (v.1, (po_name o, v.2))) (po_values o)) options)).
Definition status_text (active : bool) : string := if active then "active" else "inactive".
Definition variant_read (product : Product) (labels : gmap Z (string * string)) (is_admin show_exact : bool) (threshold : Z)
    (v : ProductVariant) : VariantRead :=
  MkVariantRead (pv_id v) (pv_sku v)
    (omap (λ i, x ← i; labels !! x) (take (Z.to_nat (p_option_count product)) [pv_value1_id v; pv_value2_id v; pv_value3_id v]))
    (effective_price v (p_price_cents product)) (negb (opt_eqb (pv_price_override_cents v) None))
    ((0 <? pv_stock v) && pv_active v) (availability (pv_stock v) threshold)
    (if show_exact then Some (pv_stock v) else None) (if is_admin then Some (status_text (pv_active v)) else None).

Section view.
Context `{!CatalogueSettings}.

(** [view_fields], with the rows [attach_variant_views] attached; [detail] when the option sets were attached too. *)
Definition view_fields (product : Product) (variants : list ProductVariant) (options : option (list ProductOption)) (is_admin : bool) : ProductView :=
  let threshold := low_stock_display_threshold in
  let show_exact := is_admin || String.eqb public_stock_visibility "exact" in
  let base := if is_admin then Some (p_price_cents product) else None in
  if p_option_count product =? 0 then
    MkView false (p_price_cents product) (p_price_cents product) (p_price_cents product) false 0 (0 <? p_stock product)
      (availability (p_stock product) threshold) (if show_exact then Some (p_stock product) else None) base None None
  else
    let active := List.filter pv_active variants in
    let '(first, others) := match map (λ v, effective_price v (p_price_cents product)) active with
                            | [] => (p_price_cents product, []) | x :: l => (x, l) end in
    let lowest := foldr Z.min first others in
    let highest := foldr Z.max first others in
    let best := best_of (map (λ v, availability (pv_stock v) threshold) active) in
    let counted := if is_admin then variants else active in
    MkView true lowest lowest highest (negb (lowest =? highest)) (Z.of_nat (length counted)) (negb (String.eqb best "out_of_stock")) best
      (if show_exact then Some (sumZ (map pv_stock counted)) else None) base
      (option_map (map (λ o, MkOptionRead (po_id o) (po_name o) (map snd (po_values o)) (map fst (po_values o)))) options)
      (option_map (λ os, map (variant_read product (_value_labels os) is_admin show_exact threshold) counted) options).
End view.

(** ** The service *)

Section service.
Context `{!CatalogueSettings}.

Definition _classification_status (classification_id : option Z) : M (option string) :=
  match classification_id with
  | None => mret None
  | Some c =>
      record ← db_gets (λ d, d_classifications d !! c);
      k ← of_option record (ECatalogue (InvalidTaxClassificationError c));
      mret (Some (tc_status k))
  end.
Definition _validate_assignment (classification_id : Z) : M unit :=
  status ← _classification_status (Some classification_id);
  raise_if (negb (opt_eqb status (Some "approved"))) (ECatalogue (ClassificationNotApprovedError classification_id)).
Definition _enforce_tax_required (status : ProductStatus) (classification_id : option Z) : M unit :=
  if negb tax_classification_required || negb (bool_decide (status = ACTIVE)) then mret tt
  else
    found ← _classification_status classification_id;
    raise_if (negb (opt_eqb found (Some "approved"))) (ECatalogue ProductTaxRequiredError).
Definition _validate_category (category_id : Z) : M unit :=
  category ← get_category_by_id category_id;
  raise_if (negb match category with Some c => cat_is_active c | None => false end) (ECatalogue (InvalidCategoryError category_id)).

Record ProductCreate := MkProductCreate {
  pc_name : string; pc_description : option string; pc_price_cents : Z; pc_sku : string; pc_stock : Z; pc_category_id : Z;
  pc_status : ProductStatus; pc_tax_classification_id : option Z; pc_unit : option string
}.
(** The last two fields can be sent as [null]: [None] when they are not sent. *)
Record ProductUpdate := MkProductUpdate {
  pu_name : option string; pu_description : option string; pu_price_cents : option Z; pu_stock : option Z; pu_stock_reason : option string;
  pu_category_id : option Z; pu_status : option ProductStatus; pu_tax_classification_id : option (option Z); pu_unit : option (option string)
}.

Definition create_product (payload : ProductCreate) : M Product :=
  _ ← _validate_category (pc_category_id payload);
  _ ← (match pc_tax_classification_id payload with Some c => _validate_assignment c | None => mret tt end);
  _ ← _enforce_tax_required (pc_status payload) (pc_tax_classification_id payload);
  existing ← get_by_sku (pc_sku payload);
  _ ← raise_if (negb (bool_decide (existing = None))) (ECatalogue (SkuAlreadyExistsError (pc_sku payload)));
  slug ← _unique_slug_for product_slugs (pc_name payload);
  pid ← new_id;
  t ← now;
  insert_product (MkProduct pid (pc_name payload) slug (pc_description payload) None (pc_price_cents payload) (pc_sku payload) (pc_stock payload)
    (pc_status payload) (pc_category_id payload) (pc_tax_classification_id payload) (pc_unit payload) 0 0 0 t).

Definition get_product (product_id : Z) (is_admin : bool) : M Product :=
  found ← get_product_by_id product_id;
  product ← of_option found (ECatalogue (ProductNotFoundError product_id));
  _ ← raise_if (negb (bool_decide (p_status product = ACTIVE)) && negb is_admin) (ECatalogue (ProductNotFoundError product_id));
  mret product.

(** The product, and the assignment that changed, for auditing. *)
Definition update_product (product_id : Z) (payload : ProductUpdate) (actor : uuid) : M (Product * option (option Z * option Z)) :=
  found ← get_product_by_id product_id;
  product ← of_option found (ECatalogue (ProductNotFoundError product_id));
  _ ← (match pu_tax_classification_id payload with Some (Some c) => _validate_assignment c | _ => mret tt end);
  let change := match pu_tax_classification_id payload with
                | Some c => if opt_eqb c (p_tax_classification_id product) then None else Some (p_tax_classification_id product, c)
                | None => None
                end in
  let final_status := default (p_status product) (pu_status payload) in
  variants ← variants_for product_id;
  _ ← raise_if (bool_decide (final_status = ACTIVE) && (0 <? p_option_count product) && negb (existsb pv_active variants))
        (ECatalogue ProductNeedsActiveVariantError);
  _ ← _enforce_tax_required final_status (default (p_tax_classification_id product) (pu_tax_classification_id payload));
  _ ← (match pu_category_id payload with Some c => _validate_category c | None => mret tt end);
  renamed ← (match pu_name payload with
             | Some n => if String.eqb n (p_name product) then mret None
                         else slug ← _unique_slug_for product_slugs n; mret (Some (n, slug))
             | None => mret None
             end);
  let updates (p : Product) :=
    p <| p_tax_classification_id := default (p_tax_classification_id p) (pu_tax_classification_id payload) |>
      <| p_unit := default (p_unit p) (pu_unit payload) |>
      <| p_category_id := default (p_category_id p) (pu_category_id payload) |>
      <| p_name := match renamed with Some (n, _) => n | None => p_name p end |>
      <| p_slug := match renamed with Some (_, s) => s | None => p_slug p end |>
      <| p_description := match pu_description payload with Some t => Some t | None => p_description p end |>
      <| p_price_cents := default (p_price_cents p) (pu_price_cents payload) |>
      <| p_stock := default (p_stock p) (pu_stock payload) |>
      <| p_status := default (p_status p) (pu_status payload) |> in
  new ← (match pu_stock payload with
         | Some stock =>
             let reason := py_strip (default "" (pu_stock_reason payload)) in
             _ ← raise_if (String.length reason <? 3)%nat (ECatalogue StockReasonRequiredError);
             if negb (stock =? p_stock product) then
               stock_change "admin_set" (Some actor) (Some reason) None (update_product_row product_id updates)
             else update_product_row product_id updates
         | None => update_product_row product_id updates
         end);
  mret (new, change).

Definition archive_product (product_id : Z) : M Product :=
  found ← get_product_by_id product_id;
  _ ← of_option found (ECatalogue (ProductNotFoundError product_id));
  update_product_row product_id (λ p, p <| p_status := ARCHIVED |>).

Context `{!Storage}.
Definition upload_product_image (product_id : Z) (image : UploadFile) : M Product :=
  found ← get_product_by_id product_id;
  product ← of_option found (ECatalogue (ProductNotFoundError product_id));
  upload_image "products" product_id (p_image_path product) image
    (λ path, update_product_row product_id (λ p, p <| p_image_path := Some path |>)).
Definition delete_product_image (product_id : Z) : M Product :=
  found ← get_product_by_id product_id;
  product ← of_option found (ECatalogue (ProductNotFoundError product_id));
  delete_image product (p_image_path product) (update_product_row product_id (λ p, p <| p_image_path := None |>)).
End service.

(** ** The endpoints *)

Section endpoints.
Context `{!Jwt} `{!CatalogueSettings} `{!Storage}.

(** The request commits: the deferred rules about the product are checked (a rule whose rows the request did not write held before). *)
Definition at_commit (product_id : Z) : M unit := d ← gets st_db; guard (deferred_violation product_id d).

Definition product_tax_state (classification_status : option string) : string :=
  match classification_status with
  | None => "unassigned"
  | Some s => if String.eqb s "approved" then "assigned_approved" else "assigned_unapproved"
  end.
Record ProductRead := MkProductRead {
  pr_product : Product; pr_category : Category; pr_image_url : option string; pr_view : ProductView;
  pr_unit : option string; pr_tax_classification : option TaxClassification; pr_tax_state : option string
}.
(** [_to_product_read], after [attach_variant_views]; [include_tax]: for the staff, [detail]: with the option sets. *)
Definition _to_product_read (d : DB) (product : Product) (include_tax detail : bool) : option ProductRead :=
  category ← d_categories d !! p_category_id product;
  let classification := c ← p_tax_classification_id product; d_classifications d !! c in
  Some (MkProductRead product category
    (match p_image_path product with Some p => if String.eqb p "" then None else Some (storage_url p) | None => None end)
    (view_fields product (variants_of d (p_id product)) (if detail then Some (options_of d (p_id product)) else None) include_tax)
    (if include_tax then p_unit product else None) (if include_tax then classification else None)
    (if include_tax then Some (product_tax_state (option_map tc_status classification)) else None)).
Definition show (product : Product) (include_tax detail : bool) : M ProductRead :=
  d ← gets st_db; of_option (_to_product_read d product include_tax detail) (RuntimeError "AttributeError").

Definition _is_admin (current_user : option User) : M bool :=
  match current_user with Some u => has u CATALOGUE_READ | None => mret false end.

Definition create_product_endpoint (credentials : string) (payload : ProductCreate) : M ProductRead :=
  admin ← require_permission CATALOGUE_WRITE credentials;
  product ← create_product payload;
  _ ← audit_log (Some (u_id admin)) "product.created" "product" (Some (str_Z (p_id product)))
        (JObj [("name", JStr (p_name product)); ("sku", JStr (p_sku product));
               ("tax_classification_id", j_opt JInt (p_tax_classification_id product))]);
  read ← show product true false;
  _ ← at_commit (p_id product);
  mret read.
Definition list_products_endpoint (credentials : option string) (offset limit : nat) (category_id : option Z) (search : option string)
    (min_price max_price : option Z) (key : SortKey) (descending : bool) : M (list ProductRead * Z) :=
  user ← get_optional_current_user credentials;
  is_admin ← _is_admin user;
  rows ← list_paginated offset limit category_id search min_price max_price key descending is_admin;
  items ← fold_m (λ acc p, r ← show p is_admin false; mret (acc ++ [r])) [] rows.1;
  mret (items, rows.2).
Definition get_product_endpoint (credentials : option string) (product_id : Z) : M ProductRead :=
  user ← get_optional_current_user credentials;
  is_admin ← _is_admin user;
  product ← get_product product_id is_admin;
  show product is_admin true.

Definition product_status_value (s : ProductStatus) : string := match s with DRAFT => "draft" | ACTIVE => "active" | ARCHIVED => "archived" end.
Definition update_product_endpoint (credentials : string) (product_id : Z) (payload : ProductUpdate) : M ProductRead :=
  admin ← require_permission CATALOGUE_WRITE credentials;
  r ← update_product product_id payload (u_id admin);
  let '(product, change) := r in
  _ ← audit_log (Some (u_id admin)) "product.updated" "product" (Some (str_Z (p_id product)))
        (dumped [("name", option_map JStr (pu_name payload)); ("description", option_map JStr (pu_description payload));
                 ("price_cents", option_map JInt (pu_price_cents payload)); ("stock", option_map JInt (pu_stock payload));
                 ("stock_reason", option_map JStr (pu_stock_reason payload)); ("category_id", option_map JInt (pu_category_id payload));
                 ("status", option_map (λ s, JStr (product_status_value s)) (pu_status payload));
                 ("tax_classification_id", c ← pu_tax_classification_id payload; option_map JInt c);
                 ("unit", u ← pu_unit payload; option_map JStr u)]);
  _ ← (match change with
       | Some (old, new) =>
           audit_log (Some (u_id admin)) "product.tax_assignment_changed" "product" (Some (str_Z (p_id product)))
             (JObj [("from", j_opt JInt old); ("to", j_opt JInt new)])
       | None => mret tt
       end);
  read ← show product true true;
  _ ← at_commit product_id;
  mret read.
Definition archive_product_endpoint (credentials : string) (product_id : Z) : M unit :=
  admin ← require_permission CATALOGUE_WRITE credentials;
  _ ← archive_product product_id;
  _ ← audit_log (Some (u_id admin)) "product.archived" "product" (Some (str_Z product_id)) JNull;
  at_commit product_id.
Definition upload_product_image_endpoint (credentials : string) (product_id : Z) (image : UploadFile) : M ProductRead :=
  _ ← require_permission CATALOGUE_WRITE credentials;
  product ← upload_product_image product_id image; show product true true.
Definition delete_product_image_endpoint (credentials : string) (product_id : Z) : M ProductRead :=
  _ ← require_permission CATALOGUE_WRITE credentials;
  product ← delete_product_image product_id; show product true true.

(** ** Every operation keeps the tables sound *)

Context `{!StorageOk}.

Lemma guar_at_commit p : guar step (at_commit p).
Proof. unfold at_commit. solve_guar. Qed.
Lemma guar_show p a b : guar step (show p a b).
Proof. unfold show. solve_guar. Qed.
Lemma guar_classification_status c : guar step (_classification_status c).
Proof. unfold _classification_status. solve_guar. Qed.
Lemma guar_validate_category c : guar step (_validate_category c).
Proof. unfold _validate_category, get_category_by_id. solve_guar. Qed.
Lemma guar_get_by_sku x : guar step (get_by_sku x).
Proof. unfold get_by_sku. solve_guar. Qed.
#[local] Hint Resolve guar_at_commit guar_show guar_classification_status guar_validate_category guar_get_by_sku : guar.
Lemma guar_validate_assignment c : guar step (_validate_assignment c).
Proof. unfold _validate_assignment. solve_guar. Qed.
Lemma guar_enforce_tax s c : guar step (_enforce_tax_required s c).
Proof. unfold _enforce_tax_required. solve_guar. Qed.
#[local] Hint Resolve guar_validate_assignment guar_enforce_tax : guar.
Lemma guar_create_product_endpoint c p : guar step (create_product_endpoint c p).
Proof. unfold create_product_endpoint, create_product. solve_guar. Qed.
Lemma guar_update_product i p a : guar step (update_product i p a).
Proof. unfold update_product, get_product_by_id, variants_for. cbv zeta. solve_guar. Qed.
#[local] Hint Resolve guar_update_product : guar.
Lemma guar_update_product_endpoint c i p : guar step (update_product_endpoint c i p).
Proof. unfold update_product_endpoint. solve_guar. Qed.
Lemma guar_archive_product_endpoint c i : guar step (archive_product_endpoint c i).
Proof. unfold archive_product_endpoint, archive_product, get_product_by_id. solve_guar. Qed.
Lemma guar_upload_product_image_endpoint c i f : guar step (upload_product_image_endpoint c i f).
Proof.
  unfold upload_product_image_endpoint, upload_product_image, get_product_by_id. solve_guar. apply guar_upload_image. intros ?. solve_guar.
Qed.
Lemma guar_delete_product_image_endpoint c i : guar step (delete_product_image_endpoint c i).
Proof.
  unfold delete_product_image_endpoint, delete_product_image, get_product_by_id. solve_guar. apply guar_delete_image. solve_guar.
Qed.
End endpoints.
#[export] Hint Resolve guar_at_commit guar_show guar_create_product_endpoint guar_update_product_endpoint guar_archive_product_endpoint
  guar_upload_product_image_endpoint guar_delete_product_image_endpoint : guar.
