(* ===== verification/Variants.v ===== *)
(** * Options and variants

    [variants/services/variant_admin_service.py], the payloads of [schemas/variants.py] and [api/router.py]: a product's
    option sets and their values, its variants, stock adjustments, and turning a simple product into one with options. Rows
    are locked before they are read; a request here runs with nothing in between. [SET CONSTRAINTS ALL IMMEDIATE] is
    [_check_now]. A violated constraint is known by its name where the database's message would also tell the table. *)

From S2P Require Import Prelude Errors Schema Guards CatalogueGuards Evolution CatalogueEvolution Repositories Frames Runs Accounts Roles.
From S2P Require Import Slugs Images Categories Products.

Local Open Scope string_scope.
Local Open Scope list_scope.
Local Open Scope Z_scope.

(** ** The payloads *)

Definition control_char (c : Ascii.ascii) : bool := let n := Ascii.nat_of_ascii c in (n <=? 31)%nat || (n =? 127)%nat.
Fixpoint has_char (p : Ascii.ascii → bool) (s : string) : bool := match s with EmptyString => false | String c r => p c || has_char p r end.
(** [_clean]; [None]: the request is refused. *)
Definition clean_text (value : string) : option string :=
  let v := py_strip (collapse is_space (Ascii.ascii_of_nat 32) false value) in
  if String.eqb v "" || has_char control_char v then None else Some v.

Definition between (lo hi n : nat) : bool := (lo <=? n)%nat && (n <=? hi)%nat.
(** [ValueAdd] *)
Definition parse_value (value : string) : option string := if between 1 50 (String.length value) then clean_text value else None.

Record OptionSpec := MkOptionSpec { os_name : string; os_values : list string }.
Definition distinct_ci (l : list string) : bool := (length (remove_dups (map py_lower l)) =? length l)%nat.
Definition parse_option (name : string) (values : list string) : option OptionSpec :=
  n ← clean_text name;
  vs ← mapM clean_text values;
  if between 1 50 (String.length name) && between 1 50 (length values)
     && forallb (λ v, (String.length v <=? 50)%nat) vs && distinct_ci vs then Some (MkOptionSpec n vs) else None.
(** [OptionsSet] and the options of [ConvertRequest] *)
Definition parse_options (at_least : nat) (options : list (string * list string)) : option (list OptionSpec) :=
  l ← mapM (λ o, parse_option o.1 o.2) options;
  if between at_least 3 (length l) && distinct_ci (map os_name l) then Some l else None.

Record VariantSpec := MkVariantSpec {
  vs_sku : string; vs_option_values : list (string * string); vs_price_override_cents : option Z; vs_stock : Z; vs_active : bool
}.
Definition alnum (c : Ascii.ascii) : bool :=
  let n := Ascii.nat_of_ascii c in
  ((48 <=? n)%nat && (n <=? 57)%nat) || ((65 <=? n)%nat && (n <=? 90)%nat) || ((97 <=? n)%nat && (n <=? 122)%nat).
(** [_SKU]: [^[A-Za-z0-9][A-Za-z0-9._/-]{0,63}$] *)
Definition sku_format (s : string) : bool :=
  match s with
  | EmptyString => false
  | String c r => alnum c && negb (has_char (λ c, negb (alnum c || bool_decide (Ascii.nat_of_ascii c ∈ [46; 95; 47; 45]%nat))) r)
                  && (String.length r <=? 63)%nat
  end.
(** [d[key] = value]: an equal key keeps its place and takes the new value. *)
Fixpoint dict_set {A} (key : string) (value : A) (l : list (string * A)) : list (string * A) :=
  match l with
  | [] => [(key, value)]
  | kv :: r => if String.eqb kv.1 key then (key, value) :: r else kv :: dict_set key value r
  end.
Definition positive (o : option Z) : bool := match o with Some n => 0 <? n | None => true end.
Definition parse_variant (sku : string) (option_values : list (string * string)) (price_override : option Z) (stock : Z) (active : bool) :
    option VariantSpec :=
  let s := py_strip sku in
  pairs ← mapM (λ kv, k ← clean_text kv.1; v ← clean_text kv.2; Some (k, v)) option_values;
  let cleaned := foldl (λ l kv, dict_set kv.1 kv.2 l) [] pairs in
  if sku_format s && between 1 3 (length option_values) && distinct_ci (map fst cleaned) && positive price_override && (0 <=? stock) then
    Some (MkVariantSpec s cleaned price_override stock active)
  else None.

(** What was sent: the override can be sent as [null], the status too (and then stays). *)
Record VariantPatch := MkVariantPatch { vp_price_override_cents : option (option Z); vp_status : option (option bool) }.
Inductive StockTarget := SetTo (n : Z) | Delta (n : Z).
Record StockAdjust := MkStockAdjust { sj_target : StockTarget; sj_reason : string }.
Definition parse_adjust (target : StockTarget) (reason : string) : option StockAdjust :=
  let r := py_strip reason in
  if between 3 200 (String.length reason) && (3 <=? String.length r)%nat && negb (has_char control_char r)
     && match target with SetTo n => 0 <=? n | Delta n => negb (n =? 0) end then Some (MkStockAdjust target r) else None.
Record StockAdjustmentResult := MkAdjusted {
  ar_product_id : Z; ar_variant_id : option Z; ar_before_qty : Z; ar_after_qty : Z; ar_delta : Z; ar_changed : bool
}.
Record ConvertRequest := MkConvert { cr_options : list OptionSpec; cr_variants : list VariantSpec; cr_expected_stock : Z; cr_reason : string }.
Definition parse_convert (options : list OptionSpec) (variants : list VariantSpec) (expected_stock : Z) (reason : string) : option ConvertRequest :=
  r ← clean_text reason;
  if between 1 3 (length options) && between 1 100 (length variants) && (0 <=? expected_stock) && between 3 200 (String.length reason) then
    Some (MkConvert options variants expected_stock r)
  else None.

(** ** Plumbing *)

Definition contains (part text : string) : bool := match String.index 0 part text with Some _ => true | None => false end.
(** The foreign keys to products and variants of [stock_movements], [cart_items] and [order_items]. *)
Definition VARIANT_REFERENCES : list string :=
  ["stock_movements_variant_id_fkey"; "fk_cart_items_variant"; "cart_items_product_id_fkey"; "fk_order_items_variant"; "order_items_product_id_fkey"].
Definition translate_integrity_error (constraint : string) : Err :=
  if contains "needs at least one active variant" constraint then ECatalogue ProductNeedsActiveVariantError
  else if contains "uq_variants_combination" constraint then ECatalogue (VariantCombinationExistsError "That combination already exists")
  else if contains "sku_registry" constraint then ECatalogue (SkuInUseError ["(see request)"])
  else if contains "ux_option_values_option_lvalue" constraint then
    ECatalogue (InvalidVariantSpecError "that option already has a value with that name (ignoring letter case)")
  else if contains "ux_product_options_product_lname" constraint then
    ECatalogue (InvalidVariantSpecError "the product already has an option with that name (ignoring letter case)")
  else if contains "declares" constraint && contains "option(s)" constraint then
    ECatalogue (InvalidVariantSpecError ("the product's options are inconsistent: " +:+ constraint))
  else if bool_decide (constraint ∈ VARIANT_REFERENCES) then ECatalogue VariantInUseError
  else IntegrityError constraint.
(** [_flush] of the statements [m]. *)
Definition flushed {A} (m : M A) : M A :=
  try_catch m (λ e, match e with IntegrityError c => Some (raise (translate_integrity_error c)) | _ => None end).

Definition _locked_product (product_id : Z) : M Product :=
  product ← get_product_by_id product_id;
  of_option product (ECatalogue (ProductNotFoundError product_id)).
Definition _check_now (product_id : Z) : M unit := flushed (at_commit product_id).
Definition _references (product_id : Z) : M bool :=
  db_gets (λ d, exists_row (λ i, ci_product_id i =? product_id) (d_cart_items d) || exists_row (λ i, oi_product_id i =? product_id) (d_items d)).
Definition _log (admin : User) (action : string) (product_id : Z) (details : list (string * json)) : M unit :=
  audit_log (Some (u_id admin)) action "product" (Some (str_Z product_id)) (JObj details).

(** ** The option structure *)

Definition _install_options (product_id : Z) (options : list OptionSpec) : M Product :=
  _ ← delete_options product_id;
  rows ← fold_m (λ rows spec,
            oid ← new_id;
            _ ← flushed (insert_option (MkOption oid product_id (Z.of_nat (length rows) + 1) (os_name spec) []));
            mret (rows ++ [(oid, spec)])) [] options;
  flushed (
    _ ← for_each rows (λ row, for_each (os_values row.2) (λ value, vid ← new_id; insert_option_value row.1 vid value));
    update_product_row product_id (λ p, p <| p_option_count := Z.of_nat (length options) |>)).

Definition options_json (options : list OptionSpec) : json :=
  JList (map (λ o, JObj [("name", JStr (os_name o)); ("values", JList (map JStr (os_values o)))]) options).
Definition set_options (product_id : Z) (options : list OptionSpec) (admin : User) : M Product :=
  product ← _locked_product product_id;
  variants ← variants_for product_id;
  _ ← raise_if (negb (bool_decide (variants = []))) (ECatalogue OptionsLockedError);
  _ ← (if negb (bool_decide (options = [])) then
         _ ← raise_if (0 <? p_stock product) (ECatalogue ProductHasStockError);
         used ← _references product_id;
         raise_if used (ECatalogue ProductInUseError)
       else mret tt);
  new ← _install_options product_id options;
  _ ← _check_now product_id;
  _ ← _log admin "product.options_set" product_id [("options", options_json options)];
  mret new.

Definition _option_for (product_id option_id : Z) : M ProductOption :=
  found ← db_gets (λ d, d_options d !! option_id);
  match found with
  | Some o => if po_product_id o =? product_id then mret o else raise (ECatalogue OptionNotFoundError)
  | None => raise (ECatalogue OptionNotFoundError)
  end.
(** The value of one of the product's options, with the option. *)
Definition _value_for (product_id value_id : Z) : M (ProductOption * string) :=
  rows ← db_gets (λ d, flat_map (λ o, map (λ v, (o, v.2)) (List.filter (λ v, v.1 =? value_id) (po_values o)))
                         (rows_where (λ o, po_product_id o =? product_id) (d_options d)));
  found ← scalar_one_or_none rows;
  of_option found (ECatalogue OptionNotFoundError).

Definition add_value (product_id option_id : Z) (value : string) (admin : User) : M Product :=
  product ← _locked_product product_id;
  option ← _option_for product_id option_id;
  _ ← raise_if (50 <=? length (po_values option))%nat (ECatalogue (InvalidVariantSpecError "an option has at most 50 values"));
  vid ← new_id;
  _ ← flushed (insert_option_value option_id vid value);
  _ ← _log admin "product.option_value_added" product_id [("option", JStr (po_name option)); ("value", JStr value)];
  mret product.
Definition rename_value (product_id value_id : Z) (new_value : string) (admin : User) : M Product :=
  product ← _locked_product product_id;
  value ← _value_for product_id value_id;
  _ ← flushed (update_option_value (po_id value.1) value_id new_value);
  _ ← _log admin "product.option_value_renamed" product_id [("old", JStr value.2); ("new", JStr new_value)];
  mret product.
Definition delete_value (product_id value_id : Z) (admin : User) : M Product :=
  product ← _locked_product product_id;
  value ← _value_for product_id value_id;
  used ← db_gets (λ d, exists_row (holds_value value_id) (d_variants d));
  _ ← raise_if used (ECatalogue OptionValueInUseError);
  _ ← raise_if (length (po_values value.1) <=? 1)%nat (ECatalogue (InvalidVariantSpecError "an option needs at least one value"));
  _ ← flushed (delete_option_value (po_id value.1) value_id);
  _ ← _log admin "product.option_value_deleted" product_id [("value", JStr value.2)];
  mret product.

(** ** Variants *)

Definition Combo : Type := option Z * option Z * option Z.
Definition combo_ids (v : ProductVariant) : Combo := (pv_value1_id v, pv_value2_id v, pv_value3_id v).
(** [tuple(ids + [None] * (3 - len(ids)))] *)
Definition pad (ids : list Z) : Combo := (nth_error ids 0, nth_error ids 1, nth_error ids 2).

(** What the loop over the specifications gathers. *)
Record Checked := MkChecked {
  ck_invalid : list string; ck_combo_conflicts : list string; ck_sku_conflicts : list string;
  ck_seen_combos : list Combo; ck_seen_skus : list string; ck_built : list (VariantSpec * Combo)
}.
#[export] Instance eta_Checked : Eta Checked :=
  λ r, MkChecked (ck_invalid r) (ck_combo_conflicts r) (ck_sku_conflicts r) (ck_seen_combos r) (ck_seen_skus r) (ck_built r).

(** [dict.get]: the last of equal keys counts. *)
Definition dict_get {A} (key : string) (l : list (string * A)) : option A := option_map snd (List.find (λ kv, String.eqb kv.1 key) (rev l)).
(** The ids a specification chooses, option by option, or what is wrong with it. *)
Fixpoint choose (label : string) (given : list (string * string)) (options : list ProductOption) : string + list Z :=
  match options with
  | [] => inr []
  | o :: rest =>
      let text := default "" (dict_get (py_lower (po_name o)) given) in
      match dict_get (py_lower text) (map (λ v, (py_lower v.2, v.1)) (po_values o)) with
      | None => inl (label +:+ ": '" +:+ text +:+ "' is not a value of " +:+ po_name o)
      | Some i => ids ← choose label given rest; inr (i :: ids)
      end
  end.
Definition same_set (a b : list string) : bool := forallb (λ x, bool_decide (x ∈ b)) a && forallb (λ x, bool_decide (x ∈ a)) b.

(** One round of the loop; [index] counts from 1. *)
Definition check_spec (options : list ProductOption) (existing_combos : list Combo) (taken_skus : list string)
    (acc : Checked) (index : Z) (spec : VariantSpec) : Checked :=
  let label := "variant " +:+ str_Z index +:+ " (" +:+ vs_sku spec +:+ ")" in
  let given := map (λ kv, (py_lower kv.1, kv.2)) (vs_option_values spec) in
  if negb (same_set (map fst given) (map (λ o, py_lower (po_name o)) options)) then
    acc <| ck_invalid ::= λ l, l ++ [label +:+ ": needs exactly one value for each of " +:+ String.concat ", " (map po_name options)] |>
  else
    match choose label given options with
    | inl problem => acc <| ck_invalid ::= λ l, l ++ [problem] |>
    | inr ids =>
        let combo := pad ids in
        let sku := py_upper (vs_sku spec) in
        let acc :=
          if bool_decide (sku ∈ ck_seen_skus acc) then
            acc <| ck_invalid ::= λ l, l ++ [label +:+ ": the SKU appears twice in this request"] |>
          else if bool_decide (combo ∈ ck_seen_combos acc) then
            acc <| ck_invalid ::= λ l, l ++ [label +:+ ": the same combination appears twice in this request"] |>
          else if bool_decide (combo ∈ existing_combos) then acc <| ck_combo_conflicts ::= λ l, l ++ [label] |>
          else if bool_decide (sku ∈ taken_skus) then acc <| ck_sku_conflicts ::= λ l, l ++ [vs_sku spec] |>
          else acc in
        acc <| ck_seen_skus ::= cons sku |> <| ck_seen_combos ::= cons combo |> <| ck_built ::= λ l, l ++ [(spec, combo)] |>
    end.
Fixpoint check_specs (options : list ProductOption) (existing_combos : list Combo) (taken_skus : list string)
    (acc : Checked) (index : Z) (specs : list VariantSpec) : Checked :=
  match specs with
  | [] => acc
  | spec :: rest => check_specs options existing_combos taken_skus (check_spec options existing_combos taken_skus acc index spec) (index + 1) rest
  end.
Definition invalid_message (invalid : list string) : string :=
  String.concat "; " (take 10 invalid)
  +:+ (if (10 <? length invalid)%nat then " (and " +:+ str_Z (Z.of_nat (length invalid) - 10) +:+ " more)" else "").

Definition new_variant (vid : Z) (product : Product) (b : VariantSpec * Combo) : ProductVariant :=
  let '(spec, (v1, v2, v3)) := b in
  MkVariant vid (p_id product) v1 v2 v3 (p_option_count product) (vs_sku spec) (vs_price_override_cents spec) (vs_stock spec) (vs_active spec).
Definition _create_variants (product : Product) (specs : list VariantSpec) : M (list ProductVariant) :=
  options ← options_for (p_id product);
  _ ← raise_if (bool_decide (options = []) || negb (p_option_count product =? Z.of_nat (length options)))
        (ECatalogue (InvalidVariantSpecError "This product has no options yet: define them first (PUT /products/{id}/options)"));
  existing ← variants_for (p_id product);
  d ← gets st_db;
  let taken_skus := List.filter (sku_registered d) (map (λ s, py_upper (vs_sku s)) specs) in
  let checked := check_specs options (map combo_ids existing) taken_skus (MkChecked [] [] [] [] [] []) 1 specs in
  _ ← raise_if (negb (bool_decide (ck_invalid checked = []))) (ECatalogue (InvalidVariantSpecError (invalid_message (ck_invalid checked))));
  _ ← raise_if (negb (bool_decide (ck_combo_conflicts checked = [])))
        (ECatalogue (VariantCombinationExistsError ("These combinations already exist: " +:+ String.concat ", " (ck_combo_conflicts checked))));
  _ ← raise_if (negb (bool_decide (ck_sku_conflicts checked = []))) (ECatalogue (SkuInUseError (ck_sku_conflicts checked)));
  flushed (fold_m (λ created b, vid ← new_id; let v := new_variant vid product b in _ ← insert_variant v; mret (created ++ [v]))
             [] (ck_built checked)).

Definition create_variants (product_id : Z) (specs : list VariantSpec) (admin : User) : M Product :=
  product ← _locked_product product_id;
  created ← stock_change "initial" (Some (u_id admin)) (Some "variant created") None (_create_variants product specs);
  _ ← _check_now product_id;
  _ ← _log admin "variant.created" product_id [("count", JInt (Z.of_nat (length created))); ("skus", JList (map (λ v, JStr (pv_sku v)) created))];
  mret product.

Definition _variant_for (product_id variant_id : Z) : M ProductVariant :=
  found ← db_gets (λ d, d_variants d !! variant_id);
  match found with
  | Some v => if pv_product_id v =? product_id then mret v else raise (ECatalogue VariantNotFoundError)
  | None => raise (ECatalogue VariantNotFoundError)
  end.
Definition sent_fields (patch : VariantPatch) : list string :=
  (match vp_price_override_cents patch with Some _ => ["price_override_cents"] | None => [] end)
  ++ (match vp_status patch with Some _ => ["status"] | None => [] end).
Definition update_variant (product_id variant_id : Z) (patch : VariantPatch) (admin : User) : M Product :=
  product ← _locked_product product_id;
  variant ← _variant_for product_id variant_id;
  _ ← flushed (update_variant_row variant_id (λ v,
        v <| pv_price_override_cents := default (pv_price_override_cents v) (vp_price_override_cents patch) |>
          <| pv_active := match vp_status patch with Some (Some b) => b | _ => pv_active v end |>));
  _ ← _check_now product_id;
  _ ← _log admin "variant.updated" product_id [("variant_id", JInt (pv_id variant)); ("fields", JList (map JStr (sent_fields patch)))];
  mret product.
Definition delete_variant (product_id variant_id : Z) (admin : User) : M Product :=
  product ← _locked_product product_id;
  variant ← _variant_for product_id variant_id;
  used ← db_gets (λ d,
    exists_row (λ i, opt_eqb (ci_variant_id i) (Some variant_id)) (d_cart_items d)
    || exists_row (λ i, opt_eqb (oi_variant_id i) (Some variant_id)) (d_items d)
    || existsb (λ m, opt_eqb (sm_variant_id m) (Some variant_id)) (d_movements d));
  _ ← raise_if used (ECatalogue VariantInUseError);
  _ ← flushed (delete_variant_row variant_id);
  _ ← _check_now product_id;
  _ ← _log admin "variant.deleted" product_id [("variant_id", JInt variant_id); ("sku", JStr (pv_sku variant))];
  mret product.

(** [walk]: every choice of one value per option, the first option's values first. *)
Fixpoint walk_combos (options : list ProductOption) : list (list (Z * string)) :=
  match options with
  | [] => [[]]
  | o :: rest => flat_map (λ v, map (cons v) (walk_combos rest)) (po_values o)
  end.
Definition MAX_MISSING_LISTED : nat := 500.
Record MissingCombinations := MkMissing { mc_total : Z; mc_truncated : bool; mc_items : list (list (string * string)) }.
Definition missing_combinations (product_id : Z) : M MissingCombinations :=
  _ ← _locked_product product_id;
  options ← options_for product_id;
  _ ← raise_if (bool_decide (options = [])) (ECatalogue (InvalidVariantSpecError "This product has no options"));
  existing ← variants_for product_id;
  let missing := List.filter (λ chosen, negb (bool_decide (pad (map fst chosen) ∈ map combo_ids existing))) (walk_combos options) in
  let items := map (λ chosen, zip (map po_name options) (map snd chosen)) (take MAX_MISSING_LISTED missing) in
  mret (MkMissing (Z.of_nat (length missing)) (length items <? length missing)%nat items).

(** ** Stock *)

Definition adjust_stock (product_id : Z) (variant_id : option Z) (spec : StockAdjust) (admin : User) : M StockAdjustmentResult :=
  product ← _locked_product product_id;
  before ← (match variant_id with
            | None => _ ← raise_if (0 <? p_option_count product) (ECatalogue UseVariantStockError); mret (p_stock product)
            | Some vid => v ← _variant_for product_id vid; mret (pv_stock v)
            end);
  let after := match sj_target spec with SetTo n => n | Delta n => before + n end in
  _ ← raise_if (after <? 0) (ECatalogue (StockWouldBeNegativeError before));
  if after =? before then mret (MkAdjusted product_id variant_id before after 0 false)
  else
    let kind := match sj_target spec with SetTo _ => "admin_set" | Delta _ => "admin_delta" end in
    _ ← stock_change kind (Some (u_id admin)) (Some (sj_reason spec)) None (flushed (
          match variant_id with
          | None => _ ← update_product_row product_id (λ p, p <| p_stock := after |>); mret tt
          | Some vid => _ ← update_variant_row vid (λ v, v <| pv_stock := after |>); mret tt
          end));
    _ ← _log admin "stock.adjusted" product_id
          [("variant_id", j_opt JInt variant_id); ("before", JInt before); ("after", JInt after); ("reason", JStr (sj_reason spec)); ("kind", JStr kind)];
    mret (MkAdjusted product_id variant_id before after (after - before) true).

Definition stock_history (product_id : Z) (variant_id : option Z) (offset limit : nat) : M (Z * list StockMovement) :=
  _ ← _locked_product product_id;
  db_gets (λ d,
    let rows := List.filter (λ m, (sm_product_id m =? product_id)
                  && match variant_id with Some v => opt_eqb (sm_variant_id m) (Some v) | None => true end) (d_movements d) in
    (Z.of_nat (length rows), take limit (drop offset (rev rows)))).

(** ** Conversion *)

(** The unpaid or paid but unshipped orders that contain the product. *)
Definition open_orders (d : DB) (product_id : Z) : Z :=
  count_rows (λ o, bool_decide (o_status o ∈ [PENDING; PAID])
                   && exists_row (λ i, (oi_product_id i =? product_id) && String.eqb (oi_order_id i) (o_id o)) (d_items d)) (d_orders d).
Definition convert_to_variants (product_id : Z) (request : ConvertRequest) (admin : User) : M (Product * Z) :=
  product ← _locked_product product_id;
  _ ← raise_if (0 <? p_option_count product) (ECatalogue AlreadyHasVariantsError);
  _ ← raise_if (bool_decide (p_status product = ARCHIVED)) (ECatalogue (ProductNotConvertibleError "An archived product cannot be converted"));
  _ ← raise_if (negb (cr_expected_stock request =? p_stock product)) (ECatalogue (StockChangedError (p_stock product)));
  let allocated := sumZ (map vs_stock (cr_variants request)) in
  _ ← raise_if (negb (allocated =? p_stock product)) (ECatalogue (StockAllocationMismatchError allocated (p_stock product)));
  n ← db_gets (λ d, open_orders d product_id);
  _ ← raise_if (negb (n =? 0)) (ECatalogue (ProductHasOpenOrdersError n));
  removed ← delete_cart_items_of product_id;
  created ← stock_change "conversion" (Some (u_id admin)) (Some (cr_reason request)) None (
              _ ← (if negb (p_stock product =? 0) then
                     _ ← flushed (update_product_row product_id (λ p, p <| p_stock := 0 |>)); mret tt
                   else mret tt);
              changed ← _install_options product_id (cr_options request);
              created ← _create_variants changed (cr_variants request);
              mret (changed, created));
  _ ← _check_now product_id;
  _ ← _log admin "product.converted_to_variants" product_id
        [("stock_moved", JInt (p_stock product)); ("variants", JInt (Z.of_nat (length created.2))); ("cart_lines_removed", JInt removed);
         ("reason", JStr (cr_reason request))];
  mret (created.1, removed).

(** ** The endpoints *)

Section endpoints.
Context `{!Jwt} `{!CatalogueSettings} `{!Storage}.

Definition _detail (product_id : Z) : M ProductRead := product ← get_product product_id true; show product true true.
Definition set_options_endpoint (credentials : string) (product_id : Z) (options : list OptionSpec) : M ProductRead :=
  admin ← require_permission CATALOGUE_WRITE credentials; _ ← set_options product_id options admin; _detail product_id.
Definition add_option_value (credentials : string) (product_id option_id : Z) (value : string) : M ProductRead :=
  admin ← require_permission CATALOGUE_WRITE credentials; _ ← add_value product_id option_id value admin; _detail product_id.
Definition rename_option_value (credentials : string) (product_id value_id : Z) (value : string) : M ProductRead :=
  admin ← require_permission CATALOGUE_WRITE credentials; _ ← rename_value product_id value_id value admin; _detail product_id.
Definition delete_option_value_endpoint (credentials : string) (product_id value_id : Z) : M ProductRead :=
  admin ← require_permission CATALOGUE_WRITE credentials; _ ← delete_value product_id value_id admin; _detail product_id.
Definition missing_combinations_endpoint (credentials : string) (product_id : Z) : M MissingCombinations :=
  _ ← require_permission CATALOGUE_READ credentials; missing_combinations product_id.
Definition create_variants_endpoint (credentials : string) (product_id : Z) (variants : list VariantSpec) : M ProductRead :=
  admin ← require_permission CATALOGUE_WRITE credentials; _ ← create_variants product_id variants admin; _detail product_id.
Definition create_variant_endpoint (credentials : string) (product_id : Z) (payload : VariantSpec) : M ProductRead :=
  admin ← require_permission CATALOGUE_WRITE credentials; _ ← create_variants product_id [payload] admin; _detail product_id.
Definition update_variant_endpoint (credentials : string) (product_id variant_id : Z) (patch : VariantPatch) : M ProductRead :=
  admin ← require_permission CATALOGUE_WRITE credentials; _ ← update_variant product_id variant_id patch admin; _detail product_id.
Definition delete_variant_endpoint (credentials : string) (product_id variant_id : Z) : M ProductRead :=
  admin ← require_permission CATALOGUE_WRITE credentials; _ ← delete_variant product_id variant_id admin; _detail product_id.
Definition adjust_variant_stock (credentials : string) (product_id variant_id : Z) (payload : StockAdjust) : M StockAdjustmentResult :=
  admin ← require_permission INVENTORY_ADJUST credentials; adjust_stock product_id (Some variant_id) payload admin.
Definition adjust_product_stock (credentials : string) (product_id : Z) (payload : StockAdjust) : M StockAdjustmentResult :=
  admin ← require_permission INVENTORY_ADJUST credentials; adjust_stock product_id None payload admin.
Definition stock_history_endpoint (credentials : string) (product_id : Z) (variant_id : option Z) (offset limit : nat) : M (Z * list StockMovement) :=
  _ ← require_permission CATALOGUE_READ credentials; stock_history product_id variant_id offset limit.
Definition convert_endpoint (credentials : string) (product_id : Z) (payload : ConvertRequest) : M (ProductRead * Z) :=
  admin ← require_permission CATALOGUE_WRITE credentials;
  r ← convert_to_variants product_id payload admin;
  read ← _detail product_id;
  mret (read, r.2).
End endpoints.

(** ** Every operation keeps the tables sound *)

Lemma guar_flushed {A} (m : M A) : guar step m → guar step (flushed m).
Proof. intros Hm. apply guar_try; [apply _|done|]. intros e k. destruct e; intros [= <-]. solve_guar. Qed.
#[export] Hint Extern 2 (guar step (flushed _)) => (apply guar_flushed; solve_guar) : guar.
Lemma guar_locked_product p : guar step (_locked_product p).
Proof. unfold _locked_product, get_product_by_id. solve_guar. Qed.
Lemma guar_check_now p : guar step (_check_now p).
Proof. unfold _check_now. solve_guar. Qed.
Lemma guar_log a b c x : guar step (_log a b c x).
Proof. unfold _log. solve_guar. Qed.
Lemma guar_value_for p v : guar step (_value_for p v).
Proof. unfold _value_for. solve_guar. Qed.
Lemma guar_variant_for p v : guar step (_variant_for p v).
Proof. unfold _variant_for. solve_guar. Qed.
Lemma guar_install_options p o : guar step (_install_options p o).
Proof. unfold _install_options. solve_guar. Qed.
Lemma guar_create_variants_of p l : guar step (_create_variants p l).
Proof. unfold _create_variants, options_for, variants_for. cbv zeta. solve_guar. Qed.
#[local] Hint Resolve guar_locked_product guar_check_now guar_log guar_value_for guar_variant_for guar_install_options guar_create_variants_of : guar.
Lemma guar_set_options p o a : guar step (set_options p o a).
Proof. unfold set_options, variants_for, _references. solve_guar. Qed.
Lemma guar_add_value p o v a : guar step (add_value p o v a).
Proof. unfold add_value, _option_for. solve_guar. Qed.
Lemma guar_rename_value p v t a : guar step (rename_value p v t a).
Proof. unfold rename_value. solve_guar. Qed.
Lemma guar_delete_value p v a : guar step (delete_value p v a).
Proof. unfold delete_value. solve_guar. Qed.
Lemma guar_create_variants p l a : guar step (create_variants p l a).
Proof. unfold create_variants. solve_guar. Qed.
Lemma guar_update_variant p v x a : guar step (update_variant p v x a).
Proof. unfold update_variant. solve_guar. Qed.
Lemma guar_delete_variant p v a : guar step (delete_variant p v a).
Proof. unfold delete_variant. solve_guar. Qed.
Lemma guar_adjust_stock p v x a : guar step (adjust_stock p v x a).
Proof. unfold adjust_stock. cbv zeta. solve_guar. Qed.
Lemma guar_convert p r a : guar step (convert_to_variants p r a).
Proof. unfold convert_to_variants. cbv zeta. solve_guar. Qed.
#[local] Hint Resolve guar_set_options guar_add_value guar_rename_value guar_delete_value guar_create_variants guar_update_variant
  guar_delete_variant guar_adjust_stock guar_convert : guar.

Section endpoints_sound.
Context `{!Jwt} `{!CatalogueSettings} `{!Storage}.
Lemma guar_detail p : guar step (_detail p).
Proof. unfold _detail, get_product, get_product_by_id. solve_guar. Qed.
#[local] Hint Resolve guar_detail : guar.
Lemma guar_set_options_endpoint c p o : guar step (set_options_endpoint c p o).
Proof. unfold set_options_endpoint. solve_guar. Qed.
Lemma guar_add_option_value c p o v : guar step (add_option_value c p o v).
Proof. unfold add_option_value. solve_guar. Qed.
Lemma guar_rename_option_value c p i v : guar step (rename_option_value c p i v).
Proof. unfold rename_option_value. solve_guar. Qed.
Lemma guar_delete_option_value_endpoint c p i : guar step (delete_option_value_endpoint c p i).
Proof. unfold delete_option_value_endpoint. solve_guar. Qed.
Lemma guar_create_variants_endpoint c p l : guar step (create_variants_endpoint c p l).
Proof. unfold create_variants_endpoint. solve_guar. Qed.
Lemma guar_update_variant_endpoint c p v x : guar step (update_variant_endpoint c p v x).
Proof. unfold update_variant_endpoint. solve_guar. Qed.
Lemma guar_delete_variant_endpoint c p v : guar step (delete_variant_endpoint c p v).
Proof. unfold delete_variant_endpoint. solve_guar. Qed.
Lemma guar_adjust_variant_stock c p v x : guar step (adjust_variant_stock c p v x).
Proof. unfold adjust_variant_stock. solve_guar. Qed.
Lemma guar_adjust_product_stock c p x : guar step (adjust_product_stock c p x).
Proof. unfold adjust_product_stock. solve_guar. Qed.
Lemma guar_convert_endpoint c p r : guar step (convert_endpoint c p r).
Proof. unfold convert_endpoint. solve_guar. Qed.
End endpoints_sound.
#[export] Hint Resolve guar_set_options_endpoint guar_add_option_value guar_rename_option_value guar_delete_option_value_endpoint
  guar_create_variants_endpoint guar_update_variant_endpoint guar_delete_variant_endpoint guar_adjust_variant_stock
  guar_adjust_product_stock guar_convert_endpoint : guar.
