(* ===== verification/TaxAdmin.v ===== *)
(** * Administration of the tax masters

    [tax/services/tax_service.py] with [repositories/tax_repository.py], the payloads of [schemas/tax.py] and [api/router.py]:
    classifications, rules, registrations and configurations from draft to approved to retired, who may approve them, and the
    report of what still keeps GST from being activated. The engine that reads the masters is [Tax]. A query flushes the
    changes made to a loaded record before it runs. *)

From S2P Require Import Prelude Decimal Errors Money Schema Guards CatalogueGuards TaxGuards TaxOk Evolution TaxEvolution Invoice Repositories Tax Checkout.
From S2P Require Import Frames Runs Accounts Roles Images Products.
Import Decimal.

Local Open Scope string_scope.
Local Open Scope list_scope.
Local Open Scope Z_scope.

(** The settings read here and nowhere else. *)
Class TaxAdminSettings := { tax_master_allow_self_approval : bool; tax_calculation_enabled : bool }.

Definition _blank (value : option string) : bool := match value with None => true | Some t => String.eqb (py_strip t) "" end.

(** ** Searching *)

Definition is_wild (c : Ascii.ascii) : bool := Ascii.eqb c "\" || Ascii.eqb c "%" || Ascii.eqb c "_".
(** [term.replace("\\", "\\\\").replace("%", "\\%").replace("_", "\\_")] *)
Fixpoint replace_char (c : Ascii.ascii) (t : list Ascii.ascii) : list Ascii.ascii :=
  match t with
  | [] => []
  | x :: r => if Ascii.eqb x c then "\"%char :: x :: replace_char c r else x :: replace_char c r
  end.
Definition _escape_like (term : list Ascii.ascii) : list Ascii.ascii :=
  replace_char "_" (replace_char "%" (replace_char "\" term)).
(** PostgreSQL's [text LIKE pattern ESCAPE '\'] *)
Fixpoint like (p s : list Ascii.ascii) {struct p} : bool :=
  match p with
  | [] => match s with [] => true | _ => false end
  | c :: p' =>
      if Ascii.eqb c "%" then
        (fix any (s : list Ascii.ascii) : bool := like p' s || match s with [] => false | _ :: s' => any s' end) s
      else if Ascii.eqb c "\" then
        match p', s with
        | e :: p'', x :: s' => Ascii.eqb x e && like p'' s'
        | _, _ => false
        end
      else match s with x :: s' => (Ascii.eqb c "_" || Ascii.eqb x c) && like p' s' | [] => false end
  end.
Definition chars_of (s : string) : list Ascii.ascii := String.list_ascii_of_string s.
Definition ilike (s : string) (p : list Ascii.ascii) : bool := like (map lower_ascii p) (map lower_ascii (chars_of s)).
(** [column.ilike(f"%{_escape_like(q)}%", escape="\\")] *)
Definition contains_ci (s q : string) : bool := ilike s ("%"%char :: _escape_like (chars_of q) ++ ["%"%char]).

(** ** The payloads ([schemas/tax.py]) *)

Definition len_between (lo hi : nat) (s : string) : bool := (lo <=? String.length s)%nat && (String.length s <=? hi)%nat.
Definition source_fits (s : option string) : bool := match s with None => true | Some t => (String.length t <=? 2000)%nat end.
Definition sent {A} (f : A → bool) (x : option A) : bool := match x with Some v => f v | None => true end.
Definition validate {A} (ok : A → bool) (payload : A) : option A := if ok payload then Some payload else None.
(** [Rate]: between 0 and 100, at most three decimal places *)
Definition rate_ok (r : dec) : bool := percentage r && deqb (rate_column r) r.

Record ClassificationCreate := MkClassificationCreate {
  cc_kind : string; cc_code : string; cc_description : string; cc_source_reference : option string }.
Definition classification_create_ok (c : ClassificationCreate) : bool :=
  bool_decide (cc_kind c ∈ ["hsn"; "sac"])
  && negb (String.eqb (cc_code c) "") && all_digits (cc_code c) && (String.length (cc_code c) <=? 8)%nat
  && len_between 1 500 (cc_description c) && source_fits (cc_source_reference c)
  && (if String.eqb (cc_kind c) "hsn" then bool_decide (String.length (cc_code c) ∈ [2; 4; 6; 8])%nat
      else (String.length (cc_code c) =? 6)%nat).
(** A field of a PATCH: not sent, null, or a value. *)
Record ClassificationUpdate := MkClassificationUpdate { cu_description : option (option string); cu_source_reference : option (option string) }.
Definition classification_update_ok (c : ClassificationUpdate) : bool :=
  sent (sent (len_between 1 500)) (cu_description c) && sent source_fits (cu_source_reference c).

Definition is_zero (x : dec) : bool := deqb x (of_Z 0).
Definition check_rule_shape (treatment : string) (cgst sgst igst : dec) : Err + unit :=
  if String.eqb treatment "taxable" then
    if negb (dltb (of_Z 0) igst) then inl (ValueError "A taxable rule needs an IGST rate greater than 0")
    else if negb (deqb (dadd cgst sgst) igst) then inl (ValueError "CGST + SGST/UTGST must equal IGST")
    else inr tt
  else if negb (is_zero cgst) || negb (is_zero sgst) || negb (is_zero igst)
  then inl (ValueError ("A '" +:+ treatment +:+ "' rule must have all rates at 0"))
  else inr tt.
Definition shape_ok (r : Err + unit) : bool := match r with inl _ => false | inr _ => true end.

Record RuleCreate := MkRuleCreate {
  rc_classification_id : Z; rc_treatment : string; rc_cgst_rate : dec; rc_sgst_utgst_rate : dec; rc_igst_rate : dec;
  rc_effective_from : Z; rc_effective_to : option Z; rc_source_reference : option string }.
Definition rule_create_ok (r : RuleCreate) : bool :=
  bool_decide (rc_treatment r ∈ KNOWN_TREATMENTS) && rate_ok (rc_cgst_rate r) && rate_ok (rc_sgst_utgst_rate r) && rate_ok (rc_igst_rate r)
  && source_fits (rc_source_reference r)
  && shape_ok (check_rule_shape (rc_treatment r) (rc_cgst_rate r) (rc_sgst_utgst_rate r) (rc_igst_rate r))
  && dates_ok (rc_effective_from r) (rc_effective_to r).
Record RuleUpdate := MkRuleUpdate {
  ru_treatment : option (option string); ru_cgst_rate : option (option dec); ru_sgst_utgst_rate : option (option dec);
  ru_igst_rate : option (option dec); ru_effective_from : option (option Z); ru_effective_to : option (option Z);
  ru_source_reference : option (option string) }.
Definition rule_update_ok (r : RuleUpdate) : bool :=
  sent (sent (λ t, bool_decide (t ∈ KNOWN_TREATMENTS))) (ru_treatment r) && sent (sent rate_ok) (ru_cgst_rate r)
  && sent (sent rate_ok) (ru_sgst_utgst_rate r) && sent (sent rate_ok) (ru_igst_rate r) && sent source_fits (ru_source_reference r).

Record RegistrationCreate := MkRegistrationCreate {
  gc_gstin : string; gc_legal_name : string; gc_state_code : string; gc_valid_from : Z; gc_valid_to : option Z }.
(** The GSTIN is stripped and put in upper case; the rest is checked as it came. *)
Definition parse_registration (g : RegistrationCreate) : option RegistrationCreate :=
  let gstin := py_upper (py_strip (gc_gstin g)) in
  if len_between 15 15 (gc_gstin g) && len_between 1 200 (gc_legal_name g) && state_code_format (gc_state_code g)
     && gstin_format gstin && String.eqb (String.substring 0 2 gstin) (gc_state_code g) && dates_ok (gc_valid_from g) (gc_valid_to g)
  then Some (MkRegistrationCreate gstin (gc_legal_name g) (gc_state_code g) (gc_valid_from g) (gc_valid_to g))
  else None.
Record RegistrationUpdate := MkRegistrationUpdate {
  gu_legal_name : option (option string); gu_valid_from : option (option Z); gu_valid_to : option (option Z) }.
Definition registration_update_ok (g : RegistrationUpdate) : bool := sent (sent (len_between 1 200)) (gu_legal_name g).

Record SettingsCreate := MkSettingsCreate {
  sc_pricing_mode : string; sc_place_of_supply_basis : string; sc_shipping_tax_treatment : string; sc_rounding_policy : string;
  sc_registration_id : Z; sc_effective_from : Z; sc_effective_to : option Z; sc_source_reference : option string }.
Definition PRICING_MODES : list string := ["inclusive"; "exclusive"].
Definition PLACE_BASES : list string := ["delivery_state"].
Definition SHIPPING_TREATMENTS : list string := ["not_taxed"; "taxable_with_goods"].
Definition ROUNDING_POLICIES : list string := ["line_half_up"; "invoice_half_up"].
Definition oneof (l : list string) (s : string) : bool := bool_decide (s ∈ l).
Definition settings_create_ok (b : SettingsCreate) : bool :=
  oneof PRICING_MODES (sc_pricing_mode b) && oneof PLACE_BASES (sc_place_of_supply_basis b)
  && oneof SHIPPING_TREATMENTS (sc_shipping_tax_treatment b) && oneof ROUNDING_POLICIES (sc_rounding_policy b)
  && (0 <? sc_registration_id b) && source_fits (sc_source_reference b) && dates_ok (sc_effective_from b) (sc_effective_to b).
Record SettingsUpdate := MkSettingsUpdate {
  su_pricing_mode : option (option string); su_place_of_supply_basis : option (option string);
  su_shipping_tax_treatment : option (option string); su_rounding_policy : option (option string); su_registration_id : option (option Z);
  su_effective_from : option (option Z); su_effective_to : option (option Z); su_source_reference : option (option string) }.
Definition settings_update_ok (b : SettingsUpdate) : bool :=
  sent (sent (oneof PRICING_MODES)) (su_pricing_mode b) && sent (sent (oneof PLACE_BASES)) (su_place_of_supply_basis b)
  && sent (sent (oneof SHIPPING_TREATMENTS)) (su_shipping_tax_treatment b) && sent (sent (oneof ROUNDING_POLICIES)) (su_rounding_policy b)
  && sent (sent (λ i, 0 <? i)) (su_registration_id b) && sent source_fits (su_source_reference b).

(** ** What the methods share *)

(** [TaxRepository.get], and [_get] of the service; rows are locked and read again. *)
Definition get {A} `{!TaxMaster A} (record_id : Z) : M (option A) := db_gets (λ d, tm_table d !! record_id).
Definition _get {A} `{!TaxMaster A} (record_id : Z) (what : string) : M A :=
  found ← get record_id; of_option found (ETaxMaster (TaxRecordNotFoundError what)).
Definition _log {A} `{!TaxMaster A} (actor : User) (action target_type : string) (record : A) (details : json) : M unit :=
  audit_log (Some (u_id actor)) action target_type (Some (str_Z (tm_id record))) details.

(** An item of [data.model_dump(exclude_unset=True)]: the field, whether its value is null, and the assignment. *)
Record Change (A : Type) := MkChange { ch_key : string; ch_null : bool; ch_set : A → A }.
Arguments MkChange {A} _ _ _.
Arguments ch_key {A} _.
Arguments ch_null {A} _.
Arguments ch_set {A} _ _.
Definition required_field {A T} (key : string) (v : option (option T)) (set : T → A → A) : list (Change A) :=
  match v with None => [] | Some None => [MkChange key true id] | Some (Some x) => [MkChange key false (set x)] end.
Definition optional_field {A T} (key : string) (v : option (option T)) (set : option T → A → A) : list (Change A) :=
  match v with None => [] | Some x => [MkChange key (match x with None => true | Some _ => false end) (set x)] end.
Fixpoint _apply_changes {A} (record : A) (changes : list (Change A)) (nullable : list string) : M A :=
  match changes with
  | [] => mret record
  | c :: rest =>
      _ ← raise_if (ch_null c && negb (bool_decide (ch_key c ∈ nullable))) (ETaxMaster (InvalidTaxInputError (ch_key c +:+ " cannot be null")));
      _apply_changes (ch_set c record) rest nullable
  end.
Definition fields_of {A} (changes : list (Change A)) : json := JObj [("fields", JList (map JStr (sort_str (map ch_key changes))))].

Definition _require_draft {A} `{!TaxMaster A} (record : A) : M unit :=
  raise_if (negb (String.eqb (tm_status record) "draft")) (ETaxMaster ImmutableTaxRecordError).

Section service.
Context `{!TaxAdminSettings}.

(** Draft to approved by another administrator, or by its creator with a note where the settings allow it. *)
Definition _approve {A} `{!TaxMaster A} (record : A) (actor : User) (note : option string) : M (A * json) :=
  _ ← raise_if (negb (String.eqb (tm_status record) "draft")) (ETaxMaster (InvalidTaxTransitionError "approve" (tm_status record)));
  let self_approved := match ap_created_by (tm_approval record) with Some c => String.eqb c (u_id actor) | None => false end in
  _ ← raise_if (self_approved && negb tax_master_allow_self_approval) (ETaxMaster ApprovalRequiresDistinctApproverError);
  _ ← raise_if (self_approved && _blank note) (ETaxMaster SelfApprovalNoteRequiredError);
  t ← now;
  mret (tm_put_approval (MkApproval (ap_created_by (tm_approval record)) (Some (u_id actor)) (Some t)) (tm_put_status "approved" record),
        JObj [("self_approved", JBool self_approved); ("note", j_opt JStr note)]).
Definition _retire {A} `{!TaxMaster A} (record : A) : M A :=
  _ ← raise_if (String.eqb (tm_status record) "retired") (ETaxMaster (InvalidTaxTransitionError "retire" (tm_status record)));
  mret (tm_put_status "retired" record).
Definition created_by (actor : User) : Approval := MkApproval (Some (u_id actor)) None None.
Definition is_draft {A} `{!TaxMaster A} (record : A) : bool := String.eqb (tm_status record) "draft".

(** [TaxRepository.list] *)
Definition list_records {A} `{!TaxMaster A} (conditions : A → bool) (offset limit : nat) : M (list A * Z) :=
  db_gets (λ d, let rows := rows_where conditions (tm_table d) in
                (take limit (drop offset (order_by_desc tm_id rows)), Z.of_nat (length rows))).
Definition with_status {A} `{!TaxMaster A} (status : option string) (record : A) : bool :=
  match status with Some t => String.eqb (tm_status record) t | None => true end.

(** *** Classifications *)

Definition classification_by_kind_code (kind code : string) : M (option TaxClassification) :=
  rows ← db_gets (λ d, rows_where (λ c, String.eqb (tc_kind c) kind && String.eqb (tc_code c) code) (d_classifications d));
  scalar_one_or_none rows.
Definition has_open_rules (classification_id : Z) : M bool :=
  db_gets (λ d, exists_row (λ r, (tr_classification_id r =? classification_id) && negb (String.eqb (tr_status r) "retired")) (d_rules d)).
Definition count_products_using (classification_id : Z) : M Z :=
  db_gets (λ d, count_rows (λ p, opt_eqb (p_tax_classification_id p) (Some classification_id)) (d_products d)).

Definition create_classification (actor : User) (data : ClassificationCreate) : M TaxClassification :=
  found ← classification_by_kind_code (cc_kind data) (cc_code data);
  _ ← raise_if (negb (bool_decide (found = None))) (ETaxMaster DuplicateClassificationError);
  rid ← new_id;
  let record := MkClassification rid (cc_kind data) (cc_code data) (cc_description data) "draft" (cc_source_reference data) (created_by actor) in
  _ ← insert_record record;
  _ ← _log actor "tax.classification.created" "tax_classification" record
        (JObj [("kind", JStr (tc_kind record)); ("code", JStr (tc_code record))]);
  mret record.
Definition list_classifications (offset limit : nat) (status kind q : option string) : M (list TaxClassification * Z) :=
  list_records (λ c, with_status status c && match kind with Some k => String.eqb (tc_kind c) k | None => true end
                     && match q with
                        | Some t => String.eqb t "" || contains_ci (tc_code c) t || contains_ci (tc_description c) t
                        | None => true
                        end) offset limit.
Definition classification_changes (data : ClassificationUpdate) : list (Change TaxClassification) :=
  required_field "description" (cu_description data) (λ x c, c <| tc_description := x |>)
  ++ optional_field "source_reference" (cu_source_reference data) (λ x c, c <| tc_source_reference := x |>).
Definition update_classification (actor : User) (record_id : Z) (data : ClassificationUpdate) : M TaxClassification :=
  record ← _get record_id "Classification";
  _ ← _require_draft record;
  let changes := classification_changes data in
  record ← _apply_changes record changes ["source_reference"];
  _ ← update_record record;
  _ ← _log actor "tax.classification.updated" "tax_classification" record (fields_of changes);
  mret record.
Definition approve_classification (actor : User) (record_id : Z) (note : option string) : M TaxClassification :=
  record ← _get record_id "Classification";
  _ ← raise_if (is_draft record && _blank (tc_source_reference record))
        (ETaxMaster (ApprovalPrerequisiteError "A source reference is required to approve a classification"));
  approved ← _approve record actor note;
  let '(record, details) := approved in
  _ ← update_record record;
  _ ← _log actor "tax.classification.approved" "tax_classification" record details;
  mret record.
Definition retire_classification (actor : User) (record_id : Z) : M TaxClassification :=
  record ← _get record_id "Classification";
  _ ← (if negb (String.eqb (tc_status record) "retired") then
         open ← has_open_rules (tc_id record);
         _ ← raise_if open (ETaxMaster (ClassificationInUseError "it still has draft or approved rules"));
         count ← count_products_using (tc_id record);
         raise_if (negb (count =? 0)) (ETaxMaster (ClassificationInUseError ("it is assigned to " +:+ str_Z count +:+ " product(s)")))
       else mret tt);
  record ← _retire record;
  _ ← update_record record;
  _ ← _log actor "tax.classification.retired" "tax_classification" record JNull;
  mret record.

(** [list_products_by_tax_state] and [list_products]: products with the state of their classification. *)
Record ProductTaxRead := MkProductTaxRead {
  px_id : Z; px_sku : string; px_name : string; px_status : ProductStatus; px_unit : option string; px_tax_classification_id : option Z;
  px_tax_state : string }.
Definition in_tax_state (state : option string) (p : Product) (status : option string) : bool :=
  match state with
  | None => true
  | Some t =>
      if String.eqb t "unassigned" then opt_eqb (p_tax_classification_id p) None
      else if String.eqb t "assigned_approved" then opt_eqb status (Some "approved")
      else if String.eqb t "assigned_unapproved"
      then negb (opt_eqb (p_tax_classification_id p) None) && match status with Some u => negb (String.eqb u "approved") | None => false end
      else true
  end.
Definition list_products (offset limit : nat) (state : option string) : M (list ProductTaxRead * Z) :=
  db_gets (λ d,
    let rows := order_by p_id (rows_where (λ p, in_tax_state state p (tax_state d p)) (d_products d)) in
    (map (λ p, MkProductTaxRead (p_id p) (p_sku p) (p_name p) (p_status p) (p_unit p) (p_tax_classification_id p)
                 (product_tax_state (tax_state d p))) (take limit (drop offset rows)), Z.of_nat (length rows))).

(** *** Rules *)

Definition overlapping_approved_rule (classification_id start : Z) (until : option Z) (exclude_id : Z) : M bool :=
  db_gets (λ d, exists_row (λ r, (tr_classification_id r =? classification_id) && String.eqb (tr_status r) "approved"
                                 && negb (tr_id r =? exclude_id) && before start (tr_effective_to r) && before (tr_effective_from r) until)
                  (d_rules d)).
Definition create_rule (actor : User) (data : RuleCreate) : M TaxRule :=
  classification ← (_get (rc_classification_id data) "Classification" : M TaxClassification);
  _ ← raise_if (String.eqb (tc_status classification) "retired") (ETaxMaster (InvalidTaxInputError "Cannot add a rule to a retired classification"));
  rid ← new_id;
  let record := MkRule rid (rc_classification_id data) (rc_treatment data) (rc_cgst_rate data) (rc_sgst_utgst_rate data) (rc_igst_rate data)
    (rc_effective_from data) (rc_effective_to data) "draft" (rc_source_reference data) (created_by actor) in
  _ ← insert_record record;
  _ ← _log actor "tax.rule.created" "tax_rule" record
        (JObj [("classification_id", JInt (tr_classification_id record)); ("treatment", JStr (tr_treatment record))]);
  mret record.
Definition list_rules (offset limit : nat) (status : option string) (classification_id : option Z) : M (list TaxRule * Z) :=
  list_records (λ r, with_status status r && match classification_id with Some c => tr_classification_id r =? c | None => true end) offset limit.
Definition rule_changes (data : RuleUpdate) : list (Change TaxRule) :=
  required_field "treatment" (ru_treatment data) (λ x r, r <| tr_treatment := x |>)
  ++ required_field "cgst_rate" (ru_cgst_rate data) (λ x r, r <| tr_cgst_rate := x |>)
  ++ required_field "sgst_utgst_rate" (ru_sgst_utgst_rate data) (λ x r, r <| tr_sgst_utgst_rate := x |>)
  ++ required_field "igst_rate" (ru_igst_rate data) (λ x r, r <| tr_igst_rate := x |>)
  ++ required_field "effective_from" (ru_effective_from data) (λ x r, r <| tr_effective_from := x |>)
  ++ optional_field "effective_to" (ru_effective_to data) (λ x r, r <| tr_effective_to := x |>)
  ++ optional_field "source_reference" (ru_source_reference data) (λ x r, r <| tr_source_reference := x |>).
Definition update_rule (actor : User) (record_id : Z) (data : RuleUpdate) : M TaxRule :=
  record ← _get record_id "Rule";
  _ ← _require_draft record;
  let changes := rule_changes data in
  record ← _apply_changes record changes ["effective_to"; "source_reference"];
  _ ← of_sum (match check_rule_shape (tr_treatment record) (tr_cgst_rate record) (tr_sgst_utgst_rate record) (tr_igst_rate record) with
              | inl (ValueError m) => inl (ETaxMaster (InvalidTaxInputError m))
              | r => r
              end);
  _ ← raise_if (negb (dates_ok (tr_effective_from record) (tr_effective_to record)))
        (ETaxMaster (InvalidTaxInputError "effective_to must be after effective_from"));
  _ ← update_record record;
  _ ← _log actor "tax.rule.updated" "tax_rule" record (fields_of changes);
  mret record.
(** [try: await self.repo.save(record)  except IntegrityError] *)
Definition save_or_overlap {A} `{!TaxMaster A} (record : A) (constraint : string) (overlap : TaxMasterErr) : M unit :=
  try_catch (update_record record)
    (λ e, match e with
          | IntegrityError c => if String.eqb c constraint then Some (raise (ETaxMaster overlap)) else None
          | _ => None
          end).
Definition approve_rule (actor : User) (record_id : Z) (note : option string) : M TaxRule :=
  record ← _get record_id "Rule";
  _ ← (if is_draft record then
         _ ← raise_if (_blank (tr_source_reference record)) (ETaxMaster (ApprovalPrerequisiteError
               "A source reference (official notification or approval) is required to approve a rule"));
         classification ← (_get (tr_classification_id record) "Classification" : M TaxClassification);
         _ ← raise_if (negb (String.eqb (tc_status classification) "approved"))
               (ETaxMaster (ApprovalPrerequisiteError "The classification must be approved first"));
         overlap ← overlapping_approved_rule (tr_classification_id record) (tr_effective_from record) (tr_effective_to record) (tr_id record);
         raise_if overlap (ETaxMaster RuleOverlapError)
       else mret tt);
  approved ← _approve record actor note;
  let '(record, details) := approved in
  _ ← save_or_overlap record "ex_tax_rules_no_approved_overlap" RuleOverlapError;
  _ ← _log actor "tax.rule.approved" "tax_rule" record details;
  mret record.
Definition close_rule (actor : User) (record_id : Z) (effective_to : Z) : M TaxRule :=
  record ← (_get record_id "Rule" : M TaxRule);
  _ ← raise_if (negb (String.eqb (tr_status record) "approved")) (ETaxMaster (InvalidTaxTransitionError "close" (tr_status record)));
  _ ← raise_if (effective_to <=? tr_effective_from record) (ETaxMaster (InvalidTaxInputError "effective_to must be after effective_from"));
  _ ← raise_if (match tr_effective_to record with Some u => u <? effective_to | None => false end)
        (ETaxMaster (InvalidTaxInputError "A rule's end date can be brought forward, never extended"));
  let previous := tr_effective_to record in
  let record := record <| tr_effective_to := Some effective_to |> in
  _ ← update_record record;
  _ ← _log actor "tax.rule.closed" "tax_rule" record
        (JObj [("from", j_opt (λ p, JStr (isoformat p)) previous); ("to", JStr (isoformat effective_to))]);
  mret record.
Definition retire_rule (actor : User) (record_id : Z) : M TaxRule :=
  record ← _get record_id "Rule";
  record ← _retire record;
  _ ← update_record record;
  _ ← _log actor "tax.rule.retired" "tax_rule" record JNull;
  mret record.

(** *** Registrations *)

Definition registration_by_gstin (gstin : string) : M (option GstRegistration) :=
  rows ← db_gets (λ d, rows_where (λ g, String.eqb (gr_gstin g) gstin) (d_registrations d));
  scalar_one_or_none rows.
Definition registration_has_open_settings (registration_id : Z) : M bool :=
  db_gets (λ d, exists_row (λ b, (ts_registration_id b =? registration_id) && negb (String.eqb (ts_status b) "retired")) (d_tax_settings d)).
Definition create_registration (actor : User) (data : RegistrationCreate) : M GstRegistration :=
  found ← registration_by_gstin (gc_gstin data);
  _ ← raise_if (negb (bool_decide (found = None))) (ETaxMaster DuplicateRegistrationError);
  rid ← new_id;
  let record := MkRegistration rid (gc_gstin data) (gc_legal_name data) (gc_state_code data) (gc_valid_from data) (gc_valid_to data) "draft"
    (created_by actor) in
  _ ← insert_record record;
  _ ← _log actor "tax.registration.created" "gst_registration" record (JObj [("state_code", JStr (gr_state_code record))]);
  mret record.
Definition list_registrations (offset limit : nat) (status : option string) : M (list GstRegistration * Z) :=
  list_records (with_status status) offset limit.
Definition registration_changes (data : RegistrationUpdate) : list (Change GstRegistration) :=
  required_field "legal_name" (gu_legal_name data) (λ x g, g <| gr_legal_name := x |>)
  ++ required_field "valid_from" (gu_valid_from data) (λ x g, g <| gr_valid_from := x |>)
  ++ optional_field "valid_to" (gu_valid_to data) (λ x g, g <| gr_valid_to := x |>).
Definition update_registration (actor : User) (record_id : Z) (data : RegistrationUpdate) : M GstRegistration :=
  record ← _get record_id "Registration";
  _ ← _require_draft record;
  let changes := registration_changes data in
  record ← _apply_changes record changes ["valid_to"];
  _ ← raise_if (negb (dates_ok (gr_valid_from record) (gr_valid_to record)))
        (ETaxMaster (InvalidTaxInputError "valid_to must be after valid_from"));
  _ ← update_record record;
  _ ← _log actor "tax.registration.updated" "gst_registration" record (fields_of changes);
  mret record.
Definition approve_registration (actor : User) (record_id : Z) (note : option string) : M GstRegistration :=
  record ← _get record_id "Registration";
  approved ← _approve record actor note;
  let '(record, details) := approved in
  _ ← update_record record;
  _ ← _log actor "tax.registration.approved" "gst_registration" record details;
  mret record.
Definition retire_registration (actor : User) (record_id : Z) : M GstRegistration :=
  record ← _get record_id "Registration";
  _ ← (if negb (String.eqb (gr_status record) "retired") then
         open ← registration_has_open_settings (gr_id record);
         raise_if open (ETaxMaster RegistrationInUseError)
       else mret tt);
  record ← _retire record;
  _ ← update_record record;
  _ ← _log actor "tax.registration.retired" "gst_registration" record JNull;
  mret record.

(** *** The business's configurations *)

Definition overlapping_approved_settings (start : Z) (until : option Z) (exclude_id : Z) : M bool :=
  db_gets (λ d, exists_row (λ b, String.eqb (ts_status b) "approved" && negb (ts_id b =? exclude_id)
                                 && before start (ts_effective_to b) && before (ts_effective_from b) until) (d_tax_settings d)).
Definition create_settings (actor : User) (data : SettingsCreate) : M BusinessTaxSettings :=
  registration ← (_get (sc_registration_id data) "Registration" : M GstRegistration);
  _ ← raise_if (String.eqb (gr_status registration) "retired") (ETaxMaster (InvalidTaxInputError "Cannot use a retired registration"));
  rid ← new_id;
  let record := MkTaxSettings rid (sc_pricing_mode data) (sc_place_of_supply_basis data) (sc_shipping_tax_treatment data)
    (sc_rounding_policy data) (sc_registration_id data) (sc_effective_from data) (sc_effective_to data) "draft" (sc_source_reference data)
    (created_by actor) in
  _ ← insert_record record;
  _ ← _log actor "tax.settings.created" "business_tax_settings" record
        (JObj [("pricing_mode", JStr (ts_pricing_mode record)); ("registration_id", JInt (ts_registration_id record))]);
  mret record.
Definition list_settings (offset limit : nat) (status : option string) : M (list BusinessTaxSettings * Z) :=
  list_records (with_status status) offset limit.
Definition settings_changes (data : SettingsUpdate) : list (Change BusinessTaxSettings) :=
  required_field "pricing_mode" (su_pricing_mode data) (λ x b, b <| ts_pricing_mode := x |>)
  ++ required_field "place_of_supply_basis" (su_place_of_supply_basis data) (λ x b, b <| ts_place_of_supply_basis := x |>)
  ++ required_field "shipping_tax_treatment" (su_shipping_tax_treatment data) (λ x b, b <| ts_shipping_tax_treatment := x |>)
  ++ required_field "rounding_policy" (su_rounding_policy data) (λ x b, b <| ts_rounding_policy := x |>)
  ++ required_field "registration_id" (su_registration_id data) (λ x b, b <| ts_registration_id := x |>)
  ++ required_field "effective_from" (su_effective_from data) (λ x b, b <| ts_effective_from := x |>)
  ++ optional_field "effective_to" (su_effective_to data) (λ x b, b <| ts_effective_to := x |>)
  ++ optional_field "source_reference" (su_source_reference data) (λ x b, b <| ts_source_reference := x |>).
(** Looking the new registration up flushes the change first; the second flush finds nothing left to write. *)
Definition update_settings (actor : User) (record_id : Z) (data : SettingsUpdate) : M BusinessTaxSettings :=
  record ← _get record_id "Tax configuration";
  _ ← _require_draft record;
  let changes := settings_changes data in
  record ← _apply_changes record changes ["effective_to"; "source_reference"];
  _ ← raise_if (negb (dates_ok (ts_effective_from record) (ts_effective_to record)))
        (ETaxMaster (InvalidTaxInputError "effective_to must be after effective_from"));
  _ ← update_record record;
  _ ← (if bool_decide ("registration_id" ∈ map ch_key changes)
       then _ ← (_get (ts_registration_id record) "Registration" : M GstRegistration); mret tt else mret tt);
  _ ← _log actor "tax.settings.updated" "business_tax_settings" record (fields_of changes);
  mret record.
Definition approve_settings (actor : User) (record_id : Z) (note : option string) : M BusinessTaxSettings :=
  record ← _get record_id "Tax configuration";
  _ ← (if is_draft record then
         _ ← raise_if (_blank (ts_source_reference record)) (ETaxMaster (ApprovalPrerequisiteError
               "The GST professional's written approval (source reference) is required to approve a tax configuration"));
         registration ← (_get (ts_registration_id record) "Registration" : M GstRegistration);
         _ ← raise_if (negb (String.eqb (gr_status registration) "approved"))
               (ETaxMaster (ApprovalPrerequisiteError "The registration must be approved first"));
         overlap ← overlapping_approved_settings (ts_effective_from record) (ts_effective_to record) (ts_id record);
         raise_if overlap (ETaxMaster SettingsOverlapError)
       else mret tt);
  approved ← _approve record actor note;
  let '(record, details) := approved in
  _ ← save_or_overlap record "ex_business_tax_settings_no_approved_overlap" SettingsOverlapError;
  _ ← _log actor "tax.settings.approved" "business_tax_settings" record details;
  mret record.
Definition retire_settings (actor : User) (record_id : Z) : M BusinessTaxSettings :=
  record ← _get record_id "Tax configuration";
  record ← _retire record;
  _ ← update_record record;
  _ ← _log actor "tax.settings.retired" "business_tax_settings" record JNull;
  mret record.
End service.

(** ** The readiness report *)

Definition _CONFIG_DETAIL (reason : string) : option string :=
  if String.eqb reason "no_approved_tax_settings" then Some "No approved business tax configuration is effective today"
  else if String.eqb reason "ambiguous_tax_settings" then Some "More than one approved business tax configuration is effective today"
  else if String.eqb reason "registration_not_approved" then Some "The registration the tax configuration refers to is not approved"
  else if String.eqb reason "registration_not_valid_on_date" then Some "The registration the tax configuration refers to is not valid today"
  else None.
Record ReadinessCounts := MkCounts {
  active_products : Z; active_unclassified : Z; active_classification_not_approved : Z; active_without_effective_rule : Z }.
(** The blocker of each count that is not zero. *)
Definition _COUNT_BLOCKERS (c : ReadinessCounts) : list (Z * string * string) :=
  [(active_unclassified c, "active_products_unclassified", "active product(s) have no tax classification");
   (active_classification_not_approved c, "active_products_classification_not_approved",
    "active product(s) point at a classification that is not approved");
   (active_without_effective_rule c, "active_products_without_effective_rule",
    "active product(s) have an approved classification but no approved rule effective today")].
(** [readiness_counts] *)
Definition readiness_counts (d : DB) (as_of : Z) : ReadinessCounts :=
  let active p := bool_decide (p_status p = ACTIVE) in
  let classified (ok : TaxClassification → bool) p :=
    match p_tax_classification_id p with
    | Some c => match d_classifications d !! c with Some k => ok k | None => false end
    | None => false
    end in
  let covering p := exists_row (λ r, opt_eqb (p_tax_classification_id p) (Some (tr_classification_id r)) && String.eqb (tr_status r) "approved"
                                     && covers (tr_effective_from r) (tr_effective_to r) as_of) (d_rules d) in
  MkCounts (count_rows active (d_products d))
    (count_rows (λ p, active p && opt_eqb (p_tax_classification_id p) None) (d_products d))
    (count_rows (λ p, active p && classified (λ k, negb (String.eqb (tc_status k) "approved")) p) (d_products d))
    (count_rows (λ p, active p && classified (λ k, String.eqb (tc_status k) "approved") p && negb (covering p)) (d_products d)).

Record ReadinessRead := MkReadiness {
  rd_as_of : Z; rd_ready : bool; rd_blockers : list (string * string); rd_settings_id : option Z; rd_counts : ReadinessCounts;
  rd_tax_calculation_enabled : bool; rd_tax_classification_required : bool;
  rd_live_payments_enabled : bool; rd_payment_currency : option string; rd_payment_blockers : list (string * string) }.

Section readiness.
Context `{!Settings} `{!TaxAdminSettings} `{!CatalogueSettings}.

Definition payment_readiness (store_currency : option string) : list (string * string) :=
  match store_currency with
  | None => [("store_currency_not_configured", "The store currency has not been set")]
  | Some c =>
      match List.find (λ cur, String.eqb (code cur) c) CURRENCIES with
      | Some cur =>
          if negb (payment_verified cur)
          then [("payment_currency_not_verified", "Payments in '" +:+ c +:+ "' are not verified for the payment integration")]
          else if negb (bool_decide (c ∈ enabled_payment_currencies))
          then [("payment_currency_not_enabled", "'" +:+ c +:+ "' is not in PAYMENT_CURRENCIES_ENABLED for this deployment")]
          else []
      | None => [("payment_currency_not_verified", "Payments in '" +:+ c +:+ "' are not verified for the payment integration")]
      end
  end.
(** The GST calculator exists ([GST_CALCULATOR_IMPLEMENTED]). *)
Definition readiness (as_of : option Z) : M ReadinessRead :=
  today ← india_today;
  let as_of := default today as_of in
  d ← gets st_db;
  let '(config, config_blockers) := evaluate_config d as_of in
  let counts := readiness_counts d as_of in
  found ← map_m (λ b, detail ← of_option (_CONFIG_DETAIL (bl_reason b)) (RuntimeError "KeyError"); mret (bl_reason b, detail)) config_blockers;
  let counted := omap (λ x, let '(n, reason, text) := x in if n =? 0 then None else Some (reason, str_Z n +:+ " " +:+ text)) (_COUNT_BLOCKERS counts) in
  let blockers := found ++ counted in
  let store_currency := (effective_currency d).1 in
  mret (MkReadiness as_of (length blockers =? 0)%nat blockers
          (match config_blockers with [] => option_map ts_id config | _ => None end) counts
          tax_calculation_enabled tax_classification_required live_payments_enabled store_currency (payment_readiness store_currency)).
End readiness.

(** ** The endpoints *)

Section endpoints.
Context `{!Jwt} `{!TaxAdminSettings} `{!Settings} `{!CatalogueSettings}.
Implicit Types (credentials : string) (record_id : Z).

Definition create_classification_endpoint credentials (payload : ClassificationCreate) : M TaxClassification :=
  admin ← require_permission TAX_CONFIGURE credentials; create_classification admin payload.
Definition list_classifications_endpoint credentials (offset limit : nat) (status kind q : option string) : M (list TaxClassification * Z) :=
  _ ← require_permission TAX_READ credentials; list_classifications offset limit status kind q.
Definition update_classification_endpoint credentials record_id (payload : ClassificationUpdate) : M TaxClassification :=
  admin ← require_permission TAX_CONFIGURE credentials; update_classification admin record_id payload.
Definition approve_classification_endpoint credentials record_id (note : option string) : M TaxClassification :=
  admin ← require_permission TAX_CONFIGURE credentials; approve_classification admin record_id note.
Definition retire_classification_endpoint credentials record_id : M TaxClassification :=
  admin ← require_permission TAX_CONFIGURE credentials; retire_classification admin record_id.
Definition list_products_by_tax_state credentials (offset limit : nat) (state : option string) : M (list ProductTaxRead * Z) :=
  _ ← require_permission TAX_READ credentials; list_products offset limit state.
Definition create_rule_endpoint credentials (payload : RuleCreate) : M TaxRule :=
  admin ← require_permission TAX_CONFIGURE credentials; create_rule admin payload.
Definition list_rules_endpoint credentials (offset limit : nat) (status : option string) (classification_id : option Z) : M (list TaxRule * Z) :=
  _ ← require_permission TAX_READ credentials; list_rules offset limit status classification_id.
Definition update_rule_endpoint credentials record_id (payload : RuleUpdate) : M TaxRule :=
  admin ← require_permission TAX_CONFIGURE credentials; update_rule admin record_id payload.
Definition approve_rule_endpoint credentials record_id (note : option string) : M TaxRule :=
  admin ← require_permission TAX_CONFIGURE credentials; approve_rule admin record_id note.
Definition close_rule_endpoint credentials record_id (effective_to : Z) : M TaxRule :=
  admin ← require_permission TAX_CONFIGURE credentials; close_rule admin record_id effective_to.
Definition retire_rule_endpoint credentials record_id : M TaxRule :=
  admin ← require_permission TAX_CONFIGURE credentials; retire_rule admin record_id.
Definition create_registration_endpoint credentials (payload : RegistrationCreate) : M GstRegistration :=
  admin ← require_permission TAX_CONFIGURE credentials; create_registration admin payload.
Definition list_registrations_endpoint credentials (offset limit : nat) (status : option string) : M (list GstRegistration * Z) :=
  _ ← require_permission TAX_READ credentials; list_registrations offset limit status.
Definition update_registration_endpoint credentials record_id (payload : RegistrationUpdate) : M GstRegistration :=
  admin ← require_permission TAX_CONFIGURE credentials; update_registration admin record_id payload.
Definition approve_registration_endpoint credentials record_id (note : option string) : M GstRegistration :=
  admin ← require_permission TAX_CONFIGURE credentials; approve_registration admin record_id note.
Definition retire_registration_endpoint credentials record_id : M GstRegistration :=
  admin ← require_permission TAX_CONFIGURE credentials; retire_registration admin record_id.
Definition create_settings_endpoint credentials (payload : SettingsCreate) : M BusinessTaxSettings :=
  admin ← require_permission TAX_CONFIGURE credentials; create_settings admin payload.
Definition list_settings_endpoint credentials (offset limit : nat) (status : option string) : M (list BusinessTaxSettings * Z) :=
  _ ← require_permission TAX_READ credentials; list_settings offset limit status.
Definition update_settings_endpoint credentials record_id (payload : SettingsUpdate) : M BusinessTaxSettings :=
  admin ← require_permission TAX_CONFIGURE credentials; update_settings admin record_id payload.
Definition approve_settings_endpoint credentials record_id (note : option string) : M BusinessTaxSettings :=
  admin ← require_permission TAX_CONFIGURE credentials; approve_settings admin record_id note.
Definition retire_settings_endpoint credentials record_id : M BusinessTaxSettings :=
  admin ← require_permission TAX_CONFIGURE credentials; retire_settings admin record_id.
Definition gst_readiness credentials : M ReadinessRead :=
  _ ← require_permission TAX_READ credentials; readiness None.
End endpoints.

(** ** Every operation keeps the tables sound *)

(** A change of a draft that stays a draft. *)
Definition keeps_master {A} `{!TaxMaster A} (c : Change A) : Prop :=
  ∀ a, tm_id (ch_set c a) = tm_id a ∧ tm_status (ch_set c a) = tm_status a.
Lemma apply_changes_inr {A} `{!TaxMaster A} (changes : list (Change A)) nullable record record' s s' :
  Forall keeps_master changes → _apply_changes record changes nullable s = (inr record', s') →
  s' = s ∧ tm_id record' = tm_id record ∧ tm_status record' = tm_status record.
Proof.
  intros Hk. revert record s. induction Hk as [|c cs Hc _ IH]; intros record s; cbn [_apply_changes]; [by intros [= -> ->]|].
  unfold mbind, ST_bind, raise_if. destruct (_ && _); [done|]. cbn. intros H. destruct (IH _ _ H) as (-> & -> & ->).
  split; [done|apply Hc].
Qed.

(** A method that reads a row and goes on with it. *)
Lemma get_record_inr {A} `{!TaxMaster A} k what (a : A) s s' : _get k what s = (inr a, s') → tm_table (st_db s) !! k = Some a ∧ s' = s.
Proof. unfold _get, get. intros H. runs. done. Qed.
Lemma guar_get_record {A} `{!TaxMaster A} k what : guar step (_get k what : M A).
Proof. unfold _get, get. solve_guar. Qed.
Lemma guar_edit {A B} `{!TaxMaster A} `{!TaxMasterOk A} k what (m : A → M B) :
  (∀ s a, tm_table (st_db s) !! k = Some a → tm_id a = k → step s (m a s).2) → guar step (a ← _get k what; m a).
Proof.
  intros Hm s. apply step_bind; [apply guar_get_record|]. intros a s' [Ha ->]%get_record_inr. apply step_sound. intros (_ & _ & HI).
  apply Hm; [done|]. exact (proj1 (tm_row _ _ _ (inv_tax _ HI) Ha)).
Qed.
Lemma guar_tax_log {A} `{!TaxMaster A} a b c (r : A) d : guar step (_log a b c r d).
Proof. unfold _log. solve_guar. Qed.
#[local] Hint Resolve guar_get_record guar_tax_log : guar.
Lemma require_draft_inr {A} `{!TaxMaster A} (a : A) u s s' : _require_draft a s = (inr u, s') → s' = s.
Proof. unfold _require_draft. intros H. by runs. Qed.
Lemma guar_apply_changes {A} (changes : list (Change A)) nullable record : guar step (_apply_changes record changes nullable).
Proof. revert record. induction changes as [|c cs IH]; intros record; cbn [_apply_changes]; solve_guar. Qed.
#[local] Hint Resolve guar_apply_changes : guar.

Section sound.
Context {cfg : TaxAdminSettings}.

Lemma guar_create_classification actor data : guar step (create_classification actor data).
Proof. unfold create_classification, classification_by_kind_code; cbv zeta. solve_guar. Qed.
Lemma guar_create_rule actor data : guar step (create_rule actor data).
Proof. unfold create_rule; cbv zeta. solve_guar. Qed.
Lemma guar_create_registration actor data : guar step (create_registration actor data).
Proof. unfold create_registration, registration_by_gstin; cbv zeta. solve_guar. Qed.
Lemma guar_create_settings actor data : guar step (create_settings actor data).
Proof. unfold create_settings; cbv zeta. solve_guar. Qed.

(** The changes of a PATCH leave the key and the status alone. *)
Lemma required_field_keeps {A T} `{!TaxMaster A} key (v : option (option T)) (set : T → A → A) :
  (∀ x a, tm_id (set x a) = tm_id a ∧ tm_status (set x a) = tm_status a) → Forall keeps_master (required_field key v set).
Proof. intros Hs. destruct v as [[x|]|]; repeat constructor; apply Hs. Qed.
Lemma optional_field_keeps {A T} `{!TaxMaster A} key (v : option (option T)) (set : option T → A → A) :
  (∀ x a, tm_id (set x a) = tm_id a ∧ tm_status (set x a) = tm_status a) → Forall keeps_master (optional_field key v set).
Proof. intros Hs. destruct v as [x|]; repeat constructor; apply Hs. Qed.
Ltac changes_keep :=
  repeat apply Forall_app_2; (apply required_field_keeps || apply optional_field_keeps); intros; done.
Lemma classification_changes_keep data : Forall keeps_master (classification_changes data).
Proof. changes_keep. Qed.
Lemma rule_changes_keep data : Forall keeps_master (rule_changes data).
Proof. changes_keep. Qed.
Lemma registration_changes_keep data : Forall keeps_master (registration_changes data).
Proof. changes_keep. Qed.
Lemma settings_changes_keep data : Forall keeps_master (settings_changes data).
Proof. changes_keep. Qed.

(** Editing a draft: the changes, then whatever is checked, then the row is written. *)
Lemma step_edit {A B} `{!TaxMaster A} `{!TaxMasterOk A} (a : A) k s (changes : list (Change A)) nullable (rest : A → M B) :
  tm_table (st_db s) !! k = Some a → tm_id a = k → Forall keeps_master changes →
  (∀ b, (∀ s', tm_table (st_db s') !! tm_id b = Some a → step s' (update_record b s').2) → tm_table (st_db s) !! tm_id b = Some a →
        step s (rest b s).2) →
  step s ((b ← _apply_changes a changes nullable; rest b) s).2.
Proof.
  intros Hrow Hk Hkeep Hrest. apply step_bind; [apply guar_apply_changes|]. intros b s' H.
  destruct (apply_changes_inr _ _ _ _ _ _ Hkeep H) as (-> & Hid & Hst). apply Hrest; [|by rewrite Hid, Hk].
  intros s' Hs'. by eapply step_update_same.
Qed.
(** The rest of a method that needs nothing of the state it starts in. *)
Ltac edits lem :=
  apply guar_edit; intros s a Hrow <-; unfold _require_draft; passes; cbv zeta; apply (step_edit a (tm_id a)); [done..|apply lem|];
  intros b Hb Hrow'.
Lemma guar_update_classification actor k data : guar step (update_classification actor k data).
Proof. unfold update_classification. edits classification_changes_keep. apply step_bind; [by apply Hb|intros ? ? _; on_with_guar]. Qed.
Lemma guar_update_rule actor k data : guar step (update_rule actor k data).
Proof. unfold update_rule. edits rule_changes_keep. passes. passes. apply step_bind; [by apply Hb|intros ? ? _; on_with_guar]. Qed.
Lemma guar_update_registration actor k data : guar step (update_registration actor k data).
Proof. unfold update_registration. edits registration_changes_keep. passes. apply step_bind; [by apply Hb|intros ? ? _; on_with_guar]. Qed.
Lemma guar_update_settings actor k data : guar step (update_settings actor k data).
Proof. unfold update_settings. edits settings_changes_keep. passes. apply step_bind; [by apply Hb|intros ? ? _; on_with_guar]. Qed.

(** *** Approving and retiring *)

Lemma approve_inr {A} `{!TaxMaster A} (a : A) actor note x s s' :
  _approve a actor note s = (inr x, s') →
  s' = s ∧ tm_status a = "draft" ∧
  x.1 = tm_put_approval (MkApproval (ap_created_by (tm_approval a)) (Some (u_id actor)) (Some (st_now s))) (tm_put_status "approved" a).
Proof.
  unfold _approve. cbv zeta. intros H'. runs. split; [done|]. split; [|done].
  by match goal with H : negb (String.eqb _ "draft") = false |- _ => apply negb_false_iff, String.eqb_eq in H end.
Qed.
Lemma retire_inr {A} `{!TaxMaster A} (a : A) x s s' :
  _retire a s = (inr x, s') → s' = s ∧ tm_status a ≠ "retired" ∧ x = tm_put_status "retired" a.
Proof. unfold _retire. intros H'. runs. split; [done|]. split; [|done]. by apply String.eqb_neq. Qed.
Lemma guar_approve {A} `{!TaxMaster A} (a : A) actor note : guar step (_approve a actor note).
Proof. unfold _approve. cbv zeta. solve_guar. Qed.
Lemma guar_retire {A} `{!TaxMaster A} (a : A) : guar step (_retire a).
Proof. unfold _retire. solve_guar. Qed.
#[local] Hint Resolve guar_approve guar_retire : guar.
Lemma step_save_or_overlap {A} `{!TaxMaster A} (a : A) n e s : step s (update_record a s).2 → step s (save_or_overlap a n e s).2.
Proof.
  intros Hu. apply step_try; [done|]. intros x k. destruct x; try done. destruct (String.eqb _ _); [|done]. intros [= <-]. apply guar_raise, _.
Qed.

Ltac approves :=
  apply step_bind; [on_with_guar|intros [? ?] ? (-> & Hdraft & Hnew)%approve_inr; cbn [fst] in Hnew; subst].
Ltac retires := apply step_bind; [on_with_guar|intros ? ? (-> & Hret & ->)%retire_inr].
Ltac writes := apply step_bind; [first [apply step_update_record|apply step_save_or_overlap, step_update_record]; intros old Hold; cbn|intros ? ? _; on_with_guar].

Lemma guar_approve_classification actor k note : guar step (approve_classification actor k note).
Proof. unfold approve_classification. apply guar_edit. intros s a Hrow <-. passes. approves. writes. done. Qed.
Lemma guar_approve_registration actor k note : guar step (approve_registration actor k note).
Proof. unfold approve_registration. apply guar_edit. intros s a Hrow <-. approves. writes. done. Qed.
Lemma guar_retire_rule actor k : guar step (retire_rule actor k).
Proof. unfold retire_rule. apply guar_edit. intros s a Hrow <-. retires. writes. done. Qed.
Lemma guar_retire_settings actor k : guar step (retire_settings actor k).
Proof. unfold retire_settings. apply guar_edit. intros s a Hrow <-. retires. writes. done. Qed.
Lemma guar_close_rule actor k until : guar step (close_rule actor k until).
Proof.
  unfold close_rule. apply guar_edit. intros s a Hrow <-. passes. passes. passes. cbv zeta. writes. cbn in Hold, Hrow.
  rewrite Hrow in Hold. injection Hold as <-. intros Hd. apply negb_false_iff, String.eqb_eq in H. congruence.
Qed.

(** A draft rule is approved only under an approved classification, a configuration under an approved registration. *)
Lemma guar_approve_rule actor k note : guar step (approve_rule actor k note).
Proof.
  unfold approve_rule. apply guar_edit. intros s a Hrow <-. apply step_bind; [on_with_guar|]. intros u s' Hchecks.
  assert (s' = s ∧ (tr_status a = "draft" → approved_classification (tax_of (st_db s)) (tr_classification_id a))) as [-> Hlink].
  { destruct (is_draft a) eqn:Hd.
    - unfold overlapping_approved_rule in Hchecks. runs.
      match goal with H : _get _ _ _ = (inr ?c, _) |- _ => apply get_record_inr in H as [Hc ->]; split; [done|]; intros _; exists c end.
      split; [done|]. match goal with H : negb (String.eqb (tc_status _) _) = false |- _ => by apply negb_false_iff, String.eqb_eq in H end.
    - runs. split; [done|]. intros Hn. unfold is_draft in Hd. cbn in Hd. by rewrite Hn in Hd. }
  approves. writes. intros _ _. cbn in Hdraft. by apply Hlink.
Qed.
Lemma guar_approve_settings actor k note : guar step (approve_settings actor k note).
Proof.
  unfold approve_settings. apply guar_edit. intros s a Hrow <-. apply step_bind; [on_with_guar|]. intros u s' Hchecks.
  assert (s' = s ∧ (ts_status a = "draft" → approved_registration (tax_of (st_db s)) (ts_registration_id a))) as [-> Hlink].
  { destruct (is_draft a) eqn:Hd.
    - unfold overlapping_approved_settings in Hchecks. runs.
      match goal with H : _get _ _ _ = (inr ?c, _) |- _ => apply get_record_inr in H as [Hc ->]; split; [done|]; intros _; exists c end.
      split; [done|]. match goal with H : negb (String.eqb (gr_status _) _) = false |- _ => by apply negb_false_iff, String.eqb_eq in H end.
    - runs. split; [done|]. intros Hn. unfold is_draft in Hd. cbn in Hd. by rewrite Hn in Hd. }
  approves. writes. intros _ _. cbn in Hdraft. by apply Hlink.
Qed.
(** What is still in use is not retired. *)
Lemma guar_retire_classification actor k : guar step (retire_classification actor k).
Proof.
  unfold retire_classification. apply guar_edit. intros s a Hrow <-. apply step_bind; [on_with_guar|]. intros u s' Hchecks.
  destruct (String.eqb (tc_status a) "retired") eqn:Hr; cbn [negb] in Hchecks.
  { runs. apply step_bind; [on_with_guar|]. intros ? ? (_ & Hn & _)%retire_inr. cbn in Hn. by apply String.eqb_eq in Hr. }
  unfold has_open_rules, count_products_using in Hchecks. runs. retires. writes. intros _ _ k r Hk Heq Ha.
  match goal with H : exists_row _ _ = false |- _ => rewrite exists_row_false in H; specialize (H _ _ Hk); by rewrite Heq, Z.eqb_refl, Ha in H end.
Qed.
Lemma guar_retire_registration actor k : guar step (retire_registration actor k).
Proof.
  unfold retire_registration. apply guar_edit. intros s a Hrow <-. apply step_bind; [on_with_guar|]. intros u s' Hchecks.
  destruct (String.eqb (gr_status a) "retired") eqn:Hr; cbn [negb] in Hchecks.
  { runs. apply step_bind; [on_with_guar|]. intros ? ? (_ & Hn & _)%retire_inr. cbn in Hn. by apply String.eqb_eq in Hr. }
  unfold registration_has_open_settings in Hchecks. runs. retires. writes. intros _ _ k b Hk Heq Ha.
  match goal with H : exists_row _ _ = false |- _ => rewrite exists_row_false in H; specialize (H _ _ Hk); by rewrite Heq, Z.eqb_refl, Ha in H end.
Qed.
End sound.
#[export] Hint Resolve guar_create_classification guar_create_rule guar_create_registration guar_create_settings guar_update_classification
  guar_update_rule guar_update_registration guar_update_settings guar_approve_classification guar_approve_rule guar_approve_registration
  guar_approve_settings guar_close_rule guar_retire_classification guar_retire_rule guar_retire_registration guar_retire_settings : guar.

Section endpoint_soundness.
Context {jwt : Jwt} {cfg : TaxAdminSettings}.
Ltac endpoint := (apply guar_bind; [apply _|apply guar_require_permission|intros; auto 2 with guar nocore]).
Lemma guar_create_classification_endpoint c p : guar step (create_classification_endpoint c p).
Proof. endpoint. Qed.
Lemma guar_update_classification_endpoint c i p : guar step (update_classification_endpoint c i p).
Proof. endpoint. Qed.
Lemma guar_approve_classification_endpoint c i n : guar step (approve_classification_endpoint c i n).
Proof. endpoint. Qed.
Lemma guar_retire_classification_endpoint c i : guar step (retire_classification_endpoint c i).
Proof. endpoint. Qed.
Lemma guar_create_rule_endpoint c p : guar step (create_rule_endpoint c p).
Proof. endpoint. Qed.
Lemma guar_update_rule_endpoint c i p : guar step (update_rule_endpoint c i p).
Proof. endpoint. Qed.
Lemma guar_approve_rule_endpoint c i n : guar step (approve_rule_endpoint c i n).
Proof. endpoint. Qed.
Lemma guar_close_rule_endpoint c i n : guar step (close_rule_endpoint c i n).
Proof. endpoint. Qed.
Lemma guar_retire_rule_endpoint c i : guar step (retire_rule_endpoint c i).
Proof. endpoint. Qed.
Lemma guar_create_registration_endpoint c p : guar step (create_registration_endpoint c p).
Proof. endpoint. Qed.
Lemma guar_update_registration_endpoint c i p : guar step (update_registration_endpoint c i p).
Proof. endpoint. Qed.
Lemma guar_approve_registration_endpoint c i n : guar step (approve_registration_endpoint c i n).
Proof. endpoint. Qed.
Lemma guar_retire_registration_endpoint c i : guar step (retire_registration_endpoint c i).
Proof. endpoint. Qed.
Lemma guar_create_settings_endpoint c p : guar step (create_settings_endpoint c p).
Proof. endpoint. Qed.
Lemma guar_update_settings_endpoint c i p : guar step (update_settings_endpoint c i p).
Proof. endpoint. Qed.
Lemma guar_approve_settings_endpoint c i n : guar step (approve_settings_endpoint c i n).
Proof. endpoint. Qed.
Lemma guar_retire_settings_endpoint c i : guar step (retire_settings_endpoint c i).
Proof. endpoint. Qed.
End endpoint_soundness.
#[export] Hint Resolve guar_create_classification_endpoint guar_update_classification_endpoint guar_approve_classification_endpoint
  guar_retire_classification_endpoint guar_create_rule_endpoint guar_update_rule_endpoint guar_approve_rule_endpoint guar_close_rule_endpoint
  guar_retire_rule_endpoint guar_create_registration_endpoint guar_update_registration_endpoint guar_approve_registration_endpoint
  guar_retire_registration_endpoint guar_create_settings_endpoint guar_update_settings_endpoint guar_approve_settings_endpoint
  guar_retire_settings_endpoint : guar.
