(* ===== verification/Gateways.v ===== *)
(** * Payment gateways and the payment mode of the store

    [payments/services/provider_config_service.py] and [payment_mode_service.py] with their routers, and the verification of
    webhooks that tells a gateway is wired up: gateways from draft to enabled, preferred, disabled; their credentials stored
    encrypted, validated, rotated; the attestations; the demo gateway; the activation of live payments, the check of a gateway
    and the overview. Fernet is a parameter; the adapters are those of [Lifecycle]. *)

From S2P Require Import Prelude Decimal Errors Money Schema Guards CatalogueGuards TaxGuards TaxOk GatewayGuards Evolution GatewayEvolution.
From S2P Require Import Invoice Repositories Frames Runs Lifecycle Payments Tax Checkout Accounts Roles.

Local Open Scope string_scope.
Local Open Scope list_scope.
Local Open Scope Z_scope.

(** ** Secrets ([core/secrets.py]) *)

(** The settings of the storage; Fernet, its randomness drawn like a new uuid; [secrets.token_hex(24)]. *)
Class Secrets := {
  provider_secrets_key : option string; provider_secrets_key_id : string;
  fernet_encrypt : string → uuid → string → string; token_hex : uuid → string }.

Section ciphers.
Context `{!Secrets}.

(** [get_cipher], as the key it encrypts with *)
Definition get_cipher : M string := of_option provider_secrets_key (ESecret SecretStorageNotConfiguredError).
(** [SecretCipher.encrypt] *)
Definition encrypt (key plaintext : string) : M string :=
  salt ← new_uuid; mret (provider_secrets_key_id +:+ ":" +:+ fernet_encrypt key salt plaintext).
End ciphers.

Definition last_chars (n : nat) (s : string) : string := String.substring (String.length s - n) n s.
Definition hint (secret : string) : string := if (8 <=? String.length secret)%nat then "..." +:+ last_chars 4 secret else "...set".

(** ** The payloads ([schemas/provider_config.py], [schemas/payment_mode.py]) *)

Record CredentialsInput := MkCredentials { ci_secret_key : option string; ci_key_id : option string; ci_key_secret : option string }.
(** [getattr(raw, name)], and the names in the order of [extra] *)
Definition credential_names : list string := ["secret_key"; "key_id"; "key_secret"].
Definition credential (raw : CredentialsInput) (name : string) : option string :=
  if String.eqb name "secret_key" then ci_secret_key raw
  else if String.eqb name "key_id" then ci_key_id raw
  else if String.eqb name "key_secret" then ci_key_secret raw else None.

Record ProviderConfigCreate := MkConfigCreate {
  pc_provider : string; pc_mode : string; pc_credentials : CredentialsInput; pc_webhook_secret : option string;
  pc_currencies : option (list string) }.
Definition length_between (lo hi : nat) (s : string) : bool := (lo <=? String.length s)%nat && (String.length s <=? hi)%nat.
Definition config_create_ok (p : ProviderConfigCreate) : bool := length_between 2 30 (pc_provider p) && bool_decide (pc_mode p ∈ MODES).
Definition publishable_key_ok (key : string) : bool := length_between 10 200 key.
Definition currencies_update_ok (l : list string) : bool := (length l <=? 30)%nat.
Inductive AttestationKind := sandbox_verified | production_review.
Definition kind_value (kind : AttestationKind) : string :=
  match kind with sandbox_verified => "sandbox_verified" | production_review => "production_review" end.
Definition attestation_ok (a : AttestationKind * string) : bool := length_between 3 2000 a.2.
Definition live_note_ok (note : option string) : bool := match note with Some t => (String.length t <=? 500)%nat | None => true end.
Definition live_reason_ok (reason : string) : bool := length_between 3 500 reason.

(** ** Credentials *)

(** [CREDENTIAL_PREFIXES], [SECRET_FIELD] and [PUBLIC_FIELD] *)
Definition CREDENTIAL_PREFIXES (provider : string) : option (list (string * (string → list string))) :=
  if String.eqb provider "stripe" then
    Some [("secret_key", λ mode, if String.eqb mode "live" then ["sk_live_"; "rk_live_"] else ["sk_test_"; "rk_test_"])]
  else if String.eqb provider "razorpay" then Some [("key_id", λ mode, if String.eqb mode "live" then ["rzp_live_"] else ["rzp_test_"])]
  else None.
Definition SECRET_FIELD (provider : string) : option string :=
  if String.eqb provider "stripe" then Some "secret_key" else if String.eqb provider "razorpay" then Some "key_secret" else None.
Definition PUBLIC_FIELD (provider : string) : option string := if String.eqb provider "razorpay" then Some "key_id" else None.

Definition config_invalid (code message : string) : Err := EProviderConfig (ProviderConfigInvalidError code message).
Definition config_conflict (code message : string) : Err := EProviderConfig (ProviderConfigConflictError code message).

(** [value.get_secret_value().strip() or None] *)
Definition _secret (value : option string) : option string := t ← value; truthy (Some (py_strip t)).
Definition value_of (values : list (string * string)) (name : string) : string :=
  default "" (snd <$> List.find (λ kv, String.eqb kv.1 name) values).
Definition parse_credentials (spec : ProviderSpec) (mode : string) (raw : CredentialsInput) :
    Err + (list (string * string) * option string * string) :=
  let values := map (λ name, (name, _secret (credential raw name))) (sp_credential_fields spec) in
  let extra := filter (λ name, name ∉ sp_credential_fields spec ∧ _secret (credential raw name) ≠ None) credential_names in
  let missing := filter (λ kv : string * option string, kv.2 = None) values in
  if negb (bool_decide (missing = [])) || negb (bool_decide (extra = []))
  then inl (config_invalid "credentials_fields_invalid"
              (sp_label spec +:+ " needs exactly these credential fields: " +:+ String.concat ", " (sp_credential_fields spec)))
  else
    let values := map (λ kv : string * option string, (kv.1, default "" kv.2)) values in
    match CREDENTIAL_PREFIXES (sp_name spec), SECRET_FIELD (sp_name spec) with
    | Some prefixes, Some secret_field =>
        match List.find (λ p : string * (string → list string),
                 negb (existsb (λ pre, startswith pre (value_of values p.1)) (p.2 mode))) prefixes with
        | Some p => inl (config_invalid "credentials_mode_mismatch"
                      ("The " +:+ p.1 +:+ " does not look like a " +:+ mode +:+ "-mode " +:+ sp_label spec +:+ " credential"))
        | None => inr (values, value_of values <$> PUBLIC_FIELD (sp_name spec), hint (value_of values secret_field))
        end
    | _, _ => inl (RuntimeError "KeyError")
    end.
(** [json.dumps(parsed)] *)
Definition dump_credentials (values : list (string * string)) : string :=
  "{" +:+ String.concat ", " (map (λ kv, quoted kv.1 +:+ ": " +:+ quoted kv.2) values) +:+ "}".
Definition parse_webhook_secret (spec : ProviderSpec) (value : string) : Err + (string * string) :=
  let invalid := config_invalid "webhook_secret_invalid" ("That does not look like a " +:+ sp_label spec +:+ " webhook signing secret") in
  match _secret (Some value) with
  | None => inl invalid
  | Some secret =>
      if (String.length secret <? 8)%nat || (String.eqb (sp_name spec) "stripe" && negb (startswith "whsec_" secret))
      then inl invalid else inr (secret, hint secret)
  end.
Fixpoint supported_codes (spec : ProviderSpec) (currencies : list string) : Err + list string :=
  match currencies with
  | [] => inr []
  | c :: rest =>
      cur ← get_currency c;
      if bool_decide (code cur ∈ sp_currencies spec) then l ← supported_codes spec rest; inr (code cur :: l)
      else inl (config_invalid "currency_not_supported_by_provider"
                  (sp_label spec +:+ " is not verified for " +:+ py_upper (code cur) +:+ " on this platform"))
  end.
(** [sorted(set(out))] *)
Definition _check_currencies (spec : ProviderSpec) (currencies : list string) : Err + list string :=
  l ← supported_codes spec currencies; inr (sort_str (remove_dups l)).

(** ** What an administrator sees of a gateway *)

Definition blank_secret (o : option string) : bool := negb (present (truthy o)).
Section config_readiness.
Context `{!Settings}.

(** Blockers for use, and for live. *)
Definition use_blockers (spec : ProviderSpec) (config : PaymentProviderConfig) : list string :=
  (if blank_secret (cf_credentials_ciphertext config) then ["credentials_not_set"]
   else if String.eqb (cf_credentials_status config) "unvalidated" then ["credentials_not_validated"]
   else if String.eqb (cf_credentials_status config) "invalid" then ["credentials_invalid"] else [])
  ++ (if bool_decide (enabled_currencies spec config = []) then ["no_supported_currency_enabled"] else []).
Definition live_only_blockers (config : PaymentProviderConfig) : list string :=
  if negb (String.eqb (cf_mode config) "live") then ["not_a_live_configuration"]
  else
    (if negb live_payments_enabled then ["live_payments_disabled_on_this_deployment"] else [])
    ++ (if blank_secret (cf_webhook_secret_ciphertext config) then ["webhook_secret_not_set"]
        else if negb (String.eqb (cf_webhook_status config) "verified") then ["webhook_not_verified"] else [])
    ++ (if present (cf_sandbox_verified_at config) then [] else ["sandbox_verification_not_recorded"])
    ++ (if present (cf_production_review_at config) then [] else ["production_review_not_recorded"]).
Definition config_readiness (spec : ProviderSpec) (config : PaymentProviderConfig) : list string * list string :=
  let blockers := use_blockers spec config in
  (blockers, blockers ++ filter (λ b, b ∉ blockers) (live_only_blockers config)).

(** [view]: everything but the secrets ([capabilities] are those of the spec) *)
Record ConfigView := MkView {
  vw_id : uuid; vw_label : string; vw_provider : string; vw_mode : string; vw_status : string; vw_is_preferred : bool;
  vw_currencies : list string;
  vw_configured : bool; vw_hint : option string; vw_credentials_status : string; vw_validated_at : option Z;
  vw_public_identifier : option string;
  vw_webhook_secret_configured : bool; vw_webhook_hint : option string; vw_previous_secret_active : bool; vw_webhook_status : string;
  vw_webhook_verified_at : option Z; vw_webhook_url : string; vw_webhook_events : list string; vw_capabilities : ProviderSpec;
  vw_ready_for_use : bool; vw_ready_for_live : bool; vw_blockers : list string; vw_live_blockers : list string;
  vw_sandbox_verified_at : option Z; vw_production_review_at : option Z; vw_is_demo : bool;
  vw_last_check : option Z * option bool * json; vw_version : Z; vw_created_by : option uuid; vw_updated_by : option uuid }.
Definition webhook_url (provider : string) : string := "/api/v1/payments/webhooks/" +:+ provider.
Definition view (spec : ProviderSpec) (config : PaymentProviderConfig) : ConfigView :=
  let '(blockers, live_blockers) := config_readiness spec config in
  {| vw_id := cf_id config; vw_label := sp_label spec; vw_provider := cf_provider config; vw_mode := cf_mode config;
     vw_status := cf_status config; vw_is_preferred := cf_is_preferred config; vw_currencies := sort_str (cf_currencies config);
     vw_configured := negb (blank_secret (cf_credentials_ciphertext config)); vw_hint := cf_credential_hint config;
     vw_credentials_status := cf_credentials_status config; vw_validated_at := cf_credentials_validated_at config;
     vw_public_identifier := cf_public_identifier config;
     vw_webhook_secret_configured := negb (blank_secret (cf_webhook_secret_ciphertext config)); vw_webhook_hint := cf_webhook_hint config;
     vw_previous_secret_active := negb (blank_secret (cf_previous_webhook_secret_ciphertext config));
     vw_webhook_status := cf_webhook_status config; vw_webhook_verified_at := cf_webhook_verified_at config;
     vw_webhook_url := webhook_url (cf_provider config); vw_webhook_events := sp_webhook_events spec; vw_capabilities := spec;
     vw_ready_for_use := bool_decide (blockers = []) && String.eqb (cf_status config) "enabled";
     vw_ready_for_live := bool_decide (live_blockers = []); vw_blockers := blockers; vw_live_blockers := live_blockers;
     vw_sandbox_verified_at := cf_sandbox_verified_at config; vw_production_review_at := cf_production_review_at config;
     vw_is_demo := String.eqb (cf_provider config) "demo";
     vw_last_check := (cf_last_check_at config, cf_last_check_ok config,
                       default (JList []) (r ← cf_last_check_result config; j_get "checks" r));
     vw_version := cf_version config; vw_created_by := cf_created_by_user_id config; vw_updated_by := cf_updated_by_user_id config |}.

(** [spec_of]: [SPECS[config.provider]] *)
Definition spec_of (config : PaymentProviderConfig) : M ProviderSpec := of_option (get_spec (cf_provider config)) (RuntimeError "KeyError").
Definition view_of (config : PaymentProviderConfig) : M ConfigView := spec ← spec_of config; mret (view spec config).
(** [catalog] *)
Definition catalog : list (ProviderSpec * list string) :=
  map (λ s, (s, if String.eqb (sp_name s) "demo" then ["test"] else MODES)) SPECS.
End config_readiness.

(** ** The repository *)

Definition get_config (config_id : uuid) : M (option PaymentProviderConfig) := db_gets (λ d, d_configs d !! config_id).
Definition get_by_provider_mode (provider mode : string) : M (option PaymentProviderConfig) :=
  rows ← db_gets (λ d, rows_where (λ c, String.eqb (cf_provider c) provider && String.eqb (cf_mode c) mode) (d_configs d));
  scalar_one_or_none rows.
(** [ORDER BY provider, mode] *)
Definition provider_mode_le (a b : PaymentProviderConfig) : Prop :=
  if decide (cf_provider a = cf_provider b) then str_le (cf_mode a) (cf_mode b) else str_le (cf_provider a) (cf_provider b).
#[export] Instance provider_mode_le_dec a b : Decision (provider_mode_le a b).
Proof. unfold provider_mode_le. destruct (decide _); apply _. Defined.
#[global] Typeclasses Opaque provider_mode_le.
Definition all_configs (d : DB) : list PaymentProviderConfig := merge_sort provider_mode_le (rows_where (λ _, true) (d_configs d)).
Definition list_all : M (list PaymentProviderConfig) := db_gets all_configs.
Definition list_for_provider (provider : string) : M (list PaymentProviderConfig) :=
  db_gets (λ d, rows_where (λ c, String.eqb (cf_provider c) provider) (d_configs d)).
(** [PaymentSettingsRepository.get]: the row is created on first use. *)
Definition get_payment_settings : M PaymentSettings :=
  _ ← ensure_payment_settings;
  row ← db_gets d_payment_settings;
  of_option row (RuntimeError "NoResultFound").
Definition get_live_active : M bool := db_gets live_active.
Definition _get_config (config_id : uuid) : M PaymentProviderConfig :=
  found ← get_config config_id; of_option found (EProviderConfig ProviderConfigNotFoundError).

(** ** Administration ([ProviderConfigService]) *)

Definition config_details (config : PaymentProviderConfig) (details : list (string * json)) : json :=
  JObj ([("provider", JStr (cf_provider config)); ("mode", JStr (cf_mode config))] ++ details).
Definition _audit_config (admin : User) (action : string) (config : PaymentProviderConfig) (details : list (string * json)) : M unit :=
  audit_log (Some (u_id admin)) ("provider_config." +:+ action) "payment_provider_config" (Some (cf_id config)) (config_details config details).
Definition j_strs (l : list string) : json := JList (map JStr l).
Definition by_admin (admin : User) (config : PaymentProviderConfig) : PaymentProviderConfig :=
  config <| cf_updated_by_user_id := Some (u_id admin) |>.
(** A configuration as [create] leaves it, before its own fields are set *)
Definition new_config (id provider mode : string) (admin : User) : PaymentProviderConfig :=
  MkConfig id provider mode "draft" false None None None "unvalidated" None None None None "unverified" None [] None None None None
    None None None 1 (Some (u_id admin)) (Some (u_id admin)).

Section administration.
Context `{!Settings} `{!Providers} `{!Secrets}.

Definition set_publishable_key (admin : User) (config_id : uuid) (value : string) : M ConfigView :=
  config ← _get_config config_id;
  _ ← raise_if (negb (String.eqb (cf_provider config) "stripe"))
        (config_invalid "publishable_key_not_applicable"
           "Only Stripe uses a publishable key (Razorpay's public key id comes with its credentials)");
  let key := py_strip value in
  _ ← raise_if (negb (startswith "pk_test_" key || startswith "pk_live_" key)
                || negb (startswith ("pk_" +:+ cf_mode config +:+ "_") key))
        (config_invalid "credentials_mode_mismatch"
           ("The publishable key does not look like a " +:+ cf_mode config +:+ "-mode Stripe key"));
  let config := by_admin admin (config <| cf_public_identifier := Some key |>) in
  _ ← _audit_config admin "publishable_key_set" config [];
  _ ← save_config config;
  view_of config.

Definition create_demo (admin : User) : M ConfigView :=
  spec ← of_option (get_spec "demo") (RuntimeError "KeyError");
  existing ← get_by_provider_mode "demo" "test";
  match existing with
  | Some config => mret (view spec config)
  | None =>
      cipher ← get_cipher;
      t ← now;
      blob ← encrypt cipher "{}";
      seed ← new_uuid;
      webhook_blob ← encrypt cipher ("demo_whsec_" +:+ token_hex seed);
      id ← new_uuid;
      let config := (new_config id "demo" "test" admin)
        <| cf_credentials_ciphertext := Some blob |> <| cf_credential_hint := Some "demo" |>
        <| cf_webhook_secret_ciphertext := Some webhook_blob |> <| cf_webhook_hint := Some "demo" |>
        <| cf_currencies := sort_str (sp_currencies spec) |> <| cf_credentials_status := "valid" |>
        <| cf_credentials_validated_at := Some t |> in
      _ ← insert_config config;
      _ ← _audit_config admin "created" config [("currencies", j_strs (cf_currencies config)); ("demo", JBool true)];
      mret (view spec config)
  end.

Definition create_config (admin : User) (payload : ProviderConfigCreate) : M ConfigView :=
  let name := py_lower (py_strip (pc_provider payload)) in
  let mode := pc_mode payload in
  _ ← raise_if (String.eqb name "demo")
        (config_invalid "use_demo_endpoint" "The demo gateway has no credentials: enable it with POST /admin/payments/demo/enable");
  spec ← of_option (get_spec name)
           (config_invalid "provider_not_supported" ("Unsupported payment provider. Supported: " +:+ String.concat ", " (map sp_name SPECS)));
  existing ← get_by_provider_mode (sp_name spec) mode;
  _ ← raise_if (present existing)
        (config_conflict "provider_config_exists"
           (sp_label spec +:+ " (" +:+ mode +:+ ") is already configured: rotate its credentials instead"));
  parsed ← of_sum (parse_credentials spec mode (pc_credentials payload));
  let '(values, public_id, credential_hint) := parsed in
  cipher ← get_cipher;
  webhook ← match pc_webhook_secret payload with
            | None => mret (None, None)
            | Some value =>
                secret ← of_sum (parse_webhook_secret spec value);
                blob ← encrypt cipher secret.1;
                mret (Some blob, Some secret.2)
            end;
  d ← gets st_db;
  let currencies := match pc_currencies payload with
                    | Some l => l
                    | None => match (effective_currency d).1 with
                              | Some c => if bool_decide (c ∈ sp_currencies spec) then [c] else []
                              | None => []
                              end
                    end in
  blob ← encrypt cipher (dump_credentials values);
  currencies ← of_sum (_check_currencies spec currencies);
  id ← new_uuid;
  let config := (new_config id (sp_name spec) mode admin)
    <| cf_credentials_ciphertext := Some blob |> <| cf_credential_hint := Some credential_hint |> <| cf_public_identifier := public_id |>
    <| cf_webhook_secret_ciphertext := webhook.1 |> <| cf_webhook_hint := webhook.2 |> <| cf_currencies := currencies |> in
  _ ← insert_config config;
  _ ← _audit_config admin "created" config
        [("currencies", j_strs currencies); ("webhook_secret_set", JBool (present webhook.1))];
  view_of config.

(** The two halves of [rotate] *)
Definition with_credentials (spec : ProviderSpec) (cipher : string) (credentials : CredentialsInput) (config : PaymentProviderConfig) :
    M PaymentProviderConfig :=
  parsed ← of_sum (parse_credentials spec (cf_mode config) credentials);
  let '(values, public_id, credential_hint) := parsed in
  blob ← encrypt cipher (dump_credentials values);
  mret (config <| cf_credentials_ciphertext := Some blob |> <| cf_credential_hint := Some credential_hint |>
               <| cf_public_identifier := match public_id with Some p => Some p | None => cf_public_identifier config end |>
               <| cf_credentials_status := "unvalidated" |> <| cf_credentials_validated_at := None |>
               <| cf_sandbox_verified_at := None |> <| cf_sandbox_verification_ref := None |>
               <| cf_production_review_at := None |> <| cf_production_review_ref := None |>).
Definition with_webhook_secret (spec : ProviderSpec) (cipher value : string) (config : PaymentProviderConfig) : M PaymentProviderConfig :=
  secret ← of_sum (parse_webhook_secret spec value);
  blob ← encrypt cipher secret.1;
  mret (config <| cf_previous_webhook_secret_ciphertext := cf_webhook_secret_ciphertext config |>
               <| cf_webhook_secret_ciphertext := Some blob |> <| cf_webhook_hint := Some secret.2 |>
               <| cf_webhook_status := "unverified" |> <| cf_webhook_verified_at := None |>).
Definition is_enabled (config : PaymentProviderConfig) : bool := String.eqb (cf_status config) "enabled".
(** No new payments through it, and not the preferred one. *)
Definition pause (config : PaymentProviderConfig) : PaymentProviderConfig :=
  config <| cf_status := "disabled" |> <| cf_is_preferred := false |>.
Definition rotate (admin : User) (config_id : uuid) (credentials : option CredentialsInput) (webhook_secret : option string) : M ConfigView :=
  config ← _get_config config_id;
  spec ← spec_of config;
  _ ← raise_if (String.eqb (cf_provider config) "demo")
        (config_conflict "demo_has_no_credentials" "The demo gateway has no credentials or webhook secret to rotate");
  _ ← raise_if (negb (present credentials) && negb (present webhook_secret))
        (config_invalid "nothing_to_rotate" "Provide new credentials and/or a new webhook secret");
  cipher ← get_cipher;
  changed ← match credentials with Some c => with_credentials spec cipher c config | None => mret config end;
  changed ← match webhook_secret with Some w => with_webhook_secret spec cipher w changed | None => mret changed end;
  let paused := is_enabled config in
  let changed := by_admin admin ((if paused then pause changed else changed) <| cf_version := cf_version config + 1 |>) in
  _ ← save_config changed;
  _ ← _audit_config admin "rotated" changed
        [("changed", j_strs ((if present credentials then ["credentials"] else []) ++ (if present webhook_secret then ["webhook_secret"] else [])));
         ("version", JInt (cf_version changed)); ("new_payments_paused", JBool paused)];
  mret (view spec changed).

Definition retire_previous_webhook_secret (admin : User) (config_id : uuid) : M ConfigView :=
  config ← _get_config config_id;
  let config := by_admin admin (config <| cf_previous_webhook_secret_ciphertext := None |>) in
  _ ← save_config config;
  _ ← _audit_config admin "previous_webhook_secret_retired" config [];
  view_of config.

Record Validation := MkValidation { va_valid : bool; va_reason : option string; va_detected_mode : option string; va_config : ConfigView }.
(** The gateway is asked with no transaction open, and the row read again. *)
Definition validate_config (admin : User) (config_id : uuid) : M Validation :=
  config ← _get_config config_id;
  adapter ← of_sum (build_provider config false);
  _ ← commit;
  answer ← validate_credentials adapter;
  config ← _get_config config_id;
  t ← now;
  let valid := ck_valid answer
               && match ck_detected_mode answer with None => true | Some m => String.eqb m (cf_mode config) end in
  let reason := or_str (ck_reason answer) (if valid then None else Some "mode_mismatch") in
  let changed := by_admin admin (config <| cf_credentials_status := if valid then "valid" else "invalid" |>
                                        <| cf_credentials_validated_at := if valid then Some t else None |>) in
  let changed := if negb valid && is_enabled config then pause changed else changed in
  _ ← save_config changed;
  _ ← _audit_config admin "credentials_validated" changed [("valid", JBool valid); ("reason", j_opt JStr reason)];
  seen ← view_of changed;
  mret (MkValidation valid reason (ck_detected_mode answer) seen).

Definition set_currencies (admin : User) (config_id : uuid) (currencies : list string) : M ConfigView :=
  config ← _get_config config_id;
  spec ← spec_of config;
  normalized ← of_sum (_check_currencies spec currencies);
  _ ← raise_if (is_enabled config && bool_decide (normalized = []))
        (config_conflict "currencies_required" "An enabled provider needs at least one currency: disable it first");
  let changed := by_admin admin (config <| cf_currencies := normalized |>) in
  _ ← save_config changed;
  _ ← _audit_config admin "currencies_set" changed [("currencies", j_strs normalized)];
  mret (view spec changed).

Definition not_ready (blockers : list string) : Err := EProviderConfig (ProviderNotReadyError blockers).
(** The refusal itself is committed. *)
Definition enable (admin : User) (config_id : uuid) : M ConfigView :=
  config ← _get_config config_id;
  spec ← spec_of config;
  let blockers := if String.eqb (cf_mode config) "live" then (config_readiness spec config).2 else (config_readiness spec config).1 in
  if negb (bool_decide (blockers = [])) then
    _ ← _audit_config admin "enable_refused" config [("blockers", j_strs blockers)];
    _ ← commit;
    raise (not_ready blockers)
  else
    let changed := by_admin admin (config <| cf_status := "enabled" |>) in
    _ ← save_config changed;
    _ ← _audit_config admin "enabled" changed [];
    mret (view spec changed).

Definition disable (admin : User) (config_id : uuid) : M ConfigView :=
  config ← _get_config config_id;
  let changed := by_admin admin (pause config) in
  _ ← save_config changed;
  _ ← _audit_config admin "disabled" changed [("was_preferred", JBool (cf_is_preferred config))];
  view_of changed.

Definition prefer (admin : User) (config_id : uuid) : M ConfigView :=
  config ← _get_config config_id;
  spec ← spec_of config;
  live ← (if String.eqb (cf_provider config) "demo" then get_live_active else mret false);
  _ ← raise_if live (EProviderConfig (LivePaymentsActiveError "make the demo gateway the store's payment provider"));
  _ ← raise_if (negb (is_enabled config) || negb (String.eqb (cf_credentials_status config) "valid"))
        (not_ready [if is_enabled config then "credentials_not_valid" else "not_enabled"]);
  d ← gets st_db;
  let store_currency := (effective_currency d).1 in
  _ ← raise_if (match store_currency with Some c => negb (bool_decide (c ∈ enabled_currencies spec config)) | None => true end)
        (config_conflict "provider_currency_not_supported"
           (sp_label spec +:+ " is not enabled for this store's currency (" +:+ py_upper (default "unset" (truthy store_currency)) +:+ ")"));
  _ ← clear_preferred;
  let changed := by_admin admin (config <| cf_is_preferred := true |>) in
  _ ← save_config changed;
  _ ← _audit_config admin "preferred" changed [];
  mret (view spec changed).

Definition attest (admin : User) (config_id : uuid) (kind : AttestationKind) (reference : string) : M ConfigView :=
  config ← _get_config config_id;
  _ ← raise_if (match kind with production_review => negb (present (cf_sandbox_verified_at config)) | sandbox_verified => false end)
        (config_conflict "sandbox_verification_required" "Record the sandbox verification before the production review");
  t ← now;
  let note := py_strip reference in
  let changed := by_admin admin
    match kind with
    | sandbox_verified => config <| cf_sandbox_verified_at := Some t |> <| cf_sandbox_verification_ref := Some note |>
    | production_review => config <| cf_production_review_at := Some t |> <| cf_production_review_ref := Some note |>
    end in
  _ ← save_config changed;
  _ ← _audit_config admin "attested" changed [("kind", JStr (kind_value kind)); ("reference", JStr (String.substring 0 200 note))];
  view_of changed.

(** An event verified with a secret of this configuration arrived. *)
Definition mark_webhook_verified (config_id : uuid) : M unit :=
  found ← get_config config_id;
  match found with
  | Some config =>
      if String.eqb (cf_webhook_status config) "verified" then mret tt
      else
        t ← now;
        let changed := config <| cf_webhook_status := "verified" |> <| cf_webhook_verified_at := Some t |> in
        _ ← save_config changed;
        audit_log None "provider_config.webhook_verified" "payment_provider_config" (Some config_id) (config_details config [])
  | None => mret tt
  end.
End administration.

(** ** Webhooks as they arrive ([PaymentService.handle_webhook] and its router, which also limits their size) *)

Section webhooks.
Context `{!Settings} `{!Crypto} `{!Providers} `{!Secrets}.

(** The loop of [ProviderResolver.webhook_verifiers] over the stored configurations of a provider, whatever their state, with their current and
    their previous secret *)
Fixpoint verifiers_of (configs : list PaymentProviderConfig) : M (list (PaymentProviderConfig * PaymentProvider)) :=
  match configs with
  | [] => mret []
  | config :: rest =>
      current ← (if blank_secret (cf_webhook_secret_ciphertext config) then mret []
                 else p ← of_sum (build_provider config false); mret [(config, p)]);
      previous ← (if blank_secret (cf_previous_webhook_secret_ciphertext config) then mret []
                  else p ← of_sum (build_provider config true); mret [(config, p)]);
      others ← verifiers_of rest;
      mret (current ++ previous ++ others)
  end.
Definition webhook_verifiers (configs : list PaymentProviderConfig) : M (list (PaymentProviderConfig * PaymentProvider)) :=
  _ ← get_cipher; verifiers_of configs.
Fixpoint first_verified (name payload signature : string) (verifiers : list (PaymentProviderConfig * PaymentProvider)) :
    Err + (WebhookEvent * option uuid) :=
  match verifiers with
  | [] => inl (EProvider InvalidWebhookSignatureError)
  | (config, adapter) :: rest =>
      match verify_and_parse_webhook adapter payload signature with
      | inr event => inr (event <| ev_provider := name |> <| ev_config_id := Some (cf_id config) |>, Some (cf_id config))
      | inl (EProvider InvalidWebhookSignatureError) => first_verified name payload signature rest
      | inl e => inl e
      end
  end.
Definition _verify_webhook (provider_name : option string) (payload signature : string) : M (WebhookEvent * option uuid) :=
  let name := default (pr_name env_provider) (truthy provider_name) in
  configs ← list_for_provider name;
  if negb (bool_decide (configs = [])) then
    verifiers ← webhook_verifiers configs;
    of_sum (first_verified name payload signature verifiers)
  else
    _ ← raise_if (negb (String.eqb name (pr_name env_provider)))
          (EProvider (UnknownProviderError "This payment provider is not configured"));
    event ← of_sum (verify_and_parse_webhook env_provider payload signature);
    mret (event, None).
Definition receive_webhook (provider_name : option string) (payload signature : string) : M unit :=
  verified ← _verify_webhook provider_name payload signature;
  _ ← match verified.2 with Some config_id => mark_webhook_verified config_id | None => mret tt end;
  handle_webhook verified.1.

(** [stripe_webhook] and [provider_webhook]: no signature, no event *)
Definition webhook_endpoint (provider : option string) (payload : string) (signature : option string) : M unit :=
  _ ← match provider with
      | Some p => _ ← of_option (get_spec p) (EProvider (UnknownProviderError "Unknown payment provider")); mret tt
      | None => mret tt
      end;
  signature ← of_option (truthy signature) (EProvider InvalidWebhookSignatureError);
  receive_webhook provider payload signature.
End webhooks.

(** ** The payment mode ([PaymentModeService]) *)

Definition CHECK_MAX_AGE : Z := 24 * 3600.
Definition CONFIRMATION : string := "ACTIVATE LIVE PAYMENTS".
Definition TEST_PAYMENT_MINOR_UNITS : Z := 10000.
Definition DISABLED_HERE : string := "live_payments_disabled_on_this_deployment".

Definition _connection (config : PaymentProviderConfig) : string :=
  if String.eqb (cf_credentials_status config) "invalid" then "invalid"
  else if negb (String.eqb (cf_credentials_status config) "valid") then "not_validated"
  else if (String.eqb (cf_webhook_status config) "verified" || String.eqb (cf_provider config) "demo")
          && opt_eqb (cf_last_check_ok config) (Some true)
       then "connected" else "credentials_ok".

Section mode.
Context `{!Settings} `{!Providers} `{!Secrets}.

Definition _activation_blockers (t : Z) (spec : ProviderSpec) (config : PaymentProviderConfig) : list string :=
  let here := if live_payments_enabled then [] else [DISABLED_HERE] in
  if negb (String.eqb (cf_mode config) "live") then here ++ ["not_a_live_configuration"]
  else
    let own := here ++ (if is_enabled config then [] else ["gateway_not_enabled"]) in
    own ++ filter (λ b, b ∉ own ∧ b ≠ DISABLED_HERE) (config_readiness spec config).2
        ++ match cf_last_check_at config, cf_last_check_ok config with
           | Some at_, Some ok =>
               if negb ok then ["gateway_check_failed"] else if CHECK_MAX_AGE <? t - at_ then ["gateway_check_out_of_date"] else []
           | _, _ => ["gateway_check_not_run"]
           end.

(** [_summary] shows the view, and the word for the connection. *)
Record Summary := MkSummary { sm_view : ConfigView; sm_connection : string; sm_is_demo : bool }.
Definition _summary (config : PaymentProviderConfig) : M Summary :=
  seen ← view_of config; mret (MkSummary seen (_connection config) (String.eqb (cf_provider config) "demo")).

Record LiveState := MkLiveState {
  lv_deployment_allows_live : bool; lv_active : bool; lv_activated_at : option Z; lv_activated_by : option uuid;
  lv_config_id : option uuid; lv_can_activate : bool; lv_activation_blockers : list string }.
Record Overview := MkOverview {
  ov_payment_mode : string; ov_payments_open : bool; ov_message : string; ov_preferred : option Summary; ov_live : LiveState;
  ov_gateways : list Summary; ov_to_set_up : list ProviderSpec; ov_warnings : list string }.

(** The gateway takes new payments now, and in which mode. *)
Definition open_for_payments (live : bool) (preferred : option PaymentProviderConfig) : bool :=
  match preferred with
  | Some c => is_enabled c && String.eqb (cf_credentials_status c) "valid" && (negb (String.eqb (cf_mode c) "live") || live)
              && negb (String.eqb (cf_provider c) "demo" && live)
  | None => false
  end.
Definition open_mode (live : bool) (preferred : option PaymentProviderConfig) : string :=
  match preferred with
  | Some c => if negb (open_for_payments live preferred) then "none"
              else if String.eqb (cf_provider c) "demo" then "demo" else if String.eqb (cf_mode c) "live" then "live" else "test"
  | None => "none"
  end.
Definition mode_message (mode : string) : string :=
  if String.eqb mode "demo" then "Demo mode: customers can test the whole payment flow with fake details; no real money moves."
  else if String.eqb mode "test" then "Test mode: a real gateway's sandbox is taking payments; no real money moves."
  else if String.eqb mode "live" then "Live mode: real payments are being taken."
  else "No payment gateway is selected: customers cannot pay yet.".
Definition mode_warnings (mode : string) (selected open_ : bool) : list string :=
  (if selected && negb open_ then
     ["the selected gateway cannot take payments right now (it is not enabled, not validated, or live payments are not activated)"] else [])
  ++ (if String.eqb mode "none" then
        ["customers cannot pay: no payment gateway is selected. Enable the demo gateway, or configure and select a real one"] else [])
  ++ (if String.eqb mode "demo" then
        ["DEMO MODE: payments are simulated and no real money moves. Do not use the demo gateway for real sales"] else [])
  ++ (if String.eqb mode "test" then ["TEST MODE: the gateway is in its sandbox and no real money moves"] else [])
  ++ (if live_payments_enabled then [] else ["live payments are forbidden on this deployment (LIVE_PAYMENTS_ENABLED=false)"]).
(** [min(candidates, key=...)]: the first of the least *)
Fixpoint least {A} (key : A → nat) (best : A) (l : list A) : A :=
  match l with [] => best | x :: r => least key (if (key x <? key best)%nat then x else best) r end.

Definition overview : M Overview :=
  configs ← list_all;
  settings ← get_payment_settings;
  t ← now;
  let preferred := List.find cf_is_preferred configs in
  let live := live_payments_enabled && ps_live_payments_active settings in
  let open_ := open_for_payments live preferred in
  let mode := open_mode live preferred in
  candidates ← map_m (λ c, spec ← spec_of c; mret (_activation_blockers t spec c))
                     (filter (λ c, cf_mode c = "live") configs);
  let blockers := match candidates with [] => ["no_live_gateway_configured"] | b :: rest => least length b rest end in
  shown ← map_m _summary (match preferred with Some c => [c] | None => [] end);
  gateways ← map_m _summary configs;
  mret {| ov_payment_mode := mode; ov_payments_open := open_; ov_message := mode_message mode; ov_preferred := head shown;
          ov_live := {| lv_deployment_allows_live := live_payments_enabled; lv_active := live; lv_activated_at := ps_live_activated_at settings;
                        lv_activated_by := ps_live_activated_by_user_id settings; lv_config_id := ps_live_activated_config_id settings;
                        lv_can_activate := bool_decide (blockers = []) && negb live;
                        lv_activation_blockers := if live then [] else blockers |};
          ov_gateways := gateways;
          ov_to_set_up := filter (λ s, sp_name s ∉ map cf_provider configs) SPECS;
          ov_warnings := mode_warnings mode (present preferred) open_ |}.

(** *** The demo gateway *)

Definition mode_audit (admin : User) (action target_type target_id : string) (details : json) : M unit :=
  audit_log (Some (u_id admin)) action target_type (Some target_id) details.
(** A row that was there before: [repo.get], its attributes then used without a test *)
Definition reread (config_id : uuid) : M PaymentProviderConfig :=
  found ← get_config config_id; of_option found (RuntimeError "AttributeError").
Definition enable_demo (admin : User) : M Overview :=
  settings ← get_payment_settings;
  _ ← raise_if (ps_live_payments_active settings) (EProviderConfig (LivePaymentsActiveError "switch to the demo gateway"));
  created ← create_demo admin;
  config ← reread (vw_id created);
  _ ← (if is_enabled config then mret tt else _ ← enable admin (cf_id config); mret tt);
  _ ← prefer admin (cf_id config);
  _ ← mode_audit admin "payments.demo_mode_enabled" "payment_provider_config" (cf_id config) (JObj []);
  overview.
Definition disable_demo (admin : User) : M Overview :=
  found ← get_by_provider_mode "demo" "test";
  config ← of_option found (EProviderConfig ProviderConfigNotFoundError);
  _ ← disable admin (cf_id config);
  _ ← mode_audit admin "payments.demo_mode_disabled" "payment_provider_config" (cf_id config) (JObj []);
  overview.

(** *** Live payments *)

Definition activation_blocked (blockers : list string) : Err := EProviderConfig (LiveActivationBlockedError blockers).
Definition activate_live (admin : User) (config_id : uuid) (confirmation : string) (note : option string) : M Overview :=
  _ ← raise_if (negb (String.eqb (py_strip confirmation) CONFIRMATION)) (activation_blocked ["confirmation_text_incorrect"]);
  settings ← get_payment_settings;
  config ← _get_config config_id;
  spec ← spec_of config;
  t ← now;
  let blockers := _activation_blockers t spec config in
  if negb (bool_decide (blockers = [])) then
    _ ← mode_audit admin "payments.live_activation_refused" "payment_provider_config" (cf_id config) (JObj [("blockers", j_strs blockers)]);
    _ ← commit;
    raise (activation_blocked blockers)
  else
    _ ← save_payment_settings (settings <| ps_live_payments_active := true |> <| ps_live_activated_at := Some t |>
          <| ps_live_activated_by_user_id := Some (u_id admin) |> <| ps_live_activated_config_id := Some (cf_id config) |>
          <| ps_note := note |>);
    _ ← prefer admin (cf_id config);
    _ ← mode_audit admin "payments.live_activated" "payment_provider_config" (cf_id config)
          (JObj [("provider", JStr (cf_provider config)); ("note", j_opt JStr note)]);
    overview.
Definition deactivate_live (admin : User) (reason : string) : M Overview :=
  settings ← get_payment_settings;
  _ ← raise_if (negb (ps_live_payments_active settings)) (config_conflict "live_payments_not_active" "Live payments are not active");
  t ← now;
  _ ← save_payment_settings (settings <| ps_live_payments_active := false |> <| ps_last_deactivated_at := Some t |>);
  configs ← list_all;
  _ ← for_each configs (λ c, if cf_is_preferred c then save_config (unprefer c) else mret tt);
  _ ← mode_audit admin "payments.live_deactivated" "payment_settings" "1" (JObj [("reason", JStr reason)]);
  overview.

(** *** The check of a gateway *)

Record CheckItem := MkItem { it_check : string; it_status : string; it_required : bool; it_message : string }.
Record CheckResult := MkResult { rs_ok : bool; rs_checked_at : Z; rs_checks : list CheckItem }.
Definition dump_item (c : CheckItem) : json :=
  JObj [("check", JStr (it_check c)); ("status", JStr (it_status c)); ("required", JBool (it_required c)); ("message", JStr (it_message c))].
Definition passed_check (c : CheckItem) : bool := String.eqb (it_status c) "pass".
Definition is_live (config : PaymentProviderConfig) : bool := String.eqb (cf_mode config) "live".

Definition credentials_items (validation : Validation) (config : PaymentProviderConfig) : list CheckItem :=
  [ if va_valid validation then MkItem "credentials" "pass" true "The gateway accepted the stored credentials"
    else MkItem "credentials" "fail" true
           ("The credentials were not accepted (" +:+ default "invalid" (truthy (va_reason validation)) +:+ "): enter them again");
    match va_detected_mode validation with
    | None => MkItem "mode_matches" "warn" false "The gateway did not say whether these credentials are test or live ones"
    | Some detected =>
        if String.eqb detected (cf_mode config)
        then MkItem "mode_matches" "pass" true ("The credentials are " +:+ detected +:+ "-mode credentials, as configured")
        else MkItem "mode_matches" "fail" true
               ("These are " +:+ detected +:+ "-mode credentials but this configuration is " +:+ cf_mode config)
    end ].
Definition currency_item (store_currency : option string) (enabled : list string) : CheckItem :=
  match truthy store_currency with
  | Some c => if bool_decide (c ∈ enabled)
              then MkItem "currencies" "pass" true (py_upper c +:+ " (the store currency) is enabled for this gateway")
              else MkItem "currencies" "fail" true "The store currency is not enabled for this gateway: set the gateway's currencies"
  | None => MkItem "currencies" "fail" true "The store currency is not enabled for this gateway: set the gateway's currencies"
  end.
Definition webhook_items (live : bool) (spec : ProviderSpec) (config : PaymentProviderConfig) : list CheckItem :=
  [ if blank_secret (cf_webhook_secret_ciphertext config)
    then MkItem "webhook_secret" "fail" true "No webhook signing secret is stored: add the secret from the gateway's dashboard"
    else MkItem "webhook_secret" "pass" true "A webhook signing secret is stored";
    if String.eqb (cf_webhook_status config) "verified"
    then MkItem "webhook_delivery" "pass" live "A correctly signed event from the gateway has been received"
    else MkItem "webhook_delivery" (if live then "fail" else "warn") live
           ("No signed event has arrived yet. Send a test event from the gateway's dashboard to " +:+ webhook_url (cf_provider config)
            +:+ " (events: " +:+ String.concat ", " (sp_webhook_events spec) +:+ ")") ].
Definition attestation_items (live : bool) (config : PaymentProviderConfig) : list CheckItem :=
  if live then
    [ if present (cf_sandbox_verified_at config)
      then MkItem "sandbox_verification" "pass" true "Sandbox verification is recorded"
      else MkItem "sandbox_verification" "fail" true "Record the sandbox verification (POST .../attestations)";
      if present (cf_production_review_at config)
      then MkItem "production_review" "pass" true "A production review is recorded"
      else MkItem "production_review" "fail" true "Record the production review (POST .../attestations)" ]
  else [].

(** [_test_payment]: one payment in the sandbox, cancelled where the gateway can *)
Definition test_item (status message : string) : CheckItem := MkItem "test_payment" status true message.
Definition _test_payment (config : PaymentProviderConfig) (spec : ProviderSpec) : M CheckItem :=
  adapter ← of_sum (build_provider config false);
  match sort_str (enabled_currencies spec config) with
  | [] => mret (test_item "skipped" "Skipped: no currency is enabled")
  | currency :: _ =>
      t ← now;
      let key := "gateway-check:" +:+ cf_id config +:+ ":" +:+ str_Z t in
      _ ← commit;
      try_catch
        (intent ← create_payment_intent adapter TEST_PAYMENT_MINOR_UNITS currency (JObj [("purpose", JStr "gateway_check")]) key;
         if sp_supports_cancel spec then
           _ ← cancel_payment_intent adapter (pi_provider_payment_id intent) (key +:+ ":cancel");
           mret (test_item "pass" "A test payment was created and cancelled in the gateway's sandbox")
         else
           mret (test_item "pass"
                   "A test order was created in the gateway's sandbox (this gateway cannot cancel it; it expires unpaid)"))
        (λ e, Some (mret (match e with
                          | EProvider (PaymentProviderError _) | EProvider (PaymentProviderTimeoutError _) =>
                              test_item "fail" "The gateway did not accept a test payment: check the credentials, the currency and the gateway's status"
                          | _ => test_item "fail" "The test payment failed for an unexpected reason"
                          end)))
  end.
Definition run_checks (admin : User) (config_id : uuid) : M CheckResult :=
  before ← _get_config config_id;
  spec ← spec_of before;
  let live := is_live before in
  validation ← validate_config admin config_id;
  config ← reread config_id;
  d ← gets st_db;
  payment ← (if live then
               mret (MkItem "test_payment" "skipped" false "Live checks are read-only: no payment is created on a live gateway")
             else if negb (va_valid validation) then mret (test_item "skipped" "Skipped: the credentials must be accepted first")
             else _test_payment config spec);
  let checks := credentials_items validation config ++ [currency_item (effective_currency d).1 (enabled_currencies spec config)]
                ++ webhook_items live spec config ++ [payment] ++ attestation_items live config in
  let ok := forallb passed_check (List.filter it_required checks) in
  t ← now;
  config ← reread config_id;
  _ ← save_config (config <| cf_last_check_at := Some t |> <| cf_last_check_ok := Some ok |>
                          <| cf_last_check_result := Some (JObj [("checks", JList (map dump_item checks))]) |>);
  _ ← mode_audit admin "provider_config.checked" "payment_provider_config" (cf_id config)
        (JObj [("ok", JBool ok); ("failed", j_strs (map it_check (List.filter (λ c, it_required c && negb (passed_check c)) checks)));
               ("mode", JStr (cf_mode config))]);
  mret (MkResult ok t checks).
End mode.

(** ** The endpoints ([provider_router.py], [mode_router.py]) *)

Section endpoints.
Context `{!Settings} `{!Providers} `{!Secrets} `{!Jwt}.

Definition create_provider_config (credentials : string) (payload : ProviderConfigCreate) : M ConfigView :=
  admin ← require_permission PAYMENTS_CREDENTIALS credentials; create_config admin payload.
Definition rotate_credentials (credentials : string) (config_id : uuid) (new : option CredentialsInput) (webhook_secret : option string) : M ConfigView :=
  admin ← require_permission PAYMENTS_CREDENTIALS credentials; rotate admin config_id new webhook_secret.
Definition validate_provider (credentials : string) (config_id : uuid) : M Validation :=
  admin ← require_permission PAYMENTS_MANAGE credentials; validate_config admin config_id.
Definition check_provider (credentials : string) (config_id : uuid) : M CheckResult :=
  admin ← require_permission PAYMENTS_MANAGE credentials; run_checks admin config_id.
Definition set_publishable_key_endpoint (credentials : string) (config_id : uuid) (key : string) : M ConfigView :=
  admin ← require_permission PAYMENTS_CREDENTIALS credentials; set_publishable_key admin config_id key.
Definition set_provider_currencies (credentials : string) (config_id : uuid) (currencies : list string) : M ConfigView :=
  admin ← require_permission PAYMENTS_MANAGE credentials; set_currencies admin config_id currencies.
Definition enable_provider (credentials : string) (config_id : uuid) : M ConfigView :=
  admin ← require_permission PAYMENTS_MANAGE credentials; enable admin config_id.
Definition disable_provider (credentials : string) (config_id : uuid) : M ConfigView :=
  admin ← require_permission PAYMENTS_MANAGE credentials; disable admin config_id.
Definition prefer_provider (credentials : string) (config_id : uuid) : M ConfigView :=
  admin ← require_permission PAYMENTS_MANAGE credentials; prefer admin config_id.
Definition record_attestation (credentials : string) (config_id : uuid) (payload : AttestationKind * string) : M ConfigView :=
  admin ← require_permission PAYMENTS_LIVE credentials; attest admin config_id payload.1 payload.2.
Definition retire_previous_secret_endpoint (credentials : string) (config_id : uuid) : M ConfigView :=
  admin ← require_permission PAYMENTS_CREDENTIALS credentials; retire_previous_webhook_secret admin config_id.
Definition payments_overview (credentials : string) : M Overview :=
  _ ← require_permission PAYMENTS_READ credentials; overview.
Definition disable_demo_mode (credentials : string) : M Overview :=
  admin ← require_permission PAYMENTS_MANAGE credentials; disable_demo admin.
Definition activate_live_payments (credentials : string) (config_id : uuid) (confirmation : string) (note : option string) : M Overview :=
  admin ← require_permission PAYMENTS_LIVE credentials; activate_live admin config_id confirmation note.
Definition deactivate_live_payments (credentials : string) (reason : string) : M Overview :=
  admin ← require_permission PAYMENTS_LIVE credentials; deactivate_live admin reason.
Definition enable_demo_mode (credentials : string) (confirm_no_real_money : bool) : M Overview :=
  admin ← require_permission PAYMENTS_MANAGE credentials;
  _ ← raise_if (negb confirm_no_real_money)
        (config_invalid "confirmation_required" "Confirm that demo payments move no real money (confirm_no_real_money: true)");
  enable_demo admin.
Definition list_provider_configs (credentials : string) : M (list ConfigView) :=
  _ ← require_permission PAYMENTS_READ credentials; configs ← list_all; map_m view_of configs.
Definition get_provider_config (credentials : string) (config_id : uuid) : M ConfigView :=
  _ ← require_permission PAYMENTS_READ credentials; config ← _get_config config_id; view_of config.
End endpoints.

(** ** Every operation keeps the tables sound *)

Section gateways_sound.
Context `{!Settings} `{!Crypto} `{!Providers} `{!Secrets} `{!ProvidersOk}.

Lemma get_config_inr k c s s' : _get_config k s = (inr c, s') → d_configs (st_db s) !! k = Some c ∧ s' = s.
Proof. unfold _get_config, get_config. intros Hrun. runs. done. Qed.
Lemma guar_get_config k : guar step (_get_config k).
Proof. unfold _get_config, get_config. solve_guar. Qed.
(** A method that reads a gateway and goes on with it. *)
Definition config_row (s : St) (k : uuid) (c : PaymentProviderConfig) : Prop :=
  d_configs (st_db s) !! k = Some c ∧ cf_id c = k ∧ configs_checks c = None ∧ config_sound c.
Lemma guar_edit_config {A} k (m : PaymentProviderConfig → M A) :
  (∀ s c, config_row s k c → step s (m c s).2) → guar step (c ← _get_config k; m c).
Proof.
  intros Hm s. apply step_bind; [apply guar_get_config|]. intros c s' [Hc ->]%get_config_inr. apply step_sound. intros (_ & _ & HI).
  apply Hm. split; [done|]. exact (gk_row _ (inv_gateways _ HI) _ _ Hc).
Qed.
Lemma guar_reread_config {A} k (m : PaymentProviderConfig → M A) :
  (∀ s c, config_row s k c → step s (m c s).2) → guar step (c ← reread k; m c).
Proof.
  intros Hm s. apply step_bind; [unfold reread, get_config; assert (guar step (found ← db_gets (λ d, d_configs d !! k); of_option found (RuntimeError "AttributeError"))) as Hg; [solve_guar|apply Hg]|].
  intros c s' Hrun. unfold reread, get_config in Hrun. runs. apply step_sound. intros (_ & _ & HI).
  apply Hm. split; [done|]. by apply (gk_row _ (inv_gateways _ HI)).
Qed.
Lemma guar_audit_config a b c d : guar step (_audit_config a b c d).
Proof. unfold _audit_config. solve_guar. Qed.
Lemma guar_mode_audit a b c d e : guar step (mode_audit a b c d e).
Proof. unfold mode_audit. solve_guar. Qed.
Lemma guar_spec_of c : guar step (spec_of c).
Proof. unfold spec_of. solve_guar. Qed.
Lemma guar_view_of c : guar step (view_of c).
Proof. unfold view_of, spec_of. solve_guar. Qed.
Lemma guar_get_cipher : guar step get_cipher.
Proof. unfold get_cipher. solve_guar. Qed.
Lemma guar_encrypt k p : guar step (encrypt k p).
Proof. unfold encrypt. solve_guar. Qed.
#[local] Hint Resolve guar_get_config guar_audit_config guar_mode_audit guar_spec_of guar_view_of guar_get_cipher guar_encrypt : guar.

(** An encrypted text is not empty, and the tables are as they were. *)
Lemma encrypt_inr k p b s s' : encrypt k p s = (inr b, s') → st_db s' = st_db s ∧ b ≠ "".
Proof.
  unfold encrypt. intros Hrun. runs. split; [done|]. by destruct provider_secrets_key_id.
Qed.

(** Saving what became of a row that was read *)
Lemma step_save_row k c c' s : config_row s k c → config_ext c c' → config_sound c' → step s (save_config c' s).2.
Proof.
  intros (Hrow & Hid & _ & _) Hext Hs. apply step_save_config; [|done]. intros old Hold.
  assert (cf_id c' = cf_id c) as Hid' by (pose proof (ce_facts _ _ Hext); congruence). rewrite Hid', Hid, Hrow in Hold. by injection Hold as <-.
Qed.
Lemma row_db s s' k c : d_configs (st_db s') = d_configs (st_db s) → config_row s k c → config_row s' k c.
Proof. unfold config_row. by intros ->. Qed.

Lemma audit_configs a b c d u s s' : _audit_config a b c d s = (inr u, s') → d_configs (st_db s') = d_configs (st_db s).
Proof. unfold _audit_config, audit_log, insert_audit. intros Hrun. by runs. Qed.

Ltac sound_row := match goal with Hs : config_sound _ |- _ => let Hsound := fresh "Hsound" in pose proof Hs as Hsound; destruct Hsound; split; cbn; try done end.
(** [saves Hrow]: the row of [Hrow], changed, is written; what is left to prove is what the change does to it. *)
Ltac saves Hrow :=
  apply step_bind;
  [ eapply (step_save_row _ _ _ _ Hrow); [split; cbn; [done|lia|done]|let Hat := fresh "Hat" in destruct Hrow as (Hat & Hid & Hchecks & Hsound); sound_row]
  | intros ? ? _; on_with_guar ].

Lemma guar_retire_previous a k : guar step (retire_previous_webhook_secret a k).
Proof. unfold retire_previous_webhook_secret. apply guar_edit_config. intros s c Hrow. cbv zeta. saves Hrow. Qed.
Lemma guar_set_publishable_key a k v : guar step (set_publishable_key a k v).
Proof.
  unfold set_publishable_key. apply guar_edit_config. intros s c Hrow. passes. cbv zeta. passes.
  apply step_bind; [on_with_guar|]. intros u s' Hlog%audit_configs. apply (row_db _ s') in Hrow; [|done]. saves Hrow.
Qed.
Lemma guar_disable a k : guar step (disable a k).
Proof. unfold disable. apply guar_edit_config. intros s c Hrow. cbv zeta. saves Hrow. Qed.

(** What a rotation makes of a row, before it is paused and numbered *)
Definition rotated (c c' : PaymentProviderConfig) : Prop :=
  (cf_id c', cf_provider c', cf_mode c', cf_created_by_user_id c') = (cf_id c, cf_provider c, cf_mode c, cf_created_by_user_id c) ∧
  (cf_status c', cf_currencies c') = (cf_status c, cf_currencies c) ∧ config_sound c'.
Lemma with_credentials_inr spec k cr c c' s s' :
  config_sound c → with_credentials spec k cr c s = (inr c', s') → d_configs (st_db s') = d_configs (st_db s) ∧ rotated c c'.
Proof.
  unfold with_credentials. intros Hs Hrun. apply bind_inr in Hrun as ([[values public_id] h] & s1 & Hparse & Hrun). apply of_sum_inr in Hparse as [_ ->].
  apply bind_inr in Hrun as (blob & s2 & [Hdb _]%encrypt_inr & Hrun). runs. split; [by rewrite Hdb|]. split; [done|]. split; [done|]. sound_row.
Qed.
Lemma with_webhook_secret_inr spec k w c c' s s' :
  config_sound c → with_webhook_secret spec k w c s = (inr c', s') → d_configs (st_db s') = d_configs (st_db s) ∧ rotated c c'.
Proof.
  unfold with_webhook_secret. intros Hs Hrun. apply bind_inr in Hrun as (secret & s1 & Hparse & Hrun). apply of_sum_inr in Hparse as [_ ->].
  apply bind_inr in Hrun as (blob & s2 & [Hdb Hne]%encrypt_inr & Hrun). runs. split; [by rewrite Hdb|]. split; [done|]. split; [done|]. sound_row. intros _. split; [done|congruence].
Qed.
Lemma guar_with_credentials spec k cr c : guar step (with_credentials spec k cr c).
Proof. unfold with_credentials. solve_guar. Qed.
Lemma guar_with_webhook_secret spec k w c : guar step (with_webhook_secret spec k w c).
Proof. unfold with_webhook_secret. solve_guar. Qed.
#[local] Hint Resolve guar_with_credentials guar_with_webhook_secret : guar.

Lemma guar_rotate a k cr w : guar step (rotate a k cr w).
Proof.
  unfold rotate. apply guar_edit_config. intros s c Hrow. unfold spec_of, get_cipher. do 4 passes. cbv zeta.
  apply step_bind; [destruct cr; on_with_guar|]. intros c1 s1 H1run.
  assert (d_configs (st_db s1) = d_configs (st_db s) ∧ rotated c c1) as [Hdb1 (F1 & G1 & S1)].
  { destruct cr; [by eapply with_credentials_inr; [apply Hrow|]|]. runs. split; [done|]. split; [done|]. split; [done|apply Hrow]. }
  apply (row_db _ s1) in Hrow; [|done]. apply step_bind; [destruct w; on_with_guar|]. intros c2 s2 H2run.
  assert (d_configs (st_db s2) = d_configs (st_db s1) ∧ rotated c1 c2) as [Hdb2 (F2 & G2 & S2)].
  { destruct w; [by eapply with_webhook_secret_inr|]. runs. split; [done|]. by split. }
  apply (row_db _ s2) in Hrow; [|done]. apply step_bind; [|intros ? ? _; on_with_guar]. eapply (step_save_row _ _ _ _ Hrow).
  - destruct (is_enabled c); (split; cbn; [congruence|lia|lia]).
  - destruct (is_enabled c); sound_row; destruct S2; cbn in *; try done.
Qed.

Lemma guar_validate_config a k : guar step (validate_config a k).
Proof.
  unfold validate_config. apply guar_edit_config. intros s c _. apply step_bind; [on_with_guar|]. intros adapter ? Hb.
  apply of_sum_inr in Hb as [Hb ->]. apply step_bind; [on_with_guar|]. intros ? s1 _. apply step_bind; [apply (ok_validate _ (built_ok _ _ _ Hb))|].
  intros answer s2 _. revert s2. apply guar_edit_config. intros s2 c2 Hrow. passes. cbv zeta.
  destruct (negb _ && is_enabled c2) eqn:Hpause; saves Hrow.
Qed.

Lemma supported_codes_sub spec l out : supported_codes spec l = inr out → out ⊆ sp_currencies spec.
Proof.
  revert out. induction l as [|c l IH]; intros out; cbn; [intros [= <-]; set_solver|]. destruct (get_currency c) as [|cur]; cbn; [done|].
  case_bool_decide as Hin; [|done]. destruct (supported_codes spec l) as [|out']; cbn; [done|]. intros [= <-]. specialize (IH _ eq_refl). set_solver.
Qed.
Lemma sort_str_sub l : sort_str l ⊆ l.
Proof. intros x. unfold sort_str. by rewrite merge_sort_Permutation. Qed.
Lemma check_currencies_sub spec l out : _check_currencies spec l = inr out → out ⊆ sp_currencies spec.
Proof.
  unfold _check_currencies. destruct (supported_codes spec l) as [|out'] eqn:Hs; cbn; [done|]. intros [= <-] x Hx. apply supported_codes_sub in Hs.
  apply Hs. unfold sort_str in Hx. rewrite merge_sort_Permutation in Hx. by apply (proj1 (elem_of_remove_dups _ _)) in Hx.
Qed.
Lemma guar_set_currencies a k l : guar step (set_currencies a k l).
Proof.
  unfold set_currencies. apply guar_edit_config. intros s c Hrow. unfold spec_of. do 3 passes. cbv zeta.
  saves Hrow.
  - destruct cs_known as (spec & Hspec & _). exists spec. split; [done|].
    match goal with H : get_spec _ = Some ?x, H' : get_spec _ = Some ?y, Hc : _check_currencies ?x _ = _ |- _ =>
      replace y with x by congruence; by eapply check_currencies_sub end.
  - intros He. match goal with H : is_enabled _ && _ = false |- _ => unfold is_enabled in H; rewrite He in H; cbn in H; by apply bool_decide_eq_false in H end.
Qed.
Lemma use_blockers_nil spec c : use_blockers spec c = [] →
  cf_credentials_status c ≠ "unvalidated" ∧ cf_credentials_status c ≠ "invalid" ∧ truthy (cf_credentials_ciphertext c) ≠ None ∧
  enabled_currencies spec c ≠ [].
Proof.
  unfold use_blockers, blank_secret, present. intros [Hc Hcur]%app_nil. destruct (truthy _); cbn in Hc; [|done].
  destruct (String.eqb_spec (cf_credentials_status c) "unvalidated"); [done|]. destruct (String.eqb_spec (cf_credentials_status c) "invalid"); [done|].
  split_and!; [done..|]. by case_bool_decide.
Qed.
Lemma readiness_nil spec c : (config_readiness spec c).2 = [] ↔ use_blockers spec c = [] ∧ live_only_blockers c = [].
Proof.
  unfold config_readiness. cbn. split.
  - intros [-> Hl]%app_nil. split; [done|]. destruct (live_only_blockers c) as [|b l]; [done|].
    rewrite filter_cons_True in Hl; [done|]. by intros ?%elem_of_nil.
  - intros [-> ->]. done.
Qed.
Lemma guar_enable a k : guar step (enable a k).
Proof.
  unfold enable. apply guar_edit_config. intros s c Hrow. unfold spec_of. passes. cbv zeta.
  match goal with |- context [bool_decide (?l = [])] => destruct (decide (l = [])) as [Hnil|Hsome] end.
  2: { rewrite bool_decide_eq_false_2 by done. cbn. on_with_guar. }
  rewrite bool_decide_eq_true_2 by done. cbn. saves Hrow. intros _.
  match goal with H : get_spec _ = Some ?x |- _ => assert (use_blockers x c = []) as Hu; [|apply use_blockers_nil in Hu as (_ & _ & _ & Hcur)] end.
  - destruct (String.eqb _ _); [by apply readiness_nil in Hnil as [? _]|done].
  - intros Hn. apply Hcur. unfold enabled_currencies. by rewrite Hn.
Qed.
Lemma guar_prefer a k : guar step (prefer a k).
Proof.
  unfold prefer. apply guar_edit_config. intros s c Hrow. unfold spec_of, get_live_active. passes.
  apply step_bind; [destruct (String.eqb _ _); on_with_guar|]. intros live s1 Hlive. assert (s1 = s) as -> by (destruct (String.eqb _ _); by runs).
  do 4 passes. cbv zeta. apply step_bind; [on_with_guar|]. intros u s2 Hclear. apply upd_inr in Hclear as ->.
  assert (config_row (set_db (λ d, d <| d_configs ::= fmap unprefer |>) s) k (unprefer c)) as Hrow'.
  { destruct Hrow as (Hat & Hid & Hc & Hs). split; [change ((unprefer <$> d_configs (st_db s)) !! k = Some (unprefer c)); by rewrite lookup_fmap, Hat|]. split; [done|]. split; [|sound_row].
    unfold configs_checks in *. passed Hc. rewrite first_violation_None. repeat constructor; done. }
  clear Hrow. saves Hrow'.
Qed.
Lemma guar_attest a k kind r : guar step (attest a k kind r).
Proof.
  unfold attest. apply guar_edit_config. intros s c Hrow. do 2 passes. cbv zeta.
  destruct kind; saves Hrow. intros _ Hn. rewrite Hn in *. done.
Qed.

(** *** Webhooks *)

Definition has_secret (c : PaymentProviderConfig) : Prop :=
  cf_webhook_secret_ciphertext c ≠ None ∧ cf_webhook_secret_ciphertext c ≠ Some "".
Lemma step_mark_webhook k s : (∀ c, config_row s k c → has_secret c) → step s (mark_webhook_verified k s).2.
Proof.
  intros Hsecret. apply step_sound. intros (_ & _ & HI). unfold mark_webhook_verified, get_config. apply step_bind; [on_with_guar|].
  intros found s' Hfound. runs. destruct (d_configs (st_db s) !! k) as [c|] eqn:Hat; [|reflexivity].
  assert (config_row s k c) as Hrow by (split; [done|]; exact (gk_row _ (inv_gateways _ HI) _ _ Hat)). pose proof (Hsecret c Hrow) as [Hs1 Hs2].
  destruct (String.eqb _ _); [reflexivity|]. passes. cbv zeta. saves Hrow.
Qed.
Lemma verifiers_of_inr l vs s s' :
  verifiers_of l s = (inr vs, s') → s' = s ∧
  ∀ c p, (c, p) ∈ vs → c ∈ l ∧ (truthy (cf_webhook_secret_ciphertext c) ≠ None ∨ truthy (cf_previous_webhook_secret_ciphertext c) ≠ None).
Proof.
  revert vs s'. induction l as [|c l IH]; intros vs s' Hrun; cbn in Hrun; [runs; split; [done|]; by intros ? ? ?%elem_of_nil|].
  apply bind_inr in Hrun as (now_ & s1 & Hnow & Hrun). apply bind_inr in Hrun as (before & s2 & Hbefore & Hrun).
  apply bind_inr in Hrun as (others & s3 & Hothers & Hrun). runs.
  assert (s1 = s ∧ ∀ x p, (x, p) ∈ now_ → x = c ∧ truthy (cf_webhook_secret_ciphertext c) ≠ None) as [-> Hn].
  { unfold blank_secret in Hnow. destruct (truthy (cf_webhook_secret_ciphertext c)); cbn in Hnow; runs; (split; [done|]); intros c1 p1 Hx.
    - apply list_elem_of_singleton in Hx. by injection Hx as -> _.
    - by apply elem_of_nil in Hx. }
  assert (s2 = s ∧ ∀ x p, (x, p) ∈ before → x = c ∧ truthy (cf_previous_webhook_secret_ciphertext c) ≠ None) as [-> Hb].
  { unfold blank_secret in Hbefore. destruct (truthy (cf_previous_webhook_secret_ciphertext c)); cbn in Hbefore; runs; (split; [done|]); intros c1 p1 Hx.
    - apply list_elem_of_singleton in Hx. by injection Hx as -> _.
    - by apply elem_of_nil in Hx. }
  destruct (IH _ _ Hothers) as [-> Ho]. split; [done|]. intros x p [Hx|[Hx|Hx]%elem_of_app]%elem_of_app.
  - destruct (Hn _ _ Hx) as [-> ?]. split; [left|by left].
  - destruct (Hb _ _ Hx) as [-> ?]. split; [left|by right].
  - destruct (Ho _ _ Hx). split; [by right|done].
Qed.
Lemma first_verified_inr name payload signature vs e k :
  first_verified name payload signature vs = inr (e, k) → ∃ c p, (c, p) ∈ vs ∧ k = Some (cf_id c).
Proof.
  induction vs as [|[c p] vs IH]; cbn; [done|]. destruct (verify_and_parse_webhook p payload signature) as [[]|e'].
  all: try (intros [= _ <-]; exists c, p; split; [left|done]).
  all: try done. destruct e0; try done. intros (c' & p' & Hin & ->)%IH. exists c', p'. split; [by right|done].
Qed.
Lemma guar_verifiers_of l : guar step (verifiers_of l).
Proof. induction l as [|c l IH]; cbn; [apply guar_ret, _|]. solve_guar; exact IH. Qed.
#[local] Hint Resolve guar_verifiers_of : guar.
Lemma webhook_verifiers_inr l vs s s' : webhook_verifiers l s = (inr vs, s') → verifiers_of l s = (inr vs, s').
Proof. unfold webhook_verifiers, get_cipher. intros Hrun. by runs. Qed.
Lemma guar_webhook_verifiers l : guar step (webhook_verifiers l).
Proof. unfold webhook_verifiers, get_cipher. solve_guar. Qed.
#[local] Hint Resolve guar_webhook_verifiers : guar.
Lemma guar_verify_webhook n p g : guar step (_verify_webhook n p g).
Proof. unfold _verify_webhook, list_for_provider. cbv zeta. solve_guar. Qed.
#[local] Hint Resolve guar_verify_webhook : guar.
(** What verified an event is stored, with a secret. *)
Lemma verify_webhook_inr n p g e k s s' :
  _verify_webhook n p g s = (inr (e, Some k), s') → s' = s ∧ ∃ j c, d_configs (st_db s) !! j = Some c ∧ cf_id c = k ∧
    (truthy (cf_webhook_secret_ciphertext c) ≠ None ∨ truthy (cf_previous_webhook_secret_ciphertext c) ≠ None).
Proof.
  unfold _verify_webhook, list_for_provider. cbv zeta. intros Hrun. apply bind_inr in Hrun as (configs & s1 & Hconf & Hrun). runs.
  destruct (negb _); [|by runs]. apply bind_inr in Hrun as (vs & s2 & [-> Hvs]%webhook_verifiers_inr%verifiers_of_inr & Hrun). apply of_sum_inr in Hrun as [Hv ->].
  split; [done|]. apply first_verified_inr in Hv as (c & q & Hin & [= ->]). destruct (Hvs _ _ Hin) as [Hc Hsecret].
  apply rows_where_elem in Hc as [_ [j Hj]]. by exists j, c.
Qed.
Lemma truthy_secret o : truthy o ≠ None → o ≠ None ∧ o ≠ Some "".
Proof. destruct o as [t|]; cbn; [|done]. destruct (String.eqb_spec t ""); [done|]. intros _. split; congruence. Qed.
Lemma guar_receive_webhook n p g : guar step (receive_webhook n p g).
Proof.
  intros s. unfold receive_webhook. apply step_bind; [apply guar_verify_webhook|]. intros [e [k|]] s' Hv.
  2: { assert (guar step (_ ← mret tt; handle_webhook e)) as Hg; [solve_guar|apply Hg]. }
  apply verify_webhook_inr in Hv as (-> & j & c & Hj & Hid & Hsecret). apply step_sound. intros (_ & _ & HI).
  destruct (gk_row _ (inv_gateways _ HI) _ _ Hj) as (Hjc & _ & Hs). apply step_bind; [|intros ? ? _; apply guar_handle_webhook].
  apply step_mark_webhook. intros c' (Hat & _ & _ & _). replace c' with c by congruence.
  destruct Hsecret as [Hw|Hw]; apply truthy_secret in Hw; [exact Hw|]. exact (cs_previous _ Hs (proj1 Hw)).
Qed.
Lemma guar_webhook_endpoint n p g : guar step (webhook_endpoint n p g).
Proof.
  unfold webhook_endpoint. apply guar_bind; [apply _|destruct n; solve_guar|intros _]. apply guar_bind; [apply _|solve_guar|intros w].
  apply guar_receive_webhook.
Qed.

(** *** New gateways *)

Lemma get_by_provider_mode_inr p m c s s' : get_by_provider_mode p m s = (inr c, s') → s' = s.
Proof. unfold get_by_provider_mode. intros Hrun. by runs. Qed.
Lemma guar_get_by_provider_mode p m : guar step (get_by_provider_mode p m).
Proof. unfold get_by_provider_mode. solve_guar. Qed.
#[local] Hint Resolve guar_get_by_provider_mode : guar.
Lemma step_insert c s : config_sound c → step s (insert_config c s).2.
Proof. intros Hs. by apply guar_insert_config. Qed.
Lemma guar_create_demo a : guar step (create_demo a).
Proof.
  intros s. unfold create_demo. passes. apply step_bind; [on_with_guar|]. intros [c|] s1 _; [apply guar_ret, _|].
  apply step_bind; [on_with_guar|]. intros k s2 _. apply step_bind; [on_with_guar|]. intros t s3 _.
  apply step_bind; [on_with_guar|]. intros blob s4 _. apply step_bind; [on_with_guar|]. intros seed s5 _.
  apply step_bind; [on_with_guar|]. intros secret s6 [_ Hne]%encrypt_inr. apply step_bind; [on_with_guar|]. intros id s7 _. cbv zeta.
  apply step_bind; [|intros ? ? _; on_with_guar]. apply step_insert. split; cbn; try done.
  eexists. split; [eassumption|]. apply sort_str_sub.
Qed.
Lemma get_spec_name name spec : get_spec name = Some spec → sp_name spec = name.
Proof. intros [_ Heq]%find_some. by apply String.eqb_eq. Qed.
Lemma guar_create_config a p : guar step (create_config a p).
Proof.
  intros s. unfold create_config. cbv zeta. do 2 passes. apply step_bind; [on_with_guar|]. intros existing s1 ->%get_by_provider_mode_inr.
  passes. apply step_bind; [on_with_guar|]. intros [[values public_id] h] s2 [Hparse ->]%of_sum_inr.
  apply step_bind; [on_with_guar|]. intros k s3 _. apply step_bind; [destruct (pc_webhook_secret p); on_with_guar|]. intros webhook s4 _.
  apply step_bind; [on_with_guar|]. intros d s5 _. apply step_bind; [on_with_guar|]. intros blob s6 _. apply step_bind; [on_with_guar|].
  intros currencies s7 [Hcur ->]%of_sum_inr. apply step_bind; [on_with_guar|]. intros id s8 _. cbv zeta.
  apply step_bind; [|intros ? ? _; on_with_guar]. apply step_insert. split; cbn; try done.
  eexists. split; [|by eapply check_currencies_sub]. match goal with H : get_spec ?n = Some ?x |- _ => by rewrite (get_spec_name _ _ H) end.
Qed.
#[local] Hint Resolve guar_create_demo guar_enable guar_prefer guar_disable : guar.

(** *** The payment mode *)

Lemma guar_get_payment_settings : guar step get_payment_settings.
Proof. unfold get_payment_settings. solve_guar. Qed.
Lemma guar_overview : guar step overview.
Proof.
  unfold overview, list_all, _summary. apply guar_bind; [apply _|solve_guar|]. intros configs. apply guar_bind; [apply _|apply guar_get_payment_settings|].
  intros p. apply guar_bind; [apply _|solve_guar|]. intros t. cbv zeta.
  repeat (apply guar_bind; [apply _|apply guar_map_m; intros; solve_guar|intros ?]). solve_guar.
Qed.
#[local] Hint Resolve guar_get_payment_settings guar_overview : guar.
Lemma guar_reread k : guar step (reread k).
Proof. unfold reread, get_config. solve_guar. Qed.
#[local] Hint Resolve guar_reread : guar.
Lemma guar_enable_demo a : guar step (enable_demo a).
Proof. unfold enable_demo. solve_guar. Qed.
Lemma guar_disable_demo a : guar step (disable_demo a).
Proof. unfold disable_demo. solve_guar. Qed.

(** On a deployment that allows live payments, that is not a blocker. *)
Lemma allowed_here spec c b : live_payments_enabled = true → b ∈ (config_readiness spec c).2 → b ≠ DISABLED_HERE.
Proof.
  intros Hl Hb ->. unfold config_readiness, use_blockers, live_only_blockers in Hb. rewrite Hl in Hb. cbn [snd negb] in Hb.
  apply elem_of_app in Hb as [Hb|[_ Hb]%list_elem_of_filter];
    repeat match goal with
      | H : _ ∈ _ ++ _ |- _ => apply elem_of_app in H as [H|H]
      | H : _ ∈ (if ?b then _ else _) |- _ => destruct b
      | H : _ ∈ _ :: _ |- _ => apply elem_of_cons in H as [H|H]; [discriminate H|]
      | H : _ ∈ [] |- _ => by apply elem_of_nil in H
      end.
Qed.
Lemma activation_blockers_nil t spec c : _activation_blockers t spec c = [] →
  live_payments_enabled = true ∧ cf_mode c = "live" ∧ cf_status c = "enabled" ∧ (config_readiness spec c).2 = [] ∧
  ∃ at_, cf_last_check_at c = Some at_ ∧ cf_last_check_ok c = Some true ∧ t - at_ ≤ CHECK_MAX_AGE.
Proof.
  unfold _activation_blockers, is_enabled. cbv zeta. destruct live_payments_enabled eqn:Hallowed; cbn [app]; [|by destruct (negb _)].
  destruct (String.eqb_spec (cf_mode c) "live") as [Hm|]; cbn [negb]; [|done].
  destruct (String.eqb_spec (cf_status c) "enabled") as [He|]; cbn [app]; [|done]. intros [Hr Hchk]%app_nil. split_and!; [done..| |].
  - destruct (config_readiness spec c).2 as [|b l] eqn:Hread; [done|].
    assert (b ∈ filter (λ b, b ∉ [] ∧ b ≠ DISABLED_HERE) (b :: l)) as Hin; [|rewrite Hr in Hin; by apply elem_of_nil in Hin].
    apply list_elem_of_filter. split; [split; [by intros ?%elem_of_nil|]|left]. apply (allowed_here spec c); [done|]. rewrite Hread. left.
  - destruct (cf_last_check_at c) as [at_|], (cf_last_check_ok c) as [ok|]; try done. exists at_. destruct ok; cbn [negb] in Hchk; [|done].
    destruct (Z.ltb_spec CHECK_MAX_AGE (t - at_)); [done|]. done.
Qed.
Lemma guar_activate_live a k confirmation note : guar step (activate_live a k confirmation note).
Proof.
  intros s. unfold activate_live. passes. apply step_bind; [on_with_guar|]. intros p s1 _. revert s1. apply guar_edit_config. intros s1 c Hrow.
  unfold spec_of. passes. passes. cbv zeta.
  match goal with |- context [bool_decide (?l = [])] => destruct (decide (l = [])) as [Hnil|Hsome] end.
  2: { rewrite bool_decide_eq_false_2 by done. cbn. on_with_guar. }
  rewrite bool_decide_eq_true_2 by done. cbn [negb]. apply step_bind; [|intros ? ? _; on_with_guar].
  apply step_save_payment_settings. intros _ _. cbn. split; [done|]. split; [done|]. destruct Hrow as (Hat & Hid & _ & _). exists (cf_id c), c.
  rewrite Hid. split; [done|]. split; [done|]. by apply activation_blockers_nil in Hnil as (_ & ? & _).
Qed.

Lemma save_config_inr c u s s' : save_config c s = (inr u, s') → d_configs (st_db s') = <[cf_id c := c]> (d_configs (st_db s)).
Proof. unfold save_config. intros Hrun. by runs. Qed.
(** Every gateway of a list read before loses its preference. *)
Definition unpreferable (s : St) (c : PaymentProviderConfig) : Prop :=
  ∃ old, d_configs (st_db s) !! cf_id c = Some old ∧ unprefer old = unprefer c ∧ config_sound c.
Lemma step_unprefer_all l s :
  Forall (unpreferable s) l → step s (for_each l (λ c, if cf_is_preferred c then save_config (unprefer c) else mret tt) s).2.
Proof.
  revert s. induction l as [|c l IH]; intros s Hall; cbn; [reflexivity|]. apply Forall_cons in Hall as [(old & Hold & Heq & Hs) Hall].
  destruct (cf_is_preferred c); [|apply step_bind; [reflexivity|]; intros ? ? ?; runs; by apply IH]. apply step_bind.
  - apply step_save_config; [|sound_row]. cbn. intros old' Hold'. replace old' with old by congruence. rewrite <-Heq. apply unprefer_ext.
  - intros u s' Hrun%save_config_inr. apply IH. clear IH. induction Hall as [|x l (o & Ho & Hx & Hsx) _ IHl]; constructor; [|done].
    destruct (decide (cf_id x = cf_id c)) as [Hid|Hne].
    + exists (unprefer c). rewrite Hrun, Hid, lookup_insert_eq. split; [done|]. split; [|done]. rewrite <-Hx. replace o with old by congruence.
      by rewrite Heq.
    + exists o. by rewrite Hrun, lookup_insert_ne.
Qed.
Lemma guar_deactivate_live a r : guar step (deactivate_live a r).
Proof.
  intros s. unfold deactivate_live. apply step_bind; [on_with_guar|]. intros p s1 _. passes. passes. apply step_bind.
  { apply step_save_payment_settings. intros _. by intros [=]. }
  intros u s2 _. unfold list_all. passes. apply step_bind; [|intros ? ? _; on_with_guar]. apply step_sound. intros (_ & _ & HI).
  apply step_unprefer_all, Forall_forall. intros c Hc. unfold all_configs in Hc. rewrite merge_sort_Permutation in Hc.
  apply rows_where_elem in Hc as [_ [k Hk]]. destruct (gk_row _ (inv_gateways _ HI) _ _ Hk) as (Hid & _ & Hs). exists c. by rewrite Hid.
Qed.

Lemma guar_test_payment c spec : guar step (_test_payment c spec).
Proof.
  intros s. unfold _test_payment. apply step_bind; [on_with_guar|]. intros adapter s1 [Hb ->]%of_sum_inr. pose proof (built_ok _ _ _ Hb) as Hok.
  destruct (sort_str _) as [|cur l]; [apply guar_ret, _|]. passes. cbv zeta. apply step_bind; [on_with_guar|]. intros u s2 _.
  apply step_try.
  - apply step_bind; [apply (ok_create _ Hok)|]. intros intent s3 _. destruct (sp_supports_cancel spec); [|apply guar_ret, _].
    apply step_bind; [apply (ok_cancel _ Hok)|]. intros ? ? _. apply guar_ret, _.
  - intros e k [= <-]. apply guar_ret, _.
Qed.
#[local] Hint Resolve guar_test_payment guar_validate_config : guar.
Lemma guar_run_checks a k : guar step (run_checks a k).
Proof.
  intros s. unfold run_checks. apply step_bind; [on_with_guar|]. intros before s1 _. apply step_bind; [on_with_guar|]. intros spec s2 _. cbv zeta.
  apply step_bind; [on_with_guar|]. intros v s3 _. apply step_bind; [on_with_guar|]. intros c s4 _. apply step_bind; [on_with_guar|]. intros d s5 _.
  apply step_bind; [destruct (is_live before); [|destruct (negb _)]; on_with_guar|]. intros payment s6 _. apply step_bind; [on_with_guar|].
  intros t s7 _. revert s7. apply guar_reread_config. intros s7 c' Hrow. saves Hrow.
Qed.
End gateways_sound.
#[export] Hint Resolve guar_create_config guar_rotate guar_retire_previous guar_validate_config guar_set_publishable_key guar_set_currencies guar_enable
  guar_disable guar_prefer guar_attest guar_webhook_endpoint guar_overview guar_enable_demo guar_disable_demo guar_activate_live guar_deactivate_live
  guar_run_checks : guar.

Section endpoints_sound.
Context `{!Settings} `{!Providers} `{!Secrets} `{!Jwt} `{!ProvidersOk}.

Ltac gateway_endpoint := (apply guar_bind; [apply _|apply guar_require_permission|intros; solve [eauto 3 with guar typeclass_instances nocore]]).
Lemma guar_enable_demo_mode c b : guar step (enable_demo_mode c b).
Proof. unfold enable_demo_mode. solve_guar. Qed.
Lemma guar_create_provider_config c payload : guar step (create_provider_config c payload).
Proof. gateway_endpoint. Qed.
Lemma guar_rotate_credentials c config_id new webhook_secret : guar step (rotate_credentials c config_id new webhook_secret).
Proof. gateway_endpoint. Qed.
Lemma guar_validate_provider c config_id : guar step (validate_provider c config_id).
Proof. gateway_endpoint. Qed.
Lemma guar_check_provider c config_id : guar step (check_provider c config_id).
Proof. gateway_endpoint. Qed.
Lemma guar_set_publishable_key_endpoint c config_id key : guar step (set_publishable_key_endpoint c config_id key).
Proof. gateway_endpoint. Qed.
Lemma guar_set_provider_currencies c config_id currencies : guar step (set_provider_currencies c config_id currencies).
Proof. gateway_endpoint. Qed.
Lemma guar_enable_provider c config_id : guar step (enable_provider c config_id).
Proof. gateway_endpoint. Qed.
Lemma guar_disable_provider c config_id : guar step (disable_provider c config_id).
Proof. gateway_endpoint. Qed.
Lemma guar_prefer_provider c config_id : guar step (prefer_provider c config_id).
Proof. gateway_endpoint. Qed.
Lemma guar_record_attestation c config_id payload : guar step (record_attestation c config_id payload).
Proof. gateway_endpoint. Qed.
Lemma guar_retire_previous_secret_endpoint c config_id : guar step (retire_previous_secret_endpoint c config_id).
Proof. gateway_endpoint. Qed.
Lemma guar_payments_overview c : guar step (payments_overview c).
Proof. gateway_endpoint. Qed.
Lemma guar_disable_demo_mode c : guar step (disable_demo_mode c).
Proof. gateway_endpoint. Qed.
Lemma guar_activate_live_payments c config_id confirmation note : guar step (activate_live_payments c config_id confirmation note).
Proof. gateway_endpoint. Qed.
Lemma guar_deactivate_live_payments c reason : guar step (deactivate_live_payments c reason).
Proof. gateway_endpoint. Qed.
End endpoints_sound.
#[export] Hint Resolve guar_enable_demo_mode guar_create_provider_config guar_rotate_credentials guar_validate_provider guar_check_provider
  guar_set_publishable_key_endpoint guar_set_provider_currencies guar_enable_provider guar_disable_provider
  guar_prefer_provider guar_record_attestation guar_retire_previous_secret_endpoint guar_payments_overview
  guar_disable_demo_mode guar_activate_live_payments guar_deactivate_live_payments : guar.
