(* ===== verification/StoreFront.v ===== *)
(** * The store settings: its currency, and what a storefront is told

    [store/services/store_service.py] with its router: the currency of the store, set once; the public settings, and the gateway
    a browser is offered for a new payment. *)

From S2P Require Import Prelude Decimal Errors Money Schema Guards GatewayGuards Evolution GatewayEvolution.
From S2P Require Import Invoice Repositories Runs Lifecycle Payments Tax Checkout Accounts Roles TaxAdmin Gateways.
Import Decimal.

Local Open Scope string_scope.
Local Open Scope list_scope.
Local Open Scope Z_scope.

(** The settings read here and nowhere else. *)
Class StoreFrontSettings := { tax_rate_percent : option dec; stripe_publishable_key : option string }.

Record StoreCurrencyRead := MkCurrencyRead {
  cr_currency : option string; cr_minor_unit_exponent : option Z; cr_payment_verified : option bool; cr_configured : bool;
  cr_warnings : list string }.
Record PaymentConfigRead := MkPaymentConfig {
  pg_provider : option string; pg_mode : string; pg_demo : bool; pg_publishable_key : option string; pg_browser_ready : bool;
  pg_currencies : list string }.
Definition no_payment_config : PaymentConfigRead := MkPaymentConfig None "none" false None false [].
Record StoreSettingsRead := MkSettingsRead {
  sg_currency : option string; sg_minor_unit_exponent : option Z; sg_flat_shipping_cents : option Z;
  sg_free_shipping_threshold_cents : option Z; sg_pending_order_timeout_minutes : Z; sg_delivery_check : string;
  sg_checkout_available : bool; sg_payments_available : bool; sg_payment_mode : string; sg_payment_demo : bool;
  sg_unavailable_reasons : list string }.

Section service.
Context `{!Settings} `{!Crypto} `{!Store} `{!TaxAdminSettings} `{!StoreFrontSettings}.

Definition read_currency : M StoreCurrencyRead :=
  d ← gets st_db;
  match effective_currency d with
  | (None, _) => mret (MkCurrencyRead None None None false [])
  | (Some c, configured) =>
      currency ← of_sum (get_currency c);
      let warnings :=
        if negb (payment_verified currency) then ["Payments in " +:+ code currency +:+ " are not verified for the payment integration"]
        else if negb (bool_decide (code currency ∈ enabled_payment_currencies))
        then [code currency +:+ " is not in PAYMENT_CURRENCIES_ENABLED, so payments are refused"] else [] in
      mret (MkCurrencyRead (Some (code currency)) (Some (exponent currency)) (Some (payment_verified currency)) configured warnings)
  end.

Definition _tax_unavailable_reason : M (option string) :=
  if tax_calculation_enabled then
    today ← india_today;
    d ← gets st_db;
    mret (match (evaluate_config d today).2 with
          | [] => None
          | _ => Some "GST is switched on but the business tax configuration is not approved and in force"
          end)
  else mret (match tax_rate_percent with Some _ => None | None => Some "Tax is not configured" end).

Definition get_preferred : M (option PaymentProviderConfig) :=
  rows ← db_gets (λ d, rows_where cf_is_preferred (d_configs d)); scalar_one_or_none rows.
(** demo, test, live or none *)
Definition _payment_mode : M string :=
  preferred ← get_preferred;
  match preferred with
  | None =>
      stored ← uses_configurations;
      mret (if negb stored && startswith "sk_test_" stripe_secret_key then "test" else "none")
  | Some config =>
      if negb (is_enabled config) || negb (String.eqb (cf_credentials_status config) "valid") then mret "none"
      else if is_live config then live ← live_payments_active; mret (if live : bool then "live" else "none")
      else mret (if String.eqb (cf_provider config) "demo" then "demo" else "test")
  end.
Definition nonempty (o : option string) : bool := present (truthy o).
Definition read_payment_config : M PaymentConfigRead :=
  mode ← _payment_mode;
  if String.eqb mode "none" then mret no_payment_config
  else
    preferred ← get_preferred;
    mret (match preferred with
          | None => MkPaymentConfig (Some "stripe") mode false stripe_publishable_key (nonempty stripe_publishable_key)
                      (sort_str enabled_payment_currencies)
          | Some config =>
              if String.eqb (cf_provider config) "demo"
              then MkPaymentConfig (Some "demo") "demo" true None true (sort_str (cf_currencies config))
              else MkPaymentConfig (Some (cf_provider config)) mode false (cf_public_identifier config)
                     (nonempty (cf_public_identifier config)) (sort_str (cf_currencies config))
          end).

Definition read_public_settings : M StoreSettingsRead :=
  currency ← read_currency;
  tax_reason ← _tax_unavailable_reason;
  let known := present (cr_currency currency) in
  let payments_ok := known && bool_decide (cr_warnings currency = []) in
  let reasons := (if known then [] else ["The store currency is not set"])
                 ++ (match flat_shipping_cents with None => ["Shipping is not configured"] | Some _ => [] end)
                 ++ (match truthy tax_reason with Some t => [t] | None => [] end)
                 ++ (if known && negb payments_ok then ["Payments are not enabled for the store currency"] else []) in
  mode ← _payment_mode;
  mret {| sg_currency := cr_currency currency; sg_minor_unit_exponent := cr_minor_unit_exponent currency;
          sg_flat_shipping_cents := flat_shipping_cents;
          sg_free_shipping_threshold_cents := match free_shipping_threshold_cents with
                                              | Some n => if n =? 0 then None else Some n | None => None end;
          sg_pending_order_timeout_minutes := pending_order_timeout_minutes; sg_delivery_check := eligibility_policy;
          sg_checkout_available := known && present flat_shipping_cents && negb (present tax_reason);
          sg_payments_available := payments_ok; sg_payment_mode := mode; sg_payment_demo := String.eqb mode "demo";
          sg_unavailable_reasons := reasons |}.

(** [initialize_currency]: whether this call recorded it *)
Definition initialize_currency (code : string) : M bool :=
  current ← db_gets d_store_currency;
  _ ← init_store_currency code;
  mret (negb (present current)).
Definition set_currency (actor : User) (value : string) : M StoreCurrencyRead :=
  currency ← of_sum (get_currency value);
  current ← db_gets d_store_currency;
  match current with
  | Some c => if String.eqb c (code currency) then read_currency else raise (EStore StoreCurrencyLockedError)
  | None =>
      set_now ← initialize_currency (code currency);
      if negb set_now then
        now_set ← db_gets d_store_currency;
        _ ← raise_if (negb (opt_eqb now_set (Some (code currency)))) (EStore StoreCurrencyLockedError);
        read_currency
      else
        _ ← audit_log (Some (u_id actor)) "store.currency_set" "store_settings" (Some "1")
              (JObj [("from", JNull); ("to", JStr (code currency))]);
        read_currency
  end.
Definition set_store_currency `{!Jwt} (credentials currency : string) : M StoreCurrencyRead :=
  admin ← require_permission STORE_CONFIGURE credentials; set_currency admin currency.

Lemma guar_set_store_currency `{!Jwt} c x : guar step (set_store_currency c x).
Proof.
  unfold set_store_currency, set_currency, initialize_currency, read_currency. apply guar_bind; [apply _|apply guar_require_permission|].
  intros admin. solve_guar.
Qed.
End service.
#[export] Hint Resolve guar_set_store_currency : guar.
