(* ===== verification/Addresses.v ===== *)
(** * Saved addresses

    [addresses/services/address_service.py] with its repository and [api/router.py]: a customer's addresses, at most
    twenty of them (but for requests that overlap), one of which is the default. The order of a listing is the default first, then the newest. *)

From S2P Require Import Prelude Errors Schema Guards CatalogueGuards Evolution CatalogueEvolution Repositories Frames Runs Accounts.

Local Open Scope string_scope.
Local Open Scope list_scope.
Local Open Scope Z_scope.

(** [app/shared/limits.py] *)
Definition MAX_ADDRESSES_PER_USER : Z := 20.

(** ** The repository *)

Definition listed_before (a b : Address) : Prop :=
  (ad_is_default b = true → ad_is_default a = true) ∧ (ad_is_default a = ad_is_default b → ad_created_at b ≤ ad_created_at a).
#[export] Instance listed_before_dec a b : Decision (listed_before a b).
Proof. unfold listed_before. destruct (ad_is_default a), (ad_is_default b); apply _. Defined.

Definition addresses_of (d : DB) (user_id : uuid) : list Address :=
  merge_sort listed_before (rows_where (λ a, String.eqb (ad_user_id a) user_id) (d_addresses d)).
Definition get_address_by_id (address_id : Z) : M (option Address) := db_gets (λ d, d_addresses d !! address_id).
Definition list_for_user (user_id : uuid) : M (list Address) := db_gets (λ d, addresses_of d user_id).
Definition clear_default_for_user (user_id : uuid) : M unit :=
  addresses ← list_for_user user_id;
  for_each addresses (λ a,
    if ad_is_default a then _ ← update_address_row (ad_id a) (λ a, a <| ad_is_default := false |>); mret tt else mret tt).

(** ** The service *)

(** The fields of [AddressCreate] and [AddressUpdate]; in the latter a field that is not sent, or sent as [null], is [None]. *)
Record AddressCreate := MkAddressCreate {
  ac_recipient_name : string; ac_line1 : string; ac_line2 : option string; ac_city : string; ac_state : string;
  ac_postal_code : string; ac_country : string; ac_is_default : bool
}.
Record AddressUpdate := MkAddressUpdate {
  au_recipient_name : option string; au_line1 : option string; au_line2 : option string; au_city : option string;
  au_state : option string; au_postal_code : option string; au_country : option string; au_is_default : option bool
}.

Definition _get_owned (address_id : Z) (user_id : uuid) : M Address :=
  address ← get_address_by_id address_id;
  match address with
  | Some a => if String.eqb (ad_user_id a) user_id then mret a else raise (EAddress (AddressNotFoundError address_id))
  | None => raise (EAddress (AddressNotFoundError address_id))
  end.
Definition list_addresses (user_id : uuid) : M (list Address) := list_for_user user_id.
Definition get_address (address_id : Z) (user_id : uuid) : M Address := _get_owned address_id user_id.

(** [create_address] reads the addresses and checks the limit, and then writes: two requests at once may both read first. *)
Definition new_address_allowed (user_id : uuid) : M (list Address) :=
  existing ← list_for_user user_id;
  _ ← raise_if (MAX_ADDRESSES_PER_USER <=? Z.of_nat (length existing)) (EAddress (AddressLimitReachedError MAX_ADDRESSES_PER_USER));
  mret existing.
Definition store_address (user_id : uuid) (payload : AddressCreate) (existing : list Address) : M Address :=
  let make_default := ac_is_default payload || bool_decide (existing = []) in
  _ ← (if make_default && negb (bool_decide (existing = [])) then clear_default_for_user user_id else mret tt);
  aid ← new_id;
  t ← now;
  let a := MkAddress aid user_id (ac_recipient_name payload) (ac_line1 payload) (ac_line2 payload) (ac_city payload)
             (ac_state payload) (ac_postal_code payload) (ac_country payload) make_default t in
  _ ← insert_address a;
  mret a.
Definition create_address (user_id : uuid) (payload : AddressCreate) : M Address :=
  existing ← new_address_allowed user_id;
  store_address user_id payload existing.

Definition address_updates (u : AddressUpdate) (a : Address) : Address :=
  a <| ad_recipient_name := default (ad_recipient_name a) (au_recipient_name u) |>
    <| ad_line1 := default (ad_line1 a) (au_line1 u) |>
    <| ad_line2 := match au_line2 u with Some l => Some l | None => ad_line2 a end |>
    <| ad_city := default (ad_city a) (au_city u) |>
    <| ad_state := default (ad_state a) (au_state u) |>
    <| ad_postal_code := default (ad_postal_code a) (au_postal_code u) |>
    <| ad_country := default (ad_country a) (au_country u) |>.
Definition update_address (address_id : Z) (user_id : uuid) (payload : AddressUpdate) : M Address :=
  address ← _get_owned address_id user_id;
  is_default ← (match au_is_default payload with
                | Some true =>
                    if ad_is_default address then mret true else _ ← clear_default_for_user user_id; mret true
                | Some false =>
                    if ad_is_default address then addresses ← list_for_user user_id; mret (negb (1 <? Z.of_nat (length addresses)))
                    else mret false
                | None => mret (ad_is_default address)
                end);
  update_address_row (ad_id address) (λ a, address_updates payload a <| ad_is_default := is_default |>).

Definition delete_address (address_id : Z) (user_id : uuid) : M unit :=
  address ← _get_owned address_id user_id;
  _ ← delete_address_row (ad_id address);
  if ad_is_default address then
    remaining ← list_for_user user_id;
    match remaining with
    | a :: _ => _ ← update_address_row (ad_id a) (λ a, a <| ad_is_default := true |>); mret tt
    | [] => mret tt
    end
  else mret tt.

(** ** The endpoints *)

Section endpoints.
Context `{!Jwt}.

Definition create_address_endpoint (credentials : string) (payload : AddressCreate) : M Address :=
  user ← get_current_user credentials; create_address (u_id user) payload.
Definition list_addresses_endpoint (credentials : string) : M (list Address) :=
  user ← get_current_user credentials; list_addresses (u_id user).
Definition get_address_endpoint (credentials : string) (address_id : Z) : M Address :=
  user ← get_current_user credentials; get_address address_id (u_id user).
Definition update_address_endpoint (credentials : string) (address_id : Z) (payload : AddressUpdate) : M Address :=
  user ← get_current_user credentials; update_address address_id (u_id user) payload.
Definition delete_address_endpoint (credentials : string) (address_id : Z) : M unit :=
  user ← get_current_user credentials; delete_address address_id (u_id user).

(** ** Every operation keeps the tables sound *)

Lemma guar_clear_default u : guar step (clear_default_for_user u).
Proof. unfold clear_default_for_user, list_for_user. solve_guar. Qed.
Lemma guar_get_owned a u : guar step (_get_owned a u).
Proof. unfold _get_owned, get_address_by_id. solve_guar. Qed.
#[local] Hint Resolve guar_clear_default guar_get_owned : guar.
Lemma guar_create_address_endpoint c p : guar step (create_address_endpoint c p).
Proof. unfold create_address_endpoint, create_address, new_address_allowed, store_address, list_for_user. cbv zeta. solve_guar. Qed.
Lemma guar_update_address_endpoint c a p : guar step (update_address_endpoint c a p).
Proof. unfold update_address_endpoint, update_address, list_for_user. solve_guar. Qed.
Lemma guar_delete_address_endpoint c a : guar step (delete_address_endpoint c a).
Proof. unfold delete_address_endpoint, delete_address, list_for_user. solve_guar. Qed.
End endpoints.
#[export] Hint Resolve guar_create_address_endpoint guar_update_address_endpoint guar_delete_address_endpoint : guar.
