(* ===== verification/Reviews.v ===== *)
(** * Reviews and wishlists

    [reviews/services/review_service.py] with the payloads of [schemas/reviews.py] and [api/router.py], and
    [wishlist/services/wishlist_service.py] with its router. Text is ASCII; the time of the last change of a review is not
    modelled. The average of a summary is left as the exact quotient that the code rounds to one decimal. *)

From S2P Require Import Prelude Errors Schema Guards CatalogueGuards Evolution CatalogueEvolution Repositories Frames Runs Accounts Roles.
From S2P Require Import Lifecycle.

Local Open Scope string_scope.
Local Open Scope list_scope.
Local Open Scope Z_scope.

(** ** The payloads *)

(** [_CONTROL]: the control characters a text loses. *)
Definition is_control (c : Ascii.ascii) : bool :=
  let n := Ascii.nat_of_ascii c in
  (n <=? 8)%nat || (n =? 11)%nat || (n =? 12)%nat || ((14 <=? n)%nat && (n <=? 31)%nat) || (n =? 127)%nat.
Definition is_blank (c : Ascii.ascii) : bool := let n := Ascii.nat_of_ascii c in (n =? 32)%nat || (n =? 9)%nat.
Definition SPACE : Ascii.ascii := Ascii.ascii_of_nat 32.
Definition _clean (value : option string) (single_line : bool) : option string :=
  v ← value;
  let v := py_strip (collapse (if single_line then is_space else is_blank) SPACE false (drop_chars is_control v)) in
  if String.eqb v "" then None else Some v.

Definition at_most (limit : nat) (t : option string) : bool := match t with Some x => (String.length x <=? limit)%nat | None => true end.
Definition stars_ok (n : Z) : bool := (1 <=? n) && (n <=? 5).

Record ReviewCreate := MkReviewCreate { rc_rating : Z; rc_title : option string; rc_body : option string }.
(** The fields that were sent; a rating can be sent as [null]. *)
Record ReviewUpdate := MkReviewUpdate { ru_rating : option (option Z); ru_title : option (option string); ru_body : option (option string) }.
Record ReviewModeration := MkModeration { rm_hide : bool; rm_reason : option string }.

(** The validation of a request's body; [None]: it is refused before the service is called. *)
Definition parse_review (rating : Z) (title body : option string) : option ReviewCreate :=
  if stars_ok rating && at_most 100 title && at_most 2000 body then
    Some (MkReviewCreate rating (_clean title true) (_clean body false))
  else None.
Definition parse_review_update (rating : option (option Z)) (title body : option (option string)) : option ReviewUpdate :=
  let sent {A} (f : A → bool) (x : option A) := match x with Some v => f v | None => true end in
  if sent (sent stars_ok) rating && sent (at_most 100) title && sent (at_most 2000) body then
    Some (MkReviewUpdate rating (option_map (λ t, _clean t true) title) (option_map (λ t, _clean t false) body))
  else None.

(** ** What is shown *)

(** [display_name] *)
Fixpoint stars (n : nat) : string := match n with O => "" | S n => String "*" (stars n) end.
Definition display_name (username : string) : string :=
  String.substring 0 2 username +:+ stars (Nat.max (String.length username - 2) 1).

Record ReviewRead := MkReviewRead {
  rr_id : Z; rr_product_id : Z; rr_rating : Z; rr_title : option string; rr_body : option string; rr_display_name : string;
  rr_created_at : Z; rr_status : option string
}.
(** With what administrators see, [user_id] and [hidden_reason]. *)
Definition ReviewAdminRead : Type := ReviewRead * uuid * option string.
Definition _read (review : ProductReview) (username : string) (show_status : bool) : ReviewRead :=
  MkReviewRead (rv_id review) (rv_product_id review) (rv_rating review) (rv_title review) (rv_body review) (display_name username)
    (rv_created_at review) (if show_status then Some (rv_status review) else None).
Definition admin_read (review : ProductReview) (username : string) : ReviewAdminRead :=
  (_read review username true, rv_user_id review, rv_hidden_reason review).

(** ** The customer *)

Definition _public_product (product_id : Z) : M Product :=
  product ← db_gets (λ d, d_products d !! product_id);
  match product with
  | Some p => if bool_decide (p_status p = ACTIVE) then mret p else raise (ECatalogue (ProductNotFoundError product_id))
  | None => raise (ECatalogue (ProductNotFoundError product_id))
  end.
Definition bought (d : DB) (user_id : uuid) (product_id : Z) : bool :=
  exists_row (λ i, (oi_product_id i =? product_id)
    && match d_orders d !! oi_order_id i with
       | Some o => opt_eqb (o_user_id o) (Some user_id) && bool_decide (o_status o ∈ [PAID; FULFILLED])
       | None => false
       end) (d_items d).
Definition _bought (user_id : uuid) (product_id : Z) : M bool := db_gets (λ d, bought d user_id product_id).
Definition reviews_by (d : DB) (user_id : uuid) (product_id : Z) : list ProductReview :=
  rows_where (λ r, (rv_product_id r =? product_id) && String.eqb (rv_user_id r) user_id) (d_reviews d).
Definition _mine (user : User) (product_id : Z) : M ProductReview :=
  rows ← db_gets (λ d, reviews_by d (u_id user) product_id);
  found ← scalar_one_or_none rows;
  of_option found (EReview ReviewNotFoundError).

Definition create_review (user : User) (product_id : Z) (payload : ReviewCreate) : M ReviewRead :=
  product ← db_gets (λ d, d_products d !! product_id);
  _ ← of_option product (ECatalogue (ProductNotFoundError product_id));
  ok ← _bought (u_id user) product_id;
  _ ← raise_if (negb ok) (EReview ReviewRequiresPurchaseError);
  rid ← new_id;
  t ← now;
  let review := MkReview rid product_id (u_id user) (rc_rating payload) (rc_title payload) (rc_body payload) "published" None None t in
  _ ← catch_integrity (savepoint (insert_review review)) (raise (EReview AlreadyReviewedError));
  mret (_read review (u_username user) true).
Definition my_review (user : User) (product_id : Z) : M ReviewRead :=
  review ← _mine user product_id; mret (_read review (u_username user) true).
Definition update_mine (user : User) (product_id : Z) (payload : ReviewUpdate) : M ReviewRead :=
  review ← _mine user product_id;
  _ ← raise_if (String.eqb (rv_status review) "hidden") (EReview ReviewHiddenError);
  rating ← (match ru_rating payload with
            | Some None => raise (EReview (InvalidReviewError "a review needs a rating"))
            | Some (Some n) => mret n
            | None => mret (rv_rating review)
            end);
  new ← update_review (rv_id review) (λ r, r <| rv_rating := rating |> <| rv_title := default (rv_title r) (ru_title payload) |>
          <| rv_body := default (rv_body r) (ru_body payload) |>);
  mret (_read new (u_username user) true).
Definition delete_mine (user : User) (product_id : Z) : M unit :=
  review ← _mine user product_id; delete_review (rv_id review).

(** ** Everyone *)

Inductive Sort := Newest | Highest | Lowest.
(** [SORTS]: the keys compared, the greatest first. *)
Definition sort_keys (sort : Sort) (r : ProductReview) : Z * Z :=
  match sort with
  | Newest => (rv_created_at r, rv_id r)
  | Highest => (rv_rating r, rv_id r)
  | Lowest => (- rv_rating r, rv_id r)
  end.
Definition review_before (sort : Sort) (a b : ProductReview) : Prop :=
  (sort_keys sort b).1 < (sort_keys sort a).1 ∨
  (sort_keys sort b).1 = (sort_keys sort a).1 ∧ (sort_keys sort b).2 ≤ (sort_keys sort a).2.
#[export] Instance review_before_dec sort a b : Decision (review_before sort a b).
Proof. unfold review_before. apply _. Defined.
(** A page of the reviews [p] selects, each with its author's name. *)
Definition review_page (d : DB) (p : ProductReview → bool) (sort : Sort) (offset limit : nat) : list (ProductReview * string) :=
  let sorted := merge_sort (review_before sort) (rows_where p (d_reviews d)) in
  take limit (drop offset (omap (λ r, match d_users d !! rv_user_id r with Some u => Some (r, u_username u) | None => None end) sorted)).
Definition published_of (product_id : Z) (r : ProductReview) : bool := (rv_product_id r =? product_id) && String.eqb (rv_status r) "published".
Definition list_public (product_id : Z) (sort : Sort) (offset limit : nat) : M (Z * list ReviewRead) :=
  _ ← _public_product product_id;
  db_gets (λ d, (count_rows (published_of product_id) (d_reviews d),
    map (λ x, _read x.1 x.2 false) (review_page d (published_of product_id) sort offset limit))).

(** A summary: the number of reviews, the quotient rounded to show the average, and the number of reviews by stars. *)
Record ReviewSummary := MkSummary { su_product_id : Z; su_count : Z; su_average : option (Z * Z); su_distribution : list (Z * Z) }.
Definition FIVE_STARS : list Z := [1; 2; 3; 4; 5].
Definition summary_of (d : DB) (product_id : Z) : ReviewSummary :=
  let distribution := map (λ n, (n, count_rows (λ r, published_of product_id r && (rv_rating r =? n)) (d_reviews d))) FIVE_STARS in
  let total := sumZ (map snd distribution) in
  MkSummary product_id total (if total =? 0 then None else Some (sumZ (map (λ x, x.1 * x.2) distribution), total)) distribution.
Definition summaries (product_ids : list Z) : M (list ReviewSummary) :=
  db_gets (λ d, map (summary_of d) (sortZ (remove_dups product_ids))).
Definition review_summary (product_id : Z) : M ReviewSummary :=
  _ ← _public_product product_id;
  l ← summaries [product_id];
  of_option (head l) (RuntimeError "IndexError").

(** ** Administrators *)

Definition admin_list (status : option string) (product_id rating : option Z) (offset limit : nat) : M (Z * list ReviewAdminRead) :=
  let p (r : ProductReview) :=
    match truthy status with Some t => String.eqb (rv_status r) t | None => true end
    && match product_id with Some i => rv_product_id r =? i | None => true end
    && match rating with Some n => rv_rating r =? n | None => true end in
  db_gets (λ d, (count_rows p (d_reviews d), map (λ x, admin_read x.1 x.2) (review_page d p Newest offset limit))).
Definition moderate (review_id : Z) (payload : ReviewModeration) (admin : User) : M ReviewAdminRead :=
  found ← db_gets (λ d, d_reviews d !! review_id);
  review ← of_option found (EReview ReviewNotFoundError);
  new ← (if rm_hide payload then
           let reason := py_strip (default "" (rm_reason payload)) in
           _ ← raise_if (String.length reason <? 3)%nat (EReview (InvalidReviewError "hiding a review needs a reason (at least 3 characters)"));
           update_review review_id (λ r, r <| rv_status := "hidden" |> <| rv_hidden_reason := Some reason |>
                                           <| rv_hidden_by_user_id := Some (u_id admin) |>)
         else
           update_review review_id (λ r, r <| rv_status := "published" |> <| rv_hidden_reason := None |> <| rv_hidden_by_user_id := None |>));
  _ ← audit_log (Some (u_id admin)) ("review." +:+ rv_status new) "review" (Some (str_Z (rv_id new)))
        (JObj [("product_id", JInt (rv_product_id new)); ("reason", j_opt JStr (rv_hidden_reason new))]);
  author ← db_gets (λ d, d_users d !! rv_user_id new);
  u ← of_option author (RuntimeError "AttributeError");
  mret (admin_read new (u_username u)).
Definition admin_delete (review_id : Z) (admin : User) : M unit :=
  found ← db_gets (λ d, d_reviews d !! review_id);
  review ← of_option found (EReview ReviewNotFoundError);
  _ ← delete_review review_id;
  audit_log (Some (u_id admin)) "review.deleted" "review" (Some (str_Z review_id))
    (JObj [("product_id", JInt (rv_product_id review)); ("rating", JInt (rv_rating review))]).

(** ** The wishlist *)

Definition WISHLIST_LIMIT : Z := 200.
Definition saved_by (user_id : uuid) (w : WishlistItem) : bool := String.eqb (wi_user_id w) user_id.
Definition _count (user : User) : M Z := db_gets (λ d, count_rows (saved_by (u_id user)) (d_wishlist d)).
(** Whether the product is in the wishlist now, and how many products are. *)
Record WishlistState := MkWishlistState { ws_product_id : Z; ws_in_wishlist : bool; ws_count : Z }.
(** [add] reads and checks the limit, and then writes: two requests at once may both read first. *)
Definition save_allowed (user : User) (product_id : Z) : M bool :=
  _ ← _public_product product_id;
  already ← db_gets (λ d, exists_row (λ w, saved_by (u_id user) w && (wi_product_id w =? product_id)) (d_wishlist d));
  _ ← (if (already : bool) then mret tt
       else n ← _count user; raise_if (WISHLIST_LIMIT <=? n) (EReview (WishlistFullError WISHLIST_LIMIT)));
  mret already.
Definition store_save (user : User) (product_id : Z) (already : bool) : M WishlistState :=
  _ ← (if already then mret tt
       else i ← new_id; t ← now; insert_wishlist_item (MkWishlistItem i (u_id user) product_id t));
  n ← _count user;
  mret (MkWishlistState product_id true n).
Definition wishlist_add (user : User) (product_id : Z) : M WishlistState :=
  already ← save_allowed user product_id;
  store_save user product_id already.
Definition wishlist_remove (user : User) (product_id : Z) : M WishlistState :=
  _ ← delete_wishlist_item (u_id user) product_id;
  n ← _count user;
  mret (MkWishlistState product_id false n).
Definition saved_before (a b : WishlistItem) : Prop :=
  wi_created_at b < wi_created_at a ∨ wi_created_at b = wi_created_at a ∧ wi_id b ≤ wi_id a.
#[export] Instance saved_before_dec a b : Decision (saved_before a b).
Proof. unfold saved_before. apply _. Defined.
(** The saved products that are on sale, the last saved first. *)
Definition saved_products (d : DB) (user_id : uuid) : list Product :=
  omap (λ w, match d_products d !! wi_product_id w with Some p => if bool_decide (p_status p = ACTIVE) then Some p else None | None => None end)
    (merge_sort saved_before (rows_where (saved_by user_id) (d_wishlist d))).
Definition product_ids (user : User) : M (list Z) := db_gets (λ d, map p_id (saved_products d (u_id user))).
Definition list_products (user : User) (offset limit : nat) : M (list Product * Z) :=
  db_gets (λ d, (take limit (drop offset (saved_products d (u_id user))), Z.of_nat (length (saved_products d (u_id user))))).

(** ** The endpoints *)

Section endpoints.
Context `{!Jwt}.

Definition create_review_endpoint (credentials : string) (product_id : Z) (payload : ReviewCreate) : M ReviewRead :=
  user ← get_current_user credentials; create_review user product_id payload.
Definition my_review_endpoint (credentials : string) (product_id : Z) : M ReviewRead :=
  user ← get_current_user credentials; my_review user product_id.
Definition update_my_review (credentials : string) (product_id : Z) (payload : ReviewUpdate) : M ReviewRead :=
  user ← get_current_user credentials; update_mine user product_id payload.
Definition delete_my_review (credentials : string) (product_id : Z) : M unit :=
  user ← get_current_user credentials; delete_mine user product_id.
Definition admin_list_reviews (credentials : string) (status : option string) (product_id rating : option Z) (offset limit : nat) :
    M (Z * list ReviewAdminRead) :=
  _ ← require_permission REVIEWS_MODERATE credentials; admin_list status product_id rating offset limit.
Definition moderate_review (credentials : string) (review_id : Z) (payload : ReviewModeration) : M ReviewAdminRead :=
  admin ← require_permission REVIEWS_MODERATE credentials; moderate review_id payload admin.
Definition delete_review_endpoint (credentials : string) (review_id : Z) : M unit :=
  admin ← require_permission REVIEWS_MODERATE credentials; admin_delete review_id admin.

Definition my_wishlist_ids (credentials : string) : M (list Z) := user ← get_current_user credentials; product_ids user.
Definition add_to_wishlist (credentials : string) (product_id : Z) : M WishlistState :=
  user ← get_current_user credentials; wishlist_add user product_id.
Definition remove_from_wishlist (credentials : string) (product_id : Z) : M WishlistState :=
  user ← get_current_user credentials; wishlist_remove user product_id.

(** ** Every operation keeps the tables sound *)

Lemma guar_mine u p : guar step (_mine u p).
Proof. unfold _mine. solve_guar. Qed.
Lemma guar_public p : guar step (_public_product p).
Proof. unfold _public_product. solve_guar. Qed.
#[local] Hint Resolve guar_mine guar_public : guar.
Lemma guar_create_review_endpoint c p x : guar step (create_review_endpoint c p x).
Proof. unfold create_review_endpoint, create_review, _bought. cbv zeta. solve_guar. Qed.
Lemma guar_update_my_review c p x : guar step (update_my_review c p x).
Proof. unfold update_my_review, update_mine. solve_guar. Qed.
Lemma guar_delete_my_review c p : guar step (delete_my_review c p).
Proof. unfold delete_my_review, delete_mine. solve_guar. Qed.
Lemma guar_moderate_review c r x : guar step (moderate_review c r x).
Proof. unfold moderate_review, moderate. cbv zeta. solve_guar. Qed.
Lemma guar_delete_review_endpoint c r : guar step (delete_review_endpoint c r).
Proof. unfold delete_review_endpoint, admin_delete. solve_guar. Qed.
Lemma guar_add_to_wishlist c p : guar step (add_to_wishlist c p).
Proof. unfold add_to_wishlist, wishlist_add, save_allowed, store_save, _count. solve_guar. Qed.
Lemma guar_remove_from_wishlist c p : guar step (remove_from_wishlist c p).
Proof. unfold remove_from_wishlist, wishlist_remove, _count. solve_guar. Qed.
End endpoints.
#[export] Hint Resolve guar_create_review_endpoint guar_update_my_review guar_delete_my_review guar_moderate_review
  guar_delete_review_endpoint guar_add_to_wishlist guar_remove_from_wishlist : guar.
