(* ===== verification/Demo.v ===== *)
(** * A concrete store: the inputs of the witnesses

    Settings, a payment provider, a shop with a simple product, a product with variants, a coupon, a
    signed-in customer with a cart, a guest with a cart. Everything is executable, so that a witness runs
    the modelled operations on it. *)

From S2P Require Import Prelude Decimal Errors Money GstCalc Schema Guards CatalogueGuards CatalogueOk TaxGuards TaxOk GatewayGuards Evolution GstStates Invoice Repositories Lifecycle Payments.
From S2P Require Import Cart Coupons Tax Checkout Accounts Images TaxAdmin Gateways StoreFront.
Import Decimal.

Local Open Scope string_scope.
Local Open Scope list_scope.
Local Open Scope Z_scope.

#[export] Instance demo_settings : Settings := {|
  refund_max_attempts := 3; jobs_default_max_attempts := 5; pending_order_timeout_minutes := 30;
  webhook_recovery_interval_seconds := 60; webhook_recovery_window_minutes := 60; webhook_recovery_max_attempts := 5;
  default_store_currency := "inr"; live_payments_enabled := true; stripe_secret_key := "sk_test_1";
  enabled_payment_currencies := ["inr"; "usd"]; return_window_days := 7 |}.
#[export] Instance demo_crypto : Crypto := {| sha256_hex := λ s, "#" +:+ s; token_urlsafe := λ s, "token-" +:+ s |}.

(** A provider that answers at once; its payment intents are named by their idempotency key. *)
Definition demo_provider : PaymentProvider := {|
  pr_name := "stripe"; pr_supports_cancel := true; pr_supports_currency := λ _, true;
  create_payment_intent := λ _ _ _ key, mret (MkIntent ("pi_" +:+ key) "secret" "requires_payment_method");
  cancel_payment_intent := λ i _, mret (MkIntent i "" "canceled");
  retrieve_payment_intent := λ i, mret (MkIntent i "secret" "requires_payment_method");
  create_refund := λ i a c key, mret (MkRefundResult ("re_" +:+ key) a "succeeded" (Some c));
  validate_credentials := mret (MkCheck true None None);
  verify_and_parse_webhook := λ payload _, inr (MkEvent payload "" "" None None None None None None None None "stripe" None None) |}.
(** One whose cancellations time out. *)
Definition silent_provider : PaymentProvider := {|
  pr_name := "stripe"; pr_supports_cancel := true; pr_supports_currency := λ _, true;
  create_payment_intent := λ _ _ _ _, raise (EProvider (PaymentProviderTimeoutError "no answer"));
  cancel_payment_intent := λ _ _, raise (EProvider (PaymentProviderTimeoutError "no answer"));
  retrieve_payment_intent := λ _, raise (EProvider (PaymentProviderTimeoutError "no answer"));
  create_refund := λ _ _ _ _, raise (EProvider (PaymentProviderTimeoutError "no answer"));
  validate_credentials := mret (MkCheck false (Some "provider_unreachable") None);
  verify_and_parse_webhook := λ _ _, inl (EProvider InvalidWebhookSignatureError) |}.

#[export] Instance demo_providers : Providers := {|
  env_provider := demo_provider; build_provider := λ _ _, inr demo_provider; redact := λ s, s; error_text := λ _, "error" |}.
Definition silent_providers : Providers := {|
  env_provider := silent_provider; build_provider := λ _ _, inr silent_provider; redact := λ s, s; error_text := λ _, "error" |}.

Lemma demo_provider_ok : provider_ok demo_provider.
Proof. split; intros; apply guar_ret, _. Qed.
Lemma silent_provider_ok : provider_ok silent_provider.
Proof. split; intros; first [apply guar_raise, _|apply guar_ret, _]. Qed.
#[export] Instance demo_providers_ok : ProvidersOk.
Proof. split; [apply demo_provider_ok|]. intros c b p [= <-]. apply demo_provider_ok. Qed.

#[export] Instance demo_store : Store := {|
  flat_shipping_cents := Some 4900; free_shipping_threshold_cents := Some 100000; free_shipping_threshold_basis := Some "merchandise";
  require_tax_classification := false; tax_engine := FlatInterimTaxEngine (Dec 18 0); eligibility_policy := "none";
  eligibility_check := no_serviceability_check |}.

(** ** Accounts *)

#[export] Instance demo_account_settings : AccountSettings := {|
  access_token_expire_minutes := 15; refresh_token_expire_days := 30; refresh_reuse_grace_seconds := 10;
  refresh_reuse_grace_max_replays := 2; password_reset_token_minutes := 30; email_verification_token_hours := 24;
  email_change_token_minutes := 30; password_reset_emails_per_hour := 3;
  graphql_enabled := true |}.

(** Passwords that are stored behind a prefix. *)
#[export] Instance demo_passwords : Passwords := {|
  pw_hash := λ _ p, "hash:" +:+ p; pw_verify := λ q h, String.eqb h ("hash:" +:+ q) |}.
#[export] Instance demo_passwords_ok : PasswordsOk.
Proof. intros salt p q. unfold pw_hash, pw_verify, demo_passwords. rewrite String.eqb_eq. split; [|by intros ->]. intros Heq. by apply (inj (String.append "hash:")) in Heq. Qed.

(** Tokens that are the claims themselves, written as binary digits; no signature. *)
Fixpoint digits (p : positive) : string :=
  match p with xH => "" | xO q => String "0" (digits q) | xI q => String "1" (digits q) end.
Fixpoint undigits (s : string) : option positive :=
  match s with
  | EmptyString => Some xH
  | String c r => if Ascii.eqb c "0" then xO <$> undigits r else if Ascii.eqb c "1" then xI <$> undigits r else None
  end.
Lemma undigits_digits p : undigits (digits p) = Some p.
Proof. induction p as [p IH|p IH|]; cbn [digits undigits]; [..|done]; by rewrite IH. Qed.

Definition claims_tuple (c : Claims) : string * string * Z * Z * option string := (cl_sub c, cl_type c, cl_iat c, cl_exp c, cl_jti c).
Definition tuple_claims (t : string * string * Z * Z * option string) : Claims :=
  let '(sub, type, iat, exp, jti) := t in MkClaims sub type iat exp jti.
Definition demo_claims (token : string) : option Claims := p ← undigits token; tuple_claims <$> decode p.
#[export] Instance demo_jwt : Jwt := {|
  jwt_encode := λ c, digits (encode (claims_tuple c));
  jwt_claims := demo_claims;
  jwt_decode := λ t token, c ← demo_claims token; if (cl_iat c <=? t) && (t <? cl_exp c) then Some c else None |}.
Lemma demo_claims_encode c : demo_claims (digits (encode (claims_tuple c))) = Some c.
Proof. unfold demo_claims. rewrite undigits_digits. cbn. rewrite decode_encode. by destruct c. Qed.
#[export] Instance demo_jwt_ok : JwtOk.
Proof. split; [exact demo_claims_encode|]. intros t c. unfold jwt_decode, jwt_encode, demo_jwt. by rewrite demo_claims_encode. Qed.

(** A mail service that always takes the mail. *)
#[export] Instance demo_mailer : Mailer := λ _ _, mret tt.
#[export] Instance demo_mailer_ok : MailerOk.
Proof. done. Qed.
(** ** The catalogue *)

#[export] Instance demo_catalogue_settings : CatalogueSettings := {|
  max_image_bytes := 5 * 1024 * 1024; tax_classification_required := false; low_stock_display_threshold := 5;
  public_stock_visibility := "availability" |}.
(** A store of files that always answers. *)
#[export] Instance demo_storage : Storage := {|
  storage_upload := λ _ _ _, mret tt; storage_delete := λ _, mret tt; storage_url := λ p, "/media/" +:+ p |}.
#[export] Instance demo_storage_ok : StorageOk.
Proof. by split. Qed.

(** An owner who runs the shop alone approves their own tax records, with a note. *)
#[export] Instance demo_tax_settings : TaxAdminSettings := {| tax_master_allow_self_approval := true; tax_calculation_enabled := true |}.

(** Secrets stored behind the name of their key. *)
#[export] Instance demo_secrets : Secrets := {|
  provider_secrets_key := Some "master"; provider_secrets_key_id := "k1"; fernet_encrypt := λ _ _ text, "sealed " +:+ text;
  token_hex := λ seed, seed |}.
#[export] Instance demo_storefront : StoreFrontSettings := {| tax_rate_percent := Some (Dec 18 0); stripe_publishable_key := None |}.

(** ** The shop *)

Definition mug : Product := MkProduct 1 "Mug" "mug" None None 25000 "MUG" 5 ACTIVE 3 None None 0 25000 25000 1759000000.
Definition shirt : Product := MkProduct 2 "Shirt" "shirt" None None 50000 "SHIRT" 0 ACTIVE 3 None None 1 60000 60000 1759000000.
Definition shirt_m : ProductVariant := MkVariant 7 2 (Some 70) None None 1 "SHIRT-M" (Some 60000) 4 true.
Definition goods : Category := MkCategory 3 "Goods" "goods" None None true.
Definition size_option : ProductOption := MkOption 20 2 1 "Size" [(70, "M"); (71, "L")].
Definition opening (pid : Z) (vid : option Z) (n : Z) : StockMovement := MkMovement "opening" pid vid n 0 n None None None.
Definition save10 : Coupon :=
  MkCoupon 30 "SAVE10" "Ten percent" "percentage" (Some (Dec 1000 (-2))) None (Some 9000) 20000 None None (Some 1) (Some 1) true.

Definition demo_db : DB := empty_db
  <| d_products := {[ 1 := mug; 2 := shirt ]} |> <| d_variants := {[ 7 := shirt_m ]} |> <| d_options := {[ 20 := size_option ]} |>
  <| d_categories := {[ 3 := goods ]} |>
  <| d_movements := [opening 1 None 5; opening 2 (Some 7) 4] |>
  <| d_carts := {[ 1 := MkCart 1 (Some "alice") None; 2 := MkCart 2 None (Some "guest-1") ]} |>
  <| d_cart_items := {[ 11 := MkCartItem 11 1 1 None 2 25000; 12 := MkCartItem 12 1 2 (Some 7) 1 60000;
                        13 := MkCartItem 13 2 1 None 1 25000 ]} |>
  <| d_coupons := {[ 30 := save10 ]} |>
  <| d_users := {[ "alice" := MkUser "alice" "alice" "alice@example.com" "" USER true None 0 ]} |>.
Definition demo_state : St := MkSt demo_db demo_db 1760000000 100 1 no_stock_ctx.

(** Every row of a small table. *)
Ltac each_row :=
  repeat match goal with
    | H : <[_ := _]> _ !! _ = Some _ |- _ => apply lookup_insert_Some in H as [[<- <-]|[_ H]]
    | H : {[_ := _]} !! _ = Some _ |- _ => apply lookup_singleton_Some in H as [<- <-]
    end.
Lemma demo_catalogue : catalogue_ok (catalogue_of demo_db).
Proof.
  split; cbn.
  - intros k p Hk. each_row; (split; [done|done|done|done|vm_compute; reflexivity|by eexists]).
  - intros k v Hk. each_row. split; cbn; try done.
    + by intros x [= <-].
    + by eexists.
  - intros k o Hk. each_row. split; cbn; [done|by eexists|done|]. split; vm_compute; repeat constructor; set_solver.
  - intros k x Hk. by each_row.
  - intros j k p q Hj Hk Hs. by each_row.
  - intros [j|j] [k|k] s (x & Hj & Hx)%fmap_Some (y & Hk & Hy)%fmap_Some; cbn in Hj, Hk; each_row; vm_compute in Hx, Hy; congruence.
  - intros j k v w Hj Hk _. by each_row.
  - intros j k o q Hj Hk _ _. by each_row.
  - intros j k o q i Hj Hk _ _. by each_row.
  - intros j k x y Hj Hk _. by each_row.
Qed.
(** No tax masters yet. *)
Lemma no_tax : tax_ok (MkTaxTables ∅ ∅ ∅ ∅).
Proof. split; cbn; intros; simplify_map_eq. Qed.
Lemma no_gateways : gateways_ok ∅.
Proof. split; intros; simplify_map_eq. Qed.
Lemma demo_inv : Inv demo_db.
Proof.
  split; cbn; [intros k..|exact demo_catalogue| |exact no_tax| |exact no_gateways|done];
    try (intros v Hv; rewrite lookup_empty in Hv; done);
    try (intros e q Hv; rewrite lookup_empty in Hv; done).
  - intros v [[<- <-]|[_ [<- <-]%lookup_singleton_Some]]%lookup_insert_Some; by vm_compute.
  - intros v [<- <-]%lookup_singleton_Some; by vm_compute.
  - by intros v [[<- <-]|[_ [<- <-]%lookup_singleton_Some]]%lookup_insert_Some.
  - by intros v [<- <-]%lookup_singleton_Some.
  - by intros v [[<- <-]|[_ [<- <-]%lookup_singleton_Some]]%lookup_insert_Some.
  - by intros v [[<- <-]|[_ [[<- <-]|[_ [<- <-]%lookup_singleton_Some]]%lookup_insert_Some]]%lookup_insert_Some.
  - intros j x y Hx. by rewrite lookup_empty in Hx.
  - intros m [->|[->|[]%elem_of_nil]%elem_of_cons]%elem_of_cons; (split; [by eexists|]); [done|by intros v [= <-]].
  - intros k p c Hk Hc. by each_row.
Qed.
Lemma demo_sound : sound demo_state.
Proof. split; [reflexivity|]. split; apply demo_inv. Qed.

Definition ship_to : ShippingAddressInput := MkShipTo "Alice" "1 Main Road" None "Pune" "Maharashtra" "411001" "IN".
(** Alice buys her cart; the guest buys theirs. *)
Definition alice_request (key : string) (coupon : option string) : CheckoutRequest :=
  MkCheckoutRequest (Some "alice") None None key None (Some ship_to) coupon.
Definition guest_request (key : string) : CheckoutRequest :=
  MkCheckoutRequest None (Some "guest-1") (Some "bob@example.com") key None (Some ship_to) None.

(** The state after Alice's checkout, and the order's id. *)
Definition ordered : St := (checkout_endpoint (alice_request "k1" None) demo_state).2.
Definition order_1 : uuid := "uuid-1".
