(* ===== verification/System.v ===== *)
(** * The store as a whole: what holds after any sequence of requests

    Every entry point modelled elsewhere is a [Request]; [serve] runs it the way the application does (an
    HTTP handler inside [get_db], a background job with its own sessions), and [run] serves requests
    one after another on the shared database. While a request talks to a payment provider, other work
    may commit: that is part of the provider's calls. The theorems hold after any sequence of requests. *)

From S2P Require Import Prelude Decimal Errors Money GstCalc Schema Guards GatewayGuards Evolution GstStates Invoice Repositories Lifecycle Payments.
From S2P Require Import Cart Coupons Tax Checkout Jobs Returns Shipments Accounts Roles Graphql Images Categories Products Variants TaxAdmin Gateways StoreFront Addresses Reviews Demo.

Local Open Scope string_scope.
Local Open Scope list_scope.
Local Open Scope Z_scope.

(** Requests about accounts and the staff, and the jobs that send account emails. *)
Inductive AccountRequest :=
  | Register (username email password : string) (guest : option string)
  | Login (email password : string) (guest : option string)
  | Refresh (token : string)
  | Logout (token : string)
  | ForgotPassword (email : string)
  | ResetPassword (token new_password : string)
  | ChangePassword (credentials current_password new_password : string)
  | SendVerification (credentials : string)
  | VerifyEmail (token : string)
  | ChangeEmail (credentials new_email password : string)
  | ConfirmEmailChange (token : string)
  | UpdateUser (user : uuid) (payload : UserUpdate) (credentials : string)
  | DeactivateUser (user : uuid) (credentials : string)
  | Graphql (authorization : option string) (fields : list Field)
  | ListRoles (credentials : string)
  | CreateRole (credentials name : string) (description : option string) (permissions : list Permission)
  | UpdateRole (credentials : string) (role : uuid) (name : option string) (description : option (option string))
      (permissions : option (list Permission))
  | DeleteRole (credentials : string) (role : uuid)
  | AssignRole (credentials : string) (user role : uuid)
  | PasswordResetJob (payload : json)
  | VerificationJob (payload : json)
  | EmailChangeJob (payload : json)
  | NoticeJob (payload : json).

(** Requests of a signed-in customer about their addresses, reviews and wishlist; texts as they are sent. *)
Inductive CustomerRequest :=
  | NewAddress (credentials : string) (payload : AddressCreate)
  | ChangeAddress (credentials : string) (address : Z) (payload : AddressUpdate)
  | RemoveAddress (credentials : string) (address : Z)
  | WriteReview (credentials : string) (product rating : Z) (title body : option string)
  | EditReview (credentials : string) (product : Z) (rating : option (option Z)) (title body : option (option string))
  | RemoveReview (credentials : string) (product : Z)
  | ModerateReview (credentials : string) (review : Z) (payload : ReviewModeration)
  | DeleteReview (credentials : string) (review : Z)
  | Save (credentials : string) (product : Z)
  | Unsave (credentials : string) (product : Z).

(** Requests of the staff about the catalogue. *)
Inductive CatalogueRequest :=
  | CreateCategory (credentials name : string) (description : option string)
  | UpdateCategory (credentials : string) (category : Z) (name description : option string) (is_active : option bool)
  | DeactivateCategory (credentials : string) (category : Z)
  | CategoryImage (credentials : string) (category : Z) (image : option UploadFile)
  | CreateProduct (credentials : string) (payload : ProductCreate)
  | UpdateProduct (credentials : string) (product : Z) (payload : ProductUpdate)
  | ArchiveProduct (credentials : string) (product : Z)
  | ProductImage (credentials : string) (product : Z) (image : option UploadFile)
  | SetOptions (credentials : string) (product : Z) (options : list (string * list string))
  | AddValue (credentials : string) (product option : Z) (value : string)
  | RenameValue (credentials : string) (product value_id : Z) (value : string)
  | DeleteValue (credentials : string) (product value_id : Z)
  | CreateVariants (credentials : string) (product : Z) (variants : list VariantSpec)
  | UpdateVariant (credentials : string) (product variant : Z) (patch : VariantPatch)
  | DeleteVariant (credentials : string) (product variant : Z)
  | AdjustStock (credentials : string) (product : Z) (variant : option Z) (target : StockTarget) (reason : string)
  | Convert (credentials : string) (product : Z) (options : list (string * list string)) (variants : list VariantSpec)
      (expected_stock : Z) (reason : string).

(** Requests of the staff about the tax masters. *)
Inductive TaxationRequest :=
  | CreateClassification (credentials : string) (payload : ClassificationCreate)
  | UpdateClassification (credentials : string) (classification : Z) (payload : ClassificationUpdate)
  | ApproveClassification (credentials : string) (classification : Z) (note : option string)
  | RetireClassification (credentials : string) (classification : Z)
  | CreateRule (credentials : string) (payload : RuleCreate)
  | UpdateRule (credentials : string) (rule : Z) (payload : RuleUpdate)
  | ApproveRule (credentials : string) (rule : Z) (note : option string)
  | CloseRule (credentials : string) (rule effective_to : Z)
  | RetireRule (credentials : string) (rule : Z)
  | CreateRegistration (credentials : string) (payload : RegistrationCreate)
  | UpdateRegistration (credentials : string) (registration : Z) (payload : RegistrationUpdate)
  | ApproveRegistration (credentials : string) (registration : Z) (note : option string)
  | RetireRegistration (credentials : string) (registration : Z)
  | CreateTaxSettings (credentials : string) (payload : SettingsCreate)
  | UpdateTaxSettings (credentials : string) (settings : Z) (payload : SettingsUpdate)
  | ApproveTaxSettings (credentials : string) (settings : Z) (note : option string)
  | RetireTaxSettings (credentials : string) (settings : Z).

(** Requests of the staff about payment gateways, the payment mode and the store currency. *)
Inductive GatewayRequest :=
  | NewGateway (credentials : string) (payload : ProviderConfigCreate)
  | Rotate (credentials : string) (config : uuid) (new : option CredentialsInput) (webhook_secret : option string)
  | Validate (credentials : string) (config : uuid)
  | CheckGateway (credentials : string) (config : uuid)
  | PublishableKey (credentials : string) (config : uuid) (key : string)
  | SetCurrencies (credentials : string) (config : uuid) (currencies : list string)
  | Enable (credentials : string) (config : uuid)
  | Disable (credentials : string) (config : uuid)
  | Prefer (credentials : string) (config : uuid)
  | Attest (credentials : string) (config : uuid) (payload : AttestationKind * string)
  | RetireSecret (credentials : string) (config : uuid)
  | ShowOverview (credentials : string)
  | EnableDemo (credentials : string) (confirm_no_real_money : bool)
  | DisableDemo (credentials : string)
  | ActivateLive (credentials : string) (config : uuid) (confirmation : string) (note : option string)
  | DeactivateLive (credentials reason : string)
  | SetStoreCurrency (credentials currency : string).

Inductive Request :=
  | Account (request : AccountRequest)
  | Customer (request : CustomerRequest)
  | Catalog (request : CatalogueRequest)
  | Taxation (request : TaxationRequest)
  | Gateway (request : GatewayRequest)
  | WebhookArrives (provider : option string) (payload : string) (signature : option string)
  | Clock (seconds : Z)
  | Checkout (q : CheckoutRequest)
  | AddItem (user : option uuid) (guest : option string) (product variant : option Z) (quantity : Z)
  | UpdateItem (user : option uuid) (guest : option string) (item quantity : Z)
  | RemoveItem (user : option uuid) (guest : option string) (item : Z)
  | ClearCart (user : option uuid) (guest : option string)
  | MergeCarts (user : uuid) (guest : string)
  | CancelOrder (order : uuid) (actor : option uuid) (source reason : string)
  | ChangeStatus (order : uuid) (status : OrderStatus) (admin : uuid)
  | CreatePayment (order : uuid) (user : option uuid) (token : option string)
  | Webhook (event : WebhookEvent)
  | RequestRefund (order admin : uuid) (payment : option uuid) (cancels_order : bool)
  | ResolveReconciliation (record admin : uuid) (resolution note : string)
  | RefundFromReconciliation (record admin : uuid)
  | CreateCoupon (coupon : Coupon) (admin : uuid)
  | UpdateCoupon (coupon : Z) (changes : list CouponChange) (admin : uuid)
  | DeleteCoupon (coupon : Z) (admin : uuid)
  | RequestReturn (user order : uuid) (payload : ReturnCreate)
  | CancelReturn (user ret : uuid)
  | ApproveReturn (ret admin : uuid) (note : option string)
  | RejectReturn (ret admin : uuid) (reason : string)
  | ReceiveReturn (ret admin : uuid) (payload : list ReceiveItem)
  | RefundReturn (ret admin : uuid)
  | CloseReturn (ret admin : uuid) (resolution note : string)
  | AddShipment (order : uuid) (payload : ShipmentCreate) (admin : uuid)
  | ChangeShipment (order shipment : uuid) (payload : ShipmentUpdate) (admin : uuid)
  | RemoveShipment (order shipment admin : uuid)
  | SweepJob
  | ExpireJob (order : uuid)
  | RefundJob (refund : uuid)
  | ReprocessJob
  | ScheduleJobs (schedules : list (string * Z)).

Section system.
Context `{!Settings} `{!Crypto} `{!Providers} `{!Store}.
Context `{!AccountSettings} `{!Passwords} `{!Jwt} `{!Mailer} `{!CatalogueSettings} `{!Storage} `{!TaxAdminSettings} `{!Secrets}.

Definition http {A} (m : M A) : M unit := get_db (_ ← m; mret tt).
Definition job {A} (m : M A) : M unit := _ ← m; mret tt.

Definition serve_account (r : AccountRequest) : M unit :=
  match r with
  | Register u e p g => http (register_endpoint u e p g)
  | Login e p g => http (login_endpoint e p g)
  | Refresh t => http (refresh t)
  | Logout t => http (logout t)
  | ForgotPassword e => http (request_password_reset e)
  | ResetPassword t p => http (reset_password t p)
  | ChangePassword c p q => http (change_password_endpoint c p q)
  | SendVerification c => http (send_verification_endpoint c)
  | VerifyEmail t => http (verify_email t)
  | ChangeEmail c e p => http (change_email_endpoint c e p)
  | ConfirmEmailChange t => http (confirm_email_change t)
  | UpdateUser u p c => http (update_user_endpoint u p c)
  | DeactivateUser u c => http (deactivate_user_endpoint u c)
  | Graphql a l => http (graphql_endpoint a l)
  | ListRoles c => http (list_roles_endpoint c)
  | CreateRole c n d p => http (create_role_endpoint c n d p)
  | UpdateRole c r n d p => http (update_role_endpoint c r n d p)
  | DeleteRole c r => http (delete_role_endpoint c r)
  | AssignRole c u r => http (assign_role_endpoint c u r)
  | PasswordResetJob p => job (send_password_reset p)
  | VerificationJob p => job (send_email_verification p)
  | EmailChangeJob p => job (send_email_change p)
  | NoticeJob p => job (send_account_notice p)
  end.

(** A body that does not pass its schema is refused before anything runs. *)
Definition validated {A} (payload : option A) (k : A → M unit) : M unit := match payload with Some p => k p | None => mret tt end.
Definition serve_customer (r : CustomerRequest) : M unit :=
  match r with
  | NewAddress c p => http (create_address_endpoint c p)
  | ChangeAddress c a p => http (update_address_endpoint c a p)
  | RemoveAddress c a => http (delete_address_endpoint c a)
  | WriteReview c p n t b => validated (parse_review n t b) (λ x, http (create_review_endpoint c p x))
  | EditReview c p n t b => validated (parse_review_update n t b) (λ x, http (update_my_review c p x))
  | RemoveReview c p => http (delete_my_review c p)
  | ModerateReview c r p => http (moderate_review c r p)
  | DeleteReview c r => http (delete_review_endpoint c r)
  | Save c p => http (add_to_wishlist c p)
  | Unsave c p => http (remove_from_wishlist c p)
  end.
Definition serve_catalogue (r : CatalogueRequest) : M unit :=
  match r with
  | CreateCategory c n t => http (create_category_endpoint c n t)
  | UpdateCategory c i n t a => http (update_category_endpoint c i n t a)
  | DeactivateCategory c i => http (deactivate_category_endpoint c i)
  | CategoryImage c i (Some f) => http (upload_category_image_endpoint c i f)
  | CategoryImage c i None => http (delete_category_image_endpoint c i)
  | CreateProduct c p => http (create_product_endpoint c p)
  | UpdateProduct c i p => http (update_product_endpoint c i p)
  | ArchiveProduct c i => http (archive_product_endpoint c i)
  | ProductImage c i (Some f) => http (upload_product_image_endpoint c i f)
  | ProductImage c i None => http (delete_product_image_endpoint c i)
  | SetOptions c i l => validated (parse_options 0 l) (λ x, http (set_options_endpoint c i x))
  | AddValue c i o v => validated (parse_value v) (λ x, http (add_option_value c i o x))
  | RenameValue c i v t => validated (parse_value t) (λ x, http (rename_option_value c i v x))
  | DeleteValue c i v => http (delete_option_value_endpoint c i v)
  | CreateVariants c i l => http (create_variants_endpoint c i l)
  | UpdateVariant c i v p => http (update_variant_endpoint c i v p)
  | DeleteVariant c i v => http (delete_variant_endpoint c i v)
  | AdjustStock c i (Some v) n t => validated (parse_adjust n t) (λ x, http (adjust_variant_stock c i v x))
  | AdjustStock c i None n t => validated (parse_adjust n t) (λ x, http (adjust_product_stock c i x))
  | Convert c i o l n t =>
      validated (parse_options 1 o) (λ o, validated (parse_convert o l n t) (λ x, http (convert_endpoint c i x)))
  end.

Definition serve_taxation (r : TaxationRequest) : M unit :=
  match r with
  | CreateClassification c p => validated (validate classification_create_ok p) (λ x, http (create_classification_endpoint c x))
  | UpdateClassification c i p => validated (validate classification_update_ok p) (λ x, http (update_classification_endpoint c i x))
  | ApproveClassification c i n => http (approve_classification_endpoint c i n)
  | RetireClassification c i => http (retire_classification_endpoint c i)
  | CreateRule c p => validated (validate rule_create_ok p) (λ x, http (create_rule_endpoint c x))
  | UpdateRule c i p => validated (validate rule_update_ok p) (λ x, http (update_rule_endpoint c i x))
  | ApproveRule c i n => http (approve_rule_endpoint c i n)
  | CloseRule c i u => http (close_rule_endpoint c i u)
  | RetireRule c i => http (retire_rule_endpoint c i)
  | CreateRegistration c p => validated (parse_registration p) (λ x, http (create_registration_endpoint c x))
  | UpdateRegistration c i p => validated (validate registration_update_ok p) (λ x, http (update_registration_endpoint c i x))
  | ApproveRegistration c i n => http (approve_registration_endpoint c i n)
  | RetireRegistration c i => http (retire_registration_endpoint c i)
  | CreateTaxSettings c p => validated (validate settings_create_ok p) (λ x, http (create_settings_endpoint c x))
  | UpdateTaxSettings c i p => validated (validate settings_update_ok p) (λ x, http (update_settings_endpoint c i x))
  | ApproveTaxSettings c i n => http (approve_settings_endpoint c i n)
  | RetireTaxSettings c i => http (retire_settings_endpoint c i)
  end.

Definition serve_gateways (r : GatewayRequest) : M unit :=
  match r with
  | NewGateway c p => validated (validate config_create_ok p) (λ x, http (create_provider_config c x))
  | Rotate c i k w => http (rotate_credentials c i k w)
  | Validate c i => http (validate_provider c i)
  | CheckGateway c i => http (check_provider c i)
  | PublishableKey c i k => validated (validate publishable_key_ok k) (λ x, http (set_publishable_key_endpoint c i x))
  | SetCurrencies c i l => validated (validate currencies_update_ok l) (λ x, http (set_provider_currencies c i x))
  | Enable c i => http (enable_provider c i)
  | Disable c i => http (disable_provider c i)
  | Prefer c i => http (prefer_provider c i)
  | Attest c i p => validated (validate attestation_ok p) (λ x, http (record_attestation c i x))
  | RetireSecret c i => http (retire_previous_secret_endpoint c i)
  | ShowOverview c => http (payments_overview c)
  | EnableDemo c b => http (enable_demo_mode c b)
  | DisableDemo c => http (disable_demo_mode c)
  | ActivateLive c i t n => validated (validate live_note_ok n) (λ x, http (activate_live_payments c i t x))
  | DeactivateLive c t => validated (validate live_reason_ok t) (λ x, http (deactivate_live_payments c x))
  | SetStoreCurrency c t => validated (validate (length_between 3 3) t) (λ x, http (set_store_currency c x))
  end.

Definition serve (r : Request) : M unit :=
  match r with
  | Account r => serve_account r
  | Customer r => serve_customer r
  | Catalog r => serve_catalogue r
  | Taxation r => serve_taxation r
  | Gateway r => serve_gateways r
  | WebhookArrives p b g => http (webhook_endpoint p b g)
  | Clock n => modify (λ s, s <| st_now := st_now s + Z.max n 0 |>)
  | Checkout q => job (checkout_endpoint q)
  | AddItem u g p v n => http (add_item u g p v n)
  | UpdateItem u g i n => http (update_item_quantity u g i n)
  | RemoveItem u g i => http (remove_item u g i)
  | ClearCart u g => http (clear_cart u g)
  | MergeCarts u g => http (merge_guest_cart_into_user u g)
  | CancelOrder o a src why => http (cancel_order o a src why)
  | ChangeStatus o st a => http (admin_change_status o st a)
  | CreatePayment o u t => http (create_payment_for_order o u t)
  | Webhook e => http (handle_webhook e)
  | RequestRefund o a p c => http (payment_request_refund o a p c)
  | ResolveReconciliation r a res note => http (resolve_reconciliation r a res note)
  | RefundFromReconciliation r a => http (refund_from_reconciliation r a)
  | CreateCoupon c a => http (create_coupon c a)
  | UpdateCoupon c ch a => http (update_coupon c ch a)
  | DeleteCoupon c a => http (delete_coupon c a)
  | RequestReturn u o p => http (create_return u o p)
  | CancelReturn u r => http (cancel_return u r)
  | ApproveReturn r a n => http (approve_return r a n)
  | RejectReturn r a n => http (reject_return r a n)
  | ReceiveReturn r a l => http (receive_return r a l)
  | RefundReturn r a => http (refund_return r a)
  | CloseReturn r a res n => http (close_return r a res n)
  | AddShipment o p a => http (create_shipment o p a)
  | ChangeShipment o x p a => http (update_shipment o x p a)
  | RemoveShipment o x a => http (delete_shipment o x a)
  | SweepJob => job sweep_stale_orders
  | ExpireJob o => job (expire_order o)
  | RefundJob r => job (execute_refund r)
  | ReprocessJob => job reprocess_deferred_events
  | ScheduleJobs l => job (enqueue_due l)
  end.

Definition run (rs : list Request) (s : St) : St := foldl (λ s r, (serve r s).2) s rs.

Context `{!ProvidersOk} `{!MailerOk} `{!StorageOk}.

Lemma guar_http {A} (m : M A) : guar step m → guar step (http m).
Proof. intros Hm. apply guar_get_db, guar_bind; [apply _|done|intros; apply guar_ret, _]. Qed.
Lemma guar_job {A} (m : M A) : guar step m → guar step (job m).
Proof. intros Hm. apply guar_bind; [apply _|done|intros; apply guar_ret, _]. Qed.

Lemma guar_serve_account r : guar step (serve_account r).
Proof. destruct r; cbn [serve_account]; (apply guar_http || apply guar_job); auto with guar nocore. Qed.
Lemma guar_validated {A} (p : option A) k : (∀ x, guar step (k x)) → guar step (validated p k).
Proof. intros Hk. destruct p; [apply Hk|apply guar_ret, _]. Qed.
Lemma guar_serve_customer r : guar step (serve_customer r).
Proof.
  destruct r; cbn [serve_customer]; try (apply guar_validated; intros ?); apply guar_http; auto with guar nocore.
Qed.
Lemma guar_serve_catalogue r : guar step (serve_catalogue r).
Proof.
  destruct r; cbn [serve_catalogue]; try destruct image; try destruct variant;
    repeat (apply guar_validated; intros ?); apply guar_http; auto with guar nocore.
Qed.
Lemma guar_serve_taxation r : guar step (serve_taxation r).
Proof. destruct r; cbn [serve_taxation]; try (apply guar_validated; intros ?); apply guar_http; auto with guar nocore. Qed.
Lemma guar_serve_gateways r : guar step (serve_gateways r).
Proof.
  destruct r; cbn [serve_gateways]; try (apply guar_validated; intros ?); apply guar_http;
    solve [eauto 3 with guar typeclass_instances nocore].
Qed.
Lemma guar_serve r : guar step (serve r).
Proof.
  destruct r; cbn [serve];
    [apply guar_serve_account
    |apply guar_serve_customer
    |apply guar_serve_catalogue
    |apply guar_serve_taxation
    |apply guar_serve_gateways
    |apply guar_http, guar_webhook_endpoint
    |by apply guar_other
    |apply guar_job, guar_checkout_endpoint
    |apply guar_http, guar_add_item
    |apply guar_http, guar_update_item_quantity
    |apply guar_http, guar_remove_item
    |apply guar_http, guar_clear_cart
    |apply guar_http, guar_merge
    |apply guar_http, guar_cancel_order
    |apply guar_http, guar_admin_change_status
    |apply guar_http, guar_create_payment_for_order
    |apply guar_http, guar_handle_webhook
    |apply guar_http, guar_payment_request_refund
    |apply guar_http, guar_resolve_reconciliation
    |apply guar_http, guar_refund_from_reconciliation
    |apply guar_http, guar_create_coupon
    |apply guar_http, guar_update_coupon
    |apply guar_http, guar_delete_coupon
    |apply guar_http, guar_create_return
    |apply guar_http, guar_cancel_return
    |apply guar_http, guar_approve_return
    |apply guar_http, guar_reject_return
    |apply guar_http, guar_receive_return
    |apply guar_http, guar_refund_return
    |apply guar_http, guar_close_return
    |apply guar_http, guar_create_shipment
    |apply guar_http, guar_update_shipment
    |apply guar_http, guar_delete_shipment
    |apply guar_job, guar_sweep
    |apply guar_job, guar_expire
    |apply guar_job, guar_execute_refund
    |apply guar_job, guar_reprocess
    |apply guar_job, guar_enqueue_due].
Qed.

Lemma run_step rs s : step s (run rs s).
Proof.
  revert s. induction rs as [|r rs IH]; intros s; [reflexivity|]. cbn. etrans; [apply (guar_serve r)|apply IH].
Qed.
Lemma run_sound rs s : sound s → sound (run rs s) ∧ evolves (st_committed s) (st_committed (run rs s)).
Proof. apply run_step. Qed.
End system.

(** ** Properties *)

(** The trigger of the database and the service's table allow the same transitions. *)
Lemma transitions_agree a b : guard_transition a b = true ↔ b ∈ ALLOWED_TRANSITIONS a.
Proof. destruct a, b; cbn; split; intros H; try done; set_solver. Qed.

Definition allowed_step (a b : OrderStatus) : Prop := b ∈ ALLOWED_TRANSITIONS a.
Lemma allowed_path a b : rtc status_step a b → rtc allowed_step a b.
Proof. apply rtc_subrel. intros x y. apply transitions_agree. Qed.

Section properties.
Context `{!Settings} `{!Crypto} `{!Providers} `{!Store} `{!AccountSettings} `{!Passwords} `{!Jwt} `{!Mailer} `{!CatalogueSettings} `{!Storage} `{!TaxAdminSettings} `{!Secrets}.
Context `{!ProvidersOk} `{!MailerOk} `{!StorageOk}.

(** C1. Whatever is requested and in whatever order, an order once placed is still there, its status has only
    moved along the allowed transitions, what it was placed with (customer, key, amounts, coupon) is
    unchanged, its currency stays once set, and its stock is released at most once. *)
Theorem orders_follow_lifecycle rs s k o :
  sound s → d_orders (st_committed s) !! k = Some o →
  ∃ o', d_orders (st_committed (run rs s)) !! k = Some o' ∧
    rtc allowed_step (o_status o) (o_status o') ∧ order_facts o' = order_facts o ∧
    (o_currency o ≠ None → o_currency o' = o_currency o) ∧
    (o_stock_released_at o ≠ None → o_stock_released_at o' = o_stock_released_at o).
Proof.
  intros Hs Hk. destruct (run_sound rs s Hs) as [_ He]. destruct (evo_orders _ _ He k o Hk) as (o' & Hk' & [Hst Hrel Hcur Hf]).
  exists o'. split_and!; auto using allowed_path.
Qed.

(** C2. At every moment the refunds of a payment that are requested, pending, uncertain or confirmed add up
    to at most what was paid. *)
Theorem refunds_within_payment rs s k p :
  sound s → d_payments (st_committed (run rs s)) !! k = Some p →
  0 ≤ committed_of (st_committed (run rs s)) k ≤ pay_amount_cents p.
Proof.
  intros Hs Hk. destruct (run_sound rs s Hs) as [(_ & HI & _) _]. split; [|by eapply inv_refunds].
  apply sum_kv_nonneg. intros rk r Hr. destruct (inv_refund_rows _ HI _ _ Hr). destruct (_ && _); lia.
Qed.

(** C3. At every moment no stock is negative, and the stock of every product and variant is what the ledger
    of movements adds up to. *)
Theorem stock_matches_ledger rs s :
  sound s →
  (∀ k p, d_products (st_committed (run rs s)) !! k = Some p →
     0 ≤ p_stock p ∧ p_stock p = ledger_balance (st_committed (run rs s)) k None) ∧
  (∀ k v, d_variants (st_committed (run rs s)) !! k = Some v →
     0 ≤ pv_stock v ∧ pv_stock v = ledger_balance (st_committed (run rs s)) (pv_product_id v) (Some k)).
Proof.
  intros Hs. destruct (run_sound rs s Hs) as [(_ & HI & _) _]. split; intros; [by eapply inv_products|by eapply inv_variants].
Qed.

(** C4. At every moment a cancelled order has had its stock released, a refunded order has a refund the
    provider confirmed, and no order line was put back in stock beyond what was bought, each unit of it
    accounted for by a recorded restock event. *)
Theorem closed_orders_accounted rs s :
  sound s →
  let d := st_committed (run rs s) in
  (∀ k o, d_orders d !! k = Some o → o_status o = CANCELLED → o_stock_released_at o ≠ None) ∧
  (∀ k o, d_orders d !! k = Some o → o_status o = REFUNDED →
     ∃ rk r, d_refunds d !! rk = Some r ∧ r_order_id r = k ∧ r_status r = RefSucceeded) ∧
  (∀ k i, d_items d !! k = Some i →
     0 ≤ oi_restocked_quantity i ≤ oi_quantity i ∧ oi_restocked_quantity i = restocked_of d k).
Proof.
  intros Hs. destruct (run_sound rs s Hs) as [(_ & HI & _) _]. cbv zeta.
  split_and!; intros; [by eapply inv_cancelled|by eapply inv_refunded|by eapply inv_items].
Qed.

(** Records are never rewritten: histories, stock movements and audit entries only grow, invoices and
    restock events stay as issued, a payment, a refund and a dispute stay about what they were opened
    for, and a final refund, a final dispute, a resolved reconciliation and a handled webhook event stay
    as they ended. *)
Theorem records_are_kept rs s :
  sound s →
  let d := st_committed s in let d' := st_committed (run rs s) in
  d_history d `prefix_of` d_history d' ∧ d_movements d `prefix_of` d_movements d' ∧ d_audit d `prefix_of` d_audit d' ∧
  d_invoices d ⊆ d_invoices d' ∧ d_restocks d ⊆ d_restocks d' ∧
  (∀ k p, d_payments d !! k = Some p → ∃ p', d_payments d' !! k = Some p' ∧ payment_facts p' = payment_facts p) ∧
  (∀ k r, d_refunds d !! k = Some r → ∃ r', d_refunds d' !! k = Some r' ∧ refund_facts r' = refund_facts r ∧
     (r_status r ∈ [RefSucceeded; RefFailed] → r_status r' = r_status r)) ∧
  (∀ k x, d_disputes d !! k = Some x → ∃ x', d_disputes d' !! k = Some x' ∧ dispute_facts x' = dispute_facts x ∧
     (di_status x ∈ [DispWon; DispLost; DispClosed] → di_status x' = di_status x)) ∧
  (∀ k c, d_reconciliations d !! k = Some c → ∃ c', d_reconciliations d' !! k = Some c' ∧ (rc_open c = false → rc_open c' = false)) ∧
  (∀ k e, d_events d !! k = Some e → ∃ e', d_events d' !! k = Some e' ∧
     (we_status e ∈ [EvProcessed; EvIgnored] → we_status e' ∈ [EvProcessed; EvIgnored])).
Proof.
  intros Hs. destruct (run_sound rs s Hs) as [_ []]. cbv zeta. split_and!; try done.
  - intros k r Hk. destruct (evo_refunds k r Hk) as (r' & ? & ? & Hfin). exists r'. split_and!; [done..|].
    intros Hr. apply Hfin, bool_decide_eq_true. set_solver.
  - intros k x Hk. destruct (evo_disputes k x Hk) as (x' & ? & ? & Hfin). exists x'. split_and!; [done..|].
    intros Hx. by apply Hfin, bool_decide_eq_true.
  - intros k c Hk. destruct (evo_reconciliations k c Hk) as (c' & ? & _ & _ & _ & _ & ?). eauto.
  - intros k e Hk. destruct (evo_events k e Hk) as (e' & ? & Hd). exists e'. split; [done|].
    intros He. assert (event_done (we_status e') = true) as Hd'%bool_decide_eq_true; [|set_solver].
    apply Hd, bool_decide_eq_true. set_solver.
Qed.
(** C5. At every moment no order line is part of returns for more units than were bought, counting every return
    that was not rejected or cancelled; no more units of a returned line came back than were asked for, and no
    more were put back in stock than came back. *)
Theorem returns_within_purchase rs s :
  sound s →
  let d := st_committed (run rs s) in
  (∀ k i, d_items d !! k = Some i → returned_of d k ≤ oi_quantity i) ∧
  (∀ k x, d_return_items d !! k = Some x →
     0 ≤ ri_restocked_quantity x ≤ default 0 (ri_received_quantity x) ∧ default 0 (ri_received_quantity x) ≤ ri_quantity x).
Proof.
  intros Hs. destruct (run_sound rs s Hs) as [(_ & HI & _) _]. cbv zeta. split; intros k x Hx; [by eapply inv_returned|].
  by destruct (inv_return_items _ HI _ _ Hx) as (_ & _ & ? & ?).
Qed.

(** A return once requested is still there, about the same order, customer and units; its status has only moved
    along the life of a return, and a return that was rejected, cancelled or closed stays exactly as it ended. *)
Theorem returns_follow_life rs s k r :
  sound s → d_returns (st_committed s) !! k = Some r →
  ∃ r', d_returns (st_committed (run rs s)) !! k = Some r' ∧ return_facts r' = return_facts r ∧
    rtc return_step (rt_status r) (rt_status r') ∧ (rt_status r ∈ ["rejected"; "cancelled"; "closed"] → r' = r).
Proof.
  intros Hs Hk. destruct (run_sound rs s Hs) as [_ He]. destruct (evo_returns _ _ He _ _ Hk) as (r' & Hk' & Hf & Hst & Hfin).
  exists r'. split_and!; [done..|]. intros Hend. apply Hfin.
  by apply elem_of_cons in Hend as [->|Hend]; [|apply elem_of_cons in Hend as [->| ->%list_elem_of_singleton]].
Qed.
End properties.

(** ** Witnesses: a day in the store *)

(** Alice orders, starts a payment which succeeds, the payment is refunded and the order with it; the guest
    orders and cancels nothing. *)
Definition succeeded_event (ppid : string) (amount : Z) : WebhookEvent :=
  MkEvent "evt_1" SUCCEEDED_EVENT ppid (Some amount) (Some amount) (Some "inr") None None None None None "stripe" None None.
Definition a_day : list Request :=
  [ Checkout (alice_request "k1" None); CreatePayment "uuid-1" (Some "alice") None;
    Webhook (succeeded_event "pi_order:uuid-1:intent:0" 129800); Checkout (guest_request "k2");
    RequestRefund "uuid-1" "admin" None true; RefundJob "uuid-5"; SweepJob; ReprocessJob ].
Definition evening : St := run a_day demo_state.

(** The week after: Alice's order is paid and shipped, she sends one mug back. *)
Definition a_week : list Request :=
  [ Checkout (alice_request "k1" None); CreatePayment "uuid-1" (Some "alice") None;
    Webhook (succeeded_event "pi_order:uuid-1:intent:0" 129800);
    AddShipment "uuid-1" (MkShipmentCreate "Blue Dart" (Some "BD-100200") None true) "admin"; Clock 86400;
    RequestReturn "alice" "uuid-1" (MkReturnCreate [MkReturnLine 100 1 "damaged"] None);
    ApproveReturn "uuid-4" "admin" None; ReceiveReturn "uuid-4" "admin" [MkReceive 100 1 true None] ].
Definition weekend : St := run a_week demo_state.

Lemma ordered_sound : sound ordered.
Proof. apply (guar_checkout_endpoint (alice_request "k1" None) demo_state), demo_sound. Qed.

Definition no_order : Order :=
  MkOrder "" None None None None None PENDING "" None 0 false 0 None None JNull 0 0 0 None None JNull JNull [] 0.
Definition alice_order : Order := default no_order (d_orders (st_committed ordered) !! order_1).
Definition no_payment : Payment := MkPayment "" "" "" None None "" PayPending 0 "" None None 0.
Definition alice_payment : Payment := default no_payment (d_payments (st_committed evening) !! "uuid-2").

Lemma orders_follow_lifecycle_witness :
  ∃ o', d_orders (st_committed (run (tail a_day) ordered)) !! order_1 = Some o' ∧
    rtc allowed_step (o_status alice_order) (o_status o') ∧ order_facts o' = order_facts alice_order ∧
    (o_currency alice_order ≠ None → o_currency o' = o_currency alice_order) ∧
    (o_stock_released_at alice_order ≠ None → o_stock_released_at o' = o_stock_released_at alice_order).
Proof. apply orders_follow_lifecycle; [exact ordered_sound|vm_compute; reflexivity]. Defined.

Lemma refunds_within_payment_witness : 0 ≤ committed_of (st_committed evening) "uuid-2" ≤ 129800.
Proof.
  refine (refunds_within_payment a_day demo_state "uuid-2" alice_payment demo_sound _). vm_compute. reflexivity.
Defined.

Lemma stock_matches_ledger_witness :
  0 ≤ p_stock (default mug (d_products (st_committed evening) !! 1)) ∧
  p_stock (default mug (d_products (st_committed evening) !! 1)) = ledger_balance (st_committed evening) 1 None.
Proof.
  refine (proj1 (stock_matches_ledger a_day demo_state demo_sound) 1 (default mug (d_products (st_committed evening) !! 1)) _).
  vm_compute. reflexivity.
Defined.

Lemma closed_orders_accounted_witness :
  ∃ rk r, d_refunds (st_committed evening) !! rk = Some r ∧ r_order_id r = order_1 ∧ r_status r = RefSucceeded.
Proof.
  refine (proj1 (proj2 (closed_orders_accounted a_day demo_state demo_sound)) order_1
    (default no_order (d_orders (st_committed evening) !! order_1)) _ _); vm_compute; reflexivity.
Defined.

Lemma records_are_kept_witness : d_movements demo_db `prefix_of` d_movements (st_committed evening).
Proof. exact (proj1 (proj2 (records_are_kept a_day demo_state demo_sound))). Defined.

Lemma returns_within_purchase_witness :
  returned_of (st_committed weekend) 100 ≤ 2 ∧ returned_of (st_committed weekend) 100 = 1.
Proof.
  split; [|vm_compute; reflexivity].
  refine (proj1 (returns_within_purchase a_week demo_state demo_sound) 100
    (MkOrderItem 100 "uuid-1" 1 "Mug" 25000 2 None (Some "MUG") (Some "order") JNull 1 0) _).
  vm_compute. reflexivity.
Defined.

(** The state when the return was approved, and the return as it was then. *)
Definition approved_day : St := run (take 7 a_week) demo_state.
Definition approved_return : ReturnRequest :=
  MkReturn "uuid-4" "uuid-1" "alice" "approved" None None None None None None 1760086400 (Some 1760086400) None None (Some "admin").
Lemma approved_sound : sound approved_day.
Proof. apply (run_sound (take 7 a_week) demo_state demo_sound). Qed.
Lemma returns_follow_life_witness :
  ∃ r', d_returns (st_committed (run (drop 7 a_week) approved_day)) !! "uuid-4" = Some r' ∧ return_facts r' = return_facts approved_return ∧
    rtc return_step "approved" (rt_status r') ∧ ("approved" ∈ ["rejected"; "cancelled"; "closed"] → r' = approved_return).
Proof. refine (returns_follow_life (drop 7 a_week) approved_day "uuid-4" approved_return approved_sound _). vm_compute. reflexivity. Defined.
