(* ===== verification/LifecycleSpec.v ===== *)
(** * What the lifecycle operations do

    Refund requests, refund states reported by the provider, cancellation: the effects of the handlers of
    [Lifecycle], on every branch, with what they leave alone. *)

From S2P Require Import Prelude Decimal Errors Money GstCalc Schema Guards Evolution GstStates Invoice Repositories Frames Runs Lifecycle.
From S2P Require Import LifecycleFrames Payments Cart Coupons Tax Checkout Demo System.

Local Open Scope string_scope.
Local Open Scope list_scope.
Local Open Scope Z_scope.

(** ** What the provider says about a refund *)

(** No refund becomes succeeded. *)
Definition no_new_success (s s' : St) : Prop :=
  ∀ k r', d_refunds (st_db s') !! k = Some r' → r_status r' = RefSucceeded →
    ∃ r, d_refunds (st_db s) !! k = Some r ∧ r_status r = RefSucceeded.
#[export] Instance no_new_success_refl : Reflexive no_new_success.
Proof. intros s k r' ? ?. eauto. Qed.
#[export] Instance no_new_success_trans : Transitive no_new_success.
Proof. intros s1 s2 s3 H1 H2 k r3 Hr Hs. destruct (H2 k r3 Hr Hs) as (r2 & ? & ?). eauto. Qed.

Lemma no_new_success_frame ts s s' : only ts s s' → inb TRefunds ts = false → no_new_success s s'.
Proof. intros [Ht _] Hi k r' Hr Hs. specialize (Ht TRefunds Hi). cbn in Ht. rewrite Ht in Hr. eauto. Qed.
Lemma no_new_success_update k f :
  (∀ r, r_status (f r) = RefSucceeded → r_status r = RefSucceeded) → guar no_new_success (update_refund k f).
Proof.
  intros Hf s. destruct (update_refund k f s) as [[e|r'] s'] eqn:Hu; cbn.
  - unfold update_refund, gets, of_option, mbind, ST_bind in Hu; cbn in Hu.
    destruct (d_refunds (st_db s) !! k) as [r|]; cbn in Hu; [|by injection Hu as <- <-].
    destruct (first_violation _); cbn in Hu; [by injection Hu as <- <-|done].
  - apply update_refund_inr in Hu as (r & Hr & -> & ->). intros j x. rewrite db_set; cbn.
    intros [[<- <-]|[_ ?]]%lookup_insert_Some Hs; [|by eauto]. eauto.
Qed.

Lemma learn_ref_status ref r : r_status (learn_ref ref r) = r_status r.
Proof. unfold learn_ref. by destruct (truthy ref), (r_provider_refund_id r). Qed.

Section refund_states.
Context `{!Settings} `{!Providers}.

(** C24. Only a refund the provider confirms changes anything but the refund's own record: when the refund is
    already final, or the provider reports anything other than [succeeded], no order, payment, stock, invoice
    or history row changes, whatever else the event says, and no refund becomes succeeded. *)
Theorem refund_needs_confirmation r st amt cur ref s :
  refund_final (r_status r) = true ∨ st ≠ Some "succeeded" →
  let s' := (apply_refund_state r st amt cur ref s).2 in
  only [TRefunds; TReconciliations; TAudit] s s' ∧ no_new_success s s'.
Proof.
  intros Hc. cbv zeta. unfold apply_refund_state; cbv zeta.
  assert (opt_eqb st (Some "succeeded") = false ∨ refund_final (r_status r) = true) as Hb.
  { destruct Hc; [by right|left]. by apply opt_eqb_ne. }
  split; apply guar_run; apply guar_bind; [apply _| |intros u|apply _| |intros u].
  - solve_frame.
  - destruct (refund_final _); [solve_frame|]. destruct Hb as [->|]; [|done]. solve_frame.
  - intros s0. apply (no_new_success_frame [TReconciliations; TAudit]); [|done]. apply guar_run. solve_frame.
  - assert (guar no_new_success (_audit "refund.failed" "refund" (r_id r) None (JObj [("provider_status", j_opt JStr st)]))) as Ha.
    { intros s0. by eapply no_new_success_frame; [apply only_audit|]. }
    destruct (refund_final _) eqn:Hfin.
    { apply guar_bind; [apply _| |intros; apply guar_ret, _]. apply no_new_success_update. intros x. by rewrite learn_ref_status. }
    destruct Hb as [->|]; [|done]. destruct (_ || _).
    + apply guar_bind; [apply _| |done]. by apply no_new_success_update.
    + apply guar_bind; [apply _| |intros; apply guar_ret, _]. apply no_new_success_update. intros x.
      case_bool_decide; [done|]. by rewrite learn_ref_status.
Qed.
End refund_states.

(** What a confirmed refund adds up to on its payment, and whether it closes the order. *)
Definition refunded_total (p : Payment) (r : Refund) (amt : option Z) : Z :=
  default 0 (pay_refunded_amount_cents p) + or_Z amt (r_amount_cents r).
Definition closes_order (o : Order) (p : Payment) (r : Refund) (amt : option Z) : bool :=
  r_origin_requested r && (pay_amount_cents p <=? refunded_total p r amt) && bool_decide (o_status o = PAID ∨ o_status o = FULFILLED).

Lemma add_refunded_facts ref n p :
  pay_refunded_amount_cents (add_refunded ref n p) = Some (default 0 (pay_refunded_amount_cents p) + n) ∧
  pay_amount_cents (add_refunded ref n p) = pay_amount_cents p ∧
  pay_status (add_refunded ref n p) =
    if pay_amount_cents p <=? default 0 (pay_refunded_amount_cents p) + n then PayRefunded else pay_status p.
Proof.
  unfold add_refunded; cbv zeta. destruct ref as [ref|]; [destruct (String.eqb ref "")|]; cbn; by destruct (_ <=? _).
Qed.

(** The status of every order. *)
Definition statuses (s : St) : gmap uuid OrderStatus := o_status <$> d_orders (st_db s).
Lemma statuses_frame ts s s' : only ts s s' → inb TOrders ts = false → keeps statuses s s'.
Proof. intros [Ht _] Hi. specialize (Ht TOrders Hi). unfold keeps, statuses. cbn in Ht. by rewrite Ht. Qed.
Lemma statuses_guar {A} ts (m : M A) : guar (only ts) m → inb TOrders ts = false → guar (keeps statuses) m.
Proof. intros Hm Hi s. by eapply statuses_frame. Qed.
Lemma update_order_statuses k f : (∀ o, o_status (f o) = o_status o) → guar (keeps statuses) (update_order k f).
Proof.
  intros Hf s. destruct (update_order k f s) as [[e|o'] s'] eqn:Hu; cbn.
  - unfold update_order, gets, of_option, mbind, ST_bind in Hu; cbn in Hu.
    destruct (d_orders (st_db s) !! k) as [o|]; cbn in Hu; [|by injection Hu as <- <-].
    destruct (first_violation _); cbn in Hu; [by injection Hu as <- <-|done].
  - apply update_order_inr in Hu as (o & Ho & -> & -> & _). unfold keeps, statuses. rewrite db_set; cbn.
    rewrite fmap_insert, Hf. apply insert_id. by rewrite lookup_fmap, Ho.
Qed.
Lemma update_status_run o st u why o' s s' :
  update_status o st u why s = (inr o', s') → d_orders (st_db s) !! o_id o = Some o →
  o' = o <| o_status := st |> ∧ st_db s' = st_db s <| d_orders ::= <[o_id o := o']> |> <| d_history ::= λ l, l ++ [MkHistory (o_id o) (o_status o) st u why (st_now s)] |> ∧
  st_now s' = st_now s ∧ orders_lifecycle_guard (st_db s) o o' = None.
Proof.
  intros Hrun Ho. unfold update_status in Hrun. apply bind_inr in Hrun as (o1 & s1 & Hu & Hrun).
  apply update_order_inr in Hu as (o0 & Ho0 & -> & -> & Hg). assert (o0 = o) as -> by congruence.
  apply bind_inr in Hrun as (t & s2 & Ht & Hrun). apply now_inr in Ht as [-> ->].
  apply bind_inr in Hrun as (u1 & s2 & Hh & Hrun). apply insert_history_inr in Hh as ->. apply ret_inr in Hrun as [-> ->].
  by split_and!.
Qed.

Lemma lock_order_inr k o s s' : _lock_order k s = (inr o, s') → d_orders (st_db s) !! k = Some o ∧ s' = s.
Proof.
  unfold _lock_order. intros Hrun. apply bind_inr in Hrun as (x & s1 & Hq & Hrun). apply get_order_by_id_inr in Hq as [-> ->].
  by apply of_option_inr in Hrun as [? ->].
Qed.

Section confirmation.
Context `{!Settings} `{!Providers}.

Lemma restock_once_statuses o : guar (keeps statuses) (_restock_once o).
Proof.
  unfold _restock_once; cbv zeta.
  assert (∀ A k a r i (m : M A), guar (only [TProducts; TVariants; TMovements]) m → guar (keeps statuses) (stock_change k a r i m)) as Hst.
  { intros. eapply statuses_guar; [by apply only_stock_change|done]. }
  destruct (negb _); [apply guar_ret, _|].
  repeat first
    [ apply update_order_statuses; done | guar_step
    | solve [eapply (statuses_guar [TItems; TRestocks]); [solve_frames|done]]
    | solve [eapply (statuses_guar [TProducts; TVariants; TMovements]); [solve_frames|done]] ].
Qed.

(** The statuses after [refund_order], and what it leaves alone. *)
Lemma refund_order_run r o p s s' :
  refund_order r o p s = (inr tt, s') → d_orders (st_db s) !! o_id o = Some o →
  let closes := r_origin_requested r && (pay_amount_cents p <=? default 0 (pay_refunded_amount_cents p))
                && bool_decide (o_status o = PAID ∨ o_status o = FULFILLED) in
  statuses s' = (if closes then <[o_id o := REFUNDED]> (statuses s) else statuses s) ∧
  (closes && r_cancels_order r && bool_decide (o_status o = PAID) = false →
   only [TOrders; THistory; TInvoices; TSequences] s s').
Proof.
  intros Hrun Ho. unfold refund_order in Hrun. cbv zeta in *. destruct (_ && _ && _) eqn:Hc.
  2:{ apply ret_inr in Hrun as [_ ->]. done. }
  apply andb_true_iff in Hc as [_ Hst%bool_decide_eq_true].
  apply bind_inr in Hrun as (o1 & s1 & Hu & Hrun). apply bind_inr in Hrun as (note & s2 & Hn & Hrun).
  pose proof (frame_run _ _ _ _ _ (only_update_status _ _ _ _) Hu) as F1.
  pose proof (frame_run _ _ _ _ _ (only_issue_credit_note _) Hn) as F2.
  apply update_status_run in Hu as (-> & Hdb & _ & _); [|done].
  assert (statuses s2 = <[o_id o := REFUNDED]> (statuses s)) as H2.
  { rewrite (statuses_frame _ _ _ F2 eq_refl). unfold statuses. by rewrite Hdb; cbn; rewrite fmap_insert. }
  destruct (r_cancels_order r && _) eqn:Hcan.
  - apply bind_inr in Hrun as (b & s3 & Hr & Hrun). apply ret_inr in Hrun as [_ ->]. split.
    + rewrite <-H2. change (keeps statuses s2 s3). replace s3 with (_restock_once (o <| o_status := REFUNDED |>) s2).2 by by rewrite Hr.
      apply restock_once_statuses.
    + apply andb_true_iff in Hcan as [Hcan Hful%negb_true_iff%bool_decide_eq_false]. cbn. rewrite Hcan; cbn.
      rewrite bool_decide_eq_false. tauto.
  - apply ret_inr in Hrun as [_ ->]. split; [done|]. intros _.
    etrans; [eapply only_weaken; [exact F1|done]|eapply only_weaken; [exact F2|done]].
Qed.

Lemma add_refunded_amount_run k ref n p' s s' p :
  add_refunded_amount k ref n s = (inr p', s') → d_payments (st_db s) !! k = Some p →
  p' = add_refunded ref n p ∧ d_payments (st_db s') !! k = Some p' ∧ only [TPayments] s s'.
Proof.
  intros Hrun Hp. split; [|split; [|exact (frame_run _ _ _ _ _ (only_add_refunded_amount _ _ _) Hrun)]].
  all: apply update_payment_inr in Hrun as (p0 & Hp0 & -> & ->); assert (p0 = p) as -> by congruence.
  { done. }
  rewrite db_set; cbn. by rewrite lookup_insert_eq.
Qed.

(** What [_confirm_refund] leaves of the payment and of every order's status. *)
Lemma confirm_refund_run r ref amt s s' p o :
  _confirm_refund r ref amt s = (inr tt, s') → pay_id p = r_payment_id r → o_id o = r_order_id r →
  d_payments (st_db s) !! r_payment_id r = Some p → d_orders (st_db s) !! r_order_id r = Some o →
  let closes := closes_order o p r amt in
  (∃ p', d_payments (st_db s') !! r_payment_id r = Some p' ∧ pay_refunded_amount_cents p' = Some (refunded_total p r amt) ∧
     pay_status p' = if pay_amount_cents p <=? refunded_total p r amt then PayRefunded else pay_status p) ∧
  statuses s' = (if closes then <[r_order_id r := REFUNDED]> (statuses s) else statuses s) ∧
  d_refunds (st_db s') = d_refunds (st_db s) ∧
  (closes && r_cancels_order r && bool_decide (o_status o = PAID) = false →
   only [TPayments; TReconciliations; TAudit; TOrders; THistory; TInvoices; TSequences] s s').
Proof.
  intros Hrun Kp Ko Hp Ho. cbv zeta. unfold _confirm_refund in Hrun.
  apply bind_inr in Hrun as (o0 & s0 & Hl & Hrun). apply lock_order_inr in Hl as [Ho0 ->].
  rewrite Ho in Ho0; injection Ho0 as <-.
  apply bind_inr in Hrun as (fp & s1 & Hf & Hrun). apply get_payment_inr in Hf as [-> ->].
  apply bind_inr in Hrun as (p0 & s1 & Hf & Hrun). apply of_option_inr in Hf as [Hp0 ->].
  rewrite Hp in Hp0; injection Hp0 as <-.
  apply bind_inr in Hrun as (p' & s1 & Hadd & Hrun). rewrite Kp in Hadd.
  eapply add_refunded_amount_run in Hadd as (Ep' & Hp' & F1); [|done].
  apply bind_inr in Hrun as (disp & s2 & Hd & Hrun). apply db_gets_inr in Hd as [_ ->].
  apply bind_inr in Hrun as (u & s2 & Hrec & Hrun).
  assert (only [TReconciliations; TAudit] s1 s2) as F2. { eapply frame_run; [|exact Hrec]. solve_frame. }
  apply bind_inr in Hrun as ([] & s3 & Hro & Hau).
  pose proof (frame_run _ _ _ _ _ (only_refund_order _ _ _) Hro) as F3.
  apply (frame_run [TAudit]) in Hau; [|apply only_audit].
  destruct (add_refunded_facts ref (or_Z amt (r_amount_cents r)) p) as (R1 & R2 & R3). rewrite <-Ep' in R1, R2, R3.
  assert (d_orders (st_db s2) !! o_id o = Some o) as Ho2.
  { same_table TOrders F1 E1. same_table TOrders F2 E2. by rewrite E2, E1, Ko. }
  apply refund_order_run in Hro as [Hst Hq]; [|done]. cbv zeta in Hst, Hq. rewrite R2, R1 in Hst, Hq. cbn [default] in Hst, Hq.
  rewrite Ko in Hst.
  split; [|split; [|split]].
  - exists p'. split_and!; [|exact R1|by rewrite R3].
    same_table TPayments F2 E2. same_table TPayments F3 E3. same_table TPayments Hau E4. congruence.
  - rewrite (statuses_frame _ _ _ Hau eq_refl), Hst, (statuses_frame _ _ _ F2 eq_refl), (statuses_frame _ _ _ F1 eq_refl). done.
  - same_table TRefunds F1 E1. same_table TRefunds F2 E2. same_table TRefunds F3 E3. same_table TRefunds Hau E4. congruence.
  - intros Hc. specialize (Hq Hc).
    etrans; [eapply only_weaken; [exact F1|done]|]. etrans; [eapply only_weaken; [exact F2|done]|].
    etrans; [eapply only_weaken; [exact Hq|done]|eapply only_weaken; [exact Hau|done]].
Qed.
End confirmation.

(** What [_confirm_refund] reads of a refund. *)
Definition refund_order_facts (r : Refund) :=
  (r_id r, r_payment_id r, r_order_id r, r_amount_cents r, r_origin_requested r, r_cancels_order r).

Section confirmed_property.
Context `{!Settings} `{!Providers}.

(** C23. When the provider confirms a refund that was not final, the refund is recorded as succeeded, what was
    returned is added to the payment, which becomes refunded exactly when the whole amount has been returned,
    and the order becomes refunded exactly when the refund was requested here, the whole payment is returned
    and the order was paid or fulfilled; no other order's status changes. Stock moves only when that refund
    also cancels an order that had not been fulfilled. *)
Theorem confirmed_refund_effects r amt cur ref s s' p o :
  apply_refund_state r (Some "succeeded") amt cur ref s = (inr tt, s') → Inv (st_db s) →
  d_refunds (st_db s) !! r_id r = Some r → refund_final (r_status r) = false →
  d_payments (st_db s) !! r_payment_id r = Some p → d_orders (st_db s) !! r_order_id r = Some o →
  let closes := closes_order o p r amt in
  (∃ r', d_refunds (st_db s') !! r_id r = Some r' ∧ r_status r' = RefSucceeded) ∧
  (∃ p', d_payments (st_db s') !! r_payment_id r = Some p' ∧ pay_refunded_amount_cents p' = Some (refunded_total p r amt) ∧
     pay_status p' = if pay_amount_cents p <=? refunded_total p r amt then PayRefunded else pay_status p) ∧
  statuses s' = (if closes then <[r_order_id r := REFUNDED]> (statuses s) else statuses s) ∧
  (closes && r_cancels_order r && bool_decide (o_status o = PAID) = false →
   d_products (st_db s') = d_products (st_db s) ∧ d_variants (st_db s') = d_variants (st_db s) ∧
   d_movements (st_db s') = d_movements (st_db s)).
Proof.
  intros Hrun HI Hr Hfin Hp Ho. cbv zeta. unfold apply_refund_state in Hrun; cbv zeta in Hrun. rewrite Hfin in Hrun.
  rewrite opt_eqb_refl in Hrun. apply bind_inr in Hrun as (u & s1 & Hm & Hrun).
  assert (only [TReconciliations; TAudit] s s1) as F1. { eapply frame_run; [|exact Hm]. solve_frame. }
  apply bind_inr in Hrun as (r1 & s2 & Hu & Hrun).
  pose proof (frame_run _ _ _ _ _ (only_update_refund _ _) Hu) as F2.
  apply update_refund_inr in Hu as (r0 & Hr0 & E1 & E2).
  same_table TRefunds F1 T1. rewrite T1, Hr in Hr0; injection Hr0 as <-.
  assert (refund_order_facts r1 = refund_order_facts r ∧ r_status r1 = RefSucceeded) as [Q Qs].
  { subst r1. unfold learn_ref. by destruct (truthy ref), (r_provider_refund_id r). }
  unfold refund_order_facts in Q. injection Q as Q1 Q2 Q3 Q4 Q5 Q6.
  pose proof (inv_payment_keys _ HI _ _ Hp) as Kp. pose proof (inv_order_keys _ HI _ _ Ho) as Ko.
  same_table TPayments F1 P1. same_table TPayments F2 P2. same_table TOrders F1 O1. same_table TOrders F2 O2.
  eapply confirm_refund_run in Hrun as (HP & HS & HR & HF); [|by rewrite Q2|by rewrite Q3|by rewrite P2, P1, Q2|by rewrite O2, O1, Q3].
  unfold closes_order, refunded_total in *. rewrite Q2, Q3, Q4, Q5, Q6 in *.
  split; [|split; [done|split]].
  - exists r1. split; [|done]. rewrite HR, E2, db_set; cbn. apply lookup_insert_eq.
  - by rewrite HS, (statuses_frame _ _ _ F2 eq_refl), (statuses_frame _ _ _ F1 eq_refl).
  - intros Hc. specialize (HF Hc).
    same_table TProducts F1 A1. same_table TProducts F2 A2. same_table TProducts HF A3.
    same_table TVariants F1 B1. same_table TVariants F2 B2. same_table TVariants HF B3.
    same_table TMovements F1 C1. same_table TMovements F2 C2. same_table TMovements HF C3.
    split_and!; congruence.
Qed.
End confirmed_property.

(** ** Witnesses: the refund of Alice's order, requested and not yet submitted *)

Definition refunding : St := run (take 5 a_day) demo_state.
Lemma refunding_sound : sound refunding.
Proof. apply run_sound, demo_sound. Qed.
Definition no_refund : Refund := MkRefund "" "" "" 0 "" RefRequested None "" None 0 false false None.
Definition refund_1 : Refund := default no_refund (d_refunds (st_db refunding) !! "uuid-5").
Definition payment_1 : Payment := default no_payment (d_payments (st_db refunding) !! "uuid-2").
Definition paid_order : Order := default no_order (d_orders (st_db refunding) !! order_1).

Lemma refund_needs_confirmation_witness :
  only [TRefunds; TReconciliations; TAudit] refunding
    (apply_refund_state refund_1 (Some "failed") (Some 129800) (Some "inr") (Some "re_1") refunding).2.
Proof.
  refine (proj1 (refund_needs_confirmation refund_1 (Some "failed") (Some 129800) (Some "inr") (Some "re_1") refunding _)).
  by right.
Defined.

Definition confirmed : St := (apply_refund_state refund_1 (Some "succeeded") (Some 129800) (Some "inr") (Some "re_1") refunding).2.
Lemma confirmed_refund_effects_witness :
  closes_order paid_order payment_1 refund_1 (Some 129800) = true ∧
  (∃ p', d_payments (st_db confirmed) !! r_payment_id refund_1 = Some p' ∧ pay_refunded_amount_cents p' = Some 129800 ∧
     pay_status p' = PayRefunded).
Proof.
  split; [vm_compute; reflexivity|].
  refine (proj1 (proj2 (confirmed_refund_effects refund_1 (Some 129800) (Some "inr") (Some "re_1") refunding confirmed
    payment_1 paid_order _ (proj2 (proj2 refunding_sound)) _ _ _ _))); vm_compute; reflexivity.
Defined.
