(* ===== verification/RefundSpec.v ===== *)
(** * Requesting a refund

    [OrderLifecycleService.request_refund]: what has to hold for a new refund to be opened, what it is for,
    and that asking again gives the same refund back. *)

From S2P Require Import Prelude Decimal Errors Money Schema Guards Evolution Invoice Repositories Frames Runs Lifecycle.
From S2P Require Import LifecycleFrames Payments Demo System LifecycleSpec.

Local Open Scope string_scope.
Local Open Scope list_scope.
Local Open Scope Z_scope.

Lemma to_stripe_amount_int n c r : to_stripe_amount (MInt n) c = inr r → r = n ∧ 0 < n.
Proof. intros (cur & m & _ & _ & [= <-] & ? & -> & _)%to_stripe_amount_spec. done. Qed.

Lemma in_flight_counts r : refund_inflight r = true → refund_counts r = true.
Proof.
  unfold refund_inflight, refund_counts. intros [_ Hs%bool_decide_eq_true]%andb_true_iff. apply bool_decide_eq_true.
  unfold ACTIVE_REFUND_STATUSES. set_solver.
Qed.

Section requests.
Context `{!Settings} `{!Providers}.

(** The payment a request is about. *)
Definition chosen_payment (o : Order) (l : list Payment) (payment_id : option uuid) (p : Payment) : Prop :=
  p ∈ l ∧ pay_status p = PaySucceeded ∧
  match payment_id with Some i => pay_id p = i | None => o_status o = PAID ∨ o_status o = FULFILLED end.

Lemma find_some_elem {A} (f : A → bool) l x : first_with f l = Some x → x ∈ l ∧ f x = true.
Proof. intros [Hin Hf]%find_some. split; [by apply list_elem_of_In|done]. Qed.

Lemma refundable_payment_inr o l pid p s s' : refundable_payment o l pid s = (inr p, s') → chosen_payment o l pid p ∧ s' = s.
Proof.
  unfold refundable_payment. intros Hrun. apply bind_inr in Hrun as (x & s1 & Hx & Hrun). apply of_option_inr in Hrun as [-> ->].
  destruct pid as [i|].
  - apply ret_inr in Hx as [Hx ->]. split; [|done]. destruct (first_with _ l) as [q|] eqn:Hf; [|done].
    apply find_some_elem in Hf as [Hin Hq%String.eqb_eq]. case_bool_decide; [|done]. by injection Hx as ->.
  - apply bind_inr in Hx as (u & s2 & Hg & Hx). apply raise_if_inr in Hg as [Hg ->]. apply ret_inr in Hx as [Hx ->].
    split; [|done]. symmetry in Hx. apply find_some_elem in Hx as [Hin Hs%bool_decide_eq_true].
    by apply negb_false_iff, bool_decide_eq_true in Hg.
Qed.

(** Nothing is being disputed, returned or already on its way back. *)
Definition untouched_payment (d : DB) (p : Payment) : Prop :=
  exists_row (λ x, String.eqb (di_payment_id x) (pay_id p) && bool_decide (di_status x ∈ [DispOpen; DispUnderReview])) (d_disputes d) = false ∧
  committed_of d (pay_id p) ≤ 0.

Lemma refund_preconditions_inr o p n s s' :
  refund_preconditions o p s = (inr n, s') →
  s' = s ∧ n = pay_amount_cents p ∧ 0 < n ∧ o_currency o = Some (pay_currency p) ∧ untouched_payment (st_db s) p.
Proof.
  unfold refund_preconditions, has_open, committed_amount. intros Hrun. runs.
  repeat match goal with
  | E : to_stripe_amount _ _ = inr _ |- _ => apply to_stripe_amount_int in E as [-> ?]
  | E : negb _ = false |- _ => apply negb_false_iff, bool_decide_eq_true in E
  | E : (0 <? _) = false |- _ => apply Z.ltb_ge in E
  end.
  unfold untouched_payment. by split_and!.
Qed.

Lemma open_refund_inr o p n by_ c r s s' :
  open_refund o p n by_ c s = (inr r, s') →
  r_payment_id r = pay_id p ∧ r_order_id r = o_id o ∧ r_amount_cents r = n ∧ r_currency r = pay_currency p ∧
  r_status r = RefRequested ∧ r_attempts r = 0 ∧ r_cancels_order r = c ∧ r_origin_requested r = true ∧
  d_refunds (st_db s) !! r_id r = None ∧ d_refunds (st_db s') = <[r_id r := r]> (d_refunds (st_db s)) ∧
  (∃ k j, d_jobs (st_db s') !! k = Some j ∧ j_dedupe_key j = Some (execute_refund_dedupe_key (r_id r))) ∧
  only [TRefunds; TJobs; TAudit] s s'.
Proof.
  unfold open_refund, count_for_payment, create_refund_row. intros Hrun.
  assert (only [TRefunds; TJobs; TAudit] s s') as Hf. { eapply frame_run; [|exact Hrun]. solve_frame. }
  runs. match goal with E : insert_refund _ _ = _ |- _ => apply insert_refund_inr in E as [Hfresh ->] end.
  match goal with E : enqueue _ _ _ _ = _ |- _ => pose proof (enqueue_inr _ _ _ _ _ _ E) as Hjob; apply (frame_run [TJobs]) in E as F1; [|apply only_enqueue] end.
  match goal with E : _audit _ _ _ _ _ _ = _ |- _ => apply (frame_run [TAudit]) in E as F2; [|apply only_audit] end.
  match goal with E : (if c then _ else _) _ = _ |- _ => apply (frame_run [TAudit]) in E as F3; [|destruct c; solve_frame] end.
  same_table TRefunds F1 R1. same_table TRefunds F2 R2. same_table TRefunds F3 R3. same_table TJobs F2 J2. same_table TJobs F3 J3.
  rewrite J3, J2, R3, R2, R1, db_set. by split_and!.
Qed.


Lemma payments_of_elem d oid p : p ∈ payments_of d oid ↔ (∃ k, d_payments d !! k = Some p) ∧ pay_order_id p = oid.
Proof.
  unfold payments_of, order_by_desc, order_by. rewrite merge_sort_Permutation, rows_where_elem, String.eqb_eq. tauto.
Qed.
(** Nothing committed: no refund of the payment counts. *)
Lemma committed_zero d k : Inv d → committed_of d k ≤ 0 → ∀ j x, d_refunds d !! j = Some x → r_payment_id x = k → refund_counts x = false.
Proof.
  intros HI Hz j x Hj <-. destruct (refund_counts x) eqn:Hc; [|done]. exfalso.
  unfold committed_of, sum_rows in Hz.
  assert (r_amount_cents x ≤ 0); [|by destruct (inv_refund_rows _ HI _ _ Hj); lia].
  etrans; [|exact Hz].
  pose proof (sum_kv_ge (λ _ y, if String.eqb (r_payment_id y) (r_payment_id x) && refund_counts y then r_amount_cents y else 0)
    (d_refunds d) j x) as Hge. cbn beta in Hge. rewrite String.eqb_refl, Hc in Hge. apply Hge; [|done].
  intros i y Hy. destruct (inv_refund_rows _ HI _ _ Hy). clear Hge Hz. destruct (_ && _); lia.
Qed.

(** A granted request, taken apart. *)
Lemma request_refund_inr oid by_ pid c r b s s' :
  request_refund oid by_ pid c s = (inr (r, b), s') →
  ∃ o p, d_orders (st_db s) !! oid = Some o ∧ (c = true → o_status o = PAID) ∧
    chosen_payment o (payments_of (st_db s) (o_id o)) pid p ∧
    o_currency o ≠ None ∧ refundable_payment o (payments_of (st_db s) (o_id o)) pid s = (inr p, s) ∧
    let active := rows_where (λ x, String.eqb (r_payment_id x) (pay_id p) && refund_inflight x) (d_refunds (st_db s)) in
    if b then active = [] ∧ refund_preconditions o p s = (inr (pay_amount_cents p), s) ∧
              open_refund o p (pay_amount_cents p) by_ c s = (inr r, s')
    else active = [r] ∧ r_cancels_order r = c ∧ s' = s.
Proof.
  unfold request_refund, get_active_for_payment. intros Hrun.
  apply bind_inr in Hrun as (o & s1 & Hl & Hrun). apply lock_order_inr in Hl as [Ho ->].
  apply bind_inr in Hrun as (u & s1 & Hcur & Hrun). apply raise_if_inr in Hcur as [Hcur ->].
  apply bind_inr in Hrun as (u' & s1 & Hst & Hrun). apply raise_if_inr in Hst as [Hst ->].
  apply bind_inr in Hrun as (l & s1 & Hls & Hrun). apply list_for_order_inr in Hls as [-> ->].
  apply bind_inr in Hrun as (p & s1 & Hp & Hrun).
  pose proof (refundable_payment_inr _ _ _ _ _ _ Hp) as [Hch ->].
  apply bind_inr in Hrun as (act & s1 & Ha & Hrun). runs.
  exists o, p. split; [done|]. split.
  { intros ->. by apply negb_false_iff, bool_decide_eq_true in Hst. }
  split; [done|]. split.
  { by apply bool_decide_eq_false in Hcur. }
  split; [done|]. cbv zeta. destruct act as [x|].
  - runs. match goal with E : (_, _) = (_, _) |- _ => injection E as -> -> end.
    match goal with E : negb _ = false |- _ => apply negb_false_iff, eqb_prop in E end. done.
  - apply bind_inr in Hrun as (n & s1 & Hn & Hrun). pose proof Hn as (-> & -> & _)%refund_preconditions_inr.
    apply bind_inr in Hrun as (x & s1 & Hx & Hrun). apply ret_inr in Hrun as [E ->]. by injection E as -> ->.
Qed.

(** A new refund is opened only for a succeeded payment of that order in the order's currency, on which no
    dispute is open and no refund is requested, under way, uncertain or confirmed; it is for the whole
    payment, and its job is in the queue. Nothing but refunds, jobs and audit entries is written. *)
Theorem request_refund_granted oid by_ pid c r s s' :
  request_refund oid by_ pid c s = (inr (r, true), s') → Inv (st_db s) →
  ∃ o p, d_orders (st_db s) !! oid = Some o ∧ (c = true → o_status o = PAID) ∧
    d_payments (st_db s) !! pay_id p = Some p ∧ pay_order_id p = oid ∧ pay_status p = PaySucceeded ∧
    o_currency o = Some (pay_currency p) ∧
    (∀ k x, d_disputes (st_db s) !! k = Some x → di_payment_id x = pay_id p → di_status x ∉ [DispOpen; DispUnderReview]) ∧
    (∀ k x, d_refunds (st_db s) !! k = Some x → r_payment_id x = pay_id p → r_status x = RefFailed) ∧
    r_payment_id r = pay_id p ∧ r_order_id r = oid ∧ r_amount_cents r = pay_amount_cents p ∧ r_currency r = pay_currency p ∧
    r_cancels_order r = c ∧ d_refunds (st_db s') = <[r_id r := r]> (d_refunds (st_db s)) ∧
    (∃ k j, d_jobs (st_db s') !! k = Some j ∧ j_dedupe_key j = Some (execute_refund_dedupe_key (r_id r))) ∧
    only [TRefunds; TJobs; TAudit] s s'.
Proof.
  intros (o & p & Ho & Hc & (Hin & Hs & _) & _ & _ & _ & Hpre & Hopen)%request_refund_inr HI.
  apply refund_preconditions_inr in Hpre as (_ & _ & _ & Hcur & Hdis & Hcom).
  apply open_refund_inr in Hopen as (? & Hro & ? & ? & _ & _ & ? & _ & _ & ? & ? & ?).
  pose proof (inv_order_keys _ HI _ _ Ho) as Ko. apply payments_of_elem in Hin as [[k Hk] Hoid].
  pose proof (inv_payment_keys _ HI _ _ Hk) as <-.
  exists o, p. do 6 (split; [done || congruence|]). split; [|split].
  - intros j x Hj He Hst. apply exists_row_false with (k := j) (v := x) in Hdis; [|done]. rewrite He, String.eqb_refl in Hdis; cbn in Hdis.
    by apply bool_decide_eq_false in Hdis.
  - intros j x Hj He. pose proof (committed_zero _ _ HI Hcom j x Hj He) as Hn. unfold refund_counts in Hn.
    by destruct (r_status x); vm_compute in Hn.
  - do 7 (split; [done || congruence|]). done.
Qed.

Lemma refundable_payment_pure o l pid p s s' :
  refundable_payment o l pid s = (inr p, s) → refundable_payment o l pid s' = (inr p, s').
Proof.
  unfold refundable_payment. destruct pid as [i|]; cbn.
  - unfold mbind, ST_bind, mret, ST_ret, of_option; cbn. destruct (first_with _ l) as [q|]; [|done]. case_bool_decide; [|done].
    by intros [= ->].
  - unfold mbind, ST_bind, mret, ST_ret, of_option, raise_if; cbn. destruct (negb _); cbn; [done|].
    destruct (first_with _ l); [|done]. by intros [= ->].
Qed.

(** Asking for a refund that was just opened, by whichever administrator, gives the same refund and
    changes nothing: no second refund, job or audit entry. *)
Theorem request_refund_idempotent oid by_ by_' pid c r s s' :
  request_refund oid by_ pid c s = (inr (r, true), s') → request_refund oid by_' pid c s' = (inr (r, false), s').
Proof.
  intros (o & p & Ho & Hc & _ & Hcur & Hp & Hact & _ & Hopen)%request_refund_inr.
  apply open_refund_inr in Hopen as (Rp & _ & _ & _ & Rs & _ & Rc & Ro & Hfresh & Href & _ & Hf).
  same_table TOrders Hf Eo. same_table TPayments Hf Ep.
  unfold request_refund, _lock_order, get_order_by_id, list_for_order, get_active_for_payment, db_gets, gets, mbind, ST_bind; cbn.
  rewrite Eo, Ho; cbn. rewrite (opt_eqb_ne (o_currency o) None) by done; cbn.
  assert (c && negb (bool_decide (o_status o = PAID)) = false) as ->.
  { destruct c; [|done]. cbn. by rewrite bool_decide_eq_true_2 by auto. }
  cbn. assert (payments_of (st_db s') (o_id o) = payments_of (st_db s) (o_id o)) as -> by (unfold payments_of; by rewrite Ep).
  rewrite (refundable_payment_pure _ _ _ _ _ s' Hp); cbn.
  assert (rows_where (λ x, String.eqb (r_payment_id x) (pay_id p) && refund_inflight x) (d_refunds (st_db s')) = [r]) as ->.
  { apply Permutation_singleton_r. rewrite Href, rows_where_insert by done. unfold refund_inflight at 1.
    rewrite Rp, String.eqb_refl, Ro, Rs; cbn. by rewrite Hact. }
  cbn. by rewrite Rc, eqb_reflx.
Qed.
End requests.

(** ** Witnesses: the refund of Alice's paid order *)

Definition before_refund : St := run (take 4 a_day) demo_state.
Lemma before_refund_sound : sound before_refund.
Proof. apply run_sound, demo_sound. Qed.
Definition asked : (Err + (Refund * bool)) * St := request_refund order_1 "admin" None true before_refund.
Definition asked_refund : Refund := match asked.1 with inr (r, _) => r | inl _ => no_refund end.

Lemma request_refund_granted_witness :
  ∃ o p, d_orders (st_db before_refund) !! order_1 = Some o ∧ (true = true → o_status o = PAID) ∧
    d_payments (st_db before_refund) !! pay_id p = Some p.
Proof.
  refine (match request_refund_granted order_1 "admin" None true asked_refund before_refund asked.2 _ (proj2 (proj2 before_refund_sound))
          with ex_intro _ o (ex_intro _ p (conj a (conj b (conj c _)))) => ex_intro _ o (ex_intro _ p (conj a (conj b c))) end).
  vm_compute. reflexivity.
Defined.
Lemma request_refund_idempotent_witness :
  request_refund order_1 "someone else" None true asked.2 = (inr (asked_refund, false), asked.2).
Proof. refine (request_refund_idempotent order_1 "admin" _ None true _ before_refund asked.2 _). vm_compute. reflexivity. Defined.
