(* ===== verification/PaymentSpec.v ===== *)
(** * What the payment handlers do

    [PaymentService] and [OrderLifecycleService]: webhook deliveries, successful, late and mismatching
    payments, cancellation, and the access of a guest to the payment of an order. *)

From S2P Require Import Prelude Decimal Errors Money Schema Guards Evolution Invoice Repositories Frames Runs Lifecycle.
From S2P Require Import Payments Cart Coupons Tax Checkout Demo System LifecycleFrames LifecycleSpec RefundSpec.

Local Open Scope string_scope.
Local Open Scope list_scope.
Local Open Scope Z_scope.

(** ** Frames *)

Section payment_frames.
Context `{!Settings} `{!Crypto} `{!Providers}.

Lemma only_flag a b c d e f g : guar (only [TAudit; TReconciliations]) (_flag_for_review a b c d e f g).
Proof. unfold _flag_for_review; cbv zeta. solve_frame. Qed.
#[local] Hint Resolve only_flag : frame.
Lemma only_defer e r : guar (only [TDeferred]) (_defer_event e r).
Proof. unfold _defer_event. solve_frame. Qed.
#[local] Hint Resolve only_defer : frame.
Lemma only_defer_unknown e r : guar (only [TDeferred]) (_defer_if_payment_unknown e r).
Proof. unfold _defer_if_payment_unknown. solve_frame. Qed.
#[local] Hint Resolve only_defer_unknown : frame.
Lemma only_event_matches e p : guar (only [TAudit; TReconciliations]) (_event_matches_payment e p).
Proof. unfold _event_matches_payment; cbv zeta. solve_frame. Qed.
Lemma only_ensure_status p st : guar (only [TPayments]) (ensure_status p st).
Proof. unfold ensure_status. solve_frame. Qed.
#[local] Hint Resolve only_event_matches only_ensure_status : frame.
Lemma only_settle e p : guar (only [TPayments; TOrders; THistory; TAudit; TReconciliations; TJobs]) (settle_payment e p).
Proof. unfold settle_payment. solve_frame. Qed.
#[local] Hint Resolve only_settle : frame.
Lemma only_payment_succeeded e :
  guar (only [TPayments; TOrders; THistory; TAudit; TReconciliations; TJobs; TDeferred]) (_handle_payment_succeeded e).
Proof. unfold _handle_payment_succeeded; cbv zeta. solve_frame. Qed.
Lemma only_payment_failed a b : guar (only [TPayments]) (_handle_payment_failed a b).
Proof. unfold _handle_payment_failed. solve_frame. Qed.
Lemma only_refund_of_event e : guar (only []) (refund_of_event e).
Proof. unfold refund_of_event; cbv zeta. solve_frame. Qed.
Lemma only_record_external a b c d :
  guar (only [TRefunds; TPayments; TReconciliations; TAudit]) (record_external_refund a b c d).
Proof.
  unfold record_external_refund; cbv zeta. intros; repeat first [apply only_caught | apply guar_savepoint; [apply _|] | guar_step | solve [frame_leaf]].
Qed.
#[local] Hint Resolve only_payment_succeeded only_payment_failed only_refund_of_event only_record_external : frame.
Lemma only_confirm_refund a b c :
  guar (only [TPayments; TReconciliations; TAudit; TOrders; THistory; TInvoices; TSequences; TItems; TRestocks; TProducts; TVariants; TMovements])
    (_confirm_refund a b c).
Proof. unfold _confirm_refund. solve_frame. Qed.
#[local] Hint Resolve only_confirm_refund : frame.

(** What a refund event may write. *)
Definition refund_tables : list Table :=
  [TRefunds; TPayments; TReconciliations; TAudit; TOrders; THistory; TInvoices; TSequences; TItems; TRestocks; TProducts; TVariants; TMovements].
Lemma only_apply_refund_state a b c d e : guar (only refund_tables) (apply_refund_state a b c d e).
Proof. unfold apply_refund_state; cbv zeta. solve_frame. Qed.
#[local] Hint Resolve only_apply_refund_state : frame.
Lemma only_external_event e : guar (only [TRefunds; TPayments; TReconciliations; TAudit]) (external_refund_event e).
Proof. unfold external_refund_event. solve_frame. Qed.
#[local] Hint Resolve only_external_event : frame.
Lemma only_refund_event e : guar (only (TDeferred :: refund_tables)) (_handle_refund_event e).
Proof. unfold _handle_refund_event; cbv zeta. solve_frame. Qed.
Lemma only_apply_dispute e : guar (only [TDisputes; TReconciliations; TAudit]) (apply_dispute_event e).
Proof. unfold apply_dispute_event, open_dispute, change_dispute, close_dispute; cbv zeta. solve_frame. Qed.
#[local] Hint Resolve only_apply_dispute : frame.
Lemma only_dispute_event e : guar (only [TDisputes; TReconciliations; TAudit; TDeferred]) (_handle_dispute_event e).
Proof. unfold _handle_dispute_event. solve_frame. Qed.
#[local] Hint Resolve only_refund_event only_dispute_event : frame.
Lemma only_dispatch e : guar (only (TDisputes :: TJobs :: TDeferred :: refund_tables)) (dispatch_event e).
Proof. unfold dispatch_event. solve_frame. Qed.
End payment_frames.
#[export] Hint Resolve only_flag only_event_matches only_ensure_status only_settle only_payment_succeeded only_payment_failed
  only_refund_event only_apply_dispute only_dispute_event only_dispatch only_record_external only_apply_refund_state : frame.

(** ** Redelivered webhooks *)

Section webhooks.
Context `{!Settings} `{!Crypto} `{!Providers}.

Definition event_key (e : WebhookEvent) : string * string := (ev_provider e, ev_event_id e).

(** A handled event is on record as such. *)
Lemma process_webhook_inr e s s' :
  process_webhook_event e s = (inr tt, s') →
  ∃ row, d_events (st_db s') !! event_key e = Some row ∧ (we_status row = EvFailed → False) .
Proof.
  unfold process_webhook_event, claim_webhook_event, put_event; cbv zeta. intros Hrun.
  apply bind_inr in Hrun as (claimed & s1 & Hc & Hrun).
  apply bind_inr in Hc as (d & s0 & Hg & Hc). apply gets_inr in Hg as [-> ->].
  assert (claimed = true → is_Some (d_events (st_db s1) !! event_key e)) as Hrow.
  { intros ->. destruct (d_events (st_db s) !! _) as [row|] eqn:Hk.
    - case_bool_decide; runs; [|done]. rewrite db_set; cbn. rewrite lookup_insert_eq. eauto.
    - runs. rewrite db_set; cbn. rewrite lookup_insert_eq. eauto. }
  destruct claimed; cbn in Hrun.
  - apply bind_inr in Hrun as (h & s2 & Hd & Hrun). pose proof (frame_run _ _ _ _ _ (only_dispatch e) Hd) as F.
    same_table TEvents F E. destruct (Hrow eq_refl) as [row Hk]. rewrite <-E in Hk. clear Hc.
    unfold finish_webhook_event, put_event in Hrun; cbv zeta in Hrun. runs. unfold event_key in Hk. rewrite Hk in Hrun. runs.
    eexists. rewrite db_set; cbn. rewrite lookup_insert_eq. split; [done|]. cbn. by destruct h.
  - runs. destruct (d_events (st_db s) !! _) as [row|] eqn:Hk; [|by runs]. case_bool_decide as Hf; [by runs|]. runs. eauto.
Qed.

(** C26. A webhook delivered again after it was handled changes nothing, whatever its content. *)
Theorem webhook_redelivery e s s' :
  handle_webhook e s = (inr tt, s') → handle_webhook e s' = (inr tt, s').
Proof.
  unfold handle_webhook. intros Hrun. apply try_catch_inr in Hrun as [Hrun|(x & s1 & k & _ & [= <-] & Hk)].
  2:{ runs. }
  apply process_webhook_inr in Hrun as (row & Hk & Hn). unfold event_key in Hk.
  unfold try_catch, process_webhook_event, claim_webhook_event, gets, mbind, ST_bind; cbn. rewrite Hk.
  by rewrite bool_decide_eq_false_2.
Qed.

(** Handling an event commits nothing by itself. *)
Lemma uncommitted_audit a b c d e : guar (keeps st_committed) (_audit a b c d e).
Proof. uncommitted. Qed.
#[local] Hint Resolve uncommitted_audit : uncommitted.
Lemma uncommitted_reconcile a b c d e f : guar (keeps st_committed) (reconcile a b c d e f).
Proof. uncommitted. Qed.
#[local] Hint Resolve uncommitted_reconcile : uncommitted.
Lemma uncommitted_flag a b c d e f g : guar (keeps st_committed) (_flag_for_review a b c d e f g).
Proof. uncommitted. Qed.
Lemma uncommitted_update_status a b c d : guar (keeps st_committed) (update_status a b c d).
Proof. uncommitted. Qed.
Lemma uncommitted_credit_note o : guar (keeps st_committed) (issue_credit_note o).
Proof. uncommitted. Qed.
Lemma uncommitted_restock o : guar (keeps st_committed) (_restock_once o).
Proof. uncommitted. Qed.
#[local] Hint Resolve uncommitted_flag uncommitted_update_status uncommitted_credit_note uncommitted_restock : uncommitted.
Lemma uncommitted_confirm a b c : guar (keeps st_committed) (_confirm_refund a b c).
Proof. uncommitted. Qed.
#[local] Hint Resolve uncommitted_confirm : uncommitted.
Lemma uncommitted_refund_state a b c d e : guar (keeps st_committed) (apply_refund_state a b c d e).
Proof. uncommitted. Qed.
Lemma uncommitted_settle e p : guar (keeps st_committed) (settle_payment e p).
Proof. uncommitted. Qed.
Lemma uncommitted_matches e p : guar (keeps st_committed) (_event_matches_payment e p).
Proof. uncommitted. Qed.
#[local] Hint Resolve uncommitted_refund_state uncommitted_settle uncommitted_matches : uncommitted.
Lemma uncommitted_process e : guar (keeps st_committed) (process_webhook_event e).
Proof. uncommitted. Qed.

(** A webhook whose handling fails leaves the database as it was, except for the record of the failed event,
    which a later delivery may claim again; the error reaches the caller. *)
Theorem webhook_failure_recorded e x s s' :
  process_webhook_event e s = (inl x, s') →
  ∃ s2, handle_webhook e s = (inl x, s2) ∧ st_committed s2 = st_db s2 ∧
    (∀ t, t ≠ TEvents → table t (st_db s2) = table t (st_committed s)) ∧
    (∀ k, k ≠ event_key e → d_events (st_db s2) !! k = d_events (st_committed s) !! k) ∧
    (d_events (st_committed s) !! event_key e = None ∨
     (∃ row, d_events (st_committed s) !! event_key e = Some row ∧ we_status row = EvFailed) →
     ∃ row, d_events (st_db s2) !! event_key e = Some row ∧ we_status row = EvFailed).
Proof.
  intros Hp. assert (st_committed s' = st_committed s) as Hc.
  { change (keeps st_committed s s'). replace s' with (process_webhook_event e s).2 by by rewrite Hp. apply uncommitted_process. }
  unfold handle_webhook, try_catch. rewrite Hp.
  unfold rollback, record_failed_event, commit, gets, modify, mbind, ST_bind; cbn. rewrite Hc. unfold event_key.
  destruct (d_events (st_committed s) !! _) as [row|] eqn:Hk.
  - case_bool_decide as Hs; cbn; (eexists; split; [done|]); cbn; split_and!; try done.
    + by intros [].
    + intros k Hne. by rewrite lookup_insert_ne.
    + intros _. eexists. by rewrite lookup_insert_eq.
    + intros [?|(r & [= <-] & ?)]; [done|]. done.
  - cbn. eexists; split; [done|]; cbn; split_and!; try done.
    + by intros [].
    + intros k Hne. by rewrite lookup_insert_ne.
    + intros _. eexists. by rewrite lookup_insert_eq.
Qed.
End webhooks.

(** ** Successful payments *)

Section success.
Context `{!Settings} `{!Crypto} `{!Providers}.

Lemma get_by_provider_payment_id_inr ppid pr o s s' :
  get_by_provider_payment_id ppid (Some pr) s = (inr o, s') →
  s' = s ∧ match o with
           | Some p => (∃ k, d_payments (st_db s) !! k = Some p) ∧ pay_provider_payment_id p = ppid ∧ pay_provider p = pr
           | None => ∀ k p, d_payments (st_db s) !! k = Some p → pay_provider_payment_id p = ppid → pay_provider p ≠ pr
           end.
Proof.
  unfold get_by_provider_payment_id. intros Hrun. apply bind_inr in Hrun as (d & s1 & Hg & Hrun).
  apply gets_inr in Hg as [-> ->]. apply scalar_inr in Hrun as [-> Hl]. split; [done|]. destruct o as [p|].
  - assert (p ∈ [p]) as Hin by left. rewrite <-Hl, rows_where_elem in Hin. destruct Hin as [Hp Hk].
    apply andb_true_iff in Hp as [?%String.eqb_eq ?%String.eqb_eq]. done.
  - intros k p Hk Hp Hq. rewrite rows_where_nil in Hl. specialize (Hl k p Hk). cbn in Hl.
    by rewrite Hp, Hq, !String.eqb_refl in Hl.
Qed.

(** The event is about exactly this payment. *)
Definition event_exact (e : WebhookEvent) (p : Payment) : Prop :=
  ev_amount e = Some (pay_amount_cents p) ∧ ev_currency e = Some (pay_currency p) ∧
  (ev_amount_received e = None ∨ ev_amount_received e = Some (pay_amount_cents p)).
Definition order_agrees (o : Order) (p : Payment) : Prop :=
  o_total_cents o = pay_amount_cents p ∧ (o_currency o = None ∨ o_currency o = Some (pay_currency p)).

Lemma event_matches_inr e p b s s' :
  _event_matches_payment e p s = (inr b, s') →
  if b then s' = s ∧ event_exact e p ∧ ∀ o, d_orders (st_db s) !! pay_order_id p = Some o → order_agrees o p
  else only [TAudit; TReconciliations] s s'.
Proof.
  intros Hrun. destruct b; [|by eapply frame_run; [apply only_event_matches|]].
  unfold _event_matches_payment in Hrun; cbv zeta in Hrun.
  assert (∀ (m : M unit) x, (m ≫= λ _, mret false) x = (inr true, s') → False) as Hno by (intros; by runs).
  destruct (match ev_config_id e with Some _ => _ | None => _ end); [by apply Hno in Hrun|].
  destruct (_ || _) eqn:Hnone in Hrun; [by apply Hno in Hrun|].
  destruct (_ || _) eqn:Hval in Hrun; [by apply Hno in Hrun|].
  rewrite !orb_false_iff, !negb_false_iff in Hval. destruct Hval as [[[_ Ha%bool_decide_eq_true] Hr] Hc%bool_decide_eq_true].
  unfold opt_eqb in Hnone. apply orb_false_iff in Hnone as [Hn%bool_decide_eq_false _].
  assert (expected_amount p = Some (pay_amount_cents p)) as He.
  { unfold expected_amount in *. destruct (to_stripe_amount _ _) as [x|n] eqn:Ht; [congruence|].
    by apply to_stripe_amount_int in Ht as [-> _]. }
  rewrite He in Ha, Hr. assert (event_exact e p) as Hex.
  { split_and!; [done..|]. by apply orb_true_iff in Hr as [?%bool_decide_eq_true|?%bool_decide_eq_true]; [left|right]. }
  apply bind_inr in Hrun as (o & s1 & Ho & Hrun). apply get_order_by_id_inr in Ho as [-> ->].
  destruct (d_orders (st_db s) !! pay_order_id p) as [o|] eqn:Ho; [|by runs].
  destruct (_ || _) eqn:Hag in Hrun; [by apply Hno in Hrun|]. apply ret_inr in Hrun as [_ ->]. split_and!; [done..|].
  intros o' [= <-]. apply orb_false_iff in Hag as [?%negb_false_iff%Z.eqb_eq Hcu%negb_false_iff]. split; [done|].
  by apply orb_true_iff in Hcu as [?%bool_decide_eq_true|?%bool_decide_eq_true]; [left|right].
Qed.

(** [settle_payment] on an order that can no longer be paid, and on one that can. *)
Lemma mark_paid_statuses o p b s s' :
  mark_paid o p s = (inr b, s') → d_orders (st_db s) !! o_id o = Some o →
  b = bool_decide (o_status o = PENDING) ∧ statuses s' = if b then <[o_id o := PAID]> (statuses s) else statuses s.
Proof.
  intros Hrun Ho. unfold mark_paid in Hrun; cbv zeta in Hrun. case_bool_decide; cbn in Hrun; [|by apply ret_inr in Hrun as [-> ->]].
  apply bind_inr in Hrun as (o1 & s1 & Hu & Hrun). apply update_status_run in Hu as (-> & Hdb & _ & _); [|done].
  apply bind_inr in Hrun as (o2 & s2 & Hd & Hrun). apply bind_inr in Hrun as (u & s3 & Ha & Hrun). apply ret_inr in Hrun as [-> ->].
  split; [done|]. rewrite (statuses_frame _ _ _ (frame_run _ _ _ _ _ (only_audit _ _ _ _ _) Ha) eq_refl).
  apply guar_ran with (R := keeps statuses) in Hd; [|by apply update_order_statuses]. rewrite Hd. unfold statuses. by rewrite Hdb; cbn; rewrite fmap_insert.
Qed.

(** Something that is put before a human is on record under its key. *)
Lemma reconcile_recorded kind key p o ppid j b s s' :
  reconcile kind key p o ppid j s = (inr b, s') →
  ∃ k r, d_reconciliations (st_db s') !! k = Some r ∧ rc_dedupe_key r = key.
Proof.
  unfold reconcile, record_reconciliation, insert_reconciliation. intros Hrun.
  apply bind_inr in Hrun as (rec & s1 & Hr & Hrun).
  assert (∃ k r, d_reconciliations (st_db s1) !! k = Some r ∧ rc_dedupe_key r = key) as (k & r & Hk & Hkey).
  { runs. cbn [rc_dedupe_key] in *. destruct (exists_row _ _) eqn:Hdup.
    - runs. apply exists_row_true in Hdup as (i & r & Hi & Hr%String.eqb_eq). eauto.
    - runs. eexists _, _. rewrite db_set; cbn. by rewrite lookup_insert_eq. }
  destruct rec; runs; [|by eauto]. match goal with E : _audit _ _ _ _ _ _ = _ |- _ => apply (frame_run [TAudit]) in E; [|apply only_audit]; same_table TReconciliations E T end.
  rewrite <-T in Hk. eauto.
Qed.
Lemma flag_recorded a i j kind o ppid d u s s' :
  _flag_for_review a (Some i) j kind o ppid d s = (inr u, s') → truthy d = None →
  ∃ k r, d_reconciliations (st_db s') !! k = Some r ∧ rc_dedupe_key r = reconciliation_kind_value kind +:+ ":" +:+ i.
Proof.
  unfold _flag_for_review; cbv zeta. intros Hrun Hd. rewrite Hd in Hrun. cbn [default] in Hrun.
  apply bind_inr in Hrun as (u1 & s1 & _ & Hrun). apply bind_inr in Hrun as (p & s2 & _ & Hrun).
  apply bind_inr in Hrun as (b & s3 & Hr & Hrun). apply ret_inr in Hrun as [_ ->]. by eapply reconcile_recorded.
Qed.

(** The row of [p] became [p'], and nothing but payments was written. *)
Definition payment_became (s s' : St) (p p' : Payment) : Prop :=
  d_payments (st_db s') !! pay_id p = Some p' ∧ pay_id p' = pay_id p ∧ pay_order_id p' = pay_order_id p ∧ only [TPayments] s s'.

Lemma ensure_status_run p st p' s s' :
  ensure_status p st s = (inr p', s') → d_payments (st_db s) !! pay_id p = Some p →
  payment_became s s' p p' ∧ pay_status p' = st.
Proof.
  unfold ensure_status. intros Hrun Hp. case_bool_decide as Hst; [by apply ret_inr in Hrun as [-> ->]|].
  pose proof (frame_run _ _ _ _ _ (only_update_payment_status _ _) Hrun) as F.
  apply update_payment_inr in Hrun as (p0 & Hp0 & -> & ->). assert (p0 = p) as -> by congruence.
  split; [|done]. split; [by rewrite db_set; cbn; rewrite lookup_insert_eq|]. done.
Qed.
Lemma learn_reference_run e p p' s s' :
  (match truthy (ev_provider_reference e), pay_provider_reference p with
   | Some ref, None => update_payment (pay_id p) (λ p, p <| pay_provider_reference := Some ref |>)
   | _, _ => mret p
   end) s = (inr p', s') → d_payments (st_db s) !! pay_id p = Some p → payment_became s s' p p'.
Proof.
  intros Hrun Hp. destruct (truthy _) as [ref|], (pay_provider_reference p); try by apply ret_inr in Hrun as [-> ->].
  pose proof (frame_run _ _ _ _ _ (only_update_payment _ _) Hrun) as F.
  apply update_payment_inr in Hrun as (p0 & Hp0 & -> & ->). assert (p0 = p) as -> by congruence.
  split; [by rewrite db_set; cbn; rewrite lookup_insert_eq|]. done.
Qed.

Lemma settle_payment_run e p o s s' :
  settle_payment e p s = (inr tt, s') → d_payments (st_db s) !! pay_id p = Some p →
  d_orders (st_db s) !! pay_order_id p = Some o → o_id o = pay_order_id p →
  (∃ p', d_payments (st_db s') !! pay_id p = Some p' ∧ pay_status p' = PaySucceeded) ∧
  if bool_decide (o_status o = PENDING)
  then statuses s' = <[pay_order_id p := PAID]> (statuses s) ∧
       ∃ k j, d_jobs (st_db s') !! k = Some j ∧ j_dedupe_key j = Some (order_confirmation_dedupe_key (pay_order_id p))
  else only [TPayments; TReconciliations; TAudit] s s' ∧
       ∃ k r, d_reconciliations (st_db s') !! k = Some r ∧ rc_dedupe_key r = reconciliation_kind_value LATE_PAYMENT +:+ ":" +:+ pay_id p.
Proof.
  intros Hrun Hp Ho Hid. unfold settle_payment in Hrun.
  apply bind_inr in Hrun as (p1 & s1 & Hl & Hrun). apply learn_reference_run in Hl as (Hp1 & I1 & O1 & F1); [|done].
  apply bind_inr in Hrun as (fo & s1' & Hf & Hrun). apply get_order_by_id_inr in Hf as [-> ->].
  same_table TOrders F1 T1. rewrite O1, T1, Ho in Hrun.
  apply bind_inr in Hrun as (p2 & s2 & He & Hrun). rewrite <-I1 in Hp1. apply ensure_status_run in He as [(Hp2 & I2 & O2 & F2) Hs2]; [|done].
  rewrite I1 in Hp2. rewrite I1 in I2. rewrite O1 in O2.
  assert (only [TPayments] s s2) as F by (by etrans).
  destruct (bool_decide (o_status o = PENDING)) eqn:Hst; cbn in Hrun; swap 1 2.
  - pose proof (frame_run _ _ _ _ _ (only_flag _ _ _ _ _ _ _) Hrun) as F3.
    same_table TPayments F3 T3. split; [exists p2; by rewrite T3|].
    split; [etrans; [by eapply only_weaken|by eapply only_weaken]|]. apply flag_recorded in Hrun; [|done]. by rewrite I2 in Hrun.
  - apply bind_inr in Hrun as (paid & s3 & Hm & Hrun).
    pose proof (frame_run _ _ _ _ _ (only_mark_paid _ _) Hm) as F3. same_table TOrders F T.
    apply mark_paid_statuses in Hm as [-> Hm]; [|by rewrite T, Hid].
    rewrite Hst in *. cbn in Hrun.
    apply bind_inr in Hrun as (q & s4 & Hq & Hrun). apply ret_inr in Hrun as [_ ->].
    apply enqueue_inr in Hq as Hjob. apply (frame_run [TJobs]) in Hq; [|apply only_enqueue].
    same_table TPayments F3 T3. same_table TPayments Hq T4. split; [exists p2; by rewrite T4, T3|].
    rewrite Hid in *. split; [|done]. rewrite (statuses_frame _ _ _ Hq eq_refl), Hm. by rewrite (statuses_frame _ _ _ F eq_refl).
Qed.
End success.

Section success_properties.
Context `{!Settings} `{!Crypto} `{!Providers}.

(** C25. A success event changes an order's status only from pending to paid, only that of the order of the one
    payment it names, and only when the amount and the currency it reports are exactly those of the payment
    and of the order; the payment is then recorded as succeeded and the confirmation mail is in the queue. *)
Theorem payment_success_effects e s s' :
  _handle_payment_succeeded e s = (inr tt, s') → Inv (st_db s) →
  statuses s' = statuses s ∨
  ∃ p o, d_payments (st_db s) !! pay_id p = Some p ∧
    pay_provider_payment_id p = ev_provider_payment_id e ∧ pay_provider p = ev_provider e ∧ event_exact e p ∧
    d_orders (st_db s) !! pay_order_id p = Some o ∧ o_status o = PENDING ∧ order_agrees o p ∧
    statuses s' = <[pay_order_id p := PAID]> (statuses s) ∧
    (∃ p', d_payments (st_db s') !! pay_id p = Some p' ∧ pay_status p' = PaySucceeded) ∧
    ∃ k j, d_jobs (st_db s') !! k = Some j ∧ j_dedupe_key j = Some (order_confirmation_dedupe_key (pay_order_id p)).
Proof.
  unfold _handle_payment_succeeded; cbv zeta. intros Hrun HI.
  apply bind_inr in Hrun as (found & s1 & Hg & Hrun). apply get_by_provider_payment_id_inr in Hg as [-> Hg].
  destruct found as [p|].
  2:{ left. apply (statuses_frame [TAudit; TReconciliations; TDeferred]); [|done]. eapply frame_run; [|exact Hrun]. unfold _defer_event. solve_frame. }
  destruct Hg as ([k Hk] & Hpp & Hpr). pose proof (inv_payment_keys _ HI _ _ Hk) as <-.
  apply bind_inr in Hrun as (b & s1 & Hb & Hrun). apply event_matches_inr in Hb. destruct b.
  2:{ apply ret_inr in Hrun as [_ ->]. left. by eapply statuses_frame. }
  destruct Hb as (-> & Hex & Hag).
  destruct (d_orders (st_db s) !! pay_order_id p) as [o|] eqn:Ho.
  - pose proof (settle_payment_run _ _ _ _ _ Hrun Hk Ho (inv_order_keys _ HI _ _ Ho)) as [Hpaid Hset].
    case_bool_decide.
    + right. exists p, o. destruct Hset. split_and!; auto; by apply Hag || by apply Hex.
    + left. destruct Hset as [F _]. by eapply statuses_frame.
  - left. unfold settle_payment in Hrun.
    apply bind_inr in Hrun as (p1 & s1 & Hl & Hrun). apply learn_reference_run in Hl as (_ & _ & O1 & F1); [|done].
    apply bind_inr in Hrun as (fo & s2 & Hf & Hrun). apply get_order_by_id_inr in Hf as [-> ->].
    same_table TOrders F1 T1. rewrite O1, T1, Ho in Hrun.
    apply bind_inr in Hrun as (p2 & s2 & He & Hrun).
    apply (statuses_frame [TPayments; TAudit; TReconciliations]); [|done]. etrans; [by eapply only_weaken|].
    etrans; [eapply only_weaken; [exact (frame_run _ _ _ _ _ (only_ensure_status _ _) He)|done]|].
    eapply only_weaken; [exact (frame_run _ _ _ _ _ (only_flag _ _ _ _ _ _ _) Hrun)|done].
Qed.

(** A success event that does not match is only put before a human: when the amount or the currency is
    missing or differs from the payment's, or the payment is unknown, no payment, order, job or stock
    changes. *)
Theorem mismatching_success_ignored e s s' :
  _handle_payment_succeeded e s = (inr tt, s') →
  (∀ k p, d_payments (st_db s) !! k = Some p → pay_provider_payment_id p = ev_provider_payment_id e →
     pay_provider p = ev_provider e → ¬ event_exact e p) →
  only [TAudit; TReconciliations; TDeferred] s s'.
Proof.
  unfold _handle_payment_succeeded; cbv zeta. intros Hrun Hno.
  apply bind_inr in Hrun as (found & s1 & Hg & Hrun). apply get_by_provider_payment_id_inr in Hg as [-> Hg].
  destruct found as [p|].
  2:{ eapply frame_run; [|exact Hrun]. unfold _defer_event. solve_frame. }
  destruct Hg as ([k Hk] & Hpp & Hpr). apply bind_inr in Hrun as (b & s1 & Hb & Hrun). apply event_matches_inr in Hb. destruct b.
  - destruct Hb as (_ & Hex & _). by destruct (Hno k p Hk Hpp Hpr).
  - apply ret_inr in Hrun as [_ ->]. by eapply only_weaken.
Qed.

(** A payment that succeeds after its order was paid, cancelled, fulfilled or refunded is recorded as
    succeeded and put before a human, and changes no order, stock, refund or job. *)
Theorem late_payment_reported e p o s s' :
  settle_payment e p s = (inr tt, s') → d_payments (st_db s) !! pay_id p = Some p →
  d_orders (st_db s) !! pay_order_id p = Some o → o_id o = pay_order_id p → o_status o ≠ PENDING →
  only [TPayments; TReconciliations; TAudit] s s' ∧
  (∃ p', d_payments (st_db s') !! pay_id p = Some p' ∧ pay_status p' = PaySucceeded) ∧
  ∃ k r, d_reconciliations (st_db s') !! k = Some r ∧ rc_dedupe_key r = "late_payment:" +:+ pay_id p.
Proof.
  intros Hrun Hp Ho Hid Hst. destruct (settle_payment_run _ _ _ _ _ Hrun Hp Ho Hid) as [Hpaid Hset].
  rewrite bool_decide_eq_false_2 in Hset by done. destruct Hset as [? Hrec]. split; [done|]. by split.
Qed.
End success_properties.

(** ** Access of a guest *)

Section access.
Context `{!Settings} `{!Crypto} `{!Providers}.

(** A payment token opens exactly one thing: an order placed as a guest that has a token, to the holder of
    a token with that hash, within the time an unpaid order is kept; every other order, token or moment is
    answered as if the order did not exist. *)
Theorem guest_payment_access oid token s :
  match authorize_guest_payment oid token s with
  | (inr o, s') => s' = s ∧ d_orders (st_db s) !! oid = Some o ∧ o_user_id o = None ∧
      o_payment_token_hash o = Some (sha256_hex token) ∧ sha256_hex token ≠ "" ∧
      st_now s ≤ o_created_at o + pending_order_timeout_minutes * 60
  | (inl x, s') => s' = s ∧ x = EOrder (OrderNotFoundError oid) ∧
      ∀ o, d_orders (st_db s) !! oid = Some o → o_user_id o = None → o_payment_token_hash o = Some (sha256_hex token) →
        sha256_hex token = "" ∨ o_created_at o + pending_order_timeout_minutes * 60 < st_now s
  end.
Proof.
  unfold authorize_guest_payment, get_order_by_id, db_gets, now, gets, mbind, ST_bind; cbn.
  destruct (d_orders (st_db s) !! oid) as [o|] eqn:Ho; cbn; [|done].
  destruct (o_user_id o) as [u|] eqn:Hu; cbn.
  { split_and!; [done..|]. intros o' [= <-]. by rewrite Hu. }
  destruct (o_payment_token_hash o) as [h|] eqn:Hh; cbn.
  2:{ split_and!; [done..|]. intros o' [= <-] _. by rewrite Hh. }
  destruct (String.eqb_spec h "") as [->|Hne]; cbn.
  { split_and!; [done..|]. intros o' [= <-] _. rewrite Hh. intros [= <-]. by left. }
  unfold _hash_payment_token, raise_if. destruct (String.eqb_spec (sha256_hex token) h) as [<-|Hd]; cbn.
  2:{ split; [done|]. split; [done|]. intros o' [= <-] _. rewrite Hh. intros [= ?]. congruence. }
  destruct (Z.ltb_spec (pending_order_timeout_minutes * 60) (st_now s - o_created_at o)) as [Hlt|Hge]; cbn.
  - split_and!; [done..|]. intros o' [= <-] _ _. right. lia.
  - split_and!; try done. lia.
Qed.
End access.

(** ** Witnesses: Alice's payment *)

Definition charging : St := run (take 2 a_day) demo_state.
Lemma charging_sound : sound charging.
Proof. apply run_sound, demo_sound. Qed.
Definition paid_event : WebhookEvent := succeeded_event "pi_order:uuid-1:intent:0" 129800.
Definition short_event : WebhookEvent := succeeded_event "pi_order:uuid-1:intent:0" 129799.
Definition pending_payment : Payment := default no_payment (d_payments (st_db charging) !! "uuid-2").
Definition paid : St := (handle_webhook paid_event charging).2.

Lemma webhook_redelivery_witness : handle_webhook paid_event paid = (inr tt, paid).
Proof. refine (webhook_redelivery paid_event charging paid _). vm_compute. reflexivity. Defined.

(** The mug was given options while its refund was under way: it can no longer be put back in stock. *)
Definition converted_db : DB := st_db refunding <| d_products ::= <[1 := mug <| p_option_count := 1 |> <| p_stock := 0 |>]> |>.
Definition converted : St := refunding <| st_db := converted_db |> <| st_committed := converted_db |>.
Definition refunded_event : WebhookEvent :=
  MkEvent "evt_9" "refund.updated" "pi_order:uuid-1:intent:0" (Some 129800) None (Some "inr") (Some "re_1") (Some "succeeded")
    None None None "stripe" None None.
Definition refund_problem : Err :=
  match (process_webhook_event refunded_event converted).1 with inl x => x | inr _ => EOrder EmptyCartError end.
Lemma webhook_failure_recorded_witness :
  refund_problem ≠ EOrder EmptyCartError ∧
  ∃ s2, handle_webhook refunded_event converted = (inl refund_problem, s2) ∧ st_committed s2 = st_db s2.
Proof.
  split; [vm_compute; discriminate|].
  refine (match webhook_failure_recorded refunded_event refund_problem converted (process_webhook_event refunded_event converted).2 _
          with ex_intro _ s2 (conj a (conj b _)) => ex_intro _ s2 (conj a b) end).
  vm_compute. reflexivity.
Defined.

Definition credited : St := (_handle_payment_succeeded paid_event charging).2.
Lemma payment_success_effects_witness :
  statuses credited !! order_1 = Some PAID ∧
  (statuses credited = statuses charging ∨
   ∃ p o, d_payments (st_db charging) !! pay_id p = Some p ∧
    pay_provider_payment_id p = ev_provider_payment_id paid_event ∧ pay_provider p = ev_provider paid_event ∧ event_exact paid_event p ∧
    d_orders (st_db charging) !! pay_order_id p = Some o ∧ o_status o = PENDING ∧ order_agrees o p ∧
    statuses credited = <[pay_order_id p := PAID]> (statuses charging) ∧
    (∃ p', d_payments (st_db credited) !! pay_id p = Some p' ∧ pay_status p' = PaySucceeded) ∧
    ∃ k j, d_jobs (st_db credited) !! k = Some j ∧ j_dedupe_key j = Some (order_confirmation_dedupe_key (pay_order_id p))).
Proof.
  split; [vm_compute; reflexivity|].
  refine (payment_success_effects paid_event charging credited _ (proj2 (proj2 charging_sound))). vm_compute. reflexivity.
Defined.

Lemma charging_payments : d_payments (st_db charging) = {[ "uuid-2" := pending_payment ]}.
Proof. vm_compute. reflexivity. Qed.
Lemma mismatching_success_ignored_witness :
  only [TAudit; TReconciliations; TDeferred] charging (_handle_payment_succeeded short_event charging).2.
Proof.
  refine (mismatching_success_ignored short_event charging _ _ _); [vm_compute; reflexivity|].
  intros k p Hk _ _ [Ha _]. rewrite charging_payments in Hk. apply lookup_singleton_Some in Hk as [_ <-]. vm_compute in Ha. discriminate.
Defined.

(** The same money once more, after the order was refunded. *)
Definition evening_payment : Payment := default no_payment (d_payments (st_db evening) !! "uuid-2").
Lemma late_payment_reported_witness :
  only [TPayments; TReconciliations; TAudit] evening (settle_payment paid_event evening_payment evening).2.
Proof.
  refine (proj1 (late_payment_reported paid_event evening_payment (default no_order (d_orders (st_db evening) !! order_1))
    evening (settle_payment paid_event evening_payment evening).2 _ _ _ _ _)); vm_compute; (reflexivity || discriminate).
Defined.

(** Bob's token. *)
Definition guest_ordered : St := (checkout_endpoint (guest_request "k2") demo_state).2.
Lemma guest_payment_access_witness :
  match authorize_guest_payment order_1 "token-0" guest_ordered with
  | (inr o, s') => s' = guest_ordered
  | (inl x, s') => s' = guest_ordered
  end.
Proof.
  generalize (guest_payment_access order_1 "token-0" guest_ordered). destruct (authorize_guest_payment _ _ _) as [[x|o] s'].
  - intros Hx. exact (proj1 Hx).
  - intros Hx. exact (proj1 Hx).
Defined.
