(* ===== verification/StockSpec.v ===== *)
(** * What a change of stock does

    [ProductRepository.adjust_stock_many] and [adjust_variant_stock_many]: one statement for many rows, with
    the ledger's trigger on every row. *)

From S2P Require Import Prelude Decimal Errors Schema Guards Evolution Repositories Frames Runs.

Local Open Scope string_scope.
Local Open Scope list_scope.
Local Open Scope Z_scope.

Definition add_stock (n : Z) (p : Product) : Product := p <| p_stock := p_stock p + n |>.
Definition add_vstock (n : Z) (v : ProductVariant) : ProductVariant := v <| pv_stock := pv_stock v + n |>.
Lemma add_stock_0 p : add_stock 0 p = p.
Proof. destruct p. unfold add_stock. cbn. by rewrite Z.add_0_r. Qed.
Lemma add_vstock_0 v : add_vstock 0 v = v.
Proof. destruct v. unfold add_vstock. cbn. by rewrite Z.add_0_r. Qed.

(** A row that gains its own value is the same row. *)
Lemma add_stock_same n p : p_stock (add_stock n p) = p_stock p → add_stock n p = p.
Proof. intros Heq. cbn in Heq. replace n with 0 by lia. apply add_stock_0. Qed.
Lemma add_vstock_same n v : pv_stock (add_vstock n v) = pv_stock v → add_vstock n v = v.
Proof. intros Heq. cbn in Heq. replace n with 0 by lia. apply add_vstock_0. Qed.

Lemma add_stock_add a b p : add_stock a (add_stock b p) = add_stock (b + a) p.
Proof. destruct p. unfold add_stock. cbn. by rewrite Z.add_assoc. Qed.
Lemma add_vstock_add a b v : add_vstock a (add_vstock b v) = add_vstock (b + a) v.
Proof. destruct v. unfold add_vstock. cbn. by rewrite Z.add_assoc. Qed.

(** Every row of [m] gained [δ] of its key, and no row came or went. *)
Definition shifted {V} (add : Z → V → V) (δ : Z → Z) (m m' : gmap Z V) : Prop := ∀ j, m' !! j = add (δ j) <$> m !! j.
Definition only_at (k n j : Z) : Z := if j =? k then n else 0.
(** The sum of the deltas given for a key. *)
Definition delta_at (l : list (Z * Z)) (j : Z) : Z := sumZ (map (λ kn, only_at kn.1 kn.2 j) l).

Section shifts.
Context {V : Type} (add : Z → V → V) (add_zero : ∀ v, add 0 v = v) (add_twice : ∀ a b v, add a (add b v) = add (b + a) v).

Lemma shifted_ext δ δ' m m' : (∀ j, δ j = δ' j) → shifted add δ m m' → shifted add δ' m m'.
Proof. intros Heq Hs j. by rewrite <-Heq. Qed.
Lemma shifted_zero m : shifted add (λ _, 0) m m.
Proof. intros j. destruct (m !! j) eqn:Hj; cbn; [by rewrite add_zero|done]. Qed.
Lemma shifted_trans δ1 δ2 m1 m2 m3 : shifted add δ1 m1 m2 → shifted add δ2 m2 m3 → shifted add (λ j, δ1 j + δ2 j) m1 m3.
Proof. intros H1 H2 j. rewrite H2, H1. destruct (m1 !! j); cbn; [by rewrite add_twice|done]. Qed.
Lemma shifted_insert k n v m : m !! k = Some v → shifted add (only_at k n) m (<[k := add n v]> m).
Proof.
  intros Hk j. unfold only_at. destruct (Z.eqb_spec j k) as [->|Hne].
  - by rewrite lookup_insert_eq, Hk.
  - rewrite lookup_insert_ne by done. destruct (m !! j); cbn; [by rewrite add_zero|done].
Qed.
Lemma shifted_missing k n m : m !! k = None → shifted add (only_at k n) m m.
Proof.
  intros Hk j. unfold only_at. destruct (Z.eqb_spec j k) as [->|]; [by rewrite Hk|].
  destruct (m !! j); cbn; [by rewrite add_zero|done].
Qed.
Lemma shifted_same k n v m : m !! k = Some v → add n v = v → shifted add (only_at k n) m m.
Proof. intros Hk Hv. pose proof (shifted_insert k n v m Hk) as Hs. by rewrite Hv, insert_id in Hs. Qed.
End shifts.

Lemma sumZ_cons x l : sumZ (x :: l) = x + sumZ l.
Proof. done. Qed.
Lemma delta_at_map (m : gmap Z Z) j : delta_at (map_to_list m) j = default 0 (m !! j).
Proof.
  unfold delta_at. induction m as [|k n m Hk IH] using map_ind; [done|].
  rewrite (sumZ_perm _ _ (Permutation_map _ (map_to_list_insert m k n Hk))).
  cbn [map fst snd]. rewrite sumZ_cons. unfold only_at at 1.
  destruct (Z.eqb_spec j k) as [->|Hne].
  - rewrite lookup_insert_eq. cbn. rewrite IH, Hk. cbn. lia.
  - by rewrite lookup_insert_ne, IH by done.
Qed.
Lemma nonzero_lookup (m : gmap Z Z) j : default 0 (nonzero m !! j) = default 0 (m !! j).
Proof.
  destruct (nonzero m !! j) as [n|] eqn:Hn.
  - by apply map_lookup_filter_Some in Hn as [-> _].
  - apply map_lookup_filter_None in Hn as [->|Hz]; [done|]. destruct (m !! j) as [n|]; [|done]. cbn.
    specialize (Hz n eq_refl). cbn in Hz. lia.
Qed.

Lemma add_product_stock_run k n x s s' :
  add_product_stock k n s = (inr x, s') → shifted add_stock (only_at k n) (d_products (st_db s)) (d_products (st_db s')).
Proof.
  unfold add_product_stock; cbv zeta. intros Hrun. apply bind_inr in Hrun as (s0 & s1 & Hg & Hrun). apply gets_inr in Hg as [-> ->].
  cbn [id] in *. destruct (d_products (st_db s) !! k) as [p|] eqn:Hp; [|runs; apply shifted_missing; [apply add_stock_0|done]].
  change (p <| p_stock := p_stock p + n |>) with (add_stock n p) in *.
  apply bind_inr in Hrun as (u & s1 & Hg & Hrun). apply guard_inr in Hg as [_ ->].
  destruct (Z.eqb_spec (p_stock (add_stock n p)) (p_stock p)) as [Heq|_]; runs.
  - eapply shifted_same; [apply add_stock_0|done|by apply add_stock_same].
  - rewrite db_set; cbn. eapply shifted_insert; [apply add_stock_0|done].
Qed.
Lemma add_variant_stock_run k n x s s' :
  add_variant_stock k n s = (inr x, s') → shifted add_vstock (only_at k n) (d_variants (st_db s)) (d_variants (st_db s')).
Proof.
  unfold add_variant_stock; cbv zeta. intros Hrun. apply bind_inr in Hrun as (s0 & s1 & Hg & Hrun). apply gets_inr in Hg as [-> ->].
  cbn [id] in *. destruct (d_variants (st_db s) !! k) as [v|] eqn:Hv; [|runs; apply shifted_missing; [apply add_vstock_0|done]].
  change (v <| pv_stock := pv_stock v + n |>) with (add_vstock n v) in *.
  apply bind_inr in Hrun as (u & s1 & Hg & Hrun). apply guard_inr in Hg as [_ ->].
  destruct (Z.eqb_spec (pv_stock (add_vstock n v)) (pv_stock v)) as [Heq|_]; runs.
  - eapply shifted_same; [apply add_vstock_0|done|by apply add_vstock_same].
  - rewrite db_set; cbn. eapply shifted_insert; [apply add_vstock_0|done].
Qed.

(** One statement over many rows. *)
Lemma adjust_stock_many_run ps (ds : gmap Z Z) s s' :
  adjust_stock_many ps ds s = (inr tt, s') →
  shifted add_stock (λ j, default 0 (ds !! j)) (d_products (st_db s)) (d_products (st_db s')) ∧
  (dom (nonzero ds) : gset Z) ⊆ dom ps.
Proof.
  unfold adjust_stock_many; cbv zeta. intros Hrun. apply bind_inr in Hrun as (u & s1 & Hf & Hrun).
  apply raise_if_inr in Hrun as [Hdom%negb_false_iff%bool_decide_eq_true ->]. split; [|done].
  apply shifted_ext with (δ := delta_at (map_to_list (nonzero ds))).
  { intros j. by rewrite delta_at_map, nonzero_lookup. }
  clear Hdom. revert s Hf. induction (map_to_list (nonzero ds)) as [|[k n] l IH]; intros s Hf; cbn in Hf.
  - apply ret_inr in Hf as [_ ->]. apply (shifted_zero add_stock add_stock_0).
  - apply bind_inr in Hf as (u1 & s2 & Hk & Hf). apply bind_inr in Hk as (x & s3 & Hk & Hr). apply ret_inr in Hr as [_ ->].
    eapply (shifted_trans add_stock add_stock_add); [by eapply add_product_stock_run|by apply IH].
Qed.
Lemma adjust_variant_stock_many_run vs (ds : gmap Z Z) s s' :
  adjust_variant_stock_many vs ds s = (inr tt, s') →
  shifted add_vstock (λ j, default 0 (ds !! j)) (d_variants (st_db s)) (d_variants (st_db s')) ∧
  (dom (nonzero ds) : gset Z) ⊆ dom vs.
Proof.
  unfold adjust_variant_stock_many; cbv zeta. intros Hrun. apply bind_inr in Hrun as (c & s1 & Hf & Hrun).
  apply bind_inr in Hrun as (u & s2 & Hc & Hrun). apply raise_if_inr in Hc as [_ ->].
  apply raise_if_inr in Hrun as [Hdom%negb_false_iff%bool_decide_eq_true ->]. split; [|done].
  apply shifted_ext with (δ := delta_at (map_to_list (nonzero ds))).
  { intros j. by rewrite delta_at_map, nonzero_lookup. }
  clear Hdom. revert s Hf. generalize 0 at 1. induction (map_to_list (nonzero ds)) as [|[k n] l IH]; intros z s Hf; cbn in Hf.
  - apply ret_inr in Hf as [_ ->]. apply (shifted_zero add_vstock add_vstock_0).
  - apply bind_inr in Hf as (z' & s2 & Hk & Hf). apply bind_inr in Hk as (x & s3 & Hk & Hr). apply ret_inr in Hr as [_ ->].
    eapply (shifted_trans add_vstock add_vstock_add); [by eapply add_variant_stock_run|by eapply IH].
Qed.

(** A block of the stock context. *)
Lemma stock_change_inr {A} k a r o (body : M A) b s s' :
  stock_change k a r o body s = (inr b, s') →
  ∃ s1 s2, st_db s1 = st_db s ∧ body s1 = (inr b, s2) ∧ st_db s' = st_db s2 ∧ st_now s1 = st_now s ∧ st_now s' = st_now s2.
Proof.
  unfold stock_change, _set. intros Hrun. apply bind_inr in Hrun as (u & s0 & Hk & Hrun). apply raise_if_inr in Hk as [_ ->].
  apply bind_inr in Hrun as (u1 & s1 & Hs & Hrun). injection Hs as _ <-.
  apply try_finally_inr in Hrun as (s2 & Hb & ->). eexists _, s2. split; [|by split_and!]. done.
Qed.
