(* ===== verification/CheckoutSpec.v ===== *)
(** * What a checkout does

    [OrderService.checkout] and [quote]: the lines of an order and their price, the stock that leaves, the
    cart that is emptied, changed prices, and a request that is sent twice. *)

From S2P Require Import Prelude Decimal Errors Money GstCalc Schema Guards Evolution GstStates Invoice Repositories Frames Runs.
From S2P Require Import Lifecycle Cart Coupons Tax Checkout Payments Demo System LifecycleFrames LifecycleSpec StockSpec.
Import Decimal.

Local Open Scope string_scope.
Local Open Scope list_scope.
Local Open Scope Z_scope.

(** ** The basket *)

(** What is sold from a stock of its own: a simple product [(false, id)] or a variant [(true, id)]. *)
Definition unit_of (l : OrderItem) : bool * Z :=
  match oi_variant_id l with Some v => (true, v) | None => (false, oi_product_id l) end.
(** The units of [u] in the lines. *)
Definition bought (u : bool * Z) (ls : list OrderItem) : Z :=
  sumZ (map (λ l, if bool_decide (unit_of l = u) then oi_quantity l else 0) ls).
#[global] Arguments bought : simpl never.
Lemma bought_push u ls l : bought u (ls ++ [l]) = bought u ls + if bool_decide (unit_of l = u) then oi_quantity l else 0.
Proof. unfold bought. rewrite map_app, sumZ_app. cbn. lia. Qed.

Section basket.
Variables (products : gmap Z Product) (variants : gmap Z ProductVariant) (labels : gmap Z (string * string)).
Hypothesis product_keys : ∀ k p, products !! k = Some p → p_id p = k.
Hypothesis variant_keys : ∀ k v, variants !! k = Some v → pv_id v = k.

Definition unit_stock (u : bool * Z) : option Z :=
  if u.1 then pv_stock <$> variants !! u.2 else p_stock <$> products !! u.2.

(** A cart line and the order line it becomes: an active product (and variant), at the locked price. *)
Definition line_sold (i : CartItem) (l : OrderItem) : Prop :=
  ∃ p v price stock, line_unit products variants i = inr (p, v, price, stock) ∧
    products !! oi_product_id l = Some p ∧ oi_product_id l = ci_product_id i ∧ oi_variant_id l = ci_variant_id i ∧
    oi_price_cents_snapshot l = price ∧ oi_quantity l = ci_quantity i ∧ oi_product_name_snapshot l = p_name p ∧
    unit_stock (unit_of l) = Some stock.

Lemma line_unit_inr i p v price stock :
  line_unit products variants i = inr (p, v, price, stock) →
  products !! ci_product_id i = Some p ∧ p_id p = ci_product_id i ∧ p_status p = ACTIVE ∧
  match v with
  | Some v => ci_variant_id i = Some (pv_id v) ∧ variants !! pv_id v = Some v ∧ pv_product_id v = p_id p ∧ pv_active v = true ∧
              price = effective_price v (p_price_cents p) ∧ stock = pv_stock v
  | None => ci_variant_id i = None ∧ p_option_count p ≤ 0 ∧ price = p_price_cents p ∧ stock = p_stock p
  end.
Proof.
  unfold line_unit. destruct (ci_variant_id i) as [vid|] eqn:Hv.
  - destruct (products !! ci_product_id i) as [p0|] eqn:Hp; [|done]. destruct (variants !! vid) as [v0|] eqn:Hv0; [|done].
    destruct (_ && _ && _) eqn:Hc; [|done]. rewrite !andb_true_iff, Z.eqb_eq in Hc. destruct Hc as [[? ?%bool_decide_eq_true] ?].
    intros [= <- <- <- <-]. pose proof (variant_keys _ _ Hv0) as Kv. subst vid. split_and!; auto.
  - destruct (products !! ci_product_id i) as [p0|] eqn:Hp; [|done].
    case_bool_decide; cbn; [|done]. destruct (Z.ltb_spec 0 (p_option_count p0)); [done|].
    intros [= <- <- <- <-]. split_and!; auto; lia.
Qed.

(** What the loop has established after the lines [done_]. *)
Record basket_ok (done_ : list CartItem) (b : Basket) : Prop := {
  ok_lines : Forall2 line_sold done_ (bk_lines b);
  ok_subtotal : bk_subtotal b = sumZ (map line_value (bk_lines b));
  ok_remaining : ∀ u, match bk_remaining b !! u with
                      | Some r => 0 ≤ r ∧ unit_stock u = Some (r + bought u (bk_lines b))
                      | None => bought u (bk_lines b) = 0
                      end;
  ok_deltas : ∀ k, default 0 (bk_stock_deltas b !! k) = - bought (false, k) (bk_lines b);
  ok_variant_deltas : ∀ k, default 0 (bk_variant_deltas b !! k) = - bought (true, k) (bk_lines b);
  ok_changes : bk_changes b = [] ↔ Forall2 (λ i l, ci_price_cents_snapshot i = oi_price_cents_snapshot l) done_ (bk_lines b)
}.

Lemma empty_basket_ok : basket_ok [] empty_basket.
Proof. by split. Qed.

Lemma minus_lookup k n (m : gmap Z Z) j :
  default 0 (minus k n m !! j) = default 0 (m !! j) - if bool_decide (k = j) then n else 0.
Proof.
  unfold minus. case_bool_decide as Hk; [subst; rewrite lookup_insert_eq|rewrite lookup_insert_ne by done]; cbn; lia.
Qed.

Lemma checkout_line_ok done_ b i b' :
  basket_ok done_ b → checkout_line products variants labels b i = inr b' → basket_ok (done_ ++ [i]) b'.
Proof.
  intros [Hl Hs Hr Hd Hvd Hc]. unfold checkout_line.
  destruct (line_unit products variants i) as [e|[[[p v] price] stock]] eqn:Hu; cbn [mbind sum_bind]; [done|].
  pose proof (line_unit_inr _ _ _ _ _ Hu) as (Hp & Kp & _ & Hv).
  set (u := match v with Some v => (true, pv_id v) | None => (false, p_id p) end).
  set (l := MkOrderItem 0 "" (p_id p) (p_name p) price (ci_quantity i) (pv_id <$> v) _ _ _ 0 0).
  destruct (Z.ltb_spec (default stock (bk_remaining b !! u)) (ci_quantity i)) as [?|Hav]; [done|]. intros [= <-].
  assert (unit_of l = u) as Hul by (by destruct v).
  assert (unit_stock u = Some stock) as Hus.
  { unfold unit_stock, u. destruct v as [v|]; cbn; [destruct Hv as (_ & -> & _ & _ & _ & ->)|rewrite Kp, Hp; destruct Hv as (_ & _ & _ & ->)]; done. }
  split; cbn.
  - apply Forall2_app; [done|]. constructor; [|constructor]. exists p, v, price, stock. rewrite Hul. cbn. rewrite Kp. split_and!; try done.
    destruct v; cbn; by destruct Hv as [-> _].
  - rewrite map_app, sumZ_app, Hs. cbn. unfold line_value; cbn. lia.
  - intros j. rewrite bought_push, Hul. cbn. specialize (Hr u) as Hru. case_bool_decide as Hj.
    + subst j. rewrite lookup_insert_eq. destruct (bk_remaining b !! u) as [r|]; cbn in *.
      * destruct Hru as [_ Hru]. split; [lia|]. rewrite Hru. f_equal. lia.
      * split; [lia|]. rewrite Hus, Hru. f_equal. lia.
    + rewrite lookup_insert_ne by done. specialize (Hr j). rewrite Z.add_0_r. exact Hr.
  - intros k. rewrite bought_push, Hul. specialize (Hd k). unfold u. destruct v as [v|]; cbn.
    + rewrite bool_decide_eq_false_2 by congruence. lia.
    + rewrite minus_lookup. do 2 case_bool_decide; simplify_eq; lia || congruence.
  - intros k. rewrite bought_push, Hul. specialize (Hvd k). unfold u. destruct v as [v|]; cbn.
    + rewrite minus_lookup. do 2 case_bool_decide; simplify_eq; lia || congruence.
    + rewrite bool_decide_eq_false_2 by congruence. lia.
  - destruct (Z.eqb_spec (ci_price_cents_snapshot i) price) as [Heq|Hne]; cbn.
    + rewrite app_nil_r, Hc. split; [intros; apply Forall2_app; [done|by constructor]|].
      intros Hall. apply Forall2_app_inv in Hall as [? _]; [done|]. by eapply Forall2_length.
    + split; [by intros [_ ?]%app_nil|]. intros Hall. apply Forall2_app_inv in Hall as [_ Hlast]; [|by eapply Forall2_length].
      by apply Forall2_cons in Hlast as [? _].
Qed.

Lemma checkout_lines_ok items : ∀ done_ b b',
  basket_ok done_ b → checkout_lines products variants labels b items = inr b' → basket_ok (done_ ++ items) b'.
Proof.
  induction items as [|i items IH]; intros done_ b b' Hb; cbn.
  - intros [= <-]. by rewrite app_nil_r.
  - destruct (checkout_line _ _ _ b i) as [e|b1] eqn:H1; cbn; [done|]. intros H2.
    rewrite (app_assoc done_ [i] items : done_ ++ i :: items = _). eapply IH; [|done]. by eapply checkout_line_ok.
Qed.

(** The lines of an order are the lines of the cart one for one, each an active product (and an active
    variant of it) at its locked price; the subtotal is their sum; the units taken of every product and
    variant, over all lines, are what the stock changes by and never more than there is; prices count as
    changed exactly when some line was added at another price. *)
Theorem checkout_lines_spec items b :
  checkout_lines products variants labels empty_basket items = inr b →
  Forall2 line_sold items (bk_lines b) ∧ bk_subtotal b = sumZ (map line_value (bk_lines b)) ∧
  (∀ k, default 0 (bk_stock_deltas b !! k) = - bought (false, k) (bk_lines b)) ∧
  (∀ k, default 0 (bk_variant_deltas b !! k) = - bought (true, k) (bk_lines b)) ∧
  (∀ u, bought u (bk_lines b) ≠ 0 → ∃ stock, unit_stock u = Some stock ∧ bought u (bk_lines b) ≤ stock) ∧
  (bk_changes b = [] ↔ Forall2 (λ i l, ci_price_cents_snapshot i = oi_price_cents_snapshot l) items (bk_lines b)).
Proof.
  intros Hrun. destruct (checkout_lines_ok items [] _ _ empty_basket_ok Hrun) as [Hl Hs Hr Hd Hv Hc]. split_and!; try done.
  intros u Hu. specialize (Hr u). destruct (bk_remaining b !! u) as [r|]; [|done]. destruct Hr as [? ->]. eexists; split; [done|lia].
Qed.

(** An order is refused for its first line that cannot be sold: because its product or variant is not
    available, or because fewer units are left than it asks for once the lines before it are served, in which
    case the refusal says how many are left. *)
Theorem checkout_lines_refused items e :
  checkout_lines products variants labels empty_basket items = inl e →
  ∃ before i after b, items = before ++ i :: after ∧ checkout_lines products variants labels empty_basket before = inr b ∧
    (line_unit products variants i = inl e ∨
     ∃ p v price stock, line_unit products variants i = inr (p, v, price, stock) ∧
       let left := stock - bought (match v with Some v => (true, pv_id v) | None => (false, p_id p) end) (bk_lines b) in
       e = ECart (InsufficientStockError left) ∧ left < ci_quantity i).
Proof.
  assert (∀ rest done_ b, checkout_lines products variants labels empty_basket done_ = inr b →
    checkout_lines products variants labels b rest = inl e →
    ∃ before i after b, done_ ++ rest = before ++ i :: after ∧ checkout_lines products variants labels empty_basket before = inr b ∧
      checkout_line products variants labels b i = inl e) as Hfirst.
  { induction rest as [|i rest IH]; intros done_ b Hb; cbn; [done|].
    destruct (checkout_line _ _ _ b i) as [x|b1] eqn:Hi; cbn; [intros [= ->]; by exists done_, i, rest, b|].
    intros Hrest. destruct (IH (done_ ++ [i]) b1) as (before & j & after & b2 & Heq & ? & ?); [|done|].
    - clear IH Hrest. revert Hb. generalize empty_basket. induction done_ as [|d done_ IH]; intros b0; cbn.
      + intros [= ->]. by rewrite Hi.
      + destruct (checkout_line _ _ _ b0 d); cbn; [done|]. apply IH.
    - exists before, j, after, b2. by rewrite <-Heq, <-app_assoc. }
  intros Hrun. destruct (Hfirst items [] empty_basket eq_refl Hrun) as (before & i & after & b & Heq & Hb & Hi).
  exists before, i, after, b. split; [done|]. split; [done|]. unfold checkout_line in Hi.
  destruct (line_unit products variants i) as [x|[[[p v] price] stock]] eqn:Hu; cbn [mbind sum_bind] in Hi; [left; congruence|right].
  exists p, v, price, stock. split; [done|]. cbv zeta. pose proof (line_unit_inr _ _ _ _ _ Hu) as (Hp & Kp & _ & Hv).
  destruct (checkout_lines_ok before [] _ _ empty_basket_ok Hb) as [_ _ Hr _ _ _].
  set (u := match v with Some v => (true, pv_id v) | None => (false, p_id p) end) in *. specialize (Hr u).
  assert (unit_stock u = Some stock) as Hus.
  { unfold unit_stock, u. destruct v as [v|]; cbn; [destruct Hv as (_ & -> & _ & _ & _ & ->)|rewrite Kp, Hp; destruct Hv as (_ & _ & _ & ->)]; done. }
  assert (default stock (bk_remaining b !! u) = stock - bought u (bk_lines b)) as Hleft.
  { destruct (bk_remaining b !! u) as [r|]; cbn; [|lia]. destruct Hr as [_ Hr]. rewrite Hus in Hr. injection Hr. lia. }
  rewrite Hleft in Hi. destruct (Z.ltb_spec (stock - bought u (bk_lines b)) (ci_quantity i)); [|done]. injection Hi as <-. done.
Qed.
End basket.

(** ** What only reads *)

Definition reads_only {A} (m : M A) : Prop := guar (keeps id) m.
Lemma reads_only_run {A} (m : M A) s r s' : reads_only m → m s = (r, s') → s' = s.
Proof. intros Hm Hr. apply (guar_ran (keeps id)) in Hr; [|done]. exact Hr. Qed.

Section reads.
Context `{!Settings} `{!Crypto} `{!Store}.

Lemma reads_map_m {A B} (f : A → M B) l : (∀ x, reads_only (f x)) → reads_only (map_m f l).
Proof. intros Hf. unfold reads_only. induction l; cbn; uncommitted. apply Hf. Qed.
Lemma reads_tax_calculate e q : reads_only (tax_calculate e q).
Proof.
  assert (∀ a b, reads_only (tax_result a b)) as Hr by (unfold reads_only; uncommitted).
  destruct e; unfold tax_calculate, reads_only; [uncommitted|unfold flat_calculate; apply Hr|].
  unfold gst_calculate, gst_supply; uncommitted; try apply Hr; apply reads_map_m; unfold reads_only; uncommitted.
Qed.
Lemma reads_calculate_tax a b c d e f : reads_only (_calculate_tax a b c d e f).
Proof. unfold _calculate_tax, reads_only. apply guar_bind; [apply _|uncommitted|intros t]. apply reads_tax_calculate. Qed.
Lemma reads_apply_coupon a b c d : reads_only (apply_coupon a b c d).
Proof. unfold reads_only. uncommitted. Qed.
Lemma reads_price_lines a b c d e : reads_only (price_lines a b c d e).
Proof.
  unfold price_lines, reads_only. apply guar_bind; [apply _|uncommitted|intros sh].
  apply guar_bind; [apply _|apply reads_apply_coupon|intros [[[c1 d1] s1] l1]].
  apply guar_bind; [apply _|apply reads_calculate_tax|intros tx; apply guar_ret, _].
Qed.
Lemma reads_lock_and_price l : reads_only (lock_and_price l).
Proof. unfold reads_only. uncommitted. Qed.
Lemma reads_resolve_shipping a b c : reads_only (_resolve_shipping_snapshot a b c).
Proof. unfold reads_only. uncommitted. Qed.
Lemma reads_quote_coupon a b c d : reads_only (quote_coupon a b c d).
Proof. unfold reads_only. uncommitted. Qed.
Lemma reads_quote_tax a b c d e : reads_only (quote_tax a b c d e).
Proof.
  unfold quote_tax, reads_only. repeat first [guar_step | apply reads_calculate_tax | apply guar_ret; apply _].
Qed.

(** Asking for a price changes nothing at all. *)
Theorem quote_changes_nothing q lines s : (quote q lines s).2 = s.
Proof.
  change (keeps id s (quote q lines s).2). revert s. change (reads_only (quote q lines)). unfold quote, reads_only.
  repeat first [guar_step | apply reads_quote_coupon | apply reads_quote_tax
    | solve [uncommitted_leaf] | apply reads_map_m; intros; unfold reads_only; uncommitted | solve [uncommitted]].
Qed.
End reads.

(** ** Placing an order *)

Section placing.
Context `{!Settings} `{!Crypto} `{!Store}.

Lemma only_resolve_currency : guar (only [TStoreCurrency]) _resolve_currency.
Proof. unfold _resolve_currency, get_or_initialize_currency. solve_frame. Qed.
Lemma only_get_or_create_cart u g : guar (only [TCarts]) (get_or_create_cart u g).
Proof. unfold get_or_create_cart, get_cart_by_user_id, get_cart_by_guest_token. solve_frame. Qed.
Lemma only_clear ls : guar (only [TCartItems]) (clear ls).
Proof. unfold clear. solve_frame. Qed.
Lemma only_take_stock i b p v : guar (only [TProducts; TVariants; TMovements]) (take_stock i b p v).
Proof. unfold take_stock. solve_frames. Qed.

Lemma take_stock_run i b p v s s' :
  take_stock i b p v s = (inr tt, s') →
  shifted add_stock (λ j, default 0 (bk_stock_deltas b !! j)) (d_products (st_db s)) (d_products (st_db s')) ∧
  shifted add_vstock (λ j, default 0 (bk_variant_deltas b !! j)) (d_variants (st_db s)) (d_variants (st_db s')).
Proof.
  unfold take_stock. intros Hrun. apply stock_change_inr in Hrun as (s1 & s2 & E1 & Hrun & E2 & _ & _). rewrite E2, <-E1. clear E1 E2.
  apply bind_inr in Hrun as ([] & s3 & Hp & Hv).
  pose proof (frame_run _ _ _ _ _ (only_adjust_stock_many _ _) Hp) as F1. same_table TVariants F1 T1. rewrite <-T1.
  apply adjust_stock_many_run in Hp as [Hp _]. case_bool_decide as Hemp.
  - apply ret_inr in Hv as [_ ->]. split; [done|]. rewrite Hemp. by apply shifted_zero; [apply add_vstock_0].
  - pose proof (frame_run _ _ _ _ _ (only_adjust_variant_stock_many _ _) Hv) as F2. same_table TProducts F2 T2. rewrite T2.
    by apply adjust_variant_stock_many_run in Hv as [Hv _].
Qed.

Lemma clear_run ls u s s' :
  clear ls s = (inr u, s') →
  ∀ k, d_cart_items (st_db s') !! k = if bool_decide (k ∈ map ci_id ls) then None else d_cart_items (st_db s) !! k.
Proof.
  revert s. unfold clear. induction ls as [|i ls IH]; intros s; cbn [for_each map].
  - intros [_ ->]%ret_inr k. by rewrite bool_decide_eq_false_2 by by intros ?%elem_of_nil.
  - intros Hrun k. apply bind_inr in Hrun as (x & s1 & Hd & Hrun). unfold delete_cart_item in Hd. apply upd_inr in Hd as ->.
    rewrite (IH _ Hrun k), db_set; cbn. case_bool_decide as Hin; case_bool_decide as Hin'; try done.
    + exfalso. apply Hin'. by right.
    + apply elem_of_cons in Hin' as [->|?]; [by rewrite lookup_delete_eq|done].
    + rewrite lookup_delete_ne; [done|]. intros <-. apply Hin'. left.
Qed.

(** What an order line says, apart from its ids. *)
Definition line_facts (l : OrderItem) :=
  (oi_product_id l, oi_product_name_snapshot l, oi_price_cents_snapshot l, oi_quantity l, oi_variant_id l, oi_sku_snapshot l,
   oi_discount_cents l).
Definition of_order (oid : uuid) (d : DB) : list OrderItem := rows_where (λ i, String.eqb (oi_order_id i) oid) (d_items d).

(** A line is not discounted beyond what it costs. *)
Definition fair_line (l : OrderItem) : Prop := 0 ≤ oi_discount_cents l ≤ line_value l.

Lemma create_order_run o ls o' s s' :
  create_order o ls s = (inr o', s') →
  o' = o ∧ d_orders (st_db s) !! o_id o = None ∧ d_orders (st_db s') = <[o_id o := o]> (d_orders (st_db s)) ∧
  map line_facts (of_order (o_id o) (st_db s')) ≡ₚ map line_facts (of_order (o_id o) (st_db s)) ++ map line_facts ls ∧
  d_items (st_db s) ⊆ d_items (st_db s') ∧ Forall fair_line ls ∧ orders_checks o = None.
Proof.
  unfold create_order. intros Hrun. apply bind_inr in Hrun as (u & s1 & Ho & Hrun). apply insert_order_inr in Ho as (Hfresh & -> & Hck).
  apply bind_inr in Hrun as (u1 & s2 & Hl & Hrun). apply bind_inr in Hrun as (t & s3 & Ht & Hrun). apply now_inr in Ht as [-> ->].
  apply bind_inr in Hrun as (u2 & s3 & Hh & Hrun). apply insert_history_inr in Hh as ->. apply ret_inr in Hrun as [-> ->]. rewrite !db_set; cbn.
  split; [done|]. split; [done|]. rewrite Hck. clear Hck.
  assert (only [TItems] (set_db (λ d, d <| d_orders ::= <[o_id o := o]> |>) s) s2) as F. { eapply frame_run; [|exact Hl]. solve_frame. }
  same_table TOrders F T. rewrite db_set in T; cbn in T. split; [by rewrite T|]. clear F T.
  change (d_items (st_db s)) with (d_items (st_db (set_db (λ d, d <| d_orders ::= <[o_id o := o]> |>) s))).
  change (of_order (o_id o) (st_db s)) with (of_order (o_id o) (st_db (set_db (λ d, d <| d_orders ::= <[o_id o := o]> |>) s))).
  change (of_order (o_id o) _) with (of_order (o_id o) (st_db s2)) at 1.
  revert Hl. generalize (set_db (λ d, d <| d_orders ::= <[o_id o := o]> |>) s). clear Hfresh.
  induction ls as [|l ls IH]; intros s0 Hl; cbn [for_each map] in Hl.
  - apply ret_inr in Hl as [_ ->]. rewrite app_nil_r. split_and!; (done || constructor).
  - apply bind_inr in Hl as (x & s4 & Hi & Hl). apply bind_inr in Hi as (i & s5 & Hn & Hi). apply new_id_inr in Hn as [-> ->].
    apply insert_item_inr in Hi as (Hf & -> & Hci). cbn [oi_id] in Hf. destruct (IH _ Hl) as (Hp & Hsub & Hfair & _). rewrite db_set in *; cbn in *.
    split; [|split; [|split; [|done]]].
    + rewrite Hp. unfold of_order at 1. cbn. rewrite rows_where_insert by done. cbn. rewrite String.eqb_refl; cbn.
      unfold line_facts at 1; cbn. fold (of_order (o_id o) (st_db s0)). by rewrite Permutation_middle.
    + etrans; [|exact Hsub]. by apply insert_subseteq.
    + constructor; [|done]. unfold order_items_checks in Hci. passed Hci. symmetry in Hg1.
      apply check_None, andb_true_iff in Hg1 as [?%Z.leb_le ?%Z.leb_le]. done.
Qed.
End placing.

(** ** The caller's cart *)

Definition owns_cart (u : option uuid) (g : option string) (c : Cart) : bool :=
  match u with Some u => opt_eqb (c_user_id c) (Some u) | None => opt_eqb (c_guest_token c) g end.
Definition known_caller (u : option uuid) (g : option string) : Prop := u = None → g ≠ None.

Lemma rows_where_replace {K} `{Countable K} {V} (p : V → bool) (m : gmap K V) k v :
  rows_where p m = [] → p v = true → rows_where p (<[k := v]> m) = [v].
Proof.
  intros Hn Hv. rewrite <-insert_delete_eq. apply Permutation_singleton_r. rewrite rows_where_insert by apply lookup_delete_eq.
  rewrite Hv. assert (rows_where p (delete k m) = []) as ->; [|done]. rewrite rows_where_nil in *.
  intros j w [_ Hj]%lookup_delete_Some. eauto.
Qed.

Lemma get_or_create_cart_inr u g c s s' :
  get_or_create_cart u g s = (inr c, s') →
  known_caller u g ∧ rows_where (owns_cart u g) (d_carts (st_db s')) = [c] ∧ only [TCarts] s s'.
Proof.
  intros Hrun. pose proof (frame_run _ _ _ _ _ (only_get_or_create_cart _ _) Hrun) as F.
  unfold get_or_create_cart in Hrun. apply bind_inr in Hrun as (found & s1 & Hf & Hrun).
  assert (known_caller u g ∧ s1 = s ∧ rows_where (owns_cart u g) (d_carts (st_db s)) = match found with Some x => [x] | None => [] end) as (Hk & -> & Hrows).
  { unfold get_cart_by_user_id, get_cart_by_guest_token in Hf. destruct u as [u|]; [|destruct g as [g|]]; [runs; by split_and!..|done]. }
  split; [done|]. split; [|done]. destruct found as [x|]; [by apply ret_inr in Hrun as [-> ->]|].
  apply bind_inr in Hrun as (i & s1 & Hn & Hrun). apply new_id_inr in Hn as [-> ->].
  apply bind_inr in Hrun as (y & s1 & Hp & Hrun). apply ret_inr in Hrun as [-> ->]. unfold put_cart in Hp. runs. rewrite db_set; cbn.
  apply rows_where_replace; [done|]. destruct u as [u|]; cbn; [|destruct g; [|by destruct (Hk eq_refl)]]; by apply bool_decide_eq_true.
Qed.
Lemma get_or_create_cart_found u g c s :
  known_caller u g → rows_where (owns_cart u g) (d_carts (st_db s)) = [c] → get_or_create_cart u g s = (inr c, s).
Proof.
  intros Hk Hrows. unfold get_or_create_cart, get_cart_by_user_id, get_cart_by_guest_token, gets, mbind, ST_bind.
  destruct u as [u|]; [|destruct g as [g|]; [|by destruct (Hk eq_refl)]]; unfold owns_cart in Hrows; by rewrite Hrows.
Qed.

Section placed.
Context `{!Settings} `{!Crypto} `{!Store}.

(** A line's share of the discount does not change what it sells. *)
Definition with_share (l : OrderItem) (share : Z) : OrderItem := l <| oi_discount_cents := share |>.

(** An order that was placed: its cart, the lines, and the price it was given. *)
Record placed (q : CheckoutRequest) (s s' : St) (o : Order) (lines : list CartItem) (b : Basket) (price : Price) (columns : Columns) : Prop := {
  pl_lines : ∃ cart, known_caller (cq_user_id q) (cq_guest_token q) ∧
    rows_where (owns_cart (cq_user_id q) (cq_guest_token q)) (d_carts (st_db s')) = [cart] ∧
    lines = cart_lines (st_db s) (c_id cart) ∧ lines ≠ [];
  pl_basket : ∃ labels, checkout_lines (filter (λ kv, kv.1 ∈ map ci_product_id (sort_lines lines)) (d_products (st_db s)))
                          (filter (λ kv, kv.1 ∈ omap ci_variant_id (sort_lines lines)) (d_variants (st_db s))) labels empty_basket (sort_lines lines) = inr b;
  pl_unchanged : bk_changes b = [];
  pl_price : ∃ s1, only [TStoreCurrency; TCarts] s s1 ∧
    price_lines q (filter (λ kv, kv.1 ∈ map ci_product_id (sort_lines lines)) (d_products (st_db s))) (bk_lines b) (bk_subtotal b) columns s1 = (inr price, s1);
  pl_order : ∃ currency delivery, o = order_row q (o_id o) (cart_digest lines) currency delivery columns price (st_now s);
  pl_fresh : d_orders (st_db s) !! o_id o = None;
  pl_orders : d_orders (st_db s') = <[o_id o := o]> (d_orders (st_db s));
  pl_items : map line_facts (of_order (o_id o) (st_db s')) ≡ₚ map line_facts (of_order (o_id o) (st_db s)) ++
               map line_facts (zip_with with_share (bk_lines b) (pr_shares price));
  pl_items_kept : d_items (st_db s) ⊆ d_items (st_db s');
  pl_fair : Forall fair_line (zip_with with_share (bk_lines b) (pr_shares price));
  pl_checks : orders_checks o = None;
  pl_stock : shifted add_stock (λ j, default 0 (bk_stock_deltas b !! j)) (d_products (st_db s)) (d_products (st_db s'));
  pl_variants : shifted add_vstock (λ j, default 0 (bk_variant_deltas b !! j)) (d_variants (st_db s)) (d_variants (st_db s'));
  pl_cart : ∀ k, d_cart_items (st_db s') !! k = if bool_decide (k ∈ map ci_id lines) then None else d_cart_items (st_db s) !! k;
  pl_frame : only [TStoreCurrency; TCarts; TProducts; TVariants; TMovements; TOrders; TItems; THistory; TCartItems] s s'
}.

Lemma refuse_changed_inr b u s s' : refuse_changed_prices b s = (inr u, s') → bk_changes b = [] ∧ s' = s.
Proof.
  unfold refuse_changed_prices. destruct (bk_changes b); [by intros [_ ->]%ret_inr|]. intros Hrun.
  by apply bind_inr in Hrun as (x & s1 & _ & Hrun).
Qed.

Lemma lock_and_price_inr items r s s' :
  lock_and_price items s = (inr r, s') →
  s' = s ∧ r.1.2 = filter (λ kv, kv.1 ∈ map ci_product_id items) (d_products (st_db s)) ∧
  r.2 = filter (λ kv, kv.1 ∈ omap ci_variant_id items) (d_variants (st_db s)) ∧
  ∃ labels, checkout_lines r.1.2 r.2 labels empty_basket items = inr r.1.1.
Proof.
  intros Hrun. pose proof (reads_only_run _ _ _ _ (reads_lock_and_price items) Hrun) as ->. split; [done|].
  unfold lock_and_price, get_many_for_update, get_variants_for_update, _option_labels in Hrun. runs. cbn. eauto.
Qed.

Lemma new_order_run q o s s' : new_order q s = (inr o, s') → ∃ lines b price columns, placed q s s' o lines b price columns.
Proof.
  unfold new_order, _assert_pricing_configured, lines_of. intros Hrun.
  apply bind_inr in Hrun as (u0 & s0 & Hg & Hrun). apply raise_if_inr in Hg as [_ ->].
  apply bind_inr in Hrun as (cur & s0 & Hcur & Hrun). pose proof (frame_run _ _ _ _ _ only_resolve_currency Hcur) as F0. clear Hcur.
  apply bind_inr in Hrun as (columns & s1 & Hcol & Hrun). apply reads_only_run in Hcol as ->; [|apply reads_resolve_shipping].
  apply bind_inr in Hrun as (u1 & s1 & Hg & Hrun). apply raise_if_inr in Hg as [_ ->].
  apply bind_inr in Hrun as (cart & s1 & Hcart & Hrun). apply get_or_create_cart_inr in Hcart as (Hknown & Hrows & F1).
  apply bind_inr in Hrun as (lines & s2 & Hl & Hrun). apply db_gets_inr in Hl as [El ->].
  apply bind_inr in Hrun as (u2 & s2 & Hg & Hrun). apply raise_if_inr in Hg as [Hne ->].
  apply bind_inr in Hrun as (oid & s2 & Hu & Hrun). pose proof (frame_run _ _ _ _ _ only_new_uuid Hu) as F2. clear Hu.
  apply bind_inr in Hrun as ([[b ps] vs] & s3 & Hp & Hrun). apply lock_and_price_inr in Hp as (-> & Eps & Evs & labels & Hb).
  cbn [fst snd] in *. subst ps vs.
  apply bind_inr in Hrun as (u3 & s3 & Hc & Hrun). apply refuse_changed_inr in Hc as [Hc ->].
  apply bind_inr in Hrun as (price & s3 & Hprice & Hrun). pose proof (reads_only_run _ _ _ _ (reads_price_lines _ _ _ _ _) Hprice) as ->.
  apply bind_inr in Hrun as ([] & s3 & Ht & Hrun). pose proof (frame_run _ _ _ _ _ (only_take_stock _ _ _ _) Ht) as F3.
  apply take_stock_run in Ht as [Hps Hvs].
  apply bind_inr in Hrun as (t & s4 & Hn & Hrun). apply now_inr in Hn as [-> ->].
  apply bind_inr in Hrun as (o1 & s4 & Ho & Hrun). pose proof (frame_run _ _ _ _ _ (only_create_order _ _) Ho) as F4.
  apply create_order_run in Ho as (-> & Hfresh & Hos & Hits & Hkept & Hfair & Hck).
  apply bind_inr in Hrun as ([] & s5 & Hcl & Hrun). apply ret_inr in Hrun as [-> ->].
  pose proof (frame_run _ _ _ _ _ (only_clear _) Hcl) as F5. pose proof (clear_run _ _ _ _ Hcl) as Hcart. clear Hcl.
  same_table TCarts F2 G2. same_table TCarts F3 G3. same_table TCarts F4 G4. same_table TCarts F5 G5.
  assert (only [TStoreCurrency; TCarts] s s2) as F02.
  { etrans; [eapply only_weaken; [exact F0|done]|]. etrans; [eapply only_weaken; [exact F1|done]|eapply only_weaken; [exact F2|done]]. }
  same_table TProducts F02 A1. same_table TVariants F02 A2. same_table TCartItems F02 A3. same_table TOrders F02 A4. same_table TItems F02 A5.
  same_table TOrders F3 B4. same_table TItems F3 B5. same_table TCartItems F3 B3. same_table TProducts F4 C1. same_table TVariants F4 C2.
  same_table TCartItems F4 C3. same_table TProducts F5 D1. same_table TVariants F5 D2. same_table TOrders F5 D4. same_table TItems F5 D5.
  same_table TCartItems F0 E0. same_table TCartItems F1 E1.
  exists lines, b, price, columns. rewrite A1, A2 in *. split.
  - exists cart. split; [done|]. split; [by rewrite G5, G4, G3, G2|]. rewrite El. unfold cart_lines. rewrite E1, E0. split; [done|]. intros Hnil. rewrite El in Hne. unfold cart_lines in Hne.
    rewrite E1, E0 in Hne. by rewrite Hnil in Hne.
  - exists labels. exact Hb.
  - exact Hc.
  - exists s2. split; [exact F02|exact Hprice].
  - eexists _, _. rewrite (proj2 F3), (proj2 F02). reflexivity.
  - by rewrite <-A4, <-B4.
  - by rewrite D4, Hos, B4, A4.
  - unfold of_order in *. by rewrite D5, Hits, B5, A5.
  - by rewrite D5, <-A5, <-B5.
  - exact Hfair.
  - exact Hck.
  - by rewrite D1, C1.
  - by rewrite D2, C2.
  - intros k. by rewrite Hcart, C3, B3, A3.
  - etrans; [eapply only_weaken; [exact F02|done]|]. etrans; [eapply only_weaken; [exact F3|done]|].
    etrans; [eapply only_weaken; [exact F4|done]|eapply only_weaken; [exact F5|done]].
Qed.

Lemma zip_shares_facts {A} (f : OrderItem → A) ls shares :
  (∀ l n, f (with_share l n) = f l) → length shares = length ls → map f (zip_with with_share ls shares) = map f ls.
Proof.
  intros Hf. revert shares. induction ls as [|l ls IH]; intros [|n shares]; cbn; try done. intros [= Hlen]. by rewrite Hf, IH.
Qed.
Lemma zip_shares_discounts ls shares : length shares = length ls → map oi_discount_cents (zip_with with_share ls shares) = shares.
Proof. revert shares. induction ls as [|l ls IH]; intros [|n shares]; cbn; try done. intros [= Hlen]. by rewrite IH. Qed.

(** What the price is made of. *)
Lemma price_lines_inr q ps ls sub cols p s s' :
  price_lines q ps ls sub cols s = (inr p, s') →
  pr_subtotal p = sub ∧ length (pr_shares p) = length ls ∧
  pr_shares p = (if goods_cents (pr_discount p) =? 0 then map (λ _, 0) (map line_value ls)
                 else share_discount (goods_cents (pr_discount p)) (map line_value ls)) ∧
  match truthy_str (cq_coupon_code q) with
  | None => pr_coupon p = None ∧ pr_discount p = MkDiscount 0 0
  | Some c => (∃ x, pr_coupon p = Some x ∧ ∃ k, d_coupons (st_db s) !! k = Some x) ∧
      ∃ sh, evaluate (pr_coupon p) sub sh (cq_user_id q) (guest_only q (cq_guest_email q)) s = (inr (pr_discount p), s)
  end.
Proof.
  unfold price_lines. intros Hrun. apply bind_inr in Hrun as (sh & s1 & Hsh & Hrun).
  apply reads_only_run in Hsh as ->; [|unfold reads_only; uncommitted].
  apply bind_inr in Hrun as ([[[c d] sh'] shares] & s2 & Hc & Hrun). apply bind_inr in Hrun as (t & s3 & Ht & Hrun).
  apply ret_inr in Hrun as [-> ->]. cbn. split; [done|]. unfold apply_coupon in Hc. destruct (truthy_str _) as [code|].
  2:{ apply ret_inr in Hc as [[= -> -> -> ->] ->]. cbn. by rewrite !length_map. }
  apply bind_inr in Hc as (found & s4 & Hf & Hc). pose proof Hf as Hf'. apply reads_only_run in Hf' as ->; [|unfold reads_only; uncommitted].
  apply bind_inr in Hc as (disc & s5 & He & Hc). pose proof He as He'. apply reads_only_run in He' as ->; [|unfold reads_only; uncommitted].
  assert (∃ x, found = Some x ∧ ∃ k, d_coupons (st_db s) !! k = Some x) as Hsome.
  { unfold evaluate in He. apply bind_inr in He as (t0 & s6 & _ & He). apply bind_inr in He as (x & s7 & Hx & _).
    apply of_option_inr in Hx as [-> _]. exists x. split; [done|]. unfold find_by_code in Hf.
    apply bind_inr in Hf as (db & s8 & Hg & Hf). apply gets_inr in Hg as [-> ->]. apply scalar_inr in Hf as [_ Hf].
    assert (x ∈ [x]) as Hin by left. rewrite <-Hf, rows_where_elem in Hin. by destruct Hin. }
  destruct (goods_cents disc =? 0) eqn:Hz; cbn in Hc.
  - apply ret_inr in Hc as [[= -> -> -> ->] ->]. rewrite Hz, !length_map. split_and!; eauto.
  - apply bind_inr in Hc as (sh2 & s6 & _ & Hc). apply ret_inr in Hc as [[= -> -> -> ->] ->]. rewrite Hz. unfold share_discount at 1.
    rewrite length_allocate, length_map. split_and!; eauto.
Qed.
End placed.

Section checkout_properties.
Context `{!Settings} `{!Crypto} `{!Store}.

(** The lines of the new order are those of the basket. *)
Lemma placed_facts {A} (f : OrderItem → A) q s s' o lines b price columns (h : _ → A) :
  placed q s s' o lines b price columns → Inv (st_db s) → (∀ l, f l = h (line_facts l)) →
  map f (of_order (o_id o) (st_db s')) ≡ₚ map f (zip_with with_share (bk_lines b) (pr_shares price)).
Proof.
  intros Hpl HI Hf. assert (∀ l, map f l = map h (map line_facts l)) as Hm.
  { intros l. rewrite map_map. apply map_ext. exact Hf. }
  rewrite !Hm. apply Permutation_map. rewrite (pl_items _ _ _ _ _ _ _ _ Hpl).
  assert (of_order (o_id o) (st_db s) = []) as ->; [|done]. apply rows_where_nil. intros k i Hi. apply String.eqb_neq. intros Heq.
  destruct (inv_item_orders _ HI k i Hi) as [x Hx]. rewrite Heq in Hx. by rewrite (pl_fresh _ _ _ _ _ _ _ _ Hpl) in Hx.
Qed.

Lemma placed_shares q s s' o lines b price columns :
  placed q s s' o lines b price columns → length (pr_shares price) = length (bk_lines b) ∧ pr_subtotal price = bk_subtotal b.
Proof. intros [_ _ _ (s1 & _ & Hp) _ _ _ _ _ _ _ _ _ _ _]. by apply price_lines_inr in Hp as (-> & -> & _). Qed.

Lemma placed_bought q s s' o lines b price columns u :
  placed q s s' o lines b price columns → Inv (st_db s) → bought u (of_order (o_id o) (st_db s')) = bought u (bk_lines b).
Proof.
  intros Hpl HI. transitivity (bought u (zip_with with_share (bk_lines b) (pr_shares price))).
  - unfold bought. apply sumZ_perm.
    refine (placed_facts _ _ _ _ _ _ _ _ _ (λ '(p, _, _, n, v, _, _), if bool_decide ((match v with Some v => (true, v) | None => (false, p) end) = u) then n else 0) Hpl HI _).
    by intros [].
  - unfold bought. rewrite zip_shares_facts; [done|by intros []|]. by apply placed_shares in Hpl as [? _].
Qed.

(** The locked rows are keyed by their ids. *)
Lemma placed_basket q s s' o lines b price columns :
  placed q s s' o lines b price columns → Inv (st_db s) →
  basket_ok (filter (λ kv, kv.1 ∈ map ci_product_id (sort_lines lines)) (d_products (st_db s)))
    (filter (λ kv, kv.1 ∈ omap ci_variant_id (sort_lines lines)) (d_variants (st_db s))) (sort_lines lines) b.
Proof.
  intros Hpl HI. destruct (pl_basket _ _ _ _ _ _ _ _ Hpl) as [labels Hb].
  eapply (checkout_lines_ok _ _ _ _ _ (sort_lines lines) []); [apply empty_basket_ok|exact Hb].
  Unshelve.
  - intros k p [Hk _]%map_lookup_filter_Some. by eapply inv_product_keys.
  - intros k v [Hk _]%map_lookup_filter_Some. by eapply inv_variant_keys.
Qed.

(** C6. A placed order is pending and adds up: its subtotal is the sum of its lines, its total the subtotal less
    the discount plus shipping and the tax added, the discount lies between nothing and the subtotal, is
    nothing without a coupon, and is shared out over the lines to the last cent, none of them below zero. *)
Theorem checkout_adds_up q o s s' :
  new_order q s = (inr o, s') → Inv (st_db s) → o_subtotal_cents o < 10 ^ 12 →
  let ls := of_order (o_id o) (st_db s') in
  d_orders (st_db s') !! o_id o = Some o ∧ o_status o = PENDING ∧ ls ≠ [] ∧
  o_subtotal_cents o = sumZ (map line_value ls) ∧
  o_total_cents o = o_subtotal_cents o - o_discount_cents o + o_shipping_cents o + o_tax_cents o ∧
  0 ≤ o_discount_cents o ≤ o_subtotal_cents o ∧ (o_coupon_id o = None → o_discount_cents o = 0) ∧
  sumZ (map oi_discount_cents ls) = o_discount_cents o ∧ Forall fair_line ls.
Proof.
  intros Hrun HI Hmax. cbv zeta. apply new_order_run in Hrun as (lines & b & price & columns & Hpl).
  pose proof (placed_basket _ _ _ _ _ _ _ _ Hpl HI) as Hok. pose proof (placed_shares _ _ _ _ _ _ _ _ Hpl) as [Hlen Hsub].
  pose proof (pl_orders _ _ _ _ _ _ _ _ Hpl) as Hos. destruct (pl_lines _ _ _ _ _ _ _ _ Hpl) as (cart & _ & _ & _ & Hne).
  pose proof (placed_facts line_value _ _ _ _ _ _ _ _ (λ '(_, _, p, n, _, _, _), p * n) Hpl HI (λ _, eq_refl)) as Hv.
  pose proof (placed_facts oi_discount_cents _ _ _ _ _ _ _ _ (λ '(_, _, _, _, _, _, x), x) Hpl HI (λ _, eq_refl)) as Hd.
  pose proof (placed_facts (λ l, (oi_discount_cents l, line_value l)) _ _ _ _ _ _ _ _ (λ '(_, _, p, n, _, _, x), (x, p * n)) Hpl HI (λ _, eq_refl)) as Hf.
  rewrite zip_shares_facts in Hv by (done || by intros []). rewrite zip_shares_discounts in Hd by done.
  destruct (pl_price _ _ _ _ _ _ _ _ Hpl) as (s1 & _ & Hp). apply price_lines_inr in Hp as (_ & _ & Hsh & Hcoupon).
  pose proof (pl_fair _ _ _ _ _ _ _ _ Hpl) as Hfair. pose proof (pl_checks _ _ _ _ _ _ _ _ Hpl) as Hck.
  destruct (pl_order _ _ _ _ _ _ _ _ Hpl) as (cur & del & Eo). rewrite (ok_subtotal _ _ _ _ Hok) in Hsub.
  assert (o_status o = PENDING ∧ o_subtotal_cents o = pr_subtotal price ∧ o_discount_cents o = goods_cents (pr_discount price) ∧
          o_total_cents o = pr_total price ∧ o_shipping_cents o = pr_shipping price ∧ o_tax_cents o = tx_tax_paise (pr_tax price) ∧
          o_coupon_id o = cp_id <$> pr_coupon price) as (E1 & E2 & E3 & E4 & E5 & E6 & E7) by (rewrite Eo; done).
  assert (0 ≤ o_discount_cents o ≤ o_subtotal_cents o) as Hdisc.
  { unfold orders_checks in Hck. passed Hck. symmetry in Hg0. by apply check_None, andb_true_iff in Hg0 as [?%Z.leb_le ?%Z.leb_le]. }
  assert (Forall (Z.le 0) (map line_value (bk_lines b))) as Hpos.
  { rewrite <-(zip_shares_facts line_value (bk_lines b) (pr_shares price)) by (done || by intros []).
    apply List.Forall_map. eapply Forall_impl; [exact Hfair|]. unfold fair_line. cbn. lia. }
  split; [by rewrite Hos, lookup_insert_eq|]. split; [done|]. split.
  { intros Hnil. rewrite Hnil in Hv. apply Permutation_length in Hv. rewrite !length_map in Hv. cbn in Hv.
    pose proof (Forall2_length _ _ _ (ok_lines _ _ _ _ Hok)) as Hl. unfold sort_lines in Hl. rewrite (Permutation_length (merge_sort_Permutation _ _)) in Hl.
    destruct lines; [done|]. cbn in Hl. lia. }
  split; [by rewrite E2, Hsub; symmetry; apply sumZ_perm|]. split; [rewrite E4, E2, E3, E5, E6; done|]. split; [done|]. split.
  { rewrite E7, E3. intros Hc. destruct (truthy_str _); [|by destruct Hcoupon as [_ ->]]. destruct Hcoupon as [(c & Hs & _) _]. by rewrite Hs in Hc. }
  split.
  - rewrite (sumZ_perm _ _ Hd), Hsh, E3. destruct (Z.eqb_spec (goods_cents (pr_discount price)) 0) as [->|]; [apply sumZ_zeros|].
    apply allocate_sum_any; [done| |]; rewrite <-Hsub, <-E2; lia.
  - pose proof (proj2 (List.Forall_map (λ l, (oi_discount_cents l, line_value l)) (λ xy : Z * Z, 0 ≤ xy.1 ≤ xy.2) _) Hfair) as Hall.
    rewrite <-Hf in Hall. by apply List.Forall_map in Hall.
Qed.

(** The stock after an order was placed. *)
Lemma checkout_stock_run q o s s' :
  new_order q s = (inr o, s') → Inv (st_db s) →
  (∀ k p, d_products (st_db s) !! k = Some p →
     d_products (st_db s') !! k = Some (add_stock (- bought (false, k) (of_order (o_id o) (st_db s'))) p)) ∧
  (∀ k v, d_variants (st_db s) !! k = Some v →
     d_variants (st_db s') !! k = Some (add_vstock (- bought (true, k) (of_order (o_id o) (st_db s'))) v)).
Proof.
  intros Hrun HI. apply new_order_run in Hrun as (lines & b & price & columns & Hpl).
  pose proof (placed_basket _ _ _ _ _ _ _ _ Hpl HI) as [_ _ _ Hd Hvd _].
  split; intros k x Hk; rewrite (placed_bought _ _ _ _ _ _ _ _ _ Hpl HI).
  - by rewrite (pl_stock _ _ _ _ _ _ _ _ Hpl k), Hk, Hd.
  - by rewrite (pl_variants _ _ _ _ _ _ _ _ Hpl k), Hk, Hvd.
Qed.

(** C7. Placing an order takes exactly the units of its lines out of stock: every product and variant loses what
    the lines of the order sell of it, never more than it had, and all other stock stays. *)
Theorem checkout_takes_stock q o s s' :
  new_order q s = (inr o, s') → Inv (st_db s) →
  let ls := of_order (o_id o) (st_db s') in
  (∀ k p, d_products (st_db s) !! k = Some p →
     d_products (st_db s') !! k = Some (p <| p_stock := p_stock p - bought (false, k) ls |>) ∧
     (bought (false, k) ls ≠ 0 → bought (false, k) ls ≤ p_stock p)) ∧
  (∀ k v, d_variants (st_db s) !! k = Some v →
     d_variants (st_db s') !! k = Some (v <| pv_stock := pv_stock v - bought (true, k) ls |>) ∧
     (bought (true, k) ls ≠ 0 → bought (true, k) ls ≤ pv_stock v)).
Proof.
  intros Hrun HI. cbv zeta. apply new_order_run in Hrun as (lines & b & price & columns & Hpl).
  pose proof (placed_basket _ _ _ _ _ _ _ _ Hpl HI) as [_ _ Hrem Hd Hvd _].
  split; intros k x Hk; rewrite (placed_bought _ _ _ _ _ _ _ _ _ Hpl HI).
  - split; [rewrite (pl_stock _ _ _ _ _ _ _ _ Hpl k), Hk, Hd; cbn; f_equal; unfold add_stock; f_equal; lia|].
    intros Hne. specialize (Hrem (false, k)). destruct (bk_remaining b !! _) as [r|]; [|done]. destruct Hrem as [? Hs].
    unfold unit_stock in Hs; cbn in Hs. apply fmap_Some in Hs as (y & [Hy _]%map_lookup_filter_Some & Hs).
    rewrite Hk in Hy. injection Hy as <-. lia.
  - split; [rewrite (pl_variants _ _ _ _ _ _ _ _ Hpl k), Hk, Hvd; cbn; f_equal; unfold add_vstock; f_equal; lia|].
    intros Hne. specialize (Hrem (true, k)). destruct (bk_remaining b !! _) as [r|]; [|done]. destruct Hrem as [? Hs].
    unfold unit_stock in Hs; cbn in Hs. apply fmap_Some in Hs as (y & [Hy _]%map_lookup_filter_Some & Hs).
    rewrite Hk in Hy. injection Hy as <-. lia.
Qed.

(** What a cart line asks for, and what an order line gives. *)
Definition cart_line_facts (i : CartItem) := (ci_product_id i, ci_variant_id i, ci_quantity i, ci_price_cents_snapshot i).
Definition order_line_facts (l : OrderItem) := (oi_product_id l, oi_variant_id l, oi_quantity l, oi_price_cents_snapshot l).

Lemma cart_lines_elem d cid i : i ∈ cart_lines d cid ↔ (∃ k, d_cart_items d !! k = Some i) ∧ ci_cart_id i = cid.
Proof. unfold cart_lines, order_by. rewrite merge_sort_Permutation, rows_where_elem, Z.eqb_eq. tauto. Qed.

(** The lines that were sold are gone; every other line of every cart is as it was. *)
Lemma placed_cart q s s' o lines b price columns :
  placed q s s' o lines b price columns → Inv (st_db s) →
  ∃ cart, rows_where (owns_cart (cq_user_id q) (cq_guest_token q)) (d_carts (st_db s')) = [cart] ∧
    lines = cart_lines (st_db s) (c_id cart) ∧ lines ≠ [] ∧ cart_lines (st_db s') (c_id cart) = [] ∧
    ∀ k i, ci_cart_id i ≠ c_id cart → (d_cart_items (st_db s') !! k = Some i ↔ d_cart_items (st_db s) !! k = Some i).
Proof.
  intros Hpl HI. destruct (pl_lines _ _ _ _ _ _ _ _ Hpl) as (cart & _ & Hrows & El & Hne). exists cart. split_and!; try done.
  - destruct (cart_lines (st_db s') (c_id cart)) as [|i l] eqn:Hc; [done|]. exfalso.
    assert (i ∈ cart_lines (st_db s') (c_id cart)) as [[k Hk] Hcid]%cart_lines_elem by (rewrite Hc; left).
    rewrite (pl_cart _ _ _ _ _ _ _ _ Hpl) in Hk. case_bool_decide as Hin; [done|]. apply Hin.
    destruct (inv_cart_items _ HI _ _ Hk) as [<- _]. apply list_elem_of_fmap. exists i. split; [done|].
    rewrite El. apply cart_lines_elem. eauto.
  - intros k i Hcid. rewrite (pl_cart _ _ _ _ _ _ _ _ Hpl). case_bool_decide as Hin; [|done]. split; [done|]. intros Hk. exfalso.
    apply list_elem_of_fmap in Hin as (j & Hj & Hin). rewrite El in Hin. apply cart_lines_elem in Hin as [[k' Hk'] Hjc].
    destruct (inv_cart_items _ HI _ _ Hk') as [<- _]. rewrite <-Hj in Hk'. congruence.
Qed.

(** C20. The order sells exactly what is in the caller's cart, at the prices the cart showed; afterwards that cart
    is empty and every line of every other cart is as it was. *)
Theorem checkout_sells_cart q o s s' :
  new_order q s = (inr o, s') → Inv (st_db s) →
  ∃ cart, rows_where (owns_cart (cq_user_id q) (cq_guest_token q)) (d_carts (st_db s')) = [cart] ∧
    cart_lines (st_db s) (c_id cart) ≠ [] ∧
    map order_line_facts (of_order (o_id o) (st_db s')) ≡ₚ map cart_line_facts (cart_lines (st_db s) (c_id cart)) ∧
    cart_lines (st_db s') (c_id cart) = [] ∧
    ∀ k i, ci_cart_id i ≠ c_id cart → (d_cart_items (st_db s') !! k = Some i ↔ d_cart_items (st_db s) !! k = Some i).
Proof.
  intros Hrun HI. apply new_order_run in Hrun as (lines & b & price & columns & Hpl).
  destruct (placed_cart _ _ _ _ _ _ _ _ Hpl HI) as (cart & Hrows & El & Hne & Hempty & Hkeep). exists cart. rewrite <-El.
  split_and!; try done. pose proof (placed_basket _ _ _ _ _ _ _ _ Hpl HI) as [Hl _ _ _ _ Hc]. pose proof (pl_unchanged _ _ _ _ _ _ _ _ Hpl) as Hsame.
  rewrite (placed_facts order_line_facts _ _ _ _ _ _ _ _ (λ '(p, _, x, n, v, _, _), (p, v, n, x)) Hpl HI) by by intros [].
  rewrite zip_shares_facts by (by intros [] || by apply placed_shares in Hpl as [? _]).
  rewrite <-(Permutation_map cart_line_facts (merge_sort_Permutation line_le lines)).
  fold (sort_lines lines). apply (proj1 Hc) in Hsame. clear -Hl Hsame. induction Hl as [|i l is_ ls_ Hi _ IH]; cbn; [done|].
  apply Forall2_cons in Hsame as [Hs Hrest]. rewrite IH by done. unfold order_line_facts at 1, cart_line_facts at 2.
  destruct Hi as (? & ? & ? & ? & _ & _ & -> & -> & _ & -> & _). by rewrite Hs.
Qed.

(** The orders placed under the request's key by the same caller. *)
Definition same_key (q : CheckoutRequest) (o : Order) : bool :=
  String.eqb (o_idempotency_key o) (cq_idempotency_key q)
  && match cq_user_id q with
     | Some u => opt_eqb (o_user_id o) (Some u)
     | None => negb (opt_eqb (cq_guest_token q) None) && opt_eqb (o_guest_token o) (cq_guest_token q)
     end.

Lemma get_by_key_inr q ex s s' :
  get_by_idempotency_key (cq_idempotency_key q) (cq_user_id q) (cq_guest_token q) s = (inr ex, s') →
  s' = s ∧ rows_where (same_key q) (d_orders (st_db s)) = match ex with Some x => [x] | None => [] end.
Proof. unfold get_by_idempotency_key. intros Hrun. runs. by split. Qed.
Lemma get_by_key_found q x s :
  rows_where (same_key q) (d_orders (st_db s)) = [x] →
  get_by_idempotency_key (cq_idempotency_key q) (cq_user_id q) (cq_guest_token q) s = (inr (Some x), s).
Proof. intros Hrows. unfold get_by_idempotency_key, gets, mbind, ST_bind. unfold same_key in Hrows. by rewrite Hrows. Qed.

(** A request found under its key is answered again. *)
Lemma replay_again q x o s s' : replay q x s = (inr o, s') → o = x ∧ only [TCarts] s s' ∧ replay q x s' = (inr x, s').
Proof.
  unfold replay. intros Hrun. apply bind_inr in Hrun as (u & s1 & Hg & Hrun). apply raise_if_inr in Hg as [-> ->].
  destruct (o_cart_digest x) as [digest|]; [|by apply ret_inr in Hrun as [-> ->]].
  apply bind_inr in Hrun as (c & s1 & Hc & Hrun). apply get_or_create_cart_inr in Hc as (Hk & Hrows & F).
  apply bind_inr in Hrun as (lines & s2 & Hl & Hrun). pose proof Hl as [-> ->]%db_gets_inr.
  apply bind_inr in Hrun as (u1 & s2 & Hr & Hrun). apply raise_if_inr in Hr as [Hr ->]. apply ret_inr in Hrun as [-> ->].
  split; [done|]. split; [done|]. rewrite (bind_run _ _ _ tt s1) by done. rewrite (bind_run _ _ _ c s1) by by apply get_or_create_cart_found.
  rewrite (bind_run _ _ _ _ s1 Hl), Hr. by rewrite (bind_run _ _ _ tt s1).
Qed.
Lemma replay_placed q s s' o lines b price columns :
  placed q s s' o lines b price columns → Inv (st_db s) → replay q o s' = (inr o, s').
Proof.
  intros Hpl HI. destruct (placed_cart _ _ _ _ _ _ _ _ Hpl HI) as (cart & Hrows & _ & _ & Hempty & _).
  destruct (pl_lines _ _ _ _ _ _ _ _ Hpl) as (_ & Hk & _). destruct (pl_order _ _ _ _ _ _ _ _ Hpl) as (cur & del & Eo).
  assert (o_request_hash o = Some (_request_fingerprint q) ∧ o_cart_digest o = Some (cart_digest lines)) as [E1 E2] by (rewrite Eo; done).
  unfold replay. rewrite E1, E2, String.eqb_refl; cbn [negb]. rewrite (bind_run _ _ _ tt s') by done.
  rewrite (bind_run _ _ _ cart s') by by apply get_or_create_cart_found.
  rewrite (bind_run _ _ _ [] s') by (unfold lines_of, db_gets, gets; by rewrite Hempty). by rewrite (bind_run _ _ _ tt s').
Qed.

(** C21. A checkout that the service is asked for again, in the same words, gives the same order and changes nothing: no
    second order, no stock taken twice. (The endpoint around it also renews the payment token of a guest.) *)
Theorem checkout_retry q o s s' :
  checkout q s = (inr o, s') → Inv (st_db s) → checkout q s' = (inr o, s').
Proof.
  intros Hrun HI. unfold checkout in *. apply bind_inr in Hrun as (u & s1 & Hg & Hrun). apply raise_if_inr in Hg as [Hg ->].
  apply bind_inr in Hrun as (ex & s1 & He & Hrun). apply get_by_key_inr in He as [-> He].
  rewrite Hg, (bind_run _ _ _ tt s') by done. destruct ex as [x|].
  - apply replay_again in Hrun as (-> & F & Hagain). same_table TOrders F T.
    by rewrite (bind_run _ _ _ (Some x) s') by (apply get_by_key_found; by rewrite T).
  - apply new_order_run in Hrun as (lines & b & price & columns & Hpl).
    rewrite (bind_run _ _ _ (Some o) s'); [by eapply replay_placed|]. apply get_by_key_found.
    rewrite (pl_orders _ _ _ _ _ _ _ _ Hpl). apply rows_where_replace; [done|].
    destruct (pl_lines _ _ _ _ _ _ _ _ Hpl) as (_ & Hk & _). destruct (pl_order _ _ _ _ _ _ _ _ Hpl) as (cur & del & Eo).
    assert (o_idempotency_key o = cq_idempotency_key q ∧ o_user_id o = cq_user_id q ∧ o_guest_token o = guest_only q (cq_guest_token q))
      as (E1 & E2 & E3) by (rewrite Eo; done).
    unfold same_key. rewrite E1, E2, E3, String.eqb_refl. unfold guest_only, is_guest. cbn. destruct (cq_user_id q) as [v|]; cbn.
    + by apply bool_decide_eq_true.
    + rewrite opt_eqb_ne by by apply Hk. cbn. apply opt_eqb_refl.
Qed.

(** Nothing but changed prices raises [PriceChangedError]. *)
Definition not_price_change (e : Err) : Prop := match e with EOrder (PriceChangedError _ _) => False | _ => True end.

Lemma currency_error c e : get_currency c = inl e → not_price_change e.
Proof. unfold get_currency. repeat case_match; by intros [= <-]. Qed.
Lemma lines_error ps vs labels items : ∀ b e, checkout_lines ps vs labels b items = inl e → not_price_change e.
Proof.
  induction items as [|i items IH]; intros b e; cbn; [done|]. destruct (checkout_line ps vs labels b i) as [x|b1] eqn:Hi; cbn; [|apply IH].
  intros [= <-]. revert Hi. unfold checkout_line, line_unit. repeat (case_match; cbn); intros [= <-]; done.
Qed.
Lemma discount_error k p a m s sh e : compute_discount k p a m s sh = inl e → not_price_change e.
Proof. unfold compute_discount. repeat case_match; by intros [= <-]. Qed.
Lemma calculate_error a b c d e f x : calculate a b c d e f = inl x → not_price_change x.
Proof. unfold calculate. repeat case_match; by intros [= <-]. Qed.
#[local] Hint Resolve currency_error lines_error discount_error calculate_error : raises.
Lemma raises_map_m {A B} (f : A → M B) l : (∀ x, raises not_price_change (f x)) → raises not_price_change (map_m f l).
Proof. intros Hf. induction l; cbn; solve_raises. Qed.
#[local] Hint Extern 1 (raises _ (map_m _ _)) => (apply raises_map_m; solve_raises) : raises.
Lemma raises_resolve_currency : raises not_price_change _resolve_currency.
Proof. solve_raises. Qed.
Lemma raises_price_lines a b c d e : raises not_price_change (price_lines a b c d e).
Proof. solve_raises. Qed.

Lemma raises_get_or_create u g : raises not_price_change (get_or_create_cart u g).
Proof. solve_raises. Qed.
Lemma raises_resolve_shipping a b c : raises not_price_change (_resolve_shipping_snapshot a b c).
Proof. solve_raises. Qed.
Lemma raises_lock_and_price l : raises not_price_change (lock_and_price l).
Proof. solve_raises. Qed.
Lemma raises_take_stock a b c d : raises not_price_change (take_stock a b c d).
Proof. solve_raises. Qed.
Lemma raises_create_order o l : raises not_price_change (create_order o l).
Proof. solve_raises. Qed.
Lemma raises_clear l : raises not_price_change (clear l).
Proof. solve_raises. Qed.
#[local] Hint Resolve raises_resolve_currency raises_price_lines raises_get_or_create raises_resolve_shipping raises_lock_and_price
  raises_take_stock raises_create_order raises_clear : raises.

(** The refusal itself. *)
Lemma refuse_changed_inl b c sub s s' :
  refuse_changed_prices b s = (inl (EOrder (PriceChangedError c sub)), s') →
  bk_changes b ≠ [] ∧ c = map snd (bk_changes b) ∧ sub = bk_subtotal b ∧ only [TCartItems] s s'.
Proof.
  intros Hrun. assert (only [TCartItems] s s') as F.
  { eapply frame_run; [|exact Hrun]. unfold refuse_changed_prices, set_price_snapshot. solve_frame. }
  unfold refuse_changed_prices in Hrun. destruct (bk_changes b) as [|x l] eqn:Hb; [done|].
  apply bind_inl in Hrun as [Hf|(u & s1 & _ & Hrun)].
  - apply (raises_run not_price_change) in Hf; [done|]. solve_raises.
  - injection Hrun as <- <- <-. done.
Qed.

(** Past a step that cannot be the one that raised. *)
Ltac skip Hrun x s Hm :=
  apply bind_inl in Hrun as [Hrun|(x & s & Hm & Hrun)];
  [exfalso; apply (raises_run not_price_change) in Hrun; [done|solve_raises]|].
(** *** What the prices are now *)

(** The price of a cart line's product or variant. *)
Definition unit_price (d : DB) (i : CartItem) : option Z :=
  p ← d_products d !! ci_product_id i;
  match ci_variant_id i with
  | Some vid => v ← d_variants d !! vid; Some (effective_price v (p_price_cents p))
  | None => Some (p_price_cents p)
  end.
(** What the customer is told of a line whose price moved, with the line. *)
Definition price_change (d : DB) (i : CartItem) : option (Z * PriceChange) :=
  p ← d_products d !! ci_product_id i;
  price ← unit_price d i;
  if ci_price_cents_snapshot i =? price then None
  else Some (ci_id i, MkPriceChange (p_id p) (p_name p) (ci_price_cents_snapshot i) price
                        ((λ v, (pv_id v, pv_sku v)) <$> (ci_variant_id i ≫= λ vid, d_variants d !! vid))).
Definition value_now (d : DB) (i : CartItem) : Z := default 0 (unit_price d i) * ci_quantity i.
(** A line of that cart with the price of now. *)
Definition brought_up (d : DB) (cid : Z) (i : CartItem) : CartItem :=
  if ci_cart_id i =? cid then match unit_price d i with Some p => i <| ci_price_cents_snapshot := p |> | None => i end else i.

Section changes.
Variables (d : DB) (products : gmap Z Product) (variants : gmap Z ProductVariant) (labels : gmap Z (string * string)).
Hypothesis variant_keys : ∀ k v, d_variants d !! k = Some v → pv_id v = k.
Hypothesis product_keys : ∀ k p, d_products d !! k = Some p → p_id p = k.
Hypothesis products_sub : products ⊆ d_products d.
Hypothesis variants_sub : variants ⊆ d_variants d.

Lemma checkout_line_changes b i b' :
  checkout_line products variants labels b i = inr b' →
  bk_changes b' = bk_changes b ++ omap (price_change d) [i] ∧ bk_subtotal b' = bk_subtotal b + value_now d i ∧ unit_price d i ≠ None.
Proof.
  unfold checkout_line. destruct (line_unit products variants i) as [e|[[[p v] price] stock]] eqn:Hu; cbn [mbind sum_bind]; [done|].
  apply line_unit_inr in Hu as (Hp & Kp & _ & Hv); [|intros k w Hk; eapply product_keys, lookup_weaken; [exact Hk|done]|intros k w Hk; eapply variant_keys, lookup_weaken; [exact Hk|done]].
  apply (lookup_weaken _ _ _ _ Hp) in products_sub as Hdp.
  assert (unit_price d i = Some price ∧ (ci_variant_id i ≫= λ vid, d_variants d !! vid) = v) as [Hprice Hvar].
  { unfold unit_price. rewrite Hdp. cbn. destruct v as [v|]; [destruct Hv as (-> & Hv & _ & _ & -> & _)|by destruct Hv as (-> & _ & -> & _)].
    apply (lookup_weaken _ _ _ _ Hv) in variants_sub as Hdv. cbn. by rewrite Hdv. }
  destruct (_ <? _); [done|]. intros [= <-]. cbn. unfold value_now, price_change. rewrite Hdp, Hprice, Hvar. cbn.
  split; [by destruct (ci_price_cents_snapshot i =? price)|done].
Qed.
Lemma checkout_lines_changes items : ∀ b b',
  checkout_lines products variants labels b items = inr b' →
  bk_changes b' = bk_changes b ++ omap (price_change d) items ∧ bk_subtotal b' = bk_subtotal b + sumZ (map (value_now d) items) ∧
  ∀ i, i ∈ items → unit_price d i ≠ None.
Proof.
  induction items as [|i items IH]; intros b b'; cbn.
  - intros [= <-]. rewrite app_nil_r, Z.add_0_r. split_and!; [done..|]. by intros i ?%elem_of_nil.
  - destruct (checkout_line products variants labels b i) as [e|b1] eqn:Hi; cbn; [done|]. intros Hrun.
    apply checkout_line_changes in Hi as (F1 & F2 & F3). apply IH in Hrun as (G1 & G2 & G3). rewrite G1, G2, F1, F2, <-app_assoc.
    split; [cbn; by destruct (price_change d i)|]. split; [unfold sumZ; lia|]. intros j [->|Hj]%elem_of_cons; [done|by apply G3].
Qed.
End changes.

(** *** The refusal *)

(** Rows of the cart get the price of the row with their key. *)
Definition priced_at (price : Z → Z) (cs : list (Z * PriceChange)) (k : Z) (i : CartItem) : CartItem :=
  if bool_decide (k ∈ map fst cs) then i <| ci_price_cents_snapshot := price k |> else i.
Lemma snapshots_run price cs : ∀ s,
  (∀ c, c ∈ cs → pc_new_price_cents c.2 = price c.1 ∧ ∃ i, d_cart_items (st_db s) !! c.1 = Some i ∧ 0 < ci_quantity i) →
  ∃ m, for_each cs (λ c, set_price_snapshot c.1 (pc_new_price_cents c.2)) s = (inr tt, set_db (λ d, d <| d_cart_items := m |>) s) ∧
    ∀ k, m !! k = priced_at price cs k <$> d_cart_items (st_db s) !! k.
Proof.
  induction cs as [|c cs IH]; intros s Hall.
  - exists (d_cart_items (st_db s)). split; [by destruct s as [[] ? ? ? ? ?]|]. intros k. unfold priced_at. cbn. by destruct (_ !! k).
  - destruct (Hall c) as (Hprice & i & Hi & Hq); [left|]. cbn [for_each]. set (i' := i <| ci_price_cents_snapshot := price c.1 |>).
    rewrite (bind_run _ _ s tt (set_db (λ d, d <| d_cart_items ::= <[c.1 := i']> |>) s)).
    2: { unfold set_price_snapshot, update_cart_item. erewrite bind_run by reflexivity. cbv beta. rewrite Hi, Hprice. cbn [of_option].
         erewrite bind_run by reflexivity. cbv beta. assert (cart_items_checks (i <| ci_price_cents_snapshot := price c.1 |>) = None) as ->; [|reflexivity].
         unfold cart_items_checks. apply check_None. by apply Z.ltb_lt. }
    destruct (IH (set_db (λ d, d <| d_cart_items ::= <[c.1 := i']> |>) s)) as (m & Hrun & Hm).
    { intros c' Hc'. destruct (Hall c') as (Hp & j & Hj & Hjq); [by right|]. split; [done|]. rewrite db_set. cbn.
      destruct (decide (c.1 = c'.1)) as [<-|Hne]; [exists i'; by rewrite lookup_insert_eq|exists j; by rewrite lookup_insert_ne]. }
    exists m. split; [exact Hrun|]. intros k. rewrite Hm, db_set. cbn. unfold priced_at. cbn [map].
    destruct (decide (c.1 = k)) as [<-|Hne].
    + rewrite lookup_insert_eq, Hi, (bool_decide_eq_true_2 (c.1 ∈ c.1 :: _)) by left. cbn. by case_bool_decide.
    + rewrite lookup_insert_ne by done. destruct (d_cart_items (st_db s) !! k); [|done]. cbn. f_equal.
      rewrite (bool_decide_ext (k ∈ c.1 :: map fst cs) (k ∈ map fst cs)); [done|]. rewrite elem_of_cons. naive_solver.
Qed.

(** The checkout up to the comparison of the prices, and from there. *)
Definition until_priced (q : CheckoutRequest) :
    M (Currency * Columns * list CartItem * uuid * (Basket * gmap Z Product * gmap Z ProductVariant)) :=
  _ ← _assert_pricing_configured;
  currency ← _resolve_currency;
  columns ← _resolve_shipping_snapshot (cq_user_id q) (cq_address_id q) (cq_shipping_address q);
  _ ← raise_if (negb (dd_deliverable (eligibility_check columns))) (EOrder (DeliveryNotAvailableError (dd_reason (eligibility_check columns))));
  cart ← get_or_create_cart (cq_user_id q) (cq_guest_token q);
  lines ← lines_of (c_id cart);
  _ ← raise_if (length lines =? 0)%nat (EOrder EmptyCartError);
  order_id ← new_uuid;
  priced ← lock_and_price (sort_lines lines);
  mret (currency, columns, lines, order_id, priced).
Definition from_priced (q : CheckoutRequest)
    (x : Currency * Columns * list CartItem * uuid * (Basket * gmap Z Product * gmap Z ProductVariant)) : M Order :=
  let '(currency, columns, lines, order_id, (b, products, variants)) := x in
  _ ← refuse_changed_prices b;
  price ← price_lines q products (bk_lines b) (bk_subtotal b) columns;
  _ ← take_stock order_id b products variants;
  t ← now;
  order ← create_order (order_row q order_id (cart_digest lines) currency (eligibility_check columns) columns price t)
            (zip_with (λ l share, l <| oi_discount_cents := share |>) (bk_lines b) (pr_shares price));
  _ ← clear lines;
  mret order.
Lemma new_order_split q s : new_order q s = (until_priced q ≫= from_priced q) s.
Proof.
  unfold new_order, until_priced. cbv zeta. repeat (rewrite bind_assoc; apply bind_same; [done|]; intros ? ?).
  by match goal with x : Basket * _ * _ |- _ => destruct x as [[? ?] ?] end.
Qed.

(** What it found when it came so far. *)
Lemma until_priced_inr q cart s x s1 :
  Inv (st_db s) → known_caller (cq_user_id q) (cq_guest_token q) →
  rows_where (owns_cart (cq_user_id q) (cq_guest_token q)) (d_carts (st_db s)) = [cart] → until_priced q s = (inr x, s1) →
  let lines := cart_lines (st_db s) (c_id cart) in
  only [TStoreCurrency] s s1 ∧ bk_changes x.2.1.1 = omap (price_change (st_db s)) (sort_lines lines) ∧
  bk_subtotal x.2.1.1 = sumZ (map (value_now (st_db s)) (sort_lines lines)) ∧ ∀ i, i ∈ lines → unit_price (st_db s) i ≠ None.
Proof.
  intros HI Hknown Hrows Hrun. unfold until_priced, _assert_pricing_configured, lines_of in Hrun.
  apply bind_inr in Hrun as (u0 & s0 & Hg & Hrun). apply raise_if_inr in Hg as [_ ->].
  apply bind_inr in Hrun as (cur & s0 & Hcur & Hrun). pose proof (frame_run _ _ _ _ _ only_resolve_currency Hcur) as F0. clear Hcur.
  apply bind_inr in Hrun as (columns & s2 & Hcol & Hrun). apply reads_only_run in Hcol as ->; [|apply reads_resolve_shipping].
  apply bind_inr in Hrun as (u1 & s2 & Hg & Hrun). apply raise_if_inr in Hg as [_ ->]. same_table TCarts F0 A0.
  rewrite (bind_run _ _ s0 cart s0) in Hrun by (apply get_or_create_cart_found; [done|by rewrite A0]).
  apply bind_inr in Hrun as (lines & s2 & Hl & Hrun). apply db_gets_inr in Hl as [El ->].
  apply bind_inr in Hrun as (u2 & s2 & Hg & Hrun). apply raise_if_inr in Hg as [Hne ->].
  apply bind_inr in Hrun as (oid & s2 & Hu & Hrun). pose proof (frame_run _ _ _ _ _ only_new_uuid Hu) as F2. clear Hu.
  apply bind_inr in Hrun as (priced & s3 & Hp & Hrun). apply lock_and_price_inr in Hp as (-> & Eps & Evs & labels & Hb).
  apply ret_inr in Hrun as [-> ->]. cbn [snd].
  assert (only [TStoreCurrency] s s2) as F by (etrans; [exact F0|eapply only_weaken; [exact F2|done]]).
  same_table TProducts F A1. same_table TVariants F A2. same_table TCartItems F0 A3.
  assert (lines = cart_lines (st_db s) (c_id cart)) as -> by (rewrite El; unfold cart_lines; by rewrite A3).
  split; [exact F|]. rewrite Eps, Evs, A1, A2 in Hb.   apply (checkout_lines_changes (st_db s)) in Hb as (C1 & C2 & C3); [|by apply inv_variant_keys|by apply inv_product_keys|apply map_filter_subseteq|apply map_filter_subseteq].
  rewrite C1, C2. split; [done|]. split; [done|]. intros i Hi. apply C3. unfold sort_lines. by rewrite merge_sort_Permutation.
Qed.
Lemma price_change_inr d i c : price_change d i = Some c →
  c.1 = ci_id i ∧ unit_price d i = Some (pc_new_price_cents c.2) ∧ pc_new_price_cents c.2 ≠ ci_price_cents_snapshot i.
Proof.
  unfold price_change. destruct (d_products d !! _) as [p|]; cbn; [|done]. destruct (unit_price d i) as [price|]; cbn; [|done].
  destruct (Z.eqb_spec (ci_price_cents_snapshot i) price); [done|]. intros [= <-]. cbn. auto.
Qed.
Lemma price_change_none d i : unit_price d i ≠ None → price_change d i = None → unit_price d i = Some (ci_price_cents_snapshot i).
Proof.
  unfold price_change. destruct (unit_price d i) as [price|] eqn:Hu; [|done]. intros _.
  unfold unit_price in Hu. destruct (d_products d !! _) as [p|]; [|done]. cbn. destruct (Z.eqb_spec (ci_price_cents_snapshot i) price); [congruence|done].
Qed.

(** The refusal brings the cart up to date. *)
Lemma refusal_runs q cart s x s1 :
  Inv (st_db s) → known_caller (cq_user_id q) (cq_guest_token q) →
  rows_where (owns_cart (cq_user_id q) (cq_guest_token q)) (d_carts (st_db s)) = [cart] → until_priced q s = (inr x, s1) →
  let lines := sort_lines (cart_lines (st_db s) (c_id cart)) in
  omap (price_change (st_db s)) lines ≠ [] →
  ∃ s', new_order q s = (inl (EOrder (PriceChangedError (map snd (omap (price_change (st_db s)) lines)) (sumZ (map (value_now (st_db s)) lines)))), s') ∧
    (∀ k, d_cart_items (st_db s') !! k = brought_up (st_db s) (c_id cart) <$> d_cart_items (st_db s) !! k) ∧
    only [TStoreCurrency; TCartItems] s s'.
Proof.
  intros HI Hknown Hrows Hx lines Hmoved. destruct (until_priced_inr _ _ _ _ _ HI Hknown Hrows Hx) as (F & Hb & Hsub & Hpriced). fold lines in Hb, Hsub.
  rewrite new_order_split, (bind_run _ _ _ _ _ Hx). destruct x as [[[[cur cols] ls] oid] [[b ps] vs]]. cbn [snd fst] in Hb, Hsub.
  same_table TCartItems F Hitems.
  assert (∀ i, i ∈ lines ↔ (∃ k, d_cart_items (st_db s) !! k = Some i) ∧ ci_cart_id i = c_id cart) as Hlines.
  { intros i. unfold lines, sort_lines. by rewrite merge_sort_Permutation, cart_lines_elem. }
  set (price k := default 0 (i ← d_cart_items (st_db s) !! k; unit_price (st_db s) i)).
  destruct (snapshots_run price (bk_changes b) s1) as (m & Hrun & Hm).
  { intros c Hc. rewrite Hb in Hc. apply list_elem_of_omap in Hc as (i & Hi & Hc). apply Hlines in Hi as [[k Hk] _].
    apply price_change_inr in Hc as (-> & Hp & _). destruct (inv_cart_items _ HI _ _ Hk) as [<- Hq]. unfold price. rewrite Hk. cbn. rewrite Hp.
    split; [done|]. exists i. by rewrite Hitems. }
  exists (set_db (λ d, d <| d_cart_items := m |>) s1). split; [|split].
  - unfold from_priced, refuse_changed_prices. destruct (bk_changes b) as [|c cs] eqn:Hcs; [congruence|]. apply bind_fail.
    rewrite (bind_run _ _ _ _ _ Hrun). by rewrite <-Hb, <-Hsub.
  - intros k. rewrite db_set. cbn. rewrite Hm, Hitems. destruct (d_cart_items (st_db s) !! k) as [i|] eqn:Hk; [|done]. cbn. f_equal.
    destruct (inv_cart_items _ HI _ _ Hk) as [Hid _]. unfold priced_at, brought_up.
    destruct (Z.eqb_spec (ci_cart_id i) (c_id cart)) as [Hc|Hc].
    + assert (i ∈ lines) as Hin by (apply Hlines; eauto). assert (unit_price (st_db s) i ≠ None) as Hu.
      { apply Hpriced. revert Hin. unfold lines, sort_lines. by rewrite merge_sort_Permutation. }
      case_bool_decide as Hmem.
      * destruct (unit_price (st_db s) i) as [p|] eqn:Hp; [|done]. unfold price. by rewrite Hk; cbn; rewrite Hp.
      * destruct (price_change (st_db s) i) as [c|] eqn:Hpc.
        { elim Hmem. apply list_elem_of_fmap. exists c. split; [by destruct (price_change_inr _ _ _ Hpc) as [-> _]|]. rewrite Hb. apply list_elem_of_omap. eauto. }
        apply price_change_none in Hpc; [|done]. rewrite Hpc. by destruct i.
    + rewrite bool_decide_eq_false_2; [done|]. intros (c & -> & Hin)%list_elem_of_fmap. rewrite Hb in Hin. apply list_elem_of_omap in Hin as (j & Hj & Hpc).
      apply Hlines in Hj as [[k' Hk'] Hjc]. apply price_change_inr in Hpc as [Hcid _]. destruct (inv_cart_items _ HI _ _ Hk') as [Hjid _].
      assert (k' = c.1) as -> by congruence. congruence.
  - etrans; [eapply only_weaken; [exact F|done]|]. split; [|done]. intros [] Ht; done.
Qed.

(** C22. While the price of a product or variant in the caller's cart differs from the one the cart shows, no order is placed.
    Once nothing else stands in the way of pricing (configuration, address, delivery, stock, tax), the answer is the change of
    price and no other: every line whose price moved, with the old and the new price, and the subtotal at the prices of now;
    the lines of that cart are brought up to these prices, and nothing else changes but the store's currency where there was
    none. A change of price is never answered otherwise. *)
Theorem changed_price_refused q cart s :
  Inv (st_db s) → known_caller (cq_user_id q) (cq_guest_token q) →
  rows_where (owns_cart (cq_user_id q) (cq_guest_token q)) (d_carts (st_db s)) = [cart] →
  let lines := sort_lines (cart_lines (st_db s) (c_id cart)) in let moved := omap (price_change (st_db s)) lines in
  (moved ≠ [] → ∀ o s', new_order q s ≠ (inr o, s')) ∧
  (∀ x s1, until_priced q s = (inr x, s1) → moved ≠ [] →
     ∃ s', new_order q s = (inl (EOrder (PriceChangedError (map snd moved) (sumZ (map (value_now (st_db s)) lines)))), s') ∧
       (∀ k, d_cart_items (st_db s') !! k = brought_up (st_db s) (c_id cart) <$> d_cart_items (st_db s) !! k) ∧
       only [TStoreCurrency; TCartItems] s s') ∧
  (∀ c sub s', new_order q s = (inl (EOrder (PriceChangedError c sub)), s') → moved ≠ [] ∧ ∃ x s1, until_priced q s = (inr x, s1)).
Proof.
  intros HI Hknown Hrows. cbv zeta. split_and!.
  - intros Hmoved o s' Hrun. pose proof Hrun as Hrun2. rewrite new_order_split in Hrun2. apply bind_inr in Hrun2 as (x & s1 & Hx & _).
    destruct (refusal_runs _ _ _ _ _ HI Hknown Hrows Hx Hmoved) as (s2 & Heq & _). congruence.
  - intros x s1 Hx Hmoved. by eapply refusal_runs.
  - intros c sub s' Hrun. rewrite new_order_split in Hrun. apply bind_inl in Hrun as [Hrun|(x & s1 & Hx & Hrun)].
    { exfalso. apply (raises_run not_price_change) in Hrun; [done|]. solve_raises. }
    split; [|by eexists _, _]. destruct (until_priced_inr _ _ _ _ _ HI Hknown Hrows Hx) as (_ & Hb & _). rewrite <-Hb.
    destruct x as [[[[cur cols] ls] oid] [[b ps] vs]]. cbn [snd fst] in *. unfold from_priced in Hrun. apply bind_inl in Hrun as [Hrun|(u & s2 & _ & Hrun)].
    + by apply refuse_changed_inl in Hrun as [? _].
    + exfalso. apply (raises_run not_price_change) in Hrun; [done|]. solve_raises.
Qed.
End checkout_properties.
