(* ===== verification/CouponSpec.v ===== *)
(** * What a coupon gives, and to whom

    [CouponService.evaluate] and the administration of coupons, and the limits of a coupon across checkouts. *)

From S2P Require Import Prelude Decimal Errors Money GstCalc Schema Guards Evolution GstStates Invoice Repositories Frames Runs.
From S2P Require Import Lifecycle Cart Coupons Tax Checkout Payments Demo System LifecycleFrames LifecycleSpec StockSpec CheckoutSpec.
Import Decimal.

Local Open Scope string_scope.
Local Open Scope list_scope.
Local Open Scope Z_scope.

(** A customer the per-customer limit can be applied to. *)
Definition identified (user_id : option uuid) (guest_email : option string) : bool :=
  negb (opt_eqb user_id None) || match guest_email with Some g => negb (String.eqb g "") | None => false end.

(** The coupon may be used now, by this customer, on goods of this worth. *)
Definition usable (d : DB) (t : Z) (c : Coupon) (subtotal : Z) (user_id : option uuid) (guest_email : option string) : Prop :=
  cp_active c = true ∧ (∀ a, cp_starts_at c = Some a → a ≤ t) ∧ (∀ b, cp_ends_at c = Some b → t < b) ∧
  cp_min_subtotal_cents c ≤ subtotal ∧
  (∀ n, cp_max_uses_total c = Some n → uses_in d (cp_id c) None None < n) ∧
  (∀ n, cp_max_uses_per_customer c = Some n → identified user_id guest_email = true → uses_in d (cp_id c) user_id guest_email < n).
(** It takes something off. *)
Definition worthwhile (c : Coupon) (x : Discount) : Prop :=
  if String.eqb (cp_kind c) "free_shipping" then shipping_discount_cents x ≠ 0 else goods_cents x ≠ 0.

Section evaluation.
Context `{!Settings} `{!Crypto} `{!Store}.

Lemma bind_if {A} (b : bool) e (f : unit → M A) s : (raise_if b e ≫= f) s = if b then (inl e, s) else f tt s.
Proof. by destruct b. Qed.

Lemma window_open c t :
  negb (cp_active c) || before_start c t || after_end c t = false ↔
  cp_active c = true ∧ (∀ a, cp_starts_at c = Some a → a ≤ t) ∧ (∀ b, cp_ends_at c = Some b → t < b).
Proof.
  rewrite !orb_false_iff, negb_false_iff. unfold before_start, after_end.
  destruct (cp_starts_at c) as [a|], (cp_ends_at c) as [b|]; rewrite ?Z.ltb_ge, ?Z.leb_gt; split;
    try (intros [[? ?] ?]; split_and!; [done|by intros ? [= <-]|by intros ? [= <-]]);
    intros (? & Ha & Hb); split_and!; auto.
Qed.

Lemma coupon_accepted c subtotal shipping u g x s :
  evaluate (Some c) subtotal shipping u g s = (inr x, s) ↔
  usable (st_db s) (st_now s) c subtotal u g ∧ worthwhile c x ∧
  compute_discount (cp_kind c) (cp_percent_off c) (cp_amount_off_cents c) (cp_max_discount_cents c) subtotal shipping = inr x.
Proof.
  unfold evaluate, uses, db_gets, now. rewrite (bind_run _ _ _ (st_now s) s) by done. rewrite (bind_run _ _ _ c s) by done.
  rewrite bind_if. unfold usable.
  destruct (negb (cp_active c) || before_start c (st_now s) || after_end c (st_now s)) eqn:Hw.
  { split; [done|]. intros ((? & ? & ? & _) & _). assert (negb (cp_active c) || before_start c (st_now s) || after_end c (st_now s) = false); [|congruence].
    by apply window_open. }
  apply window_open in Hw as (Ha & Hs & He). rewrite bind_if.
  destruct (Z.ltb_spec subtotal (cp_min_subtotal_cents c)) as [Hm|Hm]; [split; [done|intros ((_ & _ & _ & ? & _) & _); lia]|].
  rewrite (bind_run _ _ _ (uses_in (st_db s) (cp_id c) None None) s) by done. rewrite bind_if.
  destruct (match cp_max_uses_total c with Some _ => _ | None => _ end) eqn:Ht.
  { split; [done|]. intros ((_ & _ & _ & _ & Hmax & _) & _). destruct (cp_max_uses_total c) as [n|]; [|done].
    apply Z.leb_le in Ht. specialize (Hmax n eq_refl). lia. }
  assert (∀ n, cp_max_uses_total c = Some n → uses_in (st_db s) (cp_id c) None None < n) as Hall.
  { intros n Hn. rewrite Hn in Ht. by apply Z.leb_gt in Ht. }
  clear Ht. rewrite (bind_run _ _ _ (uses_in (st_db s) (cp_id c) u g) s) by done. rewrite bind_if. fold (identified u g).
  destruct (match cp_max_uses_per_customer c with Some _ => _ | None => _ end) eqn:Hp.
  { split; [done|]. intros ((_ & _ & _ & _ & _ & Hmax) & _). destruct (cp_max_uses_per_customer c) as [n|]; [|done].
    apply andb_true_iff in Hp as [Hi Hn%Z.leb_le]. specialize (Hmax n eq_refl Hi). lia. }
  assert (∀ n, cp_max_uses_per_customer c = Some n → identified u g = true → uses_in (st_db s) (cp_id c) u g < n) as Hown.
  { intros n Hn Hi. rewrite Hn, Hi in Hp. by apply Z.leb_gt in Hp. }
  unfold worthwhile. destruct (compute_discount _ _ _ _ _ _) as [e|y].
  { split; [done|]. by intros (_ & _ & ?). }
  rewrite (bind_run _ _ _ y s) by done. rewrite bind_if.
  destruct (String.eqb (cp_kind c) "free_shipping") eqn:Hk; cbn [andb negb].
  - destruct (Z.eqb_spec (shipping_discount_cents y) 0) as [Hz|Hz].
    + split; [done|]. intros (_ & ? & [= ->]). done.
    + rewrite bind_if. split; [intros [= <-]; by split_and!|]. by intros (_ & _ & [= ->]).
  - rewrite bind_if. destruct (Z.eqb_spec (goods_cents y) 0) as [Hz|Hz].
    + split; [done|]. intros (_ & ? & [= ->]). done.
    + split; [intros [= <-]; by split_and!|]. by intros (_ & _ & [= ->]).
Qed.

(** A coupon is accepted exactly when it is active, within its dates, the goods are worth its minimum, its
    uses by orders that were not cancelled or refunded leave room under its limit overall and, for a known
    customer, under the limit per customer, and it takes something off; then it gives what its kind says. *)
Theorem coupon_accepted_iff c subtotal shipping u g x s :
  evaluate (Some c) subtotal shipping u g s = (inr x, s) ↔
  usable (st_db s) (st_now s) c subtotal u g ∧ worthwhile c x ∧
  compute_discount (cp_kind c) (cp_percent_off c) (cp_amount_off_cents c) (cp_max_discount_cents c) subtotal shipping = inr x.
Proof. apply coupon_accepted. Qed.
End evaluation.

Section limits.
Context `{!Settings} `{!Crypto} `{!Store}.

(** One more order under the coupon. *)
Lemma uses_in_placed d d' o cid u g :
  d_orders d !! o_id o = None → d_orders d' = <[o_id o := o]> (d_orders d) → uses_coupon cid u g o = true →
  uses_in d' cid u g = uses_in d cid u g + 1.
Proof.
  intros Hfresh Hos Hu. unfold uses_in, count_rows, sum_rows. rewrite Hos, sum_kv_fresh by done. rewrite Hu. lia.
Qed.

(** C34. An order placed with a coupon counts as one use of it, and the coupon's limits still hold once it is
    counted: never more live orders under a coupon than its limit, nor more by one customer (a signed-in user,
    or a guest by e-mail address in any case) than its limit per customer. *)
Theorem coupon_limits_hold q o s s' cid :
  new_order q s = (inr o, s') → o_coupon_id o = Some cid →
  ∃ c, (∃ k, d_coupons (st_db s) !! k = Some c) ∧ cp_id c = cid ∧ cp_active c = true ∧
    uses_in (st_db s') cid None None = uses_in (st_db s) cid None None + 1 ∧
    (∀ n, cp_max_uses_total c = Some n → uses_in (st_db s') cid None None ≤ n) ∧
    let email := guest_only q (cq_guest_email q) in
    (∀ n, cp_max_uses_per_customer c = Some n → identified (cq_user_id q) email = true →
       uses_in (st_db s') cid (cq_user_id q) email ≤ n).
Proof.
  intros Hrun Hcid. apply new_order_run in Hrun as (lines & b & price & columns & Hpl).
  pose proof (pl_fresh _ _ _ _ _ _ _ _ Hpl) as Hfresh. pose proof (pl_orders _ _ _ _ _ _ _ _ Hpl) as Hos.
  destruct (pl_order _ _ _ _ _ _ _ _ Hpl) as (cur & del & Eo).
  destruct (pl_price _ _ _ _ _ _ _ _ Hpl) as (s1 & F & Hp). apply price_lines_inr in Hp as (_ & _ & _ & Hc).
  assert (o_coupon_id o = cp_id <$> pr_coupon price ∧ o_status o = PENDING ∧ o_user_id o = cq_user_id q ∧
          o_guest_email o = guest_only q (cq_guest_email q)) as (E1 & E2 & E3 & E4) by (rewrite Eo; done).
  rewrite E1 in Hcid. destruct (truthy_str _); [|by destruct Hc as [Hc _]; rewrite Hc in Hcid].
  destruct Hc as ((c & Hc & k & Hk) & sh & He). rewrite Hc in Hcid, He. injection Hcid as <-.
  apply coupon_accepted in He as ((Hact & _ & _ & _ & Htot & Hown) & _).
  same_table TOrders F TO. same_table TCoupons F TC.
  assert (∀ u g, uses_in (st_db s1) (cp_id c) u g = uses_in (st_db s) (cp_id c) u g) as Hsame by (intros; unfold uses_in; by rewrite TO).
  assert (∀ u g, match u, g with Some u, _ => o_user_id o = Some u | None, Some g => o_guest_email o = Some g | None, None => True end →
    uses_coupon (cp_id c) u g o = true) as Hcounts.
  { intros u g Hu. unfold uses_coupon. rewrite E1, Hc, E2. cbn [fmap option_fmap option_map]. rewrite opt_eqb_refl.
    rewrite bool_decide_eq_true_2 by (unfold ALIVE; set_solver). cbn. destruct u as [u|]; [rewrite Hu; apply opt_eqb_refl|].
    destruct g as [g|]; [rewrite Hu; apply opt_eqb_refl|done]. }
  assert (uses_coupon (cp_id c) None None o = true) as U1 by by apply Hcounts.
  exists c. split; [exists k; by rewrite <-TC|]. split; [done|]. split; [done|].
  pose proof (uses_in_placed _ _ _ _ _ _ Hfresh Hos U1) as N1. split; [done|]. split.
  - intros n Hn. specialize (Htot n Hn). rewrite Hsame in Htot. lia.
  - cbv zeta. intros n Hn Hi. specialize (Hown n Hn Hi). rewrite Hsame in Hown.
    assert (uses_coupon (cp_id c) (cq_user_id q) (guest_only q (cq_guest_email q)) o = true) as U2.
    { apply Hcounts. destruct (cq_user_id q) as [u|]; [done|]. by destruct (guest_only q (cq_guest_email q)). }
    rewrite (uses_in_placed _ _ _ _ _ _ Hfresh Hos U2). lia.
Qed.

(** A coupon that was ever used is never deleted, and what it gives is never changed. *)
Theorem used_coupon_kept cid changes admin s k o :
  d_orders (st_db s) !! k = Some o → o_coupon_id o = Some cid → (∀ j c, d_coupons (st_db s) !! j = Some c → cp_id c = j) →
  (∀ r s', delete_coupon cid admin s = (r, s') → (∃ e, r = inl e) ∧ s' = s) ∧
  (existsb is_value_change changes = true → ∀ r s', update_coupon cid changes admin s = (r, s') → (∃ e, r = inl e) ∧ s' = s).
Proof.
  intros Hk Ho Hkeys.
  assert (exists_row (λ o, opt_eqb (o_coupon_id o) (Some cid)) (d_orders (st_db s)) = true) as Hused.
  { apply exists_row_true. exists k, o. rewrite Ho. split; [done|apply opt_eqb_refl]. }
  unfold delete_coupon, update_coupon, get_coupon, _ever_used, db_gets, gets, mbind, ST_bind, of_option; cbn.
  destruct (d_coupons (st_db s) !! cid) as [c|] eqn:Hc; cbn; [|split; [|intros _]; intros r s' [= <- <-]; eauto].
  rewrite (Hkeys _ _ Hc), Hused. split.
  - intros r s' [= <- <-]. eauto.
  - intros ->. intros r s' [= <- <-]. eauto.
Qed.
End limits.

(** ** Witnesses: Alice buys her cart with a coupon *)

Definition with_coupon : CheckoutRequest := alice_request "k7" (Some "save10").
Definition bought_order : Order := match (new_order with_coupon demo_state).1 with inr o => o | inl _ => no_order end.
Definition after_purchase : St := (new_order with_coupon demo_state).2.
Lemma purchase : new_order with_coupon demo_state = (inr bought_order, after_purchase).
Proof. vm_compute. reflexivity. Qed.
Lemma demo_invariant : Inv (st_db demo_state).
Proof. exact demo_inv. Qed.

Lemma coupon_accepted_iff_witness :
  usable (st_db demo_state) (st_now demo_state) save10 110000 (Some "alice") None ∧ worthwhile save10 (MkDiscount 9000 0).
Proof.
  refine (match proj1 (coupon_accepted_iff save10 110000 0 (Some "alice") None (MkDiscount 9000 0) demo_state) _
          with conj a (conj b _) => conj a b end).
  vm_compute. reflexivity.
Defined.

Lemma coupon_limits_hold_witness :
  ∃ c, (∃ k, d_coupons (st_db demo_state) !! k = Some c) ∧ cp_id c = 30 ∧ cp_active c = true.
Proof.
  refine (match coupon_limits_hold with_coupon bought_order demo_state after_purchase 30 purchase _
          with ex_intro _ c (conj a (conj b (conj d _))) => ex_intro _ c (conj a (conj b d)) end).
  vm_compute. reflexivity.
Defined.

Lemma used_coupon_kept_witness :
  (∃ e, (delete_coupon 30 "admin" after_purchase).1 = inl e) ∧ (delete_coupon 30 "admin" after_purchase).2 = after_purchase.
Proof.
  refine (proj1 (used_coupon_kept 30 [] "admin" after_purchase (o_id bought_order) bought_order _ _ _) _ _ _).
  - vm_compute. reflexivity.
  - vm_compute. reflexivity.
  - assert (d_coupons (st_db after_purchase) = {[ 30 := save10 ]}) as Heq by (vm_compute; reflexivity).
    intros j c. rewrite Heq. intros [<- <-]%lookup_singleton_Some. reflexivity.
  - by destruct (delete_coupon 30 "admin" after_purchase).
Defined.

Lemma quote_changes_nothing_witness : (quote with_coupon (cart_lines demo_db 1) demo_state).2 = demo_state.
Proof. exact (quote_changes_nothing with_coupon (cart_lines demo_db 1) demo_state). Defined.

Lemma checkout_adds_up_witness :
  o_subtotal_cents bought_order = sumZ (map line_value (of_order (o_id bought_order) (st_db after_purchase))) ∧
  o_discount_cents bought_order = 9000.
Proof.
  split; [|vm_compute; reflexivity].
  refine (match checkout_adds_up with_coupon bought_order demo_state after_purchase purchase demo_invariant _
          with conj _ (conj _ (conj _ (conj a _))) => a end).
  vm_compute. reflexivity.
Defined.

Lemma checkout_takes_stock_witness :
  d_products (st_db after_purchase) !! 1 =
    Some (mug <| p_stock := p_stock mug - bought (false, 1) (of_order (o_id bought_order) (st_db after_purchase)) |>) ∧
  bought (false, 1) (of_order (o_id bought_order) (st_db after_purchase)) = 2.
Proof.
  split; [|vm_compute; reflexivity].
  refine (proj1 (proj1 (checkout_takes_stock with_coupon bought_order demo_state after_purchase purchase demo_invariant) 1 mug _)).
  vm_compute. reflexivity.
Defined.

Lemma checkout_sells_cart_witness :
  ∃ cart, rows_where (owns_cart (Some "alice") None) (d_carts (st_db after_purchase)) = [cart] ∧
    cart_lines (st_db demo_state) (c_id cart) ≠ [].
Proof.
  refine (match checkout_sells_cart with_coupon bought_order demo_state after_purchase purchase demo_invariant
          with ex_intro _ c (conj a (conj b _)) => ex_intro _ c (conj a b) end).
Defined.

Lemma checkout_retry_witness : checkout with_coupon after_purchase = (inr bought_order, after_purchase).
Proof. refine (checkout_retry with_coupon bought_order demo_state after_purchase _ demo_invariant). vm_compute. reflexivity. Defined.

(** The mug was cheaper when it went into the cart. *)
Definition stale : St := (set_price_snapshot 11 24000 demo_state).2.
Lemma stale_sound : sound stale.
Proof.
  assert (guar step (set_price_snapshot 11 24000)) as Hg by (apply guar_update_cart_item; done). exact (proj1 (Hg demo_state demo_sound)).
Qed.
Definition alice_cart : Cart := MkCart 1 (Some "alice") None.
Lemma changed_price_refused_witness :
  ∃ s', new_order with_coupon stale = (inl (EOrder (PriceChangedError [MkPriceChange 1 "Mug" 24000 25000 None] 110000)), s') ∧
    ci_price_cents_snapshot <$> d_cart_items (st_db s') !! 11 = Some 25000.
Proof.
  destruct (until_priced with_coupon stale) as [[e|x] s1] eqn:Hx; [vm_compute in Hx; discriminate Hx|].
  destruct (changed_price_refused with_coupon alice_cart stale (proj2 (proj2 stale_sound)) ltac:(discriminate) ltac:(vm_compute; reflexivity)) as (_ & Htold & _).
  destruct (Htold x s1 Hx ltac:(vm_compute; discriminate)) as (s' & Hrun & Hcart & _). exists s'. split.
  - rewrite Hrun. vm_compute. reflexivity.
  - rewrite Hcart. vm_compute. reflexivity.
Defined.

Definition shop_products : gmap Z Product := {[ 1 := mug; 2 := shirt ]}.
Definition shop_variants : gmap Z ProductVariant := {[ 7 := shirt_m ]}.
Lemma shop_product_keys k p : shop_products !! k = Some p → p_id p = k.
Proof. unfold shop_products. by intros [[<- <-]|[_ [<- <-]%lookup_singleton_Some]]%lookup_insert_Some. Qed.
Lemma shop_variant_keys k v : shop_variants !! k = Some v → pv_id v = k.
Proof. unfold shop_variants. by intros [<- <-]%lookup_singleton_Some. Qed.
Definition two_mugs : list CartItem := [MkCartItem 11 1 1 None 2 25000; MkCartItem 12 1 1 None 2 25000].
Definition two_mugs_basket : Basket := match checkout_lines shop_products shop_variants ∅ empty_basket two_mugs with inr b => b | inl _ => empty_basket end.

Lemma checkout_lines_spec_witness : bk_subtotal two_mugs_basket = sumZ (map line_value (bk_lines two_mugs_basket)) ∧ bk_subtotal two_mugs_basket = 100000.
Proof.
  split; [|vm_compute; reflexivity].
  refine (match checkout_lines_spec shop_products shop_variants ∅ shop_product_keys shop_variant_keys two_mugs two_mugs_basket _
          with conj _ (conj a _) => a end).
  vm_compute. reflexivity.
Defined.

(** Three more do not fit in the stock of five. *)
Definition too_many : list CartItem := two_mugs ++ [MkCartItem 13 1 1 None 2 25000].
Lemma checkout_lines_refused_witness :
  ∃ before i after b, too_many = before ++ i :: after ∧ checkout_lines shop_products shop_variants ∅ empty_basket before = inr b.
Proof.
  refine (match checkout_lines_refused shop_products shop_variants ∅ shop_product_keys shop_variant_keys too_many (ECart (InsufficientStockError 1)) _
          with ex_intro _ w (ex_intro _ i (ex_intro _ r (ex_intro _ b (conj x (conj y _))))) =>
            ex_intro _ w (ex_intro _ i (ex_intro _ r (ex_intro _ b (conj x y)))) end).
  vm_compute. reflexivity.
Defined.
