(* ===== verification/RestockSpec.v ===== *)
(** * Putting an order's goods back

    [OrderLifecycleService._restock_once]: what is put back in stock, once, and that placing an order and
    releasing it leaves the stock as it was. *)

From S2P Require Import Prelude Decimal Errors Money GstCalc Schema Guards Evolution GstStates Invoice Repositories Frames Runs.
From S2P Require Import Lifecycle Cart Coupons Tax Checkout Payments Demo System LifecycleFrames LifecycleSpec StockSpec CheckoutSpec CouponSpec.

Local Open Scope string_scope.
Local Open Scope list_scope.
Local Open Scope Z_scope.

(** The units of [u] the lines still have outside the stock. *)
Definition outstanding (u : bool * Z) (ls : list OrderItem) : Z :=
  sumZ (map (λ l, if bool_decide (unit_of l = u) then remaining_of l else 0) ls).
#[global] Arguments outstanding : simpl never.
Lemma outstanding_cons u l ls :
  outstanding u (l :: ls) = (if bool_decide (unit_of l = u) then remaining_of l else 0) + outstanding u ls.
Proof. done. Qed.

Definition release_key : string := "order-release".

Section restock.
Context `{!Settings} `{!Providers}.

(** The lines with something left, in order. *)
Definition pending_lines (ls : list OrderItem) : list OrderItem := List.filter (λ l, 0 <? remaining_of l) ls.

Lemma restock_pending_inr locked ls : ∀ acc r s s',
  fold_m (restock_pending locked) acc ls s = (inr r, s') → r = acc ++ pending_lines ls ∧ s' = s.
Proof.
  induction ls as [|l ls IH]; intros acc r s s'; cbn; [intros [-> ->]%ret_inr; by rewrite app_nil_r|].
  intros Hrun. apply bind_inr in Hrun as (acc' & s1 & H1 & Hrun). unfold restock_pending in H1.
  destruct (Z.leb_spec (remaining_of l) 0) as [Hle|Hlt].
  - apply ret_inr in H1 as [-> ->]. apply IH in Hrun as [-> ->]. by rewrite (proj2 (Z.ltb_ge 0 _)) by lia.
  - apply bind_inr in H1 as (u & s2 & Hg & H1). apply raise_if_inr in Hg as [_ ->]. apply ret_inr in H1 as [-> ->].
    apply IH in Hrun as [-> ->]. rewrite (proj2 (Z.ltb_lt 0 _)) by lia. by rewrite <-app_assoc.
Qed.
Lemma pending_outstanding u ls : Forall (λ l, 0 ≤ remaining_of l) ls → outstanding u (pending_lines ls) = outstanding u ls.
Proof.
  unfold pending_lines. induction 1 as [|l ls Hl _ IH]; [done|]. cbn. rewrite outstanding_cons. destruct (Z.ltb_spec 0 (remaining_of l)).
  - by rewrite outstanding_cons, IH.
  - rewrite IH. replace (remaining_of l) with 0 by lia. by case_bool_decide.
Qed.

(** Every line is recorded when none was before. *)
Lemma insert_restock_inr i k q b s s' :
  insert_restock i k q s = (inr b, s') →
  b = bool_decide (d_restocks (st_db s) !! (i, k) = None) ∧
  ∀ j, j ≠ i → d_restocks (st_db s') !! (j, k) = d_restocks (st_db s) !! (j, k).
Proof.
  unfold insert_restock. intros Hrun. apply bind_inr in Hrun as (d & s1 & Hg & Hrun). apply gets_inr in Hg as [-> ->].
  destruct (d_restocks (st_db s) !! (i, k)) eqn:Hk; [by apply ret_inr in Hrun as [-> ->]|]. runs. split; [done|].
  intros j Hj. rewrite db_set; cbn. rewrite lookup_insert_ne; [done|congruence].
Qed.
Lemma record_events_inr key (l : list (Z * Z)) : ∀ acc r s s',
  NoDup l.*1 → Forall (λ e, d_restocks (st_db s) !! (e.1, key) = None) l →
  fold_m (λ acc '(i, k, q), is_new ← insert_restock i k q; mret (if is_new : bool then {[ i ]} ∪ acc else acc)) acc
    (map (λ e, (e.1, key, e.2)) l) s = (inr r, s') →
  ∀ i, i ∈ (r : gset Z) ↔ i ∈ acc ∨ i ∈ l.*1.
Proof.
  induction l as [|[k q] l IH]; intros acc r s s' Hnd Hnew; cbn.
  - intros [-> _]%ret_inr i. split; [auto|]. by intros [?|?%elem_of_nil].
  - intros Hrun i. apply bind_inr in Hrun as (acc' & s1 & H1 & Hrun). apply bind_inr in H1 as (b & s2 & Hb & H1).
    apply ret_inr in H1 as [-> ->]. apply insert_restock_inr in Hb as [-> Hkeep].
    apply NoDup_cons in Hnd as [Hni Hnd]. apply Forall_cons in Hnew as [Hl Hnew]. rewrite bool_decide_eq_true_2 in Hrun by done.
    eapply IH in Hrun; [rewrite Hrun|done|].
    + rewrite elem_of_union, elem_of_singleton, elem_of_cons. tauto.
    + rewrite Forall_forall in *. intros x Hx. rewrite Hkeep; [auto|]. intros Heq. apply Hni. cbn in Heq. rewrite <-Heq. change (x.1 ∈ l.*1). by apply list_elem_of_fmap_2.
Qed.

(** The deltas of the recorded lines. *)
Definition has_row (locked : gmap Z Product) (lockedv : gmap Z ProductVariant) (u : bool * Z) : Prop :=
  if u.1 then is_Some (lockedv !! u.2) else is_Some (locked !! u.2).
Definition deltas_at (acc : gmap Z Z * gmap Z Z) (u : bool * Z) : Z := default 0 ((if u.1 then acc.2 else acc.1) !! u.2).
Lemma bump_lookup k n m j : default 0 (bump k n m !! j) = default 0 (m !! j) + if bool_decide (k = j) then n else 0.
Proof.
  unfold bump. case_bool_decide as Hk; [subst; rewrite lookup_insert_eq|rewrite lookup_insert_ne by done]; cbn; lia.
Qed.
#[global] Instance has_row_dec locked lockedv u : Decision (has_row locked lockedv u).
Proof. unfold has_row. destruct u.1; apply _. Defined.
Lemma restock_deltas_sum locked lockedv recorded u ls : ∀ acc,
  (∀ l, l ∈ ls → oi_id l ∈ recorded) →
  deltas_at (foldl (restock_deltas locked lockedv recorded) acc ls) u =
  deltas_at acc u + if bool_decide (has_row locked lockedv u) then outstanding u ls else 0.
Proof.
  induction ls as [|l ls IH]; intros [a v] Hrec; [cbn; case_bool_decide; unfold outstanding; cbn; lia|].
  cbn [foldl]. rewrite IH; [|intros; apply Hrec; by right]. rewrite outstanding_cons.
  enough (deltas_at (restock_deltas locked lockedv recorded (a, v) l) u =
          deltas_at (a, v) u + if bool_decide (has_row locked lockedv u) then if bool_decide (unit_of l = u) then remaining_of l else 0 else 0) as ->
    by (case_bool_decide; lia).
  unfold restock_deltas. rewrite (bool_decide_eq_true_2 (oi_id l ∈ recorded)) by (apply Hrec; left). cbn [negb].
  destruct (oi_variant_id l) as [w|] eqn:Hv.
  - assert (unit_of l = (true, w)) as -> by (unfold unit_of; by rewrite Hv).
    destruct (bool_decide (is_Some (lockedv !! w))) eqn:Hw; unfold deltas_at; destruct u as [[] k]; unfold has_row; cbn;
      rewrite ?bump_lookup; repeat case_bool_decide; simplify_eq; try lia; try congruence.
  - assert (unit_of l = (false, oi_product_id l)) as -> by (unfold unit_of; by rewrite Hv).
    destruct (bool_decide (is_Some (locked !! oi_product_id l))) eqn:Hw; unfold deltas_at; destruct u as [[] k]; unfold has_row; cbn;
      rewrite ?bump_lookup; repeat case_bool_decide; simplify_eq; try lia; try congruence.
Qed.

(** Nothing of the order was put back as its release yet. *)
Definition not_released (d : DB) (oid : uuid) : Prop :=
  Forall (λ l, d_restocks d !! (oi_id l, release_key) = None) (items_of d oid).

Lemma rows_where_keys_NoDup {V} (p : V → bool) (m : gmap Z V) (key : V → Z) :
  (∀ k v, m !! k = Some v → key v = k) → NoDup (map key (rows_where p m)).
Proof.
  intros Hkeys. unfold rows_where. generalize (NoDup_fst_map_to_list m).
  assert (Forall (λ kv, key kv.2 = kv.1) (map_to_list m)) as Hall.
  { apply Forall_forall. intros [k v] Hin%elem_of_map_to_list. by apply Hkeys. }
  induction (map_to_list m) as [|[k v] l IH]; cbn; [constructor|]. apply Forall_cons in Hall as [Hk Hall]. cbn in Hk.
  intros [Hni Hnd]%NoDup_cons. case_decide; cbn; [|by apply IH].
  constructor; [|by apply IH]. rewrite Hk. intros (w & Hw & Hin)%list_elem_of_fmap. apply Hni.
  apply list_elem_of_filter in Hin as [_ Hin]. apply list_elem_of_fmap in Hin as ([j x] & -> & Hin).
  rewrite Forall_forall in Hall. specialize (Hall _ Hin). cbn in *. apply list_elem_of_fmap. exists (j, x). split; [cbn; congruence|done].
Qed.

Lemma items_keys_NoDup d oid : Inv d → NoDup (map oi_id (items_of d oid)).
Proof.
  intros HI. unfold items_of, order_by. rewrite (Permutation_map oi_id (merge_sort_Permutation _ _)).
  apply rows_where_keys_NoDup. intros k v Hk. by eapply inv_item_keys.
Qed.
Lemma items_outstanding d oid : Inv d → Forall (λ l, 0 ≤ remaining_of l) (items_of d oid).
Proof.
  intros HI. apply Forall_forall. intros l [[k Hk] _]%items_of_elem. destruct (inv_items _ HI _ _ Hk) as [? _]. unfold remaining_of. lia.
Qed.
Lemma pending_elem l ls : l ∈ pending_lines ls → l ∈ ls.
Proof. intros Hl. apply list_elem_of_In in Hl. apply filter_In in Hl as [Hl _]. by apply list_elem_of_In. Qed.
Lemma pending_NoDup ls : NoDup (map oi_id ls) → NoDup (map oi_id (pending_lines ls)).
Proof.
  unfold pending_lines. induction ls as [|l ls IH]; cbn; [constructor|]. intros [Hni Hnd]%NoDup_cons.
  destruct (0 <? remaining_of l); [|by apply IH]. cbn. constructor; [|by apply IH]. intros (x & Hx & Hin)%list_elem_of_fmap. apply Hni.
  rewrite Hx. apply list_elem_of_fmap_2. by apply pending_elem.
Qed.
(** A row that exists and is in none of the lines has nothing outstanding. *)
Lemma outstanding_absent u ls : (∀ l, l ∈ ls → unit_of l ≠ u) → outstanding u ls = 0.
Proof.
  induction ls as [|l ls IH]; [done|]. intros Hno. rewrite outstanding_cons, IH by (intros; apply Hno; by right).
  rewrite bool_decide_eq_false_2; [lia|]. apply Hno. left.
Qed.

Lemma restock_once_run o b s s' :
  _restock_once o s = (inr b, s') → Inv (st_db s) → o_stock_released_at o = None → not_released (st_db s) (o_id o) →
  b = true ∧
  (∀ k p, d_products (st_db s) !! k = Some p →
     d_products (st_db s') !! k = Some (add_stock (outstanding (false, k) (items_of (st_db s) (o_id o))) p)) ∧
  (∀ k v, d_variants (st_db s) !! k = Some v →
     d_variants (st_db s') !! k = Some (add_vstock (outstanding (true, k) (items_of (st_db s) (o_id o))) v)).
Proof.
  intros Hrun HI Hrel Hnot. unfold _restock_once, get_many_for_update, get_variants_for_update in Hrun. rewrite Hrel in Hrun. cbn [opt_eqb] in Hrun.
  rewrite opt_eqb_refl in Hrun. cbn [negb] in Hrun. cbv zeta in Hrun.
  apply bind_inr in Hrun as (d & s1 & Hg & Hrun). apply gets_inr in Hg as [-> ->]. set (ls := items_of (st_db s) (o_id o)) in *.
  apply bind_inr in Hrun as (locked & s1 & Hg & Hrun). apply db_gets_inr in Hg as [El ->].
  apply bind_inr in Hrun as (lockedv & s1 & Hg & Hrun). apply db_gets_inr in Hg as [Elv ->].
  apply bind_inr in Hrun as (pending & s1 & Hp & Hrun). apply restock_pending_inr in Hp as [-> ->]. cbn [app] in Hrun.
  apply bind_inr in Hrun as (recorded & s1 & Hr & Hrun).
  pose proof (frame_run _ _ _ _ _ (only_record_restock_events _) Hr) as F1. unfold record_restock_events in Hr.
  assert (∀ l, l ∈ pending_lines ls → oi_id l ∈ recorded) as Hrec.
  { set (es := map (λ l, (oi_id l, remaining_of l)) (pending_lines ls)) in *.
    assert (es.*1 = map oi_id (pending_lines ls)) as Hes by (unfold es; rewrite <-list_fmap_compose; done).
    replace (map _ (pending_lines ls)) with (map (λ e, (e.1, release_key, e.2)) es) in Hr by (unfold es; rewrite map_map; done).
    intros l Hl. eapply record_events_inr in Hr; [apply Hr; right; rewrite Hes; by apply list_elem_of_fmap_2| |].
    - rewrite Hes. by apply pending_NoDup, items_keys_NoDup.
    - unfold not_released in Hnot. rewrite Forall_forall in Hnot. apply Forall_forall. intros e (x & -> & Hx)%list_elem_of_fmap. apply Hnot. by apply pending_elem. }
  pose proof (restock_deltas_sum locked lockedv recorded) as Hsum.
  destruct (foldl (restock_deltas locked lockedv recorded) (∅, ∅) (pending_lines ls)) as [ds vds] eqn:Hds.
  apply bind_inr in Hrun as ([] & s2 & Hst & Hrun). apply stock_change_inr in Hst as (s3 & s4 & E3 & Hst & E4 & _ & _).
  apply bind_inr in Hst as ([] & s5 & Hps & Hvs).
  apply (frame_run _ _ _ _ _ (only_adjust_stock_many _ _)) in Hps as F2. apply adjust_stock_many_run in Hps as [Hps _].
  apply bind_inr in Hrun as (t & s6 & Hn & Hrun). apply now_inr in Hn as [-> ->].
  apply bind_inr in Hrun as (o2 & s6 & Hu & Hrun). apply ret_inr in Hrun as [-> ->].
  apply (frame_run _ _ _ _ _ (only_update_order _ _)) in Hu as F6.
  assert (shifted add_vstock (λ j, default 0 (vds !! j)) (d_variants (st_db s5)) (d_variants (st_db s4)) ∧ d_products (st_db s4) = d_products (st_db s5)) as [Hv Tp].
  { case_bool_decide as Hemp.
    - apply ret_inr in Hvs as [_ ->]. split; [|done]. rewrite Hemp. by apply shifted_zero; [apply add_vstock_0].
    - apply (frame_run _ _ _ _ _ (only_adjust_variant_stock_many _ _)) in Hvs as F5. same_table TProducts F5 T5.
      by apply adjust_variant_stock_many_run in Hvs as [Hvs _]. }
  same_table TProducts F1 A1. same_table TVariants F1 A2. same_table TVariants F2 B2. same_table TProducts F6 C1. same_table TVariants F6 C2.
  assert (∀ u, deltas_at (ds, vds) u = if bool_decide (has_row locked lockedv u) then outstanding u ls else 0) as Hat.
  { intros u. specialize (Hsum u (pending_lines ls) (∅, ∅) Hrec). rewrite Hds in Hsum. rewrite Hsum.
    rewrite pending_outstanding by by apply items_outstanding. unfold deltas_at. destruct u as [[] k]; cbn; by rewrite lookup_empty. }
  split; [done|]. split; intros k x Hk.
  - rewrite C1, E4, Tp, Hps, E3, A1, Hk. cbn. do 2 f_equal. specialize (Hat (false, k)). unfold deltas_at in Hat; cbn in Hat. rewrite Hat.
    case_bool_decide as Hrow; [done|]. symmetry. apply outstanding_absent. intros l Hl Hul. apply Hrow. unfold has_row; cbn.
    exists x. rewrite El. apply map_lookup_filter_Some. split; [done|]. cbn. unfold unit_of in Hul. destruct (oi_variant_id l); [done|].
    injection Hul as <-. by apply list_elem_of_fmap_2.
  - rewrite C2, E4, Hv, B2, E3, A2, Hk. cbn. do 2 f_equal. specialize (Hat (true, k)). unfold deltas_at in Hat; cbn in Hat. rewrite Hat.
    case_bool_decide as Hrow; [done|]. symmetry. apply outstanding_absent. intros l Hl Hul. apply Hrow. unfold has_row; cbn.
    exists x. rewrite Elv. apply map_lookup_filter_Some. split; [done|]. cbn. unfold unit_of in Hul. destruct (oi_variant_id l) eqn:Hvl; [|done].
    injection Hul as <-. apply list_elem_of_omap. eauto.
Qed.
End restock.

Section release.
Context `{!Settings} `{!Crypto} `{!Store} `{!Providers}.

(** Releasing an order puts back, for every product and variant, exactly what its lines still have outside
    the stock; an order that was released before is left alone. *)
Theorem release_puts_back o b s s' :
  _restock_once o s = (inr b, s') → Inv (st_db s) → not_released (st_db s) (o_id o) →
  if bool_decide (o_stock_released_at o = None)
  then b = true ∧
    (∀ k p, d_products (st_db s) !! k = Some p →
       d_products (st_db s') !! k = Some (p <| p_stock := p_stock p + outstanding (false, k) (items_of (st_db s) (o_id o)) |>)) ∧
    (∀ k v, d_variants (st_db s) !! k = Some v →
       d_variants (st_db s') !! k = Some (v <| pv_stock := pv_stock v + outstanding (true, k) (items_of (st_db s) (o_id o)) |>))
  else b = false ∧ s' = s.
Proof.
  intros Hrun HI Hnot. case_bool_decide as Hr; [by apply restock_once_run|].
  unfold _restock_once in Hrun. rewrite opt_eqb_ne in Hrun by done. by apply ret_inr in Hrun as [-> ->].
Qed.

(** A line of a new order has nothing put back yet. *)
Lemma new_line_untouched q s s' o lines b price columns l :
  placed q s s' o lines b price columns → Inv (st_db s) → Inv (st_db s') → l ∈ items_of (st_db s') (o_id o) →
  (∀ key, d_restocks (st_db s') !! (oi_id l, key) = None) ∧ oi_restocked_quantity l = 0.
Proof.
  intros Hpl HI HI' [[k Hk] Hoid]%items_of_elem. pose proof (inv_item_keys _ HI' _ _ Hk) as Hid.
  pose proof (pl_frame _ _ _ _ _ _ _ _ Hpl) as F. same_table TRestocks F T.
  assert (∀ key, d_restocks (st_db s') !! (k, key) = None) as Hno.
  { intros key. rewrite T. destruct (d_restocks (st_db s) !! (k, key)) as [n|] eqn:He; [|done]. exfalso.
    destruct (inv_restocks _ HI _ _ _ He) as [_ [i Hi]].
    pose proof (lookup_weaken _ _ _ _ Hi (pl_items_kept _ _ _ _ _ _ _ _ Hpl)) as Hi'. assert (i = l) as -> by congruence.
    destruct (inv_item_orders _ HI _ _ Hi) as [x Hx]. rewrite Hoid, (pl_fresh _ _ _ _ _ _ _ _ Hpl) in Hx. done. }
  split; [by rewrite Hid|]. destruct (inv_items _ HI' _ _ Hk) as [_ ->]. unfold restocked_of. apply sum_kv_zero.
  intros [j e] n He. cbn. destruct (Z.eqb_spec j k) as [->|]; [|done]. by rewrite Hno in He.
Qed.

(** C19. Placing an order and releasing it again leaves the stock of every product and variant as it was. *)
Theorem order_then_release q o b s s1 s2 :
  new_order q s = (inr o, s1) → sound s → _restock_once o s1 = (inr b, s2) →
  (∀ k p, d_products (st_db s) !! k = Some p → d_products (st_db s2) !! k = Some p) ∧
  (∀ k v, d_variants (st_db s) !! k = Some v → d_variants (st_db s2) !! k = Some v).
Proof.
  intros Hnew Hs Hrun. pose proof (guar_ran step _ _ _ _ Hnew (guar_new_order q)) as Hstep.
  destruct (Hstep Hs) as [(_ & _ & HI1) _]. destruct Hs as (_ & _ & HI).
  pose proof (checkout_stock_run _ _ _ _ Hnew HI) as [Hp Hv]. apply new_order_run in Hnew as (lines & bk & price & columns & Hpl).
  assert (∀ l, l ∈ items_of (st_db s1) (o_id o) → remaining_of l = oi_quantity l) as Hq.
  { intros l Hl. unfold remaining_of. destruct (new_line_untouched _ _ _ _ _ _ _ _ _ Hpl HI HI1 Hl) as [_ ->]. lia. }
  assert (∀ u, outstanding u (items_of (st_db s1) (o_id o)) = bought u (of_order (o_id o) (st_db s1))) as Heq.
  { intros u. transitivity (bought u (items_of (st_db s1) (o_id o))).
    - revert Hq. generalize (items_of (st_db s1) (o_id o)) as ls. induction ls as [|l ls IH]; intros Hq; [done|].
      rewrite outstanding_cons, IH by (intros; apply Hq; by right). unfold bought; cbn. by rewrite Hq by left.
    - unfold bought. apply sumZ_perm, Permutation_map. unfold items_of, order_by. apply merge_sort_Permutation. }
  destruct (pl_order _ _ _ _ _ _ _ _ Hpl) as (cur & del & Eo).
  apply restock_once_run in Hrun as (_ & Hp' & Hv'); [|done|by rewrite Eo|].
  - split; intros k x Hk; [rewrite (Hp' _ _ (Hp _ _ Hk)), add_stock_add|rewrite (Hv' _ _ (Hv _ _ Hk)), add_vstock_add];
      rewrite Heq, Z.add_opp_diag_l; [by rewrite add_stock_0|by rewrite add_vstock_0].
  - apply Forall_forall. intros l Hl. by apply (new_line_untouched _ _ _ _ _ _ _ _ _ Hpl HI HI1 Hl).
Qed.
End release.

(** ** Witnesses: Alice's purchase is released *)

Definition released : St := (_restock_once bought_order after_purchase).2.
Lemma release : _restock_once bought_order after_purchase = (inr true, released).
Proof. vm_compute. reflexivity. Qed.
Definition p_3 : Product := mug <| p_stock := 3 |>.
Definition purchased : list OrderItem := Eval vm_compute in items_of (st_db after_purchase) (o_id bought_order).
Lemma purchase_invariant : Inv (st_db after_purchase).
Proof. destruct (guar_ran step _ _ _ _ purchase (guar_new_order with_coupon) demo_sound) as [(_ & _ & HI) _]. exact HI. Qed.

Lemma purchase_not_released : not_released (st_db after_purchase) (o_id bought_order).
Proof.
  unfold not_released. assert (items_of (st_db after_purchase) (o_id bought_order) = purchased) as -> by (vm_compute; reflexivity).
  assert (d_restocks (st_db after_purchase) = ∅) as -> by (vm_compute; reflexivity).
  apply Forall_forall. intros l _. exact (lookup_empty _).
Qed.
Lemma release_puts_back_witness :
  d_products (st_db released) !! 1 = Some (p_3 <| p_stock := 3 + outstanding (false, 1) (items_of (st_db after_purchase) (o_id bought_order)) |>) ∧
  outstanding (false, 1) (items_of (st_db after_purchase) (o_id bought_order)) = 2.
Proof.
  split; [|vm_compute; reflexivity].
  pose proof (release_puts_back bought_order true after_purchase released release purchase_invariant purchase_not_released) as Hputs.
  rewrite bool_decide_eq_true_2 in Hputs by (vm_compute; reflexivity).
  refine (match Hputs with conj _ (conj a _) => a 1 p_3 _ end).
  vm_compute. reflexivity.
Defined.

Lemma order_then_release_witness : d_products (st_db released) !! 1 = Some mug ∧ d_variants (st_db released) !! 7 = Some shirt_m.
Proof.
  destruct (order_then_release with_coupon bought_order true demo_state after_purchase released purchase demo_sound release) as [Hp Hv].
  split; [apply Hp|apply Hv]; vm_compute; reflexivity.
Defined.
