(* ===== verification/ReturnsSpec.v ===== *)
(** * What the handling of returns does

    A request that is granted, the receipt of the goods and the stock they go back to, and the refund of an
    order that came back whole. *)

From S2P Require Import Prelude Decimal Errors Money GstCalc Schema Guards Evolution GstStates Invoice Repositories Frames Runs.
From S2P Require Import Lifecycle LifecycleFrames Cart Coupons Tax Checkout Payments Returns Shipments Demo System.
From S2P Require Import LifecycleSpec RefundSpec StockSpec CheckoutSpec RestockSpec.

Local Open Scope string_scope.
Local Open Scope list_scope.
Local Open Scope Z_scope.

(** ** Rows *)

Lemma rows_where_fmap {V} (p : V → bool) (F : V → V) (m : gmap Z V) :
  (∀ k v, m !! k = Some v → p (F v) = p v) → rows_where p (F <$> m) ≡ₚ F <$> rows_where p m.
Proof.
  induction m as [|k v m Hk IH] using map_ind; intros HF.
  - rewrite fmap_empty. unfold rows_where. by rewrite map_to_list_empty.
  - rewrite fmap_insert. rewrite !rows_where_insert; [|by rewrite ?lookup_fmap, Hk..].
    rewrite (HF k v) by apply lookup_insert_eq.
    assert (rows_where p (F <$> m) ≡ₚ F <$> rows_where p m) as IH'.
    { apply IH. intros j w Hj. apply (HF j). rewrite lookup_insert_ne; [done|congruence]. }
    destruct (p v); cbn; [by apply perm_skip|done].
Qed.
Lemma return_items_elem d rid x : x ∈ return_items d rid ↔ (∃ k, d_return_items d !! k = Some x) ∧ ri_return_id x = rid.
Proof. unfold return_items, order_by. rewrite merge_sort_Permutation, rows_where_elem, String.eqb_eq. tauto. Qed.
Lemma return_items_fmap d d' rid F :
  d_return_items d' = F <$> d_return_items d → (∀ x, ri_return_id (F x) = ri_return_id x) →
  return_items d' rid ≡ₚ F <$> return_items d rid.
Proof.
  intros Hd HF. unfold return_items, order_by. rewrite !merge_sort_Permutation, Hd. apply rows_where_fmap. intros k x _. by rewrite HF.
Qed.
Lemma return_item_keys_NoDup d rid : Inv d → NoDup (map ri_id (return_items d rid)).
Proof.
  intros HI. unfold return_items, order_by. rewrite (Permutation_map ri_id (merge_sort_Permutation _ _)).
  apply rows_where_keys_NoDup. intros k v Hk. by destruct (inv_return_items _ HI _ _ Hk).
Qed.
(** A return has one line for an order line. *)
Lemma return_lines_NoDup d rid : Inv d → NoDup (map ri_order_item_id (return_items d rid)).
Proof.
  intros HI. pose proof (return_item_keys_NoDup d rid HI) as Hnd.
  assert (∀ x y, x ∈ return_items d rid → y ∈ return_items d rid → ri_order_item_id x = ri_order_item_id y → ri_id x = ri_id y) as Hinj.
  { intros x y [[j Hj] Ej]%return_items_elem [[k Hk] Ek]%return_items_elem Heq.
    destruct (inv_return_items _ HI _ _ Hj) as [-> _], (inv_return_items _ HI _ _ Hk) as [-> _].
    eapply inv_return_unique; [done|done|done|congruence|done]. }
  revert Hnd Hinj. generalize (return_items d rid). intros l. induction l as [|x l IH]; cbn; [constructor|].
  intros [Hx Hnd]%NoDup_cons Hinj. constructor.
  - intros (y & Heq & Hy)%list_elem_of_fmap. apply Hx. rewrite (Hinj x y); [by apply list_elem_of_fmap_2|left|by right|done].
  - apply IH; [done|]. intros y z Hy Hz. apply Hinj; by right.
Qed.

(** The line of an order, in the list of its lines. *)
Lemma line_found d oid k i :
  Inv d → d_items d !! k = Some i → oi_order_id i = oid → first_with (λ l, oi_id l =? k) (items_of d oid) = Some i.
Proof.
  intros HI Hk Ho. destruct (first_with _ (items_of d oid)) as [l|] eqn:Hf.
  - apply find_some_elem in Hf as [[[j Hj] _]%items_of_elem Heq%Z.eqb_eq]. rewrite (inv_item_keys _ HI _ _ Hj) in Heq. congruence.
  - exfalso. unfold first_with in Hf. assert (i ∈ items_of d oid) as Hin by (apply items_of_elem; eauto).
    apply list_elem_of_In in Hin. pose proof (find_none _ _ Hf _ Hin) as Hn. cbn in Hn. rewrite (inv_item_keys _ HI _ _ Hk), Z.eqb_refl in Hn. done.
Qed.

Lemma update_return_item_inr i f u s s' :
  update_return_item i f s = (inr u, s') →
  ∃ x, d_return_items (st_db s) !! i = Some x ∧ s' = set_db (λ d, d <| d_return_items ::= <[i := f x]> |>) s.
Proof. unfold update_return_item. intros Hrun. runs. eauto. Qed.
Lemma update_return_inr i f r s s' :
  update_return i f s = (inr r, s') →
  ∃ x, d_returns (st_db s) !! i = Some x ∧ r = f x ∧ s' = set_db (λ d, d <| d_returns ::= <[i := f x]> |>) s.
Proof. unfold update_return. intros Hrun. runs. eauto. Qed.
Lemma get_return_inr i r s s' : get_return i s = (inr r, s') → d_returns (st_db s) !! i = Some r ∧ s' = s.
Proof. unfold get_return. intros Hrun. runs. done. Qed.

(** ** Recording what arrived *)

Definition write_receipt (e : ReceiveItem) (x : ReturnRequestItem) : ReturnRequestItem :=
  x <| ri_received_quantity := Some (rv_received_quantity e) |> <| ri_restock := rv_restock e |> <| ri_condition_note := rv_condition_note e |>.
Definition entry_for (es : list ReceiveItem) (x : ReturnRequestItem) : option ReceiveItem :=
  first_with (λ e, rv_order_item_id e =? ri_order_item_id x) es.
Definition with_receipt (rid : uuid) (es : list ReceiveItem) (x : ReturnRequestItem) : ReturnRequestItem :=
  if String.eqb (ri_return_id x) rid then match entry_for es x with Some e => write_receipt e x | None => x end else x.
Lemma with_receipt_facts rid es x : return_item_facts (with_receipt rid es x) = return_item_facts x.
Proof. unfold with_receipt. destruct (String.eqb _ _); [|done]. by destruct (entry_for es x). Qed.

(** The rows a method loaded, as far as their identity goes. *)
Record loaded (rid : uuid) (items : list ReturnRequestItem) (m : gmap Z ReturnRequestItem) : Prop := {
  ld_rows : ∀ y, y ∈ items → ri_return_id y = rid ∧ ∃ x, m !! ri_id y = Some x ∧ return_item_facts x = return_item_facts y;
  ld_unique : ∀ j k x y, m !! j = Some x → m !! k = Some y → ri_return_id x = ri_return_id y → ri_order_item_id x = ri_order_item_id y → j = k
}.
Lemma loaded_update rid items m j x x' :
  loaded rid items m → m !! j = Some x → return_item_facts x' = return_item_facts x → loaded rid items (<[j := x']> m).
Proof.
  intros [Hrows Huniq] Hj Hf. split.
  - intros y Hy. destruct (Hrows y Hy) as (Hr & z & Hz & Ez). split; [done|]. destruct (decide (ri_id y = j)) as [Heq|].
    + exists x'. rewrite Heq, lookup_insert_eq. split; [done|]. rewrite Heq in Hz. assert (z = x) as -> by congruence. congruence.
    + exists z. by rewrite lookup_insert_ne.
  - unfold return_item_facts in Hf.
    intros a b y z [[<- <-]|[? Hy]]%lookup_insert_Some [[<- <-]|[? Hz]]%lookup_insert_Some E1 E2; [done|..|by eauto].
    + apply (Huniq _ _ _ _ Hj Hz); congruence.
    + apply (Huniq _ _ _ _ Hy Hj); congruence.
Qed.

Lemma receipts_run rid items es : ∀ u s s',
  for_each es (record_receipt items) s = (inr u, s') → NoDup (map rv_order_item_id es) → loaded rid items (d_return_items (st_db s)) →
  d_return_items (st_db s') = with_receipt rid es <$> d_return_items (st_db s).
Proof.
  induction es as [|e es IH]; intros u s s'; cbn [for_each].
  - intros [_ ->]%ret_inr _ _. apply map_eq. intros k. rewrite lookup_fmap. destruct (_ !! k) as [x|]; [|done]. cbn.
    unfold with_receipt. by destruct (String.eqb _ _).
  - intros Hrun [He Hnd]%NoDup_cons Hld. apply bind_inr in Hrun as ([] & s1 & H1 & Hrun). unfold record_receipt in H1.
    destruct (first_with _ items) as [y|] eqn:Hy; [|done]. apply find_some_elem in Hy as [Hy Hline%Z.eqb_eq].
    apply update_return_item_inr in H1 as (x & Hx & ->). change (x <| _ := _ |> <| _ := _ |> <| _ := _ |>) with (write_receipt e x) in Hrun.
    destruct (ld_rows _ _ _ Hld y Hy) as (Hrid & x0 & Hx0 & Hf). assert (x0 = x) as -> by congruence. clear Hx0.
    unfold return_item_facts in Hf. assert (ri_order_item_id x = rv_order_item_id e ∧ ri_return_id x = rid) as [Ex Er] by (split; congruence).
    apply IH in Hrun; [|done|rewrite db_set; cbn; by eapply loaded_update]. rewrite db_set in Hrun. cbn in Hrun. rewrite Hrun.
    apply map_eq. intros k. rewrite !lookup_fmap. destruct (decide (k = ri_id y)) as [->|Hne].
    + rewrite lookup_insert_eq, Hx. cbn. f_equal. unfold with_receipt. cbn. rewrite Er, String.eqb_refl.
      unfold entry_for, first_with. cbn. rewrite Ex, Z.eqb_refl. destruct (find _ es) as [e'|] eqn:Hf'; [|done].
      exfalso. apply find_some in Hf' as [Hin Heq%Z.eqb_eq]. apply He. rewrite <-Heq. apply list_elem_of_fmap_2. by apply list_elem_of_In.
    + rewrite lookup_insert_ne by done. destruct (d_return_items (st_db s) !! k) as [z|] eqn:Hz; [|done]. cbn. f_equal.
      unfold with_receipt. destruct (String.eqb_spec (ri_return_id z) rid) as [Hzr|]; [|done]. unfold entry_for, first_with. cbn.
      destruct (Z.eqb_spec (rv_order_item_id e) (ri_order_item_id z)) as [Heq|]; [|done].
      exfalso. apply Hne. apply (ld_unique _ _ _ Hld _ _ _ _ Hz Hx); congruence.
Qed.

(** ** Putting the goods back *)

(** The unit a line of a return is about, in the lines of its order. *)
Definition line_unit (lines : list OrderItem) (x : ReturnRequestItem) : option (bool * Z) :=
  unit_of <$> first_with (λ l, oi_id l =? ri_order_item_id x) lines.
(** The units of [u] in some lines of a return, counted by [n]. *)
Definition units (n : ReturnRequestItem → Z) (lines : list OrderItem) (u : bool * Z) (xs : list ReturnRequestItem) : Z :=
  sumZ (map (λ x, if bool_decide (line_unit lines x = Some u) then n x else 0) xs).
#[global] Arguments units : simpl never.
Lemma units_cons n lines u x xs :
  units n lines u (x :: xs) = (if bool_decide (line_unit lines x = Some u) then n x else 0) + units n lines u xs.
Proof. done. Qed.
Lemma units_perm n lines u xs ys : xs ≡ₚ ys → units n lines u xs = units n lines u ys.
Proof. intros Hp. apply sumZ_perm. by apply Permutation_map. Qed.
Lemma units_fmap n m lines u F xs :
  (∀ x, x ∈ xs → ri_order_item_id (F x) = ri_order_item_id x ∧ n (F x) = m x) → units n lines u (F <$> xs) = units m lines u xs.
Proof.
  induction xs as [|x xs IH]; [done|]. intros HF. rewrite fmap_cons, !units_cons, IH by (intros; apply HF; by right).
  destruct (HF x) as [E1 E2]; [left|]. unfold line_unit. by rewrite E1, E2.
Qed.
(** The units of the listed rows that went back are written on them. *)
Definition restocked_row (ids : list Z) (x : ReturnRequestItem) : ReturnRequestItem :=
  if bool_decide (ri_id x ∈ ids) then x <| ri_restocked_quantity := received_of x |> else x.

Lemma return_deltas_run lines locked lockedv recorded u todo : ∀ acc r s s',
  fold_m (return_delta lines locked lockedv recorded) acc todo s = (inr r, s') →
  (∀ x, x ∈ todo → ri_order_item_id x ∈ recorded) → NoDup (map ri_id todo) →
  (∀ k x, d_return_items (st_db s) !! k = Some x → ri_id x = k) → (∀ x, x ∈ todo → d_return_items (st_db s) !! ri_id x = Some x) →
  d_return_items (st_db s') = restocked_row (map ri_id todo) <$> d_return_items (st_db s) ∧
  deltas_at r u = deltas_at acc u + if bool_decide (has_row locked lockedv u) then units received_of lines u todo else 0.
Proof.
  induction todo as [|x todo IH]; intros acc r s s'; cbn [fold_m].
  - intros [-> ->]%ret_inr _ _ _ _. split; [|case_bool_decide; unfold units; cbn; lia].
    apply map_eq. intros k. rewrite lookup_fmap. by destruct (_ !! k).
  - intros Hrun Hrec [Hx Hnd]%NoDup_cons Hkeys Hrows. apply bind_inr in Hrun as (acc' & s1 & H1 & Hrun). unfold return_delta in H1.
    rewrite bool_decide_eq_true_2 in H1 by (apply Hrec; left). cbn [negb] in H1.
    apply bind_inr in H1 as (l & s2 & Hl & H1). unfold line_of in Hl. apply of_option_inr in Hl as [Hl ->].
    apply bind_inr in H1 as ([] & s2 & Hu & H1). apply update_return_item_inr in Hu as (x0 & Hx0 & ->).
    assert (x0 = x) as -> by (rewrite (Hrows x) in Hx0 by left; congruence).
    destruct acc as [a v]. apply ret_inr in H1 as [Eacc ->].
    apply IH in Hrun as [Erows Edelta].
    + split.
      * rewrite Erows, db_set. cbn. apply map_eq. intros k. rewrite !lookup_fmap. destruct (decide (k = ri_id x)) as [->|Hne].
        -- rewrite lookup_insert_eq, Hx0. cbn. f_equal. unfold restocked_row. cbn.
           rewrite bool_decide_eq_false_2 by done. by rewrite bool_decide_eq_true_2 by left.
        -- rewrite lookup_insert_ne by done. destruct (d_return_items (st_db s) !! k) as [z|] eqn:Hz; [|done]. cbn. f_equal.
           unfold restocked_row. rewrite (Hkeys _ _ Hz). cbn [map].
           rewrite (bool_decide_ext (k ∈ ri_id x :: map ri_id todo) (k ∈ map ri_id todo)); [done|]. rewrite elem_of_cons. naive_solver.
      * assert (line_unit lines x = Some (unit_of l)) as Eunit by (unfold line_unit; by rewrite Hl).
        rewrite Edelta, units_cons, (bool_decide_ext (line_unit lines x = Some u) (unit_of l = u)) by (rewrite Eunit; split; congruence).
        enough (deltas_at acc' u = deltas_at (a, v) u +
          if bool_decide (has_row locked lockedv u) then if bool_decide (unit_of l = u) then received_of x else 0 else 0) as ->
          by (case_bool_decide; lia).
        rewrite Eacc. clear Edelta Eacc IH. destruct (oi_variant_id l) as [w|] eqn:Hv.
        -- assert (unit_of l = (true, w)) as -> by (unfold unit_of; by rewrite Hv).
           destruct (bool_decide (is_Some (lockedv !! w))) eqn:Hw; unfold deltas_at; destruct u as [[] k]; unfold has_row; cbn;
             rewrite ?bump_lookup; repeat case_bool_decide; simplify_eq; try lia; try congruence.
        -- assert (unit_of l = (false, oi_product_id l)) as -> by (unfold unit_of; by rewrite Hv).
           destruct (bool_decide (is_Some (locked !! oi_product_id l))) eqn:Hw; unfold deltas_at; destruct u as [[] k]; unfold has_row; cbn;
             rewrite ?bump_lookup; repeat case_bool_decide; simplify_eq; try lia; try congruence.
    + intros y Hy. apply Hrec. by right.
    + done.
    + rewrite db_set; cbn. intros k y [[<- <-]|[_ Hy]]%lookup_insert_Some; [done|by eauto].
    + intros y Hy. rewrite db_set; cbn. rewrite lookup_insert_ne; [apply Hrows; by right|]. intros Heq. apply Hx. rewrite Heq. by apply list_elem_of_fmap_2.
Qed.

Lemma todo_lines_inr lines todo : ∀ acc r s s',
  fold_m (λ acc i, l ← line_of lines (ri_order_item_id i); mret (acc ++ [l])) acc todo s = (inr r, s') →
  s' = s ∧ (∀ l, l ∈ acc → l ∈ r) ∧
  ∀ x, x ∈ todo → ∃ l, l ∈ r ∧ first_with (λ l, oi_id l =? ri_order_item_id x) lines = Some l.
Proof.
  induction todo as [|x todo IH]; intros acc r s s'; cbn [fold_m].
  - intros [-> ->]%ret_inr. split_and!; [done..|]. by intros x ?%elem_of_nil.
  - intros Hrun. apply bind_inr in Hrun as (acc' & s1 & H1 & Hrun). apply bind_inr in H1 as (l & s2 & Hl & H1).
    unfold line_of in Hl. apply of_option_inr in Hl as [Hl ->]. apply ret_inr in H1 as [-> ->].
    apply IH in Hrun as (-> & Hacc & Htodo). split_and!; [done|intros y Hy; apply Hacc; set_solver|].
    intros y [->|Hy]%elem_of_cons; [|by apply Htodo]. exists l. split; [apply Hacc; set_solver|done].
Qed.
Lemma units_absent n lines u xs : (∀ x, x ∈ xs → line_unit lines x ≠ Some u) → units n lines u xs = 0.
Proof.
  induction xs as [|x xs IH]; [done|]. intros Hno. rewrite units_cons, IH by (intros; apply Hno; by right).
  rewrite bool_decide_eq_false_2; [lia|]. apply Hno. left.
Qed.
Lemma filter_NoDup {A B} (key : A → B) (p : A → bool) l : NoDup (map key l) → NoDup (map key (List.filter p l)).
Proof.
  induction l as [|x l IH]; cbn; [constructor|]. intros [Hx Hnd]%NoDup_cons. destruct (p x); [|by apply IH]. cbn. constructor; [|by apply IH].
  intros (y & Heq & Hy)%list_elem_of_fmap. apply Hx. rewrite Heq. apply list_elem_of_fmap_2.
  apply list_elem_of_In in Hy. apply filter_In in Hy as [Hy _]. by apply list_elem_of_In.
Qed.
Lemma filter_elem {A} (p : A → bool) l x : x ∈ List.filter p l ↔ x ∈ l ∧ p x = true.
Proof. rewrite !list_elem_of_In. apply filter_In. Qed.

Lemma units_filtered n lines u (p : ReturnRequestItem → bool) xs :
  units n lines u (List.filter p xs) = units (λ x, if p x then n x else 0) lines u xs.
Proof.
  induction xs as [|x xs IH]; [done|]. cbn. rewrite units_cons. destruct (p x); [by rewrite units_cons, IH|].
  rewrite IH. by case_bool_decide.
Qed.

Definition return_key (rid : uuid) : string := "return:" +:+ rid.
Definition to_restock (items : list ReturnRequestItem) : list ReturnRequestItem :=
  List.filter (λ i, ri_restock i && (0 <? received_of i)) items.

Section receiving.
Context `{!Settings} `{!Providers}.

Lemma restock_return_run order ret lines admin w s s' :
  restock_return order ret lines admin s = (inr w, s') → Inv (st_db s) →
  (∀ x, x ∈ return_items (st_db s) (rt_id ret) → d_restocks (st_db s) !! (ri_order_item_id x, return_key (rt_id ret)) = None) →
  let todo := to_restock (return_items (st_db s) (rt_id ret)) in
  d_return_items (st_db s') = restocked_row (map ri_id todo) <$> d_return_items (st_db s) ∧
  (∀ k p, d_products (st_db s) !! k = Some p → d_products (st_db s') !! k = Some (add_stock (units received_of lines (false, k) todo) p)) ∧
  (∀ k v, d_variants (st_db s) !! k = Some v → d_variants (st_db s') !! k = Some (add_vstock (units received_of lines (true, k) todo) v)).
Proof.
  destruct w. intros Hrun HI Hnew. cbv zeta. unfold restock_return, get_many_for_update, get_variants_for_update in Hrun. cbv zeta in Hrun.
  apply bind_inr in Hrun as (items & s1 & Hg & Hrun). apply db_gets_inr in Hg as [-> ->]. fold (to_restock (return_items (st_db s) (rt_id ret))) in Hrun.
  set (todo := to_restock _) in *. destruct (Nat.eqb_spec (length todo) 0) as [Hnil%length_zero_iff_nil|_].
  { apply ret_inr in Hrun as [_ ->]. rewrite Hnil. split_and!.
    - apply map_eq. intros k. rewrite lookup_fmap. by destruct (_ !! k).
    - intros k p Hk. by rewrite add_stock_0.
    - intros k v Hk. by rewrite add_vstock_0. }
  apply bind_inr in Hrun as (tls & s1 & Hg & Hrun). apply todo_lines_inr in Hg as (-> & _ & Htls).
  apply bind_inr in Hrun as (locked & s1 & Hg & Hrun). apply db_gets_inr in Hg as [El ->].
  apply bind_inr in Hrun as (lockedv & s1 & Hg & Hrun). apply db_gets_inr in Hg as [Elv ->].
  apply bind_inr in Hrun as (recorded & s1 & Hr & Hrun). apply try_catch_inr in Hr as [Hr|(e & s9 & h & _ & Hh & Hr)].
  2: { destruct e; try done. by injection Hh as <-. }
  pose proof (frame_run _ _ _ _ _ (only_record_restock_events _) Hr) as F1. unfold record_restock_events in Hr.
  assert (∀ x, x ∈ todo → x ∈ return_items (st_db s) (rt_id ret)) as Hsub by (by intros x [? _]%filter_elem).
  assert (∀ x, x ∈ todo → ri_order_item_id x ∈ recorded) as Hrec.
  { set (es := map (λ i, (ri_order_item_id i, received_of i)) todo) in *.
    assert (es.*1 = map ri_order_item_id todo) as Hes by (unfold es; rewrite <-list_fmap_compose; done).
    replace (map _ todo) with (map (λ e, (e.1, return_key (rt_id ret), e.2)) es) in Hr by (unfold es; rewrite map_map; done).
    intros x Hx. eapply record_events_inr in Hr; [apply Hr; right; rewrite Hes; by apply list_elem_of_fmap_2| |].
    - rewrite Hes. by apply filter_NoDup, return_lines_NoDup.
    - apply Forall_forall. intros e (y & -> & Hy)%list_elem_of_fmap. apply Hnew. by apply Hsub. }
  same_table TReturnItems F1 A0. same_table TProducts F1 A1. same_table TVariants F1 A2.
  apply bind_inr in Hrun as ([ds vds] & s2 & Hd & Hrun).
  assert (guar (only [TReturnItems]) (fold_m (return_delta lines locked lockedv recorded) (∅, ∅) todo)) as G2.
  { apply guar_fold_m; [apply _..|]. intros b x. unfold return_delta, line_of. solve_frame. }
  pose proof (frame_run _ _ _ _ _ G2 Hd) as F2. same_table TProducts F2 B1. same_table TVariants F2 B2. clear G2.
  assert (∀ u, d_return_items (st_db s2) = restocked_row (map ri_id todo) <$> d_return_items (st_db s1) ∧
    deltas_at (ds, vds) u = if bool_decide (has_row locked lockedv u) then units received_of lines u todo else 0) as Hat.
  { intros u. eapply return_deltas_run in Hd as [Hrows Hu].
    - split; [exact Hrows|]. rewrite Hu. unfold deltas_at. destruct u as [[] k]; cbn; by rewrite lookup_empty.
    - exact Hrec.
    - by apply filter_NoDup, return_item_keys_NoDup.
    - rewrite A0. intros k x Hx. by destruct (inv_return_items _ HI _ _ Hx).
    - rewrite A0. intros x Hx. apply Hsub, return_items_elem in Hx as [[k Hk] _]. destruct (inv_return_items _ HI _ _ Hk) as [-> _]. done. }
  apply stock_change_inr in Hrun as (s3 & s4 & E3 & Hst & E4 & _ & _). apply bind_inr in Hst as ([] & s5 & Hps & Hvs).
  apply (frame_run _ _ _ _ _ (only_adjust_stock_many _ _)) in Hps as F5. apply adjust_stock_many_run in Hps as [Hps _].
  same_table TVariants F5 C1. same_table TReturnItems F5 C2.
  assert (shifted add_vstock (λ j, default 0 (vds !! j)) (d_variants (st_db s5)) (d_variants (st_db s4)) ∧
          d_products (st_db s4) = d_products (st_db s5) ∧ d_return_items (st_db s4) = d_return_items (st_db s5)) as (Hv & Tp & Tr).
  { case_bool_decide as Hemp.
    - apply ret_inr in Hvs as [_ ->]. split; [|done]. rewrite Hemp. by apply shifted_zero; [apply add_vstock_0].
    - apply (frame_run _ _ _ _ _ (only_adjust_variant_stock_many _ _)) in Hvs as F6. same_table TProducts F6 T5. same_table TReturnItems F6 T6.
      by apply adjust_variant_stock_many_run in Hvs as [Hvs _]. }
  split; [rewrite E4, Tr, C2, E3; rewrite (proj1 (Hat (false, 0))); by rewrite A0|].
  split; intros k x Hk.
  - rewrite E4, Tp, Hps, E3, B1, A1, Hk. cbn. do 2 f_equal. pose proof (proj2 (Hat (false, k))) as Hu. unfold deltas_at in Hu; cbn in Hu. rewrite Hu.
    case_bool_decide as Hrow; [done|]. symmetry. apply units_absent. intros y Hy Hyu. apply Hrow. unfold has_row; cbn.
    exists x. rewrite El. apply map_lookup_filter_Some. split; [done|]. cbn. destruct (Htls y Hy) as (l & Hl & Hf).
    unfold line_unit in Hyu. rewrite Hf in Hyu. cbn in Hyu. unfold unit_of in Hyu. destruct (oi_variant_id l); [done|].
    injection Hyu as <-. by apply list_elem_of_fmap_2.
  - rewrite E4, Hv, C1, E3, B2, A2, Hk. cbn. do 2 f_equal. pose proof (proj2 (Hat (true, k))) as Hu. unfold deltas_at in Hu; cbn in Hu. rewrite Hu.
    case_bool_decide as Hrow; [done|]. symmetry. apply units_absent. intros y Hy Hyu. apply Hrow. unfold has_row; cbn.
    exists x. rewrite Elv. apply map_lookup_filter_Some. split; [done|]. cbn. destruct (Htls y Hy) as (l & Hl & Hf).
    unfold line_unit in Hyu. rewrite Hf in Hyu. cbn in Hyu. unfold unit_of in Hyu. destruct (oi_variant_id l) eqn:Hvl; [|done].
    injection Hyu as <-. apply list_elem_of_omap. eauto.
Qed.
Lemma check_receipts_inr items es : ∀ u s s',
  for_each es (check_receipt items) s = (inr u, s') → s' = s ∧ ∀ e, e ∈ es → rv_restock e = true → rv_received_quantity e ≠ 0.
Proof.
  induction es as [|e es IH]; intros u s s'; cbn [for_each]; [intros [_ ->]%ret_inr; split; [done|by intros e ?%elem_of_nil]|].
  intros Hrun. apply bind_inr in Hrun as ([] & s1 & H1 & Hrun). unfold check_receipt in H1. destruct (first_with _ items); [|done].
  apply bind_inr in H1 as ([] & s2 & Hq & H1). apply raise_if_inr in Hq as [_ ->]. apply raise_if_inr in H1 as [Hz ->].
  apply IH in Hrun as [-> Hall]. split; [done|]. intros e' [->|He']%elem_of_cons; [|by apply Hall].
  intros Hr Hzero. by rewrite Hr, Hzero in Hz.
Qed.

(** The unit a line of a return is about. *)
Definition returned_unit (d : DB) (x : ReturnRequestItem) : option (bool * Z) := unit_of <$> d_items d !! ri_order_item_id x.
(** The units of [u] that lines of a return put back. *)
Definition went_back (d : DB) (u : bool * Z) (xs : list ReturnRequestItem) : Z :=
  sumZ (map (λ x, if bool_decide (returned_unit d x = Some u) then ri_restocked_quantity x else 0) xs).

(** What the receipt makes of a line that had received nothing: its units go back when the entry says so. *)
Lemma receipt_row d rid es x e ids :
  Inv d → (∃ k, d_return_items d !! k = Some (with_receipt rid es x)) → ri_return_id x = rid → entry_for es x = Some e →
  ri_restocked_quantity x = 0 → (rv_restock e = true → rv_received_quantity e ≠ 0) →
  (ri_id x ∈ ids ↔ ri_restock (with_receipt rid es x) && (0 <? received_of (with_receipt rid es x)) = true) →
  let y := restocked_row ids (with_receipt rid es x) in
  ri_received_quantity y = Some (rv_received_quantity e) ∧
  ri_restocked_quantity y = (if rv_restock e then rv_received_quantity e else 0).
Proof.
  intros HI [k Hk] Hr He Hz Hnz Hids. destruct (inv_return_items _ HI _ _ Hk) as (_ & _ & Hlo & _). cbv zeta.
  unfold restocked_row. unfold with_receipt in *. rewrite Hr, String.eqb_refl, He in *. cbn in *.
  destruct (rv_restock e); cbn in *.
  - specialize (Hnz eq_refl). rewrite bool_decide_eq_true_2; [done|]. apply Hids, Z.ltb_lt. unfold received_of; cbn. lia.
  - rewrite bool_decide_eq_false_2; [by split|]. intros Hin%Hids. done.
Qed.

Lemma with_receipt_restocked rid es x : ri_restocked_quantity (with_receipt rid es x) = ri_restocked_quantity x.
Proof. unfold with_receipt. destruct (String.eqb _ _); [|done]. by destruct (entry_for es x). Qed.
(** A line of the return is among those put back exactly when it is to be. *)
Lemma restock_listed d rid k w :
  Inv d → d_return_items d !! k = Some w → ri_return_id w = rid →
  ri_id w ∈ map ri_id (to_restock (return_items d rid)) ↔ ri_restock w && (0 <? received_of w) = true.
Proof.
  intros HI Hw Hr. destruct (inv_return_items _ HI _ _ Hw) as [Hkey _]. split.
  - intros (y & Hy & [Hin Hp]%filter_elem)%list_elem_of_fmap. apply return_items_elem in Hin as [[j Hj] _].
    destruct (inv_return_items _ HI _ _ Hj) as [Hjk _]. assert (y = w) as -> by congruence. done.
  - intros Hp. apply list_elem_of_fmap_2, filter_elem. split; [|done]. apply return_items_elem. eauto.
Qed.

Lemma entry_found payload (x : ReturnRequestItem) (items : list ReturnRequestItem) :
  list_to_set (map rv_order_item_id payload) =@{gset Z} list_to_set (map ri_order_item_id items) → x ∈ items →
  ∃ e, e ∈ payload ∧ entry_for payload x = Some e ∧ rv_order_item_id e = ri_order_item_id x.
Proof.
  intros Heq Hx. unfold entry_for. destruct (first_with _ payload) as [e|] eqn:Hf.
  - exists e. apply find_some_elem in Hf as [He Hl%Z.eqb_eq]. done.
  - exfalso. assert (ri_order_item_id x ∈@{gset Z} list_to_set (map rv_order_item_id payload)) as Hin.
    { rewrite Heq. apply elem_of_list_to_set. by apply list_elem_of_fmap_2. }
    apply elem_of_list_to_set, list_elem_of_fmap in Hin as (e & He & Hin). apply list_elem_of_In in Hin.
    pose proof (find_none _ _ Hf _ Hin) as Hn. cbn in Hn. by rewrite He, Z.eqb_refl in Hn.
Qed.

(** The receipt, step by step: what arrived is recorded, then the goods are put back, then the return is marked. *)
Lemma receive_run rid admin payload r s s' :
  receive_return rid admin payload s = (inr r, s') → sound s →
  ∃ s1 s2 order ret lines w,
    rt_status r = "received" ∧ rt_id ret = rid ∧ Inv (st_db s1) ∧
    (∀ x, x ∈ return_items (st_db s) rid → ∃ e, e ∈ payload ∧ entry_for payload x = Some e ∧ rv_order_item_id e = ri_order_item_id x ∧
       (rv_restock e = true → rv_received_quantity e ≠ 0) ∧ line_unit lines x = returned_unit (st_db s) x) ∧
    d_return_items (st_db s1) = with_receipt rid payload <$> d_return_items (st_db s) ∧ only [TReturnItems] s s1 ∧
    restock_return order ret lines admin s1 = (inr w, s2) ∧ only [TReturns; TAudit] s2 s'.
Proof.
  intros Hrun Hs. pose proof Hs as (_ & _ & HI). unfold receive_return in Hrun. cbv zeta in Hrun.
  apply bind_inr in Hrun as (ret & s0 & Hg & Hrun). apply get_return_inr in Hg as [Hret ->]. pose proof (inv_return_keys _ HI _ _ Hret) as Hid.
  apply bind_inr in Hrun as (u0 & s0 & Hg & Hrun). apply raise_if_inr in Hg as [_ ->].
  apply bind_inr in Hrun as (items & s0 & Hg & Hrun). apply db_gets_inr in Hg as [-> ->].
  apply bind_inr in Hrun as (u1 & s0 & Hg & Hrun). apply raise_if_inr in Hg as [Hgiven ->].
  apply orb_false_iff in Hgiven as [Hnd%negb_false_iff%bool_decide_eq_true Hset%negb_false_iff%bool_decide_eq_true].
  apply bind_inr in Hrun as (u2 & s0 & Hg & Hrun). apply check_receipts_inr in Hg as [-> Hnz].
  apply bind_inr in Hrun as (order & s0 & Hg & Hrun). apply lock_order_inr in Hg as [Hord ->].
  apply bind_inr in Hrun as (lines & s0 & Hg & Hrun). apply db_gets_inr in Hg as [-> ->].
  apply bind_inr in Hrun as (u3 & s1 & Hrec & Hrun).
  assert (guar step (for_each payload (record_receipt (return_items (st_db s) rid)))) as G1.
  { apply guar_for_each; [apply _..|]. intros e. apply guar_record_receipt. }
  assert (guar (only [TReturnItems]) (for_each payload (record_receipt (return_items (st_db s) rid)))) as G2.
  { apply guar_for_each; [apply _..|]. intros e. apply only_record_receipt. }
  pose proof (frame_run _ _ _ _ _ G2 Hrec) as F1. destruct (guar_ran step _ _ _ _ Hrec G1 Hs) as [(_ & _ & HI1) _].
  apply receipts_run with (rid := rid) in Hrec; [|done|].
  2: { split; [|exact (inv_return_unique _ HI)].
       intros y [[k Hk] Hy]%return_items_elem. split; [done|]. exists y. destruct (inv_return_items _ HI _ _ Hk) as [-> _]. done. }
  apply bind_inr in Hrun as (w & s2 & Hre & Hrun).
  apply bind_inr in Hrun as (t & s3 & Hg & Hrun). apply now_inr in Hg as [_ ->].
  apply bind_inr in Hrun as (ret' & s3 & Hup & Hrun). pose proof (frame_run _ _ _ _ _ (only_update_return _ _) Hup) as F2.
  apply update_return_inr in Hup as (x & _ & Er & _).
  apply bind_inr in Hrun as (n & s4 & Hg & Hrun). apply db_gets_inr in Hg as [_ ->].
  apply bind_inr in Hrun as (u4 & s4 & Hlog & Hrun). apply ret_inr in Hrun as [-> ->].
  pose proof (frame_run _ _ _ _ _ (only_audit_log _ _ _ _ _) Hlog) as F3.
  exists s1, s2, order, ret, (items_of (st_db s) (o_id order)), w. split_and!; try done.
  - by rewrite Er.
  - intros x0 Hx. destruct (entry_found payload x0 _ Hset Hx) as (e & He & Hent & Hline). exists e. split_and!; [done..|by apply Hnz|].
    apply return_items_elem in Hx as [[k Hk] Hr]. destruct (inv_return_lines _ HI _ _ Hk) as (ret0 & i & Hret0 & Hi & Hio).
    unfold line_unit, returned_unit. rewrite (line_found _ (o_id order) _ i HI Hi), Hi; [done|].
    rewrite (inv_order_keys _ HI _ _ Hord). congruence.
  - etrans; [by eapply only_weaken|by eapply only_weaken].
Qed.

(** C32. Receiving a return records, for every line of it, what arrived, and puts back in the stock of every product
    and variant exactly the units that arrived and were marked as sellable. *)
Theorem receive_puts_back rid admin payload r s s' :
  receive_return rid admin payload s = (inr r, s') → sound s →
  (∀ x, x ∈ return_items (st_db s) rid →
     ri_received_quantity x = None ∧ d_restocks (st_db s) !! (ri_order_item_id x, return_key rid) = None) →
  rt_status r = "received" ∧
  (∀ x, x ∈ return_items (st_db s') rid → ∃ e, e ∈ payload ∧ rv_order_item_id e = ri_order_item_id x ∧
     ri_received_quantity x = Some (rv_received_quantity e) ∧
     ri_restocked_quantity x = (if rv_restock e then rv_received_quantity e else 0)) ∧
  (∀ k p, d_products (st_db s) !! k = Some p →
     d_products (st_db s') !! k = Some (p <| p_stock := p_stock p + went_back (st_db s) (false, k) (return_items (st_db s') rid) |>)) ∧
  (∀ k v, d_variants (st_db s) !! k = Some v →
     d_variants (st_db s') !! k = Some (v <| pv_stock := pv_stock v + went_back (st_db s) (true, k) (return_items (st_db s') rid) |>)).
Proof.
  intros Hrun Hs Hfresh. pose proof Hs as (_ & _ & HI).
  apply receive_run in Hrun as (s1 & s2 & order & ret & lines & w & Hst & Hrid & HI1 & Hent & Erec & F1 & Hre & F2); [|done].
  same_table TReturnItems F2 A1. same_table TProducts F2 A2. same_table TVariants F2 A3.
  same_table TProducts F1 B1. same_table TVariants F1 B2. same_table TRestocks F1 B3.
  set (items := return_items (st_db s) rid) in *.
  assert (return_items (st_db s1) rid ≡ₚ with_receipt rid payload <$> items) as P1.
  { apply return_items_fmap; [done|]. intros x. pose proof (with_receipt_facts rid payload x) as Hf. unfold return_item_facts in Hf. congruence. }
  apply restock_return_run in Hre as (Erows & Hp & Hv); [|done|].
  2: { rewrite Hrid. intros x Hx. rewrite P1 in Hx. apply list_elem_of_fmap in Hx as (x0 & -> & Hx0). rewrite B3.
       pose proof (with_receipt_facts rid payload x0) as Hf. unfold return_item_facts in Hf.
       replace (ri_order_item_id (with_receipt rid payload x0)) with (ri_order_item_id x0) by congruence. by apply Hfresh. }
  rewrite Hrid in Erows, Hp, Hv. set (todo := to_restock (return_items (st_db s1) rid)) in *.
  set (G := λ x, restocked_row (map ri_id todo) (with_receipt rid payload x)).
  assert (return_items (st_db s') rid ≡ₚ G <$> items) as P2.
  { apply return_items_fmap.
    - rewrite A1, Erows, Erec. apply map_eq. intros k. rewrite !lookup_fmap. by destruct (_ !! k).
    - intros x. unfold G, restocked_row. pose proof (with_receipt_facts rid payload x) as Hf. unfold return_item_facts in Hf.
      case_bool_decide; cbn; congruence. }
  assert (∀ x, x ∈ items → ∃ e, e ∈ payload ∧ rv_order_item_id e = ri_order_item_id (G x) ∧
    ri_order_item_id (G x) = ri_order_item_id x ∧ line_unit lines x = returned_unit (st_db s) x ∧
    ri_received_quantity (G x) = Some (rv_received_quantity e) ∧
    ri_restocked_quantity (G x) = (if rv_restock e then rv_received_quantity e else 0) ∧
    ri_restocked_quantity (G x) = (if ri_restock (with_receipt rid payload x) && (0 <? received_of (with_receipt rid payload x))
                                   then received_of (with_receipt rid payload x) else 0)) as HG.
  { intros x Hx. destruct (Hent x Hx) as (e & He & Hentry & Hline & Hnz & Hunit). destruct (Hfresh x Hx) as [Hnone _].
    apply return_items_elem in Hx as [[k Hk] Hr]. destruct (inv_return_items _ HI _ _ Hk) as (Hkey & _ & Hq & _). rewrite Hnone in Hq. cbn in Hq.
    pose proof (with_receipt_facts rid payload x) as Hf. unfold return_item_facts in Hf.
    set (w0 := with_receipt rid payload x) in *.
    assert (d_return_items (st_db s1) !! k = Some w0) as Hw by (rewrite Erec, lookup_fmap, Hk; done).
    assert (ri_restocked_quantity w0 = 0) as Hz by (transitivity (ri_restocked_quantity x); [apply with_receipt_restocked|lia]).
    pose proof (restock_listed (st_db s1) rid k w0 HI1 Hw ltac:(congruence)) as Hids. fold todo in Hids.
    replace (ri_id w0) with (ri_id x) in Hids by congruence.
    assert (ri_order_item_id (G x) = ri_order_item_id x) as Hline'.
    { unfold G, restocked_row. fold w0. case_bool_decide; cbn; congruence. }
    destruct (receipt_row (st_db s1) rid payload x e (map ri_id todo) HI1) as [E1 E2]; eauto; [lia|].
    exists e. split_and!; try done; [congruence|].
    unfold G, restocked_row. fold w0. replace (ri_id w0) with (ri_id x) by congruence. case_bool_decide as Hin.
    - by rewrite (proj1 Hids Hin).
    - destruct (ri_restock w0 && (0 <? received_of w0)) eqn:Hp'; [|done]. exfalso. by apply Hin, Hids. }
  split; [done|]. split.
  { intros x Hx. rewrite P2 in Hx. apply list_elem_of_fmap in Hx as (x0 & -> & Hx0).
    destruct (HG x0 Hx0) as (e & He & Hl & _ & _ & Hr & Hq & _). eauto. }
  assert (∀ u, units received_of lines u todo = went_back (st_db s) u (return_items (st_db s') rid)) as Hu.
  { intros u. unfold todo, to_restock. rewrite units_filtered, (units_perm _ _ _ _ _ P1). unfold went_back.
    transitivity (sumZ (map (λ x, if bool_decide (returned_unit (st_db s) x = Some u) then ri_restocked_quantity x else 0) (G <$> items)));
      [|apply sumZ_perm; symmetry; by apply Permutation_map].
    revert HG. generalize items. intros l HG. induction l as [|x l IH]; [done|].
    rewrite !fmap_cons, units_cons. cbn [map]. rewrite sumZ_cons. rewrite IH by (intros; apply HG; by right). f_equal.
    destruct (HG x) as (e & _ & _ & El & Eu & _ & _ & Eq); [left|]. rewrite Eq.
    pose proof (with_receipt_facts rid payload x) as Hf. unfold return_item_facts in Hf.
    rewrite (bool_decide_ext (line_unit lines (with_receipt rid payload x) = Some u) (returned_unit (st_db s) (G x) = Some u)); [done|].
    unfold line_unit, returned_unit in *. replace (ri_order_item_id (with_receipt rid payload x)) with (ri_order_item_id x) by congruence.
    by rewrite El, Eu. }
  split; intros k x Hk.
  - rewrite A2, (Hp k x), Hu; [done|by rewrite B1].
  - rewrite A3, (Hv k x), Hu; [done|by rewrite B2].
Qed.

(** ** The refund of an order that came back *)

(** How a return is closed by its refund. *)
Definition refunded_by (admin : uuid) (t : Z) (f : Refund) (r : ReturnRequest) : ReturnRequest :=
  r <| rt_status := "closed" |> <| rt_resolution := Some "refunded" |> <| rt_refund_id := Some (r_id f) |>
    <| rt_closed_at := Some t |> <| rt_handled_by_user_id := Some admin |>.
Lemma existsb_not_all {A} (back quantity : A → Z) l :
  existsb (λ i, back i <? quantity i) l = negb (forallb (λ i, quantity i <=? back i) l).
Proof. induction l as [|i l IH]; [done|]. cbn. rewrite IH, negb_andb. f_equal. by rewrite Z.leb_antisym, negb_involutive. Qed.
Lemma refunded_checked admin t f r : return_requests_checks r = None → return_requests_checks (refunded_by admin t f r) = None.
Proof.
  unfold return_requests_checks. intros Hc. passed Hc. rewrite first_violation_None. repeat constructor; try done.
Qed.

(** C33. The refund of a return. One that was not received is refused, and so is one while the returns received or closed do not
    bring back every unit of every line of the order: then nothing changes. Once they do, the refund of the whole order is
    requested, neither more nor less: the answer is the refusal of that request, or the return is closed as refunded, about the
    refund that was started or found, now and by the administrator, and no other return changes. *)
Theorem return_refund_whole rid admin ret order s :
  d_returns (st_db s) !! rid = Some ret → return_requests_checks ret = None → d_orders (st_db s) !! rt_order_id ret = Some order →
  let whole := forallb (λ i, oi_quantity i <=? back_of (st_db s) (o_id order) (oi_id i)) (items_of (st_db s) (o_id order)) in
  (rt_status ret ≠ "received" → refund_return rid admin s = (inl (EReturn (ReturnStateError (rt_status ret) "refunded")), s)) ∧
  (rt_status ret = "received" → whole = false → refund_return rid admin s = (inl (EReturn ReturnNotFullError), s)) ∧
  (rt_status ret = "received" → whole = true →
   match request_refund (o_id order) admin None false s with
   | (inl e, s1) => refund_return rid admin s = (inl e, s1)
   | (inr (f, _), s1) =>
       ∃ s', refund_return rid admin s = (inr (refunded_by admin (st_now s1) f ret), s') ∧
         d_returns (st_db s') = <[rid := refunded_by admin (st_now s1) f ret]> (d_returns (st_db s)) ∧ only [TReturns; TAudit] s1 s'
   end).
Proof.
  intros Hret Hchecks Hord. cbv zeta. unfold refund_return.
  rewrite !(bind_run (get_return rid) _ s ret s) by (unfold get_return, db_gets, of_option, gets, mbind, ST_bind; cbn; by rewrite Hret).
  split; [|split].
  - intros Hne. by rewrite (proj2 (String.eqb_neq _ _) Hne).
  - intros -> Hw. cbn [String.eqb Ascii.eqb Bool.eqb negb]. erewrite bind_run by reflexivity. cbv beta.
    rewrite (bind_run (_lock_order _) _ s order s) by (unfold _lock_order, get_order_by_id, db_gets, of_option, gets, mbind, ST_bind; cbn; by rewrite Hord).
    erewrite bind_run by reflexivity. cbv beta. by rewrite existsb_not_all, Hw.
  - intros -> Hw. cbn [String.eqb Ascii.eqb Bool.eqb negb]. erewrite bind_run by reflexivity. cbv beta.
    rewrite (bind_run (_lock_order _) _ s order s) by (unfold _lock_order, get_order_by_id, db_gets, of_option, gets, mbind, ST_bind; cbn; by rewrite Hord).
    erewrite bind_run by reflexivity. cbv beta. rewrite existsb_not_all, Hw. erewrite bind_run by reflexivity. cbv beta.
    destruct (request_refund (o_id order) admin None false s) as [[e|[f b]] s1] eqn:Hf; [unfold mbind, ST_bind at 1; by rewrite Hf|].
    rewrite (bind_run _ _ _ _ _ Hf). cbv beta. cbn [fst]. erewrite bind_run by reflexivity. cbv beta.
    pose proof (frame_run _ _ _ _ _ (only_request_refund _ _ _ _) Hf) as F. same_table TReturns F Hsame.
    rewrite (bind_run (update_return rid _) _ s1 (refunded_by admin (st_now s1) f ret)
      (set_db (λ d, d <| d_returns ::= <[rid := refunded_by admin (st_now s1) f ret]> |>) s1)).
    2: { unfold update_return. erewrite bind_run by reflexivity. cbv beta. rewrite Hsame, Hret. erewrite bind_run by reflexivity. cbv beta.
         fold (refunded_by admin (st_now s1) f ret). rewrite refunded_checked by done. reflexivity. }
    eexists. split; [reflexivity|]. split; [autorewrite with state; cbn; by rewrite Hsame|].
    split; [|done]. intros [] Ht; done.
Qed.

(** ** A request that is granted *)

Definition asked (l : ReturnItemCreate) := (rc_order_item_id l, rc_quantity l, rc_reason l).
Definition recorded_as (x : ReturnRequestItem) := (ri_order_item_id x, ri_quantity x, ri_reason x).

Lemma add_items_run rid lines : ∀ u s s',
  for_each lines (add_return_item rid) s = (inr u, s') →
  map recorded_as (return_items (st_db s') rid) ≡ₚ map asked lines ++ map recorded_as (return_items (st_db s) rid).
Proof.
  induction lines as [|l lines IH]; intros u s s'; cbn [for_each]; [by intros [_ ->]%ret_inr|].
  intros Hrun. apply bind_inr in Hrun as ([] & s1 & H1 & Hrun). unfold add_return_item in H1. apply bind_inr in H1 as (i & s2 & Hi & H1).
  apply new_id_inr in Hi as [-> ->]. apply insert_return_item_inr in H1 as [Hnew ->]. apply IH in Hrun. rewrite Hrun. clear Hrun IH.
  unfold return_items at 1, order_by. rewrite (Permutation_map recorded_as (merge_sort_Permutation _ _)). rewrite db_set; cbn.
  cbn in Hnew. rewrite (Permutation_map recorded_as (rows_where_insert _ _ _ _ Hnew)). cbn. rewrite String.eqb_refl. cbn.
  symmetry. etrans; [apply Permutation_middle|]. apply Permutation_app_head, perm_skip.
  unfold return_items, order_by. by rewrite (Permutation_map recorded_as (merge_sort_Permutation _ _)).
Qed.

Lemma eligible_conditions d t o :
  eg_reason (eligibility_of d t o) = None →
  o_status o = FULFILLED ∧ return_window_days ≠ 0 ∧ t ≤ window_start d o + return_window_days * 86400.
Proof.
  unfold eligibility_of; cbv zeta. destruct (Z.eqb_spec return_window_days 0) as [|Hdays]; [done|].
  case_bool_decide as Hful; cbn; [|done]. destruct (Z.ltb_spec (window_start d o + return_window_days * 86400) t); [done|]. done.
Qed.
(** A return that is not there has no lines. *)
Lemma no_return_no_lines d rid : Inv d → d_returns d !! rid = None → return_items d rid = [].
Proof.
  intros HI Hr. destruct (return_items d rid) as [|x l] eqn:He; [done|]. exfalso.
  assert (x ∈ return_items d rid) as [[k Hk] Hx]%return_items_elem by (rewrite He; left).
  destruct (inv_return_lines _ HI _ _ Hk) as (r & _ & Hr' & _). rewrite Hx, Hr in Hr'. done.
Qed.

(** A request for a return is granted only to the customer of a shipped order, within the return window, for lines
    of the order and for no more units than are left of each after the returns that count; it creates one return in
    status [requested] with exactly the lines that were asked for, and changes nothing else. *)
Theorem return_request_granted u oid p r s s' :
  create_return u oid p s = (inr r, s') → Inv (st_db s) →
  ∃ order, d_orders (st_db s) !! oid = Some order ∧ o_user_id order = Some u ∧ o_status order = FULFILLED ∧
    return_window_days ≠ 0 ∧ st_now s ≤ window_start (st_db s) order + return_window_days * 86400 ∧
    (∀ l, l ∈ rp_items p → returnable_line (st_db s) oid l) ∧
    rt_order_id r = oid ∧ rt_user_id r = u ∧ rt_status r = "requested" ∧
    d_returns (st_db s) !! rt_id r = None ∧ d_returns (st_db s') = <[rt_id r := r]> (d_returns (st_db s)) ∧
    map recorded_as (return_items (st_db s') (rt_id r)) ≡ₚ map asked (rp_items p) ∧
    only [TReturns; TReturnItems; TAudit] s s'.
Proof.
  intros Hrun HI. unfold create_return in Hrun.
  assert (only [TReturns; TReturnItems; TAudit] s s') as F.
  { eapply frame_run; [|exact Hrun]. unfold check_line, add_return_item, return_log. solve_frame. }
  apply bind_inr in Hrun as (order & s0 & Hg & Hrun). apply lock_order_inr in Hg as [Hord ->].
  apply bind_inr in Hrun as (u0 & s0 & Hg & Hrun). apply raise_if_inr in Hg as [Hu%negb_false_iff%bool_decide_eq_true ->].
  apply bind_inr in Hrun as (state & s0 & Hg & Hrun). apply gets_inr in Hg as [Estate ->].
  apply bind_inr in Hrun as (u1 & s0 & Hg & Hrun).
  assert (eg_reason state = None ∧ s0 = s) as [Hok ->].
  { destruct (eg_reason state) as [e|]; [destruct e; by apply raise_inr in Hg|]. by apply ret_inr in Hg as [_ ->]. }
  clear Hg.
  apply bind_inr in Hrun as (u2 & s0 & Hg & Hrun). apply check_lines_inr in Hg as [-> Hlines].
  apply bind_inr in Hrun as (rid & s1 & Hg & Hrun). apply new_uuid_inr in Hg as [Erid ->].
  apply bind_inr in Hrun as (t & s1 & Hg & Hrun). apply now_inr in Hg as [-> ->]. cbv zeta in Hrun.
  apply bind_inr in Hrun as (u3 & s1 & Hins & Hrun). unfold insert_return in Hins. runs. guards_passed Hp.
  apply Forall_inv, eq_sym, check_None, bool_decide_eq_true in Hp. cbn in Hp.
  match goal with E : for_each _ (add_return_item _) _ = _ |- _ => rename E into Hadd end.
  match goal with E : return_log _ _ _ _ _ = _ |- _ => rename E into Hlog end.
  assert (guar (only [TReturnItems]) (for_each (rp_items p) (add_return_item ("uuid-" +:+ str_Z (st_next_uuid s))))) as G.
  { apply guar_for_each; [apply _..|]. intros l. unfold add_return_item. solve_frame. }
  pose proof (frame_run _ _ _ _ _ G Hadd) as F1. pose proof (frame_run _ _ _ _ _ (only_audit_log _ _ _ _ _) Hlog) as F2.
  same_table TReturns F1 A1. same_table TReturns F2 A2. same_table TReturnItems F2 A3.
  assert (o_id order = oid) as Hid by by eapply inv_order_keys.
  assert (∀ l, l ∈ rp_items p → returnable_line (st_db s) oid l) as Hret.
  { intros l Hl. destruct (Hlines l Hl) as (i & Hi & Ei & Eq). rewrite <-Hid. by eapply eligible_line. }
  apply eligible_conditions in Hok as (Hful & Hdays & Hwin). exists order.
  split_and!; try done; cbn.
  - rewrite A2, A1, db_set. done.
  - unfold return_items at 1. rewrite A3. etrans; [exact (add_items_run _ _ _ _ _ Hadd)|].
    match goal with |- context [return_items (st_db (set_db _ _)) ?i] =>
      change (return_items (st_db (set_db _ _)) i) with (return_items (st_db s) i) end.
    by rewrite no_return_no_lines, app_nil_r.
Qed.
End receiving.

(** ** Witnesses: Alice sends a mug back *)

Definition shipped_day : St := run (take 5 a_week) demo_state.
Definition one_mug : ReturnCreate := MkReturnCreate [MkReturnLine 100 1 "damaged"] None.
Definition asked_return : ReturnRequest :=
  MkReturn "uuid-4" "uuid-1" "alice" "requested" None None None None None None 1760086400 None None None None.
Definition asked_day : St := (create_return "alice" "uuid-1" one_mug shipped_day).2.
Lemma shipped_sound : sound shipped_day.
Proof. apply (run_sound (take 5 a_week) demo_state demo_sound). Qed.

Lemma return_request_granted_witness :
  map recorded_as (return_items (st_db asked_day) "uuid-4") ≡ₚ [(100, 1, "damaged")] ∧ only [TReturns; TReturnItems; TAudit] shipped_day asked_day.
Proof.
  assert (create_return "alice" "uuid-1" one_mug shipped_day = (inr asked_return, asked_day)) as Hrun by (vm_compute; reflexivity).
  destruct (return_request_granted "alice" "uuid-1" one_mug asked_return shipped_day asked_day Hrun (proj2 (proj2 shipped_sound)))
    as (_ & _ & _ & _ & _ & _ & _ & _ & _ & _ & _ & _ & Hlines & Honly).
  exact (conj Hlines Honly).
Defined.

Definition mug_back : list ReceiveItem := [MkReceive 100 1 true None].
Definition received_return : ReturnRequest := match (receive_return "uuid-4" "admin" mug_back approved_day).1 with inr r => r | inl _ => asked_return end.
Definition received_day : St := (receive_return "uuid-4" "admin" mug_back approved_day).2.
Definition approved_lines : list ReturnRequestItem := Eval vm_compute in return_items (st_db approved_day) "uuid-4".
Lemma approved_fresh x : x ∈ return_items (st_db approved_day) "uuid-4" →
  ri_received_quantity x = None ∧ d_restocks (st_db approved_day) !! (ri_order_item_id x, return_key "uuid-4") = None.
Proof.
  assert (return_items (st_db approved_day) "uuid-4" = approved_lines) as -> by (vm_compute; reflexivity).
  assert (d_restocks (st_db approved_day) = ∅) as -> by (vm_compute; reflexivity).
  unfold approved_lines. intros ->%list_elem_of_singleton. split; [reflexivity|apply lookup_empty].
Qed.
Definition mug_3 : Product := mug <| p_stock := 3 |>.

Lemma receive_puts_back_witness :
  d_products (st_db received_day) !! 1 =
    Some (mug_3 <| p_stock := 3 + went_back (st_db approved_day) (false, 1) (return_items (st_db received_day) "uuid-4") |>) ∧
  went_back (st_db approved_day) (false, 1) (return_items (st_db received_day) "uuid-4") = 1.
Proof.
  split; [|vm_compute; reflexivity].
  assert (receive_return "uuid-4" "admin" mug_back approved_day = (inr received_return, received_day)) as Hrun by (vm_compute; reflexivity).
  destruct (receive_puts_back "uuid-4" "admin" mug_back received_return approved_day received_day Hrun approved_sound approved_fresh)
    as (_ & _ & Hp & _).
  apply (Hp 1 mug_3). vm_compute. reflexivity.
Defined.

(** One mug of two, and no shirt, came back: the order is not refunded. *)
Definition received_order : Order := default no_order (d_orders (st_db received_day) !! "uuid-1").
Lemma return_refund_whole_witness : refund_return "uuid-4" "admin" received_day = (inl (EReturn ReturnNotFullError), received_day).
Proof.
  refine (proj1 (proj2 (return_refund_whole "uuid-4" "admin" received_return received_order received_day _ _ _)) _ _); vm_compute; reflexivity.
Defined.
