(* ===== verification/AccountsEvolution.v ===== *)
(** * How the account tables evolve

    [acc_step] relates the states around any part of an account request: a family of refresh tokens none of which is
    alive stays so, a refresh token once revoked and an emailed link once used stay so. [account_step] is one request, or
    any work of the rest of the program, between two states at rest; [account_steps] follows its sequences. *)

From S2P Require Import Prelude Errors Schema Guards Evolution Repositories Frames Runs Cart Accounts Roles Graphql Demo System.

Local Open Scope string_scope.
Local Open Scope list_scope.
Local Open Scope Z_scope.

(** ** The relation *)

(** The tables of this component. *)
Definition accounts_of (d : DB) := (d_users d, d_refresh_tokens d, d_auth_tokens d).
(** Those of the staff. *)
Definition staff_of (d : DB) := (d_staff_roles d, d_assignments d).

(** An id the state has already handed out. *)
Definition issued (s : St) (x : uuid) : Prop := ∃ m, m < st_next_uuid s ∧ x = "uuid-" +:+ str_Z m.

Record acc_ok (s : St) : Prop := {
  ok_users : ∀ k u, d_users (st_db s) !! k = Some u → u_id u = k;
  ok_refresh : ∀ k t, d_refresh_tokens (st_db s) !! k = Some t → rf_jti t = k ∧ issued s (rf_family_id t);
  ok_links : ∀ k r, d_auth_tokens (st_db s) !! k = Some r → at_token_hash r = k
}.

(** No token of the family can be exchanged any more. *)
Definition dead (d : DB) (f : uuid) : Prop := ∀ k t, d_refresh_tokens d !! k = Some t → rf_family_id t = f → rf_revoked t = true.

Definition token_ext (t t' : RefreshToken) : Prop :=
  (rf_user_id t', rf_family_id t', rf_expires_at t') = (rf_user_id t, rf_family_id t, rf_expires_at t) ∧
  (rf_revoked t = true → rf_revoked t' = true).
Definition link_ext (r r' : AuthToken) : Prop :=
  (at_user_id r', at_purpose r', at_email r', at_expires_at r') = (at_user_id r, at_purpose r, at_email r, at_expires_at r) ∧
  (at_used_at r ≠ None → r' = r).

Record acc_ev (s s' : St) : Prop := {
  ev_dead : ∀ f, issued s f → dead (st_db s) f → dead (st_db s') f;
  ev_tokens : table_ext token_ext (d_refresh_tokens (st_db s)) (d_refresh_tokens (st_db s'));
  ev_links : table_ext link_ext (d_auth_tokens (st_db s)) (d_auth_tokens (st_db s'));
  ev_next : st_next_uuid s ≤ st_next_uuid s'
}.
Definition acc_step (s s' : St) : Prop := acc_ok s → acc_ok s' ∧ acc_ev s s'.

#[export] Instance token_ext_refl : Reflexive token_ext.
Proof. by split. Qed.
#[export] Instance token_ext_trans : Transitive token_ext.
Proof. intros a b c [H1 H2] [H3 H4]. split; [congruence|auto]. Qed.
#[export] Instance link_ext_refl : Reflexive link_ext.
Proof. by split. Qed.
#[export] Instance link_ext_trans : Transitive link_ext.
Proof.
  intros a b c [H1 H2] [H3 H4]. split; [congruence|]. intros Hu. assert (b = a) as -> by auto. auto.
Qed.
Lemma issued_mono s s' x : st_next_uuid s ≤ st_next_uuid s' → issued s x → issued s' x.
Proof. intros Hle (m & Hm & ->). exists m. split; [lia|done]. Qed.
#[export] Instance acc_step_refl : Reflexive acc_step.
Proof. intros s Hs. split; [done|]. split; [done|apply table_ext_refl, _..|lia]. Qed.
#[export] Instance acc_step_trans : Transitive acc_step.
Proof.
  intros a b c Hab Hbc Ha. destruct (Hab Ha) as [Hb [D1 T1 L1 N1]]. destruct (Hbc Hb) as [Hc [D2 T2 L2 N2]].
  split; [done|]. split; [|by eapply table_ext_trans; [apply _|..]|by eapply table_ext_trans; [apply _|..]|lia].
  intros f Hf Hd. apply D2; [by eapply issued_mono|by apply D1].
Qed.

(** Work that leaves these tables alone. *)
Lemma acc_same s s' :
  accounts_of (st_db s') = accounts_of (st_db s) → st_next_uuid s ≤ st_next_uuid s' → acc_step s s'.
Proof.
  intros [= Hu Hr Ha] Hn [O1 O2 O3]. split; [split|split].
  - intros k u. rewrite Hu. apply O1.
  - intros k t. rewrite Hr. intros Hk. destruct (O2 _ _ Hk). split; [done|by eapply issued_mono].
  - intros k r. rewrite Ha. apply O3.
  - intros f _ Hd k t. rewrite Hr. apply Hd.
  - rewrite Hr. apply table_ext_refl, _.
  - rewrite Ha. apply table_ext_refl, _.
  - done.
Qed.
Lemma acc_upd f : (∀ d, accounts_of (f d) = accounts_of d) → guar acc_step (upd f).
Proof. intros Hf s. apply acc_same; [apply Hf|done]. Qed.

(** ** Statements *)

Lemma acc_update_where {K} `{Countable K} {V} (R : V → V → Prop) `{!Reflexive R} p f (m : gmap K V) :
  (∀ v, p v = true → R v (f v)) → table_ext R m (update_where p f m).
Proof.
  intros Hf k v Hk. exists (if p v then f v else v). unfold update_where. rewrite lookup_fmap, Hk. split; [done|].
  destruct (p v) eqn:?; [auto|reflexivity].
Qed.
Lemma update_where_Some {K} `{Countable K} {V} p f (m : gmap K V) k v :
  update_where p f m !! k = Some v ↔ ∃ v0, m !! k = Some v0 ∧ v = if p v0 then f v0 else v0.
Proof.
  unfold update_where. rewrite lookup_fmap. destruct (m !! k) as [v0|]; cbn; split.
  - intros [= <-]. eauto.
  - by intros (? & [= <-] & ->).
  - done.
  - by intros (? & ? & ?).
Qed.

(** Writing users keeps the rest. *)
Lemma acc_users s g :
  (∀ k u, g !! k = Some u → u_id u = k) → acc_step s (set_db (λ d, d <| d_users := g |>) s).
Proof.
  intros Hg [O1 O2 O3]. split; [split; cbn; [done|exact O2|exact O3]|]. split; cbn; [done|apply table_ext_refl, _..|apply Z.le_refl].
Qed.
Lemma acc_insert_user u : guar acc_step (insert_user u).
Proof.
  intros s. unfold insert_user, gets, mbind, ST_bind; cbn. destruct (negb (user_fits u)); cbn; [done|]. destruct (first_violation _); cbn; [reflexivity|].
  intros Hs. refine (acc_users s (<[u_id u := u]> (d_users (st_db s))) _ Hs).
  intros k v [[<- <-]|[_ Hk]]%lookup_insert_Some; [done|by apply (ok_users s Hs)].
Qed.
Lemma acc_update_user k f : (∀ u, u_id (f u) = u_id u) → guar acc_step (update_user_row k f).
Proof.
  intros Hf s. unfold update_user_row, gets, of_option, mbind, ST_bind; cbn. destruct (d_users (st_db s) !! k) as [u|] eqn:Hu; cbn; [|reflexivity].
  destruct (negb (user_fits _)); cbn; [reflexivity|]. destruct (users_unique _ _); cbn; [reflexivity|]. intros Hs. refine (acc_users s (<[k := f u]> (d_users (st_db s))) _ Hs).
  intros k' v [[<- <-]|[_ Hk]]%lookup_insert_Some; [|by apply (ok_users s Hs)]. rewrite Hf. by apply (ok_users s Hs).
Qed.

(** Revoking. *)
Lemma acc_tokens s g :
  (∀ k t', g !! k = Some t' → ∃ t, d_refresh_tokens (st_db s) !! k = Some t ∧ rf_jti t' = rf_jti t ∧ token_ext t t') →
  table_ext token_ext (d_refresh_tokens (st_db s)) g →
  acc_step s (set_db (λ d, d <| d_refresh_tokens := g |>) s).
Proof.
  intros Hg He [O1 O2 O3]. split.
  - split; cbn; [exact O1| |exact O3]. intros k t' Hk. destruct (Hg _ _ Hk) as (t & Ht & Hj & [Hf _]).
    destruct (O2 _ _ Ht) as [<- Hi]. split; [done|]. by injection Hf as _ -> _.
  - split; cbn; [|done|apply table_ext_refl, _|apply Z.le_refl]. intros f _ Hd k t' Hk Hfam.
    destruct (Hg _ _ Hk) as (t & Ht & _ & [[= _ Hf _] Hr]). apply Hr, (Hd _ _ Ht). congruence.
Qed.
Lemma acc_update_refresh_tokens p f :
  (∀ t, rf_jti (f t) = rf_jti t ∧ token_ext t (f t)) → guar acc_step (update_refresh_tokens p f).
Proof.
  intros Hf s Hs. refine (acc_tokens s (update_where p f (d_refresh_tokens (st_db s))) _ _ Hs).
  - intros k t' (t & Ht & ->)%update_where_Some. exists t. destruct (p t); [|done]. split; [done|apply Hf].
  - apply acc_update_where; [apply _|]. intros t _. apply Hf.
Qed.
Lemma acc_update_refresh_token j f :
  (∀ t, rf_jti (f t) = rf_jti t ∧ token_ext t (f t)) → guar acc_step (update_refresh_token j f).
Proof.
  intros Hf s. unfold update_refresh_token, gets, of_option, mbind, ST_bind; cbn.
  destruct (d_refresh_tokens (st_db s) !! j) as [t|] eqn:Ht; cbn; [|reflexivity]. intros Hs.
  refine (acc_tokens s (<[j := f t]> (d_refresh_tokens (st_db s))) _ _ Hs).
  - intros k t' [[<- <-]|[_ Hk]]%lookup_insert_Some; [exists t|exists t'; done]. split; [done|apply Hf].
  - eapply table_ext_update; [apply _|done|apply Hf].
Qed.

(** The emailed links. *)
Lemma acc_links s g :
  (∀ k r, g !! k = Some r → at_token_hash r = k) → table_ext link_ext (d_auth_tokens (st_db s)) g →
  acc_step s (set_db (λ d, d <| d_auth_tokens := g |>) s).
Proof.
  intros Hg He [O1 O2 O3]. split; [split; cbn; [exact O1|exact O2|done]|]. split; cbn; [done|apply table_ext_refl, _|done|apply Z.le_refl].
Qed.
Lemma acc_insert_auth_token r : guar acc_step (insert_auth_token r).
Proof.
  intros s. unfold insert_auth_token, gets, mbind, ST_bind; cbn. destruct (first_violation _) eqn:Hg; cbn; [reflexivity|].
  guards_passed Hp. apply Forall_inv_tail, Forall_inv, eq_sym, check_None, bool_decide_eq_true in Hp. intros Hs.
  refine (acc_links s (<[at_token_hash r := r]> (d_auth_tokens (st_db s))) _ _ Hs).
  - intros k v [[<- <-]|[_ Hk]]%lookup_insert_Some; [done|by apply (ok_links s Hs)].
  - by apply table_ext_fresh; [apply _|].
Qed.
Lemma acc_update_auth_tokens p f :
  (∀ r, at_token_hash (f r) = at_token_hash r) → (∀ r, p r = true → link_ext r (f r)) → guar acc_step (update_auth_tokens p f).
Proof.
  intros Hh Hf s Hs. refine (acc_links s (update_where p f (d_auth_tokens (st_db s))) _ _ Hs).
  - intros k r (r0 & Hr & ->)%update_where_Some. rewrite <-(ok_links s Hs _ _ Hr). destruct (p r0); [apply Hh|done].
  - apply acc_update_where; [apply _|done].
Qed.
Lemma acc_invalidate u l : guar acc_step (invalidate_auth_tokens u l).
Proof.
  unfold invalidate_auth_tokens. apply guar_bind; [apply _|apply guar_gets, _|]. intros t. apply acc_update_auth_tokens; [done|].
  intros r Hp. split; [done|]. intros Hu. apply andb_true_iff in Hp as [_ Hn%bool_decide_eq_true]. done.
Qed.
Lemma acc_consume h p : guar acc_step (consume_auth_token h p).
Proof.
  intros s. unfold consume_auth_token, now, gets, mbind, ST_bind; cbn. destruct (d_auth_tokens (st_db s) !! h) as [row|] eqn:Hrow; [|reflexivity].
  destruct (consumable _ _ _) eqn:Hc; [|reflexivity]. cbn. intros Hs.
  refine (acc_links s (update_where _ _ (d_auth_tokens (st_db s))) _ _ Hs).
  - intros k r (r0 & Hr & ->)%update_where_Some. rewrite <-(ok_links s Hs _ _ Hr). by destruct (String.eqb _ _).
  - intros k r Hk. eexists. rewrite update_where_Some. split; [by eauto|]. destruct (String.eqb _ _) eqn:Hh; [|reflexivity].
    split; [done|]. apply String.eqb_eq in Hh. rewrite (ok_links s Hs _ _ Hk) in Hh. subst k. simplify_eq.
    unfold consumable in Hc. apply andb_true_iff in Hc as [[_ Hn%bool_decide_eq_true]%andb_true_iff _]. done.
Qed.

(** A fresh id was not handed out before. *)
Lemma fresh_not_issued s : ¬ issued s ("uuid-" +:+ str_Z (st_next_uuid s)).
Proof.
  intros (m & Hm & Heq). apply (inj (String.append "uuid-")) in Heq. unfold str_Z in Heq. apply (inj pretty) in Heq. lia.
Qed.
(** A new family. *)
Lemma acc_store_new u j e : guar acc_step (store_refresh_token u j e None).
Proof.
  intros s. unfold store_refresh_token, new_uuid, insert_refresh_token, gets, modify, mbind, ST_bind; cbn.
  destruct (first_violation _) eqn:Hg; cbn; [apply acc_same; cbn; [done|lia]|]. guards_passed Hp.
  apply Forall_inv, eq_sym, check_None, bool_decide_eq_true in Hp. cbn in Hp. intros [O1 O2 O3].
  set (f := "uuid-" +:+ str_Z (st_next_uuid s)) in *. split; [split|split]; cbn.
  - exact O1.
  - intros k t [[<- <-]|[_ Hk]]%lookup_insert_Some; cbn.
    + split; [done|]. exists (st_next_uuid s). cbn. split; [lia|done].
    + destruct (O2 _ _ Hk). split; [done|]. eapply issued_mono; [|done]. cbn. lia.
  - exact O3.
  - intros f' Hf' Hd k t. cbn. intros [[<- <-]|[_ Hk]]%lookup_insert_Some; [|by eapply Hd]. cbn. intros <-. by apply fresh_not_issued in Hf'.
  - by apply table_ext_fresh; [apply _|].
  - apply table_ext_refl, _.
  - lia.
Qed.

(** ** Methods *)

Lemma acc_new_uuid : guar acc_step new_uuid.
Proof. intros s. apply acc_same; unfold new_uuid, gets, modify, mbind, ST_bind; cbn; [done|lia]. Qed.
Lemma acc_new_id : guar acc_step new_id.
Proof. intros s. by apply acc_same. Qed.

Create HintDb acc discriminated.
#[export] Hint Resolve acc_new_uuid acc_new_id acc_insert_user acc_insert_auth_token acc_invalidate acc_consume acc_store_new : acc.
#[export] Hint Extern 1 (guar acc_step (update_user_row _ _)) => (apply acc_update_user; intros []; cbn; repeat case_match; reflexivity) : acc.
#[export] Hint Extern 1 (guar acc_step (update_refresh_tokens _ _)) =>
  (apply acc_update_refresh_tokens; intros []; repeat split; cbn; auto) : acc.
#[export] Hint Extern 1 (guar acc_step (update_refresh_token _ _)) =>
  (apply acc_update_refresh_token; intros []; repeat split; cbn; auto) : acc.

Ltac acc_leaf :=
  first [ apply guar_ret; apply _ | apply guar_raise; apply _ | apply guar_gets; apply _ | apply guar_raise_if; apply _
        | apply guar_of_option; apply _ | apply guar_of_sum; apply _ | assumption
        | solve [eauto 1 with acc nocore]
        | apply acc_upd; intros ?; reflexivity
        | intros ?; apply acc_same; cbn; [reflexivity|lia] ].
(** Walks through a method down to the statements of this component and the writes of other tables. *)
Ltac acc_walk := walk acc_leaf.

Section methods.
Context `{!Settings} `{!Crypto} `{!AccountSettings} `{!Passwords} `{!Jwt} `{!Mailer} `{!MailerOk}.

Lemma acc_mail to m : guar acc_step (send_mail to m).
Proof. intros s. by rewrite send_keeps. Qed.
#[local] Hint Resolve acc_mail : acc.
Lemma acc_enqueue a b c : guar acc_step (enqueue a b c).
Proof. acc_walk. Qed.
Lemma acc_merge u g : guar acc_step (_merge_guest_cart_if_any u g).
Proof. acc_walk. Qed.
Lemma acc_issue_tokens u : guar acc_step (issue_tokens u).
Proof. acc_walk. Qed.
Lemma acc_current c : guar acc_step (get_current_user c).
Proof. acc_walk. Qed.
#[local] Hint Resolve acc_enqueue acc_merge acc_issue_tokens acc_current : acc.
Lemma acc_require_permission p c : guar acc_step (require_permission p c).
Proof. acc_walk. Qed.
#[local] Hint Resolve acc_require_permission : acc.
Lemma acc_register u e p g : guar acc_step (register_endpoint u e p g).
Proof. acc_walk. Qed.
Lemma acc_login e p g : guar acc_step (login_endpoint e p g).
Proof. acc_walk. Qed.
Lemma acc_logout t : guar acc_step (logout t).
Proof. acc_walk. Qed.
Lemma acc_reset_password a b : guar acc_step (reset_password a b).
Proof. acc_walk. Qed.
Lemma acc_change_password a b c : guar acc_step (change_password_endpoint a b c).
Proof. acc_walk. Qed.
Lemma acc_verify_email t : guar acc_step (verify_email t).
Proof. acc_walk. Qed.
Lemma acc_confirm_email t : guar acc_step (confirm_email_change t).
Proof. acc_walk. Qed.
End methods.

(** ** Exchanging a refresh token *)

Section exchange.
Context `{!Settings} `{!Crypto} `{!AccountSettings} `{!Passwords} `{!Jwt} `{!Mailer} `{!MailerOk} `{!JwtOk}.

(** Whether presenting a revoked token again is accepted. *)
Definition benign (d : DB) (t : Z) (stored : RefreshToken) : bool :=
  (0 <? refresh_reuse_grace_seconds)
  && match rf_rotated_at stored with Some r => t - r <=? refresh_reuse_grace_seconds | None => false end
  && (rf_grace_replays stored <? refresh_reuse_grace_max_replays)
  && exists_row (active_in (rf_family_id stored)) (d_refresh_tokens d).
Lemma benign_run stored t s : _is_benign_replay stored t s = (inr (benign (st_db s) t stored), s).
Proof.
  unfold _is_benign_replay, benign, family_has_active_token, db_gets, gets. rewrite (Z.ltb_antisym _ 0).
  destruct (refresh_reuse_grace_seconds <=? 0); [done|]. destruct (rf_rotated_at stored) as [r|]; [|done]. cbn [negb andb].
  rewrite (Z.ltb_antisym refresh_reuse_grace_max_replays), (Z.ltb_antisym (t - r)).
  destruct (t - r <=? _); [|done]. cbn. by destruct (_ <=? rf_grace_replays stored).
Qed.

Lemma create_token_run sub ty delta s tok s' :
  _create_token sub ty delta s = (inr tok, s') →
  ∃ jti, tok = jwt_encode (MkClaims sub ty (st_now s) (st_now s + delta) jti) ∧
    if String.eqb ty REFRESH then jti = Some ("uuid-" +:+ str_Z (st_next_uuid s)) ∧ s' = s <| st_next_uuid := st_next_uuid s + 1 |>
    else jti = None ∧ s' = s.
Proof.
  unfold _create_token. intros Hrun. runs. destruct (String.eqb ty REFRESH); runs; eauto.
Qed.

(** The token that takes over from [stored]. *)
Definition heir (s : St) (stored : RefreshToken) : RefreshToken :=
  MkRefreshToken ("uuid-" +:+ str_Z (st_next_uuid s)) (rf_user_id stored) (rf_family_id stored)
    (st_now s + refresh_token_expire_days * 86400) false None 0.
Lemma continue_run sub stored s p s' :
  continue_family sub stored s = (inr p, s') →
  d_refresh_tokens (st_db s) !! rf_jti (heir s stored) = None ∧
  p = MkTokenPair (jwt_encode (MkClaims sub ACCESS (st_now s) (st_now s + access_token_expire_minutes * 60) None))
        (jwt_encode (MkClaims sub REFRESH (st_now s) (st_now s + refresh_token_expire_days * 86400) (Some (rf_jti (heir s stored))))) ∧
  s' = set_db (λ d, d <| d_refresh_tokens ::= <[rf_jti (heir s stored) := heir s stored]> |>) (s <| st_next_uuid := st_next_uuid s + 1 |>).
Proof.
  unfold continue_family, create_access_token, create_refresh_token, unverified_claims, store_refresh_token, insert_refresh_token.
  intros Hrun. runs.
  repeat match goal with
  | Hc : _create_token _ _ _ _ = _ |- _ => apply create_token_run in Hc as (? & -> & Hc); cbn in Hc; destruct Hc as [-> ->]
  end.
  cbn [st_now st_next_uuid put] in *.
  match goal with Hj : jwt_claims _ = Some _ |- _ => rewrite jwt_claims_encode in Hj; injection Hj as <- end.
  cbn in *. simplify_eq. guards_passed Hp. apply Forall_inv, eq_sym, check_None, bool_decide_eq_true in Hp. done.
Qed.

(** What the presented token becomes: rotated, or one more time replayed. *)
Definition presented (t : Z) (stored : RefreshToken) : RefreshToken :=
  if rf_revoked stored then stored <| rf_grace_replays := rf_grace_replays stored + 1 |>
  else stored <| rf_revoked := true |> <| rf_rotated_at := Some t |>.

(** Whether the exchange is a replay; a revoked token that may not be replayed ends here. *)
Lemma replay_inr stored t s b s' :
  (if rf_revoked stored then
     ok ← _is_benign_replay stored t;
     if ok : bool then mret true
     else (_ ← revoke_family (rf_family_id stored); _ ← commit; raise (EAccount InvalidRefreshTokenError))
   else mret false : M bool) s = (inr b, s') →
  s' = s ∧ b = rf_revoked stored ∧ (rf_revoked stored = true → benign (st_db s) t stored = true).
Proof.
  destruct (rf_revoked stored); intros Hrun; runs; [|done].
  match goal with Hb : _is_benign_replay _ _ _ = _ |- _ => rewrite benign_run in Hb; injection Hb as <- <- end.
  destruct (benign _ _ _); runs; done.
Qed.

(** Marking the presented token. *)
Lemma mark_inr stored t s u s' :
  (if rf_revoked stored then
     (stored' ← record_grace_replay stored;
      audit_log (Some (rf_user_id stored)) "auth.refresh_replay_accepted" "refresh_token" (Some (rf_jti stored))
        (JObj [("family_id", JStr (rf_family_id stored)); ("replays", JInt (rf_grace_replays stored'))]))
   else rotate_refresh_token stored t : M unit) s = (inr u, s') →
  d_refresh_tokens (st_db s) !! rf_jti stored = Some stored →
  d_refresh_tokens (st_db s') = <[rf_jti stored := presented t stored]> (d_refresh_tokens (st_db s)) ∧
  accounts_of (st_db s') = accounts_of (st_db s <| d_refresh_tokens := d_refresh_tokens (st_db s') |>) ∧
  st_committed s' = st_committed s ∧ st_now s' = st_now s ∧ st_next_uuid s' = st_next_uuid s.
Proof.
  unfold record_grace_replay, rotate_refresh_token, update_refresh_token, audit_log, insert_audit, presented.
  intros Hrun Hs. destruct (rf_revoked stored); runs; simplify_eq; done.
Qed.

(** An exchange that succeeds. *)
Record exchanged (tok : string) (s : St) (p : TokenPair) (s' : St) (c : Claims) (stored : RefreshToken) : Prop := {
  ex_decoded : jwt_decode (st_now s) tok = Some c;
  ex_type : cl_type c = REFRESH;
  ex_jti : cl_jti c = Some (rf_jti stored);
  ex_stored : d_refresh_tokens (st_db s) !! rf_jti stored = Some stored;
  ex_benign : rf_revoked stored = true → benign (st_db s) (st_now s) stored = true;
  ex_expires : st_now s ≤ rf_expires_at stored;
  ex_user : ∃ u, d_users (st_db s) !! rf_user_id stored = Some u ∧ u_is_active u = true;
  ex_fresh : d_refresh_tokens (st_db s) !! rf_jti (heir s stored) = None;
  ex_tokens : d_refresh_tokens (st_db s') =
    <[rf_jti (heir s stored) := heir s stored]> (<[rf_jti stored := presented (st_now s) stored]> (d_refresh_tokens (st_db s)));
  ex_pair : tp_refresh_token p =
    jwt_encode (MkClaims (cl_sub c) REFRESH (st_now s) (rf_expires_at (heir s stored)) (Some (rf_jti (heir s stored))));
  ex_rest : accounts_of (st_db s') = accounts_of (st_db s <| d_refresh_tokens := d_refresh_tokens (st_db s') |>);
  ex_committed : st_committed s' = st_committed s;
  ex_next : st_next_uuid s' = st_next_uuid s + 1
}.
Lemma refresh_inr tok s p s' : acc_ok s → refresh tok s = (inr p, s') → ∃ c stored, exchanged tok s p s' c stored.
Proof.
  intros Hok. unfold refresh, decode_token, get_refresh_token_by_jti, get_user_by_id. intros Hrun. runs.
  match goal with Hj : (j ← cl_jti ?c; _) = Some ?st |- _ =>
    destruct (cl_jti c) as [j|] eqn:Hjti; [|done]; cbn in Hj; rename st into stored, c into claims end.
  match goal with Hr : _ = (inr ?b, ?s1) |- _ => is_var b; apply replay_inr in Hr as (-> & -> & Hben) end.
  match goal with Hu : match ?o with Some _ => _ | None => true end = false |- _ =>
    destruct o as [u|] eqn:Huser; [|done]; apply negb_false_iff in Hu as Hact end.
  match goal with He : (_ <? _) = false |- _ => apply Z.ltb_ge in He as Hexp end.
  match goal with Ht : negb (_ =? _)%string = false |- _ => apply negb_false_iff, String.eqb_eq in Ht as Hty end.
  assert (rf_jti stored = j) as <- by by apply (ok_refresh s Hok).
  match goal with Hr : _ = (inr _, ?s1), Hc : continue_family _ _ ?s1 = _ |- _ => apply mark_inr in Hr as (Htok & Hacc & Hcom & Hnow & Hnext); [|done] end.
  apply continue_run in Hrun as (Hfree & -> & ->). unfold heir in Hfree. rewrite Hnow, Hnext, Htok in Hfree. cbn in Hfree.
  exists claims, stored. unfold heir in *. rewrite ?Hnow, ?Hnext in *. split; try done; eauto.
  - by apply lookup_insert_None in Hfree as [? _].
  - rewrite db_set. cbn. by rewrite Htok.
  - rewrite db_set. unfold accounts_of in *. cbn in *. rewrite Htok in *. congruence.
Qed.

Lemma exchanged_alive tok s p s' c stored : exchanged tok s p s' c stored → ¬ dead (st_db s) (rf_family_id stored).
Proof.
  intros [] Hdead. destruct (rf_revoked stored) eqn:Hr; [|by rewrite (Hdead _ _ ex_stored0 eq_refl) in Hr].
  specialize (ex_benign0 eq_refl). unfold benign in ex_benign0. apply andb_true_iff in ex_benign0 as [_ Hex].
  apply exists_row_true in Hex as (k & t & Hk & Ha). apply andb_true_iff in Ha as [Hf%String.eqb_eq Hnr].
  by rewrite (Hdead _ _ Hk Hf) in Hnr.
Qed.
Lemma presented_ext t stored : token_ext stored (presented t stored) ∧ rf_jti (presented t stored) = rf_jti stored.
Proof. unfold presented. destruct (rf_revoked stored) eqn:Hr; repeat split; cbn; auto. Qed.

Lemma exchanged_step tok s p s' c stored : exchanged tok s p s' c stored → acc_step s s'.
Proof.
  intros Hex. pose proof (exchanged_alive _ _ _ _ _ _ Hex) as Halive. destruct Hex. intros [O1 O2 O3].
  unfold accounts_of in ex_rest0. cbn in ex_rest0. injection ex_rest0 as Hu Ha.
  destruct (presented_ext (st_now s) stored) as [Hext Hjti]. destruct (O2 _ _ ex_stored0) as [_ Hiss].
  assert (Hmono : ∀ x, issued s x → issued s' x) by (intros x; apply issued_mono; lia).
  split; [split|split].
  - rewrite Hu. exact O1.
  - intros k t. rewrite ex_tokens0. intros [[<- <-]|[_ [[<- <-]|[_ Hk]]%lookup_insert_Some]]%lookup_insert_Some.
    + auto.
    + destruct Hext as [[= _ -> _] _]. auto.
    + destruct (O2 _ _ Hk). auto.
  - rewrite Ha. exact O3.
  - intros f _ Hd k t. rewrite ex_tokens0. intros [[<- <-]|[_ [[<- <-]|[_ Hk]]%lookup_insert_Some]]%lookup_insert_Some Hf.
    + cbn in Hf. by rewrite Hf in Halive.
    + destruct Hext as [[= _ Hf' _] _]. rewrite Hf' in Hf. by rewrite Hf in Halive.
    + by apply (Hd _ _ Hk).
  - rewrite ex_tokens0. refine (table_ext_trans token_ext _ _ _ (table_ext_update token_ext _ _ _ _ ex_stored0 Hext) _).
    apply table_ext_fresh; [apply _|]. rewrite lookup_insert_ne; [done|]. intros Heq. congruence.
  - rewrite Ha. apply table_ext_refl, _.
  - lia.
Qed.

(** An exchange that is refused leaves the committed tables, or shuts the family of a token presented once too often. *)
Definition family_shut (s s' : St) (f : uuid) : Prop :=
  st_committed s' = st_db s' ∧ st_next_uuid s' = st_next_uuid s ∧
  accounts_of (st_db s') = accounts_of (st_db s <| d_refresh_tokens ::= update_where (active_in f) (λ r, r <| rf_revoked := true |>) |>).

Definition finish_exchange (b : bool) (claims : Claims) (stored : RefreshToken) (t : Z) : M TokenPair :=
  _ ← raise_if (rf_expires_at stored <? t) (EAccount InvalidRefreshTokenError);
  user ← get_user_by_id (rf_user_id stored);
  _ ← raise_if (match user with Some u => negb (u_is_active u) | None => true end) (EAccount InvalidRefreshTokenError);
  _ ← (if b then
         stored' ← record_grace_replay stored;
         audit_log (Some (rf_user_id stored)) "auth.refresh_replay_accepted" "refresh_token" (Some (rf_jti stored))
           (JObj [("family_id", JStr (rf_family_id stored)); ("replays", JInt (rf_grace_replays stored'))])
       else rotate_refresh_token stored t);
  continue_family (cl_sub claims) stored.
Lemma finish_committed b claims stored t : guar (keeps st_committed) (finish_exchange b claims stored t).
Proof. unfold finish_exchange. uncommitted. Qed.

(** An exchange of a token that is known. *)
Lemma refresh_at tok s c j stored :
  jwt_decode (st_now s) tok = Some c → cl_type c = REFRESH → cl_jti c = Some j → d_refresh_tokens (st_db s) !! j = Some stored →
  refresh tok s =
    if rf_revoked stored && negb (benign (st_db s) (st_now s) stored)
    then (_ ← revoke_family (rf_family_id stored); _ ← commit; raise (EAccount InvalidRefreshTokenError)) s
    else finish_exchange (rf_revoked stored) c stored (st_now s) s.
Proof.
  intros Hdec Hty Hj Hst.
  unfold refresh, decode_token, now, gets, get_refresh_token_by_jti, db_gets, of_option, raise_if, raise, mbind, ST_bind, mret, ST_ret, gets.
  cbn. rewrite Hdec. cbn. rewrite Hty. cbn. rewrite Hj. cbn. rewrite Hst. cbn.
  destruct (rf_revoked stored); [rewrite benign_run; by destruct (benign _ _ _)|done].
Qed.
Lemma refresh_cases tok s :
  refresh tok s = (inl (EAccount InvalidRefreshTokenError), s) ∨
  ∃ c j stored, jwt_decode (st_now s) tok = Some c ∧ cl_type c = REFRESH ∧ cl_jti c = Some j ∧
    d_refresh_tokens (st_db s) !! j = Some stored ∧
    refresh tok s =
      if rf_revoked stored && negb (benign (st_db s) (st_now s) stored)
      then (_ ← revoke_family (rf_family_id stored); _ ← commit; raise (EAccount InvalidRefreshTokenError)) s
      else finish_exchange (rf_revoked stored) c stored (st_now s) s.
Proof.
  destruct (jwt_decode (st_now s) tok) as [c|] eqn:Hdec; [destruct (String.eqb (cl_type c) REFRESH) eqn:Hty|];
    [destruct (cl_jti c) as [j|] eqn:Hjti; [destruct (d_refresh_tokens (st_db s) !! j) as [stored|] eqn:Hst|]|..].
  { right. apply String.eqb_eq in Hty. exists c, j, stored. split_and!; [done..|]. by eapply refresh_at. }
  all: left; unfold refresh, decode_token, now, gets, get_refresh_token_by_jti, db_gets, of_option, raise_if, raise, mbind, ST_bind, mret,
    ST_ret, gets; cbn; rewrite Hdec; cbn; try done; rewrite Hty; cbn; try done; rewrite Hjti; cbn; try done; by rewrite Hst.
Qed.
Lemma shut_run f s :
  (_ ← revoke_family f; _ ← commit; raise (EAccount InvalidRefreshTokenError) : M TokenPair) s =
    (inl (EAccount InvalidRefreshTokenError),
     let s1 := set_db (λ d, d <| d_refresh_tokens ::= update_where (active_in f) (λ r, r <| rf_revoked := true |>) |>) s in
     s1 <| st_committed := st_db s1 |>).
Proof. done. Qed.
Lemma family_shut_run f s :
  family_shut s (let s1 := set_db (λ d, d <| d_refresh_tokens ::= update_where (active_in f) (λ r, r <| rf_revoked := true |>) |>) s in
     s1 <| st_committed := st_db s1 |>) f.
Proof. done. Qed.
Lemma family_shut_dead s s' f : family_shut s s' f → dead (st_db s') f.
Proof.
  intros (_ & _ & [= _ Ht _]) k t. rewrite Ht. intros (t0 & _ & ->)%update_where_Some. unfold active_in.
  destruct (String.eqb (rf_family_id t0) f && negb (rf_revoked t0)) eqn:Ha; [done|]. intros <-. rewrite String.eqb_refl in Ha.
  by destruct (rf_revoked t0).
Qed.
Lemma family_shut_step s s' f : family_shut s s' f → acc_step s s'.
Proof.
  intros (_ & Hn & Hacc). assert (Hstep : acc_step s (set_db (λ d, d <| d_refresh_tokens ::= update_where (active_in f) (λ r, r <| rf_revoked := true |>) |>) s)).
  { apply (acc_update_refresh_tokens (active_in f) (λ r, r <| rf_revoked := true |>)). intros []; repeat split; cbn; auto. }
  etrans; [exact Hstep|]. apply acc_same; [by rewrite Hacc|]. rewrite Hn, uuid_set. done.
Qed.

(** What an exchange does to the state, whatever it answers. *)
Lemma refresh_raised tok s e s' :
  refresh tok s = (inl e, s') →
  st_committed s' = st_committed s ∨
  ∃ c j stored, jwt_decode (st_now s) tok = Some c ∧ cl_jti c = Some j ∧ d_refresh_tokens (st_db s) !! j = Some stored ∧
    rf_revoked stored = true ∧ family_shut s s' (rf_family_id stored).
Proof.
  destruct (refresh_cases tok s) as [->|(c & j & stored & Hdec & Hty & Hj & Hst & ->)]; [by intros [= <- <-]; left|].
  destruct (rf_revoked stored && negb _) eqn:Hcase.
  - apply andb_true_iff in Hcase as [Hr _]. rewrite shut_run. intros [= <- <-]. right. exists c, j, stored.
    split_and!; [done..|apply family_shut_run].
  - intros Hrun. left. pose proof (guar_ran _ _ _ _ _ Hrun (finish_committed _ _ _ _)). done.
Qed.

(** ** Requests *)

(** Between requests the open transaction and the committed tables agree. *)
Definition at_rest (s : St) : Prop := accounts_of (st_db s) = accounts_of (st_committed s).
(** What a method is worth as the body of a request: the transaction it leaves when it returns, the committed tables when it raises. *)
Definition orderly {A} (m : M A) : Prop := ∀ s, acc_ok s → at_rest s →
  match m s with (inr _, s') => acc_step s s' | (inl _, s') => acc_step s (rollback s').2 end.

Lemma orderly_guar {A} (m : M A) : guar acc_step m → guar (keeps st_committed) m → orderly m.
Proof.
  intros Ha Hc s Hok Hrest. specialize (Ha s). specialize (Hc s). unfold keeps in Hc. destruct (m s) as [[e|a] s']; [|exact Ha]. cbn in *.
  apply acc_same; cbn; [by rewrite Hc|]. by apply Ha.
Qed.
Definition later (s s' : St) : Prop := st_next_uuid s ≤ st_next_uuid s'.
#[export] Instance later_refl : Reflexive later.
Proof. intros s. apply Z.le_refl. Qed.
#[export] Instance later_trans : Transitive later.
Proof. intros a b c. unfold later. lia. Qed.
Lemma later_new_uuid : guar later new_uuid.
Proof. intros s. unfold later, new_uuid, gets, modify, mbind, ST_bind. cbn. lia. Qed.
Lemma later_refresh tok : guar later (refresh tok).
Proof. walk ltac:(first [apply later_new_uuid | intros ?; unfold later; cbn; lia | uncommitted_leaf]). Qed.
Lemma orderly_refresh tok : orderly (refresh tok).
Proof.
  intros s Hok Hrest. pose proof (later_refresh tok s) as Hl. destruct (refresh tok s) as [[e|p] s'] eqn:Hrun; cbn in Hl.
  - destruct (refresh_raised _ _ _ _ Hrun) as [Hc|(c & j & stored & _ & _ & _ & _ & Hshut)].
    + apply acc_same; cbn; [by rewrite Hc|done].
    + pose proof Hshut as (Hc & _). unfold rollback; cbn. etrans; [by eapply family_shut_step|]. apply acc_same; cbn; [by rewrite Hc|done].
  - destruct (refresh_inr _ _ _ _ Hok Hrun) as (c & stored & Hex). by eapply exchanged_step.
Qed.

Lemma orderly_bind_ret {A} (m : M A) : orderly m → orderly (_ ← m; mret tt).
Proof.
  intros Hm s Hok Hrest. specialize (Hm s Hok Hrest). unfold mbind, ST_bind. destruct (m s) as [[e|a] s']; exact Hm.
Qed.
Lemma orderly_get_db {A} (m : M A) s :
  orderly m → acc_ok s → at_rest s → acc_step s (get_db m s).2 ∧ at_rest (get_db m s).2.
Proof.
  intros Hm Hok Hrest. specialize (Hm s Hok Hrest). unfold get_db. destruct (m s) as [[e|a] s']; cbn [snd].
  - split; [exact Hm|done].
  - split; [|done]. etrans; [exact Hm|]. apply acc_same; [done|apply Z.le_refl].
Qed.
End exchange.

Section requests.
Context `{!Settings} `{!Crypto} `{!AccountSettings} `{!Passwords} `{!Jwt} `{!Mailer} `{!MailerOk} `{!JwtOk}.

Lemma uncommitted_mail to m : guar (keeps st_committed) (send_mail to m).
Proof. intros s. by rewrite send_keeps. Qed.
#[local] Hint Resolve uncommitted_mail : uncommitted.
#[local] Hint Extern 1 (guar acc_step (send_mail _ _)) => (apply acc_mail; assumption) : acc.
#[local] Hint Resolve acc_enqueue acc_merge acc_issue_tokens acc_current acc_require_permission : acc.

Ltac orderly := apply orderly_guar; [solve [acc_walk]|solve [uncommitted]].
Lemma orderly_send_password_reset p :
  ∃ m, send_password_reset p = get_db m ∧ orderly m.
Proof. eexists. split; [reflexivity|]. orderly. Qed.
Lemma orderly_send_email_verification p :
  ∃ m, send_email_verification p = get_db m ∧ orderly m.
Proof. eexists. split; [reflexivity|]. orderly. Qed.

(** A request, from a state at rest. *)
Definition served (s s' : St) : Prop := acc_step s s' ∧ at_rest s'.
Lemma served_http {A} (m : M A) s : orderly m → acc_ok s → at_rest s → served s (http m s).2.
Proof. intros Hm. apply orderly_get_db, orderly_bind_ret, Hm. Qed.
Lemma served_job {A} (m : M A) s : served s (m s).2 → served s (job m s).2.
Proof. unfold job, mbind, ST_bind. by destruct (m s) as [[e|a] s']. Qed.
Lemma served_send_email_change p s : acc_ok s → at_rest s → served s (send_email_change p s).2.
Proof.
  intros Hok Hrest. unfold send_email_change, payload_text. destruct (j_get "new_email" p) as [[]|]; try by split.
  apply orderly_get_db; [|done..]. orderly.
Qed.
Lemma notice_reads p : guar eq (send_account_notice p).
Proof.
  assert (∀ to m, guar eq (send_mail to m)) by (intros to m s; by rewrite send_keeps). uncommitted.
Qed.

Lemma serve_account_served r s : acc_ok s → at_rest s → served s (serve_account r s).2.
Proof.
  intros Hok Hrest. destruct r; cbn [serve_account];
    try (apply served_http; [|done..]; first [apply orderly_refresh | orderly]); apply served_job.
  - destruct (orderly_send_password_reset payload) as (m & -> & Hm). by apply orderly_get_db.
  - destruct (orderly_send_email_verification payload) as (m & -> & Hm). by apply orderly_get_db.
  - by apply served_send_email_change.
  - pose proof (notice_reads payload s) as <-. by split.
Qed.

(** One account request, or anything else the program does between two states at rest. *)
Inductive account_step : St → St → Prop :=
  | by_request r s : account_step s (serve_account r s).2
  | by_other s s' :
      accounts_of (st_db s') = accounts_of (st_db s) → staff_of (st_db s') = staff_of (st_db s) →
      at_rest s' → staff_of (st_db s') = staff_of (st_committed s') →
      st_next_uuid s ≤ st_next_uuid s' → st_now s ≤ st_now s' → account_step s s'.

Record quiet (s : St) : Prop := { quiet_ok : acc_ok s; quiet_rest : at_rest s }.
Lemma account_steps s s' : rtc account_step s s' → quiet s → quiet s' ∧ acc_ev s s'.
Proof.
  intros Hsteps. assert (Hgen : quiet s → quiet s' ∧ acc_step s s').
  { induction Hsteps as [s|s1 s2 s3 Hstep _ IH]; [by split|]. intros [Hok Hrest].
    assert (served s1 s2) as [Hacc Hr].
    { destruct Hstep; [by apply serve_account_served|]. split; [by apply acc_same|done]. }
    destruct IH as [? ?]; [split; [by apply Hacc|done]|]. split; [done|]. by etrans. }
  intros Hq. destruct (Hgen Hq) as [? Hacc]. split; [done|]. by apply Hacc, Hq.
Qed.
End requests.
