(* ===== verification/AccountsSpec.v ===== *)
(** * What signing in and account recovery guarantee

    Theorems about the operations of [Accounts], on every state at rest and after any sequence of [account_step]s. *)

From S2P Require Import Prelude Errors Schema Guards Evolution Repositories Frames Runs Cart Accounts Roles Graphql Demo System AccountsEvolution.

Local Open Scope string_scope.
Local Open Scope list_scope.
Local Open Scope Z_scope.

(** ** Emailed links *)

(** The three endpoints that take a link. *)
Inductive LinkUse := ResetWith (new_password : string) | VerifyWith | ChangeWith.
Definition link_purpose (l : LinkUse) : string :=
  match l with ResetWith _ => PASSWORD_RESET | VerifyWith => EMAIL_VERIFICATION | ChangeWith => EMAIL_CHANGE end.

Section links.
Context `{!Settings} `{!Crypto} `{!AccountSettings} `{!Passwords} `{!Jwt} `{!Mailer} `{!MailerOk} `{!JwtOk}.

Definition use_endpoint (l : LinkUse) (token : string) : M unit :=
  match l with ResetWith p => reset_password token p | VerifyWith => verify_email token | ChangeWith => confirm_email_change token end.

Lemma consume_run h p s :
  consume_auth_token h p s =
    match d_auth_tokens (st_db s) !! h with
    | Some row => if consumable p (st_now s) row
                  then (inr (Some row), set_db (λ d, d <| d_auth_tokens ::= update_where (λ r, String.eqb (at_token_hash r) h)
                                                            (λ r, r <| at_used_at := Some (st_now s) |>) |>) s)
                  else (inr None, s)
    | None => (inr None, s)
    end.
Proof.
  unfold consume_auth_token, now, gets, mbind, ST_bind. cbn. destruct (d_auth_tokens (st_db s) !! h) as [row|]; [|done].
  by destruct (consumable _ _ _).
Qed.
(** A link that cannot be consumed: every endpoint refuses it and writes nothing. *)
Definition spent (d : DB) (token : string) : Prop := ∀ r, d_auth_tokens d !! hash_token token = Some r → at_used_at r ≠ None.
Lemma spent_refused l token s : spent (st_db s) token → use_endpoint l token s = (inl (EAccount InvalidAccountTokenError), s).
Proof.
  intros Hs. assert (Hc : ∀ p, consume_auth_token (hash_token token) p s = (inr None, s)).
  { intros p. rewrite consume_run. destruct (_ !! _) as [row|] eqn:Hrow; [|done]. unfold consumable.
    destruct (opt_eqb (at_used_at row) None) eqn:Hu; [|by rewrite andb_false_r]. by apply bool_decide_eq_true, (Hs _ Hrow) in Hu. }
  destruct l; cbn [use_endpoint]; unfold reset_password, verify_email, confirm_email_change, use_link, mbind, ST_bind; by rewrite Hc.
Qed.

Lemma use_link_inr token purpose bound s row user s' :
  use_link token purpose bound s = (inr (row, user), s') →
  d_auth_tokens (st_db s) !! hash_token token = Some row ∧ consumable purpose (st_now s) row = true ∧
  d_users (st_db s) !! at_user_id row = Some user ∧ u_is_active user = true ∧ (bound = true → u_email user = at_email row) ∧
  s' = set_db (λ d, d <| d_auth_tokens ::= update_where (λ r, String.eqb (at_token_hash r) (hash_token token))
                         (λ r, r <| at_used_at := Some (st_now s) |>) |>) s.
Proof.
  unfold use_link. intros Hrun. apply bind_inr in Hrun as (o & s1 & Hc & Hrun). rewrite consume_run in Hc. unfold get_user_by_id in Hrun.
  destruct (d_auth_tokens (st_db s) !! hash_token token) as [row'|] eqn:Hrow; [|injection Hc as <- <-; runs; done].
  destruct (consumable _ _ _) eqn:Hcon; injection Hc as <- <-; runs; [|done]. simplify_eq.
  match goal with Hr : _ || _ = false |- _ => apply orb_false_iff in Hr as [Ha%negb_false_iff Hb] end.
  split_and!; try done. intros ->. apply andb_false_iff in Hb as [|Hb%negb_false_iff]; [done|]. by apply String.eqb_eq.
Qed.
Lemma used_is_spent token s g :
  acc_ok s → spent (st_db (set_db (λ d, d <| d_auth_tokens ::= update_where (λ r, String.eqb (at_token_hash r) (hash_token token))
                         (λ r, r <| at_used_at := Some g |>) |>) s)) token.
Proof.
  intros Hok r. rewrite db_set. cbn. intros (r0 & Hr & ->)%update_where_Some. rewrite (ok_links s Hok _ _ Hr), String.eqb_refl. done.
Qed.
Lemma spent_stays s s' token : acc_ev s s' → is_Some (d_auth_tokens (st_db s) !! hash_token token) → spent (st_db s) token → spent (st_db s') token.
Proof.
  intros He [r Hr] Hs r' Hr'. destruct (ev_links _ _ He _ _ Hr) as (r1 & Hr1 & _ & Hkeep). simplify_eq.
  rewrite Hkeep; by apply Hs.
Qed.

(** The link an endpoint succeeded with, and the state when it was taken. *)
Lemma endpoint_used l token s u s' :
  acc_ok s → use_endpoint l token s = (inr u, s') →
  is_Some (d_auth_tokens (st_db s') !! hash_token token) ∧ spent (st_db s') token.
Proof.
  intros Hok Hrun.
  assert (∃ row user bound s1 k, use_link token (link_purpose l) bound s = (inr (row, user), s1) ∧ k s1 = (inr u, s') ∧ guar acc_step (k : M unit))
    as (row & user & bound & s1 & k & Hlink & Hk & Hstep).
  { destruct l; cbn [use_endpoint] in Hrun; apply bind_inr in Hrun as ([row user] & s1 & Hlink & Hrun);
      eexists row, user, _, s1, _; (split; [exact Hlink|split; [exact Hrun|]]); cbv beta iota zeta; acc_walk. }
  assert (acc_step s s1) as Hs1 by (apply (guar_ran _ _ _ _ _ Hlink); acc_walk).
  apply use_link_inr in Hlink as (Hrow & _ & _ & _ & _ & Heq).
  destruct (Hs1 Hok) as [Hok1 Hev1]. destruct (guar_ran _ _ _ _ _ Hk Hstep Hok1) as [_ Hev2].
  assert (is_Some (d_auth_tokens (st_db s1) !! hash_token token)) as Hsome.
  { destruct (ev_links _ _ Hev1 _ _ Hrow) as (r & Hr & _). by exists r. }
  split; [destruct Hsome as [r Hr]; destruct (ev_links _ _ Hev2 _ _ Hr) as (r' & Hr' & _); by exists r'|].
  eapply spent_stays; [exact Hev2|done|]. rewrite Heq. by apply used_is_spent.
Qed.

(** C30. A link works once: after an endpoint took it, whatever happens next, every endpoint that is given the same
    secret answers that the link is invalid, and changes nothing. *)
Theorem link_works_once l token s u s1 s2 l' :
  quiet s → get_db (use_endpoint l token) s = (inr u, s1) → rtc account_step s1 s2 →
  get_db (use_endpoint l' token) s2 = (inl (EAccount InvalidAccountTokenError), (rollback s2).2).
Proof.
  intros Hq Hrun Hsteps. destruct Hq as [Hok Hrest]. apply get_db_inr in Hrun as (s1' & Hrun & ->).
  pose proof (endpoint_used _ _ _ _ _ Hok Hrun) as [Hsome Hspent].
  assert (Hst : acc_step s s1').
  { apply (guar_ran _ _ _ _ _ Hrun). destruct l; [apply acc_reset_password|apply acc_verify_email|apply acc_confirm_email]. }
  assert (quiet (s1' <| st_committed := st_db s1' |>)) as Hq1.
  { split; [|done]. apply (acc_same s1' (s1' <| st_committed := st_db s1' |>)); [done|apply Z.le_refl|by apply Hst]. }
  destruct (account_steps _ _ Hsteps Hq1) as [_ Hev]. pose proof (spent_stays _ _ _ Hev Hsome Hspent) as Hspent2.
  unfold get_db. by rewrite (spent_refused l' _ _ Hspent2).
Qed.
End links.

(** ** Sessions *)

Section sessions.
Context `{!Settings} `{!Crypto} `{!AccountSettings} `{!Passwords} `{!Jwt} `{!Mailer} `{!MailerOk} `{!JwtOk}.

Lemma dead_refused s tok c j t :
  jwt_decode (st_now s) tok = Some c → cl_jti c = Some j → d_refresh_tokens (st_db s) !! j = Some t → dead (st_db s) (rf_family_id t) →
  (get_db (refresh tok) s).1 = inl (EAccount InvalidRefreshTokenError).
Proof.
  intros Hdec Hj Ht Hdead. unfold get_db.
  destruct (refresh_cases tok s) as [->|(c' & j' & t' & Hdec' & _ & Hj' & Ht' & ->)]; [done|]. simplify_eq.
  assert (benign (st_db s) (st_now s) t = false) as Hb.
  { unfold benign. apply andb_false_iff. right. apply exists_row_false. intros k r Hk. unfold active_in.
    destruct (String.eqb (rf_family_id r) (rf_family_id t)) eqn:Hf; [|done]. apply String.eqb_eq in Hf. cbn. by rewrite (Hdead _ _ Hk Hf). }
  rewrite Hb, (Hdead _ _ Ht eq_refl). done.
Qed.

(** C29. A stolen refresh token ends its session: when a token that was already exchanged is presented again and the
    replay is not excused by the grace window, the request is refused, and from then on, whatever happens, no token of
    that sign-in's family is ever exchanged again. *)
Theorem reuse_ends_session tok s c j t s2 tok2 c2 j2 t2 :
  quiet s → jwt_decode (st_now s) tok = Some c → cl_type c = REFRESH → cl_jti c = Some j →
  d_refresh_tokens (st_db s) !! j = Some t → rf_revoked t = true → benign (st_db s) (st_now s) t = false →
  rtc account_step (get_db (refresh tok) s).2 s2 →
  jwt_decode (st_now s2) tok2 = Some c2 → cl_jti c2 = Some j2 → d_refresh_tokens (st_db s2) !! j2 = Some t2 →
  rf_family_id t2 = rf_family_id t →
  (get_db (refresh tok) s).1 = inl (EAccount InvalidRefreshTokenError) ∧
  (get_db (refresh tok2) s2).1 = inl (EAccount InvalidRefreshTokenError).
Proof.
  intros [Hok Hrest] Hdec Hty Hj Ht Hrev Hben Hsteps Hdec2 Hj2 Ht2 Hfam.
  destruct (orderly_get_db (refresh tok) s (orderly_refresh tok) Hok Hrest) as [Hacc Hrest1].
  assert (Hres : get_db (refresh tok) s = (inl (EAccount InvalidRefreshTokenError), (get_db (refresh tok) s).2) ∧
    dead (st_db (get_db (refresh tok) s).2) (rf_family_id t)).
  { unfold get_db. rewrite (refresh_at _ _ _ _ _ Hdec Hty Hj Ht), Hrev, Hben. cbn [andb negb]. rewrite shut_run. split; [done|].
    apply (family_shut_dead s). apply family_shut_run. }
  destruct Hres as [Hres Hdead]. split; [by rewrite Hres|].
  assert (quiet (get_db (refresh tok) s).2) as Hq1 by (split; [by apply Hacc|done]).
  destruct (account_steps _ _ Hsteps Hq1) as [_ Hev]. eapply dead_refused; [done..|]. rewrite Hfam.
  apply (ev_dead _ _ Hev); [|done]. apply issued_mono with s; [by apply Hacc|]. by eapply (ok_refresh s Hok).
Qed.

(** A refresh token is exchanged only while it is known, unexpired, of an active account, and either unused or replayed
    inside the grace window; it is then marked, one new token of the same account and family replaces it, and every
    other token is as before. *)
Theorem refresh_rotates tok s p s' :
  quiet s → get_db (refresh tok) s = (inr p, s') →
  ∃ c t u n,
    jwt_decode (st_now s) tok = Some c ∧ cl_type c = REFRESH ∧ cl_jti c = Some (rf_jti t) ∧
    d_refresh_tokens (st_db s) !! rf_jti t = Some t ∧ st_now s ≤ rf_expires_at t ∧
    d_users (st_db s) !! rf_user_id t = Some u ∧ u_is_active u = true ∧
    (rf_revoked t = true → benign (st_db s) (st_now s) t = true) ∧
    d_refresh_tokens (st_db s) !! rf_jti n = None ∧
    (rf_user_id n, rf_family_id n, rf_revoked n) = (rf_user_id t, rf_family_id t, false) ∧
    jwt_claims (tp_refresh_token p) = Some (MkClaims (cl_sub c) REFRESH (st_now s) (rf_expires_at n) (Some (rf_jti n))) ∧
    d_refresh_tokens (st_committed s') = <[rf_jti n := n]> (<[rf_jti t := presented (st_now s) t]> (d_refresh_tokens (st_committed s))) ∧
    d_users (st_committed s') = d_users (st_committed s).
Proof.
  intros [Hok Hrest] Hrun. apply get_db_inr in Hrun as (s1 & Hrun & ->). unfold at_rest, accounts_of in Hrest. injection Hrest as Hu Hr Ha.
  destruct (refresh_inr _ _ _ _ Hok Hrun) as (c & t & []). destruct ex_user as (u & Hu1 & Hact).
  unfold accounts_of in ex_rest. injection ex_rest as Hu2 _. exists c, t, u, (heir s t). split_and!; try done.
  - by rewrite ex_pair, jwt_claims_encode.
  - cbn. by rewrite ex_tokens, Hr.
  - cbn. by rewrite Hu2, Hu.
Qed.

Lemma get_by_email_inr e o s s' : get_user_by_email e s = (inr o, s') →
  s' = s ∧ ∀ u, o = Some u → u_email u = e ∧ ∃ k, d_users (st_db s) !! k = Some u.
Proof.
  unfold get_user_by_email. intros Hrun. runs. split; [done|]. intros u ->.
  match goal with Hl : rows_where _ _ = _ |- _ => assert (Hin : u ∈ [u]) by set_solver; rewrite <-Hl in Hin; apply rows_where_elem in Hin as [He Hk] end.
  by apply String.eqb_eq in He.
Qed.

(** Only an active account gets in: signing in takes the account's password and its being active; a request is taken
    for a user exactly when it carries an access token, no other kind, that is valid now and names an active account;
    and an active account is needed to exchange a refresh token. *)
Theorem sessions_need_active_account s :
  quiet s →
  (∀ e p g r s', login_endpoint e p g s = (inr r, s') →
     ∃ u, d_users (st_db s) !! u_id u = Some u ∧ u_email u = e ∧ pw_verify p (u_password_hash u) = true ∧ u_is_active u = true) ∧
  (∀ cred u s', get_current_user cred s = (inr u, s') ↔
     s' = s ∧ ∃ c, jwt_decode (st_now s) cred = Some c ∧ cl_type c = ACCESS ∧ d_users (st_db s) !! cl_sub c = Some u ∧ u_is_active u = true) ∧
  (∀ tok p s', refresh tok s = (inr p, s') →
     ∃ c t u, jwt_decode (st_now s) tok = Some c ∧ cl_type c = REFRESH ∧ cl_jti c = Some (rf_jti t) ∧
       d_refresh_tokens (st_db s) !! rf_jti t = Some t ∧ d_users (st_db s) !! rf_user_id t = Some u ∧ u_is_active u = true).
Proof.
  intros [Hok Hrest]. split_and!.
  - intros e p g r s' Hrun. unfold login_endpoint, login in Hrun. apply bind_inr in Hrun as (pair & s1 & Hlogin & _). runs.
    match goal with Hg : get_user_by_email _ _ = _ |- _ => apply get_by_email_inr in Hg as [-> Hg] end. subst.
    match goal with Hg : ∀ u, Some ?x = Some u → _ |- _ => rename x into u; destruct (Hg u eq_refl) as [He [k Hk]] end.
    exists u. rewrite (ok_users s Hok _ _ Hk). unfold verify_password in *. split_and!; [done..| |]; by apply negb_false_iff.
  - intros cred u s'. unfold get_current_user, decode_token, now, gets, get_user_by_id, db_gets, of_option, raise_if, raise, mbind, ST_bind,
      mret, ST_ret, gets. cbn. split.
    + destruct (jwt_decode (st_now s) cred) as [c|] eqn:Hdec; [cbn|done]. destruct (String.eqb (cl_type c) ACCESS) eqn:Hty; [cbn|done].
      destruct (d_users (st_db s) !! cl_sub c) as [u'|] eqn:Hu; [cbn|done]. destruct (u_is_active u') eqn:Hact; cbn; [|done].
      intros [= <- <-]. split; [done|]. exists c. by apply String.eqb_eq in Hty.
    + intros [-> (c & -> & -> & Hu & Hact)]. cbn. rewrite Hu. cbn. by rewrite Hact.
  - intros tok p s' Hrun. destruct (refresh_inr _ _ _ _ Hok Hrun) as (c & t & []). destruct ex_user as (u & ? & ?). exists c, t, u. done.
Qed.
End sessions.

(** ** Recovery *)

Section recovery.
Context `{!Settings} `{!Crypto} `{!AccountSettings} `{!Passwords} `{!Jwt} `{!Mailer} `{!MailerOk} `{!JwtOk} `{!PasswordsOk}.

Lemma update_user_row_inr k f u' s s' :
  update_user_row k f s = (inr u', s') →
  ∃ u, d_users (st_db s) !! k = Some u ∧ u' = f u ∧ s' = set_db (λ d, d <| d_users ::= <[k := f u]> |>) s.
Proof. unfold update_user_row. intros Hrun. runs. eauto. Qed.
(** The log and the queue leave the accounts alone. *)
Lemma log_accounts a b c d e s r s' : audit_log a b c d e s = (r, s') → accounts_of (st_db s') = accounts_of (st_db s) ∧ st_now s' = st_now s.
Proof.
  intros Hrun. apply (frame_run [TAudit]) in Hrun; [|apply only_audit_log]. unfold accounts_of.
  same_table TUsers Hrun Q1. same_table TRefreshTokens Hrun Q2. same_table TAuthTokens Hrun Q3. split; [congruence|apply Hrun].
Qed.
Lemma enqueue_accounts a b c s r s' : enqueue a b c s = (r, s') → accounts_of (st_db s') = accounts_of (st_db s) ∧ st_now s' = st_now s.
Proof.
  intros Hrun. apply (frame_run [TJobs]) in Hrun; [|apply only_enqueue]. unfold accounts_of.
  same_table TUsers Hrun Q1. same_table TRefreshTokens Hrun Q2. same_table TAuthTokens Hrun Q3. split; [congruence|apply Hrun].
Qed.

(** No session and no reset link of the user is left. *)
Definition signed_out (d : DB) (uid : uuid) : Prop :=
  (∀ k t, d_refresh_tokens d !! k = Some t → rf_user_id t = uid → rf_revoked t = true) ∧
  (∀ k r, d_auth_tokens d !! k = Some r → at_user_id r = uid → at_purpose r = PASSWORD_RESET → at_used_at r ≠ None).

(** Resetting a password takes an unused, unexpired reset link for the account's current address; afterwards the new
    password and no other is accepted, every session of the account is over, every other reset link for it is dead, and
    no other account changed. *)
Theorem password_reset_effects token new s s' :
  quiet s → get_db (reset_password token new) s = (inr tt, s') →
  ∃ row u u',
    d_auth_tokens (st_db s) !! hash_token token = Some row ∧ consumable PASSWORD_RESET (st_now s) row = true ∧
    d_users (st_db s) !! at_user_id row = Some u ∧ u_is_active u = true ∧ u_email u = at_email row ∧
    d_users (st_committed s') = <[u_id u := u']> (d_users (st_committed s)) ∧
    (∀ q, pw_verify q (u_password_hash u') = true ↔ q = new) ∧
    (u_id u', u_username u', u_email u', u_role u', u_is_active u') = (u_id u, u_username u, u_email u, u_role u, u_is_active u) ∧
    u_email_verified_at u' ≠ None ∧ signed_out (st_committed s') (u_id u).
Proof.
  intros [Hok Hrest] Hrun. apply get_db_inr in Hrun as (s1 & Hrun & ->). unfold at_rest, accounts_of in Hrest. injection Hrest as Hu Hr Ha.
  unfold reset_password in Hrun. apply bind_inr in Hrun as ([row u] & s2 & Hlink & Hrun).
  apply use_link_inr in Hlink as (Hrow & Hcon & Huser & Hact & Hemail & ->). unfold hash_password in Hrun. runs.
  match goal with Hx : update_user_row _ _ _ = _ |- _ => apply update_user_row_inr in Hx as (u0 & Hu0 & -> & ->) end.
  unfold invalidate_auth_tokens, update_auth_tokens, revoke_all_refresh_tokens, update_refresh_tokens in *. runs.
  match goal with Hx : audit_log _ _ _ _ _ _ = _ |- _ => apply log_accounts in Hx as [Hx _]; rename Hx into Hlog end.
  match goal with Hx : enqueue _ _ _ _ = _ |- _ => apply enqueue_accounts in Hx as [Hx _]; rename Hx into Hjob end.
  rewrite Hlog in Hjob. unfold accounts_of in Hjob. injection Hjob as Hju Hjr Hja. autorewrite with state in *. cbn in Hju, Hjr, Hja, Hu0.
  assert (Hid : u_id u = at_user_id row) by by apply (ok_users s Hok).
  assert (u0 = u) as -> by (change (d_users (st_db s) !! u_id u = Some u0) in Hu0; rewrite Hid in Hu0; congruence).
  match type of Hju with _ = <[_ := ?u']> _ => exists row, u, u' end. split_and!; try done.
  - by apply Hemail.
  - cbn. rewrite Hju, Hu. reflexivity.
  - intros q. cbn. apply verify_hash.
  - cbn. by destruct (u_email_verified_at u).
  - split; intros k; cbn; [rewrite Hjr|rewrite Hja]; intros r (r0 & _ & ->)%update_where_Some.
    + destruct (String.eqb (rf_user_id r0) (u_id u) && negb (rf_revoked r0)) eqn:Hp; [done|]. intros Heq.
      rewrite Heq, String.eqb_refl in Hp. by destruct (rf_revoked r0).
    + destruct (String.eqb (at_user_id r0) (u_id u) && bool_decide (at_purpose r0 ∈ [PASSWORD_RESET]) && opt_eqb (at_used_at r0) None) eqn:Hp; [done|].
      intros Heq Hpur Hused. by rewrite Heq, String.eqb_refl, Hused, Hpur in Hp.
Qed.

(** Asking for a reset tells nothing about who has an account: on two databases that differ in their accounts only, the
    answer and everything the request writes are the same. *)
Theorem forgot_password_blind email s users :
  request_password_reset email (s <| st_db ::= λ d, d <| d_users := users |> |>) =
    let '(r, s') := request_password_reset email s in (r, s' <| st_db ::= λ d, d <| d_users := users |> |>).
Proof.
  unfold request_password_reset, enqueue, _minute_bucket, now, new_id, insert_job, guard, gets, modify, upd, mbind, ST_bind, mret, ST_ret. cbn.
  destruct (exists_row _ _); [done|]. by destruct (first_violation _).
Qed.
End recovery.

(** ** Witnesses: Alice signs in, her token is copied *)

Definition people : gmap uuid User :=
  {[ "alice" := MkUser "alice" "alice" "alice@example.com" "hash:rose" USER true None 0;
     "root" := MkUser "root" "root" "root@example.com" "hash:oak" ADMIN true (Some 0) 0 ]}.
Definition people_db : DB := demo_db <| d_users := people |>.
Definition opened : St := MkSt people_db people_db 1760000000 100 1 no_stock_ctx.
Definition pair_of (r : Err + TokenPair) : TokenPair := match r with inr p => p | inl _ => MkTokenPair "" "" end.
Definition claims_of (s : St) (tok : string) : Claims := default (MkClaims "" "" 0 0 None) (jwt_decode (st_now s) tok).
Definition token_of (s : St) (tok : string) : RefreshToken :=
  default (MkRefreshToken "" "" "" 0 false None 0) (j ← cl_jti (claims_of s tok); d_refresh_tokens (st_db s) !! j).
Definition pass (n : Z) (s : St) : St := s <| st_now := st_now s + n |>.

Definition signed_in : (Err + TokenPair) * St := get_db (login_endpoint "alice@example.com" "rose" None) opened.
Definition first_token : string := tp_refresh_token (pair_of signed_in.1).
Definition renewed : (Err + TokenPair) * St := get_db (refresh first_token) (pass 300 signed_in.2).
Definition second_token : string := tp_refresh_token (pair_of renewed.1).
(** A minute later the first token is presented again. *)
Definition copied : St := pass 60 renewed.2.

Lemma opened_quiet : quiet opened.
Proof.
  split; [|done]. split; cbn; unfold people.
  - by intros k u [[<- <-]|[_ [<- <-]%lookup_singleton_Some]]%lookup_insert_Some.
  - intros k t Hk. by rewrite lookup_empty in Hk.
  - intros k r Hk. by rewrite lookup_empty in Hk.
Qed.
Lemma pass_quiet n s : quiet s → quiet (pass n s).
Proof. intros [Hok Hrest]. split; [|done]. apply (acc_same s (pass n s)); [done|apply Z.le_refl|done]. Qed.
Lemma get_db_quiet {A} (m : M A) s : orderly m → quiet s → quiet (get_db m s).2.
Proof. intros Hm [Hok Hrest]. destruct (orderly_get_db m s Hm Hok Hrest) as [Hacc ?]. split; [by apply Hacc|done]. Qed.
Lemma signed_in_quiet : quiet signed_in.2.
Proof.
  unfold signed_in. apply get_db_quiet; [|exact opened_quiet]. apply orderly_guar; [apply acc_login|uncommitted].
Qed.
Lemma renewed_quiet : quiet renewed.2.
Proof. apply get_db_quiet; [apply orderly_refresh|]. apply pass_quiet, signed_in_quiet. Qed.
Lemma copied_quiet : quiet copied.
Proof. apply pass_quiet, renewed_quiet. Qed.

Lemma reuse_ends_session_witness :
  (get_db (refresh first_token) copied).1 = inl (EAccount InvalidRefreshTokenError) ∧
  (get_db (refresh second_token) (get_db (refresh first_token) copied).2).1 = inl (EAccount InvalidRefreshTokenError).
Proof.
  refine (reuse_ends_session first_token copied (claims_of copied first_token) (rf_jti (token_of copied first_token))
    (token_of copied first_token) _ second_token (claims_of copied second_token) (rf_jti (token_of copied second_token))
    (token_of (get_db (refresh first_token) copied).2 second_token) copied_quiet _ _ _ _ _ _ (rtc_refl _ _) _ _ _ _);
    vm_compute; reflexivity.
Defined.

Lemma refresh_rotates_witness :
  ∃ c t u n,
    jwt_decode (st_now (pass 300 signed_in.2)) first_token = Some c ∧ cl_type c = REFRESH ∧ cl_jti c = Some (rf_jti t) ∧
    d_refresh_tokens (st_db (pass 300 signed_in.2)) !! rf_jti t = Some t ∧ st_now (pass 300 signed_in.2) ≤ rf_expires_at t ∧
    d_users (st_db (pass 300 signed_in.2)) !! rf_user_id t = Some u ∧ u_is_active u = true ∧
    (rf_revoked t = true → benign (st_db (pass 300 signed_in.2)) (st_now (pass 300 signed_in.2)) t = true) ∧
    d_refresh_tokens (st_db (pass 300 signed_in.2)) !! rf_jti n = None ∧
    (rf_user_id n, rf_family_id n, rf_revoked n) = (rf_user_id t, rf_family_id t, false) ∧
    jwt_claims second_token = Some (MkClaims (cl_sub c) REFRESH (st_now (pass 300 signed_in.2)) (rf_expires_at n) (Some (rf_jti n))) ∧
    d_refresh_tokens (st_committed renewed.2) =
      <[rf_jti n := n]> (<[rf_jti t := presented (st_now (pass 300 signed_in.2)) t]> (d_refresh_tokens (st_committed (pass 300 signed_in.2)))) ∧
    d_users (st_committed renewed.2) = d_users (st_committed (pass 300 signed_in.2)).
Proof.
  refine (refresh_rotates first_token (pass 300 signed_in.2) (pair_of renewed.1) renewed.2 (pass_quiet _ _ signed_in_quiet) _).
  vm_compute. reflexivity.
Defined.

Lemma sessions_need_active_account_witness :
  ∃ u, d_users (st_db opened) !! u_id u = Some u ∧ u_email u = "alice@example.com" ∧ pw_verify "rose" (u_password_hash u) = true ∧ u_is_active u = true.
Proof.
  refine (proj1 (sessions_need_active_account opened opened_quiet) "alice@example.com" "rose" None (pair_of signed_in.1)
    (login_endpoint "alice@example.com" "rose" None opened).2 _).
  vm_compute. reflexivity.
Defined.

(** Alice forgot her password; the job mails her a link. *)
Definition mailed : St := (send_password_reset (JObj [("email", JStr "alice@example.com")]) opened).2.
Definition mailed_secret : string := "token-uuid-1".
Definition reset : St := (get_db (reset_password mailed_secret "lily") mailed).2.
Lemma mailed_quiet : quiet mailed.
Proof.
  unfold mailed. destruct (orderly_send_password_reset (JObj [("email", JStr "alice@example.com")])) as (m & -> & Hm).
  by apply get_db_quiet, opened_quiet.
Qed.

Lemma password_reset_effects_witness :
  ∃ row u u',
    d_auth_tokens (st_db mailed) !! hash_token mailed_secret = Some row ∧ consumable PASSWORD_RESET (st_now mailed) row = true ∧
    d_users (st_db mailed) !! at_user_id row = Some u ∧ u_is_active u = true ∧ u_email u = at_email row ∧
    d_users (st_committed reset) = <[u_id u := u']> (d_users (st_committed mailed)) ∧
    (∀ q, pw_verify q (u_password_hash u') = true ↔ q = "lily") ∧
    (u_id u', u_username u', u_email u', u_role u', u_is_active u') = (u_id u, u_username u, u_email u, u_role u, u_is_active u) ∧
    u_email_verified_at u' ≠ None ∧ signed_out (st_committed reset) (u_id u).
Proof. refine (password_reset_effects mailed_secret "lily" mailed reset mailed_quiet _). vm_compute. reflexivity. Defined.

Lemma link_works_once_witness :
  get_db (use_endpoint VerifyWith mailed_secret) reset = (inl (EAccount InvalidAccountTokenError), (rollback reset).2).
Proof. refine (link_works_once (ResetWith "lily") mailed_secret mailed tt reset reset VerifyWith mailed_quiet _ (rtc_refl _ _)). vm_compute. reflexivity. Defined.
