(* ===== verification/RolesSpec.v ===== *)
(** * Who may administer the shop

    The invariant that some active administrator can manage roles, kept by every account request that does not go through
    GraphQL, and what a permission
    check, a promotion and the closure of a set of permissions do. *)

From S2P Require Import Prelude Errors Schema Guards Evolution Repositories Frames Runs Cart Accounts Roles Graphql Demo System.
From S2P Require Import AccountsEvolution AccountsSpec.

Local Open Scope string_scope.
Local Open Scope list_scope.
Local Open Scope Z_scope.

(** ** The invariant *)

(** An active administrator whose role lets them manage roles. *)
Definition manages (d : DB) (uid : uuid) : Prop :=
  ∃ u, d_users d !! uid = Some u ∧ is_active_admin u = true ∧ ROLES_MANAGE ∈ role_permissions (role_of d uid).

Record staff_ok (d : DB) : Prop := {
  so_users : ∀ k u, d_users d !! k = Some u → u_id u = k;
  so_roles : ∀ k r, d_staff_roles d !! k = Some r → sr_id r = k;
  so_assigned : ∀ k a, d_assignments d !! k = Some a → sa_user_id a = k ∧ is_Some (d_staff_roles d !! sa_role_id a);
  so_no_access : ∀ r, d_staff_roles d !! NO_ACCESS_ROLE_ID = Some r → sr_permissions r = [] ∧ sr_is_system r = true;
  so_managed : ∃ uid, manages d uid
}.

(** The tables it speaks of. *)
Definition people_of (d : DB) := (d_users d, d_staff_roles d, d_assignments d).
Lemma staff_same d d' : people_of d' = people_of d → staff_ok d → staff_ok d'.
Proof.
  intros [= Hu Hr Ha] []. split; rewrite ?Hu, ?Hr, ?Ha; try done. destruct so_managed0 as (uid & u & Hk & Hact & Hp).
  exists uid, u. rewrite Hu. unfold role_of, role_in in *. by rewrite Ha, Hr.
Qed.

Definition staff_step (s s' : St) : Prop := staff_ok (st_db s) → staff_ok (st_db s').
#[export] Instance staff_step_refl : Reflexive staff_step.
Proof. intros s. unfold staff_step. auto. Qed.
#[export] Instance staff_step_trans : Transitive staff_step.
Proof. intros a b c. unfold staff_step. auto. Qed.
Lemma staff_upd f : (∀ d, people_of (f d) = people_of d) → guar staff_step (upd f).
Proof. intros Hf s Hs. exact (staff_same _ _ (Hf _) Hs). Qed.

(** Users change so that who manages still does. *)
Lemma staff_users d g :
  (∀ k u, g !! k = Some u → u_id u = k) →
  (∀ k u, d_users d !! k = Some u → manages d k → ∃ u', g !! k = Some u' ∧ is_active_admin u' = true) →
  staff_ok d → staff_ok (d <| d_users := g |>).
Proof.
  intros Hkey Hkeep []. split; cbn; try done. destruct so_managed0 as (uid & Hm). pose proof Hm as (u & Hk & _ & Hp).
  destruct (Hkeep _ _ Hk Hm) as (u' & ? & ?). exists uid, u'. done.
Qed.
Lemma staff_insert_user u : guar staff_step (insert_user u).
Proof.
  intros s. unfold insert_user, gets, mbind, ST_bind; cbn. destruct (negb (user_fits u)); cbn; [done|]. destruct (first_violation _) eqn:Hg; cbn; [done|]. guards_passed Hp.
  apply Forall_inv, eq_sym, check_None, bool_decide_eq_true in Hp. intros Hs.
  refine (staff_users _ (<[u_id u := u]> (d_users (st_db s))) _ _ Hs).
  - intros k v [[<- <-]|[_ Hk]]%lookup_insert_Some; [done|by apply (so_users _ Hs)].
  - intros k v Hk (v' & Hk' & Hact & _). exists v'. simplify_eq. rewrite lookup_insert_ne; [done|congruence].
Qed.
Lemma staff_update_user k f :
  (∀ u, (u_id (f u), u_role (f u), u_is_active (f u)) = (u_id u, u_role u, u_is_active u)) → guar staff_step (update_user_row k f).
Proof.
  intros Hf s. unfold update_user_row, gets, of_option, mbind, ST_bind; cbn. destruct (d_users (st_db s) !! k) as [u|] eqn:Hu; cbn; [|done].
  destruct (negb (user_fits _)); cbn; [done|]. destruct (users_unique _ _); cbn; [done|]. intros Hs. specialize (Hf u). injection Hf as Hid Hrole Hact.
  refine (staff_users _ (<[k := f u]> (d_users (st_db s))) _ _ Hs).
  - intros k' v [[<- <-]|[_ Hk]]%lookup_insert_Some; [|by apply (so_users _ Hs)]. rewrite Hid. by apply (so_users _ Hs).
  - intros k' v Hk (v' & Hk' & Ha & _). simplify_eq. destruct (decide (k' = k)) as [->|].
    + exists (f u). rewrite lookup_insert_eq. simplify_eq. unfold is_active_admin in *. by rewrite Hrole, Hact.
    + exists v. by rewrite lookup_insert_ne.
Qed.

(** Roles come and go without anyone's role changing. *)
Lemma role_of_roles d g uid :
  (∀ a, d_assignments d !! uid = Some a → g !! sa_role_id a = d_staff_roles d !! sa_role_id a) →
  role_of (d <| d_staff_roles := g |>) uid = role_of d uid.
Proof. intros Hg. unfold role_of, role_in. cbn. destruct (d_assignments d !! uid) as [a|]; [cbn|done]. by apply Hg. Qed.
Lemma staff_roles d g :
  (∀ k r, g !! k = Some r → sr_id r = k) → (∀ k a, d_assignments d !! k = Some a → g !! sa_role_id a = d_staff_roles d !! sa_role_id a) →
  (∀ r, g !! NO_ACCESS_ROLE_ID = Some r → sr_permissions r = [] ∧ sr_is_system r = true) →
  staff_ok d → staff_ok (d <| d_staff_roles := g |>).
Proof.
  intros Hkey Hsame Hno []. split; cbn; try done.
  - intros k a Hk. rewrite (Hsame _ _ Hk). by apply so_assigned0.
  - destruct so_managed0 as (uid & u & Hu & Ha & Hp). exists uid, u. split_and!; [done..|]. rewrite role_of_roles; [done|by apply Hsame].
Qed.
Lemma staff_insert_role r :
  (sr_id r = NO_ACCESS_ROLE_ID → sr_permissions r = [] ∧ sr_is_system r = true) → guar staff_step (insert_staff_role r).
Proof.
  intros Hr s. unfold insert_staff_role, gets, mbind, ST_bind; cbn. destruct (first_violation _) eqn:Hg; cbn; [done|]. guards_passed Hp.
  apply Forall_inv, eq_sym, check_None, bool_decide_eq_true in Hp. intros Hs.
  refine (staff_roles _ (<[sr_id r := r]> (d_staff_roles (st_db s))) _ _ _ Hs).
  - intros k v [[<- <-]|[_ Hk]]%lookup_insert_Some; [done|by apply (so_roles _ Hs)].
  - intros k a Hk. destruct (so_assigned _ Hs _ _ Hk) as [_ [v Hv]]. rewrite lookup_insert_ne; [done|congruence].
  - intros v [[Heq <-]|[_ Hk]]%lookup_insert_Some; [auto|by apply (so_no_access _ Hs)].
Qed.
Lemma staff_delete_role k : guar staff_step (delete_staff_role k).
Proof.
  intros s. unfold delete_staff_role, gets, mbind, ST_bind; cbn. destruct (check _ _) eqn:Hg; cbn; [done|].
  apply check_None, negb_true_iff in Hg. rewrite exists_row_false in Hg. intros Hs.
  refine (staff_roles _ (delete k (d_staff_roles (st_db s))) _ _ _ Hs).
  - intros j v [_ Hk]%lookup_delete_Some. by apply (so_roles _ Hs).
  - intros j a Hk. specialize (Hg _ _ Hk). apply String.eqb_neq in Hg. by rewrite lookup_delete_ne.
  - intros v [_ Hk]%lookup_delete_Some. by apply (so_no_access _ Hs).
Qed.
Lemma staff_ensure : guar staff_step ensure_system_roles.
Proof.
  unfold ensure_system_roles. apply guar_for_each; [apply _..|]. intros [rid name]. apply guar_bind; [apply _|apply guar_gets, _|].
  intros [r|]; [apply guar_ret, _|]. by apply staff_insert_role.
Qed.
(** Someone's assignment. *)
Lemma staff_assign d g :
  (∀ k a, g !! k = Some a → sa_user_id a = k ∧ is_Some (d_staff_roles d !! sa_role_id a)) →
  (∃ uid, manages (d <| d_assignments := g |>) uid) → staff_ok d → staff_ok (d <| d_assignments := g |>).
Proof. intros Hg Hm []. by split. Qed.

(** ** The requests that change no one's standing *)

Create HintDb staff discriminated.
#[export] Hint Resolve staff_insert_user staff_delete_role staff_ensure : staff.
#[export] Hint Extern 1 (guar staff_step (update_user_row _ _)) => (apply staff_update_user; intros []; cbn; repeat case_match; reflexivity) : staff.
#[export] Hint Extern 1 (guar staff_step (insert_staff_role _)) => (apply staff_insert_role; cbn; intros [=]) : staff.
Ltac staff_leaf :=
  first [ apply guar_ret; apply _ | apply guar_raise; apply _ | apply guar_gets; apply _ | apply guar_raise_if; apply _
        | apply guar_of_option; apply _ | apply guar_of_sum; apply _ | assumption
        | solve [eauto 1 with staff nocore]
        | apply staff_upd; intros ?; reflexivity
        | let Hz := fresh in intros ? Hz; exact (staff_same _ _ eq_refl Hz) ].
Ltac staff_walk := walk staff_leaf.

Section staff.
Context `{!Settings} `{!Crypto} `{!AccountSettings} `{!Passwords} `{!Jwt} `{!Mailer} `{!MailerOk} `{!JwtOk}.

(** What a method is worth as the body of a request. *)
Definition tidy {A} (m : M A) : Prop := ∀ s, staff_ok (st_db s) → people_of (st_db s) = people_of (st_committed s) →
  match m s with (inr _, s') => staff_ok (st_db s') | (inl _, s') => staff_ok (st_committed s') end.
Lemma tidy_guar {A} (m : M A) : guar staff_step m → guar (keeps st_committed) m → tidy m.
Proof.
  intros Hm Hc s Hs Hrest. specialize (Hm s Hs). specialize (Hc s). unfold keeps in Hc. destruct (m s) as [[e|a] s']; [|exact Hm].
  cbn in Hc. rewrite Hc. by eapply staff_same.
Qed.
Lemma tidy_returns {A} (m : M A) :
  (∀ s a s', m s = (inr a, s') → staff_ok (st_db s) → staff_ok (st_db s')) → guar (keeps st_committed) m → tidy m.
Proof.
  intros Hm Hc s Hs Hrest. specialize (Hc s). unfold keeps in Hc. destruct (m s) as [[e|a] s'] eqn:Hrun; [|by eapply Hm].
  cbn in Hc. rewrite Hc. by eapply staff_same.
Qed.
Lemma staff_mail to m : guar staff_step (send_mail to m).
Proof. intros s. by rewrite send_keeps. Qed.
#[local] Hint Extern 1 (guar staff_step (send_mail _ _)) => (apply staff_mail; assumption) : staff.
#[local] Hint Extern 1 (guar (keeps st_committed) (send_mail _ _)) => (apply uncommitted_mail; assumption) : uncommitted.

Lemma tidy_register a b c d : tidy (register_endpoint a b c d).
Proof. apply tidy_guar; [staff_walk|uncommitted]. Qed.
(** A fresh id is never that of a system role. *)
Lemma staff_fresh {A} (k : uuid → M A) : (∀ n, guar staff_step (k ("uuid-" +:+ str_Z n))) → guar staff_step (i ← new_uuid; k i).
Proof. intros Hk s. exact (Hk (st_next_uuid s) (new_uuid s).2). Qed.
Lemma tidy_create_role a b c d : tidy (create_role_endpoint a b c d).
Proof.
  apply tidy_guar; [|uncommitted]. unfold create_role_endpoint, create_role; cbv zeta.
  apply guar_bind; [apply _|staff_walk|]. intros u. apply guar_bind; [apply _|staff_walk|]. intros taken.
  apply guar_bind; [apply _|staff_walk|]. intros _. apply staff_fresh. staff_walk.
Qed.
Lemma tidy_delete_role a b : tidy (delete_role_endpoint a b).
Proof. apply tidy_guar; [staff_walk|uncommitted]. Qed.

(** ** The requests that may *)

Lemma assert_remains_inr uc rc u s s' :
  assert_role_manager_remains uc rc s = (inr u, s') →
  s' = s ∧ ∃ k m, d_users (st_db s) !! k = Some m ∧ is_active_admin m = true ∧
    keeps_managing (st_db s) uc rc (m, d_assignments (st_db s) !! u_id m) = true.
Proof.
  unfold assert_role_manager_remains, lock_active_admins. intros Hrun. runs. split; [done|].
  match goal with Hn : negb _ = false |- _ => apply negb_false_iff, existsb_exists in Hn as (x & Hin & Hk) end.
  apply in_map_iff in Hin as (m & <- & Hm). unfold active_admins, sort_on in Hm. apply list_elem_of_In in Hm. rewrite merge_sort_Permutation in Hm.
  apply rows_where_elem in Hm as [Hact [k Hm]]. eauto.
Qed.
Lemma update_user_inr uid cur name email role u' s s' :
  update_user uid cur name email role s = (inr u', s') →
  ∃ u, d_users (st_db s) !! uid = Some u ∧ (u_id u', u_is_active u') = (u_id u, u_is_active u) ∧ u_role u' = default (u_role u) role ∧
    s' = set_db (λ d, d <| d_users ::= <[uid := u']> |>) s ∧ (u_role cur = ADMIN ∨ u_id cur = uid) ∧ (role ≠ None → u_role cur = ADMIN).
Proof.
  unfold update_user, get_user_by_id; cbv zeta. intros Hrun. apply bind_inr in Hrun as (? & ? & Hg1 & Hrun). apply raise_if_inr in Hg1 as [Hg1 ->].
  apply bind_inr in Hrun as (? & ? & Hg2 & Hrun). apply raise_if_inr in Hg2 as [Hg2 ->]. runs.
  match goal with Hx : match role with _ => _ end _ = _ |- _ => read_only Hx end.
  match goal with Hx : update_user_row _ _ _ = _ |- _ => apply update_user_row_inr in Hx as (u1 & Hu1 & -> & ->) end.
  exists u1. split_and!; [done|..].
  - repeat case_match; reflexivity.
  - repeat case_match; reflexivity.
  - done.
  - destruct (decide (u_role cur = ADMIN)); [by left|right]. rewrite bool_decide_eq_false_2 in Hg1 by done. cbn in Hg1.
    by apply negb_false_iff, String.eqb_eq in Hg1.
  - intros Hr. destruct (decide (u_role cur = ADMIN)); [done|]. rewrite (bool_decide_eq_false_2 (u_role cur = ADMIN)) in Hg2 by done.
    rewrite andb_true_r in Hg2. by apply negb_false_iff, bool_decide_eq_true in Hg2.
Qed.

Lemma keeps_leaving d x m a :
  keeps_managing d [(x, LEAVES_STAFF)] None (m, a) = true → u_id m ≠ x ∧ ROLES_MANAGE ∈ role_permissions (role_in d a).
Proof.
  unfold keeps_managing. cbn. destruct (String.eqb x (u_id m)) eqn:Hx; [done|]. apply String.eqb_neq in Hx.
  intros Hp. assert (bool_decide (ROLES_MANAGE ∈ role_permissions (role_in d a)) = true) as ?%bool_decide_eq_true by (by destruct (role_in d a)).
  done.
Qed.
Lemma log_people a b c d e s r s' : audit_log a b c d e s = (r, s') → people_of (st_db s') = people_of (st_db s).
Proof.
  intros Hrun. apply (frame_run [TAudit]) in Hrun; [|apply only_audit_log]. unfold people_of.
  same_table TUsers Hrun Q1. same_table TStaffRoles Hrun Q2. same_table TAssignments Hrun Q3. congruence.
Qed.
(** The last part of an operation: its log entry. *)
Lemma logs_people (b : bool) (m : M unit) u s s' :
  (∀ u s s', m s = (inr u, s') → people_of (st_db s') = people_of (st_db s)) → (if b then m else mret tt : M unit) s = (inr u, s') →
  people_of (st_db s') = people_of (st_db s).
Proof. intros Hm. destruct b; [by eapply Hm|]. by intros [= _ <-]. Qed.

(** The tables with one user changed and perhaps unassigned: someone else is still a manager. *)
Lemma staff_without d d' uid u u' k m :
  staff_ok d → d_users d !! uid = Some u → u_id u' = u_id u → d_users d' = <[uid := u']> (d_users d) →
  d_staff_roles d' = d_staff_roles d → (d_assignments d' = d_assignments d ∨ d_assignments d' = delete uid (d_assignments d)) →
  d_users d !! k = Some m → k ≠ uid → is_active_admin m = true → ROLES_MANAGE ∈ role_permissions (role_of d k) → staff_ok d'.
Proof.
  intros [] Hu Hid Hus Hro Has Hk Hne Hact Hp. assert (Hsub : ∀ j a, d_assignments d' !! j = Some a → d_assignments d !! j = Some a).
  { intros j a. destruct Has as [->| ->]; [done|]. by intros [_ ?]%lookup_delete_Some. }
  split.
  - intros j v. rewrite Hus. intros [[<- <-]|[_ Hj]]%lookup_insert_Some; [rewrite Hid|]; by apply so_users0.
  - by rewrite Hro.
  - intros j a Hj. rewrite Hro. by apply so_assigned0, Hsub.
  - by rewrite Hro.
  - exists k, m. rewrite Hus, lookup_insert_ne by done. split_and!; [done..|]. unfold role_of, role_in in *. rewrite Hro.
    destruct Has as [->| ->]; [done|]. by rewrite lookup_delete_ne.
Qed.

Lemma get_user_inr uid cur u s s' : get_user uid cur s = (inr u, s') → s' = s ∧ d_users (st_db s) !! uid = Some u.
Proof. unfold get_user, get_user_by_id. intros Hrun. runs. done. Qed.
Lemma remove_assignment_inr uid u s s' :
  remove_assignment uid s = (inr u, s') →
  people_of (st_db s') = people_of (st_db s <| d_assignments ::= delete uid |>).
Proof.
  unfold remove_assignment, get_assignment. intros Hrun. runs. unfold people_of. destruct (d_assignments (st_db _) !! uid) eqn:Ha.
  - unfold delete_assignment in Hrun. runs. done.
  - runs. cbn. by rewrite delete_id.
Qed.

(** Leaving the staff. *)
Lemma staff_leaves uid u u' s s2 v s' :
  staff_ok (st_db s) → d_users (st_db s) !! uid = Some u → u_id u' = u_id u →
  s2 = set_db (λ d, d <| d_users ::= <[uid := u']> |>) s → is_active_admin u' = false →
  (_ ← assert_role_manager_remains [(u_id u', LEAVES_STAFF)] None; remove_assignment (u_id u')) s2 = (inr v, s') →
  staff_ok (st_db s').
Proof.
  intros Hs Hu Hid -> Hna Hrun. apply bind_inr in Hrun as (? & ? & Hm & Hrun). apply assert_remains_inr in Hm as [-> (k & m & Hk & Hact & Hkeep)].
  apply keeps_leaving in Hkeep as [Hne Hp]. apply remove_assignment_inr in Hrun. eapply staff_same; [exact Hrun|]. clear Hrun.
  rewrite db_set in *. cbn in Hk, Hp. rewrite Hid in *. rewrite (so_users _ Hs _ _ Hu) in *.
  apply lookup_insert_Some in Hk as [[<- <-]|[Hne' Hk]]; [congruence|]. rewrite (so_users _ Hs _ _ Hk) in *.
  eapply (staff_without (st_db s) _ uid u u' k m); try done; [by rewrite (so_users _ Hs _ _ Hu)|by right].
Qed.

(** Assigning a role: the state afterwards. *)
Lemma ensure_people s s' u : ensure_system_roles s = (inr u, s') →
  d_users (st_db s') = d_users (st_db s) ∧ d_assignments (st_db s') = d_assignments (st_db s) ∧
  is_Some (d_staff_roles (st_db s') !! NO_ACCESS_ROLE_ID).
Proof.
  intros Hrun. split_and!.
  - by apply (guar_ran (keeps (λ s, d_users (st_db s))) _ _ _ _ Hrun); uncommitted.
  - by apply (guar_ran (keeps (λ s, d_assignments (st_db s))) _ _ _ _ Hrun); uncommitted.
  - unfold ensure_system_roles, for_each in Hrun. apply bind_inr in Hrun as (? & s1 & _ & Hrun). cbn beta in Hrun.
    apply bind_inr in Hrun as (? & s2 & Hone & Hrun). apply ret_inr in Hrun as [_ ->].
    apply bind_inr in Hone as (o & ? & Hg & Hone). apply db_gets_inr in Hg as [-> ->]. cbn [fst snd] in Hone.
    destruct (d_staff_roles (st_db s1) !! NO_ACCESS_ROLE_ID) eqn:Hr; [apply ret_inr in Hone as [_ ->]; eauto|].
    unfold insert_staff_role in Hone. runs. rewrite db_set. cbn. rewrite lookup_insert_eq. eauto.
Qed.
Lemma set_assignment_inr uid rid actor a s s' : set_assignment uid rid actor s = (inr a, s') →
  s' = set_db (λ d, d <| d_assignments ::= <[uid := MkAssignment uid rid (Some actor)]> |>) s ∧
  is_Some (d_staff_roles (st_db s) !! rid).
Proof.
  unfold set_assignment, put_assignment; cbv zeta. intros Hrun. runs. split; [done|]. guards_passed Hp.
  by apply Forall_inv_tail, Forall_inv, eq_sym, check_None, bool_decide_eq_true in Hp.
Qed.
Lemma staff_reassign d uid rid actor :
  staff_ok d → is_Some (d_staff_roles d !! rid) →
  (∃ k, manages (d <| d_assignments ::= <[uid := MkAssignment uid rid (Some actor)]> |>) k) →
  staff_ok (d <| d_assignments ::= <[uid := MkAssignment uid rid (Some actor)]> |>).
Proof.
  intros Hs Hr Hm. refine (staff_assign d (<[uid := MkAssignment uid rid (Some actor)]> (d_assignments d)) _ Hm Hs).
  intros k a [[<- <-]|[_ Hk]]%lookup_insert_Some; [done|by apply (so_assigned _ Hs)].
Qed.

(** Joining the staff: someone else who managed before still does. *)
Lemma manages_other d uid a k : k ≠ uid → manages d k → manages (d <| d_assignments ::= <[uid := a]> |>) k.
Proof.
  intros Hne (m & Hk & Hact & Hp). exists m. split_and!; [done..|]. unfold role_of, role_in in *. cbn. by rewrite lookup_insert_ne.
Qed.
Lemma manages_users d d' k : d_users d' = d_users d → d_assignments d' = d_assignments d →
  (∀ a, d_assignments d !! k = Some a → d_staff_roles d' !! sa_role_id a = d_staff_roles d !! sa_role_id a) → manages d k → manages d' k.
Proof.
  intros Hu Ha Hr (m & Hk & Hact & Hp). exists m. rewrite Hu. split_and!; [done..|]. unfold role_of, role_in in *. rewrite Ha.
  destruct (d_assignments d !! k) as [a|]; [cbn in *|done]. by rewrite Hr.
Qed.
(** System roles are only ever added. *)
Definition roles_grow (s s' : St) : Prop := d_staff_roles (st_db s) ⊆ d_staff_roles (st_db s').
#[export] Instance roles_grow_refl : Reflexive roles_grow.
Proof. intros s. unfold roles_grow. done. Qed.
#[export] Instance roles_grow_trans : Transitive roles_grow.
Proof. intros a b c. unfold roles_grow. by etrans. Qed.
Lemma ensure_grows : guar roles_grow ensure_system_roles.
Proof.
  unfold ensure_system_roles. apply guar_for_each; [apply _..|]. intros [rid name] s. unfold roles_grow, db_gets, gets, mbind, ST_bind. cbn.
  destruct (d_staff_roles (st_db s) !! rid) eqn:Hr; [done|]. unfold insert_staff_role, gets, mbind, ST_bind. cbn.
  destruct (first_violation _); [done|]. by apply insert_subseteq.
Qed.
Lemma staff_joins cur uid k s v s' :
  staff_ok (st_db s) → k ≠ uid → manages (st_db s) k → start_with_no_access cur uid s = (inr v, s') → staff_ok (st_db s').
Proof.
  intros Hs Hne Hm Hrun. unfold start_with_no_access in Hrun. apply bind_inr in Hrun as (? & s1 & Hens & Hrun).
  assert (Hs1 : staff_ok (st_db s1)) by by apply (guar_ran _ _ _ _ _ Hens staff_ensure).
  pose proof (guar_ran _ _ _ _ _ Hens ensure_grows) as Hroles. apply ensure_people in Hens as (Hu & Ha & Hno).
  apply bind_inr in Hrun as (? & s2 & Hset & Hlog). apply log_people in Hlog. eapply staff_same; [exact Hlog|].
  apply set_assignment_inr in Hset as [-> Hsome]. rewrite db_set. apply staff_reassign; [done..|]. exists k. apply manages_other; [done|].
  apply (manages_users (st_db s)); [done..| |done]. intros a Hak. destruct (so_assigned _ Hs _ _ Hak) as [_ [r Hr]].
  rewrite Hr. by eapply lookup_weaken.
Qed.

(** One user rewritten, an active administrator at least if they were one. *)
Lemma staff_rewrite d uid u u' :
  staff_ok d → d_users d !! uid = Some u → u_id u' = u_id u → (is_active_admin u = true → is_active_admin u' = true) →
  staff_ok (d <| d_users ::= <[uid := u']> |>).
Proof.
  intros Hs Hu Hid Hact. refine (staff_users d (<[uid := u']> (d_users d)) _ _ Hs).
  - intros k v [[<- <-]|[_ Hk]]%lookup_insert_Some; [rewrite Hid|]; by apply (so_users _ Hs).
  - intros k v Hk (w & Hw & Ha & _). simplify_eq. destruct (decide (k = uid)) as [->|].
    + exists u'. rewrite lookup_insert_eq. simplify_eq. auto.
    + exists v. by rewrite lookup_insert_ne.
Qed.
Lemma manages_rewrite d uid u' k : k ≠ uid → manages d k → manages (d <| d_users ::= <[uid := u']> |>) k.
Proof. intros Hne (m & Hk & Hact & Hp). exists m. cbn. by rewrite lookup_insert_ne. Qed.

(** A user is rewritten, then the standing that follows from it. *)
Lemma staff_role_changed cur uid u0 u1 s v s' (b : bool) (m : M unit) :
  staff_ok (st_db s) → d_users (st_db s) !! uid = Some u0 → u_id u1 = u_id u0 → u_is_active u1 = u_is_active u0 →
  (∀ w t t', m t = (inr w, t') → people_of (st_db t') = people_of (st_db t)) →
  (_ ← (if bool_decide (u_role u0 = ADMIN) && negb (bool_decide (u_role u1 = ADMIN)) then
          _ ← assert_role_manager_remains [(u_id u1, LEAVES_STAFF)] None;
          remove_assignment (u_id u1)
        else mret tt);
   _ ← (if negb (bool_decide (u_role u0 = ADMIN)) && bool_decide (u_role u1 = ADMIN)
        then start_with_no_access cur (u_id u1) else mret tt);
   _ ← (if b then m else mret tt);
   mret u1) (set_db (λ d, d <| d_users ::= <[uid := u1]> |>) s) = (inr v, s') → staff_ok (st_db s').
Proof.
  intros Hs Hu Hid Hact Hm Hrun. assert (Hkey : u_id u0 = uid) by by apply (so_users _ Hs).
  apply bind_inr in Hrun as (? & s2 & Hleave & Hrun). apply bind_inr in Hrun as (? & s3 & Hjoin & Hrun).
  apply bind_inr in Hrun as (? & s4 & Hlog & Hrun). apply ret_inr in Hrun as [_ ->].
  apply (logs_people _ _ _ _ _ Hm) in Hlog. eapply staff_same; [exact Hlog|].
  destruct (decide (u_role u0 = ADMIN)) as [Q0|Q0], (decide (u_role u1 = ADMIN)) as [Q1|Q1];
    rewrite ?(bool_decide_eq_true_2 _ Q0), ?(bool_decide_eq_false_2 _ Q0), ?(bool_decide_eq_true_2 _ Q1), ?(bool_decide_eq_false_2 _ Q1) in *;
    cbn [negb andb] in *; try apply ret_inr in Hjoin as [_ ->].
  - apply ret_inr in Hleave as [_ ->]. eapply staff_rewrite; [done..|]. unfold is_active_admin. by rewrite Q0, Q1, Hact.
  - eapply staff_leaves; [exact Hs|exact Hu|exact Hid|reflexivity| |exact Hleave]. unfold is_active_admin. by rewrite bool_decide_eq_false_2.
  - apply ret_inr in Hleave as [_ ->]. rewrite Hid, Hkey in Hjoin. destruct (so_managed _ Hs) as (k & Hk).
    assert (Hne : k ≠ uid).
    { intros ->. destruct Hk as (w & Hw & Ha & _). simplify_eq. unfold is_active_admin in Ha. by rewrite bool_decide_eq_false_2 in Ha. }
    eapply (staff_joins cur uid k); [|exact Hne| |exact Hjoin]; rewrite db_set; [|by apply manages_rewrite].
    eapply staff_rewrite; [done..|]. unfold is_active_admin. by rewrite (bool_decide_eq_false_2 _ Q0).
  - apply ret_inr in Hleave as [_ ->]. eapply staff_rewrite; [done..|]. unfold is_active_admin. by rewrite (bool_decide_eq_false_2 _ Q0).
Qed.

Lemma staff_update_endpoint uid p cred s u s' :
  update_user_endpoint uid p cred s = (inr u, s') → staff_ok (st_db s) → staff_ok (st_db s').
Proof.
  unfold update_user_endpoint. intros Hrun Hs. apply bind_inr in Hrun as (cur & ? & Hx & Hrun). read_only Hx. clear Hx.
  apply bind_inr in Hrun as (? & ? & Hx & Hrun). read_only Hx. clear Hx.
  apply bind_inr in Hrun as (previous & ? & Hprev & Hrun). pose proof Hprev as Hx. read_only Hx. clear Hx.
  apply bind_inr in Hrun as (u1 & s1 & Hup & Hrun). apply update_user_inr in Hup as (u0 & Hu0 & Hsame & Hrole & -> & _ & _).
  injection Hsame as Hid Hact. destruct (uu_role p) as [r|].
  - apply bind_inr in Hprev as (u0' & ? & Hget & Hprev). apply get_user_inr in Hget as [-> Hu0']. simplify_eq.
    apply ret_inr in Hprev as [-> _]. eapply staff_role_changed; [..|exact Hrun]; [done..|]. intros ???. apply log_people.
  - assert (s' = set_db (λ d, d <| d_users ::= <[uid := u1]> |>) s) as ->.
    { destruct previous; by apply ret_inr in Hrun as [_ ->]. }
    eapply staff_rewrite; [done..|]. unfold is_active_admin. by rewrite Hrole, Hact.
Qed.
Lemma tidy_update_endpoint uid p cred : tidy (update_user_endpoint uid p cred).
Proof. apply tidy_returns; [intros s a s'; apply staff_update_endpoint|uncommitted]. Qed.

Lemma deactivate_user_inr uid cur u s s' : deactivate_user uid cur s = (inr u, s') →
  ∃ u0, d_users (st_db s) !! uid = Some u0 ∧ s' = set_db (λ d, d <| d_users ::= <[uid := u0 <| u_is_active := false |>]> |>) s.
Proof.
  unfold deactivate_user, get_user_by_id. intros Hrun. apply bind_inr in Hrun as (? & ? & Hx & Hrun). read_only Hx. clear Hx.
  apply bind_inr in Hrun as (? & ? & Hx & Hrun). read_only Hx. clear Hx. apply bind_inr in Hrun as (? & ? & Hx & Hrun). read_only Hx. clear Hx.
  apply bind_inr in Hrun as (? & ? & Hx & Hrun). read_only Hx. clear Hx. apply update_user_row_inr in Hrun as (u0 & Hu & -> & ->). eauto.
Qed.

Lemma get_current_user_inr cred cur s s' : get_current_user cred s = (inr cur, s') →
  s' = s ∧ ∃ k, d_users (st_db s) !! k = Some cur.
Proof.
  intros Hrun. pose proof Hrun as Hx. read_only Hx. split; [done|]. unfold get_current_user, get_user_by_id in Hrun. runs. eauto.
Qed.
Lemma staff_deactivate_endpoint uid cred s u s' :
  deactivate_user_endpoint uid cred s = (inr u, s') → staff_ok (st_db s) → staff_ok (st_db s').
Proof.
  unfold deactivate_user_endpoint. intros Hrun Hs. apply bind_inr in Hrun as (cur & ? & Hcur & Hrun).
  apply get_current_user_inr in Hcur as [-> (ck & Hck)]. apply bind_inr in Hrun as (? & s1 & Hchk & Hrun).
  apply bind_inr in Hrun as (? & s2 & Hdea & Hlog). apply log_people in Hlog. eapply staff_same; [exact Hlog|]. clear Hlog.
  pose proof Hdea as Hown. apply deactivate_user_inr in Hdea as (u0 & Hu0 & ->). rewrite db_set.
  assert (Hrew : s1 = s → is_active_admin u0 = false → staff_ok (st_db s1 <| d_users ::= <[uid := u0 <| u_is_active := false |>]> |>)).
  { intros -> Hna. eapply staff_rewrite; [done..|]. by rewrite Hna. }
  destruct (decide (u_role cur = ADMIN)) as [Q1|Q1].
  - rewrite (bool_decide_eq_true_2 _ Q1) in Hchk. apply bind_inr in Hchk as (? & ? & Hx & Hchk). read_only Hx. clear Hx.
    apply bind_inr in Hchk as (target & ? & Hget & Hchk). apply get_user_inr in Hget as [-> Htg].
    destruct (is_active_admin target) eqn:Ha; [|apply ret_inr in Hchk as [_ ->]; apply Hrew; congruence].
    apply assert_remains_inr in Hchk as [-> (k & m & Hk & Hact & Hkeep)]. apply keeps_leaving in Hkeep as [Hne Hp].
    rewrite (so_users _ Hs _ _ Hk) in *. eapply (staff_without (st_db s) _ uid u0 (u0 <| u_is_active := false |>) k m); try done. by left.
  - rewrite (bool_decide_eq_false_2 _ Q1) in Hchk. apply ret_inr in Hchk as [_ ->]. apply Hrew; [done|].
    unfold deactivate_user in Hown. apply bind_inr in Hown as (? & ? & Hr & _). apply raise_if_inr in Hr as [Hr _].
    rewrite (bool_decide_eq_false_2 _ Q1) in Hr. apply negb_false_iff, String.eqb_eq in Hr.
    rewrite (so_users _ Hs _ _ Hck) in Hr. simplify_eq. unfold is_active_admin. by rewrite bool_decide_eq_false_2.
Qed.
Lemma tidy_deactivate_endpoint uid cred : tidy (deactivate_user_endpoint uid cred).
Proof. apply tidy_returns; [intros s a s'; apply staff_deactivate_endpoint|uncommitted]. Qed.

(** ** Stored permissions *)

Lemma perm_of_value p : perm_of (perm_value p) = Some p.
Proof. by destruct p. Qed.
Lemma perm_of_sound x p : perm_of x = Some p → perm_value p = x.
Proof. intros [_ Heq%String.eqb_eq]%find_some. done. Qed.
Lemma effective_elem p granted : p ∈ effective granted ↔ p ∈ granted ∨ ∃ q, q ∈ granted ∧ p ∈ IMPLIES q.
Proof.
  unfold effective. rewrite elem_of_app, !list_elem_of_In, in_flat_map. setoid_rewrite list_elem_of_In. done.
Qed.
Lemma sorted_elem p ps : p ∈ omap perm_of (_sorted ps) ↔ p ∈ ps.
Proof.
  rewrite list_elem_of_omap. unfold _sorted, sort_str. setoid_rewrite merge_sort_Permutation. setoid_rewrite list_elem_of_fmap.
  setoid_rewrite elem_of_remove_dups. split.
  - intros (x & (q & -> & Hq) & Hp). rewrite perm_of_value in Hp. by simplify_eq.
  - intros Hp. exists (perm_value p). split; [eauto|apply perm_of_value].
Qed.
Lemma effective_sorted p ps : p ∈ effective (omap perm_of (_sorted ps)) ↔ p ∈ effective ps.
Proof. rewrite !effective_elem. setoid_rewrite sorted_elem. done. Qed.
(** A role's permissions depend on its id and what is stored. *)
Lemma permissions_sorted r ps p : sr_permissions r = _sorted ps → p ∈ effective ps → p ∈ role_permissions (Some r).
Proof.
  intros Hr Hp. unfold role_permissions. destruct (String.eqb _ _); [by destruct p; vm_compute; repeat constructor|].
  by rewrite Hr, effective_sorted.
Qed.

(** ** A role changes *)

Lemma staff_rewrite_role d rid r r' :
  staff_ok d → d_staff_roles d !! rid = Some r → sr_id r' = sr_id r → rid ≠ NO_ACCESS_ROLE_ID →
  (∃ k, manages (d <| d_staff_roles ::= <[rid := r']> |>) k) → staff_ok (d <| d_staff_roles ::= <[rid := r']> |>).
Proof.
  intros [] Hr Hid Hno Hm. split; cbn; [done| | | |done].
  - intros k v [[<- <-]|[_ Hk]]%lookup_insert_Some; [rewrite Hid|]; by apply so_roles0.
  - intros k a Hk. destruct (so_assigned0 _ _ Hk) as [? [v Hv]]. split; [done|]. rewrite lookup_insert. case_decide; eauto.
  - intros v. rewrite lookup_insert_ne by done. apply so_no_access0.
Qed.
(** What anyone may do once the role is rewritten. *)
Lemma role_of_rewritten d rid r' k :
  role_of (d <| d_staff_roles ::= <[rid := r']> |>) k =
  match d_assignments d !! k with Some a => if decide (rid = sa_role_id a) then Some r' else role_of d k | None => None end.
Proof.
  unfold role_of, role_in. cbn. destruct (d_assignments d !! k) as [a|]; cbn; [|done]. rewrite lookup_insert. by case_decide.
Qed.
Lemma manages_role_rewritten d rid r r' k :
  d_staff_roles d !! rid = Some r → manages d k →
  (ROLES_MANAGE ∈ role_permissions (Some r) → ROLES_MANAGE ∈ role_permissions (Some r')) →
  manages (d <| d_staff_roles ::= <[rid := r']> |>) k.
Proof.
  intros Hr (m & Hk & Hact & Hp) Hkeep. exists m. split_and!; [done..|]. rewrite role_of_rewritten. unfold role_of, role_in in Hp.
  destruct (d_assignments d !! k) as [a|] eqn:Ha; [|done]. cbn in Hp. case_decide; [|by unfold role_of, role_in; rewrite Ha].
  subst. rewrite Hr in Hp. auto.
Qed.
Lemma update_staff_role_inr k f r' s s' :
  update_staff_role k f s = (inr r', s') →
  ∃ r, d_staff_roles (st_db s) !! k = Some r ∧ r' = f r ∧ s' = set_db (λ d, d <| d_staff_roles ::= <[k := f r]> |>) s.
Proof. unfold update_staff_role. intros Hrun. runs. eauto. Qed.

Lemma get_role_inr rid r s s' : get_role rid s = (inr r, s') → s' = s ∧ d_staff_roles (st_db s) !! rid = Some r.
Proof. unfold get_role, get_role_row. intros Hrun. runs. done. Qed.

Lemma staff_update_role actor rid name descr ps s r s' :
  update_role actor rid name descr ps s = (inr r, s') → staff_ok (st_db s) → staff_ok (st_db s').
Proof.
  unfold update_role. intros Hrun Hs. apply bind_inr in Hrun as (old & ? & Hget & Hrun). apply get_role_inr in Hget as [-> Hold].
  apply bind_inr in Hrun as (? & ? & Hsys & Hrun). apply raise_if_inr in Hsys as [Hsys ->].
  apply bind_inr in Hrun as (? & ? & Hx & Hrun). read_only Hx. clear Hx.
  apply bind_inr in Hrun as (? & s0 & Hcheck & Hrun). pose proof Hcheck as Hx. read_only Hx. clear Hx.
  apply bind_inr in Hrun as (new & s1 & Hup & Hrun). apply bind_inr in Hrun as (? & s2 & Hlog & Hrun). apply ret_inr in Hrun as [_ ->].
  apply log_people in Hlog. eapply staff_same; [exact Hlog|]. clear Hlog. rewrite (so_roles _ Hs _ _ Hold) in *.
  apply update_staff_role_inr in Hup as (r0 & Hr0 & -> & ->). simplify_eq. rewrite db_set.
  eapply staff_rewrite_role; [done..| |].
  { intros ->. destruct (so_no_access _ Hs _ Hold) as [_ Hsys']. congruence. }
  destruct ps as [ps|]; [destruct (decide (ROLES_MANAGE ∈ ps)) as [Hin|Hin]|].
  - destruct (so_managed _ Hs) as (k & Hk). exists k. eapply manages_role_rewritten; [done..|]. intros _.
    apply (permissions_sorted _ ps); [done|]. apply effective_elem. by left.
  - rewrite (bool_decide_eq_false_2 _ Hin) in Hcheck. apply assert_remains_inr in Hcheck as [_ (k & m & Hk & Hact & Hkeep)].
    exists k, m. split_and!; [done..|]. rewrite (so_users _ Hs _ _ Hk) in Hkeep. rewrite role_of_rewritten. unfold keeps_managing in Hkeep.
    cbn in Hkeep. apply bool_decide_eq_true in Hkeep. unfold role_of, role_in.
    destruct (d_assignments (st_db s) !! k) as [a|] eqn:Ha; cbn in *; [|done].
    destruct (so_assigned _ Hs _ _ Ha) as [_ [w Hw]]. rewrite Hw in *.
    rewrite (so_roles _ Hs _ _ Hw) in Hkeep. case_decide; subst.
    + rewrite Hold in Hw. simplify_eq. rewrite String.eqb_refl, Hsys in Hkeep. by eapply permissions_sorted.
    + rewrite (proj2 (String.eqb_neq _ _)) in Hkeep by done. done.
  - destruct (so_managed _ Hs) as (k & Hk). exists k. by eapply manages_role_rewritten.
Qed.
Lemma require_reads p cred : guar eq (require_permission p cred).
Proof. reads. Qed.
Lemma tidy_update_role cred rid name descr ps : tidy (update_role_endpoint cred rid name descr ps).
Proof.
  apply tidy_returns; [|uncommitted]. intros s r s' Hrun. apply bind_inr in Hrun as (admin & ? & Hx & Hrun).
  apply reads_run in Hx as ->; [|apply require_reads]. by eapply staff_update_role.
Qed.

Lemma staff_assign_role actor uid rid s x s' :
  assign_role actor uid rid s = (inr x, s') → staff_ok (st_db s) → staff_ok (st_db s').
Proof.
  unfold assign_role. intros Hrun Hs. apply bind_inr in Hrun as (? & s1 & Hens & Hrun).
  assert (Hs1 : staff_ok (st_db s1)) by by apply (guar_ran _ _ _ _ _ Hens staff_ensure). clear Hens Hs.
  apply bind_inr in Hrun as (role & ? & Hget & Hrun). apply get_role_inr in Hget as [-> Hrole].
  apply bind_inr in Hrun as (found & ? & Hx & Hrun). read_only Hx. apply bind_inr in Hrun as (target & ? & Ht & Hrun).
  apply of_option_inr in Ht as [-> ->]. apply bind_inr in Hrun as (? & ? & Hy & Hrun). read_only Hy. clear Hy.
  apply bind_inr in Hrun as (? & ? & Hassert & Hrun). apply assert_remains_inr in Hassert as [-> (k & m & Hk & Hact & Hkeep)].
  apply bind_inr in Hrun as (a & s2 & Hset & Hrun). apply bind_inr in Hrun as (? & s3 & Hlog & Hrun). apply ret_inr in Hrun as [_ ->].
  apply log_people in Hlog. eapply staff_same; [exact Hlog|]. clear Hlog. apply set_assignment_inr in Hset as [-> Hsome]. rewrite db_set.
  apply staff_reassign; [done..|]. exists k, m. split_and!; [done..|]. rewrite (so_users _ Hs1 _ _ Hk) in Hkeep. unfold keeps_managing in Hkeep.
  rewrite (so_roles _ Hs1 _ _ Hrole). cbn in Hkeep. rewrite (so_users _ Hs1 _ _ Hk) in Hkeep. unfold role_of, role_in. cbn. rewrite lookup_insert.
  destruct (String.eqb uid k) eqn:Heq; cbn in Hkeep; apply bool_decide_eq_true in Hkeep.
  - apply String.eqb_eq in Heq. subst. rewrite decide_True by done. cbn. by rewrite Hrole.
  - apply String.eqb_neq in Heq. rewrite decide_False by done. unfold role_in in Hkeep.
    by destruct (d_assignments (st_db s1) !! k ≫= _).
Qed.
Lemma tidy_assign_role cred uid rid : tidy (assign_role_endpoint cred uid rid).
Proof.
  apply tidy_returns; [|uncommitted]. intros s r s' Hrun. apply bind_inr in Hrun as (admin & ? & Hx & Hrun).
  apply reads_run in Hx as ->; [|apply require_reads]. by eapply staff_assign_role.
Qed.

(** ** Every request *)

(** What leaves users, roles and assignments alone, whatever it commits. *)
Definition same_people (s s' : St) : Prop :=
  people_of (st_db s') = people_of (st_db s) ∧
  (people_of (st_committed s') = people_of (st_committed s) ∨ people_of (st_committed s') = people_of (st_db s)).
#[export] Instance same_people_refl : Reflexive same_people.
Proof. intros s. split; [done|by left]. Qed.
#[export] Instance same_people_trans : Transitive same_people.
Proof. intros a b c [Q1 Q2] [Q3 Q4]. split; [congruence|]. destruct Q2, Q4; (left; congruence) || (right; congruence). Qed.
Lemma same_people_refresh tok : guar same_people (refresh tok).
Proof.
  walk ltac:(first [ apply guar_ret; apply _ | apply guar_raise; apply _ | apply guar_gets; apply _ | apply guar_raise_if; apply _
    | apply guar_of_option; apply _ | assumption | intros ?; split; [reflexivity|left; reflexivity] | intros ?; split; [reflexivity|right; reflexivity] ]).
Qed.
Lemma tidy_refresh tok : tidy (refresh tok).
Proof.
  intros s Hs Hrest. pose proof (same_people_refresh tok s) as [Q1 Q2]. destruct (refresh tok s) as [[e|p] s']; cbn in *.
  - eapply staff_same; [|exact Hs]. destruct Q2; congruence.
  - by eapply staff_same.
Qed.

Definition people_rest (s : St) : Prop := people_of (st_db s) = people_of (st_committed s).
Lemma tidy_get_db {A} (m : M A) s : tidy m → staff_ok (st_db s) → people_rest s →
  staff_ok (st_db (get_db m s).2) ∧ people_rest (get_db m s).2.
Proof. intros Hm Hs Hrest. specialize (Hm s Hs Hrest). unfold get_db. by destruct (m s) as [[e|a] s']. Qed.
Lemma tidy_http {A} (m : M A) s : tidy m → staff_ok (st_db s) → people_rest s →
  staff_ok (st_db (http m s).2) ∧ people_rest (http m s).2.
Proof.
  intros Hm. apply tidy_get_db. intros s0 Hs Hrest. specialize (Hm s0 Hs Hrest). unfold mbind, ST_bind. by destruct (m s0) as [[e|a] s'].
Qed.
Lemma tidy_job {A} (m : M A) s :
  staff_ok (st_db (m s).2) ∧ people_rest (m s).2 → staff_ok (st_db (job m s).2) ∧ people_rest (job m s).2.
Proof. unfold job, mbind, ST_bind. by destruct (m s) as [[e|a] s']. Qed.
Lemma tidy_send_email_change p s : staff_ok (st_db s) → people_rest s →
  staff_ok (st_db (send_email_change p s).2) ∧ people_rest (send_email_change p s).2.
Proof.
  intros Hs Hrest. unfold send_email_change, payload_text. destruct (j_get "new_email" p) as [[]|]; try by split.
  apply tidy_get_db; [|done..]. apply tidy_guar; [staff_walk|uncommitted].
Qed.

(** The request is not for GraphQL, or GraphQL is switched off. *)
Definition not_graphql (r : AccountRequest) : Prop :=
  match r with Graphql _ _ => graphql_enabled = false | _ => True end.
Lemma tidy_graphql_off a l : graphql_enabled = false → tidy (graphql_endpoint a l).
Proof. intros Hoff s Hs Hrest. unfold graphql_endpoint. rewrite Hoff. cbn. by eapply staff_same. Qed.
Lemma serve_account_tidy r s : not_graphql r → staff_ok (st_db s) → people_rest s →
  staff_ok (st_db (serve_account r s).2) ∧ people_rest (serve_account r s).2.
Proof.
  intros Hr Hs Hrest. destruct r; cbn [serve_account];
    try (apply tidy_http; [apply tidy_graphql_off; exact Hr|exact Hs|exact Hrest]);
    try (apply tidy_http; [|done..];
         first [ apply tidy_register | apply tidy_refresh | apply tidy_update_endpoint | apply tidy_deactivate_endpoint | apply tidy_create_role
               | apply tidy_update_role | apply tidy_delete_role | apply tidy_assign_role
               | apply tidy_guar; [solve [staff_walk]|solve [uncommitted]] ]);
    apply tidy_job.
  - apply tidy_get_db; [|done..]. apply tidy_guar; [staff_walk|uncommitted].
  - apply tidy_get_db; [|done..]. apply tidy_guar; [staff_walk|uncommitted].
  - by apply tidy_send_email_change.
  - assert (guar eq (send_account_notice payload)) as Hn by apply notice_reads. specialize (Hn s). by rewrite <-Hn.
Qed.

(** One account request that does not go through GraphQL, or work that leaves accounts and roles alone. *)
Inductive rest_step : St → St → Prop :=
  | rest_request r s : not_graphql r → rest_step s (serve_account r s).2
  | rest_other s s' : people_of (st_db s') = people_of (st_db s) → people_rest s' → rest_step s s'.
Lemma rest_step_tidy s s' : rest_step s s' → staff_ok (st_db s) → people_rest s → staff_ok (st_db s') ∧ people_rest s'.
Proof.
  intros [r t Hg|t t' Hp Hrest] Hs Hr; [by apply serve_account_tidy|]. split; [exact (staff_same _ _ Hp Hs)|done].
Qed.

(** C27. As long as GraphQL is switched off or not used, whatever account requests follow one another, in any order and with
    work in between that leaves users, roles and assignments alone, an active administrator who may manage roles remains: none
    of demoting, deactivating, reassigning staff, rewriting and deleting roles can lock everyone out. (GraphQL is on by
    default, and its mutations do not make the check: [Findings.last_role_manager_demoted].) *)
Theorem role_manager_remains s s' :
  rtc rest_step s s' → staff_ok (st_db s) → people_rest s →
  ∃ uid u, d_users (st_db s') !! uid = Some u ∧ is_active_admin u = true ∧ ROLES_MANAGE ∈ role_permissions (role_of (st_db s') uid).
Proof.
  intros Hsteps. induction Hsteps as [s|s1 s2 s3 Hstep _ IH]; [intros [] _; done|].
  intros Hs Hrest. destruct (rest_step_tidy _ _ Hstep Hs Hrest). auto.
Qed.

(** ** Promotion *)

Lemma no_access_nothing r : sr_id r = NO_ACCESS_ROLE_ID → sr_permissions r = [] → role_permissions (Some r) = [].
Proof. unfold role_permissions. by intros -> ->. Qed.
Lemma start_role cur uid s v s' : staff_ok (st_db s) → start_with_no_access cur uid s = (inr v, s') →
  ∃ r, role_of (st_db s') uid = Some r ∧ role_permissions (Some r) = [].
Proof.
  intros Hs Hrun. unfold start_with_no_access in Hrun. apply bind_inr in Hrun as (? & s1 & Hens & Hrun).
  assert (Hs1 : staff_ok (st_db s1)) by by apply (guar_ran _ _ _ _ _ Hens staff_ensure). clear Hens.
  apply bind_inr in Hrun as (? & s2 & Hset & Hlog). apply log_people in Hlog. apply set_assignment_inr in Hset as [-> [r Hr]].
  rewrite db_set in Hlog. injection Hlog as _ Hro Has. exists r. unfold role_of, role_in. rewrite Has, Hro. cbn. rewrite lookup_insert_eq. cbn.
  split; [done|]. apply no_access_nothing; [by apply (so_roles _ Hs1)|by apply (so_no_access _ Hs1)].
Qed.

(** Making a customer an administrator lets them do nothing yet: they are put in the role that has no permission, whoever
    promoted them, and every permission check refuses them until a role is assigned. *)
Theorem promotion_grants_nothing uid p cred s u u0 s' :
  staff_ok (st_db s) → d_users (st_db s) !! uid = Some u0 → u_role u0 = USER → uu_role p = Some ADMIN →
  update_user_endpoint uid p cred s = (inr u, s') →
  u_role u = ADMIN ∧ ∀ perm, require u perm s' = (inl (EAccount (PermissionDeniedError (perm_value perm))), s').
Proof.
  intros Hs Hu0 Hrole Hp Hrun. unfold update_user_endpoint in Hrun. rewrite Hp in Hrun. apply bind_inr in Hrun as (cur & ? & Hx & Hrun).
  read_only Hx. clear Hx. apply bind_inr in Hrun as (? & ? & Hx & Hrun). read_only Hx. clear Hx.
  apply bind_inr in Hrun as (previous & ? & Hprev & Hrun). apply bind_inr in Hprev as (? & ? & Hget & Hprev).
  apply get_user_inr in Hget as [-> Hu0']. simplify_eq. apply ret_inr in Hprev as [-> ->].
  apply bind_inr in Hrun as (u1 & s1 & Hup & Hrun). apply update_user_inr in Hup as (u2 & Hu2 & Hsame & Hnew & -> & _ & _).
  injection Hsame as Hid Hact. simplify_eq. rewrite Hrole in Hrun. cbn in Hnew. rewrite Hnew in Hrun. cbn in Hrun.
  apply bind_inr in Hrun as (? & ? & Hx & Hrun). apply ret_inr in Hx as [_ ->].
  apply bind_inr in Hrun as (? & s2 & Hjoin & Hrun). apply bind_inr in Hrun as (? & s3 & Hlog & Hrun). apply ret_inr in Hrun as [-> ->].
  split; [done|]. intros perm. apply start_role in Hjoin as (r & Hr & Hnone).
  2:{ rewrite db_set. eapply staff_rewrite; [done..|]. unfold is_active_admin. by rewrite Hrole. }
  apply log_people in Hlog. injection Hlog as _ Hro Has. unfold require, has, resolve.
  assert (Hrole' : role_of (st_db s3) (u_id u1) = Some r) by (unfold role_of, role_in in *; by rewrite Has, Hro).
  destruct (is_active_admin u1); cbn; [|done]. unfold db_gets, gets, mbind, ST_bind. cbn. rewrite Hrole'. unfold role_permissions in Hnone.
  cbn. rewrite Hnone. done.
Qed.
End staff.
