(* ===== verification/AccessSpec.v ===== *)
(** * What a permission check lets through

    [require_permission] accepts exactly the access tokens of active administrators whose role has the permission, and no
    account request changes roles, assignments or anyone's role without the permission to manage roles, but for the GraphQL
    mutations of an administrator. *)

From S2P Require Import Prelude Errors Schema Guards Evolution Repositories Frames Runs Cart Accounts Roles Graphql Demo System.
From S2P Require Import AccountsEvolution AccountsSpec RolesSpec.

Local Open Scope string_scope.
Local Open Scope list_scope.
Local Open Scope Z_scope.

Section access.
Context `{!Settings} `{!Crypto} `{!AccountSettings} `{!Passwords} `{!Jwt} `{!Mailer} `{!MailerOk} `{!JwtOk}.

(** ** Permission checks *)

(** The credentials are an access token of an active administrator whose role has the permission. *)
Definition may (s : St) (cred : string) (perm : Permission) : Prop :=
  ∃ c u, jwt_decode (st_now s) cred = Some c ∧ cl_type c = ACCESS ∧ d_users (st_db s) !! cl_sub c = Some u ∧
    is_active_admin u = true ∧ perm ∈ role_permissions (role_of (st_db s) (u_id u)).

Lemma current_user_inr cred cur s s' : get_current_user cred s = (inr cur, s') →
  s' = s ∧ ∃ c, jwt_decode (st_now s) cred = Some c ∧ cl_type c = ACCESS ∧ d_users (st_db s) !! cl_sub c = Some cur ∧ u_is_active cur = true.
Proof.
  unfold get_current_user, decode_token, get_user_by_id. intros Hrun. runs. split; [done|].
  repeat match goal with H : negb _ = false |- _ => apply negb_false_iff in H end. eexists. split_and!; [done| |done..].
  by apply String.eqb_eq.
Qed.
Lemma require_inr u perm v s s' : require u perm s = (inr v, s') →
  s' = s ∧ is_active_admin u = true ∧ perm ∈ role_permissions (role_of (st_db s) (u_id u)).
Proof.
  unfold require, has, resolve. intros Hrun. destruct (is_active_admin u); cbn in Hrun; runs;
    repeat match goal with H : negb _ = false |- _ => apply negb_false_iff, bool_decide_eq_true in H end; cbn in *; [done|].
  match goal with H : _ ∈ [] |- _ => inversion H end.
Qed.
Lemma require_permission_inr perm cred u s s' : require_permission perm cred s = (inr u, s') → s' = s ∧ may s cred perm.
Proof.
  unfold require_permission. intros Hrun. apply bind_inr in Hrun as (cur & ? & Hcur & Hrun).
  apply current_user_inr in Hcur as [-> (c & Hc & Ht & Hu & Ha)]. apply bind_inr in Hrun as (admin & ? & Hadm & Hrun).
  unfold require_admin in Hadm. apply bind_inr in Hadm as (? & ? & Hr & Hadm). apply raise_if_inr in Hr as [_ ->]. apply ret_inr in Hadm as [-> ->].
  apply bind_inr in Hrun as (? & ? & Hreq & Hrun). apply require_inr in Hreq as [-> [Hact Hp]]. apply ret_inr in Hrun as [_ ->].
  split; [done|]. exists c, cur. done.
Qed.
Lemma may_passes perm cred s : may s cred perm → ∃ u, require_permission perm cred s = (inr u, s).
Proof.
  intros (c & u & Hc & Ht & Hu & Hact & Hp). exists u. pose proof Hact as Hboth. unfold is_active_admin in Hboth.
  apply andb_true_iff in Hboth as [Hadm Hau].
  unfold require_permission, get_current_user, decode_token, get_user_by_id, require_admin, require, has, resolve, now, db_gets, gets,
    of_option, raise_if, raise, mbind, ST_bind, mret, ST_ret, gets. cbn. rewrite Hc. cbn. rewrite Ht. cbn. rewrite Hu. cbn. rewrite Hau. cbn.
  rewrite Hadm. cbn. rewrite Hact. cbn. by rewrite bool_decide_eq_true_2.
Qed.

(** C31. A permission check lets exactly those credentials through that are an unexpired access token of an account that is,
    now, an active administrator whose role has the permission: it reads the account and the role of the moment, so a
    demotion or a change of role takes effect on the next request. *)
Theorem permission_check_exact perm cred s :
  (∃ u s', require_permission perm cred s = (inr u, s')) ↔ may s cred perm.
Proof.
  split; [intros (u & s' & Hrun); by eapply require_permission_inr|]. intros Hmay.
  destruct (may_passes _ _ _ Hmay) as [u Hu]. eauto.
Qed.

(** ** Only role managers change anyone's standing *)

(** Roles, assignments and the role of every user are as they were; who is new is a customer. *)
Record standing_kept (d d' : DB) : Prop := {
  sk_staff : staff_of d' = staff_of d;
  sk_role : ∀ k u, d_users d' !! k = Some u → u_role u = from_option u_role USER (d_users d !! k);
  sk_there : ∀ k, is_Some (d_users d !! k) → is_Some (d_users d' !! k)
}.
Lemma standing_same d d' : people_of d' = people_of d → standing_kept d d'.
Proof.
  intros [= Hu Hr Ha]. split; [unfold staff_of; congruence| |by rewrite Hu]. intros k u. rewrite Hu. by intros ->.
Qed.
Definition standing_step (s s' : St) : Prop := standing_kept (st_db s) (st_db s').
#[export] Instance standing_step_refl : Reflexive standing_step.
Proof. intros s. by apply standing_same. Qed.
#[export] Instance standing_step_trans : Transitive standing_step.
Proof.
  intros a b c [S1 R1 T1] [S2 R2 T2]. split; [congruence| |auto]. intros k u Hk. rewrite (R2 _ _ Hk).
  destruct (d_users (st_db b) !! k) as [v|] eqn:Hb; cbn; [by apply R1|]. destruct (d_users (st_db a) !! k) eqn:Ha; [|done].
  destruct (T1 k) as [? Hs]; [by rewrite Ha|]. congruence.
Qed.
Lemma standing_insert_user u : u_role u = USER → guar standing_step (insert_user u).
Proof.
  intros Hr s. unfold insert_user, gets, mbind, ST_bind; cbn. destruct (negb (user_fits u)); cbn; [reflexivity|]. destruct (first_violation _) eqn:Hg; cbn; [reflexivity|]. guards_passed Hp.
  apply Forall_inv, eq_sym, check_None, bool_decide_eq_true in Hp. split; cbn; [done| |].
  - intros k v [[<- <-]|[_ Hk]]%lookup_insert_Some; [by rewrite Hp, Hr|by rewrite Hk].
  - intros k Hk. rewrite lookup_insert. case_decide; eauto.
Qed.
Lemma standing_rewrite d k u u' : d_users d !! k = Some u → u_role u' = u_role u → standing_kept d (d <| d_users ::= <[k := u']> |>).
Proof.
  intros Hu Hr. split; cbn; [done| |].
  - intros j v [[<- <-]|[_ Hk]]%lookup_insert_Some; [by rewrite Hu, Hr|by rewrite Hk].
  - intros j Hk. rewrite lookup_insert. case_decide; eauto.
Qed.
Lemma standing_update_user k f : (∀ u, u_role (f u) = u_role u) → guar standing_step (update_user_row k f).
Proof.
  intros Hf s. unfold update_user_row, gets, of_option, mbind, ST_bind; cbn. destruct (d_users (st_db s) !! k) as [u|] eqn:Hu; cbn; [|reflexivity].
  destruct (negb (user_fits _)); cbn; [reflexivity|]. destruct (users_unique _ _); cbn; [reflexivity|]. by apply (standing_rewrite (st_db s) k u (f u)).
Qed.

Create HintDb standing discriminated.
Hint Extern 1 (guar standing_step (insert_user _)) => (apply standing_insert_user; reflexivity) : standing.
Hint Extern 1 (guar standing_step (update_user_row _ _)) => (apply standing_update_user; intros []; cbn; repeat case_match; reflexivity) : standing.
Lemma standing_mail to m : guar standing_step (send_mail to m).
Proof. intros s. rewrite send_keeps. apply standing_step_refl. Qed.
Hint Resolve standing_mail : standing.
Hint Extern 1 (guar (keeps st_committed) (send_mail _ _)) => (apply uncommitted_mail; assumption) : uncommitted.
Ltac standing_leaf :=
  first [ apply guar_ret; apply _ | apply guar_raise; apply _ | apply guar_gets; apply _ | apply guar_raise_if; apply _
        | apply guar_of_option; apply _ | apply guar_of_sum; apply _ | assumption
        | solve [eauto 1 with standing nocore]
        | intros ?; apply standing_same; reflexivity ].

(** What a method is worth as the body of a request that presents [cred]. *)
Definition standing_or (cred : option string) {A} (m : M A) : Prop := ∀ s, people_rest s →
  let d' := match m s with (inr _, s') => st_db s' | (inl _, s') => st_committed s' end in
  standing_kept (st_db s) d' ∨ ∃ c, cred = Some c ∧ may s c ROLES_MANAGE.
Lemma standing_guar cred {A} (m : M A) : guar standing_step m → guar (keeps st_committed) m → standing_or cred m.
Proof.
  intros Hm Hc s Hrest. left. specialize (Hm s). specialize (Hc s). unfold keeps in Hc. destruct (m s) as [[e|a] s']; [|exact Hm]. cbn in *.
  rewrite Hc. by apply standing_same.
Qed.
Lemma standing_returns cred {A} (m : M A) :
  (∀ s a s', m s = (inr a, s') → standing_kept (st_db s) (st_db s') ∨ ∃ c, cred = Some c ∧ may s c ROLES_MANAGE) →
  guar (keeps st_committed) m → standing_or cred m.
Proof.
  intros Hm Hc s Hrest. specialize (Hc s). unfold keeps in Hc. cbv zeta. destruct (m s) as [[e|a] s'] eqn:Hrun; [|by eapply Hm].
  left. cbn in Hc. rewrite Hc. by apply standing_same.
Qed.
(** Behind [require_permission]. *)
Lemma standing_gated cred {A} (k : User → M A) :
  guar (keeps st_committed) (u ← require_permission ROLES_MANAGE cred; k u) →
  standing_or (Some cred) (u ← require_permission ROLES_MANAGE cred; k u).
Proof.
  apply standing_returns. intros s a s' Hrun. right. exists cred. split; [done|].
  apply bind_inr in Hrun as (u & ? & Hreq & _). by apply require_permission_inr in Hreq as [_ ?].
Qed.
Lemma standing_refresh cred tok : standing_or cred (refresh tok).
Proof.
  intros s Hrest. left. pose proof (same_people_refresh tok s) as [Q1 Q2]. destruct (refresh tok s) as [[e|p] s']; cbn in *; apply standing_same.
  - destruct Q2; congruence.
  - done.
Qed.
Lemma standing_update uid p cred : standing_or (Some cred) (update_user_endpoint uid p cred).
Proof.
  apply standing_returns; [|uncommitted]. intros s a s' Hrun. unfold update_user_endpoint in Hrun.
  apply bind_inr in Hrun as (cur & ? & Hcur & Hrun). apply current_user_inr in Hcur as [-> (c & Hc & Ht & Hu & Ha)].
  apply bind_inr in Hrun as (? & ? & Hreq & Hrun). pose proof Hreq as Hx. read_only Hx. clear Hx.
  apply bind_inr in Hrun as (previous & ? & Hprev & Hrun). pose proof Hprev as Hx. read_only Hx. clear Hx.
  apply bind_inr in Hrun as (u1 & s1 & Hup & Hrun). apply update_user_inr in Hup as (u0 & Hu0 & Hsame & Hnew & -> & _ & Hadm).
  destruct (uu_role p) as [r|].
  - right. exists cred. split; [done|]. assert (Q1 : u_role cur = ADMIN) by by apply Hadm.
    rewrite (bool_decide_eq_true_2 _ Q1) in Hreq.
    apply bind_inr in Hreq as (? & ? & Hx & Hreq). read_only Hx. cbn in Hreq. apply require_inr in Hreq as [_ [Hact Hp]]. by exists c, cur.
  - left. assert (s' = set_db (λ d, d <| d_users ::= <[uid := u1]> |>) s) as ->.
    { destruct previous; by apply ret_inr in Hrun as [_ ->]. }
    by apply (standing_rewrite (st_db s) uid u0 u1).
Qed.

Lemma standing_get_db cred {A} (m : M A) s : standing_or cred m → people_rest s →
  standing_kept (st_db s) (st_db (get_db m s).2) ∨ ∃ c, cred = Some c ∧ may s c ROLES_MANAGE.
Proof. intros Hm Hrest. specialize (Hm s Hrest). unfold get_db. cbv zeta in Hm. by destruct (m s) as [[e|a] s']. Qed.
Lemma standing_http cred {A} (m : M A) s : standing_or cred m → people_rest s →
  standing_kept (st_db s) (st_db (http m s).2) ∨ ∃ c, cred = Some c ∧ may s c ROLES_MANAGE.
Proof.
  intros Hm. apply standing_get_db. intros s0 Hrest. specialize (Hm s0 Hrest). unfold mbind, ST_bind. cbv zeta in *.
  by destruct (m s0) as [[e|a] s'].
Qed.
Lemma standing_job cred {A} (m : M A) s :
  standing_kept (st_db s) (st_db (m s).2) ∨ (∃ c, cred = Some c ∧ may s c ROLES_MANAGE) →
  standing_kept (st_db s) (st_db (job m s).2) ∨ ∃ c, cred = Some c ∧ may s c ROLES_MANAGE.
Proof. unfold job, mbind, ST_bind. by destruct (m s) as [[e|a] s']. Qed.
Lemma standing_send_email_change p s : people_rest s →
  standing_kept (st_db s) (st_db (send_email_change p s).2) ∨ ∃ c, None = Some c ∧ may s c ROLES_MANAGE.
Proof.
  intros Hrest. unfold send_email_change, payload_text. destruct (j_get "new_email" p) as [[]|]; try (left; by apply standing_same).
  apply standing_get_db; [|done]. apply standing_guar; [walk standing_leaf|uncommitted].
Qed.

(** *** GraphQL *)

Lemma guar_checked {A} (R : relation St) `{!Reflexive R, !Transitive R} (b : bool) e (k : M A) :
  (b = false → guar R k) → guar R (_ ← raise_if b e; k).
Proof. intros Hk s. destruct b; [reflexivity|]. exact (Hk eq_refl s). Qed.
(** What a field does for a customer. *)
Lemma standing_update_user_field uid cur n e r : u_role cur ≠ ADMIN → guar standing_step (update_user uid cur n e r).
Proof.
  intros Hr. unfold update_user, get_user_by_id, _assert_not_last_admin, lock_active_admins. cbv zeta. rewrite (bool_decide_eq_false_2 _ Hr).
  apply guar_checked; [apply _..|]. intros _. apply guar_checked; [apply _..|]. cbn [negb]. rewrite andb_true_r.
  intros Hn%negb_false_iff. destruct r; [done|]. walk standing_leaf.
Qed.
Lemma standing_field cur f : u_role cur ≠ ADMIN → guar standing_step (resolve_field cur f).
Proof.
  intros Hr. destruct f as [| | |i|]; cbn [resolve_field].
  4: apply guar_bind; [apply _|by apply standing_update_user_field|intros; apply guar_ret, _].
  all: walk standing_leaf.
Qed.
(** The session's user stays a customer from field to field. *)
Definition stays_customer (cur : User) (s : St) : Prop := u_role (default cur (d_users (st_db s) !! u_id cur)) = USER.
Lemma standing_execute cur fields : u_role cur = USER → ∀ answers s r s',
  stays_customer cur s →
  fold_m (λ answers field, user ← session_user cur; answer ← answer_of (resolve_field user field); mret (answers ++ [answer])) answers fields s = (r, s') →
  standing_kept (st_db s) (st_db s').
Proof.
  intros Hu. induction fields as [|f fields IH]; intros answers s r s' Hcur Hrun; cbn [fold_m] in Hrun.
  - injection Hrun as _ <-. by apply standing_same.
  - set (user := default cur (d_users (st_db s) !! u_id cur)) in *. pose proof (guar_answer_of standing_step (resolve_field user f)) as Hone.
    assert (u_role user ≠ ADMIN) as Hna by (unfold stays_customer in Hcur; fold user in Hcur; by rewrite Hcur).
    specialize (Hone (standing_field user f Hna) s). unfold mbind, ST_bind in Hrun. cbn in Hrun. fold user in Hrun.
    destruct (answer_of (resolve_field user f) s) as [[e|a] s1]; cbn in *; [by injection Hrun as _ <-|].
    change (standing_step s s'). etrans; [exact Hone|]. eapply IH; [|exact Hrun]. unfold stays_customer. destruct (d_users (st_db s1) !! u_id cur) as [v|] eqn:Hv; [|done].
    cbn. rewrite (sk_role _ _ Hone _ _ Hv). unfold stays_customer in Hcur. by destruct (d_users (st_db s) !! u_id cur).
Qed.

(** The credentials are an access token of an active administrator, whatever their role. *)
Definition administers (s : St) (cred : string) : Prop :=
  ∃ c u, jwt_decode (st_now s) cred = Some c ∧ cl_type c = ACCESS ∧ d_users (st_db s) !! cl_sub c = Some u ∧ is_active_admin u = true.
Lemma standing_graphql a fields s : (∀ k u, d_users (st_db s) !! k = Some u → u_id u = k) → people_rest s →
  standing_kept (st_db s) (st_db (http (graphql_endpoint a fields) s).2) ∨
  ∃ cred, graphql_enabled = true ∧ get_bearer_credentials a = Some cred ∧ administers s cred ∧
    staff_of (st_db (http (graphql_endpoint a fields) s).2) = staff_of (st_db s).
Proof.
  intros Hkey Hrest. assert (guar (keeps st_committed) (graphql_endpoint a fields)) as Hc by uncommitted.
  assert (guar (keeps (λ s, staff_of (st_db s))) (graphql_endpoint a fields)) as Hst by uncommitted.
  specialize (Hc s). specialize (Hst s). unfold keeps in Hc, Hst. unfold http, get_db, mbind, ST_bind.
  destruct (graphql_endpoint a fields s) as [[e|r] s'] eqn:Hrun; cbn in *.
  { left. rewrite Hc. by apply standing_same. }
  unfold graphql_endpoint, get_graphql_context in Hrun. apply bind_inr in Hrun as (? & ? & Hon & Hrun).
  apply raise_if_inr in Hon as [Hon%negb_false_iff ->]. apply bind_inr in Hrun as (cur & s1 & Hctx & Hrun).
  apply bind_inr in Hctx as (cred & ? & Hb & Hctx). apply of_option_inr in Hb as [Hb ->].
  apply current_user_inr in Hctx as [-> (c & Hd & Ht & Hu & Ha)]. destruct (decide (u_role cur = ADMIN)) as [Hadm|Hcust].
  - right. exists cred. split_and!; [done..| |done]. exists c, cur. split_and!; [done..|]. unfold is_active_admin. by rewrite Hadm, Ha.
  - left. assert (u_role cur = USER) as Hrole by (by destruct (u_role cur)).
    eapply standing_execute; [exact Hrole| |exact Hrun]. unfold stays_customer. by rewrite (Hkey _ _ Hu), Hu.
Qed.

(** The credentials a request about users or roles presents. *)
Definition credentials_of (r : AccountRequest) : option string :=
  match r with
  | UpdateUser _ _ c | DeactivateUser _ c | ListRoles c | CreateRole c _ _ _ | UpdateRole c _ _ _ _ | DeleteRole c _ | AssignRole c _ _ => Some c
  | _ => None
  end.
Lemma standing_served r s :
  (∀ a l, r ≠ Graphql a l) → people_rest s →
  standing_kept (st_db s) (st_db (serve_account r s).2) ∨ ∃ c, credentials_of r = Some c ∧ may s c ROLES_MANAGE.
Proof.
  intros Hng Hrest. destruct r; try (by destruct (Hng _ _ eq_refl)); clear Hng; cbn [serve_account credentials_of];
    try (apply standing_http; [|done];
         first [ apply standing_refresh | apply standing_update
               | apply standing_gated; solve [uncommitted]
               | apply standing_guar; [solve [walk standing_leaf]|solve [uncommitted]] ]);
    apply standing_job.
  - apply standing_get_db; [|done]. apply standing_guar; [walk standing_leaf|uncommitted].
  - apply standing_get_db; [|done]. apply standing_guar; [walk standing_leaf|uncommitted].
  - by apply standing_send_email_change.
  - left. assert (guar eq (send_account_notice payload)) as Hn by apply notice_reads. specialize (Hn s). rewrite <-Hn.
    by apply standing_same.
Qed.
(** GraphQL, switched on, for an active administrator. *)
Definition by_graphql (r : AccountRequest) (s : St) : Prop :=
  match r with
  | Graphql a _ => graphql_enabled = true ∧ ∃ cred, get_bearer_credentials a = Some cred ∧ administers s cred
  | _ => False
  end.

(** C28. Who changes anyone's standing: whatever account request is served, roles, their permissions, who holds them and the
    role of every account stay as they were, and new accounts are customers, unless the request presents credentials that pass
    the check for managing roles, or it reaches GraphQL, while that is switched on, as any active administrator. Through
    GraphQL roles, their permissions and who holds them stay as they were all the same; what an administrator without the
    permission can change is the role of accounts ([Findings.promoted_without_permission]). *)
Theorem who_changes_standing r s :
  people_rest s → (∀ k u, d_users (st_db s) !! k = Some u → u_id u = k) →
  standing_kept (st_db s) (st_db (serve_account r s).2) ∨
  (∃ c, credentials_of r = Some c ∧ may s c ROLES_MANAGE) ∨
  (by_graphql r s ∧ staff_of (st_db (serve_account r s).2) = staff_of (st_db s)).
Proof.
  intros Hrest Hkey. assert ((∀ a l, r ≠ Graphql a l) ∨ ∃ a l, r = Graphql a l) as [Hng|(a & l & ->)] by (destruct r; eauto; by left).
  - destruct (standing_served r s Hng Hrest); auto.
  - destruct (standing_graphql a l s Hkey Hrest) as [?|(cred & ? & ? & ? & ?)]; [by left|]. right; right. split; [|done]. split; eauto.
Qed.
End access.

(** ** Permissions stored and read back *)

Definition includes (q p : Permission) : Prop := p ∈ IMPLIES q.
Lemma included_includes_nothing a b : includes a b → IMPLIES b = [].
Proof. unfold includes. destruct a; cbn; rewrite ?list_elem_of_In; cbn; intuition (subst; reflexivity). Qed.
Lemma includes_rtc q p : rtc includes q p ↔ p = q ∨ p ∈ IMPLIES q.
Proof.
  split.
  - intros Hr. destruct Hr as [x|x y z Hxy Hyz]; [by left|]. right.
    destruct Hyz as [|y w z Hyw _]; [done|]. unfold includes in Hyw. rewrite (included_includes_nothing _ _ Hxy) in Hyw. inversion Hyw.
  - intros [->|Hp]; [reflexivity|]. by apply rtc_once.
Qed.
(** A role stored with a set of permissions grants, when it is read back to judge a request, exactly those permissions and
    everything they include, directly or through others: neither the sorted texts of the table nor the single pass that
    adds what is included loses or adds any. *)
Theorem stored_role_grants_closure rid name descr ps sys p :
  rid ≠ OWNER_ROLE_ID →
  p ∈ role_permissions (Some (MkStaffRole rid name descr (_sorted ps) sys)) ↔ ∃ q, q ∈ ps ∧ rtc includes q p.
Proof.
  intros Hrid. unfold role_permissions. cbn [sr_id sr_permissions]. rewrite (proj2 (String.eqb_neq _ _) Hrid), effective_sorted, effective_elem.
  setoid_rewrite includes_rtc. split.
  - intros [Hp|(q & Hq & Hp)]; eauto.
  - intros (q & Hq & [->|Hp]); eauto.
Qed.
Lemma stored_role_grants_closure_witness :
  ORDERS_READ ∈ role_permissions (Some (MkStaffRole "uuid-9" "Support" None (_sorted [REFUNDS_ISSUE; RETURNS_MANAGE]) false)) ↔
  ∃ q, q ∈ [REFUNDS_ISSUE; RETURNS_MANAGE] ∧ rtc includes q ORDERS_READ.
Proof. refine (stored_role_grants_closure "uuid-9" "Support" None [REFUNDS_ISSUE; RETURNS_MANAGE] false ORDERS_READ _). by vm_compute. Defined.

(** ** Witnesses: the only administrator promotes Alice and tries to leave *)

Definition root_in : (Err + TokenPair) * St := get_db (login_endpoint "root@example.com" "oak" None) opened.
Definition root_key : string := tp_access_token (pair_of root_in.1).
Definition promoted : (Err + User) * St :=
  get_db (update_user_endpoint "alice" (MkUserUpdate None None (Some ADMIN)) root_key) root_in.2.
(** Root deactivates himself: refused, as Alice may not manage roles yet. *)
Definition stays : (Err + unit) * St := get_db (deactivate_user_endpoint "root" root_key) promoted.2.
Example last_manager_refused : stays.1 = inl (EAccount LastRoleManagerError).
Proof. vm_compute. reflexivity. Qed.

Lemma opened_staff : staff_ok people_db.
Proof.
  split; cbn.
  - exact (ok_users _ (quiet_ok _ opened_quiet)).
  - intros k r Hk. by rewrite lookup_empty in Hk.
  - intros k r Hk. by rewrite lookup_empty in Hk.
  - intros r Hk. by rewrite lookup_empty in Hk.
  - exists "root". eexists. split; [reflexivity|]. split; [reflexivity|]. vm_compute. repeat constructor.
Qed.
Lemma root_in_staff : staff_ok (st_db root_in.2) ∧ people_rest root_in.2.
Proof. split; [|done]. refine (staff_same people_db _ _ opened_staff). vm_compute. reflexivity. Qed.

Lemma role_manager_remains_witness :
  let last := (serve_account (DeactivateUser "root" root_key) (serve_account (UpdateUser "alice" (MkUserUpdate None None (Some ADMIN)) root_key) root_in.2).2).2 in
  ∃ uid u, d_users (st_db last) !! uid = Some u ∧ is_active_admin u = true ∧ ROLES_MANAGE ∈ role_permissions (role_of (st_db last) uid).
Proof.
  refine (role_manager_remains root_in.2 _ _ (proj1 root_in_staff) (proj2 root_in_staff)).
  eapply rtc_l; [exact (rest_request (UpdateUser "alice" (MkUserUpdate None None (Some ADMIN)) root_key) _ I)|].
  eapply rtc_l; [exact (rest_request (DeactivateUser "root" root_key) _ I)|]. reflexivity.
Defined.

Lemma promotion_grants_nothing_witness :
  u_role (match promoted.1 with inr u => u | inl _ => MkUser "" "" "" "" USER false None 0 end) = ADMIN ∧
  ∀ perm, require (match promoted.1 with inr u => u | inl _ => MkUser "" "" "" "" USER false None 0 end) perm
            (update_user_endpoint "alice" (MkUserUpdate None None (Some ADMIN)) root_key root_in.2).2 =
          (inl (EAccount (PermissionDeniedError (perm_value perm))),
           (update_user_endpoint "alice" (MkUserUpdate None None (Some ADMIN)) root_key root_in.2).2).
Proof.
  refine (promotion_grants_nothing "alice" (MkUserUpdate None None (Some ADMIN)) root_key root_in.2 _
    (MkUser "alice" "alice" "alice@example.com" "hash:rose" USER true None 0) _ (proj1 root_in_staff) _ _ _ _); vm_compute; reflexivity.
Defined.

Lemma who_changes_standing_witness :
  standing_kept (st_db root_in.2) (st_db (serve_account (CreateRole "forged" "Clerk" None [ROLES_MANAGE]) root_in.2).2) ∨
  (∃ c, Some "forged" = Some c ∧ may root_in.2 c ROLES_MANAGE) ∨
  (False ∧ staff_of (st_db (serve_account (CreateRole "forged" "Clerk" None [ROLES_MANAGE]) root_in.2).2) = staff_of (st_db root_in.2)).
Proof.
  refine (who_changes_standing (CreateRole "forged" "Clerk" None [ROLES_MANAGE]) root_in.2 (proj2 root_in_staff) _).
  exact (so_users _ (proj1 root_in_staff)).
Defined.
