(* ===== verification/CatalogueSpec.v ===== *)
(** * What the catalogue promises

    Properties of the whole store about its catalogue, of [Products] and [Categories]: the tables stay well-formed, the price
    range a product is listed by is the one it is shown with, slugs are found, customers see what is on sale and no more. *)

From S2P Require Import Prelude Errors Schema Guards CatalogueGuards CatalogueOk Evolution CatalogueEvolution Repositories Frames Runs.
From S2P Require Import Lifecycle Payments Checkout Tax Accounts Roles Slugs Images Categories Products Variants TaxAdmin Gateways Demo System.

Local Open Scope string_scope.
Local Open Scope list_scope.
Local Open Scope Z_scope.

(** ** The rows of a query *)

Lemma order_by_elem {A} (key : A → Z) l x : x ∈ order_by key l ↔ x ∈ l.
Proof. unfold order_by. by rewrite (merge_sort_Permutation (le_on key) l). Qed.
Lemma variants_of_elem d pid v :
  v ∈ variants_of d pid ↔ pv_product_id v = pid ∧ ∃ k, d_variants d !! k = Some v.
Proof. unfold variants_of. by rewrite order_by_elem, rows_where_elem, Z.eqb_eq. Qed.
Lemma options_of_elem d pid o :
  o ∈ options_of d pid ↔ po_product_id o = pid ∧ ∃ k, d_options d !! k = Some o.
Proof. unfold options_of. by rewrite order_by_elem, rows_where_elem, Z.eqb_eq. Qed.

(** The least and the greatest of lists with the same elements. *)
Lemma bounds_same x l y k :
  (∀ z, z ∈ x :: l ↔ z ∈ y :: k) → foldr Z.min x l = foldr Z.min y k ∧ foldr Z.max x l = foldr Z.max y k.
Proof.
  intros Heq. destruct (min_elem x l) as [Hm1 Hm2], (min_elem y k) as [Hm3 Hm4], (max_elem x l) as [Hx1 Hx2], (max_elem y k) as [Hx3 Hx4].
  split; apply Z.le_antisymm; [apply Hm2|apply Hm4|apply Hx4|apply Hx2]; by apply Heq.
Qed.

Section catalogue.
Context `{!Settings} `{!Crypto} `{!Providers} `{!Store} `{!AccountSettings} `{!Passwords} `{!Jwt} `{!Mailer} `{!CatalogueSettings} `{!Storage} `{!TaxAdminSettings} `{!Secrets}.
Context `{!ProvidersOk} `{!MailerOk} `{!StorageOk}.

Lemma reachable_catalogue rs s : sound s → catalogue_ok (catalogue_of (st_committed (run rs s))).
Proof. intros Hs. apply inv_catalogue. by destruct (run_sound rs s Hs) as [(_ & HI & _) _]. Qed.

(** C8. Whatever is requested and in whatever order, the catalogue is well-formed: prices are positive, a product with options
    holds no stock of its own, no two SKUs of products and variants and no two slugs are the same, every variant fills as many
    slots as its product declares options (its [option_count]), each with a value of the product's option in that position, no
    two of them alike, and the price-range columns are current. *)
Theorem catalogue_well_formed rs s : sound s → catalogue_ok (catalogue_of (st_committed (run rs s))).
Proof. apply reachable_catalogue. Qed.

(** ** Prices *)

Lemma view_range d k p o admin :
  product_ok (catalogue_of d) k p →
  let v := view_fields p (variants_of d k) o admin in (vw_price_from_cents v, vw_price_to_cents v) = (p_price_from p, p_price_to p).
Proof.
  intros [_ _ _ _ Hr _]. cbv zeta. rewrite Hr. unfold view_fields, product_price_range. cbn [catalogue_of c_variants].
  destruct (p_option_count p =? 0); [done|].
  assert (Hsame : ∀ x, x ∈ map (λ v, effective_price v (p_price_cents p)) (List.filter pv_active (variants_of d k)) ↔
                       x ∈ active_prices (d_variants d) k (p_price_cents p)).
  { intros x. rewrite active_prices_elem, list_elem_of_fmap. setoid_rewrite list_elem_of_In. setoid_rewrite filter_In.
    setoid_rewrite <-list_elem_of_In. setoid_rewrite variants_of_elem. unfold effective_price. split.
    - intros (v & -> & (Hp & j & Hj) & Ha). exists j, v. split_and!; [done..|]. by destruct (pv_price_override_cents v).
    - intros (j & v & Hj & Hp & Ha & ->). exists v. split_and!; [by destruct (pv_price_override_cents v)|done|eauto|done]. }
  destruct (map (λ v, effective_price v _) _) as [|x l], (active_prices _ _ _) as [|y r]; cbn; [done|..].
  - assert (y ∈ []) as Hn%elem_of_nil by (apply Hsame; left). done.
  - assert (x ∈ []) as Hn%elem_of_nil by (apply Hsame; left). done.
  - by destruct (bounds_same x l y r Hsame) as [-> ->].
Qed.

(** Prices are positive, and the range is one. *)
Lemma range_bounds c pid base n :
  catalogue_ok c → 0 < base → let r := product_price_range (c_variants c) pid base n in 0 < r.1 ≤ r.2.
Proof.
  intros Hok Hbase. cbv zeta. unfold product_price_range. destruct (n =? 0); [cbn; lia|].
  assert (Hpos : ∀ x, x ∈ active_prices (c_variants c) pid base → 0 < x).
  { intros x (k & v & Hk & _ & _ & ->)%active_prices_elem. destruct (pv_price_override_cents v) as [y|] eqn:Hy; [|done].
    by eapply (vo_price _ _ _ (ct_variants _ Hok _ _ Hk)). }
  destruct (active_prices _ _ _) as [|x l]; [cbn; lia|]. destruct (min_elem x l) as [Hm1 Hm2], (max_elem x l) as [Hx1 Hx2]. cbn.
  split; [by apply Hpos|]. by apply Hm2.
Qed.

(** The price range a product is sorted by, which triggers keep in two columns, is the range it is shown with: after any
    sequence of requests, for customers and staff alike, the least and the greatest price of its active variants, or its own
    price. *)
Theorem listed_price_is_shown rs s k p o admin :
  sound s → d_products (st_committed (run rs s)) !! k = Some p →
  let v := view_fields p (variants_of (st_committed (run rs s)) k) o admin in
  (vw_price_from_cents v, vw_price_to_cents v) = (p_price_from p, p_price_to p) ∧ 0 < vw_price_from_cents v ≤ vw_price_to_cents v.
Proof.
  intros Hs Hp. pose proof (reachable_catalogue rs s Hs) as Hok. pose proof (ct_products _ Hok _ _ Hp) as Hprod.
  pose proof (view_range _ _ _ o admin Hprod) as Hv. cbv zeta in *. split; [done|].
  pose proof (range_bounds _ k (p_price_cents p) (p_option_count p) Hok (po_price _ _ _ Hprod)) as Hb. cbv zeta in Hb.
  rewrite <-(po_range _ _ _ Hprod), <-Hv in Hb. exact Hb.
Qed.

(** ** What customers see *)

Lemma optional_user_reads c : guar eq (get_optional_current_user c).
Proof.
  destruct c as [c|]; cbn; [|reads]. apply guar_try; [apply _|reads|]. intros e k Hk. repeat case_match; simplify_eq. reads.
Qed.
Lemma show_inr p a b s r s' :
  show p a b s = (inr r, s') →
  s' = s ∧ pr_product r = p ∧
  pr_view r = view_fields p (variants_of (st_db s) (p_id p)) (if b then Some (options_of (st_db s) (p_id p)) else None) a ∧
  (a = false → pr_unit r = None ∧ pr_tax_classification r = None ∧ pr_tax_state r = None).
Proof.
  unfold show. intros Hrun. runs. match goal with H : _to_product_read _ _ _ _ = Some _ |- _ => rename H into Hr end.
  unfold _to_product_read in Hr. apply bind_Some in Hr as (cat & _ & [= <-]). cbn. by split_and!; [..|intros ->].
Qed.

(** C11. A caller who may not read the catalogue, signed in or not, gets a product only while it is on sale, and of it no tax
    data, no price but the one charged, no stock figure unless the shop publishes them, and only the variants on sale. *)
Theorem customers_see_what_is_sold cred pid s r s' :
  (∀ u, get_optional_current_user cred s = (inr u, s) → _is_admin u s = (inr false, s)) →
  get_product_endpoint cred pid s = (inr r, s') →
  let p := pr_product r in let v := pr_view r in
  s' = s ∧ d_products (st_db s) !! pid = Some p ∧ p_status p = ACTIVE ∧
  pr_unit r = None ∧ pr_tax_classification r = None ∧ pr_tax_state r = None ∧ vw_base_price_cents v = None ∧
  (public_stock_visibility ≠ "exact" → vw_stock v = None) ∧
  ∀ l x, vw_variants v = Some l → x ∈ l →
    ∃ k w, d_variants (st_db s) !! k = Some w ∧ pv_product_id w = p_id p ∧ pv_active w = true ∧ vr_id x = pv_id w ∧
      vr_price_cents x = effective_price w (p_price_cents p) ∧ vr_status x = None ∧
      (public_stock_visibility ≠ "exact" → vr_stock x = None).
Proof.
  intros Hadmin Hrun. unfold get_product_endpoint in Hrun. apply bind_inr in Hrun as (u & s1 & Hu & Hrun).
  pose proof (reads_run _ _ _ _ (optional_user_reads cred) Hu) as ->. apply bind_inr in Hrun as (ad & s2 & Had & Hrun). specialize (Hadmin _ Hu).
  rewrite Hadmin in Had. injection Had as <- <-. unfold get_product, get_product_by_id in Hrun. runs.
  match goal with H : show _ _ _ _ = _ |- _ => apply show_inr in H as (-> & -> & Hv & Hpub) end.
  destruct (Hpub eq_refl) as (-> & -> & ->). cbv zeta. rewrite Hv. clear Hv Hpub.
  match goal with H : d_products _ !! pid = Some _ |- _ => rename H into Hp end.
  match goal with H : negb (bool_decide _) && _ = false |- _ => rename H into Hst end.
  rewrite andb_true_r in Hst. apply negb_false_iff, bool_decide_eq_true in Hst. split_and!; try done; unfold view_fields; cbn.
  - by destruct (p_option_count _ =? 0); [|destruct (map _ _)].
  - intros Hne%String.eqb_neq. rewrite Hne. by destruct (p_option_count _ =? 0); [|destruct (map _ _)].
  - intros l x. destruct (p_option_count _ =? 0); [done|]. destruct (match map _ _ with [] => _ | _ => _ end) as [f os]. cbn.
    intros [= <-] (w & -> & Hw)%list_elem_of_fmap. apply list_elem_of_In, filter_In in Hw as [Hw Ha].
    apply list_elem_of_In, variants_of_elem in Hw as (Hpid & k & Hk). exists k, w. split_and!; try done. cbn.
    intros Hne%String.eqb_neq. by rewrite Hne.
Qed.

(** ** Slugs and images *)

(** The search for a free slug always ends, whatever slugs are taken and whatever the name: after at most as many rounds as
    there are rows it finds one, the first of [name], [name-2], [name-3], ... that is free; nothing is written. *)
Theorem slug_search_ends taken name s :
  ∃ n, _unique_slug_for taken name s = (inr (slug_candidate (slugify name) n), s) ∧ (n ≤ length (taken (st_db s)))%nat ∧
    slug_candidate (slugify name) n ∉ taken (st_db s) ∧ ∀ j, (j < n)%nat → slug_candidate (slugify name) j ∈ taken (st_db s).
Proof.
  destruct (unique_slug_first (taken (st_db s)) name) as (n & Hn & Hle & Hfree & Htaken). exists n. split_and!; [|done..].
  unfold _unique_slug_for, db_gets, gets, mbind, ST_bind. by rewrite Hn.
Qed.

(** An uploaded image is accepted exactly when it is within the size limit, its first bytes are those of a JPEG, PNG or WebP
    file, and both the type it was declared with and the extension of its name are of that very kind. *)
Theorem image_accepted image :
  validate_image image = inr tt ↔
  (∀ n, uf_size image = Some n → n ≤ max_image_bytes) ∧
  ∃ kind extension, sniff_image_type (_read_header image) = Some kind ∧ uf_content_type image = Some kind ∧
    get_image_extension (uf_filename image) = inr extension ∧ _EXTENSION_FOR_TYPE kind = Some extension.
Proof.
  unfold validate_image, invalid. destruct (match uf_size image with Some n => max_image_bytes <? n | None => false end) eqn:Hsize.
  { split; [done|]. intros [Hle _]. destruct (uf_size image) as [n|]; [|done]. apply Z.ltb_lt in Hsize. specialize (Hle n eq_refl). lia. }
  assert (∀ n, uf_size image = Some n → n ≤ max_image_bytes) as Hle.
  { intros n Hn. rewrite Hn in Hsize. by apply Z.ltb_ge in Hsize. }
  destruct (sniff_image_type (_read_header image)) as [kind|] eqn:Hsniff.
  2:{ destruct (negb _); (split; [done|]); by intros (_ & ? & ? & ? & _). }
  destruct (sniff_allowed _ _ Hsniff) as [Hallowed _].
  destruct (existsb _ _) eqn:Hdecl; cbn.
  2:{ split; [done|]. intros (_ & k & e & [= <-] & Hct & _). rewrite Hct in Hdecl. apply not_true_iff_false in Hdecl. destruct Hdecl.
      apply existsb_exists. exists kind. rewrite <-list_elem_of_In. split; [done|apply opt_eqb_refl]. }
  destruct (decide (uf_content_type image = Some kind)) as [Hct|Hct].
  2:{ rewrite (opt_eqb_ne _ _ Hct). cbn. split; [done|]. by intros (_ & k & e & [= <-] & ? & _). }
  rewrite Hct, opt_eqb_refl. cbn. destruct (get_image_extension (uf_filename image)) as [e|ext] eqn:Hext.
  { split; [done|]. by intros (_ & k & x & _ & _ & ? & _). }
  destruct (decide (_EXTENSION_FOR_TYPE kind = Some ext)) as [Hk|Hk].
  - rewrite Hk, opt_eqb_refl. cbn. split; [|done]. intros _. split; [done|]. by exists kind, ext.
  - rewrite (opt_eqb_ne _ _ Hk). cbn. split; [done|]. intros (_ & k & x & [= <-] & _ & [= <-] & ?). done.
Qed.
End catalogue.
