(* ===== verification/VariantsSpec.v ===== *)
(** * Options, variants and their stock

    Theorems about the operations of [Variants]: what is created is what was asked for, converting a product moves its stock
    exactly, an adjustment does what it says and is recorded, and the missing combinations are counted exactly. *)

From S2P Require Import Prelude Errors Schema Guards CatalogueGuards CatalogueOk Evolution CatalogueEvolution Repositories Frames Runs StockSpec.
From S2P Require Import Accounts Roles Slugs Images Categories Products Variants CatalogueSpec Demo System.

Local Open Scope string_scope.
Local Open Scope list_scope.
Local Open Scope Z_scope.

(** ** What the statements did *)

Lemma flushed_inr {A} (m : M A) s a s' : flushed m s = (inr a, s') → m s = (inr a, s').
Proof. unfold flushed. intros [?|(e & s1 & k & _ & Hk & Hr)]%try_catch_inr; [done|]. by destruct e; simplify_eq. Qed.

(** What a price summary leaves of a product. *)
Definition sold_as (p : Product) := (p_id p, p_stock p, p_option_count p, p_status p, p_price_cents p).
Definition sold (d : DB) (k : Z) := option_map sold_as (d_products d !! k).
(** The tables a new variant leaves alone. *)
Definition besides (d : DB) := (d_options d, d_cart_items d, d_orders d, d_items d).
Lemma summary_keeps pid d :
  d_variants (variants_price_summary pid d) = d_variants d ∧ d_movements (variants_price_summary pid d) = d_movements d ∧
  besides (variants_price_summary pid d) = besides d ∧ ∀ k, sold (variants_price_summary pid d) k = sold d k.
Proof.
  unfold variants_price_summary. destruct (d_products d !! pid) as [p|] eqn:Hp; [|done].
  destruct (product_price_range _ _ _ _) as [lo hi]. split_and!; try done. intros k. unfold sold; cbn.
  destruct (decide (k = pid)) as [->|]; [by rewrite lookup_insert_eq, Hp|by rewrite lookup_insert_ne].
Qed.
Lemma insert_variant_inr v u s s' :
  insert_variant v s = (inr u, s') →
  d_variants (st_db s) !! pv_id v = None ∧ d_variants (st_db s') = <[pv_id v := v]> (d_variants (st_db s)) ∧
  besides (st_db s') = besides (st_db s) ∧ ∀ k, sold (st_db s') k = sold (st_db s) k.
Proof.
  unfold insert_variant. cbv zeta. intros Hrun. runs. guards_passed Hp.
  apply Forall_inv, eq_sym, check_None, bool_decide_eq_true in Hp. split; [done|]. rewrite db_set.
  match goal with |- context [variants_price_summary ?p ?d] => destruct (summary_keeps p d) as (Hv & _ & Hb & Hs) end.
  rewrite Hv, Hb. split_and!; [done..|]. intros k. by rewrite Hs.
Qed.

(** ** Reading a specification *)

#[local] Arguments py_lower : simpl never.
#[local] Arguments py_upper : simpl never.

(** A value of the specification names the option and the value with that id, ignoring letter case. *)
Definition chooses (values : list (string * string)) (o : ProductOption) (i : Z) : Prop :=
  ∃ name text label, (name, text) ∈ values ∧ py_lower name = py_lower (po_name o) ∧ (i, label) ∈ po_values o ∧ py_lower label = py_lower text.

Lemma dict_get_elem {A} key (l : list (string * A)) v : dict_get key l = Some v → (key, v) ∈ l.
Proof.
  unfold dict_get. destruct (List.find _ _) as [[k w]|] eqn:Hf; cbn; [|done]. intros [= ->].
  apply find_some in Hf as [Hin Hk%String.eqb_eq]. cbn in Hk. subst k. by apply list_elem_of_In, in_rev.
Qed.
Lemma dict_get_there {A} key (l : list (string * A)) : key ∈ map fst l → is_Some (dict_get key l).
Proof.
  intros ([k v] & -> & Hin)%list_elem_of_fmap. unfold dict_get. destruct (List.find _ _) as [kv|] eqn:Hf; [by eexists|].
  eapply find_none in Hf; [|apply in_rev; rewrite rev_involutive; by apply list_elem_of_In]. cbn in Hf. by rewrite String.eqb_refl in Hf.
Qed.
Lemma choose_chooses label values options ids :
  choose label (map (λ kv, (py_lower kv.1, kv.2)) values) options = inr ids →
  (∀ o, o ∈ options → py_lower (po_name o) ∈ map fst (map (λ kv, (py_lower kv.1, kv.2)) values)) →
  Forall2 (chooses values) options ids.
Proof.
  set (given := map _ values). revert ids. induction options as [|o options IH]; intros ids; cbn [choose].
  - intros [= <-] _. constructor.
  - intros Hch Hin. destruct (dict_get_there (py_lower (po_name o)) given) as [text Htext]; [by apply Hin; left|].
    rewrite Htext in Hch. cbn in Hch. destruct (dict_get (py_lower text) (map _ (po_values o))) as [i|] eqn:Hi; [|done].
    destruct (choose label given options) as [|rest] eqn:Hrest; [done|]. injection Hch as <-. constructor; [|apply IH; [done|set_solver]].
    apply dict_get_elem in Htext, Hi. apply list_elem_of_fmap in Htext as ([name t] & [= Hn ->] & Hname).
    apply list_elem_of_fmap in Hi as ([j label'] & [= Hl ->] & Hj). by exists name, t, label'.
Qed.

(** A round that found nothing wrong. *)
Lemma check_spec_ok options combos skus acc i spec :
  ck_invalid (check_spec options combos skus acc i spec) = [] →
  ck_invalid acc = [] ∧ ∃ ids, Forall2 (chooses (vs_option_values spec)) options ids ∧
    ck_built (check_spec options combos skus acc i spec) = ck_built acc ++ [(spec, pad ids)].
Proof.
  unfold check_spec. cbv zeta. destruct (same_set _ _) eqn:Hset; cbn; [|by intros [_ ?]%app_nil].
  destruct (choose _ _ _) as [problem|ids] eqn:Hch; cbn; [by intros [_ ?]%app_nil|].
  destruct (bool_decide _); cbn; [by intros [_ ?]%app_nil|]. destruct (bool_decide _); cbn; [by intros [_ ?]%app_nil|].
  intros Hinv. assert (ck_invalid acc = []) as Hacc by (by repeat case_match). split; [done|]. exists ids. split.
  - eapply choose_chooses; [done|]. intros o Ho. unfold same_set in Hset. apply andb_true_iff in Hset as [_ Hs].
    rewrite forallb_forall in Hs. eapply bool_decide_eq_true, Hs, in_map_iff. exists o. split; [done|by apply list_elem_of_In].
  - by repeat case_match.
Qed.
Lemma check_specs_ok options combos skus specs : ∀ acc i,
  ck_invalid (check_specs options combos skus acc i specs) = [] →
  ck_invalid acc = [] ∧ ∃ built, ck_built (check_specs options combos skus acc i specs) = ck_built acc ++ built ∧
    Forall2 (λ spec b, b.1 = spec ∧ ∃ ids, Forall2 (chooses (vs_option_values spec)) options ids ∧ b.2 = pad ids) specs built.
Proof.
  induction specs as [|spec specs IH]; intros acc i; cbn [check_specs].
  - intros Hinv. split; [done|]. exists []. by rewrite app_nil_r.
  - intros Hinv. destruct (IH _ _ Hinv) as (Hacc & built & -> & Hb). destruct (check_spec_ok _ _ _ _ _ _ Hacc) as (Hacc' & ids & Hids & ->).
    split; [done|]. exists ((spec, pad ids) :: built). rewrite <-app_assoc. split; [done|]. constructor; [|done]. eauto.
Qed.

(** ** Creating *)

Definition stock_sum (d : DB) (pid : Z) : Z := sum_rows (λ v, if pv_product_id v =? pid then pv_stock v else 0) (d_variants d).

(** What the insertions of a list of variants did. *)
Record inserted (s s' : St) (l : list ProductVariant) : Prop := {
  in_new : Forall (λ v, d_variants (st_db s) !! pv_id v = None ∧ d_variants (st_db s') !! pv_id v = Some v) l;
  in_kept : ∀ k v, d_variants (st_db s) !! k = Some v → d_variants (st_db s') !! k = Some v;
  in_only : ∀ k v, d_variants (st_db s') !! k = Some v → d_variants (st_db s) !! k = Some v ∨ v ∈ l;
  in_stock : ∀ pid, stock_sum (st_db s') pid = stock_sum (st_db s) pid + sumZ (map (λ v, if pv_product_id v =? pid then pv_stock v else 0) l);
  in_besides : besides (st_db s') = besides (st_db s);
  in_sold : ∀ k, sold (st_db s') k = sold (st_db s) k
}.
Lemma inserted_nil s s' : st_db s' = st_db s → inserted s s' [].
Proof. intros Heq. split; rewrite ?Heq; auto. intros pid. cbn. lia. Qed.
Lemma inserted_app s s1 s2 l1 l2 : inserted s s1 l1 → inserted s1 s2 l2 → inserted s s2 (l1 ++ l2).
Proof.
  intros [N1 K1 O1 T1 B1 S1] [N2 K2 O2 T2 B2 S2]. split.
  - apply Forall_app. split.
    + eapply Forall_impl; [exact N1|]. intros v [? ?]. auto.
    + eapply Forall_impl; [exact N2|]. intros v [Hn ?]. split; [|done]. destruct (d_variants (st_db s) !! pv_id v) eqn:Hv; [|done].
      apply K1 in Hv. congruence.
  - auto.
  - intros k v Hv. destruct (O2 _ _ Hv) as [H|H]; [destruct (O1 _ _ H); [by left|]|]; right; set_solver.
  - intros pid. rewrite T2, T1, map_app, sumZ_app. lia.
  - congruence.
  - intros k. by rewrite S2, S1.
Qed.
Lemma insert_variant_inserted v u s s' : insert_variant v s = (inr u, s') → inserted s s' [v].
Proof.
  intros (Hn & Hv & Hb & Hs)%insert_variant_inr. split; rewrite ?Hv; [| | | |done|done].
  - repeat constructor; [done|by rewrite lookup_insert_eq].
  - intros k w Hk. rewrite lookup_insert_ne; [done|congruence].
  - intros k w [[<- <-]|[_ ?]]%lookup_insert_Some; [right; by left|by left].
  - intros pid. unfold stock_sum, sum_rows. rewrite Hv, sum_kv_fresh by done. cbn. lia.
Qed.
Lemma insert_all_inr product built : ∀ created s l s',
  fold_m (λ created b, vid ← new_id; let v := new_variant vid product b in _ ← insert_variant v; mret (created ++ [v])) created built s = (inr l, s') →
  ∃ new, l = created ++ new ∧ inserted s s' new ∧ Forall2 (λ b v, ∃ vid, v = new_variant vid product b) built new.
Proof.
  induction built as [|b built IH]; intros created s l s' Hrun; cbn [fold_m] in Hrun.
  - apply ret_inr in Hrun as [-> ->]. exists []. rewrite app_nil_r. split_and!; [done|by apply inserted_nil|constructor].
  - apply bind_inr in Hrun as (created' & s1 & Hone & Hrun). cbv zeta in Hone. apply bind_inr in Hone as (vid & s2 & Hid & Hone).
    apply new_id_inr in Hid as [-> ->]. apply bind_inr in Hone as (u & s3 & Hins & Hone). apply ret_inr in Hone as [-> ->].
    apply insert_variant_inserted in Hins. destruct (IH _ _ _ _ Hrun) as (new & -> & Hnew & Hb). eexists (_ :: new).
    rewrite <-app_assoc. split_and!; [done| |constructor; [by eexists|done]]. eapply (inserted_app _ _ _ [_]); [|done].
    by split; destruct Hins.
Qed.

(** The variant is the one the specification asked for. *)
Definition as_asked (d : DB) (pid : Z) (spec : VariantSpec) (v : ProductVariant) : Prop :=
  (pv_product_id v, pv_sku v, pv_price_override_cents v, pv_stock v, pv_active v) =
  (pid, vs_sku spec, vs_price_override_cents spec, vs_stock spec, vs_active spec) ∧
  ∃ ids, Forall2 (chooses (vs_option_values spec)) (options_of d pid) ids ∧ combo_ids v = pad ids.
Lemma create_inr product specs s l s' :
  _create_variants product specs s = (inr l, s') →
  inserted s s' l ∧ Forall2 (as_asked (st_db s) (p_id product)) specs l.
Proof.
  unfold _create_variants. cbv zeta. intros Hrun. apply bind_inr in Hrun as (options & s1 & Ho & Hrun). apply db_gets_inr in Ho as [-> ->].
  apply bind_inr in Hrun as (u & s1 & Hc & Hrun). apply raise_if_inr in Hc as [_ ->]. clear u.
  apply bind_inr in Hrun as (existing & s1 & He & Hrun). apply db_gets_inr in He as [-> ->].
  apply bind_inr in Hrun as (d & s1 & Hd & Hrun). apply gets_inr in Hd as [-> ->].
  set (checked := check_specs _ _ _ _ _ _) in Hrun.
  apply bind_inr in Hrun as (u & s1 & Hc & Hrun). apply raise_if_inr in Hc as [Hinv%negb_false_iff%bool_decide_eq_true ->]. clear u.
  apply bind_inr in Hrun as (u & s1 & Hc & Hrun). apply raise_if_inr in Hc as [_ ->]. clear u.
  apply bind_inr in Hrun as (u & s1 & Hc & Hrun). apply raise_if_inr in Hc as [_ ->]. clear u.
  apply flushed_inr, insert_all_inr in Hrun as (new & -> & Hins & Hnew). split; [done|].
  destruct (check_specs_ok _ _ _ _ _ _ Hinv) as (_ & built & Hbuilt & Hspecs). unfold checked in Hnew. rewrite Hbuilt in Hnew. cbn [app ck_built] in *.
  clear -Hspecs Hnew. revert new Hnew. induction Hspecs as [|spec b specs built [<- (ids & Hids & Hb)] _ IH]; intros new Hnew;
    inversion Hnew as [|? v ? ? [vid ->]]; subst; [constructor|]. constructor; [|auto]. unfold new_variant. destruct b as [spec [[v1 v2] v3]].
  cbn in *. split; [done|]. exists ids. by split.
Qed.

Lemma log_inr admin action pid details u s s' :
  _log admin action pid details s = (inr u, s') → ∃ row, s' = set_db (λ d, d <| d_audit ::= λ l, l ++ [row] |>) s.
Proof. unfold _log, audit_log, insert_audit. intros ->%upd_inr. eauto. Qed.
Lemma check_now_inr pid u s s' : _check_now pid s = (inr u, s') → s' = s ∧ deferred_violation pid (st_db s) = None.
Proof. unfold _check_now, at_commit. intros Hrun%flushed_inr. by runs. Qed.
Lemma locked_product_inr pid p s s' : _locked_product pid s = (inr p, s') → s' = s ∧ d_products (st_db s) !! pid = Some p.
Proof. unfold _locked_product, get_product_by_id. intros Hrun. by runs. Qed.

(** C10. Creating variants creates them all, and what was asked for: one variant for each specification, in order, new, with its
    SKU, price, stock and status, made of the values that its texts name (ignoring letter case) in every option of the
    product; every other variant stays as it was, and the rules of an active product hold. *)
Theorem variants_created_as_asked pid specs admin s p s' :
  Inv (st_db s) → create_variants pid specs admin s = (inr p, s') →
  ∃ created, Forall2 (as_asked (st_db s) pid) specs created ∧
    Forall (λ v, d_variants (st_db s) !! pv_id v = None ∧ d_variants (st_db s') !! pv_id v = Some v) created ∧
    (∀ k v, d_variants (st_db s) !! k = Some v → d_variants (st_db s') !! k = Some v) ∧
    (∀ k v, d_variants (st_db s') !! k = Some v → d_variants (st_db s) !! k = Some v ∨ v ∈ created) ∧
    deferred_violation pid (st_db s') = None.
Proof.
  intros HI Hrun. unfold create_variants in Hrun. apply bind_inr in Hrun as (product & s1 & Hp & Hrun).
  apply locked_product_inr in Hp as [-> Hp]. apply bind_inr in Hrun as (created & s1 & Hc & Hrun).
  apply stock_change_inr in Hc as (s2 & s3 & E2 & Hc & E3 & _ & _). apply create_inr in Hc as [Hins Hasked].
  rewrite E2, (inv_product_keys _ HI _ _ Hp) in Hasked. apply bind_inr in Hrun as (u & s4 & Hnow & Hrun).
  apply check_now_inr in Hnow as [-> Hrule]. apply bind_inr in Hrun as (u' & s5 & Hlog & Hrun). apply ret_inr in Hrun as [-> ->].
  apply log_inr in Hlog as (row & ->). destruct Hins as [Hnew Hkept Honly _ _ _]. rewrite E2, <-E3 in Hnew. rewrite E2, <-E3 in Hkept.
  rewrite E2, <-E3 in Honly. exists created. by split_and!.
Qed.

(** ** Converting *)

(** The tables that the option sets of a product do not touch. *)
Definition untouched (s : St) := (d_products (st_db s), d_variants (st_db s), d_cart_items (st_db s), d_orders (st_db s), d_items (st_db s)).

Lemma update_product_row_inr pid f p s s' :
  update_product_row pid f s = (inr p, s') →
  ∃ old, d_products (st_db s) !! pid = Some old ∧ sold_as p = sold_as (f old) ∧ d_products (st_db s') = <[pid := p]> (d_products (st_db s)) ∧
    d_variants (st_db s') = d_variants (st_db s) ∧ besides (st_db s') = besides (st_db s).
Proof.
  unfold update_product_row. cbv zeta. intros Hrun. runs. eexists. split_and!; [done| |done..].
  destruct (_ && _); [done|]. unfold products_price_summary. by destruct (product_price_range _ _ _ _).
Qed.
(** *** The option rows *)

(** The options of the product are [made], in that order, and the others are those of [base]. *)
Record has_options (base : gmap Z ProductOption) (pid : Z) (made : list ProductOption) (d : DB) : Prop := {
  ho_made : ∀ o, o ∈ made → d_options d !! po_id o = Some o ∧ po_product_id o = pid;
  ho_kept : ∀ k o, base !! k = Some o → d_options d !! k = Some o ∧ po_product_id o ≠ pid;
  ho_only : ∀ k o, d_options d !! k = Some o → (o ∈ made ∧ po_id o = k) ∨ base !! k = Some o;
  ho_positions : map po_position made = seqZ 1 (Z.of_nat (length made))
}.
Lemma has_options_nodup base pid made d : has_options base pid made d → NoDup made.
Proof. intros [_ _ _ Hp]. apply (NoDup_fmap_1 po_position). change (fmap po_position made) with (map po_position made). rewrite Hp. apply NoDup_seqZ. Qed.
Lemma has_options_at base pid made d d' : d_options d' = d_options d → has_options base pid made d → has_options base pid made d'.
Proof. intros Heq [Hm Hk Ho Hp]. split; rewrite ?Heq; done. Qed.
Lemma seqZ_sorted n : ∀ a, StronglySorted Z.le (seqZ a (Z.of_nat n)).
Proof.
  induction n as [|n IH]; intros a; [constructor|]. rewrite seqZ_cons by lia.
  replace (Z.pred (Z.of_nat (S n))) with (Z.of_nat n) by lia. constructor; [apply IH|]. apply Forall_forall. intros x ?%elem_of_seqZ. lia.
Qed.
Lemma sorted_by_key {A} (key : A → Z) l : StronglySorted Z.le (map key l) → StronglySorted (le_on key) l.
Proof.
  induction l as [|x l IH]; cbn; [constructor|]. intros [Hs Hx]%StronglySorted_inv. constructor; [auto|].
  rewrite Forall_map in Hx. exact Hx.
Qed.
Lemma NoDup_rows_where {V} (p : V → bool) (m : gmap Z V) :
  (∀ k k' v, m !! k = Some v → m !! k' = Some v → p v = true → k = k') → NoDup (rows_where p m).
Proof.
  intros Hinj. unfold rows_where. assert (∀ kv, kv ∈ map_to_list m → m !! kv.1 = Some kv.2) as Hin by (by intros [k v] ?%elem_of_map_to_list).
  pose proof (NoDup_map_to_list m) as Hnd. induction Hnd as [|[k v] l Hni _ IH]; [constructor|]. cbn.
  assert (NoDup (filter (λ v, Is_true (p v)) (map snd l))) as Hl by (apply IH; set_solver). destruct (p v) eqn:Hp; [|done].
  constructor; [|done]. rewrite list_elem_of_filter. intros [_ ([k' v'] & Hv & Hin')%list_elem_of_fmap]. cbn in Hv. subst v'.
  apply Hni. rewrite (Hinj k k' v); [done| | |done].
  - apply (Hin (k, v)). by left.
  - apply (Hin (k', v)). by right.
Qed.
(** They are the rows that the program reads, in the order it reads them in. *)
Lemma has_options_read base pid made d : has_options base pid made d → options_of d pid = made.
Proof.
  intros Hho. pose proof (has_options_nodup _ _ _ _ Hho) as Hnd. destruct Hho as [Hm Hk Ho Hp].
  assert (∀ k o, d_options d !! k = Some o → po_product_id o = pid → o ∈ made ∧ po_id o = k) as Hown.
  { intros k o Hko Hpid. destruct (Ho _ _ Hko) as [?|Hb]; [done|]. by apply Hk in Hb as [_ ?]. }
  assert (rows_where (λ o, po_product_id o =? pid) (d_options d) ≡ₚ made) as Hperm.
  { apply NoDup_Permutation; [|done|].
    - apply NoDup_rows_where. intros k k' o H1 H2 Hpid%Z.eqb_eq. destruct (Hown _ _ H1 Hpid), (Hown _ _ H2 Hpid). congruence.
    - intros o. rewrite rows_where_elem, Z.eqb_eq. split.
      + intros [Hpid [k Hko]]. by destruct (Hown _ _ Hko Hpid).
      + intros Hin. destruct (Hm _ Hin) as [? ?]. eauto. }
  unfold options_of, order_by. apply (StronglySorted_unique_strong (le_on po_position)).
  - intros x y Hx Hy Hxy Hyx. assert (po_position x = po_position y) as Heq by (unfold le_on in *; lia).
    rewrite (merge_sort_Permutation (le_on po_position)), Hperm in Hx. pose proof (NoDup_seqZ 1 (Z.of_nat (length made))) as Hs. rewrite <-Hp in Hs.
    apply list_elem_of_lookup in Hx as [i Hi], Hy as [j Hj]. assert (i = j) as ->; [|congruence].
    change (map po_position made) with (po_position <$> made) in Hs.
    eapply (NoDup_lookup _ _ _ (po_position x)); [exact Hs|..]; rewrite list_lookup_fmap; [by rewrite Hi|]. rewrite Hj. cbn. by rewrite Heq.
  - assert (Total (le_on po_position)) by (intros a b; unfold le_on; lia). assert (Transitive (le_on po_position)) by (intros a b c; unfold le_on; lia).
    apply (StronglySorted_merge_sort (le_on po_position)).
  - apply sorted_by_key. rewrite Hp. apply seqZ_sorted.
  - by rewrite (merge_sort_Permutation (le_on po_position)).
Qed.
Lemma delete_options_inr pid u s s' :
  delete_options pid s = (inr u, s') → has_options (filter (λ kv, po_product_id kv.2 ≠ pid) (d_options (st_db s))) pid [] (st_db s').
Proof.
  unfold delete_options. cbv zeta. intros Hrun. runs. rewrite db_set. split; cbn; [set_solver| | |done].
  - intros k o Hk. split; [done|]. by apply map_lookup_filter_Some in Hk as [_ ?].
  - intros k o Hk. by right.
Qed.
Lemma insert_option_has base pid made oid position name u s s' :
  position = Z.of_nat (length made) + 1 → insert_option (MkOption oid pid position name []) s = (inr u, s') →
  has_options base pid made (st_db s) → has_options base pid (made ++ [MkOption oid pid position name []]) (st_db s').
Proof.
  intros -> Hrun [Hm Hk Ho Hp]. unfold insert_option in Hrun. runs. guards_passed Hg.
  apply Forall_inv, eq_sym, check_None, bool_decide_eq_true in Hg. cbn in Hg. rewrite db_set. split; cbn.
  - intros o [Hin| ->%list_elem_of_singleton]%elem_of_app; [|by rewrite lookup_insert_eq].
    destruct (Hm _ Hin) as [Hr ?]. split; [|done]. rewrite lookup_insert_ne; [done|congruence].
  - intros k o Hb. destruct (Hk _ _ Hb) as [Hr ?]. split; [|done]. rewrite lookup_insert_ne; [done|congruence].
  - intros k o [[<- <-]|[_ Hko]]%lookup_insert_Some; [left; split; [set_solver|done]|].
    destruct (Ho _ _ Hko) as [[? ?]|?]; [left; split; [set_solver|done]|by right].
  - rewrite map_app, Hp, length_app, Nat2Z.inj_add, seqZ_app by lia. cbn [map length po_position].
    f_equal. rewrite seqZ_cons by lia. change (Z.pred (Z.of_nat 1)) with 0. rewrite seqZ_nil by lia. f_equal. lia.
Qed.
Lemma insert_option_value_has base pid l1 o l2 vid value u s s' :
  insert_option_value (po_id o) vid value s = (inr u, s') →
  has_options base pid (l1 ++ o :: l2) (st_db s) →
  has_options base pid (l1 ++ (o <| po_values ::= λ l, l ++ [(vid, value)] |>) :: l2) (st_db s').
Proof.
  intros Hrun Hho. pose proof (has_options_nodup _ _ _ _ Hho) as Hnd. destruct Hho as [Hm Hk Ho Hp].
  assert (o ∈ l1 ++ o :: l2) as Hin by set_solver. destruct (Hm _ Hin) as [Hr Hpid].
  assert (∀ x, x ∈ l1 ++ l2 → po_id x ≠ po_id o) as Hne.
  { intros x Hx Heq. assert (x ∈ l1 ++ o :: l2) as Hx' by set_solver. destruct (Hm _ Hx') as [Hrx _]. rewrite Heq, Hr in Hrx. injection Hrx as <-.
    apply NoDup_app in Hnd as (Hnd1 & Hd & Hnd2). apply NoDup_cons in Hnd2 as [? _]. apply elem_of_app in Hx as [Hx|Hx]; [|done].
    apply (Hd _ Hx). by left. }
  unfold insert_option_value in Hrun. runs. rewrite db_set. match goal with H : _ !! po_id o = Some ?x |- _ => rewrite Hr in H; injection H as <- end.
  set (o' := o <| po_values ::= λ l, l ++ [(vid, value)] |>). split; cbn.
  - intros x [Hx|[->|Hx]%elem_of_cons]%elem_of_app.
    + rewrite lookup_insert_ne by (apply not_eq_sym, Hne; set_solver). apply Hm. set_solver.
    + by rewrite lookup_insert_eq.
    + rewrite lookup_insert_ne by (apply not_eq_sym, Hne; set_solver). apply Hm. set_solver.
  - intros k x Hb. destruct (Hk _ _ Hb) as [Hrx ?]. split; [|done]. rewrite lookup_insert_ne; [done|]. intros <-. congruence.
  - intros k x [[<- <-]|[Hne' Hko]]%lookup_insert_Some; [left; split; [set_solver|done]|].
    destruct (Ho _ _ Hko) as [[Hx ?]|?]; [left; split; [|done]|by right]. assert (x ≠ o) by congruence. set_solver.
  - rewrite length_app in *. rewrite map_app in *. cbn in *. done.
Qed.
Lemma insert_values_has base pid l1 l2 oid values : ∀ o u s s',
  po_id o = oid → for_each values (λ value, vid ← new_id; insert_option_value oid vid value) s = (inr u, s') →
  has_options base pid (l1 ++ o :: l2) (st_db s) →
  ∃ o', has_options base pid (l1 ++ o' :: l2) (st_db s') ∧ po_name o' = po_name o ∧ map snd (po_values o') = map snd (po_values o) ++ values.
Proof.
  induction values as [|value values IH]; intros o u s s' Hid Hrun Hho; cbn [for_each] in Hrun.
  - apply ret_inr in Hrun as [_ ->]. exists o. by rewrite app_nil_r.
  - apply bind_inr in Hrun as (u1 & s1 & Hone & Hrun). apply bind_inr in Hone as (vid & s2 & Hvid & Hone). apply new_id_inr in Hvid as [-> ->].
    rewrite <-Hid in Hone. eapply insert_option_value_has in Hone; [|exact Hho]. set (o1 := o <| po_values := _ |>) in Hone.
    destruct (IH o1 u s1 s' Hid Hrun Hone) as (o' & Ho' & Hn & Hv). exists o'. split_and!; [done..|]. rewrite Hv. cbn. by rewrite map_app, <-app_assoc.
Qed.
(** The row stands for the option. *)
Definition row_of (row : Z * OptionSpec) (o : ProductOption) : Prop := po_id o = row.1 ∧ po_name o = os_name row.2 ∧ po_values o = [].
Definition option_asked (spec : OptionSpec) (o : ProductOption) : Prop := po_name o = os_name spec ∧ map snd (po_values o) = os_values spec.
Lemma insert_rows_has base pid rows : ∀ l1 l2 u s s',
  for_each rows (λ row, for_each (os_values row.2) (λ value, vid ← new_id; insert_option_value row.1 vid value)) s = (inr u, s') →
  has_options base pid (l1 ++ l2) (st_db s) → Forall2 row_of rows l2 →
  ∃ made, has_options base pid (l1 ++ made) (st_db s') ∧ Forall2 option_asked (map snd rows) made.
Proof.
  induction rows as [|row rows IH]; intros l1 l2 u s s' Hrun Hho Hrows; inversion Hrows as [|? o ? rest [Hid [Hn Hv]] Hrest]; subst; cbn [for_each] in Hrun.
  - apply ret_inr in Hrun as [_ ->]. exists []. split; [done|constructor].
  - apply bind_inr in Hrun as (u1 & s1 & Hone & Hrun). eapply insert_values_has in Hone as (o' & Ho' & Hn' & Hv'); [|exact Hid|exact Hho].
    rewrite (cons_middle o'), app_assoc in Ho'. destruct (IH _ _ _ _ _ Hrun Ho' Hrest) as (made & Hmade & Hall). rewrite <-app_assoc in Hmade. exists (o' :: made).
    split; [done|]. constructor; [|done]. split; [congruence|]. by rewrite Hv', Hv.
Qed.
Lemma has_options_asked base pid specs made d :
  has_options base pid made d → Forall2 option_asked specs made →
  map (λ o, (po_position o, po_name o, map snd (po_values o))) (options_of d pid) =
  imap (λ i spec, (Z.of_nat i + 1, os_name spec, os_values spec)) specs.
Proof.
  intros Hho Hall. rewrite (has_options_read _ _ _ _ Hho). pose proof (ho_positions _ _ _ _ Hho) as Hp. clear Hho.
  apply list_eq. intros i. change (map ?f made) with (f <$> made) in *. rewrite list_lookup_fmap, list_lookup_imap.
  destruct (specs !! i) as [spec|] eqn:Hs; cbn.
  - destruct (Forall2_lookup_l _ _ _ _ _ Hall Hs) as (o & Ho & Hn & Hv). rewrite Ho. cbn. rewrite Hn, Hv.
    assert ((po_position <$> made) !! i = Some (po_position o)) as Hpo by (by rewrite list_lookup_fmap, Ho).
    rewrite Hp in Hpo. apply lookup_seqZ in Hpo as [-> _]. do 3 f_equal. lia.
  - apply lookup_ge_None in Hs. rewrite lookup_ge_None_2; [done|]. by rewrite <-(Forall2_length _ _ _ Hall).
Qed.
Lemma has_options_others d0 pid made d k o :
  has_options (filter (λ kv, po_product_id kv.2 ≠ pid) (d_options d0)) pid made d → po_product_id o ≠ pid →
  d_options d !! k = Some o ↔ d_options d0 !! k = Some o.
Proof.
  intros [Hm Hk Ho _] Hne. split.
  - intros [[[_ ?]%Hm _]|[? _]%map_lookup_filter_Some]%Ho; [done|done].
  - intros Hk0. apply Hk. by apply map_lookup_filter_Some.
Qed.
Lemma install_rows_has base pid specs : ∀ rows made s rows' s',
  fold_m (λ rows spec, oid ← new_id;
            _ ← flushed (insert_option (MkOption oid pid (Z.of_nat (length rows) + 1) (os_name spec) []));
            mret (rows ++ [(oid, spec)])) rows specs s = (inr rows', s') →
  has_options base pid made (st_db s) → Forall2 row_of rows made →
  map snd rows' = map snd rows ++ specs ∧ ∃ made', has_options base pid made' (st_db s') ∧ Forall2 row_of rows' made'.
Proof.
  induction specs as [|spec specs IH]; intros rows made s rows' s' Hrun Hho Hrows; cbn [fold_m] in Hrun.
  - apply ret_inr in Hrun as [-> ->]. rewrite app_nil_r. eauto.
  - apply bind_inr in Hrun as (rows1 & s1 & Hone & Hrun). apply bind_inr in Hone as (oid & s2 & Hid & Hone). apply new_id_inr in Hid as [-> ->].
    apply bind_inr in Hone as (u & s3 & Hins & Hone). apply ret_inr in Hone as [-> ->]. apply flushed_inr in Hins.
    apply (insert_option_has base pid made) in Hins; [|by rewrite (Forall2_length _ _ _ Hrows)|done].
    destruct (IH _ _ _ _ _ Hrun Hins) as [Hs Hmade]; [apply Forall2_app; [done|by repeat constructor]|]. split; [|done].
    by rewrite Hs, map_app, <-app_assoc.
Qed.
Lemma install_options_inr pid options p s s' :
  _install_options pid options s = (inr p, s') →
  ∃ s1, untouched s1 = untouched s ∧ update_product_row pid (λ p, p <| p_option_count := Z.of_nat (length options) |>) s1 = (inr p, s') ∧
    ∃ made, has_options (filter (λ kv, po_product_id kv.2 ≠ pid) (d_options (st_db s))) pid made (st_db s1) ∧ Forall2 option_asked options made.
Proof.
  unfold _install_options. intros Hrun. apply bind_inr in Hrun as (u & s1 & H1 & Hrun). apply bind_inr in Hrun as (rows & s2 & H2 & Hrun).
  apply flushed_inr in Hrun. apply bind_inr in Hrun as (u' & s3 & H3 & Hrun). exists s3.
  pose proof (delete_options_inr _ _ _ _ H1) as Hho. destruct (install_rows_has _ _ _ _ _ _ _ _ H2 Hho) as (Hspecs & made & Hho2 & Hrows); [constructor|].
  destruct (insert_rows_has _ _ _ [] _ _ _ _ H3 Hho2 Hrows) as (made' & Hho3 & Hasked). rewrite Hspecs in Hasked.
  split; [|split; [done|by exists made']].
  apply (guar_ran (keeps untouched)) in H1; [|uncommitted]. apply (guar_ran (keeps untouched)) in H2.
  2:{ apply guar_fold_m; [apply _..|]. intros b spec. apply guar_bind; [apply _|uncommitted|]. intros oid. apply guar_bind; [apply _| |uncommitted].
      apply guar_try; [apply _|uncommitted|]. intros [] k [= <-]. uncommitted. }
  apply (guar_ran (keeps untouched)) in H3; [|uncommitted]. unfold keeps in *. congruence.
Qed.

Lemma simple_has_no_variants d pid p :
  Inv d → d_products d !! pid = Some p → p_option_count p ≤ 0 →
  p_option_count p = 0 ∧ stock_sum d pid = 0 ∧ ∀ k v, d_variants d !! k = Some v → pv_product_id v ≠ pid.
Proof.
  intros HI Hp Hn. pose proof (inv_catalogue _ HI) as Hok. destruct (ct_products _ Hok _ _ Hp) as [_ _ Hc _ _ _].
  assert (∀ k v, d_variants d !! k = Some v → pv_product_id v ≠ pid) as Hnone.
  { intros k v Hv Heq. destruct (ct_variants _ Hok _ _ Hv) as [_ _ (q & Hq & Hqn) Hvc _ _]. cbn in Hq. rewrite Heq, Hp in Hq. simplify_eq. lia. }
  split_and!; [lia| |done]. unfold stock_sum, sum_rows. apply sum_kv_zero. intros k v Hv. by destruct (Z.eqb_spec (pv_product_id v) pid) as [Heq|]; [destruct (Hnone _ _ Hv)|].
Qed.
Lemma asked_stock d pid specs l :
  Forall2 (as_asked d pid) specs l → sumZ (map (λ v, if pv_product_id v =? pid then pv_stock v else 0) l) = sumZ (map vs_stock specs).
Proof.
  intros Hall. induction Hall as [|spec v specs l [[= Hp _ _ Hs _] _] _ IH]; [done|]. cbn. rewrite Hp, Z.eqb_refl, Hs. unfold sumZ in IH. lia.
Qed.
Lemma sold_insert d d' pid p k :
  d_products d' = <[pid := p]> (d_products d) → sold d' k = if decide (k = pid) then Some (sold_as p) else sold d k.
Proof. intros Hd. unfold sold. rewrite Hd. destruct (decide (k = pid)) as [->|]; [by rewrite lookup_insert_eq|by rewrite lookup_insert_ne]. Qed.

(** The product emptied and given its options, and then its variants. *)
Definition carts_and_orders (s : St) := (d_variants (st_db s), d_cart_items (st_db s), d_orders (st_db s), d_items (st_db s)).
Lemma emptied_inr pid old n s u s' :
  d_products (st_db s) !! pid = Some old →
  (if negb (p_stock old =? 0) then _ ← flushed (update_product_row pid (λ p, p <| p_stock := 0 |>)); mret tt else mret tt) s = (inr u, s') →
  carts_and_orders s' = carts_and_orders s ∧ d_options (st_db s') = d_options (st_db s) ∧
  ∃ p, d_products (st_db s') !! pid = Some p ∧ sold_as (p <| p_option_count := n |>) = sold_as (old <| p_stock := 0 |> <| p_option_count := n |>) ∧
    ∀ k, k ≠ pid → sold (st_db s') k = sold (st_db s) k.
Proof.
  intros Hp Hrun. destruct (Z.eqb_spec (p_stock old) 0) as [Hz|]; cbn [negb] in Hrun.
  - apply ret_inr in Hrun as [_ ->]. split_and!; [done..|]. exists old. split_and!; [done| |done]. unfold sold_as. cbn. by rewrite Hz.
  - apply bind_inr in Hrun as (p & s1 & Hup & Hrun). apply ret_inr in Hrun as [_ ->]. apply flushed_inr, update_product_row_inr in Hup
      as (old' & Hp' & Hs & Hps & Hvs & [= Hopt Hc Ho Hi]). simplify_eq. split; [unfold carts_and_orders; congruence|]. split; [done|]. exists p. split_and!.
    + by rewrite Hps, lookup_insert_eq.
    + unfold sold_as in *. cbn in *. congruence.
    + intros k Hne. rewrite (sold_insert _ _ _ _ k Hps). by rewrite decide_False.
Qed.
Lemma convert_body_inr pid old request s p l s' :
  d_products (st_db s) !! pid = Some old → p_id old = pid →
  (_ ← (if negb (p_stock old =? 0) then _ ← flushed (update_product_row pid (λ p, p <| p_stock := 0 |>)); mret tt else mret tt);
   changed ← _install_options pid (cr_options request);
   created ← _create_variants changed (cr_variants request);
   mret (changed, created)) s = (inr (p, l), s') →
  sold_as p = sold_as (old <| p_stock := 0 |> <| p_option_count := Z.of_nat (length (cr_options request)) |>) ∧
  (∃ made, has_options (filter (λ kv, po_product_id kv.2 ≠ pid) (d_options (st_db s))) pid made (st_db s') ∧
     Forall2 option_asked (cr_options request) made) ∧
  ∃ s1, carts_and_orders s1 = carts_and_orders s ∧ inserted s1 s' l ∧ Forall2 (as_asked (st_db s1) pid) (cr_variants request) l ∧
    ∀ k, sold (st_db s1) k = if decide (k = pid) then Some (sold_as p) else sold (st_db s) k.
Proof.
  intros Hp Hid Hrun. apply bind_inr in Hrun as (u & s1 & Hempty & Hrun).
  apply (emptied_inr _ _ (Z.of_nat (length (cr_options request))) _ _ _ Hp) in Hempty as (Hco & Hopt1 & p1 & Hp1 & Hsold1 & Hoth).
  apply bind_inr in Hrun as (changed & s2 & Hinst & Hrun). apply install_options_inr in Hinst as (s3 & [= U1 U2 U3 U4 U5] & Hup & made & Hmade & Hopts).
  apply update_product_row_inr in Hup as (p2 & Hp2 & Hs2 & Hps & Hvs & [= Hopt3 Hc Ho Hi]). rewrite U1, Hp1 in Hp2. injection Hp2 as <-.
  apply bind_inr in Hrun as (created & s4 & Hcr & Hrun). apply ret_inr in Hrun as [[= -> ->] ->]. apply create_inr in Hcr as [Hins Hasked].
  pose proof (eq_trans Hs2 Hsold1) as Hsold. clear Hs2 Hsold1. assert (p_id changed = pid) as Hcid by (unfold sold_as in Hsold; cbn in Hsold; congruence).
  rewrite Hcid in Hasked. split; [done|]. split.
  { exists made. split; [|done]. destruct Hins as [_ _ _ _ [= Hopt4 _ _ _] _]. eapply has_options_at; [by rewrite Hopt4|]. by rewrite <-Hopt1. }
  exists s2. split_and!; [|done|done|].
  - unfold carts_and_orders in *. congruence.
  - intros k. rewrite (sold_insert _ _ _ _ k Hps). case_decide as Hk; [done|]. rewrite <-Hoth by done. unfold sold. by rewrite U1.
Qed.

Lemma delete_cart_items_inr pid n s s' :
  delete_cart_items_of pid s = (inr n, s') → s' = set_db (λ d, d <| d_cart_items ::= filter (λ kv, ci_product_id kv.2 ≠ pid) |>) s.
Proof. unfold delete_cart_items_of. intros Hrun. by runs. Qed.

(** C9. Converting a product moves its stock exactly: when it succeeds the product was simple and in no unpaid or unshipped
    order, and now has no stock of its own and the options asked for: as many as it says, numbered from one in the order they
    were asked for, each with its name and its values in their order, and no others. The stock of its variants, which are those
    asked for and no others, adds up to what the product had; every cart line of it is gone, the options of the other products
    are what they were and every one of them is sold as it was, and the rules of an active product hold. *)
Theorem conversion_conserves_stock pid request admin s p removed s' :
  Inv (st_db s) → convert_to_variants pid request admin s = (inr (p, removed), s') →
  ∃ old new created, d_products (st_db s) !! pid = Some old ∧ d_products (st_db s') !! pid = Some new ∧
    p_option_count old = 0 ∧ p_option_count new = Z.of_nat (length (cr_options request)) ∧ p_stock new = 0 ∧
    map (λ o, (po_position o, po_name o, map snd (po_values o))) (options_of (st_db s') pid) =
      imap (λ i spec, (Z.of_nat i + 1, os_name spec, os_values spec)) (cr_options request) ∧
    (∀ k o, po_product_id o ≠ pid → d_options (st_db s') !! k = Some o ↔ d_options (st_db s) !! k = Some o) ∧
    stock_sum (st_db s') pid = p_stock old ∧ open_orders (st_db s) pid = 0 ∧
    Forall2 (λ spec v, d_variants (st_db s') !! pv_id v = Some v ∧ pv_sku v = vs_sku spec ∧ pv_stock v = vs_stock spec) (cr_variants request) created ∧
    (∀ k v, d_variants (st_db s') !! k = Some v → pv_product_id v = pid → v ∈ created) ∧
    (∀ k i, d_cart_items (st_db s') !! k = Some i → ci_product_id i ≠ pid) ∧
    (∀ k, k ≠ pid → sold (st_db s') k = sold (st_db s) k) ∧ deferred_violation pid (st_db s') = None.
Proof.
  intros HI Hrun. unfold convert_to_variants in Hrun. cbv zeta in Hrun. apply bind_inr in Hrun as (old & s1 & Hp & Hrun).
  apply locked_product_inr in Hp as [-> Hp]. pose proof (inv_product_keys _ HI _ _ Hp) as Hid.
  apply bind_inr in Hrun as (u & s1 & Hc & Hrun). apply raise_if_inr in Hc as [Hn%Z.ltb_ge ->]. clear u.
  apply bind_inr in Hrun as (u & s1 & Hc & Hrun). apply raise_if_inr in Hc as [_ ->]. clear u.
  apply bind_inr in Hrun as (u & s1 & Hc & Hrun). apply raise_if_inr in Hc as [_ ->]. clear u.
  apply bind_inr in Hrun as (u & s1 & Hc & Hrun). apply raise_if_inr in Hc as [Hall%negb_false_iff%Z.eqb_eq ->]. clear u.
  apply bind_inr in Hrun as (n & s1 & Hc & Hrun). apply db_gets_inr in Hc as [-> ->].
  apply bind_inr in Hrun as (u & s1 & Hc & Hrun). apply raise_if_inr in Hc as [Hopen%negb_false_iff%Z.eqb_eq ->]. clear u.
  apply bind_inr in Hrun as (rm & s1 & Hdel & Hrun). apply delete_cart_items_inr in Hdel as ->.
  apply bind_inr in Hrun as ([p' l] & s3 & Hst & Hrun). apply stock_change_inr in Hst as (s4 & s5 & E4 & Hbody & E5 & _ & _).
  apply bind_inr in Hrun as (u & s6 & Hnow & Hrun). apply check_now_inr in Hnow as [-> Hrule]. clear u.
  apply bind_inr in Hrun as (u & s6 & Hlog & Hrun). apply log_inr in Hlog as (row & ->). apply ret_inr in Hrun as [_ ->].
  assert (Hp4 : d_products (st_db s4) !! pid = Some old) by (by rewrite E4).
  apply (convert_body_inr _ _ _ _ _ _ _ Hp4 Hid) in Hbody as (Hsold & (made & Hmade & Hopts) & s7 & [= B1 B2 B3 B4] & Hins & Hasked & Hoth). rewrite E4 in B1, B2, Hmade.
  destruct (simple_has_no_variants _ _ _ HI Hp Hn) as (Hz & Hstock & Hnone). destruct Hins as [Inew Ikept Ionly Isum Ib Is].
  injection Ib as Io Ic Ior Ii. assert (Hnew : sold (st_db s5) pid = Some (sold_as p')) by (by rewrite Is, Hoth, decide_True).
  unfold sold in Hnew. destruct (d_products (st_db s5) !! pid) as [new|] eqn:Hnewp; [|done]. apply (inj Some) in Hnew. rewrite Hsold in Hnew.
  injection Hnew as _ N1 N2 _ _. exists old, new, l. rewrite !db_set. change (d_products (st_db s3 <| d_audit := _ |>)) with (d_products (st_db s3)).
  rewrite E5 in *. rewrite db_set in B1, B2. cbn in B1, B2. split_and!; try done; cbn.
  - change (options_of _ pid) with (options_of (st_db s5) pid). by eapply has_options_asked.
  - intros k o. cbn. by eapply has_options_others.
  - change (stock_sum (st_db s5) pid = p_stock old). rewrite Isum, (asked_stock _ _ _ _ Hasked), Hall.
    unfold stock_sum in *. rewrite B1, Hstock. lia.
  - clear -Hasked Inew. induction Hasked as [|spec v specs l Ha _ IH]; [constructor|]. apply Forall_cons in Inew as [[_ ?] Inew].
    destruct Ha as [[= _ ? _ ? _] _]. constructor; auto.
  - intros k v Hv Hpid. destruct (Ionly _ _ Hv) as [Hold|]; [|done]. rewrite B1 in Hold. by destruct (Hnone _ _ Hold).
  - intros k i. rewrite Ic, B2. by intros [_ Hi]%map_lookup_filter_Some.
  - intros k Hne. change (sold (st_db s5) k = sold (st_db s) k). rewrite Is, Hoth, decide_False by done. unfold sold. by rewrite E4.
Qed.

(** ** Adjusting stock *)

Lemma stock_change_ctx {A} k a r (body : M A) b s s' :
  stock_change k a (Some r) None body s = (inr b, s') →
  ∃ s2, body (s <| st_stock_ctx := MkStockCtx k a (if String.eqb r "" then None else Some r) None |>) = (inr b, s2) ∧ st_db s' = st_db s2.
Proof.
  unfold stock_change, _set. intros Hrun. apply bind_inr in Hrun as (u & s0 & Hk & Hrun). apply raise_if_inr in Hk as [_ ->].
  apply bind_inr in Hrun as (u1 & s1 & Hs & Hrun). injection Hs as _ <-. apply try_finally_inr in Hrun as (s2 & Hb & ->). by exists s2.
Qed.

(** The stock of a product or of one of its variants. *)
Definition stock_at (d : DB) (pid : Z) (vid : option Z) : option Z :=
  match vid with
  | None => option_map p_stock (d_products d !! pid)
  | Some v => match d_variants d !! v with Some w => if pv_product_id w =? pid then Some (pv_stock w) else None | None => None end
  end.
Definition wanted (target : StockTarget) (before : Z) : Z := match target with SetTo n => n | Delta n => before + n end.
Definition adjust_kind (target : StockTarget) : string := match target with SetTo _ => "admin_set" | Delta _ => "admin_delta" end.

Lemma ledger_row_changed ctx pid vid old new :
  new ≠ old → sc_kind ctx ≠ "" →
  ledger_rows (stock_ledger_row ctx pid vid old new) =
  [MkMovement (sc_kind ctx) pid vid (new - old) old new (sc_actor ctx) (sc_reason ctx) (sc_order ctx)].
Proof.
  intros Hne Hk%String.eqb_neq. unfold ledger_rows, stock_ledger_row. cbn [sm_delta]. rewrite (proj2 (Z.eqb_neq _ _)) by lia. by rewrite Hk.
Qed.
Lemma write_stock_inr pid vid before after u s s' :
  stock_at (st_db s) pid vid = Some before → after ≠ before → sc_kind (st_stock_ctx s) ≠ "" →
  match vid with
  | None => _ ← update_product_row pid (λ p, p <| p_stock := after |>); mret tt
  | Some vid => _ ← update_variant_row vid (λ v, v <| pv_stock := after |>); mret tt
  end s = (inr u, s') →
  stock_at (st_db s') pid vid = Some after ∧
  d_movements (st_db s') = d_movements (st_db s) ++ ledger_rows (stock_ledger_row (st_stock_ctx s) pid vid before after).
Proof.
  intros Hat Hne Hk Hrun. destruct vid as [vid|]; cbn in Hat.
  - destruct (d_variants (st_db s) !! vid) as [w|] eqn:Hw; [|done]. destruct (Z.eqb_spec (pv_product_id w) pid) as [Hpid|]; [|done].
    injection Hat as Hat. unfold update_variant_row in Hrun. cbv zeta in Hrun. runs. rewrite db_set.
    match goal with |- context [variants_price_summary ?p ?d] => destruct (summary_keeps p d) as (Hv & Hm & _ & _) end.
    unfold stock_at. rewrite Hv, Hm. cbn. rewrite lookup_insert_eq. cbn. unfold id in *. simplify_eq. by rewrite Z.eqb_refl.
  - destruct (d_products (st_db s) !! pid) as [p|] eqn:Hp; [|done]. injection Hat as Hat. unfold update_product_row in Hrun.
    cbv zeta in Hrun. runs. rewrite db_set. cbn. unfold id in *. simplify_eq. rewrite lookup_insert_eq. cbn. destruct (_ && _); cbn; [done|].
    unfold products_price_summary. destruct (product_price_range _ _ _ _). done.
Qed.

(** A stock adjustment that returns did what it says: the product (one without options) or the variant now has the stock
    wanted, never less than nothing, the answer tells the stock before and after, and the ledger gained one entry with the
    difference, who made the change and why; wanting the stock there is changes and records nothing. *)
Theorem stock_adjusted pid vid spec admin s r s' :
  adjust_stock pid vid spec admin s = (inr r, s') →
  ∃ before, stock_at (st_db s) pid vid = Some before ∧
    let after := wanted (sj_target spec) before in
    0 ≤ after ∧ r = MkAdjusted pid vid before after (after - before) (negb (after =? before)) ∧
    stock_at (st_db s') pid vid = Some after ∧ (after = before → s' = s) ∧
    (vid = None → ∃ p, d_products (st_db s) !! pid = Some p ∧ p_option_count p ≤ 0) ∧
    d_movements (st_db s') = d_movements (st_db s) ++
      (if after =? before then []
       else [MkMovement (adjust_kind (sj_target spec)) pid vid (after - before) before after (Some (u_id admin))
               (if String.eqb (sj_reason spec) "" then None else Some (sj_reason spec)) None]).
Proof.
  unfold adjust_stock. cbv zeta. intros Hrun. apply bind_inr in Hrun as (p & s1 & Hp & Hrun). apply locked_product_inr in Hp as [-> Hp].
  apply bind_inr in Hrun as (before & s1 & Hb & Hrun).
  assert (s1 = s ∧ stock_at (st_db s) pid vid = Some before ∧ (vid = None → p_option_count p ≤ 0)) as (-> & Hat & Hsimple).
  { destruct vid as [vid|]; cbn.
    - unfold _variant_for in Hb. runs. destruct (d_variants (st_db s) !! vid) as [w|]; [|by runs].
      destruct (pv_product_id w =? pid) eqn:?; runs; by split_and!.
    - runs. rewrite Hp. split_and!; [done..|]. intros _. by apply Z.ltb_ge. }
  exists before. split; [done|]. fold (wanted (sj_target spec) before) (adjust_kind (sj_target spec)) in Hrun.
  apply bind_inr in Hrun as (u & s1 & Hc & Hrun). apply raise_if_inr in Hc as [Hpos%Z.ltb_ge ->].
  destruct (Z.eqb_spec (wanted (sj_target spec) before) before) as [Heq|Hne].
  - apply ret_inr in Hrun as [-> ->]. rewrite Heq, app_nil_r, Z.sub_diag. split_and!; [lia|done|done|done| |done]. intros Hv. eauto.
  - apply bind_inr in Hrun as (u1 & s1 & Hst & Hrun). apply bind_inr in Hrun as (u2 & s2 & Hlog & Hrun). apply ret_inr in Hrun as [-> ->].
    apply log_inr in Hlog as (row & ->). apply stock_change_ctx in Hst as (s3 & Hst & E3). apply flushed_inr, write_stock_inr with (before := before) in Hst
      as [Hat' Hmv]; [|done|done|by destruct (sj_target spec)].
    rewrite db_set. cbn. rewrite E3. split_and!; [done..| |done| |]; [|intros Hv; eauto|].
    + exact Hat'.
    + rewrite Hmv, ledger_row_changed; [done|done|by destruct (sj_target spec)].
Qed.
