(* ===== verification/CatalogueDemo.v ===== *)
(** * A day in the back office

    The inputs of the witnesses of [CatalogueSpec] and [VariantsSpec]: the only administrator signs in and works on the
    catalogue of [Demo]. *)

From S2P Require Import Prelude Errors Schema Guards CatalogueGuards CatalogueOk Evolution CatalogueEvolution Repositories Frames Runs StockSpec.
From S2P Require Import Accounts Roles Slugs Images Categories Products Variants Demo System AccountsSpec AccessSpec CatalogueSpec VariantsSpec.

Local Open Scope string_scope.
Local Open Scope list_scope.
Local Open Scope Z_scope.

Lemma users_free d g : Inv d → Inv (d <| d_users := g |>).
Proof. intros HI. keep_inv HI. Qed.
Lemma opened_inv : Inv people_db.
Proof. exact (users_free demo_db people demo_inv). Qed.
Lemma opened_sound : sound opened.
Proof. split; [reflexivity|]. split; apply opened_inv. Qed.
Lemma root_in_sound : sound root_in.2.
Proof.
  pose proof (guar_get_db _ (guar_login_endpoint "root@example.com" "oak" None)) as Hg. exact (proj1 (Hg opened opened_sound)).
Qed.

Definition shirt_l : VariantSpec := MkVariantSpec "SHIRT-L" [("size", "l")] (Some 65000) 3 true.
Definition back_office : list Request :=
  [Catalog (CreateVariants root_key 2 [shirt_l]);
   Catalog (UpdateProduct root_key 1 (MkProductUpdate (Some "Big mug") None (Some 30000) None None None None None None));
   Catalog (AdjustStock root_key 1 None (Delta 7) "found in the store room");
   Catalog (Convert root_key 1 [("Colour", ["Red"; "Blue"])]
     [MkVariantSpec "MUG-RED" [("Colour", "red")] None 10 true; MkVariantSpec "MUG-BLUE" [("COLOUR", "Blue")] None 2 false] 12 "two colours now")].
Definition closing : St := run back_office root_in.2.

Lemma catalogue_well_formed_witness : catalogue_ok (catalogue_of (st_committed closing)).
Proof. exact (catalogue_well_formed back_office root_in.2 root_in_sound). Defined.

Definition shirt_now : Product := default shirt (d_products (st_committed closing) !! 2).
Lemma listed_price_is_shown_witness :
  (vw_price_from_cents (view_fields shirt_now (variants_of (st_committed closing) 2) None false),
   vw_price_to_cents (view_fields shirt_now (variants_of (st_committed closing) 2) None false)) = (60000, 65000).
Proof.
  refine (proj1 (listed_price_is_shown back_office root_in.2 2 shirt_now None false root_in_sound _)). vm_compute. reflexivity.
Defined.

(** What a visitor is shown of the shirt. *)
Definition no_product_read : ProductRead :=
  MkProductRead mug goods None (view_fields mug [] None false) None None None.
Definition outcome {A} (d : A) (r : Err + A) : A := match r with inr a => a | inl _ => d end.
Definition visitor : (Err + ProductRead) * St := get_product_endpoint None 2 closing.
Lemma visitor_is_no_admin s u : get_optional_current_user None s = (inr u, s) → _is_admin u s = (inr false, s).
Proof. by intros [= <-]. Qed.
Lemma customers_see_what_is_sold_witness :
  p_status (pr_product (outcome no_product_read visitor.1)) = ACTIVE ∧
  vw_base_price_cents (pr_view (outcome no_product_read visitor.1)) = None.
Proof.
  destruct (customers_see_what_is_sold None 2 closing (outcome no_product_read visitor.1) visitor.2 (visitor_is_no_admin closing)) as (_ & _ & Hs & _ & _ & _ & Hb & _).
  - vm_compute. reflexivity.
  - by split.
Defined.

(** The administrator's account. *)
Definition root_user : User := MkUser "root" "root" "root@example.com" "hash:oak" ADMIN true None 0.
Lemma root_in_inv : Inv (st_db root_in.2).
Proof. apply root_in_sound. Qed.
Definition after_create : (Err + Product) * St := create_variants 2 [shirt_l] root_user root_in.2.
Lemma variants_created_as_asked_witness :
  ∃ created, Forall2 (as_asked (st_db root_in.2) 2) [shirt_l] created ∧
    Forall (λ v, d_variants (st_db root_in.2) !! pv_id v = None ∧ d_variants (st_db after_create.2) !! pv_id v = Some v) created ∧
    d_variants (st_db after_create.2) !! 7 = Some shirt_m ∧ deferred_violation 2 (st_db after_create.2) = None.
Proof.
  destruct (variants_created_as_asked 2 [shirt_l] root_user root_in.2 (outcome mug after_create.1) after_create.2 root_in_inv)
    as (created & Ha & Hn & Hk & _ & Hd); [vm_compute; reflexivity|].
  exists created. split_and!; [exact Ha|exact Hn| |exact Hd]. apply Hk. vm_compute. reflexivity.
Defined.

(** The mug, of which there are five, in two colours. *)
Definition two_colours : ConvertRequest :=
  MkConvert [MkOptionSpec "Colour" ["Red"; "Blue"]]
    [MkVariantSpec "MUG-RED" [("Colour", "red")] None 3 true; MkVariantSpec "MUG-BLUE" [("COLOUR", "Blue")] None 2 false] 5 "two colours now".
Definition after_convert : (Err + (Product * Z)) * St := convert_to_variants 1 two_colours root_user root_in.2.
Lemma conversion_conserves_stock_witness :
  stock_sum (st_db after_convert.2) 1 = 5 ∧
  map (λ o, (po_position o, po_name o, map snd (po_values o))) (options_of (st_db after_convert.2) 1) = [(1, "Colour", ["Red"; "Blue"])].
Proof.
  destruct (conversion_conserves_stock 1 two_colours root_user root_in.2 (outcome (mug, 0) after_convert.1).1 (outcome (mug, 0) after_convert.1).2
    after_convert.2 root_in_inv) as (old & new & created & Hold & _ & _ & _ & _ & Hopts & _ & Hstock & _); [vm_compute; reflexivity|].
  split; [|exact Hopts]. rewrite Hstock. assert (d_products (st_db root_in.2) !! 1 = Some mug) as Hmug by (vm_compute; reflexivity). rewrite Hmug in Hold.
  injection Hold as <-. reflexivity.
Defined.

Definition recount : StockAdjust := MkStockAdjust (Delta (-2)) "two were broken".
Definition after_adjust : (Err + StockAdjustmentResult) * St := adjust_stock 1 None recount root_user root_in.2.
Lemma stock_adjusted_witness : stock_at (st_db after_adjust.2) 1 None = Some 3.
Proof.
  destruct (stock_adjusted 1 None recount root_user root_in.2 (outcome (MkAdjusted 0 None 0 0 0 false) after_adjust.1) after_adjust.2)
    as (before & Hb & _ & _ & Ha & _); [vm_compute; reflexivity|].
  assert (stock_at (st_db root_in.2) 1 None = Some 5) as Hfive by (vm_compute; reflexivity). rewrite Hfive in Hb. injection Hb as <-. exact Ha.
Defined.
