(* ===== verification/CustomerSpec.v ===== *)
(** * What a customer's account holds

    Theorems about [Addresses] and [Reviews], when requests are served one after another: what the limits and constraints are
    and that every request keeps them ([Overlap] is about requests that overlap), the default address, who may review what,
    and the summary of the stars. *)

From S2P Require Import Prelude Errors Schema Guards CatalogueGuards Evolution CatalogueEvolution Repositories Frames Runs Accounts Checkout.
From S2P Require Import Lifecycle Addresses Reviews Demo System ReturnsSpec AccountsSpec.

Local Open Scope string_scope.
Local Open Scope list_scope.
Local Open Scope Z_scope.

(** ** Counting rows *)

Section counting.
Context {K : Type} `{Countable K} {V : Type}.
Implicit Types (p : V → bool) (m : gmap K V).

Lemma length_rows_where p m : Z.of_nat (length (rows_where p m)) = count_rows p m.
Proof.
  unfold count_rows, sum_rows. induction m as [|k v m Hk IH] using map_ind; [by rewrite sum_kv_empty|].
  rewrite sum_kv_fresh, (rows_where_insert p m k v), <-IH by done. destruct (p v); cbn [length]; lia.
Qed.
Lemma count_fresh p m k v : m !! k = None → count_rows p (<[k := v]> m) = (if p v then 1 else 0) + count_rows p m.
Proof. intros Hk. unfold count_rows, sum_rows. by rewrite sum_kv_fresh. Qed.
Lemma count_update p m k v v' : m !! k = Some v → p v' = p v → count_rows p (<[k := v']> m) = count_rows p m.
Proof. intros Hk Hp. unfold count_rows, sum_rows. rewrite (sum_kv_update _ _ _ v) by done. rewrite Hp. lia. Qed.
Lemma count_delete p m k : count_rows p (delete k m) ≤ count_rows p m.
Proof.
  destruct (m !! k) as [v|] eqn:Hk; [|by rewrite delete_id]. unfold count_rows, sum_rows. rewrite (sum_kv_delete _ m k v Hk).
  destruct (p v); lia.
Qed.
Lemma count_filter p (P : K * V → Prop) `{∀ x, Decision (P x)} m : count_rows p (filter P m) ≤ count_rows p m.
Proof.
  induction m as [|k v m Hk IH] using map_ind; [done|]. rewrite map_filter_insert, (count_fresh p m) by done. case_decide.
  - rewrite count_fresh; [lia|]. apply map_lookup_filter_None. by left.
  - rewrite delete_id by done. destruct (p v); lia.
Qed.
Lemma count_fmap p (f : V → V) m : (∀ v, p (f v) = p v) → count_rows p (f <$> m) = count_rows p m.
Proof.
  intros Hf. induction m as [|k v m Hk IH] using map_ind; [done|]. rewrite fmap_insert, !count_fresh, IH, Hf; [done..|].
  by rewrite lookup_fmap, Hk.
Qed.
End counting.

(** ** Addresses *)

Definition owned (u : uuid) (a : Address) : bool := String.eqb (ad_user_id a) u.
(** At most twenty addresses each, and at most one default. *)
Record addresses_ok (m : gmap Z Address) : Prop := {
  ao_keys : ∀ k a, m !! k = Some a → ad_id a = k;
  ao_few : ∀ u, count_rows (owned u) m ≤ MAX_ADDRESSES_PER_USER;
  ao_default : ∀ i j a b, m !! i = Some a → m !! j = Some b → ad_is_default a = true → ad_is_default b = true →
    ad_user_id a = ad_user_id b → i = j
}.
(** Whoever has addresses has a default one. *)
Definition has_default (m : gmap Z Address) (u : uuid) : Prop :=
  (∃ k a, m !! k = Some a ∧ ad_user_id a = u) → ∃ k a, m !! k = Some a ∧ ad_user_id a = u ∧ ad_is_default a = true.
Definition no_default (m : gmap Z Address) (u : uuid) : Prop := ∀ k a, m !! k = Some a → ad_user_id a = u → ad_is_default a = false.
Definition cleared (u : uuid) (a : Address) : Address := if owned u a then a <| ad_is_default := false |> else a.

Lemma cleared_facts u a : ad_id (cleared u a) = ad_id a ∧ ad_user_id (cleared u a) = ad_user_id a ∧
  (ad_is_default (cleared u a) = true → ad_is_default a = true).
Proof. unfold cleared. by destruct (owned u a). Qed.
Lemma addresses_cleared u m : addresses_ok m → addresses_ok (cleared u <$> m) ∧ no_default (cleared u <$> m) u.
Proof.
  intros [Hk Hf Hd]. split; [split|].
  - intros k a' (a & <- & Ha)%lookup_fmap_Some. by rewrite (proj1 (cleared_facts u a)), (Hk _ _ Ha).
  - intros v. rewrite count_fmap; [done|]. intros a. unfold owned at 1. by rewrite (proj1 (proj2 (cleared_facts u a))).
  - intros i j a' b' (a & <- & Ha)%lookup_fmap_Some (b & <- & Hb)%lookup_fmap_Some.
    destruct (cleared_facts u a) as (_ & -> & Hda), (cleared_facts u b) as (_ & -> & Hdb). intros ? ? ?. by eapply Hd; [exact Ha|exact Hb|auto..].
  - intros k a' (a & <- & Ha)%lookup_fmap_Some. rewrite (proj1 (proj2 (cleared_facts u a))). unfold cleared, owned. intros ->.
    by rewrite String.eqb_refl.
Qed.
Lemma addresses_insert m a :
  addresses_ok m → m !! ad_id a = None → count_rows (owned (ad_user_id a)) m < MAX_ADDRESSES_PER_USER →
  (ad_is_default a = true → no_default m (ad_user_id a)) → addresses_ok (<[ad_id a := a]> m).
Proof.
  intros [Hk Hf Hd] Hn Hlt Hno. split.
  - intros k b [[<- <-]|[_ Hb]]%lookup_insert_Some; auto.
  - intros u. rewrite count_fresh by done. destruct (owned u a) eqn:Hu; [|apply Hf]. apply String.eqb_eq in Hu. subst u. lia.
  - intros i j x y [[<- <-]|[_ Hx]]%lookup_insert_Some [[<- <-]|[_ Hy]]%lookup_insert_Some Dx Dy Hxy; [done| | |by eapply Hd].
    + by rewrite (Hno Dx _ _ Hy) in Dy.
    + by rewrite (Hno Dy _ _ Hx) in Dx.
Qed.
Lemma addresses_update m k a a' :
  addresses_ok m → m !! k = Some a → ad_id a' = ad_id a → ad_user_id a' = ad_user_id a →
  (ad_is_default a' = true → ad_is_default a = true ∨ no_default m (ad_user_id a)) → addresses_ok (<[k := a']> m).
Proof.
  intros [Hk Hf Hd] Ha Hid Hu Hno. split.
  - intros j b [[<- <-]|[_ Hb]]%lookup_insert_Some; [rewrite Hid|]; auto.
  - intros u. rewrite (count_update _ _ _ a); [done|done|]. unfold owned. by rewrite Hu.
  - assert (Hone : ∀ j b, m !! j = Some b → ad_is_default a' = true → ad_is_default b = true → ad_user_id a' = ad_user_id b → k = j).
    { intros j b Hb Dx Dy Hxy. rewrite Hu in Hxy. destruct (Hno Dx) as [D|D]; [by eapply Hd|]. by rewrite (D _ _ Hb) in Dy. }
    intros i j x y [[<- <-]|[_ Hx]]%lookup_insert_Some [[<- <-]|[_ Hy]]%lookup_insert_Some Dx Dy Hxy; [done|by eapply Hone| |by eapply Hd].
    symmetry. by eapply Hone.
Qed.
Lemma addresses_delete m k : addresses_ok m → addresses_ok (delete k m).
Proof.
  intros [Hk Hf Hd]. split.
  - intros j b [_ Hb]%lookup_delete_Some. auto.
  - intros u. etrans; [apply count_delete|apply Hf].
  - intros i j x y [_ Hx]%lookup_delete_Some [_ Hy]%lookup_delete_Some. by apply Hd.
Qed.

(** *** What the operations did *)

Definition set_addresses (m : gmap Z Address) (s : St) : St := set_db (λ d, d <| d_addresses := m |>) s.
Lemma addresses_of_elem d u a : a ∈ addresses_of d u ↔ ad_user_id a = u ∧ ∃ k, d_addresses d !! k = Some a.
Proof. unfold addresses_of. by rewrite merge_sort_Permutation, rows_where_elem, String.eqb_eq. Qed.
Lemma addresses_of_length d u : Z.of_nat (length (addresses_of d u)) = count_rows (owned u) (d_addresses d).
Proof. unfold addresses_of. by rewrite merge_sort_Permutation, length_rows_where. Qed.
Lemma addresses_of_nil d u : addresses_of d u = [] ↔ ∀ k a, d_addresses d !! k = Some a → ad_user_id a ≠ u.
Proof.
  split.
  - intros Hn k a Ha Hu. assert (a ∈ addresses_of d u) as Hin by (apply addresses_of_elem; eauto). rewrite Hn in Hin. by apply elem_of_nil in Hin.
  - intros Hall. destruct (addresses_of d u) as [|a l] eqn:He; [done|]. assert (a ∈ addresses_of d u) as Hin by (rewrite He; left).
    apply addresses_of_elem in Hin as (Hu & k & Hk). by destruct (Hall _ _ Hk).
Qed.

Definition undefault (a : Address) : Address := a <| ad_is_default := false |>.
Lemma set_addresses_twice m m' s : set_addresses m (set_addresses m' s) = set_addresses m s.
Proof. done. Qed.
Lemma set_addresses_same s : set_addresses (d_addresses (st_db s)) s = s.
Proof. by destruct s as [[] ? ? ? ? ?]. Qed.
Lemma set_addresses_db m s : d_addresses (st_db (set_addresses m s)) = m.
Proof. done. Qed.
Lemma update_address_inr k f a s s' :
  update_address_row k f s = (inr a, s') →
  ∃ old, d_addresses (st_db s) !! k = Some old ∧ a = f old ∧ s' = set_addresses (<[k := a]> (d_addresses (st_db s))) s.
Proof. unfold update_address_row. intros Hrun. runs. eauto. Qed.
Lemma clear_each l : ∀ s x s',
  for_each l (λ a, if ad_is_default a then _ ← update_address_row (ad_id a) undefault; mret tt else mret tt) s = (inr x, s') →
  ∃ m, s' = set_addresses m s ∧
    ∀ k, m !! k = (if existsb (λ a, ad_is_default a && (ad_id a =? k)) l then undefault else id) <$> d_addresses (st_db s) !! k.
Proof.
  induction l as [|a l IH]; intros s x s' Hrun; cbn [for_each] in Hrun.
  - apply ret_inr in Hrun as [_ ->]. exists (d_addresses (st_db s)). split; [by rewrite set_addresses_same|]. intros k. cbn.
    by destruct (_ !! k).
  - apply bind_inr in Hrun as (y & s1 & Hone & Hrun). destruct (IH _ _ _ Hrun) as (m & -> & Hm). clear IH Hrun. cbn [existsb].
    destruct (ad_is_default a); cbn [andb orb].
    + apply bind_inr in Hone as (b & s2 & Hup & Hone). apply ret_inr in Hone as [_ ->]. apply update_address_inr in Hup as (old & Ho & -> & ->).
      exists m. split; [by rewrite set_addresses_twice|]. intros k. rewrite Hm, set_addresses_db. destruct (Z.eqb_spec (ad_id a) k) as [<-|Hne]; cbn.
      * rewrite lookup_insert_eq, Ho. cbn. by destruct (existsb _ _).
      * by rewrite lookup_insert_ne.
    + apply ret_inr in Hone as [_ ->]. by exists m.
Qed.
Lemma clear_default_inr u s x s' :
  addresses_ok (d_addresses (st_db s)) → clear_default_for_user u s = (inr x, s') →
  s' = set_addresses (cleared u <$> d_addresses (st_db s)) s.
Proof.
  intros [Hkeys _ _] Hrun. unfold clear_default_for_user, list_for_user in Hrun. apply bind_inr in Hrun as (l & s1 & Hl & Hrun).
  apply db_gets_inr in Hl as [-> ->]. apply clear_each in Hrun as (m & -> & Hm). f_equal. apply map_eq. intros k.
  rewrite Hm, lookup_fmap. destruct (d_addresses (st_db s) !! k) as [a|] eqn:Ha; [|done]. cbn. f_equal. unfold cleared.
  destruct (existsb _ _) eqn:Hex.
  - apply existsb_exists in Hex as (b & Hb%list_elem_of_In%addresses_of_elem & [Hd Hid%Z.eqb_eq]%andb_true_iff).
    destruct Hb as (Hu & j & Hj). rewrite <-(Hkeys _ _ Hj) in Hj. rewrite Hid, Ha in Hj. simplify_eq. unfold owned. by rewrite String.eqb_refl.
  - destruct (owned u a) eqn:Hu; [|done]. destruct (ad_is_default a) eqn:Hd; [|by destruct a; cbn in *; subst].
    assert (existsb (λ b, ad_is_default b && (ad_id b =? k)) (addresses_of (st_db s) u) = true) as Ht; [|congruence].
    apply existsb_exists. exists a. rewrite <-list_elem_of_In, addresses_of_elem, Hd, (Hkeys _ _ Ha), Z.eqb_refl.
    apply String.eqb_eq in Hu. eauto.
Qed.
Lemma insert_address_inr a x s s' :
  insert_address a s = (inr x, s') → d_addresses (st_db s) !! ad_id a = None ∧ s' = set_addresses (<[ad_id a := a]> (d_addresses (st_db s))) s.
Proof.
  unfold insert_address. intros Hrun. runs. guards_passed Hp. by apply Forall_inv, eq_sym, check_None, bool_decide_eq_true in Hp.
Qed.
Lemma owned_inr k u a s s' :
  _get_owned k u s = (inr a, s') → s' = s ∧ d_addresses (st_db s) !! k = Some a ∧ ad_user_id a = u.
Proof.
  unfold _get_owned, get_address_by_id. intros Hrun. apply bind_inr in Hrun as (o & s1 & Ho & Hrun). apply db_gets_inr in Ho as [-> ->].
  destruct (_ !! k) as [b|]; [|done]. destruct (String.eqb _ _) eqn:Hu; [|done]. apply ret_inr in Hrun as [-> ->]. by apply String.eqb_eq in Hu.
Qed.

(** The addresses of the others. *)
Definition others_same (u : uuid) (m m' : gmap Z Address) : Prop := ∀ k a, ad_user_id a ≠ u → m' !! k = Some a ↔ m !! k = Some a.
Lemma others_refl u m : others_same u m m.
Proof. done. Qed.
Lemma others_trans u m1 m2 m3 : others_same u m1 m2 → others_same u m2 m3 → others_same u m1 m3.
Proof. intros H1 H2 k a Hu. rewrite (H2 k a Hu). by apply H1. Qed.
Lemma others_cleared u m : others_same u m (cleared u <$> m).
Proof.
  intros k a Hu. rewrite lookup_fmap_Some. unfold cleared, owned. split.
  - intros (b & Hb & Hk). destruct (String.eqb_spec (ad_user_id b) u); subst; [|done]. by destruct Hu.
  - intros Hk. exists a. by rewrite (proj2 (String.eqb_neq _ _) Hu).
Qed.
Lemma others_insert u m k a' : ad_user_id a' = u → (∀ a, m !! k = Some a → ad_user_id a = u) → others_same u m (<[k := a']> m).
Proof.
  intros Hu' Hu j a Hne. rewrite lookup_insert_Some. split; [by intros [[_ ->]|[_ ?]]|]. intros Hj. right. split; [|done].
  intros ->. by apply Hne, Hu.
Qed.
Lemma others_delete u m k : (∀ a, m !! k = Some a → ad_user_id a = u) → others_same u m (delete k m).
Proof.
  intros Hu j a Hne. rewrite lookup_delete_Some. split; [by intros [_ ?]|]. intros Hj. split; [|done]. intros ->. by apply Hne, Hu.
Qed.
Lemma others_default u v m m' : others_same u m m' → v ≠ u → has_default m v → has_default m' v.
Proof.
  intros Ho Hne Hd (k & a & Ha & Hv). destruct Hd as (j & b & Hb & Hu & Hdef); [exists k, a; split; [apply Ho; [congruence|done]|done]|].
  exists j, b. split; [|done]. apply Ho; [congruence|done].
Qed.

Lemma new_address_inr u l s s' :
  new_address_allowed u s = (inr l, s') → l = addresses_of (st_db s) u ∧ s' = s ∧ count_rows (owned u) (d_addresses (st_db s)) < MAX_ADDRESSES_PER_USER.
Proof.
  unfold new_address_allowed, list_for_user. intros Hrun. apply bind_inr in Hrun as (l0 & s1 & Hl & Hrun). apply db_gets_inr in Hl as [-> ->].
  apply bind_inr in Hrun as (x & s1 & Hlim & Hrun). apply raise_if_inr in Hlim as [Hlim%Z.leb_gt ->]. apply ret_inr in Hrun as [-> ->].
  by rewrite addresses_of_length in Hlim.
Qed.
Lemma create_address_inr u p s a s' :
  let m := d_addresses (st_db s) in let m' := d_addresses (st_db s') in
  addresses_ok m → create_address u p s = (inr a, s') →
  addresses_ok m' ∧ others_same u m m' ∧ (has_default m u → has_default m' u) ∧ m' !! ad_id a = Some a.
Proof.
  intros m m' Hok Hrun. unfold create_address in Hrun. apply bind_inr in Hrun as (l & s1 & Hl & Hrun).
  apply new_address_inr in Hl as (-> & -> & Hlim). unfold store_address in Hrun. cbv zeta in Hrun. apply bind_inr in Hrun as (y & s1 & Hclear & Hrun).
  set (some := bool_decide (addresses_of (st_db s) u = [])) in *. set (def := ac_is_default p || some) in *.
  assert (∃ m1, s1 = set_addresses m1 s ∧ addresses_ok m1 ∧ others_same u m m1 ∧ count_rows (owned u) m1 < MAX_ADDRESSES_PER_USER ∧
    (def = true → no_default m1 u) ∧ (def = false → m1 = m ∧ ∃ k a, m !! k = Some a ∧ ad_user_id a = u)) as (m1 & -> & Hok1 & Ho1 & Hlim1 & Hno & Hsame).
  { destruct def eqn:Hdef; cbn in Hclear; [destruct some eqn:Hs; cbn in Hclear|].
    - apply ret_inr in Hclear as [_ ->]. exists m. split_and!; [by unfold m; rewrite set_addresses_same|done..| |done]. intros _ k b Hb Hu.
      apply bool_decide_eq_true in Hs. by destruct (proj1 (addresses_of_nil _ _) Hs k b Hb).
    - apply clear_default_inr in Hclear; [|done]. destruct (addresses_cleared u m Hok) as [Hok1 Hno]. eexists. split_and!; [done|done| | |done|done].
      + apply others_cleared.
      + rewrite count_fmap; [done|]. intros b. unfold owned. by rewrite (proj1 (proj2 (cleared_facts u b))).
    - apply ret_inr in Hclear as [_ ->]. exists m. apply orb_false_iff in Hdef as [_ Hs%bool_decide_eq_false].
      split_and!; [by unfold m; rewrite set_addresses_same|done..|]. intros _. split; [done|].
      destruct (addresses_of (st_db s) u) as [|b l] eqn:Hl; [done|]. assert (b ∈ addresses_of (st_db s) u) as Hin by (rewrite Hl; left).
      apply addresses_of_elem in Hin as (Hu & k & Hk). eauto. }
  clearbody some def. apply bind_inr in Hrun as (aid & s2 & Hid & Hrun). apply new_id_inr in Hid as [-> ->].
  apply bind_inr in Hrun as (t & s2 & Ht & Hrun). apply now_inr in Ht as [-> ->]. apply bind_inr in Hrun as (z & s2 & Hins & Hrun).
  apply ret_inr in Hrun as [-> ->]. apply insert_address_inr in Hins as [Hn ->]. cbn in Hn. unfold m'. rewrite set_addresses_db. cbn [st_db ad_id put].
  match goal with |- addresses_ok (<[_ := ?b]> _) ∧ _ => set (new := b) end. change (d_addresses _) with m1 in Hn |- *. split_and!.
  - by apply (addresses_insert m1 new).
  - eapply others_trans; [done|]. apply others_insert; [done|]. intros b Hb. cbn in Hb. congruence.
  - intros Hd _. destruct def eqn:Hdef; [exists (ad_id new), new; by rewrite lookup_insert_eq|]. destruct (Hsame eq_refl) as [-> Hs].
    destruct (Hd Hs) as (k & b & Hb & Hu & Hdb). exists k, b. rewrite lookup_insert_ne; [done|]. intros Heq. cbn in Heq. congruence.
  - by rewrite lookup_insert_eq.
Qed.

Lemma update_address_full k u p s a s' :
  let m := d_addresses (st_db s) in let m' := d_addresses (st_db s') in
  addresses_ok m → update_address k u p s = (inr a, s') →
  addresses_ok m' ∧ others_same u m m' ∧ (au_is_default p ≠ Some false → has_default m u → has_default m' u) ∧ m' !! k = Some a.
Proof.
  intros m m' Hok Hrun. unfold update_address in Hrun. apply bind_inr in Hrun as (old & s1 & Hold & Hrun).
  apply owned_inr in Hold as (-> & Hold & Hu). pose proof (ao_keys _ Hok _ _ Hold) as Hid. apply bind_inr in Hrun as (def & s1 & Hdef & Hrun).
  assert (∃ m1 b, s1 = set_addresses m1 s ∧ addresses_ok m1 ∧ others_same u m m1 ∧ m1 !! k = Some b ∧ ad_user_id b = u ∧ ad_id b = k ∧
    (def = true → ad_is_default b = true ∨ no_default m1 u) ∧
    (au_is_default p ≠ Some false → def = true ∨ m1 = m ∧ ad_is_default old = false)) as (m1 & b & -> & Hok1 & Ho1 & Hb & Hbu & Hbid & Hd & Hkeep).
  { assert (∀ d, (d = true → ad_is_default old = true) → (inr def, s1) = (inr d : Err + bool, s) → (au_is_default p = Some false ∨ d = ad_is_default old) → 
      ∃ m1 b, s1 = set_addresses m1 s ∧ addresses_ok m1 ∧ others_same u m m1 ∧ m1 !! k = Some b ∧ ad_user_id b = u ∧ ad_id b = k ∧
    (def = true → ad_is_default b = true ∨ no_default m1 u) ∧
    (au_is_default p ≠ Some false → def = true ∨ m1 = m ∧ ad_is_default old = false)) as Hsame.
    { intros d Hdo [= -> ->] Hp. exists m, old. split_and!; [by unfold m; rewrite set_addresses_same|done..| |]; [auto|].
      intros Hne. destruct Hp as [Hp| ->]; [done|]. destruct (ad_is_default old); auto. }
    destruct (au_is_default p) as [[|]|].
    - destruct (ad_is_default old) eqn:Hdo; [by apply (Hsame true); [done|by rewrite <-Hdef|right]|]. clear Hsame.
      apply bind_inr in Hdef as (x & s2 & Hclear & Hdef). apply ret_inr in Hdef as [-> ->]. apply clear_default_inr in Hclear; [|done].
      destruct (addresses_cleared u m Hok) as [Hok1 Hno]. destruct (cleared_facts u old) as (Hi & Hus & _).
      exists (cleared u <$> m), (cleared u old). split_and!; [done|done|apply others_cleared| |congruence|congruence|by right|by left].
      rewrite lookup_fmap. unfold m. by rewrite Hold.
    - destruct (ad_is_default old) eqn:Hdo; [|by apply (Hsame false); [done|by rewrite <-Hdef|left]]. unfold list_for_user in Hdef.
      apply bind_inr in Hdef as (l & s2 & Hl & Hdef). apply db_gets_inr in Hl as [-> ->]. apply ret_inr in Hdef as [-> ->].
      eapply Hsame; [|reflexivity|by left]. done.
    - by apply (Hsame (ad_is_default old)); [done|by rewrite <-Hdef|right]. }
  apply update_address_inr in Hrun as (b' & Hb' & -> & ->). rewrite Hid, set_addresses_db, Hb in Hb'. injection Hb' as <-.
  unfold m'. rewrite Hid. rewrite !set_addresses_db. set (new := address_updates p b <| ad_is_default := def |>). split_and!.
  - apply (addresses_update m1 k b new); [done|done|done|done|]. rewrite Hbu. exact Hd.
  - eapply others_trans; [done|]. apply others_insert; [done|]. intros x Hx. congruence.
  - intros Hne Hdef0 _. destruct (Hkeep Hne) as [->|[-> Hfalse]].
    + exists k, new. by rewrite lookup_insert_eq.
    + destruct Hdef0 as (j & x & Hx & Hxu & Hxd); [eauto|]. exists j, x. rewrite lookup_insert_ne; [done|]. intros ->. unfold m in Hx. congruence.
  - by rewrite lookup_insert_eq.
Qed.

Lemma delete_address_full k u s x s' :
  let m := d_addresses (st_db s) in let m' := d_addresses (st_db s') in
  addresses_ok m → delete_address k u s = (inr x, s') →
  addresses_ok m' ∧ others_same u m m' ∧ (has_default m u → has_default m' u) ∧ m' !! k = None.
Proof.
  intros m m' Hok Hrun. unfold delete_address in Hrun. apply bind_inr in Hrun as (old & s1 & Hold & Hrun).
  apply owned_inr in Hold as (-> & Hold & Hu). pose proof (ao_keys _ Hok _ _ Hold) as Hid. rewrite Hid in Hrun.
  apply bind_inr in Hrun as (y & s1 & Hdel & Hrun). apply upd_inr in Hdel as ->. set (m1 := delete k m).
  change (set_db _ s) with (set_addresses m1 s) in Hrun. pose proof (addresses_delete m k Hok) as Hok1. fold m1 in Hok1.
  assert (others_same u m m1) as Ho1 by (apply others_delete; intros b Hb; unfold m in Hb; congruence).
  assert (m1 !! k = None) as Hgone by apply lookup_delete_eq.
  destruct (ad_is_default old) eqn:Hdef.
  - unfold list_for_user in Hrun. apply bind_inr in Hrun as (l & s2 & Hl & Hrun). apply db_gets_inr in Hl as [-> ->].
    destruct (addresses_of _ u) as [|a rest] eqn:Hl.
    + apply ret_inr in Hrun as [_ ->]. unfold m'. rewrite set_addresses_db. split_and!; [done..| |done].
      intros _ (j & b & Hb & Hbu). by destruct (proj1 (addresses_of_nil _ u) Hl j b Hb).
    + apply bind_inr in Hrun as (b & s2 & Hup & Hrun). apply ret_inr in Hrun as [_ ->]. apply update_address_inr in Hup as (c & Hc & -> & ->).
      assert (a ∈ addresses_of (st_db (set_addresses m1 s)) u) as Hin by (rewrite Hl; left).
      apply addresses_of_elem in Hin as (Hau & j & Hj). rewrite set_addresses_db in *. rewrite (ao_keys _ Hok1 _ _ Hj) in *. simplify_eq.
      unfold m'. rewrite !set_addresses_db, (ao_keys _ Hok1 _ _ Hc). set (new := c <| ad_is_default := true |>).
      assert (no_default m1 (ad_user_id c)) as Hno.
      { intros i z [Hne Hz]%lookup_delete_Some Hzu. destruct (ad_is_default z) eqn:Hzd; [|done].
        destruct Hne. eapply (ao_default _ Hok); [exact Hold|exact Hz|done..|congruence]. }
      split_and!.
      * apply (addresses_update m1 j c new); auto.
      * eapply others_trans; [done|]. apply others_insert; [done|]. intros z Hz. congruence.
      * intros _ _. exists j, new. by rewrite lookup_insert_eq.
      * rewrite lookup_insert_ne; [done|]. intros ->. congruence.
  - apply ret_inr in Hrun as [_ ->]. unfold m'. rewrite set_addresses_db. split_and!; [done..| |done].
    intros Hd _. destruct Hd as (j & b & Hb & Hbu & Hbd); [eauto|]. exists j, b. split; [|done]. unfold m1. rewrite lookup_delete_ne; [done|].
    intros ->. unfold m in Hb. congruence.
Qed.

(** ** Wishlists and reviews *)

Record wishlist_ok (m : gmap Z WishlistItem) : Prop := {
  wo_few : ∀ u, count_rows (saved_by u) m ≤ WISHLIST_LIMIT;
  wo_once : ∀ i j v w, m !! i = Some v → m !! j = Some w → wi_user_id v = wi_user_id w → wi_product_id v = wi_product_id w → i = j
}.
Record reviews_ok (m : gmap Z ProductReview) : Prop := {
  ro_keys : ∀ k r, m !! k = Some r → rv_id r = k;
  ro_checks : ∀ k r, m !! k = Some r → product_reviews_checks r = None;
  ro_once : ∀ i j r t, m !! i = Some r → m !! j = Some t → rv_product_id r = rv_product_id t → rv_user_id r = rv_user_id t → i = j
}.
Definition personal_of (d : DB) := (d_addresses d, d_wishlist d, d_reviews d).
Definition personal_ok (d : DB) : Prop := addresses_ok (d_addresses d) ∧ wishlist_ok (d_wishlist d) ∧ reviews_ok (d_reviews d).
Lemma personal_same d d' : personal_of d' = personal_of d → personal_ok d → personal_ok d'.
Proof. intros [= Ha Hw Hr]. unfold personal_ok. by rewrite Ha, Hw, Hr. Qed.

Lemma wishlist_insert m w :
  wishlist_ok m → m !! wi_id w = None → count_rows (saved_by (wi_user_id w)) m < WISHLIST_LIMIT →
  (∀ k v, m !! k = Some v → ¬ (wi_user_id v = wi_user_id w ∧ wi_product_id v = wi_product_id w)) → wishlist_ok (<[wi_id w := w]> m).
Proof.
  intros [Hf Ho] Hn Hlt Hnew. split.
  - intros u. rewrite count_fresh by done. destruct (saved_by u w) eqn:Hu; [|apply Hf]. apply String.eqb_eq in Hu. subst u. lia.
  - intros i j x y [[<- <-]|[_ Hx]]%lookup_insert_Some [[<- <-]|[_ Hy]]%lookup_insert_Some Hu Hp; [done| | |by eapply Ho].
    + by destruct (Hnew _ _ Hy).
    + by destruct (Hnew _ _ Hx).
Qed.
Lemma wishlist_filter m P `{∀ x, Decision (P x)} : wishlist_ok m → wishlist_ok (filter P m).
Proof.
  intros [Hf Ho]. split.
  - intros u. etrans; [apply count_filter|apply Hf].
  - intros i j x y [Hx _]%map_lookup_filter_Some [Hy _]%map_lookup_filter_Some. by apply Ho.
Qed.

Lemma save_allowed_inr user pid b s s' :
  save_allowed user pid s = (inr b, s') →
  b = exists_row (λ w, saved_by (u_id user) w && (wi_product_id w =? pid)) (d_wishlist (st_db s)) ∧ s' = s ∧
  (b = false → count_rows (saved_by (u_id user)) (d_wishlist (st_db s)) < WISHLIST_LIMIT).
Proof.
  unfold save_allowed, _count. intros Hrun. apply bind_inr in Hrun as (p & s1 & Hp & Hrun). unfold _public_product in Hp.
  read_only Hp. clear Hp. apply bind_inr in Hrun as (here & s1 & Hb & Hrun). apply db_gets_inr in Hb as [-> ->].
  apply bind_inr in Hrun as (x & s1 & Hadd & Hrun). apply ret_inr in Hrun as [-> ->]. destruct (exists_row _ _) eqn:Hhere.
  - apply ret_inr in Hadd as [_ ->]. by split_and!.
  - runs. split_and!; [done..|]. intros _. by apply Z.leb_gt.
Qed.
(** Saving is refused beyond the limit; saving again changes nothing. *)
Lemma wishlist_add_inr user pid s r s' :
  wishlist_add user pid s = (inr r, s') →
  let here d := exists_row (λ w, saved_by (u_id user) w && (wi_product_id w =? pid)) (d_wishlist d) in
  here (st_db s') = true ∧ r = MkWishlistState pid true (count_rows (saved_by (u_id user)) (d_wishlist (st_db s'))) ∧
  (here (st_db s) = true → s' = s) ∧
  (here (st_db s) = false → count_rows (saved_by (u_id user)) (d_wishlist (st_db s)) < WISHLIST_LIMIT ∧
     ∃ w, wi_user_id w = u_id user ∧ wi_product_id w = pid ∧ d_wishlist (st_db s) !! wi_id w = None ∧
       d_wishlist (st_db s') = <[wi_id w := w]> (d_wishlist (st_db s))).
Proof.
  intros Hrun here. unfold wishlist_add in Hrun. apply bind_inr in Hrun as (b & s1 & Hb & Hrun).
  apply save_allowed_inr in Hb as (-> & -> & Hlim). fold (here (st_db s)) in Hrun, Hlim. unfold store_save in Hrun.
  apply bind_inr in Hrun as (x & s1 & Hadd & Hrun). unfold _count in Hrun. runs. destruct (here (st_db s)) eqn:Hhere.
  - apply ret_inr in Hadd as [_ ->]. by split_and!.
  - specialize (Hlim eq_refl). unfold insert_wishlist_item in Hadd. runs. unfold here in Hhere.
    cbn [wi_user_id wi_product_id st_db put] in *. pose proof (proj1 (exists_row_false _ _) Hhere) as Hnone.
    match goal with H : (if ?b then _ else _) _ = _ |- _ => assert (b = false) as Hdup by exact Hhere; rewrite Hdup in H; rename H into Hins end.
    runs. guards_passed Hg. apply Forall_inv, eq_sym, check_None, bool_decide_eq_true in Hg. cbn in Hg. split_and!; [|done|done|].
    + unfold here. rewrite exists_row_true. rewrite db_set; cbn. eexists _, _. rewrite lookup_insert_eq. split; [done|].
      unfold saved_by. cbn. by rewrite String.eqb_refl, Z.eqb_refl.
    + intros _. split; [done|]. rewrite db_set; cbn. eexists (MkWishlistItem _ _ _ _). by split_and!.
Qed.

Lemma reviews_insert m r :
  reviews_ok m → m !! rv_id r = None → product_reviews_checks r = None →
  (∀ k t, m !! k = Some t → ¬ (rv_product_id t = rv_product_id r ∧ rv_user_id t = rv_user_id r)) → reviews_ok (<[rv_id r := r]> m).
Proof.
  intros [Hk Hc Ho] Hn Hr Hnew. split.
  - intros k t [[<- <-]|[_ Ht]]%lookup_insert_Some; auto.
  - intros k t [[<- <-]|[_ Ht]]%lookup_insert_Some; eauto.
  - intros i j x y [[<- <-]|[_ Hx]]%lookup_insert_Some [[<- <-]|[_ Hy]]%lookup_insert_Some Hp Hu; [done| | |by eapply Ho].
    + by destruct (Hnew _ _ Hy).
    + by destruct (Hnew _ _ Hx).
Qed.

(** ** Every request keeps it so *)

Definition pers (s s' : St) : Prop := personal_ok (st_db s) → personal_ok (st_db s').
#[export] Instance pers_refl : Reflexive pers.
Proof. intros s Hs. exact Hs. Qed.
#[export] Instance pers_trans : Transitive pers.
Proof. intros a b c Hab Hbc Ha. auto. Qed.
Lemma pers_other s s' : personal_of (st_db s') = personal_of (st_db s) → pers s s'.
Proof. exact (personal_same (st_db s) (st_db s')). Qed.
Lemma pers_upd f : (∀ d, personal_of (f d) = personal_of d) → guar pers (upd f).
Proof. intros Hf s. apply pers_other, Hf. Qed.
(** The table of reviews alone. *)
Definition revs (s s' : St) : Prop := reviews_ok (d_reviews (st_db s)) → reviews_ok (d_reviews (st_db s')).
#[export] Instance revs_refl : Reflexive revs.
Proof. intros s Hs. exact Hs. Qed.
#[export] Instance revs_trans : Transitive revs.
Proof. intros a b c Hab Hbc Ha. auto. Qed.
Lemma revs_insert_review r : guar revs (insert_review r).
Proof.
  intros s. unfold insert_review, gets, mbind, ST_bind; cbn. destruct (first_violation _) eqn:Hg; cbn; [reflexivity|].
  intros Hr. cbn. passed Hg. apply eq_sym, check_None, bool_decide_eq_true in Hg0.
  apply eq_sym, check_None, negb_true_iff in Hg2. apply reviews_insert; [done|done|done|]. intros k t Ht [Hp Hu].
  pose proof (proj1 (exists_row_false _ _) Hg2 k t Ht) as Hf. cbn in Hf. by rewrite Hp, Hu, Z.eqb_refl, String.eqb_refl in Hf.
Qed.
Lemma revs_update_review k f :
  (∀ r, (rv_id (f r), rv_product_id (f r), rv_user_id (f r)) = (rv_id r, rv_product_id r, rv_user_id r)) → guar revs (update_review k f).
Proof.
  intros Hf s. unfold update_review, gets, of_option, mbind, ST_bind; cbn. destruct (d_reviews (st_db s) !! k) as [r|] eqn:Hr; cbn; [|reflexivity].
  destruct (product_reviews_checks (f r)) eqn:Hg; cbn; [reflexivity|]. intros [Rk Rc Ro]. cbn.
  injection (Hf r) as Hi Hp Hu. split.
  - intros j t [[<- <-]|[_ Ht]]%lookup_insert_Some; [rewrite Hi|]; auto.
  - intros j t [[<- <-]|[_ Ht]]%lookup_insert_Some; [done|eauto].
  - intros i j x y [[<- <-]|[_ Hx]]%lookup_insert_Some [[<- <-]|[_ Hy]]%lookup_insert_Some ? ?; [done|..]; eapply Ro; eauto; congruence.
Qed.
Lemma revs_delete_review k : guar revs (delete_review k).
Proof.
  intros s [Rk Rc Ro]. split; cbn; intros.
  - match goal with H : delete _ _ !! _ = _ |- _ => apply lookup_delete_Some in H as [_ ?] end. auto.
  - match goal with H : delete _ _ !! _ = _ |- _ => apply lookup_delete_Some in H as [_ ?] end. eauto.
  - repeat match goal with H : delete _ _ !! _ = _ |- _ => apply lookup_delete_Some in H as [_ ?] end. eauto.
Qed.
(** A statement about reviews leaves the other two tables alone. *)
Lemma pers_revs {A} (m : M A) : guar revs m → guar (keeps (λ s, (d_addresses (st_db s), d_wishlist (st_db s)))) m → guar pers m.
Proof. intros Hr Hk s (Ha & Hw & Hrs). specialize (Hk s). injection Hk as Ka Kw. unfold personal_ok. rewrite Ka, Kw. split_and!; auto. by apply Hr. Qed.
Lemma pers_insert_review r : guar pers (insert_review r).
Proof. apply pers_revs; [apply revs_insert_review|uncommitted]. Qed.
Lemma pers_update_review k f :
  (∀ r, (rv_id (f r), rv_product_id (f r), rv_user_id (f r)) = (rv_id r, rv_product_id r, rv_user_id r)) → guar pers (update_review k f).
Proof. intros Hf. apply pers_revs; [by apply revs_update_review|uncommitted]. Qed.
Lemma pers_delete_review k : guar pers (delete_review k).
Proof. apply pers_revs; [apply revs_delete_review|uncommitted]. Qed.
Lemma pers_delete_wishlist u p : guar pers (delete_wishlist_item u p).
Proof. intros s (Ha & Hw & Hr). split_and!; [done| |done]. by apply wishlist_filter. Qed.

Create HintDb pers discriminated.
#[local] Hint Resolve pers_insert_review pers_delete_review pers_delete_wishlist : pers.
#[local] Hint Extern 1 (guar pers (update_review _ _)) => (apply pers_update_review; intros []; cbn; repeat case_match; reflexivity) : pers.
Ltac pers_leaf :=
  first [ apply guar_ret; apply _ | apply guar_raise; apply _ | apply guar_gets; apply _ | apply guar_raise_if; apply _
        | apply guar_of_option; apply _ | apply guar_of_sum; apply _ | assumption
        | solve [eauto 1 with pers nocore]
        | apply pers_upd; intros ?; reflexivity
        | intros ?; apply pers_other; reflexivity ].

(** The method of a request: what it commits when it returns. *)
Definition tends {A} (m : M A) : Prop :=
  guar (keeps st_committed) m ∧ ∀ s a s', m s = (inr a, s') → personal_ok (st_db s) → personal_ok (st_db s').
Lemma tends_guar {A} (m : M A) : guar (keeps st_committed) m → guar pers m → tends m.
Proof. intros Hc Hm. split; [done|]. intros s a s' Hrun. by apply (guar_ran _ _ _ _ _ Hrun Hm). Qed.
Definition personal_rest (s : St) : Prop := personal_of (st_db s) = personal_of (st_committed s).
Lemma tends_http {A} (m : M A) s : tends m → personal_ok (st_db s) → personal_rest s →
  personal_ok (st_db (http m s).2) ∧ personal_rest (http m s).2.
Proof.
  intros [Hc Hm] Hok Hrest. unfold http, get_db, mbind, ST_bind. specialize (Hc s). unfold keeps in Hc.
  destruct (m s) as [[e|a] s'] eqn:Hrun; cbn in *; [|split; [by eapply Hm|done]]. rewrite Hc. split; [by eapply personal_same|]. unfold personal_rest. cbn. by rewrite Hc.
Qed.

Section requests.
Context `{!Jwt}.

Lemma tends_signed_in {A} c (k : User → M A) : (∀ u, tends (k u)) → tends (u ← get_current_user c; k u).
Proof.
  intros Hk. split; [apply guar_bind; [apply _|uncommitted|intros u; apply Hk]|]. intros s a s' Hrun.
  apply bind_inr in Hrun as (u & s1 & Hu & Hrun). read_only Hu. by eapply Hk.
Qed.
Lemma tends_addresses {A} (m : M A) :
  guar (keeps st_committed) m → guar (keeps (λ s, (d_wishlist (st_db s), d_reviews (st_db s)))) m →
  (∀ s a s', m s = (inr a, s') → addresses_ok (d_addresses (st_db s)) → addresses_ok (d_addresses (st_db s'))) → tends m.
Proof.
  intros Hc Hk Hm. split; [done|]. intros s a s' Hrun (Ha & Hw & Hr). apply (guar_ran _ _ _ _ _ Hrun) in Hk.
  injection Hk as Hw' Hr'. unfold personal_ok. rewrite Hw', Hr'. eauto.
Qed.
Lemma tends_create_address u p : tends (create_address u p).
Proof. apply tends_addresses; [uncommitted..|]. intros s a s' Hrun Hok. by apply create_address_inr in Hrun as [? _]. Qed.
Lemma tends_update_address k u p : tends (update_address k u p).
Proof. apply tends_addresses; [uncommitted..|]. intros s a s' Hrun Hok. by apply update_address_full in Hrun as [? _]. Qed.
Lemma tends_delete_address k u : tends (delete_address k u).
Proof. apply tends_addresses; [uncommitted..|]. intros s a s' Hrun Hok. by apply delete_address_full in Hrun as [? _]. Qed.
Lemma tends_wishlist_add u p : tends (wishlist_add u p).
Proof.
  split; [uncommitted|]. intros s a s' Hrun (Ha & Hw & Hr).
  assert (guar (keeps (λ s, (d_addresses (st_db s), d_reviews (st_db s)))) (wishlist_add u p)) as Hk by uncommitted.
  apply (guar_ran _ _ _ _ _ Hrun) in Hk. injection Hk as Ha' Hr'. unfold personal_ok. rewrite Ha', Hr'. split_and!; [done| |done].
  apply wishlist_add_inr in Hrun as (_ & _ & Hsame & Hnew). cbv zeta in *. destruct (exists_row _ _) eqn:Hhere; [by rewrite Hsame|].
  destruct (Hnew eq_refl) as (Hlt & w & Hu & Hp & Hn & ->). subst. apply wishlist_insert; [done..|by rewrite Hu|]. intros k v Hv [Hvu Hvp].
  pose proof (proj1 (exists_row_false _ _) Hhere k v Hv) as Hf. cbn in Hf. unfold saved_by in Hf.
  by rewrite Hvu, Hu, Hvp, String.eqb_refl, Z.eqb_refl in Hf.
Qed.

Lemma serve_customer_ok r s : personal_ok (st_db s) → personal_rest s →
  personal_ok (st_db (serve_customer r s).2) ∧ personal_rest (serve_customer r s).2.
Proof.
  intros Hok Hrest. destruct r; cbn [serve_customer]; unfold validated; repeat case_match; try done; (apply tends_http; [|done..]);
    first [ apply tends_signed_in; intros u; first [apply tends_create_address|apply tends_update_address|apply tends_delete_address|apply tends_wishlist_add]
          | apply tends_guar; [uncommitted|walk pers_leaf] ].
Qed.
End requests.

(** A customer's request, or any work of the rest of the program, between two states at rest. *)
Inductive customer_step `{!Jwt} : St → St → Prop :=
  | by_customer r s : customer_step s (serve_customer r s).2
  | by_others s s' : personal_of (st_db s') = personal_of (st_db s) → personal_rest s' → customer_step s s'.
Lemma customer_steps `{!Jwt} s s' :
  rtc customer_step s s' → personal_ok (st_db s) → personal_rest s → personal_ok (st_db s') ∧ personal_rest s'.
Proof.
  induction 1 as [s|s1 s2 s3 Hstep _ IH]; [done|]. intros Hok Hrest. destruct Hstep as [r s|s s' Heq Hrest'].
  - destruct (serve_customer_ok r s Hok Hrest). auto.
  - apply IH; [exact (personal_same _ _ Heq Hok)|done].
Qed.

(** A selection that the row of at most one key passes. *)
Lemma rows_where_unique {K} `{Countable K} {V} (p : V → bool) (m : gmap K V) :
  (∀ i j a b, m !! i = Some a → m !! j = Some b → p a = true → p b = true → i = j) → count_rows p m ≤ 1.
Proof.
  intros Hone. unfold count_rows, sum_rows.
  destruct (exists_row p m) eqn:Hex.
  - apply exists_row_true in Hex as (k & v & Hk & Hp). rewrite (sum_kv_delete _ m k v Hk), Hp.
    rewrite (sum_kv_zero _ (delete k m)); [lia|]. intros j w [Hne Hj]%lookup_delete_Some. destruct (p w) eqn:Hw; [|done].
    by destruct Hne; eapply Hone.
  - rewrite sum_kv_zero; [lia|]. intros j w Hj. by rewrite (proj1 (exists_row_false _ _) Hex j w Hj).
Qed.

(** At most one row of each kind. *)
Lemma default_found d u s : st_db s = d → addresses_ok (d_addresses d) →
  ∃ o, get_default_for_user u s = (inr o, s) ∧
    ∀ k a, d_addresses d !! k = Some a → ad_user_id a = u → ad_is_default a = true → o = Some a.
Proof.
  intros <- [_ _ Ad]. unfold get_default_for_user, gets, mbind, ST_bind. set (l := rows_where _ _).
  assert (Z.of_nat (length l) ≤ 1) as Hl.
  { unfold l. rewrite length_rows_where. apply rows_where_unique. intros i j a b Ha Hb [<-%String.eqb_eq Da]%andb_true_iff [Hu%String.eqb_eq Db]%andb_true_iff. by eapply Ad. }
  assert (∀ k a, d_addresses (st_db s) !! k = Some a → ad_user_id a = u → ad_is_default a = true → a ∈ l) as Hin.
  { intros k a Ha Hu Hd. apply rows_where_elem. rewrite Hu, String.eqb_refl, Hd. eauto. }
  destruct l as [|a [|b l]]; cbn in Hl |- *; [| |lia].
  - exists None. split; [done|]. intros k a Ha Hu Hd. destruct (proj1 (elem_of_nil a) (Hin k a Ha Hu Hd)).
  - exists (Some a). split; [done|]. intros k b Hb Hu Hd. specialize (Hin k b Hb Hu Hd). apply list_elem_of_singleton in Hin. congruence.
Qed.
Lemma saved_once m u pid :
  (∀ i j v w, m !! i = Some v → m !! j = Some w → wi_user_id v = wi_user_id w → wi_product_id v = wi_product_id w → i = j) →
  count_rows (λ w : WishlistItem, saved_by u w && (wi_product_id w =? pid)) (m : gmap Z WishlistItem) ≤ 1.
Proof.
  intros Wo. apply rows_where_unique. intros i j v w Hv Hw [Hu%String.eqb_eq Hp%Z.eqb_eq]%andb_true_iff
    [Hu'%String.eqb_eq Hp'%Z.eqb_eq]%andb_true_iff. eapply Wo; [done..|congruence|congruence].
Qed.
Lemma reviewed_once d u pid : reviews_ok (d_reviews d) → Z.of_nat (length (reviews_by d u pid)) ≤ 1.
Proof.
  intros [_ _ Ro]. unfold reviews_by. rewrite length_rows_where. apply rows_where_unique. intros i j v w Hv Hw [Hp%Z.eqb_eq Hu%String.eqb_eq]%andb_true_iff
    [Hp'%Z.eqb_eq Hu'%String.eqb_eq]%andb_true_iff. eapply Ro; [done..|congruence|congruence].
Qed.
Lemma stars_one_to_five d k r : reviews_ok (d_reviews d) → d_reviews d !! k = Some r → 1 ≤ rv_rating r ≤ 5.
Proof.
  intros [_ Rc _] Hr. pose proof (Rc _ _ Hr) as Hc. unfold product_reviews_checks in Hc. passed Hc.
  apply eq_sym, check_None, andb_true_iff in Hg as [H1%Z.leb_le H5%Z.leb_le]. done.
Qed.

(** ** The default address *)

(** Every request but the one that unsets a default. *)
Definition keeps_default (r : CustomerRequest) : Prop :=
  match r with ChangeAddress _ _ p => au_is_default p ≠ Some false | _ => True end.
Definition defaulting {A} (m : M A) : Prop := ∀ s a s' u, m s = (inr a, s') → addresses_ok (d_addresses (st_db s)) →
  has_default (d_addresses (st_db s)) u → has_default (d_addresses (st_db s')) u.
Lemma defaulting_kept {A} (m : M A) : guar (keeps (λ s, d_addresses (st_db s))) m → defaulting m.
Proof. intros Hm s a s' u Hrun _. by rewrite (guar_ran _ _ _ _ _ Hrun Hm). Qed.
Lemma defaulting_signed_in `{!Jwt} {A} c (k : User → M A) :
  (∀ u s a s', k u s = (inr a, s') → addresses_ok (d_addresses (st_db s)) →
     others_same (u_id u) (d_addresses (st_db s)) (d_addresses (st_db s')) ∧
     (has_default (d_addresses (st_db s)) (u_id u) → has_default (d_addresses (st_db s')) (u_id u))) →
  defaulting (u ← get_current_user c; k u).
Proof.
  intros Hk s a s' v Hrun Hok. apply bind_inr in Hrun as (u & s1 & Hu & Hrun). read_only Hu. destruct (Hk _ _ _ _ Hrun Hok) as [Ho Hd].
  destruct (decide (v = u_id u)) as [->|]; [done|]. by eapply others_default.
Qed.
Lemma defaulting_http {A} (m : M A) s u :
  guar (keeps st_committed) m → defaulting m → personal_ok (st_db s) → personal_rest s →
  has_default (d_addresses (st_db s)) u → has_default (d_addresses (st_db (http m s).2)) u.
Proof.
  intros Hc Hm (Ha & _) Hrest. unfold http, get_db, mbind, ST_bind. specialize (Hc s). unfold keeps in Hc.
  destruct (m s) as [[e|a] s'] eqn:Hrun; cbn in *; [|by eapply Hm]. rewrite Hc. by injection Hrest as <- _ _.
Qed.

(** A customer who has addresses keeps a default one: the first address becomes the default, a new default replaces the
    old one, and when the default is removed another takes its place; only unsetting it explicitly can leave none. *)
Theorem default_address_kept `{!Jwt} r s u :
  personal_ok (st_db s) → personal_rest s → keeps_default r →
  has_default (d_addresses (st_db s)) u → has_default (d_addresses (st_db (serve_customer r s).2)) u.
Proof.
  intros Hok Hrest Hr. destruct r; cbn [serve_customer]; unfold validated; repeat case_match; try done;
    (apply defaulting_http; [uncommitted| |done..]); try solve [apply defaulting_kept; uncommitted]; apply defaulting_signed_in; intros v t a t' Hrun Haok.
  - by apply create_address_inr in Hrun as (_ & Ho & Hd & _).
  - apply update_address_full in Hrun as (_ & Ho & Hd & _); [|done]. split; [done|]. by apply Hd.
  - by apply delete_address_full in Hrun as (_ & Ho & Hd & _).
Qed.

(** ** Reviews: who may write one, and what is stored *)

(** Cleaning a text. *)
Lemma drop_chars_length p s : (String.length (drop_chars p s) ≤ String.length s)%nat.
Proof. induction s as [|c s IH]; cbn; [done|]. destruct (p c); cbn; lia. Qed.
Lemma collapse_length p w s : ∀ run, (String.length (collapse p w run s) ≤ String.length s)%nat.
Proof.
  induction s as [|c s IH]; intros run; cbn; [done|]. pose proof (IH true). pose proof (IH false). destruct (p c), run; cbn; lia.
Qed.
Lemma lstrip_length s : (String.length (lstrip s) ≤ String.length s)%nat.
Proof. induction s as [|c s IH]; cbn; [done|]. destruct (is_space c); cbn; lia. Qed.
Lemma rstrip_length s : (String.length (rstrip s) ≤ String.length s)%nat.
Proof. induction s as [|c s IH]; cbn; [done|]. destruct (rstrip s), (is_space c); cbn in *; lia. Qed.
Lemma not_blank c : is_space c = false → (Ascii.nat_of_ascii c =? 32)%nat = false.
Proof. unfold is_space. by intros [[-> _]%orb_false_iff _]%orb_false_iff. Qed.
Lemma lstrip_head s : match lstrip s with EmptyString => True | String c _ => is_space c = false end.
Proof. induction s as [|c s IH]; cbn; [done|]. by destruct (is_space c) eqn:Hc. Qed.
Lemma rtrim_rstrip s : rtrim (rstrip s) = rstrip s.
Proof.
  induction s as [|c s IH]; cbn; [done|]. destruct (rstrip s) as [|c' s'] eqn:Hs.
  - destruct (is_space c) eqn:Hc; cbn; [done|]. by rewrite (not_blank _ Hc).
  - cbn [rtrim] in *. by rewrite IH.
Qed.
(** What [str.strip] leaves, [btrim] leaves as it is. *)
Lemma btrim_strip s : btrim (py_strip s) = py_strip s.
Proof.
  unfold btrim, py_strip. pose proof (lstrip_head s) as Hh. destruct (lstrip s) as [|c t]; [done|].
  assert (ltrim (rstrip (String c t)) = rstrip (String c t)) as ->; [|apply rtrim_rstrip].
  cbn [rstrip]. destruct (rstrip t); rewrite ?Hh; cbn; by rewrite (not_blank _ Hh).
Qed.
Lemma clean_checked limit t b : at_most limit t = true → text_check limit (_clean t b) = true.
Proof.
  destruct t as [x|]; cbn; [|done]. intros Hle%Nat.leb_le. set (y := collapse _ _ _ _).
  destruct (String.eqb_spec (py_strip y) "") as [|Hne]; [done|]. cbn. rewrite btrim_strip. apply andb_true_iff. split.
  - by destruct (py_strip y).
  - apply Nat.leb_le. etrans; [apply rstrip_length|]. etrans; [apply lstrip_length|]. etrans; [apply collapse_length|].
    etrans; [apply drop_chars_length|done].
Qed.
Lemma parsed_review_checked n t b p :
  parse_review n t b = Some p → ∀ i pid u now,
  product_reviews_checks (MkReview i pid u (rc_rating p) (rc_title p) (rc_body p) "published" None None now) = None.
Proof.
  unfold parse_review. destruct (stars_ok n && _ && _) eqn:Hok; [|done]. intros [= <-] i pid u now.
  apply andb_true_iff in Hok as [[Hn Ht]%andb_true_iff Hb]. unfold stars_ok in Hn. unfold product_reviews_checks. cbn [rv_rating rv_title rv_body rv_status rc_rating rc_title rc_body].
  rewrite Hn, (clean_checked _ _ _ Ht), (clean_checked _ _ _ Hb). done.
Qed.

(** An order of hers that is paid or fulfilled contains it. *)
Definition has_bought (d : DB) (u : uuid) (pid : Z) : Prop :=
  ∃ k i o, d_items d !! k = Some i ∧ oi_product_id i = pid ∧ d_orders d !! oi_order_id i = Some o ∧ o_user_id o = Some u ∧
    (o_status o = PAID ∨ o_status o = FULFILLED).
Lemma bought_spec d u pid : bought d u pid = true ↔ has_bought d u pid.
Proof.
  unfold bought, has_bought. rewrite exists_row_true. split.
  - intros (k & i & Hi & [Hp%Z.eqb_eq Ho]%andb_true_iff). destruct (d_orders d !! oi_order_id i) as [o|] eqn:Hord; [|done].
    apply andb_true_iff in Ho as [Hu Hs%bool_decide_eq_true]. exists k, i, o. split_and!; try done.
    + by apply bool_decide_eq_true in Hu.
    + set_solver.
  - intros (k & i & o & Hi & Hp & Ho & Hu & Hs). exists k, i. split; [done|]. rewrite Ho, Hu, opt_eqb_refl, (proj2 (Z.eqb_eq _ _) Hp). cbn.
    apply bool_decide_eq_true. set_solver.
Qed.
Lemma reviews_by_nil d u pid : reviews_by d u pid = [] ↔
  exists_row (λ x, (rv_product_id x =? pid) && String.eqb (rv_user_id x) u) (d_reviews d) = false.
Proof. unfold reviews_by. by rewrite rows_where_nil, exists_row_false. Qed.

(** C18. A customer can review a product exactly when it exists, an order of hers that is paid or fulfilled contains it, and she
    has not reviewed it yet: a body that passes its schema is never refused by the table. The review is published at once with
    the stars given, and nothing else of the reviews changes. *)
Theorem review_needs_purchase user pid n t b p s :
  parse_review n t b = Some p → is_Some (d_users (st_db s) !! u_id user) → d_reviews (st_db s) !! st_next_id s = None →
  ((∃ r s', create_review user pid p s = (inr r, s')) ↔
     is_Some (d_products (st_db s) !! pid) ∧ has_bought (st_db s) (u_id user) pid ∧ reviews_by (st_db s) (u_id user) pid = []) ∧
  ∀ r s', create_review user pid p s = (inr r, s') →
    ∃ v, d_reviews (st_db s') = <[rv_id v := v]> (d_reviews (st_db s)) ∧ d_reviews (st_db s) !! rv_id v = None ∧
      rv_user_id v = u_id user ∧ rv_product_id v = pid ∧ rv_rating v = n ∧ rv_status v = "published" ∧ rr_status r = Some "published".
Proof.
  intros Hp Hu Hfresh. pose proof (parsed_review_checked _ _ _ _ Hp) as Hchecks.
  assert (rc_rating p = n) as Hn by (unfold parse_review in Hp; destruct (_ && _); by simplify_eq).
  rewrite reviews_by_nil, <-bought_spec. unfold create_review, _bought, catch_integrity, try_catch, savepoint, insert_review, of_option, raise_if, now, new_id,
    db_gets, gets, modify, mbind, ST_bind, mret, ST_ret, raise. cbn.
  destruct (d_products (st_db s) !! pid) as [product|] eqn:Hprod; cbn; [|split; [split; [naive_solver|by intros [[? ?] _]]|done]].
  destruct (bought _ _ _); cbn; [|split; [split; [naive_solver|by intros (_ & ? & _)]|done]].
  rewrite Hchecks. rewrite !(bool_decide_eq_true_2 _) by (done || by rewrite Hprod). cbn.
  destruct (exists_row _ _) eqn:Hex; unfold guard, upd, modify, first_violation, check; cbn; split; try done.
  - split; [naive_solver|by intros (_ & _ & ?)].
  - split; [by intros _; split_and!|intros _]. eauto.
  - intros r s' [= <- <-]. cbn.
    exists (MkReview (st_next_id s) pid (u_id user) (rc_rating p) (rc_title p) (rc_body p) "published" None None (st_now s)). by split_and!.
Qed.

(** ** The summary of the stars *)

Lemma sum_between {K} `{Countable K} {V} (p : V → bool) (f : V → Z) a b (m : gmap K V) :
  (∀ k v, m !! k = Some v → a ≤ f v ≤ b) → a * count_rows p m ≤ sum_rows (λ v, if p v then f v else 0) m ≤ b * count_rows p m.
Proof.
  unfold count_rows, sum_rows. induction m as [|k v m Hk IH] using map_ind; intros Hf; [rewrite !sum_kv_empty; lia|].
  rewrite !sum_kv_fresh by done. pose proof (Hf k v ltac:(apply lookup_insert_eq)) as Hv.
  assert (∀ j w, m !! j = Some w → a ≤ f w ≤ b) as Hm by (intros j w Hj; apply (Hf j); rewrite lookup_insert_ne; [done|congruence]).
  specialize (IH Hm). destruct (p v); lia.
Qed.
(** Stars from one to five, counted one by one. *)
Lemma stars_weighted (w : Z → Z) (p : ProductReview → bool) (m : gmap Z ProductReview) :
  (∀ k r, m !! k = Some r → 1 ≤ rv_rating r ≤ 5) →
  sumZ (map (λ n, w n * count_rows (λ r, p r && (rv_rating r =? n)) m) FIVE_STARS) = sum_rows (λ r, if p r then w (rv_rating r) else 0) m.
Proof.
  unfold count_rows, sum_rows, sumZ, FIVE_STARS. cbn [map foldr]. induction m as [|k r m Hk IH] using map_ind; intros Hr.
  { rewrite !sum_kv_empty. lia. }
  rewrite !sum_kv_fresh by done. rewrite <-IH by (intros j t Hj; apply (Hr j); rewrite lookup_insert_ne; [done|congruence]).
  destruct (p r); cbn [andb]; [|lia]. pose proof (Hr k r ltac:(apply lookup_insert_eq)) as Hb. clear IH Hr.
  assert (rv_rating r = 1 ∨ rv_rating r = 2 ∨ rv_rating r = 3 ∨ rv_rating r = 4 ∨ rv_rating r = 5) as Hcases by lia.
  destruct Hcases as [-> |[-> |[-> |[-> | ->]]]]; cbn; lia.
Qed.

(** The summary of a product's stars, put together from five counts, is that of its published reviews: their number, and
    for the average the sum of their stars, which is between one and five stars each; hidden reviews do not count. *)
Theorem summary_exact d pid :
  reviews_ok (d_reviews d) →
  let shown := published_of pid in let total := sum_rows (λ r, if shown r then rv_rating r else 0) (d_reviews d) in
  su_count (summary_of d pid) = count_rows shown (d_reviews d) ∧
  su_average (summary_of d pid) = (if su_count (summary_of d pid) =? 0 then None else Some (total, su_count (summary_of d pid))) ∧
  su_count (summary_of d pid) ≤ total ≤ 5 * su_count (summary_of d pid) ∧
  sumZ (map snd (su_distribution (summary_of d pid))) = su_count (summary_of d pid).
Proof.
  intros Hok shown total. assert (∀ k r, d_reviews d !! k = Some r → 1 ≤ rv_rating r ≤ 5) as Hr by (intros k r; by apply stars_one_to_five).
  assert (su_count (summary_of d pid) = count_rows shown (d_reviews d)) as Hcount.
  { unfold count_rows at 1. rewrite <-(stars_weighted (λ _, 1) shown _ Hr). cbn. rewrite !Z.mul_1_l. done. }
  split_and!; [done| | | |done].
  - unfold summary_of. cbn [su_average su_count]. unfold total. rewrite <-(stars_weighted (λ n, n) shown _ Hr), map_map. done.
  - rewrite Hcount. destruct (sum_between shown rv_rating 1 5 _ Hr). unfold total. lia.
  - rewrite Hcount. by destruct (sum_between shown rv_rating 1 5 _ Hr).
Qed.

(** ** Witnesses: Alice's addresses, her review *)

Lemma nobody_yet d : personal_of d = (∅, ∅, ∅) → personal_ok d.
Proof.
  intros [= Ha Hw Hr]. unfold personal_ok. rewrite Ha, Hw, Hr. split_and!; split; try (intros k x Hk; by rewrite lookup_empty in Hk); try done.
Qed.
Definition alice_key : string := tp_access_token (pair_of signed_in.1).
Definition home (line1 : string) : AddressCreate := MkAddressCreate "Alice" line1 None "Pune" "Maharashtra" "411001" "IN" false.
Definition moved : St := (serve_customer (NewAddress alice_key (home "2 Side Street")) (serve_customer (NewAddress alice_key (home "1 Main Road")) signed_in.2).2).2.
Lemma signed_in_personal : personal_ok (st_db signed_in.2) ∧ personal_rest signed_in.2.
Proof. split; [apply nobody_yet; vm_compute; reflexivity|vm_compute; reflexivity]. Qed.
Lemma moved_steps : rtc customer_step signed_in.2 moved.
Proof. eapply rtc_l; [apply by_customer|]. eapply rtc_l; [apply by_customer|]. apply rtc_refl. Qed.
Lemma moved_personal : personal_ok (st_db moved) ∧ personal_rest moved.
Proof. exact (customer_steps _ _ moved_steps (proj1 signed_in_personal) (proj2 signed_in_personal)). Qed.


(** The default is removed: the other address takes its place. *)
Definition first_home : Z := default 0 (head (map fst (filter (λ kv, ad_is_default kv.2 = true) (map_to_list (d_addresses (st_db moved)))))).
Lemma moved_has_default : has_default (d_addresses (st_db moved)) "alice".
Proof.
  intros _. destruct (d_addresses (st_db moved) !! first_home) as [a|] eqn:Ha; [|by vm_compute in Ha].
  exists first_home, a. vm_compute in Ha. injection Ha as <-. by vm_compute.
Qed.
Lemma default_address_kept_witness : has_default (d_addresses (st_db (serve_customer (RemoveAddress alice_key first_home) moved).2)) "alice".
Proof.
  refine (default_address_kept (RemoveAddress alice_key first_home) moved "alice" (proj1 moved_personal) (proj2 moved_personal) _ moved_has_default).
  exact I.
Defined.

Definition alice_user : User := MkUser "alice" "alice" "alice@example.com" "" USER true None 0.
Definition praise : ReviewCreate := MkReviewCreate 5 (Some "Great mug") None.
Lemma review_needs_purchase_witness :
  (∃ r s', create_review alice_user 1 praise shipped_day = (inr r, s')) ↔
    is_Some (d_products (st_db shipped_day) !! 1) ∧ has_bought (st_db shipped_day) "alice" 1 ∧ reviews_by (st_db shipped_day) "alice" 1 = [].
Proof.
  refine (proj1 (review_needs_purchase alice_user 1 5 (Some "  Great   mug ") (Some " ") praise shipped_day _ _ _)).
  - vm_compute. reflexivity.
  - vm_compute. by eexists.
  - vm_compute. reflexivity.
Defined.
Example alice_may_review : bought (st_db shipped_day) "alice" 1 = true.
Proof. vm_compute. reflexivity. Qed.

Definition reviewed : St := (create_review alice_user 1 praise shipped_day).2.
Lemma reviewed_ok : reviews_ok (d_reviews (st_db reviewed)).
Proof.
  assert (personal_ok (st_db shipped_day)) as Hok by (apply nobody_yet; vm_compute; reflexivity).
  assert (guar pers (create_review alice_user 1 praise)) as Hg by (walk pers_leaf).
  apply (Hg shipped_day), Hok.
Qed.
Lemma summary_exact_witness : su_count (summary_of (st_db reviewed) 1) = count_rows (published_of 1) (d_reviews (st_db reviewed)).
Proof. exact (proj1 (summary_exact (st_db reviewed) 1 reviewed_ok)). Defined.
