(* ===== verification/Overlap.v ===== *)
(** * Customers' requests that overlap

    [create_address] and the wishlist's [add] read, check a limit and then write, with no lock in between: two requests of one
    customer may both read before either writes. Here such a request takes two turns, and any other work may come between
    them. The limits that are left, and the constraints of the tables, hold however the turns are ordered. *)

From S2P Require Import Prelude Errors Schema Guards CatalogueGuards Evolution CatalogueEvolution Repositories Frames Runs Accounts Checkout.
From S2P Require Import Lifecycle Addresses Reviews Demo System ReturnsSpec AccountsSpec CustomerSpec.

Local Open Scope string_scope.
Local Open Scope list_scope.
Local Open Scope Z_scope.

(** ** The model *)

(** A creation that has read and checked what it needed, and has not written yet. *)
Inductive InFlight :=
  | Storing (user : uuid) (payload : AddressCreate) (existing : list Address)
  | Saving (user : User) (product : Z) (already : bool).
(** Its second turn: the rest of the method, and the commit or the rollback of the request. *)
Definition finish (x : InFlight) : M unit :=
  match x with Storing u p l => http (store_address u p l) | Saving u pid b => http (store_save u pid b) end.
Definition stores (u : uuid) (x : InFlight) : bool := match x with Storing v _ _ => String.eqb v u | _ => false end.
Definition saves (u : uuid) (x : InFlight) : bool := match x with Saving v _ already => String.eqb (u_id v) u && negb already | _ => false end.
Definition how_many (p : InFlight → bool) (l : list InFlight) : Z := Z.of_nat (length (List.filter p l)).
Definition creates (r : CustomerRequest) : bool := match r with NewAddress _ _ | Save _ _ => true | _ => false end.

Section turns.
Context `{!Jwt}.

(** The first turn. *)
Definition begin_address (c : string) (p : AddressCreate) : M InFlight :=
  user ← get_current_user c; existing ← new_address_allowed (u_id user); mret (Storing (u_id user) p existing).
Definition begin_save (c : string) (pid : Z) : M InFlight :=
  user ← get_current_user c; already ← save_allowed user pid; mret (Saving user pid already).

(** A turn of the shop, in which at most [W] creations of one kind by one customer are ever under way at once. *)
Inductive turn (W : Z) : St * list InFlight → St * list InFlight → Prop :=
  | turn_address c p s u l s' fl :
      begin_address c p s = (inr (Storing u p l), s') → how_many (stores u) fl < W → turn W (s, fl) (s', Storing u p l :: fl)
  | turn_save c pid s u b s' fl :
      begin_save c pid s = (inr (Saving u pid b), s') → (b = false → how_many (saves (u_id u)) fl < W) → turn W (s, fl) (s', Saving u pid b :: fl)
  | turn_finish x s l1 l2 : turn W (s, l1 ++ x :: l2) ((finish x s).2, l1 ++ l2)
  | turn_abandon x s l1 l2 : turn W (s, l1 ++ x :: l2) (s, l1 ++ l2)
  | turn_request r s fl : creates r = false → turn W (s, fl) ((serve_customer r s).2, fl)
  | turn_others s s' fl : personal_of (st_db s') = personal_of (st_db s) → personal_rest s' → turn W (s, fl) (s', fl).
End turns.

(** ** What every turn keeps *)

(** The constraints of the three tables, whatever their sizes. *)
Record neat (d : DB) : Prop := {
  ne_keys : ∀ k a, d_addresses d !! k = Some a → ad_id a = k;
  ne_once : ∀ i j v w, d_wishlist d !! i = Some v → d_wishlist d !! j = Some w → wi_user_id v = wi_user_id w → wi_product_id v = wi_product_id w → i = j;
  ne_reviews : reviews_ok (d_reviews d)
}.
Definition addresses_held (d : DB) (u : uuid) : Z := count_rows (owned u) (d_addresses d).
Definition saves_held (d : DB) (u : uuid) : Z := count_rows (saved_by u) (d_wishlist d).
(** Nobody has more than before, but for what [da] and [dw] allow. *)
Definition grows_by (da dw : uuid → Z) (d d' : DB) : Prop :=
  (neat d → neat d') ∧ (∀ u, addresses_held d' u ≤ addresses_held d u + da u) ∧ (∀ u, saves_held d' u ≤ saves_held d u + dw u).
Definition none (u : uuid) : Z := 0.
Definition modest (s s' : St) : Prop := grows_by none none (st_db s) (st_db s').
#[export] Instance modest_refl : Reflexive modest.
Proof. intros s. split_and!; [done|..]; intros u; unfold none; lia. Qed.
#[export] Instance modest_trans : Transitive modest.
Proof.
  intros a b c (N1 & A1 & W1) (N2 & A2 & W2). unfold modest, grows_by, none in *. split_and!; [auto|..]; intros u; [specialize (A1 u); specialize (A2 u)|specialize (W1 u); specialize (W2 u)]; lia.
Qed.
Lemma grows_modest da dw s s1 s' : modest s s1 → grows_by da dw (st_db s1) (st_db s') → grows_by da dw (st_db s) (st_db s').
Proof.
  intros (N1 & A1 & W1) (N2 & A2 & W2). split_and!; [auto|..]; intros u; [specialize (A1 u); specialize (A2 u)|specialize (W1 u); specialize (W2 u)]; unfold none in *; lia.
Qed.
Lemma modest_same s s' : personal_of (st_db s') = personal_of (st_db s) → modest s s'.
Proof.
  intros [= Ha Hw Hr]. unfold modest, grows_by, addresses_held, saves_held, none. rewrite Ha, Hw. split_and!; [|intros; lia..].
  intros []. by split; rewrite ?Ha, ?Hw, ?Hr.
Qed.
Lemma modest_update k f :
  (∀ a, (ad_id (f a), ad_user_id (f a)) = (ad_id a, ad_user_id a)) → guar modest (update_address_row k f).
Proof.
  intros Hf s. unfold update_address_row, gets, of_option, mbind, ST_bind. cbn. destruct (d_addresses (st_db s) !! k) as [a|] eqn:Ha; cbn; [|reflexivity].
  injection (Hf a) as Hi Hu. split_and!; [|intros u; unfold addresses_held; cbn; rewrite (count_update _ _ _ a); [unfold none; lia|done|unfold owned; by rewrite Hu]|intros u; unfold saves_held, none; cbn; lia].
  intros [Hk ? ?]. split; cbn; [|done..]. intros j b [[<- <-]|[_ Hb]]%lookup_insert_Some; [rewrite Hi|]; by apply Hk.
Qed.
Lemma modest_delete k : guar modest (delete_address_row k).
Proof.
  intros s. split_and!; [|intros u; unfold addresses_held, none; cbn; pose proof (count_delete (owned u) (d_addresses (st_db s)) k); lia|intros u; unfold saves_held, none; cbn; lia].
  intros [Hk ? ?]. split; cbn; [|done..]. intros j b [_ Hb]%lookup_delete_Some. by apply Hk.
Qed.
Lemma modest_unsave u p : guar modest (delete_wishlist_item u p).
Proof.
  intros s. split_and!; [|intros v; unfold addresses_held, none; cbn; lia|intros v; unfold saves_held, none; cbn]. 
  - intros [? Ho ?]. split; cbn; [done| |done]. intros i j x y [Hx _]%map_lookup_filter_Some [Hy _]%map_lookup_filter_Some. by apply Ho.
  - etrans; [apply count_filter|lia].
Qed.
Lemma modest_revs {A} (m : M A) : guar revs m → guar (keeps (λ s, (d_addresses (st_db s), d_wishlist (st_db s)))) m → guar modest m.
Proof.
  intros Hr Hk s. specialize (Hk s). specialize (Hr s). injection Hk as Ka Kw. unfold modest, grows_by, addresses_held, saves_held, none. rewrite Ka, Kw.
  split_and!; [|intros; lia..]. intros [? ? Hrev]. split; rewrite ?Ka, ?Kw; auto.
Qed.
Lemma modest_insert_review r : guar modest (insert_review r).
Proof. apply modest_revs; [apply revs_insert_review|uncommitted]. Qed.
Lemma modest_update_review k f :
  (∀ r, (rv_id (f r), rv_product_id (f r), rv_user_id (f r)) = (rv_id r, rv_product_id r, rv_user_id r)) → guar modest (update_review k f).
Proof. intros Hf. apply modest_revs; [by apply revs_update_review|uncommitted]. Qed.
Lemma modest_delete_review k : guar modest (delete_review k).
Proof. apply modest_revs; [apply revs_delete_review|uncommitted]. Qed.

Create HintDb modest discriminated.
#[local] Hint Resolve modest_insert_review modest_delete_review modest_unsave modest_delete : modest.
#[local] Hint Extern 1 (guar modest (update_review _ _)) => (apply modest_update_review; intros []; cbn; repeat case_match; reflexivity) : modest.
#[local] Hint Extern 1 (guar modest (update_address_row _ _)) => (apply modest_update; intros []; cbn; repeat case_match; reflexivity) : modest.
Ltac modest_leaf :=
  first [ apply guar_ret; apply _ | apply guar_raise; apply _ | apply guar_gets; apply _ | apply guar_raise_if; apply _
        | apply guar_of_option; apply _ | apply guar_of_sum; apply _ | assumption
        | solve [eauto 1 with modest nocore]
        | intros ?; apply modest_same; reflexivity ].

(** ** The turns *)

Lemma http_grows {A} (m : M A) da dw s :
  guar (keeps st_committed) m → (∀ a s', m s = (inr a, s') → grows_by da dw (st_db s) (st_db s')) → (∀ u, 0 ≤ da u ∧ 0 ≤ dw u) →
  personal_rest s → grows_by da dw (st_db s) (st_db (http m s).2) ∧ personal_rest (http m s).2.
Proof.
  intros Hc Hm Hpos Hrest. unfold http, get_db, mbind, ST_bind. specialize (Hc s). unfold keeps in Hc.
  destruct (m s) as [[e|a] s'] eqn:Hrun; cbn in *; [|split; [by eapply Hm|done]]. rewrite Hc. split; [|unfold personal_rest; cbn; by rewrite Hc].
  pose proof (modest_same s (rollback s).2 (eq_sym Hrest)) as (N & A1 & W1). cbn in N, A1, W1.
  split_and!; [done|..]; intros u; destruct (Hpos u); [specialize (A1 u)|specialize (W1 u)]; unfold none in *; lia.
Qed.
Lemma http_modest {A} (m : M A) s : guar (keeps st_committed) m → guar modest m → personal_rest s →
  modest s (http m s).2 ∧ personal_rest (http m s).2.
Proof.
  intros Hc Hm. apply http_grows; [done| |by intros; unfold none]. intros a s' Hrun. by apply (guar_ran _ _ _ _ _ Hrun Hm).
Qed.

Lemma store_address_grows u p l a s s' :
  store_address u p l s = (inr a, s') → grows_by (λ v, if String.eqb u v then 1 else 0) none (st_db s) (st_db s').
Proof.
  unfold store_address. cbv zeta. intros Hrun. apply bind_inr in Hrun as (x & s1 & Hclear & Hrun).
  assert (modest s s1) as Hs1. { eapply (guar_ran modest); [exact Hclear|]. walk modest_leaf. }
  apply bind_inr in Hrun as (aid & s2 & Hid & Hrun). apply new_id_inr in Hid as [-> ->].
  apply bind_inr in Hrun as (t & s2 & Ht & Hrun). apply now_inr in Ht as [-> ->]. apply bind_inr in Hrun as (z & s2 & Hins & Hrun).
  apply ret_inr in Hrun as [-> ->]. apply insert_address_inr in Hins as [Hn ->]. cbn in Hn.
  eapply grows_modest; [exact Hs1|]. unfold set_addresses. rewrite db_set. cbn. split_and!.
  - intros [Hk ? ?]. split; cbn; [|done..]. intros j b [[<- <-]|[_ Hb]]%lookup_insert_Some; [done|by apply Hk].
  - intros v. unfold addresses_held. cbn. rewrite count_fresh by done. unfold owned at 1. cbn. lia.
  - intros v. unfold saves_held, none. cbn. lia.
Qed.
Lemma store_save_grows user pid b r s s' :
  store_save user pid b s = (inr r, s') → grows_by none (λ v, if String.eqb (u_id user) v && negb b then 1 else 0) (st_db s) (st_db s').
Proof.
  assert (∀ s1, st_db s1 = st_db s → grows_by none (λ v, if String.eqb (u_id user) v && negb b then 1 else 0) (st_db s) (st_db s1)) as Hsame.
  { intros s1 ->. split_and!; [done|..]; intros v; unfold none; [lia|]. destruct (String.eqb _ _ && _); lia. }
  unfold store_save, _count. intros Hrun. apply bind_inr in Hrun as (x & s1 & Hadd & Hrun). runs. destruct b; [apply ret_inr in Hadd as [_ ->]; by apply Hsame|].
  unfold insert_wishlist_item in Hadd. runs. match goal with H : (if ?c then _ else _) _ = _ |- _ => destruct c eqn:Hdup end; [runs; by apply Hsame|].
  runs. guards_passed Hg. apply Forall_inv, eq_sym, check_None, bool_decide_eq_true in Hg. cbn in Hg, Hdup.
  pose proof (proj1 (exists_row_false _ _) Hdup) as Hnone. rewrite db_set. cbn. split_and!.
  - intros [? Ho ?]. split; cbn; [done| |done]. assert (∀ k v, d_wishlist (st_db s) !! k = Some v → ¬ (wi_user_id v = u_id user ∧ wi_product_id v = pid)) as Hnew.
    { intros k v Hv [Hu Hp]. pose proof (Hnone k v Hv) as Hf. cbn in Hf. by rewrite Hu, Hp, String.eqb_refl, Z.eqb_refl in Hf. }
    intros i j v w [[<- <-]|[_ Hv]]%lookup_insert_Some [[<- <-]|[_ Hw]]%lookup_insert_Some Hu Hp; [done| | |by eapply Ho].
    + by destruct (Hnew _ _ Hw).
    + by destruct (Hnew _ _ Hv).
  - intros v. unfold addresses_held, none. cbn. lia.
  - intros v. unfold saves_held. cbn. rewrite count_fresh by done. unfold saved_by at 1. cbn. rewrite andb_true_r. lia.
Qed.
Lemma finish_grows x s : personal_rest s →
  grows_by (λ u, if stores u x then 1 else 0) (λ u, if saves u x then 1 else 0) (st_db s) (st_db (finish x s).2) ∧ personal_rest (finish x s).2.
Proof.
  intros Hrest. destruct x as [u p l|user pid b]; cbn [finish stores saves]; (apply http_grows; [uncommitted| | |done]).
  - intros r s'. apply store_address_grows.
  - intros v. by destruct (String.eqb u v).
  - intros r s'. apply store_save_grows.
  - intros v. by destruct (String.eqb (u_id user) v), b.
Qed.
Lemma request_modest `{!Jwt} r s : creates r = false → personal_rest s →
  modest s (serve_customer r s).2 ∧ personal_rest (serve_customer r s).2.
Proof.
  intros Hr Hrest. destruct r; try done; cbn [serve_customer]; unfold validated; repeat case_match; try (split; [reflexivity|done]);
    (apply http_modest; [uncommitted|walk modest_leaf|done]).
Qed.

(** ** The invariant *)

Lemma how_many_cons p x l : how_many p (x :: l) = (if p x then 1 else 0) + how_many p l.
Proof. unfold how_many. cbn. destruct (p x); cbn [length]; lia. Qed.
Lemma how_many_middle p l1 x l2 : how_many p (l1 ++ x :: l2) = (if p x then 1 else 0) + how_many p (l1 ++ l2).
Proof. induction l1 as [|y l1 IH]; cbn [app]; rewrite !how_many_cons; [done|]. rewrite IH. lia. Qed.
Lemma how_many_pos p l : 0 ≤ how_many p l.
Proof. unfold how_many. lia. Qed.

Section invariant.
Context `{!Jwt} (W : Z).

(** Whatever is under way still fits. *)
Record roomy (w : St * list InFlight) : Prop := {
  ro_neat : neat (st_db w.1);
  ro_rest : personal_rest w.1;
  ro_addresses : ∀ u, addresses_held (st_db w.1) u + how_many (stores u) w.2 ≤ MAX_ADDRESSES_PER_USER - 1 + W;
  ro_saves : ∀ u, saves_held (st_db w.1) u + how_many (saves u) w.2 ≤ WISHLIST_LIMIT - 1 + W
}.
Lemma begin_address_inr c p x s s' : begin_address c p s = (inr x, s') →
  ∃ u, x = Storing u p (addresses_of (st_db s) u) ∧ s' = s ∧ addresses_held (st_db s) u < MAX_ADDRESSES_PER_USER.
Proof.
  unfold begin_address. intros Hrun. apply bind_inr in Hrun as (u & s1 & Hu & Hrun). read_only Hu.
  apply bind_inr in Hrun as (l & s2 & Hl & Hrun). apply new_address_inr in Hl as (-> & -> & Hlim). apply ret_inr in Hrun as [-> ->]. eauto.
Qed.
Lemma begin_save_inr c pid u b s s' : begin_save c pid s = (inr (Saving u pid b), s') →
  s' = s ∧ b = exists_row (λ w, saved_by (u_id u) w && (wi_product_id w =? pid)) (d_wishlist (st_db s)) ∧
  (b = false → saves_held (st_db s) (u_id u) < WISHLIST_LIMIT).
Proof.
  unfold begin_save. intros Hrun. apply bind_inr in Hrun as (v & s1 & Hu & Hrun). read_only Hu.
  apply bind_inr in Hrun as (here & s2 & Hl & Hrun). apply save_allowed_inr in Hl as (-> & -> & Hlim). apply ret_inr in Hrun as [[= -> ->] ->]. eauto.
Qed.
Lemma roomy_modest s s' fl : roomy (s, fl) → modest s s' → personal_rest s' → roomy (s', fl).
Proof.
  intros [Hn Hr Ha Hw] (N & A & W') Hrest. cbn in *. split; cbn; [auto|done|..]; intros u;
    [specialize (A u); specialize (Ha u)|specialize (W' u); specialize (Hw u)]; unfold none in *; lia.
Qed.
Lemma turn_roomy w w' : turn W w w' → roomy w → roomy w'.
Proof.
  intros Hturn Hroom. pose proof Hroom as [Hn Hr Ha Hw]. destruct Hturn as [c p s u l s' fl Hb Hlt|c pid s u b s' fl Hb Hlt|x s l1 l2|x s l1 l2|r s fl Hc|s s' fl Hp Hrest]; cbn in *.
  - apply begin_address_inr in Hb as (v & [= <- ->] & -> & Hlim). split; cbn; [done..| |]; intros v; rewrite how_many_cons; cbn [stores saves].
    + specialize (Ha v). destruct (String.eqb_spec u v) as [<-|]; lia.
    + by apply Hw.
  - apply begin_save_inr in Hb as (-> & _ & Hlim). split; cbn; [done..| |]; intros v; rewrite how_many_cons; cbn [stores saves]; [by apply Ha|].
    specialize (Hw v). destruct (String.eqb_spec (u_id u) v) as [<-|], b; cbn [andb negb]; [lia| |lia..].
    specialize (Hlim eq_refl). specialize (Hlt eq_refl). lia.
  - destruct (finish_grows x s Hr) as ((N & A & S') & Hrest). split; cbn; [auto|done|..]; intros v.
    + specialize (A v). specialize (Ha v). rewrite how_many_middle in Ha. lia.
    + specialize (S' v). specialize (Hw v). rewrite how_many_middle in Hw. lia.
  - split; cbn; [done..| |]; intros v; [specialize (Ha v); rewrite how_many_middle in Ha; destruct (stores v x); lia|].
    specialize (Hw v). rewrite how_many_middle in Hw. destruct (saves v x); lia.
  - destruct (request_modest r s Hc Hr) as [Hm Hrest]. by eapply roomy_modest.
  - eapply roomy_modest; [exact Hroom|by apply modest_same|done].
Qed.
Lemma turns_roomy w w' : rtc (turn W) w w' → roomy w → roomy w'.
Proof. induction 1 as [|w1 w2 w3 Hturn _ IH]; [done|]. intros Hroom. by eapply IH, turn_roomy. Qed.
Lemma start_roomy s : 1 ≤ W → personal_ok (st_db s) → personal_rest s → roomy (s, []).
Proof.
  intros HW ([Ak Af Ad] & [Wf Wo] & Hr) Hrest. split; cbn; [by split|done|..]; intros u; [specialize (Af u)|specialize (Wf u)];
    unfold addresses_held, saves_held, how_many; cbn; lia.
Qed.
End invariant.

(** *** One creation at a time: the default address *)

Section single.
Context `{!Jwt}.

(** At most one default address each, and whoever is about to store a first address has none. *)
Record single (w : St * list InFlight) : Prop := {
  si_default : ∀ i j a b, d_addresses (st_db w.1) !! i = Some a → d_addresses (st_db w.1) !! j = Some b →
    ad_is_default a = true → ad_is_default b = true → ad_user_id a = ad_user_id b → i = j;
  si_one : ∀ u, how_many (stores u) w.2 ≤ 1;
  si_first : ∀ u p, Storing u p [] ∈ w.2 → addresses_held (st_db w.1) u = 0
}.
Lemma single_ok w : roomy 1 w → single w → personal_ok (st_db w.1).
Proof.
  intros [[Hk Ho Hr] _ Ha Hw] [Hd _ _]. split_and!; [split; [done| |done]|split; [|done]|done]; intros u.
  - specialize (Ha u). pose proof (how_many_pos (stores u) w.2). unfold addresses_held in Ha. lia.
  - specialize (Hw u). pose proof (how_many_pos (saves u) w.2). unfold saves_held in Hw. lia.
Qed.
Lemma held_pos d u : 0 ≤ addresses_held d u.
Proof. unfold addresses_held. rewrite <-length_rows_where. lia. Qed.
Lemma held_none d u : addresses_held d u = 0 → no_default (d_addresses d) u.
Proof.
  unfold addresses_held. rewrite <-length_rows_where. intros Hz k a Ha <-. assert (a ∈ rows_where (owned (ad_user_id a)) (d_addresses d)) as Hin.
  { apply rows_where_elem. unfold owned. rewrite String.eqb_refl. eauto. }
  destruct (rows_where _ _); [by apply elem_of_nil in Hin|cbn in Hz; lia].
Qed.
Lemma store_address_ok u p l a s s' :
  addresses_ok (d_addresses (st_db s)) → count_rows (owned u) (d_addresses (st_db s)) < MAX_ADDRESSES_PER_USER →
  (l = [] → no_default (d_addresses (st_db s)) u) → store_address u p l s = (inr a, s') → addresses_ok (d_addresses (st_db s')).
Proof.
  intros Hok Hlim Hfirst Hrun. unfold store_address in Hrun. cbv zeta in Hrun. apply bind_inr in Hrun as (y & s1 & Hclear & Hrun).
  set (m := d_addresses (st_db s)) in *. set (def := ac_is_default p || bool_decide (l = [])) in *.
  assert (∃ m1, s1 = set_addresses m1 s ∧ addresses_ok m1 ∧ count_rows (owned u) m1 < MAX_ADDRESSES_PER_USER ∧ (def = true → no_default m1 u))
    as (m1 & -> & Hok1 & Hlim1 & Hno).
  { destruct def eqn:Hdef; cbn in Hclear; [destruct (bool_decide_reflect (l = [])) as [Hl|Hl]; cbn in Hclear|].
    - apply ret_inr in Hclear as [_ ->]. exists m. unfold m. rewrite set_addresses_same. split_and!; auto.
    - apply clear_default_inr in Hclear; [|done]. destruct (addresses_cleared u m Hok) as [Hok1 Hno]. eexists. split_and!; [done|done| |done].
      rewrite count_fmap; [done|]. intros b. unfold owned. by rewrite (proj1 (proj2 (cleared_facts u b))).
    - apply ret_inr in Hclear as [_ ->]. exists m. unfold m. rewrite set_addresses_same. by split_and!. }
  apply bind_inr in Hrun as (aid & s2 & Hid & Hrun). apply new_id_inr in Hid as [-> ->].
  apply bind_inr in Hrun as (t & s2 & Ht & Hrun). apply now_inr in Ht as [-> ->]. apply bind_inr in Hrun as (z & s2 & Hins & Hrun).
  apply ret_inr in Hrun as [-> ->]. apply insert_address_inr in Hins as [Hn ->]. cbn in Hn. rewrite set_addresses_db. cbn [st_db ad_id put].
  change (d_addresses _) with m1 in Hn |- *. match goal with |- addresses_ok (<[_ := ?b]> _) => by apply (addresses_insert m1 b) end.
Qed.
Lemma first_modest s s' fl : single (s, fl) → modest s s' → ∀ u p, Storing u p [] ∈ fl → addresses_held (st_db s') u = 0.
Proof.
  intros [_ _ Hf] (_ & A & _) u p Hin. specialize (Hf u p Hin). specialize (A u). cbn in *. unfold none in A. pose proof (held_pos (st_db s') u). lia.
Qed.
Lemma finish_single x s l1 l2 : roomy 1 (s, l1 ++ x :: l2) → single (s, l1 ++ x :: l2) → single ((finish x s).2, l1 ++ l2).
Proof.
  intros Hroom Hsing. pose proof (single_ok _ Hroom Hsing) as (Haok & _ & _). destruct Hroom as [_ Hr Ha _]. destruct Hsing as [Hd Ho Hf]. cbn in *.
  destruct (finish_grows x s Hr) as ((_ & A & _) & _). split; cbn.
  - assert (addresses_ok (d_addresses (st_db (finish x s).2))) as []; [|done]. destruct x as [u p l|user pid b]; cbn [finish]; unfold http, get_db, mbind, ST_bind.
    + assert (st_committed (store_address u p l s).2 = st_committed s) as Hc by (apply (guar_run (keeps st_committed)); uncommitted).
      destruct (store_address u p l s) as [[e|a] s'] eqn:Hrun; cbn in *; [rewrite Hc; injection Hr as <- _ _; exact Haok|].
      specialize (Ha u). rewrite how_many_middle in Ha. cbn [stores] in Ha. rewrite String.eqb_refl in Ha.
      pose proof (how_many_pos (stores u) (l1 ++ l2)). unfold addresses_held in Ha. eapply store_address_ok; [done| | |exact Hrun]; [lia|].
      intros ->. apply held_none, (Hf u p). set_solver.
    + assert (st_committed (store_save user pid b s).2 = st_committed s) as Hc by (apply (guar_run (keeps st_committed)); uncommitted).
      assert (d_addresses (st_db (store_save user pid b s).2) = d_addresses (st_db s)) as Hk by (apply (guar_run (keeps (λ s, d_addresses (st_db s)))); uncommitted).
      destruct (store_save user pid b s) as [[e|a] s'] eqn:Hrun; cbn in *; [rewrite Hc; injection Hr as <- _ _; exact Haok|]. by rewrite Hk.
  - intros u. specialize (Ho u). rewrite how_many_middle in Ho. destruct (stores u x); lia.
  - intros u p Hin. assert (Storing u p [] ∈ l1 ++ x :: l2) as Hin' by set_solver. specialize (Hf u p Hin'). specialize (A u). specialize (Ho u).
    rewrite how_many_middle in Ho. assert (1 ≤ how_many (stores u) (l1 ++ l2)) as Hone.
    { apply list_elem_of_split in Hin as (k1 & k2 & ->). rewrite how_many_middle. cbn [stores]. rewrite String.eqb_refl. pose proof (how_many_pos (stores u) (k1 ++ k2)). lia. }
    pose proof (held_pos (st_db (finish x s).2) u). destruct (stores u x); lia.
Qed.
Lemma turn_single w w' : turn 1 w w' → roomy 1 w → single w → single w'.
Proof.
  intros Hturn Hroom Hsing. pose proof (single_ok _ Hroom Hsing) as Hok. pose proof Hsing as [Hd Ho Hf].
  destruct Hturn as [c p s u l s' fl Hb Hlt|c pid s u b s' fl Hb Hlt|x s l1 l2|x s l1 l2|r s fl Hc|s s' fl Hp Hrest]; cbn in *.
  - apply begin_address_inr in Hb as (v & [= <- ->] & -> & _). split; cbn; [done|..].
    + intros v. rewrite how_many_cons. cbn [stores]. specialize (Ho v). destruct (String.eqb_spec u v) as [<-|]; lia.
    + intros v q [Heq|Hin]%elem_of_cons; [|by eapply Hf]. injection Heq as -> -> Hnil.
      unfold addresses_held. by rewrite <-addresses_of_length, <-Hnil.
  - apply begin_save_inr in Hb as (-> & _ & _). split; cbn; [done|..].
    + intros v. rewrite how_many_cons. by apply Ho.
    + intros v q [Heq|Hin]%elem_of_cons; [done|by eapply Hf].
  - by apply finish_single.
  - split; cbn; [done|..].
    + intros v. specialize (Ho v). rewrite how_many_middle in Ho. destruct (stores v x); lia.
    + intros v q Hin. apply (Hf v q). set_solver.
  - destruct Hroom as [_ Hr _ _]. destruct (request_modest r s Hc Hr) as [Hm _]. destruct (serve_customer_ok r s Hok Hr) as [([_ _ Had] & _) _].
    split; cbn; [exact Had|done|by eapply first_modest].
  - split; cbn; [injection Hp as -> _ _; exact Hd|done|by eapply first_modest; [|apply modest_same]].
Qed.
Lemma turns_single w w' : rtc (turn 1) w w' → roomy 1 w → single w → single w'.
Proof. induction 1 as [|w1 w2 w3 Hturn _ IH]; [done|]. intros Hroom Hsing. apply IH; [by eapply turn_roomy|by eapply turn_single]. Qed.
End single.

(** ** The limits *)

Section limits.
Context `{!Jwt}.

(** A creation whose two turns follow each other is the request served at once. *)
Lemma whole_address W c p s fl :
  personal_rest s → (∀ u, how_many (stores u) fl < W) → rtc (turn W) (s, fl) ((serve_customer (NewAddress c p) s).2, fl).
Proof.
  intros Hrest Hroom. assert (guar eq (begin_address c p)) as Hreads by uncommitted. specialize (Hreads s).
  assert (serve_customer (NewAddress c p) s = http (x ← begin_address c p; match x with Storing u p l => store_address u p l | _ => raise (RuntimeError "") end) s) as ->.
  { cbn [serve_customer]. unfold http, get_db, create_address_endpoint, create_address, begin_address, mbind, ST_bind.
    destruct (get_current_user c s) as [[e|u] s1]; [done|]. by destruct (new_address_allowed (u_id u) s1) as [[e|l] s2]. }
  destruct (begin_address c p s) as [[e|x] s1] eqn:Hb; cbn in Hreads; subst s1.
  - apply rtc_once. unfold http, get_db, mbind, ST_bind. rewrite Hb. cbn. by apply turn_others.
  - pose proof Hb as Hx. apply begin_address_inr in Hx as (u & -> & _ & _). eapply rtc_l; [by apply (turn_address W _ _ _ _ _ _ _ Hb)|].
    apply rtc_once. pose proof (turn_finish W (Storing u p (addresses_of (st_db s) u)) s [] fl) as Ht. cbn [app finish] in Ht.
    unfold http, get_db, mbind, ST_bind in *. by rewrite Hb.
Qed.

Lemma whole_save W c pid s fl :
  personal_rest s → (∀ u, how_many (saves u) fl < W) → rtc (turn W) (s, fl) ((serve_customer (Save c pid) s).2, fl).
Proof.
  intros Hrest Hroom. assert (guar eq (begin_save c pid)) as Hreads by uncommitted. specialize (Hreads s).
  assert (serve_customer (Save c pid) s = http (x ← begin_save c pid; match x with Saving u q b => store_save u q b | _ => raise (RuntimeError "") end) s) as ->.
  { cbn [serve_customer]. unfold http, get_db, add_to_wishlist, wishlist_add, begin_save, mbind, ST_bind.
    destruct (get_current_user c s) as [[e|u] s1]; [done|]. by destruct (save_allowed u pid s1) as [[e|l] s2]. }
  destruct (begin_save c pid s) as [[e|x] s1] eqn:Hb; cbn in Hreads; subst s1.
  - apply rtc_once. unfold http, get_db, mbind, ST_bind. rewrite Hb. cbn. by apply turn_others.
  - assert (∃ u b, x = Saving u pid b) as (u & b & ->).
    { unfold begin_save in Hb. apply bind_inr in Hb as (u & s1 & _ & Hb). apply bind_inr in Hb as (b & s2 & _ & Hb). apply ret_inr in Hb as [-> _]. eauto. }
    eapply rtc_l; [by apply (turn_save W _ _ _ _ _ _ _ Hb)|]. apply rtc_once. pose proof (turn_finish W (Saving u pid b) s [] fl) as Ht. cbn [app finish] in Ht.
    unfold http, get_db, mbind, ST_bind in *. by rewrite Hb.
Qed.

End limits.

(** ** Witness: Alice sends her first two addresses at once *)

Definition main_road : InFlight := Storing "alice" (home "1 Main Road") [].
Definition side_street : InFlight := Storing "alice" (home "2 Side Street") [].
Definition one_stored : St := (finish side_street signed_in.2).2.
Definition both_stored : St := (finish main_road one_stored).2.
Lemma begin_home line1 : begin_address alice_key (home line1) signed_in.2 = (inr (Storing "alice" (home line1) []), signed_in.2).
Proof. vm_compute. reflexivity. Qed.
Lemma both_turns : rtc (turn 2) (signed_in.2, []) (both_stored, []).
Proof.
  eapply rtc_l; [exact (turn_address 2 _ _ _ _ _ _ [] (begin_home "1 Main Road") eq_refl)|].
  eapply rtc_l; [exact (turn_address 2 _ _ _ _ _ _ [main_road] (begin_home "2 Side Street") eq_refl)|].
  eapply rtc_l; [exact (turn_finish 2 side_street signed_in.2 [] [main_road])|].
  exact (rtc_once _ _ (turn_finish 2 main_road one_stored [] [])).
Qed.
