(* ===== verification/TaxSpec.v ===== *)
(** * What the tax masters promise

    Theorems about [TaxAdmin] and the engine of [Tax] that reads what it writes: what can still keep GST from being worked out
    once the masters are in use, that approved records stand, that an approval takes two people, that the readiness report is
    exact, and that a search term is taken literally. *)

From S2P Require Import Prelude Decimal Errors Money GstCalc Schema Guards CatalogueGuards CatalogueOk TaxGuards TaxOk Evolution CatalogueEvolution TaxEvolution.
From S2P Require Import Invoice Repositories Frames Runs Lifecycle Tax Checkout Accounts Roles Images Products TaxAdmin Gateways StoreFront Demo System.
From S2P Require Import AccountsSpec AccessSpec CatalogueDemo.
Import Decimal.

Local Open Scope string_scope.
Local Open Scope list_scope.
Local Open Scope Z_scope.

(** ** At most one of each *)

(** A row that is the only one to pass a selection. *)
Lemma rows_where_single {K} `{Countable K} {V} (p : V → bool) (m : gmap K V) k v :
  m !! k = Some v → p v = true → (∀ j w, m !! j = Some w → p w = true → j = k) → rows_where p m = [v].
Proof.
  intros Hk Hp Hone. assert (rows_where p (delete k m) = []) as Hnil.
  { apply rows_where_nil. intros j w [Hne Hj]%lookup_delete_Some. destruct (p w) eqn:Hw; [|done]. by destruct Hne; symmetry; eapply Hone. }
  rewrite <-(insert_delete_id m k v Hk). apply Permutation_length_1_inv. symmetry.
  by rewrite rows_where_insert, Hp, Hnil by apply lookup_delete_eq.
Qed.
(** Two ranges that contain a day overlap. *)
Lemma covers_overlap from until from' until' day :
  covers from until day = true → covers from' until' day = true → ranges_overlap from until from' until' = true.
Proof.
  unfold covers, ranges_overlap, before. intros [?%Z.leb_le H1]%andb_true_iff [?%Z.leb_le H2]%andb_true_iff. apply andb_true_iff. split.
  - destruct until'; [|done]. apply Z.ltb_lt in H2. apply Z.ltb_lt. lia.
  - destruct until; [|done]. apply Z.ltb_lt in H1. apply Z.ltb_lt. lia.
Qed.

Definition in_force (cid day : Z) (r : TaxRule) : bool :=
  (tr_classification_id r =? cid) && String.eqb (tr_status r) "approved" && covers (tr_effective_from r) (tr_effective_to r) day.
Lemma in_force_true cid day r :
  in_force cid day r = true ↔
  tr_classification_id r = cid ∧ tr_status r = "approved" ∧ covers (tr_effective_from r) (tr_effective_to r) day = true.
Proof. unfold in_force. rewrite !andb_true_iff, Z.eqb_eq, String.eqb_eq. tauto. Qed.

Section masters.
Context (d : DB) (Hok : tax_ok (tax_of d)) (day : Z).

Lemma one_rule cid k r : d_rules d !! k = Some r → in_force cid day r = true → approved_rules_covering d cid day = [r].
Proof.
  intros Hk Hr. apply (rows_where_single _ _ k); [done|exact Hr|]. intros j w Hj Hw. apply (tk_rule_clash _ Hok j k w r Hj Hk).
  apply in_force_true in Hr as (H1 & H2 & H3). destruct (proj1 (in_force_true cid day w) Hw) as (H4 & H5 & H6). unfold rule_clash.
  by rewrite H2, H5, H1, H4, Z.eqb_refl, (covers_overlap _ _ _ _ day).
Qed.
Lemma rules_cases cid : approved_rules_covering d cid day = [] ∨
  ∃ k r, d_rules d !! k = Some r ∧ in_force cid day r = true ∧ approved_rules_covering d cid day = [r].
Proof.
  destruct (approved_rules_covering d cid day) as [|r l] eqn:He; [by left|right].
  assert (r ∈ approved_rules_covering d cid day) as Hr by (rewrite He; left). apply rows_where_elem in Hr as [Hr [k Hk]].
  exists k, r. split; [done|]. split; [exact Hr|]. by rewrite <-He, (one_rule cid k r).
Qed.
Definition settings_in_force (b : BusinessTaxSettings) : bool :=
  String.eqb (ts_status b) "approved" && covers (ts_effective_from b) (ts_effective_to b) day.
Lemma settings_cases : approved_settings_covering d day = [] ∨
  ∃ k b, d_tax_settings d !! k = Some b ∧ ts_status b = "approved" ∧ approved_settings_covering d day = [b].
Proof.
  destruct (approved_settings_covering d day) as [|b l] eqn:He; [by left|right].
  assert (b ∈ approved_settings_covering d day) as Hb by (rewrite He; left). apply rows_where_elem in Hb as [Hb [k Hk]].
  exists k, b. split; [done|]. pose proof Hb as [Ha%String.eqb_eq Hc]%andb_true_iff. split; [done|]. rewrite <-He.
  apply (rows_where_single _ _ k); [done|exact Hb|]. intros j w Hj [Hw%String.eqb_eq Hwc]%andb_true_iff.
  apply (tk_settings_clash _ Hok j k w b Hj Hk). unfold settings_clash. by rewrite Ha, Hw, (covers_overlap _ _ _ _ day).
Qed.
Lemma treatment_known k r : d_rules d !! k = Some r → tr_treatment r ∈ KNOWN_TREATMENTS.
Proof.
  intros Hk. destruct (tk_rules _ Hok _ _ Hk) as [_ Hc]. unfold rules_checks in Hc. constraints_passed Hc. by apply bool_decide_eq_true in Hg3.
Qed.

(** What keeps a line from being taxed, by its classification. *)
Lemma line_blocker_cases l cid :
  tl_classification_id l = Some cid → approved_classification (tax_of d) cid →
  line_blocker d day l =
    match approved_rules_covering d cid day with [] => Some (MkBlocker (Some (tl_product_id l)) "no_applicable_rule") | _ => None end.
Proof.
  intros Hl (c & Hc & Ha). unfold line_blocker. rewrite Hl. unfold classification_statuses. cbn in Hc. rewrite Hc. cbn [fmap option_fmap option_map].
  rewrite Ha, opt_eqb_refl. cbn [negb].
  destruct (rules_cases cid) as [->|(k & r & Hk & _ & ->)]; [done|]. rewrite bool_decide_eq_true_2; [done|]. by eapply treatment_known.
Qed.
Lemma config_blockers_cases b :
  b ∈ (evaluate_config d day).2 → bl_reason b = "no_approved_tax_settings" ∨ bl_reason b = "registration_not_valid_on_date".
Proof.
  unfold evaluate_config. destruct settings_cases as [->|(k & x & Hk & Ha & ->)]; [by intros ->%list_elem_of_singleton; left|]. cbn [snd].
  destruct (tk_settings_link _ Hok _ _ Hk Ha) as (g & Hg & Hga). unfold get_registration. cbn in Hg. rewrite Hg, Hga. cbn.
  destruct (_ || _); [intros ->%list_elem_of_singleton; by right|by intros ?%elem_of_nil].
Qed.
End masters.

Section system.
Context `{!Settings} `{!Crypto} `{!Providers} `{!Store} `{!AccountSettings} `{!Passwords} `{!Jwt} `{!Mailer} `{!CatalogueSettings} `{!Storage} `{!TaxAdminSettings} `{!Secrets}.
Context `{!ProvidersOk} `{!MailerOk} `{!StorageOk}.

(** C12. Whatever is requested and in whatever order, the masters are never ambiguous or half approved: on no day does the engine
    find two configurations, a configuration of a registration that is not approved, two rules for a classification, a rule of
    unknown treatment, or a product whose classification is not approved. All that can keep a product from being taxed is that
    nothing was approved for the day: no configuration, a registration not valid then, no classification, no rule. And an
    approved rule in force is the one rule the engine uses. *)
Theorem tax_never_ambiguous rs s day :
  sound s →
  let d := st_committed (run rs s) in
  (∀ b, b ∈ (evaluate_config d day).2 → bl_reason b = "no_approved_tax_settings" ∨ bl_reason b = "registration_not_valid_on_date") ∧
  (∀ k p l b, d_products d !! k = Some p → tl_classification_id l = p_tax_classification_id p → line_blocker d day l = Some b →
     bl_reason b = "missing_classification" ∨ bl_reason b = "no_applicable_rule") ∧
  (∀ k r, d_rules d !! k = Some r → tr_status r = "approved" → covers (tr_effective_from r) (tr_effective_to r) day = true →
     approved_rules_covering d (tr_classification_id r) day = [r]).
Proof.
  intros Hs. destruct (run_sound rs s Hs) as [(_ & HI & _) _]. cbv zeta. pose proof (inv_tax _ HI) as Ht. split_and!.
  - intros b. by apply config_blockers_cases.
  - intros k p l b Hp Hl Hb. destruct (p_tax_classification_id p) as [cid|] eqn:Hcid.
    + rewrite (line_blocker_cases _ Ht day l cid Hl) in Hb by (by eapply inv_assigned). right.
      destruct (approved_rules_covering _ _ _); [|done]. by injection Hb as <-.
    + unfold line_blocker in Hb. rewrite Hl in Hb. injection Hb as <-. by left.
  - intros k r Hk Ha Hc. apply (one_rule _ Ht day _ k r Hk). by apply in_force_true.
Qed.

(** What an approved record is about. *)
Definition rule_terms (r : TaxRule) :=
  (tr_id r, tr_classification_id r, tr_treatment r, (tr_cgst_rate r, tr_sgst_utgst_rate r, tr_igst_rate r), tr_effective_from r,
   tr_source_reference r, ap_approved_at (tr_approval r)).
Definition stands {A} `{!TaxMaster A} (a a' : A) : Prop :=
  (tm_status a' = tm_status a ∨ tm_status a' = "retired") ∧ (tm_status a = "retired" → without_actors a' = without_actors a) ∧
  (∀ u, ap_approved_by (tm_approval a') = Some u → ap_approved_by (tm_approval a) = Some u).

Lemma master_stands {A} `{!TaxMaster A} (a a' : A) : tm_status a ≠ "draft" → master_ext a a' → stands a a'.
Proof.
  intros Hd Hx. split; [by apply me_status|]. split; [by apply me_retired|]. intros u Hu.
  destruct (me_actors _ _ Hx Hd) as [_ [Hn|Hn]]; congruence.
Qed.

(** C13. Whatever is requested and in whatever order, a rule once approved is still there with the terms it was approved with:
    classification, treatment, rates, first day and source. It is approved or retired, its last day was at most brought
    forward, and once retired nothing of it changes. A classification once approved keeps its code, a registration its number
    and dates, a configuration all its choices; none returns to draft, and who approved it is never replaced. *)
Theorem approved_tax_records_stand rs s :
  sound s →
  let d := st_committed s in let d' := st_committed (run rs s) in
  (∀ k r, d_rules d !! k = Some r → tr_status r ≠ "draft" →
     ∃ r', d_rules d' !! k = Some r' ∧ stands r r' ∧ rule_terms r' = rule_terms r ∧
       (∀ u, tr_effective_to r = Some u → ∃ u', tr_effective_to r' = Some u' ∧ u' ≤ u)) ∧
  (∀ k c, d_classifications d !! k = Some c → tc_status c ≠ "draft" →
     ∃ c', d_classifications d' !! k = Some c' ∧ stands c c' ∧ (tc_kind c', tc_code c') = (tc_kind c, tc_code c)) ∧
  (∀ k g, d_registrations d !! k = Some g → gr_status g ≠ "draft" →
     ∃ g', d_registrations d' !! k = Some g' ∧ stands g g' ∧
       (gr_gstin g', gr_state_code g', gr_valid_from g', gr_valid_to g') = (gr_gstin g, gr_state_code g, gr_valid_from g, gr_valid_to g)) ∧
  (∀ k b, d_tax_settings d !! k = Some b → ts_status b ≠ "draft" →
     ∃ b', d_tax_settings d' !! k = Some b' ∧ stands b b' ∧
       (ts_pricing_mode b', ts_shipping_tax_treatment b', ts_rounding_policy b', ts_registration_id b', ts_effective_from b', ts_effective_to b') =
       (ts_pricing_mode b, ts_shipping_tax_treatment b, ts_rounding_policy b, ts_registration_id b, ts_effective_from b, ts_effective_to b)).
Proof.
  intros Hs. destruct (run_sound rs s Hs) as [_ He]. cbv zeta. split_and!.
  - intros k r Hk Hd. destruct (evo_rules _ _ He _ _ Hk) as (r' & Hk' & Hx). exists r'. split; [done|]. split; [by apply master_stands|].
    pose proof (me_core _ _ Hx Hd) as Hc. pose proof (me_end _ _ Hx Hd) as Hend. split.
    + unfold core, without_actors in Hc. cbn in Hc. unfold rule_terms. destruct r, r'. cbn in *. by injection Hc as -> -> -> -> -> -> -> -> ->.
    + intros u Hu. cbn in Hend. rewrite Hu in Hend. destruct (tr_effective_to r') as [u'|]; [by exists u'|done].
  - intros k c Hk Hd. destruct (evo_classifications _ _ He _ _ Hk) as (c' & Hk' & Hx). exists c'. split; [done|]. split; [by apply master_stands|].
    pose proof (me_core _ _ Hx Hd) as Hc. destruct c, c'. cbn in *. by injection Hc as -> -> -> _ _.
  - intros k c Hk Hd. destruct (evo_registrations _ _ He _ _ Hk) as (c' & Hk' & Hx). exists c'. split; [done|]. split; [by apply master_stands|].
    pose proof (me_core _ _ Hx Hd) as Hc. destruct c, c'. cbn in *. by injection Hc as -> -> -> -> -> ->.
  - intros k c Hk Hd. destruct (evo_tax_settings _ _ He _ _ Hk) as (c' & Hk' & Hx). exists c'. split; [done|]. split; [by apply master_stands|].
    pose proof (me_core _ _ Hx Hd) as Hc. destruct c, c'. cbn in *. by injection Hc as -> -> -> -> -> -> -> ->.
Qed.
End system.

(** ** The readiness report *)

Lemma count_zero {V} (p : V → bool) (m : gmap Z V) : (count_rows p m =? 0) = true ↔ ∀ k v, m !! k = Some v → p v = false.
Proof.
  rewrite <-exists_row_false. unfold exists_row. rewrite Z.eqb_eq, Z.ltb_ge.
  assert (0 ≤ count_rows p m); [|lia]. apply sum_kv_nonneg. intros k v _. by destruct (p v).
Qed.
(** A loop whose body always returns and changes nothing. *)
Lemma map_m_total {A B} (f : A → M B) l s :
  (∀ x, x ∈ l → ∃ y, f x s = (inr y, s)) → ∃ ys, map_m f l s = (inr ys, s) ∧ length ys = length l.
Proof.
  induction l as [|x l IH]; intros Hf; [by exists []|]. destruct (Hf x) as [y Hy]; [left|].
  destruct IH as (ys & Hys & Hlen); [intros z Hz; apply Hf; by right|]. exists (y :: ys). cbn. unfold mbind, ST_bind.
  rewrite Hy, Hys. cbn. by rewrite Hlen.
Qed.

Lemma covering_exists d cid day :
  exists_row (λ r, opt_eqb (Some cid) (Some (tr_classification_id r)) && String.eqb (tr_status r) "approved"
                   && covers (tr_effective_from r) (tr_effective_to r) day) (d_rules d) = true ↔
  approved_rules_covering d cid day ≠ [].
Proof.
  unfold approved_rules_covering. rewrite rows_where_nil. rewrite exists_row_true. split.
  - intros (k & r & Hk & Hr) Hnone. specialize (Hnone _ _ Hk). revert Hr. unfold opt_eqb.
    rewrite !andb_true_iff, bool_decide_eq_true. intros [[[= Heq] Ha] Hc]. by rewrite Heq, Z.eqb_refl, Ha, Hc in Hnone.
  - intros Hsome. destruct (exists_row (in_force cid day) (d_rules d)) eqn:He.
    + apply exists_row_true in He as (k & r & Hk & (H1 & H2 & H3)%in_force_true). exists k, r. split; [done|]. by rewrite H1, opt_eqb_refl, H2, H3.
    + destruct Hsome. intros k r Hk. exact (proj1 (exists_row_false _ _) He k r Hk).
Qed.

(** Nothing counted against the active products is the same as no line of an active product being blocked. *)
Lemma counts_zero d day :
  Inv d →
  (forallb (λ x, x.1.1 =? 0) (_COUNT_BLOCKERS (readiness_counts d day)) = true ↔
   ∀ k p l, d_products d !! k = Some p → p_status p = ACTIVE → tl_classification_id l = p_tax_classification_id p → line_blocker d day l = None).
Proof.
  intros HI. pose proof (inv_tax _ HI) as Ht. cbn [_COUNT_BLOCKERS readiness_counts forallb fst active_unclassified
    active_classification_not_approved active_without_effective_rule]. rewrite !andb_true_iff, !count_zero. split.
  - intros (H1 & _ & H3 & _) k p l Hp Hact Hl. specialize (H1 _ _ Hp). specialize (H3 _ _ Hp).
    rewrite bool_decide_eq_true_2 in H1, H3 by done. cbn [andb] in H1, H3. destruct (p_tax_classification_id p) as [cid|] eqn:Hc; [|done].
    destruct (inv_assigned _ HI _ _ _ Hp Hc) as (c & Hcl & Ha). cbn in Hcl. rewrite Hcl, Ha in H3. cbn [String.eqb] in H3.
    rewrite (line_blocker_cases _ Ht day l cid Hl) by (by exists c). apply negb_false_iff, covering_exists in H3.
    by destruct (approved_rules_covering d cid day).
  - intros Hall. split_and!; [..|done]; intros k p Hp; (destruct (bool_decide _) eqn:Hact; [apply bool_decide_eq_true in Hact|done]);
      pose proof (Hall k p (MkTaxLine 0 0 0 (p_tax_classification_id p) 0) Hp Hact eq_refl) as Hb;
      destruct (p_tax_classification_id p) as [cid|] eqn:Hc; try done; destruct (inv_assigned _ HI _ _ _ Hp Hc) as (c & Hcl & Ha);
      cbn in Hcl; cbn [andb]; rewrite Hcl, Ha; [done|].
    rewrite (line_blocker_cases _ Ht day _ cid) in Hb; [|done|by exists c]. cbn [String.eqb]. apply negb_false_iff, covering_exists.
    by destruct (approved_rules_covering d cid day).
Qed.

(** The blockers the counts give. *)
Definition counted (l : list (Z * string * string)) : list (string * string) :=
  omap (λ x : Z * string * string, let '(n, reason, text) := x in if n =? 0 then None else Some (reason, str_Z n +:+ " " +:+ text)) l.
Lemma counted_nil l : counted l = [] ↔ forallb (λ x, x.1.1 =? 0) l = true.
Proof. induction l as [|[[n reason] text] l IH]; cbn; [done|]. by destruct (n =? 0). Qed.
Lemma evaluate_readiness_nil d day lines : evaluate_readiness d lines day = [] ↔ Forall (λ l, line_blocker d day l = None) lines.
Proof.
  unfold evaluate_readiness. induction lines as [|l lines IH]; cbn; [split; by constructor|]. destruct (line_blocker d day l) eqn:Hl.
  - split; [done|]. inversion 1. congruence.
  - rewrite IH. split; [by constructor|by inversion 1].
Qed.

(** C14. The readiness report for a day always answers and changes nothing, and it says ready exactly when the GST engine would
    accept the business's configuration and every cart of active products on that day. *)
Theorem readiness_is_exact `{!Settings} `{!TaxAdminSettings} `{!CatalogueSettings} day s :
  Inv (st_db s) →
  ∃ r, readiness (Some day) s = (inr r, s) ∧ rd_as_of r = day ∧
    (rd_ready r = true ↔
     (evaluate_config (st_db s) day).2 = [] ∧
     ∀ lines, Forall (λ l, ∃ k p, d_products (st_db s) !! k = Some p ∧ p_status p = ACTIVE ∧ tl_classification_id l = p_tax_classification_id p) lines →
       evaluate_readiness (st_db s) lines day = []).
Proof.
  intros HI. set (d := st_db s) in *. destruct (evaluate_config d day) as [config bs] eqn:Hcfg. cbn [snd].
  edestruct (map_m_total (λ b, detail ← of_option (_CONFIG_DETAIL (bl_reason b)) (RuntimeError "KeyError"); mret (bl_reason b, detail)) bs s)
    as (found & Hf & Hlen).
  { intros b Hb. destruct (config_blockers_cases d (inv_tax _ HI) day b) as [Hr|Hr]; [by rewrite Hcfg|..]; rewrite Hr; by eexists. }
  eexists. split.
  { unfold readiness. rewrite (bind_run india_today _ s _ s eq_refl). cbv zeta. rewrite (bind_run (gets st_db) _ s _ s eq_refl).
    change (default _ (Some day)) with day. fold d. rewrite Hcfg. rewrite (bind_run _ _ _ _ _ Hf). reflexivity. }
  split; [done|]. cbn [rd_ready]. fold (counted (_COUNT_BLOCKERS (readiness_counts d day))). rewrite Nat.eqb_eq, length_app, Hlen.
  transitivity (bs = [] ∧ counted (_COUNT_BLOCKERS (readiness_counts d day)) = []).
  { split; [|by intros [-> ->]]. intros Hn. split; apply nil_length_inv; lia. }
  rewrite counted_nil, (counts_zero _ _ HI). apply and_iff_compat_l. setoid_rewrite evaluate_readiness_nil. split.
  - intros Hall lines Hlines. eapply Forall_impl; [exact Hlines|]. intros l (k & p & Hp & Ha & Hl). by eapply Hall.
  - intros Hall k p l Hp Ha Hl. apply (Forall_inv (P := λ l, line_blocker d day l = None) (l := [])), (Hall [l]). constructor; [by eauto|done].
Qed.

(** ** Approvals *)

(** A table changes by the rows stored in it, and by nothing an audit entry does. *)
Class TaxMasterTable (A : Type) `{!TaxMaster A} : Prop := {
  table_store k (a : A) d : tm_table (tm_store k a d) = <[k := a]> (tm_table d);
  table_frame s s' : only [TAudit] s s' → tm_table (st_db s') = tm_table (st_db s)
}.
#[export] Instance classification_table : TaxMasterTable TaxClassification.
Proof. split; [done|]. intros s s' Hs. exact (proj1 Hs TClassifications eq_refl). Qed.
#[export] Instance rule_table : TaxMasterTable TaxRule.
Proof. split; [done|]. intros s s' Hs. exact (proj1 Hs TRules eq_refl). Qed.
#[export] Instance registration_table : TaxMasterTable GstRegistration.
Proof. split; [done|]. intros s s' Hs. exact (proj1 Hs TRegistrations eq_refl). Qed.
#[export] Instance settings_table : TaxMasterTable BusinessTaxSettings.
Proof. split; [done|]. intros s s' Hs. exact (proj1 Hs TTaxSettings eq_refl). Qed.

Section approvals.
Context {cfg : TaxAdminSettings}.

(** The draft [a] under key [k] was approved by [actor], who is not its creator unless the settings let a creator approve and a
    reason was written down; nothing else of the record changed, and it is what is stored. *)
Definition approved_by_another {A} `{!TaxMaster A} (actor : User) (note : option string) (k : Z) (s s' : St) (a a' : A) : Prop :=
  tm_table (st_db s) !! k = Some a ∧ tm_status a = "draft" ∧
  a' = tm_put_approval (MkApproval (ap_created_by (tm_approval a)) (Some (u_id actor)) (Some (st_now s))) (tm_put_status "approved" a) ∧
  (ap_created_by (tm_approval a) = Some (u_id actor) → tax_master_allow_self_approval = true ∧ _blank note = false) ∧
  tm_table (st_db s') = <[tm_id a' := tm_columns a']> (tm_table (st_db s)).

Lemma approve_allowed {A} `{!TaxMaster A} (a : A) actor note x s s' :
  _approve a actor note s = (inr x, s') →
  ap_created_by (tm_approval a) = Some (u_id actor) → tax_master_allow_self_approval = true ∧ _blank note = false.
Proof.
  unfold _approve. cbv zeta. intros H' Hc. rewrite Hc, String.eqb_refl in H'. cbn [andb] in H'. runs. split; [by apply negb_false_iff|done].
Qed.
Lemma update_record_inr {A} `{!TaxMaster A} (a : A) u s s' :
  update_record a s = (inr u, s') → s' = set_db (tm_store (tm_id (tm_columns a)) (tm_columns a)) s.
Proof. unfold update_record. cbv zeta. intros H'. by runs. Qed.
Lemma save_or_overlap_inr {A} `{!TaxMaster A} (a : A) n e u s s' : save_or_overlap a n e s = (inr u, s') → update_record a s = (inr u, s').
Proof.
  unfold save_or_overlap. intros [H'|(x & s1 & k & _ & Hk & H')]%try_catch_inr; [done|].
  destruct x; try done. destruct (String.eqb _ _); [|done]. by injection Hk as <-.
Qed.
Lemma only_log {A} `{!TaxMaster A} a b c (r : A) d : guar (only [TAudit]) (_log a b c r d).
Proof. unfold _log. apply only_audit_log. Qed.

(** The end of each method that approves. *)
Lemma approval_tail {A} `{!TaxMaster A} `{!TaxMasterLaws A} `{!TaxMasterTable A} (a : A) actor note k (save : A → M unit) action type r s s' :
  (∀ b u s1 s2, save b s1 = (inr u, s2) → update_record b s1 = (inr u, s2)) →
  tm_table (st_db s) !! k = Some a →
  (approved ← _approve a actor note;
   let '(record, details) := approved in
   _ ← save record; _ ← _log actor action type record details; mret record) s = (inr r, s') →
  approved_by_another actor note k s s' a r.
Proof.
  intros Hsave Hrow Hrun. apply bind_inr in Hrun as ([a' details] & s1 & Happ & Hrun). pose proof (approve_allowed _ _ _ _ _ _ Happ) as Hself.
  apply approve_inr in Happ as (-> & Hdraft & Ha'). cbn [fst] in Ha'. apply bind_inr in Hrun as (u & s2 & Hs%Hsave%update_record_inr & Hrun).
  apply bind_inr in Hrun as (u' & s3 & Hlog & Hrun). runs. split_and!; [done..|].
  apply (frame_run [TAudit]) in Hlog; [|apply only_log].
  rewrite (table_frame _ _ Hlog), db_set, table_store. f_equal. apply columns_keep.
Qed.

Lemma free_rules d (r : TaxRule) :
  exists_row (λ x, (tr_classification_id x =? tr_classification_id r) && String.eqb (tr_status x) "approved" && negb (tr_id x =? tr_id r)
                   && before (tr_effective_from r) (tr_effective_to x) && before (tr_effective_from x) (tr_effective_to r)) (d_rules d) = false →
  ∀ j x, d_rules d !! j = Some x → tr_id x ≠ tr_id r → tr_status x = "approved" → tr_classification_id x = tr_classification_id r →
    ranges_overlap (tr_effective_from r) (tr_effective_to r) (tr_effective_from x) (tr_effective_to x) = false.
Proof.
  intros Hno j x Hj Hne Ha Hc. rewrite exists_row_false in Hno. specialize (Hno _ _ Hj).
  by rewrite Hc, Z.eqb_refl, Ha, (proj2 (Z.eqb_neq _ _) Hne) in Hno.
Qed.
Lemma free_settings d (b : BusinessTaxSettings) :
  exists_row (λ x, String.eqb (ts_status x) "approved" && negb (ts_id x =? ts_id b)
                   && before (ts_effective_from b) (ts_effective_to x) && before (ts_effective_from x) (ts_effective_to b)) (d_tax_settings d) = false →
  ∀ j x, d_tax_settings d !! j = Some x → ts_id x ≠ ts_id b → ts_status x = "approved" →
    ranges_overlap (ts_effective_from b) (ts_effective_to b) (ts_effective_from x) (ts_effective_to x) = false.
Proof.
  intros Hno j x Hj Hne Ha. rewrite exists_row_false in Hno. specialize (Hno _ _ Hj). by rewrite Ha, (proj2 (Z.eqb_neq _ _) Hne) in Hno.
Qed.

(** C15. An approval takes two people: whoever approves a classification, a rule, a registration or a configuration is not the
    administrator who created it, unless the deployment allows that and a reason is written down. It is a draft that is
    approved, as it stands; a source is named where one is required; a rule's classification is approved before it, a
    configuration's registration before that, and no approved rule of the classification (no approved configuration) applies on
    any day of its period. *)
Theorem approval_takes_two actor k note s :
  (∀ c' s', approve_classification actor k note s = (inr c', s') →
     ∃ c, approved_by_another actor note k s s' c c' ∧ _blank (tc_source_reference c) = false) ∧
  (∀ r' s', approve_rule actor k note s = (inr r', s') →
     ∃ r, approved_by_another actor note k s s' r r' ∧ _blank (tr_source_reference r) = false ∧
       approved_classification (tax_of (st_db s)) (tr_classification_id r) ∧
       ∀ j x, d_rules (st_db s) !! j = Some x → tr_id x ≠ tr_id r → tr_status x = "approved" →
         tr_classification_id x = tr_classification_id r →
         ranges_overlap (tr_effective_from r) (tr_effective_to r) (tr_effective_from x) (tr_effective_to x) = false) ∧
  (∀ g' s', approve_registration actor k note s = (inr g', s') → ∃ g, approved_by_another actor note k s s' g g') ∧
  (∀ b' s', approve_settings actor k note s = (inr b', s') →
     ∃ b, approved_by_another actor note k s s' b b' ∧ _blank (ts_source_reference b) = false ∧
       approved_registration (tax_of (st_db s)) (ts_registration_id b) ∧
       ∀ j x, d_tax_settings (st_db s) !! j = Some x → ts_id x ≠ ts_id b → ts_status x = "approved" →
         ranges_overlap (ts_effective_from b) (ts_effective_to b) (ts_effective_from x) (ts_effective_to x) = false).
Proof.
  split_and!.
  - intros c' s' Hrun. unfold approve_classification in Hrun. apply bind_inr in Hrun as (c & ? & [Hc ->]%get_record_inr & Hrun).
    apply bind_inr in Hrun as (? & ? & [Hb ->]%raise_if_inr & Hrun). exists c.
    assert (approved_by_another actor note k s s' c c') as Happ by (eapply (approval_tail c _ _ _ update_record); [done|done|exact Hrun]).
    split; [done|]. destruct Happ as (_ & Hd & _). unfold is_draft in Hb. cbn in Hd, Hb. by rewrite Hd in Hb.
  - intros r' s' Hrun. unfold approve_rule in Hrun. apply bind_inr in Hrun as (r & ? & [Hr ->]%get_record_inr & Hrun).
    apply bind_inr in Hrun as (? & s1 & Hchecks & Hrun). exists r.
    assert (s1 = s → approved_by_another actor note k s s' r r') as Happ.
    { intros ->. eapply (approval_tail r _ _ _ (λ b, save_or_overlap b _ _)); [intros *; apply save_or_overlap_inr|done|exact Hrun]. }
    clear Hrun. destruct (is_draft r) eqn:Hd.
    2: { runs. destruct (Happ eq_refl) as (_ & Hn & _). unfold is_draft in Hd. by rewrite Hn in Hd. }
    unfold overlapping_approved_rule in Hchecks. runs.
    match goal with H : _get _ _ _ = (inr ?c, _) |- _ => apply get_record_inr in H as [Hc ->] end. split; [by apply Happ|]. split; [done|].
    split; [|by apply free_rules]. eexists. split; [done|]. by apply String.eqb_eq, negb_false_iff.
  - intros g' s' Hrun. unfold approve_registration in Hrun. apply bind_inr in Hrun as (g & ? & [Hg ->]%get_record_inr & Hrun). exists g.
    by eapply (approval_tail g _ _ _ update_record).
  - intros b' s' Hrun. unfold approve_settings in Hrun. apply bind_inr in Hrun as (b & ? & [Hb ->]%get_record_inr & Hrun).
    apply bind_inr in Hrun as (? & s1 & Hchecks & Hrun). exists b.
    assert (s1 = s → approved_by_another actor note k s s' b b') as Happ.
    { intros ->. eapply (approval_tail b _ _ _ (λ b, save_or_overlap b _ _)); [intros *; apply save_or_overlap_inr|done|exact Hrun]. }
    clear Hrun. destruct (is_draft b) eqn:Hd.
    2: { runs. destruct (Happ eq_refl) as (_ & Hn & _). unfold is_draft in Hd. by rewrite Hn in Hd. }
    unfold overlapping_approved_settings in Hchecks. runs.
    match goal with H : _get _ _ _ = (inr ?c, _) |- _ => apply get_record_inr in H as [Hc ->] end. split; [by apply Happ|]. split; [done|].
    split; [|by apply free_settings]. eexists. split; [done|]. by apply String.eqb_eq, negb_false_iff.
Qed.
End approvals.

(** ** Searching *)

Lemma lower_wild x c : c ∈ ["\"%char; "%"%char; "_"%char] → Ascii.eqb (lower_ascii x) c = Ascii.eqb x c.
Proof.
  rewrite !elem_of_cons, elem_of_nil. intros [->|[->|[->|[]]]]; destruct x as [[] [] [] [] [] [] [] []]; reflexivity.
Qed.
Lemma escape_cons x t : _escape_like (x :: t) = (if is_wild x then ["\"%char; x] else [x]) ++ _escape_like t.
Proof.
  unfold _escape_like, is_wild. cbn [replace_char]. destruct (Ascii.eqb_spec x "\") as [->|H1]; [done|].
  cbn [replace_char]. destruct (Ascii.eqb_spec x "%") as [->|H2]; [done|]. cbn [replace_char]. by destruct (Ascii.eqb_spec x "_") as [->|H3].
Qed.
Lemma lower_escape t : map lower_ascii (_escape_like t) = _escape_like (map lower_ascii t).
Proof.
  induction t as [|x t IH]; [done|]. cbn [map]. rewrite !escape_cons, map_app, IH.
  assert (is_wild (lower_ascii x) = is_wild x) as ->; [|by destruct (is_wild x)].
  unfold is_wild. by rewrite !lower_wild by set_solver.
Qed.
Lemma like_escape t p s : like (_escape_like t ++ p) s = true ↔ ∃ r, s = t ++ r ∧ like p r = true.
Proof.
  revert s. induction t as [|x t IH]; intros s; [split; [by exists s|by intros (r & -> & ?)]|].
  assert (like (_escape_like (x :: t) ++ p) s = match s with y :: s' => Ascii.eqb y x && like (_escape_like t ++ p) s' | [] => false end) as ->.
  { rewrite escape_cons. destruct (is_wild x) eqn:Hw; [done|]. unfold is_wild in Hw. rewrite !orb_false_iff in Hw.
    destruct Hw as [[H1 H2] H3]. cbn [app like]. rewrite H2, H1, H3. by destruct s. }
  destruct s as [|y s]; [split; [done|by intros (r & ? & _)]|]. rewrite andb_true_iff, Ascii.eqb_eq, IH. split.
  - intros (-> & r & -> & Hr). by exists r.
  - intros (r & [= -> ->] & Hr). split; [done|]. by exists r.
Qed.
Lemma like_any p s : like ("%"%char :: p) s = true ↔ ∃ a r, s = a ++ r ∧ like p r = true.
Proof.
  induction s as [|x s IH].
  - cbn. rewrite orb_false_r. split; [by exists [], []|]. intros (a & r & Hs & Hr). by apply eq_sym, app_nil in Hs as [-> ->].
  - assert (like ("%"%char :: p) (x :: s) = like p (x :: s) || like ("%"%char :: p) s) as -> by done. rewrite orb_true_iff, IH. split.
    + intros [Hp|(a & r & -> & Hr)]; [by exists [], (x :: s)|by exists (x :: a), r].
    + intros ([|y a] & r & Hs & Hr); [left; by rewrite Hs|right]. injection Hs as -> ->. by exists a, r.
Qed.

(** A search finds the texts that contain the term, whatever the case and whatever characters it has: none of them is taken as a
    pattern. *)
Theorem search_is_literal (s q : string) :
  contains_ci s q = true ↔
  ∃ a b, map lower_ascii (chars_of s) = a ++ map lower_ascii (chars_of q) ++ b.
Proof.
  unfold contains_ci, ilike. cbn [map]. change (lower_ascii "%") with "%"%char. rewrite map_app, lower_escape, like_any.
  setoid_rewrite like_escape. split; [by intros (a & r & Hs & b & -> & _); eauto|]. intros (a & b & Hs). exists a, (map lower_ascii (chars_of q) ++ b).
  split; [done|]. exists b. split; [done|]. apply like_any. exists b, []. by rewrite app_nil_r.
Qed.
Example search_examples :
  contains_ci "100% cotton, knitted" "% COTTON" = true ∧ contains_ci "100 cotton" "% cotton" = false ∧ contains_ci "a\b" "\" = true.
Proof. vm_compute. auto. Qed.

(** ** Witnesses: the owner sets GST up *)

Definition tableware : ClassificationCreate := MkClassificationCreate "hsn" "6912" "Ceramic tableware" (Some "Notification 1/2017").
Definition eighteen (cid from : Z) (until : option Z) : RuleCreate :=
  MkRuleCreate cid "taxable" (Dec 9 0) (Dec 9 0) (Dec 18 0) from until (Some "Schedule III").
Definition pune : RegistrationCreate := MkRegistrationCreate "27aapfu0939f1zv" "Novacart" "27" 17000 None.
Definition choices (rid : Z) : SettingsCreate :=
  MkSettingsCreate "inclusive" "delivery_state" "taxable_with_goods" "line_half_up" rid 20000 None (Some "Letter of the accountant").
Definition classified (cid : Z) : ProductUpdate := MkProductUpdate None None None None None None None (Some (Some cid)) None.
Definition note : option string := Some "sole owner".
Definition gst_setup : list Request :=
  map Taxation
    [CreateClassification root_key tableware; ApproveClassification root_key 100 note; CreateRule root_key (eighteen 100 20000 None);
     ApproveRule root_key 101 note; CreateRegistration root_key pune; ApproveRegistration root_key 102 note;
     CreateTaxSettings root_key (choices 102); ApproveTaxSettings root_key 103 note] ++
  [Catalog (UpdateProduct root_key 1 (classified 100)); Catalog (UpdateProduct root_key 2 (classified 100))].
Definition gst_on : St := run gst_setup root_in.2.
Definition ready_now : bool := match readiness None gst_on with (inr r, _) => rd_ready r | _ => false end.
Example set_up : ready_now = true.
Proof. vm_compute. reflexivity. Qed.
Lemma gst_on_inv : Inv (st_db gst_on).
Proof. by destruct (run_sound gst_setup root_in.2 root_in_sound) as [(_ & _ & HI) _]. Qed.

Definition no_rule : TaxRule := MkRule 0 0 "" (Dec 0 0) (Dec 0 0) (Dec 0 0) 0 None "" None (MkApproval None None None).
Definition rule_now : TaxRule := default no_rule (d_rules (st_committed gst_on) !! 101).
Lemma tax_never_ambiguous_witness : approved_rules_covering (st_committed gst_on) 100 20370 = [rule_now].
Proof.
  refine (proj2 (proj2 (tax_never_ambiguous gst_setup root_in.2 20370 root_in_sound)) 101 rule_now _ _ _); vm_compute; reflexivity.
Defined.

(** The rate changes: the rule is closed and another one follows. *)
Definition rate_change : list Request :=
  map Taxation [CloseRule root_key 101 20500; CreateRule root_key (eighteen 100 20500 None); ApproveRule root_key 104 note;
                RetireClassification root_key 100; ApproveRule root_key 101 note].
Lemma gst_on_sound : sound gst_on.
Proof. exact (proj1 (run_sound gst_setup root_in.2 root_in_sound)). Qed.
Definition rule_then : TaxRule := default no_rule (d_rules (st_committed (run rate_change gst_on)) !! 101).
Lemma approved_tax_records_stand_witness : rule_terms rule_then = rule_terms rule_now ∧ tr_effective_to rule_then = Some 20500.
Proof.
  split; [|vm_compute; reflexivity].
  destruct (proj1 (approved_tax_records_stand rate_change gst_on gst_on_sound) 101 rule_now) as (r' & Hr' & _ & Ht & _);
    [vm_compute; reflexivity|vm_compute; discriminate|].
  unfold rule_then. rewrite Hr'. exact Ht.
Defined.
Lemma readiness_is_exact_witness :
  (evaluate_config (st_db gst_on) 20370).2 = [] ∧ evaluate_readiness (st_db gst_on) [MkTaxLine 1 2 25000 (Some 100) 0] 20370 = [].
Proof.
  destruct (readiness_is_exact 20370 gst_on gst_on_inv) as (r & Hr & _ & Hready).
  assert (match readiness (Some 20370) gst_on with (inr r, _) => rd_ready r | _ => false end = true) as Hyes by (vm_compute; reflexivity).
  rewrite Hr in Hyes. destruct (proj1 Hready Hyes) as [Hc Hl]. split; [exact Hc|]. apply Hl. constructor; [|constructor].
  exists 1, (default mug (d_products (st_db gst_on) !! 1)). split; [vm_compute; reflexivity|]. split; vm_compute; reflexivity.
Defined.

(** Another administrator approves what root drafted. *)
Definition drafted : St := run (map Taxation [CreateClassification root_key tableware]) root_in.2.
Definition partner : User := MkUser "alice" "alice" "alice@example.com" "hash:rose" ADMIN true None 0.
Definition no_classification : TaxClassification := MkClassification 0 "" "" "" "" None (MkApproval None None None).
Definition approval : (Err + TaxClassification) * St := approve_classification partner 100 None drafted.
Lemma approval_takes_two_witness :
  ∃ c, approved_by_another partner None 100 drafted approval.2 c (outcome no_classification approval.1) ∧ _blank (tc_source_reference c) = false.
Proof.
  refine (proj1 (approval_takes_two partner 100 None drafted) (outcome no_classification approval.1) approval.2 _). vm_compute. reflexivity.
Defined.
(** Root alone gives no reason, and is refused. *)
Example alone_refused : (approve_classification (default partner (d_users (st_db drafted) !! "root")) 100 None drafted).1 = inl (ETaxMaster SelfApprovalNoteRequiredError).
Proof. vm_compute. reflexivity. Qed.
