(* ===== verification/GatewaySpec.v ===== *)
(** * What the payment gateways promise

    Theorems about [Gateways] and the choice of a provider in [Payments]: what must hold of a gateway before real money goes
    through it, what activating live payments checks, that the overview and the storefront tell what a payment would find,
    that rotated credentials start over, and that the check of a live gateway creates no payment. *)

From S2P Require Import Prelude Decimal Errors Money Schema Guards TaxOk GatewayGuards Evolution GatewayEvolution.
From S2P Require Import Invoice Repositories Frames Runs Lifecycle Payments Tax Checkout Accounts Roles Images TaxAdmin Gateways StoreFront Demo System.
From S2P Require Import AccountsSpec AccessSpec CheckoutSpec CatalogueDemo TaxSpec.

Local Open Scope string_scope.
Local Open Scope list_scope.
Local Open Scope Z_scope.

(** ** The preferred gateway *)

Definition preferred_in (d : DB) (c : PaymentProviderConfig) : Prop :=
  d_configs d !! cf_id c = Some c ∧ cf_is_preferred c = true ∧
  ∀ k x, d_configs d !! k = Some x → cf_is_preferred x = true → k = cf_id c ∧ x = c.

Section preferred.
Context (d : DB) (Hok : gateways_ok (d_configs d)).

Lemma preferred_cases : rows_where cf_is_preferred (d_configs d) = [] ∨
  ∃ c, preferred_in d c ∧ rows_where cf_is_preferred (d_configs d) = [c].
Proof.
  destruct (rows_where cf_is_preferred (d_configs d)) as [|c l] eqn:He; [by left|right].
  assert (c ∈ rows_where cf_is_preferred (d_configs d)) as Hc by (rewrite He; left). apply rows_where_elem in Hc as [Hp [k Hk]].
  destruct (gk_row _ Hok _ _ Hk) as [Hid _]. subst k.
  assert (∀ j x, d_configs d !! j = Some x → cf_is_preferred x = true → j = cf_id c) as Hone.
  { intros j x Hj Hx. apply (gk_preferred _ Hok j (cf_id c) x c Hj Hk). unfold config_clash. by rewrite Hp, Hx. }
  exists c. split; [|by rewrite <-He, (rows_where_single _ _ (cf_id c) c)]. split; [done|]. split; [done|]. intros j x Hj Hx.
  pose proof (Hone j x Hj Hx) as ->. split; congruence.
Qed.
Lemma preferred_row c : preferred_in d c → configs_checks c = None ∧ config_sound c.
Proof. intros (Hc & _). by destruct (gk_row _ Hok _ _ Hc). Qed.

(** The list of the overview finds it, or nothing. *)
Lemma elem_all_configs c : c ∈ all_configs d ↔ ∃ k, d_configs d !! k = Some c.
Proof.
  unfold all_configs. rewrite merge_sort_Permutation, rows_where_elem. naive_solver.
Qed.
Lemma find_preferred c : preferred_in d c → List.find cf_is_preferred (all_configs d) = Some c.
Proof.
  intros (Hc & Hp & Hone). destruct (List.find cf_is_preferred (all_configs d)) as [x|] eqn:Hf.
  - apply find_some in Hf as [Hx Hpx]. apply list_elem_of_In, elem_all_configs in Hx as [k Hk]. by destruct (Hone _ _ Hk Hpx) as [_ ->].
  - assert (c ∈ all_configs d) as Hin by (apply elem_all_configs; eauto). apply list_elem_of_In in Hin.
    by rewrite (find_none _ _ Hf _ Hin) in Hp.
Qed.
Lemma find_no_preferred : rows_where cf_is_preferred (d_configs d) = [] → List.find cf_is_preferred (all_configs d) = None.
Proof.
  intros Hn. destruct (List.find cf_is_preferred (all_configs d)) as [x|] eqn:Hf; [|done]. apply find_some in Hf as [Hx Hpx].
  apply list_elem_of_In, elem_all_configs in Hx as [k Hk]. rewrite rows_where_nil in Hn. by rewrite (Hn _ _ Hk) in Hpx.
Qed.
End preferred.

(** ** Real money *)

(** What a new payment finds *)
Section selection.
Context `{!Settings} `{!Providers}.

Definition live_now (d : DB) : bool := live_payments_enabled && live_active d.
Lemma select_preferred cur s p c s' :
  gateways_ok (d_configs (st_db s)) → select_for_new_payment cur s = (inr (p, c), s') →
  s' = s ∧ preferred_in (st_db s) c ∧ build_provider c false = inr p ∧ cf_status c = "enabled" ∧ cf_credentials_status c = "valid" ∧
  (∃ spec, get_spec (cf_provider c) = Some spec ∧ py_lower cur ∈ enabled_currencies spec c) ∧
  (cf_mode c = "live" → live_now (st_db s) = true) ∧ (cf_provider c = "demo" → live_now (st_db s) = false).
Proof.
  intros Hok Hrun. unfold select_for_new_payment, live_payments_active in Hrun.
  apply bind_inr in Hrun as (d & s1 & [-> ->]%gets_inr & Hrun).
  destruct (preferred_cases _ Hok) as [Hn|(x & Hx & Hone)]; [by rewrite Hn in Hrun|]. rewrite Hone in Hrun. cbn [scalar_one_or_none] in Hrun. runs.
  simplify_eq.
  split; [done|]. split; [done|]. split; [done|].
  repeat match goal with H : negb (String.eqb _ _) = false |- _ => apply negb_false_iff, String.eqb_eq in H end.
  match goal with H : negb (_ && _) = false |- _ => apply negb_false_iff, andb_true_iff in H as [Hc1%bool_decide_eq_true Hc2%bool_decide_eq_true] end.
  split; [done|]. split; [done|]. split; [|split].
  - eexists. split; [done|]. apply list_elem_of_filter. by split.
  - intros Hm. match goal with H : String.eqb (cf_mode _) _ && _ = false |- _ => rewrite Hm in H; cbn in H; by apply negb_false_iff in H end.
  - intros Hm. match goal with H : String.eqb (cf_provider _) _ && _ = false |- _ => by rewrite Hm in H end.
Qed.
End selection.

(** ** Live payments *)

Section system.
Context `{!Settings} `{!Crypto} `{!Providers} `{!Store} `{!AccountSettings} `{!Passwords} `{!Jwt} `{!Mailer} `{!CatalogueSettings} `{!Storage} `{!TaxAdminSettings} `{!Secrets}.
Context `{!ProvidersOk} `{!MailerOk} `{!StorageOk}.

(** Somebody activated live payments, for a live gateway. *)
Definition activated (d : DB) : Prop :=
  ∃ p k c, d_payment_settings d = Some p ∧ ps_live_payments_active p = true ∧ is_Some (ps_live_activated_at p) ∧
    is_Some (ps_live_activated_by_user_id p) ∧ ps_live_activated_config_id p = Some k ∧ d_configs d !! k = Some c ∧ cf_mode c = "live".

End system.

(** ** What is shown *)

Section shown.
Context `{!Settings} `{!Crypto} `{!Providers} `{!Secrets} `{!StoreFrontSettings}.

Lemma view_of_runs c s : config_sound c → ∃ v, view_of c s = (inr v, s).
Proof. intros [(spec & Hspec & _)]. unfold view_of, spec_of. rewrite Hspec. by eexists. Qed.
Lemma summary_runs c s : config_sound c → ∃ v, _summary c s = (inr v, s).
Proof. intros Hc. unfold _summary. destruct (view_of_runs c s Hc) as [v Hv]. eexists. by rewrite (bind_run _ _ _ _ _ Hv). Qed.
Definition preferred_of (d : DB) : option PaymentProviderConfig := List.find cf_is_preferred (all_configs d).
Definition with_settings (d : DB) : DB := d <| d_payment_settings ::= λ p, Some (default default_payment_settings p) |>.
Lemma overview_runs s : gateways_ok (d_configs (st_db s)) →
  ∃ o, overview s = (inr o, set_db with_settings s) ∧
    ov_payments_open o = open_for_payments (live_now (st_db s)) (preferred_of (st_db s)) ∧
    ov_payment_mode o = open_mode (live_now (st_db s)) (preferred_of (st_db s)).
Proof.
  intros Hok. assert (∀ c, c ∈ all_configs (st_db s) → config_sound c) as Hall.
  { intros c [k Hk]%elem_all_configs. by destruct (gk_row _ Hok _ _ Hk) as (_ & _ & ?). }
  unfold overview. do 3 (erewrite bind_run by reflexivity). cbv beta zeta.
  match goal with |- context [(map_m ?f ?l ≫= ?k) ?s0] => destruct (map_m_total f l s0) as (a & Ha & _) end.
  { intros c [_ Hc]%list_elem_of_filter. destruct (cs_known _ (Hall _ Hc)) as (spec & Hspec & _). unfold spec_of. rewrite Hspec. by eexists. }
  rewrite (bind_run _ _ _ _ _ Ha). cbv beta.
  match goal with |- context [(map_m ?f ?l ≫= ?k) ?s0] => destruct (map_m_total f l s0) as (b & Hb & _) end.
  { intros c Hc. apply summary_runs, Hall. destruct (List.find _ _) as [x|] eqn:Hf; [|by apply elem_of_nil in Hc].
    apply list_elem_of_singleton in Hc as ->. apply find_some in Hf as [Hx _]. by apply list_elem_of_In. }
  rewrite (bind_run _ _ _ _ _ Hb). cbv beta.
  match goal with |- context [(map_m ?f ?l ≫= ?k) ?s0] => destruct (map_m_total f l s0) as (g & Hg & _) end.
  { intros c Hc. by apply summary_runs, Hall. }
  rewrite (bind_run _ _ _ _ _ Hg). eexists. split; [reflexivity|]. unfold live_now, live_active, preferred_of. cbn.
  by destruct (d_payment_settings (st_db s)).
Qed.

(** A new payment, by the selected gateway *)
Lemma select_none cur s : rows_where cf_is_preferred (d_configs (st_db s)) = [] →
  select_for_new_payment cur s = (inl (unavailable "no_payment_provider_selected"
    "No payment provider is selected for this store. An administrator must enable one and choose it."), s).
Proof. intros Hn. unfold select_for_new_payment. erewrite bind_run by reflexivity. cbv beta. by rewrite Hn. Qed.
Lemma select_of c spec s cur :
  rows_where cf_is_preferred (d_configs (st_db s)) = [c] → cf_status c = "enabled" → cf_credentials_status c = "valid" →
  get_spec (cf_provider c) = Some spec →
  select_for_new_payment cur s =
    if bool_decide (py_lower cur ∈ enabled_currencies spec c) then
      if String.eqb (cf_mode c) "live" && negb (live_now (st_db s)) then (inl (unavailable "provider_mode_not_allowed"
           "Live payments are not activated for this store: an administrator must activate them in the admin panel"), s)
      else if String.eqb (cf_provider c) "demo" && live_now (st_db s) then (inl (unavailable "provider_mode_not_allowed"
           "The demo gateway cannot take payments while live payments are active"), s)
      else (match build_provider c false with inr p => inr (p, c) | inl e => inl e end, s)
    else (inl (unavailable "provider_currency_not_supported"
           (sp_label spec +:+ " is not enabled for " +:+ py_upper cur +:+ " on this store")), s).
Proof.
  intros Hone He Hv Hspec. unfold select_for_new_payment. erewrite bind_run by reflexivity. cbv beta. rewrite Hone. cbn [scalar_one_or_none].
  do 2 (erewrite bind_run by reflexivity; cbv beta). rewrite Hspec. erewrite bind_run by reflexivity. cbv beta. rewrite !raise_if_bind, He, Hv. cbn [String.eqb Ascii.eqb Bool.eqb negb].
  replace (bool_decide (py_lower cur ∈ cf_currencies c) && bool_decide (py_lower cur ∈ sp_currencies spec))
    with (bool_decide (py_lower cur ∈ enabled_currencies spec c)).
  - destruct (bool_decide _); cbn [negb]; [|done]. unfold live_payments_active. erewrite bind_run by reflexivity. cbv beta. rewrite !raise_if_bind.
    fold (live_now (st_db s)). destruct (String.eqb (cf_mode c) "live" && _); [done|].
    destruct (String.eqb (cf_provider c) "demo" && _); [done|]. by destruct (build_provider c false).
  - unfold enabled_currencies. rewrite <-bool_decide_and. apply bool_decide_ext. rewrite list_elem_of_filter. tauto.
Qed.

(** What an enabled and validated gateway is open for *)
Lemma open_preferred live c : cf_status c = "enabled" → cf_credentials_status c = "valid" →
  open_for_payments live (Some c) = (negb (String.eqb (cf_mode c) "live") || live) && negb (String.eqb (cf_provider c) "demo" && live).
Proof. intros He Hv. unfold open_for_payments, is_enabled. by rewrite He, Hv. Qed.
Lemma mode_preferred live c : cf_status c = "enabled" → cf_credentials_status c = "valid" →
  open_mode live (Some c) =
    if negb ((negb (String.eqb (cf_mode c) "live") || live) && negb (String.eqb (cf_provider c) "demo" && live)) then "none"
    else if String.eqb (cf_provider c) "demo" then "demo" else if String.eqb (cf_mode c) "live" then "live" else "test".
Proof. intros He Hv. unfold open_mode. by rewrite open_preferred. Qed.
Lemma enabled_nonempty spec c : cf_currencies c ⊆ sp_currencies spec → cf_currencies c ≠ [] → enabled_currencies spec c ≠ [].
Proof.
  intros Hsub Hne Hnil. destruct (cf_currencies c) as [|x l] eqn:Hl; [done|].
  assert (x ∈ enabled_currencies spec c) as Hx; [|rewrite Hnil in Hx; by apply elem_of_nil in Hx].
  apply list_elem_of_filter. rewrite Hl. split; [apply Hsub|]; left.
Qed.

End shown.

(** ** Activating live payments *)

Section activation.
Context `{!Settings} `{!Providers} `{!Secrets} `{!ProvidersOk}.

(** A gateway an administrator made the preferred one *)
Definition chosen (admin : User) (c : PaymentProviderConfig) : PaymentProviderConfig := by_admin admin (c <| cf_is_preferred := true |>).
Lemma save_config_runs c u s s' : save_config c s = (inr u, s') → s' = set_db (λ d, d <| d_configs ::= <[cf_id c := c]> |>) s ∧ configs_constraints (st_db s) c = None.
Proof. unfold save_config. intros Hrun. by runs. Qed.
Lemma chosen_preferred admin c m d :
  d_configs d = <[cf_id c := chosen admin c]> (unprefer <$> m) → preferred_in d (chosen admin c).
Proof.
  intros Hd. split; [by rewrite Hd, lookup_insert_eq|]. split; [done|]. intros j x Hx Hp. rewrite Hd in Hx.
  apply lookup_insert_Some in Hx as [[<- <-]|[_ Hx]]; [done|]. rewrite lookup_fmap in Hx. destruct (m !! j); [|done]. by injection Hx as <-.
Qed.
Lemma prefer_inr admin k v s s' :
  gateways_ok (d_configs (st_db s)) → prefer admin k s = (inr v, s') →
  ∃ c spec cur, d_configs (st_db s) !! k = Some c ∧ get_spec (cf_provider c) = Some spec ∧
    (effective_currency (st_db s)).1 = Some cur ∧ cur ∈ enabled_currencies spec c ∧
    (cf_provider c = "demo" → live_active (st_db s) = false) ∧ preferred_in (st_db s') (chosen admin c) ∧
    gateways_ok (d_configs (st_db s')) ∧ d_payment_settings (st_db s') = d_payment_settings (st_db s).
Proof.
  intros Hok Hrun. unfold prefer in Hrun. apply bind_inr in Hrun as (c & ? & [Hc ->]%get_config_inr & Hrun). unfold spec_of in Hrun.
  apply bind_inr in Hrun as (spec & ? & [Hspec ->]%of_option_inr & Hrun). apply bind_inr in Hrun as (live & s1 & Hlive & Hrun).
  assert (s1 = s ∧ (cf_provider c = "demo" → live = live_active (st_db s))) as [-> Hdemo].
  { unfold get_live_active in Hlive. destruct (String.eqb_spec (cf_provider c) "demo"); runs; by split. }
  apply bind_inr in Hrun as (? & ? & [-> ->]%raise_if_inr & Hrun). apply bind_inr in Hrun as (? & ? & [_ ->]%raise_if_inr & Hrun).
  apply bind_inr in Hrun as (d & ? & [-> ->]%gets_inr & Hrun). apply bind_inr in Hrun as (? & ? & [Hcur ->]%raise_if_inr & Hrun).
  destruct (effective_currency (st_db s)).1 as [cur|] eqn:Heff; [|done]. apply negb_false_iff, bool_decide_eq_true in Hcur.
  apply bind_inr in Hrun as (? & ? & ->%upd_inr & Hrun). apply bind_inr in Hrun as (? & ? & [-> Hsaved]%save_config_runs & Hrun).
  unfold _audit_config, audit_log, insert_audit in Hrun. runs. destruct (gk_row _ Hok _ _ Hc) as (Hid & _ & Hs).
  exists c, spec, cur. do 4 (split; [done|]). split; [intros Hd; symmetry; by apply Hdemo|].
  autorewrite with state. split; [by eapply chosen_preferred|]. split; [|done].
  apply ok_config in Hsaved; [exact Hsaved|by apply ok_unprefer|]. by destruct Hs; split.
Qed.
Lemma get_payment_settings_runs s :
  get_payment_settings s = (inr (default default_payment_settings (d_payment_settings (st_db s))), set_db with_settings s).
Proof. done. Qed.
Lemma get_config_run k s :
  _get_config k s = match d_configs (st_db s) !! k with
                    | Some c => (inr c, s) | None => (inl (EProviderConfig ProviderConfigNotFoundError), s) end.
Proof. unfold _get_config, get_config. erewrite bind_run by reflexivity. by destruct (d_configs (st_db s) !! k). Qed.
Lemma prefer_uncommitted admin k : guar (keeps st_committed) (prefer admin k).
Proof. uncommitted. Qed.
Lemma map_uncommitted {A B} (f : A → M B) l : (∀ x, guar (keeps st_committed) (f x)) → guar (keeps st_committed) (map_m f l).
Proof. intros Hf. induction l as [|x l IH]; cbn; [apply guar_ret, _|]. uncommitted; apply Hf. Qed.
Lemma overview_uncommitted : guar (keeps st_committed) overview.
Proof. unfold overview. walk ltac:(first [apply map_uncommitted; intros; uncommitted|uncommitted_leaf]). Qed.

(** What the commit of a refusal leaves, when nothing else was pending *)
Definition same_mode (s s' : St) : Prop :=
  live_active (st_committed s') = live_active (st_committed s) ∧ d_configs (st_committed s') = d_configs (st_committed s).
Lemma refusal_keeps_mode admin k confirmation note s e s' :
  st_committed s = st_db s → activate_live admin k confirmation note s = (inl e, s') → same_mode s s'.
Proof.
  intros Hs Hrun. assert (∀ x, st_committed x = st_committed s → same_mode s x) as Hsame by (intros x Hx; unfold same_mode; by rewrite Hx).
  unfold activate_live in Hrun. rewrite raise_if_bind in Hrun. destruct (negb _); [injection Hrun as _ <-; by apply Hsame|].
  rewrite (bind_run _ _ _ _ _ (get_payment_settings_runs s)) in Hrun.
  apply bind_inl in Hrun as [Hrun|(c & s1 & [Hc ->]%get_config_inr & Hrun)].
  { rewrite get_config_run in Hrun. destruct (_ !! k); [done|]. injection Hrun as _ <-. by apply Hsame. }
  apply bind_inl in Hrun as [Hrun|(spec & s1 & Hspec & Hrun)].
  { unfold spec_of in Hrun. destruct (get_spec _); [done|]. injection Hrun as _ <-. by apply Hsame. }
  unfold spec_of in Hspec. apply of_option_inr in Hspec as [_ ->]. erewrite bind_run in Hrun by reflexivity. cbv beta zeta in Hrun.
  destruct (negb _).
  - unfold mode_audit, audit_log, insert_audit in Hrun. injection Hrun as _ <-. unfold same_mode, live_active. cbn. rewrite Hs.
    by destruct (d_payment_settings (st_db s)).
  - match type of Hrun with ?m ?s0 = _ => assert (guar (keeps st_committed) m) as Hm end.
    { walk ltac:(first [apply prefer_uncommitted|apply overview_uncommitted|uncommitted_leaf]). }
    specialize (Hm (set_db with_settings s)). rewrite Hrun in Hm. by apply Hsame.
Qed.

(** A live gateway that is ready *)
Definition ready_live (t : Z) (c : PaymentProviderConfig) : Prop :=
  cf_mode c = "live" ∧ cf_status c = "enabled" ∧ cf_credentials_status c = "valid" ∧ cf_webhook_status c = "verified" ∧
  cf_sandbox_verified_at c ≠ None ∧ cf_production_review_at c ≠ None ∧
  ∃ at_, cf_last_check_at c = Some at_ ∧ cf_last_check_ok c = Some true ∧ t - at_ ≤ CHECK_MAX_AGE.
Lemma overview_inr o s s' : overview s = (inr o, s') → gateways_ok (d_configs (st_db s)) →
  s' = set_db with_settings s ∧ ov_payments_open o = open_for_payments (live_now (st_db s)) (preferred_of (st_db s)) ∧
  ov_payment_mode o = open_mode (live_now (st_db s)) (preferred_of (st_db s)).
Proof. intros Hrun Hok. destruct (overview_runs s Hok) as (o' & Ho & Hop & Hmo). rewrite Hrun in Ho. by injection Ho as -> ->. Qed.
Lemma activated_run admin k confirmation note o s s' :
  gateways_ok (d_configs (st_db s)) → activate_live admin k confirmation note s = (inr o, s') →
  py_strip confirmation = CONFIRMATION ∧ live_payments_enabled = true ∧
  ∃ c spec s1 s2 v u, d_configs (st_db s) !! k = Some c ∧ get_spec (cf_provider c) = Some spec ∧ ready_live (st_now s) c ∧
    s1 = set_db (λ d, d <| d_payment_settings := Some (MkPaymentSettings true (Some (st_now s)) (Some (u_id admin)) (Some k)
           (ps_last_deactivated_at (default default_payment_settings (d_payment_settings (st_db s)))) note) |>) s ∧
    prefer admin k s1 = (inr v, s2) ∧ overview (set_db u s2) = (inr o, s') ∧ (∀ d, d_configs (u d) = d_configs d ∧ d_payment_settings (u d) = d_payment_settings d).
Proof.
  intros Hok Hrun. unfold activate_live in Hrun. apply bind_inr in Hrun as (? & ? & [Htext ->]%raise_if_inr & Hrun).
  apply negb_false_iff, String.eqb_eq in Htext. rewrite (bind_run _ _ _ _ _ (get_payment_settings_runs s)) in Hrun.
  apply bind_inr in Hrun as (c & ? & [Hc ->]%get_config_inr & Hrun). cbn in Hc. destruct (gk_row _ Hok _ _ Hc) as (Hid & Hchecks & _).
  unfold spec_of in Hrun. apply bind_inr in Hrun as (spec & ? & [Hspec ->]%of_option_inr & Hrun). erewrite bind_run in Hrun by reflexivity.
  cbv beta zeta in Hrun. destruct (decide (_activation_blockers (st_now (set_db with_settings s)) spec c = [])) as [Hnil|Hne].
  2: { rewrite bool_decide_eq_false_2 in Hrun by done. cbn [negb] in Hrun. by runs. }
  rewrite bool_decide_eq_true_2 in Hrun by done. cbn [negb] in Hrun. apply activation_blockers_nil in Hnil as (Hl & Hm & He & _ & Hchk).
  destruct (enabled_valid _ Hchecks He) as [Hv _]. destruct (live_requirements _ Hchecks Hm He) as (Hw & Hsb & Hrev).
  split; [done|]. split; [done|]. rewrite Hid in Hrun. apply bind_inr in Hrun as (? & s1 & Hsave & Hrun).
  assert (s1 = set_db (λ d, d <| d_payment_settings := Some (MkPaymentSettings true (Some (st_now s)) (Some (u_id admin)) (Some k)
           (ps_last_deactivated_at (default default_payment_settings (d_payment_settings (st_db s)))) note) |>) s) as ->.
  { unfold save_payment_settings in Hsave. by runs. }
  apply bind_inr in Hrun as (v & s2 & Hpref & Hrun). unfold mode_audit, audit_log, insert_audit in Hrun.
  apply bind_inr in Hrun as (? & ? & ->%upd_inr & Hrun). do 5 eexists. eexists. split; [done|]. split; [done|]. split; [by split_and!|].
  split; [done|]. split; [done|]. split; [done|]. done.
Qed.

(** C39. Live payments start only with the exact confirmation text, where the deployment allows them, for a live gateway that is
    enabled, validated, wired up, verified in its sandbox and reviewed, whose last check passed no more than a day ago, and that is
    enabled for the currency of the store. Then who activated them, when and for which gateway is on record, that gateway is the
    only selected one, and the overview says that real payments are taken. A refused activation leaves the mode of the store and
    every gateway as they were. *)
Theorem live_activation_conditions admin k confirmation note s :
  gateways_ok (d_configs (st_db s)) →
  (∀ o s', activate_live admin k confirmation note s = (inr o, s') →
     py_strip confirmation = CONFIRMATION ∧ live_payments_enabled = true ∧
     ∃ c spec cur, d_configs (st_db s) !! k = Some c ∧ get_spec (cf_provider c) = Some spec ∧ ready_live (st_now s) c ∧
       (effective_currency (st_db s)).1 = Some cur ∧ cur ∈ enabled_currencies spec c ∧
       (∃ p, d_payment_settings (st_db s') = Some p ∧ ps_live_payments_active p = true ∧ ps_live_activated_at p = Some (st_now s) ∧
          ps_live_activated_by_user_id p = Some (u_id admin) ∧ ps_live_activated_config_id p = Some k ∧ ps_note p = note) ∧
       preferred_in (st_db s') (chosen admin c) ∧ ov_payment_mode o = "live" ∧ ov_payments_open o = true) ∧
  (∀ e s', st_committed s = st_db s → activate_live admin k confirmation note s = (inl e, s') → same_mode s s').
Proof.
  intros Hok. split; [|intros e s'; apply refusal_keeps_mode]. intros o s' Hrun.
  destruct (activated_run _ _ _ _ _ _ _ Hok Hrun) as (Htext & Hl & c & spec & s1 & s2 & v & u & Hc & Hspec & Hready & -> & Hpref & Hov & Hu).
  split; [done|]. split; [done|]. apply prefer_inr in Hpref as (c' & spec' & cur & Hc' & Hspec' & Heff & Hcur & Hdemo & Hp & Hok2 & Hps); [|exact Hok].
  rewrite db_set in Hc', Heff, Hps. cbn in Hc'. simplify_eq. destruct (Hu (st_db s2)) as [Huc Hup].
  destruct (overview_inr _ _ _ Hov) as (-> & Hop & Hmo); [by rewrite db_set, Huc|].
  assert (live_now (st_db (set_db u s2)) = true) as Hlive by (unfold live_now, live_active; by rewrite Hl, db_set, Hup, Hps).
  assert (preferred_of (st_db (set_db u s2)) = Some (chosen admin c)) as Hpo.
  { apply find_preferred. unfold preferred_in. by rewrite db_set, Huc. }
  destruct Hready as (Hm & He & Hv & Hready). rewrite Hlive, Hpo, (open_preferred _ (chosen admin c)) in Hop by done.
  rewrite Hlive, Hpo, (mode_preferred _ (chosen admin c)) in Hmo by done.
  assert (String.eqb (cf_provider c) "demo" = false) as Hnd.
  { destruct (gk_row _ Hok _ _ Hc) as (_ & Hchecks & _). destruct (String.eqb_spec (cf_provider c) "demo") as [Hd|]; [|done].
    apply demo_is_test in Hd; [congruence|done]. }
  cbn in Hop, Hmo. rewrite Hm, Hnd in Hop, Hmo. exists c, spec, cur. do 5 (split; [done|]). split.
  - eexists. rewrite !db_set. cbn. rewrite Hup, Hps. done.
  - split; [|done]. rewrite !db_set. unfold preferred_in. cbn. by rewrite Huc.
Qed.
End activation.

(** ** Rotating secrets *)

Section rotation.
Context `{!Settings} `{!Providers} `{!Secrets}.

(** What is about the credentials, and what is about the webhook *)
Definition credential_columns (c : PaymentProviderConfig) :=
  (cf_credentials_ciphertext c, cf_credentials_status c, cf_credentials_validated_at c, cf_sandbox_verified_at c, cf_production_review_at c).
Definition webhook_columns (c : PaymentProviderConfig) :=
  (cf_webhook_secret_ciphertext c, cf_previous_webhook_secret_ciphertext c, cf_webhook_status c, cf_webhook_verified_at c).
Definition standing_columns (c : PaymentProviderConfig) := (cf_id c, cf_provider c, cf_mode c, cf_status c, cf_is_preferred c, cf_currencies c).
Definition fresh_credentials (c : PaymentProviderConfig) : Prop :=
  ∃ blob, credential_columns c = (Some blob, "unvalidated", None, None, None).
Definition fresh_webhook (old c : PaymentProviderConfig) : Prop :=
  ∃ blob, webhook_columns c = (Some blob, cf_webhook_secret_ciphertext old, "unverified", None).

Lemma with_credentials_fresh spec key credentials c c' s s' :
  with_credentials spec key credentials c s = (inr c', s') →
  st_db s' = st_db s ∧ fresh_credentials c' ∧ webhook_columns c' = webhook_columns c ∧ standing_columns c' = standing_columns c.
Proof.
  unfold with_credentials. intros Hrun. apply bind_inr in Hrun as ([[values public_id] h] & ? & [_ ->]%of_sum_inr & Hrun).
  apply bind_inr in Hrun as (blob & s2 & [Hdb _]%encrypt_inr & Hrun). runs. split; [done|]. split; [by exists blob|]. done.
Qed.
Lemma with_webhook_secret_fresh spec key value c c' s s' :
  with_webhook_secret spec key value c s = (inr c', s') →
  st_db s' = st_db s ∧ fresh_webhook c c' ∧ credential_columns c' = credential_columns c ∧ standing_columns c' = standing_columns c.
Proof.
  unfold with_webhook_secret. intros Hrun. apply bind_inr in Hrun as (secret & ? & [_ ->]%of_sum_inr & Hrun).
  apply bind_inr in Hrun as (blob & s2 & [Hdb _]%encrypt_inr & Hrun). runs. split; [done|]. split; [by exists blob|]. done.
Qed.

Definition blockers_of (spec : ProviderSpec) (c : PaymentProviderConfig) : list string :=
  if String.eqb (cf_mode c) "live" then (config_readiness spec c).2 else (config_readiness spec c).1.
Lemma enable_refused admin k c spec s :
  d_configs (st_db s) !! k = Some c → get_spec (cf_provider c) = Some spec → blockers_of spec c ≠ [] →
  (enable admin k s).1 = inl (not_ready (blockers_of spec c)).
Proof.
  intros Hc Hspec Hne. unfold enable. rewrite (bind_run _ _ s c s) by (by rewrite get_config_run, Hc). unfold spec_of. rewrite Hspec.
  erewrite bind_run by reflexivity. cbv beta zeta. fold (blockers_of spec c). by rewrite bool_decide_eq_false_2.
Qed.
Lemma unvalidated_blocked spec c : cf_credentials_status c = "unvalidated" → blockers_of spec c ≠ [].
Proof.
  intros Hu Hb. assert (use_blockers spec c = []) as Hn; [|by apply use_blockers_nil in Hn as (? & _)]. unfold blockers_of in Hb.
  destruct (String.eqb _ _); [by apply readiness_nil in Hb as [? _]|done].
Qed.
Lemma unverified_blocked spec c : cf_mode c = "live" → cf_webhook_status c = "unverified" → blockers_of spec c ≠ [].
Proof.
  intros Hm Hu Hb. unfold blockers_of in Hb. rewrite Hm in Hb. apply readiness_nil in Hb as [_ Hb]. unfold live_only_blockers in Hb.
  rewrite Hm, Hu in Hb. cbn in Hb. apply app_nil in Hb as [_ Hb]. by destruct (blank_secret _).
Qed.

End rotation.

(** ** The check of a live gateway *)

(** Adapters that refuse every payment, cancellation, refund and query, and answer the rest *)
Definition idle_provider (p : PaymentProvider) : PaymentProvider :=
  let refuse {A} : M A := raise (RuntimeError "no payment here") in
  MkProvider (pr_name p) (pr_supports_cancel p) (pr_supports_currency p) (λ _ _ _ _, refuse) (λ _ _, refuse) (λ _, refuse)
    (λ _ _ _ _, refuse) (validate_credentials p) (verify_and_parse_webhook p).
Definition idle_providers (P : Providers) : Providers := {|
  env_provider := idle_provider env_provider;
  build_provider := λ c b, match build_provider c b with inr p => inr (idle_provider p) | inl e => inl e end;
  redact := redact; error_text := error_text |}.

Section idle.
Context `{!Settings} (P : Providers) `{!Secrets}.

Lemma validate_idle admin k s : @validate_config _ P admin k s = @validate_config _ (idle_providers P) admin k s.
Proof.
  unfold validate_config. apply bind_same; [done|]. intros c s1. unfold mbind at 1 3, ST_bind at 1 3, of_sum. cbn.
  destruct (build_provider c false) as [e|p]; [done|]. reflexivity.
Qed.

(** The check of a live gateway asks it about its credentials and moves no money: it answers and leaves the same, whatever
    the adapter would do when asked for a payment, a cancellation, a refund or the state of a payment. *)
Theorem live_check_moves_no_money admin k c s :
  d_configs (st_db s) !! k = Some c → cf_mode c = "live" →
  @run_checks _ P admin k s = @run_checks _ (idle_providers P) admin k s.
Proof.
  intros Hc Hm. unfold run_checks. rewrite !(bind_run (_get_config k) _ s c s) by (by rewrite get_config_run, Hc).
  apply bind_same; [done|]. intros spec s1. unfold is_live. rewrite Hm. cbn [String.eqb Ascii.eqb Bool.eqb].
  apply bind_same; [apply validate_idle|]. done.
Qed.
End idle.

(** ** Witnesses: a live gateway of the shop *)

Definition root_admin : User := MkUser "root" "root" "root@example.com" "hash:oak" ADMIN true None 0.
Definition live_keys : CredentialsInput := MkCredentials (Some "sk_live_51example") None None.
Definition stripe_live : ProviderConfigCreate := MkConfigCreate "Stripe" "live" live_keys (Some "whsec_example") (Some ["INR"]).
Definition gateway_1 : uuid := "uuid-5".
Definition wiring : list Request :=
  [Gateway (NewGateway root_key stripe_live); Gateway (Validate root_key gateway_1); WebhookArrives (Some "stripe") "evt_1" (Some "t=1");
   Gateway (Attest root_key gateway_1 (sandbox_verified, "run 12")); Gateway (Attest root_key gateway_1 (production_review, "signed off"));
   Gateway (Enable root_key gateway_1); Gateway (CheckGateway root_key gateway_1)].
Definition going_live : list Request := wiring ++ [Gateway (ActivateLive root_key gateway_1 "ACTIVATE LIVE PAYMENTS" None)].
Definition wired : St := run wiring root_in.2.
Definition live_shop : St := run going_live root_in.2.
Definition no_config : PaymentProviderConfig := new_config "" "" "" root_admin.
Definition live_gateway : PaymentProviderConfig := default no_config (d_configs (st_db live_shop) !! gateway_1).
Lemma wired_sound : sound wired.
Proof. exact (proj1 (run_sound wiring root_in.2 root_in_sound)). Qed.
Lemma live_shop_sound : sound live_shop.
Proof. exact (proj1 (run_sound going_live root_in.2 root_in_sound)). Qed.
Lemma wired_gateways : gateways_ok (d_configs (st_db wired)).
Proof. destruct wired_sound as (_ & _ & HI). exact (inv_gateways _ HI). Qed.
Lemma live_shop_gateways : gateways_ok (d_configs (st_db live_shop)).
Proof. destruct live_shop_sound as (_ & _ & HI). exact (inv_gateways _ HI). Qed.

Lemma live_activation_conditions_witness :
  ready_live 1760000000 (default no_config (d_configs (st_db wired) !! gateway_1)) ∧
  same_mode wired (activate_live root_admin gateway_1 "activate" None wired).2.
Proof.
  split.
  - destruct (proj1 (live_activation_conditions root_admin gateway_1 " ACTIVATE LIVE PAYMENTS" None wired wired_gateways)
      (match (activate_live root_admin gateway_1 " ACTIVATE LIVE PAYMENTS" None wired).1 with inr o => o | inl _ => MkOverview "" false "" None (MkLiveState false false None None None false []) [] [] [] end)
      (activate_live root_admin gateway_1 " ACTIVATE LIVE PAYMENTS" None wired).2) as (_ & _ & c & spec & cur & Hc & _ & Hr & _); [vm_compute; reflexivity|].
    rewrite Hc. exact Hr.
  - apply (proj2 (live_activation_conditions root_admin gateway_1 "activate" None wired wired_gateways) (activation_blocked ["confirmation_text_incorrect"])); vm_compute; reflexivity.
Defined.
Definition rotation : (Err + ConfigView) * St := rotate root_admin gateway_1 (Some (MkCredentials (Some "sk_live_52example") None None)) None live_shop.
Definition no_view : ConfigView := view (MkSpec "" "" [] false false false false "" [] [] "") no_config.
Lemma live_check_moves_no_money_witness :
  (@run_checks _ (idle_providers demo_providers) root_admin gateway_1 wired).1 = (run_checks root_admin gateway_1 wired).1 ∧
  match (run_checks root_admin gateway_1 wired).1 with inr r => rs_ok r | inl _ => false end = true.
Proof.
  split; [|vm_compute; reflexivity].
  pose proof (live_check_moves_no_money demo_providers root_admin gateway_1 (default no_config (d_configs (st_db wired) !! gateway_1)) wired) as Hsame.
  rewrite Hsame; [reflexivity|vm_compute; reflexivity|vm_compute; reflexivity].
Defined.
