(* ===== verification/Findings.v ===== *)
(** * Behaviours that differ from what the code or its comments intend

    Each example runs the modelled code on a concrete input. *)

From S2P Require Import Prelude Decimal Errors Money GstCalc Schema Guards Evolution GstStates Invoice Repositories Lifecycle Payments GatewayGuards.
From S2P Require Import Cart Coupons Tax Checkout Jobs Returns Shipments Accounts Roles Graphql Addresses TaxAdmin Gateways Demo System AccountsSpec AccessSpec CustomerSpec Overlap TaxSpec GatewaySpec.
Import Decimal.

Local Open Scope string_scope.
Local Open Scope list_scope.
Local Open Scope Z_scope.

(** ** Tax *)

(** [_allocate] hands the left-over units to the largest remainders and breaks ties by position; 341/33 and 11/33 have
    the same fractional part, but carried to 28 digits the first is cut shorter, so the later weight wins the tie. *)
Example allocation_tie_lost : (11 * 31) mod 33 = (11 * 1) mod 33 ∧ _allocate 11 [31; 1; 1] = [10; 1; 0].
Proof. vm_compute. done. Qed.

(** Shipping charged with goods that are free after their discount is neither taxed nor reported as untaxed. *)
Definition free_goods : list CalcLine := [MkCalcLine 1 0 "taxable" (Dec 9 0) (Dec 9 0) (Dec 18 0)].
Example shipping_of_free_goods_lost :
  (λ r, (gr_taxable_paise r, gr_tax_paise r, gr_shipping_untaxed_paise r)) <$>
    match calculate free_goods 4900 true "exclusive" "taxable_with_goods" "line_half_up" with inr r => Some r | inl _ => None end = Some (0, 0, 0).
Proof. vm_compute. reflexivity. Qed.

(** ** Invoices *)

(** A hundred crore rupees and more have no words: the crores are looked up among the numbers below hundred. *)
Example hundred_crore_has_no_words : amount_in_words (1000000000 * 100) "INR" = None.
Proof. vm_compute. done. Qed.

(** ** Payments *)

Definition paid_week : list Request := take 3 a_week.
Definition payment_status_of (s : St) (pid : uuid) : option PaymentStatus := pay_status <$> d_payments (st_committed s) !! pid.
Definition failed_event (ppid : string) : WebhookEvent :=
  MkEvent "evt_9" FAILED_EVENT ppid None None None None None None None None "stripe" None None.

(** A late failure of an intent whose payment was refunded records the refunded payment as failed. *)
Example failure_overwrites_refunded :
  let refunded := run (paid_week ++ [RequestRefund "uuid-1" "admin" None true; RefundJob "uuid-3"]) demo_state in
  payment_status_of refunded "uuid-2" = Some PayRefunded ∧
  payment_status_of (run [Webhook (failed_event "pi_order:uuid-1:intent:0")] refunded) "uuid-2" = Some PayFailed.
Proof. vm_compute. done. Qed.

(** ** Shipments *)

Definition order_status_of (s : St) (oid : uuid) : option OrderStatus := o_status <$> d_orders (st_committed s) !! oid.
(** While a cancellation with refund is in progress the lifecycle service refuses to fulfil the order; recording a
    shipment with [fulfill_order] does not look for one. *)
Example shipment_fulfils_order_being_cancelled :
  let cancelling := run (paid_week ++ [RequestRefund "uuid-1" "admin" None true]) demo_state in
  order_status_of (run [ChangeStatus "uuid-1" FULFILLED "admin"] cancelling) "uuid-1" = Some PAID ∧
  order_status_of (run [AddShipment "uuid-1" (MkShipmentCreate "Blue Dart" None None true) "admin"] cancelling) "uuid-1" = Some FULFILLED.
Proof. vm_compute. done. Qed.

(** ** Returns *)

(** One mug is returned and refunded outside the shop; when the rest of the order comes back, the whole order is
    refunded, the mug a second time: [refund] counts closed returns whatever their resolution. *)
Definition outside_then_whole : list Request :=
  take 5 a_week ++
  [ RequestReturn "alice" "uuid-1" (MkReturnCreate [MkReturnLine 100 1 "damaged"] None);
    ApproveReturn "uuid-4" "admin" None; ReceiveReturn "uuid-4" "admin" [MkReceive 100 1 false None];
    CloseReturn "uuid-4" "admin" "refunded_outside" "25000 paid back in cash";
    RequestReturn "alice" "uuid-1" (MkReturnCreate [MkReturnLine 100 1 "other"; MkReturnLine 101 1 "other"] None);
    ApproveReturn "uuid-5" "admin" None; ReceiveReturn "uuid-5" "admin" [MkReceive 100 1 false None; MkReceive 101 1 false None];
    RefundReturn "uuid-5" "admin" ].
Example refunded_outside_refunded_again :
  let s := run outside_then_whole demo_state in
  rt_resolution <$> d_returns (st_committed s) !! "uuid-4" = Some (Some "refunded_outside") ∧
  r_amount_cents <$> d_refunds (st_committed s) !! "uuid-6" = pay_amount_cents <$> d_payments (st_committed s) !! "uuid-2" ∧
  pay_amount_cents <$> d_payments (st_committed s) !! "uuid-2" = Some 129800.
Proof. vm_compute. done. Qed.

(** ** Addresses *)

(** Unsetting the default of two addresses leaves none, though the comment in [update_address] says that this is refused. *)
Definition unset : AddressUpdate := MkAddressUpdate None None None None None None None (Some false).
Definition nothing_default : St := (serve_customer (ChangeAddress alice_key first_home unset) moved).2.
Example default_unset_leaves_none :
  count_rows (owned "alice") (d_addresses (st_db nothing_default)) = 2 ∧ get_default_for_user "alice" nothing_default = (inr None, nothing_default).
Proof. split; vm_compute; reflexivity. Qed.

(** ** Tax masters *)

(** A draft configuration is moved to a registration that does not exist. [update_settings] means to answer that the registration
    was not found, but looking it up first writes the change, and the foreign key refuses that. *)
Definition second_draft : St := run [Taxation (CreateTaxSettings root_key (choices 102))] gst_on.
Definition move_to (registration : Z) : SettingsUpdate := MkSettingsUpdate None None None None (Some (Some registration)) None None None.
Example missing_registration_is_a_conflict :
  (update_settings partner 104 (move_to 999) second_draft).1 = inl (IntegrityError "business_tax_settings_registration_id_fkey").
Proof. vm_compute. reflexivity. Qed.

(** A new configuration of a retired registration is refused; a draft is moved to it without a word. *)
Definition mumbai : RegistrationCreate := MkRegistrationCreate "27AAPFU0939F2ZT" "Novacart" "27" 17000 None.
Definition with_retired : St :=
  run (map Taxation [CreateRegistration root_key mumbai; RetireRegistration root_key 105]) second_draft.
Definition ended {A} (r : Err + A) : option Err := match r with inl e => Some e | inr _ => None end.
Example draft_moved_to_retired_registration :
  ended (create_settings partner (choices 105) with_retired).1 = Some (ETaxMaster (InvalidTaxInputError "Cannot use a retired registration")) ∧
  ended (update_settings partner 104 (move_to 105) with_retired).1 = None.
Proof. split; vm_compute; reflexivity. Qed.

(** ** Payment gateways *)

Definition column_of {A} (f : PaymentProviderConfig → A) (s : St) (k : uuid) : option A := f <$> d_configs (st_committed s) !! k.
Definition live_through (s : St) : option uuid :=
  match (select_for_new_payment "INR" s).1 with inr (_, c) => if is_live c then Some (cf_id c) else None | inl _ => None end.

(** The check made with the credentials before still counts after new ones were stored, although the attestations do not:
    live payments start with a gateway whose new credentials no check ever saw. *)
Definition new_keys : list Request :=
  map Gateway [Rotate root_key gateway_1 (Some (MkCredentials (Some "sk_live_52example") None None)) None; Validate root_key gateway_1;
               Attest root_key gateway_1 (sandbox_verified, "run 13"); Attest root_key gateway_1 (production_review, "signed off");
               Enable root_key gateway_1; ActivateLive root_key gateway_1 "ACTIVATE LIVE PAYMENTS" None].
Example old_check_counts_for_new_credentials :
  column_of cf_version (run new_keys wired) gateway_1 = Some 2 ∧
  column_of cf_last_check_at (run new_keys wired) gateway_1 = column_of cf_last_check_at wired gateway_1 ∧
  live_through wired = None ∧ live_through (run new_keys wired) = Some gateway_1.
Proof. vm_compute. done. Qed.

(** Preferring another live gateway while live payments are active asks for no check of it. *)
Definition razorpay_live : ProviderConfigCreate :=
  MkConfigCreate "razorpay" "live" (MkCredentials None (Some "rzp_live_example") (Some "a long secret")) (Some "hook secret") (Some ["INR"]).
Definition another_gateway : list Request :=
  [Gateway (NewGateway root_key razorpay_live); Gateway (Validate root_key "uuid-8"); WebhookArrives (Some "razorpay") "evt_2" (Some "sig");
   Gateway (Attest root_key "uuid-8" (sandbox_verified, "run 14")); Gateway (Attest root_key "uuid-8" (production_review, "signed off"));
   Gateway (Enable root_key "uuid-8"); Gateway (Prefer root_key "uuid-8")].
Example live_gateway_never_checked :
  let s := run another_gateway live_shop in live_through s = Some "uuid-8" ∧ column_of cf_last_check_at s "uuid-8" = Some None.
Proof. vm_compute. done. Qed.

(** An event signed with the secret before the rotation proves the new one. The gateway signs with what it was told: the secret
    from before. *)
Definition signing_with_old : Providers := {|
  env_provider := demo_provider;
  build_provider := λ c previous, inr (if previous || negb (bool_decide (is_Some (cf_previous_webhook_secret_ciphertext c))) then demo_provider else silent_provider);
  redact := λ s, s; error_text := λ _, "error" |}.
Definition mistyped : Request := Gateway (Rotate root_key gateway_1 None (Some "whsec_mistyped")).
Example old_secret_verifies_new_one :
  column_of cf_webhook_status (run [mistyped] live_shop) gateway_1 = Some "unverified" ∧
  column_of cf_webhook_status
    (run (H1 := signing_with_old) [mistyped; WebhookArrives (Some "stripe") "evt_3" (Some "t=2")] live_shop) gateway_1 = Some "verified".
Proof. vm_compute. done. Qed.

(** A publishable key may have 200 characters; its column holds 100. *)
Definition long_key : string := "pk_live_" +:+ String.concat "" (replicate 12 "0123456789").
Example long_key_is_a_data_error :
  publishable_key_ok long_key = true ∧ (set_publishable_key root_admin gateway_1 long_key live_shop).1 = inl TOO_LONG.
Proof. vm_compute. done. Qed.

(** ** GraphQL *)

Definition role_managers (d : DB) : list uuid :=
  map u_id (rows_where (λ u, is_active_admin u && bool_decide (ROLES_MANAGE ∈ role_permissions (role_of d (u_id u)))) (d_users d)).
Definition set_role (user : uuid) (role : UserRole) : list Field := [GUpdateUser (MkUpdateUserInput user None None (Some role))].
Definition bearer (key : string) : option string := Some ("Bearer " +:+ key).

(** Alice is an administrator without access; Root, the only one who manages roles, is refused to step down by the REST route,
    and steps down by GraphQL. *)
Example last_role_manager_demoted :
  role_managers (st_db promoted.2) = ["root"] ∧
  (update_user_endpoint "root" (MkUserUpdate None None (Some USER)) root_key promoted.2).1 = inl (EAccount LastRoleManagerError) ∧
  role_managers (st_db (serve_account (Graphql (bearer root_key) (set_role "root" USER)) promoted.2).2) = [].
Proof. vm_compute. done. Qed.

(** Bob is a customer. Alice may do nothing, but through GraphQL she makes him an administrator, and as nobody gives him a
    role he may do everything. *)
Definition with_bob : St := (serve_account (Register "bob" "bob@example.com" "plum-tree" None) promoted.2).2.
Definition alice_in : (Err + TokenPair) * St := get_db (login_endpoint "alice@example.com" "rose" None) with_bob.
Definition alice_token : string := tp_access_token (pair_of alice_in.1).
Definition bob : uuid := default "" (u_id <$> head (rows_where (λ u, String.eqb (u_username u) "bob") (d_users (st_db with_bob)))).
Example promoted_without_permission :
  role_managers (st_db alice_in.2) = ["root"] ∧
  (update_user_endpoint bob (MkUserUpdate None None (Some ADMIN)) alice_token alice_in.2).1 =
    inl (EAccount (PermissionDeniedError (perm_value CUSTOMERS_MANAGE))) ∧
  bool_decide (bob ∈ role_managers (st_db (serve_account (Graphql (bearer alice_token) (set_role bob ADMIN)) alice_in.2).2)) = true.
Proof. vm_compute. done. Qed.

(** ** Requests that overlap *)

(** Alice's first two addresses, sent at once, are both her default, and looking the default up at checkout is an error. *)
Example two_default_addresses :
  map ad_is_default (addresses_of (st_db both_stored) "alice") = [true; true] ∧
  (get_default_for_user "alice" both_stored).1 = inl (RuntimeError "MultipleResultsFound").
Proof. vm_compute. done. Qed.
